(* ===== verification/_CoqProject ===== *)
-Q . S2P
Prelude.v
ServiceExt.v
Crc.v
BoardUtils.v
Json.v
Input.v
InputConfig.v
InputDrivers.v
Emergency.v
Float32.v
FloatError.v
Chprintf.v
Mailbox.v
PacketPool.v
XbotPort.v
Motor.v
DiffDrive.v
Mower.v
System.v
Startup.v
Buffer.v
Vesc.v
VescThread.v
Leds.v
Dma.v
Flash.v
Settings.v
UartRx.v
Gps.v
GpsService.v
Nmea.v
BoardInfo.v
Diagnostics.v
Charger.v
Bms.v
BmsJson.v
BmsDump.v
Peripherals.v
SaboUi.v
SaboBoards.v
SaboController.v
SaboScan.v
SaboPanel.v
Uc1698.v
SaboWidgets.v
SaboPercent.v
SaboMain.v
SaboMainShows.v
SaboScreens.v
SaboCells.v
SaboTexts.v
SaboBoot.v
SaboDisplay.v
Robots.v
RobotsInit.v
Power.v
PowerBq2576.v
Cobs.v
YfCoverUi.v
Yfr4.v
Lsm6ds3Reg.v
Lsm6ds3.v
Lsm6ds3Laws.v
Imu.v
