(* ===== verification/Prelude.v ===== *)
(** OpenMower V2 firmware: verification library.

    The firmware drives a robotic lawn mower from an STM32 under ChibiOS. Its services
    (under src/src/services) talk to a high-level computer over xbot_framework, and to the
    hardware through drivers (src/src/drivers). Events (src/src/globals.hpp) tell services
    that an input, an emergency or the high-level state has changed; the main thread
    dispatches them (src/src/main.cpp).

    The library follows that structure. A file models one part of the program: its state as a
    record with the code's field names, each operation as a function named like the
    method, its lemmas, and the theorems that make the part correct.

    Shared
    - Prelude: machine integers, bytes, record updates, memcpy, lists, tactics.
    - Float32: [float] and [double] as the Standard Library's SpecFloat; FloatError: how far an
      operation's result is from the exact one.
    - ServiceExt: the emergency reasons and event ids, timeouts, [IsHealthy]
      (globals.hpp, service_ext.hpp).
    - Chprintf: the formatted output the texts are made with (ChibiOS' chprintf.c, memstreams.c).
    - Mailbox, PacketPool, XbotPort: xbot_framework's port to the board (src/portable/xbot): its queues on
      ChibiOS' mailboxes, the pool of packets on lwIP's memory pool behind a semaphore, and the thread
      that hands received packets to the services.
    - Crc, Cobs, Json, Dma, UartRx: checksums, byte stuffing, JSON streams, the circular and the
      double-buffered reception of a UART.

    The safety chain
    - Input, InputConfig, InputDrivers: the inputs, their lifting and collision groups,
      their configuration from a JSON document, and what the drivers' ticks read
      (services/input_service, drivers/input). BoardUtils is the table of line names.
    - Emergency: the latch of emergency reasons (services/emergency_service). It asks the
      input service for reasons and the required services for their health.
    - Motor, DiffDrive, Mower: the motor interface and the two services that drive (drivers/motor/
      motor_driver.hpp, services/diff_drive_service, services/mower_service).
    - System: the emergency service, a motor service and the dispatcher as threads, one
      effect at a time. The theorem about all interleavings is proved against the
      interface [MotorService], of which the two services are instances.
    - Startup: the main thread's way through the start-up, which services a robot starts and in which order,
      and the two LEDs that show it (main.cpp, services.cpp, status_led.c, heartbeat.c).

    Drivers
    - Buffer, Vesc, VescThread: the VESC motor controller, and its thread (drivers/motor/vesc).
    - Yfr4: the YardForce motor controller (drivers/motor/yfr4esc).
    - YfCoverUi, Leds: the YardForce cover panel (drivers/ui/yf_cover_ui), which feeds the input service
      and shows the state.
    - Gps, Nmea: the u-blox and the NMEA receivers (drivers/gps). UartRx is their reception, and the VESC's.
    - Flash: the serial flash's driver and the block device for littlefs (boards/XCORE/hal_flash_device.c,
      src/src/filesystem/filesystem.cpp).
    - Settings: files, directories and versioned structures (src/src/filesystem) over any file
      system that keeps the class's laws; GpsService: the GPS service, which stores its configuration
      in one, and the high-level service (services/gps_service, services/high_level_service).
    - Lsm6ds3Reg, Lsm6ds3, Lsm6ds3Laws, Imu: the inertial sensor's register driver
      (ext/LSM6DS3TR-C-PID) and the service on it (services/imu_service).
    - Charger, Robots, RobotsInit, Power, PowerBq2576: the two chargers behind their interface
      (drivers/charger, i2c_utils.hpp), what the robots say of their batteries and set up (robots/),
      the power service (services/power_service), and the service on a BQ2576.
    - Bms, BmsJson, BmsDump: the battery pack on its smart battery bus, its probe, its tick, its data as a
      JSON text and its debugging dump (drivers/bms, services/bms_service).
    - Peripherals: the port expanders (drivers/gpio), the PWM motor driver (drivers/motor/pwm) and
      the ADC with its registry, cache and filter (drivers/adc).
    - SaboUi, SaboBoards: the Sabo cover panel's series, buttons and LEDs, and the five boards that drive
      it (drivers/ui/SaboCoverUI); SaboController: the thread that shows the robot's state and hands
      button presses to the display; SaboScan: the scanning of the buttons over any board that
      keeps the interface's promise; SaboPanel: the boards keep it, with concrete panels.
    - Uc1698: the LCD's driver, its conversion of pictures and its asynchronous transfers; SaboBoot,
      SaboDisplay: the boot sequence, and the screens, the menu, the settings and how the boot screen gives
      way to the main one (drivers/ui/lvgl/sabo).
    - SaboWidgets, SaboPercent, SaboMain, SaboScreens: the widgets and what the main, the battery and the
      inputs screens write to them, behind their caches; SaboMainShows, SaboCells: that they show what is
      reported (drivers/ui/lvgl); SaboTexts: the battery screen's texts as they are printed.
    - BoardInfo: the boards' identification (id_eeprom.c) and the boards a robot accepts.
    - Diagnostics: the checksum test, the answer to a discovery request, and the raw access to drivers
      over TCP and UDP (src/src/debug, boot_service_discovery.cpp).

    What the theorems show
    - Inputs: the counters of lifts and collisions agree with the inputs after any updates;
      the virtual inputs for several sensors follow them; a press is reported though it is
      released before it is asked for; the configuration establishes the invariant whatever the
      parser calls, from documents whose lines fit the error log; ticks make the inputs follow the hardware.
    - Emergency and motors: the latch clears only by the operations meant to; reasons are the
      inputs', the timeouts' and the unready services'; from any reachable state in
      which an emergency is raised the motors come to a stop under every
      interleaving that lets the threads run; duties are bounded; stale commands stop. Every watched
      service is required before the emergency service starts, and starts after it; every
      service a robot starts has its drivers.
    - Protocols: what a peer sends arrives, over any cutting of the stream, once and in
      order (VESC, YardForce ESC, cover panel, u-blox, NMEA), and the parsers stay inside their
      buffers; a VESC's reply is processed at the second quiet poll at the latest, once the thread expects
      one (else it waits for ever); all under hypotheses the code needs, among them bounds on the frames; what the drivers send is well formed. A table-driven CRC is its bit-serial definition; byte stuffing and escaping are inverted.
    - Panel and display: buttons held are reported and each press is handled once; the LEDs show the state; the
      pictures drawn reach the LCD whole and in order under every interleaving, and the wait for one
      ends; the boot screen gives way to the main screen unless the display falls asleep before; the
      screens stay consistent, up to an animation that outlives its menu, and lead back home. The main screen
      shows the emergency and catches up with every report, of numbers that can be printed; the battery's cells are read within 1.6 mV;
      percentages stay within 0 and 100.
    - Messages: a mailbox is a bounded queue; no thread behind the semaphore finds the pool of packets
      empty, in any interleaving, and no packet is handed out twice; a received packet goes to the
      first running service with its id, or back to the pool.
    - Texts: numbers are printed exactly up to the digits asked for, nothing is written outside a buffer,
      the battery's JSON text is not cut in any state the driver reaches with a pack that keeps to the bus's
      standard, and no line of its dump is.
    - Settings: what is saved is loaded, by newer programs too; a GPS configuration takes effect. The flash
      is the block device littlefs is promised, and keeps what is written.
    - Reception: the circular buffer loses nothing while the thread keeps up; the double
      buffer neither loses nor shares a buffer outside one race, which an example exhibits.
    - Sensor: every accessor reports bus errors; each of the 106 pairs of accessors reads back what it sets and
      keeps the other bits, or is named as one that does not; start-up ends
      with the sensor configured; the service's axes are the remapped readings.
    - Power: the high-level computer's line is cleared exactly on a critical battery (which drives it only if the
      pin is an output); a charger taken as configured holds the settings, decoded by the data sheet's scales. Board records and test packets: damage is noticed. A tick
      publishes what the pack's registers say, over a bus that fails now and then.
    The examples named in the findings show where the code does something else than it means.

    How the code is read
    - [None] is behaviour the language leaves undefined (an access outside a buffer, a
      null pointer, a conversion that does not fit) or fuel running out; each file says which.
      Fuel: [Update] has 2, since virtual inputs have no virtual inputs;
      walks over the input list are bounded by its capacity; parsers by the length of
      what they parse (the u-blox parser by twice that and one); the heading
      [unwind] by two turns; polls of a peripheral take their fuel as an argument, and the
      theorems say how much is enough.
    - A critical section is one function where no other thread can interfere, and a sequence of
      effects where one can. Logging is left out, but for the JSON parser's error log, which is printed
      into a buffer of its own. Time is an input.
    - Code that is absent or not modelled is a parameter: xbot_framework's service base classes, ETL,
      LwJSON, the rest of ChibiOS and the hardware. What is asked of it is a named hypothesis, and each
      property with one has an instance.

    Not modelled, and why
    - what LVGL (absent) draws, the layout of the Sabo's screens, its about screen (fixed text) and the
      animations' pictures; littlefs (absent) is a parameter of the files, minmea (absent) one of the
      NMEA driver;
    - the ADC's start and conversions (hardware), and the boards' pin tables;
    - the set-up of the debugging sockets, and the report of the threads' stacks, which only logs;
    - ChibiOS and the other code under src/ext but for the sensor's driver, the formatted output, the mailboxes,
      semaphores and memory pools,
      which is third-party. *)
From Stdlib Require Export ZArith Lia.
From stdpp Require Export base list gmap strings.
Global Open Scope Z_scope.

(** ** Machine integers

    A [w]-bit unsigned integer is a [Z] in [0, 2^w); storing a value wraps.
    Signed values are read back in two's complement. *)

Definition u8 (x : Z) : Z := x mod 256.
Definition u16 (x : Z) : Z := x mod 65536.
Definition u32 (x : Z) : Z := x mod 4294967296.
Definition u64 (x : Z) : Z := x mod 18446744073709551616.
Definition s8 (x : Z) : Z := (x + 128) mod 256 - 128.
Definition s16 (x : Z) : Z := (x + 32768) mod 65536 - 32768.
Definition s32 (x : Z) : Z := (x + 2147483648) mod 4294967296 - 2147483648.

Definition is_u8 (x : Z) : Prop := 0 <= x < 256.
Definition is_u16 (x : Z) : Prop := 0 <= x < 65536.
Definition is_u32 (x : Z) : Prop := 0 <= x < 4294967296.
Definition is_s16 (x : Z) : Prop := -32768 <= x < 32768.
Definition is_s32 (x : Z) : Prop := -2147483648 <= x < 2147483648.

#[export] Instance is_u8_dec x : Decision (is_u8 x).
Proof. unfold is_u8; apply _. Defined.
#[export] Instance is_u16_dec x : Decision (is_u16 x).
Proof. unfold is_u16; apply _. Defined.
#[export] Instance is_u32_dec x : Decision (is_u32 x).
Proof. unfold is_u32; apply _. Defined.

Create HintDb mower.
Create Rewrite HintDb mower_rw.

Ltac width := unfold u8, u16, u32, u64, s8, s16, s32, is_u8, is_u16, is_u32,
  is_s16, is_s32 in *; Z.to_euclidean_division_equations; lia.

Lemma u8_range x : is_u8 (u8 x).
Proof. width. Qed.
Lemma u16_range x : is_u16 (u16 x).
Proof. width. Qed.
Lemma u32_range x : is_u32 (u32 x).
Proof. width. Qed.
Lemma s16_range x : is_s16 (s16 x).
Proof. width. Qed.
Lemma s32_range x : is_s32 (s32 x).
Proof. width. Qed.
Lemma u8_small x : is_u8 x -> u8 x = x.
Proof. intros; apply Z.mod_small; auto. Qed.
Lemma u16_small x : is_u16 x -> u16 x = x.
Proof. intros; apply Z.mod_small; auto. Qed.
Lemma u32_small x : is_u32 x -> u32 x = x.
Proof. intros; apply Z.mod_small; auto. Qed.
Lemma s32_small x : is_s32 x -> s32 x = x.
Proof. intros; width. Qed.
Lemma s16_small x : is_s16 x -> s16 x = x.
Proof. intros; width. Qed.
Lemma s32_u32 x : is_s32 x -> s32 (u32 x) = x.
Proof. intros; width. Qed.
Lemma s16_u16 x : is_s16 x -> s16 (u16 x) = x.
Proof. intros; width. Qed.
#[export] Hint Resolve u8_range u16_range u32_range s16_range s32_range : mower.
#[export] Hint Rewrite u8_small u16_small u32_small using (auto with mower; width) : mower_rw.

(** ** Boolean case analysis *)

(** [split_if] destructs the first [if] of the goal, keeping the equation. *)
Ltac split_if := match goal with
  | |- context [if ?b then _ else _] => let E := fresh "E" in destruct b eqn:E
  end.
(** [split_if_in H] does it in a hypothesis. *)
Ltac split_if_in H := match type of H with
  | context [if ?b then _ else _] => let E := fresh "E" in destruct b eqn:E
  end.
(** [bsimp] turns boolean comparisons of [Z] and [nat] into propositions. *)
Ltac bsimp := repeat match goal with
  | H : (_ && _)%bool = true |- _ => apply andb_prop in H; destruct H
  | H : (_ || _)%bool = false |- _ => apply orb_false_elim in H; destruct H
  | H : negb _ = true |- _ => apply negb_true_iff in H
  | H : negb _ = false |- _ => apply negb_false_iff in H
  | H : (_ =? _)%Z = true |- _ => apply Z.eqb_eq in H
  | H : (_ =? _)%Z = false |- _ => apply Z.eqb_neq in H
  | H : (_ <? _)%Z = true |- _ => apply Z.ltb_lt in H
  | H : (_ <? _)%Z = false |- _ => apply Z.ltb_ge in H
  | H : (_ <=? _)%Z = true |- _ => apply Z.leb_le in H
  | H : (_ <=? _)%Z = false |- _ => apply Z.leb_gt in H
  | H : (_ =? _)%nat = true |- _ => apply Nat.eqb_eq in H
  | H : (_ =? _)%nat = false |- _ => apply Nat.eqb_neq in H
  | H : (_ <? _)%nat = true |- _ => apply Nat.ltb_lt in H
  | H : (_ <? _)%nat = false |- _ => apply Nat.ltb_ge in H
  | H : (_ <=? _)%nat = true |- _ => apply Nat.leb_le in H
  | H : (_ <=? _)%nat = false |- _ => apply Nat.leb_gt in H
  end.

(** [forall_list t] proves [Forall P l] for a concrete list, [t] proving each element. *)
Ltac forall_list t := repeat (apply List.Forall_cons; [t|]); apply List.Forall_nil.

(** ** Bit masks *)

(** [bitwise] proves an equation between masks by comparing every bit. *)
Ltac bitwise := apply Z.bits_inj'; let i := fresh "i" in let Hi := fresh "Hi" in
  intros i Hi; repeat first [rewrite Z.lor_spec | rewrite Z.land_spec | rewrite Z.ldiff_spec
    | rewrite Z.lxor_spec | rewrite Z.lnot_spec by assumption | rewrite Z.bits_0];
  repeat match goal with |- context [Z.testbit ?x i] => destruct (Z.testbit x i) end;
  try reflexivity.

(** [has m r]: the flag [r] is raised in the mask [m], as the test [(m & r) != 0]. *)
Definition has (m r : Z) : bool := negb (Z.land m r =? 0).

Lemma land_lnot m c : Z.land m (Z.lnot c) = Z.ldiff m c.
Proof. bitwise. Qed.
(** An integer is an [n]-bit word exactly when masking it to [n] bits keeps it. *)
Lemma word_land n x : 0 <= n -> (0 <= x < 2 ^ n <-> Z.land x (Z.ones n) = x).
Proof.
  intros Hn. rewrite Z.land_ones by lia. split.
  - apply Z.mod_small.
  - intros <-. apply Z.mod_pos_bound. lia.
Qed.
Lemma word_ldiff n m c : 0 <= n -> 0 <= m < 2 ^ n -> 0 <= Z.ldiff m c < 2 ^ n.
Proof. intros Hn. rewrite !word_land by lia. intros H.
  transitivity (Z.ldiff (Z.land m (Z.ones n)) c); [bitwise|congruence]. Qed.
Lemma word_land_l n a b : 0 <= n -> 0 <= a < 2 ^ n -> 0 <= Z.land a b < 2 ^ n.
Proof. intros Hn. rewrite !word_land by lia. intros H.
  transitivity (Z.land (Z.land a (Z.ones n)) b); [bitwise|congruence]. Qed.
Lemma word_lor n a b : 0 <= n -> 0 <= a < 2 ^ n -> 0 <= b < 2 ^ n -> 0 <= Z.lor a b < 2 ^ n.
Proof.
  intros Hn. rewrite !word_land by lia. intros Ha Hb.
  rewrite Z.land_lor_distr_l. congruence.
Qed.
Lemma word_lxor n a b : 0 <= n -> 0 <= a < 2 ^ n -> 0 <= b < 2 ^ n -> 0 <= Z.lxor a b < 2 ^ n.
Proof.
  intros Hn. rewrite !word_land by lia. intros Ha Hb.
  transitivity (Z.lxor (Z.land a (Z.ones n)) (Z.land b (Z.ones n))); [bitwise|congruence].
Qed.
Lemma u8_lxor a b : is_u8 a -> is_u8 b -> is_u8 (Z.lxor a b).
Proof. apply (word_lxor 8); lia. Qed.
Lemma u16_lxor a b : is_u16 a -> is_u16 b -> is_u16 (Z.lxor a b).
Proof. apply (word_lxor 16); lia. Qed.
Lemma u32_lxor a b : is_u32 a -> is_u32 b -> is_u32 (Z.lxor a b).
Proof. apply (word_lxor 32); lia. Qed.
Lemma u16_ldiff m c : is_u16 m -> is_u16 (Z.ldiff m c).
Proof. apply (word_ldiff 16); lia. Qed.
Lemma u16_lor a b : is_u16 a -> is_u16 b -> is_u16 (Z.lor a b).
Proof. apply (word_lor 16); lia. Qed.
Lemma u8_lor a b : is_u8 a -> is_u8 b -> is_u8 (Z.lor a b).
Proof. apply (word_lor 8); lia. Qed.
Lemma u32_lor a b : is_u32 a -> is_u32 b -> is_u32 (Z.lor a b).
Proof. apply (word_lor 32); lia. Qed.
#[export] Hint Resolve u16_ldiff u16_lor u8_lor u32_lor u8_lxor u16_lxor u32_lxor : mower.

(** The bits of a word made of two parts. *)
Lemma testbit_word h l n : is_u8 l -> 0 <= n ->
  Z.testbit (256 * h + l) n = if n <? 8 then Z.testbit l n else Z.testbit h (n - 8).
Proof.
  intros Hl Hn. unfold is_u8 in Hl.
  assert (Hlow : Z.land (h * 2 ^ 8) l = 0).
  { apply Z.bits_inj'. intros k Hk. rewrite Z.land_spec, Z.bits_0. destruct (Z.ltb_spec k 8).
    - rewrite Z.mul_pow2_bits_low by lia. reflexivity.
    - rewrite <- (Z.mod_small l (2 ^ 8)) by (change (2 ^ 8) with 256; lia).
      rewrite Z.mod_pow2_bits_high by lia. apply andb_false_r. }
  replace (256 * h + l) with (Z.lor (h * 2 ^ 8) l).
  - rewrite Z.lor_spec. destruct (Z.ltb_spec n 8).
    + rewrite Z.mul_pow2_bits_low by lia. reflexivity.
    + rewrite Z.mul_pow2_bits by lia.
      rewrite <- (Z.mod_small l (2 ^ 8)) by (change (2 ^ 8) with 256; lia).
      rewrite Z.mod_pow2_bits_high by lia. apply orb_false_r.
  - rewrite <- Z.lxor_lor, <- Z.add_nocarry_lxor by exact Hlow. lia.
Qed.

(** A word from its high part and the [k] bits below it. *)
Lemma lor_hi a b k : 0 <= k -> 0 <= b < 2 ^ k -> Z.lor (Z.shiftl a k) b = a * 2 ^ k + b.
Proof.
  intros Hk Hb. rewrite Z.shiftl_mul_pow2 by lia.
  assert (Hlow : Z.land (a * 2 ^ k) b = 0).
  { apply Z.bits_inj'. intros n Hn. rewrite Z.land_spec, Z.bits_0. destruct (Z.ltb_spec n k).
    - rewrite Z.mul_pow2_bits_low by lia. reflexivity.
    - rewrite <- (Z.mod_small b (2 ^ k)) by lia. rewrite Z.mod_pow2_bits_high by lia. apply andb_false_r. }
  rewrite <- Z.lxor_lor, <- Z.add_nocarry_lxor by exact Hlow. reflexivity.
Qed.

Lemma has_lor m n r : has (Z.lor m n) r = (has m r || has n r)%bool.
Proof.
  unfold has. rewrite Z.land_lor_distr_l.
  destruct (Z.eqb_spec (Z.land m r) 0) as [E1|E1], (Z.eqb_spec (Z.land n r) 0) as [E2|E2];
    cbn; rewrite ?negb_true_iff, ?negb_false_iff, ?Z.eqb_eq, ?Z.eqb_neq, ?Z.lor_eq_0_iff; tauto.
Qed.
Lemma has_0 r : has 0 r = false.
Proof. reflexivity. Qed.

(** ** Bytes *)

Definition is_bytes (l : list Z) : Prop := Forall is_u8 l.
Lemma is_bytes_app a b : is_bytes a -> is_bytes b -> is_bytes (a ++ b).
Proof. intros. apply Forall_app. auto. Qed.

(** Little and big endian integers from bytes, and their encodings. *)
Fixpoint le_int (l : list Z) : Z :=
  match l with [] => 0 | b :: r => b + 256 * le_int r end.
Fixpoint le_bytes (n : nat) (z : Z) : list Z :=
  match n with O => [] | S n => u8 z :: le_bytes n (z / 256) end.
Definition be_int (l : list Z) : Z := le_int (rev l).
Definition be_bytes (n : nat) (z : Z) : list Z := rev (le_bytes n z).

Lemma length_le_bytes n z : length (le_bytes n z) = n.
Proof. revert z; induction n; cbn; auto. Qed.
Lemma le_bytes_is_bytes n z : is_bytes (le_bytes n z).
Proof.
  revert z; induction n; intros z; cbn; [constructor|].
  constructor; [apply u8_range|apply IHn].
Qed.
Lemma le_int_bytes n z : le_int (le_bytes n z) = z mod 256 ^ Z.of_nat n.
Proof.
  revert z; induction n as [|n IH]; intros z; cbn [le_int le_bytes].
  - rewrite Z.mod_1_r; reflexivity.
  - rewrite IH, Nat2Z.inj_succ, Z.pow_succ_r by lia. unfold u8.
    rewrite Z.rem_mul_r by lia. lia.
Qed.
Lemma le_bytes_int l : is_bytes l -> le_bytes (length l) (le_int l) = l.
Proof.
  induction 1 as [|b l Hb Hl IH]; cbn; [reflexivity|]. unfold is_u8 in Hb. f_equal.
  - unfold u8. rewrite (Z.mul_comm 256), Z.mod_add, Z.mod_small by lia. reflexivity.
  - rewrite (Z.mul_comm 256), Z.div_add, Z.div_small by lia. cbn. exact IH.
Qed.

(** ** Fixed-size buffers

    [memcpy dst off src] overwrites [dst] from index [off]; [None] is an
    access outside the array, which in the code corrupts memory. *)
Definition memcpy {A} (dst : list A) (off : nat) (src : list A) : option (list A) :=
  if (off + length src <=? length dst)%nat
  then Some (take off dst ++ src ++ drop (off + length src) dst) else None.

Lemma memcpy_length {A} (dst src res : list A) off :
  memcpy dst off src = Some res -> length res = length dst.
Proof.
  unfold memcpy; split_if; intros [= <-]. bsimp.
  rewrite !length_app, length_take, length_drop. lia.
Qed.
Lemma memcpy_total {A} (dst src : list A) off :
  (off + length src <= length dst)%nat ->
  memcpy dst off src = Some (take off dst ++ src ++ drop (off + length src) dst).
Proof. intros. unfold memcpy. apply Nat.leb_le in H. rewrite H. reflexivity. Qed.
Lemma memcpy_take {A} (dst src res : list A) off :
  memcpy dst off src = Some res -> take (off + length src) res = take off dst ++ src.
Proof.
  unfold memcpy; split_if; intros [= <-]. bsimp.
  rewrite app_assoc, take_app_length'; [reflexivity|].
  rewrite length_app, length_take. lia.
Qed.
#[export] Hint Resolve memcpy_length : mower.

(** ** Record update

    [r <| f := v |>] is the record [r] with field [f] set to [v]. A record type
    gives its eta expansion as an instance of [Eta]; the updater of a field is
    then found by [find_update]. *)
Class Eta (R : Type) := eta : R -> R.
Class FieldUpdate {R T : Type} (p : R -> T) := update : (T -> T) -> R -> R.
#[global] Arguments update {R T} p {_} f r /.

Ltac find_update := match goal with
  | |- @FieldUpdate ?R ?T ?p =>
    assert_fails (has_evar R); assert_fails (has_evar T); assert_fails (has_evar p);
    refine (fun (f : T -> T) (r : R) => _);
    lazymatch goal with f : T -> T, r : R |- _ =>
      let b := eval hnf in (eta (R:=R) r) in
      match b with context C [p r] => let t := context C [f (p r)] in exact t end
    end
  end.
#[export] Hint Extern 1 (FieldUpdate _) => find_update : typeclass_instances.

Declare Scope mower_scope.
Delimit Scope mower_scope with mower.
Notation "r <| f := v |>" := (update f (fun _ => v) r)
  (at level 1, left associativity, format "r  <| f  :=  v |>") : mower_scope.
Notation "r <| f ::= g |>" := (update f g r)
  (at level 1, left associativity, format "r  <| f  ::=  g |>") : mower_scope.
Global Open Scope mower_scope.

(** ** Counting *)
Fixpoint countb {A} (f : A -> bool) (l : list A) : Z :=
  match l with [] => 0 | x :: r => Z.b2z (f x) + countb f r end.

Lemma countb_bounds {A} (f : A -> bool) l : 0 <= countb f l <= Z.of_nat (length l).
Proof. induction l as [|x l IH]; cbn [countb length]; [lia|]. destruct (f x); cbn; lia. Qed.
Lemma countb_insert {A} (f : A -> bool) (l : list A) i x y :
  l !! i = Some x -> countb f (<[i:=y]> l) = countb f l - Z.b2z (f x) + Z.b2z (f y).
Proof.
  revert i; induction l as [|z l IH]; intros [|i]; try discriminate.
  - intros [= ->]. cbn. lia.
  - intros H. change (Z.b2z (f z) + countb f (<[i:=y]> l) = Z.b2z (f z) + countb f l - Z.b2z (f x) + Z.b2z (f y)).
    rewrite (IH i H). lia.
Qed.
Lemma countb_pos {A} (f : A -> bool) (l : list A) i x :
  l !! i = Some x -> f x = true -> 0 < countb f l.
Proof.
  revert i; induction l as [|z l IH]; intros [|i] H Hf; cbn in *; try discriminate.
  - injection H as ->. rewrite Hf. pose proof (countb_bounds f l). cbn; lia.
  - specialize (IH i H Hf). destruct (f z); cbn; lia.
Qed.
Lemma countb_app {A} (f : A -> bool) l1 l2 : countb f (l1 ++ l2) = countb f l1 + countb f l2.
Proof. induction l1 as [|x l1 IH]; cbn; [reflexivity|rewrite IH; lia]. Qed.
Lemma countb_false {A} (f : A -> bool) l : Forall (fun x => f x = false) l -> countb f l = 0.
Proof. induction 1 as [|x l Hx _ IH]; cbn; [reflexivity|rewrite Hx, IH; reflexivity]. Qed.
