(* ===== verification/ServiceExt.v ===== *)
(** Shared service vocabulary: the emergency reasons, the event ids, the
    timeout helper of [services/service_ext.hpp] and the [IsHealthy] interface. *)
From S2P Require Import Prelude.

(** The [EmergencyReason] flags are generated from the service definitions (the
    [services] submodule): their values are parameters of the development. *)
Class EmergencyReasons := {
  TIMEOUT_INPUTS : Z; TIMEOUT_HIGH_LEVEL : Z; SERVICE_NOT_READY : Z;
  LATCH : Z; STOP : Z; LIFT : Z; LIFT_MULTIPLE : Z;
  COLLISION : Z; COLLISION_MULTIPLE : Z }.

Definition reason_flags `{EmergencyReasons} : list Z :=
  [TIMEOUT_INPUTS; TIMEOUT_HIGH_LEVEL; SERVICE_NOT_READY; LATCH; STOP; LIFT;
   LIFT_MULTIPLE; COLLISION; COLLISION_MULTIPLE].

(** What the code relies on: the flags are distinct bits of a [uint16_t]. *)
Class EmergencyReasonsOk `{EmergencyReasons} : Prop := {
  reasons_u16 : Forall (fun r => 0 < r < 65536) reason_flags;
  reasons_disjoint : ForallOrdPairs (fun a b => Z.land a b = 0) reason_flags }.

(** A concrete assignment, used by the witnesses. *)
Definition demo_reasons : EmergencyReasons :=
  {| TIMEOUT_INPUTS := 1; TIMEOUT_HIGH_LEVEL := 2; SERVICE_NOT_READY := 4;
     LATCH := 8; STOP := 16; LIFT := 32; LIFT_MULTIPLE := 64; COLLISION := 128;
     COLLISION_MULTIPLE := 256 |}.
Lemma demo_reasons_ok : @EmergencyReasonsOk demo_reasons.
Proof. split; repeat constructor. Qed.

(* @ globals.hpp:19-24 Events::Events *)
Inductive event_id := GLOBAL | GPIO_TRIGGERED.

Definition event_num (e : event_id) : Z :=
  match e with GLOBAL => 0 | GPIO_TRIGGERED => 1 end.
(** ChibiOS' [EVENT_MASK]: event [eid] is bit [eid]. *)
Definition EVENT_MASK (e : event_id) : Z := Z.shiftl 1 (event_num e).

(* @ globals.hpp:26-32 Events::ids_to_mask *)
Definition ids_to_mask (ids : list event_id) : Z :=
  fold_left (fun r e => Z.lor r (EVENT_MASK e)) ids 0.

(* @ globals.hpp:35-40 MowerEvents *)
Definition EMERGENCY_CHANGED : Z := Z.shiftl 1 0.
(* @ globals.hpp:35-40 MowerEvents *)
Definition INPUTS_CHANGED : Z := Z.shiftl 1 1.

Definition UINT32_MAX : Z := 4294967295.

(** [TimeoutReached(duration, delay, block_time)]: the verdict and the new
    value of the [block_time] reference. *)
(* @ service_ext.hpp:7-14 TimeoutReached *)
Definition TimeoutReached (duration delay block_time : Z) : bool * Z :=
  if delay <=? duration then (true, block_time)
  else (false, Z.min block_time (u32 (delay - duration))).

Lemma TimeoutReached_fst d l b : fst (TimeoutReached d l b) = (l <=? d).
Proof. unfold TimeoutReached. split_if; reflexivity. Qed.
Lemma TimeoutReached_le d l b : snd (TimeoutReached d l b) <= b.
Proof. unfold TimeoutReached. split_if; cbn; lia. Qed.
Lemma TimeoutReached_pending d l b :
  is_u32 d -> is_u32 l -> d < l -> snd (TimeoutReached d l b) <= l - d.
Proof.
  intros Hd Hl H. unfold TimeoutReached. destruct (l <=? d) eqn:E; bsimp; [lia|].
  cbn. rewrite u32_small by width. lia.
Qed.
Lemma TimeoutReached_nonneg d l b : 0 <= b -> 0 <= snd (TimeoutReached d l b).
Proof.
  intros. unfold TimeoutReached. split_if; cbn; [lia|].
  pose proof (u32_range (l - d)). width.
Qed.

(** The interface [ServiceExt::IsHealthy]. *)
(* @ service_ext.hpp:22-24 ServiceExt::IsHealthy *)
Class ServiceExt (S : Type) := IsHealthy : S -> bool.

Section Disjoint.
Context `{ER : EmergencyReasons} {OK : EmergencyReasonsOk}.

Lemma reason_range r : In r reason_flags -> is_u16 r /\ r <> 0.
Proof.
  intros H. pose proof (proj1 (List.Forall_forall _ _) reasons_u16 r H) as Hr.
  cbn in Hr. unfold is_u16; lia.
Qed.
Lemma reason_disjoint a b :
  In a reason_flags -> In b reason_flags -> a = b \/ Z.land a b = 0.
Proof.
  intros Ha Hb.
  destruct (ForallOrdPairs_In reasons_disjoint _ _ Ha Hb) as [E|[E|E]]; auto.
  rewrite Z.land_comm in E; auto.
Qed.
Lemma has_self r : In r reason_flags -> has r r = true.
Proof.
  intros H. destruct (reason_range r H). unfold has. rewrite Z.land_diag.
  apply negb_true_iff, Z.eqb_neq. assumption.
Qed.
End Disjoint.

(** [flag_facts] puts the pairwise disjointness of the reasons in the context;
    [masks] then evaluates intersections of unions of reasons. *)
Ltac flag_facts :=
  let D := fresh "D" in pose proof reasons_disjoint as D; unfold reason_flags in D;
  repeat match goal with
  | H : ForallOrdPairs _ (_ :: _) |- _ => inversion_clear H
  | H : ForallOrdPairs _ [] |- _ => clear H
  | H : List.Forall (fun b => Z.land ?a b = 0) (_ :: _) |- _ => inversion_clear H
  | H : List.Forall (fun b => Z.land ?a b = 0) [] |- _ => clear H
  end.
Ltac masks :=
  rewrite ?Z.land_lor_distr_l, ?Z.land_lor_distr_r, ?Z.land_diag;
  repeat match goal with
  | H : Z.land ?a ?b = 0 |- context [Z.land ?a ?b] => rewrite H
  | H : Z.land ?a ?b = 0 |- context [Z.land ?b ?a] => rewrite (Z.land_comm b a), H
  end;
  rewrite ?Z.lor_0_l, ?Z.lor_0_r, ?Z.lor_diag; try reflexivity.
