(* ===== verification/Crc.v ===== *)
(** Checksums: the table-driven CRC of the VESC protocol
    ([drivers/motor/vesc/crc.cpp]), the CRC unit as the YardForce ESC driver
    configures it ([drivers/motor/yfr4esc/crc16_hw.hpp]) and the streaming CRC-32
    of [debug/checksum_test_interface.cpp], against bit-serial definitions. *)
From S2P Require Import Prelude.

(** ** Bit-serial CRC-16, polynomial 0x1021, most significant bit first *)
Definition crc16_shift (c : Z) : Z :=
  let d := u16 (Z.shiftl c 1) in if Z.testbit c 15 then Z.lxor d 4129 else d.
Definition crc16_byte (c b : Z) : Z := Nat.iter 8 crc16_shift (Z.lxor c (Z.shiftl b 8)).
Definition crc16_serial (init : Z) (l : list Z) : Z := fold_left crc16_byte l init.

(** The STM32 CRC unit, programmed with POL 0x1021, INIT 0xFFFF, 16 bits and no
    bit reversal, shifts the bytes in serially: CRC16-CCITT-FALSE. *)
(* @ crc16_hw.hpp crc16_ccitt_false_hw *)
Definition crc16_ccitt_false_hw (data : list Z) : Z := Z.land (crc16_serial 65535 data) 65535.
(* @ crc16_hw.hpp crc16_ccitt_false *)
Definition crc16_ccitt_false (data : list Z) : Z := crc16_ccitt_false_hw data.

(** ** The table *)
(* @c crc.cpp crc16_tab *)
Definition crc16_tab : list Z :=
  [0; 4129; 8258; 12387; 16516; 20645; 24774; 28903; 33032; 37161; 41290; 45419; 49548; 53677; 57806; 61935;
   4657; 528; 12915; 8786; 21173; 17044; 29431; 25302; 37689; 33560; 45947; 41818; 54205; 50076; 62463; 58334;
   9314; 13379; 1056; 5121; 25830; 29895; 17572; 21637; 42346; 46411; 34088; 38153; 58862; 62927; 50604; 54669;
   13907; 9842; 5649; 1584; 30423; 26358; 22165; 18100; 46939; 42874; 38681; 34616; 63455; 59390; 55197; 51132;
   18628; 22757; 26758; 30887; 2112; 6241; 10242; 14371; 51660; 55789; 59790; 63919; 35144; 39273; 43274; 47403;
   23285; 19156; 31415; 27286; 6769; 2640; 14899; 10770; 56317; 52188; 64447; 60318; 39801; 35672; 47931; 43802;
   27814; 31879; 19684; 23749; 11298; 15363; 3168; 7233; 60846; 64911; 52716; 56781; 44330; 48395; 36200; 40265;
   32407; 28342; 24277; 20212; 15891; 11826; 7761; 3696; 65439; 61374; 57309; 53244; 48923; 44858; 40793; 36728;
   37256; 33193; 45514; 41451; 53516; 49453; 61774; 57711; 4224; 161; 12482; 8419; 20484; 16421; 28742; 24679;
   33721; 37784; 41979; 46042; 49981; 54044; 58239; 62302; 689; 4752; 8947; 13010; 16949; 21012; 25207; 29270;
   46570; 42443; 38312; 34185; 62830; 58703; 54572; 50445; 13538; 9411; 5280; 1153; 29798; 25671; 21540; 17413;
   42971; 47098; 34713; 38840; 59231; 63358; 50973; 55100; 9939; 14066; 1681; 5808; 26199; 30326; 17941; 22068;
   55628; 51565; 63758; 59695; 39368; 35305; 47498; 43435; 22596; 18533; 30726; 26663; 6336; 2273; 14466; 10403;
   52093; 56156; 60223; 64286; 35833; 39896; 43963; 48026; 19061; 23124; 27191; 31254; 2801; 6864; 10931; 14994;
   64814; 60687; 56684; 52557; 48554; 44427; 40424; 36297; 31782; 27655; 23652; 19525; 15522; 11395; 7392; 3265;
   61215; 65342; 53085; 57212; 44955; 49082; 36825; 40952; 28183; 32310; 20053; 24180; 11923; 16050; 3793; 7920].

(** [crc16_tab[i]]; the index is masked to a byte. *)
Definition crc16_entry (i : Z) : Z := nth (Z.to_nat i) crc16_tab 0.

(** One round of the loop. *)
(* @ crc.cpp:48-48 crc16 (round) *)
Definition crc16_round (cksum b : Z) : Z :=
  u16 (Z.lxor (crc16_entry (Z.land (Z.lxor (Z.shiftr cksum 8) b) 255)) (Z.shiftl cksum 8)).

(* @ crc.cpp crc16 *)
Definition crc16 (buf : list Z) : Z := fold_left crc16_round buf 0.

(** ** CRC-32 *)
(* @ checksum_test_interface.cpp:56-59 Crc32Feed (bit) *)
Definition crc32_bit (crc : Z) : Z :=
  let mask := u32 (- Z.land crc 1) in
  Z.lxor (Z.shiftr crc 1) (Z.land 3988292384 mask).
(* @ checksum_test_interface.cpp Crc32Feed *)
Definition Crc32Feed (crc : Z) (data : list Z) : Z :=
  fold_left (fun c b => Nat.iter 8 crc32_bit (Z.lxor c b)) data crc.

(** The check values of the three codes, for the digits 1 to 9. *)
Definition digits : list Z := [49; 50; 51; 52; 53; 54; 55; 56; 57].
Example crc16_check : crc16 digits = 12739.
Proof. vm_compute. reflexivity. Qed.
Example crc16_ccitt_false_check : crc16_ccitt_false digits = 10673.
Proof. vm_compute. reflexivity. Qed.
Example Crc32Feed_check : u32 (Z.lnot (Crc32Feed 4294967295 digits)) = 3421780262.
Proof. vm_compute. reflexivity. Qed.

(** ** The table is the bit-serial code *)
Definition bytes256 : list Z := map Z.of_nat (seq 0 256).
Lemma in_bytes256 z : is_u8 z -> In z bytes256.
Proof.
  intros H. unfold is_u8 in H. apply in_map_iff. exists (Z.to_nat z). split; [lia|].
  apply in_seq. lia.
Qed.

Definition round_agrees (i lo : Z) : bool :=
  Nat.iter 8 crc16_shift (256 * i + lo) =? u16 (Z.lxor (crc16_entry i) (256 * lo)).
Lemma rounds_agree : forallb (fun i => forallb (round_agrees i) bytes256) bytes256 = true.
Proof. vm_compute. reflexivity. Qed.
Lemma round_agrees_byte i lo : is_u8 i -> is_u8 lo ->
  Nat.iter 8 crc16_shift (256 * i + lo) = u16 (Z.lxor (crc16_entry i) (256 * lo)).
Proof.
  intros Hi Hl. pose proof rounds_agree as H. rewrite forallb_forall in H.
  specialize (H i (in_bytes256 i Hi)). rewrite forallb_forall in H.
  specialize (H lo (in_bytes256 lo Hl)). apply Z.eqb_eq. exact H.
Qed.

Lemma lxor_high c b : is_u8 b -> Z.lxor c (Z.shiftl b 8) = 256 * Z.lxor (c / 256) b + c mod 256.
Proof.
  intros Hb. apply Z.bits_inj'. intros n Hn.
  rewrite testbit_word by (width || lia). rewrite Z.lxor_spec, Z.shiftl_spec, Z.lxor_spec by lia.
  rewrite (Z.div_mod c 256) at 1 by lia. rewrite testbit_word by (width || lia).
  destruct (Z.ltb_spec n 8); [|reflexivity].
  rewrite (Z.testbit_neg_r b) by lia. apply xorb_false_r.
Qed.

(** Dropping the bits of [c << 8] above bit 15 commutes with the exclusive or. *)
Lemma u16_lxor_shift e c : u16 (Z.lxor e (Z.shiftl c 8)) = u16 (Z.lxor e (256 * (c mod 256))).
Proof.
  unfold u16. change 65536 with (2 ^ 16). apply Z.bits_inj'. intros n Hn.
  destruct (Z.ltb_spec n 16); [|rewrite !Z.mod_pow2_bits_high by lia; reflexivity].
  rewrite !Z.mod_pow2_bits_low by lia. rewrite !Z.lxor_spec. f_equal.
  replace (256 * (c mod 256)) with (c mod 2 ^ 8 * 2 ^ 8) by (change (2 ^ 8) with 256; lia).
  rewrite Z.shiftl_mul_pow2 by lia.
  destruct (Z.ltb_spec n 8); [rewrite !Z.mul_pow2_bits_low by lia; reflexivity|].
  rewrite !Z.mul_pow2_bits by lia. rewrite Z.mod_pow2_bits_low by lia. reflexivity.
Qed.

Lemma crc16_round_byte c b : is_u16 c -> is_u8 b -> crc16_round c b = crc16_byte c b.
Proof.
  intros Hc Hb. unfold crc16_round, crc16_byte. rewrite (lxor_high c b), u16_lxor_shift by assumption.
  assert (Hh : is_u8 (c / 256)) by width.
  rewrite Z.shiftr_div_pow2 by lia. change (2 ^ 8) with 256.
  change 255 with (Z.ones 8). rewrite Z.land_ones by lia.
  change (2 ^ 8) with 256. rewrite (Z.mod_small (Z.lxor _ _)) by (apply u8_lxor; assumption).
  rewrite round_agrees_byte; [reflexivity|apply u8_lxor; assumption|width].
Qed.

Lemma crc16_round_u16 c b : is_u16 (crc16_round c b).
Proof. apply u16_range. Qed.

Lemma crc16_fold l c : is_u16 c -> is_bytes l -> fold_left crc16_round l c = crc16_serial c l.
Proof.
  intros Hc H. revert c Hc. unfold crc16_serial. induction H as [|b l Hb Hl IH]; intros c Hc; cbn [fold_left]; [reflexivity|].
  rewrite IH by apply crc16_round_u16. rewrite crc16_round_byte by assumption. reflexivity.
Qed.

Lemma crc16_u16 l : is_u16 (crc16 l).
Proof.
  unfold crc16. assert (H : is_u16 0) by width. revert H. generalize 0.
  induction l as [|b l IH]; intros c Hc; cbn; [exact Hc|]. apply IH, crc16_round_u16.
Qed.
Lemma crc16_ccitt_u16 l : is_u16 (crc16_ccitt_false l).
Proof.
  unfold crc16_ccitt_false, crc16_ccitt_false_hw. change 65535 with (Z.ones 16) at 2.
  rewrite Z.land_ones by lia. apply u16_range.
Qed.

(** The table-driven [crc16] computes the bit-serial CRC-16 (polynomial 0x1021, initial
    value 0) of any byte string: all 256 table entries, the index and the
    truncation to 16 bits are right. *)
Theorem crc16_is_serial buf : is_bytes buf -> crc16 buf = crc16_serial 0 buf.
Proof. apply crc16_fold. width. Qed.

Lemma crc16_witness : crc16 digits = crc16_serial 0 digits.
Proof. apply (crc16_is_serial digits). forall_list ltac:(vm_compute; split; congruence). Defined.
