(* ===== verification/BoardUtils.v ===== *)
(** Names of I/O lines: [boards/XCORE/board_utils.cpp].

    The table keeps only the CRC of each name; [crc16_genibus] is the ETL
    library's, a parameter of the model. *)
From S2P Require Import Prelude Crc.
From Stdlib Require Import String.

(* @ board_utils.cpp:7-11 LineParams *)
Record LineParams := mkLine { line_crc : Z; line_port : Z; line_pad : Z }.
(** [GPIOA_BASE] and so on: the ports are 0x400 apart. *)
(* @ board_utils.cpp:18-19 ports *)
Definition ports : list Z := map (fun k => 0x58020000 + 0x400 * k) [0; 1; 2; 3; 4; 5; 6; 7].
(* @ board_utils.cpp port_idx *)
Definition port_idx (gpio : Z) : Z := u8 (gpio - 65).
Definition PAL_NOLINE : Z := 0.
Definition PAL_LINE (port pad : Z) : Z := Z.lor port pad.

(** Name, port letter and pad of each row. *)
(* @ board_utils.cpp:28-125 lines *)
Definition line_names : list (string * (Z * Z)) :=
  [("AGPIO0"%string, (65, 0));
   ("RMII_REF_CLK"%string, (65, 1));
   ("RMII_MDIO"%string, (65, 2));
   ("AGPIO1"%string, (65, 3));
   ("AGPIO2"%string, (65, 4));
   ("SPI1_SCK"%string, (65, 5));
   ("AGPIO3"%string, (65, 6));
   ("RMII_CRS_DV"%string, (65, 7));
   ("UART7_RX"%string, (65, 8));
   ("UART1_TX"%string, (65, 9));
   ("UART1_RX"%string, (65, 10));
   ("UART4_RX"%string, (65, 11));
   ("UART4_TX"%string, (65, 12));
   ("SWDIO"%string, (65, 13));
   ("SWCLK"%string, (65, 14));
   ("I2S6_WS"%string, (65, 15));
   ("AGPIO4"%string, (66, 0));
   ("AGPIO5"%string, (66, 1));
   ("SPI3_MOSI"%string, (66, 2));
   ("SPI3_SCK"%string, (66, 3));
   ("SPI3_MISO"%string, (66, 4));
   ("I2S6_SDO"%string, (66, 5));
   ("I2C1_SCL"%string, (66, 6));
   ("I2C1_SDA"%string, (66, 7));
   ("FDCAN1_RX"%string, (66, 8));
   ("FDCAN1_TX"%string, (66, 9));
   ("I2C2_SCL"%string, (66, 10));
   ("I2C2_SDA"%string, (66, 11));
   ("RMII_TXD0"%string, (66, 12));
   ("OCTOSPI_IO2"%string, (66, 13));
   ("SPI2_MISO"%string, (66, 14));
   ("SPI2_MOSI"%string, (66, 15));
   ("RMII_MDC"%string, (67, 1));
   ("RMII_RXD0"%string, (67, 4));
   ("RMII_RXD1"%string, (67, 5));
   ("UART6_TX"%string, (67, 6));
   ("UART6_RX"%string, (67, 7));
   ("HIGH_LEVEL_RUN_PG"%string, (67, 13));
   ("HIGH_LEVEL_GLOBAL_EN"%string, (67, 14));
   ("IMU_CS"%string, (67, 15));
   ("SPI2_SCK"%string, (68, 3));
   ("GPIO0"%string, (68, 4));
   ("UART2_TX"%string, (68, 5));
   ("UART2_RX"%string, (68, 6));
   ("SPI1_MOSI"%string, (68, 7));
   ("GPIO8"%string, (68, 8));
   ("GPIO15"%string, (68, 9));
   ("GPIO10"%string, (68, 10));
   ("GPIO1"%string, (68, 11));
   ("I2C4_SCL"%string, (68, 12));
   ("I2C4_SDA"%string, (68, 13));
   ("IMU_INTERRUPT"%string, (68, 15));
   ("UART8_RX"%string, (69, 0));
   ("UART8_TX"%string, (69, 1));
   ("UART10_RX"%string, (69, 2));
   ("UART10_TX"%string, (69, 3));
   ("GPIO2"%string, (69, 4));
   ("GPIO3"%string, (69, 5));
   ("GPIO4"%string, (69, 6));
   ("GPIO21"%string, (69, 7));
   ("GPIO22"%string, (69, 8));
   ("GPIO23"%string, (69, 9));
   ("GPIO9"%string, (69, 10));
   ("GPIO20"%string, (69, 11));
   ("GPIO19"%string, (69, 12));
   ("GPIO18"%string, (69, 13));
   ("GPIO17"%string, (69, 14));
   ("GPIO16"%string, (69, 15));
   ("HEARTBEAT_LED_RED"%string, (70, 0));
   ("HEARTBEAT_LED_GREEN"%string, (70, 1));
   ("HEARTBEAT_LED_BLUE"%string, (70, 2));
   ("RESET_PHY"%string, (70, 3));
   ("OCTOSPI_IO3"%string, (70, 6));
   ("UART7_TX"%string, (70, 7));
   ("OCTOSPI_IO0"%string, (70, 8));
   ("OCTOSPI_IO1"%string, (70, 9));
   ("OCTOSPI_CLK"%string, (70, 10));
   ("STATUS_LED_RED"%string, (70, 11));
   ("STATUS_LED_GREEN"%string, (70, 12));
   ("STATUS_LED"%string, (70, 12));
   ("STATUS_LED_BLUE"%string, (70, 13));
   ("GPIO14"%string, (71, 2));
   ("GPIO5"%string, (71, 3));
   ("GPIO13"%string, (71, 4));
   ("GPIO12"%string, (71, 5));
   ("OCTOSPI_NCS"%string, (71, 6));
   ("GPIO6"%string, (71, 7));
   ("GPIO11"%string, (71, 8));
   ("SPI1_MISO"%string, (71, 9));
   ("GPIO7"%string, (71, 10));
   ("RMII_TX_EN"%string, (71, 11));
   ("I2S6_SDI"%string, (71, 12));
   ("I2S6_CK"%string, (71, 13));
   ("RMII_TXD1"%string, (71, 14));
   ("OSC_IN"%string, (72, 0));
   ("OSC_OUT"%string, (72, 1))].

Section Lines.
Context (crc16_genibus : string -> Z).
(* @ board_utils.cpp crc16 *)
Definition crc16_of (str : string) : Z := crc16_genibus str.
(* @ board_utils.cpp:28-29 lines *)
Definition lines : list LineParams :=
  map (fun '(name, (port, pad)) => mkLine (crc16_of name) (Z.land (port_idx port) 15) (Z.land pad 15)) line_names.
(* @ board_utils.cpp GetIoLineByName *)
Definition GetIoLineByName (name : string) : option Z :=
  match find (fun l => line_crc l =? crc16_of name) lines with
  | Some l => port ← ports !! Z.to_nat (line_port l); Some (PAL_LINE port (line_pad l))
  | None => Some PAL_NOLINE
  end.
End Lines.

(** The lines the board header defines. *)
Definition GPIO (k : Z) : Z := 0x58020000 + 0x400 * k.
(* @ boards/XCORE/board.h:260-355 LINE_AGPIO0 *)
Definition board_lines : list (string * Z * Z) :=
  [("AGPIO0"%string, GPIO 0, 0);
   ("RMII_REF_CLK"%string, GPIO 0, 1);
   ("RMII_MDIO"%string, GPIO 0, 2);
   ("AGPIO1"%string, GPIO 0, 3);
   ("AGPIO2"%string, GPIO 0, 4);
   ("SPI1_SCK"%string, GPIO 0, 5);
   ("AGPIO3"%string, GPIO 0, 6);
   ("RMII_CRS_DV"%string, GPIO 0, 7);
   ("UART7_RX"%string, GPIO 0, 8);
   ("UART1_TX"%string, GPIO 0, 9);
   ("UART1_RX"%string, GPIO 0, 10);
   ("UART4_RX"%string, GPIO 0, 11);
   ("UART4_TX"%string, GPIO 0, 12);
   ("SWDIO"%string, GPIO 0, 13);
   ("SWCLK"%string, GPIO 0, 14);
   ("I2S6_WS"%string, GPIO 0, 15);
   ("AGPIO4"%string, GPIO 1, 0);
   ("AGPIO5"%string, GPIO 1, 1);
   ("SPI3_MOSI"%string, GPIO 1, 2);
   ("SPI3_SCK"%string, GPIO 1, 3);
   ("SPI3_MISO"%string, GPIO 1, 4);
   ("I2S6_SDO"%string, GPIO 1, 5);
   ("I2C1_SCL"%string, GPIO 1, 6);
   ("I2C1_SDA"%string, GPIO 1, 7);
   ("FDCAN1_RX"%string, GPIO 1, 8);
   ("FDCAN1_TX"%string, GPIO 1, 9);
   ("I2C2_SCL"%string, GPIO 1, 10);
   ("I2C2_SDA"%string, GPIO 1, 11);
   ("RMII_TXD0"%string, GPIO 1, 12);
   ("OCTOSPI_IO2"%string, GPIO 1, 13);
   ("SPI2_MISO"%string, GPIO 1, 14);
   ("SPI2_MOSI"%string, GPIO 1, 15);
   ("RMII_MDC"%string, GPIO 2, 1);
   ("RMII_RXD0"%string, GPIO 2, 4);
   ("RMII_RXD1"%string, GPIO 2, 5);
   ("UART6_TX"%string, GPIO 2, 6);
   ("UART6_RX"%string, GPIO 2, 7);
   ("HIGH_LEVEL_RUN_PG"%string, GPIO 2, 13);
   ("HIGH_LEVEL_GLOBAL_EN"%string, GPIO 2, 14);
   ("IMU_CS"%string, GPIO 2, 15);
   ("SPI2_SCK"%string, GPIO 3, 3);
   ("GPIO0"%string, GPIO 3, 4);
   ("UART2_TX"%string, GPIO 3, 5);
   ("UART2_RX"%string, GPIO 3, 6);
   ("SPI1_MOSI"%string, GPIO 3, 7);
   ("GPIO8"%string, GPIO 3, 8);
   ("GPIO15"%string, GPIO 3, 9);
   ("GPIO10"%string, GPIO 3, 10);
   ("GPIO1"%string, GPIO 3, 11);
   ("I2C4_SCL"%string, GPIO 3, 12);
   ("I2C4_SDA"%string, GPIO 3, 13);
   ("IMU_INTERRUPT"%string, GPIO 3, 15);
   ("UART8_RX"%string, GPIO 4, 0);
   ("UART8_TX"%string, GPIO 4, 1);
   ("UART10_RX"%string, GPIO 4, 2);
   ("UART10_TX"%string, GPIO 4, 3);
   ("GPIO2"%string, GPIO 4, 4);
   ("GPIO3"%string, GPIO 4, 5);
   ("GPIO4"%string, GPIO 4, 6);
   ("GPIO21"%string, GPIO 4, 7);
   ("GPIO22"%string, GPIO 4, 8);
   ("GPIO23"%string, GPIO 4, 9);
   ("GPIO9"%string, GPIO 4, 10);
   ("GPIO20"%string, GPIO 4, 11);
   ("GPIO19"%string, GPIO 4, 12);
   ("GPIO18"%string, GPIO 4, 13);
   ("GPIO17"%string, GPIO 4, 14);
   ("GPIO16"%string, GPIO 4, 15);
   ("HEARTBEAT_LED_RED"%string, GPIO 5, 0);
   ("HEARTBEAT_LED_GREEN"%string, GPIO 5, 1);
   ("HEARTBEAT_LED_BLUE"%string, GPIO 5, 2);
   ("RESET_PHY"%string, GPIO 5, 3);
   ("OCTOSPI_IO3"%string, GPIO 5, 6);
   ("UART7_TX"%string, GPIO 5, 7);
   ("OCTOSPI_IO0"%string, GPIO 5, 8);
   ("OCTOSPI_IO1"%string, GPIO 5, 9);
   ("OCTOSPI_CLK"%string, GPIO 5, 10);
   ("STATUS_LED_RED"%string, GPIO 5, 11);
   ("STATUS_LED_GREEN"%string, GPIO 5, 12);
   ("STATUS_LED"%string, GPIO 5, 12);
   ("STATUS_LED_BLUE"%string, GPIO 5, 13);
   ("GPIO14"%string, GPIO 6, 2);
   ("GPIO5"%string, GPIO 6, 3);
   ("GPIO13"%string, GPIO 6, 4);
   ("GPIO12"%string, GPIO 6, 5);
   ("OCTOSPI_NCS"%string, GPIO 6, 6);
   ("GPIO6"%string, GPIO 6, 7);
   ("GPIO11"%string, GPIO 6, 8);
   ("SPI1_MISO"%string, GPIO 6, 9);
   ("GPIO7"%string, GPIO 6, 10);
   ("RMII_TX_EN"%string, GPIO 6, 11);
   ("I2S6_SDI"%string, GPIO 6, 12);
   ("I2S6_CK"%string, GPIO 6, 13);
   ("RMII_TXD1"%string, GPIO 6, 14);
   ("OSC_IN"%string, GPIO 7, 0);
   ("OSC_OUT"%string, GPIO 7, 1)].

Section Lookup.
Context (crc16_genibus : string -> Z) (separates : NoDup (map (fun r => crc16_genibus r.1) line_names)).
Lemma find_row r : r ∈ line_names ->
  find (fun l => line_crc l =? crc16_genibus r.1) (lines crc16_genibus) =
    Some (mkLine (crc16_genibus r.1) (Z.land (port_idx r.2.1) 15) (Z.land r.2.2 15)).
Proof using separates.
  unfold lines. revert separates. generalize line_names as rows. intros rows ND.
  induction rows as [|[n [p d]] rows IH]; intros Hr; [apply not_elem_of_nil in Hr as []|].
  cbn [map] in ND. apply NoDup_cons in ND as [Hn ND]. cbn [map find line_crc].
  change (crc16_of crc16_genibus n) with (crc16_genibus n).
  apply elem_of_cons in Hr as [->|Hr]; [cbn [fst snd]; rewrite Z.eqb_refl; reflexivity|].
  destruct (Z.eqb_spec (crc16_genibus n) (crc16_genibus r.1)) as [E|E]; [|apply IH; assumption].
  destruct Hn. cbn [fst]. rewrite E. apply list_elem_of_fmap. exists r. auto.
Qed.
(** The table agrees with the header: with a CRC that separates the names, each
    defined line is found under its name. *)
Lemma GetIoLineByName_finds name port pad : (name, port, pad) ∈ board_lines ->
  GetIoLineByName crc16_genibus name = Some (PAL_LINE port pad).
Proof using separates.
  intros H. assert (E : Forall (fun '(n, q, d) => exists r, r ∈ line_names /\ r.1 = n /\
    ports !! Z.to_nat (Z.land (port_idx r.2.1) 15) = Some q /\ Z.land r.2.2 15 = d) board_lines).
  { assert (E : Forall2 (fun '(n, q, d) r => r.1 = n /\
      ports !! Z.to_nat (Z.land (port_idx r.2.1) 15) = Some q /\ Z.land r.2.2 15 = d) board_lines line_names).
    { unfold board_lines, line_names. repeat (constructor; [vm_compute; auto|]). constructor. }
    clear H separates. induction E as [|[[n q] d] r l rows Hr E IH]; constructor.
    - exists r. split; [left|exact Hr].
    - eapply List.Forall_impl; [|exact IH]. intros [[n' q'] d'] (r' & Hin & Hr'). exists r'. split; [right; exact Hin|exact Hr']. }
  rewrite Forall_forall in E. destruct (E _ H) as (r & Hr & <- & Hq & <-).
  unfold GetIoLineByName, crc16_of. rewrite (find_row r Hr). cbn [line_port line_pad]. rewrite Hq. reflexivity.
Qed.
End Lookup.

(** CRC-16/GENIBUS does separate them. *)
Definition genibus (s : string) : Z :=
  Z.lxor (crc16_serial 65535 (map (fun a => Z.of_nat (Ascii.nat_of_ascii a)) (String.list_ascii_of_string s))) 65535.
Example genibus_check : genibus "123456789" = 54862.
Proof. vm_compute. reflexivity. Qed.
Example genibus_separates : NoDup (map (fun r => genibus r.1) line_names).
Proof. apply (bool_decide_unpack _). vm_compute. exact I. Qed.
