(* ===== verification/Json.v ===== *)
(** JSON: the stream helpers of [json_stream.hpp] and [json_stream.cpp] and the
    escaping of [json_utils.hpp].

    The parser is LwJSON, a library: what it does with one character (its new
    state, the callbacks it makes, its result) is a parameter of the model. A
    callback sees the depth of the parser's stack, the text of the value, its
    length, and the keys at depths 4 and 6. The document is what the data source, a
    library too, delivers; its position is the number of characters taken since it was rewound. *)
From S2P Require Import Prelude.

(** ** Stream callbacks *)
Inductive lwjson_stream_type_t :=
  | OBJECT | OBJECT_END | ARRAY | ARRAY_END | KEY | STRING | TRUE | FALSE | NULL | NUMBER.
#[export] Instance lwjson_stream_type_eq : EqDecision lwjson_stream_type_t.
Proof. solve_decision. Defined.

Record jsp := mkJsp { stack_pos : nat; buff : string; buff_pos : Z; key4 : string; key6 : string }.

(* @ json_stream.hpp:21-25 JsonExpectType *)
Definition JsonExpectType (expected type : lwjson_stream_type_t) : bool := bool_decide (type = expected).
(** The macro's second type is the matching [_END]. *)
(* @ json_stream.hpp:27-31 JsonExpectTypeOrEnd *)
Definition JsonExpectTypeOrEnd (expected type : lwjson_stream_type_t) : bool :=
  bool_decide (type = expected) ||
  match expected with
  | OBJECT => bool_decide (type = OBJECT_END)
  | ARRAY => bool_decide (type = ARRAY_END)
  | _ => false
  end.

(** [etl::to_arithmetic<T>] for an unsigned [T] of [bits] bits, from the library. *)
Class ToArithmetic := to_arithmetic : forall (bits : Z), string -> option Z.
Definition to_arithmetic_ok `{ToArithmetic} : Prop :=
  forall bits text z, to_arithmetic bits text = Some z -> 0 <= z < 2 ^ bits.

(* @ json_stream.hpp:33-44 JsonGetNumber *)
Definition JsonGetNumber `{ToArithmetic} (bits : Z) (j : jsp) (type : lwjson_stream_type_t) : option Z :=
  if JsonExpectType NUMBER type then to_arithmetic bits (buff j) else None.
(* @ json_stream.cpp JsonGetBool *)
Definition JsonGetBool (type : lwjson_stream_type_t) : option bool :=
  match type with TRUE => Some true | FALSE => Some false | _ => None end.

(** ** Feeding a document *)
Inductive lwjsonr_t := lwjsonOK | lwjsonSTREAMDONE | lwjsonSTREAMINPROG | lwjsonERR | lwjsonERRJSON | lwjsonERRMEM | lwjsonERRPAR.
(* @ json_stream.cpp IsError *)
Definition IsError (res : lwjsonr_t) : bool :=
  match res with lwjsonERR | lwjsonERRJSON | lwjsonERRMEM | lwjsonERRPAR => true | _ => false end.
(** [None] if it is so, else how many characters were taken to see that it is not: [strchr]
    also finds the text's final NUL. *)
(* @ json_stream.cpp OnlyWhitespaceRemaining *)
Fixpoint OnlyWhitespaceRemaining (rest : list Z) : option nat :=
  match rest with
  | [] => None
  | c :: rest => if existsb (Z.eqb c) [32; 9; 13; 10; 0] then S <$> OnlyWhitespaceRemaining rest else Some 1%nat
  end.

(** *** The error position, in a line buffer of 128 bytes *)
(* @ json_stream.cpp:26-26 LogErrorPosition *)
Definition LINE_BUF : nat := 128.
Definition marker (text : string) : list Z := map (fun a => Z.of_nat (Ascii.nat_of_ascii a)) (String.list_ascii_of_string text).
(** Appending to the line; [None] is a write outside it. *)
Definition put (text line : list Z) : option (list Z) :=
  if (length line + length text <=? LINE_BUF)%nat then Some (line ++ text) else None.
(** The lines logged. [pos] is the position of the next character. *)
(* @ json_stream.cpp LogErrorPosition *)
Fixpoint log_lines (error_pos pos : nat) (rest line : list Z) : option (list (list Z)) :=
  match rest with
  | [] => Some []
  | c :: rest =>
    line ← (if c =? 10 then Some line else put [c] line);
    line ← (if (pos + 1 =? error_pos)%nat then put (marker "<ERROR>") line else Some line);
    let split_line := (LINE_BUF - 7 <=? length line)%nat in
    line ← (if split_line then put (marker "<SPLIT>") line else Some line);
    if (c =? 10) || match rest with [] => true | _ => false end || split_line
    then l ← log_lines error_pos (pos + 1) rest []; Some (line :: l)
    else log_lines error_pos (pos + 1) rest line
  end.
Definition LogErrorPosition (document : list Z) (error_pos : nat) : option (list (list Z)) :=
  log_lines error_pos 0 document [].

Section ProcessJson.
(** The parser: one character, the callbacks it makes and its result. *)
Context {P D : Type} (lwjson_stream_init : P)
  (lwjson_stream_parse : P -> Z -> P * list (jsp * lwjson_stream_type_t) * lwjsonr_t)
  (callback : jsp -> lwjson_stream_type_t -> D -> bool * D).

(** The data of a client with [json_data_t]'s [failed]. *)
(* @ json_stream.cpp Callback *)
Definition Callback (call : jsp * lwjson_stream_type_t) (st : D * bool) : D * bool :=
  let '(ok, d) := callback call.1 call.2 st.1 in (d, st.2 || negb ok).
Definition run_callbacks (calls : list (jsp * lwjson_stream_type_t)) (st : D * bool) : D * bool :=
  fold_left (fun st call => Callback call st) calls st.

(** How the loop over the characters ends; all but [Complete] log the position reached. *)
Inductive json_end := Complete | ExtraCharacters | Rejected | Malformed | EndNotFound.
(** The end, the position and the data. *)
Fixpoint parse_loop (p : P) (pos : nat) (rest : list Z) (st : D * bool) : json_end * nat * (D * bool) :=
  match rest with
  | [] => (EndNotFound, pos, st)
  | c :: rest =>
    let '(p, calls, res) := lwjson_stream_parse p c in
    let st := run_callbacks calls st in
    let pos := S pos in
    match res with
    | lwjsonSTREAMDONE =>
      match OnlyWhitespaceRemaining rest with None => (Complete, pos, st) | Some n => (ExtraCharacters, (pos + n)%nat, st) end
    | _ => if st.2 then (Rejected, pos, st) else if IsError res then (Malformed, pos, st) else parse_loop p pos rest st
    end
  end.
(** The result; [None] when logging the position writes outside its line buffer. *)
(* @ json_stream.cpp ProcessJson *)
Definition ProcessJson (json : list Z) (data : D) : option (bool * D) :=
  let '(e, pos, st) := parse_loop lwjson_stream_init 0 json (data, false) in
  match e with
  | Complete => Some (true, st.1)
  | EndNotFound => _ ← LogErrorPosition json pos; Some (true, st.1)
  | ExtraCharacters | Rejected | Malformed => _ ← LogErrorPosition json pos; Some (false, st.1)
  end.
End ProcessJson.

(** A document that stops before its end is accepted. *)
Example truncated_is_accepted {D} (d : D) :
  ProcessJson tt (fun p _ => (p, [], lwjsonSTREAMINPROG)) (fun _ _ d => (true, d)) [123; 34; 103] d = Some (true, d).
Proof. reflexivity. Qed.
(** An error at column 115 or later of a line overruns the line buffer. *)
Example late_error_overruns : LogErrorPosition (replicate 115 97) 115 = None /\
  LogErrorPosition (replicate 114 97) 114 <> None.
Proof. vm_compute. split; [reflexivity|discriminate]. Qed.

(** No line of a document has more than 114 characters, [n] being those of its first line already seen. *)
Fixpoint short_lines (n : nat) (json : list Z) : bool :=
  match json with
  | [] => true
  | c :: json => if c =? 10 then short_lines 0 json else (n <? 114)%nat && short_lines (S n) json
  end.
Lemma put_fits text line : (length line + length text <= LINE_BUF)%nat -> put text line = Some (line ++ text).
Proof. intros H. unfold put. destruct (Nat.leb_spec (length line + length text) LINE_BUF); [reflexivity|lia]. Qed.
(** An error in a document of short lines is logged inside the line buffer, wherever it is. *)
Lemma log_lines_fit e rest : forall pos line n, short_lines n rest = true -> (n <= 114)%nat ->
  (length line <= n + (if pos <? e then 0 else 7))%nat -> exists l, log_lines e pos rest line = Some l.
Proof.
  induction rest as [|c rest IH]; intros pos line n Hs Hn Hl; cbn [log_lines]; [eauto|]. cbn [short_lines] in Hs.
  set (k := if (pos <? e)%nat then 0%nat else 7%nat) in Hl.
  (* the character itself *)
  assert (E1 : exists l1 n', (if c =? 10 then Some line else put [c] line) = Some l1 /\ (n' <= 114)%nat /\ (length l1 <= n' + k)%nat /\
    short_lines (if c =? 10 then 0 else n') rest = true).
  { assert (k <= 7)%nat by (unfold k; destruct (pos <? e)%nat; lia). destruct (c =? 10); [exists line, n; auto|].
    apply andb_prop in Hs as [H1 H2]. apply Nat.ltb_lt in H1. exists (line ++ [c]), (S n).
    rewrite put_fits, length_app by (unfold LINE_BUF; cbn; lia). cbn. repeat split; try lia. exact H2. }
  destruct E1 as (l1 & n' & -> & Hn' & Hl1 & Hs'). cbn [mbind option_bind].
  (* the marker *)
  assert (E2 : exists l2, (if (pos + 1 =? e)%nat then put (marker "<ERROR>") l1 else Some l1) = Some l2 /\
    (length l2 <= n' + (if (pos + 1 <? e)%nat then 0 else 7))%nat).
  { unfold k in Hl1. revert Hl1. destruct (Nat.eqb_spec (pos + 1) e) as [He|He].
    - destruct (Nat.ltb_spec pos e); [|lia]. intros Hl1. exists (l1 ++ marker "<ERROR>").
      rewrite put_fits, length_app by (unfold LINE_BUF; cbn; lia). split; [reflexivity|]. rewrite (proj2 (Nat.ltb_ge (pos + 1) e)) by lia. cbn. lia.
    - intros Hl1. exists l1. split; [reflexivity|]. revert Hl1. destruct (Nat.ltb_spec pos e), (Nat.ltb_spec (pos + 1) e); lia. }
  destruct E2 as (l2 & -> & Hl2). cbn [mbind option_bind].
  assert (Hl2' : (length l2 <= 121)%nat) by (destruct (pos + 1 <? e)%nat; lia).
  assert (E3 : exists l3, (if (LINE_BUF - 7 <=? length l2)%nat then put (marker "<SPLIT>") l2 else Some l2) = Some l3 /\
    (((LINE_BUF - 7 <=? length l2)%nat = false) -> l3 = l2)).
  { destruct (LINE_BUF - 7 <=? length l2)%nat; [|eauto]. rewrite put_fits by (unfold LINE_BUF; cbn; lia). eexists. split; [reflexivity|discriminate]. }
  destruct E3 as (l3 & -> & Hl3). cbn [mbind option_bind].
  assert (IH0 : exists l, log_lines e (pos + 1) rest [] = Some l) by (eapply IH; [exact Hs'|destruct (c =? 10); lia|cbn; lia]).
  destruct (LINE_BUF - 7 <=? length l2)%nat.
  - rewrite orb_true_r. destruct IH0 as (l & ->). cbn. eauto.
  - rewrite Hl3, orb_false_r by reflexivity. destruct (c =? 10).
    + cbn [orb]. destruct IH0 as (l & ->). cbn. eauto.
    + cbn [orb]. destruct rest as [|c' rest']; [cbn; eauto|]. eapply IH; [exact Hs'|exact Hn'|exact Hl2].
Qed.
Lemma LogErrorPosition_fits json pos : short_lines 0 json = true -> exists l, LogErrorPosition json pos = Some l.
Proof. intros H. eapply log_lines_fit; [exact H|lia|cbn; lia]. Qed.
Lemma ProcessJson_short {P D} (init : P) parse callback (json : list Z) (data : D) : short_lines 0 json = true ->
  ProcessJson init parse callback json data =
  let '(e, _, st) := parse_loop parse callback init 0 json (data, false) in
  Some (match e with Complete | EndNotFound => true | _ => false end, st.1).
Proof.
  intros H. unfold ProcessJson. destruct (parse_loop _ _ _ _ _ _) as [[e pos] st].
  destruct (LogErrorPosition_fits json pos H) as (l & ->). destruct e; reflexivity.
Qed.

(** ** Escaping *)
Definition hex_digit (n : Z) : Z := if n <? 10 then 48 + n else 55 + n.
(** The replacement of one character: [repl]. *)
(* @ json_utils.hpp:27-55 EscapeStringInto (replacement) *)
Definition replacement (c : Z) : list Z :=
  if c =? 34 then [92; 34] else if c =? 92 then [92; 92]
  else if c =? 8 then [92; 98] else if c =? 12 then [92; 102]
  else if c =? 10 then [92; 110] else if c =? 13 then [92; 114] else if c =? 9 then [92; 116]
  else if c <? 32 then [92; 117; 48; 48; hex_digit (Z.land (Z.shiftr c 4) 15); hex_digit (Z.land c 15)]
  else [c].
(** Writing one replacement: the output so far and whether it was cut short. *)
Fixpoint write_repl (cap : nat) (repl out : list Z) : list Z * bool :=
  match repl with
  | [] => (out, false)
  | c :: repl => if (cap <=? length out + 1)%nat then (out, true) else write_repl cap repl (out ++ [c])
  end.
Fixpoint escape_loop (cap : nat) (input out : list Z) : list Z :=
  match input with
  | [] => out
  | c :: input =>
    let '(out, full) := write_repl cap (replacement c) out in
    if full then out else escape_loop cap input out
  end.
(** The bytes written before the terminating NUL, and how many; nothing is
    written to a buffer of no bytes. A C string ends at its first NUL. *)
(* @ json_utils.hpp EscapeStringInto *)
Definition EscapeStringInto (input : list Z) (out_cap : nat) : list Z * nat :=
  if (out_cap =? 0)%nat then ([], 0%nat)
  else let out := escape_loop out_cap input [] in (out ++ [0], length out).

(** A JSON reader's view of a string's characters: the escapes undone. *)
Definition hex_value (d : Z) : option Z :=
  if (48 <=? d) && (d <=? 57) then Some (d - 48) else if (65 <=? d) && (d <=? 70) then Some (d - 55) else None.
Definition short_escape (e : Z) : option Z :=
  if e =? 34 then Some 34 else if e =? 92 then Some 92 else if e =? 98 then Some 8
  else if e =? 102 then Some 12 else if e =? 110 then Some 10 else if e =? 114 then Some 13
  else if e =? 116 then Some 9 else None.
Fixpoint unescape (l : list Z) : option (list Z) :=
  match l with
  | [] => Some []
  | c :: r =>
    if c =? 92 then
      match r with
      | [] => None
      | e :: r =>
        if e =? 117 then
          match r with
          | z0 :: z1 :: h :: d :: r =>
            if (z0 =? 48) && (z1 =? 48) then
              h ← hex_value h; d ← hex_value d; r ← unescape r; Some (16 * h + d :: r)
            else None
          | _ => None
          end
        else c ← short_escape e; r ← unescape r; Some (c :: r)
      end
    else if (c =? 34) || (c <? 32) then None else r ← unescape r; Some (c :: r)
  end.

Definition escaped (input : list Z) : list Z := concat (map replacement input).
Lemma write_repl_take cap repl out : (length out < cap)%nat ->
  write_repl cap repl out =
    (out ++ take (cap - 1 - length out) repl, (cap - 1 - length out <? length repl)%nat).
Proof.
  revert out. induction repl as [|c repl IH]; intros out H; cbn [write_repl length].
  { rewrite take_nil, app_nil_r. destruct (Nat.ltb_spec (cap - 1 - length out) 0); [lia|reflexivity]. }
  destruct (Nat.leb_spec cap (length out + 1)).
  - replace (cap - 1 - length out)%nat with 0%nat by lia. rewrite take_0, app_nil_r. reflexivity.
  - rewrite IH by (rewrite length_app; cbn [length]; lia). rewrite length_app. cbn [length].
    replace (cap - 1 - length out)%nat with (S (cap - 1 - (length out + 1))) by lia.
    cbn [take]. rewrite <- app_assoc. reflexivity.
Qed.
Lemma escape_loop_take cap input out : (length out < cap)%nat ->
  escape_loop cap input out = out ++ take (cap - 1 - length out) (escaped input).
Proof.
  revert out. induction input as [|c input IH]; intros out H; cbn [escape_loop].
  { unfold escaped. cbn. rewrite take_nil, app_nil_r. reflexivity. }
  rewrite write_repl_take by exact H. change (escaped (c :: input)) with (replacement c ++ escaped input).
  destruct (Nat.ltb_spec (cap - 1 - length out) (length (replacement c))).
  - rewrite take_app_le by lia. reflexivity.
  - rewrite IH by (rewrite length_app, length_take; lia). rewrite <- app_assoc. f_equal.
    rewrite take_app, length_app, (take_ge (replacement c)) by lia. do 2 f_equal. lia.
Qed.

(** Every byte's replacement is read back, in front of any text. *)
Lemma unescape_replacement c r : 0 < c < 256 ->
  unescape (replacement c ++ r) = l ← unescape r; Some (c :: l).
Proof.
  intros Hc. unfold replacement.
  destruct (Z.eqb_spec c 34) as [->|]; [reflexivity|]. destruct (Z.eqb_spec c 92) as [->|]; [reflexivity|].
  destruct (Z.eqb_spec c 8) as [->|]; [reflexivity|]. destruct (Z.eqb_spec c 12) as [->|]; [reflexivity|].
  destruct (Z.eqb_spec c 10) as [->|]; [reflexivity|]. destruct (Z.eqb_spec c 13) as [->|]; [reflexivity|].
  destruct (Z.eqb_spec c 9) as [->|]; [reflexivity|]. destruct (Z.ltb_spec c 32) as [Hlt|].
  - assert (Hi : In c (map Z.of_nat (seq 0 32))).
    { apply in_map_iff. exists (Z.to_nat c). split; [lia|]. apply in_seq. lia. }
    cbn in Hi. repeat (destruct Hi as [<-|Hi]; [reflexivity|]). destruct Hi.
  - cbn [app unescape]. destruct (Z.eqb_spec c 92), (Z.eqb_spec c 34), (Z.ltb_spec c 32); try lia. reflexivity.
Qed.
Lemma unescape_escaped input : Forall (fun c => 0 < c < 256) input -> unescape (escaped input) = Some input.
Proof.
  induction 1 as [|c input Hc Hi IH]; [reflexivity|].
  change (escaped (c :: input)) with (replacement c ++ escaped input).
  rewrite unescape_replacement, IH by exact Hc. reflexivity.
Qed.

(** Escaping: the text written is the escaped input, cut to leave room for the
    final NUL, so it never passes the end of the buffer, and the count is of the bytes before the
    NUL; a reader of JSON strings gets the input back from a text that was not
    cut, so no quote, backslash or control character ends or breaks the string. *)
Theorem escape_roundtrip (input : list Z) (cap : nat) :
  Forall (fun c => 0 < c < 256) input -> (0 < cap)%nat ->
  let '(out, n) := EscapeStringInto input cap in
  out = take (cap - 1) (escaped input) ++ [0] /\ (length out <= cap)%nat /\ n = (length out - 1)%nat /\
  unescape (escaped input) = Some input /\
  ((length (escaped input) < cap)%nat -> unescape (take n out) = Some input).
Proof.
  intros Hi Hc. unfold EscapeStringInto. destruct (Nat.eqb_spec cap 0); [lia|].
  rewrite escape_loop_take by (cbn; lia). cbn [app length]. rewrite Nat.sub_0_r.
  split; [reflexivity|]. rewrite length_app, take_app_length, length_take. cbn [length].
  split; [lia|]. split; [lia|]. split; [apply unescape_escaped, Hi|].
  intros Hl. rewrite take_ge by lia. apply unescape_escaped, Hi.
Qed.
Lemma escape_witness : let '(out, n) := EscapeStringInto [34; 7; 65] 16 in
  out = take (16 - 1) (escaped [34; 7; 65]) ++ [0] /\ (length out <= 16)%nat /\ n = (length out - 1)%nat /\
  unescape (escaped [34; 7; 65]) = Some [34; 7; 65] /\
  ((length (escaped [34; 7; 65]%Z) < 16)%nat -> unescape (take n out) = Some [34; 7; 65]).
Proof. apply (escape_roundtrip [34; 7; 65] 16); [forall_list lia|lia]. Defined.
Example escape_text : EscapeStringInto [34; 7; 65] 16 = ([92; 34; 92; 117; 48; 48; 48; 55; 65; 0], 9%nat).
Proof. reflexivity. Qed.
