(* ===== verification/Input.v ===== *)
(** Inputs and the input service: [drivers/input/input_driver.hpp],
    [drivers/input/input_driver.cpp] and the run-time half of
    [services/input_service/input_service.cpp] (configuration is in [InputConfig]).

    The service is an explicit state; [None] is an undefined behaviour of the
    code (a null virtual input, an index outside [redundancy_group_refcount_]).
    [clock n] is the value of the [n]-th [getTimeMicros()] call. *)
From S2P Require Import Prelude ServiceExt.

(* @c input_driver.hpp VIRTUAL *)
Definition VIRTUAL : Z := 255.

(** The anonymous union of [Input]: every driver writes and reads its own view. *)
(* @ input_driver.hpp:30-53 Input (anonymous union) *)
Inductive input_config :=
  | NoConfig
  | GpioConfig (line : Z)
  | WorxConfig (bit : Z)
  | SaboConfig (type id : Z)
  | YfCoverUiConfig (channel flags : Z).

(* @t input_driver.hpp Input *)
Record Input := mkInput {
  idx : Z; invert : bool; redundancy_group : Z;
  emergency_reason : Z; emergency_delay_ms : Z; config : input_config;
  active : bool; emergency_pending : bool; active_since : Z;
  next_for_driver_ : option nat }.
#[export] Instance eta_Input : Eta Input := fun i =>
  mkInput (idx i) (invert i) (redundancy_group i) (emergency_reason i)
    (emergency_delay_ms i) (config i) (active i) (emergency_pending i)
    (active_since i) (next_for_driver_ i).

Definition new_input : Input := mkInput 0 false 0 0 0 NoConfig false false 0 None.

(* @ input_driver.hpp Input::IsActive *)
Definition IsActive (i : Input) : bool := active i.
(* @ input_driver.hpp Input::ActiveDuration *)
Definition ActiveDuration (i : Input) (now : Z) : Z := u32 (now - active_since i).
(* @ input_driver.cpp Input::GetAndClearPendingEmergency *)
Definition GetAndClearPendingEmergency (i : Input) : bool * Input :=
  if emergency_pending i then (true, i <| emergency_pending := false |>) else (false, i).

Inductive InputEventType := ACTIVE | INACTIVE | SHORT | LONG.

(** Everything the service emits, in order. *)
Inductive input_out :=
  | StartTransaction | CommitTransaction
  | SendInputEvent (idx : Z) (type : InputEventType)
  | SendActiveInputs (mask : Z)
  | BroadcastFlags (flags : Z).

(** The registers of the service, written by the high level. *)
Record input_regs := {
  LongPressTime : Z; DebounceTime : Z; LiftMultipleDelay : Z; CollisionMultipleDelay : Z }.

(* @c input_service.hpp MAX_REDUNDANCY_GROUPS *)
Definition MAX_REDUNDANCY_GROUPS : nat := 4.
(* @ input_service.hpp:53-55 InputService::all_inputs_ *)
Definition MAX_INPUTS : nat := 30 + 2.

(* @ input_service.hpp:46-63 InputService *)
Record InputService := mkInputService {
  inputs_configured_ : bool;
  all_inputs_ : list Input;
  num_active_lift_ : Z; lift_multiple_input_ : option nat;
  num_active_collision_ : Z; collision_multiple_input_ : option nat;
  redundancy_group_refcount_ : list Z;
  time_reads : nat; emitted : list input_out }.
#[export] Instance eta_InputService : Eta InputService := fun s =>
  mkInputService (inputs_configured_ s) (all_inputs_ s) (num_active_lift_ s)
    (lift_multiple_input_ s) (num_active_collision_ s) (collision_multiple_input_ s)
    (redundancy_group_refcount_ s) (time_reads s) (emitted s).

Definition emit (o : list input_out) (s : InputService) : InputService :=
  s <| emitted ::= fun e => e ++ o |>.
Definition set_input (i : nat) (v : Input) (s : InputService) : InputService :=
  s <| all_inputs_ ::= insert i v |>.

Section InputService.
Context `{ER : EmergencyReasons} (clock : nat -> Z) (regs : input_regs).

(** [active ? ++n : --n] on an [etl::atomic<uint8_t>]. *)
Definition count_step (act : bool) (n : Z) : Z := u8 (if act then n + 1 else n - 1).

(** The LIFT branch of [OnInputChanged]: the new lift count and refcounts. *)
(* @ input_service.cpp:238-257 InputService::OnInputChanged (lift accounting) *)
Definition lift_accounting (inp : Input) (act : bool) (s : InputService) : option InputService :=
let group := Z.to_nat (redundancy_group inp) in
if redundancy_group inp =? 0 then Some (s <| num_active_lift_ ::= count_step act |>)
else rc ← redundancy_group_refcount_ s !! group;
  let rc' := u8 (if act then rc + 1 else rc - 1) in
  let changed := if act then rc =? 0 else rc' =? 0 in
  let s := s <| redundancy_group_refcount_ ::= insert group rc' |> in
  Some (if changed then s <| num_active_lift_ ::= count_step act |> else s).

(** The input events of one change. *)
(* @ input_service.cpp:266-281 InputService::OnInputChanged (events) *)
Definition change_events (inp : Input) (act : bool) (duration : Z) : list input_out :=
StartTransaction ::
(if act then [SendInputEvent (idx inp) ACTIVE]
 else SendInputEvent (idx inp) INACTIVE ::
   (if u32 (LongPressTime regs * 1000) <=? duration then [SendInputEvent (idx inp) LONG]
    else if u32 (DebounceTime regs * 1000) <=? duration then [SendInputEvent (idx inp) SHORT]
    else [])) ++ [CommitTransaction].

(** [rec] is [Input::Update] on the virtual inputs, called back from here. *)
(* @ input_service.cpp InputService::OnInputChanged *)
Definition OnInputChanged (rec : InputService -> nat -> bool -> option InputService)
  (s : InputService) (i : nat) (act : bool) (duration : Z) : option InputService :=
inp ← all_inputs_ s !! i;
if idx inp =? VIRTUAL then Some s else
s ← (if has (emergency_reason inp) LIFT then
       s ← lift_accounting inp act s;
       j ← lift_multiple_input_ s;
       rec s j (2 <=? num_active_lift_ s)
     else Some s);
s ← (if has (emergency_reason inp) COLLISION then
       let n := count_step act (num_active_collision_ s) in
       let s := s <| num_active_collision_ := n |> in
       j ← collision_multiple_input_ s;
       rec s j (2 <=? n)
     else Some s);
Some (emit (change_events inp act duration) s).

(** [Update] calls [OnInputChanged], which updates the virtual inputs, whose own
  change is ignored: a fuel of 2 is the whole recursion ([Update_fuel]). *)
(* @ input_driver.cpp Input::Update *)
Fixpoint Update (fuel : nat) (s : InputService) (i : nat) (new_active : bool)
  (predate : Z) : option (InputService * bool) :=
match fuel with
| O => None
| S fuel =>
  let rec s j b := fst <$> Update fuel s j b 0 in
  inp ← all_inputs_ s !! i;
  let new_active := if invert inp then negb new_active else new_active in
  if Bool.eqb (active inp) new_active then Some (s, false) else
  let now := u32 (clock (time_reads s) - predate) in
  let s := s <| time_reads ::= S |> in
  s ← (if new_active then
         OnInputChanged rec
           (set_input i (inp <| active := true |> <| active_since := now |>) s) i true 0
       else
         let duration := ActiveDuration inp now in
         let pending := (negb (emergency_reason inp =? 0) &&
                         (emergency_delay_ms inp * 1000 <=? duration))%bool in
         OnInputChanged rec
           (set_input i (inp <| active := false |>
                             <| emergency_pending ::= orb pending |>) s) i false duration);
  Some (emit [BroadcastFlags INPUTS_CHANGED] s, true)
end.

(** [Input::Update] with the fuel its recursion needs. *)
(* @ input_driver.cpp Input::Update *)
Definition update_input (s : InputService) (i : nat) (new_active : bool) (predate : Z) :=
Update 2 s i new_active predate.

(* @ input_service.hpp InputService::GetPressDelay *)
Definition GetPressDelay (long_press : bool) : Z :=
u32 ((if long_press then LongPressTime regs else DebounceTime regs) * 1000).

(* @ input_driver.cpp Input::InjectPress *)
Definition InjectPress (s : InputService) (i : nat) (long_press : bool) : option InputService :=
'(s, _) ← update_input s i true (GetPressDelay long_press);
'(s, _) ← update_input s i false 0;
Some s.

(** One iteration of the loop of [GetEmergencyReasons]. *)
(* @ input_service.cpp:296-305 InputService::GetEmergencyReasons (loop body) *)
Definition emergency_step (now : Z) (acc : Z * Z) (i : Input) : (Z * Z) * Input :=
let '(reasons, block_time) := acc in
if emergency_reason i =? 0 then (acc, i) else
let '(pending, i') := GetAndClearPendingEmergency i in
if pending then ((Z.lor reasons (emergency_reason i), 0), i') else
if IsActive i then
  let '(hit, block_time) :=
    TimeoutReached (ActiveDuration i now) (u32 (emergency_delay_ms i * 1000)) block_time in
  ((if hit then Z.lor reasons (emergency_reason i) else reasons, block_time), i')
else (acc, i').

Fixpoint emergency_loop (now : Z) (acc : Z * Z) (l : list Input) : (Z * Z) * list Input :=
match l with
| [] => (acc, [])
| i :: r => let '(acc, i) := emergency_step now acc i in
            let '(acc, r) := emergency_loop now acc r in (acc, i :: r)
end.

(* @ input_service.cpp InputService::GetEmergencyReasons *)
Definition InputService_GetEmergencyReasons (s : InputService) (now : Z)
  : InputService * (Z * Z) :=
let '(r, l) := emergency_loop now (0, UINT32_MAX) (all_inputs_ s) in
(s <| all_inputs_ := l |>, r).

(** The status mask; [1 << input.idx] is an [int] shift, defined below bit 31. *)
(* @ input_service.cpp InputService::SendStatus *)
Definition active_inputs_mask (l : list Input) : Z :=
fold_left (fun m i => if (IsActive i && negb (idx i =? VIRTUAL))%bool
                      then Z.lor m (Z.shiftl 1 (idx i)) else m) l 0.
(* @ input_service.cpp InputService::SendStatus *)
Definition InputService_SendStatus (s : InputService) : InputService :=
emit [SendActiveInputs (active_inputs_mask (all_inputs_ s))] s.
End InputService.

(** ** The driver's list of inputs: an intrusive singly linked list through
    [next_for_driver_], whose nodes live in [all_inputs_]. *)

(** The walk of [InputIterable]: the chain from [p], with [fuel] bounding it. *)
(* @t input_driver.hpp InputIterable *)
Fixpoint Inputs (fuel : nat) (store : list Input) (p : option nat) : option (list nat) :=
  match p with
  | None => Some []
  | Some i => match fuel with
    | O => None
    | S fuel => inp ← store !! i; r ← Inputs fuel store (next_for_driver_ inp); Some (i :: r)
    end
  end.

(** [while (current->next_for_driver_ != nullptr) current = current->next_for_driver_]. *)
Fixpoint last_node (fuel : nat) (store : list Input) (i : nat) : option nat :=
  match fuel with
  | O => None
  | S fuel => inp ← store !! i;
      match next_for_driver_ inp with None => Some i | Some j => last_node fuel store j end
  end.

(* @ input_driver.cpp InputDriver::AddInput *)
Definition AddInput (fuel : nat) (store : list Input) (head : option nat) (new : nat)
    : option (list Input * option nat) :=
  match head with
  | None => Some (store, Some new)
  | Some h => c ← last_node fuel store h;
      Some (alter (fun i => i <| next_for_driver_ := Some new |>) c store, Some h)
  end.

(* @ input_driver.cpp InputDriver::ClearInputs *)
Definition ClearInputs (head : option nat) : option nat := None.

(** ** The counters invariant *)
Section Counters.
Context `{ER : EmergencyReasons} (clock : nat -> Z) (regs : input_regs).
Abbreviation Update := (Update clock regs).

Definition is_virtual (i : Input) : bool := idx i =? VIRTUAL.
(** An active input that counts towards lift group [g] (0: on its own). *)
Definition lifts (g : Z) (i : Input) : bool :=
  (negb (is_virtual i) && active i && has (emergency_reason i) LIFT &&
   (redundancy_group i =? g))%bool.
Definition collides (i : Input) : bool :=
  (negb (is_virtual i) && active i && has (emergency_reason i) COLLISION)%bool.

Definition lift_groups : list Z := [1; 2; 3; 4].
Definition group_lifted (l : list Input) (g : Z) : Z := Z.b2z (0 <? countb (lifts g) l).
(** The specification of [num_active_lift_]: single inputs and lifted groups. *)
Definition lift_count (l : list Input) : Z :=
  countb (lifts 0) l + fold_right (fun g n => group_lifted l g + n) 0 lift_groups.

Definition virtual_at (s : InputService) (p : option nat) (b : bool) : Prop :=
  exists j v, p = Some j /\ all_inputs_ s !! j = Some v /\ idx v = VIRTUAL /\
              invert v = false /\ active v = b.

Record counters_ok (s : InputService) : Prop := {
  ok_length : (length (all_inputs_ s) <= MAX_INPUTS)%nat;
  ok_refs : redundancy_group_refcount_ s !! 0%nat <> None;
  ok_groups : forall g, In g lift_groups ->
    redundancy_group_refcount_ s !! Z.to_nat g = Some (countb (lifts g) (all_inputs_ s));
  ok_range : forall i v, all_inputs_ s !! i = Some v -> In (redundancy_group v) (0 :: lift_groups);
  ok_lift : num_active_lift_ s = lift_count (all_inputs_ s);
  ok_collision : num_active_collision_ s = countb collides (all_inputs_ s);
  ok_virtual_lift : virtual_at s (lift_multiple_input_ s) (2 <=? num_active_lift_ s);
  ok_virtual_collision :
    virtual_at s (collision_multiple_input_ s) (2 <=? num_active_collision_ s);
  ok_virtual_ne : lift_multiple_input_ s <> collision_multiple_input_ s }.

Lemma lifts_virtual g v : idx v = VIRTUAL -> lifts g v = false.
Proof. intros H. unfold lifts, is_virtual. rewrite H. reflexivity. Qed.
Lemma collides_virtual v : idx v = VIRTUAL -> collides v = false.
Proof. intros H. unfold collides, is_virtual. rewrite H. reflexivity. Qed.

(** Replacing an input keeps a count its two versions agree on. *)
Lemma countb_same f (l : list Input) i v w :
  l !! i = Some v -> f v = f w -> countb f (<[i:=w]> l) = countb f l.
Proof. intros H E. rewrite (countb_insert _ _ _ _ _ H), E. lia. Qed.

Lemma lift_count_same (l : list Input) i v w :
  l !! i = Some v -> (forall g, lifts g v = lifts g w) ->
  lift_count (<[i:=w]> l) = lift_count l.
Proof.
  intros H E. unfold lift_count, group_lifted; cbn.
  rewrite !(countb_same _ _ _ _ _ H) by apply E. reflexivity.
Qed.

(** What a step leaves alone when it only touches virtual inputs. *)
Record same_counters (s s' : InputService) : Prop := {
  same_lift : num_active_lift_ s' = num_active_lift_ s;
  same_collision : num_active_collision_ s' = num_active_collision_ s;
  same_refs : redundancy_group_refcount_ s' = redundancy_group_refcount_ s;
  same_lift_ptr : lift_multiple_input_ s' = lift_multiple_input_ s;
  same_collision_ptr : collision_multiple_input_ s' = collision_multiple_input_ s }.

(** [Update] on a virtual input sets its activity and nothing else that counts. *)
Lemma Update_virtual n s j v b :
  all_inputs_ s !! j = Some v -> idx v = VIRTUAL -> invert v = false ->
  exists s' r w, Update (S n) s j b 0 = Some (s', r) /\
    all_inputs_ s' = <[j:=w]> (all_inputs_ s) /\ same_counters s s' /\
    idx w = VIRTUAL /\ invert w = false /\ active w = b /\
    redundancy_group w = redundancy_group v.
Proof.
  intros Hv Hi Hn. cbn [Input.Update]. rewrite Hv. cbn [mbind option_bind]. rewrite Hn.
  destruct (Bool.eqb (active v) b) eqn:E.
  - apply Bool.eqb_prop in E. exists s, false, v.
    rewrite list_insert_id by exact Hv. repeat split; auto.
  - assert (Hl : (j < length (all_inputs_ s))%nat) by (eapply lookup_lt_Some; eauto).
    destruct b; unfold OnInputChanged; cbn;
      rewrite list_lookup_insert_eq by exact Hl; cbn; rewrite Hi; cbn;
      (do 3 eexists; split; [reflexivity|]; cbn; split; [reflexivity|];
       repeat split; auto).
Qed.

(** *** One change of one input

    [toggles act v w]: [w] is [v] after its activity changed to [act]. *)
Record toggles (act : bool) (v w : Input) : Prop := {
  tog_old : active v = negb act; tog_new : active w = act;
  tog_idx : idx w = idx v; tog_group : redundancy_group w = redundancy_group v;
  tog_reason : emergency_reason w = emergency_reason v }.

Definition delta (act : bool) : Z := if act then 1 else -1.

Lemma lifts_toggle act v w l i g :
  toggles act v w -> l !! i = Some v -> is_virtual v = false ->
  countb (lifts g) (<[i:=w]> l) = countb (lifts g) l +
    if (has (emergency_reason v) LIFT && (redundancy_group v =? g))%bool then delta act else 0.
Proof.
  intros [H1 H2 H3 H4 H5] Hv Hi. rewrite (countb_insert _ _ _ _ _ Hv).
  unfold lifts, is_virtual in *. rewrite H1, H2, H3, H4, H5, Hi.
  destruct act, (has _ LIFT), (redundancy_group v =? g); cbn; lia.
Qed.
Lemma collides_toggle act v w l i :
  toggles act v w -> l !! i = Some v -> is_virtual v = false ->
  countb collides (<[i:=w]> l) = countb collides l +
    if has (emergency_reason v) COLLISION then delta act else 0.
Proof.
  intros [H1 H2 H3 H4 H5] Hv Hi. rewrite (countb_insert _ _ _ _ _ Hv).
  unfold collides, is_virtual in *. rewrite H1, H2, H3, H5, Hi.
  destruct act, (has _ COLLISION); cbn; lia.
Qed.

Definition lift_ok (s : InputService) (l : list Input) : Prop :=
  num_active_lift_ s = lift_count l /\ redundancy_group_refcount_ s !! 0%nat <> None /\
  forall g, In g lift_groups ->
    redundancy_group_refcount_ s !! Z.to_nat g = Some (countb (lifts g) l).

Lemma lift_count_bounds l :
  (length l <= MAX_INPUTS)%nat -> 0 <= lift_count l <= 255 - 1.
Proof.
  intros H. unfold lift_count, group_lifted; cbn.
  pose proof (countb_bounds (lifts 0) l). unfold MAX_INPUTS in H.
  do 4 (destruct (_ <? _); cbn [Z.b2z]); lia.
Qed.

Lemma count_step_delta act n :
  0 <= n + delta act <= 255 -> count_step act n = n + delta act.
Proof. unfold count_step, delta. intros. destruct act; rewrite u8_small by width; lia. Qed.


(** Toggling a lift input of group [g0] moves the lift count by the group's state. *)
Lemma lift_count_toggle act v w l i :
  toggles act v w -> l !! i = Some v -> is_virtual v = false ->
  has (emergency_reason v) LIFT = true -> In (redundancy_group v) (0 :: lift_groups) ->
  lift_count (<[i:=w]> l) = lift_count l +
    if redundancy_group v =? 0 then delta act
    else group_lifted (<[i:=w]> l) (redundancy_group v) - group_lifted l (redundancy_group v).
Proof.
  intros T Hv Hi Hl Hg. pose proof (fun g => lifts_toggle _ _ _ _ _ g T Hv Hi) as Ht.
  rewrite Hl in Ht. cbn [andb] in Ht. unfold lift_count, group_lifted. cbn [fold_right lift_groups].
  rewrite !Ht. destruct Hg as [<-|Hg]; [cbn; rewrite !Z.add_0_r; lia|].
  cbn in Hg. destruct Hg as [<-|[<-|[<-|[<-|[]]]]]; cbn [Z.eqb Pos.eqb]; rewrite ?Z.add_0_r; lia.
Qed.

Lemma refs_toggle act v w s l i refs :
  toggles act v w -> l !! i = Some v -> is_virtual v = false ->
  has (emergency_reason v) LIFT = true -> In (redundancy_group v) (0 :: lift_groups) ->
  lift_ok s l ->
  refs = (if redundancy_group v =? 0 then redundancy_group_refcount_ s
          else <[Z.to_nat (redundancy_group v) :=
                 countb (lifts (redundancy_group v)) (<[i:=w]> l)]> (redundancy_group_refcount_ s)) ->
  refs !! 0%nat <> None /\
  forall g, In g lift_groups -> refs !! Z.to_nat g = Some (countb (lifts g) (<[i:=w]> l)).
Proof.
  intros T Hv Hi Hl Hg (_ & H0 & Hr) ->. pose proof (fun g => lifts_toggle _ _ _ _ _ g T Hv Hi) as Ht.
  rewrite Hl in Ht. cbn [andb] in Ht. set (g0 := redundancy_group v) in *.
  destruct (Z.eqb_spec g0 0) as [E|E].
  - split; [exact H0|]. intros g Hgg. rewrite Ht, (Hr _ Hgg). destruct (Z.eqb_spec g0 g); [|f_equal; lia].
    cbn in Hgg. lia.
  - destruct Hg as [Hg|Hg]; [lia|]. assert (Hg1 : 1 <= g0 <= 4) by (cbn in Hg; lia).
    split; [rewrite list_lookup_insert_ne by lia; exact H0|]. intros g Hgg.
    destruct (Z.eq_dec g g0) as [->|Hne].
    + rewrite list_lookup_insert_eq; [reflexivity|]. eapply lookup_lt_Some, (Hr _ Hg).
    + assert (1 <= g <= 4) by (cbn in Hgg; lia). rewrite list_lookup_insert_ne by lia.
      rewrite Hr, Ht by exact Hgg. destruct (Z.eqb_spec g0 g); [lia|f_equal; lia].
Qed.

(** The lift accounting of [OnInputChanged] keeps the count and the reference
    counts in step with the inputs. *)
Lemma lift_accounting_ok act v w s l i :
  toggles act v w -> l !! i = Some v -> is_virtual v = false ->
  has (emergency_reason v) LIFT = true -> In (redundancy_group v) (0 :: lift_groups) ->
  (length l <= MAX_INPUTS)%nat -> lift_ok s l ->
  exists n refs, lift_accounting w act s = Some
      (s <| redundancy_group_refcount_ := refs |> <| num_active_lift_ := n |>) /\
    lift_ok (s <| redundancy_group_refcount_ := refs |> <| num_active_lift_ := n |>) (<[i:=w]> l).
Proof.
  intros T Hv Hi Hl Hg Hlen HL. pose proof (lift_count_toggle _ _ _ _ _ T Hv Hi Hl Hg) as Hc.
  pose proof (lifts_toggle _ _ _ _ _ (redundancy_group v) T Hv Hi) as Ht.
  rewrite Hl, Z.eqb_refl in Ht. cbn [andb] in Ht.
  pose proof (fun refs => refs_toggle _ _ _ _ _ _ refs T Hv Hi Hl Hg HL) as Href.
  destruct HL as (Hn & _ & Hr). set (g0 := redundancy_group v) in *.
  pose proof (lift_count_bounds _ Hlen) as B. rewrite <- (length_insert l i w) in Hlen.
  pose proof (lift_count_bounds _ Hlen) as B'. rewrite length_insert in Hlen.
  exists (lift_count (<[i:=w]> l)). eexists. unfold lift_ok. cbn.
  split; [|split; [reflexivity|apply Href; reflexivity]].
  unfold lift_accounting. rewrite (tog_group _ _ _ T). fold g0.
  destruct (Z.eqb_spec g0 0) as [E0|E0].
  - cbn. rewrite Hn, count_step_delta, Hc by lia. destruct s; reflexivity.
  - destruct Hg as [Hg|Hg]; [lia|]. rewrite (Hr _ Hg). cbn [mbind option_bind].
    assert (u8 (if act then countb (lifts g0) l + 1 else countb (lifts g0) l - 1)
            = countb (lifts g0) (<[i:=w]> l)) as ->.
    { pose proof (countb_bounds (lifts g0) (<[i:=w]> l)) as C. rewrite length_insert in C.
      unfold delta, MAX_INPUTS in *. destruct act; rewrite u8_small by width; lia. }
    pose proof (countb_bounds (lifts g0) (<[i:=w]> l)). pose proof (countb_bounds (lifts g0) l).
    unfold group_lifted in Hc. rewrite Ht in *. unfold delta in *.
    destruct act; (destruct (_ =? 0) eqn:Ez; bsimp); revert Hc;
      repeat (match goal with |- context [0 <? ?x] => destruct (Z.ltb_spec 0 x) end; try lia);
      cbn [Z.b2z]; intros;
      destruct s; cbn in *; subst; rewrite Hc; repeat (f_equal; try lia);
      rewrite count_step_delta; unfold delta; lia.
Qed.

(** A list that differs from another in virtual inputs only. *)
Definition same_inputs (l l' : list Input) : Prop :=
  length l' = length l /\ lift_count l' = lift_count l /\
  (forall g, countb (lifts g) l' = countb (lifts g) l) /\ countb collides l' = countb collides l.

Lemma same_inputs_virtual l j v w :
  l !! j = Some v -> idx v = VIRTUAL -> idx w = VIRTUAL -> same_inputs l (<[j:=w]> l).
Proof.
  intros H Hv Hw. split; [apply length_insert|].
  split; [apply (lift_count_same _ _ v); [assumption|intros; rewrite !lifts_virtual; auto]|].
  split; [intros g|]; apply (countb_same _ _ _ v); auto;
    rewrite ?lifts_virtual, ?collides_virtual; auto.
Qed.

Record virtual_step_spec (p : option nat) (b : bool) (s s' : InputService) : Prop := {
  vs_counters : same_counters s s';
  vs_inputs : same_inputs (all_inputs_ s) (all_inputs_ s');
  vs_set : virtual_at s' p b;
  vs_other : forall q b', q <> p -> virtual_at s q b' -> virtual_at s' q b';
  vs_real : forall i v, all_inputs_ s !! i = Some v -> is_virtual v = false ->
              all_inputs_ s' !! i = Some v;
  vs_groups : forall i v, all_inputs_ s' !! i = Some v ->
              exists v', all_inputs_ s !! i = Some v' /\ redundancy_group v = redundancy_group v' }.

(** Calling [Update] back on a virtual input, as [OnInputChanged] does. *)
Lemma virtual_step n s p b0 b :
  virtual_at s p b0 ->
  exists j s', p = Some j /\ fst <$> Update (S n) s j b 0 = Some s' /\ virtual_step_spec p b s s'.
Proof.
  intros (j & v & -> & Hv & Hi & Hn & _).
  destruct (Update_virtual n s j v b Hv Hi Hn) as (s' & r & w & E & Hl & Hs & Hwi & Hwn & Hwa & Hwg).
  exists j, s'. rewrite E. repeat split; try apply Hs.
  1-4: rewrite Hl; apply (same_inputs_virtual _ _ v); auto.
  - exists j, w. rewrite Hl, list_lookup_insert_eq by (eapply lookup_lt_Some; eauto). auto.
  - intros q b' Hq (k & u & -> & Hu & Hrest). exists k, u. rewrite Hl.
    rewrite list_lookup_insert_ne by congruence. auto.
  - intros i u Hu Hr. rewrite Hl, list_lookup_insert_ne; [exact Hu|].
    intros ->. rewrite Hv in Hu. injection Hu as <-. unfold is_virtual in Hr. rewrite Hi in Hr.
    discriminate.
  - intros i u Hu. rewrite Hl in Hu. destruct (Nat.eq_dec i j) as [->|Hne].
    + rewrite list_lookup_insert_eq in Hu by (eapply lookup_lt_Some; eauto).
      injection Hu as <-. eauto.
    + rewrite list_lookup_insert_ne in Hu by auto. eauto.
Qed.

(** Between the two halves of [OnInputChanged]: [bl] and [bc] are the
    activities of the virtual inputs, [nc] the collision count that is due. *)
Record mid_ok (bl bc : bool) (nc : Z) (s : InputService) : Prop := {
  mid_length : (length (all_inputs_ s) <= MAX_INPUTS)%nat;
  mid_range : forall i v, all_inputs_ s !! i = Some v ->
                In (redundancy_group v) (0 :: lift_groups);
  mid_lift : lift_ok s (all_inputs_ s);
  mid_collision : num_active_collision_ s = nc;
  mid_vl : virtual_at s (lift_multiple_input_ s) bl;
  mid_vc : virtual_at s (collision_multiple_input_ s) bc;
  mid_ne : lift_multiple_input_ s <> collision_multiple_input_ s }.

Lemma counters_ok_mid s :
  counters_ok s <-> mid_ok (2 <=? num_active_lift_ s) (2 <=? num_active_collision_ s)
                      (countb collides (all_inputs_ s)) s.
Proof.
  split.
  - intros []. repeat split; auto.
  - intros [? ? (? & ? & ?)]. split; auto.
Qed.

Lemma mid_virtual bl bc nc s s' p b :
  mid_ok bl bc nc s -> virtual_step_spec p b s s' ->
  p = lift_multiple_input_ s \/ p = collision_multiple_input_ s ->
  mid_ok (if decide (p = lift_multiple_input_ s) then b else bl)
         (if decide (p = collision_multiple_input_ s) then b else bc) nc s'.
Proof.
  intros [M1 M2 (M3 & M4 & M5) M6 M7 M8 M9] [[E1 E2 E3 E4 E5] (L1 & L2 & L3 & L4) V O _ G] Hp.
  split; rewrite ?E2, ?E4, ?E5, ?L1; auto.
  - intros i v Hv. destruct (G i v Hv) as (v' & Hv' & ->). eauto.
  - split; [rewrite E1, L2; auto|rewrite E3; split; [auto|intros g Hg; rewrite L3; auto]].
  - case_decide; [subst; auto|apply O; auto].
  - case_decide; [subst; auto|apply O; auto].
Qed.

Lemma virtual_at_set s p b i v w :
  virtual_at s p b -> all_inputs_ s !! i = Some v -> is_virtual v = false ->
  virtual_at (set_input i w s) p b.
Proof.
  intros (j & u & -> & Hu & Hi & Hr) Hv Hn. exists j, u. split; [reflexivity|]. cbn.
  rewrite list_lookup_insert_ne; [auto|]. intros ->. rewrite Hu in Hv. injection Hv as <-.
  unfold is_virtual in Hn. rewrite Hi in Hn. discriminate.
Qed.

Lemma is_virtual_idx v w : idx w = idx v -> is_virtual w = is_virtual v.
Proof. unfold is_virtual. intros ->. reflexivity. Qed.

(** The lift half of [OnInputChanged]. *)
Lemma lift_half n act v w s i :
  counters_ok s -> all_inputs_ s !! i = Some v -> is_virtual v = false -> toggles act v w ->
  exists s', (if has (emergency_reason w) LIFT then
       s ← lift_accounting w act (set_input i w s);
       j ← lift_multiple_input_ s;
       fst <$> Update (S n) s j (2 <=? num_active_lift_ s) 0
     else Some (set_input i w s)) = Some s' /\
    mid_ok (2 <=? num_active_lift_ s') (2 <=? num_active_collision_ s)
      (countb collides (all_inputs_ s)) s' /\
    all_inputs_ s' !! i = Some w /\
    countb collides (all_inputs_ s') = countb collides (<[i:=w]> (all_inputs_ s)).
Proof.
  intros [K1 K2 K3 K4 K5 K6 K7 K8 K9] Hv Hn T. pose proof (lookup_lt_Some _ _ _ Hv) as Hlt.
  assert (Hw : is_virtual w = false) by (rewrite (is_virtual_idx v w); [auto|apply T]).
  assert (HR : forall k u, <[i:=w]> (all_inputs_ s) !! k = Some u ->
               In (redundancy_group u) (0 :: lift_groups)).
  { intros k u Hu. destruct (Nat.eq_dec k i) as [->|Hne].
    - rewrite list_lookup_insert_eq in Hu by auto. injection Hu as <-. rewrite (tog_group _ _ _ T). eauto.
    - rewrite list_lookup_insert_ne in Hu by auto. eauto. }
  rewrite (tog_reason _ _ _ T). destruct (has (emergency_reason v) LIFT) eqn:HL.
  - destruct (lift_accounting_ok act v w (set_input i w s) (all_inputs_ s) i T Hv Hn HL)
      as (k & refs & -> & HLo); eauto; [split; [auto|split; auto]|]. cbn [mbind option_bind].
    set (s1 := _ <| num_active_lift_ := k |>) in *.
    assert (M : mid_ok (2 <=? num_active_lift_ s) (2 <=? num_active_collision_ s)
                  (countb collides (all_inputs_ s)) s1).
    { split; [cbn; rewrite length_insert; auto|exact HR|exact HLo|exact K6| | |exact K9].
      - exact (virtual_at_set s _ _ i v w K7 Hv Hn).
      - exact (virtual_at_set s _ _ i v w K8 Hv Hn). }
    destruct (virtual_step n s1 _ _ (2 <=? num_active_lift_ s1) (mid_vl _ _ _ _ M))
      as (j & s' & Ep & Ej & VS). rewrite Ep. cbn [mbind option_bind]. rewrite Ej.
    exists s'. split; [reflexivity|].
    pose proof (mid_virtual _ _ _ _ _ _ _ M VS (or_introl eq_refl)) as M'.
    rewrite decide_True, decide_False in M' by (auto; apply M).
    rewrite (same_lift _ _ (vs_counters _ _ _ _ VS)). split; [exact M'|]. split.
    + eapply (vs_real _ _ _ _ VS); [|exact Hw]. cbn. apply list_lookup_insert_eq; auto.
    + apply (vs_inputs _ _ _ _ VS).
  - exists (set_input i w s). split; [reflexivity|]. split; [|split; [apply list_lookup_insert_eq; auto|reflexivity]].
    assert (Hsame : forall g, lifts g v = lifts g w).
    { intros g. unfold lifts. rewrite (tog_reason _ _ _ T), HL, !andb_false_r. reflexivity. }
    split; [cbn; rewrite length_insert; auto|exact HR| |exact K6| | |exact K9].
    + cbn. split; [rewrite (lift_count_same _ _ v) by auto; auto|]. split; [auto|].
      intros g Hg. rewrite (countb_same _ _ _ v) by auto. auto.
    + exact (virtual_at_set s _ _ i v w K7 Hv Hn).
    + exact (virtual_at_set s _ _ i v w K8 Hv Hn).
Qed.

Lemma collision_count_bounds l :
  (length l <= MAX_INPUTS)%nat -> 0 <= countb collides l <= 255.
Proof. intros. pose proof (countb_bounds collides l). unfold MAX_INPUTS in *. lia. Qed.

(** The collision half. *)
Lemma collision_half n act v w l s i :
  mid_ok (2 <=? num_active_lift_ s) (2 <=? countb collides l) (countb collides l) s ->
  l !! i = Some v -> is_virtual v = false -> toggles act v w -> (length l <= MAX_INPUTS)%nat ->
  all_inputs_ s !! i = Some w -> countb collides (all_inputs_ s) = countb collides (<[i:=w]> l) ->
  exists s', (if has (emergency_reason w) COLLISION then
       let n0 := count_step act (num_active_collision_ s) in
       let s := s <| num_active_collision_ := n0 |> in
       j ← collision_multiple_input_ s;
       fst <$> Update (S n) s j (2 <=? n0) 0
     else Some s) = Some s' /\ counters_ok s' /\ all_inputs_ s' !! i = Some w.
Proof.
  intros M Hv Hn T Hlen Hw Hc. rewrite (collides_toggle _ _ _ _ _ T Hv Hn) in Hc.
  assert (Hwn : is_virtual w = false) by (rewrite (is_virtual_idx v w); [auto|apply T]).
  rewrite (tog_reason _ _ _ T). destruct (has (emergency_reason v) COLLISION) eqn:HC.
  - pose proof (collision_count_bounds _ Hlen). pose proof (collision_count_bounds _ (mid_length _ _ _ _ M)).
    cbv zeta. rewrite (mid_collision _ _ _ _ M), count_step_delta, <- Hc by lia.
    set (s1 := s <| num_active_collision_ := _ |>).
    assert (M1 : mid_ok (2 <=? num_active_lift_ s1) (2 <=? countb collides l)
                   (countb collides (all_inputs_ s)) s1).
    { destruct M; split; first [assumption|reflexivity]. }
    destruct (virtual_step n s1 _ _ (2 <=? countb collides (all_inputs_ s)) (mid_vc _ _ _ _ M1))
      as (j & s' & Ep & Ej & VS). rewrite Ep. cbn [mbind option_bind]. rewrite Ej.
    exists s'. split; [reflexivity|]. split; [|eapply (vs_real _ _ _ _ VS); eauto].
    pose proof (mid_virtual _ _ _ _ _ _ _ M1 VS (or_intror eq_refl)) as M'.
    pose proof (mid_ne _ _ _ _ M1). rewrite decide_False, decide_True in M' by auto.
    destruct VS as [SC (_ & _ & _ & SI) _ _ _ _]. apply counters_ok_mid.
    rewrite (same_lift _ _ SC), SI, (mid_collision _ _ _ _ M'). exact M'.
  - exists s. split; [reflexivity|]. split; [|exact Hw]. apply counters_ok_mid.
    rewrite Hc, (mid_collision _ _ _ _ M), Z.add_0_r. exact M.
Qed.

Lemma emit_counters o s : counters_ok s -> counters_ok (emit o s).
Proof. intros []. split; auto. Qed.
Lemma reads_counters f s : counters_ok s -> counters_ok (s <| time_reads ::= f |>).
Proof. intros []. split; auto. Qed.

(** [OnInputChanged] after an input toggled. *)
Lemma OnInputChanged_ok n act v w s i d :
  counters_ok s -> all_inputs_ s !! i = Some v -> is_virtual v = false -> toggles act v w ->
  exists s', OnInputChanged regs (fun s j b => fst <$> Update (S n) s j b 0)
               (set_input i w s) i act d = Some s' /\
    counters_ok s' /\ all_inputs_ s' !! i = Some w.
Proof.
  intros K Hv Hn T. pose proof (lookup_lt_Some _ _ _ Hv) as Hlt.
  destruct (lift_half n act v w s i K Hv Hn T) as (s1 & E1 & M1 & Hw1 & Hc1).
  rewrite (ok_collision _ K) in M1.
  destruct (collision_half n act v w (all_inputs_ s) s1 i M1 Hv Hn T (ok_length _ K) Hw1 Hc1)
    as (s2 & E2 & K2 & Hw2).
  exists (emit (change_events regs w act d) s2). split; [|split; [apply emit_counters; auto|exact Hw2]].
  unfold OnInputChanged. cbn [all_inputs_ set_input update]. cbn.
  rewrite list_lookup_insert_eq by exact Hlt. cbn [mbind option_bind].
  pose proof (is_virtual_idx v w (tog_idx _ _ _ T)) as Hwv. rewrite Hn in Hwv.
  unfold is_virtual in Hwv. rewrite Hwv. cbn in E1, E2 |- *.
  rewrite E1. cbn [mbind option_bind]. rewrite E2. reflexivity.
Qed.

(** What [Update] leaves in the input it is called on. *)
Definition updated (s : InputService) (v : Input) (b : bool) (predate : Z) : Input :=
  let b := if invert v then negb b else b in
  let now := u32 (clock (time_reads s) - predate) in
  if Bool.eqb (active v) b then v
  else if b then v <| active := true |> <| active_since := now |>
  else v <| active := false |>
         <| emergency_pending ::= orb (negb (emergency_reason v =? 0) &&
              (emergency_delay_ms v * 1000 <=? ActiveDuration v now)) |>.

Lemma Update_ok n s i v b predate :
  counters_ok s -> all_inputs_ s !! i = Some v -> is_virtual v = false ->
  exists s', Update (S (S n)) s i b predate =
      Some (s', negb (Bool.eqb (active v) (if invert v then negb b else b))) /\
    counters_ok s' /\ all_inputs_ s' !! i = Some (updated s v b predate).
Proof.
  intros K Hv Hn. unfold updated. remember (S n) as m eqn:Hm. cbn [Input.Update].
  rewrite Hv. cbn [mbind option_bind].
  set (b' := if invert v then negb b else b).
  destruct (Bool.eqb (active v) b') eqn:E; [exists s; auto|].
  assert (Ha : active v = negb b') by (destruct (active v), b'; auto; discriminate).
  set (s1 := s <| time_reads ::= S |>).
  assert (K1 : counters_ok s1) by (apply reads_counters; exact K).
  subst m. cbn [negb].
  destruct b'; match goal with |- context [OnInputChanged regs _ (set_input i ?w s1) i ?a ?d] =>
      destruct (OnInputChanged_ok n a v w s1 i d K1 Hv Hn) as (s2 & -> & K2 & Hw);
        [split; auto|] end; cbn [mbind option_bind];
    (eexists; split; [reflexivity|]; split; [apply emit_counters; exact K2|exact Hw]).
Qed.

(** The configuration half of an input, which no update changes. *)
Definition static (i : Input) : Z * bool * Z * Z * Z * input_config :=
  (idx i, invert i, redundancy_group i, emergency_reason i, emergency_delay_ms i, config i).
(** With the link of the driver's list. *)
Definition fixed (i : Input) := (static i, next_for_driver_ i).

Lemma map_fixed_insert (l : list Input) i v w :
  l !! i = Some v -> fixed w = fixed v -> fixed <$> <[i:=w]> l = fixed <$> l.
Proof.
  intros Hv E. rewrite list_fmap_insert, E, <- (list_insert_id (fixed <$> l) i (fixed v)) at 1;
    [rewrite list_insert_insert_eq; apply list_insert_id|]; rewrite list_lookup_fmap, Hv; reflexivity.
Qed.

Lemma lift_accounting_list v act s s' :
  lift_accounting v act s = Some s' -> all_inputs_ s' = all_inputs_ s.
Proof.
  unfold lift_accounting. split_if; [intros [= <-]; reflexivity|].
  destruct (_ !! _) as [rc|]; cbn; [|discriminate]. split_if; intros [= <-]; reflexivity.
Qed.

Ltac bind H := match type of H with
  | mbind _ ?o = Some _ => let E := fresh "E" in destruct o eqn:E; cbn [mbind option_bind] in H; [|discriminate H]
  end.

Lemma Update_fixed n s i b predate s' r :
  Update n s i b predate = Some (s', r) -> fixed <$> all_inputs_ s' = fixed <$> all_inputs_ s.
Proof.
  revert s i b predate s' r; induction n as [|n IH]; intros s i b predate s' r H; [discriminate|].
  cbn [Input.Update] in H. bind H. rename i0 into v.
  destruct (Bool.eqb _ _); [injection H as <- <-; reflexivity|].
  assert (R : forall s0 j c s1, fst <$> Update n s0 j c 0 = Some s1 ->
              fixed <$> all_inputs_ s1 = fixed <$> all_inputs_ s0).
  { intros s0 j c s1. destruct (Update n s0 j c 0) as [[s2 r2]|] eqn:E2; [|discriminate].
    intros [= <-]. eapply IH; eauto. }
  assert (C : forall s0 w act d s1, all_inputs_ s0 !! i = Some v -> fixed w = fixed v ->
    OnInputChanged regs (fun s j b => fst <$> Update n s j b 0) (set_input i w s0) i act d = Some s1 ->
    fixed <$> all_inputs_ s1 = fixed <$> all_inputs_ s0).
  { intros s0 w act d s1 Hv Hw HO. rewrite <- (map_fixed_insert _ i v w Hv Hw).
    change (<[i:=w]> (all_inputs_ s0)) with (all_inputs_ (set_input i w s0)).
    revert HO; generalize (set_input i w s0). clear s0 Hv. intros s0 HO.
    unfold OnInputChanged in HO. bind HO. split_if_in HO; [injection HO as <-; reflexivity|].
    apply bind_Some in HO as (s2 & H1 & HO). apply bind_Some in HO as (s3 & H2 & HO).
    injection HO as <-. transitivity (fixed <$> all_inputs_ s2); cbn.
    - split_if_in H2; [apply bind_Some in H2 as (j & _ & H2); apply R in H2; exact H2|congruence].
    - split_if_in H1; [|congruence]. apply bind_Some in H1 as (s4 & HL & H1).
      apply bind_Some in H1 as (j & _ & H1). apply R in H1. apply lift_accounting_list in HL. congruence. }
  split_if_in H; bind H; injection H as <- <-; cbn in E1 |- *; eapply C in E1; eauto.
Qed.

Lemma Update_static n s i b predate s' r :
  Update n s i b predate = Some (s', r) -> static <$> all_inputs_ s' = static <$> all_inputs_ s.
Proof.
  intros H. apply Update_fixed, (f_equal (fmap fst)) in H. rewrite <- !list_fmap_compose in H. exact H.
Qed.

(** What an update may write: the input, and the virtual ones. *)
Definition untouched (i : nat) (s s' : InputService) : Prop :=
  lift_multiple_input_ s' = lift_multiple_input_ s /\ collision_multiple_input_ s' = collision_multiple_input_ s /\
  forall j, j <> i -> Some j <> lift_multiple_input_ s -> Some j <> collision_multiple_input_ s ->
    all_inputs_ s' !! j = all_inputs_ s !! j.
Lemma untouched_trans i s1 s2 s3 : untouched i s1 s2 -> untouched i s2 s3 -> untouched i s1 s3.
Proof.
  intros (A & B & C) (A' & B' & C'). split; [congruence|]. split; [congruence|].
  intros j H1 H2 H3. rewrite C' by congruence. auto.
Qed.
Lemma untouched_ptr i j s s' : Some j = lift_multiple_input_ s \/ Some j = collision_multiple_input_ s ->
  untouched j s s' -> untouched i s s'.
Proof.
  intros H (A & B & C). split; [exact A|]. split; [exact B|]. intros k H1 H2 H3. apply C; [|assumption..].
  intros ->. destruct H; congruence.
Qed.
Lemma lift_accounting_untouched i v act s s' : lift_accounting v act s = Some s' -> untouched i s s'.
Proof.
  intros H. split; [|split; [|intros; rewrite (lift_accounting_list _ _ _ _ H); reflexivity]];
    revert H; unfold lift_accounting; (split_if; [intros [= <-]; reflexivity|]);
    (destruct (_ !! _) as [rc|]; cbn; [|discriminate]); split_if; intros [= <-]; reflexivity.
Qed.
Lemma Update_untouched n s i b predate s' r : Update n s i b predate = Some (s', r) -> untouched i s s'.
Proof.
  assert (Refl : forall i s, untouched i s s) by (intros; split; auto).
  revert s i b predate s' r; induction n as [|n IH]; intros s i b predate s' r H; [discriminate|].
  cbn [Input.Update] in H. bind H. rename i0 into v.
  destruct (Bool.eqb _ _); [injection H as <- <-; apply Refl|].
  assert (R : forall s0 j c s1, fst <$> Update n s0 j c 0 = Some s1 -> untouched j s0 s1).
  { intros s0 j c s1. destruct (Update n s0 j c 0) as [[s2 r2]|] eqn:E2; [|discriminate].
    intros [= <-]. eapply IH; eauto. }
  assert (C : forall s0 w act d s1,
    OnInputChanged regs (fun s j b => fst <$> Update n s j b 0) (set_input i w s0) i act d = Some s1 -> untouched i s0 s1).
  { intros s0 w act d s1 HO. eapply (untouched_trans i s0 (set_input i w s0)).
    { split; [reflexivity|]. split; [reflexivity|]. intros j Hj _ _. cbn. apply list_lookup_insert_ne. congruence. }
    revert HO; generalize (set_input i w s0). clear s0. intros s0 HO.
    unfold OnInputChanged in HO. bind HO. split_if_in HO; [injection HO as <-; apply Refl|].
    apply bind_Some in HO as (s2 & H1 & HO). apply bind_Some in HO as (s3 & H2 & HO).
    injection HO as <-. apply (untouched_trans i s0 s2).
    - split_if_in H1; [|injection H1 as <-; apply Refl]. apply bind_Some in H1 as (s4 & HL & H1).
      apply bind_Some in H1 as (j & Hj & H1). apply R in H1.
      eapply untouched_trans; [eapply lift_accounting_untouched, HL|]. eapply untouched_ptr; [|exact H1]. auto.
    - change (untouched i s2 s3). split_if_in H2; [|injection H2 as <-; apply Refl].
      apply bind_Some in H2 as (j & Hj & H2). apply R in H2. cbn in Hj.
      exact (untouched_ptr i j s2 s3 (or_intror (eq_sym Hj)) H2). }
  split_if_in H; bind H; injection H as <- <-; cbn in E1 |- *; apply C in E1; exact E1.
Qed.
Lemma Update_others n s i b p s' r j v : Update n s i b p = Some (s', r) ->
  counters_ok s -> j <> i -> all_inputs_ s !! j = Some v -> is_virtual v = false -> all_inputs_ s' !! j = Some v.
Proof.
  intros H K Hj Hv Hn. apply Update_untouched in H as (_ & _ & H). rewrite <- Hv.
  assert (V : forall q b, virtual_at s q b -> Some j <> q).
  { intros q b' (k & u & -> & Hu & Hi & _) [= <-]. rewrite Hv in Hu. injection Hu as <-.
    unfold is_virtual in Hn. rewrite Hi in Hn. discriminate. }
  apply H; [exact Hj|eapply V, (ok_virtual_lift _ K)|eapply V, (ok_virtual_collision _ K)].
Qed.

(** Any sequence of driver updates. *)
Definition run_updates (s : InputService) (us : list (nat * bool * Z)) : option InputService :=
  fold_left (fun o '(i, b, p) => s ← o; fst <$> update_input clock regs s i b p) us (Some s).

Lemma run_updates_ok us s :
  counters_ok s ->
  Forall (fun '(i, _, _) => exists v, all_inputs_ s !! i = Some v /\ is_virtual v = false) us ->
  exists s', run_updates s us = Some s' /\ counters_ok s' /\
    static <$> all_inputs_ s' = static <$> all_inputs_ s.
Proof.
  revert s; induction us as [|[[i b] p] us IH]; intros s K H; [exists s; auto|].
  apply Forall_cons in H as [(v & Hv & Hn) Hus].
  destruct (Update_ok 0 s i v b p K Hv Hn) as (s1 & E & K1 & _).
  pose proof (Update_static _ _ _ _ _ _ _ E) as S1.
  destruct (IH s1 K1) as (s2 & E2 & K2 & S2).
  - eapply List.Forall_impl; [|exact Hus]. intros [[j b'] p'] (u & Hu & Hun).
    apply (f_equal (fun l => l !! j)) in S1. rewrite !list_lookup_fmap, Hu in S1.
    destruct (all_inputs_ s1 !! j) as [u'|]; [|discriminate]. exists u'. split; [reflexivity|].
    injection S1 as S1. rewrite (is_virtual_idx u u'); congruence.
  - exists s2. split; [|split; [exact K2|congruence]].
    unfold run_updates, update_input in *. cbn [fold_left mbind option_bind]. rewrite E. exact E2.
Qed.
End Counters.

(** ** [GetEmergencyReasons] *)
Section Reasons.
(** Input [i] raises its reason at time [now]: its press was long enough when
    it ended, or it has been active for its delay. *)
Definition fires (now : Z) (i : Input) : bool :=
  (negb (emergency_reason i =? 0) &&
   (emergency_pending i || (active i && (emergency_delay_ms i * 1000 <=? ActiveDuration i now))))%bool.
Definition pends (i : Input) : bool := (negb (emergency_reason i =? 0) && emergency_pending i)%bool.
(** How long the caller may sleep because of input [i]. *)
Definition wait (now : Z) (i : Input) : Z :=
  if (negb (emergency_reason i =? 0) && active i &&
      negb (emergency_delay_ms i * 1000 <=? ActiveDuration i now))%bool
  then emergency_delay_ms i * 1000 - ActiveDuration i now else UINT32_MAX.
Definition served (i : Input) : Input :=
  if emergency_reason i =? 0 then i else i <| emergency_pending := false |>.

Definition reasons_of (now : Z) (l : list Input) : Z :=
  fold_right (fun i m => Z.lor (if fires now i then emergency_reason i else 0) m) 0 l.
Definition wait_of (now : Z) (l : list Input) : Z :=
  if existsb pends l then 0
  else fold_right (fun i b => Z.min (wait now i) b) UINT32_MAX l.

Lemma ActiveDuration_u32 i now : is_u32 (ActiveDuration i now).
Proof. apply u32_range. Qed.

Lemma wait_range now i : is_u16 (emergency_delay_ms i) -> 0 <= wait now i <= UINT32_MAX.
Proof.
  intros H. unfold wait. pose proof (ActiveDuration_u32 i now). unfold UINT32_MAX.
  split_if; bsimp; width.
Qed.

Lemma emergency_step_spec now r b i :
  is_u16 (emergency_delay_ms i) -> 0 <= b <= UINT32_MAX ->
  emergency_step now (r, b) i =
    ((Z.lor r (if fires now i then emergency_reason i else 0),
      if pends i then 0 else if emergency_pending i && negb (emergency_reason i =? 0) then 0
      else Z.min b (wait now i)), served i).
Proof.
  intros Hd Hb. unfold emergency_step, fires, pends, wait, served, GetAndClearPendingEmergency, IsActive.
  destruct (emergency_reason i =? 0) eqn:E0; cbn.
  - rewrite Z.lor_0_r, andb_false_r, Z.min_l by lia. reflexivity.
  - destruct (emergency_pending i) eqn:Ep; [reflexivity|]. cbn.
    assert (Ei : eta i = i) by (destruct i; reflexivity). unfold eta, eta_Input in Ei.
    rewrite Ep in Ei. rewrite Ei.
    destruct (active i); cbn; [|rewrite Z.lor_0_r, Z.min_l by lia; reflexivity].
    unfold TimeoutReached. pose proof (ActiveDuration_u32 i now).
    rewrite u32_small by width. destruct (_ <=? _) eqn:E; cbn.
    + rewrite Z.min_l by lia. reflexivity.
    + bsimp. rewrite u32_small by width. rewrite Z.lor_0_r. reflexivity.
Qed.

Lemma emergency_loop_spec now l : forall r b,
  Forall (fun i => is_u16 (emergency_delay_ms i)) l -> 0 <= b <= UINT32_MAX ->
  emergency_loop now (r, b) l =
    ((Z.lor r (reasons_of now l), if existsb pends l then 0 else
        Z.min b (fold_right (fun i b => Z.min (wait now i) b) UINT32_MAX l)), served <$> l).
Proof.
  induction l as [|i l IH]; intros r b Hl Hb.
  - cbn. rewrite Z.lor_0_r, Z.min_l by lia. reflexivity.
  - apply Forall_cons in Hl as [Hi Hl]. cbn [emergency_loop].
    rewrite emergency_step_spec by auto. pose proof (wait_range now i Hi).
    assert (Ep : (emergency_pending i && negb (emergency_reason i =? 0))%bool = pends i)
      by (unfold pends; apply andb_comm). rewrite Ep.
    rewrite IH; [|exact Hl|destruct (pends i); unfold UINT32_MAX in *; lia].
    assert (W : Forall (fun i => is_u16 (emergency_delay_ms i)) l ->
      0 <= fold_right (fun i b => Z.min (wait now i) b) UINT32_MAX l).
    { clear. induction 1 as [|i l Hi _ IH]; cbn; [unfold UINT32_MAX; lia|].
      pose proof (wait_range now i Hi). lia. }
    specialize (W Hl). cbn. f_equal; f_equal; [rewrite <- Z.lor_assoc; reflexivity|].
    destruct (pends i); cbn; [|destruct (existsb pends l); lia].
    destruct (existsb pends l); [reflexivity|]. rewrite Z.min_l by lia. reflexivity.
Qed.

Lemma wait_nonneg_fold now l :
  fold_right (fun i b => Z.min (wait now i) b) UINT32_MAX l <= UINT32_MAX.
Proof. induction l as [|i l IH]; cbn; lia. Qed.

Lemma GetEmergencyReasons_served s now :
  Forall (fun i => is_u16 (emergency_delay_ms i)) (all_inputs_ s) ->
  InputService_GetEmergencyReasons s now =
    (s <| all_inputs_ ::= fmap served |>,
     (reasons_of now (all_inputs_ s), wait_of now (all_inputs_ s))).
Proof.
  intros H. unfold InputService_GetEmergencyReasons, wait_of.
  rewrite emergency_loop_spec by (auto; unfold UINT32_MAX; lia). cbn.
  destruct (existsb _ _); [reflexivity|]. rewrite Z.min_r by apply wait_nonneg_fold. reflexivity.
Qed.
End Reasons.

(** ** The driver's list *)
Section Chain.
(** The nodes of the chain from [p]. *)
Fixpoint chain (store : list Input) (p : option nat) (l : list nat) : Prop :=
  match l with
  | [] => p = None
  | i :: r => p = Some i /\ exists v, store !! i = Some v /\ chain store (next_for_driver_ v) r
  end.

Lemma chain_fun store l : forall p m, chain store p l -> chain store p m -> l = m.
Proof.
  induction l as [|i l IH]; intros p [|j m]; cbn; try (intros; destruct_and?; congruence).
  intros (-> & v & Hv & H) ([= <-] & w & Hw & H'). f_equal. rewrite Hv in Hw. injection Hw as <-. eauto.
Qed.
Lemma chain_suffix store l1 : forall p i l2,
  chain store p (l1 ++ i :: l2) -> chain store (Some i) (i :: l2).
Proof.
  induction l1 as [|j l1 IH]; intros p i l2; cbn.
  - intros (-> & H). auto.
  - intros (_ & v & _ & H). exact (IH _ _ _ H).
Qed.
Lemma chain_NoDup store l : forall p, chain store p l -> NoDup l.
Proof.
  induction l as [|i l IH]; intros p; [constructor|]. intros H. constructor.
  - intros (l1 & l2 & ->)%list_elem_of_split.
    pose proof (chain_suffix store (i :: l1) _ _ _ H) as H2. cbn in H. destruct H as [-> H].
    assert (E : i :: l1 ++ i :: l2 = i :: l2) by (eapply chain_fun; [split; eauto|exact H2]).
    apply (f_equal length) in E. cbn in E. rewrite length_app in E. cbn in E. lia.
  - destruct H as (_ & v & _ & H). eauto.
Qed.

Lemma Inputs_chain store l : forall fuel p,
  Inputs fuel store p = Some l <-> (length l <= fuel)%nat /\ chain store p l.
Proof.
  induction l as [|i l IH]; intros fuel p; cbn [chain length].
  - destruct p as [j|]; [|destruct fuel; cbn; split; [split; [lia|reflexivity]|reflexivity|split; [lia|reflexivity]|reflexivity]].
    split; [|intros [_ H]; discriminate H]. destruct fuel; cbn; [discriminate|].
    destruct (store !! j) as [v|]; cbn; [|discriminate]. destruct (Inputs _ _ _); discriminate.
  - destruct p as [j|]; [|destruct fuel; cbn; split; try discriminate; intros (_ & H & _); discriminate H].
    destruct fuel as [|fuel]; cbn; [split; [discriminate|lia]|].
    destruct (store !! j) as [v|] eqn:Ev; cbn.
    + split.
      * destruct (Inputs fuel store _) as [r|] eqn:Er; cbn; [|discriminate]. intros [= <- <-].
        apply IH in Er as [Hl Hc]. split; [lia|]. eauto.
      * intros (Hl & [= ->] & w & Hw & Hc). rewrite Ev in Hw. injection Hw as <-.
        assert (Inputs fuel store (next_for_driver_ v) = Some l) as -> by (apply IH; split; [lia|auto]).
        reflexivity.
    + split; [discriminate|]. intros (_ & [= ->] & w & Hw & _). congruence.
Qed.

Lemma last_node_chain store l : forall fuel i,
  chain store (Some i) (i :: l) -> (length l < fuel)%nat ->
  last_node fuel store i = last (i :: l).
Proof.
  induction l as [|j l IH]; intros [|fuel] i H Hf; cbn in Hf; try lia; destruct H as (_ & v & Hv & H).
  - cbn in *. rewrite Hv. cbn. rewrite H. reflexivity.
  - cbn [last_node]. rewrite Hv. cbn [mbind option_bind]. destruct H as (En & H). rewrite En.
    rewrite IH; [|split; eauto|cbn in *; lia]. reflexivity.
Qed.

(** Linking [new] behind the last node of a chain. *)
Lemma chain_link store l : forall p i new v,
  chain store p (l ++ [i]) -> NoDup (l ++ [i]) -> store !! new = Some v ->
  next_for_driver_ v = None -> new ∉ l ++ [i] ->
  chain (alter (fun x => x <| next_for_driver_ := Some new |>) i store) p (l ++ [i; new]).
Proof.
  induction l as [|j l IH]; intros p i new v H ND Hv Hn Hin; cbn in *;
    apply not_elem_of_cons in Hin as [Hne Hin]; destruct H as (-> & w & Hw & H);
    (split; [reflexivity|]).
  - exists (w <| next_for_driver_ := Some new |>). rewrite list_lookup_alter_eq, Hw. split; [reflexivity|].
    cbn. split; [reflexivity|]. exists v. rewrite list_lookup_alter_ne by auto. auto.
  - apply NoDup_cons in ND as [Hj ND]. exists w. rewrite list_lookup_alter_ne; [split; [exact Hw|eauto]|].
    intros ->. apply Hj, elem_of_app. right. apply list_elem_of_here.
Qed.
(** [AddInput] links the new node behind the last one. *)
Definition link_last (l : list nat) (new : nat) (store : list Input) : list Input :=
  match last l with
  | None => store
  | Some c => alter (fun i => i <| next_for_driver_ := Some new |>) c store
  end.
Lemma AddInput_chain store fuel head l new v :
  chain store head l -> (length l <= fuel)%nat -> store !! new = Some v ->
  next_for_driver_ v = None -> new ∉ l ->
  exists head', AddInput fuel store head new = Some (link_last l new store, head') /\
    chain (link_last l new store) head' (l ++ [new]).
Proof.
  intros H Hl Hv Hn Hin. destruct head as [h|].
  - destruct l as [|i l]; [discriminate (H)|]. pose proof H as (E & _). injection E as <-.
    unfold AddInput. rewrite (last_node_chain store l) by (auto; cbn in Hl; lia). unfold link_last.
    destruct (exists_last (l:=h :: l)) as (r & c & Er); [discriminate|].
    rewrite Er, last_snoc. cbn [mbind option_bind]. eexists. split; [reflexivity|].
    pose proof (chain_NoDup _ _ _ H) as ND. rewrite Er in H, ND, Hin.
    rewrite <- app_assoc. eapply chain_link; eauto.
  - assert (l = []) as -> by (eapply (chain_fun store _ None); [exact H|reflexivity]).
    eexists. split; [reflexivity|]. cbn. eauto.
Qed.
(** Nothing but links changes. *)
Lemma link_last_fmap {B} (f : Input -> B) l new store :
  (forall i, f (i <| next_for_driver_ := Some new |>) = f i) -> f <$> link_last l new store = f <$> store.
Proof.
  intros E. unfold link_last. destruct (last l) as [c|]; [|reflexivity].
  apply list_eq. intros j. rewrite !list_lookup_fmap. destruct (Nat.eq_dec j c) as [->|Hj].
  - rewrite list_lookup_alter_eq. destruct (store !! c); cbn; [f_equal; apply E|reflexivity].
  - rewrite list_lookup_alter_ne by auto. reflexivity.
Qed.
End Chain.

(** * Properties *)
Section Properties.
Context `{ER : EmergencyReasons} (clock : nat -> Z) (regs : input_regs).

(** C1. [Input::Update] together with [OnInputChanged] keeps the input counters:
    from a state in which [num_active_lift_], the redundancy-group reference
    counts, [num_active_collision_] and the two virtual inputs describe the
    active inputs, updating any real input never fails (no index out of range,
    no null virtual input, no missing recursion depth), sets that input to
    the (possibly inverted) new value and reaches such a state again. *)
Theorem Update_counters_invariant s i v b predate :
  counters_ok s -> all_inputs_ s !! i = Some v -> is_virtual v = false ->
  exists s', update_input clock regs s i b predate =
      Some (s', negb (Bool.eqb (active v) (if invert v then negb b else b))) /\
    counters_ok s' /\ exists w, all_inputs_ s' !! i = Some w /\
      active w = (if invert v then negb b else b) /\ static w = static v.
Proof.
  intros K Hv Hn. destruct (Update_ok clock regs 0 s i v b predate K Hv Hn) as (s' & E & K' & Hw).
  exists s'. split; [exact E|]. split; [exact K'|]. eexists. split; [exact Hw|]. unfold updated.
  destruct (Bool.eqb _ _) eqn:Eb; [apply Bool.eqb_prop in Eb; auto|].
  destruct (if invert v then _ else _); split; reflexivity.
Qed.

(** After any sequence of driver updates of real inputs the service is still
    running, and the virtual LIFT_MULTIPLE input is active exactly when two or
    more single lift inputs or lifted redundancy groups are active, and the
    virtual COLLISION_MULTIPLE input exactly when two or more collision inputs are. *)
Theorem multiple_inputs_follow_sensors us s :
  counters_ok s ->
  Forall (fun '(i, _, _) => exists v, all_inputs_ s !! i = Some v /\ is_virtual v = false) us ->
  exists s', run_updates clock regs s us = Some s' /\
    virtual_at s' (lift_multiple_input_ s') (2 <=? lift_count (all_inputs_ s')) /\
    virtual_at s' (collision_multiple_input_ s') (2 <=? countb collides (all_inputs_ s')).
Proof.
  intros K H. destruct (run_updates_ok clock regs us s K H) as (s' & E & K' & _).
  exists s'. split; [exact E|]. rewrite <- (ok_lift _ K'), <- (ok_collision _ K').
  split; apply K'.
Qed.

(** C2. [GetEmergencyReasons] returns the union of the reasons of the inputs
    that fire (a press that was long enough when it ended, or one that has
    lasted its delay), sleeps no longer than the next input needs (0 when a
    past press was reported), and forgets the reported presses. *)
Theorem GetEmergencyReasons_spec s now :
  Forall (fun i => is_u16 (emergency_delay_ms i)) (all_inputs_ s) ->
  InputService_GetEmergencyReasons s now =
    (s <| all_inputs_ ::= fmap served |>,
     (reasons_of now (all_inputs_ s), wait_of now (all_inputs_ s))).
Proof.
  apply GetEmergencyReasons_served.
Qed.

(** [AddInput] appends to the driver's intrusive list: walking the list
    afterwards gives the old inputs in order and then the new one, and no input's
    configuration changes. *)
Theorem AddInput_appends store fuel head l new v :
  Inputs fuel store head = Some l -> store !! new = Some v ->
  next_for_driver_ v = None -> new ∉ l ->
  exists store' head', AddInput fuel store head new = Some (store', head') /\
    Inputs (S fuel) store' head' = Some (l ++ [new]) /\ static <$> store' = static <$> store.
Proof.
  intros [Hl H]%Inputs_chain Hv Hn Hin.
  destruct (AddInput_chain store fuel head l new v H Hl Hv Hn Hin) as (head' & E & H').
  exists (link_last l new store), head'. split; [exact E|]. split; [|apply link_last_fmap; reflexivity].
  apply Inputs_chain. split; [rewrite length_app; cbn; lia|exact H'].
Qed.

Lemma active_inputs_mask_acc l m k :
  Forall (fun i => idx i = VIRTUAL \/ 0 <= idx i < 31) l -> 0 <= k ->
  Z.testbit (fold_left (fun m i => if (IsActive i && negb (idx i =? VIRTUAL))%bool
                      then Z.lor m (Z.shiftl 1 (idx i)) else m) l m) k =
  (Z.testbit m k || existsb (fun i => active i && negb (is_virtual i) && (idx i =? k)) l)%bool.
Proof.
  revert m; induction l as [|i l IH]; intros m H Hk; cbn; [rewrite orb_false_r; reflexivity|].
  apply Forall_cons in H as [Hi H]. rewrite IH by auto. unfold IsActive, is_virtual.
  destruct (active i && _)%bool eqn:E; cbn; [|reflexivity].
  bsimp. destruct Hi as [Hi|Hi]; [contradiction|].
  rewrite Z.lor_spec, <- orb_assoc. f_equal. f_equal. rewrite Z.shiftl_spec by lia.
  destruct (Z.eqb_spec (idx i) k) as [->|Hne]; [rewrite Z.sub_diag; reflexivity|].
  destruct (Z.ltb_spec k (idx i)); [apply Z.testbit_neg_r; lia|].
  replace (k - idx i) with (Z.succ (k - idx i - 1)) by lia.
  change 1 with (2 * 0 + 1). rewrite Z.testbit_odd_succ by lia. apply Z.bits_0.
Qed.

(** The mask that [SendStatus] sends has bit [k] set exactly when the real
    input with index [k] is active. *)
Theorem SendStatus_mask s k :
  Forall (fun i => idx i = VIRTUAL \/ 0 <= idx i < 31) (all_inputs_ s) -> 0 <= k ->
  exists m, emitted (InputService_SendStatus s) = emitted s ++ [SendActiveInputs m] /\
    Z.testbit m k =
      existsb (fun i => active i && negb (is_virtual i) && (idx i =? k))%bool (all_inputs_ s).
Proof.
  intros H Hk. eexists. split; [reflexivity|]. unfold active_inputs_mask.
  rewrite active_inputs_mask_acc, Z.bits_0 by auto. reflexivity.
Qed.

Lemma delays_static l l' :
  static <$> l' = static <$> l -> Forall (fun i => is_u16 (emergency_delay_ms i)) l ->
  Forall (fun i => is_u16 (emergency_delay_ms i)) l'.
Proof.
  revert l'; induction l as [|i l IH]; intros [|j l'] E H; try discriminate; [constructor|].
  injection E as E1 E2 E3 E4 E5 E. apply Forall_cons in H as [Hi H].
  constructor; [rewrite E5; exact Hi|apply IH; assumption].
Qed.

Lemma reasons_of_contains now l i v :
  l !! i = Some v -> fires now v = true ->
  Z.land (reasons_of now l) (emergency_reason v) = emergency_reason v.
Proof.
  revert i; induction l as [|u l IH]; intros [|i] H Hf; try discriminate; cbn in H;
    unfold reasons_of; cbn [fold_right]; fold (reasons_of now l).
  - injection H as ->. rewrite Hf. bitwise.
  - rewrite Z.land_lor_distr_l, (IH i) by assumption. bitwise.
Qed.

(** A press that lasted its emergency delay is not lost when the input is
    released before anybody looked: after the release the next
    [GetEmergencyReasons], whenever it comes, reports the input's reasons and asks
    not to sleep, and the press is then forgotten. *)
Theorem released_press_is_reported s i v now :
  counters_ok s -> Forall (fun i => is_u16 (emergency_delay_ms i)) (all_inputs_ s) ->
  all_inputs_ s !! i = Some v -> is_virtual v = false -> invert v = false ->
  active v = true -> emergency_reason v <> 0 ->
  emergency_delay_ms v * 1000 <= ActiveDuration v (u32 (clock (time_reads s))) ->
  exists s' s'' reasons w, update_input clock regs s i false 0 = Some (s', true) /\
    InputService_GetEmergencyReasons s' now = (s'', (reasons, 0)) /\
    Z.land reasons (emergency_reason v) = emergency_reason v /\
    all_inputs_ s'' !! i = Some w /\ active w = false /\ emergency_pending w = false.
Proof.
  intros K Hd Hv Hn Hinv Ha Hr Ht.
  destruct (Update_ok clock regs 0 s i v false 0 K Hv Hn) as (s' & E & K' & Hw).
  pose proof (Update_static clock regs _ _ _ _ _ _ _ E) as Hs.
  unfold updated in Hw. rewrite Hinv, Ha in *. cbn [Bool.eqb negb] in E, Hw.
  rewrite Z.sub_0_r in Hw. apply Z.eqb_neq in Hr. apply Z.leb_le in Ht.
  rewrite Hr, Ht in Hw. cbn [negb andb orb] in Hw. set (w := _ <| emergency_pending ::= _ |>) in Hw.
  assert (Hp : pends w = true) by (unfold pends; cbn; rewrite Hr; reflexivity).
  exists s', (s' <| all_inputs_ ::= fmap served |>), (reasons_of now (all_inputs_ s')), (served w).
  split; [exact E|]. unfold InputService_GetEmergencyReasons.
  rewrite emergency_loop_spec by (eauto using delays_static; unfold UINT32_MAX; lia).
  assert (existsb pends (all_inputs_ s') = true) as ->.
  { apply existsb_exists. exists w. split; [|exact Hp]. apply list_elem_of_In, list_elem_of_lookup. eauto. }
  split; [reflexivity|]. split; [|split].
  - change (emergency_reason v) with (emergency_reason w). eapply reasons_of_contains; [exact Hw|].
    unfold fires. cbn. rewrite Hr. reflexivity.
  - cbn. rewrite list_lookup_fmap, Hw. reflexivity.
  - unfold served. change (emergency_reason w) with (emergency_reason v). rewrite Hr. split; reflexivity.
Qed.
End Properties.

(** * Witnesses *)
Module Demo.
#[local] Existing Instance demo_reasons.

Definition virtual (reason delay : Z) : Input :=
  new_input <| idx := VIRTUAL |> <| emergency_reason := reason |> <| emergency_delay_ms := delay |>.
(** Two lift inputs in one group, a single lift input and a stop button. *)
Definition wheel (k g : Z) : Input :=
  new_input <| idx := k |> <| redundancy_group := g |>
    <| emergency_reason := Z.lor LATCH LIFT |> <| emergency_delay_ms := 100 |>.
Definition stop_button : Input :=
  new_input <| idx := 3 |> <| emergency_reason := Z.lor LATCH STOP |> <| emergency_delay_ms := 20 |>
    <| active := true |> <| active_since := 1000 |>.
Definition regs : input_regs :=
  {| LongPressTime := 1000; DebounceTime := 20; LiftMultipleDelay := 10; CollisionMultipleDelay := 10 |}.
Definition service : InputService :=
  mkInputService true
    [virtual (Z.lor LATCH LIFT_MULTIPLE) 10; virtual (Z.lor LATCH COLLISION_MULTIPLE) 10;
     wheel 0 1; wheel 1 1; wheel 2 0; stop_button]
    0 (Some 0%nat) 0 (Some 1%nat) [0; 0; 0; 0; 0] 0 [].
Definition clock (n : nat) : Z := 50000 + Z.of_nat n.

Lemma service_ok : counters_ok service.
Proof.
  split; try reflexivity; try (cbn; lia); try discriminate.
  - intros g [<-|[<-|[<-|[<-|[]]]]]; reflexivity.
  - intros i v H. do 6 (destruct i as [|i]; [injection H as <-; cbn; tauto|]). discriminate H.
  - exists 0%nat. eexists. repeat split.
  - exists 1%nat. eexists. repeat split.
Qed.

(** Lifting both members of group 1 and the single wheel makes two lifts. *)
Example lifted_twice :
  (num_active_lift_ <$> run_updates clock regs service
    [(2%nat, true, 0); (3%nat, true, 0); (4%nat, true, 0)]) = Some 2.
Proof. vm_compute. reflexivity. Qed.

Lemma Update_counters_witness : exists s',
  update_input clock regs service 2 true 0 = Some (s', true) /\ counters_ok s' /\
  exists w, all_inputs_ s' !! 2%nat = Some w /\ active w = true /\ static w = static (wheel 0 1).
Proof. exact (Update_counters_invariant clock regs service 2 (wheel 0 1) true 0 service_ok eq_refl eq_refl). Defined.

Lemma multiple_inputs_witness : exists s',
  run_updates clock regs service [(2%nat, true, 0); (4%nat, true, 0)] = Some s' /\
  virtual_at s' (lift_multiple_input_ s') (2 <=? lift_count (all_inputs_ s')) /\
  virtual_at s' (collision_multiple_input_ s') (2 <=? countb collides (all_inputs_ s')).
Proof.
  apply (multiple_inputs_follow_sensors clock regs [(2%nat, true, 0); (4%nat, true, 0)] service service_ok).
  repeat constructor; eexists; split; reflexivity.
Defined.

Lemma GetEmergencyReasons_witness : InputService_GetEmergencyReasons service 25000 =
  (service <| all_inputs_ ::= fmap served |>, (Z.lor LATCH STOP, UINT32_MAX)).
Proof. apply (GetEmergencyReasons_spec service 25000). repeat constructor; vm_compute; congruence. Defined.

Lemma AddInput_witness : exists store' head',
  AddInput 1 [wheel 0 0; wheel 1 0] (Some 0%nat) 1 = Some (store', head') /\
  Inputs 2 store' head' = Some [0%nat; 1%nat] /\ static <$> store' = static <$> [wheel 0 0; wheel 1 0].
Proof.
  apply (AddInput_appends [wheel 0 0; wheel 1 0] 1 (Some 0%nat) [0%nat] 1 (wheel 1 0));
    try reflexivity. intros H. apply list_elem_of_singleton in H. discriminate.
Defined.

Lemma SendStatus_witness : exists m,
  emitted (InputService_SendStatus service) = [SendActiveInputs m] /\ Z.testbit m 3 = true.
Proof.
  apply (SendStatus_mask service 3); [|lia].
  forall_list ltac:(first [left; reflexivity|right; vm_compute; split; congruence]).
Defined.

Lemma released_press_witness : exists s' s'' reasons w,
  update_input clock regs service 5 false 0 = Some (s', true) /\
  InputService_GetEmergencyReasons s' 90000 = (s'', (reasons, 0)) /\
  Z.land reasons (Z.lor LATCH STOP) = Z.lor LATCH STOP /\
  all_inputs_ s'' !! 5%nat = Some w /\ active w = false /\ emergency_pending w = false.
Proof.
  apply (released_press_is_reported clock regs service 5 stop_button 90000 service_ok);
    try reflexivity; try discriminate; repeat constructor; vm_compute; congruence.
Defined.
End Demo.
