(* ===== verification/InputConfig.v ===== *)
(** Configuration of the inputs: the other half of
    [services/input_service/input_service.cpp].

    The high level sends a JSON document; the service rebuilds its inputs from
    the parser's callbacks. A driver is its name and what it does with one
    value of an input ([OnInputConfigValue]); [W] is what the drivers keep of
    their own. [None] is a null pointer used, or a line of the parser's error log written
    outside its buffer. *)
From S2P Require Import Prelude ServiceExt Json Input.

(** A driver as the service sees it: [on_value key jsp type input]. *)
Record driver (W : Type) := Driver {
  driver_name : string;
  on_value : string -> jsp -> lwjson_stream_type_t -> Input -> W -> bool * Input * W }.
Arguments Driver {W}. Arguments driver_name {W}. Arguments on_value {W}.

(** What a driver may write: its own view of the input, and [invert]. *)
Record driver_writes (i i' : Input) : Prop := {
  writes_idx : idx i' = idx i; writes_group : redundancy_group i' = redundancy_group i;
  writes_reason : emergency_reason i' = emergency_reason i; writes_delay : emergency_delay_ms i' = emergency_delay_ms i;
  writes_active : active i' = active i; writes_pending : emergency_pending i' = emergency_pending i;
  writes_link : next_for_driver_ i' = next_for_driver_ i }.
Class DriverOk {W} (d : driver W) : Prop :=
  value_writes : forall key j type i w, driver_writes i (on_value d key j type i w).1.2.

(** The capacity and the longest name of [drivers_]. *)
(* @ input_service.hpp:51-51 InputService::drivers_ *)
Definition MAX_DRIVERS : nat := 3.
(* @ input_service.hpp:51-51 InputService::drivers_ *)
Definition MAX_DRIVER_NAME : nat := 15.
(** [drivers_] is ordered by name. *)
Fixpoint emplace {W} (d : driver W) (l : list (driver W)) : list (driver W) :=
  match l with
  | [] => [d]
  | e :: r => if String.eqb (driver_name d) (driver_name e) then l
              else if String.ltb (driver_name d) (driver_name e) then d :: l else e :: emplace d r
  end.
(* @ input_service.hpp InputService::RegisterInputDriver *)
Definition RegisterInputDriver {W} (d : driver W) (l : list (driver W)) : option (list (driver W)) :=
  if (length l <? MAX_DRIVERS)%nat then Some (emplace d l) else None.

Section InputConfig.
Context `{ER : EmergencyReasons} `{TA : ToArithmetic} (regs : input_regs).
Context {W : Type} (drivers_ : list (driver W)).

(** The service, the head of each driver's list, and what the drivers keep. *)
Record system := mkSystem { svc : InputService; heads : list (option nat); driver_data : W }.
#[export] Instance eta_system : Eta system := fun s => mkSystem (svc s) (heads s) (driver_data s).

(* @ input_service.cpp:15-23 input_config_json_data_t *)
Record input_config_json_data_t := mkConfigData {
  data_driver : option nat; current_input : option nat; next_idx : Z;
  redundancy_group_map : list (string * Z); next_redundancy_group_id : Z }.
#[export] Instance eta_config_data : Eta input_config_json_data_t := fun d =>
  mkConfigData (data_driver d) (current_input d) (next_idx d) (redundancy_group_map d) (next_redundancy_group_id d).
(* @ input_service.cpp:15-23 input_config_json_data_t *)
Definition initial_data : input_config_json_data_t := mkConfigData None None 0 [] 1.

Definition state : Type := system * input_config_json_data_t.
(** A handler's result: whether to go on, and the state; [None] is a null pointer used. *)
Definition result : Type := option (bool * state).

Fixpoint find_driver (name : string) (l : list (driver W)) (n : nat) : option nat :=
  match l with
  | [] => None
  | d :: r => if String.eqb (driver_name d) name then Some n else find_driver name r (S n)
  end.
Fixpoint find_group (name : string) (l : list (string * Z)) : option Z :=
  match l with
  | [] => None
  | (n, id) :: r => if String.eqb n name then Some id else find_group name r
  end.
(** Writing the current input. *)
Definition set_current (i : nat) (v : Input) (st : state) : state :=
  (st.1 <| svc ::= set_input i v |>, st.2).

(* @ input_service.cpp:65-82 InputService::InputConfigsJsonCallback (driver key) *)
Definition on_driver_key (j : jsp) (st : state) : state :=
  let name := buff j in
  let d := if (String.length name <=? MAX_DRIVER_NAME)%nat then find_driver name drivers_ 0 else None in
  (st.1, st.2 <| data_driver := d |>).

(* @ input_service.cpp:88-108 InputService::InputConfigsJsonCallback (one input) *)
Definition on_input_object (type : lwjson_stream_type_t) (st : state) : result :=
  let (s, d) := st in
  if negb (JsonExpectTypeOrEnd OBJECT type) then Some (false, st) else
  match data_driver d with
  | None => Some (true, (s, d <| current_input := None |>))
  | Some n =>
    if bool_decide (type = OBJECT) then
      let store := all_inputs_ (svc s) in
      if (MAX_INPUTS <=? length store)%nat then Some (false, st) else
      let i := length store in
      let store := store ++ [new_input <| idx := next_idx d |>] in
      head ← heads s !! n;
      '(store, head) ← AddInput MAX_INPUTS store head i;
      Some (true, (s <| svc ::= (fun v => v <| all_inputs_ := store |>) |> <| heads ::= insert n head |>,
                   d <| current_input := Some i |> <| next_idx ::= fun k => u8 (k + 1) |>))
    else Some (true, (s, d <| current_input := None |>))
  end.

(* @ input_service.cpp:118-136 InputService::InputConfigsJsonCallback (redundancy group) *)
Definition on_redundancy_group (j : jsp) (type : lwjson_stream_type_t) (i : nat) (inp : Input) (st : state) : bool * state :=
  let d := st.2 in
  if negb (JsonExpectType STRING type) then (false, st) else
  if 10 <? buff_pos j then (false, st) else
  match find_group (buff j) (redundancy_group_map d) with
  | None =>
    if Z.of_nat MAX_REDUNDANCY_GROUPS <? next_redundancy_group_id d then (false, st) else
    let id := next_redundancy_group_id d in
    let d := d <| next_redundancy_group_id ::= fun k => u8 (k + 1) |>
               <| redundancy_group_map ::= cons (buff j, id) |> in
    (true, set_current i (inp <| redundancy_group := id |>) (st.1, d))
  | Some id => (true, set_current i (inp <| redundancy_group := id |>) st)
  end.

(* @ input_service.cpp:111-146 InputService::InputConfigsJsonCallback (value) *)
Definition on_input_value (j : jsp) (type : lwjson_stream_type_t) (st : state) : result :=
  match current_input st.2 with
  | None => Some (true, st)
  | Some i =>
    inp ← all_inputs_ (svc st.1) !! i;
    let key := key4 j in
    if String.eqb key "invert" then
      Some (match JsonGetBool type with
            | Some b => (true, set_current i (inp <| invert := b |>) st)
            | None => (false, st)
            end)
    else if String.eqb key "redundancy_group" then Some (on_redundancy_group j type i inp st)
    else if String.eqb key "emergency" then
      if negb (JsonExpectTypeOrEnd OBJECT type) then Some (false, st) else
      Some (true, if bool_decide (type = OBJECT) then set_current i (inp <| emergency_reason := LATCH |>) st else st)
    else
      n ← data_driver st.2;
      d ← drivers_ !! n;
      let '(ok, inp, w) := on_value d key j type inp (driver_data st.1) in
      Some (ok, set_current i inp (st.1 <| driver_data := w |>, st.2))
  end.

(* @ input_service.cpp:149-187 InputService::InputConfigsJsonCallback (emergency) *)
Definition on_emergency_value (j : jsp) (type : lwjson_stream_type_t) (st : state) : result :=
  match current_input st.2 with
  | None => Some (true, st)
  | Some i =>
    inp ← all_inputs_ (svc st.1) !! i;
    let raise r := Some (true, set_current i (inp <| emergency_reason ::= fun m => u16 (Z.lor m r) |>) st) in
    if negb (String.eqb (key4 j) "emergency") then Some (false, st)
    else if String.eqb (key6 j) "reason" then
      if negb (JsonExpectType STRING type) then Some (false, st)
      else if String.eqb (buff j) "stop" then raise STOP
      else if String.eqb (buff j) "lift" then raise LIFT
      else if String.eqb (buff j) "collision" then raise COLLISION
      else Some (false, st)
    else if String.eqb (key6 j) "delay" then
      Some (match JsonGetNumber 16 j type with
            | Some n => (true, set_current i (inp <| emergency_delay_ms := n |>) st)
            | None => (false, st)
            end)
    else if String.eqb (key6 j) "latch" then
      match type with
      | FALSE => Some (true, set_current i (inp <| emergency_reason ::= fun m => u16 (Z.land m (Z.lnot LATCH)) |>) st)
      | TRUE => Some (true, st)
      | _ => Some (false, st)
      end
    else Some (false, st)
  end.

(* @ input_service.cpp InputService::InputConfigsJsonCallback *)
Definition InputConfigsJsonCallback (j : jsp) (type : lwjson_stream_type_t) (st : state) : result :=
  match stack_pos j with
  | 0%nat => Some (JsonExpectTypeOrEnd OBJECT type, st)
  | 1%nat => Some (true, on_driver_key j st)
  | 2%nat => Some (JsonExpectTypeOrEnd ARRAY type, st)
  | 3%nat => on_input_object type st
  | 5%nat => on_input_value j type st
  | 7%nat => on_emergency_value j type st
  | _ => Some (true, st)
  end.

(** The delegate, in the form [ProcessJson] calls: after a null pointer nothing matters. *)
Definition delegate (j : jsp) (type : lwjson_stream_type_t) (o : option state) : bool * option state :=
  match o with
  | None => (false, None)
  | Some st => match InputConfigsJsonCallback j type st with
    | None => (false, None)
    | Some (ok, st) => (ok, Some st)
    end
  end.

(** The virtual inputs, made first. *)
(* @ input_service.cpp:41-49 InputService::OnRegisterInputConfigsChanged (virtual inputs) *)
Definition virtual_input (reason delay : Z) : Input :=
  new_input <| idx := VIRTUAL |> <| emergency_reason := u16 (Z.lor reason LATCH) |> <| emergency_delay_ms := delay |>.
(* @ input_service.cpp:29-49 InputService::OnRegisterInputConfigsChanged (reset) *)
Definition reset_inputs (s : system) : system :=
  mkSystem ((svc s) <| inputs_configured_ := false |>
      <| all_inputs_ := [virtual_input LIFT_MULTIPLE (u16 (LiftMultipleDelay regs));
                         virtual_input COLLISION_MULTIPLE (u16 (CollisionMultipleDelay regs))] |>
      <| num_active_lift_ := 0 |> <| num_active_collision_ := 0 |>
      <| redundancy_group_refcount_ ::= fun l => replicate (length l) 0 |>
      <| lift_multiple_input_ := Some 0%nat |> <| collision_multiple_input_ := Some 1%nat |>)
    (map ClearInputs (heads s)) (driver_data s).

Definition start_state (s : system) : state := (reset_inputs s, initial_data).
(** The result of the registration; the document is what the Heatshrink source delivers. *)
(* @ input_service.cpp InputService::OnRegisterInputConfigsChanged *)
Definition OnRegisterInputConfigsChanged {P} (init : P)
    (parse : P -> Z -> P * list (jsp * lwjson_stream_type_t) * lwjsonr_t) (json : list Z) (s : system) :
    option (bool * system) :=
  '(ok, o) ← ProcessJson init parse delegate json (Some (start_state s));
  st ← o;
  let inputs_configured := ok in
  Some (ok, st.1 <| svc ::= (fun v => v <| inputs_configured_ := inputs_configured |>) |>).
(* @ input_service.hpp InputService::IsHealthy *)
Definition InputService_IsHealthy (running : bool) (s : system) : bool := running && inputs_configured_ (svc s).
End InputConfig.

(** ** What a parser promises

    Between the start and the end of an object at depth 3 there is no driver key. *)
Definition opens (open : bool) (call : jsp * lwjson_stream_type_t) : option bool :=
  match stack_pos call.1 with
  | 1%nat => if open then None else Some false
  | 3%nat => match call.2 with OBJECT => Some true | OBJECT_END => Some false | _ => Some open end
  | _ => Some open
  end.
Fixpoint open_run (open : bool) (calls : list (jsp * lwjson_stream_type_t)) : option bool :=
  match calls with
  | [] => Some open
  | c :: r => o ← opens open c; open_run o r
  end.
Section Calls.
Context {P : Type} (parse : P -> Z -> P * list (jsp * lwjson_stream_type_t) * lwjsonr_t).
Fixpoint calls_of (p : P) (json : list Z) : list (jsp * lwjson_stream_type_t) :=
  match json with
  | [] => []
  | c :: json => let '(p, calls, _) := parse p c in calls ++ calls_of p json
  end.
Definition nested (init : P) : Prop := forall json, open_run false (calls_of init json) <> None.
End Calls.
Lemma open_run_app o a b : open_run o (a ++ b) = o' ← open_run o a; open_run o' b.
Proof.
  revert o. induction a as [|c a IH]; intros o; [reflexivity|]. cbn [app open_run].
  destruct (opens o c); [apply IH|reflexivity].
Qed.

(** ** The drivers' lists under changes of the store *)
Lemma chain_links store store' : next_for_driver_ <$> store' = next_for_driver_ <$> store ->
  forall l p, chain store p l -> chain store' p l.
Proof.
  intros E. induction l as [|i l IH]; intros p; [auto|]. intros (-> & v & Hv & H). split; [reflexivity|].
  apply (f_equal (fun l => l !! i)) in E. rewrite !list_lookup_fmap, Hv in E.
  destruct (store' !! i) as [v'|]; [|discriminate]. injection E as E. exists v'. split; [reflexivity|].
  rewrite E. auto.
Qed.
Lemma chain_app store x l : forall p, chain store p l -> chain (store ++ [x]) p l.
Proof.
  induction l as [|i l IH]; intros p; [auto|]. intros (-> & v & Hv & H). split; [reflexivity|].
  exists v. split; [apply lookup_app_l_Some, Hv|auto].
Qed.
Lemma chain_alter_other store f c l : forall p, c ∉ l -> chain store p l -> chain (alter f c store) p l.
Proof.
  induction l as [|i l IH]; intros p Hc; [auto|]. apply not_elem_of_cons in Hc as [Hi Hc].
  intros (-> & v & Hv & H). split; [reflexivity|]. exists v.
  rewrite list_lookup_alter_ne by congruence. auto.
Qed.
Lemma links_insert (store : list Input) i v v' : store !! i = Some v -> next_for_driver_ v' = next_for_driver_ v ->
  next_for_driver_ <$> <[i:=v']> store = next_for_driver_ <$> store.
Proof.
  intros Hv E. rewrite list_fmap_insert, E. apply list_insert_id. rewrite list_lookup_fmap, Hv. reflexivity.
Qed.

(** ** The invariant of the configuration *)
Section Invariant.
Context `{ER : EmergencyReasons} `{TA : ToArithmetic} (regs : input_regs).
Context {W : Type} (drivers_ : list (driver W)) (drivers_ok : Forall DriverOk drivers_).
Abbreviation state := (@state W).

(** What each input is: inactive, in a group that exists, the [k]-th configured one
    numbered [k], the first two virtual. *)
Record input_ok (i : nat) (v : Input) : Prop := {
  input_inactive : active v = false /\ emergency_pending v = false;
  input_group : In (redundancy_group v) (0 :: lift_groups);
  input_idx : idx v = if (i <? 2)%nat then VIRTUAL else Z.of_nat (i - 2);
  input_virtual : (i < 2)%nat -> invert v = false }.
Record inputs_ok (s : InputService) : Prop := {
  inputs_length : (2 <= length (all_inputs_ s) <= MAX_INPUTS)%nat;
  inputs_each : forall i v, all_inputs_ s !! i = Some v -> input_ok i v;
  inputs_lift : num_active_lift_ s = 0; inputs_collision : num_active_collision_ s = 0;
  inputs_refs : redundancy_group_refcount_ s = replicate 5 0;
  inputs_lift_ptr : lift_multiple_input_ s = Some 0%nat;
  inputs_collision_ptr : collision_multiple_input_ s = Some 1%nat }.
(** The drivers' lists: [ls] are their nodes, and every configured input is in one of them. *)
Definition lists_ok (store : list Input) (hs : list (option nat)) : Prop :=
  exists ls, Forall2 (chain store) hs ls /\ Permutation (concat ls) (seq 2 (length store - 2)).
Record data_ok (open : bool) (s : @system W) (d : input_config_json_data_t) : Prop := {
  data_next : next_idx d = Z.of_nat (length (all_inputs_ (svc s)) - 2);
  data_group : 1 <= next_redundancy_group_id d <= 5;
  data_map : Forall (fun e => 1 <= e.2 < next_redundancy_group_id d) (redundancy_group_map d);
  data_driver_range : forall n, data_driver d = Some n -> (n < length drivers_)%nat;
  data_current : forall i, current_input d = Some i ->
    open = true /\ data_driver d <> None /\ (2 <= i < length (all_inputs_ (svc s)))%nat }.
Record config_ok (open : bool) (st : state) : Prop := {
  config_inputs : inputs_ok (svc st.1);
  config_lists : lists_ok (all_inputs_ (svc st.1)) (heads st.1);
  config_heads : length (heads st.1) = length drivers_;
  config_data : data_ok open st.1 st.2 }.

(** A quiet service satisfies the counters' invariant. *)
Lemma countb_inactive f s : inputs_ok s -> (forall v, active v = false -> f v = false) -> countb f (all_inputs_ s) = 0.
Proof.
  intros H Hf. apply countb_false, Forall_lookup. intros i v Hi. apply Hf, (inputs_each _ H i v Hi).
Qed.
Lemma lifts_inactive g v : active v = false -> lifts g v = false.
Proof. intros H. unfold lifts. rewrite H, andb_false_r. reflexivity. Qed.
Lemma collides_inactive v : active v = false -> collides v = false.
Proof. intros H. unfold collides. rewrite H, andb_false_r. reflexivity. Qed.
Lemma virtual_quiet s i : inputs_ok s -> (i < 2)%nat -> virtual_at s (Some i) false.
Proof.
  intros H Hi. destruct (lookup_lt_is_Some_2 (all_inputs_ s) i) as [v Hv]; [pose proof (inputs_length _ H); lia|].
  pose proof (inputs_each _ H i v Hv) as K. exists i, v. split; [reflexivity|]. split; [exact Hv|].
  pose proof (input_idx _ _ K) as E. destruct (Nat.ltb_spec i 2); [|lia].
  split; [exact E|]. split; [apply (input_virtual _ _ K), Hi|apply (input_inactive _ _ K)].
Qed.
Lemma inputs_ok_counters s : inputs_ok s -> counters_ok s.
Proof.
  intros H. assert (L : forall g, countb (lifts g) (all_inputs_ s) = 0)
    by (intros g; apply (countb_inactive _ _ H), lifts_inactive).
  split.
  - apply H.
  - rewrite (inputs_refs _ H). discriminate.
  - intros g Hg. rewrite (inputs_refs _ H), L. destruct Hg as [<-|[<-|[<-|[<-|[]]]]]; reflexivity.
  - intros i v Hv. apply (inputs_each _ H i v Hv).
  - unfold lift_count, group_lifted. cbn. rewrite !L. apply (inputs_lift _ H).
  - rewrite (inputs_collision _ H), (countb_inactive _ _ H collides_inactive). reflexivity.
  - rewrite (inputs_lift _ H), (inputs_lift_ptr _ H). apply virtual_quiet; [exact H|lia].
  - rewrite (inputs_collision _ H), (inputs_collision_ptr _ H). apply virtual_quiet; [exact H|lia].
  - rewrite (inputs_lift_ptr _ H), (inputs_collision_ptr _ H). discriminate.
Qed.

(** Writing a configured input: what the callbacks may change in it. *)
Record config_write (v v' : Input) : Prop := {
  write_idx : idx v' = idx v; write_active : active v' = active v;
  write_pending : emergency_pending v' = emergency_pending v;
  write_link : next_for_driver_ v' = next_for_driver_ v;
  write_group : In (redundancy_group v') (0 :: lift_groups) }.
Lemma config_write_ok open st i v v' : config_ok open st -> (2 <= i)%nat ->
  all_inputs_ (svc st.1) !! i = Some v -> config_write v v' -> config_ok open (set_current i v' st).
Proof.
  intros [HI HL HH HD] Hi Hv [W1 W2 W3 W4 W5]. unfold set_current.
  split; cbn [fst snd svc heads update eta eta_system set_input all_inputs_].
  - destruct HI as [A B C D E F G]. split; cbn [all_inputs_ set_input update eta eta_InputService num_active_lift_
      num_active_collision_ redundancy_group_refcount_ lift_multiple_input_ collision_multiple_input_]; auto.
    + rewrite length_insert. exact A.
    + intros j w Hw. destruct (Nat.eq_dec j i) as [->|Hj].
      * rewrite list_lookup_insert_eq in Hw by (eapply lookup_lt_Some; eauto). injection Hw as <-.
        destruct (B i v Hv) as [K1 K2 K3 K4].
        split; [destruct K1; split; congruence|exact W5|congruence|lia].
      * rewrite list_lookup_insert_ne in Hw by congruence. exact (B j w Hw).
  - destruct HL as (ls & HF & HP). exists ls. cbn. rewrite length_insert. split; [|exact HP].
    eapply Forall2_impl; [exact HF|]. intros h l. apply chain_links. exact (links_insert _ i v v' Hv W4).
  - exact HH.
  - destruct HD as [A B C D E]. split; cbn [svc set_input all_inputs_ update eta eta_system eta_InputService] in *;
      rewrite ?length_insert; auto.
Qed.
Lemma config_ok_driver_data open s d f : config_ok open (s, d) -> config_ok open (s <| driver_data := f |>, d).
Proof. intros [HI HL HH [A B C D E]]. split; auto. split; auto. Qed.

(** Each callback keeps the invariant. *)
Lemma find_driver_range name (l : list (driver W)) k n :
  find_driver name l k = Some n -> (k <= n < k + length l)%nat.
Proof.
  revert k. induction l as [|d l IH]; intros k; cbn; [discriminate|].
  destruct (String.eqb _ _); [intros [= <-]; lia|]. intros H. apply IH in H. lia.
Qed.
Lemma driver_key_ok j st : config_ok false st -> config_ok false (on_driver_key drivers_ j st).
Proof.
  destruct st as [s d]. intros [HI HL HH [A B C D E]]. split; auto. split; auto.
  - intros n. cbn. destruct (String.length (buff j) <=? _)%nat; [|discriminate].
    intros H. apply find_driver_range in H. lia.
  - intros i Hi. destruct (E i Hi) as [[=] _].
Qed.
Lemma current_none_ok open open' s d : config_ok open (s, d) -> config_ok open' (s, d <| current_input := None |>).
Proof. intros [HI HL HH [A B C D E]]. split; auto. split; auto. cbn. discriminate. Qed.

Lemma seq_snoc n m : seq n (S m) = seq n m ++ [(n + m)%nat].
Proof. replace (S m) with (m + 1)%nat by lia. rewrite seq_app. reflexivity. Qed.
Lemma chains_app store x hs ls : Forall2 (chain store) hs ls -> Forall2 (chain (store ++ [x])) hs ls.
Proof. intros H. eapply Forall2_impl; [exact H|]. intros h l. apply chain_app. Qed.
Lemma chains_link_other store l new hs ls : (forall c, c ∈ l -> c ∉ concat ls) ->
  Forall2 (chain store) hs ls -> Forall2 (chain (link_last l new store)) hs ls.
Proof.
  intros Hc H. unfold link_last. destruct (last l) as [c|] eqn:E; [|exact H]. apply last_Some_elem_of in E.
  specialize (Hc c E). clear E l. induction H as [|h k hs ls Hk H IH]; [constructor|].
  cbn [concat] in Hc. rewrite elem_of_app in Hc. constructor; [apply chain_alter_other; tauto|apply IH; tauto].
Qed.
(** The lists after a new node is linked to the [n]-th of them. *)
Lemma lists_add store hs n head v : lists_ok store hs -> hs !! n = Some head -> (2 <= length store <= MAX_INPUTS)%nat ->
  next_for_driver_ v = None ->
  exists l head', AddInput MAX_INPUTS (store ++ [v]) head (length store) = Some (link_last l (length store) (store ++ [v]), head') /\
    lists_ok (link_last l (length store) (store ++ [v])) (<[n := head']> hs).
Proof.
  intros (ls & HF & HP) Hhead Hlen Hnext. set (new := length store) in *.
  destruct (Forall2_lookup_l _ _ _ _ _ HF Hhead) as (l & Hl & _).
  assert (Hin : forall k, k ∈ concat ls -> (2 <= k < new)%nat).
  { intros k Hk. rewrite HP in Hk. apply elem_of_seq in Hk. unfold new. lia. }
  assert (ND : NoDup (concat ls)) by (rewrite HP; apply NoDup_seq).
  pose proof (take_drop_middle ls n l Hl) as Els. rewrite <- Els in HF, HP, Hin, ND.
  rewrite concat_app, concat_cons in HP, Hin, ND.
  assert (Hla : length (take n ls) = n) by (apply length_take_le, Nat.lt_le_incl; eapply lookup_lt_Some; exact Hl).
  set (la := take n ls) in *. set (lb := drop (S n) ls) in *. clearbody la lb. clear Els Hl ls.
  apply Forall2_app_inv_r in HF as (ha & hb & Ha & Hb & ->).
  apply Forall2_cons_inv_r in Hb as (head0 & hb' & Hc & Hb & ->).
  pose proof (Forall2_length _ _ _ Ha) as Hha. rewrite Hla in Hha.
  rewrite lookup_app_r, Hha, Nat.sub_diag in Hhead by lia. injection Hhead as ->.
  apply NoDup_app in ND as (_ & D1 & ND). apply NoDup_app in ND as (_ & D2 & _).
  destruct (AddInput_chain (store ++ [v]) MAX_INPUTS head l new v) as (head' & EA & Hc').
  - apply chain_app, Hc.
  - apply Permutation_length in HP. rewrite !length_app, length_seq in HP. lia.
  - unfold new. rewrite lookup_app_r, Nat.sub_diag by lia. reflexivity.
  - exact Hnext.
  - intros Hnew. specialize (Hin new). rewrite !elem_of_app in Hin. destruct Hin; [tauto|lia].
  - exists l, head'. split; [exact EA|]. exists (la ++ (l ++ [new]) :: lb). split.
    + rewrite insert_app_r_alt, Hha, Nat.sub_diag by lia. cbn [insert list_insert].
      apply Forall2_app; [|constructor; [exact Hc'|]]; (apply chains_link_other; [|apply chains_app; assumption]).
      * intros c Hcl Hca. apply (D1 c Hca). rewrite elem_of_app. auto.
      * intros c Hcl Hcb. exact (D2 c Hcl Hcb).
    + assert (El : length (link_last l new (store ++ [v])) = S new).
      { rewrite <- (length_fmap static), link_last_fmap, length_fmap, length_app by reflexivity. cbn. unfold new. lia. }
      rewrite El, concat_app, concat_cons, Nat.sub_succ_l, seq_snoc by (unfold new; lia).
      rewrite <- HP. replace (2 + (new - 2))%nat with new by (unfold new; lia).
      rewrite <- !app_assoc. apply Permutation_app_head, Permutation_app_head. apply Permutation_app_comm.
Qed.

Lemma config_ok_open open st : config_ok open st -> config_ok true st.
Proof. intros [HI HL HH [A B C D E]]. split; auto. split; auto. intros i Hi. destruct (E i Hi). auto. Qed.
(** The start of an input, when there is room. *)
Lemma inputs_ok_add s d store' : inputs_ok s -> (length (all_inputs_ s) < MAX_INPUTS)%nat ->
  next_idx d = Z.of_nat (length (all_inputs_ s) - 2) ->
  (forall B (f : Input -> B), (forall i k, f (i <| next_for_driver_ := k |>) = f i) ->
     f <$> store' = f <$> (all_inputs_ s ++ [new_input <| idx := next_idx d |>])) ->
  inputs_ok (s <| all_inputs_ := store' |>).
Proof.
  intros [A B C D E F G] Hfull Hidx Hf.
  assert (Hl : length store' = S (length (all_inputs_ s))).
  { rewrite <- (length_fmap static), Hf, length_fmap, length_app by reflexivity. cbn. lia. }
  split; cbn [all_inputs_ update eta eta_InputService num_active_lift_ num_active_collision_
    redundancy_group_refcount_ lift_multiple_input_ collision_multiple_input_]; auto; [lia|].
  intros i v Hv. set (view := fun v => (active v, emergency_pending v, redundancy_group v, idx v, invert v)).
  pose proof (Hf _ view ltac:(reflexivity)) as Ev. apply (f_equal (fun l => l !! i)) in Ev.
  rewrite !list_lookup_fmap, Hv in Ev.
  destruct (Nat.lt_ge_cases i (length (all_inputs_ s))) as [Hi|Hi].
  - rewrite lookup_app_l in Ev by exact Hi. destruct (all_inputs_ s !! i) as [w|] eqn:Ew; [|discriminate].
    injection Ev as E1 E2 E3 E4 E5. destruct (B i w Ew) as [K1 K2 K3 K4].
    split; [destruct K1; split; congruence|congruence|congruence|intros K; rewrite E5; auto].
  - assert (i = length (all_inputs_ s)) as -> by (apply lookup_lt_Some in Hv; lia).
    rewrite lookup_app_r, Nat.sub_diag in Ev by lia. cbn [list_lookup lookup fmap option_fmap option_map] in Ev.
    injection Ev as E1 E2 E3 E4 E5. split.
    + rewrite E1, E2. auto.
    + rewrite E3. left. reflexivity.
    + rewrite E4. destruct (Nat.ltb_spec (length (all_inputs_ s)) 2); [lia|]. exact Hidx.
    + lia.
Qed.
Lemma input_object_ok open open' type st : config_ok open st ->
  match type with OBJECT => Some true | OBJECT_END => Some false | _ => Some open end = Some open' ->
  exists ok st', on_input_object type st = Some (ok, st') /\ config_ok open' st'.
Proof.
  destruct st as [s d]. intros H Ho. unfold on_input_object.
  destruct (JsonExpectTypeOrEnd OBJECT type) eqn:Et; cbn [negb].
  2:{ destruct type; try discriminate Et; injection Ho as <-; eauto. }
  assert (Hend : exists ok st', Some (true, (s, d <| current_input := None |>)) = Some (ok, st') /\ config_ok open' st')
    by (do 2 eexists; split; [reflexivity|eapply current_none_ok, H]).
  destruct (data_driver d) as [n|] eqn:En; [|exact Hend].
  case_bool_decide as Eo; [subst type; injection Ho as <-|exact Hend].
  destruct (Nat.leb_spec MAX_INPUTS (length (all_inputs_ (svc s)))) as [|Hfull]; [eauto using config_ok_open|].
  destruct H as [HI HL HH HD]. cbn [fst snd] in *. set (store := all_inputs_ (svc s)) in *.
  destruct (lookup_lt_is_Some_2 (heads s) n) as [head Hhead]; [rewrite HH; exact (data_driver_range _ _ _ HD n En)|].
  pose proof (inputs_length _ HI) as Hlen. fold store in Hlen.
  destruct (lists_add store (heads s) n head (new_input <| idx := next_idx d |>) HL Hhead Hlen)
    as (l & head' & EA & HL'); [reflexivity|].
  rewrite Hhead. cbn [mbind option_bind]. rewrite EA. cbn [mbind option_bind].
  do 2 eexists. split; [reflexivity|]. set (store' := link_last _ _ _) in *.
  assert (Hf : forall B (f : Input -> B), (forall i k, f (i <| next_for_driver_ := k |>) = f i) ->
     f <$> store' = f <$> (store ++ [new_input <| idx := next_idx d |>]))
    by (intros B f Ef; apply link_last_fmap; intros i; apply Ef).
  assert (Hl : length store' = S (length store)).
  { rewrite <- (length_fmap static), Hf, length_fmap, length_app by reflexivity. cbn. lia. }
  split; cbn [fst snd svc heads update eta eta_system].
  - exact (inputs_ok_add _ d store' HI Hfull (data_next _ _ _ HD) Hf).
  - exact HL'.
  - rewrite length_insert. exact HH.
  - destruct HD as [A B C D E]. split; auto.
    + cbn. rewrite Hl, A. fold store. rewrite u8_small by (unfold is_u8; change MAX_INPUTS with 32%nat in Hfull; lia). lia.
    + intros i [= <-]. split; [reflexivity|]. split; [cbn; congruence|]. cbn. rewrite Hl. fold store. lia.
Qed.

(** Writes that leave the parts of [config_write] alone. *)
Ltac config_write := split; cbn; try reflexivity; try assumption.
Lemma current_input_ok open st i : config_ok open st -> current_input st.2 = Some i ->
  exists v, all_inputs_ (svc st.1) !! i = Some v /\ (2 <= i)%nat /\ In (redundancy_group v) (0 :: lift_groups) /\
    exists n d, data_driver st.2 = Some n /\ drivers_ !! n = Some d /\ DriverOk d.
Proof.
  intros [HI HL HH HD] Hi. destruct (data_current _ _ _ HD i Hi) as (_ & Hd & Hr).
  destruct (lookup_lt_is_Some_2 (all_inputs_ (svc st.1)) i) as [v Hv]; [lia|].
  exists v. split; [exact Hv|]. split; [lia|]. split; [apply (inputs_each _ HI i v Hv)|].
  destruct (data_driver st.2) as [n|] eqn:En; [|congruence].
  destruct (lookup_lt_is_Some_2 drivers_ n) as [d Hdr]; [exact (data_driver_range _ _ _ HD n En)|].
  exists n, d. rewrite Forall_lookup in drivers_ok. eauto.
Qed.
Lemma redundancy_group_ok open st j type i v : config_ok open st -> (2 <= i)%nat ->
  all_inputs_ (svc st.1) !! i = Some v -> config_ok open (on_redundancy_group j type i v st).2.
Proof.
  intros H Hi Hv. unfold on_redundancy_group. destruct (JsonExpectType STRING type); [|exact H]. cbn [negb].
  destruct (10 <? buff_pos j); [exact H|].
  pose proof (config_data _ _ H) as HD. pose proof (data_group _ _ _ HD) as Hg. pose proof (data_map _ _ _ HD) as Hm.
  assert (Hids : forall id, 1 <= id <= 4 -> In id (0 :: lift_groups)) by (intros id Hid; cbn; lia).
  destruct (find_group (buff j) (redundancy_group_map st.2)) as [id|] eqn:Ef.
  - cbn [snd]. eapply config_write_ok; [exact H|exact Hi|exact Hv|]. config_write. apply Hids.
    revert Hm Ef. generalize (redundancy_group_map st.2) as m. induction m as [|[n k] m IH]; cbn [find_group]; [discriminate|].
    intros [Hk Hm]%Forall_cons. destruct (String.eqb n (buff j)); [intros [= <-]; cbn in Hk; lia|exact (IH Hm)].
  - destruct (Z.ltb_spec (Z.of_nat MAX_REDUNDANCY_GROUPS) (next_redundancy_group_id st.2)) as [|Hmax]; [exact H|].
    change (Z.of_nat MAX_REDUNDANCY_GROUPS) with 4 in Hmax. cbn [snd].
    eapply config_write_ok; [|exact Hi|exact Hv|config_write; apply Hids; lia].
    destruct H as [HI HL HH [A B C D E]]. split; auto. split; auto; cbn.
    + rewrite u8_small by (unfold is_u8; lia). lia.
    + rewrite u8_small by (unfold is_u8; lia). constructor; [cbn; lia|].
      eapply List.Forall_impl; [|exact C]. cbn. intros; lia.
Qed.
Lemma input_value_ok open j type st : config_ok open st ->
  exists ok st', on_input_value drivers_ j type st = Some (ok, st') /\ config_ok open st'.
Proof.
  intros H. unfold on_input_value. destruct (current_input st.2) as [i|] eqn:Ei; [|eauto].
  destruct (current_input_ok _ _ _ H Ei) as (v & Hv & Hi & Hg & n & d & Hn & Hd & Hok).
  rewrite Hv. cbn [mbind option_bind].
  destruct (String.eqb (key4 j) "invert").
  { destruct (JsonGetBool type); do 2 eexists; (split; [reflexivity|]); [|exact H].
    eapply config_write_ok; [exact H|exact Hi|exact Hv|config_write]. }
  destruct (String.eqb (key4 j) "redundancy_group").
  { pose proof (redundancy_group_ok open st j type i v H Hi Hv) as R.
    destruct (on_redundancy_group j type i v st) as [ok st']. eauto. }
  destruct (String.eqb (key4 j) "emergency").
  { destruct (JsonExpectTypeOrEnd OBJECT type); cbn [negb]; [|eauto]. do 2 eexists. split; [reflexivity|].
    case_bool_decide; [|exact H]. eapply config_write_ok; [exact H|exact Hi|exact Hv|config_write]. }
  rewrite Hn. cbn [mbind option_bind]. rewrite Hd. cbn [mbind option_bind].
  pose proof (Hok (key4 j) j type v (driver_data st.1)) as [W1 W2 W3 W4 W5 W6 W7].
  destruct (on_value d (key4 j) j type v (driver_data st.1)) as [[ok v'] w]. cbn [fst snd] in *.
  do 2 eexists. split; [reflexivity|]. eapply (config_write_ok open (st.1 <| driver_data := w |>, st.2)).
  - destruct st. apply config_ok_driver_data, H.
  - exact Hi.
  - exact Hv.
  - split; congruence.
Qed.
Lemma emergency_value_ok open j type st : config_ok open st ->
  exists ok st', on_emergency_value j type st = Some (ok, st') /\ config_ok open st'.
Proof.
  intros H. unfold on_emergency_value. destruct (current_input st.2) as [i|] eqn:Ei; [|eauto].
  destruct (current_input_ok _ _ _ H Ei) as (v & Hv & Hi & Hg & _).
  rewrite Hv. cbn [mbind option_bind].
  assert (K : forall (ok : bool) v', config_write v v' -> exists (ok' : bool) st', Some (ok, set_current i v' st) = Some (ok', st') /\ config_ok open st')
    by (intros ok v' Hw; do 2 eexists; split; [reflexivity|eapply config_write_ok; eauto]).
  repeat first [split_if; [try solve [eauto]|] | progress cbn [negb]]; try solve [eauto];
    try solve [apply K; config_write].
  - destruct (JsonGetNumber 16 j type); [apply K; config_write|eauto].
  - destruct type; eauto; apply K; config_write.
Qed.
Lemma callback_ok open open' j type st : config_ok open st -> opens open (j, type) = Some open' ->
  exists ok st', InputConfigsJsonCallback drivers_ j type st = Some (ok, st') /\ config_ok open' st'.
Proof.
  intros H Ho. unfold InputConfigsJsonCallback. unfold opens in Ho. cbn [fst snd] in Ho.
  destruct (stack_pos j) as [|[|[|[|[|[|[|[|k]]]]]]]]; try (injection Ho as <-; eauto using input_value_ok, emergency_value_ok).
  - destruct open; [discriminate|]. injection Ho as <-. eauto using driver_key_ok.
  - eapply input_object_ok; eauto.
Qed.
Lemma run_callbacks_ok calls open open' st f : config_ok open st -> open_run open calls = Some open' ->
  exists st' f', run_callbacks (delegate drivers_) calls (Some st, f) = (Some st', f') /\ config_ok open' st'.
Proof.
  revert open st f. induction calls as [|[j type] calls IH]; intros open st f H Ho; cbn [open_run] in Ho.
  - injection Ho as <-. exists st, f. auto.
  - destruct (opens open (j, type)) as [o|] eqn:Eo; [|discriminate].
    destruct (callback_ok _ _ _ _ _ H Eo) as (ok & st1 & E1 & H1).
    destruct (IH o st1 (f || negb ok) H1 Ho) as (st' & f' & E & H').
    exists st', f'. split; [|exact H']. unfold run_callbacks in *. cbn [fold_left]. unfold Callback at 2.
    cbn [fst snd delegate]. rewrite E1. exact E.
Qed.
Lemma parse_loop_ok {P} (parse : P -> Z -> P * list (jsp * lwjson_stream_type_t) * lwjsonr_t) json : forall p pos open st f,
  config_ok open st -> (forall json, open_run open (calls_of parse p json) <> None) ->
  exists e pos' st' f' open', parse_loop parse (delegate drivers_) p pos json (Some st, f) = (e, pos', (Some st', f')) /\ config_ok open' st'.
Proof.
  induction json as [|c json IH]; intros p pos open st f H Hn; cbn [parse_loop]; [eauto 10|].
  destruct (parse p c) as [[p' calls] res] eqn:Ep.
  assert (Ha : forall json, open_run open (calls ++ calls_of parse p' json) <> None).
  { intros json'. specialize (Hn (c :: json')). cbn [calls_of] in Hn. rewrite Ep in Hn. exact Hn. }
  destruct (open_run open calls) as [o|] eqn:Eo.
  2:{ destruct (Ha []). rewrite open_run_app, Eo. reflexivity. }
  destruct (run_callbacks_ok calls open o st f H Eo) as (st1 & f1 & E1 & H1). rewrite E1. cbn [fst snd].
  assert (Hn' : forall json, open_run o (calls_of parse p' json) <> None).
  { intros json'. specialize (Ha json'). rewrite open_run_app, Eo in Ha. exact Ha. }
  destruct res, f1; cbn [IsError]; try solve [eauto 10]; destruct (OnlyWhitespaceRemaining json); eauto 10.
Qed.

Lemma reset_ok s : length (redundancy_group_refcount_ (svc s)) = 5%nat -> length (heads s) = length drivers_ ->
  config_ok false (start_state regs s).
Proof.
  intros Hr Hh. split; cbn [fst snd].
  - split; cbn; try reflexivity; try (change MAX_INPUTS with 32%nat; lia).
    + intros i v Hv. do 2 (destruct i as [|i]; [injection Hv as <-; split; cbn; auto|]). discriminate Hv.
    + rewrite Hr. reflexivity.
  - exists (map (fun _ => []) (heads s)). cbn. split.
    + clear. induction (heads s); constructor; [reflexivity|assumption].
    + clear. induction (heads s); cbn; auto.
  - cbn. rewrite length_map. exact Hh.
  - split; cbn; try lia; [constructor|discriminate..].
Qed.
Lemma lists_walk store hs : lists_ok store hs -> (length store <= MAX_INPUTS)%nat ->
  exists ls, Forall2 (fun h l => Inputs MAX_INPUTS store h = Some l) hs ls /\
    Permutation (concat ls) (seq 2 (length store - 2)).
Proof.
  intros (ls & HF & HP) Hl. exists ls. split; [|exact HP]. apply Permutation_length in HP. rewrite length_seq in HP.
  assert (Hlen : (length (concat ls) <= MAX_INPUTS)%nat) by lia. clear HP Hl.
  induction HF as [|h l hs ls Hc HF IH]; constructor; cbn [concat] in Hlen; rewrite length_app in Hlen.
  - apply Inputs_chain. split; [lia|exact Hc].
  - apply IH. lia.
Qed.

(** C15. Configuration is sound for every document whose lines have at most 114 characters (an
    error further into a line is logged outside the log's line buffer): with a parser that does
    not interleave objects and driver keys, registering a configuration never follows a null
    pointer nor overruns that buffer; the service reports itself healthy exactly when it
    is accepted; and, accepted or not, what is left satisfies the invariant the
    run-time behaviour rests on: the counters agree with the (inactive) inputs,
    the [k]-th configured input has number [k] and a redundancy group that
    exists, and the drivers' lists are disjoint and hold every configured input. *)
Theorem config_establishes_invariant {P} (init : P) (parse : P -> Z -> P * list (jsp * lwjson_stream_type_t) * lwjsonr_t)
    (json : list Z) (s : @system W) :
  nested parse init -> short_lines 0 json = true -> length (redundancy_group_refcount_ (svc s)) = 5%nat -> length (heads s) = length drivers_ ->
  exists ok s', OnRegisterInputConfigsChanged regs drivers_ init parse json s = Some (ok, s') /\
    InputService_IsHealthy true s' = ok /\ counters_ok (svc s') /\
    (forall i v, all_inputs_ (svc s') !! i = Some v -> input_ok i v) /\
    exists ls, Forall2 (fun h l => Inputs MAX_INPUTS (all_inputs_ (svc s')) h = Some l) (heads s') ls /\
      Permutation (concat ls) (seq 2 (length (all_inputs_ (svc s')) - 2)).
Proof using drivers_ok.
  intros Hn Hs Hr Hh.
  destruct (parse_loop_ok parse json init 0 false _ false (reset_ok s Hr Hh) Hn) as (e & pos & st & f & open & E & H).
  unfold OnRegisterInputConfigsChanged. rewrite ProcessJson_short, E by exact Hs. cbn [fst mbind option_bind].
  set (ok := match e with Complete | EndNotFound => true | _ => false end).
  exists ok, (st.1 <| svc ::= (fun v => v <| inputs_configured_ := ok |>) |>).
  pose proof (config_inputs _ _ H) as [A B C D E' F G].
  split; [reflexivity|]. split; [reflexivity|]. split; [apply inputs_ok_counters; split; assumption|].
  split; [exact B|]. apply (lists_walk _ _ (config_lists _ _ H)). apply A.
Qed.
End Invariant.

(** ** A small parser, for the witness: its characters are the callbacks *)
Module ConfigDemo.
#[local] Existing Instance demo_reasons.
#[local] Instance no_numbers : ToArithmetic := fun _ _ => None.
Definition gpio : driver unit := Driver "gpio" (fun _ _ _ i w => (true, i <| config := GpioConfig 7 |>, w)).
Definition at_depth (n : nat) (text k4 : string) : jsp := mkJsp n text (Z.of_nat (String.length text)) k4 "".
Definition parse (open : bool) (c : Z) : bool * list (jsp * lwjson_stream_type_t) * lwjsonr_t :=
  if c =? 75 (* K *) then (open, if open then [] else [(at_depth 1 "gpio" "", KEY)], lwjsonSTREAMINPROG)
  else if c =? 123 (* { *) then (true, [(at_depth 3 "" "", OBJECT)], lwjsonSTREAMINPROG)
  else if c =? 125 (* } *) then (false, [(at_depth 3 "" "", OBJECT_END)], lwjsonSTREAMINPROG)
  else if c =? 86 (* V *) then (open, [(at_depth 5 "PA0" "line", STRING)], lwjsonSTREAMINPROG)
  else if c =? 71 (* G *) then (open, [(at_depth 5 "wheels" "redundancy_group", STRING)], lwjsonSTREAMINPROG)
  else (open, [], lwjsonSTREAMDONE).
Lemma parse_nested : nested parse false.
Proof.
  unfold nested. generalize false as open. intros open json. revert open.
  induction json as [|c json IH]; intros open; [discriminate|]. cbn [calls_of]. unfold parse at 1.
  repeat (split_if; [cbn; try destruct open; cbn; apply IH|]). cbn. apply IH.
Qed.
Definition start : @system unit := mkSystem
  (mkInputService false [] 0 None 0 None [0; 0; 0; 0; 0] 0 []) [None] tt.
Definition demo_regs : input_regs :=
  {| LongPressTime := 1000; DebounceTime := 20; LiftMultipleDelay := 10; CollisionMultipleDelay := 10 |}.
#[local] Instance gpio_ok : DriverOk gpio.
Proof. intros key j type i w. split; reflexivity. Qed.

(** The document "K{VG}{V}.": two inputs of the driver gpio, the first in a group. *)
Definition document : list Z := [75; 123; 86; 71; 125; 123; 86; 125; 46].
Example configured : match OnRegisterInputConfigsChanged demo_regs [gpio] false parse document start with
  | Some (ok, s) => ok = true /\ map (fun v => (idx v, redundancy_group v)) (all_inputs_ (svc s)) = [(255, 0); (255, 0); (0, 1); (1, 0)]
      /\ heads s = [Some 2%nat]
  | None => False
  end.
Proof. vm_compute. auto. Qed.
Lemma config_witness : exists ok s', OnRegisterInputConfigsChanged demo_regs [gpio] false parse document start = Some (ok, s') /\
  InputService_IsHealthy true s' = ok /\ counters_ok (svc s') /\
  (forall i v, all_inputs_ (svc s') !! i = Some v -> input_ok i v) /\
  exists ls, Forall2 (fun h l => Inputs MAX_INPUTS (all_inputs_ (svc s')) h = Some l) (heads s') ls /\
    Permutation (concat ls) (seq 2 (length (all_inputs_ (svc s')) - 2)).
Proof.
  assert (D : Forall DriverOk [gpio]) by (constructor; [exact gpio_ok|constructor]).
  apply (config_establishes_invariant demo_regs [gpio] D false parse document start);
    [exact parse_nested|reflexivity|reflexivity|reflexivity].
Defined.
End ConfigDemo.
