(* ===== verification/InputDrivers.v ===== *)
(** The drivers of the inputs: GPIO lines, the Worx keypad, the Sabo sensors and
    buttons, and the simulated ones ([drivers/input]).

    Each configures its view of an input from the document and, on its tick,
    updates every input of its list from what it reads. The hardware (line
    levels, the I2C transfer, the CRC) is a parameter. *)
From S2P Require Import Prelude ServiceExt Json Input InputConfig BoardUtils.

(** ** The loop over a driver's inputs

    [for (auto& input : Inputs())]: the link is read after the body has run. *)
Fixpoint for_inputs (fuel : nat) (body : nat -> Input -> InputService -> option InputService) (p : option nat)
    (s : InputService) : option InputService :=
  match p with
  | None => Some s
  | Some i => match fuel with
    | O => None
    | S fuel => inp ← all_inputs_ s !! i; s ← body i inp s; inp ← all_inputs_ s !! i;
                for_inputs fuel body (next_for_driver_ inp) s
    end
  end.

Section Drivers.
Context `{ER : EmergencyReasons} (clock : nat -> Z) (regs : input_regs).

(** A tick that updates the inputs [sel] selects to their [level]. *)
Definition poll (sel : Input -> bool) (level : nat -> Input -> bool) (head : option nat) (s : InputService) : option InputService :=
  for_inputs MAX_INPUTS (fun i inp s => if sel inp then fst <$> update_input clock regs s i (level i inp) 0 else Some s) head s.

(** ** GPIO lines *)
Section Gpio.
Context {W : Type} (crc16_genibus : string -> Z).
Definition gpio_line (c : input_config) : Z := match c with GpioConfig l => l | _ => 0 end.
(* @ gpio_input_driver.cpp GpioInputDriver::OnInputConfigValue *)
Definition gpio_OnInputConfigValue (key : string) (j : jsp) (type : lwjson_stream_type_t) (inp : Input) (w : W) : bool * Input * W :=
  if String.eqb key "line" then
    if negb (JsonExpectType STRING type) then (false, inp, w) else
    let line := default PAL_NOLINE (GetIoLineByName crc16_genibus (buff j)) in
    let inp := inp <| config := GpioConfig line |> in
    if line =? PAL_NOLINE then (false, inp, w) else (true, inp, w)
  else if String.eqb key "active" then
    if negb (JsonExpectType STRING type) then (false, inp, w) else
    if String.eqb (buff j) "high" then (true, inp <| invert := false |>, w)
    else if String.eqb (buff j) "low" then (true, inp <| invert := true |>, w)
    else (false, inp, w)
  else (false, inp, w).
Definition GpioInputDriver : driver W := Driver "gpio" gpio_OnInputConfigValue.
#[export] Instance gpio_ok : DriverOk GpioInputDriver.
Proof.
  intros key j type i w. unfold GpioInputDriver, gpio_OnInputConfigValue. cbn [on_value].
  repeat split_if; split; reflexivity.
Qed.
End Gpio.
(** What starting and stopping do to the lines: mode, interrupt on, interrupt off. *)
Inductive line_event := SetInput (line : Z) | EnableEvent (line : Z) | DisableEvent (line : Z).
(* @ gpio_input_driver.cpp GpioInputDriver::OnStart *)
Definition gpio_OnStart (inputs : list Input) : list line_event :=
  flat_map (fun i => SetInput (gpio_line (config i)) ::
    if emergency_reason i =? 0 then [] else [EnableEvent (gpio_line (config i))]) inputs.
(* @ gpio_input_driver.cpp GpioInputDriver::OnStop *)
Definition gpio_OnStop (inputs : list Input) : list line_event :=
  flat_map (fun i => if emergency_reason i =? 0 then [] else [DisableEvent (gpio_line (config i))]) inputs.
(** [palReadLine i line]: the level read for input [i]. *)
(* @ gpio_input_driver.cpp GpioInputDriver::tick *)
Definition gpio_tick (palReadLine : nat -> Z -> bool) : option nat -> InputService -> option InputService :=
  poll (fun _ => true) (fun i inp => palReadLine i (gpio_line (config inp))).

(** ** The Worx keypad *)
(* @ worx_input_driver.cpp:14-26 INPUT_BITS *)
Definition INPUT_BITS : list (string * Z) :=
  [("start", 1); ("home", 2); ("back", 3); ("battery_cover", 9); ("stop1", 10);
   ("trapped1", 12); ("trapped2", 13); ("stop2", 15)]%string.
(** Looking a name up; the key type holds [cap] characters. *)
Definition find_name {A} (cap : nat) (text : string) (l : list (string * A)) : option A :=
  snd <$> find (fun e => String.eqb e.1 (String.substring 0 cap text)) l.
Definition worx_bit (c : input_config) : Z := match c with WorxConfig b => b | _ => 0 end.
(* @ worx_input_driver.cpp WorxInputDriver::OnInputConfigValue *)
Definition worx_OnInputConfigValue {W} (key : string) (j : jsp) (type : lwjson_stream_type_t) (inp : Input) (w : W) : bool * Input * W :=
  if String.eqb key "id" then
    if negb (JsonExpectType STRING type) then (false, inp, w) else
    match find_name 13 (buff j) INPUT_BITS with
    | Some bit => (true, inp <| config := WorxConfig bit |>, w)
    | None => (false, inp, w)
    end
  else (false, inp, w).
Definition WorxInputDriver {W} : driver W := Driver "worx" worx_OnInputConfigValue.
#[export] Instance worx_ok {W} : DriverOk (W:=W) WorxInputDriver.
Proof.
  intros key j type i w. unfold WorxInputDriver, worx_OnInputConfigValue. cbn [on_value].
  repeat split_if; try (split; reflexivity). destruct (find_name _ _ _); split; reflexivity.
Qed.
(** The response: unknown1, keys_and_halls, unknown2, crc, as the bytes read;
    [None] is a failed transfer. *)
(* @ worx_input_driver.hpp:20-27 KeypadResponse *)
Definition KEYPAD_RESPONSE : nat := 1 + 2 + 4 + 2.
(* @ worx_input_driver.cpp:62-62 WorxInputDriver::ReadKeypad *)
Definition request_packet : list Z := [0x01; 0x01; 0xE0; 0xC1].
(* @ worx_input_driver.cpp WorxInputDriver::ReadKeypad *)
Definition ReadKeypad (crc16_genibus : list Z -> Z) (transfer : list Z -> option (list Z)) : option Z :=
  r ← transfer request_packet;
  if le_int (drop 7 r) =? crc16_genibus (take (KEYPAD_RESPONSE - 2) r) then Some (le_int (take 2 (drop 1 r))) else None.
Definition IS_BIT_SET (x bit : Z) : bool := negb (Z.land x (Z.shiftl 1 bit) =? 0).
(* @ worx_input_driver.cpp WorxInputDriver::tick *)
Definition worx_tick (keypad : option Z) (head : option nat) (s : InputService) : option InputService :=
  match keypad with
  | Some keys => poll (fun _ => true) (fun _ inp => IS_BIT_SET keys (worx_bit (config inp))) head s
  | None => Some s
  end.

(** ** Simulated inputs *)
(* @ simulated_input_driver.cpp SimulatedInputDriver::OnInputConfigValue *)
Definition simulated_OnInputConfigValue {W} (key : string) (j : jsp) (type : lwjson_stream_type_t) (inp : Input) (w : W) : bool * Input * W :=
  (false, inp, w).
Definition SimulatedInputDriver {W} : driver W := Driver "simulated" simulated_OnInputConfigValue.
#[export] Instance simulated_ok {W} : DriverOk (W:=W) SimulatedInputDriver.
Proof. intros key j type i w. split; reflexivity. Qed.
(** [1 << bit] is an [int] shift: inputs are numbered below 30. *)
(* @ simulated_input_driver.cpp SimulatedInputDriver::SetActiveInputs *)
Definition SetActiveInputs (active_inputs_mask : Z) : option nat -> InputService -> option InputService :=
  poll (fun _ => true) (fun _ inp => IS_BIT_SET active_inputs_mask (idx inp)).

(** ** Sabo sensors and buttons *)
(* @ sabo_common.hpp:33-33 InputType *)
Definition SENSOR : Z := 0.
(* @ sabo_common.hpp:33-33 InputType *)
Definition BUTTON : Z := 1.
(* @ sabo_common.hpp:35-35 SensorId *)
Definition STOP_REAR : Z := 3.
(* @ sabo_input_driver.cpp:28-31 INPUT_TYPES *)
Definition INPUT_TYPES : list (string * Z) := [("sensor", SENSOR); ("button", BUTTON)]%string.
(* @ sabo_input_driver.cpp:33-38 SENSOR_IDS *)
Definition SENSOR_IDS : list (string * Z) := [("lift_fl", 0); ("lift_fr", 1); ("stop_top", 2); ("stop_rear", STOP_REAR)]%string.
(* @ sabo_input_driver.cpp:40-53 BUTTON_IDS *)
Definition BUTTON_IDS : list (string * Z) :=
  [("up", 0); ("down", 1); ("left", 2); ("right", 3); ("ok", 4); ("play", 5); ("select", 6);
   ("menu", 8); ("back", 9); ("auto", 10); ("mow", 11); ("home", 12)]%string.
(** The view of a new input is all zeros. *)
Definition sabo_view (c : input_config) : Z * Z := match c with SaboConfig t i => (t, i) | _ => (0, 0) end.
(* @ sabo_input_driver.cpp SaboInputDriver::OnInputConfigValue *)
Definition sabo_OnInputConfigValue {W} (key : string) (j : jsp) (type : lwjson_stream_type_t) (inp : Input) (w : W) : bool * Input * W :=
  let '(t, id) := sabo_view (config inp) in
  if String.eqb key "type" then
    if negb (JsonExpectType STRING type) then (false, inp, w) else
    match find_name 6 (buff j) INPUT_TYPES with
    | Some t => (true, inp <| config := SaboConfig t id |>, w)
    | None => (false, inp, w)
    end
  else if String.eqb key "id" then
    if negb (JsonExpectType STRING type) then (false, inp, w) else
    match (if t =? SENSOR then find_name 9 (buff j) SENSOR_IDS
           else if t =? BUTTON then find_name 6 (buff j) BUTTON_IDS else None) with
    | Some id => (true, inp <| config := SaboConfig t id |>, w)
    | None => (false, inp, w)
    end
  else (false, inp, w).
Definition SaboInputDriver {W} : driver W := Driver "sabo" sabo_OnInputConfigValue.
#[export] Instance sabo_ok {W} : DriverOk (W:=W) SaboInputDriver.
Proof.
  intros key j type i w. unfold SaboInputDriver, sabo_OnInputConfigValue. cbn [on_value].
  destruct (sabo_view (config i)) as [t id].
  repeat split_if; try (split; reflexivity); destruct (find_name _ _ _); split; reflexivity.
Qed.

(** The levels of the sensor lines at a reading, whether the hall sensors are
    inverted, the last heartbeat count, the cover UI's buttons, the block. *)
Record sabo_readings := mkReadings {
  sensor_high : list bool; inverted : bool; heartbeat_last_ : Z; buttons_mask : Z; block_buttons_ : bool }.
(* @ sabo_input_driver.hpp:81-81 SaboInputDriver::heartbeat_min_ *)
Definition heartbeat_min_ : Z := 10.
(* @ sabo_input_driver.cpp SaboInputDriver::GetSensorState *)
Definition GetSensorState (r : sabo_readings) (sensor_id : Z) : bool :=
  match sensor_high r !! Z.to_nat sensor_id with
  | Some raw_state => xorb raw_state (inverted r)
  | None => if sensor_id =? STOP_REAR then heartbeat_last_ r <? heartbeat_min_ else false
  end.
(** [etl::flat_map] iterates in the order of its keys. *)
Definition SENSOR_IDS_sorted : list Z := [0; 1; STOP_REAR; 2].
(* @ sabo_input_driver.cpp SaboInputDriver::GetSensorBits *)
Definition GetSensorBits (r : sabo_readings) : Z :=
  foldr (fun '(k, id) bits => if GetSensorState r id then Z.lor bits (Z.shiftl 1 (Z.of_nat k)) else bits) 0
    (imap (fun k id => (k, id)) SENSOR_IDS_sorted).
(* @ sabo_input_driver.cpp SaboInputDriver::HeartbeatTimerCallback *)
Definition HeartbeatTimerCallback (heartbeat_counter_ : Z) (r : sabo_readings) : Z * sabo_readings :=
  (0, mkReadings (sensor_high r) (inverted r) heartbeat_counter_ (buttons_mask r) (block_buttons_ r)).
Definition sabo_level (r : sabo_readings) (inp : Input) : bool :=
  let '(t, id) := sabo_view (config inp) in
  if t =? SENSOR then GetSensorState r id else IS_BIT_SET (buttons_mask r) id.
Definition sabo_selected (r : sabo_readings) (inp : Input) : bool :=
  let '(t, _) := sabo_view (config inp) in (t =? SENSOR) || ((t =? BUTTON) && negb (block_buttons_ r)).
(* @ sabo_input_driver.cpp SaboInputDriver::Tick *)
Definition sabo_Tick (r : nat -> sabo_readings) : option nat -> InputService -> option InputService :=
  poll (sabo_selected (r 0%nat)) (fun i inp => sabo_level (r i) inp).
End Drivers.

(** [GetSensorBits] says its bits correspond to [SensorId], but it numbers them
    in the order of the map, that of the names: the two stop sensors are swapped. *)
Example sensor_bits_swapped :
  GetSensorBits (mkReadings [false; false; true] false 20 0 false) = Z.shiftl 1 STOP_REAR.
Proof. reflexivity. Qed.

(** ** A tick makes every input follow its sensor *)
Section Polling.
Context `{ER : EmergencyReasons} (clock : nat -> Z) (regs : input_regs).

Lemma chain_fixed store store' : fixed <$> store' = fixed <$> store ->
  forall l p, chain store p l -> chain store' p l.
Proof. intros E. apply chain_links. apply (f_equal (fmap snd)) in E. rewrite <- !list_fmap_compose in E. exact E. Qed.
Lemma fixed_lookup (store store' : list Input) i v : fixed <$> store' = fixed <$> store -> store !! i = Some v ->
  exists v', store' !! i = Some v' /\ static v' = static v /\ next_for_driver_ v' = next_for_driver_ v.
Proof.
  intros E Hv. apply (f_equal (fun l => l !! i)) in E. rewrite !list_lookup_fmap, Hv in E.
  destruct (store' !! i) as [v'|]; [|discriminate]. 
  apply (f_equal (option_map (fun x => (fst x, snd x)))) in E. unfold fixed in E. cbn in E.
  exists v'. split; [reflexivity|]. split; [congruence|]. injection E. auto.
Qed.
Lemma updated_active (s : InputService) (v : Input) (b : bool) (p : Z) : active (updated clock s v b p) = xorb (invert v) b.
Proof.
  unfold updated. destruct (invert v), b, (active v) eqn:E; cbn; auto.
Qed.
Lemma updated_static (s : InputService) (v : Input) (b : bool) (p : Z) : static (updated clock s v b p) = static v.
Proof. unfold updated. repeat split_if; reflexivity. Qed.

(** Every selected input of the list is set to its level, every other one is left. *)
Definition follows (sel : Input -> bool) (level : nat -> Input -> bool) (l : list nat) (s s' : InputService) : Prop :=
  forall i v, all_inputs_ s !! i = Some v -> is_virtual v = false ->
    exists w, all_inputs_ s' !! i = Some w /\ static w = static v /\
      if bool_decide (i ∈ l) && sel v then active w = xorb (invert v) (level i v) else w = v.
Definition real (s : InputService) (i : nat) : Prop :=
  exists v, all_inputs_ s !! i = Some v /\ is_virtual v = false.

(** What a pass over the list [l] does: each of its inputs is related to what it was
    by [Q], every other configured one is left. *)
Definition touched (Q : nat -> Input -> Input -> Prop) (l : list nat) (s s' : InputService) : Prop :=
  forall i v, all_inputs_ s !! i = Some v -> is_virtual v = false ->
    exists w, all_inputs_ s' !! i = Some w /\ static w = static v /\ if bool_decide (i ∈ l) then Q i v w else w = v.
(** A body that keeps the invariant and the lists, and touches its own input only. *)
Definition touches (Q : nat -> Input -> Input -> Prop) (body : nat -> Input -> InputService -> option InputService) : Prop :=
  forall i v s, counters_ok s -> all_inputs_ s !! i = Some v -> is_virtual v = false ->
    exists s', body i v s = Some s' /\ counters_ok s' /\ fixed <$> all_inputs_ s' = fixed <$> all_inputs_ s /\
      touched Q [i] s s'.

Lemma touched_one (Q : nat -> Input -> Input -> Prop) i v w s s' : all_inputs_ s !! i = Some v -> all_inputs_ s' !! i = Some w ->
  static w = static v -> Q i v w ->
  (forall j u, j <> i -> all_inputs_ s !! j = Some u -> is_virtual u = false -> all_inputs_ s' !! j = Some u) ->
  touched Q [i] s s'.
Proof.
  intros Hv Hw Hs HQ Ho j u Hu Hun. destruct (Nat.eq_dec j i) as [->|Hj].
  - rewrite Hv in Hu. injection Hu as <-. exists w. rewrite bool_decide_true by (apply list_elem_of_singleton; reflexivity). auto.
  - exists u. rewrite bool_decide_false by (rewrite list_elem_of_singleton; exact Hj). auto.
Qed.
Lemma static_virtual v w : static w = static v -> is_virtual w = is_virtual v.
Proof. intros H. apply is_virtual_idx. unfold static in H. congruence. Qed.
Lemma touched_real Q l l' s s' : touched Q l s s' -> Forall (real s) l' -> Forall (real s') l'.
Proof.
  intros T H. eapply List.Forall_impl; [|exact H]. intros j (u & Hu & Hun). destruct (T j u Hu Hun) as (w & Hw & Sw & _).
  exists w. rewrite (static_virtual u w Sw). auto.
Qed.
Lemma for_inputs_touched Q body (B : touches Q body) l : forall fuel p s, counters_ok s -> chain (all_inputs_ s) p l ->
  (length l <= fuel)%nat -> NoDup l -> Forall (real s) l ->
  exists s', for_inputs fuel body p s = Some s' /\
    counters_ok s' /\ fixed <$> all_inputs_ s' = fixed <$> all_inputs_ s /\ touched Q l s s'.
Proof.
  induction l as [|i l IH]; intros fuel p s K Hc Hl ND Hr.
  - cbn in Hc. subst p. exists s. split; [destruct fuel; reflexivity|]. split; [exact K|]. split; [reflexivity|].
    intros i v Hv _. exists v. rewrite bool_decide_false by apply not_elem_of_nil. split; [exact Hv|split; reflexivity].
  - destruct Hc as (-> & v & Hv & Hc). apply NoDup_cons in ND as [Hi ND]. apply Forall_cons in Hr as [(v' & Hv' & Hn) Hr].
    rewrite Hv in Hv'. injection Hv' as <-. destruct fuel as [|fuel]; [cbn in Hl; lia|].
    destruct (B i v s K Hv Hn) as (s1 & E1 & K1 & F1 & W1).
    destruct (fixed_lookup _ _ _ _ F1 Hv) as (v1 & Hv1 & _ & Hnext).
    destruct (IH fuel (next_for_driver_ v1) s1) as (s' & E & K' & F & Ws);
      [exact K1|rewrite Hnext; exact (chain_fixed _ _ F1 _ _ Hc)|cbn in Hl; lia|exact ND|exact (touched_real _ _ _ _ _ W1 Hr)|].
    exists s'. cbn [for_inputs]. rewrite Hv. cbn [mbind option_bind]. rewrite E1. cbn [mbind option_bind].
    rewrite Hv1. cbn [mbind option_bind]. split; [exact E|]. split; [exact K'|]. split; [congruence|].
    intros j u Hu Hun. destruct (W1 j u Hu Hun) as (w1 & Hw1 & S1 & A1).
    destruct (Ws j w1 Hw1 ltac:(rewrite (static_virtual u w1 S1); exact Hun)) as (w & Hw & S2 & A2).
    exists w. split; [exact Hw|]. split; [congruence|]. destruct (Nat.eq_dec j i) as [->|Hj].
    + rewrite bool_decide_false in A2 by exact Hi. subst w. rewrite bool_decide_true by (apply elem_of_cons; auto).
      rewrite bool_decide_true in A1 by (apply list_elem_of_singleton; reflexivity). exact A1.
    + rewrite bool_decide_false in A1 by (rewrite list_elem_of_singleton; exact Hj). subst w1.
      rewrite (bool_decide_ext (j ∈ i :: l) (j ∈ l)); [exact A2|]. rewrite elem_of_cons. tauto.
Qed.
(** Over a driver's own list. *)
Lemma for_inputs_list Q body head l s : touches Q body -> counters_ok s ->
  Inputs MAX_INPUTS (all_inputs_ s) head = Some l -> Forall (real s) l ->
  exists s', for_inputs MAX_INPUTS body head s = Some s' /\ counters_ok s' /\
    Inputs MAX_INPUTS (all_inputs_ s') head = Some l /\ Forall (real s') l /\ touched Q l s s'.
Proof.
  intros B K [Hl Hc]%Inputs_chain Hr. pose proof (chain_NoDup _ _ _ Hc) as ND.
  destruct (for_inputs_touched Q body B l MAX_INPUTS head s K Hc Hl ND Hr) as (s' & E & K' & F & T).
  exists s'. split; [exact E|]. split; [exact K'|]. split; [|split; [exact (touched_real _ _ _ _ _ T Hr)|exact T]].
  apply Inputs_chain. split; [exact Hl|exact (chain_fixed _ _ F _ _ Hc)].
Qed.

(** Updating one input. *)
Lemma update_touches (level : nat -> Input -> bool) (p : Z) :
  touches (fun i v w => active w = xorb (invert v) (level i v))
    (fun i v s => fst <$> update_input clock regs s i (level i v) p).
Proof.
  intros i v s K Hv Hn.
  destruct (Update_ok clock regs 0 s i v (level i v) p K Hv Hn) as (s' & E & K' & Hw).
  exists s'. unfold update_input. rewrite E. split; [reflexivity|]. split; [exact K'|].
  split; [exact (Update_fixed _ _ _ _ _ _ _ _ _ E)|].
  apply (touched_one _ _ v _ _ _ Hv Hw (updated_static _ _ _ _) (updated_active _ _ _ _)).
  intros j u Hj Hu Hun. exact (Update_others _ _ _ _ _ _ _ _ _ _ _ E K Hj Hu Hun).
Qed.
(** Skipping the inputs that are not selected. *)
Lemma touches_if Q body (sel : Input -> bool) : touches Q body ->
  touches (fun i v w => if sel v then Q i v w else w = v) (fun i v s => if sel v then body i v s else Some s).
Proof.
  intros B i v s K Hv Hn. destruct (sel v) eqn:Es.
  - destruct (B i v s K Hv Hn) as (s' & E & K' & F & T). exists s'. split; [exact E|]. split; [exact K'|]. split; [exact F|].
    intros j u Hu Hun. destruct (T j u Hu Hun) as (w & Hw & Sw & A). exists w. split; [exact Hw|]. split; [exact Sw|].
    destruct (bool_decide_reflect (j ∈ [i])) as [->%list_elem_of_singleton|]; [|exact A].
    rewrite Hv in Hu. injection Hu as <-. rewrite Es. exact A.
  - exists s. split; [reflexivity|]. split; [exact K|]. split; [reflexivity|].
    apply (touched_one _ _ v v _ _ Hv Hv eq_refl); [rewrite Es; reflexivity|auto].
Qed.
Lemma poll_touches (sel : Input -> bool) (level : nat -> Input -> bool) head l s : counters_ok s ->
  Inputs MAX_INPUTS (all_inputs_ s) head = Some l -> Forall (real s) l ->
  exists s', poll clock regs sel level head s = Some s' /\ counters_ok s' /\
    Inputs MAX_INPUTS (all_inputs_ s') head = Some l /\ Forall (real s') l /\ follows sel level l s s'.
Proof.
  intros K Hl Hr. destruct (for_inputs_list _ _ head l s (touches_if _ _ sel (update_touches level 0)) K Hl Hr)
    as (s' & E & K' & I' & R' & T). exists s'. split; [exact E|]. split; [exact K'|]. split; [exact I'|]. split; [exact R'|].
  intros i v Hv Hn. destruct (T i v Hv Hn) as (w & Hw & Sw & A). exists w. split; [exact Hw|]. split; [exact Sw|].
  destruct (bool_decide _), (sel v); exact A.
Qed.

(** C16. A tick makes the inputs follow the hardware: for each driver, in any state
    the run-time invariant describes, the tick ends, keeps the invariant, sets
    every input of the driver's list to the level just read (inverted where
    configured) and leaves every other configured input alone. A keypad that
    does not answer, and buttons that are blocked, leave their inputs alone. *)
Theorem ticks_follow_hardware (s : InputService) (head : option nat) (l : list nat) :
  counters_ok s -> Inputs MAX_INPUTS (all_inputs_ s) head = Some l -> Forall (real s) l ->
  (forall palReadLine, exists s', gpio_tick clock regs palReadLine head s = Some s' /\ counters_ok s' /\
     follows (fun _ => true) (fun i v => palReadLine i (gpio_line (config v))) l s s') /\
  (forall keypad, exists s', worx_tick clock regs keypad head s = Some s' /\ counters_ok s' /\
     match keypad with
     | Some keys => follows (fun _ => true) (fun _ v => IS_BIT_SET keys (worx_bit (config v))) l s s'
     | None => s' = s
     end) /\
  (forall mask, exists s', SetActiveInputs clock regs mask head s = Some s' /\ counters_ok s' /\
     follows (fun _ => true) (fun _ v => IS_BIT_SET mask (idx v)) l s s') /\
  (forall r, exists s', sabo_Tick clock regs r head s = Some s' /\ counters_ok s' /\
     follows (sabo_selected (r 0%nat)) (fun i v => sabo_level (r i) v) l s s').
Proof.
  intros K Hl Hr.
  assert (P : forall sel level, exists s', poll clock regs sel level head s = Some s' /\ counters_ok s' /\
    follows sel level l s s').
  { intros sel level. destruct (poll_touches sel level head l s K Hl Hr) as (s' & E & K' & _ & _ & W). eauto. }
  split; [intros; apply P|]. split; [|split; intros; apply P].
  intros [keys|]; [apply P|]. exists s. auto.
Qed.
End Polling.

Module DriversDemo.
Import Demo.
#[local] Existing Instance demo_reasons.
(** The inputs 2 to 5 of the demonstration service, in one list. *)
Definition linked : InputService :=
  service <| all_inputs_ ::= fun l => imap (fun i v =>
    if (2 <=? i)%nat && (i <? 5)%nat then v <| next_for_driver_ := Some (S i) |> else v) l |>.
Lemma linked_ok : counters_ok linked.
Proof.
  split; try reflexivity; try (cbn; lia); try discriminate.
  - intros g [<-|[<-|[<-|[<-|[]]]]]; reflexivity.
  - intros i v H. do 6 (destruct i as [|i]; [injection H as <-; cbn; tauto|]). discriminate H.
  - exists 0%nat. eexists. repeat split.
  - exists 1%nat. eexists. repeat split.
Qed.
Lemma ticks_witness : exists s', gpio_tick clock regs (fun i _ => (i =? 3)%nat) (Some 2%nat) linked = Some s' /\
  counters_ok s' /\ follows (fun _ => true) (fun i _ => (i =? 3)%nat) [2; 3; 4; 5]%nat linked s'.
Proof.
  assert (I : Inputs MAX_INPUTS (all_inputs_ linked) (Some 2%nat) = Some [2; 3; 4; 5]%nat) by (vm_compute; reflexivity).
  assert (R : Forall (real linked) [2; 3; 4; 5]%nat)
    by (forall_list ltac:(eexists; split; [vm_compute; reflexivity|vm_compute; reflexivity])).
  destruct (ticks_follow_hardware clock regs linked (Some 2%nat) [2; 3; 4; 5]%nat linked_ok I R) as [G _].
  exact (G (fun i _ => (i =? 3)%nat)).
Defined.
End DriversDemo.
