(* ===== verification/Emergency.v ===== *)
(** The emergency service: [services/emergency_service/emergency_service.cpp].

    Every operation returns the new state and what it emits. [reasons_] is the
    [uint16_t] mask the whole safety chain reads; the required services are
    pointers, looked up in [services] when their health is asked. *)
From S2P Require Import Prelude ServiceExt Input.

(* @ emergency_service.hpp EmergencyService *)
Record EmergencyService := mkEmergencyService {
  reasons_ : Z; last_high_level_emergency_message_ : Z; required_services_ : list nat }.
#[export] Instance eta_EmergencyService : Eta EmergencyService := fun s =>
  mkEmergencyService (reasons_ s) (last_high_level_emergency_message_ s) (required_services_ s).

Inductive emergency_out :=
  | Broadcast (flags : Z)
  | SendEmergencyReason (reasons : Z).

(** Capacity of [required_services_]. *)
Definition MAX_REQUIRED_SERVICES : nat := 16.

Section EmergencyService.
Context `{ER : EmergencyReasons} {Svc : Type} `{SE : ServiceExt Svc} (services : nat -> Svc).

(* @ emergency_service.hpp:46-47 EmergencyService::reasons_ *)
Definition initial_emergency : EmergencyService :=
  mkEmergencyService (u16 (Z.lor TIMEOUT_INPUTS TIMEOUT_HIGH_LEVEL)) 0 [].

(* @ emergency_service.cpp EmergencyService::SendStatus *)
Definition EmergencyService_SendStatus (s : EmergencyService) : list emergency_out :=
  [SendEmergencyReason (reasons_ s)].

(* @ emergency_service.cpp EmergencyService::UpdateEmergency *)
Definition UpdateEmergency (add clear : Z) (s : EmergencyService)
    : EmergencyService * list emergency_out :=
  let old_reason := reasons_ s in
  let r := u16 (Z.land old_reason (Z.lnot clear)) in
  let r := u16 (Z.lor r add) in
  let s := s <| reasons_ := r |> in
  if r =? old_reason then (s, [])
  else (s, Broadcast EMERGENCY_CHANGED :: EmergencyService_SendStatus s).

(* @ emergency_service.cpp EmergencyService::GetEmergencyReasons *)
Definition GetEmergencyReasons (s : EmergencyService) : Z := reasons_ s.

(* @ emergency_service.cpp EmergencyService::OnStop *)
Definition OnStop (s : EmergencyService) := UpdateEmergency TIMEOUT_HIGH_LEVEL 0 s.

(** The reasons [CheckInputs] may clear. *)
(* @ emergency_service.cpp:23-25 EmergencyService::CheckInputs *)
Definition potential_reasons : Z :=
  Z.lor (Z.lor (Z.lor (Z.lor STOP LIFT) LIFT_MULTIPLE) COLLISION) COLLISION_MULTIPLE.

(* @ emergency_service.cpp EmergencyService::CheckInputs *)
Definition CheckInputs (now : Z) (inputs : InputService) (s : EmergencyService)
    : InputService * EmergencyService * list emergency_out * Z :=
  let '(inputs, (reasons, block_time)) := InputService_GetEmergencyReasons inputs now in
  let '(s, o) := UpdateEmergency reasons potential_reasons s in
  (inputs, s, o, block_time).

(** [new_value] is the array of the register: [None] is a read past its end. *)
(* @ emergency_service.cpp EmergencyService::OnHighLevelEmergencyChanged *)
Definition OnHighLevelEmergencyChanged (now : Z) (new_value : list Z) (s : EmergencyService)
    : option (EmergencyService * list emergency_out) :=
  let s := s <| last_high_level_emergency_message_ := u32 now |> in
  add ← new_value !! 0%nat;
  clear ← new_value !! 1%nat;
  Some (UpdateEmergency add (u16 (Z.land clear (Z.lnot SERVICE_NOT_READY))) s).

(* @ emergency_service.cpp:45-45 EmergencyService::CheckTimeouts *)
Definition HIGH_LEVEL_TIMEOUT : Z := 1000000.

(* @ emergency_service.cpp EmergencyService::CheckTimeouts *)
Definition CheckTimeouts (now : Z) (s : EmergencyService)
    : EmergencyService * list emergency_out * Z :=
  let '(hit, block_time) :=
    TimeoutReached (u32 (now - last_high_level_emergency_message_ s)) HIGH_LEVEL_TIMEOUT UINT32_MAX in
  let reasons := if hit then TIMEOUT_HIGH_LEVEL else 0 in
  let '(s, o) := UpdateEmergency reasons (Z.lor TIMEOUT_HIGH_LEVEL TIMEOUT_INPUTS) s in
  (s, o, block_time).

(** [None]: [push_back] on a full vector. *)
(* @ emergency_service.cpp EmergencyService::RequireService *)
Definition RequireService (svc : nat) (s : EmergencyService) : option EmergencyService :=
  if (length (required_services_ s) <? MAX_REQUIRED_SERVICES)%nat
  then Some (s <| required_services_ ::= fun l => l ++ [svc] |>
               <| reasons_ ::= fun r => u16 (Z.lor r SERVICE_NOT_READY) |>)
  else None.

(** The loop with its [break]. *)
(* @ emergency_service.cpp:84-90 EmergencyService::CheckRequiredServices *)
Fixpoint all_ready (l : list nat) : bool :=
  match l with
  | [] => true
  | svc :: r => if negb (IsHealthy (services svc)) then false else all_ready r
  end.

(* @ emergency_service.cpp EmergencyService::CheckRequiredServices *)
Definition CheckRequiredServices (s : EmergencyService)
    : EmergencyService * list emergency_out * Z :=
  match required_services_ s with
  | [] => (s, [], UINT32_MAX)
  | l => let ready := all_ready l in
    let '(s, o) := UpdateEmergency (if ready then 0 else SERVICE_NOT_READY) SERVICE_NOT_READY s in
    (s, o, if ready then UINT32_MAX else 100000)
  end.

(** [OnLoop] takes the minimum of three checks, nested in two calls of [etl::min].
    C++ leaves the evaluation order of a call's arguments open: the two flags
    choose one of the four orders the compiler may take. *)
(* @ emergency_service.cpp EmergencyService::OnLoop *)
Definition OnLoop (inputs_first timeouts_first : bool) (now : Z) (inputs : InputService)
    (s : EmergencyService) : InputService * EmergencyService * list emergency_out * Z :=
  let inner s :=
    if timeouts_first then
      let '(s, o1, b1) := CheckTimeouts now s in
      let '(s, o2, b2) := CheckRequiredServices s in (s, o1 ++ o2, Z.min b1 b2)
    else
      let '(s, o2, b2) := CheckRequiredServices s in
      let '(s, o1, b1) := CheckTimeouts now s in (s, o2 ++ o1, Z.min b1 b2) in
  if inputs_first then
    let '(inputs, s, o1, b1) := CheckInputs now inputs s in
    let '(s, o2, b2) := inner s in (inputs, s, o1 ++ o2, Z.min b1 b2)
  else
    let '(s, o2, b2) := inner s in
    let '(inputs, s, o1, b1) := CheckInputs now inputs s in (inputs, s, o2 ++ o1, Z.min b1 b2).
End EmergencyService.

(** ** The mask after an update *)
Section Masks.
Context `{ER : EmergencyReasons} {OK : EmergencyReasonsOk}.

Definition after_update (add clear r : Z) : Z := Z.lor (Z.ldiff r clear) add.

Lemma UpdateEmergency_reasons add clear s :
  is_u16 (reasons_ s) -> is_u16 add ->
  reasons_ (fst (UpdateEmergency add clear s)) = after_update add clear (reasons_ s).
Proof.
  intros Hr Ha. unfold UpdateEmergency, after_update. rewrite land_lnot.
  rewrite (u16_small (Z.ldiff _ _)) by auto with mower.
  rewrite u16_small by auto with mower. split_if; reflexivity.
Qed.
Lemma UpdateEmergency_frame add clear s :
  fst (UpdateEmergency add clear s) =
    s <| reasons_ := reasons_ (fst (UpdateEmergency add clear s)) |>.
Proof. unfold UpdateEmergency. split_if; reflexivity. Qed.
Lemma after_update_u16 add clear r : is_u16 r -> is_u16 add -> is_u16 (after_update add clear r).
Proof. unfold after_update. auto with mower. Qed.

Lemma has_ldiff m c f : Z.land c f = 0 -> has (Z.ldiff m c) f = has m f.
Proof.
  intros H. unfold has. do 2 f_equal. apply Z.bits_inj'. intros i Hi.
  apply (f_equal (fun z => Z.testbit z i)) in H. rewrite Z.bits_0, Z.land_spec in H.
  rewrite !Z.land_spec, Z.ldiff_spec.
  destruct (Z.testbit c i), (Z.testbit f i), (Z.testbit m i); cbn in *; congruence.
Qed.
Lemma has_ldiff_in m c f : Z.land c f = f -> has (Z.ldiff m c) f = false.
Proof.
  intros H. unfold has. apply negb_false_iff, Z.eqb_eq. apply Z.bits_inj'. intros i Hi.
  apply (f_equal (fun z => Z.testbit z i)) in H. rewrite Z.land_spec in H.
  rewrite Z.land_spec, Z.ldiff_spec, Z.bits_0.
  destruct (Z.testbit c i), (Z.testbit f i), (Z.testbit m i); cbn in *; congruence.
Qed.
Lemma has_after add clear r f :
  has (after_update add clear r) f = (has (Z.ldiff r clear) f || has add f)%bool.
Proof. apply has_lor. Qed.

Lemma flag_in_latch : In LATCH reason_flags.
Proof. cbn; tauto. Qed.
End Masks.

(** ** The loop as one mask *)
Section Loop.
Context `{ER : EmergencyReasons} {OK : EmergencyReasonsOk} {Svc : Type} `{SE : ServiceExt Svc}
  (services : nat -> Svc).

Definition timeouts : Z := Z.lor TIMEOUT_HIGH_LEVEL TIMEOUT_INPUTS.
(** What the configuration gives an input: a [uint16_t] without the reasons the
    service itself raises. *)
Definition input_reasons_ok (l : list Input) : Prop :=
  Forall (fun i => is_u16 (emergency_reason i) /\ is_u16 (emergency_delay_ms i) /\
    Z.land (emergency_reason i) (Z.lor timeouts SERVICE_NOT_READY) = 0) l.

Definition timed_out (now : Z) (s : EmergencyService) : bool :=
  HIGH_LEVEL_TIMEOUT <=? u32 (now - last_high_level_emergency_message_ s).
Definition ready_mask (s : EmergencyService) : Z :=
  match required_services_ s with [] => 0 | _ => SERVICE_NOT_READY end.
Definition not_ready (s : EmergencyService) : Z :=
  if all_ready services (required_services_ s) then 0 else SERVICE_NOT_READY.
Definition timeout_reason (now : Z) (s : EmergencyService) : Z :=
  if timed_out now s then TIMEOUT_HIGH_LEVEL else 0.

Lemma flag_u16 f : In f reason_flags -> is_u16 f.
Proof. intros. apply reason_range. assumption. Qed.

Lemma reasons_of_ok now l : input_reasons_ok l ->
  is_u16 (reasons_of now l) /\ Z.land (reasons_of now l) (Z.lor timeouts SERVICE_NOT_READY) = 0.
Proof.
  induction 1 as [|i l (H1 & _ & H3) _ [IH1 IH2]]; [split; [unfold is_u16; cbn; lia|reflexivity]|].
  unfold reasons_of; cbn [fold_right]; fold (reasons_of now l). split.
  - destruct (fires now i); [auto with mower|exact IH1].
  - rewrite Z.land_lor_distr_l, IH2, Z.lor_0_r. destruct (fires now i); [exact H3|reflexivity].
Qed.

(** Each check is one [UpdateEmergency]. *)
Lemma CheckInputs_update now inputs s :
  input_reasons_ok (all_inputs_ inputs) ->
  CheckInputs now inputs s =
    let '(s', o) := UpdateEmergency (reasons_of now (all_inputs_ inputs)) potential_reasons s in
    (inputs <| all_inputs_ ::= fmap served |>, s', o, wait_of now (all_inputs_ inputs)).
Proof.
  intros H. unfold CheckInputs. rewrite GetEmergencyReasons_served; [reflexivity|].
  eapply List.Forall_impl; [|exact H]. intros i (_ & Hd & _). exact Hd.
Qed.

Definition timeout_wait (now : Z) (s : EmergencyService) : Z :=
  snd (TimeoutReached (u32 (now - last_high_level_emergency_message_ s)) HIGH_LEVEL_TIMEOUT UINT32_MAX).
Definition ready_wait (s : EmergencyService) : Z :=
  if all_ready services (required_services_ s) then UINT32_MAX else 100000.

Lemma CheckTimeouts_update now s :
  CheckTimeouts now s =
    let '(s', o) := UpdateEmergency (timeout_reason now s) timeouts s in (s', o, timeout_wait now s).
Proof.
  unfold CheckTimeouts, timeout_reason, timeout_wait, timed_out, TimeoutReached, timeouts.
  destruct (_ <=? _); reflexivity.
Qed.

Lemma UpdateEmergency_none s :
  is_u16 (reasons_ s) -> UpdateEmergency 0 0 s = (s, []).
Proof.
  intros H. unfold UpdateEmergency. rewrite land_lnot, Z.ldiff_0_r, Z.lor_0_r, !(u16_small _ H), Z.eqb_refl.
  destruct s; reflexivity.
Qed.

Lemma CheckRequired_update s :
  is_u16 (reasons_ s) ->
  CheckRequiredServices services s =
    let '(s', o) := UpdateEmergency (not_ready s) (ready_mask s) s in (s', o, ready_wait s).
Proof.
  intros H. unfold CheckRequiredServices, not_ready, ready_mask, ready_wait.
  destruct (required_services_ s) as [|x l] eqn:E; [cbn; rewrite UpdateEmergency_none; auto|].
  reflexivity.
Qed.

(** Two updates in a row, as masks, and when nothing is sent. *)
Lemma UpdateEmergency_silent add clear s :
  snd (UpdateEmergency add clear s) = [] <-> reasons_ (fst (UpdateEmergency add clear s)) = reasons_ s.
Proof. unfold UpdateEmergency. split_if; bsimp; cbn; split; congruence. Qed.

Definition loop_clear (s : EmergencyService) : Z := Z.lor (Z.lor potential_reasons timeouts) (ready_mask s).
Definition loop_add (now : Z) (inputs : InputService) (s : EmergencyService) : Z :=
  Z.lor (Z.lor (reasons_of now (all_inputs_ inputs)) (timeout_reason now s)) (not_ready s).
Definition set_reasons (r : Z) (s : EmergencyService) : EmergencyService := s <| reasons_ := r |>.
Definition update_out (old new : Z) : list emergency_out :=
  if new =? old then [] else [Broadcast EMERGENCY_CHANGED; SendEmergencyReason new].

Lemma set_reasons_set r q s : set_reasons q (set_reasons r s) = set_reasons q s.
Proof. reflexivity. Qed.
Lemma reasons_set r s : reasons_ (set_reasons r s) = r.
Proof. reflexivity. Qed.
Lemma timeout_reason_set now r s : timeout_reason now (set_reasons r s) = timeout_reason now s.
Proof. reflexivity. Qed.
Lemma timeout_wait_set now r s : timeout_wait now (set_reasons r s) = timeout_wait now s.
Proof. reflexivity. Qed.
Lemma not_ready_set r s : not_ready (set_reasons r s) = not_ready s.
Proof. reflexivity. Qed.
Lemma ready_mask_set r s : ready_mask (set_reasons r s) = ready_mask s.
Proof. reflexivity. Qed.
Lemma ready_wait_set r s : ready_wait (set_reasons r s) = ready_wait s.
Proof. reflexivity. Qed.
Create Rewrite HintDb set_reasons.
#[local] Hint Rewrite set_reasons_set reasons_set timeout_reason_set timeout_wait_set not_ready_set
  ready_mask_set ready_wait_set : set_reasons.

Lemma UpdateEmergency_eq add clear s :
  is_u16 (reasons_ s) -> is_u16 add ->
  UpdateEmergency add clear s =
    (set_reasons (after_update add clear (reasons_ s)) s,
     update_out (reasons_ s) (after_update add clear (reasons_ s))).
Proof.
  intros Hr Ha. unfold UpdateEmergency, after_update, update_out. rewrite land_lnot.
  rewrite (u16_small (Z.ldiff _ _)), u16_small by auto with mower. split_if; reflexivity.
Qed.

Lemma after_after a1 c1 a2 c2 r : Z.land a1 c2 = 0 ->
  after_update a2 c2 (after_update a1 c1 r) = after_update (Z.lor a1 a2) (Z.lor c1 c2) r.
Proof.
  unfold after_update. intros H. apply Z.bits_inj'. intros i Hi.
  apply (f_equal (fun z => Z.testbit z i)) in H. rewrite Z.land_spec, Z.bits_0 in H.
  repeat rewrite ?Z.lor_spec, ?Z.ldiff_spec.
  destruct (Z.testbit a1 i), (Z.testbit c2 i), (Z.testbit r i), (Z.testbit c1 i), (Z.testbit a2 i);
    cbn in *; congruence.
Qed.

Lemma loop_masks now inputs s :
  input_reasons_ok (all_inputs_ inputs) ->
  is_u16 (reasons_of now (all_inputs_ inputs)) /\ is_u16 (timeout_reason now s) /\
  is_u16 (not_ready s) /\
  Z.land (reasons_of now (all_inputs_ inputs)) timeouts = 0 /\
  Z.land (reasons_of now (all_inputs_ inputs)) (ready_mask s) = 0 /\
  Z.land (timeout_reason now s) potential_reasons = 0 /\ Z.land (timeout_reason now s) (ready_mask s) = 0 /\
  Z.land (not_ready s) potential_reasons = 0 /\ Z.land (not_ready s) timeouts = 0.
Proof.
  intros H. destruct (reasons_of_ok now _ H) as [U D0].
  rewrite Z.land_lor_distr_r in D0. apply Z.lor_eq_0_iff in D0 as [D1 D2].
  assert (is_u16 0) by (unfold is_u16; lia).
  pose proof (flag_u16 TIMEOUT_HIGH_LEVEL ltac:(cbn; tauto)).
  pose proof (flag_u16 SERVICE_NOT_READY ltac:(cbn; tauto)).
  flag_facts. unfold timeout_reason, not_ready, ready_mask, timeouts, potential_reasons.
  destruct (timed_out now s), (all_ready _ _), (required_services_ s);
    repeat (apply conj; [first [assumption|masks; rewrite ?Z.land_0_r; auto]|]);
    masks; auto.
Qed.

(** [announces r o q]: the messages [o] tell the world how the mask went from [r]
    to [q]; every change is broadcast and its new value sent, nothing else is. *)
Fixpoint announces (r : Z) (o : list emergency_out) (q : Z) : Prop :=
  match o with
  | [] => q = r
  | Broadcast f :: SendEmergencyReason p :: o => f = EMERGENCY_CHANGED /\ p <> r /\ announces p o q
  | _ => False
  end.
Lemma announces_update r q : announces r (update_out r q) q.
Proof. unfold update_out. destruct (Z.eqb_spec q r); cbn; auto. Qed.
Lemma announces_app o1 r o2 p q : announces r o1 p -> announces p o2 q -> announces r (o1 ++ o2) q.
Proof.
  revert r. induction o1 as [o1 IH] using (induction_ltof1 _ (@length _)); unfold ltof in IH.
  destruct o1 as [|[f|r1] [|[|r2] o1]]; cbn; try tauto; [intros r ->; auto|].
  intros r (E & Hn & H1) H2. repeat split; auto. apply IH; cbn; auto; lia.
Qed.
Lemma announces_to r o p q : announces r o p -> p = q -> announces r o q.
Proof. congruence. Qed.

Lemma OnLoop_after i t now inputs s :
  is_u16 (reasons_ s) -> input_reasons_ok (all_inputs_ inputs) ->
  exists o, OnLoop services i t now inputs s =
    (inputs <| all_inputs_ ::= fmap served |>,
     set_reasons (after_update (loop_add now inputs s) (loop_clear s) (reasons_ s)) s, o,
     Z.min (wait_of now (all_inputs_ inputs)) (Z.min (timeout_wait now s) (ready_wait s))) /\
    announces (reasons_ s) o (after_update (loop_add now inputs s) (loop_clear s) (reasons_ s)).
Proof.
  intros Hr Hi. destruct (loop_masks now inputs s Hi) as (U1 & U2 & U3 & M1 & M2 & M3 & M4 & M5 & M6).
  unfold OnLoop, loop_add, loop_clear.
  destruct i, t;
    repeat (first
      [ rewrite CheckInputs_update by exact Hi
      | rewrite CheckTimeouts_update
      | rewrite CheckRequired_update by (autorewrite with set_reasons; auto using after_update_u16)
      | rewrite UpdateEmergency_eq by (autorewrite with set_reasons; auto using after_update_u16)];
      cbv beta iota; autorewrite with set_reasons);
    rewrite !after_after by
      (first [assumption | rewrite ?Z.land_lor_distr_l, ?Z.land_lor_distr_r; apply Z.lor_eq_0_iff; split; assumption]);
    eexists; (split;
      [apply (f_equal2 pair); [apply (f_equal2 pair); [f_equal; f_equal; unfold after_update; bitwise|reflexivity]|lia]
      |eapply announces_to; [repeat first [apply announces_update|eapply announces_app]|unfold after_update; bitwise]]).
Qed.
End Loop.

(** ** Operations in any order *)
Section Operations.
Context `{ER : EmergencyReasons} {OK : EmergencyReasonsOk} {Svc : Type} `{SE : ServiceExt Svc}
  (services : nat -> Svc).

(** What other threads ask of the service. *)
Inductive emergency_op :=
  | OpCheckInputs (now : Z) (inputs : InputService)
  | OpLoop (inputs_first timeouts_first : bool) (now : Z) (inputs : InputService)
  | OpHighLevel (now : Z) (new_value : list Z)
  | OpRequire (svc : nat)
  | OpStop.

Definition emergency_apply (s : EmergencyService) (op : emergency_op)
    : option (EmergencyService * list emergency_out) :=
  match op with
  | OpCheckInputs now inputs => let '(_, s, o, _) := CheckInputs now inputs s in Some (s, o)
  | OpLoop i t now inputs => let '(_, s, o, _) := OnLoop services i t now inputs s in Some (s, o)
  | OpHighLevel now v => OnHighLevelEmergencyChanged now v s
  | OpRequire svc => s ← RequireService svc s; Some (s, [])
  | OpStop => Some (OnStop s)
  end.

Definition op_ok (op : emergency_op) : Prop :=
  match op with
  | OpCheckInputs _ inputs | OpLoop _ _ _ inputs => input_reasons_ok (all_inputs_ inputs)
  | OpHighLevel _ v => Forall is_u16 v
  | _ => True
  end.

Fixpoint emergency_run (s : EmergencyService) (ops : list emergency_op) : option EmergencyService :=
  match ops with
  | [] => Some s
  | op :: ops => '(s, _) ← emergency_apply s op; emergency_run s ops
  end.

(** Operation [op] may withdraw reason [f]. *)
Definition may_clear (f : Z) (s : EmergencyService) (op : emergency_op) : Prop :=
  match op with
  | OpCheckInputs _ _ => Z.land potential_reasons f <> 0
  | OpLoop _ _ _ _ => Z.land (loop_clear s) f <> 0
  | OpHighLevel _ v => exists c, v !! 1%nat = Some c /\ Z.land (Z.ldiff c SERVICE_NOT_READY) f <> 0
  | _ => False
  end.

Lemma update_keeps add clear s f :
  is_u16 (reasons_ s) -> is_u16 add -> Z.land clear f = 0 ->
  is_u16 (reasons_ (fst (UpdateEmergency add clear s))) /\
  (has (reasons_ s) f = true -> has (reasons_ (fst (UpdateEmergency add clear s))) f = true).
Proof.
  intros Hr Ha Hc. rewrite UpdateEmergency_reasons by assumption. split.
  - apply after_update_u16; assumption.
  - intros H. rewrite has_after, has_ldiff, H by assumption. reflexivity.
Qed.

Lemma apply_keeps s op s' o f :
  op_ok op -> is_u16 (reasons_ s) -> emergency_apply s op = Some (s', o) ->
  is_u16 (reasons_ s') /\ (~ may_clear f s op -> has (reasons_ s) f = true -> has (reasons_ s') f = true).
Proof.
  assert (Z : forall a b : Z, ~ a <> b -> a = b) by (intros; destruct (Z.eq_dec a b); tauto).
  intros Hop Hr E. destruct op as [now inputs|i t now inputs|now v|svc|]; cbn in Hop, E.
  - rewrite CheckInputs_update in E by exact Hop.
    destruct (reasons_of_ok now _ Hop) as [U _].
    pose proof (update_keeps (reasons_of now (all_inputs_ inputs)) potential_reasons s f Hr U) as K.
    pose proof (UpdateEmergency_reasons (reasons_of now (all_inputs_ inputs)) potential_reasons s Hr U) as R.
    destruct (UpdateEmergency _ _ _) as [s1 o1]. injection E as <- <-. cbn in K, R. split.
    + rewrite R. apply after_update_u16; assumption.
    + intros Hc. apply K. apply Z. exact Hc.
  - destruct (OnLoop_after services i t now inputs s Hr Hop) as (o1 & EL & _). rewrite EL in E.
    injection E as <- <-. cbn.
    destruct (loop_masks services now inputs s Hop) as (U1 & U2 & U3 & _).
    split; [apply after_update_u16; unfold loop_add; auto with mower|].
    intros Hc H. rewrite has_after, has_ldiff, H by (apply Z, Hc). reflexivity.
  - unfold OnHighLevelEmergencyChanged in E.
    destruct (v !! 0%nat) as [add|] eqn:E0; [|discriminate].
    destruct (v !! 1%nat) as [clear|] eqn:E1; [|discriminate]. cbn [mbind option_bind] in E.
    assert (Ua : is_u16 add) by exact (proj1 (Forall_lookup _ _) Hop 0%nat add E0).
    assert (Uc : is_u16 clear) by exact (proj1 (Forall_lookup _ _) Hop 1%nat clear E1).
    rewrite land_lnot, (u16_small (Z.ldiff _ _)) in E by auto with mower.
    set (s0 := s <| last_high_level_emergency_message_ := u32 now |>) in E.
    pose proof (update_keeps add (Z.ldiff clear SERVICE_NOT_READY) s0 f Hr Ua) as K.
    pose proof (UpdateEmergency_reasons add (Z.ldiff clear SERVICE_NOT_READY) s0 Hr Ua) as R.
    injection E as E. rewrite E in K, R. cbn in K, R. split.
    + rewrite R. apply after_update_u16; assumption.
    + intros Hc. apply K. apply Z. intros Hx. apply Hc. exists clear. auto.
  - unfold RequireService in E. split_if_in E; [|discriminate]. injection E as <- <-. cbn.
    pose proof (flag_u16 SERVICE_NOT_READY ltac:(cbn; tauto)). rewrite u16_small by auto with mower.
    split; [auto with mower|]. intros _ H'. rewrite has_lor, H'. reflexivity.
  - assert (U : is_u16 TIMEOUT_HIGH_LEVEL) by (apply flag_u16; cbn; tauto).
    pose proof (update_keeps TIMEOUT_HIGH_LEVEL 0 s f Hr U (Z.land_0_l f)) as K.
    unfold OnStop in E. injection E as E. rewrite E in K. cbn in K. tauto.
Qed.

(** C3. The latch: once LATCH is among the reasons, it stays there - and so the
    mower stays in emergency - through every sequence of input checks, loop
    iterations, service registrations, stops and high-level messages, unless a
    high-level message asks for LATCH to be cleared. *)
Theorem latch_persists ops s s' :
  is_u16 (reasons_ s) -> has (reasons_ s) LATCH = true ->
  Forall (fun op => op_ok op /\
    forall now v c, op = OpHighLevel now v -> v !! 1%nat = Some c -> Z.land c LATCH = 0) ops ->
  emergency_run s ops = Some s' ->
  has (reasons_ s') LATCH = true /\ GetEmergencyReasons s' <> 0.
Proof.
  revert s; induction ops as [|op ops IH]; intros s Hr HL Hops E.
  - injection E as <-. split; [exact HL|]. unfold GetEmergencyReasons. intros E0.
    rewrite E0 in HL. discriminate.
  - apply Forall_cons in Hops as [[Ho Hc] Hops]. cbn in E.
    destruct (emergency_apply s op) as [[s1 o]|] eqn:E1; [|discriminate]. cbn in E.
    destruct (apply_keeps s op s1 o LATCH Ho Hr E1) as [U K]. apply (IH s1); auto.
    apply K; [|exact HL]. clear - Hc OK. flag_facts. destruct op; cbn; try tauto.
    + intros Hm. apply Hm. unfold potential_reasons. masks.
    + intros Hm. apply Hm. unfold loop_clear, potential_reasons, timeouts, ready_mask.
      destruct (required_services_ s); masks.
    + intros (c & Ec & Hm). apply Hm. rewrite Z.land_comm. specialize (Hc now new_value c eq_refl Ec).
      rewrite Z.land_comm in Hc. apply Z.bits_inj'. intros i Hi.
      apply (f_equal (fun z => Z.testbit z i)) in Hc. rewrite Z.land_spec, Z.bits_0 in *.
      rewrite Z.ldiff_spec. destruct (Z.testbit LATCH i), (Z.testbit c i); cbn in *; congruence.
Qed.

(** C4. Nobody but [CheckRequiredServices] may declare the services ready: no high-level
    message, input check, registration or stop withdraws SERVICE_NOT_READY, and
    a loop iteration withdraws it only when every required service is healthy. *)
Theorem service_not_ready_is_protected s op s' o :
  op_ok op -> is_u16 (reasons_ s) -> has (reasons_ s) SERVICE_NOT_READY = true ->
  emergency_apply s op = Some (s', o) -> has (reasons_ s') SERVICE_NOT_READY = false ->
  exists i t now inputs, op = OpLoop i t now inputs /\ required_services_ s <> [] /\
    Forall (fun svc => IsHealthy (services svc) = true) (required_services_ s).
Proof.
  intros Ho Hr HS E HN. pose proof (apply_keeps s op s' o SERVICE_NOT_READY Ho Hr E) as [_ K].
  assert (HK : ~ ~ may_clear SERVICE_NOT_READY s op) by (intros Hc; rewrite K in HN; auto; discriminate).
  clear K. assert (HP : Z.land potential_reasons SERVICE_NOT_READY = 0)
    by (flag_facts; unfold potential_reasons; masks).
  destruct op as [now inputs|i t now inputs|now v|svc|]; cbn in HK.
  - exfalso. tauto.
  - exists i, t, now, inputs. split; [reflexivity|]. cbn in E, Ho.
    destruct (OnLoop_after services i t now inputs s Hr Ho) as (o1 & EL & _).
    rewrite EL in E. injection E as <- _. cbn in HN. unfold loop_add, not_ready in HN.
    rewrite has_after, !has_lor in HN. split.
    + intros E0. apply HK. intros Hm. apply Hm. unfold loop_clear, ready_mask. rewrite E0.
      flag_facts. unfold timeouts. rewrite Z.land_lor_distr_l, Z.land_lor_distr_l, HP. masks.
    + destruct (all_ready services (required_services_ s)) eqn:Ea.
      * revert Ea. clear. induction (required_services_ s) as [|x l IH]; cbn; [constructor|].
        destruct (IsHealthy (services x)) eqn:Ex; cbn; [|discriminate]. constructor; auto.
      * rewrite (has_self SERVICE_NOT_READY) in HN by (cbn; tauto).
        rewrite !orb_true_r in HN. discriminate.
  - exfalso. apply HK. intros (c & _ & Hm). apply Hm. apply Z.bits_inj'. intros i Hi.
    rewrite Z.land_spec, Z.ldiff_spec, Z.bits_0.
    destruct (Z.testbit c i), (Z.testbit SERVICE_NOT_READY i); reflexivity.
  - exfalso. tauto.
  - exfalso. tauto.
Qed.
End Operations.

Section LoopClaim.
Context `{ER : EmergencyReasons} {OK : EmergencyReasonsOk} {Svc : Type} `{SE : ServiceExt Svc}
  (services : nat -> Svc).

Definition input_flags : list Z := [STOP; LIFT; LIFT_MULTIPLE; COLLISION; COLLISION_MULTIPLE].

(** C5. One iteration of [EmergencyService::OnLoop], in any of the evaluation orders
    C++ allows, leaves exactly these reasons: an input reason iff an input fires
    with it; no TIMEOUT_INPUTS; TIMEOUT_HIGH_LEVEL iff the last high-level message
    is at least a second old; SERVICE_NOT_READY, where any service is required (as
    [services.cpp] does), iff a required service is unhealthy; LATCH iff it was
    there or an input fires with it. Every change on the way is broadcast and sent,
    and the loop sleeps no longer than any of the three checks allows. *)
Theorem OnLoop_reasons i t now inputs s :
  is_u16 (reasons_ s) -> input_reasons_ok (all_inputs_ inputs) ->
  exists inputs' s' o, OnLoop services i t now inputs s =
      (inputs', s', o, Z.min (wait_of now (all_inputs_ inputs))
                        (Z.min (timeout_wait now s) (ready_wait services s))) /\
    announces (reasons_ s) o (reasons_ s') /\
    (forall f, In f input_flags -> has (reasons_ s') f = has (reasons_of now (all_inputs_ inputs)) f) /\
    has (reasons_ s') TIMEOUT_INPUTS = false /\
    has (reasons_ s') TIMEOUT_HIGH_LEVEL = timed_out now s /\
    (required_services_ s <> [] ->
      has (reasons_ s') SERVICE_NOT_READY = negb (all_ready services (required_services_ s))) /\
    has (reasons_ s') LATCH = (has (reasons_ s) LATCH || has (reasons_of now (all_inputs_ inputs)) LATCH)%bool.
Proof.
  intros Hr Hi. destruct (OnLoop_after services i t now inputs s Hr Hi) as (o & E & Ho).
  do 3 eexists. split; [exact E|]. split; [exact Ho|]. clear E Ho.
  destruct (reasons_of_ok now _ Hi) as [_ D]. rewrite Z.land_lor_distr_r in D.
  apply Z.lor_eq_0_iff in D as [D1 D2]. unfold timeouts in D1. rewrite Z.land_lor_distr_r in D1.
  apply Z.lor_eq_0_iff in D1 as [D0 D1].
  assert (forall f, In f reason_flags -> has f f = true) as HF by (intros; apply has_self; assumption).
  assert (H0 : forall a b, Z.land a b = 0 -> has a b = false) by (intros a b H; unfold has; rewrite H; reflexivity).
  unfold set_reasons; cbn [reasons_ update].
  assert (R : forall f, has (reasons_ (set_reasons (after_update (loop_add services now inputs s)
      (loop_clear s) (reasons_ s)) s)) f =
    (has (Z.ldiff (reasons_ s) (loop_clear s)) f || (has (reasons_of now (all_inputs_ inputs)) f
      || has (timeout_reason now s) f || has (not_ready services s) f))%bool).
  { intros f. rewrite reasons_set, has_after. unfold loop_add. rewrite !has_lor. reflexivity. }
  flag_facts. repeat (apply conj); [intros f Hf| | |intros Hne|]; rewrite R; clear R;
    unfold timeout_reason, not_ready, loop_clear, potential_reasons, timeouts, ready_mask.
  - cbn in Hf. destruct Hf as [<-|[<-|[<-|[<-|[<-|[]]]]]];
      rewrite has_ldiff_in by (destruct (required_services_ s); masks); destruct (timed_out now s), (all_ready _ _); cbn;
      rewrite ?(H0 TIMEOUT_HIGH_LEVEL), ?(H0 SERVICE_NOT_READY), ?has_0, ?orb_false_r by masks; reflexivity.
  - rewrite has_ldiff_in by (destruct (required_services_ s); masks). rewrite (H0 _ _ D1).
    destruct (timed_out now s), (all_ready _ _); cbn;
      rewrite ?(H0 TIMEOUT_HIGH_LEVEL), ?(H0 SERVICE_NOT_READY) by masks; reflexivity.
  - rewrite has_ldiff_in by (destruct (required_services_ s); masks). rewrite (H0 _ _ D0).
    destruct (timed_out now s), (all_ready _ _); cbn;
      rewrite ?(HF TIMEOUT_HIGH_LEVEL), ?(H0 SERVICE_NOT_READY) by (masks || (cbn; tauto)); reflexivity.
  - destruct (required_services_ s) as [|x l]; [contradiction|].
    rewrite has_ldiff_in by masks. rewrite (H0 _ _ D2).
    destruct (timed_out now s), (all_ready _ _); cbn;
      rewrite ?(HF SERVICE_NOT_READY), ?(H0 TIMEOUT_HIGH_LEVEL) by (masks || (cbn; tauto)); reflexivity.
  - rewrite has_ldiff by (destruct (required_services_ s); masks).
    destruct (timed_out now s), (all_ready _ _); cbn;
      rewrite ?(H0 TIMEOUT_HIGH_LEVEL), ?(H0 SERVICE_NOT_READY), ?has_0, ?orb_false_r by masks; reflexivity.
Qed.
End LoopClaim.

(** ** Witnesses *)
Module EmergencyDemo.
#[local] Existing Instance demo_reasons.
#[local] Existing Instance demo_reasons_ok.
#[local] Instance bool_service : ServiceExt bool := fun b => b.

Definition services (n : nat) : bool := (n =? 0)%nat.
Definition latched : EmergencyService :=
  mkEmergencyService (Z.lor LATCH SERVICE_NOT_READY) 0 [0%nat].

Lemma demo_inputs_ok : input_reasons_ok (all_inputs_ Input.Demo.service).
Proof. forall_list ltac:(vm_compute; repeat split; congruence). Qed.

(** A pressed stop button latches an emergency; releasing it does not clear it. *)
Example stop_latches :
  (fun '(_, s, o, b) => (reasons_ s, o, b))
    (OnLoop services true true 30000 Input.Demo.service initial_emergency) =
  (24, [Broadcast 1; SendEmergencyReason 27; Broadcast 1; SendEmergencyReason 24], 970000).
Proof. vm_compute. reflexivity. Qed.

Lemma OnLoop_witness : exists inputs' s' o,
  OnLoop services true false 30000 Input.Demo.service latched =
    (inputs', s', o, Z.min (wait_of 30000 (all_inputs_ Input.Demo.service))
                       (Z.min (timeout_wait 30000 latched) (ready_wait services latched))) /\
  announces 12 o (reasons_ s') /\
  (forall f, In f input_flags ->
    has (reasons_ s') f = has (reasons_of 30000 (all_inputs_ Input.Demo.service)) f) /\
  has (reasons_ s') TIMEOUT_INPUTS = false /\ has (reasons_ s') TIMEOUT_HIGH_LEVEL = timed_out 30000 latched /\
  (required_services_ latched <> [] ->
    has (reasons_ s') SERVICE_NOT_READY = negb (all_ready services [0%nat])) /\
  has (reasons_ s') LATCH =
    (has 12 LATCH || has (reasons_of 30000 (all_inputs_ Input.Demo.service)) LATCH)%bool.
Proof.
  apply (OnLoop_reasons services true false 30000 Input.Demo.service latched);
    [vm_compute; split; congruence|apply demo_inputs_ok].
Defined.

Lemma latch_witness : exists s',
  emergency_run services latched [OpCheckInputs 0 Input.Demo.service; OpHighLevel 5 [0; 255 - 8]] = Some s' /\
  has (reasons_ s') LATCH = true /\ GetEmergencyReasons s' <> 0.
Proof.
  eexists. split; [reflexivity|].
  eapply (latch_persists services [OpCheckInputs 0 Input.Demo.service; OpHighLevel 5 [0; 255 - 8]] latched);
    [vm_compute; split; congruence|reflexivity| |reflexivity].
  forall_list ltac:(split; [first [apply demo_inputs_ok|repeat constructor; vm_compute; congruence]|
    intros now v c E; first [discriminate|injection E as <- <-; intros Ec; injection Ec as <-; reflexivity]]).
Defined.

Lemma service_not_ready_witness : exists s' o,
  emergency_apply services latched (OpLoop true true 10 Input.Demo.service) = Some (s', o) /\
  exists i t now inputs, OpLoop true true 10 Input.Demo.service = OpLoop i t now inputs /\
    required_services_ latched <> [] /\
    Forall (fun svc => IsHealthy (services svc) = true) (required_services_ latched).
Proof.
  do 2 eexists. split; [reflexivity|].
  eapply (service_not_ready_is_protected services latched (OpLoop true true 10 Input.Demo.service));
    [apply demo_inputs_ok|vm_compute; split; congruence|reflexivity|reflexivity|reflexivity].
Defined.
End EmergencyDemo.
