(* ===== verification/Float32.v ===== *)
(** IEEE single precision, as the compiler's [float]: the executable formats of
    the Standard Library's [SpecFloat], with 24 bits of precision. *)
From S2P Require Import Prelude.
From Stdlib Require Export SpecFloat.

(** [float] and [double] values. *)
Definition f32 := spec_float.
Definition f64 := spec_float.

Definition fadd : f32 -> f32 -> f32 := SFadd 24 128.
Definition fsub : f32 -> f32 -> f32 := SFsub 24 128.
Definition fmul : f32 -> f32 -> f32 := SFmul 24 128.
Definition fdiv : f32 -> f32 -> f32 := SFdiv 24 128.
Definition fneg : f32 -> f32 := SFopp.
(** [a <= b] and [a < b]; both are false when an operand is NaN. *)
Definition fle : f32 -> f32 -> bool := SFleb.
Definition flt : f32 -> f32 -> bool := SFltb.
Definition fge (a b : f32) : bool := SFleb b a.
Definition fgt (a b : f32) : bool := SFltb b a.

(** Conversion from an integer and from a [double], rounding to nearest even. *)
Definition f_of_Z (z : Z) : f32 := binary_normalize 24 128 z 0 false.
Definition f_of_f64 (x : f64) : f32 :=
  match x with
  | S754_finite s m e => binary_normalize 24 128 (if s then Zneg m else Zpos m) e s
  | _ => x
  end.
(** The literal [n/d], for [n] and [d] exact in a [float]. *)
Definition f_lit (n d : Z) : f32 := fdiv (f_of_Z n) (f_of_Z d).

(** Arithmetic in [double]; a [float] operand is exact there. *)
Definition d_of_Z (z : Z) : f64 := binary_normalize 53 1024 z 0 false.
Definition d_of_f32 (x : f32) : f64 :=
  match x with
  | S754_finite s m e => binary_normalize 53 1024 (if s then Zneg m else Zpos m) e s
  | _ => x
  end.
Definition dadd : f64 -> f64 -> f64 := SFadd 53 1024.
Definition dsub : f64 -> f64 -> f64 := SFsub 53 1024.
Definition dmul : f64 -> f64 -> f64 := SFmul 53 1024.
Definition ddiv : f64 -> f64 -> f64 := SFdiv 53 1024.

(** Truncation towards zero; [None] for NaN and infinity. *)
Definition f_trunc (x : spec_float) : option Z :=
  match x with
  | S754_zero _ => Some 0
  | S754_finite s m e =>
    let v := if 0 <=? e then Z.shiftl (Zpos m) e else Z.shiftr (Zpos m) (- e) in
    Some (if s then - v else v)
  | _ => None
  end.
(** Conversion to an integer type with range [lo, hi]: undefined ([None]) when
    the truncated value does not fit. *)
Definition f_to_int (lo hi : Z) (x : spec_float) : option Z :=
  v ← f_trunc x; if ((lo <=? v) && (v <=? hi))%bool then Some v else None.

Definition is_zero (x : spec_float) : bool :=
  match x with S754_zero _ => true | _ => false end.

Definition is_nan (x : spec_float) : bool := match x with S754_nan => true | _ => false end.

Definition f0 : f32 := S754_zero false.
Definition f1 : f32 := f_of_Z 1.

(** The bits of a [float] in memory, as an unsigned 32-bit integer. *)
Definition f_bits (x : f32) : Z :=
  match x with
  | S754_zero s => if s then 2147483648 else 0
  | S754_infinity s => (if s then 2147483648 else 0) + 2139095040
  | S754_nan => 2143289344
  | S754_finite s m e =>
    (if s then 2147483648 else 0) +
    (if Zpos m <? 8388608 then Zpos m else (e + 150) * 8388608 + (Zpos m - 8388608))
  end.
Definition f_of_bits (b : Z) : f32 :=
  let s := 2147483648 <=? b in
  let r := b mod 2147483648 in
  let e := r / 8388608 in
  let m := r mod 8388608 in
  if e =? 255 then (if m =? 0 then S754_infinity s else S754_nan)
  else if e =? 0 then (match m with Zpos p => S754_finite s p (-149) | _ => S754_zero s end)
  else match m + 8388608 with Zpos p => S754_finite s p (e - 150) | _ => S754_nan end.

(** The same for a [double], 64 bits. *)
Definition d_bits (x : f64) : Z :=
  match x with
  | S754_zero s => if s then 9223372036854775808 else 0
  | S754_infinity s => (if s then 9223372036854775808 else 0) + 9218868437227405312
  | S754_nan => 9221120237041090560
  | S754_finite s m e =>
    (if s then 9223372036854775808 else 0) +
    (if Zpos m <? 4503599627370496 then Zpos m
     else (e + 1075) * 4503599627370496 + (Zpos m - 4503599627370496))
  end.
Definition d_of_bits (b : Z) : f64 :=
  let s := 9223372036854775808 <=? b in
  let r := b mod 9223372036854775808 in
  let e := r / 4503599627370496 in
  let m := r mod 4503599627370496 in
  if e =? 2047 then (if m =? 0 then S754_infinity s else S754_nan)
  else if e =? 0 then (match m with Zpos p => S754_finite s p (-1074) | _ => S754_zero s end)
  else match m + 4503599627370496 with Zpos p => S754_finite s p (e - 1075) | _ => S754_nan end.

#[global] Arguments fadd : simpl never.
#[global] Arguments fsub : simpl never.
#[global] Arguments fmul : simpl never.
#[global] Arguments fdiv : simpl never.
#[global] Arguments fneg : simpl never.
#[global] Arguments f_of_Z : simpl never.
#[global] Arguments f_of_f64 : simpl never.
#[global] Arguments f_lit : simpl never.
#[global] Arguments f_to_int : simpl never.

Example literal_half : f_lit 1 2 = S754_finite false 8388608 (-24).
Proof. reflexivity. Qed.
Example literal_tenth_bits : f_bits (f_lit 1 10) = 1036831949.
Proof. reflexivity. Qed.
Example bits_roundtrip : f_of_bits (f_bits (f_lit (-355) 113)) = f_lit (-355) 113.
Proof. reflexivity. Qed.

Example double_bits_roundtrip : d_of_bits (d_bits (d_of_f32 (f_lit (-355) 113))) = d_of_f32 (f_lit (-355) 113).
Proof. reflexivity. Qed.
Example double_one_bits : d_bits (d_of_Z 1) = 4607182418800017408.
Proof. reflexivity. Qed.

(** A value stored by [if (x >= hi) x = hi; else if (x <= lo) x = lo;] is never
    above [hi] nor below [lo]: it is in range, or NaN. *)
Definition clamp (lo hi x : f32) : f32 :=
  if fge x hi then hi else if fle x lo then lo else x.

Lemma flt_fge a b : fge b a = false -> flt a b = false.
Proof. unfold fge, flt, SFleb, SFltb. destruct (SFcompare a b) as [[]|]; congruence. Qed.
Lemma fle_flt a b : fle b a = false -> flt b a = false.
Proof. unfold fle, flt, SFleb, SFltb. destruct (SFcompare b a) as [[]|]; congruence. Qed.

Lemma clamp_hi lo hi x : flt hi hi = false -> flt hi lo = false -> flt hi (clamp lo hi x) = false.
Proof.
  intros H1 H2. unfold clamp. destruct (fge x hi) eqn:E; [exact H1|].
  destruct (fle x lo); [exact H2|]. apply flt_fge. exact E.
Qed.
Lemma clamp_lo lo hi x : flt lo lo = false -> flt hi lo = false -> flt (clamp lo hi x) lo = false.
Proof.
  intros H1 H2. unfold clamp. destruct (fge x hi); [exact H2|].
  destruct (fle x lo) eqn:E; [exact H1|]. apply fle_flt. exact E.
Qed.

(** The order is strict. *)
Lemma flt_asym a b : flt a b = true -> flt b a = false.
Proof.
  assert (C : forall s1 m1 e1 s2 m2 e2, SFcompare (S754_finite s2 m2 e2) (S754_finite s1 m1 e1) =
    option_map CompOpp (SFcompare (S754_finite s1 m1 e1) (S754_finite s2 m2 e2))).
  { intros s1 m1 e1 s2 m2 e2. cbn. change (Pos.compare_cont Eq m1 m2) with (m1 ?= m2)%positive.
    change (Pos.compare_cont Eq m2 m1) with (m2 ?= m1)%positive.
    rewrite (Z.compare_antisym e1 e2), (Pos.compare_antisym m1 m2).
    destruct s1, s2; try reflexivity; destruct (e1 ?= e2); cbn; try reflexivity; destruct (m1 ?= m2)%positive; reflexivity. }
  unfold flt, SFltb. destruct a as [s1|s1| |s1 m1 e1], b as [s2|s2| |s2 m2 e2];
    try (rewrite C; destruct (SFcompare _ _) as [[]|]; cbn; congruence); cbn; try destruct s1; try destruct s2; cbn; congruence.
Qed.
Lemma flt_irrefl a : flt a a = false.
Proof. destruct (flt a a) eqn:E; [|reflexivity]. rewrite <- E at 1. apply flt_asym, E. Qed.
