(* ===== verification/FloatError.v ===== *)
(** What a floating-point operation may lose. The value of a float is a real number, [FV]; the
    operations of [SpecFloat] compute the exact result rounded to the nearest float, so they are
    within half a unit of it ([round_spec] and the lemmas of each operation), and comparisons compare
    the values. The bounds on what the code computes in [float] rest on these. *)
From Stdlib Require Export Reals.
From Stdlib Require Import Lra.
From S2P Require Import Prelude Float32.
Local Open Scope Z_scope.

(** ** Powers of two *)
Definition bpow (e : Z) : R := powerRZ 2 e.
Lemma bpow_add a b : bpow (a + b) = (bpow a * bpow b)%R.
Proof. apply powerRZ_add. lra. Qed.
Lemma bpow_pos e : (0 < bpow e)%R.
Proof. apply powerRZ_lt. lra. Qed.
Lemma bpow_neq e : bpow e <> 0%R.
Proof. apply Rgt_not_eq, bpow_pos. Qed.
Lemma bpow_Z e : 0 <= e -> bpow e = IZR (2 ^ e).
Proof.
  intros H. unfold bpow. rewrite <- (Z2Nat.id e) at 1 by lia. rewrite <- pow_powerRZ, pow_IZR. f_equal. rewrite Z2Nat.id by lia. reflexivity.
Qed.
Lemma bpow_le a b : a <= b -> (bpow a <= bpow b)%R.
Proof.
  intros H. replace b with (a + (b - a)) by lia. rewrite bpow_add. pose proof (bpow_pos a).
  rewrite (bpow_Z (b - a)) by lia. assert (1 <= 2 ^ (b - a)) by (apply Z.pow_le_mono_r with (b := 0); lia).
  apply IZR_le in H1. nra.
Qed.
Lemma bpow_lt_inv a b : (bpow a < bpow b)%R -> a < b.
Proof. intros H. destruct (Z_lt_le_dec a b) as [|L]; [assumption|]. apply bpow_le in L. lra. Qed.
Lemma bpow_opp a : (bpow a * bpow (- a) = 1)%R.
Proof. rewrite <- bpow_add. rewrite Z.add_opp_diag_r. reflexivity. Qed.
Lemma bpow_1 : bpow 1 = 2%R.
Proof. rewrite (bpow_Z 1) by lia. reflexivity. Qed.
Lemma bpow_half e : bpow (e - 1) = (bpow e / 2)%R.
Proof. assert (H := bpow_add 1 (e - 1)). rewrite bpow_1 in H. replace (1 + (e - 1)) with e in H by lia. lra. Qed.

(** ** The number of digits *)
Lemma digits2_log p : Zpos (digits2_pos p) = Z.log2 (Zpos p) + 1.
Proof.
  induction p as [p IH|p IH|]; cbn [digits2_pos]; [| |reflexivity].
  - rewrite Pos2Z.inj_succ, IH. change (Zpos p~1) with (2 * Zpos p + 1). rewrite Z.log2_succ_double by lia. lia.
  - rewrite Pos2Z.inj_succ, IH. change (Zpos p~0) with (2 * Zpos p). rewrite Z.log2_double by lia. lia.
Qed.
Lemma Zdigits2_bounds m : 0 < m -> 2 ^ (Zdigits2 m - 1) <= m < 2 ^ Zdigits2 m.
Proof.
  intros H. destruct m as [|p|p]; try lia. cbn [Zdigits2]. rewrite digits2_log. replace (_ + 1 - 1) with (Z.log2 (Zpos p)) by lia.
  pose proof (Z.log2_spec (Zpos p) ltac:(lia)). rewrite <- Z.add_1_r in H0. exact H0.
Qed.
Lemma Zdigits2_nonneg m : 0 <= Zdigits2 m.
Proof. destruct m; cbn; lia. Qed.
Lemma Zdigits2_le m d : 0 <= d -> 0 <= m < 2 ^ d -> Zdigits2 m <= d.
Proof.
  intros Hd H. destruct (decide (m = 0)) as [->|N]; [exact Hd|].
  pose proof (Zdigits2_bounds m ltac:(lia)) as B. destruct (Z_le_gt_dec (Zdigits2 m) d) as [|G]; [assumption|].
  pose proof (Z.pow_le_mono_r 2 d (Zdigits2 m - 1) ltac:(lia) ltac:(lia)). lia.
Qed.
Lemma Zdigits2_ge m d : 0 <= d -> 2 ^ d <= m -> d + 1 <= Zdigits2 m.
Proof.
  intros Hd H. assert (0 < 2 ^ d) by (apply Z.pow_pos_nonneg; lia). pose proof (Zdigits2_bounds m ltac:(lia)) as B.
  destruct (Z_le_gt_dec (d + 1) (Zdigits2 m)) as [|G]; [assumption|].
  pose proof (Z.pow_le_mono_r 2 (Zdigits2 m) d ltac:(lia) ltac:(lia)). lia.
Qed.
Lemma Zdigits2_shl m n : 0 < m -> 0 <= n -> Zdigits2 (m * 2 ^ n) = Zdigits2 m + n.
Proof.
  intros Hm Hn. pose proof (Zdigits2_bounds m Hm) as [B1 B2]. pose proof (Zdigits2_nonneg m).
  assert (0 < 2 ^ n) by (apply Z.pow_pos_nonneg; lia).
  assert (1 <= Zdigits2 m) by (apply (Zdigits2_ge m 0); cbn; lia).
  apply Z.le_antisymm.
  - apply Zdigits2_le; [lia|]. rewrite Z.pow_add_r by lia. nia.
  - replace (Zdigits2 m + n) with (Zdigits2 m - 1 + n + 1) by lia. apply Zdigits2_ge; [lia|]. rewrite Z.pow_add_r by lia. nia.
Qed.

(** ** Where a real lies between two mantissas *)
Definition located (l : location) (t : R) : Prop :=
  match l with
  | loc_Exact => t = 0%R
  | loc_Inexact Lt => (0 < t < 1 / 2)%R
  | loc_Inexact Eq => (t = 1 / 2)%R
  | loc_Inexact Gt => (1 / 2 < t < 1)%R
  end.
Definition recorded (r : shr_record) (x : R) : Prop := 0 <= shr_m r /\ located (loc_of_shr_record r) (x - IZR (shr_m r)).

Lemma located_bounds l t : located l t -> (0 <= t < 1)%R.
Proof. destruct l as [|[]]; cbn; lra. Qed.
Lemma recorded_of_loc m l x : 0 <= m -> located l (x - IZR m) -> recorded (shr_record_of_loc m l) x.
Proof. intros Hm H. destruct l as [|[]]; split; assumption. Qed.

Lemma shr_1_half r : 0 <= shr_m r -> shr_m (shr_1 r) = shr_m r / 2.
Proof.
  destruct r as [[|[p|p|]|p] b s]; cbn [shr_m shr_1]; intros; try reflexivity; try lia.
  - rewrite Pos2Z.inj_xI. apply (Z.div_unique_pos _ _ _ 1); lia.
  - rewrite Pos2Z.inj_xO. apply (Z.div_unique_pos _ _ _ 0); lia.
Qed.
Lemma shr_1_recorded r x : recorded r x -> recorded (shr_1 r) (x / 2).
Proof.
  intros [Hm H]. split; [rewrite shr_1_half by exact Hm; apply Z.div_pos; lia|].
  destruct r as [[|[p|p|]|p] b s]; cbn [shr_m] in *; try lia; destruct b, s; cbn in *;
    rewrite ?(Pos2Z.inj_xI p), ?(Pos2Z.inj_xO p), ?plus_IZR, ?mult_IZR in H; lra.
Qed.
Lemma iter_recorded p : forall r x, recorded r x ->
  recorded (iter_pos shr_1 p r) (x / bpow (Zpos p)) /\ shr_m (iter_pos shr_1 p r) = shr_m r / 2 ^ Zpos p.
Proof.
  induction p as [p IH|p IH|]; intros r x H; cbn [iter_pos].
  - destruct (IH _ _ (shr_1_recorded _ _ H)) as [A1 A2]. destruct (IH _ _ A1) as [B1 B2]. split.
    + rewrite Pos2Z.inj_xI. replace (2 * Zpos p + 1) with (1 + Zpos p + Zpos p) by lia. rewrite !bpow_add, bpow_1.
      replace (x / _)%R with (x / 2 / bpow (Zpos p) / bpow (Zpos p))%R; [exact B1|]. pose proof (bpow_pos (Zpos p)). field; lra.
    + rewrite B2, A2, shr_1_half by apply H. rewrite !Z.div_div by (try apply Z.pow_nonzero; try apply Z.pow_pos_nonneg; try (apply Z.mul_pos_pos; [|apply Z.pow_pos_nonneg]); lia).
      rewrite <- Z.pow_add_r, <- (Z.pow_add_r 2 1) by lia. replace (1 + (Zpos p + Zpos p)) with (Zpos p~1) by lia. reflexivity.
  - destruct (IH _ _ H) as [A1 A2]. destruct (IH _ _ A1) as [B1 B2]. split.
    + rewrite Pos2Z.inj_xO. replace (2 * Zpos p) with (Zpos p + Zpos p) by lia. rewrite !bpow_add.
      replace (x / _)%R with (x / bpow (Zpos p) / bpow (Zpos p))%R; [exact B1|]. pose proof (bpow_pos (Zpos p)). field; lra.
    + rewrite B2, A2. rewrite !Z.div_div by (try apply Z.pow_nonzero; try apply Z.pow_pos_nonneg; lia).
      rewrite <- Z.pow_add_r by lia. replace (Zpos p + Zpos p) with (Zpos p~0) by lia. reflexivity.
  - split; [rewrite bpow_1; apply shr_1_recorded, H|apply shr_1_half, H].
Qed.

Lemma nearest m l x : located l (x - IZR m) -> (Rabs (IZR (round_nearest_even m l) - x) <= 1 / 2)%R /\ m <= round_nearest_even m l <= m + 1.
Proof.
  intros H. unfold round_nearest_even. destruct l as [|[]]; cbn in H; try destruct (Z.even m); rewrite ?plus_IZR; (split; [|lia]);
    apply Rabs_le; lra.
Qed.

(** ** Values *)
Definition is_finite (x : spec_float) : bool := match x with S754_zero _ | S754_finite _ _ _ => true | _ => false end.
Definition sgn (s : bool) : R := if s then (-1)%R else 1%R.
Definition FV (x : spec_float) : R := match x with S754_finite s m e => (sgn s * (IZR (Zpos m) * bpow e))%R | _ => 0%R end.

(** ** Rounding *)
Section Rounding.
Context (prec emax : Z) (Hprec : 1 < prec) (Hemax : prec + 2 < emax).
Abbreviation emin := (emin prec emax).
Abbreviation fexp := (fexp prec emax).

(** A mantissa and a location at exponent [e], with digits enough for the format. *)
Definition aligned (m e : Z) : Prop := e <= fexp (Zdigits2 m + e).
Lemma fexp_le a b : a <= b -> fexp a <= fexp b.
Proof. unfold SpecFloat.fexp. lia. Qed.
Lemma emin_le a : emin <= fexp a.
Proof. unfold SpecFloat.fexp. lia. Qed.

(** Cutting off digits at the exponent the format asks for. *)
Lemma shr_fexp_spec m e l x : 0 <= m -> aligned m e -> located l (x / bpow e - IZR m) ->
  let e' := fexp (Zdigits2 m + e) in exists r, shr_fexp prec emax m e l = (r, e') /\ recorded r (x / bpow e') /\ shr_m r = m / 2 ^ (e' - e).
Proof.
  intros Hm Ha Hl e'. unfold shr_fexp. fold e'. pose proof (recorded_of_loc _ _ _ Hm Hl) as R. unfold aligned in Ha. fold e' in Ha.
  assert (Em : shr_m (shr_record_of_loc m l) = m) by (destruct l as [|[]]; reflexivity).
  destruct (e' - e) as [|p|p] eqn:E; [|destruct (iter_recorded p _ _ R) as [R' M]|lia].
  - exists (shr_record_of_loc m l). replace e with e' by lia. split; [reflexivity|]. split; [replace e' with e by lia; exact R|]. rewrite Em. symmetry. apply Z.div_1_r.
  - eexists. cbn [shr]. split; [f_equal; lia|]. split.
    + replace (x / bpow e')%R with (x / bpow e / bpow (Zpos p))%R; [exact R'|]. replace e' with (e + Zpos p) by lia. rewrite bpow_add.
      pose proof (bpow_pos e). pose proof (bpow_pos (Zpos p)). field. lra.
    + rewrite M, Em. reflexivity.
Qed.
(** What is left has at most [prec] digits, and exactly so many above the least exponent. *)
Lemma cut_digits m e : 0 <= m -> aligned m e -> let e' := fexp (Zdigits2 m + e) in
  0 <= m / 2 ^ (e' - e) < 2 ^ prec /\ (emin < e' -> 2 ^ (prec - 1) <= m / 2 ^ (e' - e)).
Proof.
  intros Hm Ha e'. unfold aligned in Ha. fold e' in Ha. set (n := e' - e). assert (0 <= n) by lia.
  assert (Hp : 0 < 2 ^ n) by (apply Z.pow_pos_nonneg; lia). split.
  - split; [apply Z.div_pos; lia|]. apply Z.div_lt_upper_bound; [exact Hp|]. destruct (decide (m = 0)) as [->|N].
    { apply Z.mul_pos_pos; [exact Hp|apply Z.pow_pos_nonneg; lia]. }
    rewrite <- Z.pow_add_r by lia. pose proof (Zdigits2_bounds m ltac:(lia)) as [_ B]. eapply Z.lt_le_trans; [exact B|]. apply Z.pow_le_mono_r; [lia|].
    subst n e'. unfold SpecFloat.fexp in *. lia.
  - intros He. destruct (decide (m = 0)) as [->|N]; [exfalso; subst n e'; cbn [Zdigits2] in *; unfold SpecFloat.fexp in *; lia|].
    apply Z.div_le_lower_bound; [exact Hp|]. rewrite <- Z.pow_add_r by lia. pose proof (Zdigits2_bounds m ltac:(lia)) as [B _].
    etransitivity; [|exact B]. apply Z.pow_le_mono_r; [lia|]. subst n e'. unfold SpecFloat.fexp in *. lia.
Qed.

Lemma Zdigits2_pow n : 0 <= n -> Zdigits2 (2 ^ n) = n + 1.
Proof. intros H. replace (2 ^ n) with (1 * 2 ^ n) by lia. rewrite Zdigits2_shl by lia. cbn. lia. Qed.

(** A rounded mantissa is brought back into the format without loss. *)
Lemma renormalised m e : 0 <= m <= 2 ^ prec -> emin <= e -> (emin < e -> 2 ^ (prec - 1) <= m) ->
  exists r e', shr_fexp prec emax m e loc_Exact = (r, e') /\ (IZR (shr_m r) * bpow e' = IZR m * bpow e)%R /\ 0 <= shr_m r /\
    e <= e' <= e + 1 /\ (0 < shr_m r -> fexp (Zdigits2 (shr_m r) + e') = e').
Proof.
  intros Hm He Hn. assert (D : emin < e -> prec <= Zdigits2 m).
  { intros L. replace prec with (prec - 1 + 1) by lia. apply Zdigits2_ge; [lia|]. apply Hn, L. }
  assert (Ha : aligned m e) by (unfold aligned, SpecFloat.fexp; destruct (decide (e = emin)); [lia|specialize (D ltac:(lia)); lia]).
  destruct (shr_fexp_spec m e loc_Exact (IZR m * bpow e)%R) as (r & Hr & _ & Mr); [lia|exact Ha| |].
  { cbn. pose proof (bpow_pos e). field_simplify; lra. }
  exists r, (fexp (Zdigits2 m + e)). split; [exact Hr|]. destruct (decide (m = 2 ^ prec)) as [->|N].
  - rewrite Zdigits2_pow in * by lia. assert (E : fexp (prec + 1 + e) = e + 1) by (unfold SpecFloat.fexp; lia). rewrite E in *.
    replace (e + 1 - e) with 1 in Mr by lia. assert (P : 2 ^ prec / 2 ^ 1 = 2 ^ (prec - 1)) by (rewrite <- Z.pow_sub_r by lia; reflexivity).
    rewrite Mr, P. assert (0 < 2 ^ (prec - 1)) by (apply Z.pow_pos_nonneg; lia). split; [|split; [lia|split; [lia|]]].
    + rewrite !(Z.add_comm e), bpow_add, bpow_1. replace prec with (1 + (prec - 1)) at 2 by lia. rewrite Z.pow_add_r, mult_IZR by lia. change (2 ^ 1) with 2. ring.
    + intros _. rewrite Zdigits2_pow by lia. unfold SpecFloat.fexp. lia.
  - assert (Dm : Zdigits2 m <= prec) by (apply Zdigits2_le; lia).
    assert (E : fexp (Zdigits2 m + e) = e) by (unfold aligned, SpecFloat.fexp in *; lia). rewrite E in *.
    rewrite Z.sub_diag, Z.div_1_r in Mr. rewrite Mr. split; [reflexivity|]. split; [lia|]. split; [lia|]. intros _. exact E.
Qed.

Lemma above_emin m e l x : 0 <= m -> aligned m e -> located l (x / bpow e - IZR m) -> let e1 := fexp (Zdigits2 m + e) in
  emin < e1 -> (x <= bpow (emax - 2))%R -> (bpow (e1 - 1) <= x * bpow (- prec))%R /\ e1 < emax - prec.
Proof.
  intros Hm Ha Hl e1 L Hx. assert (0 < m).
  { pose proof (cut_digits m e Hm Ha) as [_ D]. fold e1 in D. specialize (D L). destruct (decide (m = 0)) as [->|]; [|lia].
    unfold aligned in Ha. fold e1 in Ha. rewrite Z.div_0_l in D by (apply Z.pow_nonzero; lia). pose proof (Z.pow_pos_nonneg 2 (prec - 1) ltac:(lia) ltac:(lia)). lia. }
  pose proof (Zdigits2_bounds m ltac:(lia)) as [Bd _]. pose proof (Zdigits2_ge m 0 ltac:(lia) ltac:(cbn; lia)).
  assert (Lo : (bpow (Zdigits2 m - 1 + e) <= x)%R).
  { rewrite bpow_add. apply located_bounds in Hl. rewrite (bpow_Z (Zdigits2 m - 1)) by lia. apply IZR_le in Bd. pose proof (bpow_pos e).
    replace x with (x / bpow e * bpow e)%R by (field; apply bpow_neq). apply Rmult_le_compat_r; lra. }
  assert (E1 : e1 = Zdigits2 m + e - prec) by (unfold e1, SpecFloat.fexp in *; lia). split.
  - rewrite E1. replace (Zdigits2 m + e - prec - 1) with (Zdigits2 m - 1 + e + - prec) by lia. rewrite bpow_add. apply Rmult_le_compat_r; [left; apply bpow_pos|exact Lo].
  - assert (Zdigits2 m - 1 + e < emax - 1); [|lia]. apply bpow_lt_inv. eapply Rle_lt_trans; [exact Lo|]. eapply Rle_lt_trans; [exact Hx|].
    replace (emax - 1) with (1 + (emax - 2)) by lia. rewrite bpow_add, bpow_1. pose proof (bpow_pos (emax - 2)). lra.
Qed.
(** The result is the nearest float: within half a unit in the last place, and exact when no digit is cut off. *)
Theorem round_spec s m e l x : 0 <= m -> aligned m e -> located l (x / bpow e - IZR m) ->
  let r := binary_round_aux prec emax s m e l in
  valid_binary prec emax r = true /\ r <> S754_nan /\
  ((x <= bpow (emax - 2))%R -> is_finite r = true /\ exists y, FV r = (sgn s * y)%R /\ (0 <= y)%R /\
     (Rabs (y - x) <= x * bpow (- prec) + bpow (emin - 1))%R /\ (l = loc_Exact -> emin <= e -> (Rabs (y - x) <= x * bpow (- prec))%R)).
Proof.
  intros Hm Ha Hl r. subst r. unfold binary_round_aux.
  destruct (shr_fexp_spec m e l x Hm Ha Hl) as (r1 & -> & R1 & M1). pose proof (cut_digits m e Hm Ha) as [D1 D2].
  set (e1 := fexp (Zdigits2 m + e)) in *. destruct R1 as [P1 L1]. destruct (nearest _ _ _ L1) as [N1 N2].
  set (m1 := round_nearest_even (shr_m r1) (loc_of_shr_record r1)) in *. rewrite <- M1 in D1, D2.
  assert (Hemin : emin <= e1) by apply emin_le.
  destruct (renormalised m1 e1) as (r2 & e2 & -> & V2 & P2 & E2 & C2); [lia|exact Hemin|intros L; specialize (D2 L); lia|].
  assert (B : (0 <= x)%R).
  { apply located_bounds in Hl. pose proof (bpow_pos e). apply IZR_le in Hm. assert (0 <= x / bpow e)%R by lra.
    replace x with (x / bpow e * bpow e)%R by (field; apply bpow_neq). apply Rmult_le_pos; lra. }
  split; [|split].
  - destruct (shr_m r2) as [|p|p]; [reflexivity| |lia]. destruct (Z.leb_spec e2 (emax - prec)); [|reflexivity].
    cbn. unfold bounded, canonical_mantissa. specialize (C2 ltac:(lia)). cbn [Zdigits2] in C2. rewrite C2, Z.eqb_refl. cbn. apply Z.leb_le. assumption.
  - destruct (shr_m r2); [discriminate| |lia]. destruct (e2 <=? emax - prec); discriminate.
  - intros Hx. pose proof (bpow_neq e1) as Hb.
    assert (Err : (Rabs (IZR (shr_m r2) * bpow e2 - x) <= bpow (e1 - 1))%R).
    { rewrite V2. replace (IZR m1 * bpow e1 - x)%R with ((IZR m1 - x / bpow e1) * bpow e1)%R by (field; apply bpow_neq).
      rewrite Rabs_mult, (Rabs_right (bpow e1)) by (pose proof (bpow_pos e1); lra). rewrite bpow_half. pose proof (bpow_pos e1). nra. }
    assert (Big : emin < e1 -> (bpow (e1 - 1) <= x * bpow (- prec))%R /\ e1 < emax - prec) by (intros L; exact (above_emin m e l x Hm Ha Hl L Hx)).
    assert (Fit : e2 <= emax - prec) by (destruct (decide (emin < e1)) as [L|L]; [specialize (Big L)|unfold SpecFloat.emin in *]; lia).
    assert (Fin : is_finite match shr_m r2 with 0 => S754_zero s | Zpos p => if e2 <=? emax - prec then S754_finite s p e2 else S754_infinity s | Zneg _ => S754_nan end = true).
    { destruct (shr_m r2); [reflexivity| |lia]. rewrite (proj2 (Z.leb_le _ _) Fit). reflexivity. }
    split; [exact Fin|]. exists (IZR (shr_m r2) * bpow e2)%R. split; [|split; [|split]].
    + destruct (shr_m r2) as [|p|p]; [cbn; lra| |lia]. rewrite (proj2 (Z.leb_le _ _) Fit). reflexivity.
    + apply Rmult_le_pos; [apply IZR_le; exact P2|left; apply bpow_pos].
    + pose proof (bpow_pos (emin - 1)). assert (0 <= x * bpow (- prec))%R by (apply Rmult_le_pos; [exact B|left; apply bpow_pos]).
      destruct (decide (emin < e1)) as [L|L]; [specialize (Big L); lra|]. replace emin with e1 by lia. lra.
    + intros -> He. destruct (decide (emin < e1)) as [L|L]; [specialize (Big L); lra|]. unfold aligned in Ha. fold e1 in Ha.
      assert (Hm1 : m1 = round_nearest_even (shr_m r1) (loc_of_shr_record r1)) by reflexivity. clearbody m1 e1. assert (e = e1) by lia. subst e. cbn in Hl. rewrite Z.sub_diag, Z.div_1_r in M1. rewrite M1 in L1. rewrite Hl in L1.
      assert (Lx : loc_of_shr_record r1 = loc_Exact) by (destruct (loc_of_shr_record r1) as [|[]]; cbn in L1; [reflexivity|lra..]).
      rewrite Lx in Hm1. cbn in Hm1. rewrite V2, Hm1, M1. replace (IZR m * bpow e1 - x)%R with ((IZR m - x / bpow e1) * bpow e1)%R by (field; apply bpow_neq).
      replace (IZR m - x / bpow e1)%R with 0%R by lra. rewrite Rmult_0_l, Rabs_R0. apply Rmult_le_pos; [exact B|left; apply bpow_pos].
Qed.

(** A float [r] for an exact result [x]: valid and a number; finite and close to [x] when [x] is not too large,
    with an absolute error, below the least exponent, only if [below] allows for it. *)
Definition rounds (below : bool) (r : spec_float) (x : R) : Prop :=
  valid_binary prec emax r = true /\ r <> S754_nan /\
  ((Rabs x <= bpow (emax - 2))%R -> is_finite r = true /\
    (Rabs (FV r - x) <= Rabs x * bpow (- prec) + (if below then bpow (emin - 1) else 0))%R).

Lemma sgn_abs s x : Rabs (sgn s * x) = Rabs x.
Proof. destruct s; cbn; [replace (-1 * x)%R with (- x)%R by ring; apply Rabs_Ropp|f_equal; ring]. Qed.
Lemma aux_rounds s m e l x below : 0 <= m -> aligned m e -> located l (x / bpow e - IZR m) -> (below = true \/ l = loc_Exact /\ emin <= e) ->
  rounds below (binary_round_aux prec emax s m e l) (sgn s * x).
Proof.
  intros Hm Ha Hl Hb. destruct (round_spec s m e l x Hm Ha Hl) as (V & N & F). split; [exact V|]. split; [exact N|].
  rewrite sgn_abs. assert (0 <= x)%R as B.
  { apply located_bounds in Hl. pose proof (bpow_pos e). apply IZR_le in Hm. assert (0 <= x / bpow e)%R by lra.
    replace x with (x / bpow e * bpow e)%R by (field; apply bpow_neq). apply Rmult_le_pos; lra. }
  rewrite (Rabs_right x) by lra. intros Hx. destruct (F Hx) as (Fin & y & -> & Py & E1 & E2). split; [exact Fin|].
  rewrite <- Rmult_minus_distr_l, sgn_abs. destruct below; [exact E1|]. destruct Hb as [|[]]; [discriminate|]. rewrite Rplus_0_r. apply E2; assumption.
Qed.

(** Integers at an exponent, and conversions *)
Lemma iter_xO m d : Zpos (Pos.iter xO m d) = Zpos m * 2 ^ Zpos d.
Proof.
  revert m. induction d using Pos.peano_ind; intros m; [cbn; lia|]. rewrite Pos.iter_succ, Pos2Z.inj_xO, IHd, Pos2Z.inj_succ, Z.pow_succ_r by lia. lia.
Qed.
Lemma shl_align_spec m e e' : exists d, 0 <= d /\ shl_align m e e' = (fst (shl_align m e e'), e - d) /\
  Zpos (fst (shl_align m e e')) = Zpos m * 2 ^ d /\ e - d = Z.min e e'.
Proof.
  unfold shl_align. destruct (e' - e) as [|d|d] eqn:E; [exists 0; cbn [fst]; rewrite Z.sub_0_r; split; [lia|split; [reflexivity|split; lia]]..|].
  exists (Zpos d). cbn [fst]. split; [lia|]. split; [f_equal; lia|]. split; [apply iter_xO|lia].
Qed.
Lemma scaled m e d : 0 <= d -> (IZR (m * 2 ^ d) * bpow (e - d) = IZR m * bpow e)%R.
Proof. intros H. rewrite mult_IZR, <- bpow_Z by exact H. replace e with (d + (e - d)) at 2 by lia. rewrite bpow_add. ring. Qed.
Lemma binary_round_rounds s m e : rounds (negb (emin <=? e)) (binary_round prec emax s m e) (sgn s * (IZR (Zpos m) * bpow e)).
Proof.
  unfold binary_round. destruct (shl_align_spec m e (fexp (Zpos (digits2_pos m) + e))) as (d & Hd & -> & Em & Ee).
  set (m' := fst _) in *. change (Zpos (digits2_pos m)) with (Zdigits2 (Zpos m)) in *. refine (aux_rounds s _ _ _ _ _ _ _ _ _).
  - lia.
  - unfold aligned. rewrite Em, Zdigits2_shl by lia. replace (Zdigits2 (Zpos m) + d + (e - d)) with (Zdigits2 (Zpos m) + e) by lia. lia.
  - unfold located. rewrite <- (scaled (Zpos m) e d Hd), <- Em. field. apply bpow_neq.
  - destruct (Z.leb_spec emin e); [|left; reflexivity]. right. split; [reflexivity|]. pose proof (emin_le (Zdigits2 (Zpos m) + e)). lia.
Qed.
Lemma rounds_0 below s : rounds below (S754_zero s) 0.
Proof.
  split; [reflexivity|]. split; [discriminate|]. intros _. split; [reflexivity|]. cbn. rewrite Rminus_diag, Rabs_R0.
  pose proof (bpow_pos (emin - 1)). destruct below; lra.
Qed.
Lemma normalize_rounds m e sz : rounds (negb (emin <=? e)) (binary_normalize prec emax m e sz) (IZR m * bpow e).
Proof.
  destruct m as [|p|p]; cbn [binary_normalize].
  - rewrite Rmult_0_l. apply rounds_0.
  - pose proof (binary_round_rounds false p e) as H. cbn [sgn] in H. rewrite Rmult_1_l in H. exact H.
  - pose proof (binary_round_rounds true p e) as H. cbn [sgn] in H. change (IZR (Zneg p)) with (IZR (- Zpos p)). rewrite opp_IZR.
    replace (- IZR (Zpos p) * bpow e)%R with (-1 * (IZR (Zpos p) * bpow e))%R by ring. exact H.
Qed.

(** A float with no more digits than the format has is kept as it is. *)
Lemma aux_exact s p e : fexp (Zdigits2 (Zpos p) + e) = e -> e <= emax - prec -> binary_round_aux prec emax s (Zpos p) e loc_Exact = S754_finite s p e.
Proof.
  intros E H. unfold binary_round_aux, shr_fexp, shr. change (Zdigits2 (Zpos p)) with (Zpos (digits2_pos p)) in *. cbn [Zdigits2].
  rewrite E, Z.sub_diag. cbn [shr_record_of_loc shr_m loc_of_shr_record round_nearest_even Zdigits2]. rewrite E, Z.sub_diag. cbn [shr_record_of_loc shr_m].
  rewrite (proj2 (Z.leb_le _ _) H). reflexivity.
Qed.
Lemma normalize_exact k sz : Z.abs k < 2 ^ prec -> prec <= emax ->
  is_finite (binary_normalize prec emax k 0 sz) = true /\ FV (binary_normalize prec emax k 0 sz) = IZR k.
Proof.
  intros H He. assert (A : forall s p, Zpos p < 2 ^ prec -> exists m e, binary_round prec emax s p 0 = S754_finite s m e /\ (IZR (Zpos m) * bpow e = IZR (Zpos p))%R).
  { intros s p Hp. unfold binary_round. destruct (shl_align_spec p 0 (fexp (Zpos (digits2_pos p) + 0))) as (d & Hd & -> & Em & Ee).
    set (m' := fst _) in *. exists m', (0 - d). change (Zpos (digits2_pos p)) with (Zdigits2 (Zpos p)) in *.
    pose proof (Zdigits2_le (Zpos p) prec ltac:(lia) ltac:(lia)) as Dp. assert (F : fexp (Zdigits2 (Zpos p) + 0) <= 0) by (unfold SpecFloat.fexp, SpecFloat.emin; lia).
    split; [apply aux_exact; [|lia]|rewrite Em, scaled by exact Hd; change (bpow 0) with 1%R; ring].
    rewrite Em, Zdigits2_shl by lia. replace (Zdigits2 (Zpos p) + d + (0 - d)) with (Zdigits2 (Zpos p) + 0) by lia. lia. }
  destruct k as [|p|p]; cbn [binary_normalize]; [split; reflexivity|..].
  - destruct (A false p ltac:(lia)) as (m & e & -> & E). split; [reflexivity|]. cbn [FV sgn]. rewrite E. ring.
  - destruct (A true p ltac:(lia)) as (m & e & -> & E). split; [reflexivity|]. cbn [FV sgn]. rewrite E. change (IZR (Zneg p)) with (IZR (- Zpos p)). rewrite opp_IZR. ring.
Qed.

(** *** Exact results

    A value with no more digits than the format has is not rounded. *)
Definition representable (v : R) : Prop := exists k j, Z.abs k < 2 ^ prec /\ emin <= j /\ v = (IZR k * bpow j)%R.
Lemma digits_value m e p j : 0 < m -> 0 < p -> (IZR m * bpow e = IZR p * bpow j)%R -> Zdigits2 m + e = Zdigits2 p + j.
Proof.
  assert (L : forall m e p j, 0 < m -> 0 < p -> (IZR m * bpow e = IZR p * bpow j)%R -> Zdigits2 m + e <= Zdigits2 p + j).
  { clear m e p j. intros m e p j Hm Hp E. assert (Zdigits2 m - 1 + e < Zdigits2 p + j); [|lia]. apply bpow_lt_inv.
    pose proof (Zdigits2_bounds m Hm) as [A _]. pose proof (Zdigits2_bounds p Hp) as [_ B]. pose proof (Zdigits2_nonneg p).
    pose proof (Zdigits2_ge m 0 ltac:(lia) ltac:(cbn; lia)). rewrite !bpow_add, !(bpow_Z (Zdigits2 _)), (bpow_Z (Zdigits2 m - 1)) by lia.
    apply IZR_le in A. apply IZR_lt in B. pose proof (bpow_pos e). pose proof (bpow_pos j).
    apply Rle_lt_trans with (IZR m * bpow e)%R; [apply Rmult_le_compat_r; lra|]. rewrite E. apply Rmult_lt_compat_r; lra. }
  intros Hm Hp E. pose proof (L m e p j Hm Hp E). pose proof (L p j m e Hp Hm (eq_sym E)). lia.
Qed.
Lemma located_integer l k m : located l (IZR k - IZR m) -> l = loc_Exact /\ k = m.
Proof.
  intros H. pose proof (located_bounds _ _ H) as [B1 B2]. rewrite <- minus_IZR in *. apply le_IZR in B1. apply (lt_IZR _ 1) in B2.
  assert (k = m) by lia. subst. split; [|reflexivity]. rewrite Z.sub_diag in H. destruct l as [|[]]; cbn in H; [reflexivity|lra..].
Qed.
Lemma aux_keeps s m e k j : 0 < m -> aligned m e -> 0 < k < 2 ^ prec -> emin <= j -> (IZR m * bpow e = IZR k * bpow j)%R -> (IZR k * bpow j <= bpow (emax - 2))%R ->
  is_finite (binary_round_aux prec emax s m e loc_Exact) = true /\ FV (binary_round_aux prec emax s m e loc_Exact) = (sgn s * (IZR k * bpow j))%R.
Proof.
  intros Hm Ha Hk Hj E Hx. pose proof (bpow_pos e) as Pe. assert (Hl : located loc_Exact (IZR k * bpow j / bpow e - IZR m)) by (cbn; rewrite <- E; field; lra).
  destruct (round_spec s m e loc_Exact (IZR k * bpow j)%R ltac:(lia) Ha Hl) as (_ & _ & F). destruct (F Hx) as (Fin & _). split; [exact Fin|]. revert Fin.
  unfold binary_round_aux. destruct (shr_fexp_spec m e loc_Exact (IZR k * bpow j)%R ltac:(lia) Ha Hl) as (r1 & -> & [P1 L1] & M1).
  pose proof (cut_digits m e ltac:(lia) Ha) as [D1 D2]. rewrite (digits_value m e k j) in * by (lia || exact E). set (e1 := fexp (Zdigits2 k + j)) in *.
  pose proof (Zdigits2_le k prec ltac:(lia) ltac:(lia)) as Dk. assert (He : emin <= e1 <= j) by (unfold e1, SpecFloat.fexp; lia).
  replace (IZR k * bpow j / bpow e1)%R with (IZR (k * 2 ^ (j - e1))) in L1.
  2:{ rewrite mult_IZR, <- bpow_Z by lia. replace j with (j - e1 + e1) at 2 by lia. rewrite bpow_add. field. apply bpow_neq. }
  apply located_integer in L1 as [Lx Ek]. rewrite Lx, <- Ek. cbn [round_nearest_even]. rewrite <- Ek in M1. rewrite <- M1 in D1, D2.
  destruct (renormalised (k * 2 ^ (j - e1)) e1) as (r2 & e2 & -> & V2 & P2 & _); [lia|lia|exact D2|].
  assert (V : (IZR (shr_m r2) * bpow e2 = IZR k * bpow j)%R).
  { rewrite V2, mult_IZR, <- bpow_Z by lia. replace j with (j - e1 + e1) at 2 by lia. rewrite bpow_add. ring. }
  rewrite <- V. destruct (shr_m r2) as [|q|q]; [cbn; intros; ring| |lia]. destruct (e2 <=? emax - prec); [reflexivity|discriminate].
Qed.
Lemma representable_pos k j : Z.abs k < 2 ^ prec -> emin <= j -> forall m e, 0 < m -> (IZR m * bpow e = Rabs (IZR k * bpow j))%R -> 0 < Z.abs k < 2 ^ prec /\ (IZR m * bpow e = IZR (Z.abs k) * bpow j)%R.
Proof.
  intros Hk Hj m e Hm E. pose proof (bpow_pos j). rewrite Rabs_mult, (Rabs_right (bpow j)), <- abs_IZR in E by lra. split; [|exact E]. split; [|exact Hk].
  destruct (decide (k = 0)) as [->|]; [|lia]. exfalso. cbn [Z.abs] in E. rewrite Rmult_0_l in E. pose proof (bpow_pos e). assert (0 < IZR m)%R by (apply IZR_lt; lia).
  assert (0 < IZR m * bpow e)%R by (apply Rmult_lt_0_compat; assumption). lra.
Qed.
Lemma sgn_value s m e : Rabs (sgn s * (IZR (Zpos m) * bpow e)) = (IZR (Zpos m) * bpow e)%R.
Proof. rewrite sgn_abs, Rabs_right; [reflexivity|]. apply Rle_ge, Rmult_le_pos; [apply IZR_le; lia|left; apply bpow_pos]. Qed.
Lemma aux_representable s m e : aligned (Zpos m) e -> let v := (sgn s * (IZR (Zpos m) * bpow e))%R in representable v -> (Rabs v <= bpow (emax - 2))%R ->
  is_finite (binary_round_aux prec emax s (Zpos m) e loc_Exact) = true /\ FV (binary_round_aux prec emax s (Zpos m) e loc_Exact) = v.
Proof.
  intros Ha v (k & j & Hk & Hj & E) Hx. unfold v in *. rewrite sgn_value in Hx. pose proof (sgn_value s m e) as A. rewrite E in A.
  destruct (representable_pos k j Hk Hj (Zpos m) e ltac:(lia) (eq_sym A)) as [Hp Ep]. rewrite Ep in Hx |- *. apply aux_keeps; try assumption; lia.
Qed.
Lemma binary_round_exact s m e : let v := (sgn s * (IZR (Zpos m) * bpow e))%R in representable v -> (Rabs v <= bpow (emax - 2))%R ->
  is_finite (binary_round prec emax s m e) = true /\ FV (binary_round prec emax s m e) = v.
Proof.
  intros v Hr Hx. unfold binary_round. destruct (shl_align_spec m e (fexp (Zpos (digits2_pos m) + e))) as (d & Hd & -> & Em & Ee).
  set (m' := fst _) in *. change (Zpos (digits2_pos m)) with (Zdigits2 (Zpos m)) in *.
  assert (V : v = (sgn s * (IZR (Zpos m') * bpow (e - d)))%R) by (unfold v; rewrite Em, scaled by exact Hd; reflexivity).
  rewrite V in Hr, Hx |- *. apply aux_representable; try assumption. unfold aligned. rewrite Em, Zdigits2_shl by lia.
  replace (Zdigits2 (Zpos m) + d + (e - d)) with (Zdigits2 (Zpos m) + e) by lia. lia.
Qed.
Lemma binary_normalize_exact m e sz : let v := (IZR m * bpow e)%R in representable v -> (Rabs v <= bpow (emax - 2))%R ->
  is_finite (binary_normalize prec emax m e sz) = true /\ FV (binary_normalize prec emax m e sz) = v.
Proof.
  intros v. destruct m as [|p|p]; cbn [binary_normalize]; unfold v.
  - intros _ _. split; [reflexivity|]. cbn. ring.
  - pose proof (binary_round_exact false p e) as H. cbn [sgn] in H. rewrite Rmult_1_l in H. exact H.
  - pose proof (binary_round_exact true p e) as H. cbn [sgn] in H. change (IZR (Zneg p)) with (IZR (- Zpos p)). rewrite opp_IZR.
    replace (- IZR (Zpos p) * bpow e)%R with (-1 * (IZR (Zpos p) * bpow e))%R by ring. exact H.
Qed.

(** ** The operations *)
Lemma valid_finite s m e : valid_binary prec emax (S754_finite s m e) = true ->
  fexp (Zdigits2 (Zpos m) + e) = e /\ e <= emax - prec.
Proof. cbn. unfold bounded, canonical_mantissa. intros [H1 H2]%andb_prop. apply Z.eqb_eq in H1. apply Z.leb_le in H2. exact (conj H1 H2). Qed.
Lemma valid_emin s m e : valid_binary prec emax (S754_finite s m e) = true -> emin <= e.
Proof. intros [H _]%valid_finite. rewrite <- H. apply emin_le. Qed.
Lemma sgn_xorb a b : sgn (xorb a b) = (sgn a * sgn b)%R.
Proof. destruct a, b; cbn; ring. Qed.

Lemma Zdigits2_mul a b : 0 < a -> 0 < b -> Zdigits2 a + Zdigits2 b - 1 <= Zdigits2 (a * b).
Proof.
  intros Ha Hb. pose proof (Zdigits2_bounds a Ha) as [A _]. pose proof (Zdigits2_bounds b Hb) as [B _].
  pose proof (Zdigits2_ge a 0 ltac:(lia) ltac:(cbn; lia)). pose proof (Zdigits2_ge b 0 ltac:(lia) ltac:(cbn; lia)).
  replace (Zdigits2 a + Zdigits2 b - 1) with ((Zdigits2 a - 1) + (Zdigits2 b - 1) + 1) by lia. apply Zdigits2_ge; [lia|].
  rewrite Z.pow_add_r by lia. apply Z.mul_le_mono_nonneg; try assumption; apply Z.pow_nonneg; lia.
Qed.
Lemma mul_aligned sx mx ex sy my ey : valid_binary prec emax (S754_finite sx mx ex) = true -> valid_binary prec emax (S754_finite sy my ey) = true ->
  aligned (Zpos (mx * my)) (ex + ey).
Proof.
  intros Hx Hy. pose proof (valid_emin _ _ _ Hx). pose proof (valid_emin _ _ _ Hy). apply valid_finite in Hx as [Cx Bx], Hy as [Cy By].
  unfold aligned. rewrite Pos2Z.inj_mul. pose proof (Zdigits2_mul (Zpos mx) (Zpos my) ltac:(lia) ltac:(lia)).
  pose proof (Zdigits2_ge (Zpos mx) 0 ltac:(lia) ltac:(cbn; lia)). pose proof (Zdigits2_ge (Zpos my) 0 ltac:(lia) ltac:(cbn; lia)).
  unfold SpecFloat.fexp, SpecFloat.emin in *. lia.
Qed.
Lemma mul_value sx mx ex sy my ey : (FV (S754_finite sx mx ex) * FV (S754_finite sy my ey) = sgn (xorb sx sy) * (IZR (Zpos (mx * my)) * bpow (ex + ey)))%R.
Proof. cbn [FV]. rewrite sgn_xorb, Pos2Z.inj_mul, mult_IZR, bpow_add. ring. Qed.
Lemma SFmul_rounds x y : valid_binary prec emax x = true -> valid_binary prec emax y = true -> is_finite x = true -> is_finite y = true ->
  rounds true (SFmul prec emax x y) (FV x * FV y).
Proof.
  destruct x as [sx| | |sx mx ex], y as [sy| | |sy my ey]; intros Hx Hy Fx Fy; try discriminate;
    try (cbn; rewrite ?Rmult_0_l, ?Rmult_0_r; apply rounds_0). rewrite mul_value.
  refine (aux_rounds _ _ _ _ _ _ _ (mul_aligned _ _ _ _ _ _ Hx Hy) _ _); [lia| |left; reflexivity]. unfold located. field. apply bpow_neq.
Qed.
Lemma SFmul_exact x y : valid_binary prec emax x = true -> valid_binary prec emax y = true -> is_finite x = true -> is_finite y = true ->
  representable (FV x * FV y) -> (Rabs (FV x * FV y) <= bpow (emax - 2))%R ->
  is_finite (SFmul prec emax x y) = true /\ FV (SFmul prec emax x y) = (FV x * FV y)%R.
Proof.
  destruct x as [sx| | |sx mx ex], y as [sy| | |sy my ey]; intros Hx Hy Fx Fy; try discriminate;
    try (intros _ _; split; [reflexivity|cbn; ring]). rewrite mul_value. intros Hr Hb. exact (aux_representable _ _ _ (mul_aligned _ _ _ _ _ _ Hx Hy) Hr Hb).
Qed.

(** Addition and subtraction lose nothing below the least exponent. *)
Lemma aligned_value s m e e' : e' <= e -> (IZR (cond_Zopp s (Zpos (fst (shl_align m e e')))) * bpow e' = FV (S754_finite s m e))%R.
Proof.
  intros H. destruct (shl_align_spec m e e') as (d & Hd & _ & Em & Ee). rewrite Em. cbn [FV]. replace e' with (e - d) at 1 by lia.
  destruct s; cbn [cond_Zopp sgn]; rewrite ?opp_IZR, <- (scaled (Zpos m) e d Hd); ring.
Qed.
Lemma rounds_self x : valid_binary prec emax x = true -> is_finite x = true -> rounds false x (FV x).
Proof.
  intros V F. split; [exact V|]. split; [destruct x; discriminate|]. intros _. split; [exact F|]. rewrite Rminus_diag, Rabs_R0, Rplus_0_r.
  apply Rmult_le_pos; [apply Rabs_pos|left; apply bpow_pos].
Qed.
Lemma FV_opp s m e : FV (S754_finite (negb s) m e) = (- FV (S754_finite s m e))%R.
Proof. destruct s; cbn; ring. Qed.
Lemma SFsub_rounds x y : valid_binary prec emax x = true -> valid_binary prec emax y = true -> is_finite x = true -> is_finite y = true ->
  rounds false (SFsub prec emax x y) (FV x - FV y).
Proof.
  destruct x as [sx| | |sx mx ex], y as [sy| | |sy my ey]; intros Hx Hy Fx Fy; try discriminate; cbn [SFsub].
  - cbn. rewrite Rminus_diag. destruct sx, sy; apply rounds_0.
  - replace (FV (S754_zero sx) - FV (S754_finite sy my ey))%R with (FV (S754_finite (negb sy) my ey)) by (rewrite FV_opp; cbn; ring).
    apply rounds_self; [exact Hy|reflexivity].
  - replace (FV (S754_finite sx mx ex) - FV (S754_zero sy))%R with (FV (S754_finite sx mx ex)) by (cbn; ring). apply rounds_self; assumption.
  - pose proof (valid_emin _ _ _ Hx). pose proof (valid_emin _ _ _ Hy).
    rewrite <- (aligned_value sx mx ex (Z.min ex ey)), <- (aligned_value sy my ey (Z.min ex ey)) by lia.
    rewrite <- Rmult_minus_distr_r, <- minus_IZR. replace false with (negb (emin <=? Z.min ex ey)) at 1 by (rewrite (proj2 (Z.leb_le _ _)); [reflexivity|lia]).
    apply normalize_rounds.
Qed.

Lemma SFsub_exact x y : valid_binary prec emax x = true -> valid_binary prec emax y = true -> is_finite x = true -> is_finite y = true ->
  representable (FV x - FV y) -> (Rabs (FV x - FV y) <= bpow (emax - 2))%R ->
  is_finite (SFsub prec emax x y) = true /\ FV (SFsub prec emax x y) = (FV x - FV y)%R.
Proof.
  destruct x as [sx| | |sx mx ex], y as [sy| | |sy my ey]; intros Hx Hy Fx Fy; try discriminate; cbn [SFsub].
  - intros _ _. destruct sx, sy; cbn; split; try reflexivity; ring.
  - intros _ _. split; [reflexivity|]. rewrite FV_opp. cbn. ring.
  - intros _ _. split; [reflexivity|]. cbn. ring.
  - rewrite <- (aligned_value sx mx ex (Z.min ex ey)), <- (aligned_value sy my ey (Z.min ex ey)) by lia.
    rewrite <- Rmult_minus_distr_r, <- minus_IZR. apply binary_normalize_exact.
Qed.

(** Division *)
Lemma new_location_located n r : 0 < n -> 0 <= r < n -> located (new_location n r) (IZR r / IZR n).
Proof.
  intros Hn [H0 Hr]. pose proof (IZR_lt _ _ Hn) as Hn'. pose proof (IZR_lt _ _ Hr) as Hr'.
  assert (Half : forall c, (2 * r ?= n) = c -> 0 < r -> located (loc_Inexact c) (IZR r / IZR n)).
  { intros c Hc Hp. apply IZR_lt in Hp. assert (Hd : (IZR r / IZR n * IZR n = IZR r)%R) by (field; lra). set (q := (IZR r / IZR n)%R) in *.
    destruct (Z.compare_spec (2 * r) n) as [E|E|E]; subst c; cbn [located]; [apply (f_equal IZR) in E|apply IZR_lt in E..]; rewrite mult_IZR in E; [| |]; nra. }
  unfold new_location, new_location_even, new_location_odd. destruct (decide (r = 0)) as [->|N].
  - destruct (Z.even n); cbn; unfold Rdiv; ring.
  - destruct (Z.even n) eqn:Ev; cbv beta; rewrite (proj2 (Z.eqb_neq _ _) N); [apply Half; [reflexivity|lia]|].
    rewrite <- Z.negb_odd in Ev. apply negb_false_iff, Z.odd_spec in Ev as [k Ek].
    destruct (Z.compare_spec (2 * r + 1) n) as [E|E|E]; apply Half; try lia; [apply Z.compare_lt_iff; lia|apply Z.compare_lt_iff; lia|apply Z.compare_gt_iff; lia].
Qed.
Lemma SFdiv_core_spec m1 e1 m2 e2 : 0 < m1 -> 0 < m2 -> exists q e l, SFdiv_core_binary prec emax m1 e1 m2 e2 = (q, e, l) /\
  0 <= q /\ aligned q e /\ located l (IZR m1 * bpow e1 / (IZR m2 * bpow e2) / bpow e - IZR q).
Proof.
  intros H1 H2. unfold SFdiv_core_binary. set (e' := Z.min _ _). set (s := e1 - e2 - e'). assert (Hs : 0 <= s) by lia.
  assert (Em : match s with 0 => m1 | Zpos _ => Z.shiftl m1 s | Zneg _ => 0 end = m1 * 2 ^ s).
  { destruct s eqn:E; [cbn; lia|apply Z.shiftl_mul_pow2; lia|lia]. }
  rewrite Em. pose proof (Z_div_mod (m1 * 2 ^ s) m2 ltac:(lia)) as D. destruct (Z.div_eucl (m1 * 2 ^ s) m2) as [q r]. destruct D as [D [R0 Rr]].
  exists q, e', (new_location m2 r). split; [reflexivity|]. assert (Hp : 0 < 2 ^ s) by (apply Z.pow_pos_nonneg; lia).
  assert (Hq : 0 <= q) by nia. split; [exact Hq|]. split.
  - unfold aligned. assert (L : Zdigits2 m1 + s - Zdigits2 m2 <= Zdigits2 q).
    { pose proof (Zdigits2_bounds m1 H1) as [B1 _]. pose proof (Zdigits2_bounds m2 H2) as [_ B2]. pose proof (Zdigits2_nonneg q). pose proof (Zdigits2_nonneg m2).
      pose proof (Zdigits2_ge m1 0 ltac:(lia) ltac:(cbn; lia)).
      destruct (Z_le_gt_dec (Zdigits2 m1 + s - Zdigits2 m2) 0) as [|G]; [lia|].
      replace (Zdigits2 m1 + s - Zdigits2 m2) with (Zdigits2 m1 + s - Zdigits2 m2 - 1 + 1) by lia. apply Zdigits2_ge; [lia|].
      replace q with (m1 * 2 ^ s / m2) by (symmetry; apply (Z.div_unique_pos _ _ _ r); lia). apply Z.div_le_lower_bound; [lia|].
      transitivity (2 ^ Zdigits2 m2 * 2 ^ (Zdigits2 m1 + s - Zdigits2 m2 - 1)); [apply Z.mul_le_mono_nonneg_r; [apply Z.pow_nonneg; lia|lia]|].
      rewrite <- Z.pow_add_r by lia. replace (Zdigits2 m2 + _) with (Zdigits2 m1 - 1 + s) by lia. rewrite Z.pow_add_r by lia. apply Z.mul_le_mono_nonneg_r; lia. }
    transitivity (fexp (Zdigits2 m1 + e1 - (Zdigits2 m2 + e2))); [unfold e'; lia|]. apply fexp_le. unfold s in L. lia.
  - replace (_ - IZR q)%R with (IZR r / IZR m2)%R; [apply new_location_located; lia|].
    apply (f_equal IZR) in D. rewrite plus_IZR, !mult_IZR, <- bpow_Z in D by exact Hs. apply IZR_lt in H2.
    replace e1 with (s + e2 + e') by (unfold s; lia). rewrite !bpow_add. pose proof (bpow_neq e2). pose proof (bpow_neq e').
    replace (IZR r) with (IZR m1 * bpow s - IZR m2 * IZR q)%R by lra. field. repeat split; try assumption; lra.
Qed.
Lemma SFdiv_rounds x s m e : valid_binary prec emax x = true -> is_finite x = true ->
  rounds true (SFdiv prec emax x (S754_finite s m e)) (FV x / FV (S754_finite s m e)).
Proof.
  destruct x as [sx| | |sx mx ex]; intros Vx Fx; try discriminate.
  - cbn. unfold Rdiv. rewrite Rmult_0_l. apply rounds_0.
  - cbn [SFdiv FV]. destruct (SFdiv_core_spec (Zpos mx) ex (Zpos m) e) as (q & e' & l & -> & Hq & Ha & Hl); [lia..|].
    replace (_ / _)%R with (sgn (xorb sx s) * (IZR (Zpos mx) * bpow ex / (IZR (Zpos m) * bpow e)))%R.
    2:{ rewrite sgn_xorb. assert (0 < IZR (Zpos m))%R by (apply IZR_lt; lia). pose proof (bpow_neq e). assert (sgn s <> 0)%R by (destruct s; cbn; lra).
        replace (sgn sx * sgn s)%R with (sgn sx / sgn s)%R by (destruct s; cbn; field; lra). field. repeat split; try assumption; lra. }
    apply aux_rounds; [exact Hq|exact Ha|exact Hl|left; reflexivity].
Qed.

(** Comparison *)
Lemma mag_lt m1 e1 m2 e2 s1 s2 : valid_binary prec emax (S754_finite s1 m1 e1) = true -> valid_binary prec emax (S754_finite s2 m2 e2) = true ->
  e1 < e2 -> (IZR (Zpos m1) * bpow e1 < IZR (Zpos m2) * bpow e2)%R.
Proof.
  intros V1 V2 L. pose proof (valid_emin _ _ _ V1). apply valid_finite in V1 as [C1 _], V2 as [C2 _]. set (d := e2 - e1).
  pose proof (Zdigits2_bounds (Zpos m1) ltac:(lia)) as [_ B1]. pose proof (Zdigits2_bounds (Zpos m2) ltac:(lia)) as [B2 _].
  assert (D1 : Zdigits2 (Zpos m1) <= prec) by (unfold SpecFloat.fexp in C1; lia).
  assert (D2 : Zdigits2 (Zpos m2) = prec) by (unfold SpecFloat.fexp in C2; lia). rewrite D2 in B2.
  replace e2 with (d + e1) by (unfold d; lia). rewrite bpow_add, <- Rmult_assoc. apply Rmult_lt_compat_r; [apply bpow_pos|].
  rewrite bpow_Z, <- mult_IZR by (unfold d; lia). apply IZR_lt. apply Z.lt_le_trans with (2 ^ prec); [eapply Z.lt_le_trans; [exact B1|apply Z.pow_le_mono_r; lia]|].
  assert (2 ^ 1 <= 2 ^ d) by (apply Z.pow_le_mono_r; unfold d; lia). replace prec with (prec - 1 + 1) by lia. rewrite Z.pow_add_r by lia.
  apply Z.mul_le_mono_nonneg; try assumption; try (apply Z.pow_nonneg; lia); lia.
Qed.
Lemma SFcompare_FV x y : valid_binary prec emax x = true -> valid_binary prec emax y = true -> is_finite x = true -> is_finite y = true ->
  match SFcompare x y with Some Lt => (FV x < FV y)%R | Some Eq => FV x = FV y | Some Gt => (FV x > FV y)%R | None => False end.
Proof.
  assert (P : forall m e, (0 < IZR (Zpos m) * bpow e)%R) by (intros m e; apply Rmult_lt_0_compat; [apply IZR_lt; lia|apply bpow_pos]).
  destruct x as [sx| | |sx mx ex], y as [sy| | |sy my ey]; intros Vx Vy Fx Fy; try discriminate; cbn [SFcompare FV].
  - reflexivity.
  - pose proof (P my ey). destruct sy; cbn [sgn]; lra.
  - pose proof (P mx ex). destruct sx; cbn [sgn]; lra.
  - pose proof (P mx ex). pose proof (P my ey).
    assert (M : match (ex ?= ey) with Lt => IZR (Zpos mx) * bpow ex < IZR (Zpos my) * bpow ey | Gt => IZR (Zpos mx) * bpow ex > IZR (Zpos my) * bpow ey
        | Eq => match Pos.compare_cont Eq mx my with Lt => IZR (Zpos mx) * bpow ex < IZR (Zpos my) * bpow ey
          | Eq => IZR (Zpos mx) * bpow ex = IZR (Zpos my) * bpow ey | Gt => IZR (Zpos mx) * bpow ex > IZR (Zpos my) * bpow ey end end%R).
    { destruct (Z.compare_spec ex ey) as [->|L|L]; [|eapply mag_lt; eassumption|eapply mag_lt; eassumption].
      change (Pos.compare_cont Eq mx my) with (mx ?= my)%positive. pose proof (bpow_pos ey).
      destruct (Pos.compare_spec mx my) as [->|L|L]; [reflexivity|apply Rmult_lt_compat_r, IZR_lt; assumption..]. }
    destruct sx, sy; cbn [sgn]; try lra; destruct (ex ?= ey); try destruct (Pos.compare_cont Eq mx my); cbn [CompOpp]; lra.
Qed.
Lemma SFleb_FV x y : valid_binary prec emax x = true -> valid_binary prec emax y = true -> is_finite x = true -> is_finite y = true ->
  SFleb x y = true <-> (FV x <= FV y)%R.
Proof.
  intros Vx Vy Fx Fy. pose proof (SFcompare_FV x y Vx Vy Fx Fy) as C. unfold SFleb. destruct (SFcompare x y) as [[]|]; split; intros; try lra; discriminate.
Qed.
Lemma SFleb_nle x y : valid_binary prec emax x = true -> valid_binary prec emax y = true -> is_finite x = true -> is_finite y = true ->
  SFleb x y = false -> (FV y < FV x)%R.
Proof.
  intros Vx Vy Fx Fy H. destruct (Rle_lt_dec (FV x) (FV y)) as [L|]; [|assumption]. apply SFleb_FV in L; try assumption. congruence.
Qed.
End Rounding.

(** ** Truncation to an integer *)
Lemma f_trunc_FV x : is_finite x = true -> exists v, f_trunc x = Some v /\ (Rabs (IZR v) <= Rabs (FV x) < Rabs (IZR v) + 1)%R /\ (0 <= FV x -> 0 <= IZR v)%R.
Proof.
  destruct x as [s| | |s m e]; intros F; try discriminate.
  - exists 0. split; [reflexivity|]. cbn. rewrite !Rabs_R0. lra.
  - set (v := if 0 <=? e then Z.shiftl (Zpos m) e else Z.shiftr (Zpos m) (- e)).
    assert (V : 0 <= v /\ (IZR v <= IZR (Zpos m) * bpow e < IZR v + 1)%R).
    { unfold v. destruct (Z.leb_spec 0 e).
      - rewrite Z.shiftl_mul_pow2, bpow_Z, <- mult_IZR by assumption. split; [apply Z.mul_nonneg_nonneg; [lia|apply Z.pow_nonneg; lia]|lra].
      - rewrite Z.shiftr_div_pow2 by lia. assert (0 < 2 ^ (- e)) by (apply Z.pow_pos_nonneg; lia). split; [apply Z.div_pos; lia|].
        pose proof (Z.mul_div_le (Zpos m) (2 ^ (- e)) ltac:(lia)) as A. pose proof (Z.mul_succ_div_gt (Zpos m) (2 ^ (- e)) ltac:(lia)) as B.
        apply IZR_le in A. apply IZR_lt in B. rewrite mult_IZR, <- bpow_Z in A, B by lia. rewrite succ_IZR in B.
        set (q := IZR (Zpos m / 2 ^ (- e))) in *.
        pose proof (bpow_opp e) as O. pose proof (bpow_pos e) as P. apply (Rmult_le_compat_r (bpow e)) in A; [|lra]. apply (Rmult_lt_compat_r (bpow e)) in B; [|lra].
        replace (bpow (- e) * q * bpow e)%R with (bpow e * bpow (- e) * q)%R in A by ring. replace (bpow (- e) * (q + 1) * bpow e)%R with (bpow e * bpow (- e) * (q + 1))%R in B by ring.
        rewrite O in A, B. lra. }
    exists (if s then - v else v). split; [reflexivity|]. cbn [FV]. rewrite sgn_abs. destruct V as [V0 V1]. pose proof (IZR_le _ _ V0).
    assert (A : Rabs (IZR (if s then - v else v)) = IZR v) by (destruct s; [rewrite opp_IZR, Rabs_Ropp|]; apply Rabs_right; lra).
    assert (0 <= IZR (Zpos m) * bpow e)%R by (apply Rmult_le_pos; [apply IZR_le; lia|left; apply bpow_pos]).
    rewrite A, (Rabs_right (_ * _)) by lra. split; [exact V1|]. destruct s; cbn [sgn]; [rewrite opp_IZR|]; lra.
Qed.
Lemma f_trunc_neg x v : (FV x < 0)%R -> f_trunc x = Some v -> v <= 0.
Proof.
  destruct x as [s| | |[] m e]; cbn [FV sgn f_trunc]; intros H E; try lra; injection E as <-.
  - destruct (0 <=? e); [assert (0 <= Z.shiftl (Zpos m) e) by (apply Z.shiftl_nonneg; lia)|assert (0 <= Z.shiftr (Zpos m) (- e)) by (apply Z.shiftr_nonneg; lia)]; lia.
  - assert (0 <= IZR (Zpos m) * bpow e)%R by (apply Rmult_le_pos; [apply IZR_le; lia|left; apply bpow_pos]). lra.
Qed.
(** An integer in a float is truncated to itself. *)
Lemma f_trunc_integer x k : is_finite x = true -> FV x = IZR k -> f_trunc x = Some k.
Proof.
  intros F E. destruct (f_trunc_FV x F) as (v & T & B & P). rewrite T. f_equal. rewrite E, <- !abs_IZR in B. rewrite E in P.
  assert (Z.abs v = Z.abs k) by (destruct B as [B1 B2]; apply le_IZR in B1; rewrite <- plus_IZR in B2; apply lt_IZR in B2; lia).
  destruct (Z_lt_le_dec k 0) as [N|N].
  - pose proof (f_trunc_neg x v ltac:(rewrite E; apply IZR_lt; exact N) T). lia.
  - specialize (P (IZR_le _ _ N)). apply le_IZR in P. lia.
Qed.

(** ** Conversions between the formats *)
Lemma finite_value (s : bool) m e : (sgn s * (IZR (Zpos m) * bpow e) = IZR (if s then Zneg m else Zpos m) * bpow e)%R.
Proof. destruct s; cbn [sgn]; [change (Zneg m) with (- Zpos m); rewrite opp_IZR|]; ring. Qed.
(** A float's value is an integer of at most [prec] digits at an exponent of the format. *)
Lemma float_value prec emax x : 1 < prec -> prec + 2 < emax -> valid_binary prec emax x = true -> is_finite x = true ->
  exists k j, Z.abs k < 2 ^ prec /\ emin prec emax <= j <= emax - prec /\ FV x = (IZR k * bpow j)%R.
Proof.
  intros Hp He V F. destruct x as [s| | |s m e]; try discriminate; [exists 0, (emin prec emax)|exists (if s then Zneg m else Zpos m), e].
  - split; [apply Z.pow_pos_nonneg; lia|]. split; [unfold emin; lia|]. cbn. ring.
  - pose proof (valid_emin _ _ _ _ _ V). apply valid_finite in V as [C B].
    pose proof (Zdigits2_bounds (Zpos m) ltac:(lia)) as [_ D]. assert (2 ^ Zdigits2 (Zpos m) <= 2 ^ prec) by (apply Z.pow_le_mono_r; unfold fexp in C; lia).
    split; [destruct s; lia|]. split; [lia|]. cbn [FV]. apply finite_value.
Qed.
Lemma float_bound prec emax x : 1 < prec -> prec + 2 < emax -> valid_binary prec emax x = true -> is_finite x = true -> (Rabs (FV x) <= bpow emax)%R.
Proof.
  intros Hp He V F. destruct (float_value prec emax x Hp He V F) as (k & j & Hk & [_ Hj] & ->). rewrite Rabs_mult, <- abs_IZR, (Rabs_right (bpow j)) by (pose proof (bpow_pos j); lra).
  replace emax with (prec + (emax - prec)) by lia. rewrite bpow_add, (bpow_Z prec) by lia. apply bpow_le in Hj. pose proof (bpow_pos j). apply IZR_lt in Hk.
  apply Rmult_le_compat; try lra. apply IZR_le; lia.
Qed.
Lemma d_of_f32_exact x : valid_binary 24 128 x = true -> is_finite x = true ->
  valid_binary 53 1024 (d_of_f32 x) = true /\ is_finite (d_of_f32 x) = true /\ FV (d_of_f32 x) = FV x.
Proof.
  intros V F. destruct (float_value 24 128 x) as (k & j & Hk & [Hj _] & E); [lia..|exact V|exact F|]. destruct x as [s| | |s m e]; try discriminate; [auto|].
  cbn [d_of_f32]. assert (N : FV (S754_finite s m e) = (IZR (if s then Zneg m else Zpos m) * bpow e)%R) by (cbn [FV]; apply finite_value).
  destruct (binary_normalize_exact 53 1024 ltac:(lia) ltac:(lia) (if s then Zneg m else Zpos m) e s) as [F' E'].
  - exists k, j. split; [lia|]. split; [unfold emin in *; lia|]. rewrite <- N. exact E.
  - rewrite <- N. etransitivity; [apply (float_bound 24 128); [lia..|exact V|exact F]|]. apply bpow_le. lia.
  - split; [|split; [exact F'|rewrite E', N; reflexivity]]. apply (normalize_rounds 53 1024 ltac:(lia) ltac:(lia)).
Qed.
Lemma f_of_f64_exact y : is_finite y = true -> representable 24 128 (FV y) -> (Rabs (FV y) <= bpow 126)%R ->
  valid_binary 24 128 (f_of_f64 y) = true /\ is_finite (f_of_f64 y) = true /\ FV (f_of_f64 y) = FV y.
Proof.
  intros F H B. destruct y as [s| | |s m e]; try discriminate; [auto|]. unfold f_of_f64.
  assert (N : FV (S754_finite s m e) = (IZR (if s then Zneg m else Zpos m) * bpow e)%R) by (cbn [FV]; apply finite_value). rewrite N in H, B.
  destruct (binary_normalize_exact 24 128 ltac:(lia) ltac:(lia) (if s then Zneg m else Zpos m) e s H B) as [F' E'].
  split; [apply (normalize_rounds 24 128 ltac:(lia) ltac:(lia))|]. split; [exact F'|]. rewrite E', N. reflexivity.
Qed.
(** A [float] passed as a [double] and taken back. *)
Lemma float_promoted x : valid_binary 24 128 x = true -> is_finite x = true -> (Rabs (FV x) <= bpow 126)%R ->
  valid_binary 24 128 (f_of_f64 (d_of_f32 x)) = true /\ is_finite (f_of_f64 (d_of_f32 x)) = true /\ FV (f_of_f64 (d_of_f32 x)) = FV x.
Proof.
  intros V F B. destruct (d_of_f32_exact x V F) as (_ & F' & E). rewrite <- E in *. apply f_of_f64_exact; [exact F'| |exact B].
  rewrite E. destruct (float_value 24 128 x) as (k & j & Hk & [Hj _] & E'); [lia..|exact V|exact F|]. exists k, j. auto.
Qed.
Lemma d_of_Z_exact k : Z.abs k < 2 ^ 53 -> valid_binary 53 1024 (d_of_Z k) = true /\ is_finite (d_of_Z k) = true /\ FV (d_of_Z k) = IZR k.
Proof.
  intros H. unfold d_of_Z. destruct (normalize_exact 53 1024 ltac:(lia) ltac:(lia) k false H ltac:(lia)) as [F E].
  split; [apply (normalize_rounds 53 1024 ltac:(lia) ltac:(lia))|]. split; assumption.
Qed.
(** What a [float] has behind the point has few digits, too. *)
Lemma fraction x l : valid_binary 24 128 x = true -> is_finite x = true -> (IZR l <= FV x < IZR l + 1)%R -> 0 <= l ->
  exists k j, 0 <= k < 2 ^ 24 /\ -149 <= j /\ (FV x - IZR l = IZR k * bpow j)%R.
Proof.
  intros V F B Hl. destruct (float_value 24 128 x) as (k & j & Hk & [Hj _] & E); [lia..|exact V|exact F|]. change (emin 24 128) with (-149) in Hj. rewrite E in *.
  destruct (Z_lt_le_dec j 0) as [N|N].
  - exists (k - l * 2 ^ (- j)), j. assert (P : 0 < 2 ^ (- j)) by (apply Z.pow_pos_nonneg; lia).
    assert (V2 : (IZR (k - l * 2 ^ (- j)) * bpow j = IZR k * bpow j - IZR l)%R).
    { rewrite minus_IZR, mult_IZR, <- bpow_Z by lia. pose proof (bpow_opp j) as O. rewrite Rmult_minus_distr_r, Rmult_assoc, (Rmult_comm (bpow (- j))), O. ring. }
    split; [|split; [lia|symmetry; exact V2]]. split; [|nia]. apply le_IZR. apply (Rmult_le_reg_r (bpow j)); [apply bpow_pos|]. rewrite V2. lra.
  - exists 0, 0. split; [lia|]. split; [lia|]. rewrite bpow_Z, <- mult_IZR in * by exact N. destruct B as [B1 B2]. apply le_IZR in B1. rewrite <- plus_IZR in B2. apply lt_IZR in B2.
    replace (k * 2 ^ j) with l by lia. ring.
Qed.
(** A truncated number that is not negative. *)
Lemma f_trunc_floor x : is_finite x = true -> (0 <= FV x)%R -> exists l, f_trunc x = Some l /\ 0 <= l /\ (IZR l <= FV x < IZR l + 1)%R.
Proof.
  intros F P. destruct (f_trunc_FV x F) as (l & T & B & L). exists l. specialize (L P). split; [exact T|]. pose proof (le_IZR _ _ L). split; [assumption|].
  rewrite !Rabs_right in B by lra. exact B.
Qed.
