(* ===== verification/Chprintf.v ===== *)
(** The formatted output of ChibiOS that the firmware's texts are made with
    ([ext/ChibiOS_21.11.3/os/hal/lib/streams/chprintf.c], [memstreams.c]).

    Texts are lists of bytes without their terminator. An [int] has the width of a [long], 32 bits, on the firmware's
    processor, so that the length modifier changes nothing. [None] is undefined behaviour: a number that overflows, a
    conversion that does not fit, an argument that is missing or of another type, an access outside a buffer. *)
From Stdlib Require Import Reals Lra.
From S2P Require Import Prelude Float32 FloatError.

(** An argument: an integer, a [float] (promoted to [double]), a string, a null pointer. *)
Inductive arg := ArgZ (z : Z) | ArgF (x : f32) | ArgS (s : list Z) | ArgNull.
Definition INT_MAX : Z := 2147483647.
Definition INT_MIN : Z := -2147483648.
Definition int (z : Z) : option Z := if (INT_MIN <=? z) && (z <=? INT_MAX) then Some z else None.
Definition is_digit (c : Z) : bool := (48 <=? c) && (c <=? 57).

(** ** Numbers *)
(* @ chprintf.c:35-35 MAX_FILLER *)
Definition MAX_FILLER : nat := 11.
(* @ chprintf.c:36-36 FLOAT_PRECISION *)
Definition FLOAT_PRECISION : Z := 9.
(* @ chprintf.c:133-133 chvprintf (tmpbuf) *)
Definition tmpbuf_size : nat := 2 * MAX_FILLER + 1.
(* @ chprintf.c:55-60 long_to_string_with_divisor (digit) *)
Definition digit_char (i : Z) : Z := let i := i + 48 in if 57 <? i then i + 7 else i.
(** The digits are written from the end of a region of [MAX_FILLER] bytes; [room] are free before them. The numbers are
    converted to unsigned ones by the operations. *)
(* @ chprintf.c:53-62 long_to_string_with_divisor (loop) *)
Fixpoint fill (room : nat) (l ll radix : Z) (q : list Z) : option (list Z) :=
  match room with
  | O => None
  | S room =>
    let q := digit_char (l mod radix) :: q in
    let l := l / radix in
    let ll := ll / radix in
    if negb (ll =? 0) then fill room l ll radix q else Some q
  end.
(** [p]: what [tmpbuf] holds; the digits are copied behind it. *)
(* @ chprintf.c:38-70 long_to_string_with_divisor *)
Definition long_to_string_with_divisor (p : list Z) (num radix divisor : Z) : option (list Z) :=
  let l := u32 num in
  let ll := if divisor =? 0 then u32 num else divisor in
  if (length p + MAX_FILLER <=? tmpbuf_size)%nat then d ← fill MAX_FILLER l ll radix []; Some (p ++ d) else None.
(* @ chprintf.c ch_ltoa *)
Definition ch_ltoa (p : list Z) (num radix : Z) : option (list Z) := long_to_string_with_divisor p num radix 0.
(** [*p++ = c]. *)
Definition store (p : list Z) (c : Z) : option (list Z) := if (length p <? tmpbuf_size)%nat then Some (p ++ [c]) else None.
(* @ chprintf.c:78-80 pow10 *)
Definition pow10 : list Z := [10; 100; 1000; 10000; 100000; 1000000; 10000000; 100000000; 1000000000].
(* @ chprintf.c ftoa *)
Definition ftoa (p : list Z) (num : f64) (precision : Z) : option (list Z) :=
  let precision := if (precision =? 0) || (FLOAT_PRECISION <? precision) then FLOAT_PRECISION else precision in
  let precision := nth (Z.to_nat (precision - 1)) pow10 0 in
  l ← f_to_int INT_MIN INT_MAX num;
  p ← long_to_string_with_divisor p l 10 0;
  p ← store p 46;
  l ← f_to_int INT_MIN INT_MAX (dmul (dsub num (d_of_Z l)) (d_of_Z precision));
  long_to_string_with_divisor p l 10 (precision / 10).

(** ** Directives *)
(** A number in the format, the character behind it and the rest; or the format ends. *)
Inductive number := Ended | Overflow | Number (n c : Z) (rest : list Z).
(* @ chprintf.c:181-195 chvprintf (number) *)
Fixpoint read_number (fmt : list Z) (n : Z) : number :=
  match fmt with
  | [] => Ended
  | c :: fmt => if is_digit c then let n := n * 10 + (c - 48) in if INT_MAX <? n then Overflow else read_number fmt n else Number n c fmt
  end.
(** [*]: the number is an argument; the terminator behind it is not noticed. *)
(* @ chprintf.c:174-197 chvprintf (width) *)
Definition number_or_arg (fmt : list Z) (args : list arg) : option (number * list arg) :=
  match fmt, args with
  | 42 :: c :: fmt, ArgZ z :: args => Some (Number (s32 z) c fmt, args)
  | 42 :: _, _ => None
  | _, _ => match read_number fmt 0 with Overflow => None | n => Some (n, args) end
  end.
(** A flag that may be there. *)
Definition flag (f : Z) (fmt : list Z) : bool * list Z :=
  match fmt with c :: rest => if c =? f then (true, rest) else (false, fmt) | [] => (false, fmt) end.
Definition one_of (c : Z) (l : list Z) : bool := existsb (Z.eqb c) l.
(** A sign, then the digits of what is left. *)
(* @ chprintf.c:259-266 chvprintf (sign) *)
Definition signed (negative do_sign : bool) : option (list Z) :=
  if negative then store [] 45 else if do_sign then store [] 43 else Some [].
(** What an argument is converted to, and the filler. *)
(* @ chprintf.c:232-309 chvprintf (conversion) *)
Definition convert (c : Z) (do_sign : bool) (filler precision : Z) (args : list arg) : option (list Z * Z * list arg) :=
  if c =? 99 then match args with ArgZ z :: args => Some ([u8 z], 32, args) | _ => None end
  else if c =? 115 then
    let precision := if precision =? 0 then 32767 else precision in
    match args with
    | ArgS s :: args => Some (take (Z.to_nat precision) s, 32, args)
    | ArgNull :: args => Some (take (Z.to_nat precision) [40; 110; 117; 108; 108; 41], 32, args)
    | _ => None
    end
  else if one_of c [68; 100; 73; 105] then
    match args with
    | ArgZ z :: args =>
      let l := s32 z in
      p ← signed (l <? 0) do_sign;
      l ← int (if l <? 0 then - l else l);
      p ← ch_ltoa p l 10; Some (p, filler, args)
    | _ => None
    end
  else if c =? 102 then
    match args with
    | ArgF x :: args =>
      let f := f_of_f64 (d_of_f32 x) in
      p ← signed (flt f f0) do_sign;
      let f := if flt f f0 then fneg f else f in
      p ← ftoa p (d_of_f32 f) (u32 precision); Some (p, filler, args)
    | _ => None
    end
  else
    let unsigned_common radix := match args with ArgZ z :: args => p ← ch_ltoa [] z radix; Some (p, filler, args) | _ => None end in
    if one_of c [88; 120; 80; 112] then unsigned_common 16
    else if one_of c [85; 117] then unsigned_common 10
    else if one_of c [79; 111] then unsigned_common 8
    else Some ([c], filler, args).
(** A text in its field: a sign goes before zeros. *)
(* @ chprintf.c:310-337 chvprintf (field) *)
Definition field (left_align : bool) (filler width : Z) (s : list Z) : option (list Z) :=
  w ← int (width - Z.of_nat (length s));
  let pad := replicate (Z.to_nat w) filler in
  Some (if left_align then s ++ pad
        else match s with
             | sign :: digits => if ((sign =? 45) || (sign =? 43)) && (filler =? 48) && (0 <? w) then sign :: pad ++ digits else pad ++ s
             | [] => pad
             end).
(** A directive behind its percent sign: its text and the rest; [Some None] if the format ends in it. *)
(* @ chprintf.c:150-337 chvprintf (directive) *)
Definition directive (fmt : list Z) (args : list arg) : option (option (list Z * list Z * list arg)) :=
  let '(left_align, fmt) := flag 45 fmt in
  let '(do_sign, fmt) := flag 43 fmt in
  let '(zero, fmt) := flag 48 fmt in
  '(width, args) ← number_or_arg fmt args;
  match width with
  | Number width c fmt =>
    '(precision, args) ← (if c =? 46 then match fmt with [] => Some (Ended, args) | _ => number_or_arg fmt args end else Some (Number 0 c fmt, args));
    match precision with
    | Number precision c fmt =>
      let long := match fmt with [] => None | c' :: fmt => Some (c', fmt) end in
      match (if one_of c [108; 76] then long else Some (c, fmt)) with
      | None => Some None
      | Some (c, fmt) =>
        '(s, filler, args) ← convert c do_sign (if zero then 48 else 32) precision args;
        text ← field left_align filler width s; Some (Some (text, fmt, args))
      end
    | _ => Some None
    end
  | _ => Some None
  end.
(** What is printed. *)
Fixpoint format (fuel : nat) (fmt : list Z) (args : list arg) : option (list Z) :=
  match fuel with
  | O => None
  | S fuel =>
    match fmt with
    | [] => Some []
    | c :: fmt =>
      if negb (c =? 37) then cons c <$> format fuel fmt args
      else
        d ← directive fmt args;
        match d with
        | None => Some []
        | Some (text, fmt, args) => app text <$> format fuel fmt args
        end
    end
  end.
(** Every round takes a character of the format. *)
(* @ chprintf.c chvprintf *)
Definition chvprintf (fmt : list Z) (args : list arg) : option (list Z) := format (S (length fmt)) fmt args.

(** ** Strings *)
(* @ memstreams.h:47-57 MemoryStream *)
Record MemoryStream := mkMs { buffer : list Z; size : Z; eos : Z }.
#[export] Instance eta_MemoryStream : Eta MemoryStream := fun m => mkMs (buffer m) (size m) (eos m).
(* @ memstreams.c msObjectInit *)
Definition msObjectInit (buffer : list Z) (size eos : Z) : MemoryStream := mkMs buffer size eos.
(** A byte that has no room is refused, which [chvprintf] does not look at. *)
(* @ memstreams.c _put *)
Definition ms_put (b : Z) (ms : MemoryStream) : option MemoryStream :=
  if u32 (size ms - eos ms) <=? 0 then Some ms
  else if (Z.to_nat (eos ms) <? length (buffer ms))%nat then Some (ms <| buffer ::= <[Z.to_nat (eos ms) := b]> |> <| eos ::= fun e => u32 (e + 1) |>)
  else None.
Fixpoint ms_puts (l : list Z) (ms : MemoryStream) : option MemoryStream :=
  match l with [] => Some ms | b :: l => ms ← ms_put b ms; ms_puts l ms end.
(** The buffer afterwards, and what is returned. *)
(* @ chprintf.c chvsnprintf *)
Definition chsnprintf (str : list Z) (size : Z) (fmt : list Z) (args : list arg) : option (list Z * Z) :=
  let size_wo_nul := if 0 <? size then size - 1 else 0 in
  out ← chvprintf fmt args;
  ms ← ms_puts out (msObjectInit str size_wo_nul 0);
  let retval := Z.of_nat (length out) in
  if eos ms <? size then
    if (Z.to_nat (eos ms) <? length (buffer ms))%nat then Some (<[Z.to_nat (eos ms) := 0]> (buffer ms), retval) else None
  else Some (buffer ms, retval).

(** ** Digits *)
Definition digit_value (c : Z) : Z := if is_digit c then c - 48 else c - 55.
Definition value (radix : Z) (l : list Z) : Z := fold_left (fun n c => n * radix + digit_value c) l 0.
Definition is_hex (c : Z) : Prop := 48 <= c <= 57 \/ 65 <= c <= 70.
Definition digits (l : list Z) : Prop := Forall (fun c => 48 <= c <= 57) l.
Lemma digit_char_ok i : 0 <= i < 16 -> is_hex (digit_char i) /\ digit_value (digit_char i) = i /\ (i < 10 -> 48 <= digit_char i <= 57).
Proof.
  intros H. unfold digit_char, is_hex, digit_value, is_digit. destruct (Z.ltb_spec 57 (i + 48)); [split; [lia|]|split; [lia|]].
  - rewrite (proj2 (Z.leb_le 48 _)), (proj2 (Z.leb_gt _ 57)) by lia. cbn. lia.
  - rewrite (proj2 (Z.leb_le 48 _)), (proj2 (Z.leb_le _ 57)) by lia. cbn. lia.
Qed.
Lemma value_from radix l n : fold_left (fun n c => n * radix + digit_value c) l n = n * radix ^ Z.of_nat (length l) + value radix l.
Proof.
  unfold value. revert n. induction l as [|c l IH]; intros n; cbn [fold_left length]; [rewrite Z.pow_0_r; lia|].
  rewrite IH, (IH (0 * radix + digit_value c)), Nat2Z.inj_succ, Z.pow_succ_r by lia. ring.
Qed.
Lemma value_app radix l1 l2 : value radix (l1 ++ l2) = value radix l1 * radix ^ Z.of_nat (length l2) + value radix l2.
Proof. unfold value at 1. rewrite fold_left_app. apply value_from. Qed.
Lemma value_cons radix c l : value radix (c :: l) = digit_value c * radix ^ Z.of_nat (length l) + value radix l.
Proof. unfold value at 1. cbn [fold_left]. rewrite value_from. lia. Qed.
Lemma value_range radix l : 0 < radix -> Forall (fun c => 0 <= digit_value c < radix) l -> 0 <= value radix l < radix ^ Z.of_nat (length l).
Proof.
  intros Hr H. induction H as [|c l Hc Hl IH]; [cbn; lia|]. rewrite value_cons. cbn [length]. rewrite Nat2Z.inj_succ, Z.pow_succ_r by lia. nia.
Qed.

(** The digits of [l]: as many as [ll] has. *)
Lemma fill_spec radix : 2 <= radix <= 16 -> forall room l ll q, (0 < room)%nat -> 0 <= l -> 0 <= ll < radix ^ Z.of_nat room ->
  exists ds, fill room l ll radix q = Some (ds ++ q) /\ (0 < length ds <= room)%nat /\ Forall is_hex ds /\ (radix <= 10 -> digits ds) /\
    value radix ds = l mod radix ^ Z.of_nat (length ds) /\ ll < radix ^ Z.of_nat (length ds) /\ (length ds = 1%nat \/ radix ^ (Z.of_nat (length ds) - 1) <= ll).
Proof.
  intros Hr room. induction room as [|room IH]; intros l ll q H0 Hl Hll; [lia|]. cbn [fill].
  pose proof (Z.mod_pos_bound l radix ltac:(lia)) as M. destruct (digit_char_ok (l mod radix) ltac:(lia)) as (C1 & C2 & C3).
  assert (Q : 0 <= ll / radix) by (apply Z.div_pos; lia). rewrite Nat2Z.inj_succ, Z.pow_succ_r in Hll by lia.
  assert (Q2 : ll / radix < radix ^ Z.of_nat room) by (apply Z.div_lt_upper_bound; lia).
  pose proof (Z.mul_div_le ll radix ltac:(lia)) as D1. pose proof (Z.mul_succ_div_gt ll radix ltac:(lia)) as D2.
  destruct (Z.eqb_spec (ll / radix) 0) as [E|N]; cbn [negb].
  - exists [digit_char (l mod radix)]. split; [reflexivity|]. split; [cbn; lia|]. split; [constructor; [exact C1|constructor]|].
    split; [intros; constructor; [apply C3; lia|constructor]|]. cbn [length]. change (Z.of_nat 1) with 1. rewrite Z.pow_1_r. split; [unfold value; cbn; rewrite C2; lia|]. split; [nia|left; reflexivity].
  - destruct room as [|room]; [cbn in Q2; lia|]. destruct (IH (l / radix) (ll / radix) (digit_char (l mod radix) :: q)) as (ds & E & L & H1 & H2 & V & B1 & B2); [lia|apply Z.div_pos; lia|lia|].
    exists (ds ++ [digit_char (l mod radix)]). split; [rewrite E, <- app_assoc; reflexivity|]. rewrite length_app, Nat.add_1_r. split; [lia|].
    split; [apply Forall_app; split; [exact H1|constructor; [exact C1|constructor]]|]. split; [intros; apply Forall_app; split; [apply H2; assumption|constructor; [apply C3; lia|constructor]]|].
    rewrite Nat2Z.inj_succ. assert (P : 0 < radix ^ Z.of_nat (length ds)) by (apply Z.pow_pos_nonneg; lia). rewrite Z.pow_succ_r by lia. split; [|split].
    + rewrite value_app, V. cbn [length]. change (Z.of_nat 1) with 1. rewrite Z.pow_1_r. unfold value. cbn [fold_left]. rewrite C2.
      rewrite Z.rem_mul_r by lia. lia.
    + nia.
    + right. replace (Z.succ (Z.of_nat (length ds)) - 1) with (Z.succ (Z.of_nat (length ds) - 1)) by lia. rewrite Z.pow_succ_r by lia.
      destruct B2 as [->|B2]; [change (Z.of_nat 1 - 1) with 0; rewrite Z.pow_0_r; nia|nia].
Qed.
(** No leading zeros, unless the number is zero. *)
Definition shortest (radix n : Z) (ds : list Z) : Prop := length ds = 1%nat \/ radix ^ (Z.of_nat (length ds) - 1) <= n.
Lemma ltoa_spec p z radix : 8 <= radix <= 16 -> (length p <= 12)%nat -> exists ds, ch_ltoa p z radix = Some (p ++ ds) /\
  (0 < length ds <= MAX_FILLER)%nat /\ Forall is_hex ds /\ (radix <= 10 -> digits ds) /\ value radix ds = u32 z /\ shortest radix (u32 z) ds.
Proof.
  intros Hr Hp. unfold ch_ltoa, long_to_string_with_divisor. cbn [Z.eqb]. rewrite (proj2 (Nat.leb_le _ _)) by (unfold tmpbuf_size, MAX_FILLER; lia). pose proof (u32_range z) as U. unfold is_u32 in U.
  destruct (fill_spec radix ltac:(lia) MAX_FILLER (u32 z) (u32 z) []) as (ds & E & L & H1 & H2 & V & B1 & B2); [unfold MAX_FILLER; lia|lia| |].
  { split; [lia|]. apply Z.lt_le_trans with (8 ^ Z.of_nat MAX_FILLER); [change (8 ^ Z.of_nat MAX_FILLER) with 8589934592; lia|]. apply Z.pow_le_mono_l. lia. }
  exists ds. rewrite E, app_nil_r. split; [reflexivity|]. split; [exact L|]. split; [exact H1|]. split; [exact H2|]. split; [|exact B2]. rewrite V. apply Z.mod_small. lia.
Qed.

(** ** Floats *)
Lemma pow10_nth n : 1 <= n <= 9 -> nth (Z.to_nat (n - 1)) pow10 0 = 10 ^ n.
Proof. intros H. assert (C : n = 1 \/ n = 2 \/ n = 3 \/ n = 4 \/ n = 5 \/ n = 6 \/ n = 7 \/ n = 8 \/ n = 9) by lia. intuition (subst; reflexivity). Qed.
Lemma f_to_int_of lo hi x v : f_trunc x = Some v -> lo <= v <= hi -> f_to_int lo hi x = Some v.
Proof. intros T H. unfold f_to_int. rewrite T. cbn. rewrite (proj2 (Z.leb_le _ _)), (proj2 (Z.leb_le _ _)) by lia. reflexivity. Qed.
(** The digits behind the point are exact before they are truncated: a [float] has 24 of them in base 2, and the factor 21. *)
Lemma fraction_scaled x l n : valid_binary 24 128 x = true -> is_finite x = true -> (IZR l <= FV x < IZR l + 1)%R -> 0 <= l < 2 ^ 31 -> 1 <= n <= 9 ->
  is_finite (dmul (dsub (d_of_f32 x) (d_of_Z l)) (d_of_Z (10 ^ n))) = true /\
  FV (dmul (dsub (d_of_f32 x) (d_of_Z l)) (d_of_Z (10 ^ n))) = ((FV x - IZR l) * IZR (10 ^ n))%R.
Proof.
  intros V F B Hl Hn. destruct (fraction x l V F B ltac:(lia)) as (k & j & Hk & Hj & E).
  assert (T : 0 < 10 ^ n <= 10 ^ 9) by (split; [apply Z.pow_pos_nonneg; lia|apply Z.pow_le_mono_r; lia]).
  destruct (d_of_f32_exact x V F) as (V1 & F1 & E1). destruct (d_of_Z_exact l ltac:(lia)) as (V2 & F2 & E2). destruct (d_of_Z_exact (10 ^ n) ltac:(lia)) as (V3 & F3 & E3).
  assert (Small : forall b : R, (0 <= b <= IZR (2 ^ 30))%R -> (Rabs b <= bpow (1024 - 2))%R).
  { intros b Hb. rewrite Rabs_right by lra. eapply Rle_trans; [apply Hb|]. rewrite <- bpow_Z by lia. apply bpow_le. lia. }
  assert (T' : (1 <= IZR (10 ^ n) <= IZR (2 ^ 30))%R) by (split; apply IZR_le; lia).
  unfold dmul, dsub. destruct (SFsub_exact 53 1024 ltac:(lia) ltac:(lia) _ _ V1 V2 F1 F2) as [F4 E4]; [rewrite E1, E2, E; exists k, j; split; [lia|split; [unfold emin; lia|reflexivity]]|rewrite E1, E2; apply Small; lra|].
  pose proof (proj1 (SFsub_rounds 53 1024 ltac:(lia) ltac:(lia) _ _ V1 V2 F1 F2)) as V4. rewrite E1, E2 in E4.
  destruct (SFmul_exact 53 1024 ltac:(lia) ltac:(lia) _ _ V4 V3 F4 F3) as [F5 E5]; [rewrite E4, E3, E|rewrite E4, E3|].
  - exists (k * 5 ^ n), (j + n). assert (P5 : 0 < 5 ^ n <= 5 ^ 9) by (split; [apply Z.pow_pos_nonneg; lia|apply Z.pow_le_mono_r; lia]).
    split; [rewrite Z.abs_eq by nia; nia|]. split; [unfold emin; lia|]. rewrite bpow_add, (bpow_Z n) by lia. change 10 with (5 * 2). rewrite Z.pow_mul_l, !mult_IZR. ring.
  - apply Small. nra.
  - split; [exact F5|]. rewrite E5, E4, E3. reflexivity.
Qed.
Lemma shortest_length radix n ds k : 2 <= radix -> shortest radix n ds -> 0 <= n < radix ^ Z.of_nat k -> (0 < k)%nat -> (length ds <= k)%nat.
Proof.
  intros Hr [->|H] Hn Hk; [lia|]. destruct (Nat.leb_spec (length ds) k) as [|L]; [assumption|].
  assert (radix ^ Z.of_nat k <= radix ^ (Z.of_nat (length ds) - 1)) by (apply Z.pow_le_mono_r; lia). lia.
Qed.
(** A number that is not negative: its integral part, the point, and the digits of the fraction that were asked for. *)
Record decimal (v : R) (n : Z) (ip fp : list Z) : Prop := {
  dec_ip : digits ip; dec_fp : digits fp; dec_ip_len : (0 < length ip)%nat; dec_fp_len : length fp = Z.to_nat n;
  dec_shortest : shortest 10 (value 10 ip) ip;
  dec_value : (IZR (value 10 (ip ++ fp)) <= v * IZR (10 ^ n) < IZR (value 10 (ip ++ fp)) + 1)%R }.
Lemma ftoa_spec p x n : (length p <= 1)%nat -> valid_binary 24 128 x = true -> is_finite x = true -> (0 <= FV x < IZR (2 ^ 31))%R -> 1 <= n <= 9 ->
  exists ip fp, ftoa p (d_of_f32 x) n = Some (p ++ ip ++ 46 :: fp) /\ decimal (FV x) n ip fp.
Proof.
  intros Hp V F B Hn. destruct (d_of_f32_exact x V F) as (_ & F1 & E1). destruct (f_trunc_floor (d_of_f32 x) F1) as (l & T & L0 & L); [rewrite E1; apply B|]. rewrite E1 in L.
  assert (L1 : l < 2 ^ 31) by (apply lt_IZR; lra). destruct (fraction_scaled x l n V F L ltac:(lia) Hn) as [F2 E2].
  destruct (f_trunc_floor _ F2) as (r & T2 & R0 & R1).
  { rewrite E2. apply Rmult_le_pos; [lra|]. apply IZR_le. apply Z.pow_nonneg. lia. }
  rewrite E2 in R1. assert (T10 : 0 < 10 ^ n <= 10 ^ 9) by (split; [apply Z.pow_pos_nonneg; lia|apply Z.pow_le_mono_r; lia]).
  assert (R2 : r < 10 ^ n) by (apply lt_IZR; assert (0 < IZR (10 ^ n))%R by (apply IZR_lt; lia); nra).
  unfold ftoa. rewrite (proj2 (Z.eqb_neq n 0)) by lia. rewrite (proj2 (Z.ltb_ge FLOAT_PRECISION n)) by (unfold FLOAT_PRECISION; lia). cbn [orb].
  rewrite pow10_nth by exact Hn. rewrite (f_to_int_of _ _ _ l T) by (unfold INT_MIN, INT_MAX; lia). cbn [mbind option_bind].
  destruct (ltoa_spec p l 10 ltac:(lia) ltac:(lia)) as (ip & E & [I0 I1] & _ & I2 & I3 & I4). rewrite (u32_small l) in * by (unfold is_u32; lia).
  unfold ch_ltoa in E. rewrite E. cbn [mbind option_bind]. pose proof (shortest_length 10 l ip 10 ltac:(lia) I4 ltac:(cbn; lia) ltac:(lia)) as I5.
  unfold store at 1. rewrite (proj2 (Nat.ltb_lt _ _)) by (unfold tmpbuf_size, MAX_FILLER; rewrite length_app; lia). cbn [mbind option_bind].
  rewrite (f_to_int_of _ _ _ r T2) by (unfold INT_MIN, INT_MAX; lia). cbn [mbind option_bind].
  assert (D10 : 10 ^ n / 10 = 10 ^ (n - 1)).
  { replace n with (Z.succ (n - 1)) at 1 by lia. rewrite Z.pow_succ_r, Z.mul_comm by lia. apply Z.div_mul. lia. }
  rewrite D10.
  assert (T9 : 0 < 10 ^ (n - 1) <= 10 ^ 8) by (split; [apply Z.pow_pos_nonneg; lia|apply Z.pow_le_mono_r; lia]).
  unfold long_to_string_with_divisor. rewrite (proj2 (Z.eqb_neq _ 0)) by lia. rewrite (u32_small r) by (unfold is_u32; lia).
  rewrite (proj2 (Nat.leb_le _ _)) by (unfold tmpbuf_size, MAX_FILLER; rewrite !length_app; cbn; lia).
  destruct (fill_spec 10 ltac:(lia) MAX_FILLER r (10 ^ (n - 1)) []) as (fp & -> & [Q0 Q1] & _ & Q2 & Q3 & Q4 & Q5); [unfold MAX_FILLER; lia|lia| |].
  { split; [lia|]. apply Z.le_lt_trans with (10 ^ 8); [lia|reflexivity]. }
  rewrite app_nil_r in *. cbn [mbind option_bind]. exists ip, fp.
  assert (Lf : Z.of_nat (length fp) = n).
  { assert (n - 1 < Z.of_nat (length fp)) by (apply (Z.pow_lt_mono_r_iff 10); lia). destruct Q5 as [Q5|Q5]; [lia|].
    assert (Z.of_nat (length fp) - 1 <= n - 1) by (apply (Z.pow_le_mono_r_iff 10); lia). lia. }
  split; [rewrite <- !app_assoc; reflexivity|]. rewrite Lf, Z.mod_small in Q3 by lia.
  split; [apply I2; lia|apply Q2; lia|exact I0|lia|rewrite I3; exact I4|]. rewrite value_app, Lf, I3, Q3, plus_IZR, mult_IZR. lra.
Qed.

(** ** The format *)
Lemma flag_length f fmt : (length (flag f fmt).2 <= length fmt)%nat.
Proof. destruct fmt as [|c fmt]; cbn; [lia|]. destruct (c =? f); cbn; lia. Qed.
Lemma read_number_length fmt : forall n m c rest, read_number fmt n = Number m c rest -> (length rest < length fmt)%nat.
Proof.
  induction fmt as [|c fmt IH]; intros n m c' rest; cbn; [discriminate|]. destruct (is_digit c).
  - destruct (INT_MAX <? _); [discriminate|]. intros H%IH. lia.
  - intros [= <- <- <-]. lia.
Qed.
Lemma number_or_arg_length fmt args m c rest args' : number_or_arg fmt args = Some (Number m c rest, args') -> (length rest < length fmt)%nat.
Proof.
  assert (G : match read_number fmt 0 with Overflow => None | k => Some (k, args) end = Some (Number m c rest, args') -> (length rest < length fmt)%nat).
  { intros H. destruct (read_number fmt 0) as [| |n c' r] eqn:E; try discriminate. injection H as -> -> -> _. exact (read_number_length _ _ _ _ _ E). }
  unfold number_or_arg. destruct fmt as [|f fmt]; [exact G|]. destruct (decide (f = 42)) as [->|N].
  - destruct fmt as [|c' fmt]; [discriminate|]. destruct args as [|[z| | |] args]; try discriminate. intros [= <- <- <- <-]. cbn. lia.
  - intros H. apply G. clear G. destruct f as [|p|p]; try exact H. repeat (destruct p as [p|p|]; try exact H). congruence.
Qed.
Lemma directive_length fmt args text rest args' : directive fmt args = Some (Some (text, rest, args')) -> (length rest < length fmt)%nat.
Proof.
  unfold directive. pose proof (flag_length 45 fmt) as L1. destruct (flag 45 fmt) as [left f1]. cbn [snd] in L1. pose proof (flag_length 43 f1) as L2. destruct (flag 43 f1) as [sign f2]. cbn [snd] in L2.
  pose proof (flag_length 48 f2) as L3. destruct (flag 48 f2) as [zero f3]. cbn [snd] in L3. destruct (number_or_arg f3 args) as [[w a1]|] eqn:E1; [|discriminate]. cbn [mbind option_bind].
  destruct w as [| |w c f4]; try discriminate. apply number_or_arg_length in E1.
  match goal with |- context [mbind _ ?o] => destruct o as [[q a2]|] eqn:E2; [|discriminate] end. cbn [mbind option_bind]. destruct q as [| |q c2 f5]; try discriminate.
  assert (L4 : (length f5 <= length f4)%nat).
  { destruct (c =? 46); [destruct f4 as [|c3 f4]; [discriminate|]; apply number_or_arg_length in E2; lia|]. injection E2 as _ _ -> _. lia. }
  match goal with |- context [match ?o with Some _ => _ | None => Some None end] => destruct o as [[c4 f6]|] eqn:E3; [|discriminate] end.
  assert (L5 : (length f6 <= length f5)%nat).
  { destruct (one_of c2 _); [destruct f5; [discriminate|]|]; injection E3 as _ <-; cbn; lia. }
  destruct (convert _ _ _ _ _) as [[[s fl] a3]|]; [|discriminate]. cbn [mbind option_bind]. destruct (field _ _ _ _); [|discriminate]. cbn. intros [= _ <- _]. lia.
Qed.
(** Every character takes fuel, so what there is is enough. *)
Lemma format_enough n : forall m fmt args, (length fmt < n)%nat -> (length fmt < m)%nat -> format n fmt args = format m fmt args.
Proof.
  induction n as [|n IH]; intros m fmt args Hn Hm; [lia|]. destruct m as [|m]; [lia|]. destruct fmt as [|c fmt]; [reflexivity|]. cbn [length] in *. cbn [format].
  destruct (negb (c =? 37)); [rewrite (IH m) by lia; reflexivity|]. destruct (directive fmt args) as [[[[text rest] args']|]|] eqn:E; [|reflexivity..]. cbn [mbind option_bind].
  apply directive_length in E. rewrite (IH m) by lia. reflexivity.
Qed.
Lemma format_cons n c fmt args : format (S n) (c :: fmt) args =
  if negb (c =? 37) then cons c <$> format n fmt args
  else d ← directive fmt args; match d with None => Some [] | Some (text, fmt, args) => app text <$> format n fmt args end.
Proof. reflexivity. Qed.
Lemma chvprintf_nil args : chvprintf [] args = Some [].
Proof. reflexivity. Qed.
Lemma chvprintf_directive fmt args text rest args' : directive fmt args = Some (Some (text, rest, args')) ->
  chvprintf (37 :: fmt) args = app text <$> chvprintf rest args'.
Proof.
  intros E. unfold chvprintf. rewrite format_cons, E. cbn [negb Z.eqb Pos.eqb mbind option_bind length].
  apply directive_length in E. rewrite (format_enough _ (S (length rest))) by lia. reflexivity.
Qed.
Lemma chvprintf_text text fmt args : Forall (fun c => c <> 37) text -> chvprintf (text ++ fmt) args = app text <$> chvprintf fmt args.
Proof.
  intros H. induction H as [|c text Hc _ IH]; [cbn [app]; destruct (chvprintf fmt args); reflexivity|]. cbn [app].
  unfold chvprintf in *. rewrite format_cons, (proj2 (Z.eqb_neq c 37) Hc). cbn [negb length]. rewrite IH. destruct (format _ fmt args); reflexivity.
Qed.
Lemma field_fits filler s : Z.of_nat (length s) <= INT_MAX -> field false filler 0 s = Some s.
Proof.
  unfold field, int, INT_MAX, INT_MIN. intros H. rewrite (proj2 (Z.leb_le _ _)), (proj2 (Z.leb_le _ _)) by lia. cbn [andb mbind option_bind].
  rewrite (proj2 (Z.ltb_ge 0 _)) by lia. destruct (0 - Z.of_nat (length s)) eqn:E; try lia; cbn [Z.to_nat]; cbn [replicate]; destruct s; rewrite ?andb_false_r; reflexivity.
Qed.

(** ** Strings *)
Lemma ms_puts_spec l : forall b n e, 0 <= e <= n -> n < 2 ^ 32 -> (Z.to_nat n <= length b)%nat ->
  ms_puts l (mkMs b n e) = Some (let k := Z.to_nat (n - e) in mkMs (take (Z.to_nat e) b ++ take k l ++ drop (Z.to_nat e + length (take k l)) b) n (Z.min n (e + Z.of_nat (length l)))).
Proof.
  induction l as [|c l IH]; intros b n e He Hn Hb; cbn [ms_puts].
  - rewrite take_nil. cbn [app length]. rewrite Nat.add_0_r, take_drop. f_equal. f_equal. lia.
  - unfold ms_put. cbn [size eos buffer]. rewrite u32_small by (unfold is_u32; lia). destruct (Z.leb_spec (n - e) 0) as [L|L].
    + cbn [mbind option_bind]. rewrite IH by lia. replace (n - e) with 0 by lia. cbn [Z.to_nat]. rewrite !take_0. cbn [app length]. f_equal. f_equal. lia.
    + rewrite (proj2 (Nat.ltb_lt _ _)) by lia. cbn [mbind option_bind]. cbn. rewrite u32_small by (unfold is_u32; lia). rewrite IH by (rewrite ?length_insert; lia). f_equal. cbn.
      replace (Z.to_nat (n - e)) with (S (Z.to_nat (n - (e + 1)))) by lia. replace (Z.to_nat (e + 1)) with (S (Z.to_nat e)) by lia. cbn [take firstn length]. f_equal; [|lia].
      rewrite (take_S_r _ _ c) by (apply list_lookup_insert_eq; lia). rewrite take_insert_ge by lia. rewrite <- app_assoc. cbn [app]. f_equal. f_equal. f_equal.
      rewrite drop_insert_lt by lia. f_equal. lia.
Qed.
(** A string in a buffer: the text cut to the room there is, its terminator, and what was there before. *)
Definition stored (size : Z) (out str : list Z) : list Z :=
  if size <=? 0 then str else let t := take (Z.to_nat (size - 1)) out in t ++ 0 :: drop (S (length t)) str.
Lemma stored_length size out str : 0 <= size <= Z.of_nat (length str) -> length (stored size out str) = length str.
Proof.
  intros H. unfold stored. destruct (Z.leb_spec size 0); [reflexivity|]. rewrite length_app. cbn [length]. rewrite length_drop.
  assert (length (take (Z.to_nat (size - 1)) out) <= Z.to_nat (size - 1))%nat by (rewrite length_take; lia). lia.
Qed.
Lemma chsnprintf_ok str size fmt args out : 0 <= size < 2 ^ 32 -> size <= Z.of_nat (length str) -> chvprintf fmt args = Some out ->
  chsnprintf str size fmt args = Some (stored size out str, Z.of_nat (length out)).
Proof.
  intros Hs Hb E. unfold chsnprintf, stored, msObjectInit. rewrite E. cbn [mbind option_bind]. destruct (Z.leb_spec size 0) as [L|L].
  - rewrite (proj2 (Z.ltb_ge 0 size)) by lia. rewrite ms_puts_spec by lia. cbn. rewrite drop_0, Z.min_l by lia. rewrite (proj2 (Z.ltb_ge 0 size)) by lia. reflexivity.
  - rewrite (proj2 (Z.ltb_lt 0 size)) by lia. rewrite ms_puts_spec by lia. cbn [mbind option_bind]. rewrite Z.sub_0_r. cbn [eos buffer]. change (Z.to_nat 0) with 0%nat. rewrite take_0, Nat.add_0_l. cbn [app].
    set (t := take (Z.to_nat (size - 1)) out). assert (Lt : Z.to_nat (Z.min (size - 1) (0 + Z.of_nat (length out))) = length t) by (unfold t; rewrite length_take; lia).
    rewrite (proj2 (Z.ltb_lt _ size)) by lia. rewrite Lt. assert (length t < length str)%nat by (unfold t in *; rewrite length_take in *; lia).
    rewrite (proj2 (Nat.ltb_lt _ _)) by (rewrite length_app, length_drop; lia). f_equal. f_equal.
    rewrite insert_app_r_alt, Nat.sub_diag by lia. f_equal. destruct (drop (length t) str) as [|c r] eqn:D; [apply (f_equal length) in D; rewrite length_drop in D; cbn in D; lia|].
    cbn. f_equal. replace (S (length t)) with (length t + 1)%nat by lia. rewrite <- drop_drop, D. reflexivity.
Qed.
(** A text with no terminator in it: what the buffer's string is. *)
Fixpoint c_str (l : list Z) : list Z := match l with [] => [] | c :: l => if c =? 0 then [] else c :: c_str l end.
Lemma c_str_app t rest : Forall (fun c => c <> 0) t -> c_str (t ++ 0 :: rest) = t.
Proof. intros H. induction H as [|c t Hc _ IH]; [reflexivity|]. cbn. rewrite (proj2 (Z.eqb_neq c 0) Hc), IH. reflexivity. Qed.

(** Formatting into a buffer is safe and exact. Whatever is printed, nothing outside the buffer is written and the
    rest of it is kept: a text that fits is stored whole, a longer one is cut to leave room for the terminator, and a
    buffer of no bytes is left alone; what is returned is the length of the whole text. The string in the buffer is the
    text's beginning. *)
Theorem chsnprintf_is_safe str size fmt args out : 0 <= size < 2 ^ 32 -> size <= Z.of_nat (length str) -> chvprintf fmt args = Some out ->
  exists str', chsnprintf str size fmt args = Some (str', Z.of_nat (length out)) /\ length str' = length str /\
    (forall i, size <= Z.of_nat i -> str' !! i = str !! i) /\
    (0 < size -> Forall (fun c => c <> 0) out -> c_str str' = take (Z.to_nat (size - 1)) out).
Proof.
  intros Hs Hb E. exists (stored size out str). split; [apply chsnprintf_ok; assumption|]. split; [apply stored_length; lia|]. split.
  - intros i Hi. unfold stored. destruct (Z.leb_spec size 0) as [L|L]; [reflexivity|]. set (t := take _ out). assert (length t <= Z.to_nat (size - 1))%nat by (unfold t; rewrite length_take; lia).
    rewrite lookup_app_r by lia. replace (i - length t)%nat with (S (i - S (length t))) by lia. cbn [lookup list_lookup]. change (drop (S (length t)) str !! (i - S (length t))%nat = str !! i).
    rewrite lookup_drop. f_equal. lia.
  - intros L N. unfold stored. rewrite (proj2 (Z.leb_gt size 0)) by lia. apply c_str_app. apply Forall_take, N.
Qed.

(** ** Numbers, printed *)
Lemma flt_0 x : valid_binary 24 128 x = true -> is_finite x = true -> flt x f0 = true <-> (FV x < 0)%R.
Proof.
  intros V F. pose proof (SFcompare_FV 24 128 ltac:(lia) x f0 V eq_refl F eq_refl) as C. unfold flt, SFltb. cbn [FV f0] in C.
  destruct (SFcompare x f0) as [[]|]; split; intros H; try reflexivity; try discriminate; lra || contradiction.
Qed.
Lemma fneg_ok x : valid_binary 24 128 x = true -> is_finite x = true -> valid_binary 24 128 (fneg x) = true /\ is_finite (fneg x) = true /\ FV (fneg x) = (- FV x)%R.
Proof. unfold fneg. destruct x as [s| | |s m e]; intros V F; try discriminate; (split; [exact V|split; [reflexivity|]]); [cbn; ring|apply FV_opp]. Qed.
Definition minus_sign (b : bool) : list Z := if b then [45] else [].
Lemma convert_float x n filler args : valid_binary 24 128 x = true -> is_finite x = true -> (Rabs (FV x) < IZR (2 ^ 31))%R -> 1 <= n <= 9 ->
  exists b ip fp, convert 102 false filler n (ArgF x :: args) = Some (minus_sign b ++ ip ++ 46 :: fp, filler, args) /\ (b = true <-> (FV x < 0)%R) /\ decimal (Rabs (FV x)) n ip fp.
Proof.
  intros V F B Hn. destruct (float_promoted x V F) as (V1 & F1 & E1); [rewrite <- bpow_Z in B by lia; eapply Rle_trans; [left; exact B|apply bpow_le; lia]|].
  set (f := f_of_f64 (d_of_f32 x)) in *. pose proof (flt_0 f V1 F1) as S0. rewrite E1 in S0. exists (flt f f0).
  set (g := if flt f f0 then fneg f else f). assert (G : valid_binary 24 128 g = true /\ is_finite g = true /\ FV g = Rabs (FV x)).
  { unfold g. destruct (flt f f0); [destruct (fneg_ok f V1 F1) as (V2 & F2 & E2); rewrite E2, E1, Rabs_left by (apply S0; reflexivity); auto|].
    rewrite E1, Rabs_right; [auto|]. apply Rnot_lt_ge. intros H. apply S0 in H. discriminate. }
  destruct G as (V2 & F2 & E2). destruct (ftoa_spec (minus_sign (flt f f0)) g n) as (ip & fp & E & D); [destruct (flt f f0); cbn; lia|exact V2|exact F2|rewrite E2; split; [apply Rabs_pos|exact B]|exact Hn|].
  exists ip, fp. split; [|split; [exact S0|rewrite <- E2; exact D]]. unfold convert. cbn [Z.eqb Pos.eqb one_of existsb orb]. fold f. fold g.
  replace (signed (flt f f0) false) with (Some (minus_sign (flt f f0))) by (destruct (flt f f0); reflexivity). cbn [mbind option_bind]. rewrite u32_small by (unfold is_u32; lia). rewrite E. reflexivity.
Qed.
Lemma value_nonneg ds : digits ds -> 0 <= value 10 ds < 10 ^ Z.of_nat (length ds).
Proof.
  intros H. apply value_range; [lia|]. eapply Forall_impl; [exact H|]. cbn. intros c Hc. unfold digit_value, is_digit.
  rewrite (proj2 (Z.leb_le _ _)), (proj2 (Z.leb_le _ _)) by lia. cbn. lia.
Qed.
(** The integral part has no more digits than the number needs. *)
Lemma decimal_ip_length v n ip fp k : decimal v n ip fp -> 1 <= n -> (v < IZR (10 ^ Z.of_nat k))%R -> (0 < k)%nat -> (length ip <= k)%nat.
Proof.
  intros [D1 D2 D3 D4 D5 [D6 _]] Hn Hv Hk. pose proof (value_nonneg ip D1). pose proof (value_nonneg fp D2).
  apply (shortest_length 10 (value 10 ip)); [lia|exact D5| |exact Hk]. split; [lia|]. apply lt_IZR. eapply Rle_lt_trans; [|exact Hv].
  rewrite value_app, D4, Z2Nat.id in D6 by lia. rewrite plus_IZR, mult_IZR in D6. assert (0 <= IZR (value 10 fp))%R by (apply IZR_le; lia).
  assert (T : (0 < IZR (10 ^ n))%R) by (apply IZR_lt, Z.pow_pos_nonneg; lia). apply (Rmult_le_reg_r (IZR (10 ^ n))); [exact T|]. lra.
Qed.
Lemma directive_float x n rest args : valid_binary 24 128 x = true -> is_finite x = true -> (Rabs (FV x) < IZR (2 ^ 31))%R -> 1 <= n <= 9 ->
  exists b ip fp, directive (46 :: 48 + n :: 102 :: rest) (ArgF x :: args) = Some (Some (minus_sign b ++ ip ++ 46 :: fp, rest, args)) /\
    (b = true <-> (FV x < 0)%R) /\ decimal (Rabs (FV x)) n ip fp.
Proof.
  intros V F B Hn. destruct (convert_float x n 32 args V F B Hn) as (b & ip & fp & E & S1 & D). exists b, ip, fp. split; [|auto].
  assert (L : Z.of_nat (length (minus_sign b ++ ip ++ 46 :: fp)) <= INT_MAX).
  { assert (length ip <= 10)%nat.
    { apply (decimal_ip_length _ _ _ _ _ D); [lia| |lia]. eapply Rlt_trans; [exact B|]. apply IZR_lt. reflexivity. }
    destruct D as [_ _ _ D4 _ _]. rewrite !length_app. cbn [length]. rewrite D4. unfold INT_MAX. destruct b; cbn [minus_sign length]; lia. }
  clear - E L Hn. set (text := minus_sign b ++ _) in *. clearbody text. pose proof (field_fits 32 text L) as EF. clear L. revert E EF. unfold directive. generalize convert, field. intros c fl E EF.
  assert (C : n = 1 \/ n = 2 \/ n = 3 \/ n = 4 \/ n = 5 \/ n = 6 \/ n = 7 \/ n = 8 \/ n = 9) by lia. clear Hn.
  repeat match goal with H : _ \/ _ |- _ => destruct H end; subst n; cbv; rewrite E, EF; reflexivity.
Qed.
Lemma directive_unsigned z rest args : exists ds, directive (117 :: rest) (ArgZ z :: args) = Some (Some (ds, rest, args)) /\
  (0 < length ds <= MAX_FILLER)%nat /\ digits ds /\ value 10 ds = u32 z /\ shortest 10 (u32 z) ds.
Proof.
  destruct (ltoa_spec [] z 10 ltac:(lia) ltac:(cbn; lia)) as (ds & E & L & _ & H & V & S1). exists ds. split; [|split; [exact L|split; [apply H; lia|split; assumption]]].
  unfold directive. cbn [flag Z.eqb Pos.eqb number_or_arg read_number is_digit Z.leb Z.compare Pos.compare Pos.compare_cont andb mbind option_bind one_of existsb orb convert].
  rewrite E. cbn [mbind option_bind app]. rewrite field_fits; [reflexivity|]. unfold INT_MAX, MAX_FILLER in *. lia.
Qed.
Lemma directive_int z rest args : INT_MIN < z <= INT_MAX -> exists ds, directive (100 :: rest) (ArgZ z :: args) = Some (Some (minus_sign (z <? 0) ++ ds, rest, args)) /\
  (0 < length ds <= MAX_FILLER)%nat /\ digits ds /\ value 10 ds = Z.abs z /\ shortest 10 (Z.abs z) ds.
Proof.
  unfold INT_MIN, INT_MAX. intros Hz. destruct (ltoa_spec (minus_sign (z <? 0)) (Z.abs z) 10 ltac:(lia) ltac:(destruct (z <? 0); cbn; lia)) as (ds & E & L & _ & H & V & S1).
  rewrite u32_small in V, S1 by (unfold is_u32; lia). exists ds. split; [|split; [exact L|split; [apply H; lia|split; assumption]]].
  unfold directive. cbn [flag Z.eqb Pos.eqb number_or_arg read_number is_digit Z.leb Z.compare Pos.compare Pos.compare_cont andb mbind option_bind one_of existsb orb convert].
  rewrite s32_small by (unfold is_s32; lia). replace (signed (z <? 0) false) with (Some (minus_sign (z <? 0))) by (destruct (z <? 0); reflexivity). cbn [mbind option_bind].
  replace (if z <? 0 then - z else z) with (Z.abs z) by (destruct (Z.ltb_spec z 0); lia). unfold int, INT_MIN, INT_MAX. rewrite (proj2 (Z.leb_le _ _)), (proj2 (Z.leb_le _ _)) by lia. cbn [andb mbind option_bind].
  rewrite E. cbn [mbind option_bind]. rewrite field_fits; [reflexivity|]. rewrite length_app. unfold INT_MAX, MAX_FILLER in *. destruct (z <? 0); cbn [minus_sign length]; lia.
Qed.
Lemma directive_string s rest args : Z.of_nat (length s) <= 32767 -> directive (115 :: rest) (ArgS s :: args) = Some (Some (s, rest, args)).
Proof.
  intros H. unfold directive. cbn [flag Z.eqb Pos.eqb number_or_arg read_number is_digit Z.leb Z.compare Pos.compare Pos.compare_cont andb mbind option_bind one_of existsb orb convert].
  rewrite take_ge by lia. rewrite field_fits by (unfold INT_MAX; lia). reflexivity.
Qed.

(** C34. Printed numbers, for a format of the shape "%d", text without a percent sign, "%.<n>f" with [n] from 1 to 9;
    the integer is an [int] other than the least, the float is finite and below 2^31 in magnitude (what [ftoa]
    converts to a [long] beyond is undefined). An integer is printed as its sign and its shortest digits in base 10. A [float] is printed with
    [n] digits behind the point as its sign and exactly the beginning of its decimal expansion: it is truncated, not
    rounded, and the digits are exact although they are computed in floating point; [tmpbuf] has room for them. Texts
    between the numbers are copied. *)
Theorem numbers_are_printed z x n text : INT_MIN < z <= INT_MAX -> valid_binary 24 128 x = true -> is_finite x = true -> (Rabs (FV x) < IZR (2 ^ 31))%R -> 1 <= n <= 9 ->
  Forall (fun c => c <> 37) text ->
  exists ds b ip fp, chvprintf ([37; 100] ++ text ++ [37; 46; 48 + n; 102]) [ArgZ z; ArgF x] = Some (minus_sign (z <? 0) ++ ds ++ text ++ minus_sign b ++ ip ++ [46] ++ fp) /\
    digits ds /\ value 10 ds = Z.abs z /\ shortest 10 (Z.abs z) ds /\ (b = true <-> (FV x < 0)%R) /\ decimal (Rabs (FV x)) n ip fp.
Proof.
  intros Hz V F B Hn Ht. destruct (directive_float x n [] [] V F B Hn) as (b & ip & fp & E & S1 & D).
  destruct (directive_int z (text ++ [37; 46; 48 + n; 102]) [ArgF x] Hz) as (ds & E2 & _ & D1 & D2 & D3). exists ds, b, ip, fp. split; [|auto].
  cbn [app]. rewrite (chvprintf_directive _ _ _ _ _ E2), chvprintf_text by exact Ht. rewrite (chvprintf_directive _ _ _ _ _ E), chvprintf_nil. cbn.
  rewrite app_nil_r, <- app_assoc. reflexivity.
Qed.

(** ** Examples *)
Module ChprintfDemo.
(** 4.1 as a [float] is a little less: it is printed as 4.099. *)
Definition four_one : f32 := fdiv (f_of_Z 41) (f_of_Z 10).
Definition volts : list Z := [37; 46; 51; 102; 86].
Example four_one_is_cut : chvprintf volts [ArgF four_one] = Some [52; 46; 48; 57; 57; 86].
Proof. vm_compute. reflexivity. Qed.
(** The smallest integer cannot be negated. *)
Example int_min_is_undefined : chvprintf [37; 100] [ArgZ INT_MIN] = None.
Proof. reflexivity. Qed.
(** A width taken from the arguments is followed without a look at the format's end. *)
Example star_runs_over : chvprintf [37; 42] [ArgZ 3] = None.
Proof. reflexivity. Qed.
(** [%-5d], [%+05d], [%04X] and [%5.2f]. *)
Example fields : map (fun x => chvprintf x.1 x.2) [([37; 45; 53; 100], [ArgZ 7]); ([37; 43; 48; 53; 100], [ArgZ 7]); ([37; 48; 52; 88], [ArgZ 0xBEE]); ([37; 53; 46; 50; 102], [ArgF (fneg f1)])] =
  [Some [55; 32; 32; 32; 32]; Some [43; 48; 48; 48; 55]; Some [48; 66; 69; 69]; Some [45; 49; 46; 48; 48]].
Proof. vm_compute. reflexivity. Qed.
Lemma four_one_small : (Rabs (FV four_one) < IZR (2 ^ 31))%R.
Proof.
  replace four_one with (S754_finite false 8598323 (-21)) by (vm_compute; reflexivity). cbn [FV sgn]. rewrite Rmult_1_l, Rabs_right by (apply Rle_ge, Rmult_le_pos; [lra|left; apply bpow_pos]).
  apply Rle_lt_trans with (IZR 8598323 * bpow 0)%R; [apply Rmult_le_compat_l; [lra|apply bpow_le; lia]|]. change (bpow 0) with 1%R. rewrite Rmult_1_r. apply IZR_lt. reflexivity.
Qed.
Lemma numbers_witness : exists ds b ip fp, chvprintf ([37; 100] ++ [32] ++ [37; 46; 51; 102]) [ArgZ (-12); ArgF four_one] =
  Some (minus_sign true ++ ds ++ [32] ++ minus_sign b ++ ip ++ [46] ++ fp) /\ value 10 ds = 12 /\ length fp = 3%nat.
Proof.
  destruct (numbers_are_printed (-12) four_one 3 [32]) as (ds & b & ip & fp & E & _ & V & _ & _ & D).
  - unfold INT_MIN, INT_MAX. lia.
  - reflexivity.
  - reflexivity.
  - exact four_one_small.
  - lia.
  - constructor; [discriminate|constructor].
  - exists ds, b, ip, fp. split; [exact E|]. split; [exact V|exact (dec_fp_len _ _ _ _ D)].
Defined.
(** The 7 characters of "4.099V" and their terminator do not fit in 5 bytes. *)
Lemma chsnprintf_witness : exists str', chsnprintf (replicate 8 1) 5 volts [ArgF four_one] = Some (str', 6) /\ c_str str' = [52; 46; 48; 57].
Proof.
  destruct (chsnprintf_is_safe (replicate 8 1) 5 volts [ArgF four_one] [52; 46; 48; 57; 57; 86]) as (str' & E & _ & _ & C).
  - lia.
  - cbn. lia.
  - vm_compute. reflexivity.
  - exists str'. split; [exact E|]. apply C; [lia|]. repeat constructor; discriminate.
Defined.
End ChprintfDemo.
