(* ===== verification/Mailbox.v ===== *)
(** ChibiOS' mailboxes ([ext/ChibiOS_21.11.3/os/oslib/src/chmboxes.c]) and the queues of xbot_framework on them
    ([portable/xbot/queue.cpp]).

    A pointer into the mailbox's buffer is its index. Every attempt to post or to fetch runs with the system locked; a
    thread that has to wait finds the mailbox, when it is woken, as the other threads have left it: this is an input.
    [None] is an access outside the buffer, or a thread that is still waiting. *)
From S2P Require Import Prelude.

(* @ os/rt/include/chschd.h:39-39 MSG_OK *)
Definition MSG_OK : Z := 0.
(* @ os/rt/include/chschd.h:40-40 MSG_TIMEOUT *)
Definition MSG_TIMEOUT : Z := -1.
(* @ os/rt/include/chschd.h:42-42 MSG_RESET *)
Definition MSG_RESET : Z := -2.
(* @ os/oslib/include/chmboxes.h:52-63 mailbox_t *)
Record mailbox := mkMailbox { mb_buffer : list Z; wrptr : nat; rdptr : nat; cnt : Z; reset : bool }.
#[export] Instance eta_mailbox : Eta mailbox := fun m => mkMailbox (mb_buffer m) (wrptr m) (rdptr m) (cnt m) (reset m).
(** [top] is the address behind the buffer. *)
Definition top (m : mailbox) : nat := length (mb_buffer m).
(* @ os/oslib/src/chmboxes.c chMBObjectInit *)
Definition chMBObjectInit (buf : list Z) : mailbox := mkMailbox buf 0 0 0 false.
(* @ os/oslib/src/chmboxes.c chMBResetI *)
Definition chMBResetI (m : mailbox) : mailbox := m <| wrptr := 0%nat |> <| rdptr := 0%nat |> <| cnt := 0 |> <| reset := true |>.
(* @ os/oslib/include/chmboxes.h chMBResumeX *)
Definition chMBResumeX (m : mailbox) : mailbox := m <| reset := false |>.
(* @ os/oslib/include/chmboxes.h chMBGetFreeCountI *)
Definition chMBGetFreeCountI (m : mailbox) : Z := u32 (Z.of_nat (top m) - cnt m).
(** [*p = msg] and [*p]. *)
Definition write (p : nat) (msg : Z) (m : mailbox) : option mailbox :=
  if (p <? top m)%nat then Some (m <| mb_buffer ::= <[p := msg]> |>) else None.
Definition next (p : nat) (m : mailbox) : nat := if (top m <=? S p)%nat then 0%nat else S p.
(* @ os/oslib/src/chmboxes.c:255-259 chMBPostI (slot) *)
Definition post_slot (msg : Z) (m : mailbox) : option mailbox :=
  m ← write (wrptr m) msg m; Some (m <| wrptr ::= fun p => next p m |> <| cnt ::= fun c => u32 (c + 1) |>).
(* @ os/oslib/src/chmboxes.c:380-384 chMBPostAheadI (slot) *)
Definition ahead_slot (msg : Z) (m : mailbox) : option mailbox :=
  let p := match rdptr m with O => (top m - 1)%nat | S p => p end in
  m ← write p msg (m <| rdptr := p |>); Some (m <| cnt ::= fun c => u32 (c + 1) |>).
(* @ os/oslib/src/chmboxes.c:505-509 chMBFetchI (slot) *)
Definition fetch_slot (m : mailbox) : option (Z * mailbox) :=
  msg ← mb_buffer m !! rdptr m; Some (msg, m <| rdptr ::= fun p => next p m |> <| cnt ::= fun c => u32 (c - 1) |>).
(* @ os/oslib/src/chmboxes.c chMBPostI *)
Definition chMBPostI (msg : Z) (m : mailbox) : option (Z * mailbox) :=
  if reset m then Some (MSG_RESET, m)
  else if 0 <? chMBGetFreeCountI m then m ← post_slot msg m; Some (MSG_OK, m)
  else Some (MSG_TIMEOUT, m).
(* @ os/oslib/src/chmboxes.c chMBPostAheadI *)
Definition chMBPostAheadI (msg : Z) (m : mailbox) : option (Z * mailbox) :=
  if reset m then Some (MSG_RESET, m)
  else if 0 <? chMBGetFreeCountI m then m ← ahead_slot msg m; Some (MSG_OK, m)
  else Some (MSG_TIMEOUT, m).
(** The result, the message if there is one, and the mailbox. *)
(* @ os/oslib/src/chmboxes.c chMBFetchI *)
Definition chMBFetchI (m : mailbox) : option (Z * option Z * mailbox) :=
  if reset m then Some (MSG_RESET, None, m)
  else if 0 <? cnt m then '(msg, m) ← fetch_slot m; Some (MSG_OK, Some msg, m)
  else Some (MSG_TIMEOUT, None, m).
(** Waiting, with each wake-up's result and the mailbox that is found then. *)
(* @ os/oslib/src/chmboxes.c chMBPostTimeoutS *)
Fixpoint chMBPostTimeoutS (msg : Z) (m : mailbox) (wakes : list (Z * mailbox)) : option (Z * mailbox) :=
  if reset m then Some (MSG_RESET, m)
  else if 0 <? chMBGetFreeCountI m then m ← post_slot msg m; Some (MSG_OK, m)
  else match wakes with
       | [] => None
       | (rdymsg, m) :: wakes => if rdymsg =? MSG_OK then chMBPostTimeoutS msg m wakes else Some (rdymsg, m)
       end.
(* @ os/oslib/src/chmboxes.c chMBPostAheadTimeoutS *)
Fixpoint chMBPostAheadTimeoutS (msg : Z) (m : mailbox) (wakes : list (Z * mailbox)) : option (Z * mailbox) :=
  if reset m then Some (MSG_RESET, m)
  else if 0 <? chMBGetFreeCountI m then m ← ahead_slot msg m; Some (MSG_OK, m)
  else match wakes with
       | [] => None
       | (rdymsg, m) :: wakes => if rdymsg =? MSG_OK then chMBPostAheadTimeoutS msg m wakes else Some (rdymsg, m)
       end.
(* @ os/oslib/src/chmboxes.c chMBFetchTimeoutS *)
Fixpoint chMBFetchTimeoutS (m : mailbox) (wakes : list (Z * mailbox)) : option (Z * option Z * mailbox) :=
  if reset m then Some (MSG_RESET, None, m)
  else if 0 <? cnt m then '(msg, m) ← fetch_slot m; Some (MSG_OK, Some msg, m)
  else match wakes with
       | [] => None
       | (rdymsg, m) :: wakes => if rdymsg =? MSG_OK then chMBFetchTimeoutS m wakes else Some (rdymsg, None, m)
       end.

(** ** The queues *)
(** A null pointer is 0. *)
(* @ portable/xbot/queue.cpp initialize *)
Definition queue_initialize (buffer : list Z) : mailbox := chMBObjectInit buffer.
(* @ portable/xbot/queue.cpp queuePushItem *)
Definition queuePushItem (item : Z) (m : mailbox) (wakes : list (Z * mailbox)) : option (bool * mailbox) :=
  '(r, m) ← chMBPostTimeoutS item m wakes; Some (r =? MSG_OK, m).
(** Whether there is an item, and [*result]. *)
(* @ portable/xbot/queue.cpp queuePopItem *)
Definition queuePopItem (result : Z) (m : mailbox) (wakes : list (Z * mailbox)) : option (bool * Z * mailbox) :=
  '(r, msg, m) ← chMBFetchTimeoutS m wakes;
  let result := match msg with Some msg => msg | None => result end in
  Some ((r =? MSG_OK) && negb (result =? 0), result, m).

(** ** A mailbox is a queue *)
(** The index of the [i]-th message. *)
Definition slot (m : mailbox) (i : nat) : nat := ((rdptr m + i) mod top m)%nat.
Definition contents (m : mailbox) : list Z := map (fun i => nth (slot m i) (mb_buffer m) 0) (seq 0 (Z.to_nat (cnt m))).
Record mailbox_ok (m : mailbox) : Prop := {
  ok_top : (0 < top m)%nat /\ Z.of_nat (top m) < 4294967296; ok_cnt : 0 <= cnt m <= Z.of_nat (top m); ok_rd : (rdptr m < top m)%nat; ok_wr : wrptr m = slot m (Z.to_nat (cnt m)) }.
Lemma next_mod p m : (p < top m)%nat -> next p m = ((p + 1) mod top m)%nat.
Proof.
  intros H. unfold next. destruct (Nat.leb_spec (top m) (S p)).
  - replace (p + 1)%nat with (top m) by lia. symmetry. apply Nat.Div0.mod_same.
  - rewrite Nat.mod_small by lia. lia.
Qed.
Lemma slot_lt m i : (0 < top m)%nat -> (slot m i < top m)%nat.
Proof. intros H. apply Nat.mod_upper_bound. lia. Qed.
(** Different messages are at different places. *)
Lemma slot_inj m i j : (rdptr m < top m)%nat -> (i < top m)%nat -> (j < top m)%nat -> slot m i = slot m j -> i = j.
Proof.
  unfold slot. intros Hr Hi Hj E. assert (W : forall k, (k < top m)%nat -> ((rdptr m + k) mod top m)%nat = if (rdptr m + k <? top m)%nat then (rdptr m + k)%nat else (rdptr m + k - top m)%nat).
  { intros k Hk. destruct (Nat.ltb_spec (rdptr m + k) (top m)) as [L|L]; [apply Nat.mod_small, L|]. replace (rdptr m + k)%nat with (rdptr m + k - top m + 1 * top m)%nat at 1 by lia.
    rewrite Nat.Div0.mod_add. apply Nat.mod_small. lia. }
  rewrite !W in E by assumption. destruct (Nat.ltb_spec (rdptr m + i) (top m)), (Nat.ltb_spec (rdptr m + j) (top m)); lia.
Qed.
Lemma free_count m : mailbox_ok m -> chMBGetFreeCountI m = Z.of_nat (top m) - cnt m.
Proof. intros [T C _ _]. apply u32_small. unfold is_u32. lia. Qed.
Lemma contents_length m : length (contents m) = Z.to_nat (cnt m).
Proof. unfold contents. rewrite length_map, length_seq. reflexivity. Qed.
Lemma init_ok buf : (0 < length buf)%nat -> Z.of_nat (length buf) < 4294967296 -> mailbox_ok (chMBObjectInit buf) /\ contents (chMBObjectInit buf) = [].
Proof. intros H L. split; [|reflexivity]. split; cbn; [auto|lia|exact H|]. unfold slot. cbn. rewrite Nat.Div0.mod_0_l. reflexivity. Qed.
Lemma nth_insert (l : list Z) i j x : (j < length l)%nat -> nth i (<[j := x]> l) 0 = if (i =? j)%nat then x else nth i l 0.
Proof.
  intros H. rewrite !nth_lookup. destruct (Nat.eqb_spec i j) as [->|N]; [rewrite list_lookup_insert_eq by exact H; reflexivity|rewrite list_lookup_insert_ne by congruence; reflexivity].
Qed.
(** A message behind the others. *)
Lemma post_slot_ok m msg : mailbox_ok m -> cnt m < Z.of_nat (top m) -> exists m', post_slot msg m = Some m' /\ mailbox_ok m' /\ top m' = top m /\ reset m' = reset m /\ contents m' = contents m ++ [msg].
Proof.
  intros [[T0 T1] C R W] L. assert (Ws : (wrptr m < top m)%nat) by (rewrite W; apply slot_lt, T0).
  unfold post_slot, write. rewrite (proj2 (Nat.ltb_lt _ _) Ws). cbn [mbind option_bind]. eexists. split; [reflexivity|]. set (m' := _ <| cnt ::= _ |>).
  assert (Tm : top m' = top m) by apply length_insert. assert (Cm : cnt m' = cnt m + 1) by (apply u32_small; unfold is_u32; lia). assert (Sm : forall i, slot m' i = slot m i) by (intros i; unfold slot; rewrite Tm; reflexivity).
  split; [|split; [exact Tm|split; [reflexivity|]]].
  - split; [rewrite Tm; auto|rewrite Tm, Cm; lia|rewrite Tm; exact R|]. rewrite Sm, Cm, Z2Nat.inj_add, Nat.add_1_r by lia.
    change (wrptr m') with (next (wrptr m) (m <| mb_buffer ::= <[wrptr m := msg]> |>)). rewrite next_mod by (unfold top; cbn; rewrite length_insert; exact Ws).
    change (top (m <| mb_buffer ::= <[wrptr m := msg]> |>)) with (length (<[wrptr m := msg]> (mb_buffer m))). rewrite length_insert. fold (top m). rewrite W. unfold slot. rewrite Nat.Div0.add_mod_idemp_l. f_equal. lia.
  - unfold contents. rewrite Cm, Z2Nat.inj_add, Nat.add_1_r, seq_S, map_app by lia. cbn [map Nat.add]. rewrite Sm. f_equal.
    + apply map_ext_in. intros i Hi%in_seq. rewrite Sm. cbn [mb_buffer m']. change (mb_buffer m') with (<[wrptr m := msg]> (mb_buffer m)). rewrite nth_insert by exact Ws.
      destruct (Nat.eqb_spec (slot m i) (wrptr m)) as [E|]; [|reflexivity]. rewrite W in E. apply slot_inj in E; lia.
    + change (mb_buffer m') with (<[wrptr m := msg]> (mb_buffer m)). rewrite nth_insert, <- W, Nat.eqb_refl by exact Ws. reflexivity.
Qed.
(** A message in front of the others. *)
Lemma ahead_slot_ok m msg : mailbox_ok m -> cnt m < Z.of_nat (top m) -> exists m', ahead_slot msg m = Some m' /\ mailbox_ok m' /\ top m' = top m /\ reset m' = reset m /\ contents m' = msg :: contents m.
Proof.
  intros [[T0 T1] C R W] L. unfold ahead_slot. set (p := match rdptr m with O => _ | S p => p end). assert (Hp : (p < top m)%nat) by (unfold p; destruct (rdptr m); lia).
  assert (Hs : ((p + 1) mod top m)%nat = rdptr m).
  { unfold p in *. destruct (rdptr m) as [|q]; [replace (top m - 1 + 1)%nat with (top m) by lia; apply Nat.Div0.mod_same|rewrite Nat.mod_small by lia; lia]. }
  unfold write. change (top (m <| rdptr := p |>)) with (top m). rewrite (proj2 (Nat.ltb_lt _ _) Hp). cbn [mbind option_bind]. eexists. split; [reflexivity|]. set (m' := _ <| cnt ::= _ |>).
  assert (Tm : top m' = top m) by apply length_insert. assert (Cm : cnt m' = cnt m + 1) by (apply u32_small; unfold is_u32; lia).
  assert (S0 : slot m' 0 = p) by (unfold slot; rewrite Tm; change (rdptr m') with p; rewrite Nat.add_0_r; apply Nat.mod_small, Hp).
  assert (Sm : forall i, slot m' (S i) = slot m i).
  { intros i. unfold slot. rewrite Tm. change (rdptr m') with p. rewrite <- Hs, Nat.Div0.add_mod_idemp_l. f_equal. lia. }
  split; [|split; [exact Tm|split; [reflexivity|]]].
  - split; [rewrite Tm; auto|rewrite Tm, Cm; lia|rewrite Tm; exact Hp|]. rewrite Cm, Z2Nat.inj_add, Nat.add_1_r, Sm by lia. exact W.
  - unfold contents. rewrite Cm, Z2Nat.inj_add, Nat.add_1_r by lia. cbn [seq map]. change (mb_buffer m') with (<[p := msg]> (mb_buffer m)). rewrite S0, nth_insert, Nat.eqb_refl by exact Hp. f_equal.
    rewrite <- seq_shift, map_map. apply map_ext_in. intros i Hi%in_seq. rewrite Sm, nth_insert by exact Hp. destruct (Nat.eqb_spec (slot m i) p) as [E|]; [|reflexivity].
    exfalso. rewrite <- S0, <- Sm in E. assert (Rm : (rdptr m' < top m')%nat) by (rewrite Tm; exact Hp). apply (slot_inj m' (S i) 0 Rm) in E; lia.
Qed.
(** The first message. *)
Lemma fetch_slot_ok m : mailbox_ok m -> 0 < cnt m -> exists msg rest m', fetch_slot m = Some (msg, m') /\ mailbox_ok m' /\ top m' = top m /\ reset m' = reset m /\ contents m = msg :: rest /\ contents m' = rest.
Proof.
  intros [[T0 T1] C R W] L. unfold fetch_slot. destruct (lookup_lt_is_Some_2 (mb_buffer m) (rdptr m) R) as [msg E]. rewrite E. cbn [mbind option_bind].
  exists msg, (map (fun i => nth (slot m i) (mb_buffer m) 0) (seq 1 (Z.to_nat (cnt m) - 1))). eexists. split; [reflexivity|]. set (m' := _ <| cnt ::= _ |>).
  assert (Cm : cnt m' = cnt m - 1) by (apply u32_small; unfold is_u32; lia).
  assert (Sm : forall i, slot m' i = slot m (S i)).
  { intros i. unfold slot. change (rdptr m') with (next (rdptr m) m). rewrite next_mod by exact R. change (top m') with (top m). rewrite Nat.Div0.add_mod_idemp_l. f_equal. lia. }
  split; [|split; [reflexivity|split; [reflexivity|split]]].
  - split; [auto|change (top m') with (top m); rewrite Cm; lia|change (rdptr m') with (next (rdptr m) m); rewrite next_mod by exact R; apply Nat.mod_upper_bound; change (top m') with (top m); lia|].
    rewrite Cm, Sm. change (wrptr m') with (wrptr m). rewrite W. f_equal. lia.
  - unfold contents. replace (Z.to_nat (cnt m)) with (S (Z.to_nat (cnt m) - 1)) at 1 by lia. cbn [seq map]. f_equal.
    unfold slot. rewrite Nat.add_0_r, Nat.mod_small by exact R. rewrite nth_lookup, E. reflexivity.
  - unfold contents. rewrite Cm. replace (Z.to_nat (cnt m - 1)) with (Z.to_nat (cnt m) - 1)%nat by lia. rewrite <- seq_shift, map_map. apply map_ext. intros i. rewrite Sm. reflexivity.
Qed.

(** ** The specification: a bounded queue that can be reset *)
Inductive mb_op := PostI (msg : Z) | PostAheadI (msg : Z) | FetchI | ResetI | ResumeX.
Definition mb_step (op : mb_op) (m : mailbox) : option ((Z * option Z) * mailbox) :=
  match op with
  | PostI msg => '(r, m) ← chMBPostI msg m; Some ((r, None), m)
  | PostAheadI msg => '(r, m) ← chMBPostAheadI msg m; Some ((r, None), m)
  | FetchI => chMBFetchI m
  | ResetI => Some ((MSG_OK, None), chMBResetI m)
  | ResumeX => Some ((MSG_OK, None), chMBResumeX m)
  end.
Fixpoint mb_run (ops : list mb_op) (m : mailbox) : option (list (Z * option Z) * mailbox) :=
  match ops with [] => Some ([], m) | op :: ops => '(r, m) ← mb_step op m; '(rs, m) ← mb_run ops m; Some (r :: rs, m) end.
Definition q_step (capacity : nat) (op : mb_op) (s : list Z * bool) : (Z * option Z) * (list Z * bool) :=
  let '(q, off) := s in
  let put q' := if off then ((MSG_RESET, None), s) else if (length q <? capacity)%nat then ((MSG_OK, None), (q', off)) else ((MSG_TIMEOUT, None), s) in
  match op with
  | PostI msg => put (q ++ [msg])
  | PostAheadI msg => put (msg :: q)
  | FetchI => if off then ((MSG_RESET, None), s) else match q with [] => ((MSG_TIMEOUT, None), s) | msg :: q => ((MSG_OK, Some msg), (q, off)) end
  | ResetI => ((MSG_OK, None), ([], true))
  | ResumeX => ((MSG_OK, None), (q, false))
  end.
Fixpoint q_run (capacity : nat) (ops : list mb_op) (s : list Z * bool) : list (Z * option Z) * (list Z * bool) :=
  match ops with [] => ([], s) | op :: ops => let '(r, s) := q_step capacity op s in let '(rs, s) := q_run capacity ops s in (r :: rs, s) end.
Lemma room m : mailbox_ok m -> (0 <? chMBGetFreeCountI m) = (length (contents m) <? top m)%nat.
Proof. intros H. rewrite free_count, contents_length by exact H. destruct H as [_ C _ _]. destruct (Z.ltb_spec 0 (Z.of_nat (top m) - cnt m)), (Nat.ltb_spec (Z.to_nat (cnt m)) (top m)); reflexivity || lia. Qed.
Lemma mb_step_refines op m : mailbox_ok m -> exists r m', mb_step op m = Some (r, m') /\ mailbox_ok m' /\ top m' = top m /\
  q_step (top m) op (contents m, reset m) = (r, (contents m', reset m')).
Proof.
  intros H. pose proof (room m H) as Hr. destruct op as [msg|msg| | |]; cbn [mb_step q_step].
  - unfold chMBPostI. destruct (reset m) eqn:Er; [cbn; rewrite <- Er; eauto 10|]. rewrite Hr. destruct (Nat.ltb_spec (length (contents m)) (top m)) as [L|L]; [|cbn; rewrite <- Er; eauto 10].
    rewrite contents_length in L. destruct (post_slot_ok m msg H) as (m' & -> & O & T & R & C); [destruct H as [_ ? _ _]; lia|]. cbn. rewrite <- C, <- Er, <- R. eauto 10.
  - unfold chMBPostAheadI. destruct (reset m) eqn:Er; [cbn; rewrite <- Er; eauto 10|]. rewrite Hr. destruct (Nat.ltb_spec (length (contents m)) (top m)) as [L|L]; [|cbn; rewrite <- Er; eauto 10].
    rewrite contents_length in L. destruct (ahead_slot_ok m msg H) as (m' & -> & O & T & R & C); [destruct H as [_ ? _ _]; lia|]. cbn. rewrite <- C, <- Er, <- R. eauto 10.
  - unfold chMBFetchI. destruct (reset m) eqn:Er; [rewrite <- Er; eauto 10|]. destruct (Z.ltb_spec 0 (cnt m)) as [L|L].
    + destruct (fetch_slot_ok m H L) as (msg & rest & m' & -> & O & T & R & C & C'). cbn. rewrite C, <- C', <- Er, <- R. eauto 10.
    + assert (E : contents m = []) by (apply nil_length_inv; rewrite contents_length; lia). rewrite E. exists (MSG_TIMEOUT, None), m. rewrite E, Er. auto.
  - eexists _, _. split; [reflexivity|]. destruct H as [T C R W]. split; [|split; reflexivity]. split; cbn; try assumption; [unfold top in *; cbn; lia|unfold top in *; cbn; lia|]. unfold slot. cbn. rewrite Nat.Div0.mod_0_l. reflexivity.
  - eexists _, _. split; [reflexivity|]. destruct H as [T C R W]. split; [|split; reflexivity]. split; assumption.
Qed.

(** C39. A mailbox is a bounded queue. From its initialisation on, whatever is posted behind, posted in front, fetched,
    reset and resumed, in any order: no access leaves the buffer, and every result is that of a queue whose capacity
    is the buffer's length; in particular messages are fetched in order, none is lost and none is fetched twice, while
    the indices run around the buffer. *)
Theorem mailbox_refines_queue buf ops : (0 < length buf)%nat -> Z.of_nat (length buf) < 4294967296 ->
  exists rs m, mb_run ops (chMBObjectInit buf) = Some (rs, m) /\ q_run (length buf) ops ([], false) = (rs, (contents m, reset m)) /\ (length (contents m) <= length buf)%nat.
Proof.
  intros H L. destruct (init_ok buf H L) as [O C]. assert (G : forall m, mailbox_ok m -> exists rs m', mb_run ops m = Some (rs, m') /\ mailbox_ok m' /\ top m' = top m /\ q_run (top m) ops (contents m, reset m) = (rs, (contents m', reset m'))).
  { clear. induction ops as [|op ops IH]; intros m O; [exists [], m; auto|]. destruct (mb_step_refines op m O) as (r & m1 & E & O1 & T1 & Q). destruct (IH m1 O1) as (rs & m2 & E2 & O2 & T2 & Q2).
    exists (r :: rs), m2. cbn [mb_run q_run]. rewrite E. cbn [mbind option_bind]. rewrite E2, Q. cbn [mbind option_bind]. rewrite <- T1, Q2. rewrite T2. auto. }
  destruct (G _ O) as (rs & m & E & O' & T & Q). exists rs, m. rewrite C in Q. split; [exact E|]. split; [exact Q|]. rewrite contents_length. destruct O' as [_ C' _ _]. rewrite T in C'. change (top (chMBObjectInit buf)) with (length buf) in C'. lia.
Qed.

(** ** The queues of the services *)
(** A push that succeeds has put the item behind what was in the queue when there was room; one that fails has changed
    nothing. The mailboxes found on waking up are in order. *)
Lemma queuePushItem_spec item wakes : forall m r m', mailbox_ok m -> Forall (fun w => mailbox_ok w.2) wakes -> queuePushItem item m wakes = Some (r, m') ->
  exists m0, (m0 = m \/ m0 ∈ map snd wakes) /\ mailbox_ok m' /\ if r : bool then contents m' = contents m0 ++ [item] /\ (length (contents m0) < top m0)%nat else m' = m0.
Proof.
  unfold queuePushItem. induction wakes as [|[rdy w] wakes IH]; intros m r m' O F; cbn [chMBPostTimeoutS]; rewrite (room m O);
    (destruct (reset m); [intros [= <- <-]; exists m; split; [auto|split; [exact O|reflexivity]]|]);
    (destruct (Nat.ltb_spec (length (contents m)) (top m)) as [L|L];
      [rewrite contents_length in L; destruct (post_slot_ok m item O) as (m1 & -> & O1 & _ & _ & C); [destruct O as [_ ? _ _]; lia|]; cbn; intros [= <- <-]; exists m; rewrite contents_length; auto|]); [discriminate|].
  inversion F as [|? ? Ow Fw]; subst. cbn [snd] in Ow. destruct (rdy =? MSG_OK) eqn:Er.
  - intros E. destruct (IH w r m' Ow Fw E) as (m0 & I & R). exists m0. split; [|exact R]. right. destruct I as [->|I]; [left|right; exact I].
  - cbn. rewrite Er. intros [= <- <-]. exists w. split; [right; left|split; [exact Ow|reflexivity]].
Qed.
Lemma queuePopItem_spec result wakes : forall m r msg m', mailbox_ok m -> Forall (fun w => mailbox_ok w.2) wakes -> queuePopItem result m wakes = Some (r, msg, m') ->
  exists m0, (m0 = m \/ m0 ∈ map snd wakes) /\ mailbox_ok m' /\ (if r : bool then contents m0 = msg :: contents m' /\ msg <> 0 else m' = m0 \/ contents m0 = 0 :: contents m').
Proof.
  unfold queuePopItem. induction wakes as [|[rdy w] wakes IH]; intros m r msg m' O F; cbn [chMBFetchTimeoutS];
    (destruct (reset m); [cbn; intros [= <- <- <-]; exists m; auto|]);
    (destruct (Z.ltb_spec 0 (cnt m)) as [L|L];
      [destruct (fetch_slot_ok m O L) as (x & rest & m1 & -> & O1 & _ & _ & C & C'); cbn; intros [= <- <- <-]; exists m; split; [auto|]; split; [exact O1|]; rewrite C, C';
       destruct (Z.eqb_spec x 0) as [->|N]; cbn; auto|]); [discriminate|].
  inversion F as [|? ? Ow Fw]; subst. cbn [snd] in Ow. destruct (rdy =? MSG_OK) eqn:Er.
  - intros E. destruct (IH w r msg m' Ow Fw E) as (m0 & I & R). exists m0. split; [|exact R]. right. destruct I as [->|I]; [left|right; exact I].
  - cbn. rewrite Er. cbn. intros [= <- <- <-]. exists w. split; [right; left|auto].
Qed.

(** ** Examples *)
Module MailboxDemo.
Lemma mailbox_witness : exists rs m, mb_run [PostI 1; PostI 2; PostI 3; FetchI; PostI 3; PostAheadI 4; FetchI; PostAheadI 5; FetchI; FetchI; FetchI] (chMBObjectInit [0; 0]) = Some (rs, m) /\
  omap snd rs = [1; 2; 5; 3] /\ rs !! 2%nat = Some (MSG_TIMEOUT, None).
Proof.
  destruct (mailbox_refines_queue [0; 0] [PostI 1; PostI 2; PostI 3; FetchI; PostI 3; PostAheadI 4; FetchI; PostAheadI 5; FetchI; FetchI; FetchI]) as (rs & m & E & Q & _); [cbn; lia|cbn; lia|].
  exists rs, m. split; [exact E|]. cbn in Q. injection Q as <- _ _. split; reflexivity.
Defined.
(** A null pointer that is pushed is taken out of the queue, but not reported. *)
Example null_is_dropped : option_map (fun x => (x.1.1, contents x.2)) (queuePopItem 7 (mkMailbox [0; 9] 0 0 2 false) []) = Some (false, [9]).
Proof. reflexivity. Qed.
End MailboxDemo.
