(* ===== verification/PacketPool.v ===== *)
(** The pool of packets ([portable/xbot/packet.cpp]): lwIP's memory pool ([ext/ChibiOS_21.11.3/ext/lwip/src/core/memp.c])
    behind a counting semaphore of ChibiOS ([os/rt/src/chsem.c]).

    A pointer to an element of the pool is its index. While an element is free its first word is the link to the next
    one; while it is in use this word is the packet's [used_data], which can have any value. [None] is an access outside
    the pool, or [allocatePacket]'s endless loop.

    A thread takes a packet in two steps, the semaphore and the pool, and gives it back in two steps; every step runs
    with the system locked, and the steps of the threads interleave in any order. *)
From S2P Require Import Prelude.

(** ** lwIP's memory pools *)
(* @ ext/lwip/src/include/lwip/priv/memp_priv.h:108-131 memp_desc *)
Record memp_desc := mkMemp { tab : option nat; words : list (option nat); avail : Z; used : Z; max_used : Z; err : Z }.
#[export] Instance eta_memp_desc : Eta memp_desc := fun d => mkMemp (tab d) (words d) (avail d) (used d) (max_used d) (err d).
(** One element's link in front of the others. *)
(* @ ext/lwip/src/core/memp.c:195-196 memp_init_pool (link) *)
Definition link_element (d : memp_desc) (i : nat) : memp_desc := d <| words ::= <[i := tab d]> |> <| tab := Some i |>.
(* @ ext/lwip/src/core/memp.c memp_init_pool *)
Definition memp_init_pool (d : memp_desc) : memp_desc :=
  let d := fold_left link_element (seq 0 (length (words d))) (d <| tab := None |>) in
  d <| avail := Z.of_nat (length (words d)) |>.
(* @ ext/lwip/src/core/memp.c:243-300 do_memp_malloc_pool *)
Definition do_memp_malloc_pool (d : memp_desc) : option (option nat * memp_desc) :=
  match tab d with
  | Some i =>
    next ← words d !! i;
    let d := d <| tab := next |> <| used ::= Z.add 1 |> in
    Some (Some i, if max_used d <? used d then d <| max_used := used d |> else d)
  | None => Some (None, d <| err ::= Z.add 1 |>)
  end.
(* @ ext/lwip/src/core/memp.c do_memp_free_pool *)
Definition do_memp_free_pool (i : nat) (d : memp_desc) : option memp_desc :=
  if (i <? length (words d))%nat then Some (link_element (d <| used ::= fun n => n - 1 |>) i) else None.
(** The user writes to the element [i]. *)
Definition overwrite (i : nat) (w : option nat) (d : memp_desc) : memp_desc := d <| words ::= <[i := w]> |>.

(** The list of the free elements. *)
Fixpoint chain (words : list (option nat)) (p : option nat) (free : list nat) : Prop :=
  match free with [] => p = None | i :: free => p = Some i /\ exists next, words !! i = Some next /\ chain words next free end.
Lemma chain_insert free : forall ws p i w, i ∉ free -> chain ws p free -> chain (<[i := w]> ws) p free.
Proof.
  induction free as [|j free IH]; intros ws p i w N C; [exact C|]. destruct C as (E & next & L & C). apply not_elem_of_cons in N as [Nj N].
  split; [exact E|]. exists next. split; [rewrite list_lookup_insert_ne by congruence; exact L|]. apply IH; assumption.
Qed.
Lemma pool_chain_link free d i : (i < length (words d))%nat -> i ∉ free -> chain (words d) (tab d) free -> chain (words (link_element d i)) (tab (link_element d i)) (i :: free).
Proof. intros L N C. cbn. split; [reflexivity|]. exists (tab d). split; [apply list_lookup_insert_eq, L|]. apply chain_insert; assumption. Qed.
Lemma memp_init_chain d : exists free, chain (words (memp_init_pool d)) (tab (memp_init_pool d)) free /\ free ≡ₚ seq 0 (length (words d)) /\
  length (words (memp_init_pool d)) = length (words d) /\ used (memp_init_pool d) = used d /\ max_used (memp_init_pool d) = max_used d.
Proof.
  unfold memp_init_pool. set (d0 := d <| tab := None |>). set (n := length (words d)).
  assert (G : forall k, (k <= n)%nat -> let d' := fold_left link_element (seq 0 k) d0 in
    chain (words d') (tab d') (rev (seq 0 k)) /\ length (words d') = n /\ used d' = used d /\ max_used d' = max_used d).
  { induction k as [|k IH]; intros L; [cbn; auto|]. cbn zeta in *. destruct (IH ltac:(lia)) as (C & Ln & U & M). rewrite seq_S, fold_left_app, rev_app_distr. cbn [Nat.add fold_left rev app].
    split; [apply pool_chain_link; [lia| |exact C]|]. { rewrite list_elem_of_In, <- in_rev, in_seq. lia. } cbn. rewrite length_insert. auto. }
  destruct (G n (le_n _)) as (C & Ln & U & M). exists (rev (seq 0 n)). cbn. rewrite Ln. repeat split; try assumption. symmetry. apply Permutation_rev.
Qed.

(** ** The semaphore *)
(** The waiting threads, the first one in front. [cnt] is at most the initial one and at least the number of threads, negated. *)
(* @ os/rt/include/chsem.h:52-56 semaphore_t *)
Record semaphore := mkSem { queue : list nat; cnt : Z }.
(* @ os/rt/src/chsem.c chSemObjectInit *)
Definition chSemObjectInit (n : Z) : semaphore := mkSem [] n.
(** Whether the thread goes on. *)
(* @ os/rt/src/chsem.c chSemWaitS *)
Definition chSemWaitS (tp : nat) (sp : semaphore) : bool * semaphore :=
  let cnt := cnt sp - 1 in if cnt <? 0 then (false, mkSem (queue sp ++ [tp]) cnt) else (true, mkSem (queue sp) cnt).
(** The thread that is woken. The queue's head is itself when the queue is empty: not modelled, [None]. *)
(* @ os/rt/src/chsem.c chSemSignal *)
Definition chSemSignal (sp : semaphore) : option (option nat * semaphore) :=
  let cnt := cnt sp + 1 in
  if cnt <=? 0 then match queue sp with tp :: queue => Some (Some tp, mkSem queue cnt) | [] => None end else Some (None, mkSem (queue sp) cnt).

(** ** The packets *)
(* @ portable/xbot/packet.cpp:13-13 XBOT_PACKET_POOL_SIZE *)
Definition XBOT_PACKET_POOL_SIZE : nat := 25.
(** [passed]: the threads behind [chSemWait] and before the pool; [freed]: those behind the pool and before
    [chSemSignal]; [held]: the packets that were handed out and have not come back. *)
Record packets := mkPackets { pool : memp_desc; sema : semaphore; passed : list nat; freed : list nat; held : list nat }.
(* @ portable/xbot/packet.cpp:15-16 xbot_packet_pool *)
Definition packets_init (memory : list (option nat)) : packets :=
  mkPackets (memp_init_pool (mkMemp None memory 0 0 0 0)) (chSemObjectInit (Z.of_nat XBOT_PACKET_POOL_SIZE)) [] [] [].
Inductive event := Wait (t : nat) | Alloc (t : nat) | Overwrite (p : nat) (w : option nat) | Free (t p : nat) | Signal (t : nat).
(* @ portable/xbot/packet.cpp:19-19 allocatePacket (wait) *)
Definition allocate_wait (t : nat) (s : packets) : packets :=
  let '(goes_on, sema) := chSemWaitS t (sema s) in
  mkPackets (pool s) sema (if goes_on then t :: passed s else passed s) (freed s) (held s).
(** [used_data = 0] is the packet's first word. *)
(* @ portable/xbot/packet.cpp:20-32 allocatePacket (pool) *)
Definition allocate_take (t : nat) (s : packets) : option packets :=
  '(buffer, pool) ← do_memp_malloc_pool (pool s);
  buffer ← buffer;
  Some (mkPackets (overwrite buffer None pool) (sema s) (list_difference (passed s) [t]) (freed s) (buffer :: held s)).
(* @ portable/xbot/packet.cpp:36-36 freePacket (pool) *)
Definition free_put (t p : nat) (s : packets) : option packets :=
  pool ← do_memp_free_pool p (pool s); Some (mkPackets pool (sema s) (passed s) (t :: freed s) (list_difference (held s) [p])).
(* @ portable/xbot/packet.cpp:37-37 freePacket (signal) *)
Definition free_signal (t : nat) (s : packets) : option packets :=
  '(woken, sema) ← chSemSignal (sema s);
  Some (mkPackets (pool s) sema (match woken with Some tp => tp :: passed s | None => passed s end) (list_difference (freed s) [t]) (held s)).
Definition do_event (e : event) (s : packets) : option packets :=
  match e with
  | Wait t => Some (allocate_wait t s)
  | Alloc t => allocate_take t s
  | Overwrite p w => Some (mkPackets (overwrite p w (pool s)) (sema s) (passed s) (freed s) (held s))
  | Free t p => free_put t p s
  | Signal t => free_signal t s
  end.
(** What the threads may do: one thing at a time, and only with packets that were handed out. *)
Definition idle (t : nat) (s : packets) : Prop := t ∉ queue (sema s) ++ passed s ++ freed s.
Definition enabled (e : event) (s : packets) : Prop :=
  match e with
  | Wait t => idle t s | Alloc t => t ∈ passed s | Overwrite p _ => p ∈ held s | Free t p => idle t s /\ p ∈ held s | Signal t => t ∈ freed s
  end.
#[export] Instance enabled_dec e s : Decision (enabled e s).
Proof. destruct e; cbn; unfold idle; apply _. Defined.
Inductive reachable (memory : list (option nat)) : packets -> Prop :=
| reach_init : reachable memory (packets_init memory)
| reach_step s e s' : reachable memory s -> enabled e s -> do_event e s = Some s' -> reachable memory s'.

(** ** The invariant *)
(** Every element is either in the list or handed out; there are as many free elements as the semaphore lets threads
    pass and has let pass, and those whose return it has not been told of. *)
Record packets_ok (free : list nat) (s : packets) : Prop := {
  ok_chain : chain (words (pool s)) (tab (pool s)) free; ok_all : free ++ held s ≡ₚ seq 0 XBOT_PACKET_POOL_SIZE; ok_size : length (words (pool s)) = XBOT_PACKET_POOL_SIZE;
  ok_free : Z.of_nat (length free) = Z.max 0 (cnt (sema s)) + Z.of_nat (length (passed s)) + Z.of_nat (length (freed s));
  ok_queue : Z.of_nat (length (queue (sema s))) = Z.max 0 (- cnt (sema s)); ok_threads : NoDup (queue (sema s) ++ passed s ++ freed s);
  ok_used : used (pool s) = Z.of_nat (length (held s)); ok_max : used (pool s) <= max_used (pool s) <= Z.of_nat XBOT_PACKET_POOL_SIZE }.
Lemma all_distinct free s : packets_ok free s -> NoDup (free ++ held s).
Proof. intros H. rewrite (ok_all _ _ H). apply NoDup_seq. Qed.
Lemma all_bounded free s p : packets_ok free s -> p ∈ free ++ held s -> (p < XBOT_PACKET_POOL_SIZE)%nat.
Proof. intros H I. rewrite (ok_all _ _ H) in I. apply elem_of_seq in I. lia. Qed.
Lemma all_count free s : packets_ok free s -> (length free + length (held s) = XBOT_PACKET_POOL_SIZE)%nat.
Proof. intros H. rewrite <- length_app, (ok_all _ _ H). apply length_seq. Qed.
(** Taking one thing out of a list without repetitions. *)
Lemma difference_one (l : list nat) x : NoDup l -> x ∈ l -> l ≡ₚ x :: list_difference l [x].
Proof.
  intros N I. apply NoDup_Permutation; [exact N|constructor; [rewrite list_elem_of_difference; intros [_ F]; apply F; left|apply NoDup_list_difference, N]|].
  intros y. rewrite elem_of_cons, list_elem_of_difference, elem_of_cons, elem_of_nil. destruct (decide (y = x)) as [->|]; intuition.
Qed.
Lemma difference_length (l : list nat) x : NoDup l -> x ∈ l -> length l = S (length (list_difference l [x])).
Proof. intros N I. rewrite (difference_one l x N I) at 1. reflexivity. Qed.
Lemma init_packets_ok memory : length memory = XBOT_PACKET_POOL_SIZE -> exists free, packets_ok free (packets_init memory).
Proof.
  intros L. destruct (memp_init_chain (mkMemp None memory 0 0 0 0)) as (free & C & P & Ln & U & M). change (words (mkMemp _ memory _ _ _ _)) with memory in P, Ln. rewrite L in P, Ln. exists free.
  assert (Lf : length free = XBOT_PACKET_POOL_SIZE) by (rewrite P; apply length_seq).
  split; [exact C|change (held _) with (@nil nat); rewrite app_nil_r; exact P|exact Ln|rewrite Lf; reflexivity|reflexivity|constructor|exact U|].
  change (pool _) with (memp_init_pool (mkMemp None memory 0 0 0 0)). rewrite U, M. split; lia || reflexivity || discriminate.
Qed.
Lemma wait_ok free t s : packets_ok free s -> idle t s -> packets_ok free (allocate_wait t s).
Proof.
  intros [C A Z F Q T U M] I. unfold idle in I. unfold allocate_wait, chSemWaitS. destruct (Z.ltb_spec (cnt (sema s) - 1) 0) as [L|L]; split; cbn; try assumption; rewrite ?length_app; cbn; try lia.
  - rewrite <- app_assoc. cbn. rewrite <- Permutation_middle. constructor; assumption.
  - rewrite <- Permutation_middle. constructor; assumption.
Qed.
Lemma pool_take_ok free t s : packets_ok free s -> t ∈ passed s -> exists p free' s', allocate_take t s = Some s' /\ free = p :: free' /\ held s' = p :: held s /\ packets_ok free' s'.
Proof.
  intros H I. pose proof (all_distinct _ _ H) as N. pose proof (all_count _ _ H) as Ct. destruct H as [C A Z F Q T U M].
  assert (Np : NoDup (passed s)) by (apply NoDup_app in T as (_ & _ & T); apply NoDup_app in T as (T & _ & _); exact T).
  pose proof (difference_length _ _ Np I) as Lp. destruct free as [|p free]; [cbn in F; lia|]. destruct C as (E & next & Ln & C).
  cbn [app] in N. apply NoDup_cons in N as [Np' N]. cbn in Ct, F. exists p, free. unfold allocate_take, do_memp_malloc_pool. rewrite E, Ln. cbn [mbind option_bind].
  set (d := if _ <? _ then _ else _). assert (W : words d = words (pool s)) by (unfold d; destruct (_ <? _); reflexivity). assert (Tb : tab d = next) by (unfold d; destruct (_ <? _); reflexivity).
  assert (Ud : used d = 1 + used (pool s)) by (unfold d; destruct (_ <? _); reflexivity).
  assert (Md : used d <= max_used d <= Z.of_nat XBOT_PACKET_POOL_SIZE).
  { rewrite Ud. unfold d. cbn [used max_used]. match goal with |- context [if ?a <? ?b then _ else _] => destruct (Z.ltb_spec a b) as [L|L] end; cbn in *; lia. }
  eexists. split; [reflexivity|]. split; [reflexivity|]. split; [reflexivity|]. split; cbn; rewrite ?W, ?Tb, ?length_insert; try assumption.
  - apply chain_insert; [|exact C]. intros Hp. apply Np'. apply elem_of_app. left. exact Hp.
  - rewrite <- Permutation_middle. exact A.
  - lia.
  - rewrite (difference_one _ _ Np I) in T. cbn in T. rewrite <- Permutation_middle in T. apply NoDup_cons in T as [_ T]. exact T.
  - rewrite Ud. lia.
Qed.
Lemma put_ok free t p s : packets_ok free s -> idle t s -> p ∈ held s -> exists s', free_put t p s = Some s' /\ packets_ok (p :: free) s'.
Proof.
  intros H Id I. pose proof (all_distinct _ _ H) as N. assert (Lp : (p < XBOT_PACKET_POOL_SIZE)%nat) by (apply (all_bounded _ _ p H), elem_of_app; right; exact I). destruct H as [C A Z F Q T U M].
  apply NoDup_app in N as (_ & Dj & Nh). pose proof (difference_length _ _ Nh I) as Lh. assert (Nf : p ∉ free) by (intros Hp; apply (Dj p Hp I)).
  unfold free_put, do_memp_free_pool. rewrite Z, (proj2 (Nat.ltb_lt _ _) Lp). cbn [mbind option_bind]. eexists. split; [reflexivity|]. split.
  - apply (pool_chain_link free ((pool s) <| used ::= fun n => n - 1 |>) p); [cbn; rewrite Z; exact Lp|exact Nf|exact C].
  - cbn. rewrite (difference_one _ _ Nh I) in A. rewrite <- A. rewrite <- Permutation_middle. reflexivity.
  - cbn. rewrite length_insert. exact Z.
  - cbn in *. lia.
  - exact Q.
  - cbn. unfold idle in Id. rewrite (app_assoc (queue (sema s))), <- Permutation_middle, <- app_assoc. constructor; assumption.
  - cbn. lia.
  - cbn in *. lia.
Qed.
Lemma signal_ok free t s : packets_ok free s -> t ∈ freed s -> exists s', free_signal t s = Some s' /\ packets_ok free s'.
Proof.
  intros [C A Z F Q T U M] I. assert (Nf : NoDup (freed s)) by (apply NoDup_app in T as (_ & _ & T); apply NoDup_app in T as (_ & _ & T); exact T).
  pose proof (difference_length _ _ Nf I) as Lf. rewrite (difference_one _ _ Nf I), (app_assoc (queue (sema s))), <- Permutation_middle, <- app_assoc in T. apply NoDup_cons in T as [_ T].
  unfold free_signal, chSemSignal. destruct (Z.leb_spec (cnt (sema s) + 1) 0) as [L|L].
  - destruct (queue (sema s)) as [|tp q] eqn:Eq; [cbn in Q; lia|]. cbn [mbind option_bind]. eexists. split; [reflexivity|]. split; cbn in *; try assumption; [lia|lia|]. rewrite <- Permutation_middle. exact T.
  - cbn [mbind option_bind]. eexists. split; [reflexivity|]. split; cbn; try assumption; lia.
Qed.
Lemma overwrite_ok free p w s : packets_ok free s -> p ∈ held s -> packets_ok free (mkPackets (overwrite p w (pool s)) (sema s) (passed s) (freed s) (held s)).
Proof.
  intros H I. pose proof (all_distinct _ _ H) as N. destruct H as [C A Z F Q T U M]. apply NoDup_app in N as (_ & Dj & _).
  split; cbn; rewrite ?length_insert; try assumption. apply chain_insert; [|exact C]. intros Hp. exact (Dj p Hp I).
Qed.
Lemma event_ok free e s : packets_ok free s -> enabled e s -> exists free' s', do_event e s = Some s' /\ packets_ok free' s'.
Proof.
  intros H En. destruct e as [t|t|p w|t p|t]; cbn in En |- *.
  - exists free. eexists. split; [reflexivity|apply wait_ok; assumption].
  - destruct (pool_take_ok free t s H En) as (p & free' & s' & E & _ & _ & H'). eauto.
  - exists free. eexists. split; [reflexivity|apply overwrite_ok; assumption].
  - destruct En as [Id I]. destruct (put_ok free t p s H Id I) as (s' & E & H'). eauto.
  - destruct (signal_ok free t s H En) as (s' & E & H'). eauto.
Qed.
Lemma reachable_ok memory s : length memory = XBOT_PACKET_POOL_SIZE -> reachable memory s -> exists free, packets_ok free s.
Proof.
  intros L R. induction R as [|s e s' R [free H] En E]; [apply init_packets_ok, L|]. destruct (event_ok free e s H En) as (free' & s1 & E1 & H'). rewrite E in E1. injection E1 as <-. eauto.
Qed.

(** C38. The pool of packets never runs out behind its semaphore. A packet is freed only while it is held, so never
    twice; otherwise, whatever the threads do and write into their packets, in any interleaving: every step works, so a thread that has passed the semaphore always gets a packet, one that
    nobody else has, and the list of free packets is never left; a thread is kept waiting only while all 25 packets are
    handed out, about to be handed out, or back but not signalled yet; and the statistics count what is in use. *)
Theorem pool_never_runs_out memory s : length memory = XBOT_PACKET_POOL_SIZE -> reachable memory s ->
  (forall e, enabled e s -> exists s', do_event e s = Some s') /\
  (forall t s', t ∈ passed s -> do_event (Alloc t) s = Some s' -> exists p, held s' = p :: held s /\ ~ (p ∈ held s) /\ (p < XBOT_PACKET_POOL_SIZE)%nat) /\
  (queue (sema s) <> [] -> (length (held s) + length (passed s) + length (freed s))%nat = XBOT_PACKET_POOL_SIZE) /\
  used (pool s) = Z.of_nat (length (held s)) /\ max_used (pool s) <= Z.of_nat XBOT_PACKET_POOL_SIZE.
Proof.
  intros L R. destruct (reachable_ok memory s L R) as [free H]. split; [|split; [|split]].
  - intros e En. destruct (event_ok free e s H En) as (_ & s' & E & _). eauto.
  - intros t s' I E. destruct (pool_take_ok free t s H I) as (p & free' & s1 & E1 & -> & Hh & _). cbn in E. rewrite E in E1. injection E1 as <-. exists p. split; [exact Hh|].
    split; [|apply (all_bounded _ _ p H); left]. pose proof (all_distinct _ _ H) as N. cbn in N. apply NoDup_cons in N as [N _]. intros Hp. apply N, elem_of_app. right. exact Hp.
  - intros Hq. pose proof (all_count _ _ H) as Ct. destruct H as [_ _ _ F Q _ _ _]. destruct (queue (sema s)); [congruence|]. cbn [length] in Q. lia.
  - destruct H as [_ _ _ _ _ _ U M]. lia.
Qed.

(** ** A packet's data *)
Section Packet.
Variable max_packet_size : nat.
Record Packet := mkPacket { used_data : Z; buffer : list Z }.
(** Nothing is written unless the data fit; [None] is a copy that leaves the buffer. [size_t] has 32 bits. *)
(* @ portable/xbot/packet.cpp packetAppendData *)
Definition packetAppendData (packet : option Packet) (data : list Z) : option (bool * option Packet) :=
  match packet with
  | None => Some (false, None)
  | Some p =>
    if Z.of_nat max_packet_size <? u32 (Z.of_nat (length data) + used_data p) then Some (false, Some p)
    else if (Z.to_nat (used_data p) + length data <=? length (buffer p))%nat then
      Some (true, Some (mkPacket (u32 (used_data p + Z.of_nat (length data))) (take (Z.to_nat (used_data p)) (buffer p) ++ data ++ drop (Z.to_nat (used_data p) + length data) (buffer p))))
    else None
  end.
(* @ portable/xbot/packet.cpp packetGetData *)
Definition packetGetData (packet : option Packet) : option (list Z * Z) := p ← packet; Some (buffer p, used_data p).
Definition packet_ok (p : Packet) : Prop := length (buffer p) = max_packet_size /\ 0 <= used_data p <= Z.of_nat max_packet_size.
Definition data_of (p : Packet) : list Z := take (Z.to_nat (used_data p)) (buffer p).
(** Data are appended when they fit, and otherwise nothing changes, if no size is within a packet of [size_t]'s end. *)
Lemma packetAppendData_spec p data : packet_ok p -> Z.of_nat (length data) + Z.of_nat max_packet_size < 4294967296 ->
  if decide (used_data p + Z.of_nat (length data) <= Z.of_nat max_packet_size)
  then exists p', packetAppendData (Some p) data = Some (true, Some p') /\ packet_ok p' /\ data_of p' = data_of p ++ data
  else packetAppendData (Some p) data = Some (false, Some p).
Proof.
  intros [L U] B. unfold packetAppendData. rewrite u32_small by (unfold is_u32; lia). case_decide as D.
  - rewrite (proj2 (Z.ltb_ge _ _)), (proj2 (Nat.leb_le _ _)) by lia. eexists. split; [reflexivity|]. rewrite u32_small by (unfold is_u32; lia). split.
    + split; cbn; [rewrite !length_app, length_take, length_drop; lia|lia].
    + unfold data_of. cbn. rewrite app_assoc. apply take_app_length'. rewrite length_app, length_take. lia.
  - rewrite (proj2 (Z.ltb_lt _ _)) by lia. reflexivity.
Qed.
End Packet.

(** ** Examples *)
Module PacketPoolDemo.
Fixpoint run (es : list event) (s : packets) : option packets :=
  match es with [] => Some s | e :: es => if decide (enabled e s) then s ← do_event e s; run es s else None end.
Lemma run_reachable memory es : forall s s', reachable memory s -> run es s = Some s' -> reachable memory s'.
Proof.
  induction es as [|e es IH]; intros s s' R E; cbn in E; [injection E as <-; exact R|]. destruct (decide (enabled e s)) as [En|]; [|discriminate].
  destruct (do_event e s) as [s1|] eqn:E1; [|discriminate]. apply (IH s1); [apply (reach_step memory s e s1 R En E1)|exact E].
Qed.
(** 25 threads take a packet and write over its first word; the next one waits; a packet comes back, and it is handed
    to the one that waits. *)
Definition busy : list event := flat_map (fun t => [Wait t; Alloc t; Overwrite (24 - t) (Some 7%nat)]) (seq 0 25) ++ [Wait 30; Free 3 20].
Lemma pool_witness : exists s, run busy (packets_init (replicate 25 None)) = Some s /\ queue (sema s) = [30%nat] /\
  (length (held s) + length (passed s) + length (freed s))%nat = XBOT_PACKET_POOL_SIZE /\ exists s', do_event (Signal 3) s = Some s'.
Proof.
  destruct (run busy (packets_init (replicate 25 None))) as [s|] eqn:E; [|vm_compute in E; discriminate]. exists s.
  destruct (pool_never_runs_out (replicate 25 None) s) as (W & _ & Q & _); [reflexivity|apply (run_reachable _ busy _ _ (reach_init _) E)|].
  assert (Es : queue (sema s) = [30%nat] /\ freed s = [3%nat]) by (vm_compute in E; injection E as <-; split; reflexivity). destruct Es as [Eq Ef].
  split; [reflexivity|]. split; [exact Eq|]. split; [apply Q; rewrite Eq; discriminate|]. apply (W (Signal 3)). cbn. rewrite Ef. left.
Defined.
Example the_waiting_one_gets_it : option_map held (run (busy ++ [Signal 3; Alloc 30]) (packets_init (replicate 25 None))) =
  option_map (fun s => 20%nat :: held s) (run busy (packets_init (replicate 25 None))).
Proof. vm_compute. reflexivity. Qed.
(** A packet that is given back twice is handed out twice. *)
Example double_free : (s ← run [Wait 0; Alloc 0] (packets_init (replicate 25 None));
  s ← free_put 0 24 s; s ← free_put 1 24 s; s ← allocate_take 2 s; s ← allocate_take 3 s; Some (held s)) = Some [24%nat; 24%nat].
Proof. vm_compute. reflexivity. Qed.
End PacketPoolDemo.
