(* ===== verification/XbotPort.v ===== *)
(** The port of xbot_framework to the board ([portable/xbot/]): the time and the node's id ([system.cpp]), the socket
    ([socket.cpp]) and the thread that hands the received packets to the services ([Io.cpp]).

    The services are objects in memory, linked by [next_service_]; a pointer is an index. [None] is a null pointer's
    dereference, an endless loop, or fuel running out; walks over the services have one more than there are objects.
    The packets' header is xbot_framework's: its size and its fields are parameters. *)
From stdpp Require Import strings.
From S2P Require Import Prelude.

(** ** The time *)
(* @ cfg/chconf.h:80-80 CH_CFG_ST_FREQUENCY *)
Definition CH_CFG_ST_FREQUENCY : Z := 10000.
(* @ os/rt/include/chtime.h:201-204 TIME_MS2I *)
Definition TIME_MS2I (msecs : Z) : Z := u32 (u64 (u64 (msecs * CH_CFG_ST_FREQUENCY) + 999) / 1000).
(* @ os/rt/include/chtime.h:219-222 TIME_US2I *)
Definition TIME_US2I (usecs : Z) : Z := u32 (u64 (u64 (usecs * CH_CFG_ST_FREQUENCY) + 999999) / 1000000).
(* @ os/rt/include/chtime.h:257-260 TIME_I2MS *)
Definition TIME_I2MS (interval : Z) : Z := u32 (u64 (u64 (interval * 1000) + CH_CFG_ST_FREQUENCY - 1) / CH_CFG_ST_FREQUENCY).
(* @ os/rt/include/chtime.h:273-276 TIME_I2US *)
Definition TIME_I2US (interval : Z) : Z := u32 (u64 (u64 (interval * 1000000) + CH_CFG_ST_FREQUENCY - 1) / CH_CFG_ST_FREQUENCY).
(** [system_time] is the 32-bit count of the system's ticks. *)
(* @ portable/xbot/system.cpp getTimeMicros *)
Definition getTimeMicros (system_time : Z) : Z := TIME_I2US system_time.
(** A tick is 100 us. *)
Lemma TIME_I2US_value (t : Z) : is_u32 t -> TIME_I2US t = u32 (100 * t).
Proof.
  unfold TIME_I2US, CH_CFG_ST_FREQUENCY, is_u32, u64. intros H. rewrite (Z.mod_small (t * 1000000)) by lia. rewrite (Z.mod_small (t * 1000000 + 10000 - 1)) by lia.
  f_equal. symmetry. apply (Z.div_unique_pos _ _ _ 9999); lia.
Qed.
(** Differences between two readings are right though the readings wrap, and though the ticks do. *)
Lemma micros_between (t d : Z) : 0 <= d -> 100 * d < 4294967296 -> u32 (getTimeMicros (u32 (t + d)) - getTimeMicros (u32 t)) = 100 * d.
Proof.
  intros H L. unfold getTimeMicros. rewrite !TIME_I2US_value by apply u32_range. unfold u32. rewrite <- Zminus_mod, Zminus_mod, !Z.mul_mod_idemp_r, <- Zminus_mod by lia. replace (100 * (t + d) - 100 * t) with (100 * d) by lia. apply Z.mod_small. lia.
Qed.
(** A wait is at least as long as asked for, and less than a tick longer. *)
Lemma TIME_US2I_rounds_up (us : Z) : is_u32 us -> us <= 100 * TIME_US2I us < us + 100.
Proof.
  unfold TIME_US2I, CH_CFG_ST_FREQUENCY, is_u32, u64. intros H. rewrite (Z.mod_small (us * 10000)) by lia. rewrite (Z.mod_small (us * 10000 + 999999)) by lia.
  pose proof (Z.div_mod (us * 10000 + 999999) 1000000 ltac:(lia)). pose proof (Z.mod_pos_bound (us * 10000 + 999999) 1000000 ltac:(lia)). rewrite u32_small by (unfold is_u32; lia). lia.
Qed.
Lemma TIME_MS2I_value (ms : Z) : 0 <= ms < 429496729 -> TIME_MS2I ms = 10 * ms.
Proof.
  unfold TIME_MS2I, CH_CFG_ST_FREQUENCY, u64. intros H. rewrite (Z.mod_small (ms * 10000)) by lia. rewrite (Z.mod_small (ms * 10000 + 999)) by lia.
  rewrite <- (Z.div_unique_pos (ms * 10000 + 999) 1000 (10 * ms) 999) by lia. apply u32_small. unfold is_u32. lia.
Qed.

(** ** The node's id *)
(** The bytes that are written for an id other than 0 leave the other ones as they are. *)
(* @ portable/xbot/system.cpp initSystem *)
Definition initSystem (node_id : Z) (node_id_ : list Z) : option (list Z) :=
  let node_id_ :=
    if negb (node_id =? 0) then <[1%nat := Z.land node_id 255]> (<[0%nat := u8 (Z.shiftr node_id 8)]> node_id_)
    else let w0 := 1 in let w1 := 2 in let w2 := 3 in
      flat_map (fun w => [Z.land w 255; Z.land (Z.shiftr w 8) 255; Z.land (Z.shiftr w 16) 255; Z.land (Z.shiftr w 24) 255]) [w0; w1; w2] ++ [0; 0; 0; 0] in
  if forallb (fun i => i =? 0) node_id_ then None else Some node_id_.
(* @ portable/xbot/system.cpp getNodeId *)
Definition getNodeId (id_len : Z) (node_id_ : list Z) : bool * list Z := if negb (id_len =? 16) then (false, []) else (true, node_id_).
Example default_node_id : initSystem 0 (replicate 16 0) = Some [1; 0; 0; 0; 2; 0; 0; 0; 3; 0; 0; 0; 0; 0; 0; 0].
Proof. reflexivity. Qed.
(** An id whose lower 16 bits are 0 stops the start-up for good. *)
Example node_id_hangs : initSystem 65536 (replicate 16 0) = None.
Proof. reflexivity. Qed.

(** ** The socket *)
(** What the socket's functions do: the calls of lwIP, and what becomes of the packet. *)
Inductive sock_event := CloseFd (fd : Z) | SendTo (port addr : Z) | FreePacket.
(* @ portable/xbot/socket.cpp initialize *)
Definition sock_initialize (socket_fd setsockopt : Z) : bool * Z * list sock_event :=
  if socket_fd <? 0 then (false, -1, [])
  else if setsockopt <? 0 then (false, -1, [CloseFd socket_fd])
  else (true, socket_fd, []).
(* @ ext/lwip/src/include/lwip/def.h:108-108 PP_HTONS *)
Definition htons (x : Z) : Z := Z.lor (Z.shiftl (Z.land x 255) 8) (Z.shiftr (Z.land x 65280) 8).
(* @ ext/lwip/src/include/lwip/def.h:110-113 PP_HTONL *)
Definition htonl (x : Z) : Z :=
  Z.lor (Z.lor (Z.lor (Z.shiftl (Z.land x 255) 24) (Z.shiftl (Z.land x 65280) 8)) (Z.shiftr (Z.land x 16711680) 8)) (Z.shiftr (Z.land x 4278190080) 24).
(** What [sendto] returns is not looked at. *)
(* @ portable/xbot/socket.cpp:76-88 transmitPacket *)
Definition transmitPacket (sendto : Z) (ip port : Z) : bool * list sock_event := (true, [SendTo (htons port) (htonl ip); FreePacket]).
(* @ portable/xbot/socket.cpp:90-92 transmitPacket (address) *)
Definition transmitPacketTo (inet_addr : string -> Z) (sendto : Z) (ip : string) (port : Z) : bool * list sock_event := transmitPacket sendto (htonl (inet_addr ip)) port.
(** [addrStr]: the default interface's address as text, if there is an interface. *)
(* @ portable/xbot/socket.cpp getEndpoint *)
Definition getEndpoint (getsockname sin_port : Z) (addrStr : option string) (ip_len : Z) : option (bool * option (string * Z)) :=
  if getsockname <? 0 then Some (false, None)
  else addr ← addrStr; if ip_len <=? Z.of_nat (String.length addr) then Some (false, None) else Some (true, Some (addr, htons sin_port)).
(* @ portable/xbot/socket.cpp closeSocket *)
Definition closeSocket (socket : option Z) (close : Z) : bool := match socket with None => true | Some _ => negb (close <? 0) end.
(** Bits of the swapped bytes. *)
Lemma htonl_bit x n : 0 <= n < 32 -> Z.testbit (htonl x) n = Z.testbit x (n mod 8 + 8 * (3 - n / 8)).
Proof.
  intros H. unfold htonl. rewrite !Z.lor_spec, !Z.shiftl_spec, !Z.shiftr_spec, !Z.land_spec by lia.
  assert (E : exists k, (k < 32)%nat /\ n = Z.of_nat k) by (exists (Z.to_nat n); lia). destruct E as (k & Hk & ->). clear H.
  do 32 (destruct k as [|k]; [cbn; rewrite ?andb_false_r, ?andb_true_r, ?orb_false_r; reflexivity|]). lia.
Qed.
Lemma htonl_range x : is_u32 (htonl x).
Proof.
  assert (B : forall k c, 0 <= k -> 0 <= c < 2 ^ k -> 0 <= Z.land x c < 2 ^ k) by (intros k c Hk Hc; rewrite Z.land_comm; apply word_land_l; assumption).
  pose proof (B 8 255 ltac:(lia) ltac:(lia)). pose proof (B 16 65280 ltac:(lia) ltac:(lia)). pose proof (B 24 16711680 ltac:(lia) ltac:(lia)). pose proof (B 32 4278190080 ltac:(lia) ltac:(lia)).
  unfold htonl. rewrite !Z.shiftl_mul_pow2, !Z.shiftr_div_pow2 by lia. repeat apply u32_lor; unfold is_u32; Z.to_euclidean_division_equations; lia.
Qed.
(** Swapping the bytes twice gives them back; so a packet to an address in text goes to what [inet_addr] reads from it. *)
Lemma htonl_involutive x : is_u32 x -> htonl (htonl x) = x.
Proof.
  intros H. assert (W : forall y k, is_u32 y -> 32 <= k -> Z.testbit y k = false).
  { intros y k Hy Hk. rewrite <- (Z.mod_small y (2 ^ 32)) by exact Hy. apply Z.mod_pow2_bits_high. lia. }
  apply Z.bits_inj'. intros n Hn. destruct (Z.ltb_spec n 32) as [L|L]; [|rewrite (W x), (W (htonl (htonl x))) by (assumption || apply htonl_range); reflexivity].
  rewrite !htonl_bit by (Z.to_euclidean_division_equations; lia). f_equal. Z.to_euclidean_division_equations; lia.
Qed.
Lemma transmitPacketTo_address inet_addr sendto ip port : is_u32 (inet_addr ip) -> transmitPacketTo inet_addr sendto ip port = (true, [SendTo (htons port) (inet_addr ip); FreePacket]).
Proof. intros H. unfold transmitPacketTo, transmitPacket. rewrite htonl_involutive by exact H. reflexivity. Qed.
(** A result of [getEndpoint] fits with its terminating zero. *)
Lemma getEndpoint_fits r sin_port a ip_len addr port : getEndpoint r sin_port a ip_len = Some (true, Some (addr, port)) -> Z.of_nat (String.length addr) + 1 <= ip_len /\ a = Some addr.
Proof. unfold getEndpoint. destruct (r <? 0); [discriminate|]. destruct a as [a|]; [|discriminate]. cbn. destruct (Z.leb_spec ip_len (Z.of_nat (String.length a))); [discriminate|]. intros [= <- <-]. split; [lia|reflexivity]. Qed.

(** ** The services *)
(** The part of a service that the thread uses; the other parts are xbot_framework's. *)
Record ServiceIo := mkService { service_id : Z; stopped : bool; next_service : option nat }.
#[export] Instance eta_ServiceIo : Eta ServiceIo := fun s => mkService (service_id s) (stopped s) (next_service s).
(* @ portable/xbot/Io.cpp:18-18 firstService_ *)
Record io := mkIo { firstService : option nat; services : list ServiceIo }.
(** A link: [&firstService_] ([None]) or a service's [&next_service_]. *)
Definition read_link (l : option nat) (s : io) : option (option nat) := match l with None => Some (firstService s) | Some p => next_service <$> services s !! p end.
Definition write_link (l : option nat) (v : option nat) (s : io) : option io :=
  match l with
  | None => Some (mkIo v (services s))
  | Some p => sv ← services s !! p; Some (mkIo (firstService s) (<[p := sv <| next_service := v |>]> (services s)))
  end.
(* @ portable/xbot/Io.cpp:83-86 registerServiceIo (walk) *)
Fixpoint last_link (fuel : nat) (l : option nat) (s : io) : option (option nat) :=
  match fuel with
  | O => None
  | S fuel => v ← read_link l s; match v with None => Some l | Some p => last_link fuel (Some p) s end
  end.
Definition io_fuel (s : io) : nat := S (length (services s)).
(* @ portable/xbot/Io.cpp registerServiceIo *)
Definition registerServiceIo (service : nat) (s : io) : option io := l ← last_link (io_fuel s) None s; write_link l (Some service) s.

Section IoThread.
(** [sizeof(XbotHeader)] and the header's fields of xbot_framework. *)
Variable header_size : nat.
Variable payload_size : list Z -> Z.
Variable header_service_id : list Z -> Z.
(** What becomes of the packets. *)
Inductive io_event := Allocate | Release | Deliver (service : nat) (data : list Z).
(** The data that [recvfrom] puts into the packet, or its error. *)
(* @ portable/xbot/socket.cpp receivePacket *)
Definition receivePacket (recv : option (list Z)) : option (list Z) * list io_event :=
  match recv with None => (None, [Allocate; Release]) | Some data => (Some data, [Allocate]) end.
(** Whether the header is complete and tells the packet's size. *)
(* @ portable/xbot/Io.cpp:48-62 runIo (checks) *)
Definition valid_packet (data : list Z) : bool :=
  if (length data <? header_size)%nat then false
  else (Z.of_nat (length data) - Z.of_nat header_size =? payload_size data).
(* @ portable/xbot/Io.cpp:64-73 runIo (services) *)
Fixpoint find_service (fuel : nat) (id : Z) (service : option nat) (s : io) : option (option nat) :=
  match fuel with
  | O => None
  | S fuel =>
    match service with
    | None => Some None
    | Some p => sv ← services s !! p; if (service_id sv =? id) && negb (stopped sv) then Some (Some p) else find_service fuel id (next_service sv) s
    end
  end.
(** One round of the endless loop. *)
(* @ portable/xbot/Io.cpp runIo *)
Definition runIo (recv : option (list Z)) (s : io) : option (list io_event) :=
  let '(packet, events) := receivePacket recv in
  match packet with
  | None => Some events
  | Some data =>
    if valid_packet data then
      found ← find_service (io_fuel s) (header_service_id data) (firstService s) s;
      Some (events ++ match found with Some p => [Deliver p data] | None => [Release] end)
    else Some (events ++ [Release])
  end.

(** ** What the thread does: the services in the order of their registration *)
(** Between the rounds services are registered, stopped and started again. *)
Inductive io_op := Register (p : nat) | SetStopped (p : nat) (b : bool) | Receive (recv : option (list Z)).
Definition set_stopped (p : nat) (b : bool) (l : list ServiceIo) : list ServiceIo := alter (fun sv => sv <| stopped := b |>) p l.
Definition io_step (op : io_op) (s : io) : option (list io_event * io) :=
  match op with
  | Register p => s ← registerServiceIo p s; Some ([], s)
  | SetStopped p b => Some ([], mkIo (firstService s) (set_stopped p b (services s)))
  | Receive recv => events ← runIo recv s; Some (events, s)
  end.
Fixpoint io_run (ops : list io_op) (s : io) : option (list io_event * io) :=
  match ops with [] => Some ([], s) | op :: ops => '(e, s) ← io_step op s; '(es, s) ← io_run ops s; Some (e ++ es, s) end.
(** The specification: the registered services, and each one's id and whether it is stopped. *)
Record spec := mkSpec { registered : list nat; info : list (Z * bool) }.
Definition accepts (id : Z) (sp : spec) (p : nat) : bool := match info sp !! p with Some (i, stopped) => (i =? id) && negb stopped | None => false end.
Definition spec_step (op : io_op) (sp : spec) : list io_event * spec :=
  match op with
  | Register p => ([], mkSpec (registered sp ++ [p]) (info sp))
  | SetStopped p b => ([], mkSpec (registered sp) (alter (fun i => (i.1, b)) p (info sp)))
  | Receive None => ([Allocate; Release], sp)
  | Receive (Some data) =>
    ([Allocate; if valid_packet data then match List.find (accepts (header_service_id data) sp) (registered sp) with Some p => Deliver p data | None => Release end else Release], sp)
  end.
Fixpoint spec_run (ops : list io_op) (sp : spec) : list io_event * spec :=
  match ops with [] => ([], sp) | op :: ops => let '(e, sp) := spec_step op sp in let '(es, sp) := spec_run ops sp in (e ++ es, sp) end.
Definition info_of (s : io) : list (Z * bool) := map (fun sv => (service_id sv, stopped sv)) (services s).
(** The list in memory. *)
Fixpoint linked (v : option nat) (l : list ServiceIo) (ps : list nat) : Prop :=
  match ps with [] => v = None | p :: ps => v = Some p /\ exists sv, l !! p = Some sv /\ linked (next_service sv) l ps end.
Record io_rel (s : io) (sp : spec) : Prop := {
  rel_linked : linked (firstService s) (services s) (registered sp); rel_distinct : NoDup (registered sp); rel_info : info sp = info_of s;
  rel_fresh : forall p sv, services s !! p = Some sv -> p ∉ registered sp -> next_service sv = None }.
Lemma linked_bound ps : forall v l, linked v l ps -> Forall (fun p => (p < length l)%nat) ps.
Proof. induction ps as [|p ps IH]; intros v l H; [constructor|]. destruct H as (_ & sv & L & H). constructor; [apply (lookup_lt_Some _ _ _ L)|apply (IH _ _ H)]. Qed.
(** Distinct services are no more than there are objects: the fuel is enough. *)
Lemma linked_length v l ps : linked v l ps -> NoDup ps -> (length ps <= length l)%nat.
Proof.
  intros H N. apply linked_bound in H. rewrite <- (length_seq (length l) 0). apply submseteq_length, NoDup_submseteq; [exact N|].
  intros p Hp. rewrite Forall_forall in H. apply elem_of_seq. specialize (H p Hp). lia.
Qed.
Lemma find_service_spec sp s id fuel : forall v ps, linked v (services s) ps -> info sp = info_of s -> (length ps < fuel)%nat ->
  find_service fuel id v s = Some (List.find (accepts id sp) ps).
Proof.
  induction fuel as [|fuel IH]; intros v ps H I F; [lia|]. destruct ps as [|p ps]; cbn in H; [subst; reflexivity|]. destruct H as (-> & sv & L & H). cbn. rewrite L. cbn.
  unfold accepts at 1. rewrite I. unfold info_of. rewrite list_lookup_fmap, L. cbn. destruct (_ && _); [reflexivity|]. apply IH; [exact H|exact I|cbn in F; lia].
Qed.
(** The walk ends at the last link. *)
Definition end_link (l : option nat) (ps : list nat) : option nat := match last ps with Some p => Some p | None => l end.
Lemma end_link_cons l p ps : end_link l (p :: ps) = end_link (Some p) ps.
Proof. unfold end_link. destruct ps as [|q ps]; [reflexivity|]. change (last (p :: q :: ps)) with (last (q :: ps)). destruct (last (q :: ps)) eqn:E; [reflexivity|]. apply last_None in E. discriminate. Qed.
Lemma last_link_spec s fuel : forall l v ps, read_link l s = Some v -> linked v (services s) ps -> (length ps < fuel)%nat -> last_link fuel l s = Some (end_link l ps).
Proof.
  induction fuel as [|fuel IH]; intros l v ps R H F; [lia|]. cbn. rewrite R. cbn. destruct ps as [|p ps]; cbn in H; [subst; reflexivity|]. destruct H as (-> & sv & L & H).
  rewrite end_link_cons. apply (IH _ (next_service sv)); [cbn; rewrite L; reflexivity|exact H|cbn in F; lia].
Qed.
(** Changing a field of services that is not the link. *)
Lemma linked_alter ps f l q : (forall sv, next_service (f sv) = next_service sv) -> forall v, linked v l ps -> linked v (alter f q l) ps.
Proof.
  intros Hf. induction ps as [|p ps IH]; intros v H; [exact H|]. destruct H as (E & sv & L & H). split; [exact E|]. destruct (decide (p = q)) as [->|N].
  - exists (f sv). rewrite list_lookup_alter_eq, L. split; [reflexivity|]. rewrite Hf. apply IH, H.
  - exists sv. rewrite list_lookup_alter_ne by congruence. split; [exact L|apply IH, H].
Qed.
(** A service behind the last one. *)
Lemma linked_append ps : forall v l q svq p svp, linked v l ps -> last ps = Some q -> l !! q = Some svq -> NoDup (ps ++ [p]) -> l !! p = Some svp -> next_service svp = None ->
  linked v (<[q := svq <| next_service := Some p |>]> l) (ps ++ [p]).
Proof.
  induction ps as [|a ps IH]; intros v l q svq p svp H La Lq N Lp E; [discriminate|]. destruct H as (-> & sv & L & H). cbn [app] in *. apply NoDup_cons in N as [Na N].
  cbn [linked]. split; [reflexivity|]. destruct ps as [|b ps].
  - cbn in La. injection La as <-. eexists. split; [apply list_lookup_insert_eq, (lookup_lt_Some _ _ _ L)|]. cbn. split; [reflexivity|]. exists svp. split; [|exact E].
    rewrite list_lookup_insert_ne; [exact Lp|]. intros ->. apply Na. left.
  - change (last (a :: b :: ps)) with (last (b :: ps)) in La. assert (Hq : q ∈ b :: ps) by (apply last_Some_elem_of, La). exists sv. split.
    + rewrite list_lookup_insert_ne; [exact L|]. intros ->. apply Na, elem_of_app. left. exact Hq.
    + apply (IH _ _ _ _ _ svp); assumption.
Qed.
Lemma register_rel s sp p : io_rel s sp -> (p < length (services s))%nat -> p ∉ registered sp -> exists s', registerServiceIo p s = Some s' /\ io_rel s' (mkSpec (registered sp ++ [p]) (info sp)) /\ length (services s') = length (services s).
Proof.
  intros [H N I F] Lp Np. unfold registerServiceIo. rewrite (last_link_spec s _ None (firstService s) (registered sp) eq_refl H) by (pose proof (linked_length _ _ _ H N); unfold io_fuel; lia).
  destruct (lookup_lt_is_Some_2 _ _ Lp) as [svp Ep]. pose proof (F p svp Ep Np) as En. cbn [mbind option_bind]. unfold end_link.
  assert (N' : NoDup (registered sp ++ [p])) by (rewrite Permutation_app_comm; constructor; assumption).
  destruct (last (registered sp)) as [q|] eqn:La.
  - assert (Hq : q ∈ registered sp) by (apply last_Some_elem_of, La). pose proof (linked_bound _ _ _ H) as B. rewrite Forall_forall in B. destruct (lookup_lt_is_Some_2 _ _ (B q Hq)) as [svq Eq].
    cbn. rewrite Eq. cbn. eexists. split; [reflexivity|]. split; [|cbn; apply length_insert]. split; cbn.
    + apply (linked_append _ _ _ _ _ _ svp); assumption.
    + exact N'.
    + rewrite I. unfold info_of. cbn. rewrite list_fmap_insert. symmetry. apply list_insert_id. rewrite list_lookup_fmap, Eq. reflexivity.
    + intros p0 sv E0 N0. rewrite not_elem_of_app in N0. destruct N0 as [N0 _]. rewrite list_lookup_insert_ne in E0 by congruence. apply (F p0); assumption.
  - apply last_None in La. cbn. eexists. split; [reflexivity|]. split; [|reflexivity]. split; cbn; [rewrite La; cbn; eauto|exact N'|exact I|].
    intros p0 sv E0 N0. apply (F p0 sv E0). rewrite La. apply not_elem_of_nil.
Qed.
Lemma set_stopped_rel s sp p b : io_rel s sp -> io_rel (mkIo (firstService s) (set_stopped p b (services s))) (mkSpec (registered sp) (alter (fun i => (i.1, b)) p (info sp))).
Proof.
  intros [H N I F]. split; cbn.
  - apply linked_alter; [reflexivity|exact H].
  - exact N.
  - rewrite I. unfold info_of, set_stopped. symmetry. apply list_fmap_alter. apply Forall_true. reflexivity.
  - intros p0 sv E0 N0. unfold set_stopped in E0. destruct (decide (p0 = p)) as [->|Np]; [|rewrite list_lookup_alter_ne in E0 by congruence; apply (F p0); assumption].
    rewrite list_lookup_alter_eq in E0. destruct (services s !! p) as [sv0|] eqn:E; [|discriminate]. injection E0 as <-. exact (F p sv0 E N0).
Qed.
Lemma receive_spec s sp recv : io_rel s sp -> runIo recv s = Some (spec_step (Receive recv) sp).1.
Proof.
  intros [H N I F]. unfold runIo. destruct recv as [data|]; [|reflexivity]. cbn [receivePacket spec_step fst]. destruct (valid_packet data); [|reflexivity].
  rewrite (find_service_spec sp s _ _ _ _ H I) by (pose proof (linked_length _ _ _ H N); unfold io_fuel; lia). cbn. destruct (List.find _ _); reflexivity.
Qed.
Definition registers (ops : list io_op) : list nat := omap (fun op => match op with Register p => Some p | _ => None end) ops.
Definition receives (ops : list io_op) : nat := length (List.filter (fun op => match op with Receive _ => true | _ => false end) ops).
(** How many packets are taken from the pool, and how many are given back or handed over. *)
Definition taken (es : list io_event) : nat := length (List.filter (fun e => match e with Allocate => true | _ => false end) es).
Definition given (es : list io_event) : nat := length (List.filter (fun e => match e with Allocate => false | _ => true end) es).
Lemma taken_app a b : taken (a ++ b) = (taken a + taken b)%nat /\ given (a ++ b) = (given a + given b)%nat.
Proof. unfold taken, given. rewrite !List.filter_app, !length_app. auto. Qed.
Lemma run_rel ops : forall s sp, io_rel s sp -> NoDup (registered sp ++ registers ops) -> Forall (fun p => (p < length (services s))%nat) (registers ops) ->
  exists es s', io_run ops s = Some (es, s') /\ io_rel s' (spec_run ops sp).2 /\ (spec_run ops sp).1 = es /\ taken es = receives ops /\ given es = receives ops.
Proof.
  induction ops as [|op ops IH]; intros s sp R N B; [exists [], s; auto|]. destruct op as [p|p b|recv].
  - change (registers (Register p :: ops)) with (p :: registers ops) in N, B. inversion B as [|? ? Bp B']; subst.
    assert (Np : p ∉ registered sp) by (apply NoDup_app in N as (_ & N & _); intros Hp; apply (N p Hp); left).
    destruct (register_rel s sp p R Bp Np) as (s1 & E1 & R1 & L1). destruct (IH s1 _ R1) as (es & s2 & E2 & R2 & Es & T & G); [cbn; rewrite <- app_assoc; exact N|rewrite L1; exact B'|].
    exists es, s2. cbn [io_run io_step spec_run spec_step]. rewrite E1. cbn [mbind option_bind]. rewrite E2. cbn [mbind option_bind app]. destruct (spec_run ops _) as [es' sp']. cbn in *. subst. auto.
  - destruct (IH _ _ (set_stopped_rel s sp p b R)) as (es & s2 & E2 & R2 & Es & T & G); [exact N|cbn; unfold set_stopped; rewrite length_alter; exact B|].
    exists es, s2. cbn [io_run io_step spec_run spec_step mbind option_bind]. rewrite E2. cbn [mbind option_bind app]. destruct (spec_run ops _) as [es' sp']. cbn in *. subst. auto.
  - destruct (IH s sp R N B) as (es & s2 & E2 & R2 & Es & T & G). pose proof (receive_spec s sp recv R) as Er.
    assert (Sp : (spec_step (Receive recv) sp).2 = sp) by (destruct recv; reflexivity). assert (Tk : taken (spec_step (Receive recv) sp).1 = 1%nat /\ given (spec_step (Receive recv) sp).1 = 1%nat).
    { destruct recv as [data|]; [|split; reflexivity]. cbn. destruct (valid_packet data); [destruct (List.find _ _)|]; split; reflexivity. }
    exists ((spec_step (Receive recv) sp).1 ++ es), s2. cbn [io_run io_step spec_run]. rewrite Er. cbn [mbind option_bind]. rewrite E2. cbn [mbind option_bind].
    destruct (spec_step (Receive recv) sp) as [e1 sp1]. cbn [fst snd] in Sp, Tk |- *. subst sp1. destruct (spec_run ops sp) as [es' sp']. cbn [fst snd] in *. subst es'.
    destruct (taken_app e1 es) as [-> ->]. destruct Tk as [-> ->]. rewrite T, G. auto.
Qed.

(** C37. A received packet reaches its service. The services are registered at most once each (a second time closes the
    list to a ring: [ring_never_ends]). Otherwise, however they are registered, stopped and started between the
    packets: a packet whose header is complete and agrees with its size is handed to the first registered service that
    has its id and is not stopped, and to no other; every other packet, and the one that was taken for a failed
    reception, goes back to the pool; so each packet that is taken is given away exactly once. The walks over the
    services, registered once each, end. *)
Theorem packets_are_routed mem ops : Forall (fun sv => next_service sv = None) mem -> NoDup (registers ops) -> Forall (fun p => (p < length mem)%nat) (registers ops) ->
  exists s, io_run ops (mkIo None mem) = Some ((spec_run ops (mkSpec [] (info_of (mkIo None mem)))).1, s) /\
  taken (spec_run ops (mkSpec [] (info_of (mkIo None mem)))).1 = receives ops /\ given (spec_run ops (mkSpec [] (info_of (mkIo None mem)))).1 = receives ops.
Proof.
  intros F N B. destruct (run_rel ops (mkIo None mem) (mkSpec [] (info_of (mkIo None mem)))) as (es & s & E & _ & Es & T & G); [|exact N|exact B|].
  - split; cbn; [reflexivity|constructor|reflexivity|]. intros p sv L _. rewrite Forall_lookup in F. apply (F p), L.
  - rewrite Es. eauto.
Qed.
End IoThread.

(** ** Examples *)
Module XbotPortDemo.
(** A header of two bytes, the service's id and the length of what follows. *)
Definition payload_size (d : list Z) : Z := nth 1 d 0.
Definition header_id (d : list Z) : Z := nth 0 d 0.
Definition mem : list ServiceIo := [mkService 5 false None; mkService 6 false None; mkService 5 false None].
Definition traffic : list io_op :=
  [Receive (Some [5; 1; 9]); Register 2; Register 1; Register 0; Receive (Some [5; 1; 9]); SetStopped 2 true; Receive (Some [5; 1; 9]); Receive (Some [6; 0]); Receive (Some [6; 2; 1]); Receive (Some [6]); Receive None].
Lemma routed_witness : (exists s, io_run 2 payload_size header_id traffic (mkIo None mem) =
    Some ([Allocate; Release; Allocate; Deliver 2 [5; 1; 9]; Allocate; Deliver 0 [5; 1; 9]; Allocate; Deliver 1 [6; 0]; Allocate; Release; Allocate; Release; Allocate; Release], s)) /\
  receives traffic = 7%nat.
Proof.
  destruct (packets_are_routed 2 payload_size header_id mem traffic) as (s & E & _); [repeat constructor| |repeat constructor; lia|].
  - apply (bool_decide_unpack _). vm_compute. exact I.
  - split; [exists s; exact E|reflexivity].
Defined.
(** A service that is registered twice closes the list to a ring: the next registration never ends. *)
Example registered_twice : (s ← registerServiceIo 0 (mkIo None mem); registerServiceIo 0 s) = Some (mkIo (Some 0%nat) [mkService 5 false (Some 0%nat); mkService 6 false None; mkService 5 false None]).
Proof. reflexivity. Qed.
Example ring_never_ends fuel : last_link fuel (Some 0%nat) (mkIo (Some 0%nat) [mkService 5 false (Some 0%nat); mkService 6 false None; mkService 5 false None]) = None.
Proof. induction fuel as [|fuel IH]; [reflexivity|exact IH]. Qed.
(** A packet that could not be sent counts as sent. *)
Example send_error_is_lost : fst (transmitPacket (-1) 3232235777 4242) = true.
Proof. reflexivity. Qed.
End XbotPortDemo.
