(* ===== verification/Motor.v ===== *)
(** Motors and the services that drive them.

    [ESCState] and the driver interface of [drivers/motor/motor_driver.hpp], and
    the effects of a critical section of a motor service: it reads the time,
    asks the emergency service for its reasons, and emits motor commands and
    messages, one at a time. Between two effects other threads may run. *)
From S2P Require Import Prelude Float32.

(** [ESCStatus] is an [enum class] of [uint8_t]: a status is its number, since a
    zero-initialised state holds 0, which has no name. *)
(* @t motor_driver.hpp ESCStatus *)
Definition ESC_STATUS_DISCONNECTED : Z := 99.
(* @t motor_driver.hpp ESCStatus *)
Definition ESC_STATUS_ERROR : Z := 100.
(* @t motor_driver.hpp ESCStatus *)
Definition ESC_STATUS_STALLED : Z := 150.
(* @t motor_driver.hpp ESCStatus *)
Definition ESC_STATUS_OK : Z := 200.
(* @t motor_driver.hpp ESCStatus *)
Definition ESC_STATUS_RUNNING : Z := 201.

(* @t motor_driver.hpp ESCState *)
Record ESCState := mkESCState {
  fw_major : Z; fw_minor : Z;
  voltage_input : f32; temperature_pcb : f32; temperature_motor : f32;
  current_input : f32; duty_cycle : f32;
  tacho : Z; tacho_absolute : Z; direction : f32; rpm : f32; status : Z }.
#[export] Instance eta_ESCState : Eta ESCState := fun s =>
  mkESCState (fw_major s) (fw_minor s) (voltage_input s) (temperature_pcb s)
    (temperature_motor s) (current_input s) (duty_cycle s) (tacho s)
    (tacho_absolute s) (direction s) (rpm s) (status s).

(** [ESCState{}]. *)
(* @t motor_driver.hpp ESCState *)
Definition zero_esc : ESCState :=
  mkESCState 0 0 f0 f0 f0 f0 f0 0 0 f0 f0 0.

(** The effects of a critical section. *)
Inductive crit (O A : Type) : Type :=
  | Ret (a : A)
  | Time (k : Z -> crit O A)
  | Reasons (k : Z -> crit O A)
  | Emit (o : O) (k : crit O A).
Arguments Ret {O A} a.
Arguments Time {O A} k.
Arguments Reasons {O A} k.
Arguments Emit {O A} o k.

Fixpoint crit_bind {O A B} (f : A -> crit O B) (c : crit O A) : crit O B :=
  match c with
  | Ret a => f a
  | Time k => Time (fun t => crit_bind f (k t))
  | Reasons k => Reasons (fun r => crit_bind f (k r))
  | Emit o k => Emit o (crit_bind f k)
  end.
#[export] Instance crit_mbind O : MBind (crit O) := fun _ _ f c => crit_bind f c.
#[export] Instance crit_mret O : MRet (crit O) := fun _ a => Ret a.

Definition getTimeMicros {O} : crit O Z := Time Ret.
Definition get_reasons {O} : crit O Z := Reasons Ret.
Definition emits {O} (l : list O) : crit O () := fold_right Emit (Ret ()) l.

(** A critical section run alone: the time and the reasons are what they are. *)
Fixpoint run_crit {O A} (now reasons : Z) (c : crit O A) : A * list O :=
  match c with
  | Ret a => (a, [])
  | Time k => run_crit now reasons (k now)
  | Reasons k => run_crit now reasons (k reasons)
  | Emit o k => let '(a, l) := run_crit now reasons k in (a, o :: l)
  end.

Lemma run_bind {O A B} now r (f : A -> crit O B) c :
  run_crit now r (crit_bind f c) =
    let '(a, l) := run_crit now r c in
    let '(b, l') := run_crit now r (f a) in (b, l ++ l').
Proof.
  induction c as [a|k IH|k IH|o k IH]; cbn; auto.
  - destruct (run_crit now r (f a)); reflexivity.
  - rewrite IH. destruct (run_crit now r k) as [a l]. destruct (run_crit now r (f a)); reflexivity.
Qed.

(** What a thread does to a motor service: critical sections under its mutex, and
    questions to the emergency service outside it. *)
Inductive prog (S O : Type) : Type :=
  | Done
  | Ask (k : Z -> prog S O)
  | Locked (body : S -> crit O S) (next : prog S O).
Arguments Done {S O}.
Arguments Ask {S O} k.
Arguments Locked {S O} body next.

(** ** Motor commands

    [sends o = Some (m, z)]: the output [o] commands motor [m], with duty zero
    when [z]. *)
Class MotorOutput (O : Type) := sends : O -> option (nat * bool).

Section Guarded.
Context {O : Type} `{MO : MotorOutput O}.

(** [guarded k c]: [c] commands a motion only after it has seen no emergency
    reason; [k] says it has seen none yet in this section. *)
Fixpoint guarded {A} (known_clear : bool) (c : crit O A) : Prop :=
  match c with
  | Ret _ => True
  | Time k => forall t, guarded known_clear (k t)
  | Reasons k => forall r, guarded (r =? 0) (k r)
  | Emit o k => (match sends o with Some (_, false) => known_clear = true | _ => True end) /\
                guarded known_clear k
  end.

(** [clears todo c]: [c] commands no motion, and zero to every motor of [todo]. *)
Fixpoint clears {A} (todo : list nat) (c : crit O A) : Prop :=
  match c with
  | Ret _ => todo = []
  | Time k => forall t, clears todo (k t)
  | Reasons k => forall r, clears todo (k r)
  | Emit o k =>
    match sends o with
    | Some (m, true) => clears (filter (fun x => x <> m) todo) k
    | Some (_, false) => False
    | None => clears todo k
    end
  end.

Lemma guarded_mono {A} (c : crit O A) : guarded false c -> guarded true c.
Proof.
  induction c as [a|k IH|k IH|o k IH]; cbn; auto.
  intros [H1 H2]. split; [|auto]. destruct (sends o) as [[m []]|]; auto.
Qed.
Lemma guarded_bind {A B} (f : A -> crit O B) b c :
  guarded b c -> (forall a b, guarded b (f a)) -> guarded b (crit_bind f c).
Proof.
  intros H Hf. revert b H. induction c as [a|k IH|k IH|o k IH]; cbn; intros b Hc; auto.
  destruct Hc. split; auto.
Qed.
Lemma guarded_any {A} (c : crit O A) : guarded false c -> forall b, guarded b c.
Proof. intros Hc []; [apply guarded_mono|]; assumption. Qed.
End Guarded.
