(* ===== verification/DiffDrive.v ===== *)
(** The differential drive: [services/diff_drive_service/diff_drive_service.cpp].

    The handlers are the critical sections under [state_mutex_]. *)
From S2P Require Import Prelude Float32 Motor.

(* @c diff_drive_service.hpp ESC_LEFT *)
Definition ESC_LEFT : Z := Z.shiftl 1 0.
(* @c diff_drive_service.hpp ESC_RIGHT *)
Definition ESC_RIGHT : Z := Z.shiftl 1 1.

(* @ diff_drive_service.hpp:22-42 DiffDriveService *)
Record DiffDriveService := mkDiffDrive {
  left_esc_state_ : ESCState; right_esc_state_ : ESCState;
  left_esc_state_valid_ : bool; right_esc_state_valid_ : bool;
  dd_last_valid_esc_state_micros_ : Z; escs_connected_ : Z;
  dd_last_duty_received_micros_ : Z;
  last_ticks_left : Z; last_ticks_right : Z; last_ticks_valid : bool; last_ticks_micros_ : Z;
  speed_l_ : f32; speed_r_ : f32; dd_duty_sent_ : bool }.
#[export] Instance eta_DiffDrive : Eta DiffDriveService := fun s =>
  mkDiffDrive (left_esc_state_ s) (right_esc_state_ s) (left_esc_state_valid_ s)
    (right_esc_state_valid_ s) (dd_last_valid_esc_state_micros_ s) (escs_connected_ s)
    (dd_last_duty_received_micros_ s) (last_ticks_left s) (last_ticks_right s)
    (last_ticks_valid s) (last_ticks_micros_ s) (speed_l_ s) (speed_r_ s) (dd_duty_sent_ s).

(* @ diff_drive_service.hpp:22-42 DiffDriveService *)
Definition initial_diff_drive : DiffDriveService :=
  mkDiffDrive zero_esc zero_esc false false 0 0 0 0 0 false 0 f0 f0 false.

Inductive side := LeftESC | RightESC.
Inductive dd_out :=
  | DriveDuty (m : side) (duty : f32)
  | DriveRequestStatus (m : side)
  | SendESCStatus (m : side) (status : Z)
  | SendESC (m : side) (temperature current : f32) (status : Z)
  | SendActualTwist (twist : option (f32 * f32))
  | SendWheelTicks (left right : Z)
  | DDStartTransaction | DDCommitTransaction.

(** The registers [WheelDistance] and [WheelTicksPerMeter] (doubles). *)
Record dd_regs := { WheelDistance : f64; WheelTicksPerMeter : f64 }.

Section DiffDrive.
Context (regs : dd_regs).

(* @ diff_drive_service.cpp DiffDriveService::SetDuty *)
Definition dd_SetDuty (s : DiffDriveService) : crit dd_out DiffDriveService :=
  r ← get_reasons;
  _ ← (if negb (r =? 0)
       then emits [DriveDuty LeftESC f0; DriveDuty RightESC f0]
       else emits [DriveDuty LeftESC (speed_l_ s); DriveDuty RightESC (speed_r_ s)]);
  mret (s <| dd_duty_sent_ := true |>).

(* @ diff_drive_service.cpp DiffDriveService::OnEmergencyChangedEvent *)
Definition dd_OnEmergencyChangedEvent : prog DiffDriveService dd_out :=
  Ask (fun r => if r =? 0 then Done
    else Locked (fun s => dd_SetDuty (s <| speed_l_ := f0 |> <| speed_r_ := f0 |>)) Done).

(** [false] refuses to start. *)
(* @ diff_drive_service.cpp DiffDriveService::OnStart *)
Definition dd_OnStart (s : DiffDriveService) : DiffDriveService * bool :=
  if is_zero (WheelDistance regs) then (s, false)
  else if is_zero (WheelTicksPerMeter regs) then (s, false)
  else (s <| speed_r_ := f0 |> <| speed_l_ := f0 |> <| last_ticks_valid := false |>, true).

(* @ diff_drive_service.cpp DiffDriveService::OnStop *)
Definition dd_OnStop (s : DiffDriveService) : DiffDriveService :=
  s <| speed_r_ := f0 |> <| speed_l_ := f0 |> <| last_ticks_valid := false |> <| escs_connected_ := 0 |>.

(* @ diff_drive_service.hpp DiffDriveService::IsHealthy *)
Definition dd_IsHealthy (running : bool) (s : DiffDriveService) : bool :=
  (running && (escs_connected_ s =? Z.lor ESC_LEFT ESC_RIGHT))%bool.

(* @ diff_drive_service.cpp DiffDriveService::tick *)
Definition dd_tick (s : DiffDriveService) : crit dd_out DiffDriveService :=
  now ← getTimeMicros;
  let s := if 1000000 <? u32 (now - dd_last_duty_received_micros_ s)
           then s <| speed_r_ := f0 |> <| speed_l_ := f0 |> else s in
  s ← (if negb (dd_duty_sent_ s) then dd_SetDuty s else mret s);
  _ ← emits [DriveRequestStatus LeftESC; DriveRequestStatus RightESC];
  now ← getTimeMicros;
  _ ← (if 1000000 <? u32 (now - dd_last_valid_esc_state_micros_ s)
       then emits (DDStartTransaction ::
         (if negb (left_esc_state_valid_ s) then [SendESCStatus LeftESC ESC_STATUS_DISCONNECTED] else []) ++
         (if negb (right_esc_state_valid_ s) then [SendESCStatus RightESC ESC_STATUS_DISCONNECTED] else []) ++
         [DDCommitTransaction])
       else mret ());
  mret (s <| dd_duty_sent_ := false |>).

(** The twist from the wheel ticks: [d_left - d_right] and [d_left + d_right] are
    [int] expressions; [None] is their signed overflow. *)
(* @ diff_drive_service.cpp:153-157 DiffDriveService::ProcessStatusUpdate (twist) *)
Definition twist_of_ticks (micros : Z) (s : DiffDriveService) : option (f32 * f32) :=
  let dt := fdiv (f_of_Z (u32 (micros - last_ticks_micros_ s))) (f_of_Z 1000000) in
  let d_left := s32 (u32 (tacho (left_esc_state_ s) - last_ticks_left s)) in
  let d_right := s32 (u32 (tacho (right_esc_state_ s) - last_ticks_right s)) in
  let den := fmul (fmul (f_of_Z 2) dt) (f_of_f64 (WheelTicksPerMeter regs)) in
  if decide (is_s32 (d_left - d_right) /\ is_s32 (d_left + d_right))
  then Some (fdiv (f_of_Z (d_left - d_right)) den, fdiv (fneg (f_of_Z (d_left + d_right))) den)
  else None.

(* @ diff_drive_service.cpp DiffDriveService::ProcessStatusUpdate *)
Definition ProcessStatusUpdate (s : DiffDriveService) : crit dd_out DiffDriveService :=
  micros ← getTimeMicros;
  let s := s <| dd_last_valid_esc_state_micros_ := u32 micros |> in
  let l := left_esc_state_ s in let r := right_esc_state_ s in
  _ ← emits ([DDStartTransaction;
    SendESC LeftESC (temperature_pcb l) (current_input l) (status l);
    SendESC RightESC (temperature_pcb r) (current_input r) (status r)] ++
    (if last_ticks_valid s
     then [SendActualTwist (twist_of_ticks micros s); SendWheelTicks (tacho l) (tacho r)]
     else []));
  let s := s <| last_ticks_valid := true |> <| last_ticks_left := tacho l |>
             <| last_ticks_right := tacho r |> <| last_ticks_micros_ := u32 micros |>
             <| right_esc_state_valid_ := false |> <| left_esc_state_valid_ := false |> in
  _ ← emits [DDCommitTransaction];
  mret s.

(* @ diff_drive_service.cpp DiffDriveService::LeftESCCallback *)
Definition LeftESCCallback (state : ESCState) (s : DiffDriveService) : crit dd_out DiffDriveService :=
  let s := s <| left_esc_state_ := state |> <| left_esc_state_valid_ := true |>
             <| escs_connected_ ::= fun c => u8 (Z.lor c ESC_LEFT) |> in
  if right_esc_state_valid_ s then ProcessStatusUpdate s else mret s.
(* @ diff_drive_service.cpp DiffDriveService::RightESCCallback *)
Definition RightESCCallback (state : ESCState) (s : DiffDriveService) : crit dd_out DiffDriveService :=
  let s := s <| right_esc_state_ := state |> <| right_esc_state_valid_ := true |>
             <| escs_connected_ ::= fun c => u8 (Z.lor c ESC_RIGHT) |> in
  if left_esc_state_valid_ s then ProcessStatusUpdate s else mret s.

(** The wheel speeds of a twist, before the clamp. *)
(* @ diff_drive_service.cpp:182-187 DiffDriveService::OnControlTwistChanged (mixing) *)
Definition mix (linear angular : f32) : f32 * f32 :=
  let half := fmul (f_lit 1 2) (f_of_f64 (WheelDistance regs)) in
  (fsub linear (fmul half angular), fneg (fadd linear (fmul half angular))).

(* @ diff_drive_service.cpp:179-204 DiffDriveService::OnControlTwistChanged (locked) *)
Definition apply_twist (v0 v5 : f64) (s : DiffDriveService) : crit dd_out DiffDriveService :=
  now ← getTimeMicros;
  let s := s <| dd_last_duty_received_micros_ := u32 now |> in
  let '(l, r) := mix (f_of_f64 v0) (f_of_f64 v5) in
  let s := s <| speed_l_ := clamp (fneg f1) f1 l |> <| speed_r_ := clamp (fneg f1) f1 r |> in
  if negb (dd_duty_sent_ s) then dd_SetDuty s else mret s.

(** [new_value] is the twist; a register of another length is ignored. *)
(* @ diff_drive_service.cpp DiffDriveService::OnControlTwistChanged *)
Definition OnControlTwistChanged (new_value : list f64) : prog DiffDriveService dd_out :=
  match new_value with
  | [v0; _; _; _; _; v5] => Locked (apply_twist v0 v5) Done
  | _ => Done
  end.
End DiffDrive.

(** The dead man's switch of the drive: when no twist arrived for more than a
    second, a tick that has not sent a duty yet sends zero to both wheels and
    leaves both speeds at zero, whether or not there is an emergency. *)
Theorem stale_twist_stops_wheels s now r :
  dd_duty_sent_ s = false -> 1000000 < u32 (now - dd_last_duty_received_micros_ s) ->
  let '(s', out) := run_crit now r (dd_tick s) in
  take 2 out = [DriveDuty LeftESC f0; DriveDuty RightESC f0] /\
  speed_l_ s' = f0 /\ speed_r_ s' = f0 /\
  Forall (fun o => match o with DriveDuty _ duty => duty = f0 | _ => True end) out.
Proof.
  intros Hd Ht. apply Z.ltb_lt in Ht. unfold dd_tick. cbn. rewrite Ht. cbn. rewrite Hd. cbn.
  destruct (r =? 0); cbn; (split_if; cbn; [|repeat split; repeat constructor]);
    destruct (left_esc_state_valid_ s), (right_esc_state_valid_ s); cbn;
    repeat split; repeat constructor.
Qed.

Definition rolling : DiffDriveService :=
  initial_diff_drive <| speed_l_ := f1 |> <| speed_r_ := fneg f1 |> <| dd_last_duty_received_micros_ := 500 |>.
Lemma stale_twist_witness :
  let '(s', out) := run_crit 2000000 0 (dd_tick rolling) in
  take 2 out = [DriveDuty LeftESC f0; DriveDuty RightESC f0] /\ speed_l_ s' = f0 /\ speed_r_ s' = f0 /\
  Forall (fun o => match o with DriveDuty _ duty => duty = f0 | _ => True end) out.
Proof. apply (stale_twist_stops_wheels rolling 2000000 0); [reflexivity|vm_compute; reflexivity]. Defined.
