(* ===== verification/Mower.v ===== *)
(** The mower motor: [services/mower_service/mower_service.cpp].

    [mtx] guards the duty; the ESC state is written by the driver's thread under
    another mutex, so [tick] works on a snapshot of it. *)
From S2P Require Import Prelude Float32 Motor.

(* @ mower_service.hpp:57-61 MowerService *)
Record MowerService := mkMower {
  mw_last_duty_received_micros_ : Z; mower_duty_ : f32; mw_duty_sent_ : bool }.
#[export] Instance eta_Mower : Eta MowerService := fun s =>
  mkMower (mw_last_duty_received_micros_ s) (mower_duty_ s) (mw_duty_sent_ s).

(** The half of the object that [ESCCallback] writes. *)
(* @ mower_service.hpp:55-62 MowerService *)
Record MowerESC := mkMowerESC {
  esc_state_ : ESCState; esc_state_valid_ : bool;
  mw_last_valid_esc_state_micros_ : Z; esc_ever_connected_ : bool }.
#[export] Instance eta_MowerESC : Eta MowerESC := fun s =>
  mkMowerESC (esc_state_ s) (esc_state_valid_ s) (mw_last_valid_esc_state_micros_ s) (esc_ever_connected_ s).

Definition initial_mower : MowerService := mkMower 0 f0 false.
Definition initial_mower_esc : MowerESC := mkMowerESC zero_esc false 0 false.

Inductive mower_out :=
  | MowerDuty (duty : f32)
  | MowerRequestStatus
  | SendRainDetected (rain : bool)
  | SendMowerStatus (status : Z)
  | SendMowerESC (temperature current : f32) (status : Z) (motor_temperature : f32) (running : bool) (rpm : f32)
  | MWStartTransaction | MWCommitTransaction.

(* @ mower_service.cpp MowerService::OnStart *)
Definition mw_OnStart (s : MowerService) : MowerService := s <| mower_duty_ := f0 |>.
(* @ mower_service.cpp MowerService::OnStop *)
Definition mw_OnStop (s : MowerService) (e : MowerESC) : MowerService * MowerESC :=
  (s <| mower_duty_ := f0 |>, e <| esc_ever_connected_ := false |>).
(* @ mower_service.hpp MowerService::IsHealthy *)
Definition mw_IsHealthy (running : bool) (e : MowerESC) : bool := (running && esc_ever_connected_ e)%bool.

(* @ mower_service.cpp MowerService::ESCCallback *)
Definition mw_ESCCallback (now : Z) (state : ESCState) (e : MowerESC) : MowerESC :=
  e <| esc_state_ := state |> <| esc_state_valid_ := true |> <| esc_ever_connected_ := true |>
    <| mw_last_valid_esc_state_micros_ := u32 now |>.

(* @ mower_service.cpp MowerService::SetDuty *)
Definition mw_SetDuty (s : MowerService) : crit mower_out MowerService :=
  r ← get_reasons;
  _ ← (if negb (r =? 0) then emits [MowerDuty f0] else emits [MowerDuty (mower_duty_ s)]);
  mret (s <| mw_duty_sent_ := true |>).

(* @ mower_service.cpp MowerService::tick *)
Definition mw_tick (e : MowerESC) (s : MowerService) : crit mower_out MowerService :=
  now ← getTimeMicros;
  let s := if 10000000 <? u32 (now - mw_last_duty_received_micros_ s)
           then s <| mower_duty_ := f0 |> else s in
  s ← (if negb (mw_duty_sent_ s) then mw_SetDuty s else mret s);
  _ ← emits [MowerRequestStatus; MWStartTransaction; SendRainDetected false];
  now ← getTimeMicros;
  s ← (if ((1000000 <? u32 (now - mw_last_valid_esc_state_micros_ e)) || negb (esc_state_valid_ e))%bool
       then
         _ ← emits [SendMowerStatus ESC_STATUS_DISCONNECTED];
         mret (s <| mower_duty_ := f0 |>)
       else
         let st := esc_state_ e in
         _ ← emits [MWStartTransaction;
           SendMowerESC (temperature_pcb st) (current_input st) (status st)
             (temperature_motor st) (flt f0 (SFabs (rpm st))) (rpm st)];
         mret s);
  _ ← emits [MWCommitTransaction];
  mret (s <| mw_duty_sent_ := false |>).

(* @ mower_service.cpp:94-104 MowerService::OnMowerEnabledChanged (locked) *)
Definition set_mower_enabled (new_value : Z) (s : MowerService) : crit mower_out MowerService :=
  now ← getTimeMicros;
  let s := s <| mw_last_duty_received_micros_ := u32 now |> in
  let s := s <| mower_duty_ := if negb (new_value =? 0) then f1 else f0 |> in
  if negb (mw_duty_sent_ s) then mw_SetDuty s else mret s.

(* @ mower_service.cpp MowerService::OnMowerEnabledChanged *)
Definition OnMowerEnabledChanged (new_value : Z) : prog MowerService mower_out :=
  Locked (set_mower_enabled new_value) Done.

(* @ mower_service.cpp MowerService::OnEmergencyChangedEvent *)
Definition mw_OnEmergencyChangedEvent : prog MowerService mower_out :=
  Ask (fun r => if r =? 0 then Done
    else Locked (fun s => mw_SetDuty (s <| mower_duty_ := f0 |>)) Done).

(** The dead man's switch of the blade: when the high level has not renewed the
    enable for more than ten seconds, or the ESC is silent, the tick leaves the
    duty at zero; in the first case it also sends zero. *)
Theorem stale_enable_stops_mower e s now r :
  let '(s', out) := run_crit now r (mw_tick e s) in
  mw_duty_sent_ s' = false /\
  (10000000 < u32 (now - mw_last_duty_received_micros_ s) ->
     mower_duty_ s' = f0 /\ (mw_duty_sent_ s = false -> head out = Some (MowerDuty f0))) /\
  (1000000 < u32 (now - mw_last_valid_esc_state_micros_ e) \/ esc_state_valid_ e = false ->
     mower_duty_ s' = f0).
Proof.
  unfold mw_tick. cbn.
  destruct (10000000 <? _) eqn:E1, (mw_duty_sent_ s) eqn:E2; cbn; rewrite ?E2; cbn;
    destruct (r =? 0); cbn; destruct (1000000 <? _) eqn:E3, (esc_state_valid_ e) eqn:E4; cbn;
    bsimp; repeat split; intros; try reflexivity; try discriminate; try lia;
    destruct H; try discriminate; lia.
Qed.
Definition mowing : MowerService := initial_mower <| mower_duty_ := f1 |>.
Lemma stale_enable_witness :
  let '(s', out) := run_crit 20000000 0 (mw_tick initial_mower_esc mowing) in
  mw_duty_sent_ s' = false /\
  (10000000 < u32 (20000000 - mw_last_duty_received_micros_ mowing) ->
     mower_duty_ s' = f0 /\ (mw_duty_sent_ mowing = false -> head out = Some (MowerDuty f0))) /\
  (1000000 < u32 (20000000 - mw_last_valid_esc_state_micros_ initial_mower_esc) \/
     esc_state_valid_ initial_mower_esc = false -> mower_duty_ s' = f0).
Proof. exact (stale_enable_stops_mower initial_mower_esc mowing 20000000 0). Defined.
