(* ===== verification/System.v ===== *)
(** Threads: the event dispatcher of [main.cpp], the emergency service and a motor
    service, interleaved.

    A motor service is anything that satisfies the interface [MotorService]: its
    critical sections command a motion only after they have seen no emergency
    reason, and its event handler, which the dispatcher calls when
    EMERGENCY_CHANGED is raised, commands zero to every motor. The theorem about
    the interleaving is proved once against the interface; [DiffDriveService] and
    [MowerService] are its instances. *)
From S2P Require Import Prelude ServiceExt Float32 Motor DiffDrive Mower.

(** ** The dispatcher *)

Inductive dispatch_call :=
  | CallDiffDriveEmergency | CallMowerEmergency | CallInputsChanged | CallCheckInputs.

(** What one wake-up of [DispatchEvents] calls, from the event mask and the flags;
    [needs_mower] is [robot->NeedsService(MOWER)]. *)
(* @ main.cpp DispatchEvents *)
Definition dispatch_calls (needs_mower : bool) (events flags : Z) : list dispatch_call :=
  if has events (EVENT_MASK GLOBAL) then
    (if has flags EMERGENCY_CHANGED
     then CallDiffDriveEmergency :: (if needs_mower then [CallMowerEmergency] else []) else []) ++
    (if has flags INPUTS_CHANGED then [CallInputsChanged; CallCheckInputs] else [])
  else [].

(** ** The interface of a motor service *)
Class MotorService (S O : Type) `{MO : MotorOutput O} := {
  motors : list nat;
  (** the programs its own and its drivers' threads run *)
  runs : prog S O -> Prop;
  (** the dispatcher's handler, when it has seen a reason *)
  stop_section : S -> crit O S;
  runs_locked : forall p, runs p -> p = Done \/ exists b, p = Locked b Done;
  runs_guarded : forall b s, runs (Locked b Done) -> guarded false (b s);
  stop_clears : forall s, clears motors (stop_section s) }.

Definition event {S O} `{MotorService S O} : prog S O :=
  Ask (fun r => if r =? 0 then Done else Locked stop_section Done).

Section Interleaving.
Context {S O : Type} `{MS : MotorService S O}.

(** The dispatcher: waiting, woken and about to call, or inside the handler. *)
Inductive disp_state := DIdle | DBusy | DRun (p : prog S O).

Record sys := mkSys {
  reasons : Z;           (** the emergency service's mask *)
  inflight : nat;        (** broadcasts not yet delivered *)
  flag : bool;           (** EMERGENCY_CHANGED at the dispatcher's listener *)
  disp : disp_state;
  inside : option (bool * crit O S);   (** who holds the mutex ([true]: the dispatcher) *)
  svc : S;
  moving : nat -> bool   (** the last duty sent to the motor was not zero *) }.
#[export] Instance eta_sys : Eta sys := fun s =>
  mkSys (reasons s) (inflight s) (flag s) (disp s) (inside s) (svc s) (moving s).

Definition commanded (o : O) (f : nat -> bool) : nat -> bool :=
  match sends o with
  | Some (m, z) => fun x => if (x =? m)%nat then negb z else f x
  | None => f
  end.

(** Steps of the threads that are already under way. *)
Inductive inner : sys -> sys -> Prop :=
  | StepBroadcast σ n : inflight σ = Datatypes.S n ->
      inner σ (σ <| inflight := n |> <| flag := true |>)
  | StepTake σ : disp σ = DIdle -> flag σ = true ->
      inner σ (σ <| flag := false |> <| disp := DBusy |>)
  | StepCall σ : disp σ = DBusy -> inner σ (σ <| disp := DRun event |>)
  | StepAsk σ k : disp σ = DRun (Ask k) -> inner σ (σ <| disp := DRun (k (reasons σ)) |>)
  | StepLock σ b p : disp σ = DRun (Locked b p) -> inside σ = None ->
      inner σ (σ <| disp := DRun p |> <| inside := Some (true, b (svc σ)) |>)
  | StepDone σ : disp σ = DRun Done -> (forall c, inside σ <> Some (true, c)) ->
      inner σ (σ <| disp := DIdle |>)
  | StepTime σ w k t : inside σ = Some (w, Time k) -> inner σ (σ <| inside := Some (w, k t) |>)
  | StepReasons σ w k : inside σ = Some (w, Reasons k) ->
      inner σ (σ <| inside := Some (w, k (reasons σ)) |>)
  | StepEmit σ w o k : inside σ = Some (w, Emit o k) ->
      inner σ (σ <| inside := Some (w, k) |> <| moving ::= commanded o |>)
  | StepUnlock σ w s : inside σ = Some (w, Ret s) ->
      inner σ (σ <| inside := None |> <| svc := s |>).

(** New work: the emergency service changes its mask and owes a broadcast, or a
    thread of the motor service enters a critical section. *)
Inductive step : sys -> sys -> Prop :=
  | StepInner σ σ' : inner σ σ' -> step σ σ'
  | StepUpdate σ r : r <> reasons σ ->
      step σ (σ <| reasons := r |> <| inflight ::= Datatypes.S |>)
  | StepEnter σ b : runs (Locked b Done) -> inside σ = None ->
      step σ (σ <| inside := Some (false, b (svc σ)) |>).

Definition initial (r : Z) (s : S) : sys := mkSys r 0 false DIdle None s (fun _ => false).
Definition reachable (r : Z) (s : S) : sys -> Prop := rtc step (initial r s).
Definition quiescent (σ : sys) : Prop :=
  inflight σ = 0%nat /\ flag σ = false /\ disp σ = DIdle /\ inside σ = None.

Definition stopped (σ : sys) : Prop := forall m, m ∈ motors -> moving σ m = false.

(** The dispatcher is going to stop the motors. *)
Definition wake (σ : sys) : Prop :=
  (0 < inflight σ)%nat \/ flag σ = true \/ disp σ = DBusy \/ disp σ = DRun event \/
  disp σ = DRun (Locked stop_section Done) \/ exists c, inside σ = Some (true, c).

Record inv (σ : sys) : Prop := {
  inv_disp : forall p, disp σ = DRun p ->
    p = event \/ p = Done \/ p = Locked stop_section Done;
  inv_owner : forall c, inside σ = Some (true, c) -> disp σ = DRun Done /\
    exists todo, clears todo c /\ forall m, m ∈ motors -> m ∉ todo -> moving σ m = false;
  inv_env : forall c, inside σ = Some (false, c) -> guarded true c;
  inv_safe : reasons σ <> 0 -> wake σ \/
    (stopped σ /\ forall c, inside σ = Some (false, c) -> guarded false c) }.

Lemma inv_initial r s : inv (initial r s).
Proof. split; cbn; try discriminate. intros _. right. split; [intros m _; reflexivity|discriminate]. Qed.

Ltac wakes := unfold wake; cbn; eauto 10.

Lemma owner_free σ p : inv σ -> disp σ <> DRun Done -> inside σ <> Some (true, p).
Proof. intros I H E. destruct (inv_owner _ I _ E) as [E' _]. congruence. Qed.

(** The steps of the dispatcher outside the mutex. *)
Lemma inv_ask σ k : inv σ -> disp σ = DRun (Ask k) -> inv (σ <| disp := DRun (k (reasons σ)) |>).
Proof.
  intros I H. pose proof I as [I1 I2 I3 I4].
  assert (Hk : k (reasons σ) = (if reasons σ =? 0 then Done else Locked stop_section Done)).
  { destruct (I1 _ H) as [E|[E|E]]; [injection E as ->; reflexivity|discriminate|discriminate]. }
  split; cbn.
  - intros p [= <-]. rewrite Hk. split_if; auto.
  - intros c Hc. apply (owner_free _ _ I) in Hc; [contradiction|congruence].
  - auto.
  - intros Hr. left. rewrite Hk. destruct (Z.eqb_spec (reasons σ) 0); [contradiction|]. wakes.
Qed.
Lemma inv_lock σ b p : inv σ -> disp σ = DRun (Locked b p) -> inside σ = None ->
  inv (σ <| disp := DRun p |> <| inside := Some (true, b (svc σ)) |>).
Proof.
  intros [I1 I2 I3 I4] H Hn.
  assert (E : Locked b p = Locked stop_section Done).
  { destruct (I1 _ H) as [E|[E|E]]; [discriminate|discriminate|exact E]. }
  injection E as -> ->. split; cbn.
  - intros p [= <-]. auto.
  - intros c [= <-]. split; [reflexivity|]. exists motors. split; [apply stop_clears|tauto].
  - discriminate.
  - intros _. left. wakes.
Qed.
Lemma inv_done σ : inv σ -> disp σ = DRun Done -> (forall c, inside σ <> Some (true, c)) ->
  inv (σ <| disp := DIdle |>).
Proof.
  intros [I1 I2 I3 I4] H Hn. split; cbn; [discriminate|intros c Hc; destruct (Hn c Hc)|auto|].
  intros Hr. destruct (I4 Hr) as [W|W]; [left|right; exact W].
  destruct W as [W|[W|[W|[W|[W|[c W]]]]]]; unfold wake; cbn; auto;
    try (rewrite H in W; discriminate W). destruct (Hn c W).
Qed.

(** The steps inside the mutex: [c] becomes [c'], commanding [f]. *)
Lemma inv_inside σ w c c' mv :
  inv σ -> inside σ = Some (w, c) ->
  (forall todo, w = true -> clears todo c -> (forall m, m ∈ motors -> m ∉ todo -> moving σ m = false) ->
     exists todo, clears todo c' /\ forall m, m ∈ motors -> m ∉ todo -> mv m = false) ->
  (w = false -> guarded true c -> guarded true c') ->
  (w = false -> reasons σ <> 0 -> guarded false c -> stopped σ ->
     guarded false c' /\ forall m, m ∈ motors -> mv m = false) ->
  inv (σ <| inside := Some (w, c') |> <| moving := mv |>).
Proof.
  intros [I1 I2 I3 I4] H HO HE HS. split; cbn; auto.
  - intros c0 [= -> ->]. destruct (I2 _ H) as (E & todo & Ht & Hm). split; [exact E|]. eapply HO; eauto.
  - intros c0 [= -> ->]. auto.
  - intros Hr. destruct w; [left; wakes|]. destruct (I4 Hr) as [W|[Hs Hg]].
    + left. destruct W as [W|[W|[W|[W|[W|[c0 W]]]]]]; unfold wake; cbn; auto 10. congruence.
    + right. destruct (HS eq_refl Hr (Hg _ H) Hs) as [Hg' Hm]. split; [exact Hm|].
      intros c0 [= <-]. exact Hg'.
Qed.

Lemma inv_unlock σ w s : inv σ -> inside σ = Some (w, Ret s) ->
  inv (σ <| inside := None |> <| svc := s |>).
Proof.
  intros [I1 I2 I3 I4] H. split; cbn; auto; try discriminate.
  intros Hr. destruct w.
  - destruct (I2 _ H) as (_ & todo & Ht & Hm). cbn in Ht. subst todo. right.
    split; [|discriminate]. intros m Hin. apply Hm; [exact Hin|apply not_elem_of_nil].
  - destruct (I4 Hr) as [W|[Hs _]]; [left|right; split; [exact Hs|discriminate]].
    destruct W as [W|[W|[W|[W|[W|[c0 W]]]]]]; unfold wake; cbn; auto 10. congruence.
Qed.

Lemma commanded_zero o f m z : sends o = Some (m, z) -> commanded o f m = negb z.
Proof. unfold commanded. intros ->. rewrite Nat.eqb_refl. reflexivity. Qed.
Lemma commanded_false o f m :
  (forall k, sends o <> Some (k, false)) -> f m = false -> commanded o f m = false.
Proof.
  unfold commanded. destruct (sends o) as [[k []]|] eqn:E; intros H Hf; auto.
  - destruct (m =? k)%nat; auto.
  - destruct (H k eq_refl).
Qed.

Lemma inv_emit σ w o k : inv σ -> inside σ = Some (w, Emit o k) ->
  inv (σ <| inside := Some (w, k) |> <| moving ::= commanded o |>).
Proof.
  intros I H. change (σ <| inside := Some (w, k) |> <| moving ::= commanded o |>)
    with (σ <| inside := Some (w, k) |> <| moving := commanded o (moving σ) |>).
  apply (inv_inside _ _ (Emit o k)); auto.
  - cbn. intros todo _ Hc Hm. destruct (sends o) as [[m []]|] eqn:E; [|contradiction|].
    + exists (filter (fun x => x <> m) todo). split; [exact Hc|]. intros m' Hin Hn.
      unfold commanded. rewrite E. destruct (Nat.eqb_spec m' m); [reflexivity|].
      apply Hm; [exact Hin|]. intros Ht. apply Hn, list_elem_of_filter. auto.
    + exists todo. split; [exact Hc|]. intros m' Hin Hn. unfold commanded. rewrite E. auto.
  - cbn. tauto.
  - cbn. intros _ Hr [Ho Hg] Hs. split; [exact Hg|]. intros m Hin. apply commanded_false; [|auto].
    intros k' E. rewrite E in Ho. discriminate.
Qed.

Lemma inv_inner σ σ' : inner σ σ' -> inv σ -> inv σ'.
Proof.
  intros H I. pose proof I as [I1 I2 I3 I4]. destruct H.
  - split; cbn; auto. intros _. left. wakes.
  - split; cbn; auto; [discriminate| |left; wakes].
    intros c Hc. apply (owner_free _ _ I) in Hc; [contradiction|congruence].
  - split; cbn; auto; [intros p [= <-]; auto| |left; wakes].
    intros c Hc. apply (owner_free _ _ I) in Hc; [contradiction|congruence].
  - apply inv_ask; assumption.
  - apply inv_lock; assumption.
  - apply inv_done; assumption.
  - apply (inv_inside σ w (Time k) (k t) (moving σ)) in H; [exact H|exact I|cbn; eauto..].
  - apply (inv_inside σ w (Reasons k) (k (reasons σ)) (moving σ)) in H; [exact H|exact I|..]; cbn.
    + eauto.
    + intros _ Hg. specialize (Hg (reasons σ)). destruct (reasons σ =? 0); auto using guarded_mono.
    + intros _ Hr Hg Hs. specialize (Hg (reasons σ)).
      destruct (Z.eqb_spec (reasons σ) 0); [contradiction|]. auto.
  - apply inv_emit; assumption.
  - eapply inv_unlock; eassumption.
Qed.

Lemma inv_step σ σ' : step σ σ' -> inv σ -> inv σ'.
Proof.
  intros H I. pose proof I as [I1 I2 I3 I4]. destruct H.
  - eapply inv_inner; eassumption.
  - split; cbn; auto. intros _. left. left. cbn. lia.
  - split; cbn; auto.
    + discriminate.
    + intros c [= <-]. apply guarded_mono, runs_guarded. assumption.
    + intros Hr. destruct (I4 Hr) as [W|[Hs _]]; [left|right].
      * destruct W as [W|[W|[W|[W|[W|[c0 W]]]]]]; unfold wake; cbn; auto 10. congruence.
      * split; [exact Hs|]. intros c [= <-]. apply runs_guarded. assumption.
Qed.

Lemma inv_reachable r s σ : reachable r s σ -> inv σ.
Proof.
  intros H. unfold reachable in H. apply (rtc_ind_r inv) with (x := initial r s) in H; auto.
  - apply inv_initial.
  - intros; eapply inv_step; eassumption.
Qed.

Lemma quiescent_stopped r s σ : reachable r s σ -> quiescent σ -> reasons σ <> 0 -> stopped σ.
Proof.
  intros H (Q1 & Q2 & Q3 & Q4) Hr. apply inv_reachable in H. destruct (inv_safe _ H Hr) as [W|[Hs _]]; [|exact Hs].
  destruct W as [W|[W|[W|[W|[W|[c W]]]]]]; try congruence. lia.
Qed.
(** *** No deadlock

    Letting the threads finish what they started always reaches quiescence. *)
Definition same_events (σ σ' : sys) : Prop :=
  reasons σ' = reasons σ /\ inflight σ' = inflight σ /\ flag σ' = flag σ.

Lemma run_inside w c : forall σ, inside σ = Some (w, c) ->
  exists σ', rtc inner σ σ' /\ inside σ' = None /\ same_events σ σ' /\ disp σ' = disp σ.
Proof.
  induction c as [s|k IH|k IH|o k IH]; intros σ H.
  - eexists. split; [apply rtc_once, (StepUnlock _ _ _ H)|]. repeat split.
  - destruct (IH 0 (σ <| inside := Some (w, k 0) |>)) as (σ' & R & Q); [reflexivity|].
    exists σ'. split; [|exact Q]. eapply rtc_l; [apply (StepTime _ _ _ 0 H)|exact R].
  - destruct (IH (reasons σ) (σ <| inside := Some (w, k (reasons σ)) |>)) as (σ' & R & Q); [reflexivity|].
    exists σ'. split; [|exact Q]. eapply rtc_l; [apply (StepReasons _ _ _ H)|exact R].
  - destruct (IH (σ <| inside := Some (w, k) |> <| moving ::= commanded o |>)) as (σ' & R & Q); [reflexivity|].
    exists σ'. split; [|exact Q]. eapply rtc_l; [apply (StepEmit _ _ _ _ H)|exact R].
Qed.

Lemma free_mutex σ : exists σ', rtc inner σ σ' /\ inside σ' = None /\ same_events σ σ' /\ disp σ' = disp σ.
Proof.
  destruct (inside σ) as [[w c]|] eqn:E; [apply (run_inside w c); exact E|].
  exists σ. split; [apply rtc_refl|]. repeat split; auto.
Qed.

Definition settles (σ : sys) : Prop := exists σ', rtc inner σ σ' /\ same_events σ σ' /\
  inside σ' = None /\ disp σ' = DIdle.
Lemma settles_step σ σ' : rtc inner σ σ' -> same_events σ σ' -> settles σ' -> settles σ.
Proof.
  intros R (E1 & E2 & E3) (σ2 & R2 & (F1 & F2 & F3) & Q).
  exists σ2. split; [etransitivity; eassumption|]. split; [|exact Q]. repeat split; congruence.
Qed.

Lemma settle_done σ : inside σ = None -> disp σ = DRun Done -> settles σ.
Proof.
  intros H1 H2. eexists. split; [apply rtc_once, (StepDone _ H2); congruence|]. repeat split. exact H1.
Qed.
Lemma settle_event σ : inside σ = None -> disp σ = DRun event -> settles σ.
Proof.
  intros H1 H2. eapply settles_step; [apply rtc_once, (StepAsk _ _ H2)|repeat split|].
  destruct (reasons σ =? 0); [apply settle_done; auto|].
  eapply settles_step; [apply rtc_once, StepLock; [reflexivity|exact H1]|repeat split|].
  match goal with |- settles ?x => destruct (run_inside true _ x eq_refl) as (σ' & R & Hi & Hs & Hd) end.
  eapply settles_step; [exact R|exact Hs|]. apply settle_done; [exact Hi|]. rewrite Hd. reflexivity.
Qed.

Lemma settle σ : inv σ -> settles σ.
Proof.
  intros I. destruct (free_mutex σ) as (σ1 & R & Hi & Hs & Hd).
  eapply settles_step; [exact R|exact Hs|].
  destruct (disp σ) as [| |p] eqn:E.
  - exists σ1. split; [apply rtc_refl|]. repeat split; auto.
  - eapply settles_step; [apply rtc_once, (StepCall _ Hd)|repeat split|]. apply settle_event; auto.
  - destruct (inv_disp _ I _ E) as [-> | [-> | ->]]; [apply settle_event; auto|apply settle_done; auto|].
    eapply settles_step; [apply rtc_once, (StepLock _ _ _ Hd Hi)|repeat split|].
    match goal with |- settles ?x => destruct (run_inside true _ x eq_refl) as (σ' & R' & Hi' & Hs' & Hd') end.
    eapply settles_step; [exact R'|exact Hs'|]. apply settle_done; [exact Hi'|]. rewrite Hd'. reflexivity.
Qed.

Lemma inv_rtc_inner σ σ' : rtc inner σ σ' -> inv σ -> inv σ'.
Proof. induction 1; eauto using inv_inner. Qed.

Lemma reaches_quiescence n : forall σ, inflight σ = n -> inv σ ->
  exists σ', rtc inner σ σ' /\ quiescent σ' /\ reasons σ' = reasons σ.
Proof.
  induction n as [|n IH]; intros σ Hn I.
  - destruct (settle σ I) as (σ1 & R1 & (E1 & E2 & E3) & Hi & Hd).
    destruct (flag σ1) eqn:Hf.
    + pose proof (inv_rtc_inner _ _ R1 I) as I1. pose proof (StepTake _ Hd Hf) as ST.
      destruct (settle _ (inv_inner _ _ ST I1)) as (σ2 & R2 & (F1 & F2 & F3) & Hi2 & Hd2).
      exists σ2. split; [etransitivity; [exact R1|eapply rtc_l; [exact ST|exact R2]]|].
      cbn in F1, F2, F3. split; [|congruence]. repeat split; auto; congruence.
    + exists σ1. split; [exact R1|]. split; [|exact E1]. repeat split; auto; congruence.
  - pose proof (StepBroadcast _ _ Hn) as SB. pose proof (inv_inner _ _ SB I) as I1.
    destruct (IH (σ <| inflight := n |> <| flag := true |>)) as (σ' & R & Q & E); [reflexivity|exact I1|]. exists σ'. split; [eapply rtc_l; eassumption|]. auto.
Qed.

Lemma emergency_stops r s σ : reachable r s σ -> reasons σ <> 0 ->
  exists σ', rtc inner σ σ' /\ quiescent σ' /\ reasons σ' = reasons σ /\ stopped σ'.
Proof.
  intros H Hr. pose proof (inv_reachable _ _ _ H) as I.
  destruct (reaches_quiescence _ σ eq_refl I) as (σ' & R & Q & E).
  exists σ'. split; [exact R|]. split; [exact Q|]. split; [exact E|].
  apply (quiescent_stopped r s); [|exact Q|congruence].
  unfold reachable in *. transitivity σ; [exact H|].
  clear - R. induction R; [reflexivity|]. eapply rtc_l; [apply StepInner|]; eassumption.
Qed.
End Interleaving.

(** ** The instances *)
#[export] Instance dd_motor_output : MotorOutput dd_out := fun o =>
  match o with
  | DriveDuty LeftESC d => Some (0%nat, is_zero d)
  | DriveDuty RightESC d => Some (1%nat, is_zero d)
  | _ => None
  end.
#[export] Instance mower_motor_output : MotorOutput mower_out := fun o =>
  match o with MowerDuty d => Some (0%nat, is_zero d) | _ => None end.

(** The critical sections of the drive: its scheduler, its drivers' callbacks, its
    register handler, and start and stop. *)
Inductive dd_runs (regs : dd_regs) : prog DiffDriveService dd_out -> Prop :=
  | RunTick : dd_runs regs (Locked dd_tick Done)
  | RunLeft st : dd_runs regs (Locked (LeftESCCallback regs st) Done)
  | RunRight st : dd_runs regs (Locked (RightESCCallback regs st) Done)
  | RunTwist v : dd_runs regs (OnControlTwistChanged regs v)
  | RunStart : dd_runs regs (Locked (fun s => Ret (fst (dd_OnStart regs s))) Done)
  | RunStop : dd_runs regs (Locked (fun s => Ret (dd_OnStop s)) Done).

Inductive mw_runs : prog MowerService mower_out -> Prop :=
  | RunMowerTick e : mw_runs (Locked (mw_tick e) Done)
  | RunMowerEnabled v : mw_runs (OnMowerEnabledChanged v)
  | RunMowerStart : mw_runs (Locked (fun s => Ret (mw_OnStart s)) Done)
  | RunMowerStop e : mw_runs (Locked (fun s => Ret (fst (mw_OnStop s e))) Done).

Lemma dd_SetDuty_guarded s b : guarded b (dd_SetDuty s).
Proof.
  unfold dd_SetDuty. cbn. intros r. destruct (Z.eqb_spec r 0); cbn.
  - destruct (is_zero (speed_l_ s)), (is_zero (speed_r_ s)); cbn; tauto.
  - tauto.
Qed.
Lemma mw_SetDuty_guarded s b : guarded b (mw_SetDuty s).
Proof.
  unfold mw_SetDuty. cbn. intros r. destruct (Z.eqb_spec r 0); cbn; [|tauto].
  destruct (is_zero (mower_duty_ s)); cbn; tauto.
Qed.
Lemma emits_quiet {O} `{MotorOutput O} (l : list O) b :
  Forall (fun o => sends o = None) l -> guarded b (emits l).
Proof. induction 1 as [|o l Ho Hl IH]; cbn; [exact I|]. rewrite Ho. auto. Qed.

Lemma guarded_ret {O A} `{MotorOutput O} (a : A) b : guarded b (Ret (O:=O) a).
Proof. exact I. Qed.

Lemma guarded_time {O} `{MotorOutput O} b : guarded b (getTimeMicros (O:=O)).
Proof. intros t. exact I. Qed.

(** [guards] goes through a section that commands motion in [SetDuty] only. *)
Ltac guards := repeat first
  [ exact I | apply guarded_time | apply dd_SetDuty_guarded | apply mw_SetDuty_guarded | apply guarded_bind
  | apply emits_quiet; repeat constructor; repeat split_if; repeat constructor
  | progress intros | progress cbv zeta | split_if ].

Lemma ProcessStatusUpdate_quiet regs s b : guarded b (ProcessStatusUpdate regs s).
Proof. unfold ProcessStatusUpdate. guards. Qed.
Lemma dd_tick_guarded s b : guarded b (dd_tick s).
Proof. unfold dd_tick. guards. Qed.
Lemma mw_tick_guarded e s b : guarded b (mw_tick e s).
Proof. unfold mw_tick. guards. Qed.

Definition dd_stop (s : DiffDriveService) := dd_SetDuty (s <| speed_l_ := f0 |> <| speed_r_ := f0 |>).
Definition mw_stop (s : MowerService) := mw_SetDuty (s <| mower_duty_ := f0 |>).

#[export] Program Instance DiffDriveMotors (regs : dd_regs) : MotorService DiffDriveService dd_out :=
  {| motors := [0%nat; 1%nat]; runs := dd_runs regs; stop_section := dd_stop |}.
Next Obligation.
  intros regs p [ | | |v| | ]; eauto. unfold OnControlTwistChanged.
  repeat (destruct v as [|? v]; [left; reflexivity|]). destruct v; [right|left]; eauto.
Qed.
Next Obligation.
  intros regs b s H. inversion H; subst; try exact I.
  - apply dd_tick_guarded.
  - unfold LeftESCCallback. cbv zeta. split_if; [apply ProcessStatusUpdate_quiet|exact I].
  - unfold RightESCCallback. cbv zeta. split_if; [apply ProcessStatusUpdate_quiet|exact I].
  - revert H1. unfold OnControlTwistChanged.
    repeat (destruct v as [|? v]; [discriminate|]). destruct v; [|discriminate].
    intros [= <-]. unfold apply_twist. guards; destruct (mix _ _ _); guards.
Qed.
Next Obligation.
  intros regs s. unfold dd_stop. cbn. intros r. destruct (Z.eqb_spec r 0); reflexivity.
Qed.

#[export] Program Instance MowerMotors : MotorService MowerService mower_out :=
  {| motors := [0%nat]; runs := mw_runs; stop_section := mw_stop |}.
Next Obligation. intros p []; eauto. Qed.
Next Obligation.
  intros b s H. inversion H; subst; try exact I; [apply mw_tick_guarded|].
  unfold set_mower_enabled. guards.
Qed.
Next Obligation. intros s. unfold mw_stop. cbn. intros r. destruct (Z.eqb_spec r 0); reflexivity. Qed.

(** * Properties *)

(** C6. The wheels stand still in an emergency. Whatever the drive's scheduler, its
    ESC callbacks, its register handler and the emergency service do, in any
    interleaving: whenever an emergency reason is set and the dispatcher has
    nothing left to do, the last duty sent to each wheel was zero; and from every
    state the threads already under way reach such a state without deadlock. The
    dispatcher's handler is [OnEmergencyChangedEvent], and it is called exactly when
    EMERGENCY_CHANGED was flagged. *)
Theorem drive_stands_still_in_emergency regs r s σ :
  reachable (MS := DiffDriveMotors regs) r s σ -> reasons σ <> 0 ->
  event (H := DiffDriveMotors regs) = dd_OnEmergencyChangedEvent /\
  (forall needs flags, In CallDiffDriveEmergency (dispatch_calls needs (EVENT_MASK GLOBAL) flags) <->
     has flags EMERGENCY_CHANGED = true) /\
  (quiescent σ -> moving σ 0%nat = false /\ moving σ 1%nat = false) /\
  exists σ', rtc (inner (MS := DiffDriveMotors regs)) σ σ' /\ quiescent σ' /\
    reasons σ' = reasons σ /\ moving σ' 0%nat = false /\ moving σ' 1%nat = false.
Proof.
  intros H Hr. split; [reflexivity|]. split.
  { intros needs flags. unfold dispatch_calls. cbn [has]. change (has (EVENT_MASK GLOBAL) (EVENT_MASK GLOBAL)) with true.
    destruct (has flags EMERGENCY_CHANGED), (has flags INPUTS_CHANGED), needs; cbn; intuition discriminate. }
  assert (L : forall σ', stopped (MS := DiffDriveMotors regs) σ' -> moving σ' 0%nat = false /\ moving σ' 1%nat = false).
  { intros σ' Hs. split; apply Hs; cbn; set_solver. }
  split; [intros Q; apply L; eapply quiescent_stopped; eassumption|].
  destruct (emergency_stops _ _ _ H Hr) as (σ' & R & Q & E & Hs). exists σ'. auto.
Qed.

(** The blade stands still in an emergency: the same for the mower motor, whose
    handler the dispatcher calls when the robot has a mower service. *)
Theorem mower_stands_still_in_emergency r s σ :
  reachable (MS := MowerMotors) r s σ -> reasons σ <> 0 ->
  event (H := MowerMotors) = mw_OnEmergencyChangedEvent /\
  (forall needs flags, In CallMowerEmergency (dispatch_calls needs (EVENT_MASK GLOBAL) flags) <->
     needs = true /\ has flags EMERGENCY_CHANGED = true) /\
  (quiescent σ -> moving σ 0%nat = false) /\
  exists σ', rtc (inner (MS := MowerMotors)) σ σ' /\ quiescent σ' /\
    reasons σ' = reasons σ /\ moving σ' 0%nat = false.
Proof.
  intros H Hr. split; [reflexivity|]. split.
  { intros needs flags. unfold dispatch_calls. change (has (EVENT_MASK GLOBAL) (EVENT_MASK GLOBAL)) with true.
    destruct (has flags EMERGENCY_CHANGED), (has flags INPUTS_CHANGED), needs; cbn; intuition discriminate. }
  assert (L : forall σ', stopped (MS := MowerMotors) σ' -> moving σ' 0%nat = false).
  { intros σ' Hs. apply Hs; cbn; set_solver. }
  split; [intros Q; apply L; eapply quiescent_stopped; eassumption|].
  destruct (emergency_stops _ _ _ H Hr) as (σ' & R & Q & E & Hs). exists σ'. auto.
Qed.

(** *** Duties *)
Definition bounded (d : f32) : Prop := flt f1 d = false /\ flt d (fneg f1) = false.
Definition speeds_ok (s : DiffDriveService) : Prop := bounded (speed_l_ s) /\ bounded (speed_r_ s).
Definition duty_ok (o : dd_out) : Prop := match o with DriveDuty _ d => bounded d | _ => True end.

(** A section sends bounded duties only, and its result satisfies [P]. *)
Fixpoint emits_only {A} (P : A -> Prop) (c : crit dd_out A) : Prop :=
  match c with
  | Ret a => P a
  | Time k => forall t, emits_only P (k t)
  | Reasons k => forall r, emits_only P (k r)
  | Emit o k => duty_ok o /\ emits_only P k
  end.
Definition keeps_bounds (c : crit dd_out DiffDriveService) : Prop := emits_only speeds_ok c.

Lemma bounded_0 : bounded f0.
Proof. split; reflexivity. Qed.
Lemma bounded_clamp x : bounded (clamp (fneg f1) f1 x).
Proof. split; [apply clamp_hi|apply clamp_lo]; reflexivity. Qed.

Lemma keeps_bind {A} (P : A -> Prop) (f : A -> crit dd_out DiffDriveService) c :
  emits_only P c -> (forall a, P a -> keeps_bounds (f a)) -> keeps_bounds (crit_bind f c).
Proof.
  unfold keeps_bounds. intros Hc Hf. induction c as [a|k IH|k IH|o k IH]; cbn in *; auto.
  destruct Hc; auto.
Qed.
Lemma emits_ok l : Forall duty_ok l -> emits_only (fun _ => True) (emits l).
Proof. induction 1; cbn; auto. Qed.
Lemma dd_SetDuty_bounds s : speeds_ok s -> keeps_bounds (dd_SetDuty s).
Proof.
  intros [H1 H2]. unfold dd_SetDuty. cbn. intros r. pose proof bounded_0.
  destruct (negb _); cbn; repeat split; auto; apply H1 || apply H2 || apply bounded_0.
Qed.

Lemma keeps_ret s : speeds_ok s -> keeps_bounds (mret s).
Proof. exact (fun H => H). Qed.

Ltac bounds := repeat first
  [ exact I | match goal with H : speeds_ok _ |- speeds_ok _ => exact H end
  | match goal with H : speeds_ok _ |- emits_only speeds_ok (mret _) => exact H end
  | match goal with |- keeps_bounds (mret _) => apply keeps_ret end
  | apply dd_SetDuty_bounds
  | apply (keeps_bind (fun _ => True)); [first [exact I|exact (fun _ => I)]|]
  | apply (keeps_bind (fun _ => True)); [apply emits_ok; repeat constructor; repeat split_if; repeat constructor|]
  | apply (keeps_bind speeds_ok)
  | progress intros | progress cbv zeta | split_if ].

Lemma ProcessStatusUpdate_bounds regs s : speeds_ok s -> keeps_bounds (ProcessStatusUpdate regs s).
Proof. intros H. unfold ProcessStatusUpdate. bounds. Qed.
Lemma dd_tick_bounds s : speeds_ok s -> keeps_bounds (dd_tick s).
Proof.
  intros H. unfold dd_tick.
  assert (H0 : speeds_ok (s <| speed_r_ := f0 |> <| speed_l_ := f0 |>)) by (split; apply bounded_0).
  bounds.
Qed.
Lemma apply_twist_bounds regs v0 v5 s : keeps_bounds (apply_twist regs v0 v5 s).
Proof.
  unfold apply_twist. bounds; destruct (mix _ _ _) as [x y];
    assert (forall s, speeds_ok (s <| speed_l_ := clamp (fneg f1) f1 x |> <| speed_r_ := clamp (fneg f1) f1 y |>))
      by (intros; split; apply bounded_clamp); bounds; auto.
Qed.

(** C7. No wheel duty is ever above 1 or below -1: every critical section of the drive
    (and the dispatcher's emergency handler) sends only duties in range - or
    NaN, which no comparison catches - and leaves such speeds behind,
    whatever the twist, the time and the emergency reasons it reads. *)
Theorem duties_are_bounded regs p body next s now r :
  dd_runs regs p \/ dd_OnEmergencyChangedEvent = Ask (fun x => if x =? 0 then Done else p) ->
  p = Locked body next -> speeds_ok s ->
  let '(s', out) := run_crit now r (body s) in speeds_ok s' /\ Forall duty_ok out.
Proof.
  intros Hp -> Hs. assert (K : keeps_bounds (body s)).
  { destruct Hp as [Hp|Hp].
    - inversion Hp as [E1|st E1|st E1|v E1|E1|E1]; subst.
      + apply dd_tick_bounds, Hs.
      + unfold LeftESCCallback. bounds.
      + unfold RightESCCallback. bounds.
      + revert E1. unfold OnControlTwistChanged.
        repeat (destruct v as [|? v]; [discriminate|]). destruct v; [|discriminate].
        intros [= <- <-]. apply apply_twist_bounds.
      + cbn. unfold dd_OnStart. repeat split_if; cbn; auto; split; apply bounded_0.
      + cbn. split; apply bounded_0.
    - unfold dd_OnEmergencyChangedEvent in Hp. injection Hp as Hf.
      apply (f_equal (fun f => f 1)) in Hf. cbn [Z.eqb Pos.eqb] in Hf. injection Hf as <- <-.
      apply dd_SetDuty_bounds. split; apply bounded_0. }
  revert K. unfold keeps_bounds. generalize (body s). clear.
  induction c as [a|k IH|k IH|o k IH]; cbn.
  - intros H. split; [exact H|constructor].
  - intros H. apply IH, H.
  - intros H. apply IH, H.
  - intros [Ho Hk]. specialize (IH Hk). destruct (run_crit now r k). destruct IH. split; [assumption|constructor; assumption].
Qed.

(** ** Witnesses *)
Module SystemDemo.
Definition regs : dd_regs := {| WheelDistance := d_of_Z 1; WheelTicksPerMeter := d_of_Z 300 |}.

(** The drive is told to go, then a stop button is pressed. *)
Definition driving : DiffDriveService :=
  initial_diff_drive <| speed_l_ := f1 |> <| speed_r_ := fneg f1 |> <| dd_last_duty_received_micros_ := 500 |>.

Example twist_forward :
  (fun '(s, o) => (map (fun o => match o with DriveDuty m d => Some (m, d) | _ => None end) o))
    (run_crit 1000 0 (apply_twist regs (d_of_Z 1) (d_of_Z 0) initial_diff_drive)) =
  [Some (LeftESC, f1); Some (RightESC, fneg f1)].
Proof. vm_compute. reflexivity. Qed.

Lemma drive_witness : exists σ, reachable (MS := DiffDriveMotors regs) 0 driving σ /\ reasons σ = 16 /\
  event (H := DiffDriveMotors regs) = dd_OnEmergencyChangedEvent /\
  (forall needs flags, In CallDiffDriveEmergency (dispatch_calls needs (EVENT_MASK GLOBAL) flags) <->
     has flags EMERGENCY_CHANGED = true) /\
  (quiescent σ -> moving σ 0%nat = false /\ moving σ 1%nat = false) /\
  exists σ', rtc (inner (MS := DiffDriveMotors regs)) σ σ' /\ quiescent σ' /\
    reasons σ' = reasons σ /\ moving σ' 0%nat = false /\ moving σ' 1%nat = false.
Proof.
  eexists. assert (R : reachable (MS := DiffDriveMotors regs) 0 driving
    ((initial 0 driving) <| reasons := 16 |> <| inflight ::= Datatypes.S |>)).
  { apply rtc_once. apply StepUpdate. discriminate. }
  split; [exact R|]. split; [reflexivity|].
  apply (drive_stands_still_in_emergency regs 0 driving _ R). discriminate.
Defined.

Lemma mower_witness : exists σ, reachable (MS := MowerMotors) 0 initial_mower σ /\ reasons σ = 16 /\
  event (H := MowerMotors) = mw_OnEmergencyChangedEvent /\
  (forall needs flags, In CallMowerEmergency (dispatch_calls needs (EVENT_MASK GLOBAL) flags) <->
     needs = true /\ has flags EMERGENCY_CHANGED = true) /\
  (quiescent σ -> moving σ 0%nat = false) /\
  exists σ', rtc (inner (MS := MowerMotors)) σ σ' /\ quiescent σ' /\
    reasons σ' = reasons σ /\ moving σ' 0%nat = false.
Proof.
  eexists. assert (R : reachable (MS := MowerMotors) 0 initial_mower
    ((initial 0 initial_mower) <| reasons := 16 |> <| inflight ::= Datatypes.S |>)).
  { apply rtc_once. apply StepUpdate. discriminate. }
  split; [exact R|]. split; [reflexivity|].
  apply (mower_stands_still_in_emergency 0 initial_mower _ R). discriminate.
Defined.

Lemma duties_witness :
  let '(s', out) := run_crit 100 0 (apply_twist regs (d_of_Z 7) (d_of_Z 0) initial_diff_drive) in
  speeds_ok s' /\ Forall duty_ok out.
Proof.
  apply (duties_are_bounded regs (OnControlTwistChanged regs [d_of_Z 7; d_of_Z 0; d_of_Z 0; d_of_Z 0; d_of_Z 0; d_of_Z 0])
    (apply_twist regs (d_of_Z 7) (d_of_Z 0)) Done); [left; constructor|reflexivity|split; split; reflexivity].
Defined.

(** A twist that is not a number passes the clamp and is sent as a duty. *)
Example nan_twist_is_sent :
  snd (run_crit 1000 0 (apply_twist regs S754_nan (d_of_Z 0) initial_diff_drive)) =
  [DriveDuty LeftESC S754_nan; DriveDuty RightESC S754_nan].
Proof. vm_compute. reflexivity. Qed.
End SystemDemo.
