(* ===== verification/Startup.v ===== *)
(** The start-up of the firmware ([main.cpp], [services.cpp], the robots' [NeedsService]) and the two LEDs on the board
    that show it ([status_led.c], [heartbeat.c]).

    A line is [true] when it is high; the LEDs are lit by a low line. *)
From S2P Require Import Prelude ServiceExt Emergency.

(** ** The status LED *)
(* @ status_led.h:10-10 LED_MODE *)
Inductive LED_MODE := LED_MODE_OFF | LED_MODE_ON | LED_MODE_BLINK_FAST | LED_MODE_BLINK_SLOW.
(* @ status_led.h:11-11 LED_COLOR *)
Inductive LED_COLOR := RED | GREEN.
(* @ status_led.c:10-14 status_led *)
Record status_led := mkLed { current_mode : LED_MODE; current_color : LED_COLOR; led_blink_state : Z; LINE_STATUS_LED_RED : bool; LINE_STATUS_LED_GREEN : bool }.
#[export] Instance eta_status_led : Eta status_led := fun s =>
  mkLed (current_mode s) (current_color s) (led_blink_state s) (LINE_STATUS_LED_RED s) (LINE_STATUS_LED_GREEN s).
Definition is_red (c : LED_COLOR) : bool := match c with RED => true | GREEN => false end.
(** The line of the colour is toggled, the other one set. *)
(* @ status_led.c:32-38 status_led_timer_cb (toggle) *)
Definition toggle (s : status_led) : status_led :=
  if is_red (current_color s) then s <| LINE_STATUS_LED_RED ::= negb |> <| LINE_STATUS_LED_GREEN := true |>
  else s <| LINE_STATUS_LED_GREEN ::= negb |> <| LINE_STATUS_LED_RED := true |>.
(** Every 50 ms. *)
(* @ status_led.c status_led_timer_cb *)
Definition status_led_timer_cb (s : status_led) : status_led :=
  match current_mode s with
  | LED_MODE_OFF => s <| LINE_STATUS_LED_RED := true |> <| LINE_STATUS_LED_GREEN := true |>
  | LED_MODE_ON => s <| LINE_STATUS_LED_RED := negb (is_red (current_color s)) |> <| LINE_STATUS_LED_GREEN := is_red (current_color s) |>
  | LED_MODE_BLINK_FAST => toggle s
  | LED_MODE_BLINK_SLOW =>
    let before := led_blink_state s in
    let s := s <| led_blink_state := u8 (before + 1) |> in if before mod 10 =? 0 then toggle s else s
  end.
(* @ status_led.c InitStatusLed *)
Definition InitStatusLed (s : status_led) : status_led := s <| current_mode := LED_MODE_OFF |> <| current_color := RED |>.
(* @ status_led.c SetStatusLedMode *)
Definition SetStatusLedMode (m : LED_MODE) (s : status_led) : status_led := s <| current_mode := m |>.
(* @ status_led.c SetStatusLedColor *)
Definition SetStatusLedColor (c : LED_COLOR) (s : status_led) : status_led := s <| current_color := c |>.
(** The lit colours. *)
Definition lit (s : status_led) : bool * bool := (negb (LINE_STATUS_LED_RED s), negb (LINE_STATUS_LED_GREEN s)).

Lemma status_led_keeps s : current_mode (status_led_timer_cb s) = current_mode s /\ current_color (status_led_timer_cb s) = current_color s.
Proof. unfold status_led_timer_cb, toggle. destruct (current_mode s) eqn:E; cbn; repeat case_match; cbn; auto. Qed.
(** A red LED is never green, from the first tick that sets the lines on; a steady green one is green. *)
Lemma red_stays_red n s : current_color s = RED -> LINE_STATUS_LED_GREEN s = true -> LINE_STATUS_LED_GREEN (Nat.iter n status_led_timer_cb s) = true.
Proof.
  intros C G. assert (I : current_color (Nat.iter n status_led_timer_cb s) = RED /\ LINE_STATUS_LED_GREEN (Nat.iter n status_led_timer_cb s) = true); [|apply I].
  induction n as [|n IH]; [auto|]. rewrite Nat.iter_succ. set (r := Nat.iter n _ s) in *. destruct IH as [C' G']. split; [rewrite (proj2 (status_led_keeps r)); exact C'|].
  unfold status_led_timer_cb, toggle. cbn. rewrite C'. destruct (current_mode r); cbn; repeat case_match; cbn; auto.
Qed.
Lemma red_from_first n s : current_color s = RED -> led_blink_state s mod 10 = 0 -> LINE_STATUS_LED_GREEN (Nat.iter (S n) status_led_timer_cb s) = true.
Proof.
  intros C B. rewrite Nat.iter_succ_r. apply red_stays_red; [rewrite (proj2 (status_led_keeps s)); exact C|].
  unfold status_led_timer_cb, toggle. cbn. rewrite C, B. destruct (current_mode s); reflexivity.
Qed.
Lemma steady_is_lit n s : current_mode s = LED_MODE_ON -> lit (Nat.iter (S n) status_led_timer_cb s) = (is_red (current_color s), negb (is_red (current_color s))).
Proof.
  intros M. assert (K : current_mode (Nat.iter n status_led_timer_cb s) = LED_MODE_ON /\ current_color (Nat.iter n status_led_timer_cb s) = current_color s).
  { induction n as [|n [IH1 IH2]]; [auto|]. rewrite Nat.iter_succ. split; [rewrite (proj1 (status_led_keeps _)); exact IH1|rewrite (proj2 (status_led_keeps _)); exact IH2]. }
  rewrite Nat.iter_succ. set (r := Nat.iter n _ s) in *. unfold status_led_timer_cb, lit. destruct K as [-> ->]. cbn. rewrite negb_involutive. reflexivity.
Qed.

(** ** The heartbeat LED *)
(* @ heartbeat.c:13-15 heartbeat *)
Record heartbeat := mkHeartbeat { hb_blink_state : Z; LINE_HEARTBEAT_LED_RED : bool; LINE_HEARTBEAT_LED_GREEN : bool; next_ms : Z }.
(* @ heartbeat.h:10-10 HEARTBEAT_RECENT_MS *)
Definition HEARTBEAT_RECENT_MS : Z := 100.
(** [idle_ms]: since the idle thread has run last. *)
(* @ heartbeat.c heartbeat_timer_cb *)
Definition heartbeat_timer_cb (idle_ms : Z) (s : heartbeat) : heartbeat :=
  let elapsed := HEARTBEAT_RECENT_MS <? idle_ms in
  let flash n := mkHeartbeat n (negb elapsed) elapsed 100 in
  if hb_blink_state s =? 0 then flash 1
  else if hb_blink_state s =? 1 then mkHeartbeat 2 true true 100
  else if hb_blink_state s =? 2 then flash 3
  else mkHeartbeat 0 true true 500.
(** Four callbacks are a period: two flashes, green while the idle thread runs and red when it does not. *)
Lemma heartbeat_period a b c d s : hb_blink_state s = 0 ->
  let s1 := heartbeat_timer_cb a s in let s2 := heartbeat_timer_cb b s1 in let s3 := heartbeat_timer_cb c s2 in let s4 := heartbeat_timer_cb d s3 in
  LINE_HEARTBEAT_LED_RED s1 = negb (100 <? a) /\ LINE_HEARTBEAT_LED_GREEN s1 = (100 <? a) /\
  LINE_HEARTBEAT_LED_RED s3 = negb (100 <? c) /\ LINE_HEARTBEAT_LED_GREEN s3 = (100 <? c) /\
  (LINE_HEARTBEAT_LED_RED s2, LINE_HEARTBEAT_LED_GREEN s2) = (true, true) /\ (LINE_HEARTBEAT_LED_RED s4, LINE_HEARTBEAT_LED_GREEN s4) = (true, true) /\
  next_ms s1 + next_ms s2 + next_ms s3 + next_ms s4 = 800 /\ hb_blink_state s4 = 0.
Proof. intros H. unfold heartbeat_timer_cb. rewrite H. cbn. repeat split. Qed.

(** ** The services *)
(** The ids of [xbot::service_ids], which is generated. *)
Inductive service_id := EMERGENCY | DIFF_DRIVE | MOWER | IMU | BMS | POWER | GPS | INPUT | HIGH_LEVEL.
#[export] Instance service_id_eq : EqDecision service_id.
Proof. solve_decision. Defined.
(* @ robot.hpp:21-23 Robot::NeedsService *)
Definition robot_NeedsService (id : service_id) : bool := bool_decide (id <> BMS).
(* @ sabo_robot.hpp:32-35 SaboRobot::NeedsService *)
Definition sabo_NeedsService (has_bms : bool) (id : service_id) : bool := if decide (id = BMS) then has_bms else robot_NeedsService id.
(* @ xbot_robot.hpp:17-19 xBotRobot::NeedsService *)
Definition xbot_NeedsService (id : service_id) : bool := bool_decide (id <> MOWER).

(** What the main thread does. *)
Inductive startup_step :=
  | RegisterGpioDriver | RegisterSimulatedDriver | Require (id : service_id) | Start (id : service_id)
  | InitPlatform | IoStart | DispatchEventsStart | LogMountError | LogUnsupported.
#[export] Instance startup_step_eq : EqDecision startup_step.
Proof. solve_decision. Defined.
Section StartServices.
Context (NeedsService : service_id -> bool) (platform_sabo debug_build : bool).
(* @ services.cpp:22-25 StartServices (START_IF_NEEDED) *)
Definition START_IF_NEEDED (id : service_id) : list startup_step := if NeedsService id then [Start id] else [].
Definition require_if_needed (id : service_id) : list startup_step := if NeedsService id then [Require id] else [].
(* @ services.cpp StartServices *)
Definition StartServices : list startup_step :=
  (if NeedsService INPUT then (if platform_sabo then [] else [RegisterGpioDriver]) ++ (if debug_build then [RegisterSimulatedDriver] else []) else []) ++
  START_IF_NEEDED BMS ++
  require_if_needed INPUT ++ require_if_needed DIFF_DRIVE ++ require_if_needed MOWER ++ require_if_needed IMU ++ require_if_needed POWER ++
  START_IF_NEEDED EMERGENCY ++ START_IF_NEEDED IMU ++ START_IF_NEEDED POWER ++ START_IF_NEEDED DIFF_DRIVE ++ START_IF_NEEDED MOWER ++
  START_IF_NEEDED GPS ++ START_IF_NEEDED INPUT ++ START_IF_NEEDED HIGH_LEVEL.

(** How far [main] gets: it waits for ever without a MAC address, without a file system and on a board it does not support. *)
Inductive main_outcome := NoMacAddress | NoFilesystem | NotSupported | Running.
#[export] Instance main_outcome_eq : EqDecision main_outcome.
Proof. solve_decision. Defined.
(** The hardware is what the identification, the file system and the robot say; the log lines repeat every second. *)
(* @ main.cpp main *)
Definition main (mac_address filesystem supported : bool) (led : status_led) : main_outcome * status_led * list startup_step :=
  let led := SetStatusLedColor RED (SetStatusLedMode LED_MODE_ON (InitStatusLed led)) in
  if negb mac_address then (NoMacAddress, led, [])
  else if negb filesystem then (NoFilesystem, SetStatusLedColor RED (SetStatusLedMode LED_MODE_BLINK_SLOW led), [LogMountError])
  else if negb supported then (NotSupported, SetStatusLedColor RED (SetStatusLedMode LED_MODE_BLINK_FAST led), [LogUnsupported])
  else (Running, SetStatusLedColor GREEN led, [InitPlatform; IoStart] ++ StartServices ++ [DispatchEventsStart]).
End StartServices.

(** The emergency service's state through the start-up, with the services' numbers. *)
Definition service_num (id : service_id) : nat :=
  match id with EMERGENCY => 0 | DIFF_DRIVE => 1 | MOWER => 2 | IMU => 3 | BMS => 4 | POWER => 5 | GPS => 6 | INPUT => 7 | HIGH_LEVEL => 8 end.
Section Supervision.
Context `{ER : EmergencyReasons}.
Fixpoint require_all (l : list startup_step) (s : EmergencyService) : option EmergencyService :=
  match l with
  | [] => Some s
  | Require id :: l => s ← RequireService (service_num id) s; require_all l s
  | _ :: l => require_all l s
  end.
End Supervision.
(** [a] comes before [b]. *)
Definition comes_before (a b : startup_step) (l : list startup_step) : Prop := exists l1 l2 l3, l = l1 ++ a :: l2 ++ b :: l3.
Fixpoint comes_beforeb (a b : startup_step) (l : list startup_step) : bool :=
  match l with [] => false | x :: l => if decide (x = a) then bool_decide (b ∈ l) else comes_beforeb a b l end.
Lemma comes_beforeb_ok a b l : comes_beforeb a b l = true -> comes_before a b l.
Proof.
  induction l as [|x l IH]; cbn; [discriminate|]. destruct (decide (x = a)) as [->|].
  - intros H. apply bool_decide_eq_true, list_elem_of_split in H as (l2 & l3 & ->). exists [], l2, l3. reflexivity.
  - intros H. destruct (IH H) as (l1 & l2 & l3 & ->). exists (x :: l1), l2, l3. reflexivity.
Qed.

(** ** The order of the start-up *)
Section Order.
Context `{ER : EmergencyReasons} (needs : service_id -> bool) (sabo debug : bool).
(** The services the emergency service watches. *)
Definition watched : list service_id := [INPUT; DIFF_DRIVE; MOWER; IMU; POWER].
Lemma watched_in_order id : needs EMERGENCY = true -> id ∈ watched -> needs id = true ->
  let steps := StartServices needs sabo debug in comes_before (Require id) (Start EMERGENCY) steps /\ comes_before (Start EMERGENCY) (Start id) steps.
Proof.
  intros E W N. assert (B : comes_beforeb (Require id) (Start EMERGENCY) (StartServices needs sabo debug) && comes_beforeb (Start EMERGENCY) (Start id) (StartServices needs sabo debug) = true).
  { unfold StartServices, START_IF_NEEDED, require_if_needed, watched in *. rewrite E. repeat (apply elem_of_cons in W as [->|W]; [rewrite N|]); [..|inversion W];
      destruct (needs BMS), (needs INPUT), (needs DIFF_DRIVE), (needs MOWER), (needs IMU), (needs POWER), (needs GPS), (needs HIGH_LEVEL), sabo, debug; vm_compute; try reflexivity; congruence. }
  apply andb_prop in B as [B1 B2]. split; apply comes_beforeb_ok; assumption.
Qed.
Lemma elem_of_start (b : bool) x id : Start id ∈ (if b then [Start x] else []) <-> id = x /\ b = true.
Proof. destruct b; rewrite ?list_elem_of_singleton, ?elem_of_nil; split; [intros [= ->]; auto|intros [-> _]; reflexivity|intros []|intros [_ [=]]]. Qed.
Lemma elem_of_other (b : bool) x id : x <> Start id -> Start id ∈ (if b then [x] else []) <-> False.
Proof. intros N. destruct b; rewrite ?list_elem_of_singleton, ?elem_of_nil; split; congruence || tauto. Qed.
Lemma StartServices_starts id : Start id ∈ StartServices needs sabo debug <-> needs id = true.
Proof.
  unfold StartServices, START_IF_NEEDED, require_if_needed. rewrite !elem_of_app, !elem_of_start, !elem_of_other by discriminate.
  assert (D : Start id ∈ (if needs INPUT then (if sabo then [] else [RegisterGpioDriver]) ++ (if debug then [RegisterSimulatedDriver] else []) else []) <-> False).
  { destruct (needs INPUT), sabo, debug; cbn; rewrite ?elem_of_cons, ?elem_of_nil; split; intuition discriminate. }
  rewrite D. destruct id; intuition discriminate.
Qed.
End Order.

(** The emergency service's part of the start-up. *)
Section Required.
Context `{ER : EmergencyReasons} {OK : EmergencyReasonsOk} (needs : service_id -> bool) (sabo debug : bool).
Definition required_ids (l : list startup_step) : list service_id := omap (fun s => match s with Require id => Some id | _ => None end) l.
Lemma require_all_spec l : forall e, (length (required_services_ e) + length (required_ids l) <= MAX_REQUIRED_SERVICES)%nat -> is_u16 (reasons_ e) ->
  exists e', require_all l e = Some e' /\ required_services_ e' = required_services_ e ++ map service_num (required_ids l) /\ is_u16 (reasons_ e') /\
    (has SERVICE_NOT_READY (reasons_ e) = true \/ required_ids l <> [] -> has SERVICE_NOT_READY (reasons_ e') = true).
Proof.
  induction l as [|x l IH]; intros e H U; [exists e; rewrite app_nil_r; repeat split; try assumption; try (apply U); intros [K|[]]; [exact K|reflexivity]|].
  destruct x; try (apply (IH e); assumption). cbn [require_all required_ids omap list_omap] in *. fold (required_ids l) in *. cbn [length] in H.
  unfold RequireService. rewrite (proj2 (Nat.ltb_lt _ _)) by lia. cbn [mbind option_bind]. set (e1 := e <| required_services_ ::= _ |> <| reasons_ ::= _ |>).
  pose proof (flag_u16 SERVICE_NOT_READY ltac:(cbn; tauto)) as F. assert (R : reasons_ e1 = Z.lor (reasons_ e) SERVICE_NOT_READY) by (cbn; apply u16_small; auto with mower).
  destruct (IH e1) as (e' & E & Q & U' & K); [cbn; rewrite length_app; cbn; lia|rewrite R; auto with mower|]. exists e'. split; [exact E|].
  split; [rewrite Q; cbn; rewrite <- app_assoc; reflexivity|]. split; [exact U'|]. intros _. apply K. left. rewrite R. unfold has.
  rewrite Z.land_lor_distr_r, Z.land_diag. apply negb_true_iff, Z.eqb_neq. intros Z0. apply Z.lor_eq_0_iff in Z0. pose proof (reason_range SERVICE_NOT_READY ltac:(cbn; tauto)). lia.
Qed.
Lemma required_ids_app l1 l2 : required_ids (l1 ++ l2) = required_ids l1 ++ required_ids l2.
Proof. apply omap_app. Qed.
Lemma required_ids_start (b : bool) x : required_ids (if b then [Start x] else []) = [].
Proof. destruct b; reflexivity. Qed.
Lemma required_ids_require (b : bool) x : required_ids (if b then [Require x] else []) = if b then [x] else [].
Proof. destruct b; reflexivity. Qed.
Definition needed (l : list service_id) : list service_id := List.filter needs l.
Lemma required_ids_StartServices : required_ids (StartServices needs sabo debug) = needed watched.
Proof.
  unfold StartServices, START_IF_NEEDED, require_if_needed. rewrite !required_ids_app, !required_ids_start, !required_ids_require.
  replace (required_ids (if needs INPUT then _ else [])) with (@nil service_id) by (destruct (needs INPUT), sabo, debug; reflexivity).
  cbn [app]. rewrite !app_nil_r. unfold needed, watched. cbn [List.filter]. destruct (needs INPUT), (needs DIFF_DRIVE), (needs MOWER), (needs IMU), (needs POWER); reflexivity.
Qed.

Lemma main_waits mac fs supported led : mac && fs && supported = false -> exists o led' steps, main needs sabo debug mac fs supported led = (o, led', steps) /\
  o <> Running /\ current_color led' = RED /\ led_blink_state led' = led_blink_state led /\ (forall id, ~ Start id ∈ steps) /\ required_ids steps = [].
Proof.
  unfold main. destruct mac, fs, supported; cbn [andb negb]; intros H; try discriminate; (eexists _, _, _; split; [reflexivity|]); (split; [discriminate|]);
    (split; [reflexivity|]); (split; [reflexivity|]); (split; [intros id Hid; rewrite ?elem_of_cons, ?elem_of_nil in Hid; intuition discriminate|reflexivity]).
Qed.
Lemma comes_before_app a b l1 l l2 : comes_before a b l -> comes_before a b (l1 ++ l ++ l2).
Proof. intros (x & y & z & ->). exists (l1 ++ x), y, (z ++ l2). rewrite <- !app_assoc. cbn. rewrite <- app_assoc. reflexivity. Qed.
Lemma main_starts id : Start id ∈ [InitPlatform; IoStart] ++ StartServices needs sabo debug ++ [DispatchEventsStart] <-> needs id = true.
Proof. rewrite !elem_of_app, StartServices_starts, !elem_of_cons, !elem_of_nil. intuition discriminate. Qed.

(** C36. The start-up is supervised. [main] runs the services only when the board has its MAC address, the file
    system is mounted and the robot accepts the hardware, and then starts exactly those the robot needs; it shows
    this: the status LED is green exactly then, from its first tick on. Every service the emergency service has to
    watch (inputs, drive, mower, inertial sensor, power) is required before the emergency service is started, which
    is started before it; there is room for them all; and if there is one the mower starts in an emergency. *)
Theorem startup_is_supervised mac fs supported led e : required_services_ e = [] -> is_u16 (reasons_ e) -> led_blink_state led = 0 ->
  let '(outcome, led, steps) := main needs sabo debug mac fs supported led in
  (outcome = Running <-> mac && fs && supported = true) /\
  (forall id, Start id ∈ steps <-> outcome = Running /\ needs id = true) /\
  (forall n, let '(_, green) := lit (Nat.iter (S n) status_led_timer_cb led) in green = bool_decide (outcome = Running)) /\
  (forall id, needs EMERGENCY = true -> id ∈ watched -> Start id ∈ steps ->
     comes_before (Require id) (Start EMERGENCY) steps /\ comes_before (Start EMERGENCY) (Start id) steps) /\
  exists e', require_all steps e = Some e' /\ required_services_ e' = (if bool_decide (outcome = Running) then map service_num (needed watched) else []) /\
    (outcome = Running -> needed watched <> [] -> has SERVICE_NOT_READY (reasons_ e') = true).
Proof.
  intros He Hu Hl. destruct (mac && fs && supported) eqn:E.
  - apply andb_prop in E as [[-> ->]%andb_prop ->]. unfold main. cbn [negb]. split; [tauto|]. split; [intros id; rewrite main_starts; tauto|].
    split; [intros n; rewrite steady_is_lit by reflexivity; reflexivity|]. split.
    + intros id Hn Hw Hs%main_starts. destruct (watched_in_order needs sabo debug id Hn Hw Hs). split; apply comes_before_app; assumption.
    + destruct (require_all_spec ([InitPlatform; IoStart] ++ StartServices needs sabo debug ++ [DispatchEventsStart]) e) as (e' & R & Q & _ & K).
      * rewrite He, !required_ids_app, required_ids_StartServices. cbn [required_ids omap list_omap app]. rewrite app_nil_r. unfold needed, watched.
        cbn [List.filter]. destruct (needs INPUT), (needs DIFF_DRIVE), (needs MOWER), (needs IMU), (needs POWER); apply Nat.leb_le; reflexivity.
      * exact Hu.
      * rewrite !required_ids_app, required_ids_StartServices, app_nil_r in Q, K. exists e'. split; [exact R|]. split; [rewrite Q, He; reflexivity|]. intros _ N. apply K. right. exact N.
  - destruct (main_waits mac fs supported led E) as (o & led' & steps & -> & N & C & B & S1 & S2). rewrite (bool_decide_eq_false_2 _ N).
    split; [split; [intros; congruence|discriminate]|]. split; [intros id; split; [intros H; destruct (S1 id H)|intros [H _]; congruence]|].
    split; [intros n; unfold lit; rewrite red_from_first by (exact C || (rewrite B, Hl; reflexivity)); reflexivity|].
    split; [intros id _ _ H; destruct (S1 id H)|]. destruct (require_all_spec steps e) as (e' & R & Q & _); [rewrite He, S2; cbn; lia|exact Hu|].
    exists e'. split; [exact R|]. split; [rewrite Q, He, S2; reflexivity|intros; congruence].
Qed.
End Required.

(** ** Examples *)
Module StartupDemo.
#[local] Instance demo : EmergencyReasons := demo_reasons.
#[local] Instance demo_ok : EmergencyReasonsOk := demo_reasons_ok.
Definition dark : status_led := mkLed LED_MODE_OFF RED 0 false false.
(** Some services of the trace of a robot that needs all but the battery's management. *)
Lemma startup_witness : let '(o, led, steps) := main robot_NeedsService false false true true true dark in
  comes_before (Require MOWER) (Start EMERGENCY) steps /\ comes_before (Start EMERGENCY) (Start MOWER) steps /\ (lit (status_led_timer_cb led)).2 = true.
Proof.
  pose proof (startup_is_supervised robot_NeedsService false false true true true dark (mkEmergencyService 0 0 [])) as H.
  specialize (H ltac:(reflexivity) ltac:(unfold is_u16; cbn; lia) ltac:(reflexivity)).
  destruct (main robot_NeedsService false false true true true dark) as [[o led] steps]. destruct H as ((_ & O) & St & L & W & _). specialize (O ltac:(reflexivity)).
  destruct (W MOWER) as [W1 W2]; [reflexivity|right; right; left|apply St; split; [exact O|reflexivity]|]. split; [exact W1|]. split; [exact W2|].
  specialize (L 0%nat). cbn [Nat.iter] in L. destruct (lit _) as [r g]. cbn. rewrite L, O. reflexivity.
Defined.
(** The slow blinking has a short period when the counter, a byte, wraps: the line is toggled after 250 and after 256 ticks. *)
Example slow_blinking_stumbles : let at_ n := Nat.iter n status_led_timer_cb (mkLed LED_MODE_BLINK_SLOW RED 0 true true) in
  map (fun n => LINE_STATUS_LED_RED (at_ n)) [241; 250; 251; 256; 257]%nat = [false; false; true; true; false].
Proof. vm_compute. reflexivity. Qed.
(** The xBot does not redefine the battery's management away: it is started, although the service is meant to be opted in. *)
Example xbot_starts_bms : Start BMS ∈ StartServices xbot_NeedsService false false.
Proof. apply StartServices_starts. reflexivity. Qed.
End StartupDemo.
