(* ===== verification/Buffer.v ===== *)
(** The VESC byte buffer: [drivers/motor/vesc/buffer.cpp].

    A buffer is the array and the running index; [None] is an access outside
    the array. *)
From S2P Require Import Prelude Float32.

Definition cursor : Type := list Z * nat.

(** [buffer[( *index)++] = v]. *)
Definition put (v : Z) (c : cursor) : option cursor :=
  let '(buf, i) := c in
  if (i <? length buf)%nat then Some (<[i:=u8 v]> buf, S i) else None.
(** [buffer[i]]. *)
Definition peek (i : nat) (buf : list Z) : option Z := buf !! i.

Fixpoint puts (vs : list Z) (c : cursor) : option cursor :=
  match vs with [] => Some c | v :: vs => c ← put v c; puts vs c end.
Fixpoint peeks (n i : nat) (buf : list Z) : option (list Z) :=
  match n with O => Some [] | S n => b ← peek i buf; r ← peeks n (S i) buf; Some (b :: r) end.

(* @ vesc/buffer.cpp buffer_append_int16 *)
Definition buffer_append_int16 (number : Z) (c : cursor) : option cursor :=
  c ← put (Z.shiftr number 8) c; put number c.
(* @ vesc/buffer.cpp buffer_append_uint16 *)
Definition buffer_append_uint16 (number : Z) (c : cursor) : option cursor :=
  c ← put (Z.shiftr number 8) c; put number c.
(* @ vesc/buffer.cpp buffer_append_int32 *)
Definition buffer_append_int32 (number : Z) (c : cursor) : option cursor :=
  c ← put (Z.shiftr number 24) c; c ← put (Z.shiftr number 16) c;
  c ← put (Z.shiftr number 8) c; put number c.
(* @ vesc/buffer.cpp buffer_append_uint32 *)
Definition buffer_append_uint32 (number : Z) (c : cursor) : option cursor :=
  c ← put (Z.shiftr number 24) c; c ← put (Z.shiftr number 16) c;
  c ← put (Z.shiftr number 8) c; put number c.
(** The casts from [float] are undefined out of range. *)
(* @ vesc/buffer.cpp buffer_append_float16 *)
Definition buffer_append_float16 (number scale : f32) (c : cursor) : option cursor :=
  n ← f_to_int (-32768) 32767 (fmul number scale); buffer_append_int16 n c.
(* @ vesc/buffer.cpp buffer_append_float32 *)
Definition buffer_append_float32 (number scale : f32) (c : cursor) : option cursor :=
  n ← f_to_int (-2147483648) 2147483647 (fmul number scale); buffer_append_int32 n c.

(** [frexpf] and [ldexpf] of the C library. *)
Definition frexpf (x : f32) : f32 * Z :=
  match x with
  | S754_finite s m e => let d := Zpos (digits2_pos m) in (S754_finite s m (- d), e + d)
  | _ => (x, 0)
  end.
Definition ldexpf (x : f32) (e : Z) : f32 :=
  match x with
  | S754_finite s m ex => binary_normalize 24 128 (if s then Zneg m else Zpos m) (ex + e) s
  | _ => x
  end.

(** The comparison with [1.5e-38] is in [double]. *)
(* @ vesc/buffer.cpp buffer_append_float32_auto *)
Definition buffer_append_float32_auto (number : f32) (c : cursor) : option cursor :=
  let tiny := ddiv (d_of_Z 15) (dmul (d_of_Z (10 ^ 19)) (d_of_Z (10 ^ 20))) in
  let number := if flt (d_of_f32 (SFabs number)) tiny then f0 else number in
  let '(sig, e) := frexpf number in
  let sig_abs := SFabs sig in
  '(sig_i, e) ← (if fge sig_abs (f_lit 1 2) then
      n ← f_to_int 0 4294967295 (fmul (fmul (fsub sig_abs (f_lit 1 2)) (f_of_Z 2)) (f_of_Z 8388608));
      Some (n, e + 126)
    else Some (0, e));
  let res := Z.lor (u32 (Z.shiftl (Z.land e 255) 23)) (Z.land sig_i 8388607) in
  let res := if flt sig f0 then Z.lor res (Z.shiftl 1 31) else res in
  buffer_append_uint32 res c.

(* @ vesc/buffer.cpp buffer_get_uint16 *)
Definition buffer_get_uint16 (c : cursor) : option (Z * cursor) :=
  let '(buf, i) := c in
  b0 ← peek i buf; b1 ← peek (i + 1) buf;
  Some (u16 (Z.lor (Z.shiftl b0 8) b1), (buf, i + 2)%nat).
(* @ vesc/buffer.cpp buffer_get_int16 *)
Definition buffer_get_int16 (c : cursor) : option (Z * cursor) :=
  let '(buf, i) := c in
  b0 ← peek i buf; b1 ← peek (i + 1) buf;
  Some (s16 (Z.lor (Z.shiftl b0 8) b1), (buf, i + 2)%nat).
(* @ vesc/buffer.cpp buffer_get_uint32 *)
Definition buffer_get_uint32 (c : cursor) : option (Z * cursor) :=
  let '(buf, i) := c in
  b0 ← peek i buf; b1 ← peek (i + 1) buf; b2 ← peek (i + 2) buf; b3 ← peek (i + 3) buf;
  Some (Z.lor (Z.lor (Z.lor (u32 (Z.shiftl b0 24)) (Z.shiftl b1 16)) (Z.shiftl b2 8)) b3,
        (buf, i + 4)%nat).
(* @ vesc/buffer.cpp buffer_get_int32 *)
Definition buffer_get_int32 (c : cursor) : option (Z * cursor) :=
  let '(buf, i) := c in
  b0 ← peek i buf; b1 ← peek (i + 1) buf; b2 ← peek (i + 2) buf; b3 ← peek (i + 3) buf;
  Some (s32 (Z.lor (Z.lor (Z.lor (u32 (Z.shiftl b0 24)) (Z.shiftl b1 16)) (Z.shiftl b2 8)) b3),
        (buf, i + 4)%nat).
(* @ vesc/buffer.cpp buffer_get_float16 *)
Definition buffer_get_float16 (scale : f32) (c : cursor) : option (f32 * cursor) :=
  '(n, c) ← buffer_get_int16 c; Some (fdiv (f_of_Z n) scale, c).
(* @ vesc/buffer.cpp buffer_get_float32 *)
Definition buffer_get_float32 (scale : f32) (c : cursor) : option (f32 * cursor) :=
  '(n, c) ← buffer_get_int32 c; Some (fdiv (f_of_Z n) scale, c).

(** The significand is computed in [double] and rounded to [float]. *)
(* @ vesc/buffer.cpp buffer_get_float32_auto *)
Definition buffer_get_float32_auto (c : cursor) : option (f32 * cursor) :=
  '(res, c) ← buffer_get_uint32 c;
  let e := Z.land (Z.shiftr res 23) 255 in
  let sig_i := Z.land res 8388607 in
  let neg := has res (Z.shiftl 1 31) in
  let '(sig, e) :=
    if (negb (e =? 0) || negb (sig_i =? 0))%bool
    then (f_of_f64 (dadd (ddiv (d_of_f32 (f_of_Z sig_i)) (dmul (d_of_Z 8388608) (d_of_Z 2)))
                         (ddiv (d_of_Z 1) (d_of_Z 2))), e - 126)
    else (f0, e) in
  let sig := if neg then fneg sig else sig in
  Some (ldexpf sig e, c).

(* @ vesc/buffer.cpp buffer_get_bool *)
Definition buffer_get_bool (c : cursor) : option (bool * cursor) :=
  let '(buf, i) := c in b ← peek i buf; Some (b =? 1, (buf, S i)).
(* @ vesc/buffer.cpp buffer_append_bool *)
Definition buffer_append_bool (value : bool) (c : cursor) : option cursor :=
  if value then put 1 c else put 0 c.

(** ** Lemmas *)
Lemma puts_spec vs : forall buf i, (i + length vs <= length buf)%nat ->
  puts vs (buf, i) = Some (take i buf ++ map u8 vs ++ drop (i + length vs) buf, (i + length vs)%nat).
Proof.
  induction vs as [|v vs IH]; intros buf i H; cbn [puts length map].
  - rewrite Nat.add_0_r. cbn. rewrite take_drop. reflexivity.
  - cbn [length] in H. unfold put. assert ((i <? length buf)%nat = true) as -> by (apply Nat.ltb_lt; lia).
    cbn [mbind option_bind]. rewrite IH by (rewrite length_insert; lia). do 2 f_equal; [|lia].
    rewrite (take_S_r _ _ (u8 v)) by (apply list_lookup_insert_eq; lia).
    rewrite take_insert_ge, drop_insert_lt by lia. rewrite <- app_assoc.
    replace (i + S (length vs))%nat with (S i + length vs)%nat by lia. reflexivity.
Qed.

Lemma peek_app (a b : list Z) i k : i = (length a + k)%nat -> peek i (a ++ b) = peek k b.
Proof. intros ->. unfold peek. rewrite lookup_app_r by lia. f_equal. lia. Qed.

Lemma u8_shiftr z k : 0 <= k -> u8 (Z.shiftr z k) = z / 2 ^ k mod 256.
Proof. intros. unfold u8. rewrite Z.shiftr_div_pow2 by lia. reflexivity. Qed.


(** Two and four bytes, most significant first. *)
Lemma word16 z : Z.lor (Z.shiftl (u8 (Z.shiftr z 8)) 8) (u8 z) = u16 z.
Proof. rewrite lor_hi, u8_shiftr by width. change (2 ^ 8) with 256. width. Qed.
Lemma word32 z :
  Z.lor (Z.lor (Z.lor (u32 (Z.shiftl (u8 (Z.shiftr z 24)) 24)) (Z.shiftl (u8 (Z.shiftr z 16)) 16))
    (Z.shiftl (u8 (Z.shiftr z 8)) 8)) (u8 z) = u32 z.
Proof.
  rewrite u32_small by (rewrite Z.shiftl_mul_pow2 by lia; change (2 ^ 24) with 16777216; width).
  assert (E : Z.lor (Z.lor (Z.lor (Z.shiftl (u8 (Z.shiftr z 24)) 24) (Z.shiftl (u8 (Z.shiftr z 16)) 16))
    (Z.shiftl (u8 (Z.shiftr z 8)) 8)) (u8 z) =
    Z.lor (Z.shiftl (u8 (Z.shiftr z 24)) 24) (Z.lor (Z.shiftl (u8 (Z.shiftr z 16)) 16)
      (Z.lor (Z.shiftl (u8 (Z.shiftr z 8)) 8) (u8 z)))) by (rewrite !Z.lor_assoc; reflexivity).
  rewrite E. clear E. rewrite !u8_shiftr by lia.
  change (2 ^ 24) with 16777216. change (2 ^ 16) with 65536. change (2 ^ 8) with 256.
  rewrite (lor_hi _ _ 8) by width. change (2 ^ 8) with 256.
  rewrite (lor_hi _ _ 16) by (change (2 ^ 16) with 65536; width). change (2 ^ 16) with 65536.
  rewrite (lor_hi _ _ 24) by (change (2 ^ 24) with 16777216; width). change (2 ^ 24) with 16777216.
  width.
Qed.

Lemma append32_spec z buf i : (i + 4 <= length buf)%nat ->
  buffer_append_int32 z (buf, i) = Some (take i buf ++ map u8 [Z.shiftr z 24; Z.shiftr z 16; Z.shiftr z 8; z] ++ drop (i + 4) buf, (i + 4)%nat).
Proof.
  intros H. rewrite <- (puts_spec [Z.shiftr z 24; Z.shiftr z 16; Z.shiftr z 8; z]) by exact H.
  unfold buffer_append_int32. cbn [puts].
  destruct (put _ (buf, i)) as [c1|]; cbn; [|reflexivity]. destruct (put _ c1) as [c2|]; cbn; [|reflexivity].
  destruct (put _ c2) as [c3|]; cbn; [|reflexivity]. destruct (put _ c3); reflexivity.
Qed.
Lemma append16_spec z buf i : (i + 2 <= length buf)%nat ->
  buffer_append_int16 z (buf, i) = Some (take i buf ++ map u8 [Z.shiftr z 8; z] ++ drop (i + 2) buf, (i + 2)%nat).
Proof.
  intros H. rewrite <- (puts_spec [Z.shiftr z 8; z]) by exact H.
  unfold buffer_append_int16. cbn [puts].
  destruct (put _ (buf, i)) as [c1|]; cbn; [|reflexivity]. destruct (put _ c1); reflexivity.
Qed.

Lemma at_index {A} (buf a b : list A) i k : (i <= length buf)%nat -> (k < length a)%nat ->
  (take i buf ++ a ++ b) !! (i + k)%nat = a !! k.
Proof.
  intros H Hk. assert (length (take i buf) = i) by (rewrite length_take; lia).
  rewrite lookup_app_r by lia. rewrite lookup_app_l by lia. f_equal. lia.
Qed.
Lemma at_index0 {A} (buf a b : list A) i : (i <= length buf)%nat -> (0 < length a)%nat ->
  (take i buf ++ a ++ b) !! i = a !! 0%nat.
Proof. intros. rewrite <- (at_index buf a b i 0) by assumption. f_equal. lia. Qed.

Lemma get16_spec z buf i rest : (i <= length buf)%nat ->
  let buf' := take i buf ++ map u8 [Z.shiftr z 8; z] ++ rest in
  buffer_get_int16 (buf', i) = Some (s16 z, (buf', i + 2)%nat) /\
  buffer_get_uint16 (buf', i) = Some (u16 z, (buf', i + 2)%nat).
Proof.
  intros H buf'. unfold buffer_get_int16, buffer_get_uint16, peek, buf'.
  rewrite at_index0, at_index by (cbn; lia). cbn [lookup list_lookup mbind option_bind map].
  rewrite word16. split; do 2 f_equal; width.
Qed.
Lemma get32_spec z buf i rest : (i <= length buf)%nat ->
  let buf' := take i buf ++ map u8 [Z.shiftr z 24; Z.shiftr z 16; Z.shiftr z 8; z] ++ rest in
  buffer_get_int32 (buf', i) = Some (s32 z, (buf', i + 4)%nat) /\
  buffer_get_uint32 (buf', i) = Some (u32 z, (buf', i + 4)%nat).
Proof.
  intros H buf'. unfold buffer_get_int32, buffer_get_uint32, peek, buf'.
  rewrite at_index0, !at_index by (cbn; lia). cbn [lookup list_lookup mbind option_bind map].
  rewrite word32. split; do 2 f_equal; width.
Qed.

(** An append leaves the bytes before and after it alone. *)
Lemma append_frame {A} (buf a : list A) i n : (i + length a <= length buf)%nat -> length a = n ->
  take i (take i buf ++ a ++ drop (i + n) buf) = take i buf /\
  drop (i + n) (take i buf ++ a ++ drop (i + n) buf) = drop (i + n) buf.
Proof.
  intros H Ha. assert (L : length (take i buf) = i) by (rewrite length_take; lia). split.
  - apply take_app_length'. auto.
  - rewrite app_assoc. apply drop_app_length'. rewrite length_app. lia.
Qed.

(** What the buffer writes it reads back: a 16-bit integer, a 32-bit integer or a boolean
    appended at an index where it fits is returned, with the same index after
    it, by the corresponding getter, and no other byte changes. *)
Theorem buffer_roundtrip buf i :
  (forall z, (i + 2 <= length buf)%nat -> exists buf',
     buffer_append_int16 z (buf, i) = Some (buf', (i + 2)%nat) /\
     buffer_append_uint16 z (buf, i) = Some (buf', (i + 2)%nat) /\
     buffer_get_int16 (buf', i) = Some (s16 z, (buf', (i + 2)%nat)) /\
     buffer_get_uint16 (buf', i) = Some (u16 z, (buf', (i + 2)%nat)) /\
     take i buf' = take i buf /\ drop (i + 2) buf' = drop (i + 2) buf) /\
  (forall z, (i + 4 <= length buf)%nat -> exists buf',
     buffer_append_int32 z (buf, i) = Some (buf', (i + 4)%nat) /\
     buffer_append_uint32 z (buf, i) = Some (buf', (i + 4)%nat) /\
     buffer_get_int32 (buf', i) = Some (s32 z, (buf', (i + 4)%nat)) /\
     buffer_get_uint32 (buf', i) = Some (u32 z, (buf', (i + 4)%nat)) /\
     take i buf' = take i buf /\ drop (i + 4) buf' = drop (i + 4) buf) /\
  (forall b, (i < length buf)%nat -> exists buf',
     buffer_append_bool b (buf, i) = Some (buf', S i) /\
     buffer_get_bool (buf', i) = Some (b, (buf', S i)) /\
     take i buf' = take i buf /\ drop (S i) buf' = drop (S i) buf).
Proof.
  split; [|split].
  - intros z H. destruct (get16_spec z buf i (drop (i + 2) buf)) as [G1 G2]; [lia|].
    eexists. split; [apply append16_spec; exact H|]. split; [apply (append16_spec z buf i H)|].
    split; [exact G1|]. split; [exact G2|]. apply append_frame; [exact H|reflexivity].
  - intros z H. destruct (get32_spec z buf i (drop (i + 4) buf)) as [G1 G2]; [lia|].
    eexists. split; [apply append32_spec; exact H|]. split; [apply (append32_spec z buf i H)|].
    split; [exact G1|]. split; [exact G2|]. apply append_frame; [exact H|reflexivity].
  - intros b H. pose proof (puts_spec [if b then 1 else 0] buf i ltac:(cbn; lia)) as P.
    eexists. split; [|split; [|rewrite <- (Nat.add_1_r i); apply (append_frame buf [if b then 1 else 0]); [cbn; lia|reflexivity]]].
    + cbn [puts length] in P. rewrite Nat.add_1_r in P. unfold buffer_append_bool.
      destruct b; rewrite Nat.add_1_r; (destruct (put _ _); [exact P|discriminate P]).
    + unfold buffer_get_bool, peek. rewrite at_index0 by (cbn; lia). destruct b; reflexivity.
Qed.

Lemma buffer_roundtrip_witness : exists buf',
  buffer_append_int32 (-5) ([1; 2; 3; 4; 5; 6], 1%nat) = Some (buf', 5%nat) /\
  buffer_append_uint32 (-5) ([1; 2; 3; 4; 5; 6], 1%nat) = Some (buf', 5%nat) /\
  buffer_get_int32 (buf', 1%nat) = Some (-5, (buf', 5%nat)) /\
  buffer_get_uint32 (buf', 1%nat) = Some (4294967291, (buf', 5%nat)) /\
  take 1 buf' = [1] /\ drop 5 buf' = [6].
Proof. apply (proj1 (proj2 (buffer_roundtrip [1; 2; 3; 4; 5; 6] 1)) (-5)). cbn. lia. Defined.
