(* ===== verification/Vesc.v ===== *)
(** The VESC motor controller's serial protocol: [drivers/motor/vesc/VescDriver.cpp].

    Framing, checksum and message decoding; [None] is an access outside a buffer or
    an undefined cast. The reception buffers are in [UartRx]. *)
From S2P Require Import Prelude Float32 Motor Crc Buffer.

(* @ vesc/datatypes.h:597-598 COMM_PACKET_ID *)
Definition COMM_FW_VERSION : Z := 0.
(* @ vesc/datatypes.h:597-602 COMM_PACKET_ID *)
Definition COMM_GET_VALUES : Z := 4.
(* @ vesc/datatypes.h:597-603 COMM_PACKET_ID *)
Definition COMM_SET_DUTY : Z := 5.
(* @ vesc/datatypes.h:117-118 mc_fault_code *)
Definition FAULT_CODE_NONE : Z := 0.

(** [VescPayload::payload] and [working_buffer_]. *)
Definition PAYLOAD_SIZE : nat := 258.
Definition WORKING_SIZE : nat := 260.

(* @t VescDriver.h VescDriver *)
Record VescDriver := mkVesc {
  payload : list Z; payload_length : Z;
  working_buffer_ : list Z; working_buffer_fill_ : Z;
  vesc_latest : ESCState;
  notified : list ESCState   (** the callbacks made, in order *) }.
#[export] Instance eta_Vesc : Eta VescDriver := fun s =>
  mkVesc (payload s) (payload_length s) (working_buffer_ s) (working_buffer_fill_ s)
    (vesc_latest s) (notified s).

(* @ VescDriver.cpp VescDriver::VescDriver *)
Definition initial_vesc : VescDriver :=
  mkVesc (replicate PAYLOAD_SIZE 0) 0 (replicate WORKING_SIZE 0) 0
    (zero_esc <| status := ESC_STATUS_DISCONNECTED |>) [].

(** ** Receiving *)

Definition skip (n : nat) (c : cursor) : cursor := let '(b, i) := c in (b, (i + n)%nat).

(** The COMM_GET_VALUES message. *)
(* @ VescDriver.cpp:67-98 VescDriver::ProcessPayload (COMM_GET_VALUES) *)
Definition decode_values (st : ESCState) (message : list Z) : option ESCState :=
  '(t_pcb, c) ← buffer_get_float16 (f_of_Z 10) (message, 0%nat);
  '(t_motor, c) ← buffer_get_float16 (f_of_Z 10) c;
  let c := skip 4 c in
  '(cur, c) ← buffer_get_float32 (f_of_Z 100) c;
  let c := skip 4 (skip 4 c) in
  '(duty, c) ← buffer_get_float16 (f_of_Z 1000) c;
  '(rpm, c) ← buffer_get_float32 (f_of_Z 1) c;
  '(volt, c) ← buffer_get_float16 (f_of_Z 10) c;
  let c := skip 4 (skip 4 (skip 4 (skip 4 c))) in
  '(tacho, c) ← buffer_get_int32 c;
  '(tacho_abs, c) ← buffer_get_int32 c;
  fault ← peek (snd c) (fst c);
  Some (st <| temperature_pcb := t_pcb |> <| temperature_motor := t_motor |>
    <| current_input := cur |> <| duty_cycle := duty |> <| Motor.rpm := rpm |>
    <| voltage_input := volt |> <| Motor.tacho := u32 tacho |> <| tacho_absolute := u32 tacho_abs |>
    <| status := if negb (fault =? FAULT_CODE_NONE) then ESC_STATUS_ERROR else ESC_STATUS_OK |>
    <| direction := if flt rpm f0 then f1 else f0 |>).

(** The switch over the message type; unknown types leave the state alone. *)
(* @ VescDriver.cpp:57-102 VescDriver::ProcessPayload (switch) *)
Definition decode (st : ESCState) (packet_id : Z) (message : list Z) : option ESCState :=
  if packet_id =? COMM_FW_VERSION then
    major ← peek 0 message; minor ← peek 1 message;
    Some (st <| fw_major := major |> <| fw_minor := minor |>)
  else if packet_id =? COMM_GET_VALUES then decode_values st message
  else Some st.

(** The checks before the payload is used: length, header, trailer and CRC. *)
(* @ VescDriver.cpp:33-54 VescDriver::ProcessPayload (checks) *)
Definition frame_ok (wb : list Z) (fill : Z) : option bool :=
  len ← wb !! 1%nat;
  if negb (len + 5 =? fill) then Some false else
  b0 ← wb !! 0%nat; bt ← wb !! Z.to_nat (fill - 1);
  if (negb (b0 =? 2) || negb (bt =? 3))%bool then Some false else
  let expectedCRC := crc16 (take (Z.to_nat len) (drop 2 wb)) in
  hi ← wb !! Z.to_nat (fill - 3); lo ← wb !! Z.to_nat (fill - 2);
  let actualCRC := u16 (Z.lor (Z.shiftl hi 8) lo) in
  Some (expectedCRC =? actualCRC).

(* @ VescDriver.cpp VescDriver::ProcessPayload *)
Definition ProcessPayload (s : VescDriver) : option VescDriver :=
  ok ← frame_ok (working_buffer_ s) (working_buffer_fill_ s);
  if negb ok then Some (s <| working_buffer_fill_ := 0 |>) else
  packet_id ← working_buffer_ s !! 2%nat;
  st ← decode (vesc_latest s) packet_id (drop 3 (working_buffer_ s));
  Some (s <| vesc_latest := st |> <| notified ::= fun l => l ++ [st] |> <| working_buffer_fill_ := 0 |>).

(** [memchr(buffer, 0x02, len)]: the bytes from the first 0x02 on. *)
Fixpoint from_header (buffer : list Z) : list Z :=
  match buffer with [] => [] | b :: r => if b =? 2 then b :: r else from_header r end.

(** [working_buffer_[working_buffer_fill_++] = *buffer]. *)
Definition store_byte (b : Z) (s : VescDriver) : option VescDriver :=
  wb ← memcpy (working_buffer_ s) (Z.to_nat (working_buffer_fill_ s)) [b];
  Some (s <| working_buffer_ := wb |> <| working_buffer_fill_ ::= fun f => u8 (f + 1) |>).

(** One iteration of the loop: the new state and the bytes left. *)
(* @ VescDriver.cpp:115-163 VescDriver::ProcessBytes (loop body) *)
Definition process_step (s : VescDriver) (buffer : list Z) : option (VescDriver * list Z) :=
  if working_buffer_fill_ s =? 0 then
    match from_header buffer with
    | [] => Some (s, [])
    | b :: r => s ← store_byte b s; Some (s, r)
    end
  else if working_buffer_fill_ s =? 1 then
    match buffer with
    | [] => Some (s, [])
    | b :: r => s ← store_byte b s; Some (s, r)
    end
  else
    len ← working_buffer_ s !! 1%nat;
    let in_buffer := working_buffer_fill_ s - 2 in
    let bytes_to_take := Z.to_nat (Z.min (Z.of_nat (length buffer)) (u32 (len - in_buffer + 3))) in
    wb ← memcpy (working_buffer_ s) (Z.to_nat (working_buffer_fill_ s)) (take bytes_to_take buffer);
    let s := s <| working_buffer_ := wb |>
               <| working_buffer_fill_ ::= fun f => u8 (f + Z.of_nat bytes_to_take) |> in
    s ← (if len + 5 =? working_buffer_fill_ s
         then s ← ProcessPayload s; Some (s <| working_buffer_fill_ := 0 |>)
         else Some s);
    Some (s, drop bytes_to_take buffer).

(** Every iteration consumes a byte: [length buffer] is enough fuel. *)
Fixpoint process_loop (fuel : nat) (s : VescDriver) (buffer : list Z) : option VescDriver :=
  match buffer with
  | [] => Some s
  | _ => match fuel with
    | O => None
    | S fuel => '(s, rest) ← process_step s buffer; process_loop fuel s rest
    end
  end.

(** The result says whether more data is expected. *)
(* @ VescDriver.cpp VescDriver::ProcessBytes *)
Definition ProcessBytes (s : VescDriver) (buffer : list Z) : option (VescDriver * bool) :=
  match buffer with
  | [] => Some (s, true)
  | _ => s ← process_loop (length buffer) s buffer; Some (s, negb (working_buffer_fill_ s =? 0))
  end.

(** ** Sending *)

(** What goes out on the wire, from [prepend[3]] on. *)
(* @ VescDriver.cpp VescDriver::SendPacket *)
Definition SendPacket (s : VescDriver) : option (VescDriver * list Z) :=
  let n := Z.to_nat (payload_length s) in
  let crcPayload := crc16 (take n (payload s)) in
  p ← memcpy (payload s) n [u8 (Z.shiftr crcPayload 8); u8 (Z.land crcPayload 255); 3];
  Some (s <| payload := p |>, 2 :: u8 (payload_length s) :: take (n + 3) p).

(* @ VescDriver.cpp VescDriver::RequestStatus *)
Definition RequestStatus (raw_mode : bool) (s : VescDriver) : option (VescDriver * list Z) :=
  if raw_mode then Some (s, []) else
  p ← memcpy (payload s) 0 [COMM_GET_VALUES];
  SendPacket (s <| payload_length := 1 |> <| payload := p |>).

(* @ VescDriver.cpp VescDriver::SetDuty *)
Definition SetDuty (raw_mode : bool) (duty : f32) (s : VescDriver) : option (VescDriver * list Z) :=
  if raw_mode then Some (s, []) else
  p ← memcpy (payload s) 0 [COMM_SET_DUTY];
  n ← f_to_int (-2147483648) 2147483647 (fmul duty (f_of_Z 100000));
  '(p, _) ← buffer_append_int32 n (p, 1%nat);
  SendPacket (s <| payload_length := 5 |> <| payload := p |>).

(* @ VescDriver.cpp VescDriver::RawDataInput *)
Definition RawDataInput (raw_mode started : bool) (data : list Z) : list Z :=
  if negb raw_mode then [] else if negb started then [] else data.

(** ** Reading a long enough message never leaves the buffer *)
Lemma peek_some i (l : list Z) : (i < length l)%nat -> exists b, peek i l = Some b.
Proof. intros H. destruct (lookup_lt_is_Some_2 l i H) as [b Hb]. exists b. exact Hb. Qed.

Lemma get_float16_some scale l i : (i + 2 <= length l)%nat ->
  exists x, buffer_get_float16 scale (l, i) = Some (x, (l, i + 2)%nat).
Proof.
  intros H. unfold buffer_get_float16, buffer_get_int16.
  destruct (peek_some i l) as [a ->]; [lia|]. destruct (peek_some (i + 1) l) as [b ->]; [lia|].
  cbn. eauto.
Qed.
Lemma get_int32_some l i : (i + 4 <= length l)%nat ->
  exists x, buffer_get_int32 (l, i) = Some (x, (l, i + 4)%nat).
Proof.
  intros H. unfold buffer_get_int32.
  destruct (peek_some i l) as [a ->]; [lia|]. destruct (peek_some (i + 1) l) as [b ->]; [lia|].
  destruct (peek_some (i + 2) l) as [c ->]; [lia|]. destruct (peek_some (i + 3) l) as [d ->]; [lia|].
  cbn. eauto.
Qed.
Lemma get_float32_some scale l i : (i + 4 <= length l)%nat ->
  exists x, buffer_get_float32 scale (l, i) = Some (x, (l, i + 4)%nat).
Proof.
  intros H. unfold buffer_get_float32. destruct (get_int32_some l i H) as [x ->]. cbn. eauto.
Qed.

(** [read_next] performs the first read of the goal, proving that it is in bounds. *)
Ltac read_with L := let H := fresh in destruct L as [? H]; [cbn; lia|rewrite H; clear H; cbn [mbind option_bind]].
Ltac read_next := match goal with
  | |- context [buffer_get_float16 ?s (?l, ?i)] => read_with (get_float16_some s l i)
  | |- context [buffer_get_float32 ?s (?l, ?i)] => read_with (get_float32_some s l i)
  | |- context [buffer_get_int32 (?l, ?i)] => read_with (get_int32_some l i)
  | |- context [peek ?i ?l] => read_with (peek_some i l)
  end.

Lemma decode_some st id message : (54 <= length message)%nat -> exists st', decode st id message = Some st'.
Proof.
  intros H. unfold decode. split_if; [|split_if; [|eauto]].
  - do 2 read_next. eauto.
  - unfold decode_values, skip. repeat (read_next; cbn beta iota zeta). cbn [fst snd]. repeat read_next. eauto.
Qed.

(** ** The parser's invariant *)
Record vesc_ok (s : VescDriver) : Prop := {
  vesc_length : length (working_buffer_ s) = WORKING_SIZE;
  vesc_bytes : is_bytes (working_buffer_ s);
  vesc_payload : length (payload s) = PAYLOAD_SIZE;
  vesc_fill : is_u8 (working_buffer_fill_ s);
  vesc_header : forall n, working_buffer_ s !! 1%nat = Some n -> 2 <= working_buffer_fill_ s ->
    working_buffer_fill_ s < n + 5 }.

Lemma vesc_ok_reset s st l : vesc_ok s ->
  vesc_ok (s <| vesc_latest := st |> <| notified := l |> <| working_buffer_fill_ := 0 |>).
Proof. intros []. split; cbn; auto; [width|lia]. Qed.

Lemma frame_ok_some wb fill : length wb = WORKING_SIZE -> is_bytes wb ->
  exists b, frame_ok wb fill = Some b.
Proof.
  intros H Hb. unfold frame_ok, WORKING_SIZE in *.
  destruct (peek_some 1 wb) as [n Hn]; [lia|]. unfold peek in Hn. rewrite Hn. cbn [mbind option_bind].
  assert (is_u8 n) by (eapply (proj1 (Forall_lookup _ _)); eassumption). unfold is_u8 in *.
  split_if; bsimp; [eauto|].
  destruct (peek_some 0 wb) as [b0 X0]; [lia|]. unfold peek in X0. rewrite X0. cbn [mbind option_bind].
  destruct (peek_some (Z.to_nat (fill - 1)) wb) as [b1 X1]; [lia|]. unfold peek in X1. rewrite X1. cbn [mbind option_bind].
  split_if; [eauto|].
  destruct (peek_some (Z.to_nat (fill - 3)) wb) as [b2 X2]; [lia|]. unfold peek in X2. rewrite X2. cbn [mbind option_bind].
  destruct (peek_some (Z.to_nat (fill - 2)) wb) as [b3 X3]; [lia|]. unfold peek in X3. rewrite X3. cbn. eauto.
Qed.

Lemma ProcessPayload_some s : length (working_buffer_ s) = WORKING_SIZE -> is_bytes (working_buffer_ s) ->
  exists st l, ProcessPayload s = Some (s <| vesc_latest := st |> <| notified := l |> <| working_buffer_fill_ := 0 |>) /\
    (l = notified s \/ frame_ok (working_buffer_ s) (working_buffer_fill_ s) = Some true /\ l = notified s ++ [st]).
Proof.
  intros H Hb. unfold ProcessPayload.
  destruct (frame_ok_some _ (working_buffer_fill_ s) H Hb) as [[] E]; rewrite E; cbn [mbind option_bind negb].
  - unfold WORKING_SIZE in H.
    destruct (peek_some 2 (working_buffer_ s)) as [id Ei]; [lia|]. unfold peek in Ei. rewrite Ei. cbn [mbind option_bind].
    destruct (decode_some (vesc_latest s) id (drop 3 (working_buffer_ s))) as [st ->]; [rewrite length_drop; lia|].
    cbn. eauto 10.
  - exists (vesc_latest s), (notified s). split; [destruct s; reflexivity|auto].
Qed.

Lemma memcpy_bytes dst off src res : memcpy dst off src = Some res ->
  is_bytes dst -> is_bytes src -> is_bytes res.
Proof.
  unfold memcpy. split_if; [|discriminate]. intros [= <-] H1 H2. unfold is_bytes in *.
  rewrite !Forall_app. repeat split; auto using Forall_take, Forall_drop.
Qed.
Lemma memcpy_lookup {A} (dst src res : list A) off k : memcpy dst off src = Some res ->
  (k < off \/ off + length src <= k)%nat -> res !! k = dst !! k.
Proof.
  unfold memcpy. destruct (off + length src <=? length dst)%nat eqn:E; [|discriminate]. bsimp. intros [= <-] H.
  assert (length (take off dst) = off) by (rewrite length_take; lia).
  destruct H as [H|H].
  - rewrite lookup_app_l by lia. apply lookup_take_lt. exact H.
  - rewrite lookup_app_r by lia. rewrite lookup_app_r by lia. rewrite lookup_drop. f_equal. lia.
Qed.

Lemma store_byte_ok s b : vesc_ok s -> is_u8 b -> working_buffer_fill_ s <= 1 ->
  exists s', store_byte b s = Some s' /\ vesc_ok s' /\ notified s' = notified s.
Proof.
  intros [H1 H2 H3 H4 H5] Hb Hf. unfold store_byte, WORKING_SIZE in *. unfold is_u8 in H4.
  destruct (memcpy (working_buffer_ s) _ [b]) as [wb|] eqn:E.
  - eexists. split; [reflexivity|]. split; [|reflexivity]. split; cbn; auto with mower.
    + rewrite (memcpy_length _ _ _ _ E). exact H1.
    + eapply memcpy_bytes; [exact E|exact H2|constructor; auto].
    + intros n Hn. rewrite u8_small by width. intros Hf2. pose proof E as E'.
      assert (Hn8 : is_u8 n); [|unfold is_u8 in Hn8; lia].
      eapply (proj1 (Forall_lookup _ _)); [eapply memcpy_bytes; [exact E|exact H2|constructor; auto]|exact Hn].
  - unfold memcpy in E. split_if_in E; [discriminate|]. bsimp. cbn in *. lia.
Qed.

Lemma from_header_le buffer : (length (from_header buffer) <= length buffer)%nat.
Proof. induction buffer as [|b r IH]; cbn; [lia|]. destruct (b =? 2); cbn; lia. Qed.
Lemma from_header_suffix buffer : exists pre, buffer = pre ++ from_header buffer.
Proof. induction buffer as [|b r [pre IH]]; [exists []; reflexivity|]. cbn. destruct (b =? 2); [exists []; reflexivity|]. exists (b :: pre). cbn. rewrite <- IH. reflexivity. Qed.
Lemma from_header_bytes buffer : is_bytes buffer -> is_bytes (from_header buffer).
Proof. induction 1 as [|b r Hb Hr IH]; cbn; [constructor|]. destruct (b =? 2); [constructor; auto|exact IH]. Qed.

(** What goes over the wire for a payload. *)
Definition vesc_frame (p : list Z) : list Z :=
  2 :: Z.of_nat (length p) :: p ++ [crc16 p / 256; crc16 p mod 256; 3].

Lemma length_vesc_frame p : length (vesc_frame p) = (length p + 5)%nat.
Proof. unfold vesc_frame. cbn. rewrite length_app. cbn. lia. Qed.
(** [heard received st l st' left]: of what is received, [left] is left over; before it, in this order, are the frames
    that were reported, each whole but for its header, with other bytes between them. A frame's length, CRC and trailer
    are right; [tail] is what the working buffer has behind it. Each state is decoded from the one before. *)
Inductive heard : list Z -> ESCState -> list ESCState -> ESCState -> list Z -> Prop :=
| heard_skip pre left st : heard (pre ++ left) st [] st left
| heard_frame pre p tail id rest st st1 l st' left :
    (length p <= 250)%nat -> is_bytes p -> length (vesc_frame p ++ tail) = WORKING_SIZE ->
    (vesc_frame p ++ tail) !! 2%nat = Some id -> decode st id (drop 3 (vesc_frame p ++ tail)) = Some st1 ->
    heard rest st1 l st' left -> heard (pre ++ drop 1 (vesc_frame p) ++ rest) st (st1 :: l) st' left.
Lemma heard_pre pre a st l st' b : heard a st l st' b -> heard (pre ++ a) st l st' b.
Proof. intros H. destruct H; rewrite app_assoc; econstructor; eassumption. Qed.
Lemma heard_trans a st l st1 b l' st2 c : heard a st l st1 b -> heard b st1 l' st2 c -> heard a st (l ++ l') st2 c.
Proof. induction 1; intros H'; [apply heard_pre, H'|]. cbn. econstructor; eauto. Qed.
Lemma heard_more a st l st' b c : heard a st l st' b -> heard (a ++ c) st l st' (b ++ c).
Proof. induction 1; rewrite <- !app_assoc; econstructor; eassumption. Qed.
(** What the working buffer holds of a frame behind its header. A frame that is longer than the 8-bit counter can count
    is never reported. *)
Definition pend (s : VescDriver) : list Z :=
  if working_buffer_fill_ s <? 2 then []
  else match working_buffer_ s !! 1%nat with
       | Some n => if n <=? 250 then drop 1 (take (Z.to_nat (working_buffer_fill_ s)) (working_buffer_ s)) else []
       | None => []
       end.
(** The callbacks between two states are for the frames among what was received. *)
Definition reports (received left : list Z) (s s' : VescDriver) : Prop :=
  exists l, notified s' = notified s ++ l /\ heard received (vesc_latest s) l (vesc_latest s') left.
Lemma reports_none pre left s s' : notified s' = notified s -> vesc_latest s' = vesc_latest s -> reports (pre ++ left) left s s'.
Proof. intros N L. exists []. rewrite app_nil_r, L. split; [exact N|constructor]. Qed.
Lemma reports_trans a b c s1 s2 s3 : reports a b s1 s2 -> reports b c s2 s3 -> reports a c s1 s3.
Proof.
  intros (l1 & E1 & H1) (l2 & E2 & H2). exists (l1 ++ l2). rewrite E2, E1, app_assoc. split; [reflexivity|]. eapply heard_trans; eassumption.
Qed.
(** The checks accept exactly whole frames. *)
Lemma frame_ok_is_frame wb n : length wb = WORKING_SIZE -> is_bytes wb -> wb !! 1%nat = Some n -> n <= 250 -> frame_ok wb (n + 5) = Some true ->
  exists p, Z.of_nat (length p) = n /\ is_bytes p /\ wb = vesc_frame p ++ drop (length p + 5) wb.
Proof.
  intros L B En Hn F. assert (Hn8 : is_u8 n) by (eapply (proj1 (Forall_lookup _ _)); eassumption). unfold is_u8, WORKING_SIZE in *.
  destruct wb as [|b0 [|b1 rest]]; [discriminate..|]. cbn in En. injection En as ->. cbn in L. set (k := Z.to_nat n).
  assert (Hk : (k + 3 <= length rest)%nat) by lia. unfold frame_ok in F. cbn [lookup list_lookup mbind option_bind] in F. rewrite Z.eqb_refl in F. cbn [negb] in F.
  exists (take k rest). rewrite length_take, Nat.min_l by lia. split; [lia|]. apply Forall_cons in B as [_ B]. apply Forall_cons in B as [_ B].
  split; [apply Forall_take, B|].
  destruct (drop k rest) as [|hi [|lo [|tr tail]]] eqn:Ed; try (apply (f_equal length) in Ed; rewrite length_drop in Ed; cbn in Ed; lia).
  assert (Lk : forall i x, [hi; lo; tr] !! i = Some x -> (b0 :: n :: rest) !! S (S (k + i)) = Some x).
  { intros i x Hi. cbn. change (rest !! (k + i)%nat = Some x). rewrite <- lookup_drop, Ed. destruct i as [|[|[|i]]]; cbn in *; [congruence..|discriminate]. }
  replace (Z.to_nat (n + 5 - 1)) with (S (S (k + 2))) in F by lia. replace (Z.to_nat (n + 5 - 3)) with (S (S (k + 0))) in F by lia.
  replace (Z.to_nat (n + 5 - 2)) with (S (S (k + 1))) in F by lia. rewrite (Lk 2%nat tr eq_refl), (Lk 0%nat hi eq_refl), (Lk 1%nat lo eq_refl) in F. cbn [mbind option_bind drop] in F. fold k in F.
  destruct (Z.eqb_spec b0 2) as [->|]; [|discriminate F]. destruct (Z.eqb_spec tr 3) as [->|]; [|discriminate F]. cbn [negb orb] in F. injection F as F. apply Z.eqb_eq in F.
  assert (Bd : is_bytes (hi :: lo :: 3 :: tail)) by (rewrite <- Ed; apply Forall_drop, B). apply Forall_cons in Bd as [Bh Bd]. apply Forall_cons in Bd as [Bl _]. unfold is_u8 in *.
  assert (Ec : crc16 (take k rest) = hi * 256 + lo).
  { rewrite drop_0 in F. rewrite F. rewrite lor_hi by (lia || (change (2 ^ 8) with 256; lia)). change (2 ^ 8) with 256. apply u16_small. unfold is_u16. lia. }
  unfold vesc_frame. rewrite Ec, length_take, Nat.min_l, Z.div_add_l, (Z.div_small lo), Z.add_0_r by lia.
  replace ((hi * 256 + lo) mod 256) with lo by (rewrite Z.add_comm, Z.mod_add, Z.mod_small by lia; reflexivity).
  cbn [app]. f_equal. f_equal; [lia|]. replace (k + 5)%nat with (S (S (k + 3))) by lia. cbn [drop].
  rewrite <- (drop_drop rest 3 k), Ed, <- app_assoc. cbn [app drop]. rewrite drop_0, <- Ed. symmetry. apply take_drop.
Qed.

Lemma take_ok s n buffer : vesc_ok s -> is_bytes buffer -> working_buffer_ s !! 1%nat = Some n ->
  2 <= working_buffer_fill_ s ->
  let k := Z.to_nat (Z.min (Z.of_nat (length buffer)) (u32 (n - (working_buffer_fill_ s - 2) + 3))) in
  k = Nat.min (length buffer) (Z.to_nat (n + 5 - working_buffer_fill_ s)) /\
  exists wb, memcpy (working_buffer_ s) (Z.to_nat (working_buffer_fill_ s)) (take k buffer) = Some wb /\
    length wb = WORKING_SIZE /\ is_bytes wb /\ wb !! 1%nat = Some n /\
    vesc_ok (s <| working_buffer_ := wb |>
               <| working_buffer_fill_ := if u8 (working_buffer_fill_ s + Z.of_nat k) =? n + 5 then 0
                                          else u8 (working_buffer_fill_ s + Z.of_nat k) |>).
Proof.
  intros [H1 H2 H3 H4 H5] Hb Hn Hf. specialize (H5 n Hn Hf).
  assert (Hn8 : is_u8 n) by (eapply (proj1 (Forall_lookup _ _)); [exact H2|exact Hn]).
  unfold is_u8, WORKING_SIZE in *. cbv zeta.
  rewrite u32_small by width. set (k := Z.to_nat (Z.min _ _)).
  assert (Hk : k = Nat.min (length buffer) (Z.to_nat (n + 5 - working_buffer_fill_ s))) by lia.
  split; [exact Hk|].
  assert (Hlen : length (take k buffer) = k) by (rewrite length_take; lia).
  assert (Hfit : (Z.to_nat (working_buffer_fill_ s) + length (take k buffer) <= length (working_buffer_ s))%nat) by lia.
  assert (exists wb, memcpy (working_buffer_ s) (Z.to_nat (working_buffer_fill_ s)) (take k buffer) = Some wb)
    as [wb M] by (eexists; apply (memcpy_total _ _ _ Hfit)).
  exists wb. split; [exact M|].
  pose proof (memcpy_length _ _ _ _ M) as ML.
  pose proof (memcpy_bytes _ _ _ _ M H2 (Forall_take _ _ _ Hb)) as MB.
  pose proof (memcpy_lookup _ _ _ _ 1 M ltac:(left; lia)) as M1.
  split; [rewrite ML; exact H1|]. split; [exact MB|]. split; [congruence|].
  split; cbn; [rewrite ML; exact H1|exact MB|exact H3|split_if; [width|apply u8_range]|].
  intros n' Hn' Hf'. rewrite M1, Hn in Hn'. injection Hn' as <-.
  destruct (u8 _ =? n + 5) eqn:E; bsimp; [lia|].
  pose proof (u8_range (working_buffer_fill_ s + Z.of_nat k)). unfold is_u8 in *.
  assert (working_buffer_fill_ s + Z.of_nat k <= n + 5) by lia.
  unfold u8 in *. Z.to_euclidean_division_equations. lia.
Qed.

(** The payload of a complete frame: it is reported if it is a frame, and otherwise forgotten. *)
Lemma ProcessPayload_ok s n : length (working_buffer_ s) = WORKING_SIZE -> is_bytes (working_buffer_ s) ->
  working_buffer_ s !! 1%nat = Some n -> n <= 250 -> working_buffer_fill_ s = n + 5 ->
  exists s', ProcessPayload s = Some s' /\ working_buffer_ s' = working_buffer_ s /\ payload s' = payload s /\
    forall rest, reports (drop 1 (take (Z.to_nat (n + 5)) (working_buffer_ s)) ++ rest) rest s s'.
Proof.
  intros H Hb En Hn Hf. destruct (frame_ok_some _ (working_buffer_fill_ s) H Hb) as [ok E].
  unfold ProcessPayload. rewrite E. destruct ok; cbn [mbind option_bind negb].
  - rewrite Hf in E. destruct (frame_ok_is_frame _ n H Hb En Hn E) as (p & Lp & Bp & W).
    pose proof H as H'. unfold WORKING_SIZE in H'. destruct (peek_some 2 (working_buffer_ s)) as [id Ei]; [lia|].
    unfold peek in Ei. rewrite Ei. cbn [mbind option_bind].
    destruct (decode_some (vesc_latest s) id (drop 3 (working_buffer_ s))) as [st Ed]; [rewrite length_drop; lia|].
    rewrite Ed. cbn [mbind option_bind]. eexists. split; [reflexivity|]. split; [reflexivity|]. split; [reflexivity|].
    intros rest. exists [st]. split; [reflexivity|]. cbn [vesc_latest update]. rewrite W in Ei, Ed, H |- *.
    rewrite (take_app_length' (vesc_frame p)) by (rewrite length_vesc_frame; lia).
    apply (heard_frame [] p (drop (length p + 5) (working_buffer_ s)) id); try assumption; [lia|]. apply (heard_skip []).
  - eexists. split; [reflexivity|]. split; [reflexivity|]. split; [reflexivity|]. intros rest. apply reports_none; reflexivity.
Qed.
Lemma pend_short s : working_buffer_fill_ s < 2 -> pend s = [].
Proof. intros H. unfold pend. rewrite (proj2 (Z.ltb_lt _ _) H). reflexivity. Qed.
Lemma pend_long s n : working_buffer_ s !! 1%nat = Some n -> 250 < n -> pend s = [].
Proof. intros E H. unfold pend. rewrite E, (proj2 (Z.leb_gt _ _) H). destruct (_ <? _); reflexivity. Qed.
Lemma pend_frame s n : working_buffer_ s !! 1%nat = Some n -> n <= 250 -> 2 <= working_buffer_fill_ s ->
  pend s = drop 1 (take (Z.to_nat (working_buffer_fill_ s)) (working_buffer_ s)).
Proof. intros E H F. unfold pend. rewrite E, (proj2 (Z.leb_le _ _) H), (proj2 (Z.ltb_ge _ _) F). reflexivity. Qed.
(** Storing a byte is hearing it: the header is forgotten, the length is the first byte kept. *)
Lemma store_byte_heard s b r s' : length (working_buffer_ s) = WORKING_SIZE -> 0 <= working_buffer_fill_ s <= 1 -> store_byte b s = Some s' ->
  reports (pend s ++ b :: r) (pend s' ++ r) s s'.
Proof.
  intros L F E. rewrite pend_short by lia. unfold store_byte in E. unfold WORKING_SIZE in L.
  rewrite memcpy_total in E by (cbn; lia). cbn [mbind option_bind] in E. injection E as <-. cbn [app].
  assert (H0 : working_buffer_fill_ s = 0 \/ working_buffer_fill_ s = 1) by lia. destruct H0 as [H0|H0]; rewrite H0.
  - rewrite pend_short by reflexivity. exact (reports_none [b] r _ _ eq_refl eq_refl).
  - destruct (working_buffer_ s) as [|b0 w] eqn:Ew; [discriminate|]. change (Z.to_nat 1) with 1%nat. cbn [take app length Nat.add].
    destruct (Z.leb_spec b 250) as [Hb|Hb].
    + erewrite pend_frame; [|cbn; reflexivity|exact Hb|vm_compute; discriminate]. cbn. exact (reports_none [] (b :: r) _ _ eq_refl eq_refl).
    + erewrite pend_long; [|cbn; reflexivity|exact Hb]. exact (reports_none [b] r _ _ eq_refl eq_refl).
Qed.

Lemma process_step_ok s buffer : vesc_ok s -> is_bytes buffer -> buffer <> [] ->
  exists s' rest, process_step s buffer = Some (s', rest) /\ vesc_ok s' /\ is_bytes rest /\
    (length rest < length buffer)%nat /\ reports (pend s ++ buffer) (pend s' ++ rest) s s'.
Proof.
  intros H Hb Hne. unfold process_step. pose proof (vesc_fill _ H) as Hu. unfold is_u8 in Hu.
  destruct (Z.eqb_spec (working_buffer_fill_ s) 0) as [E0|E0]; [|destruct (Z.eqb_spec (working_buffer_fill_ s) 1) as [E1|E1]].
  - pose proof (from_header_le buffer). pose proof (from_header_bytes _ Hb) as HB. destruct (from_header_suffix buffer) as [pre Eh].
    destruct (from_header buffer) as [|b r].
    + exists s, []. split; [reflexivity|]. split; [exact H|]. split; [constructor|]. rewrite (pend_short s) by lia.
      split; [destruct buffer; [congruence|cbn; lia]|]. cbn [app]. rewrite Eh. apply (reports_none pre []); reflexivity.
    + apply Forall_cons in HB as [Hb1 Hr].
      destruct (store_byte_ok s b H Hb1 ltac:(lia)) as (s' & E & Hs' & En). rewrite E. cbn.
      exists s', r. split; [reflexivity|]. split; [exact Hs'|]. split; [exact Hr|]. split; [cbn in *; lia|].
      pose proof (store_byte_heard s b r s' (vesc_length _ H) ltac:(lia) E) as R. rewrite pend_short in R |- * by lia. cbn [app] in R |- *.
      rewrite Eh. destruct R as (l & N & R). exists l. split; [exact N|apply heard_pre, R].
  - destruct buffer as [|b r]; [congruence|]. apply Forall_cons in Hb as [Hb1 Hr].
    destruct (store_byte_ok s b H Hb1 ltac:(lia)) as (s' & E & Hs' & En). rewrite E. cbn.
    exists s', r. split; [reflexivity|]. split; [exact Hs'|]. split; [exact Hr|].
    split; [lia|apply (store_byte_heard s b r s' (vesc_length _ H)); [lia|exact E]].
  - destruct (peek_some 1 (working_buffer_ s)) as [n En]; [rewrite (vesc_length _ H); unfold WORKING_SIZE; lia|].
    unfold peek in En. rewrite En. cbn [mbind option_bind].
    destruct (take_ok s n buffer H Hb En ltac:(lia)) as (Hk & wb & M & L & B & L1 & OK).
    set (k := Z.to_nat (Z.min _ _)) in *. rewrite M. cbn [mbind option_bind].
    pose proof (vesc_header _ H n En ltac:(lia)) as Hlt.
    assert (Hkpos : (0 < k)%nat) by (destruct buffer; [congruence|]; cbn [length] in Hk; lia).
    set (s1 := s <| working_buffer_ := wb |> <| working_buffer_fill_ ::= fun f => u8 (f + Z.of_nat k) |>).
    change (working_buffer_fill_ s1) with (u8 (working_buffer_fill_ s + Z.of_nat k)).
    (* what was kept of the frame, and what is added to it *)
    assert (P : n <= 250 -> u8 (working_buffer_fill_ s + Z.of_nat k) = working_buffer_fill_ s + Z.of_nat k /\
      pend s ++ take k buffer = drop 1 (take (Z.to_nat (working_buffer_fill_ s + Z.of_nat k)) wb)).
    { intros Hn. split; [apply u8_small; unfold is_u8; lia|]. rewrite (pend_frame s n En Hn) by lia.
      assert (Lt : length (take k buffer) = k) by (rewrite length_take; lia).
      replace (Z.to_nat (working_buffer_fill_ s + Z.of_nat k)) with (Z.to_nat (working_buffer_fill_ s) + length (take k buffer))%nat by lia.
      rewrite (memcpy_take _ _ _ _ M), drop_app_le by (rewrite length_take, (vesc_length _ H); unfold WORKING_SIZE; lia). reflexivity. }
    rewrite Z.eqb_sym. destruct (u8 (working_buffer_fill_ s + Z.of_nat k) =? n + 5) eqn:E.
    + assert (Hn : n <= 250) by (bsimp; pose proof (u8_range (working_buffer_fill_ s + Z.of_nat k)) as R; unfold is_u8 in R; lia).
      destruct (P Hn) as [Pu Pp]. bsimp.
      destruct (ProcessPayload_ok s1 n L B L1 Hn E) as (s' & Es & W & Py & R). rewrite Es. cbn [mbind option_bind].
      do 2 eexists. split; [reflexivity|]. split; [|split; [apply Forall_drop; exact Hb|split; [rewrite length_drop; lia|]]].
      * split; cbn; rewrite ?W, ?Py; try apply OK.
      * rewrite (pend_short (s' <| working_buffer_fill_ := 0 |>)) by reflexivity. cbn [app].
        rewrite <- (take_drop k buffer) at 1. rewrite app_assoc, Pp. destruct (R (drop k buffer)) as (l & N & Hh).
        exists l. split; [exact N|]. rewrite Pu in E. rewrite <- E in Hh. exact Hh.
    + do 2 eexists. split; [reflexivity|]. split; [exact OK|]. split; [apply Forall_drop; exact Hb|]. split; [rewrite length_drop; lia|].
      destruct (Z.leb_spec n 250) as [Hn|Hn].
      * destruct (P Hn) as [Pu Pp]. rewrite (pend_frame s1 n L1 Hn) by (change (working_buffer_fill_ s1) with (u8 (working_buffer_fill_ s + Z.of_nat k)); lia).
        change (working_buffer_fill_ s1) with (u8 (working_buffer_fill_ s + Z.of_nat k)). change (working_buffer_ s1) with wb.
        rewrite Pu, <- Pp, <- app_assoc, take_drop. exact (reports_none [] _ _ _ eq_refl eq_refl).
      * rewrite (pend_long s n En Hn), (pend_long s1 n L1 Hn). cbn [app]. rewrite <- (take_drop k buffer) at 1. apply reports_none; reflexivity.
Qed.

Lemma process_loop_ok fuel : forall s buffer, (length buffer <= fuel)%nat -> vesc_ok s -> is_bytes buffer ->
  exists s', process_loop fuel s buffer = Some s' /\ vesc_ok s' /\ reports (pend s ++ buffer) (pend s') s s'.
Proof.
  assert (Z0 : forall s, reports (pend s ++ []) (pend s) s s) by (intros s; rewrite app_nil_r; exact (reports_none [] _ _ _ eq_refl eq_refl)).
  induction fuel as [|fuel IH]; intros s buffer Hf H Hb.
  - destruct buffer; [|cbn in Hf; lia]. exists s. auto.
  - destruct buffer as [|b r] eqn:Eb; [exists s; auto|].
    rewrite <- Eb in *. destruct (process_step_ok s buffer H Hb ltac:(congruence)) as (s1 & rest & E1 & H1 & Hr & Hl & V1).
    destruct (IH s1 rest ltac:(lia) H1 Hr) as (s2 & E2 & H2 & V2).
    exists s2. split; [|split; [exact H2|eapply reports_trans; eassumption]].
    subst buffer. cbn [process_loop]. rewrite E1. exact E2.
Qed.
Lemma ProcessBytes_ok s buffer : vesc_ok s -> is_bytes buffer ->
  exists s' more, ProcessBytes s buffer = Some (s', more) /\ vesc_ok s' /\ reports (pend s ++ buffer) (pend s') s s'.
Proof.
  intros H Hb. destruct (process_loop_ok (length buffer) s buffer ltac:(lia) H Hb) as (s' & E & R). unfold ProcessBytes.
  destruct buffer as [|b r]; [injection E as <-; exists s, true; auto|]. rewrite E. cbn. eauto.
Qed.

(** Reception of several chunks. *)
Fixpoint feed (s : VescDriver) (chunks : list (list Z)) : option VescDriver :=
  match chunks with [] => Some s | c :: r => '(s, _) ← ProcessBytes s c; feed s r end.
(** C8. The VESC parser survives any bytes: whatever arrives, in chunks of any size, in whatever state the invariant
    allows, it terminates, never writes or reads outside its 260-byte working buffer - although the fill counter is
    only 8 bits wide - and makes callbacks only for frames that were received: behind each other in the stream, each
    with its length, payload, CRC and trailer whole, each state decoded from the frame and the state before. (The
    header of such a frame may be a stale one, when an over-long frame has run over the counter.) *)
Theorem ProcessBytes_safe s chunks : vesc_ok s -> Forall is_bytes chunks ->
  exists s', feed s chunks = Some s' /\ vesc_ok s' /\ reports (pend s ++ concat chunks) (pend s') s s'.
Proof.
  intros H Hc. revert s H. induction Hc as [|c r Hc _ IH]; intros s H; cbn [feed concat].
  - exists s. split; [reflexivity|]. split; [exact H|]. rewrite app_nil_r. exact (reports_none [] _ _ _ eq_refl eq_refl).
  - destruct (ProcessBytes_ok s c H Hc) as (s1 & more & E1 & H1 & R1). destruct (IH s1 H1) as (s2 & E2 & H2 & R2).
    exists s2. rewrite E1. cbn [mbind option_bind]. split; [exact E2|]. split; [exact H2|]. rewrite app_assoc.
    refine (reports_trans _ (pend s1 ++ concat r) _ s s1 s2 _ R2). destruct R1 as (l & N & R1). exists l. split; [exact N|]. apply heard_more, R1.
Qed.

(** ** Frames *)

Lemma frame_head q : (1 <= length q)%nat -> vesc_frame q !! 2%nat = Some (hd 0 q).
Proof. destruct q; cbn; [lia|reflexivity]. Qed.


Section Frame.
Context (p : list Z) (Hp : is_bytes p) (Hlen : (1 <= length p <= 250)%nat).
Context (wb0 : list Z) (Hwb : length wb0 = WORKING_SIZE).
Let f := vesc_frame p.
Let n := length p.

(** The working buffer after [j] bytes of the frame. *)
Definition mixed (j : nat) : list Z := take j f ++ drop j wb0.

Lemma length_f : length f = (n + 5)%nat.
Proof. apply length_vesc_frame. Qed.
Lemma length_mixed j : (j <= n + 5)%nat -> length (mixed j) = WORKING_SIZE.
Proof.
  intros H. unfold mixed, WORKING_SIZE in *. rewrite length_app, length_take, length_drop, length_f, Hwb.
  unfold n in *. lia.
Qed.
Lemma mixed_memcpy j k : (j + k <= n + 5)%nat ->
  memcpy (mixed j) j (take k (drop j f)) = Some (mixed (j + k)).
Proof.
  intros H. pose proof length_f as Lf.
  assert (Lt : length (take j f) = j) by (rewrite length_take; lia).
  assert (Lk : length (take k (drop j f)) = k) by (rewrite length_take, length_drop; lia).
  rewrite memcpy_total by (rewrite length_mixed, Lk by lia; unfold WORKING_SIZE, n in *; lia).
  f_equal. rewrite Lk. unfold mixed at 1 2.
  rewrite take_app_length' by auto. rewrite drop_app_ge by lia. rewrite Lt, drop_drop.
  unfold mixed. rewrite app_assoc. f_equal; [|f_equal; lia].
  rewrite <- (take_drop j (take (j + k) f)). rewrite take_take, Nat.min_l by lia. f_equal.
  apply take_drop_commute.
Qed.
Lemma mixed_lookup j i : (i < j)%nat -> (j <= n + 5)%nat -> mixed j !! i = f !! i.
Proof.
  intros Hi Hj. unfold mixed. rewrite lookup_app_l by (rewrite length_take, length_f; lia).
  apply lookup_take_lt. exact Hi.
Qed.

Lemma frame_ok_mixed : frame_ok (mixed (n + 5)) (Z.of_nat (n + 5)) = Some true.
Proof.
  unfold frame_ok. rewrite (mixed_lookup _ 1) by lia.
  assert (E1 : f !! 1%nat = Some (Z.of_nat n)) by reflexivity. rewrite E1. cbn [mbind option_bind].
  assert ((Z.of_nat n + 5 =? Z.of_nat (n + 5)) = true) as -> by (apply Z.eqb_eq; lia). cbn [negb].
  rewrite (mixed_lookup _ 0) by lia. assert (E0 : f !! 0%nat = Some 2) by reflexivity. rewrite E0. cbn [mbind option_bind].
  assert (EL : forall i, f !! (S (S (n + i))) = [crc16 p / 256; crc16 p mod 256; 3] !! i).
  { intros i. unfold f, vesc_frame. cbn [lookup list_lookup].
    change ((p ++ [crc16 p / 256; crc16 p mod 256; 3]) !! (n + i)%nat = [crc16 p / 256; crc16 p mod 256; 3] !! i).
    rewrite lookup_app_r by (unfold n; lia). f_equal. unfold n. lia. }
  replace (Z.to_nat (Z.of_nat (n + 5) - 1)) with (S (S (n + 2))) by lia.
  replace (Z.to_nat (Z.of_nat (n + 5) - 3)) with (S (S (n + 0))) by lia.
  replace (Z.to_nat (Z.of_nat (n + 5) - 2)) with (S (S (n + 1))) by lia.
  rewrite !mixed_lookup by lia. rewrite !EL. cbn [lookup list_lookup mbind option_bind].
  rewrite Z.eqb_refl. cbn [negb orb]. do 2 f_equal. rewrite Nat2Z.id.
  assert (take n (drop 2 (mixed (n + 5))) = p) as ->.
  { unfold mixed. rewrite (take_ge f) by (rewrite length_f; lia). unfold f, vesc_frame. cbn [app drop].
    rewrite <- app_assoc. unfold n. apply take_app_length. }
  pose proof (crc16_u16 p) as Hc. rewrite lor_hi by (change (2 ^ 8) with 256; width).
  change (2 ^ 8) with 256. width.
Qed.

Lemma process_loop_frame fuel : forall j k s, (k <= fuel)%nat -> (j + k <= n + 5)%nat -> (j < n + 5)%nat ->
  working_buffer_ s = mixed j -> working_buffer_fill_ s = Z.of_nat j ->
  exists s', process_loop fuel s (take k (drop j f)) = Some s' /\
    working_buffer_ s' = mixed (j + k) /\ payload s' = payload s /\
    if (j + k =? n + 5)%nat
    then working_buffer_fill_ s' = 0 /\ exists st, decode (vesc_latest s) (hd 0 p) (drop 3 (mixed (n + 5))) = Some st /\
           vesc_latest s' = st /\ notified s' = notified s ++ [st]
    else working_buffer_fill_ s' = Z.of_nat (j + k) /\ vesc_latest s' = vesc_latest s /\ notified s' = notified s.
Proof.
  pose proof length_f as Lf. induction fuel as [|fuel IH]; intros j k s Hk Hjk Hj W F.
  - assert (k = 0%nat) as -> by lia. cbn. exists s. rewrite Nat.add_0_r.
    split; [reflexivity|]. split; [exact W|]. split; [reflexivity|].
    destruct (Nat.eqb_spec j (n + 5)); [lia|auto].
  - destruct k as [|k].
    { cbn. exists s. rewrite Nat.add_0_r. split; [reflexivity|]. split; [exact W|]. split; [reflexivity|].
      destruct (Nat.eqb_spec j (n + 5)); [lia|auto]. }
    destruct (lookup_lt_is_Some_2 f j ltac:(lia)) as [b Hb].
    assert (Ec : take (S k) (drop j f) = b :: take k (drop (S j) f))
      by (rewrite (drop_S _ _ _ Hb); reflexivity).
    assert (Es : forall s0 : VescDriver, working_buffer_ s0 = mixed j -> working_buffer_fill_ s0 = Z.of_nat j ->
      store_byte b s0 = Some (s0 <| working_buffer_ := mixed (S j) |> <| working_buffer_fill_ := u8 (Z.of_nat j + 1) |>)).
    { intros s0 W0 F0. unfold store_byte. rewrite W0, F0, Nat2Z.id.
      pose proof (mixed_memcpy j 1 ltac:(lia)) as M. rewrite (drop_S _ _ _ Hb), firstn_cons, firstn_O in M.
      rewrite M. cbn [mbind option_bind]. rewrite Nat.add_1_r. f_equal. destruct s0; cbn in *. subst. reflexivity. }
    assert (Hn8 : u8 (Z.of_nat j + 1) = Z.of_nat (S j)) by (rewrite u8_small by (unfold n in *; width); lia).
    destruct (Nat.ltb_spec j 2) as [Hj2|Hj2].
    + assert (Estep : process_step s (b :: take k (drop (S j) f)) =
        Some (s <| working_buffer_ := mixed (S j) |> <| working_buffer_fill_ := Z.of_nat (S j) |>, take k (drop (S j) f))).
      { unfold process_step. rewrite F. destruct j as [|[|j]]; [| |lia].
        - assert (b = 2) as -> by (unfold f, vesc_frame in Hb; injection Hb as <-; reflexivity).
          cbn [Z.of_nat Z.eqb from_header Pos.eqb]. rewrite Es by assumption. cbn [mbind option_bind]. rewrite Hn8. reflexivity.
        - cbn [Z.of_nat Z.eqb Pos.of_succ_nat Pos.eqb]. rewrite Es by assumption. cbn [mbind option_bind]. rewrite Hn8. reflexivity. }
      rewrite Ec. cbn [process_loop]. rewrite Estep. cbn [mbind option_bind].
      destruct (IH (S j) k (s <| working_buffer_ := mixed (S j) |> <| working_buffer_fill_ := Z.of_nat (S j) |>))
        as (s' & E & W' & P' & R); [lia|lia|lia|reflexivity|reflexivity|].
      exists s'. split; [exact E|]. rewrite W', P'. cbn [working_buffer_ payload] in *.
      replace (j + S k)%nat with (S j + k)%nat by lia. split; [reflexivity|]. split; [reflexivity|exact R].
    + assert (En : mixed j !! 1%nat = Some (Z.of_nat n)) by (rewrite mixed_lookup by lia; reflexivity).
      assert (Lc : length (take (S k) (drop j f)) = S k) by (rewrite length_take, length_drop; lia).
      assert (Estep : process_step s (take (S k) (drop j f)) =
        (s' ← (if (j + S k =? n + 5)%nat
               then s ← ProcessPayload (s <| working_buffer_ := mixed (j + S k) |> <| working_buffer_fill_ := Z.of_nat (j + S k) |>);
                    Some (s <| working_buffer_fill_ := 0 |>)
               else Some (s <| working_buffer_ := mixed (j + S k) |> <| working_buffer_fill_ := Z.of_nat (j + S k) |>));
         Some (s', []))).
      { unfold process_step. rewrite F, W, En, Lc. cbn [mbind option_bind].
        destruct (Z.eqb_spec (Z.of_nat j) 0); [lia|]. destruct (Z.eqb_spec (Z.of_nat j) 1); [lia|].
        rewrite u32_small by (unfold n in *; width).
        replace (Z.to_nat (Z.min (Z.of_nat (S k)) (Z.of_nat n - (Z.of_nat j - 2) + 3))) with (S k) by lia.
        rewrite (take_ge (take (S k) _)) by lia. rewrite Nat2Z.id, (mixed_memcpy j (S k)) by lia.
        cbn [mbind option_bind]. rewrite drop_ge by lia. cbn. rewrite F.
        rewrite (u8_small (Z.of_nat j + _)) by (unfold n in *; width).
        rewrite <- Nat2Z.inj_add.
        destruct (Nat.eqb_spec (j + S k) (n + 5)), (Z.eqb_spec (Z.of_nat n + 5) (Z.of_nat (j + S k))); try lia; reflexivity. }
      assert (Eloop : process_loop (S fuel) s (take (S k) (drop j f)) =
        '(s', rest) ← process_step s (take (S k) (drop j f)); process_loop fuel s' rest) by (rewrite Ec; reflexivity).
      rewrite Eloop, Estep. clear Eloop Estep.
      destruct (Nat.eqb_spec (j + S k) (n + 5)) as [Eq|Ne]; cbn [mbind option_bind].
      * rewrite Eq. unfold ProcessPayload. cbn [working_buffer_ working_buffer_fill_ update]. cbn.
        rewrite frame_ok_mixed. cbn [mbind option_bind negb].
        assert (E2 : mixed (n + 5) !! 2%nat = Some (hd 0 p)).
        { rewrite mixed_lookup by lia. apply frame_head; lia. }
        rewrite E2. cbn [mbind option_bind].
        destruct (decode_some (vesc_latest s) (hd 0 p) (drop 3 (mixed (n + 5)))) as [st Est];
          [rewrite length_drop, length_mixed by lia; unfold WORKING_SIZE; lia|].
        rewrite Est. cbn [mbind option_bind]. eexists. split; [destruct fuel; reflexivity|]. cbn.
        split; [reflexivity|]. split; [reflexivity|]. split; [reflexivity|]. eauto.
      * eexists. split; [destruct fuel; reflexivity|]. cbn. auto.
Qed.
End Frame.

Section Delivery.
Context (p : list Z) (Hp : is_bytes p) (Hlen : (1 <= length p <= 250)%nat).
Context (wb0 : list Z) (Hwb : length wb0 = WORKING_SIZE).

Definition delivered (s s' : VescDriver) : Prop :=
  working_buffer_fill_ s' = 0 /\ exists st,
    decode (vesc_latest s) (hd 0 p) (drop 3 (mixed p wb0 (length p + 5))) = Some st /\
    vesc_latest s' = st /\ notified s' = notified s ++ [st].

Lemma feed_nothing chunks s : concat chunks = [] -> feed s chunks = Some s.
Proof.
  induction chunks as [|c r IH]; cbn; [reflexivity|]. intros H. apply app_eq_nil in H as [-> H].
  cbn. auto.
Qed.

Lemma feed_frame chunks : forall j s, concat chunks = drop j (vesc_frame p) -> (j < length p + 5)%nat ->
  working_buffer_ s = mixed p wb0 j -> working_buffer_fill_ s = Z.of_nat j ->
  exists s', feed s chunks = Some s' /\ delivered s s'.
Proof.
  pose proof (length_vesc_frame p) as Lf.
  induction chunks as [|c r IH]; intros j s Hc Hj W F; cbn in Hc.
  - apply (f_equal length) in Hc. rewrite length_drop, Lf in Hc. cbn [length] in Hc. lia.
  - assert (Ec : c = take (length c) (drop j (vesc_frame p))) by (rewrite <- Hc, take_app_length; reflexivity).
    assert (Er : concat r = drop (j + length c) (vesc_frame p))
      by (rewrite <- drop_drop, <- Hc, drop_app_length; reflexivity).
    assert (Hle : (j + length c <= length p + 5)%nat).
    { apply (f_equal length) in Hc. rewrite length_app, length_drop, Lf in Hc. lia. }
    cbn [feed]. destruct c as [|b c'] eqn:Ecc.
    + cbn [ProcessBytes mbind option_bind]. apply (IH j); auto.
    + rewrite <- Ecc in *. assert (EP : ProcessBytes s c = (s' ← process_loop (length c) s c; Some (s', negb (working_buffer_fill_ s' =? 0))))
        by (subst c; reflexivity).
      rewrite EP. clear EP.
      destruct (process_loop_frame p Hlen wb0 Hwb (length c) j (length c) s) as (s1 & E1 & W1 & _ & R); auto.
      rewrite <- Ec in E1. rewrite E1. cbn [mbind option_bind].
      destruct (Nat.eqb_spec (j + length c) (length p + 5)) as [Eq|Ne].
      * rewrite feed_nothing; [exists s1; split; [reflexivity|exact R]|].
        rewrite Er. apply drop_ge. lia.
      * destruct R as (F1 & L1 & N1). destruct (IH (j + length c)%nat s1) as (s2 & E2 & Hf & st & D); auto; [lia|].
        exists s2. split; [exact E2|]. split; [exact Hf|]. exists st. rewrite L1, N1 in D. exact D.
Qed.
End Delivery.

Lemma SendPacket_frame s : length (payload s) = PAYLOAD_SIZE -> is_u8 (payload_length s) ->
  exists s', SendPacket s = Some (s', vesc_frame (take (Z.to_nat (payload_length s)) (payload s))).
Proof.
  intros H Hu. unfold SendPacket. set (n := Z.to_nat (payload_length s)).
  unfold is_u8, PAYLOAD_SIZE in *. assert (Hn : (n + 3 <= length (payload s))%nat) by lia.
  rewrite memcpy_total by (cbn; lia). cbn [mbind option_bind length]. eexists. do 2 f_equal.
  unfold vesc_frame. assert (L : length (take n (payload s)) = n) by (rewrite length_take; lia).
  rewrite L. f_equal. f_equal; [rewrite u8_small by (unfold is_u8; lia); lia|].
  rewrite app_assoc, take_app_length' by (rewrite length_app, L; reflexivity). f_equal.
  pose proof (crc16_u16 (take n (payload s))). rewrite u8_shiftr by lia. change (2 ^ 8) with 256.
  change 255 with (Z.ones 8). rewrite Z.land_ones by lia. change (2 ^ 8) with 256.
  f_equal; [width|]. f_equal. width.
Qed.

Lemma f_equal_opt {A} (o : option A) x y : o = Some x -> x = y -> o = Some y.
Proof. congruence. Qed.

(** C9. Everything the driver can send, another driver understands: the bytes [SendPacket] puts
    on the wire for a payload of 1 to 250 bytes are a frame (0x02, length,
    payload, CRC, 0x03), and a parser between two packets that receives them, cut
    into chunks anywhere, makes exactly one callback, with the payload decoded,
    and is between two packets again. *)
Theorem vesc_roundtrip s1 s2 chunks :
  length (payload s1) = PAYLOAD_SIZE -> is_bytes (payload s1) -> 1 <= payload_length s1 <= 250 ->
  vesc_ok s2 -> working_buffer_fill_ s2 = 0 ->
  exists s1' p, SendPacket s1 = Some (s1', vesc_frame p) /\
    p = take (Z.to_nat (payload_length s1)) (payload s1) /\
    (concat chunks = vesc_frame p -> exists s2' st, feed s2 chunks = Some s2' /\
       working_buffer_fill_ s2' = 0 /\ notified s2' = notified s2 ++ [st] /\ vesc_latest s2' = st /\
       decode (vesc_latest s2) (hd 0 p)
         (drop 3 (vesc_frame p ++ drop (length p + 5) (working_buffer_ s2))) = Some st).
Proof.
  intros L1 B1 Hn OK F. destruct (SendPacket_frame s1 L1 ltac:(width)) as [s1' E].
  do 2 eexists. split; [exact E|]. split; [reflexivity|]. set (p := take _ _). intros Hc.
  assert (Lp : (1 <= length p <= 250)%nat) by (unfold p; rewrite length_take, L1; unfold PAYLOAD_SIZE; lia).
  destruct (feed_frame p Lp (working_buffer_ s2) (vesc_length _ OK) chunks 0 s2 Hc ltac:(lia) eq_refl F)
    as (s2' & Ef & F2 & st & D & V & N).
  exists s2', st. repeat split; auto. rewrite <- D. do 2 f_equal. unfold mixed.
  rewrite take_ge by (rewrite length_vesc_frame; lia). reflexivity.
Qed.

(** [SetDuty] sends COMM_SET_DUTY with the duty times 100000 as a big-endian 32-bit
    integer, [RequestStatus] sends COMM_GET_VALUES, each as one frame; in raw mode
    both are silent. *)
Theorem vesc_commands s duty k :
  length (payload s) = PAYLOAD_SIZE ->
  f_to_int (-2147483648) 2147483647 (fmul duty (f_of_Z 100000)) = Some k ->
  (exists s', SetDuty false duty s = Some (s', vesc_frame (COMM_SET_DUTY :: be_bytes 4 k))) /\
  (exists s', RequestStatus false s = Some (s', vesc_frame [COMM_GET_VALUES])) /\
  SetDuty true duty s = Some (s, []) /\ RequestStatus true s = Some (s, []).
Proof.
  intros L Hk. unfold SetDuty, RequestStatus. rewrite Hk. repeat split.
  - pose proof L as L'. unfold PAYLOAD_SIZE in L'.
    assert (M : memcpy (payload s) 0 [COMM_SET_DUTY] = Some (COMM_SET_DUTY :: drop 1 (payload s))).
    { rewrite memcpy_total by (cbn; lia). cbn. reflexivity. }
    rewrite M. cbn [mbind option_bind].
    rewrite append32_spec by (cbn [length]; rewrite length_drop; lia). cbn [mbind option_bind].
    set (pl := take 1 _ ++ _). assert (Lpl : length pl = PAYLOAD_SIZE).
    { unfold pl. rewrite !length_app, length_take, length_drop. cbn [length map]. rewrite length_drop. unfold PAYLOAD_SIZE. lia. }
    destruct (SendPacket_frame (s <| payload_length := 5 |> <| payload := pl |>)) as [s' E]; [exact Lpl|cbn; width|].
    exists s'. eapply f_equal_opt; [exact E|]. do 2 f_equal. cbn. unfold be_bytes. cbn.
    rewrite !u8_shiftr by lia. change (2 ^ 24) with 16777216. change (2 ^ 16) with 65536. change (2 ^ 8) with 256.
    unfold u8. rewrite !Z.div_div by lia. cbn. reflexivity.
  - unfold PAYLOAD_SIZE in L.
    assert (M : memcpy (payload s) 0 [COMM_GET_VALUES] = Some (COMM_GET_VALUES :: drop 1 (payload s))).
    { rewrite memcpy_total by (cbn; lia). cbn. reflexivity. }
    rewrite M. cbn [mbind option_bind].
    destruct (SendPacket_frame (s <| payload_length := 1 |> <| payload := COMM_GET_VALUES :: drop 1 (payload s) |>))
      as [s' E]; [cbn [payload update]; cbn; rewrite length_drop; unfold PAYLOAD_SIZE; lia|cbn; width|].
    exists s'. eapply f_equal_opt; [exact E|]. reflexivity.
Qed.

(** ** Witnesses *)
Module VescDemo.
Lemma initial_ok : vesc_ok initial_vesc.
Proof.
  split; try reflexivity; [|cbn; width|intros n _ H; cbn in H; lia].
  apply Forall_replicate. width.
Qed.

Lemma safe_witness : exists s', feed initial_vesc [[7; 2; 3; 0; 3]; [62; 254; 3; 3]; [2; 1]] = Some s' /\
  vesc_ok s' /\ reports (pend initial_vesc ++ concat [[7; 2; 3; 0; 3]; [62; 254; 3; 3]; [2; 1]]) (pend s') initial_vesc s'.
Proof. apply (ProcessBytes_safe initial_vesc [[7; 2; 3; 0; 3]; [62; 254; 3; 3]; [2; 1]] initial_ok). repeat constructor; vm_compute; congruence. Defined.

(** The firmware version 3.62, in two pieces. *)
Definition sender : VescDriver := initial_vesc <| payload := [0; 3; 62] ++ replicate 255 0 |> <| payload_length := 3 |>.
Lemma roundtrip_witness : exists s1' p, SendPacket sender = Some (s1', vesc_frame p) /\
  p = take (Z.to_nat (payload_length sender)) (payload sender) /\
  (concat [take 4 (vesc_frame [0; 3; 62]); drop 4 (vesc_frame [0; 3; 62])] = vesc_frame p ->
   exists s2' st, feed initial_vesc [take 4 (vesc_frame [0; 3; 62]); drop 4 (vesc_frame [0; 3; 62])] = Some s2' /\
     working_buffer_fill_ s2' = 0 /\ notified s2' = notified initial_vesc ++ [st] /\ vesc_latest s2' = st /\
     decode (vesc_latest initial_vesc) (hd 0 p)
       (drop 3 (vesc_frame p ++ drop (length p + 5) (working_buffer_ initial_vesc))) = Some st).
Proof.
  apply (vesc_roundtrip sender initial_vesc); [reflexivity| |cbn; lia|apply initial_ok|reflexivity].
  apply Forall_app. split; [repeat constructor; vm_compute; congruence|].
  apply Forall_replicate. width.
Defined.

Example version_decoded : (fun s => (fw_major (vesc_latest s), fw_minor (vesc_latest s), length (notified s))) <$>
  feed initial_vesc [vesc_frame [0; 3; 62]] = Some (3, 62, 1%nat).
Proof. vm_compute. reflexivity. Qed.

Lemma commands_witness :
  (exists s', SetDuty false (f_lit 1 2) initial_vesc = Some (s', vesc_frame [5; 0; 0; 195; 80])) /\
  (exists s', RequestStatus false initial_vesc = Some (s', vesc_frame [4])) /\
  SetDuty true (f_lit 1 2) initial_vesc = Some (initial_vesc, []) /\
  RequestStatus true initial_vesc = Some (initial_vesc, []).
Proof. exact (vesc_commands initial_vesc (f_lit 1 2) 50000 eq_refl eq_refl). Defined.

(** A payload of 251 bytes, which the buffer comments allow, never arrives: the
    8-bit fill counter cannot reach 256. *)
Example long_payload_is_lost :
  (fun s => (length (notified s), working_buffer_fill_ s)) <$> feed initial_vesc [vesc_frame (replicate 251 0)] = Some (0%nat, 0).
Proof. vm_compute. reflexivity. Qed.

(** A duty that is not a number reaches an undefined cast. *)
Example nan_duty_is_undefined : SetDuty false S754_nan initial_vesc = None.
Proof. vm_compute. reflexivity. Qed.
End VescDemo.
