(* ===== verification/VescThread.v ===== *)
(** The life of a motor driver ([drivers/motor/motor_driver.hpp]) and the VESC driver's thread
    ([drivers/motor/vesc/VescDriver.cpp]): its start, and how it polls for a reply of unknown length.

    UartRx models the two buffers and the interrupt byte by byte. Here a round of the thread is one step, and the
    bytes that arrive before it are an input. *)
From S2P Require Import Prelude Float32 Motor Buffer Vesc.

(** ** The interface's part *)
(** [callbacks]: the states that were reported. A debug assertion that fails is [None]. *)
(* @ motor_driver.hpp:73-77 MotorDriver *)
Record MotorDriver := mkDriver { latest_state_ : ESCState; started_ : bool; state_callback_ : bool; callbacks : list ESCState }.
#[export] Instance eta_MotorDriver : Eta MotorDriver := fun d => mkDriver (latest_state_ d) (started_ d) (state_callback_ d) (callbacks d).
(* @ motor_driver.hpp MotorDriver::Start *)
Definition motor_Start (d : MotorDriver) : option (bool * MotorDriver) := if started_ d then None else Some (true, d <| started_ := true |>).
(* @ motor_driver.hpp MotorDriver::SetStateCallback *)
Definition SetStateCallback (d : MotorDriver) : option MotorDriver := if started_ d then None else Some (d <| state_callback_ := true |>).
(* @ motor_driver.hpp MotorDriver::IsStarted *)
Definition IsStarted (d : MotorDriver) : bool := started_ d.
(* @ motor_driver.hpp MotorDriver::GetLatestState *)
Definition GetLatestState (d : MotorDriver) : ESCState := latest_state_ d.
(* @ motor_driver.hpp MotorDriver::NotifyCallback *)
Definition NotifyCallback (d : MotorDriver) : option MotorDriver :=
  if negb (started_ d) then None else Some (if state_callback_ d then d <| callbacks ::= fun l => l ++ [latest_state_ d] |> else d).

(** ** The start *)
(** The UART, and the baud rate; the order of what the start does. *)
Inductive start_event := UartStart (uart : nat) (speed : Z) | SetReceptionCallback | CreateThread | StartReceive (size : nat) (buffer : nat) | SetStarted.
Record vesc_setup := mkSetup { uart_ : option nat; speed_ : Z; driver : MotorDriver }.
(* @ VescDriver.cpp VescDriver::SetUART *)
Definition vesc_SetUART (uart : nat) (baudrate : Z) (s : vesc_setup) : option (bool * vesc_setup) :=
  if IsStarted (driver s) then None else Some (true, mkSetup (Some uart) baudrate (driver s)).
(** Without a UART the start dereferences a null pointer. *)
(* @ VescDriver.cpp VescDriver::Start *)
Definition vesc_Start (uart_starts : bool) (s : vesc_setup) : option (bool * list start_event * vesc_setup) :=
  if IsStarted (driver s) then None else
  uart ← uart_ s;
  if negb uart_starts then Some (false, [UartStart uart (speed_ s)], s) else
  '(r, d) ← motor_Start (driver s);
  Some (r, [UartStart uart (speed_ s); SetReceptionCallback; CreateThread; StartReceive 260 1; SetStarted], mkSetup (uart_ s) (speed_ s) d).
(** A driver that was started reports every state it notifies, if there was a callback by then. *)
Lemma started_reports s r ev s' : state_callback_ (driver s) = true -> vesc_Start true s = Some (r, ev, s') ->
  r = true /\ NotifyCallback (driver s') = Some ((driver s') <| callbacks ::= fun l => l ++ [latest_state_ (driver s)] |>).
Proof.
  unfold vesc_Start, IsStarted, motor_Start. intros C. destruct (started_ (driver s)); [discriminate|]. destruct (uart_ s); [|discriminate]. cbn. intros [= <- <- <-].
  split; [reflexivity|]. unfold NotifyCallback. cbn. rewrite C. reflexivity.
Qed.

(** ** The thread *)
Definition RECV_SIZE : nat := 260.
(* @ VescDriver.cpp:8-8 EVT_ID_RECEIVED *)
Definition EVT_ID_RECEIVED : Z := 1.
(* @ VescDriver.cpp:9-9 EVT_ID_EXPECT_PACKET *)
Definition EVT_ID_EXPECT_PACKET : Z := 2.
(** [dma]: what the DMA has stored in its buffer; [full]: the buffer that the interrupt has handed over and
    [processing_done_] is false for; [raw_out]: what went to the receiver of raw data. *)
Record vesc_thread := mkThread { expects_packet : bool; poll_ndtr : Z; dma : list Z; full : option (list Z); parser : VescDriver; raw_out : list (list Z) }.
#[export] Instance eta_vesc_thread : Eta vesc_thread := fun t => mkThread (expects_packet t) (poll_ndtr t) (dma t) (full t) (parser t) (raw_out t).
(** How long the thread waits for events, in milliseconds; [None] is for ever. *)
(* @ VescDriver.cpp:276-288 VescDriver::threadFunc (wait) *)
Definition wait_time (status_request_millis : Z) (t : vesc_thread) : option Z :=
  if expects_packet t then Some 10 else if 0 <? status_request_millis then Some status_request_millis else None.
Definition NDTR (t : vesc_thread) : Z := Z.of_nat RECV_SIZE - Z.of_nat (length (dma t)).
(** The buffer to be processed, which is given back afterwards. *)
(* @ VescDriver.cpp:334-348 VescDriver::threadFunc (process) *)
Definition process (raw : bool) (buffer : list Z) (t : vesc_thread) : option vesc_thread :=
  let t := t <| full := None |> in
  if (0 <? length buffer)%nat then
    if raw then Some (t <| raw_out ::= fun l => l ++ [buffer] |>)
    else '(v, more) ← ProcessBytes (parser t) buffer;
      Some (t <| parser := v |> <| expects_packet ::= fun e => if more : bool then e else false |>)
  else Some t.
(** One round, with the events that ended the wait, 0 when the time is over. *)
(* @ VescDriver.cpp VescDriver::threadFunc *)
Definition thread_round (raw : bool) (events : Z) (t : vesc_thread) : option vesc_thread :=
  if negb (Z.land events EVT_ID_EXPECT_PACKET =? 0) then Some (t <| expects_packet := true |> <| poll_ndtr := 0 |>)
  else if Z.land events EVT_ID_RECEIVED =? 0 then
    if negb (poll_ndtr t =? NDTR t) then Some (t <| poll_ndtr := NDTR t |>)
    else match full t with
      | None => process raw (dma t) (t <| dma := [] |>)
      | Some buffer => process raw buffer t
      end
  else process raw (match full t with Some buffer => buffer | None => [] end) t.
(** Bytes arrive, fewer than fill the buffer, and if a reply is expected the thread polls. *)
Definition poll (arrived : list Z) (t : vesc_thread) : option vesc_thread :=
  let t := t <| dma ::= fun l => l ++ arrived |> in
  match wait_time 0 t with Some _ => thread_round false 0 t | None => Some t end.
Fixpoint polls (arrivals : list (list Z)) (t : vesc_thread) : option vesc_thread :=
  match arrivals with [] => Some t | a :: arrivals => t ← poll a t; polls arrivals t end.

Section Reply.
Context (p : list Z) (Hlen : (1 <= length p <= 250)%nat).
Context (wb0 : list Z) (Hwb : length wb0 = WORKING_SIZE) (st0 : ESCState) (told : list ESCState).
Let n := (length p + 5)%nat.
(** [j] bytes of the reply have been processed, [k] have arrived. *)
Record receiving (j k : nat) (t : vesc_thread) : Prop := {
  rcv_expects : expects_packet t = true; rcv_full : full t = None; rcv_dma : dma t = take (k - j) (drop j (vesc_frame p)); rcv_le : (j <= k <= n)%nat /\ (j < n)%nat;
  rcv_wb : working_buffer_ (parser t) = mixed p wb0 j; rcv_fill : working_buffer_fill_ (parser t) = Z.of_nat j; rcv_latest : vesc_latest (parser t) = st0; rcv_told : notified (parser t) = told }.
Definition processed (t : vesc_thread) : Prop :=
  expects_packet t = false /\ full t = None /\ dma t = [] /\ working_buffer_fill_ (parser t) = 0 /\
  exists st, decode st0 (hd 0 p) (drop 3 (mixed p wb0 n)) = Some st /\ vesc_latest (parser t) = st /\ notified (parser t) = told ++ [st].
Lemma rcv_length j k t : receiving j k t -> length (dma t) = (k - j)%nat.
Proof. intros [_ _ D L _ _ _ _]. rewrite D, length_take, length_drop, length_vesc_frame. unfold n in L. lia. Qed.
(** A poll while the reply comes in: either the thread waits on, or it processes what is there. *)
Lemma poll_step j k m t : receiving j k t -> (k + m <= n)%nat ->
  exists t', poll (take m (drop k (vesc_frame p))) t = Some t' /\
  ((receiving j (k + m) t' /\ poll_ndtr t' = NDTR t' /\ poll_ndtr t <> 260 - Z.of_nat (k + m - j)) \/ (poll_ndtr t = 260 - Z.of_nat (k + m - j) /\ if (k + m =? n)%nat then processed t' else receiving (k + m) (k + m) t')).
Proof.
  intros H L. unfold poll, wait_time. pose proof H as [E Fu D B W Fi La To]. set (t1 := t <| dma ::= _ |>).
  assert (Dt : dma t1 = take (k + m - j) (drop j (vesc_frame p))).
  { change (dma t1) with (dma t ++ take m (drop k (vesc_frame p))). rewrite D. replace (drop k (vesc_frame p)) with (drop (k - j) (drop j (vesc_frame p))) by (rewrite drop_drop; f_equal; lia).
    rewrite take_take_drop. f_equal. lia. }
  change (expects_packet t1) with (expects_packet t). rewrite E. unfold thread_round.
  change (Z.land 0 EVT_ID_EXPECT_PACKET =? 0) with true. change (Z.land 0 EVT_ID_RECEIVED =? 0) with true. cbn [negb].
  assert (H1 : receiving j (k + m) t1) by (split; try assumption; split; lia). pose proof (rcv_length _ _ _ H1) as Ln.
  destruct (Z.eqb_spec (poll_ndtr t1) (NDTR t1)) as [En|En]; cbn [negb].
  2:{ eexists. split; [reflexivity|]. left. split; [destruct H1; split; assumption|]. split; [reflexivity|]. unfold NDTR in En. rewrite Ln in En. exact En. }
  change (full t1) with (full t). rewrite Fu. unfold process. unfold NDTR in En. rewrite Ln in En. destruct (Nat.ltb_spec 0 (length (dma t1))) as [Lp|Lp].
  - destruct (process_loop_frame p Hlen wb0 Hwb (k + m - j) j (k + m - j) (parser t)) as (v & Ev & Wv & _ & R); [lia|unfold n in *; lia|unfold n in *; lia|exact W|exact Fi|].
    rewrite <- Dt in Ev. change (ProcessBytes _ (dma t1)) with (ProcessBytes (parser t) (dma t1)). assert (EP : ProcessBytes (parser t) (dma t1) = Some (v, negb (working_buffer_fill_ v =? 0))).
    { unfold ProcessBytes. destruct (dma t1) as [|b l] eqn:Ed; [cbn in Lp; lia|]. rewrite Ln, Ev. reflexivity. }
    rewrite EP. cbn [mbind option_bind]. eexists. split; [reflexivity|]. right. split; [exact En|]. replace (j + (k + m - j))%nat with (k + m)%nat in * by lia. fold n in R.
    destruct (Nat.eqb_spec (k + m) n) as [Eq|Ne].
    + destruct R as (F0 & st & Ds & V & N). rewrite La, To in *. unfold processed. cbn. rewrite F0. cbn. eauto 10.
    + destruct R as (F1 & V & N). rewrite F1. replace (Z.of_nat (k + m) =? 0) with false by (symmetry; apply Z.eqb_neq; lia).
      split; cbn; [exact E|reflexivity|rewrite Nat.sub_diag; reflexivity|lia|exact Wv|exact F1|congruence|congruence].
  - eexists. split; [reflexivity|]. right. split; [exact En|]. assert (Kj : (k + m = j)%nat) by lia. rewrite Kj. destruct B as [_ B]. rewrite (proj2 (Nat.eqb_neq _ _)) by lia.
    split; cbn; try assumption; [reflexivity|rewrite Nat.sub_diag; reflexivity|lia].
Qed.
(** When all has been processed and nothing arrives, the thread waits for ever. *)
Lemma polls_idle cs : forall t, processed t -> concat cs = [] -> polls cs t = Some t.
Proof.
  induction cs as [|c cs IH]; intros t H C; [reflexivity|]. apply app_eq_nil in C as [-> C]. cbn [polls]. unfold poll, wait_time. destruct H as (E & F & D & R).
  change (expects_packet (t <| dma ::= _ |>)) with (expects_packet t). rewrite E. cbn [Z.ltb Z.compare mbind option_bind].
  assert (Et : t <| dma ::= fun l => l ++ [] |> = t) by (destruct t; cbn in *; subst; reflexivity). rewrite Et. apply IH; [split; auto|exact C].
Qed.
Lemma polls_app a b t : polls (a ++ b) t = (t ← polls a t; polls b t).
Proof. revert t. induction a as [|x a IH]; intros t; [reflexivity|]. cbn. destruct (poll x t); cbn; auto. Qed.
(** Bytes that arrive piece by piece, and polls between them. *)
Lemma polls_receive cs : forall j k t, receiving j k t -> concat cs = drop k (vesc_frame p) ->
  exists t', polls cs t = Some t' /\ (processed t' \/ exists j', receiving j' n t').
Proof.
  induction cs as [|c cs IH]; intros j k t H C.
  - exists t. split; [reflexivity|]. right. exists j. apply (f_equal length) in C. rewrite length_drop, length_vesc_frame in C. cbn in C. pose proof (rcv_le _ _ _ H) as L.
    replace n with k by (unfold n in *; lia). exact H.
  - cbn [concat] in C. assert (Lc : (k + length c <= n)%nat).
    { apply (f_equal length) in C. rewrite length_app, length_drop, length_vesc_frame in C. pose proof (rcv_le _ _ _ H). unfold n in *. lia. }
    assert (Ec : c = take (length c) (drop k (vesc_frame p))) by (rewrite <- C, take_app_length; reflexivity).
    assert (Er : concat cs = drop (k + length c) (vesc_frame p)) by (rewrite <- drop_drop, <- C, drop_app_length; reflexivity).
    destruct (poll_step j k (length c) t H Lc) as (t1 & E1 & R). rewrite <- Ec in E1. cbn [polls]. rewrite E1. cbn [mbind option_bind].
    destruct R as [[R _]|[_ R]]; [apply (IH _ _ _ R Er)|]. destruct (Nat.eqb_spec (k + length c) n) as [Eq|Ne]; [|apply (IH _ _ _ R Er)].
    exists t1. split; [|left; exact R]. apply polls_idle; [exact R|]. rewrite Er, Eq. apply drop_ge. rewrite length_vesc_frame. unfold n. lia.
Qed.
(** Two polls in which nothing arrives. *)
Lemma polls_quiet j t : receiving j n t -> exists t', polls [[]; []] t = Some t' /\ processed t'.
Proof.
  intros H. assert (Z0 : (n + 0 <= n)%nat) by lia. destruct (poll_step j n 0 t H Z0) as (t1 & E1 & R). cbn [take] in E1. change (take 0 _) with (@nil Z) in E1. cbn [polls]. rewrite E1. cbn [mbind option_bind].
  rewrite Nat.add_0_r, Nat.eqb_refl in R. destruct R as [(R & N & _)|[_ R]].
  - destruct (poll_step j n 0 t1 R Z0) as (t2 & E2 & R2). change (take 0 _) with (@nil Z) in E2. rewrite E2. cbn [mbind option_bind]. exists t2. split; [reflexivity|].
    rewrite Nat.add_0_r, Nat.eqb_refl in R2. destruct R2 as [(_ & _ & F)|[_ R2]]; [|exact R2]. exfalso. apply F. rewrite N. unfold NDTR. rewrite (rcv_length _ _ _ R). reflexivity.
  - exists t1. split; [|exact R]. exact (polls_idle [[]] t1 R eq_refl).
Qed.
End Reply.

(** A reply is processed. After a request the thread polls; whatever pieces the reply arrives in, and however long the
    pauses between them, at the second poll in which nothing more has arrived at the latest the whole reply has been
    decoded and reported once, and the thread waits for the next request. *)
Theorem reply_is_processed p cs t : (1 <= length p <= 250)%nat -> vesc_ok (parser t) -> working_buffer_fill_ (parser t) = 0 ->
  full t = None -> dma t = [] -> concat cs = vesc_frame p ->
  exists t' st, (t ← thread_round false EVT_ID_EXPECT_PACKET t; polls (cs ++ [[]; []]) t) = Some t' /\ expects_packet t' = false /\
    decode (vesc_latest (parser t)) (hd 0 p) (drop 3 (mixed p (working_buffer_ (parser t)) (length p + 5))) = Some st /\
    vesc_latest (parser t') = st /\ notified (parser t') = notified (parser t) ++ [st] /\ dma t' = [].
Proof.
  intros Lp OK F0 Fu D C. set (t0 := t <| expects_packet := true |> <| poll_ndtr := 0 |>). change (thread_round false EVT_ID_EXPECT_PACKET t) with (Some t0). cbn [mbind option_bind].
  pose proof (vesc_length _ OK) as Lw. assert (R0 : receiving p (working_buffer_ (parser t)) (vesc_latest (parser t)) (notified (parser t)) 0 0 t0) by (split; cbn; try assumption; try reflexivity; lia).
  destruct (polls_receive p Lp _ Lw _ _ cs 0 0 t0 R0 C) as (t1 & E1 & R1).
  assert (Q : exists t2, polls (cs ++ [[]; []]) t0 = Some t2 /\ processed p (working_buffer_ (parser t)) (vesc_latest (parser t)) (notified (parser t)) t2).
  { destruct R1 as [R1|[j R1]].
    - exists t1. rewrite polls_app, E1. split; [exact (polls_idle _ _ _ _ [[]; []] t1 R1 eq_refl)|exact R1].
    - destruct (polls_quiet p Lp _ Lw _ _ j t1 R1) as (t2 & E2 & R2). exists t2. rewrite polls_app, E1. split; [exact E2|exact R2]. }
  destruct Q as (t2 & E2 & (X & _ & D2 & _ & st & Ds & V & N)). exists t2, st. repeat split; assumption.
Qed.

(** ** Examples *)
Module VescThreadDemo.
Definition idle : vesc_thread := mkThread false 0 [] None initial_vesc [].
Definition version : list Z := vesc_frame [0; 6; 5].
Lemma reply_witness : exists t', (t ← thread_round false EVT_ID_EXPECT_PACKET idle; polls ([[]; []; take 3 version; []; []; drop 3 version] ++ [[]; []]) t) = Some t' /\
  expects_packet t' = false /\ length (notified (parser t')) = 1%nat.
Proof.
  destruct (reply_is_processed [0; 6; 5] [[]; []; take 3 version; []; []; drop 3 version] idle) as (t' & st & E & X & _ & _ & N & _); [cbn; lia|exact Vesc.VescDemo.initial_ok|reflexivity|reflexivity|reflexivity|reflexivity|].
  exists t'. split; [exact E|]. split; [exact X|]. rewrite N. reflexivity.
Defined.
(** Without a reply the thread polls every 10 ms until the next one. *)
Example no_reply : option_map (fun t => (expects_packet t, wait_time 0 t)) (t ← thread_round false EVT_ID_EXPECT_PACKET idle; polls (replicate 100 []) t) = Some (true, Some 10).
Proof. vm_compute. reflexivity. Qed.
End VescThreadDemo.
