(* ===== verification/Leds.v ===== *)
(** The LED display of the YardForce cover UI:
    [drivers/ui/yf_cover_ui/yf_cover_ui_protocol.hpp] and [BuildLedMessage].

    18 LEDs of 3 bits each in the 64-bit field of a Set_LEDs message. *)
From S2P Require Import Prelude ServiceExt Float32.

(* @ yf_cover_ui_protocol.hpp:48-67 LED_id *)
Inductive LED_id := LED_CHARGING | LED_BATTERY_LOW | LED_POOR_GPS | LED_MOWER_LIFTED
  | LED5 | LED6 | LED7 | LED8 | LED9 | LED10 | LED11 | LED_LOCK | LED_S2 | LED_S1 | LED15 | LED16 | LED17 | LED18.
(* @ yf_cover_ui_protocol.hpp:48-67 LED_id *)
Definition led_num (l : LED_id) : Z :=
  match l with
  | LED_CHARGING => 0 | LED_BATTERY_LOW => 1 | LED_POOR_GPS => 2 | LED_MOWER_LIFTED => 3
  | LED5 => 4 | LED6 => 5 | LED7 => 6 | LED8 => 7 | LED9 => 8 | LED10 => 9 | LED11 => 10
  | LED_LOCK => 11 | LED_S2 => 12 | LED_S1 => 13 | LED15 => 14 | LED16 => 15 | LED17 => 16 | LED18 => 17
  end.
(* @ yf_cover_ui_protocol.hpp:71-77 LED_state *)
Definition LED_off : Z := 0.
(* @ yf_cover_ui_protocol.hpp:71-77 LED_state *)
Definition LED_blink_slow : Z := 5.
(* @ yf_cover_ui_protocol.hpp:71-77 LED_state *)
Definition LED_blink_fast : Z := 6.
(* @ yf_cover_ui_protocol.hpp:71-77 LED_state *)
Definition LED_on : Z := 7.

(** The functions on a message change its [leds] only, which is their argument here. *)
(* @ yf_cover_ui_protocol.hpp setLed *)
Definition setLed (led state leds : Z) : Z :=
  let mask := u64 (Z.lnot (Z.shiftl 7 (led * 3))) in
  let leds := Z.land leds mask in
  Z.lor leds (u64 (Z.shiftl (Z.land state 7) (led * 3))).

(** [round]: to the nearest integer, halves away from zero; then the conversion
    to [int], undefined when the value does not fit. *)
Definition d_round (x : f64) : option Z :=
  match x with
  | S754_zero _ => Some 0
  | S754_finite s m e =>
    let v := if 0 <=? e then Z.shiftl (Zpos m) e else Z.shiftr (Zpos m + Z.shiftl 1 (- e - 1)) (- e) in
    Some (if s then - v else v)
  | _ => None
  end.
Definition round_to_int (x : f64) : option Z :=
  v ← d_round x; if (-2147483648 <=? v) && (v <=? 2147483647) then Some v else None.

(** [for (int i = 0; i < n; i++) setLed(msg, top - i, i < on_leds ? LED_on : LED_off)]. *)
Definition bar (top : Z) (n : nat) (on_leds : Z) (leds : Z) : Z :=
  fold_left (fun leds i => setLed (top - Z.of_nat i) (if Z.of_nat i <? on_leds then LED_on else LED_off) leds)
    (seq 0 n) leds.
(* @ yf_cover_ui_protocol.hpp setBars7 *)
Definition setBars7 (value : f64) (leds : Z) : option Z :=
  on_leds ← round_to_int (dmul value (d_of_Z 7)); Some (bar (led_num LED11) 7 on_leds leds).
(* @ yf_cover_ui_protocol.hpp setBars4 *)
Definition setBars4 (value : f64) (leds : Z) : option Z :=
  if SFltb value (S754_zero false) then
    Some (fold_left (fun leds i => setLed (led_num LED15 + Z.of_nat i) LED_blink_fast leds) (seq 0 4) leds)
  else
    on_leds ← round_to_int (dmul value (d_of_Z 4)); Some (bar (led_num LED18) 4 on_leds leds).

(** The high-level states come from the service definitions. *)
Class HighLevelStatuses := {
  IDLE : Z; AUTONOMOUS : Z; RECORDING : Z; SUBSTATE_1 : Z; SUBSTATE_2 : Z; SUBSTATE_3 : Z;
  SUBSTATE_SHIFT : Z; SUBSTATE_MASK : Z }.

(** What the other services report. *)
Record ui_view := mkView {
  adapter_volts : f32; charge_current : f32; battery_pct : f32;
  hl_status : Z; gps_quality : f32; emergency_reasons : Z }.

Section Build.
Context `{ER : EmergencyReasons} `{HL : HighLevelStatuses}.
(* @ yf_cover_ui.cpp:375-381 YFCoverUI::BuildLedMessage (state) *)
Definition main_state (v : ui_view) : Z := Z.land (u8 (hl_status v)) (u8 (Z.shiftl 1 (u8 SUBSTATE_SHIFT) - 1)).
(* @ yf_cover_ui.cpp:375-381 YFCoverUI::BuildLedMessage (substate) *)
Definition sub_state (v : ui_view) : Z := u8 (Z.land (Z.shiftr (u8 (hl_status v)) (u8 SUBSTATE_SHIFT)) (u8 SUBSTATE_MASK)).
(* @ yf_cover_ui.cpp:352-362 YFCoverUI::BuildLedMessage (charging) *)
Definition charging_led (v : ui_view) : Z :=
  if fgt (adapter_volts v) (f_of_Z 20) then
    if fgt (charge_current v) (f_lit 1 2) then LED_blink_fast
    else if fgt (charge_current v) (f_lit 1 20) then LED_blink_slow else LED_on
  else LED_off.
(* @ yf_cover_ui.cpp:365-366 YFCoverUI::BuildLedMessage (battery low) *)
Definition battery_low (v : ui_view) : bool := negb (is_nan (battery_pct v)) && flt (battery_pct v) (f_lit 1 5).
(** The value given to [setBars4] and the state of the GPS LED. *)
(* @ yf_cover_ui.cpp:390-399 YFCoverUI::BuildLedMessage (GPS) *)
Definition gps_leds (v : ui_view) : f64 * Z :=
  if main_state v =? IDLE then (S754_zero false, LED_off)
  else if is_nan (gps_quality v) || flt (gps_quality v) (f_lit 1 4) then (d_of_Z (-1), LED_blink_fast)
  else (d_of_f32 (gps_quality v), LED_off).
(* @ yf_cover_ui.cpp:403-409 YFCoverUI::BuildLedMessage (S1) *)
Definition s1_led (v : ui_view) : Z :=
  if (main_state v =? AUTONOMOUS) && (sub_state v =? SUBSTATE_1) then LED_on
  else if main_state v =? AUTONOMOUS then LED_blink_slow else LED_off.
(* @ yf_cover_ui.cpp:412-419 YFCoverUI::BuildLedMessage (S2) *)
Definition s2_led (v : ui_view) : Z :=
  if (main_state v =? AUTONOMOUS) && ((sub_state v =? SUBSTATE_2) || (sub_state v =? SUBSTATE_3)) then LED_on
  else if main_state v =? RECORDING then LED_blink_slow else LED_off.
(* @ yf_cover_ui.cpp:427-439 YFCoverUI::BuildLedMessage (emergency) *)
Definition lifted_led (v : ui_view) : Z :=
  let condition_active := has (emergency_reasons v) (Z.lor (Z.lor (Z.lor STOP LIFT) LIFT_MULTIPLE) COLLISION) in
  let latched := has (emergency_reasons v) LATCH in
  if condition_active then LED_blink_fast else if latched then LED_on else LED_off.

(** The message's LEDs, from a message without any. *)
(* @ yf_cover_ui.cpp YFCoverUI::BuildLedMessage *)
Definition BuildLedMessage (v : ui_view) : option Z :=
  let leds := setLed (led_num LED_CHARGING) (charging_led v) 0 in
  let leds := setLed (led_num LED_BATTERY_LOW) (if battery_low v then LED_on else LED_off) leds in
  leds ← (if is_nan (battery_pct v) then Some leds else setBars7 (d_of_f32 (battery_pct v)) leds);
  leds ← setBars4 (gps_leds v).1 leds;
  let leds := setLed (led_num LED_POOR_GPS) (gps_leds v).2 leds in
  let leds := setLed (led_num LED_S1) (s1_led v) leds in
  let leds := setLed (led_num LED_S2) (s2_led v) leds in
  Some (setLed (led_num LED_MOWER_LIFTED) (lifted_led v) leds).
End Build.

(** ** Reading a LED back *)
Definition led_at (leds led : Z) : Z := Z.land (Z.shiftr leds (led * 3)) 7.
Definition is_led (led : Z) : Prop := 0 <= led < 18.
Definition only_leds (leds : Z) : Prop := 0 <= leds < 2 ^ 54.

Lemma testbit_7 n : 0 <= n -> Z.testbit 7 n = (n <? 3).
Proof.
  intros H. change 7 with (Z.ones 3). rewrite Z.testbit_ones_nonneg by lia. reflexivity.
Qed.
Lemma only_leds_high leds n : only_leds leds -> 54 <= n -> Z.testbit leds n = false.
Proof.
  intros H Hn. unfold only_leds in H. rewrite <- (Z.mod_small leds (2 ^ 54)) by exact H.
  apply Z.mod_pow2_bits_high. lia.
Qed.
Lemma setLed_testbit led state leds n : is_led led -> only_leds leds -> 0 <= n ->
  Z.testbit (setLed led state leds) n =
    if (led * 3 <=? n) && (n <? led * 3 + 3) then Z.testbit state (n - led * 3) else Z.testbit leds n.
Proof.
  intros Hl Hleds Hn. unfold is_led in *. unfold setLed, u64.
  rewrite Z.lor_spec, Z.land_spec. change 18446744073709551616 with (2 ^ 64).
  destruct (Z.ltb_spec n 64) as [H64|H64].
  - rewrite !Z.mod_pow2_bits_low by lia. rewrite Z.lnot_spec, !Z.shiftl_spec, Z.land_spec by lia.
    destruct (Z.leb_spec (led * 3) n) as [Hlo|Hlo]; cbn [andb].
    + rewrite testbit_7 by lia. destruct (Z.ltb_spec (n - led * 3) 3), (Z.ltb_spec n (led * 3 + 3)); try lia; cbn [negb];
        rewrite ?andb_false_r, ?andb_true_r, ?orb_false_r, ?orb_false_l; reflexivity.
    + rewrite !(Z.testbit_neg_r _ (n - led * 3)) by lia. cbn. rewrite andb_true_r, orb_false_r. reflexivity.
  - rewrite !Z.mod_pow2_bits_high by lia. rewrite andb_false_r. cbn [orb].
    destruct (Z.leb_spec (led * 3) n), (Z.ltb_spec n (led * 3 + 3)); try lia; cbn [andb].
    all: rewrite only_leds_high by (assumption || lia); reflexivity.
Qed.
Lemma setLed_range led state leds : is_led led -> only_leds leds -> only_leds (setLed led state leds).
Proof.
  intros Hl Hleds. assert (Hp : 0 <= setLed led state leds).
  { unfold setLed. apply Z.lor_nonneg. split; [apply Z.land_nonneg; left; apply Hleds|apply Z.mod_pos_bound; lia]. }
  unfold only_leds. split; [exact Hp|]. destruct (Z.eq_dec (setLed led state leds) 0) as [->|Hne]; [lia|].
  apply Z.log2_lt_pow2; [lia|]. destruct (Z.lt_ge_cases (Z.log2 (setLed led state leds)) 54) as [|Hge]; [assumption|].
  pose proof (Z.bit_log2 (setLed led state leds) ltac:(lia)) as Hb.
  rewrite setLed_testbit in Hb by (try assumption; lia). unfold is_led in Hl.
  destruct (Z.ltb_spec (Z.log2 (setLed led state leds)) (led * 3 + 3)); [lia|]. rewrite andb_false_r in Hb.
  rewrite only_leds_high in Hb by assumption. discriminate.
Qed.
Lemma led_setLed led led' state leds : is_led led -> is_led led' -> only_leds leds ->
  led_at (setLed led state leds) led' = if led =? led' then Z.land state 7 else led_at leds led'.
Proof.
  intros Hl Hl' Hleds. unfold led_at. apply Z.bits_inj'. intros n Hn.
  destruct (Z.eqb_spec led led') as [<-|Hne]; rewrite !Z.land_spec, testbit_7 by lia;
    rewrite !Z.shiftr_spec by lia; rewrite setLed_testbit by (assumption || (unfold is_led in *; lia)); unfold is_led in *.
  - destruct (Z.ltb_spec n 3); [|rewrite !andb_false_r; reflexivity].
    destruct (Z.leb_spec (led * 3) (n + led * 3)), (Z.ltb_spec (n + led * 3) (led * 3 + 3)); try lia.
    cbn [andb]. do 2 f_equal. lia.
  - destruct (Z.ltb_spec n 3); [|rewrite !andb_false_r; reflexivity].
    destruct (Z.leb_spec (led * 3) (n + led' * 3)), (Z.ltb_spec (n + led' * 3) (led * 3 + 3)); try lia; reflexivity.
Qed.

(** ** The bars *)
Lemma bar_S top n on leds : bar top (S n) on leds =
  setLed (top - Z.of_nat n) (if Z.of_nat n <? on then LED_on else LED_off) (bar top n on leds).
Proof. unfold bar. replace (S n) with (n + 1)%nat by lia. rewrite seq_app, fold_left_app. reflexivity. Qed.
Lemma bar_range top n on leds : 0 <= top - Z.of_nat n + 1 -> top < 18 -> only_leds leds -> only_leds (bar top n on leds).
Proof.
  intros H0 Ht Hl. induction n as [|n IH]; [exact Hl|]. rewrite bar_S.
  apply setLed_range; [unfold is_led; lia|apply IH; lia].
Qed.
(** [n] LEDs down from [top], the first [on] of them on. *)
Lemma led_bar top n on leds led : 0 <= top - Z.of_nat n + 1 -> top < 18 -> only_leds leds -> is_led led ->
  led_at (bar top n on leds) led =
    if (top - Z.of_nat n <? led) && (led <=? top) then (if top - led <? on then LED_on else LED_off) else led_at leds led.
Proof.
  intros H0 Ht Hl Hled. induction n as [|n IH].
  - replace (top - Z.of_nat 0) with top by lia. destruct (Z.ltb_spec top led), (Z.leb_spec led top); try lia; reflexivity.
  - rewrite bar_S, led_setLed by (try (apply bar_range; [lia|assumption..]); unfold is_led in *; lia).
    rewrite IH by lia. destruct (Z.eqb_spec (top - Z.of_nat n) led) as [<-|Hne].
    + replace (top - (top - Z.of_nat n)) with (Z.of_nat n) by lia.
      destruct (Z.ltb_spec (top - Z.of_nat (S n)) (top - Z.of_nat n)), (Z.leb_spec (top - Z.of_nat n) top); try lia.
      cbn [andb]. destruct (Z.of_nat n <? on); reflexivity.
    + destruct (Z.ltb_spec (top - Z.of_nat n) led), (Z.ltb_spec (top - Z.of_nat (S n)) led); try lia; reflexivity.
Qed.
Definition blink4 (leds : Z) : Z :=
  fold_left (fun leds i => setLed (led_num LED15 + Z.of_nat i) LED_blink_fast leds) (seq 0 4) leds.
Lemma led_blink4 leds led : only_leds leds -> is_led led ->
  only_leds (blink4 leds) /\ led_at (blink4 leds) led = if 14 <=? led then LED_blink_fast else led_at leds led.
Proof.
  intros Hl Hled. unfold blink4. cbn [seq fold_left led_num]. split.
  - repeat (apply setLed_range; [unfold is_led; lia|]). exact Hl.
  - rewrite !led_setLed by first [assumption | unfold is_led in *; lia | repeat (apply setLed_range; [unfold is_led; lia|]); assumption].
    unfold is_led in Hled. destruct (Z.leb_spec 14 led).
    + assert (led = 14 \/ led = 15 \/ led = 16 \/ led = 17) as [->|[->|[->| ->]]] by lia; reflexivity.
    + destruct (Z.eqb_spec (14 + Z.of_nat 3) led), (Z.eqb_spec (14 + Z.of_nat 2) led),
        (Z.eqb_spec (14 + Z.of_nat 1) led), (Z.eqb_spec (14 + Z.of_nat 0) led); lia.
Qed.

(** ** What each LED shows *)
Section Spec.
Context `{ER : EmergencyReasons} `{HL : HighLevelStatuses}.

(** [on7], [on4]: how many segments the rounded values light. *)
Definition led_spec (v : ui_view) (on7 on4 : Z) (led : LED_id) : Z :=
  let segment top n on := if top - n <? on then LED_on else LED_off in
  match led with
  | LED_CHARGING => charging_led v
  | LED_BATTERY_LOW => if battery_low v then LED_on else LED_off
  | LED_POOR_GPS => (gps_leds v).2
  | LED_MOWER_LIFTED => lifted_led v
  | LED_S1 => s1_led v
  | LED_S2 => s2_led v
  | LED_LOCK => LED_off
  | LED15 | LED16 | LED17 | LED18 =>
    if SFltb (gps_leds v).1 (S754_zero false) then LED_blink_fast else segment 17 (led_num led) on4
  | _ => if is_nan (battery_pct v) then LED_off else segment 10 (led_num led) on7
  end.

Lemma is_led_num led : is_led (led_num led).
Proof. destruct led; unfold is_led; cbn; lia. Qed.
Lemma led_num_inj a b : (led_num a =? led_num b) = true <-> a = b.
Proof. rewrite Z.eqb_eq. split; [|congruence]. destruct a, b; cbn; congruence || discriminate. Qed.
(** The states are of three bits. *)
Definition is_state (s : Z) : Prop := Z.land s 7 = s.
Lemma states v : is_state (charging_led v) /\ is_state (gps_leds v).2 /\ is_state (s1_led v) /\
  is_state (s2_led v) /\ is_state (lifted_led v) /\ is_state (if battery_low v then LED_on else LED_off).
Proof.
  unfold charging_led, gps_leds, s1_led, s2_led, lifted_led. split_and!; repeat split_if; reflexivity.
Qed.

(** The two bars, among whatever is shown already. *)
Lemma show_battery v on7 l : only_leds l ->
  (is_nan (battery_pct v) = false -> round_to_int (dmul (d_of_f32 (battery_pct v)) (d_of_Z 7)) = Some on7) ->
  exists l', (if is_nan (battery_pct v) then Some l else setBars7 (d_of_f32 (battery_pct v)) l) = Some l' /\
    only_leds l' /\ forall led, led_at l' (led_num led) =
      if (3 <? led_num led) && (led_num led <=? 10) && negb (is_nan (battery_pct v))
      then (if 10 - led_num led <? on7 then LED_on else LED_off) else led_at l (led_num led).
Proof.
  intros R H. destruct (is_nan (battery_pct v)).
  - exists l. split; [reflexivity|]. split; [assumption|]. intros led. rewrite andb_false_r. reflexivity.
  - unfold setBars7. rewrite H by reflexivity. eexists. split; [reflexivity|].
    split; [apply bar_range; cbn; lia || assumption|]. intros led.
    rewrite led_bar by (cbn; lia || assumption || apply is_led_num). cbn [negb]. rewrite andb_true_r. reflexivity.
Qed.
Lemma show_gps v on4 l : only_leds l ->
  (SFltb (gps_leds v).1 (S754_zero false) = false -> round_to_int (dmul (gps_leds v).1 (d_of_Z 4)) = Some on4) ->
  exists l', setBars4 (gps_leds v).1 l = Some l' /\ only_leds l' /\
    forall led, led_at l' (led_num led) = if 14 <=? led_num led
      then (if SFltb (gps_leds v).1 (S754_zero false) then LED_blink_fast
            else if 17 - led_num led <? on4 then LED_on else LED_off) else led_at l (led_num led).
Proof.
  intros R H. unfold setBars4. destruct (SFltb _ _).
  - exists (blink4 l). split; [reflexivity|]. split; [apply (led_blink4 l 0 R); unfold is_led; lia|].
    intros led. apply (led_blink4 l _ R), is_led_num.
  - rewrite H by reflexivity. eexists. split; [reflexivity|]. split; [apply bar_range; cbn; lia || assumption|].
    intros led. rewrite led_bar by (cbn; lia || assumption || apply is_led_num).
    pose proof (is_led_num led) as Hn. unfold is_led in Hn.
    destruct (Z.ltb_spec (led_num LED18 - Z.of_nat 4) (led_num led)), (Z.leb_spec (led_num led) (led_num LED18)),
      (Z.leb_spec 14 (led_num led)); cbn in *; try lia; reflexivity.
Qed.

(** The LED message: with percentages that can be converted, every one of the
    18 LEDs shows what it stands for - the bars the rounded fraction, contiguous from
    their end, the others their condition - whatever is written after it, and
    the bits that belong to no LED stay zero. *)
Theorem leds_show_state (v : ui_view) (on7 on4 : Z) :
  (is_nan (battery_pct v) = false -> round_to_int (dmul (d_of_f32 (battery_pct v)) (d_of_Z 7)) = Some on7) ->
  (SFltb (gps_leds v).1 (S754_zero false) = false -> round_to_int (dmul (gps_leds v).1 (d_of_Z 4)) = Some on4) ->
  exists leds, BuildLedMessage v = Some leds /\ only_leds leds /\
    forall led, led_at leds (led_num led) = led_spec v on7 on4 led.
Proof.
  intros H7 H4. destruct (states v) as (S1 & S2 & S3 & S4 & S5 & S6). unfold is_state in *.
  assert (Z0 : only_leds 0) by (unfold only_leds; lia).
  assert (L0 : forall led, led_at 0 (led_num led) = LED_off) by (intros led; unfold led_at; rewrite Z.shiftr_0_l; reflexivity).
  unfold BuildLedMessage. set (l1 := setLed (led_num LED_CHARGING) _ 0). set (l2 := setLed (led_num LED_BATTERY_LOW) _ l1).
  assert (R1 : only_leds l1) by (apply setLed_range; [apply is_led_num|assumption]).
  assert (R2 : only_leds l2) by (apply setLed_range; [apply is_led_num|assumption]).
  destruct (show_battery v on7 l2 R2 H7) as (l3 & -> & R3 & A3). cbn [mbind option_bind].
  destruct (show_gps v on4 l3 R3 H4) as (l4 & -> & R4 & A4). cbn [mbind option_bind]. eexists. split; [reflexivity|].
  split; [repeat (apply setLed_range; [apply is_led_num|]); assumption|]. intros led.
  repeat (rewrite led_setLed by (repeat (apply setLed_range; [apply is_led_num|]); assumption || apply is_led_num)).
  rewrite A4, A3. subst l2 l1.
  rewrite !led_setLed by (repeat (apply setLed_range; [apply is_led_num|]); assumption || apply is_led_num).
  rewrite L0, S1, S2, S3, S4, S5, S6. destruct led; cbn; try reflexivity; destruct (is_nan (battery_pct v)); reflexivity.
Qed.
End Spec.

Module LedsDemo.
#[local] Existing Instance demo_reasons.
#[local] Instance statuses : HighLevelStatuses :=
  {| IDLE := 1; AUTONOMOUS := 2; RECORDING := 3; SUBSTATE_1 := 0; SUBSTATE_2 := 1; SUBSTATE_3 := 2;
     SUBSTATE_SHIFT := 6; SUBSTATE_MASK := 3 |}.
(** Mowing at 60 percent, a good fix, a wheel lifted. *)
Definition mowing : ui_view := mkView (f_of_Z 0) (f_of_Z 0) (f_lit 3 5) 2 (f_lit 9 10) 40.
Lemma leds_witness : exists leds, BuildLedMessage mowing = Some leds /\ only_leds leds /\
  forall led, led_at leds (led_num led) = led_spec mowing 4 4 led.
Proof. apply (leds_show_state mowing 4 4); intros _; vm_compute; reflexivity. Defined.
Example mowing_leds : BuildLedMessage mowing = Some (led_num LED_CHARGING +
  fold_right (fun '(l, s) n => Z.lor n (Z.shiftl s (3 * led_num l))) 0
    [(LED11, 7); (LED10, 7); (LED9, 7); (LED8, 7); (LED18, 7); (LED17, 7); (LED16, 7); (LED15, 7); (LED_S1, 7); (LED_MOWER_LIFTED, 6)]).
Proof. vm_compute. reflexivity. Qed.
(** Several collision sensors alone do not light the emergency LED. *)
Example collision_multiple_is_dark : lifted_led (mkView f0 f0 f0 1 f0 COLLISION_MULTIPLE) = LED_off.
Proof. reflexivity. Qed.
End LedsDemo.
