(* ===== verification/Dma.v ===== *)
(** Circular DMA reception, as the UART drivers of the YardForce ESC and of the
    cover UI use it: the DMA stores each byte and counts NDTR down; when the
    buffer is full, [rxend_cb] arms it again from the start and signals the
    thread, which reads the bytes between its own position and the DMA's.

    [pending] is the invariant both threads rest on: which bytes they have not
    processed yet, as slices of the buffer. *)
From S2P Require Import Prelude.

Definition slice (l : list Z) (off n : nat) : list Z := take n (drop off l).

Section Dma.
Context (SIZE : nat).

(** One byte: the buffer, NDTR and the wrap event. *)
(* @ YFR4escDriver.cpp:183-190 YFR4escDriver::Start (rxend_cb) *)
Definition dma_byte (b : Z) (st : list Z * nat * bool) : list Z * nat * bool :=
  let '(buf, ndtr, wrap) := st in
  let buf := <[(SIZE - ndtr)%nat := b]> buf in
  if (ndtr - 1 =? 0)%nat then (buf, SIZE, true) else (buf, (ndtr - 1)%nat, wrap).
Definition dma_bytes (data : list Z) (st : list Z * nat * bool) : list Z * nat * bool :=
  fold_left (fun st b => dma_byte b st) data st.

(** The bytes [p] received since position [seen]; [wrap] says the DMA went round. *)
Record pending (p : list Z) (seen : nat) (st : list Z * nat * bool) : Prop := {
  pending_buf : length st.1.1 = SIZE;
  pending_ndtr : (1 <= st.1.2 <= SIZE)%nat;
  pending_short : (length p < SIZE)%nat;
  pending_seen : (seen <= SIZE)%nat;
  pending_bytes :
    let received := (SIZE - st.1.2)%nat in
    if st.2 then (received < seen)%nat /\ p = slice st.1.1 seen (SIZE - seen) ++ slice st.1.1 0 received
    else (seen <= received)%nat /\ p = slice st.1.1 seen (received - seen) }.

Lemma length_slice l off n : (off + n <= length l)%nat -> length (slice l off n) = n.
Proof. intros. unfold slice. rewrite length_take, length_drop. lia. Qed.
(** The byte stored just after a slice extends it, and touches no other slice. *)
Lemma slice_extend l off i b : (off <= i < length l)%nat ->
  slice (<[i := b]> l) off (S i - off) = slice l off (i - off) ++ [b].
Proof.
  intros H. unfold slice. rewrite drop_insert_ge by lia.
  replace (S i - off)%nat with (S (i - off)) by lia.
  rewrite (take_S_r _ _ b) by (apply list_lookup_insert_eq; rewrite length_drop; lia).
  rewrite take_insert_ge by lia. reflexivity.
Qed.
Lemma slice_other l off n i b : (i < off \/ off + n <= i)%nat -> slice (<[i := b]> l) off n = slice l off n.
Proof.
  intros [H|H]; unfold slice; [rewrite drop_insert_lt by lia; reflexivity|].
  destruct (Nat.le_gt_cases off i); [|rewrite drop_insert_lt by lia; reflexivity].
  rewrite drop_insert_ge, take_insert_ge by lia. reflexivity.
Qed.

Lemma dma_byte_pending b p seen st : pending p seen st -> (length p + 1 < SIZE)%nat ->
  pending (p ++ [b]) seen (dma_byte b st).
Proof.
  destruct st as [[buf n] w]. intros [Hb Hn Hp Hs H] Hl. cbn [fst snd] in *.
  assert (Hlen : length (<[(SIZE - n)%nat := b]> buf) = SIZE) by (rewrite length_insert; exact Hb).
  unfold dma_byte. destruct (Nat.eqb_spec (n - 1) 0) as [E|E].
  - assert (n = 1%nat) as -> by lia. destruct w; destruct H as [Hr ->].
    { rewrite length_app, !length_slice in Hl by lia. lia. }
    rewrite length_slice in Hl by lia.
    split; cbn [fst snd]; rewrite ?length_app, ?length_slice; cbn [length]; try lia. cbv zeta.
    split; [lia|]. rewrite Nat.sub_diag. unfold slice at 3. rewrite take_0, app_nil_r.
    rewrite <- slice_extend by lia. f_equal. lia.
  - split; cbn [fst snd]; rewrite ?length_app; cbn [length]; try lia. cbv zeta.
    replace (SIZE - (n - 1))%nat with (S (SIZE - n)) by lia. destruct w; destruct H as [Hr ->].
    + rewrite length_app, !length_slice in Hl by lia. split; [lia|].
      rewrite (slice_other _ seen) by lia. rewrite <- app_assoc. f_equal.
      rewrite <- (Nat.sub_0_r (S (SIZE - n))), slice_extend by lia. rewrite Nat.sub_0_r. reflexivity.
    + split; [lia|]. rewrite <- slice_extend by lia. reflexivity.
Qed.
Lemma dma_bytes_pending data p seen st : pending p seen st -> (length p + length data < SIZE)%nat ->
  pending (p ++ data) seen (dma_bytes data st).
Proof.
  revert p st. induction data as [|b data IH]; intros p st H Hl; cbn in Hl |- *; [rewrite app_nil_r; exact H|].
  rewrite (cons_middle b p data), app_assoc. apply IH; [apply dma_byte_pending; [exact H|lia]|].
  rewrite length_app. cbn [length]. lia.
Qed.
(** The wrap stays noticed. *)
Lemma dma_bytes_wrap data st : st.2 = true -> (dma_bytes data st).2 = true.
Proof.
  revert st. induction data as [|b data IH]; intros st H; [exact H|]. apply IH.
  destruct st as [[buf n] w]. unfold dma_byte. split_if; [reflexivity|exact H].
Qed.
(** A thread that processed everything is at the DMA's position. *)
Lemma caught_up_pending buf n : length buf = SIZE -> (1 <= n <= SIZE)%nat ->
  pending [] (SIZE - n) (buf, n, false).
Proof.
  intros Hb Hn. split; cbn [fst snd length]; try lia. cbv zeta. split; [lia|].
  unfold slice. rewrite Nat.sub_diag, take_0. reflexivity.
Qed.
End Dma.
