(* ===== verification/Flash.v ===== *)
(** The serial flash memory of the board (a W25Q128 on the WSPI bus): its driver ([boards/XCORE/hal_flash_device.c])
    and the block device the file system is mounted on ([filesystem.cpp]).

    The memory is a parameter: what it answers on the bus is the class [WSPI], and [W25Q] says what its data sheet
    promises. A transfer's success is not looked at by the driver. *)
From S2P Require Import Prelude.

(** ** The bus *)
(* @ os/hal/include/hal_wspi.h:101-122 wspi_command_t *)
Record wspi_command := mkCommand { cmd : Z; cfg : Z; addr : Z; alt : Z; dummy : Z }.
#[export] Instance wspi_command_eq : EqDecision wspi_command.
Proof. solve_decision. Defined.
(* @ os/hal/include/hal_wspi.h:198-198 WSPI_CFG_CMD_MODE_ONE_LINE *)
Definition WSPI_CFG_CMD_MODE_ONE_LINE : Z := Z.shiftl 1 0.
(* @ os/hal/include/hal_wspi.h:206-206 WSPI_CFG_CMD_SIZE_8 *)
Definition WSPI_CFG_CMD_SIZE_8 : Z := Z.shiftl 0 4.
(* @ os/hal/include/hal_wspi.h:213-213 WSPI_CFG_ADDR_MODE_ONE_LINE *)
Definition WSPI_CFG_ADDR_MODE_ONE_LINE : Z := Z.shiftl 1 8.
(* @ os/hal/include/hal_wspi.h:215-215 WSPI_CFG_ADDR_MODE_FOUR_LINES *)
Definition WSPI_CFG_ADDR_MODE_FOUR_LINES : Z := Z.shiftl 3 8.
(* @ os/hal/include/hal_wspi.h:223-223 WSPI_CFG_ADDR_SIZE_24 *)
Definition WSPI_CFG_ADDR_SIZE_24 : Z := Z.shiftl 2 12.
(* @ os/hal/include/hal_wspi.h:227-227 WSPI_CFG_ALT_MODE_NONE *)
Definition WSPI_CFG_ALT_MODE_NONE : Z := Z.shiftl 0 16.
(* @ os/hal/include/hal_wspi.h:230-230 WSPI_CFG_ALT_MODE_FOUR_LINES *)
Definition WSPI_CFG_ALT_MODE_FOUR_LINES : Z := Z.shiftl 3 16.
(* @ os/hal/include/hal_wspi.h:236-236 WSPI_CFG_ALT_SIZE_8 *)
Definition WSPI_CFG_ALT_SIZE_8 : Z := Z.shiftl 0 20.
(* @ os/hal/include/hal_wspi.h:243-243 WSPI_CFG_DATA_MODE_ONE_LINE *)
Definition WSPI_CFG_DATA_MODE_ONE_LINE : Z := Z.shiftl 1 24.
(* @ os/hal/include/hal_wspi.h:245-245 WSPI_CFG_DATA_MODE_FOUR_LINES *)
Definition WSPI_CFG_DATA_MODE_FOUR_LINES : Z := Z.shiftl 3 24.
Definition or_flags (l : list Z) : Z := foldr Z.lor 0 l.
(* @ hal_flash_device.c:94-94 write_enable_cmd *)
Definition write_enable_cmd : wspi_command := mkCommand 0x06 WSPI_CFG_CMD_MODE_ONE_LINE 0 0 0.
(* @ hal_flash_device.c:95-95 read_status_register_cmd *)
Definition read_status_register_cmd : wspi_command := mkCommand 0x05 (or_flags [WSPI_CFG_CMD_MODE_ONE_LINE; WSPI_CFG_DATA_MODE_ONE_LINE]) 0 0 0.
(* @ hal_flash_device.c:88-92 w25q_cmd_read_id *)
Definition w25q_cmd_read_id : wspi_command := mkCommand 0x9F (or_flags [WSPI_CFG_CMD_MODE_ONE_LINE; WSPI_CFG_DATA_MODE_ONE_LINE]) 0 0 0.
(* @ hal_flash_device.c:173-178 snor_device_read (command) *)
Definition fast_read_quad_io (offset : Z) : wspi_command :=
  mkCommand 0xEB (or_flags [WSPI_CFG_CMD_MODE_ONE_LINE; WSPI_CFG_ADDR_MODE_FOUR_LINES; WSPI_CFG_ALT_MODE_FOUR_LINES; WSPI_CFG_ALT_SIZE_8;
    WSPI_CFG_DATA_MODE_FOUR_LINES; WSPI_CFG_CMD_SIZE_8; WSPI_CFG_ADDR_SIZE_24]) offset 0xFF 4.
(* @ hal_flash_device.c:186-192 snor_device_program (command) *)
Definition quad_page_program (offset : Z) : wspi_command :=
  mkCommand 0x32 (or_flags [WSPI_CFG_CMD_MODE_ONE_LINE; WSPI_CFG_ADDR_MODE_ONE_LINE; WSPI_CFG_ALT_MODE_NONE; WSPI_CFG_DATA_MODE_FOUR_LINES;
    WSPI_CFG_CMD_SIZE_8; WSPI_CFG_ADDR_SIZE_24]) offset 0 0.
(* @ hal_flash_device.c:241-241 snor_device_start_erase_sector (command) *)
Definition sector_erase (offset : Z) : wspi_command :=
  mkCommand 0x20 (or_flags [WSPI_CFG_CMD_MODE_ONE_LINE; WSPI_CFG_ADDR_MODE_ONE_LINE; WSPI_CFG_ADDR_SIZE_24]) offset 0 0.
(* @ hal_flash_device.c:227-227 snor_device_start_erase_all (command) *)
Definition bulk_erase : wspi_command := mkCommand 0xC7 WSPI_CFG_CMD_MODE_ONE_LINE 0 0 0.

Class WSPI (C : Type) := {
  wspiCommand : wspi_command -> C -> C;
  wspiSend : wspi_command -> list Z -> C -> C;
  wspiReceive : wspi_command -> nat -> C -> list Z * C }.

(** ** The driver *)
(* @ hal_flash_device.c:34-34 PAGE_SIZE *)
Definition PAGE_SIZE : Z := 256.
(* @ hal_flash_device.c:35-35 PAGE_MASK *)
Definition PAGE_MASK : Z := PAGE_SIZE - 1.
(* @ hal_flash_device.c:39-39 SECTOR_SIZE *)
Definition SECTOR_SIZE : Z := 0x1000.
(* @ hal_flash_device.h:84-84 W25Q_FLAGS_BUSY *)
Definition W25Q_FLAGS_BUSY : Z := 0x01.
(* @ hal_flash_device.h:116-116 W25Q_COMPARE_BUFFER_SIZE *)
Definition W25Q_COMPARE_BUFFER_SIZE : nat := 32.
(* @ os/hal/include/hal_flash.h:99-108 flash_error_t *)
Inductive flash_error_t :=
  | FLASH_NO_ERROR | FLASH_BUSY_ERASING | FLASH_ERROR_READ | FLASH_ERROR_PROGRAM | FLASH_ERROR_ERASE | FLASH_ERROR_VERIFY
  | FLASH_ERROR_HW_FAILURE | FLASH_ERROR_UNIMPLEMENTED.
#[export] Instance flash_error_eq : EqDecision flash_error_t.
Proof. solve_decision. Defined.

Section Driver.
Context `{Bus : WSPI C}.
(* @ hal_flash_device.c w25q_find_id *)
Definition w25q_find_id (set : list Z) (element : Z) : bool := existsb (fun x => x =? element) set.
(** The loop of [w25q_poll_status]; it sleeps for a millisecond before it reads again. *)
(* @ hal_flash_device.c:114-125 w25q_poll_status (loop) *)
Fixpoint poll (timeout : nat) (c : C) : flash_error_t * C :=
  match timeout with
  | O => (FLASH_ERROR_PROGRAM, c)
  | Datatypes.S timeout =>
    let '(buf, c) := wspiReceive read_status_register_cmd 1 c in
    if Z.land (hd 0 buf) W25Q_FLAGS_BUSY =? 0 then (FLASH_NO_ERROR, c) else poll timeout c
  end.
(* @ hal_flash_device.c w25q_poll_status *)
Definition w25q_poll_status (c : C) : flash_error_t * C := poll 100 c.
(* @ hal_flash_device.c w25q_reset_memory *)
Definition w25q_reset_memory (c : C) : C :=
  wspiCommand (mkCommand 0x99 WSPI_CFG_CMD_MODE_ONE_LINE 0 0 0) (wspiCommand (mkCommand 0x66 WSPI_CFG_CMD_MODE_ONE_LINE 0 0 0) c).
(** The descriptor's number of sectors and size. [None]: an assertion fails (in a build with assertions), or the
    shift is by more than the word's width. *)
(* @ hal_flash_device.c snor_device_init *)
Definition snor_device_init (asserts : bool) (c : C) : option ((Z * Z) * C) :=
  let '(buf, c) := wspiReceive w25q_cmd_read_id 3 (w25q_reset_memory c) in
  let b i := default 0 (buf !! i) in
  if asserts && negb (w25q_find_id [0xEF] (b 0%nat) && w25q_find_id [0x40; 0x60] (b 1%nat)) then None
  else if negb (b 2%nat <? 32) then None
  else let sectors_count := Z.shiftl 1 (b 2%nat) / SECTOR_SIZE in Some (sectors_count, u32 (sectors_count * SECTOR_SIZE), c).
(* @ hal_flash_device.c snor_device_read *)
Definition snor_device_read (offset : Z) (n : nat) (c : C) : flash_error_t * list Z * C :=
  let '(rp, c) := wspiReceive (fast_read_quad_io offset) n c in (FLASH_NO_ERROR, rp, c).
(** The part of the data that fits the page. *)
(* @ hal_flash_device.c:199-202 snor_device_program (chunk) *)
Definition page_chunk (offset : Z) (n : nat) : nat :=
  let chunk := u32 (u32 (Z.lor offset PAGE_MASK + 1) - offset) in if Z.of_nat n <? chunk then n else Z.to_nat chunk.
(** The loop of [snor_device_program]; every turn takes at least a byte, so the data's length is fuel enough. *)
(* @ hal_flash_device.c:195-221 snor_device_program (loop) *)
Fixpoint program_loop (fuel : nat) (offset : Z) (pp : list Z) (c : C) : option (flash_error_t * C) :=
  match pp with
  | [] => Some (FLASH_NO_ERROR, c)
  | _ =>
    match fuel with
    | O => None
    | Datatypes.S fuel =>
      let chunk := page_chunk offset (length pp) in
      let c := wspiCommand write_enable_cmd c in
      let c := wspiSend (quad_page_program offset) (take chunk pp) c in
      let '(err, c) := w25q_poll_status c in
      match err with
      | FLASH_NO_ERROR => program_loop fuel (u32 (offset + Z.of_nat chunk)) (drop chunk pp) c
      | err => Some (err, c)
      end
    end
  end.
(* @ hal_flash_device.c snor_device_program *)
Definition snor_device_program (offset : Z) (pp : list Z) (c : C) : option (flash_error_t * C) := program_loop (length pp) offset pp c.
(* @ hal_flash_device.c snor_device_start_erase_all *)
Definition snor_device_start_erase_all (c : C) : flash_error_t * C := (FLASH_NO_ERROR, wspiCommand bulk_erase (wspiCommand write_enable_cmd c)).
(* @ hal_flash_device.c snor_device_start_erase_sector *)
Definition snor_device_start_erase_sector (sector : Z) (c : C) : flash_error_t * C :=
  (FLASH_NO_ERROR, wspiCommand (sector_erase (u32 (sector * SECTOR_SIZE))) (wspiCommand write_enable_cmd c)).
(** The loop of [snor_device_verify_erase] over the buffers that remain, and whether the driver is set to ready. *)
(* @ hal_flash_device.c:260-277 snor_device_verify_erase (loop) *)
Fixpoint verify_loop (n : nat) (offset : Z) (c : C) : flash_error_t * bool * C :=
  match n with
  | O => (FLASH_NO_ERROR, false, c)
  | Datatypes.S n =>
    let '(_, cmpbuf, c) := snor_device_read offset W25Q_COMPARE_BUFFER_SIZE c in
    if existsb (fun b => negb (b =? 0xFF)) cmpbuf then (FLASH_ERROR_VERIFY, true, c)
    else verify_loop n (u32 (offset + Z.of_nat W25Q_COMPARE_BUFFER_SIZE)) c
  end.
(* @ hal_flash_device.c snor_device_verify_erase *)
Definition snor_device_verify_erase (sector : Z) (c : C) : flash_error_t * bool * C :=
  verify_loop (Z.to_nat SECTOR_SIZE / W25Q_COMPARE_BUFFER_SIZE) (u32 (sector * SECTOR_SIZE)) c.
(** With the time to wait before asking again. *)
(* @ hal_flash_device.c snor_device_query_erase *)
Definition snor_device_query_erase (c : C) : flash_error_t * option Z * C :=
  let '(buf, c) := wspiReceive read_status_register_cmd 1 c in
  if negb (Z.land (hd 0 buf) W25Q_FLAGS_BUSY =? 0) then (FLASH_BUSY_ERASING, Some 1, c) else (FLASH_NO_ERROR, None, c).

(** ** The block device *)
(** littlefs' error codes that the callbacks use. *)
Inductive lfs_error := LFS_ERR_OK | LFS_ERR_IO.
(* @ filesystem.cpp:90-90 cfg (block_size) *)
Definition block_size : Z := 4096.
(* @ filesystem.cpp:91-91 cfg (block_count) *)
Definition block_count : Z := 4096.
(* @ filesystem.cpp read_flash *)
Definition read_flash (block off : Z) (size : nat) (c : C) : lfs_error * list Z * C :=
  let '(err, buffer, c) := snor_device_read (u32 (block * block_size + off)) size c in
  (if decide (err = FLASH_NO_ERROR) then LFS_ERR_OK else LFS_ERR_IO, buffer, c).
(* @ filesystem.cpp write_flash *)
Definition write_flash (block off : Z) (buffer : list Z) (c : C) : option (lfs_error * C) :=
  '(err, c) ← snor_device_program (u32 (block * block_size + off)) buffer c; Some (if decide (err = FLASH_NO_ERROR) then LFS_ERR_OK else LFS_ERR_IO, c).
(** The loop of [erase_flash] asks until the memory is ready: [None] when the fuel is spent on a busy memory. *)
(* @ filesystem.cpp:55-57 erase_flash (loop) *)
Fixpoint erase_wait (fuel : nat) (c : C) : option (lfs_error * C) :=
  match fuel with
  | O => None
  | Datatypes.S fuel =>
    let '(err, _, c) := snor_device_query_erase c in if decide (err = FLASH_NO_ERROR) then Some (LFS_ERR_OK, c) else erase_wait fuel c
  end.
(* @ filesystem.cpp erase_flash *)
Definition erase_flash (fuel : nat) (block : Z) (c : C) : option (lfs_error * C) :=
  let '(err, c) := snor_device_start_erase_sector block c in
  if decide (err = FLASH_NO_ERROR) then erase_wait fuel c else Some (LFS_ERR_IO, c).
(* @ filesystem.cpp sync_flash *)
Definition sync_flash (c : C) : lfs_error * C := (LFS_ERR_OK, c).
(** littlefs mounts and formats over the callbacks; an error is not zero. *)
(* @ filesystem.cpp InitFS *)
Definition InitFS (asserts : bool) (lfs_mount lfs_format : C -> Z * C) (c : C) : option (bool * C) :=
  '(_, c) ← snor_device_init asserts c;
  let '(err, c) := lfs_mount c in
  let '(err, c) := if negb (err =? 0) then let '(_, c) := lfs_format c in lfs_mount c else (err, c) in
  Some (err =? 0, c).
End Driver.

(** ** What the memory promises

    A page takes the bytes sent to it from the address on, and goes on at its start after its end; a byte only loses
    bits, until its sector is erased. Programming takes less than the hundred polls, erasing as long as it takes. *)
Definition device_size : Z := block_count * block_size.
(** The cells [m] after the bytes [d] were sent to the page of [a]. *)
Definition page_program (a : Z) (d : list Z) (m : Z -> Z) (x : Z) : Z :=
  match d !! Z.to_nat ((x - a) mod PAGE_SIZE) with
  | Some b => if a / PAGE_SIZE =? x / PAGE_SIZE then Z.land (m x) b else m x
  | None => m x
  end.
Definition erased (a : Z) (m : Z -> Z) (x : Z) : Z := if (a <=? x) && (x <? a + SECTOR_SIZE) then 0xFF else m x.
Class W25Q (C : Type) `{Bus : WSPI C} := {
  cells : C -> Z -> Z;
  write_enabled : C -> bool;
  (** How often the status will still be busy. *)
  busy_for : C -> nat;
  (** The polls that erasing takes. *)
  erase_time : nat;
  enable_law c : busy_for c = 0%nat ->
    let c' := wspiCommand write_enable_cmd c in busy_for c' = 0%nat /\ write_enabled c' = true /\ forall x, cells c' x = cells c x;
  program_law c a d : busy_for c = 0%nat -> write_enabled c = true -> 0 <= a < device_size -> (0 < length d <= 256)%nat -> is_bytes d ->
    let c' := wspiSend (quad_page_program a) d c in (busy_for c' < 100)%nat /\ forall x, cells c' x = page_program a d (cells c) x;
  erase_law c a : busy_for c = 0%nat -> write_enabled c = true -> 0 <= a < device_size -> a mod SECTOR_SIZE = 0 ->
    let c' := wspiCommand (sector_erase a) c in (busy_for c' < erase_time)%nat /\ forall x, cells c' x = erased a (cells c) x;
  status_law c : exists s c', wspiReceive read_status_register_cmd 1 c = ([s], c') /\ Z.land s W25Q_FLAGS_BUSY = match busy_for c with O => 0 | _ => 1 end /\
    busy_for c' = Nat.pred (busy_for c) /\ forall x, cells c' x = cells c x;
  read_law c a n : busy_for c = 0%nat -> 0 <= a -> a + Z.of_nat n <= device_size ->
    exists c', wspiReceive (fast_read_quad_io a) n c = (map (fun i => cells c (a + Z.of_nat i)) (seq 0 n), c') /\
      busy_for c' = 0%nat /\ forall x, cells c' x = cells c x }.

(** ** The driver on such a memory *)
Section Laws.
Context `{Chip : W25Q C}.
Definition idle (c : C) : Prop := busy_for c = 0%nat.
(** Cells [a] to [a + length d] with the bits of [d]. *)
Definition programmed (a : Z) (d : list Z) (m : Z -> Z) (x : Z) : Z :=
  if (a <=? x) && (x <? a + Z.of_nat (length d)) then Z.land (m x) (nth (Z.to_nat (x - a)) d 0) else m x.
Lemma poll_ready timeout : forall c, (busy_for c < timeout)%nat -> exists c', poll timeout c = (FLASH_NO_ERROR, c') /\ idle c' /\ forall x, cells c' x = cells c x.
Proof.
  induction timeout as [|t IH]; intros c H; [lia|]. cbn [poll]. destruct (status_law c) as (s & c' & -> & Hs & Hb & Hm). cbn [hd]. rewrite Hs.
  destruct (busy_for c) as [|n] eqn:E; [exists c'; split; [reflexivity|split; [exact Hb|exact Hm]]|]. cbn.
  destruct (IH c') as (c2 & -> & I & M); [rewrite Hb; cbn; lia|]. exists c2. split; [reflexivity|]. split; [exact I|]. intros x. rewrite M. apply Hm.
Qed.
Lemma poll_stuck timeout : forall c, (timeout <= busy_for c)%nat -> (poll timeout c).1 = FLASH_ERROR_PROGRAM.
Proof.
  induction timeout as [|t IH]; intros c H; [reflexivity|]. cbn [poll]. destruct (status_law c) as (s & c' & -> & Hs & Hb & _). cbn [hd]. rewrite Hs.
  destruct (busy_for c) as [|n] eqn:E; [lia|]. cbn. apply IH. rewrite Hb. cbn. lia.
Qed.
(** A chunk ends where its page does. *)
Lemma lor_page_mask a : 0 <= a -> Z.lor a PAGE_MASK = a / PAGE_SIZE * PAGE_SIZE + PAGE_MASK.
Proof.
  intros H. change PAGE_SIZE with (2 ^ 8). rewrite <- Z.shiftr_div_pow2, <- (lor_hi _ PAGE_MASK 8) by (unfold PAGE_MASK, PAGE_SIZE; lia). change PAGE_MASK with (Z.ones 8).
  apply Z.bits_inj'. intros n Hn. rewrite !Z.lor_spec, Z.shiftl_spec, Z.testbit_ones by lia.
  destruct (Z.ltb_spec n 8); [rewrite (proj2 (Z.leb_le 0 n)) by lia; rewrite !orb_true_r; reflexivity|].
  rewrite Z.shiftr_spec by lia. f_equal. f_equal. lia.
Qed.
Lemma page_chunk_spec offset n : 0 <= offset < device_size -> page_chunk offset n = Nat.min n (Z.to_nat (PAGE_SIZE - offset mod PAGE_SIZE)).
Proof.
  intros H. unfold page_chunk. rewrite lor_page_mask by lia. change device_size with 16777216 in H. unfold PAGE_MASK.
  pose proof (Z.mod_pos_bound offset PAGE_SIZE ltac:(reflexivity)) as B. pose proof (Z.div_mod offset PAGE_SIZE ltac:(discriminate)) as D.
  replace (offset / PAGE_SIZE * PAGE_SIZE + (PAGE_SIZE - 1) + 1) with (offset + (PAGE_SIZE - offset mod PAGE_SIZE)) by lia.
  change PAGE_SIZE with 256 in *. rewrite (u32_small (offset + _)) by (unfold is_u32; lia).
  replace (offset + (256 - offset mod 256) - offset) with (256 - offset mod 256) by lia. rewrite u32_small by (unfold is_u32; lia).
  destruct (Z.ltb_spec (Z.of_nat n) (256 - offset mod 256)); lia.
Qed.
(** Within a page nothing wraps. *)
Lemma page_program_flat a d m x : 0 <= a -> a mod PAGE_SIZE + Z.of_nat (length d) <= PAGE_SIZE -> page_program a d m x = programmed a d m x.
Proof.
  intros Ha H. unfold page_program, programmed. pose proof (Z.mod_pos_bound a PAGE_SIZE ltac:(reflexivity)) as Ba.
  pose proof (Z.div_mod a PAGE_SIZE ltac:(discriminate)) as Da. pose proof (Z.div_mod x PAGE_SIZE ltac:(discriminate)) as Dx.
  pose proof (Z.mod_pos_bound x PAGE_SIZE ltac:(reflexivity)) as Bx. set (i := (x - a) mod PAGE_SIZE).
  pose proof (Z.mod_pos_bound (x - a) PAGE_SIZE ltac:(reflexivity)) as Bi. fold i in Bi.
  destruct (Z.eqb_spec (a / PAGE_SIZE) (x / PAGE_SIZE)) as [E|E].
  - rewrite E in Da. destruct (Z.leb_spec a x) as [L|L]; cbn [andb].
    + assert (Ei : i = x - a) by (unfold i; apply Z.mod_small; lia). rewrite Ei. destruct (d !! Z.to_nat (x - a)) as [b|] eqn:Eb.
      * pose proof (lookup_lt_Some _ _ _ Eb). rewrite (proj2 (Z.ltb_lt _ _)) by lia. erewrite nth_lookup_Some by exact Eb. reflexivity.
      * apply lookup_ge_None in Eb. rewrite (proj2 (Z.ltb_ge _ _)) by lia. reflexivity.
    + assert (Ei : i = x - a + PAGE_SIZE). { unfold i. rewrite <- (Z.mod_add _ 1) by discriminate. apply Z.mod_small. lia. }
      rewrite lookup_ge_None_2 by lia. reflexivity.
  - assert (N : (a <=? x) && (x <? a + Z.of_nat (length d)) = false); [|rewrite N; destruct (d !! _); reflexivity].
    apply andb_false_iff. destruct (Z_lt_le_dec x a) as [|L]; [left; apply Z.leb_gt; lia|right; apply Z.ltb_ge].
    assert (a / PAGE_SIZE < x / PAGE_SIZE); [|nia]. pose proof (Z.div_le_mono a x PAGE_SIZE ltac:(reflexivity) L). lia.
Qed.
Lemma programmed_app a d1 d2 m x : programmed (a + Z.of_nat (length d1)) d2 (programmed a d1 m) x = programmed a (d1 ++ d2) m x.
Proof.
  unfold programmed. rewrite length_app, Nat2Z.inj_add. destruct (Z.leb_spec a x); cbn [andb].
  - destruct (Z.ltb_spec x (a + Z.of_nat (length d1))).
    + rewrite (proj2 (Z.leb_gt _ _)) by lia. rewrite (proj2 (Z.ltb_lt x (a + (_ + _)))) by lia. cbn [andb]. rewrite app_nth1 by lia. reflexivity.
    + rewrite (proj2 (Z.leb_le _ _)) by lia. cbn [andb]. rewrite Z.add_assoc. destruct (Z.ltb_spec x (a + Z.of_nat (length d1) + Z.of_nat (length d2))); [|reflexivity].
      rewrite app_nth2 by lia. do 2 f_equal. lia.
  - rewrite (proj2 (Z.leb_gt (_ + _) _)) by lia. reflexivity.
Qed.
Lemma programmed_ext a d m m' x : m x = m' x -> programmed a d m x = programmed a d m' x.
Proof. unfold programmed. intros ->. reflexivity. Qed.
Lemma program_loop_spec fuel : forall offset pp c, idle c -> 0 <= offset -> offset + Z.of_nat (length pp) <= device_size -> is_bytes pp -> (length pp <= fuel)%nat ->
  exists c', program_loop fuel offset pp c = Some (FLASH_NO_ERROR, c') /\ idle c' /\ forall x, cells c' x = programmed offset pp (cells c) x.
Proof.
  induction fuel as [|fuel IH]; intros offset pp c I Ho Hs Hb Hf.
  { destruct pp; [|cbn in Hf; lia]. exists c. split; [reflexivity|]. split; [exact I|]. intros x. unfold programmed. cbn. destruct (_ && _) eqn:E; [bsimp; lia|reflexivity]. }
  destruct pp as [|b pp']; [exists c; split; [reflexivity|]; split; [exact I|]; intros x; unfold programmed; cbn; destruct (_ && _) eqn:E; [bsimp; lia|reflexivity]|].
  set (pp := b :: pp') in *. assert (Hl : (0 < length pp)%nat) by (cbn; lia). cbn [program_loop]. fold pp. change (match pp with [] => _ | _ => ?y end) with y.
  rewrite page_chunk_spec by lia. pose proof (Z.mod_pos_bound offset PAGE_SIZE ltac:(reflexivity)) as Bo. set (chunk := Nat.min _ _).
  assert (Hc : (0 < chunk <= length pp)%nat) by (unfold chunk; lia). assert (Lc : length (take chunk pp) = chunk) by (rewrite length_take; lia).
  destruct (enable_law c I) as (I1 & W1 & M1). set (c1 := wspiCommand _ _) in *.
  destruct (program_law c1 offset (take chunk pp) I1 W1) as [B2 M2]; [lia|rewrite Lc; unfold chunk, PAGE_SIZE in *; lia|apply Forall_take, Hb|].
  set (c2 := wspiSend _ _ _) in *. unfold w25q_poll_status. destruct (poll_ready 100 c2 B2) as (c3 & -> & I3 & M3).
  change device_size with 16777216 in Hs. rewrite u32_small by (unfold is_u32; lia).
  destruct (IH (offset + Z.of_nat chunk) (drop chunk pp) c3) as (c' & -> & I' & M'); [exact I3|lia|rewrite length_drop; change device_size with 16777216; lia|apply Forall_drop, Hb|rewrite length_drop; lia|].
  exists c'. split; [reflexivity|]. split; [exact I'|]. intros x. pose proof (programmed_app offset (take chunk pp) (drop chunk pp) (cells c) x) as A. rewrite take_drop, Lc in A. rewrite M', <- A.
  apply programmed_ext. rewrite M3, M2, page_program_flat by (rewrite ?Lc; unfold chunk; lia). apply programmed_ext, M1.
Qed.
Lemma sector_aligned block : 0 <= block < block_count -> u32 (block * SECTOR_SIZE) = block * block_size /\ 0 <= block * block_size < device_size /\
  (block * block_size) mod SECTOR_SIZE = 0.
Proof.
  intros H. unfold block_count, SECTOR_SIZE, block_size in *. change device_size with 16777216. split; [apply u32_small; unfold is_u32; lia|]. split; [lia|].
  apply Z.mod_mul. lia.
Qed.
Lemma erase_wait_ready fuel : forall c, (busy_for c < fuel)%nat -> exists c', erase_wait fuel c = Some (LFS_ERR_OK, c') /\ idle c' /\ forall x, cells c' x = cells c x.
Proof.
  induction fuel as [|t IH]; intros c H; [lia|]. cbn [erase_wait]. unfold snor_device_query_erase. destruct (status_law c) as (s & c' & -> & Hs & Hb & Hm). cbn [hd]. rewrite Hs.
  destruct (busy_for c) as [|n] eqn:E; [exists c'; split; [reflexivity|split; [exact Hb|exact Hm]]|]. cbn.
  destruct (IH c') as (c2 & -> & I & M); [rewrite Hb; cbn; lia|]. exists c2. split; [reflexivity|]. split; [exact I|]. intros x. rewrite M. apply Hm.
Qed.

(** ** The block device that littlefs is promised *)
Inductive operation := Read (block off : Z) (size : nat) | Prog (block off : Z) (data : list Z) | Erase (block : Z).
(** Operations inside a block. *)
Definition in_block (block off : Z) (n : nat) : Prop := 0 <= block < block_count /\ 0 <= off /\ off + Z.of_nat n <= block_size.
Definition operation_ok (o : operation) : Prop :=
  match o with Read b off n => in_block b off n | Prog b off d => in_block b off (length d) /\ is_bytes d | Erase b => in_block b 0 0 end.
(** What an operation reads, and the cells after it. *)
Definition device_step (o : operation) (m : Z -> Z) : list Z * (Z -> Z) :=
  match o with
  | Read b off n => (map (fun i => m (b * block_size + off + Z.of_nat i)) (seq 0 n), m)
  | Prog b off d => ([], programmed (b * block_size + off) d m)
  | Erase b => ([], erased (b * block_size) m)
  end.
Fixpoint device_run (l : list operation) (m : Z -> Z) : list (list Z) * (Z -> Z) :=
  match l with [] => ([], m) | o :: l => let '(r, m) := device_step o m in let '(rs, m) := device_run l m in (r :: rs, m) end.
(** The callbacks. *)
Definition callback (fuel : nat) (o : operation) (c : C) : option (lfs_error * list Z * C) :=
  match o with
  | Read b off n => Some (read_flash b off n c)
  | Prog b off d => '(err, c) ← write_flash b off d c; Some (err, [], c)
  | Erase b => '(err, c) ← erase_flash fuel b c; Some (err, [], c)
  end.
Fixpoint callbacks (fuel : nat) (l : list operation) (c : C) : option (list (lfs_error * list Z) * C) :=
  match l with
  | [] => Some ([], c)
  | o :: l => '(err, r, c) ← callback fuel o c; '(rs, c) ← callbacks fuel l c; Some ((err, r) :: rs, c)
  end.
Lemma block_offset b off n : in_block b off n -> u32 (b * block_size + off) = b * block_size + off /\ 0 <= b * block_size + off /\ b * block_size + off + Z.of_nat n <= device_size.
Proof.
  intros ((H1 & H2) & H3 & H4). unfold block_count, block_size in *. change device_size with 16777216. split; [apply u32_small; unfold is_u32; lia|lia].
Qed.
Lemma callback_refines o c : idle c -> operation_ok o ->
  exists c', callback erase_time o c = Some (LFS_ERR_OK, (device_step o (cells c)).1, c') /\ idle c' /\ forall x, cells c' x = (device_step o (cells c)).2 x.
Proof.
  intros I H. destruct o as [b off n|b off d|b]; cbn [callback device_step fst snd operation_ok] in *.
  - destruct (block_offset _ _ _ H) as (E & H1 & H2). unfold read_flash, snor_device_read. rewrite E.
    destruct (read_law c _ n I H1 H2) as (c' & -> & I' & M). exists c'. split; [reflexivity|split; assumption].
  - destruct H as [H Hb], (block_offset _ _ _ H) as (E & H1 & H2). unfold write_flash, snor_device_program. rewrite E.
    destruct (program_loop_spec (length d) _ d c I H1 H2 Hb ltac:(lia)) as (c' & -> & I' & M). exists c'. split; [reflexivity|split; assumption].
  - destruct H as [H _], (sector_aligned b H) as (E & H1 & H2). unfold erase_flash, snor_device_start_erase_sector. rewrite E. cbn [decide].
    destruct (enable_law c I) as (I1 & W1 & M1). destruct (erase_law _ _ I1 W1 H1 H2) as [B2 M2].
    destruct (erase_wait_ready erase_time _ B2) as (c' & E' & I' & M3). rewrite decide_True by reflexivity. rewrite E'. exists c'. split; [reflexivity|]. split; [exact I'|].
    intros x. rewrite M3, M2. unfold erased. destruct (_ && _); [reflexivity|apply M1].
Qed.
Lemma device_step_ext o m m' : (forall x, m x = m' x) -> (device_step o m).1 = (device_step o m').1 /\ forall x, (device_step o m).2 x = (device_step o m').2 x.
Proof.
  intros E. destruct o as [b off n|b off d|b]; cbn; (split; [try reflexivity|]).
  - apply map_ext. intros i. apply E.
  - exact E.
  - intros x. apply programmed_ext, E.
  - intros x. unfold erased. rewrite E. reflexivity.
Qed.
Lemma device_run_ext l : forall m m', (forall x, m x = m' x) -> (device_run l m).1 = (device_run l m').1 /\ forall x, (device_run l m).2 x = (device_run l m').2 x.
Proof.
  induction l as [|o l IH]; intros m m' E; [split; [reflexivity|exact E]|]. cbn [device_run]. destruct (device_step_ext o m m' E) as [E1 E2].
  destruct (device_step o m) as [r1 m1], (device_step o m') as [r2 m2]. cbn [fst snd] in *. destruct (IH m1 m2 E2) as [E3 E4].
  destruct (device_run l m1), (device_run l m2). cbn [fst snd] in *. split; [congruence|exact E4].
Qed.
Lemma callbacks_refine l : forall c, idle c -> Forall operation_ok l ->
  exists c', callbacks erase_time l c = Some (map (pair LFS_ERR_OK) (device_run l (cells c)).1, c') /\ idle c' /\ forall x, cells c' x = (device_run l (cells c)).2 x.
Proof.
  induction l as [|o l IH]; intros c I H; [exists c; split; [reflexivity|split; [exact I|reflexivity]]|]. inversion H as [|? ? Ho Hl]; subst.
  destruct (callback_refines o c I Ho) as (c1 & E1 & I1 & M1). cbn [callbacks device_run]. rewrite E1. cbn [mbind option_bind].
  destruct (IH c1 I1 Hl) as (c2 & -> & I2 & M2). cbn [mbind option_bind]. destruct (device_run_ext l _ _ M1) as [R1 R2].
  destruct (device_step o (cells c)) as [r m]. cbn [fst snd] in *. destruct (device_run l m) as [rs m']. cbn [fst snd] in *.
  exists c2. split; [rewrite R1; reflexivity|]. split; [exact I2|]. intros x. rewrite M2. apply R2.
Qed.

(** C35. The flash is the block device littlefs is promised: from a ready memory, any reads, programs and erases
    inside their blocks succeed, whatever their offsets and lengths (a program is cut at the pages, which would wrap),
    the reads return what an array of cells returns in which a program clears bits and an erase sets those of
    its block only, and the memory is ready and holds that array in the end. *)
Theorem block_device_refines l c : idle c -> Forall operation_ok l ->
  exists c', callbacks erase_time l c = Some (map (pair LFS_ERR_OK) (device_run l (cells c)).1, c') /\ idle c' /\ forall x, cells c' x = (device_run l (cells c)).2 x.
Proof. apply callbacks_refine. Qed.

(** Data written to an erased block is kept by what other blocks are told and by reads. *)
Definition leaves (b : Z) (o : operation) : Prop := match o with Read _ _ _ => True | Prog b' _ _ | Erase b' => b' <> b end.
Lemma device_run_leaves b l : forall m, Forall operation_ok l -> Forall (leaves b) l ->
  forall x, b * block_size <= x < (b + 1) * block_size -> (device_run l m).2 x = m x.
Proof.
  induction l as [|o l IH]; intros m H L x Hx; [reflexivity|]. inversion H as [|? ? Ho Hl]; subst. inversion L as [|? ? Lo Ll]; subst. cbn [device_run].
  assert (E : (device_step o m).2 x = m x).
  { unfold block_size in *. destruct o as [b' off n|b' off d|b']; cbn in *; [reflexivity|destruct Ho as ((_ & ? & ?) & _); unfold programmed, block_size in *|unfold erased, SECTOR_SIZE, block_size];
      (match goal with |- (if ?g then _ else _) = _ => destruct g eqn:G end; [|reflexivity]); bsimp; nia. }
  destruct (device_step o m) as [r m1]. cbn [fst snd] in E. specialize (IH m1 Hl Ll x Hx). destruct (device_run l m1). cbn [fst snd] in *. congruence.
Qed.
Lemma device_run_app l1 l2 m : device_run (l1 ++ l2) m = let '(r1, m) := device_run l1 m in let '(r2, m) := device_run l2 m in (r1 ++ r2, m).
Proof.
  revert m. induction l1 as [|o l1 IH]; intros m; cbn [app device_run]; [destruct (device_run l2 m); reflexivity|].
  destruct (device_step o m) as [r m1]. rewrite IH. destruct (device_run l1 m1) as [r1 m2]. destruct (device_run l2 m2). reflexivity.
Qed.
(** What is written is read back: after a block was erased and data programmed into it, at any offset, reading
    it returns exactly that data, whatever other blocks were told and whatever was read in between. *)
Theorem flash_keeps_data c b off d l : idle c -> in_block b off (length d) -> is_bytes d -> Forall operation_ok l -> Forall (leaves b) l ->
  exists rs c', callbacks erase_time (Erase b :: Prog b off d :: l ++ [Read b off (length d)]) c = Some (rs ++ [(LFS_ERR_OK, d)], c') /\
    Forall (fun r => r.1 = LFS_ERR_OK) rs.
Proof.
  intros I H Hd Hl Ll. set (ops := Erase b :: _). assert (O : Forall operation_ok ops).
  { constructor; [destruct H; split; [assumption|unfold block_size; cbn; lia]|]. constructor; [split; assumption|]. apply Forall_app. split; [exact Hl|]. constructor; [exact H|constructor]. }
  destruct (callbacks_refine ops c I O) as (c' & -> & _ & _). unfold ops. cbn [device_run device_step]. rewrite device_run_app.
  set (m := programmed _ _ _). pose proof (device_run_leaves b l m Hl Ll) as K. destruct (device_run l m) as [r1 m1]. cbn [fst snd] in *. cbn [device_run device_step fst].
  exists (map (pair LFS_ERR_OK) ([] :: [] :: r1)), c'. split; [|apply Forall_map, List.Forall_forall; reflexivity].
  cbn [map]. rewrite List.map_app. cbn [map app]. do 5 f_equal. f_equal. f_equal.
  apply list_eq. intros i. rewrite list_lookup_fmap. destruct (decide (i < length d)%nat) as [L|L].
  - rewrite lookup_seq_lt by exact L. cbn [fmap option_fmap option_map]. destruct (lookup_lt_is_Some_2 d i L) as [v Hv]. rewrite Hv. f_equal. destruct H as (H1 & H2 & H3).
    rewrite K by lia. unfold m, programmed. rewrite (proj2 (Z.leb_le _ _)), (proj2 (Z.ltb_lt _ _)) by lia. cbn [andb].
    replace (Z.to_nat _) with i by lia. rewrite (nth_lookup_Some _ _ _ _ Hv). unfold erased. change SECTOR_SIZE with block_size.
    rewrite (proj2 (Z.leb_le _ _)), (proj2 (Z.ltb_lt _ _)) by lia. cbn [andb].
    pose proof (Forall_lookup_1 _ _ _ _ Hd Hv) as [? ?]. rewrite Z.land_comm. change 0xFF with (Z.ones 8). rewrite Z.land_ones by lia. apply Z.mod_small. lia.
  - rewrite lookup_seq_ge, lookup_ge_None_2 by lia. reflexivity.
Qed.

(** A memory that stays busy after a page is reported to littlefs, and a sector passes the check exactly when it is erased. *)
Lemma stuck_program_is_reported b off d c : idle c -> in_block b off (length d) -> d <> [] ->
  (forall a p c, (100 <= busy_for (wspiSend (quad_page_program a) p c))%nat) -> exists c', write_flash b off d c = Some (LFS_ERR_IO, c').
Proof.
  intros I H N Stuck. unfold write_flash, snor_device_program. destruct d as [|x d']; [congruence|]. cbn [length program_loop]. set (p := take _ _). set (c2 := wspiSend _ _ _).
  pose proof (poll_stuck 100 c2 (Stuck _ _ _)) as E. unfold w25q_poll_status. destruct (poll 100 c2) as [err c3]. cbn [fst] in E. subst err. exists c3. reflexivity.
Qed.
Lemma verify_loop_spec n : forall offset c, idle c -> 0 <= offset -> offset + Z.of_nat (n * W25Q_COMPARE_BUFFER_SIZE) <= device_size ->
  let ok := forallb (fun i => cells c (offset + Z.of_nat i) =? 0xFF) (seq 0 (n * W25Q_COMPARE_BUFFER_SIZE)) in
  exists c', verify_loop n offset c = (if ok then FLASH_NO_ERROR else FLASH_ERROR_VERIFY, negb ok, c') /\ idle c' /\ forall x, cells c' x = cells c x.
Proof.
  induction n as [|n IH]; intros offset c I Ho Hs; [exists c; split; [reflexivity|split; [exact I|reflexivity]]|]. cbn [verify_loop]. unfold snor_device_read.
  rewrite Nat.mul_succ_l in *. destruct (read_law c offset W25Q_COMPARE_BUFFER_SIZE I Ho ltac:(lia)) as (c1 & -> & I1 & M1).
  rewrite Nat.add_comm, seq_app, forallb_app. set (first := forallb _ (seq 0 W25Q_COMPARE_BUFFER_SIZE)).
  assert (E : existsb (fun b => negb (b =? 0xFF)) (map (fun i => cells c (offset + Z.of_nat i)) (seq 0 W25Q_COMPARE_BUFFER_SIZE)) = negb first).
  { unfold first. induction (seq 0 W25Q_COMPARE_BUFFER_SIZE) as [|i l IHl]; [reflexivity|]. cbn. rewrite IHl, negb_andb. reflexivity. }
  rewrite E. destruct first; cbn [negb andb]; [|exists c1; split; [reflexivity|split; assumption]].
  change device_size with 16777216 in Hs. rewrite u32_small by (unfold is_u32; lia).
  destruct (IH (offset + Z.of_nat W25Q_COMPARE_BUFFER_SIZE) c1 I1) as (c2 & -> & I2 & M2); [lia|change device_size with 16777216; lia|]. exists c2.
  replace (forallb _ (seq 0 (n * _))) with (forallb (fun i => cells c (offset + Z.of_nat i) =? 0xFF) (seq (W25Q_COMPARE_BUFFER_SIZE + 0) (n * W25Q_COMPARE_BUFFER_SIZE))).
  { split; [reflexivity|]. split; [exact I2|]. intros x. rewrite M2. apply M1. }
  rewrite <- fmap_add_seq. generalize (seq 0 (n * W25Q_COMPARE_BUFFER_SIZE)). intros l. induction l as [|i l IHl]; [reflexivity|].
  cbn [fmap list_fmap map forallb]. rewrite IHl. f_equal. rewrite M1. do 2 f_equal. lia.
Qed.
Lemma verify_erase_spec sector c : idle c -> 0 <= sector < block_count ->
  (snor_device_verify_erase sector c).1.1 = FLASH_NO_ERROR <-> forall x, sector * block_size <= x < (sector + 1) * block_size -> cells c x = 0xFF.
Proof.
  intros I H. unfold snor_device_verify_erase. destruct (sector_aligned sector H) as (-> & H1 & _).
  change (Z.to_nat SECTOR_SIZE / W25Q_COMPARE_BUFFER_SIZE)%nat with 128%nat.
  assert (H2 : sector * block_size + Z.of_nat (128 * W25Q_COMPARE_BUFFER_SIZE) <= device_size) by (unfold block_count, block_size in *; change device_size with 16777216; cbn; lia).
  destruct (verify_loop_spec 128 _ c I (proj1 H1) H2) as (c' & -> & _). cbn [fst]. destruct (forallb _ _) eqn:E.
  - split; [intros _ x Hx|reflexivity]. rewrite forallb_forall in E. specialize (E (Z.to_nat (x - sector * block_size))).
    rewrite Z2Nat.id in E by lia. replace (sector * block_size + (x - sector * block_size)) with x in E by lia. apply Z.eqb_eq, E, in_seq.
    change (128 * W25Q_COMPARE_BUFFER_SIZE)%nat with (Z.to_nat block_size). lia.
  - split; [discriminate|]. intros A. exfalso. apply not_true_iff_false in E. apply E, forallb_forall. intros i Hi. apply in_seq in Hi.
    change (128 * W25Q_COMPARE_BUFFER_SIZE)%nat with (Z.to_nat block_size) in Hi. apply Z.eqb_eq, A. unfold block_size in *. lia.
Qed.
End Laws.

(** ** A memory that keeps the promises *)
Module FlashDemo.
Record memory := mkMemory { mem_cells : Z -> Z; mem_enabled : bool; mem_busy : nat }.
#[export] Instance sim_bus : WSPI memory := {
  wspiCommand k m :=
    if decide (k = write_enable_cmd) then mkMemory (mem_cells m) true (mem_busy m)
    else if decide (k = sector_erase (addr k)) then if mem_enabled m then mkMemory (erased (addr k) (mem_cells m)) false 5 else m
    else m;
  wspiSend k d m := if decide (k = quad_page_program (addr k)) then if mem_enabled m then mkMemory (page_program (addr k) d (mem_cells m)) false 3 else m else m;
  wspiReceive k n m :=
    if decide (k = read_status_register_cmd) then ([match mem_busy m with O => 0 | _ => 1 end], mkMemory (mem_cells m) (mem_enabled m) (Nat.pred (mem_busy m)))
    else if decide (k = fast_read_quad_io (addr k)) then (map (fun i => mem_cells m (addr k + Z.of_nat i)) (seq 0 n), m)
    else if decide (k = w25q_cmd_read_id) then ([0xEF; 0x40; 0x18], m) else (replicate n 0xFF, m) }.
#[export] Instance sim_chip : W25Q memory.
Proof.
  refine {| cells := mem_cells; write_enabled := mem_enabled; busy_for := mem_busy; erase_time := 6%nat |}.
  - intros c H. cbn. repeat split. exact H.
  - intros c a d I W Ha Hl Hd. cbn [wspiSend sim_bus addr quad_page_program]. rewrite decide_True, W by reflexivity. cbn. split; [lia|reflexivity].
  - intros c a I W Ha Hm. cbn [wspiCommand sim_bus addr sector_erase]. rewrite decide_False, decide_True, W by (reflexivity || discriminate). cbn. split; [lia|reflexivity].
  - intros c. cbn [wspiReceive sim_bus]. rewrite decide_True by reflexivity. eexists _, _. split; [reflexivity|]. cbn. split; [|split; reflexivity]. destruct (mem_busy c); reflexivity.
  - intros c a n I Ha Hs. cbn [wspiReceive sim_bus addr fast_read_quad_io]. rewrite decide_False, decide_True by (reflexivity || discriminate).
    eexists. split; [reflexivity|]. split; [exact I|reflexivity].
Defined.
Definition used : memory := mkMemory (fun x => x mod 7) false 0.
(** Ten bytes from the last six of a page on. *)
Definition ten : list Z := [1; 2; 3; 4; 5; 6; 7; 8; 9; 10].
Lemma block_device_witness : exists c', callbacks 6 [Erase 3; Prog 3 250 ten; Read 3 248 14] used =
  Some ([(LFS_ERR_OK, []); (LFS_ERR_OK, []); (LFS_ERR_OK, [255; 255; 1; 2; 3; 4; 5; 6; 7; 8; 9; 10; 255; 255])], c') /\ idle c'.
Proof.
  destruct (block_device_refines [Erase 3; Prog 3 250 ten; Read 3 248 14] used) as (c' & E & I & _).
  - reflexivity.
  - assert (B : is_bytes ten) by (repeat (constructor; [unfold is_u8; lia|]); constructor).
    repeat (constructor; [cbn; unfold in_block, block_count, block_size; cbn; repeat split; (lia || exact B)|]). constructor.
  - exists c'. split; [exact E|exact I].
Defined.
Lemma flash_keeps_witness : exists rs c', callbacks 6 [Erase 3; Prog 3 250 ten; Erase 4; Prog 2 0 ten; Read 3 250 10] used = Some (rs ++ [(LFS_ERR_OK, ten)], c').
Proof.
  destruct (flash_keeps_data used 3 250 ten [Erase 4; Prog 2 0 ten]) as (rs & c' & E & _).
  - reflexivity.
  - unfold in_block, block_count, block_size. cbn. lia.
  - repeat (constructor; [unfold is_u8; lia|]). constructor.
  - assert (B : is_bytes ten) by (repeat (constructor; [unfold is_u8; lia|]); constructor).
    repeat (constructor; [cbn; unfold in_block, block_count, block_size; cbn; repeat split; (lia || exact B)|]). constructor.
  - repeat (constructor; [cbn; lia|]). constructor.
  - exists rs, c'. exact E.
Defined.
(** The 16 MB device has the blocks the file system is configured for; one that does not answer is not looked at. *)
Example device_has_block_count : option_map fst (snor_device_init true used) = Some (block_count, device_size).
Proof. reflexivity. Qed.
(** A memory that does not answer: without assertions its size is a shift by more than a word's width. *)
Definition no_answer : WSPI unit := {| wspiCommand _ c := c; wspiSend _ _ c := c; wspiReceive _ n c := (replicate n 0xFF, c) |}.
Example absent_memory_is_undefined : snor_device_init (Bus := no_answer) false tt = None.
Proof. reflexivity. Qed.
End FlashDemo.
