(* ===== verification/Settings.v ===== *)
(** Persistent settings: [filesystem/file.hpp], [filesystem/file.cpp],
    [filesystem/versioned_struct.hpp] and the structs of [robots/include/sabo_common.hpp].

    littlefs is not in the repository: its functions are the class [Littlefs], what its documentation says
    of them the class [LittlefsLaws], and [Ramfs] is an instance of both. A struct is its bytes in
    memory. *)
From stdpp Require Import strings.
From S2P Require Import Prelude Dma.

(** A path is its characters, without the terminator. *)
Definition path := list Z.
Definition path_of (s : string) : path := map (fun a => Z.of_nat (Ascii.nat_of_ascii a)) (String.list_ascii_of_string s).
Definition SLASH : Z := 47.

(** ** littlefs *)
Definition LFS_ERR_OK : Z := 0.
Definition LFS_ERR_EXIST : Z := -17.
Definition LFS_ERR_INVAL : Z := -22.
Definition LFS_O_RDONLY : Z := 1.
Definition LFS_O_WRONLY : Z := 2.
Definition LFS_O_CREAT : Z := 0x100.
Definition LFS_O_TRUNC : Z := 0x400.
(** Over the state [St] of the file system, which holds the open files too; [H] is a file's handle.
    Each function returns a number: an error when it is negative. *)
Class Littlefs (St H : Type) := {
  lfs_mkdir : path -> St -> Z * St;
  lfs_file_opencfg : path -> Z -> St -> Z * H * St;
  lfs_file_close : H -> St -> Z * St;
  lfs_file_read : H -> nat -> St -> Z * list Z * St;
  lfs_file_write : H -> list Z -> St -> Z * St;
  lfs_file_sync : H -> St -> Z * St;
  lfs_file_rewind : H -> St -> Z * St;
  lfs_file_seek : H -> Z -> St -> Z * St;
  lfs_file_size : H -> St -> Z }.

(** ** Files *)
Section Files.
Context {St H : Type} {L : Littlefs St H}.
(** An object holds a handle while it is open. *)
(* @ file.hpp:87-92 File *)
Definition File := option H.
(* @ file.hpp File::open *)
Definition file_open (p : path) (flags : Z) (f : File) (s : St) : Z * File * St :=
  match f with
  | Some _ => (LFS_ERR_INVAL, f, s)
  | None => let '(result, h, s) := lfs_file_opencfg p flags s in (result, if result =? LFS_ERR_OK then Some h else None, s)
  end.
(* @ file.hpp File::close *)
Definition file_close (f : File) (s : St) : File * St :=
  match f with Some h => (None, (lfs_file_close h s).2) | None => (None, s) end.
(** The destructor. *)
(* @ file.hpp:28-32 File::~File *)
Definition file_destroy (f : File) (s : St) : St := (file_close f s).2.

Fixpoint last_slash_from (i : nat) (p : path) (found : option nat) : option nat :=
  match p with [] => found | c :: p => last_slash_from (S i) p (if c =? SLASH then Some i else found) end.
(** One [lfs_mkdir] for each slash after the first character, with what stands before it. *)
Fixpoint make_parents (done rest : path) (s : St) : Z * St :=
  match rest with
  | [] => (LFS_ERR_OK, s)
  | c :: rest =>
    if c =? SLASH then
      let '(result, s) := lfs_mkdir done s in
      if (negb (result =? LFS_ERR_OK) && negb (result =? LFS_ERR_EXIST))%bool then (result, s) else make_parents (done ++ [c]) rest s
    else make_parents (done ++ [c]) rest s
  end.
(** [None] is a null pointer. *)
(* @ file.cpp File::mkdirp *)
Definition mkdirp (p : option path) (s : St) : Z * St :=
  match p with
  | None => (LFS_ERR_INVAL, s)
  | Some p =>
    if negb (nth 0 p 0 =? SLASH) then (LFS_ERR_INVAL, s) else
    let temp_path := take 255 p in
    let temp_path := match last_slash_from 0 temp_path None with
      | Some i => if (0 <? i)%nat then take i temp_path else temp_path
      | None => temp_path end in
    let '(result, s) := make_parents (take 1 temp_path) (drop 1 temp_path) s in
    if negb (result =? LFS_ERR_OK) then (result, s) else
    let '(result, s) := lfs_mkdir temp_path s in
    if result =? LFS_ERR_EXIST then (LFS_ERR_OK, s) else (result, s)
  end.

(** ** Versioned structs *)
(** What a struct derived from [VersionedStruct] fixes: its version and its file. Its bytes start
    with the version. *)
(* @ versioned_struct.hpp:34-36 VERSIONED_STRUCT_FIELDS *)
Record versioned := mkVersioned { VERSION : Z; PATH : path }.
Definition overwrite (dst : list Z) (off : nat) (src : list Z) : list Z := take off dst ++ src ++ drop (off + length src) dst.
(** [remaining_bytes] is an [int32_t] computed in 32 bits. A read leaves what it read in the struct, also when it fails. *)
(* @ versioned_struct.hpp VersionedStruct::Load *)
Definition Load (T : versioned) (dest : list Z) (s : St) : bool * list Z * St :=
  let '(open_result, file, s) := file_open (PATH T) LFS_O_RDONLY None s in
  match file with
  | None => (false, dest, s)
  | Some h =>
    let '(read_result, b, s) := lfs_file_read h 2 s in
    if negb (read_result =? 2) then (false, dest, file_destroy file s) else
    let file_version := le_int b in
    if VERSION T <? file_version then (false, dest, file_destroy file s) else
    let remaining_bytes := s32 (u32 (lfs_file_size h s - 2)) in
    let s := (lfs_file_seek h 2 s).2 in
    if 0 <? remaining_bytes then
      let room := (length dest - 2)%nat in
      let bytes_to_read := if remaining_bytes <? Z.of_nat room then Z.to_nat remaining_bytes else room in
      let '(read_result, b, s) := lfs_file_read h bytes_to_read s in
      let dest := overwrite dest 2 (take bytes_to_read b) in
      if negb (u32 read_result =? Z.of_nat bytes_to_read) then (false, dest, file_destroy file s) else (true, dest, file_destroy file s)
    else (true, dest, file_destroy file s)
  end.
(** [return mkdirp_result] and [return open_result] turn an error number into [true]. *)
(* @ versioned_struct.hpp VersionedStruct::Save *)
Definition Save (T : versioned) (src : list Z) (s : St) : bool * St :=
  let '(mkdirp_result, s) := mkdirp (Some (PATH T)) s in
  if negb (mkdirp_result =? LFS_ERR_OK) then (negb (mkdirp_result =? 0), s) else
  let '(open_result, file, s) := file_open (PATH T) (Z.lor (Z.lor LFS_O_WRONLY LFS_O_CREAT) LFS_O_TRUNC) None s in
  match file with
  | None => (negb (open_result =? 0), s)
  | Some h =>
    let '(written, s) := lfs_file_write h src s in
    if negb (written =? Z.of_nat (length src)) then (false, file_destroy file s) else
    let s := (lfs_file_sync h s).2 in
    (true, file_destroy file s)
  end.
End Files.

(** ** The settings *)
(* @ sabo_common.hpp:322-329 LCDSettings *)
Record LCDSettings := mkLCD { lcd_version : Z; contrast : Z; temp_compensation : Z; auto_sleep_minutes : Z }.
(* @ sabo_common.hpp:322-329 LCDSettings *)
Definition default_LCD : LCDSettings := mkLCD 1 80 2 5.
(* @ sabo_common.hpp:322-329 LCDSettings *)
Definition LCDSettings_struct : versioned := mkVersioned 1 (path_of "/cfg/sabo/lcd.bin").
(* @ sabo_common.hpp:322-329 LCDSettings *)
Definition lcd_bytes (x : LCDSettings) : list Z := le_bytes 2 (lcd_version x) ++ [contrast x; temp_compensation x; auto_sleep_minutes x].
(* @ sabo_common.hpp:322-329 LCDSettings *)
Definition lcd_of (b : list Z) : LCDSettings := mkLCD (le_int (take 2 b)) (nth 2 b 0) (nth 3 b 0) (nth 4 b 0).
(* @ sabo_common.hpp:350-357 GPSSettings *)
Record GPSSettings := mkGPS { gps_version : Z; protocol : Z; uart : Z; baudrate : Z }.
(* @ sabo_common.hpp:350-357 GPSSettings *)
Definition GPSSettings_struct : versioned := mkVersioned 1 (path_of "/cfg/sabo/gps.bin").
(* @ sabo_common.hpp:350-357 GPSSettings *)
Definition gps_bytes (x : GPSSettings) : list Z := le_bytes 2 (gps_version x) ++ [protocol x; uart x] ++ le_bytes 4 (baudrate x).
(* @ sabo_common.hpp:350-357 GPSSettings *)
Definition gps_of (b : list Z) : GPSSettings := mkGPS (le_int (take 2 b)) (nth 2 b 0) (nth 3 b 0) (le_int (slice b 4 4)).

(** ** What littlefs promises

    A directory or file name is a sequence of names, each after a slash. *)
Definition join (names : list (list Z)) : path := concat (map (cons SLASH) names).
Definition plain (names : list (list Z)) : Prop := Forall (fun c => (SLASH ∉ c) /\ c <> []) names.

(** [content s p] is the file [p] as a reader finds it; [opened s h p d pos]: the handle [h] is on the file
    [p], whose bytes, with those written through [h], are [d], at position [pos]. [fs_ok]: the device works
    and has room. *)
Class LittlefsLaws {St H : Type} (L : Littlefs St H) := {
  fs_ok : St -> Prop;
  content : St -> path -> option (list Z);
  has_dir : St -> path -> Prop;
  opened : St -> H -> path -> list Z -> nat -> Prop;
  agrees (P : path -> Prop) (s s' : St) : Prop :=
    fs_ok s' /\ (forall q, P q -> content s' q = content s q) /\ (forall q, has_dir s q -> has_dir s' q);
  root_dir s : fs_ok s -> has_dir s [];
  dir_no_file s p d : fs_ok s -> has_dir s p -> content s p = Some d -> False;
  mkdir_spec s names c : fs_ok s -> SLASH ∉ c -> has_dir s (join names) -> content s (join (names ++ [c])) = None ->
    exists r s', lfs_mkdir (join (names ++ [c])) s = (r, s') /\ (r = LFS_ERR_OK \/ r = LFS_ERR_EXIST) /\
      agrees (fun _ => True) s s' /\ has_dir s' (join (names ++ [c])) /\ (forall q, has_dir s' q -> q = join (names ++ [c]) \/ has_dir s q);
  open_write_spec s names c : fs_ok s -> SLASH ∉ c -> has_dir s (join names) -> ~ has_dir s (join (names ++ [c])) ->
    exists h s', lfs_file_opencfg (join (names ++ [c])) (Z.lor (Z.lor LFS_O_WRONLY LFS_O_CREAT) LFS_O_TRUNC) s = (LFS_ERR_OK, h, s') /\
      agrees (fun q => q <> join (names ++ [c])) s s' /\ opened s' h (join (names ++ [c])) [] 0;
  open_read_spec s p d : fs_ok s -> content s p = Some d ->
    exists h s', lfs_file_opencfg p LFS_O_RDONLY s = (LFS_ERR_OK, h, s') /\ agrees (fun _ => True) s s' /\ opened s' h p d 0;
  read_spec s h p d pos n : fs_ok s -> opened s h p d pos ->
    exists s', lfs_file_read h n s = (Z.of_nat (length (slice d pos n)), slice d pos n, s') /\
      agrees (fun _ => True) s s' /\ opened s' h p d (pos + length (slice d pos n));
  write_spec s h p d b : fs_ok s -> opened s h p d (length d) ->
    exists s', lfs_file_write h b s = (Z.of_nat (length b), s') /\ agrees (fun q => q <> p) s s' /\ opened s' h p (d ++ b) (length (d ++ b));
  sync_spec s h p d pos : fs_ok s -> opened s h p d pos ->
    exists s', lfs_file_sync h s = (LFS_ERR_OK, s') /\ agrees (fun q => q <> p) s s' /\ opened s' h p d pos /\ content s' p = Some d;
  size_spec s h p d pos : fs_ok s -> opened s h p d pos -> lfs_file_size h s = Z.of_nat (length d);
  seek_spec s h p d pos off : fs_ok s -> opened s h p d pos ->
    exists s', lfs_file_seek h (Z.of_nat off) s = (Z.of_nat off, s') /\ agrees (fun _ => True) s s' /\ opened s' h p d off;
  close_spec s h p d pos : fs_ok s -> opened s h p d pos -> content s p = Some d -> agrees (fun _ => True) s (lfs_file_close h s).2 }.

Section Laws.
Context {St H : Type} {L : Littlefs St H} {laws : LittlefsLaws L}.
Implicit Types s : St.
Abbreviation same := (agrees (fun _ => True)).
Lemma agrees_trans (P : path -> Prop) s1 s2 s3 : agrees P s1 s2 -> agrees P s2 s3 -> agrees P s1 s3.
Proof.
  intros (_ & C1 & D1) (O2 & C2 & D2). split; [exact O2|]. split; [|auto]. intros q Hq. rewrite C2, C1 by exact Hq. reflexivity.
Qed.
Lemma agrees_weaken (P Q : path -> Prop) s1 s2 : (forall q, Q q -> P q) -> agrees P s1 s2 -> agrees Q s1 s2.
Proof. intros HPQ (O & C & D). split; [exact O|]. split; [|exact D]. auto. Qed.
Lemma same_refl s : fs_ok s -> same s s.
Proof. intros Hs. split; [exact Hs|]. split; auto. Qed.
Lemma same_agrees (P : path -> Prop) s1 s2 : same s1 s2 -> agrees P s1 s2.
Proof. apply agrees_weaken. auto. Qed.

Lemma same_content p s1 s2 : same s1 s2 -> content s2 p = content s1 p.
Proof. intros (_ & C & _). apply C, I. Qed.

(** *** Parent directories *)
Lemma join_app a b : join (a ++ b) = join a ++ join b.
Proof. unfold join. rewrite map_app, concat_app. reflexivity. Qed.
Lemma last_slash_app i a b found : last_slash_from i (a ++ b) found = last_slash_from (i + length a) b (last_slash_from i a found).
Proof.
  revert i found. induction a as [|x a IH]; intros i found; cbn [app last_slash_from length]; [f_equal; lia|].
  rewrite IH. f_equal. lia.
Qed.
Lemma last_slash_none i a found : SLASH ∉ a -> last_slash_from i a found = found.
Proof.
  revert i. induction a as [|x a IH]; intros i Ha; [reflexivity|]. apply not_elem_of_cons in Ha as [Hx Ha]. cbn [last_slash_from].
  destruct (Z.eqb_spec x SLASH); [congruence|]. apply IH, Ha.
Qed.
Lemma last_slash_join names c : SLASH ∉ c -> last_slash_from 0 (join (names ++ [c])) None = Some (length (join names)).
Proof.
  intros Hc. rewrite join_app, last_slash_app. cbn [join map concat app last_slash_from]. rewrite app_nil_r, Z.eqb_refl.
  rewrite last_slash_none by exact Hc. f_equal.
Qed.
Lemma parents_skip c : forall done rest s, SLASH ∉ c -> make_parents done (c ++ rest) s = make_parents (done ++ c) rest s.
Proof.
  induction c as [|x c IH]; intros done rest s Hc; cbn [app make_parents]; [rewrite app_nil_r; reflexivity|].
  apply not_elem_of_cons in Hc as [Hx Hc]. destruct (Z.eqb_spec x SLASH); [congruence|]. rewrite IH by exact Hc. rewrite <- app_assoc. reflexivity.
Qed.
(** No directory above the file [names] is a file, and the file is no directory. *)
Definition free (names : list (list Z)) s : Prop := ~ has_dir s (join names) /\
  forall a b, names = a ++ b -> b <> [] -> content s (join a) = None.

Lemma free_mkdir a b s s' : free (a ++ b) s -> b <> [] -> plain (a ++ b) -> same s s' ->
  (forall q, has_dir s' q -> q = join a \/ has_dir s q) -> free (a ++ b) s'.
Proof.
  intros [Hd Hc] Hb Hp (_ & C & _) Hnew. split.
  - intros H1. destruct (Hnew _ H1) as [E|]; [|tauto]. apply (f_equal length) in E. rewrite join_app, length_app in E.
    destruct b as [|x b]; [congruence|]. cbn in E. lia.
  - intros a' b' E Hb'. rewrite C by exact I. eapply Hc; eassumption.
Qed.
Lemma plain_slash names c : plain names -> c ∈ names -> SLASH ∉ c.
Proof. intros Hp Hc. unfold plain in Hp. rewrite Forall_forall in Hp. apply (Hp c Hc). Qed.

Lemma make_dir names c rest s : fs_ok s -> plain (names ++ c :: rest) -> rest <> [] -> free (names ++ c :: rest) s -> has_dir s (join names) ->
  exists r s', lfs_mkdir (join (names ++ [c])) s = (r, s') /\ (r = LFS_ERR_OK \/ r = LFS_ERR_EXIST) /\ same s s' /\
    free ((names ++ [c]) ++ rest) s' /\ has_dir s' (join (names ++ [c])).
Proof.
  intros Hs Hp Hr Hf Hd. assert (E : names ++ c :: rest = (names ++ [c]) ++ rest) by (rewrite <- app_assoc; reflexivity).
  assert (Hslash : SLASH ∉ c) by (eapply plain_slash; [exact Hp|set_solver]).
  destruct (mkdir_spec s names c Hs Hslash Hd) as (r & s' & E1 & Hres & Hsame & Hnew & Hold).
  { apply (proj2 Hf (names ++ [c]) rest); [exact E|exact Hr]. }
  exists r, s'. split; [exact E1|]. split; [exact Hres|]. split; [exact Hsame|]. split; [|exact Hnew].
  rewrite E in Hf, Hp. eapply free_mkdir; eassumption.
Qed.
Lemma make_parents_ok more : forall names c last s, fs_ok s -> plain (names ++ c :: more ++ [last]) -> free (names ++ c :: more ++ [last]) s ->
  has_dir s (join names) ->
  exists s' init, make_parents (join names ++ [SLASH]) (c ++ join more) s = (LFS_ERR_OK, s') /\ same s s' /\
    (exists z, names ++ c :: more = init ++ [z]) /\ (forall z, names ++ c :: more = init ++ [z] -> has_dir s' (join init)) /\
    free (names ++ c :: more ++ [last]) s'.
Proof.
  induction more as [|c' more IH]; intros names c last s Hs Hp Hf Hd; rewrite parents_skip by (eapply plain_slash; [exact Hp|set_solver]).
  - cbn [join map concat make_parents]. exists s, names. split; [reflexivity|]. split; [apply same_refl; exact Hs|]. split; [eauto|]. split; [auto|exact Hf].
  - cbn [join map concat app make_parents]. rewrite Z.eqb_refl. fold (join more).
    assert (Ed : (join names ++ [SLASH]) ++ c = join (names ++ [c])) by (rewrite join_app; unfold join at 3; cbn; rewrite app_nil_r, <- app_assoc; reflexivity).
    rewrite Ed. destruct (make_dir names c (c' :: more ++ [last]) s Hs Hp ltac:(discriminate) Hf Hd) as (r & s1 & E1 & Hr & Hsame & Hf1 & Hd1).
    rewrite E1. replace (negb (r =? LFS_ERR_OK) && negb (r =? LFS_ERR_EXIST))%bool with false by (destruct Hr as [-> | ->]; reflexivity).
    assert (Ep : names ++ c :: c' :: more ++ [last] = (names ++ [c]) ++ c' :: more ++ [last]) by (rewrite <- app_assoc; reflexivity).
    assert (Em : names ++ c :: c' :: more = (names ++ [c]) ++ c' :: more) by (rewrite <- app_assoc; reflexivity).
    destruct (IH (names ++ [c]) c' last s1) as (s2 & init & E2 & Hsame2 & Hinit & Hdir & Hf2); [apply Hsame|rewrite <- Ep; exact Hp|exact Hf1|exact Hd1|].
    exists s2, init. split; [exact E2|]. split; [eapply agrees_trans; eassumption|]. cbn [app]. rewrite Em. split; [exact Hinit|]. split; [exact Hdir|rewrite Ep; exact Hf2].
Qed.
(** The parents of a file two levels down or deeper are made. *)
Lemma mkdirp_ok c more last s : fs_ok s -> plain (c :: more ++ [last]) -> free (c :: more ++ [last]) s ->
  (length (join (c :: more ++ [last])) <= 255)%nat ->
  exists s', mkdirp (Some (join (c :: more ++ [last]))) s = (LFS_ERR_OK, s') /\ same s s' /\ has_dir s' (join (c :: more)) /\
    ~ has_dir s' (join (c :: more ++ [last])).
Proof.
  intros Hs Hp Hf Hlen. unfold mkdirp. rewrite (take_ge (join (c :: more ++ [last])) 255) by exact Hlen. change (nth 0 (join (c :: more ++ [last])) 0) with SLASH. rewrite Z.eqb_refl. cbn [negb].
  assert (Hlast : SLASH ∉ last) by (eapply plain_slash; [exact Hp|set_solver]).
  rewrite app_comm_cons, last_slash_join by exact Hlast.
  replace (0 <? length (join (c :: more)))%nat with true by (unfold join; reflexivity).
  rewrite (join_app (c :: more)), take_app_length.
  change (take 1 (join (c :: more))) with (join [] ++ [SLASH]). change (drop 1 (join (c :: more))) with (c ++ join more).
  destruct (make_parents_ok more [] c last s Hs Hp Hf (root_dir s Hs)) as (s1 & init & E1 & Hsame & [z Hz] & Hdir & Hf1).
  rewrite E1. cbn [negb Z.eqb LFS_ERR_OK]. cbn [app] in Hz, Hf1, Hdir.
  specialize (Hdir z Hz). rewrite <- (join_app (c :: more)). rewrite Hz.
  destruct (make_dir init z [last] s1) as (r & s2 & E2 & Hr & Hsame2 & Hf2 & Hd2);
    [apply Hsame| | discriminate| |exact Hdir|].
  1,2: replace (init ++ [z; last]) with ((init ++ [z]) ++ [last]) by (rewrite <- app_assoc; reflexivity); rewrite <- Hz; cbn [app]; assumption.
  rewrite E2. exists s2. rewrite <- Hz in *. split; [destruct Hr as [-> | ->]; reflexivity|]. split; [eapply agrees_trans; eassumption|].
  split; [exact Hd2|]. exact (proj1 Hf2).
Qed.

(** *** Loading and saving *)
Lemma Load_spec T dest d s : fs_ok s -> content s (PATH T) = Some d -> (2 <= length d)%nat -> Z.of_nat (length d) < 2147483648 -> (2 <= length dest)%nat ->
  exists s', same s s' /\ Load T dest s =
    if VERSION T <? le_int (take 2 d) then (false, dest, s') else (true, overwrite dest 2 (take (length dest - 2) (drop 2 d)), s').
Proof.
  intros Hs Hd H2 Hmax Hdest. unfold Load, file_open.
  destruct (open_read_spec s (PATH T) d Hs Hd) as (h & s1 & E1 & S1 & O1). rewrite E1. cbn [Z.eqb LFS_ERR_OK].
  destruct (read_spec s1 h (PATH T) d 0 2 (proj1 S1) O1) as (s2 & E2 & S2 & O2). rewrite E2.
  assert (El : slice d 0 2 = take 2 d) by reflexivity. rewrite El in *. rewrite (length_take_le d 2) in * by lia.
  change (Z.of_nat 2 =? 2) with true. cbn [negb]. assert (S02 : same s s2) by (eapply agrees_trans; eassumption).
  destruct (VERSION T <? le_int (take 2 d)).
  { eexists. split; [|reflexivity]. unfold file_destroy, file_close. cbn [snd]. eapply agrees_trans; [exact S02|]. eapply close_spec; [apply S02|exact O2|rewrite (same_content _ _ _ S02); exact Hd]. }
  rewrite (size_spec s2 h (PATH T) d (0 + 2) (proj1 S02) O2).
  assert (Er : s32 (u32 (Z.of_nat (length d) - 2)) = Z.of_nat (length d) - 2) by (rewrite u32_small, s32_small; unfold is_u32, is_s32; lia).
  rewrite Er. destruct (seek_spec s2 h (PATH T) d (0 + 2) 2 (proj1 S02) O2) as (s3 & E3 & S3 & O3).
  change (Z.of_nat 2) with 2 in E3. rewrite E3. cbn [snd]. assert (S03 : same s s3) by (eapply agrees_trans; eassumption).
  destruct (Z.ltb_spec 0 (Z.of_nat (length d) - 2)).
  - set (n := if _ <? _ then _ else _).
    assert (Hn : n = Nat.min (length d - 2) (length dest - 2)) by (unfold n; destruct (Z.ltb_spec (Z.of_nat (length d) - 2) (Z.of_nat (length dest - 2))); lia).
    destruct (read_spec s3 h (PATH T) d 2 n (proj1 S03) O3) as (s4 & E4 & S4 & O4). rewrite E4.
    assert (Elen : length (slice d 2 n) = n) by (unfold slice; rewrite length_take, length_drop; lia). rewrite Elen.
    rewrite u32_small by (unfold is_u32; lia). rewrite Z.eqb_refl. cbn [negb].
    eexists. split; [|f_equal; f_equal; unfold slice].
    + unfold file_destroy, file_close. cbn [snd]. eapply agrees_trans; [exact S03|]. eapply agrees_trans; [exact S4|].
      eapply close_spec; [apply S4|exact O4|rewrite (same_content _ _ _ S4), (same_content _ _ _ S03); exact Hd].
    + rewrite Hn, take_take. f_equal. rewrite <- (take_ge (drop 2 d) (length d - 2)) at 2 by (rewrite length_drop; lia). rewrite take_take. f_equal. lia.
  - eexists. split; [|f_equal; f_equal].
    + unfold file_destroy, file_close. cbn [snd]. eapply agrees_trans; [exact S03|]. eapply close_spec; [apply S03|exact O3|rewrite (same_content _ _ _ S03); exact Hd].
    + unfold overwrite. rewrite (drop_ge d) by lia. rewrite take_nil. cbn [length app]. rewrite Nat.add_0_r. symmetry. apply take_drop.
Qed.

Lemma Save_spec T src c more last s : fs_ok s -> PATH T = join (c :: more ++ [last]) -> plain (c :: more ++ [last]) -> free (c :: more ++ [last]) s ->
  (length (PATH T) <= 255)%nat ->
  exists s', Save T src s = (true, s') /\ agrees (fun q => q <> PATH T) s s' /\ content s' (PATH T) = Some src.
Proof.
  intros Hs HT Hp Hf Hlen. unfold Save, file_open. rewrite HT in *.
  destruct (mkdirp_ok c more last s Hs Hp Hf Hlen) as (s1 & E1 & S1 & D1 & D1'). rewrite E1. cbn [negb Z.eqb LFS_ERR_OK].
  destruct (open_write_spec s1 (c :: more) last (proj1 S1) ltac:(eapply plain_slash; [exact Hp|set_solver]) D1 D1') as (h & s2 & E2 & S2 & O2).
  change ((c :: more) ++ [last]) with (c :: more ++ [last]) in *. rewrite E2. cbn [Z.eqb LFS_ERR_OK].
  destruct (write_spec s2 h _ [] src (proj1 S2) O2) as (s3 & E3 & S3 & O3). rewrite E3, Z.eqb_refl. cbn [negb app] in *.
  destruct (sync_spec s3 h _ _ _ (proj1 S3) O3) as (s4 & E4 & S4 & O4 & C4). rewrite E4. cbn [snd].
  pose proof (close_spec s4 h _ _ _ (proj1 S4) O4 C4) as S5. unfold file_destroy, file_close. cbn [snd].
  eexists. split; [reflexivity|]. split.
  - do 4 (eapply agrees_trans; [solve [apply same_agrees; eassumption | eassumption]|]). apply same_agrees, S5.
  - destruct S5 as (_ & C5 & _). rewrite C5 by exact I. exact C4.
Qed.

(** C25. Settings survive. The struct's path has at least two components and at most 255 bytes, and no file is in
    the place of its directories. On a working file system a saved struct is in its file and no other file changes;
    a program that is not older, whose struct may have grown at its end, loads from it what was saved
    and keeps its defaults for what was not; an older program refuses it and keeps all its defaults. *)
Theorem settings_survive T src c more last s : fs_ok s -> PATH T = join (c :: more ++ [last]) -> plain (c :: more ++ [last]) ->
  free (c :: more ++ [last]) s -> (length (PATH T) <= 255)%nat ->
  le_int (take 2 src) = VERSION T -> (2 <= length src)%nat -> Z.of_nat (length src) < 2147483648 ->
  exists s', Save T src s = (true, s') /\ agrees (fun q => q <> PATH T) s s' /\
    forall T' dest, PATH T' = PATH T -> (2 <= length dest)%nat ->
      exists s'', same s' s'' /\ Load T' dest s' =
        if VERSION T' <? VERSION T then (false, dest, s'')
        else (true, overwrite dest 2 (take (length dest - 2) (drop 2 src)), s'').
Proof.
  intros Hs HT Hp Hf Hlen Hver H2 Hmax. destruct (Save_spec T src c more last s Hs HT Hp Hf Hlen) as (s' & E & S & C).
  exists s'. split; [exact E|]. split; [exact S|]. intros T' dest HT' Hdest.
  destruct (Load_spec T' dest src s' (proj1 S) ltac:(rewrite HT'; exact C) H2 Hmax Hdest) as (s'' & S' & EL).
  exists s''. split; [exact S'|]. rewrite EL, Hver. reflexivity.
Qed.
End Laws.

(** ** A file system in memory *)
Module Ramfs.
(** One file is open at a time: its path, its bytes and the position. [no_space] and [sync_fails] are faults. *)
Record ramfs := mkRam { files : gmap path (list Z); dirs : list path; cur : option (path * list Z * nat); no_space : bool; sync_fails : bool }.
#[export] Instance eta_ramfs : Eta ramfs := fun s => mkRam (files s) (dirs s) (cur s) (no_space s) (sync_fails s).
Definition empty_ram : ramfs := mkRam ∅ [[]] None false false.
Definition parent (p : path) : path := match last_slash_from 0 p None with Some i => take i p | None => [] end.
Definition on_cur {A} (default : A) (f : path * list Z * nat -> A) (s : ramfs) : A := match cur s with Some c => f c | None => default end.
Definition commit (s : ramfs) : Z * ramfs :=
  if sync_fails s then (-5, s) else on_cur (0, s) (fun c => (0, s <| files ::= fun m => <[c.1.1 := c.1.2]> m |>)) s.
#[export] Instance ram_littlefs : Littlefs ramfs unit := {
  lfs_mkdir p s :=
    if (bool_decide (p ∈ dirs s) || bool_decide (is_Some (files s !! p)))%bool then (LFS_ERR_EXIST, s) else
    if negb (bool_decide (parent p ∈ dirs s)) then (-2, s) else
    if no_space s then (-28, s) else (LFS_ERR_OK, s <| dirs ::= cons p |>);
  lfs_file_opencfg p flags s :=
    if negb (Z.land flags LFS_O_WRONLY =? 0) then
      if no_space s then (-28, tt, s) else if bool_decide (p ∈ dirs s) then (-21, tt, s) else
      if negb (bool_decide (parent p ∈ dirs s)) then (-2, tt, s) else (LFS_ERR_OK, tt, s <| cur := Some (p, [], 0%nat) |>)
    else match files s !! p with None => (-2, tt, s) | Some d => (LFS_ERR_OK, tt, s <| cur := Some (p, d, 0%nat) |>) end;
  lfs_file_close _ s := let '(r, s) := commit s in (r, s <| cur := None |>);
  lfs_file_read _ n s := on_cur (-9, [], s) (fun '(p, d, pos) =>
    let b := slice d pos n in (Z.of_nat (length b), b, s <| cur := Some (p, d, (pos + length b)%nat) |>)) s;
  lfs_file_write _ b s := on_cur (-9, s) (fun '(p, d, pos) =>
    let d := overwrite d pos b in (Z.of_nat (length b), s <| cur := Some (p, d, (pos + length b)%nat) |>)) s;
  lfs_file_sync _ s := commit s;
  lfs_file_rewind _ s := on_cur (-9, s) (fun '(p, d, pos) => (0, s <| cur := Some (p, d, 0%nat) |>)) s;
  lfs_file_seek _ off s := on_cur (-9, s) (fun '(p, d, pos) => (off, s <| cur := Some (p, d, Z.to_nat off) |>)) s;
  lfs_file_size _ s := on_cur (-9) (fun c => Z.of_nat (length c.1.2)) s }.

Lemma parent_join names c : SLASH ∉ c -> parent (join (names ++ [c])) = join names.
Proof.
  intros Hc. unfold parent. rewrite last_slash_join by exact Hc. rewrite join_app. apply take_app_length.
Qed.

Definition ram_ok (s : ramfs) : Prop := no_space s = false /\ sync_fails s = false /\ [] ∈ dirs s /\ Forall (fun p => files s !! p = None) (dirs s).
Definition ram_opened (s : ramfs) (_ : unit) (p : path) (d : list Z) (pos : nat) : Prop := cur s = Some (p, d, pos) /\ p ∉ dirs s.
Lemma dirs_no_file s p : ram_ok s -> p ∈ dirs s -> files s !! p = None.
Proof. intros (_ & _ & _ & Hf) Hp. rewrite Forall_forall in Hf. auto. Qed.
(** Committing the file [p], which is no directory. *)
Lemma commit_spec s p d pos : ram_ok s -> ram_opened s tt p d pos ->
  commit s = (0, s <| files ::= fun m => <[p := d]> m |>) /\ ram_ok (s <| files ::= fun m => <[p := d]> m |>).
Proof.
  intros Hs [Hc Hp]. destruct Hs as (H1 & H2 & H3 & H4). unfold commit, on_cur. rewrite H2, Hc. split; [reflexivity|].
  split; [exact H1|]. split; [exact H2|]. split; [exact H3|]. cbn. rewrite Forall_forall in *. intros q Hq.
  rewrite lookup_insert_ne by congruence. auto.
Qed.
#[export] Program Instance ram_laws : LittlefsLaws ram_littlefs := {
  fs_ok := ram_ok; content s p := files s !! p; has_dir s p := p ∈ dirs s; opened := ram_opened }.
Next Obligation. intros s (_ & _ & H & _). exact H. Qed.
Next Obligation. intros s p d Hs Hp E. cbn in *. rewrite (dirs_no_file s p Hs Hp) in E. discriminate. Qed.
Next Obligation.
  intros s names c Hs Hc Hd Hn. cbn in *. rewrite Hn, parent_join by exact Hc. pose proof Hs as (H1 & H2 & H3 & H4). rewrite H1.
  rewrite (bool_decide_eq_false_2 (is_Some None)) by (intros [? ?]; discriminate). rewrite orb_false_r.
  rewrite (bool_decide_eq_true_2 (join names ∈ dirs s)) by exact Hd. cbn [negb].
  case_bool_decide as E; do 2 eexists; (split; [reflexivity|]); (split; [auto|]).
  - split; [split; auto|]. split; [exact E|auto].
  - split; [|split; [cbn; set_solver|cbn; set_solver]]. split; [|cbn; split; [auto|set_solver]].
    split; [reflexivity|]. split; [exact H2|]. split; [cbn; set_solver|]. cbn. constructor; assumption.
Qed.
Next Obligation.
  intros s names c Hs Hc Hd Hn. cbn in *. rewrite parent_join by exact Hc. destruct Hs as (H1 & H2 & H3 & H4). rewrite H1.
  rewrite (bool_decide_eq_false_2 _) by exact Hn. rewrite (bool_decide_eq_true_2 _) by exact Hd. cbn [negb].
  do 2 eexists. split; [reflexivity|]. split; [|split; [reflexivity|exact Hn]]. split; [repeat split; solve [assumption|reflexivity]|]. split; auto.
Qed.
Next Obligation.
  intros s p d Hs E. cbn in *. rewrite E. do 2 eexists. split; [reflexivity|]. split; [split; [exact Hs|auto]|].
  split; [reflexivity|]. cbn. intros Hp. rewrite (dirs_no_file s p Hs Hp) in E. discriminate.
Qed.
Next Obligation.
  intros s h p d pos n Hs [Hc Hp]. cbn. unfold on_cur. rewrite Hc. eexists. split; [reflexivity|]. split; [split; [exact Hs|auto]|]. split; [reflexivity|exact Hp].
Qed.
Next Obligation.
  intros s h p d b Hs [Hc Hp]. cbn. unfold on_cur. rewrite Hc.
  assert (E : overwrite d (length d) b = d ++ b) by (unfold overwrite; rewrite take_ge, drop_ge, app_nil_r by lia; reflexivity).
  eexists. split; [reflexivity|]. split; [split; [exact Hs|auto]|]. rewrite E, length_app. split; [reflexivity|exact Hp].
Qed.
Next Obligation.
  intros s h p d pos Hs Ho. cbn. destruct (commit_spec s p d pos Hs Ho) as [E Hok]. rewrite E. eexists. split; [reflexivity|].
  split; [split; [exact Hok|]|].
  - split; [intros q Hq; cbn; apply lookup_insert_ne; congruence|auto].
  - split; [exact Ho|]. cbn. apply lookup_insert_eq.
Qed.
Next Obligation. intros s h p d pos Hs [Hc _]. cbn. unfold on_cur. rewrite Hc. reflexivity. Qed.
Next Obligation.
  intros s h p d pos off Hs [Hc Hp]. cbn. unfold on_cur. rewrite Hc, Nat2Z.id. eexists. split; [reflexivity|]. split; [split; [exact Hs|auto]|]. split; [reflexivity|exact Hp].
Qed.
Next Obligation.
  intros s h p d pos Hs Ho Hd. cbn in *. destruct (commit_spec s p d pos Hs Ho) as [E Hok]. rewrite E. cbn.
  split; [exact Hok|]. split; [|auto]. intros q _. cbn. destruct (decide (q = p)) as [->|Hq]; [rewrite lookup_insert_eq; congruence|apply lookup_insert_ne; congruence].
Qed.
End Ramfs.

Module SettingsDemo.
Import Ramfs.
Definition some_gps : list Z := gps_bytes (mkGPS 1 0 3 460800).
Definition names_of (l : list string) : list (list Z) := map path_of l.
Ltac no_slash := apply (bool_decide_unpack _); vm_compute; exact I.
(** Saved on an empty file system, loaded into the defaults, and into a struct that has grown by a byte. *)
Lemma settings_witness : exists s', Save GPSSettings_struct some_gps empty_ram = (true, s') /\
  (exists s'', Load GPSSettings_struct (gps_bytes (mkGPS 1 1 0 921600)) s' = (true, some_gps, s'')) /\
  (exists s'', Load (mkVersioned 2 (PATH GPSSettings_struct)) (le_bytes 2 2 ++ replicate 6 0 ++ [77]) s' =
    (true, le_bytes 2 2 ++ drop 2 some_gps ++ [77], s'')).
Proof.
  destruct (settings_survive GPSSettings_struct some_gps (path_of "cfg") [path_of "sabo"] (path_of "gps.bin") empty_ram) as (s' & E & _ & H).
  - split; [reflexivity|]. split; [reflexivity|]. split; [no_slash|]. cbn. apply List.Forall_cons; [reflexivity|apply List.Forall_nil].
  - reflexivity.
  - unfold plain. cbn. forall_list ltac:(split; [no_slash|discriminate]).
  - split; [cbn; no_slash|]. intros a b _ _. reflexivity.
  - vm_compute. lia.
  - reflexivity.
  - vm_compute. lia.
  - vm_compute. reflexivity.
  - exists s'. split; [exact E|]. split.
    + destruct (H GPSSettings_struct (gps_bytes (mkGPS 1 1 0 921600)) eq_refl) as (s'' & _ & E'); [vm_compute; lia|]. exists s''. exact E'.
    + destruct (H (mkVersioned 2 (PATH GPSSettings_struct)) (le_bytes 2 2 ++ replicate 6 0 ++ [77]) eq_refl) as (s'' & _ & E'); [vm_compute; lia|]. exists s''. exact E'.
Defined.
(** On a full device nothing is saved, and [Save] answers true. *)
Example full_device_save_reports_success :
  let '(r, s) := Save GPSSettings_struct some_gps (empty_ram <| no_space := true |>) in
  r = true /\ (Load GPSSettings_struct some_gps s).1.1 = false.
Proof. vm_compute. split; reflexivity. Qed.
(** Nor does it look at the result of [sync], where a write of a few bytes first meets the device. *)
Example failed_sync_reports_success :
  let '(r, s) := Save GPSSettings_struct some_gps (empty_ram <| sync_fails := true |>) in
  r = true /\ (Load GPSSettings_struct some_gps s).1.1 = false.
Proof. vm_compute. split; reflexivity. Qed.
(** A file in the root is made a directory. *)
Example root_file_becomes_directory : path_of "/lcd.bin" ∈ dirs (mkdirp (Some (path_of "/lcd.bin")) empty_ram).2.
Proof. vm_compute. left. Qed.
(** Of a path without a file name, the last directory is not made. *)
Example directory_path_is_cut : dirs (mkdirp (Some (path_of "/cfg/sabo")) empty_ram).2 = [path_of "/cfg"; []].
Proof. reflexivity. Qed.
End SettingsDemo.
