(* ===== verification/UartRx.v ===== *)
(** Double-buffered reception, as the GPS driver ([drivers/gps/gps_driver.cpp])
    and the VESC driver ([drivers/motor/vesc/VescDriver.cpp]) do it.

    The DMA fills one buffer while a thread processes the other. The interrupt at the end
    of a buffer and the thread share [processing_buffer_], its length and
    [processing_done_]. The machine interleaves arriving bytes (each with the interrupt
    it may cause) with the atomic steps of the thread; a processing step reads one byte. *)
From S2P Require Import Prelude Dma.

(** The two threads differ in when they clear the length. *)
Inductive uart_driver := Gps | Vesc.
(* @ gps_driver.h:119-119 RECV_BUFFER_SIZE *)
Definition GPS_RECV_BUFFER_SIZE : nat := 512.
(* @ VescDriver.h:58-58 RECV_BUFFER_SIZE *)
Definition VESC_RECV_BUFFER_SIZE : nat := 260.

(** Where the thread is: waiting; comparing NDTR with its last value, which has not
    or has moved; about to lock; about to look at the length; processing from [buffer],
    [len] bytes, the [k]-th next; about to clear the length; about to set [processing_done_]. *)
Inductive place := Wait | Compare | Moved | Lock | Look | Processing (buffer : bool) (len k : nat) | Clear | Finish.

(** The buffers are numbered [false] and [true]. [handed] are the bytes processed;
    [arrived] and [overrun] record what happened. [event] and [expect_event] are the
    thread's two pending events, [expects_packet] the VESC thread's flag. *)
(* @ gps_driver.h:119-136 GpsDriver *)
Record uart_rx := mkRx {
  recv_buffer1_ : list Z; recv_buffer2_ : list Z;
  processing_buffer_ : bool; processing_buffer_len_ : nat; processing_done_ : bool;
  event : bool; expect_event : bool; expects_packet : bool; dma_buffer : bool; dma_count : nat;
  place_ : place; last_ndtr : nat;
  handed : list Z; arrived : list Z; overrun : bool }.
#[export] Instance eta_rx : Eta uart_rx := fun s =>
  mkRx (recv_buffer1_ s) (recv_buffer2_ s) (processing_buffer_ s) (processing_buffer_len_ s) (processing_done_ s)
    (event s) (expect_event s) (expects_packet s) (dma_buffer s) (dma_count s) (place_ s) (last_ndtr s) (handed s) (arrived s) (overrun s).

Section Machine.
Context (d : uart_driver) (SIZE : nat).

Definition buffer_of (s : uart_rx) (i : bool) : list Z := if i then recv_buffer2_ s else recv_buffer1_ s.
Definition set_buffer (i : bool) (l : list Z) (s : uart_rx) : uart_rx :=
  if i then s <| recv_buffer2_ := l |> else s <| recv_buffer1_ := l |>.
Definition NDTR (s : uart_rx) : nat := SIZE - dma_count s.
(** [uartStartReceiveI(uartp, RECV_BUFFER_SIZE, buffer)]. *)
Definition start_receive (buffer : bool) (s : uart_rx) : uart_rx := s <| dma_buffer := buffer |> <| dma_count := 0%nat |>.

(** Reception has been started into the first buffer. *)
(* @ gps_driver.cpp GpsDriver::StartDriver *)
Definition started : uart_rx :=
  mkRx (replicate SIZE 0) (replicate SIZE 0) true 0 true false false false false 0 Wait 0 [] [] false.
(* @ gps_driver.cpp:32-57 GpsDriver::StartDriver (rxend_cb) *)
Definition rxend_cb (s : uart_rx) : uart_rx :=
  if negb (processing_done_ s) then
    start_receive (negb (processing_buffer_ s)) (s <| overrun := true |>)
  else
    (start_receive (processing_buffer_ s) s) <| processing_buffer_ ::= negb |> <| processing_buffer_len_ := SIZE |>
      <| processing_done_ := false |> <| event := true |>.
Definition receive_byte (b : Z) (s : uart_rx) : uart_rx :=
  let s := set_buffer (dma_buffer s) (<[dma_count s := b]> (buffer_of s (dma_buffer s))) s in
  let s := s <| dma_count ::= S |> <| arrived ::= fun l => l ++ [b] |> in
  if (dma_count s =? SIZE)%nat then rxend_cb s else s.

(** With the interrupt locked: take the part received so far, unless the
    interrupt has handed over a buffer. *)
(* @ gps_driver.cpp:94-115 GpsDriver::threadFunc (locked) *)
Definition take_partial (s : uart_rx) : uart_rx :=
  if processing_done_ s then
    (start_receive (processing_buffer_ s) (s <| processing_buffer_len_ := dma_count s |>))
      <| processing_buffer_ ::= negb |> <| processing_done_ := false |>
  else s.
(** Whether the wait ends with a timeout: [status_request_millis_] is 0, so the VESC thread
    waits for ever unless it expects a packet. *)
(* @ VescDriver.cpp:276-288 VescDriver::threadFunc (wait) *)
Definition times_out (s : uart_rx) : bool := match d with Gps => true | Vesc => expects_packet s end.
(** The expect event handled: the thread waits again, with a timeout. *)
(* @ VescDriver.cpp:290-297 VescDriver::threadFunc (expect) *)
Definition expected (s : uart_rx) : uart_rx := s <| expect_event := false |> <| expects_packet := true |> <| last_ndtr := 0%nat |>.
(** One atomic step of the thread. Waiting ends with the received event if it is pending, else
    with the expect event, else with the timeout, if there is one. [more] is whether the bytes
    processed leave the VESC thread expecting more ([ProcessBytes], or raw mode). *)
(* @ gps_driver.cpp GpsDriver::threadFunc *)
Definition thread_step (more : bool) (s : uart_rx) : uart_rx :=
  match place_ s with
  | Wait =>
    if event s then s <| event := false |> <| place_ := Look |>
    else if expect_event s then expected s
    else if times_out s then s <| place_ := Compare |> else s
  | Compare => if negb (last_ndtr s =? NDTR s)%nat then s <| place_ := Moved |> else s <| place_ := Lock |>
  | Moved => s <| last_ndtr := NDTR s |> <| place_ := Wait |>
  | Lock => (take_partial s) <| place_ := Look |>
  | Look =>
    if (0 <? processing_buffer_len_ s)%nat then s <| place_ := Processing (processing_buffer_ s) (processing_buffer_len_ s) 0 |>
    else s <| place_ := match d with Gps => Clear | Vesc => Finish end |>
  | Processing buffer len k =>
    let s := s <| handed ::= fun l => l ++ [nth k (buffer_of s buffer) 0] |> in
    if (S k <? len)%nat then s <| place_ := Processing buffer len (S k) |>
    else s <| expects_packet ::= fun e => e && more |> <| place_ := Clear |>
  | Clear =>
    s <| last_ndtr ::= fun n => match d with Gps => 0%nat | Vesc => n end |> <| processing_buffer_len_ := 0%nat |> <| place_ := Finish |>
  | Finish => s <| processing_done_ := true |> <| place_ := Wait |>
  end.
(** The VESC thread told to expect a packet, by a thread that has sent a request. *)
(* @ VescDriver.cpp:192-192 VescDriver::RequestStatus (signal) *)
Definition expect_step (s : uart_rx) : uart_rx := match d with Vesc => s <| expect_event := true |> | Gps => s end.

Inductive action := Byte (b : Z) | Thread (more : bool) | Expect.
Definition step (a : action) (s : uart_rx) : uart_rx :=
  match a with Byte b => receive_byte b s | Thread more => thread_step more s | Expect => expect_step s end.
Definition run (l : list action) (s : uart_rx) : uart_rx := fold_left (fun s a => step a s) l s.
End Machine.

(** ** What is sound about it *)
Section Sound.
Context (d : uart_driver) (SIZE : nat) (SIZE_pos : (0 < SIZE)%nat).
Abbreviation step := (step d SIZE).
Abbreviation run := (run d SIZE).
Abbreviation started := (started SIZE).

(** The thread was woken by an event whose buffer it had already taken after a
    timeout, has seen that there is nothing to process and is about to say that it is
    done. A buffer that completes now is taken for processed without having been. *)
Definition hazard (s : uart_rx) : bool :=
  processing_done_ s && match place_ s with Clear | Finish => true | _ => false end.
Definition safe_action (a : action) (s : uart_rx) : Prop :=
  match a with Byte _ => S (dma_count s) = SIZE -> hazard s = false | _ => True end.
Inductive reachable : uart_rx -> Prop :=
  | reach_started : reachable started
  | reach_step a s : reachable s -> safe_action a s -> reachable (step a s).

(** What has been handed over and not processed, and what the DMA has stored since. *)
Definition unread (s : uart_rx) : list Z :=
  match place_ s with
  | Processing buffer len k => slice (buffer_of s buffer) k (len - k)
  | Clear | Finish => []
  | _ => take (processing_buffer_len_ s) (buffer_of s (processing_buffer_ s))
  end.
Definition partial (s : uart_rx) : list Z := take (dma_count s) (buffer_of s (dma_buffer s)).
Record consistent (s : uart_rx) : Prop := {
  sound_sizes : forall i, length (buffer_of s i) = SIZE;
  sound_len : (processing_buffer_len_ s <= SIZE)%nat;
  sound_target : dma_buffer s = negb (processing_buffer_ s);
  sound_place : match place_ s with
    | Processing buffer len k => buffer = processing_buffer_ s /\ len = processing_buffer_len_ s /\ (k < len)%nat /\
        processing_done_ s = false
    | Clear => True
    | Finish => processing_buffer_len_ s = 0%nat
    | _ => processing_done_ s = true -> processing_buffer_len_ s = 0%nat
    end;
  sound_event : match place_ s with Wait | Compare | Moved | Lock => processing_done_ s = false -> event s = true | _ => True end;
  sound_bytes : overrun s = false -> arrived s = handed s ++ unread s ++ partial s }.
Definition sound (s : uart_rx) : Prop := consistent s /\ (dma_count s < SIZE)%nat.

Lemma started_sound : sound started.
Proof.
  split; [|exact SIZE_pos]. split; [intros []; apply length_replicate|..]; cbn; try lia; reflexivity.
Qed.
Lemma buffer_set i l s j : buffer_of (set_buffer i l s) j = if Bool.eqb i j then l else buffer_of s j.
Proof. destruct i, j; reflexivity. Qed.
Lemma take_insert_next (l : list Z) n b : (n < length l)%nat -> take (S n) (<[n:=b]> l) = take n l ++ [b].
Proof. intros H. rewrite (take_S_r _ _ b) by (apply list_lookup_insert_eq; exact H). rewrite take_insert_ge by lia. reflexivity. Qed.

(** Storing a byte changes the buffer that is not being processed. *)
Definition stored (b : Z) (s : uart_rx) : uart_rx :=
  (set_buffer (dma_buffer s) (<[dma_count s := b]> (buffer_of s (dma_buffer s))) s)
    <| dma_count ::= S |> <| arrived ::= fun l => l ++ [b] |>.
Lemma stored_same b s : let s' := stored b s in
  processing_buffer_ s' = processing_buffer_ s /\ processing_buffer_len_ s' = processing_buffer_len_ s /\
  processing_done_ s' = processing_done_ s /\ dma_buffer s' = dma_buffer s /\ dma_count s' = S (dma_count s) /\
  place_ s' = place_ s /\ handed s' = handed s /\ arrived s' = arrived s ++ [b] /\ overrun s' = overrun s /\ event s' = event s.
Proof. unfold stored. destruct (dma_buffer s) eqn:E; cbn; rewrite ?E; auto 20. Qed.
Lemma stored_buffer b s i : buffer_of (stored b s) i =
  if Bool.eqb (dma_buffer s) i then <[dma_count s := b]> (buffer_of s i) else buffer_of s i.
Proof. unfold stored. destruct (dma_buffer s) eqn:E, i; reflexivity. Qed.
Lemma stored_unread b s : consistent s -> unread (stored b s) = unread s.
Proof.
  intros [_ _ Ht Hp _ _]. pose proof (stored_same b s) as Hs. cbv zeta in Hs.
  destruct Hs as (E1 & E2 & E3 & E4 & E5 & E6 & _). unfold unread. rewrite E6, E1, E2.
  destruct (place_ s) as [| | | | |bf len k| |]; try reflexivity; rewrite stored_buffer, Ht.
  6: destruct Hp as [-> _].
  all: destruct (processing_buffer_ s); reflexivity.
Qed.
Lemma stored_partial b s : sound s -> partial (stored b s) = partial s ++ [b].
Proof.
  intros [[Hz _ _ _ _ _] Hc]. pose proof (stored_same b s) as Hs. cbv zeta in Hs.
  destruct Hs as (_ & _ & _ & E4 & E5 & _). unfold partial. rewrite E4, E5, stored_buffer, Bool.eqb_reflx.
  apply take_insert_next. rewrite Hz. exact Hc.
Qed.
Lemma stored_consistent b s : sound s -> consistent (stored b s).
Proof.
  intros H. pose proof (stored_unread b s (proj1 H)) as Hu. pose proof (stored_partial b s H) as Hpa.
  pose proof (stored_same b s) as Hs. cbv zeta in Hs. destruct Hs as (E1 & E2 & E3 & E4 & E5 & E6 & E7 & E8 & E9 & E10).
  destruct H as [[Hz Hl Ht Hp He Hb] Hc]. split; rewrite ?E1, ?E2, ?E3, ?E4, ?E6, ?E9, ?E10; auto.
  - intros i. rewrite stored_buffer. destruct (Bool.eqb _ _); rewrite ?length_insert; apply Hz.
  - intros Ho. rewrite E7, E8, Hu, Hpa, (Hb Ho), <- !app_assoc. reflexivity.
Qed.
(** The interrupt at the end of a buffer. *)
Lemma rxend_sound s : consistent s -> dma_count s = SIZE -> hazard s = false -> sound (rxend_cb SIZE s).
Proof.
  intros [Hz Hl Ht Hp He Hb] Hc Hh. unfold rxend_cb, sound.
  destruct s as [b1 b2 pb pl pd ev ee ex db dc pc ln h a o]. cbn in Ht, Hp, He, Hb, Hc, Hh, Hl. subst db dc. destruct pd; cbn [negb processing_done_].
  - assert (Hw : match pc with Processing _ _ _ | Clear | Finish => False | _ => True end)
      by (destruct pc; try discriminate Hh; try exact I; destruct Hp as (_ & _ & _ & ?); discriminate).
    split; [|exact SIZE_pos]. split; cbn; try lia; [exact Hz|rewrite negb_involutive; reflexivity|destruct pc; try destruct Hw; discriminate|destruct pc; auto|].
    intros Ho. rewrite (Hb Ho). f_equal. unfold unread, partial. cbn. rewrite take_0, app_nil_r.
    destruct pc; try destruct Hw; rewrite (Hp eq_refl), take_0; reflexivity.
  - split; [|exact SIZE_pos]. split; cbn; auto; discriminate.
Qed.
Lemma receive_byte_sound b s : sound s -> safe_action (Byte b) s -> sound (receive_byte SIZE b s).
Proof.
  intros H Ha. unfold receive_byte. fold (stored b s). pose proof (stored_consistent b s H) as K.
  pose proof (stored_same b s) as Hs. cbv zeta in Hs. destruct Hs as (_ & _ & E3 & _ & E5 & E6 & _).
  destruct (Nat.eqb_spec (dma_count (stored b s)) SIZE) as [Hfull|Hmore].
  - apply rxend_sound; [exact K|exact Hfull|]. unfold hazard. rewrite E3, E6. apply Ha. lia.
  - split; [exact K|]. destruct H. lia.
Qed.

(** The thread's steps. *)
Lemma slice_next (l : list Z) k n : (k < n)%nat -> (n <= length l)%nat -> slice l k (n - k) = nth k l 0 :: slice l (S k) (n - S k).
Proof.
  intros H Hl. unfold slice. replace (n - k)%nat with (S (n - S k)) by lia.
  rewrite (drop_S l (nth k l 0) k); [reflexivity|].
  destruct (lookup_lt_is_Some_2 l k) as [x Hx]; [lia|]. rewrite (nth_lookup_Some _ _ _ _ Hx). exact Hx.
Qed.
Lemma thread_step_sound more s : sound s -> sound (thread_step d SIZE more s).
Proof.
  intros [[Hz Hl Ht Hp He Hb] Hc]. unfold thread_step, sound, expected, times_out.
  destruct s as [b1 b2 pb pl pd ev ee ex db dc pc ln h a o]. cbn in Ht, Hp, He, Hb, Hc, Hl. subst db.
  pose proof (Hz pb) as Hzp. pose proof (Hz (negb pb)) as Hzn.
  destruct pc as [| | | | |bf len k| |]; cbn [place_ event expect_event expects_packet last_ndtr processing_buffer_len_ handed].
  - destruct ev, ee; try destruct d; try destruct ex; (split; [split; cbn; auto|exact Hc]).
  - destruct (negb (ln =? NDTR _ _)%nat); (split; [split; cbn; auto|exact Hc]).
  - split; [split; cbn; auto|exact Hc].
  - unfold take_partial. cbn [processing_done_]. destruct pd; (split; [split; cbn; auto|]); cbn; try lia.
    + rewrite negb_involutive. reflexivity.
    + intros Ho. rewrite (Hb Ho). f_equal. unfold unread, partial. cbn. rewrite (Hp eq_refl), !take_0, app_nil_r. reflexivity.
  - destruct (Nat.ltb_spec 0 pl).
    + split; [split; cbn; auto|exact Hc]. destruct pd; [specialize (Hp eq_refl); lia|auto].
      intros Ho. rewrite (Hb Ho). unfold unread, partial, slice. cbn. rewrite Nat.sub_0_r. reflexivity.
    + assert (pl = 0)%nat as -> by lia. destruct d; (split; [split; cbn; auto|exact Hc]);
        intros Ho; rewrite (Hb Ho); unfold unread, partial; cbn; rewrite take_0; reflexivity.
  - destruct Hp as (-> & -> & Hk & ->). set (S0 := mkRx b1 b2 pb pl false ev ee ex (negb pb) dc (Processing pb pl k) ln h a o) in *.
    assert (Hn : slice (buffer_of S0 pb) k (pl - k) = nth k (buffer_of S0 pb) 0 :: slice (buffer_of S0 pb) (S k) (pl - S k))
      by (apply slice_next; lia).
    destruct (Nat.ltb_spec (S k) pl); (split; [split; cbn; auto|exact Hc]); intros Ho; rewrite (Hb Ho); unfold unread, partial; cbn [place_ S0];
      change (buffer_of S0) with (buffer_of S0) in Hn; cbn in Hn |- *; rewrite Hn, <- app_assoc; cbn [app]; [reflexivity|].
    unfold slice. replace (pl - S k)%nat with 0%nat by lia. rewrite take_0. reflexivity.
  - destruct d; (split; [split; cbn; auto; lia|exact Hc]).
  - split; [split; cbn; auto|exact Hc]; [discriminate|]. intros Ho. rewrite (Hb Ho). unfold unread, partial. cbn. rewrite Hp, take_0. reflexivity.
Qed.
Lemma expect_step_sound s : sound s -> sound (expect_step d s).
Proof.
  intros [[Hz Hl Ht Hp He Hb] Hc]. unfold expect_step. destruct d; [split; [split; auto|exact Hc]|].
  destruct s as [b1 b2 pb pl pd ev ee ex db dc pc ln h a o]. split; [split; auto|exact Hc].
Qed.
Lemma step_sound a s : sound s -> safe_action a s -> sound (step a s).
Proof. destruct a; intros H Ha; [apply receive_byte_sound|apply thread_step_sound|apply expect_step_sound]; assumption. Qed.
Lemma reachable_sound s : reachable s -> sound s.
Proof. induction 1; [apply started_sound|apply step_sound; assumption]. Qed.

(** *** The thread hands everything over, given time *)
(** The thread, undisturbed, gets to a state where [Q] holds, whichever of the verdicts [M] the processing gives. *)
Inductive leads (M : bool -> Prop) (Q : uart_rx -> Prop) (s : uart_rx) : Prop :=
  | leads_now : Q s -> leads M Q s
  | leads_later : (forall more, M more -> leads M Q (thread_step d SIZE more s)) -> leads M Q s.
Lemma leads_trans M P Q s : leads M P s -> (forall s', P s' -> leads M Q s') -> leads M Q s.
Proof. induction 1 as [s H|s _ IH]; intros HQ; [auto|apply leads_later; auto]. Qed.
Lemma leads_weaken M (P Q : uart_rx -> Prop) s : (forall s', P s' -> Q s') -> leads M P s -> leads M Q s.
Proof. intros H L. eapply leads_trans; [exact L|]. intros s' Hs. apply leads_now, H, Hs. Qed.
(** A step that does not depend on the verdict. *)
Lemma leads_step M Q s s' : (forall more, thread_step d SIZE more s = s') -> leads M Q s' -> leads M Q s.
Proof. intros E L. apply leads_later. intros more _. rewrite E. exact L. Qed.
(** What the thread's steps keep holds there too. *)
Lemma leads_inv M (I Q : uart_rx -> Prop) s : (forall more s, M more -> I s -> I (thread_step d SIZE more s)) -> I s ->
  leads M Q s -> leads M (fun s' => Q s' /\ I s') s.
Proof. intros HI Hs L. revert Hs. induction L as [s H|s _ IH]; intros Hs; [apply leads_now; auto|]. apply leads_later. intros more Hm. auto. Qed.
Definition undisturbed (verdicts : nat -> bool) (n : nat) : uart_rx -> uart_rx := run (map (fun i => Thread (verdicts i)) (seq 0 n)).
Lemma undisturbed_S v n s : undisturbed v (S n) s = undisturbed (fun i => v (S i)) n (thread_step d SIZE (v 0%nat) s).
Proof. unfold undisturbed. cbn [seq map]. rewrite <- seq_shift, map_map. reflexivity. Qed.
Lemma leads_undisturbed M Q s : leads M Q s -> forall v, (forall i, M (v i)) -> exists n, Q (undisturbed v n s).
Proof.
  induction 1 as [s H|s _ IH]; intros v Hv; [exists 0%nat; exact H|].
  destruct (IH (v 0%nat) (Hv 0%nat) (fun i => v (S i)) (fun i => Hv (S i))) as [n Hn]. exists (S n). rewrite undisturbed_S. exact Hn.
Qed.
Lemma undisturbed_inv (I : uart_rx -> Prop) : (forall more s, I s -> I (thread_step d SIZE more s)) ->
  forall n v s, I s -> I (undisturbed v n s).
Proof. intros HI. induction n as [|n IH]; intros v s H; [exact H|]. rewrite undisturbed_S. apply IH, HI, H. Qed.
Lemma thread_step_record more s : arrived (thread_step d SIZE more s) = arrived s /\ overrun (thread_step d SIZE more s) = overrun s.
Proof. unfold thread_step, take_partial, start_receive, expected. destruct (place_ s); repeat case_match; auto. Qed.
Lemma undisturbed_record v n s : arrived (undisturbed v n s) = arrived s /\ overrun (undisturbed v n s) = overrun s.
Proof.
  apply (undisturbed_inv (fun t => arrived t = arrived s /\ overrun t = overrun s)); [|auto].
  intros more t [<- <-]. apply thread_step_record.
Qed.

(** The thread waits and has nothing to process; the interrupt may hand over another buffer. *)
Definition idle (s : uart_rx) : Prop := place_ s = Wait /\ processing_done_ s = true /\ processing_buffer_len_ s = 0%nat.
Definition waits (ev : bool) (dc : nat) (s : uart_rx) : Prop := idle s /\ event s = ev /\ dma_count s = dc.
Section Passes.
Context (M : bool -> Prop).
Lemma finish_leads s : place_ s = Finish -> processing_buffer_len_ s = 0%nat -> leads M (waits (event s) (dma_count s)) s.
Proof.
  intros H Hl. eapply leads_step; [intros more; unfold thread_step; rewrite H; reflexivity|]. apply leads_now.
  unfold waits, idle. cbn. auto.
Qed.
Lemma clear_leads s : place_ s = Clear -> leads M (waits (event s) (dma_count s)) s.
Proof.
  intros H. eapply leads_step; [intros more; unfold thread_step; rewrite H; reflexivity|].
  match goal with |- leads _ _ ?t => exact (finish_leads t eq_refl eq_refl) end.
Qed.
Lemma processing_leads m buffer len k s : place_ s = Processing buffer len k -> (len - k <= m)%nat ->
  leads M (waits (event s) (dma_count s)) s.
Proof.
  revert k s. induction m as [|m IH]; intros k s H Hm; apply leads_later; intros more _; unfold thread_step; rewrite H;
    (destruct (Nat.ltb_spec (S k) len);
      [|exact (clear_leads (s <| handed ::= fun l => l ++ [nth k (buffer_of s buffer) 0] |> <| expects_packet ::= fun e => e && more |> <| place_ := Clear |>) eq_refl)]); [lia|].
  exact (IH (S k) (s <| handed ::= fun l => l ++ [nth k (buffer_of s buffer) 0] |> <| place_ := Processing buffer len (S k) |>) eq_refl ltac:(lia)).
Qed.
Lemma look_leads s : place_ s = Look -> leads M (waits (event s) (dma_count s)) s.
Proof.
  intros H. eapply leads_step; [intros more; unfold thread_step; rewrite H; reflexivity|]. destruct (Nat.ltb_spec 0 (processing_buffer_len_ s)).
  - exact (processing_leads _ _ _ _ (s <| place_ := Processing _ _ _ |>) eq_refl (le_n _)).
  - destruct d; [exact (clear_leads (s <| place_ := Clear |>) eq_refl)|].
    refine (finish_leads (s <| place_ := Finish |>) eq_refl _). cbn. lia.
Qed.
Lemma look_leads_to ev dc s : place_ s = Look -> event s = ev -> dma_count s = dc -> leads M (waits ev dc) s.
Proof. intros H <- <-. apply look_leads, H. Qed.
Lemma look_settles s : place_ s = Look -> leads M idle s.
Proof. intros H. eapply leads_weaken; [|exact (look_leads s H)]. intros s' K. apply K. Qed.

(** One step from each place before the look. *)
Lemma wait_event_step more s : place_ s = Wait -> event s = true -> thread_step d SIZE more s = s <| event := false |> <| place_ := Look |>.
Proof. intros H He. unfold thread_step. rewrite H, He. reflexivity. Qed.
Lemma wait_expect_step more s : place_ s = Wait -> event s = false -> expect_event s = true -> thread_step d SIZE more s = expected s.
Proof. intros H He Hx. unfold thread_step. rewrite H, He, Hx. reflexivity. Qed.
Lemma wait_timeout_step more s : place_ s = Wait -> event s = false -> expect_event s = false -> times_out d s = true ->
  thread_step d SIZE more s = s <| place_ := Compare |>.
Proof. intros H He Hx Ht. unfold thread_step. rewrite H, He, Hx, Ht. reflexivity. Qed.
Lemma compare_step more s : place_ s = Compare -> thread_step d SIZE more s =
  if (last_ndtr s =? NDTR SIZE s)%nat then s <| place_ := Lock |> else s <| place_ := Moved |>.
Proof. intros H. unfold thread_step. rewrite H. destruct (_ =? _)%nat; reflexivity. Qed.
Lemma moved_step more s : place_ s = Moved -> thread_step d SIZE more s = s <| last_ndtr := NDTR SIZE s |> <| place_ := Wait |>.
Proof. intros H. unfold thread_step. rewrite H. reflexivity. Qed.
Lemma lock_step more s : place_ s = Lock -> thread_step d SIZE more s = (take_partial s) <| place_ := Look |>.
Proof. intros H. unfold thread_step. rewrite H. reflexivity. Qed.

(** From anywhere the thread gets back to waiting. *)
Lemma wait_settles s : sound s -> place_ s = Wait -> leads M idle s.
Proof.
  intros [[_ _ _ Hp He _] _] H. rewrite H in Hp, He. destruct (event s) eqn:Ev.
  - eapply leads_step; [intros more; exact (wait_event_step more s H Ev)|]. apply look_settles. reflexivity.
  - destruct (processing_done_ s) eqn:Ed; [|specialize (He eq_refl); discriminate]. apply leads_now. unfold idle. auto.
Qed.
Lemma lock_settles s : place_ s = Lock -> leads M idle s.
Proof. intros H. eapply leads_step; [intros more; exact (lock_step more s H)|]. apply look_settles. reflexivity. Qed.
Lemma moved_settles s : sound s -> place_ s = Moved -> leads M idle s.
Proof.
  intros Hs H. apply leads_later. intros more _. pose proof (thread_step_sound more s Hs) as K. rewrite moved_step in * by exact H.
  apply wait_settles; [exact K|reflexivity].
Qed.
Lemma compare_settles s : sound s -> place_ s = Compare -> leads M idle s.
Proof.
  intros Hs H. apply leads_later. intros more _. pose proof (thread_step_sound more s Hs) as K. rewrite compare_step in * by exact H.
  destruct (_ =? _)%nat; [apply lock_settles|apply moved_settles; [exact K|]]; reflexivity.
Qed.
Lemma sound_settles s : sound s -> leads M idle s.
Proof.
  intros Hs. pose proof Hs as [[_ _ _ Hf _ _] _]. destruct (place_ s) as [| | | | |bf len k| |] eqn:H;
    eauto using wait_settles, compare_settles, moved_settles, lock_settles, look_settles.
  - eapply leads_weaken; [|eapply processing_leads; [exact H|apply le_n]]. intros s' K. apply K.
  - eapply leads_weaken; [|apply clear_leads, H]. intros s' K. apply K.
  - eapply leads_weaken; [|apply finish_leads; [exact H|exact Hf]]. intros s' K. apply K.
Qed.
End Passes.

(** The thread comes back by itself: the GPS thread always, the VESC's while it expects a packet. *)
Definition polls (s : uart_rx) : Prop := d = Gps \/ expects_packet s = true \/ expect_event s = true.
Lemma polls_step more s : true = more -> polls s -> polls (thread_step d SIZE more s).
Proof.
  intros <- [H|[H|H]]; [left; exact H|..]; unfold polls, thread_step, take_partial, start_receive, expected;
    destruct (place_ s); repeat case_match; try discriminate; cbn; rewrite ?H; cbn; auto.
Qed.
(** From waiting it then takes what has been received and processes it. *)
Lemma compare_leads s : place_ s = Compare -> idle (s <| place_ := Wait |>) -> event s = false -> expect_event s = false ->
  times_out d s = true -> leads (eq true) (waits false 0) s.
Proof.
  assert (Heq : forall t, place_ t = Compare -> processing_done_ t = true -> event t = false -> last_ndtr t = NDTR SIZE t ->
    leads (eq true) (waits false 0) t).
  { intros t Hp Hd He Hn. eapply leads_step; [intros more; rewrite (compare_step more t Hp), Hn, Nat.eqb_refl; reflexivity|].
    eapply leads_step; [intros more; apply lock_step; reflexivity|].
    unfold take_partial. cbn [processing_done_ update eta eta_rx]. rewrite Hd. apply look_leads_to; [reflexivity|exact He|reflexivity]. }
  intros Hp (_ & Hd & _) He Hx Ht. cbn in Hd. destruct (Nat.eq_dec (last_ndtr s) (NDTR SIZE s)) as [Hn|Hn]; [auto|].
  eapply leads_step; [intros more; rewrite (compare_step more s Hp); apply Nat.eqb_neq in Hn; rewrite Hn; reflexivity|].
  eapply leads_step; [intros more; apply moved_step; reflexivity|].
  eapply leads_step; [intros more; apply wait_timeout_step; [reflexivity|exact He|exact Hx|exact Ht]|]. apply Heq; auto.
Qed.
Lemma idle_leads s : idle s -> polls s -> leads (eq true) (waits false 0) s.
Proof.
  assert (Htimed : forall t, idle t -> event t = false -> expect_event t = false -> times_out d t = true -> leads (eq true) (waits false 0) t).
  { intros t (Hp & Hd & Hl) He Hx Ht. eapply leads_step; [intros more; apply wait_timeout_step; assumption|].
    apply compare_leads; auto. unfold idle. cbn. auto. }
  assert (Hquiet : forall t, idle t -> event t = false -> polls t -> leads (eq true) (waits false 0) t).
  { intros t Ht He Hx. destruct (expect_event t) eqn:Ex.
    - destruct Ht as (Hp & Hd & Hl). eapply leads_step; [intros more; apply wait_expect_step; assumption|].
      apply Htimed; [unfold idle; cbn; auto|exact He|reflexivity|]. unfold times_out. destruct d; reflexivity.
    - apply Htimed; [exact Ht|exact He|exact Ex|]. unfold times_out. destruct Hx as [->|[Hx|Hx]]; [reflexivity|destruct d; auto|congruence]. }
  intros Hs Hx. destruct (event s) eqn:Ev; [|auto]. destruct Hs as (Hp & Hd & Hl).
  eapply leads_step; [intros more; apply wait_event_step; assumption|].
  eapply leads_trans.
  - apply (leads_inv _ polls); [exact polls_step|exact Hx|]. apply (look_leads_to _ false (dma_count s)); reflexivity.
  - intros s' [(Hi & He & _) Hx']. apply Hquiet; assumption.
Qed.
Lemma undisturbed_bytes v n s : sound s -> overrun s = false -> let s' := undisturbed v n s in
  arrived s = handed s' ++ unread s' ++ partial s'.
Proof.
  intros H Ho. cbv zeta. destruct (undisturbed_record v n s) as [Ha Hov]. rewrite <- Ha.
  pose proof (undisturbed_inv sound (fun more s => thread_step_sound more s) n v s H) as [[_ _ _ _ _ Hb] _]. apply Hb. congruence.
Qed.
Lemma idle_unread s : idle s -> unread s = [].
Proof. intros (Hp & _ & Hl). unfold unread. rewrite Hp, Hl. reflexivity. Qed.
Lemma settled s v : sound s -> overrun s = false -> exists n, place_ (undisturbed v n s) = Wait /\
  arrived s = handed (undisturbed v n s) ++ partial (undisturbed v n s).
Proof.
  intros H Ho. destruct (leads_undisturbed (fun _ => True) _ _ (sound_settles _ s H) v (fun _ => I)) as (n & Hn).
  exists n. split; [apply Hn|]. rewrite (undisturbed_bytes v n s H Ho), (idle_unread _ Hn) at 1. reflexivity.
Qed.
Lemma drains s : sound s -> overrun s = false -> polls s -> exists n, handed (undisturbed (fun _ => true) n s) = arrived s.
Proof.
  intros H Ho Hx. pose proof (leads_inv _ polls _ s polls_step Hx (sound_settles (eq true) s H)) as L.
  destruct (leads_undisturbed _ _ _ (leads_trans _ _ _ _ L (fun s' K => idle_leads s' (proj1 K) (proj2 K))) (fun _ => true) (fun _ => eq_refl))
    as (n & Hi & _ & Hc).
  exists n. pose proof (undisturbed_bytes (fun _ => true) n s H Ho) as E. cbv zeta in E. rewrite (idle_unread _ Hi) in E. unfold partial in E.
  rewrite Hc, take_0, !app_nil_r in E. symmetry. exact E.
Qed.

(** C18. Whatever the order in which bytes arrive and the thread and the interrupt
    run, provided that no buffer completes in the hazard: the DMA never writes to the buffer
    being processed, whose length stays within it; unless the thread was
    a whole buffer too slow, no byte is lost, repeated or reordered between what has been
    processed, what is waiting and what is being received; and the thread, undisturbed, gets back
    to waiting with everything processed but the part of a buffer still being received. The GPS
    thread, whose wait times out, goes on to process that too, and the VESC thread does so
    while it expects a packet and what it processes leaves it expecting; otherwise the VESC
    thread waits for the buffer to fill, or for the next request. *)
Theorem reception_is_sound s : reachable s ->
  (forall buffer len k, place_ s = Processing buffer len k ->
    dma_buffer s = negb buffer /\ (k < len <= SIZE)%nat /\ processing_done_ s = false) /\
  (overrun s = false -> arrived s = handed s ++ unread s ++ partial s /\
    (forall more : nat -> bool, exists n, let s' := run (map (fun i => Thread (more i)) (seq 0 n)) s in
      place_ s' = Wait /\ arrived s = handed s' ++ partial s') /\
    (d = Gps \/ expects_packet s = true \/ expect_event s = true ->
      exists n, handed (run (map (fun _ => Thread true) (seq 0 n)) s) = arrived s)).
Proof.
  intros H. apply reachable_sound in H. split.
  - intros buffer len k Hp. destruct H as [[_ Hl Ht Hf _ _] _]. rewrite Hp in Hf. destruct Hf as (-> & -> & Hk & Hd). auto.
  - intros Ho. split; [apply H, Ho|]. split; [intros more; apply settled; assumption|apply drains; assumption].
Qed.
End Sound.

(** ** Reception at work *)
Module RxDemo.
Definition bytes (l : list Z) : list action := map Byte l.
Definition threads (n : nat) : list action := replicate n (Thread true).

(** A buffer of four bytes completes while the thread waits, and two bytes more follow. *)
Definition six : list action := bytes [1; 2; 3; 4; 5; 6] ++ threads 3.
Lemma reachable_run d SIZE l s : reachable d SIZE s ->
  (forall k, match l !! k with Some a => safe_action SIZE a (run d SIZE (take k l) s) | None => True end) ->
  reachable d SIZE (run d SIZE l s).
Proof.
  revert s. induction l as [|a l IH]; intros s H Hs; [exact H|]. apply (IH (step d SIZE a s)).
  - apply reach_step; [exact H|]. exact (Hs 0%nat).
  - intros k. exact (Hs (S k)).
Qed.
Lemma reception_witness : exists n m,
  let s := run Vesc 4 (Expect :: six) (started 4) in
  overrun s = false /\ handed s = [1] /\ handed (run Vesc 4 (map (fun _ => Thread true) (seq 0 n)) s) = [1; 2; 3; 4; 5; 6] /\
  let s' := run Vesc 4 (map (fun i => Thread (Nat.even i)) (seq 0 m)) s in [1; 2; 3; 4; 5; 6] = handed s' ++ partial s'.
Proof.
  assert (Hr : reachable Vesc 4 (run Vesc 4 (Expect :: six) (started 4))).
  { apply reachable_run; [constructor|]. intros k. do 10 (destruct k as [|k]; [vm_compute; intros; try reflexivity; exact I|]). exact I. }
  destruct (reception_is_sound Vesc 4 ltac:(lia) _ Hr) as [_ H].
  destruct (H eq_refl) as (_ & Hm & Hn). destruct Hn as [n Hn]; [right; right; reflexivity|]. destruct (Hm Nat.even) as (m & _ & Hp).
  exists n, m. repeat split; [vm_compute; reflexivity..|exact Hn|exact Hp].
Defined.
(** The VESC thread that expects no packet leaves a part of a buffer where it is; told to expect one it takes it. *)
Example vesc_waits_for_ever :
  let s := run Vesc 4 (bytes [1; 2] ++ threads 20) (started 4) in
  (handed s, handed (run Vesc 4 (Expect :: threads 20) s)) = ([], [1; 2]).
Proof. vm_compute. reflexivity. Qed.

(** The hazard: the first buffer completes between the timeout and its check, so its
    event is still pending when the thread has processed it; the thread runs
    again and finds nothing; the second buffer completes before it has said so, and is lost. *)
Definition stale : list action := threads 4 ++ bytes [1; 2; 3; 4] ++ threads 9 ++ bytes [5; 6; 7] ++ threads 2 ++ bytes [8].
Example stale_event_loses_buffer :
  let s := run Gps 4 stale (started 4) in
  (overrun s, arrived s, handed (run Gps 4 (threads 20) s)) = (false, [1; 2; 3; 4; 5; 6; 7; 8], [1; 2; 3; 4]).
Proof. reflexivity. Qed.
(** In the VESC driver the second buffer is kept, but it is processed with
    [processing_done_] set, so that the interrupt lets the DMA write into it. *)
Example stale_event_shares_buffer :
  let s := run Vesc 4 (Expect :: threads 1 ++ stale ++ threads 3 ++ bytes [9; 10; 11; 12]) (started 4) in
  (place_ s, dma_buffer s) = (Processing true 4 0, true).
Proof. vm_compute. reflexivity. Qed.
End RxDemo.
