(* ===== verification/Gps.v ===== *)
(** The GPS receivers: [drivers/gps/gps_driver.h] and the u-blox binary protocol
    of [drivers/gps/ublox_gps_driver.cpp].

    The parser collects a packet in a buffer of 512 bytes and hands it to a handler
    that writes the shared GPS state. [None] is an access outside a buffer or an
    undefined operation. The parser's proofs go through [ubx_byte], a reference
    parser that takes one byte at a time. *)
From S2P Require Import Prelude Float32 Dma.

(** ** Doubles as the receiver needs them *)
Definition dneg : f64 -> f64 := SFopp.
(** [M_PI], the double nearest to it, and half of it. *)
Definition M_PI : f64 := S754_finite false 7074237752028440 (-51).
Definition M_PI_2 : f64 := S754_finite false 7074237752028440 (-52).
(** [fmod]: exact, with the sign of [x]. *)
Definition fmod (x y : f64) : f64 :=
  match x, y with
  | S754_finite s mx ex, S754_finite _ my ey =>
    let e := Z.min ex ey in
    let r := Z.modulo (Z.shiftl (Zpos mx) (ex - e)) (Z.shiftl (Zpos my) (ey - e)) in
    if r =? 0 then S754_zero s else binary_normalize 53 1024 (if s then - r else r) e s
  | S754_zero _, S754_finite _ _ _ => x
  | S754_zero _, S754_infinity _ | S754_finite _ _ _, S754_infinity _ => x
  | _, _ => S754_nan
  end.
Example fmod_demo : fmod (d_of_Z (-7)) (ddiv (d_of_Z 5) (d_of_Z 2)) = d_of_Z (-2).
Proof. reflexivity. Qed.
Example pi_bits : d_bits M_PI = 0x400921FB54442D18.
Proof. reflexivity. Qed.

(** ** The GPS state *)
(* @ gps_driver.h:27-27 GpsDriver::GpsState::FixType *)
Inductive FixType := NO_FIX | DR_ONLY | FIX_2D | FIX_3D | GNSS_DR_COMBINED.
(* @ gps_driver.h:29-29 GpsDriver::GpsState::RTKType *)
Inductive RTKType := RTK_NONE | RTK_FLOAT | RTK_FIX.
(* @ gps_driver.h:26-58 GpsDriver::GpsState *)
Record GpsState := mkGpsState {
  sensor_time : Z; received_time : Z;
  position_valid : bool; position_h_accuracy : f64; position_v_accuracy : f64;
  pos_lat : f64; pos_lon : f64; pos_height : f64;
  motion_heading_valid : bool; vel_e : f64; vel_n : f64; vel_u : f64;
  motion_heading_accuracy : f64; motion_heading : f64;
  vehicle_heading_valid : bool; vehicle_heading_accuracy : f64; vehicle_heading : f64;
  fix_type : FixType; rtk_type : RTKType; num_sv : Z }.
Definition d0 : f64 := S754_zero false.
Definition zero_gps : GpsState :=
  mkGpsState 0 0 false d0 d0 d0 d0 d0 false d0 d0 d0 d0 d0 false d0 d0 NO_FIX RTK_NONE 0.
(** The state, whether it is valid, and the callbacks made. *)
(* @ gps_driver.h:99-100 GpsDriver *)
Record GpsDriver := mkGpsDriver { gps_state_ : GpsState; gps_state_valid_ : bool; triggered : list GpsState }.
#[export] Instance eta_GpsDriver : Eta GpsDriver := fun g => mkGpsDriver (gps_state_ g) (gps_state_valid_ g) (triggered g).
(* @ gps_driver.cpp GpsDriver::TriggerStateCallback *)
Definition TriggerStateCallback (g : GpsDriver) : GpsDriver := g <| triggered ::= fun l => l ++ [gps_state_ g] |>.

(** ** Navigation messages *)
(* @ ubx_datatypes.h:14-15 UbxNavPvt *)
Definition NAV_CLASS_ID : Z := 1.
(* @ ubx_datatypes.h:14-15 UbxNavPvt *)
Definition NAV_MESSAGE_ID : Z := 7.
(* @ ubx_datatypes.h:45-77 UbxNavPvt *)
Definition sizeof_UbxNavPvt : nat := 92.
(** The members read, from the packed struct. *)
(* @ ubx_datatypes.h:45-77 UbxNavPvt *)
Record UbxNavPvt := mkPvt {
  iTOW : Z; fixType : Z; flags : Z; numSV : Z; lon : Z; lat : Z; hMSL : Z; hAcc : Z; vAcc : Z;
  velN : Z; velE : Z; velD : Z; headMot : Z; headAcc : Z; flags3 : Z; headVeh : Z }.
(* @ ubx_datatypes.h:45-77 UbxNavPvt *)
Definition read_pvt (m : list Z) : UbxNavPvt :=
  let u off n := le_int (slice m off n) in
  let i off := s32 (le_int (slice m off 4)) in
  mkPvt (u 0%nat 4%nat) (u 20%nat 1%nat) (u 21%nat 1%nat) (u 23%nat 1%nat) (i 24%nat) (i 28%nat) (i 36%nat)
    (u 40%nat 4%nat) (u 44%nat 4%nat) (i 48%nat) (i 52%nat) (i 56%nat) (i 64%nat) (u 72%nat 4%nat) (u 78%nat 2%nat) (i 84%nat).

(** [while (h < 0) h += 2 * M_PI]: one turn is enough after [fmod]. *)
Fixpoint unwind (fuel : nat) (h : f64) : option f64 :=
  if SFltb h d0 then match fuel with O => None | S fuel => unwind fuel (dadd h (dmul M_PI (d_of_Z 2))) end else Some h.
(** An angle in 1e-5 degrees, clockwise from north, as radians counter-clockwise from east. *)
(* @ ublox_gps_driver.cpp:220-225 UbxGpsDriver::HandleNavPvt (heading) *)
Definition heading (angle : Z) : option f64 :=
  let h := ddiv (d_of_Z angle) (d_of_Z 100000) in
  let h := dmul (dneg h) (ddiv M_PI (d_of_Z 180)) in
  unwind 2 (fmod (dadd h M_PI_2) (dmul (d_of_Z 2) M_PI)).
(* @ ublox_gps_driver.cpp:183-189 UbxGpsDriver::HandleNavPvt (fix type) *)
Definition fix_of (fixType : Z) : FixType :=
  match fixType with 1 => DR_ONLY | 2 => FIX_2D | 3 => FIX_3D | 4 => GNSS_DR_COMBINED | _ => NO_FIX end.
(* @ ublox_gps_driver.cpp:191-201 UbxGpsDriver::HandleNavPvt (RTK) *)
Definition rtk_of (flags : Z) : RTKType :=
  let diffSoln := negb (Z.shiftr (Z.land flags 2) 1 =? 0) in
  let carrSoln := Z.shiftr (Z.land flags 192) 6 in
  if diffSoln then match carrSoln with 1 => RTK_FLOAT | 2 => RTK_FIX | _ => RTK_NONE end else RTK_NONE.
(** [-velD] of an [int32_t] is undefined for the least one. *)
(* @ ublox_gps_driver.cpp UbxGpsDriver::HandleNavPvt *)
Definition HandleNavPvt (m : UbxNavPvt) (g : GpsDriver) : option GpsDriver :=
  let gnssFixOK := negb (Z.land (flags m) 1 =? 0) in
  let invalidLlh := negb (Z.land (flags3 m) 1 =? 0) in
  if negb gnssFixOK then Some (g <| gps_state_valid_ := false |>) else
  if invalidLlh then Some (g <| gps_state_valid_ := false |>) else
  if velD m =? -2147483648 then None else
  hedVeh ← heading (headVeh m);
  headMotion ← heading (headMot m);
  let milli z := ddiv (d_of_Z z) (d_of_Z 1000) in
  let headAcc := dmul (ddiv (d_of_Z (headAcc m)) (d_of_Z 100000)) (ddiv M_PI (d_of_Z 180)) in
  let st := mkGpsState (iTOW m) 0 true (milli (hAcc m)) (milli (vAcc m))
    (ddiv (d_of_Z (lat m)) (d_of_Z 10000000)) (ddiv (d_of_Z (lon m)) (d_of_Z 10000000)) (milli (hMSL m))
    true (milli (velE m)) (milli (velN m)) (milli (- velD m)) headAcc headMotion
    (negb (Z.shiftr (Z.land (flags m) 32) 5 =? 0)) headAcc hedVeh (fix_of (fixType m)) (rtk_of (flags m)) (numSV m) in
  Some (TriggerStateCallback (g <| gps_state_ := st |> <| gps_state_valid_ := true |>)).
(** [data] starts with the class and stops before the checksum; [size - 4] is unsigned. *)
(* @ ublox_gps_driver.cpp UbxGpsDriver::ProcessUbxPacket *)
Definition ProcessUbxPacket (data : list Z) (g : GpsDriver) : option GpsDriver :=
  let packet_id := Z.lor (Z.shiftl (nth 0 data 0) 8) (nth 1 data 0) in
  if packet_id =? Z.lor (Z.shiftl NAV_CLASS_ID 8) NAV_MESSAGE_ID then
    if u32 (Z.of_nat (length data) - 4) =? Z.of_nat sizeof_UbxNavPvt then HandleNavPvt (read_pvt (drop 4 data)) g else Some g
  else Some g.

(** ** The parser *)
Definition GBUFFER_SIZE : nat := 512.
(* @ ublox_gps_driver.h:53-57 UbxGpsDriver *)
Record ubx := mkUbx { gbuffer_ : list Z; gbuffer_fill : nat; found_header_ : bool }.
#[export] Instance eta_ubx : Eta ubx := fun s => mkUbx (gbuffer_ s) (gbuffer_fill s) (found_header_ s).
Definition initial_ubx : ubx := mkUbx (replicate GBUFFER_SIZE 0) 0 false.
(* @ ublox_gps_driver.cpp UbxGpsDriver::ResetParserState *)
Definition ResetParserState (s : ubx) : ubx := s <| found_header_ := false |> <| gbuffer_fill := 0%nat |>.

(* @ ublox_gps_driver.cpp UbxGpsDriver::CalculateChecksum *)
Definition CalculateChecksum (packet : list Z) : Z * Z :=
  fold_left (fun ck b => let a := u8 (fst ck + b) in (a, u8 (snd ck + a))) packet (0, 0).
(** [size - 4], [size - 2] and [size - 1] are unsigned; the checksum is of the
    bytes from the third on. *)
(* @ ublox_gps_driver.cpp UbxGpsDriver::ValidateChecksum *)
Definition ValidateChecksum (packet : list Z) (size : Z) : option bool :=
  let n := u32 (size - 4) in
  if Z.of_nat (length packet) <? 2 + n then None else
  let '(ck_a, ck_b) := CalculateChecksum (slice packet 2 (Z.to_nat n)) in
  a ← packet !! Z.to_nat (u32 (size - 2)); b ← packet !! Z.to_nat (u32 (size - 1));
  Some ((a =? ck_a) && (b =? ck_b)).
(** The frame of a packet whose class, id and payload are given: [SendPacket] on a
    buffer that has room for the header, the length and the checksum. *)
(* @ ublox_gps_driver.cpp UbxGpsDriver::SendPacket *)
Definition SendPacket (cls id : Z) (payload : list Z) : list Z :=
  let body := cls :: id :: le_bytes 2 (Z.of_nat (length payload)) ++ payload in
  let '(ck_a, ck_b) := CalculateChecksum body in
  [0xb5; 0x62] ++ body ++ [ck_a; ck_b].

(** [memchr]: what follows the first [c]. *)
Fixpoint memchr (c : Z) (l : list Z) : option (list Z) :=
  match l with [] => None | b :: l => if b =? c then Some l else memchr c l end.

Section Parser.
(** The handler of a packet, over its data. *)
Context {D : Type} (ProcessUbxPacket : list Z -> D -> option D).

Definition take_bytes (n : nat) (buffer : list Z) (s : ubx) : option ubx :=
  g ← memcpy (gbuffer_ s) (gbuffer_fill s) (take n buffer);
  Some (s <| gbuffer_ := g |> <| gbuffer_fill ::= fun f => (f + length (take n buffer))%nat |>).
(** The number returned is a hint for how many bytes to read. *)
(* @ ublox_gps_driver.cpp:38-135 UbxGpsDriver::ProcessBytes (loop) *)
Fixpoint ubx_loop (fuel : nat) (buffer : list Z) (s : ubx) (d : D) : option (Z * ubx * D) :=
  match buffer, fuel with
  | [], _ => Some (1, s, d)
  | _, O => None
  | b :: rest, S fuel =>
    if negb (found_header_ s) then
      match gbuffer_fill s with
      | O =>
        match memchr 0xb5 buffer with
        | None => Some (1, s, d)
        | Some rest => ubx_loop fuel rest (s <| gbuffer_ ::= insert 0%nat 0xb5 |> <| gbuffer_fill := 1%nat |>) d
        end
      | 1%nat =>
        if b =? 0x62 then
          let s := s <| gbuffer_ ::= insert 1%nat b |> <| gbuffer_fill := 2%nat |> <| found_header_ := true |> in
          match rest with [] => Some (4, s, d) | _ => ubx_loop fuel rest s d end
        else ubx_loop fuel rest (s <| gbuffer_fill := 0%nat |>) d
      | _ => ubx_loop fuel rest (s <| gbuffer_fill := 0%nat |>) d
      end
    else if (gbuffer_fill s <? 6)%nat then
      let n := (6 - gbuffer_fill s)%nat in
      s ← take_bytes n buffer s;
      match drop n buffer with
      | [] => if negb (gbuffer_fill s =? 6)%nat then Some (Z.of_nat (6 - gbuffer_fill s), s, d) else Some (1, s, d)
      | rest => ubx_loop fuel rest s d
      end
    else
      let payload_length := Z.lor (Z.shiftl (nth 5 (gbuffer_ s) 0) 8) (nth 4 (gbuffer_ s) 0) in
      let total_length := u16 (payload_length + 8) in
      if Z.of_nat GBUFFER_SIZE <? total_length then ubx_loop fuel buffer (ResetParserState s) d else
      let n := Z.to_nat (Z.min (Z.of_nat (length buffer)) (u32 (total_length - Z.of_nat (gbuffer_fill s)))) in
      s ← take_bytes n buffer s;
      let buffer := drop n buffer in
      if Z.of_nat (gbuffer_fill s) <? total_length then Some (total_length - Z.of_nat (gbuffer_fill s), s, d) else
      valid ← ValidateChecksum (gbuffer_ s) total_length;
      if negb valid then ubx_loop fuel buffer (ResetParserState s) d else
      d ← ProcessUbxPacket (slice (gbuffer_ s) 2 (gbuffer_fill s - 4)) d;
      ubx_loop fuel buffer (ResetParserState s) d
  end.
(** Every iteration takes a byte or leaves the state in which the next one does. *)
(* @ ublox_gps_driver.cpp UbxGpsDriver::ProcessBytes *)
Definition ubx_ProcessBytes (buffer : list Z) (s : ubx) (d : D) : option (Z * ubx * D) :=
  ubx_loop (2 * length buffer + 1) buffer s d.
(** The thread hands over one buffer after the other. *)
Fixpoint ubx_chunks (chunks : list (list Z)) (s : ubx) (d : D) : option (ubx * D) :=
  match chunks with
  | [] => Some (s, d)
  | c :: chunks => '(_, s, d) ← ubx_ProcessBytes c s d; ubx_chunks chunks s d
  end.
End Parser.

(** ** A reference parser, one byte at a time

    [acc]: the bytes of the packet so far. A declared length that does not fit 16 bits
    with the 8 bytes around the payload is refused ([None]): there the code's
    [total_length] wraps. *)
Definition declared (acc : list Z) : Z := Z.lor (Z.shiftl (nth 5 acc 0) 8) (nth 4 acc 0) + 8.
Definition checksum_ok (acc : list Z) : bool :=
  let n := length acc in
  let '(ck_a, ck_b) := CalculateChecksum (slice acc 2 (n - 4)) in
  (nth (n - 2) acc 0 =? ck_a) && (nth (n - 1) acc 0 =? ck_b).
Definition ubx_byte (b : Z) (acc : list Z) : option (list Z * list (list Z)) :=
  let start := if b =? 0xb5 then [b] else [] in
  match length acc with
  | O => Some (start, [])
  | 1%nat => Some (if b =? 0x62 then acc ++ [b] else [], [])
  | _ =>
    if (length acc <? 6)%nat then Some (acc ++ [b], [])
    else if 65535 <? declared acc then None
    else if Z.of_nat GBUFFER_SIZE <? declared acc then Some (start, [])
    else
      let acc := acc ++ [b] in
      if Z.of_nat (length acc) <? declared acc then Some (acc, [])
      else Some ([], if checksum_ok acc then [slice acc 2 (length acc - 4)] else [])
  end.
Fixpoint ubx_bytes (l acc : list Z) : option (list Z * list (list Z)) :=
  match l with
  | [] => Some (acc, [])
  | b :: l => '(acc, p) ← ubx_byte b acc; '(acc, ps) ← ubx_bytes l acc; Some (acc, p ++ ps)
  end.
Lemma ubx_bytes_app a b acc : ubx_bytes (a ++ b) acc =
  '(acc, p) ← ubx_bytes a acc; '(acc, ps) ← ubx_bytes b acc; Some (acc, p ++ ps).
Proof.
  revert acc. induction a as [|x a IH]; intros acc; cbn [app ubx_bytes].
  - cbn. destruct (ubx_bytes b acc) as [[? ?]|]; reflexivity.
  - destruct (ubx_byte x acc) as [[acc1 p1]|]; [|reflexivity]. cbn [mbind option_bind]. rewrite IH.
    destruct (ubx_bytes a acc1) as [[acc2 p2]|]; [|reflexivity]. cbn [mbind option_bind].
    destruct (ubx_bytes b acc2) as [[acc3 p3]|]; [|reflexivity]. cbn. rewrite app_assoc. reflexivity.
Qed.

(** *** Blocks of bytes inside a packet *)
Lemma declared_app acc l : (6 <= length acc)%nat -> declared (acc ++ l) = declared acc.
Proof. intros H. unfold declared. rewrite !app_nth1 by lia. reflexivity. Qed.
Lemma ubx_byte_header b acc : (2 <= length acc < 6)%nat -> ubx_byte b acc = Some (acc ++ [b], []).
Proof.
  intros H. unfold ubx_byte. destruct (length acc) as [|[|n]] eqn:E; [lia..|].
  destruct (Nat.ltb_spec (S (S n)) 6); [reflexivity|lia].
Qed.
Lemma ubx_header l : forall acc, (2 <= length acc)%nat -> (length acc + length l <= 6)%nat ->
  ubx_bytes l acc = Some (acc ++ l, []).
Proof.
  induction l as [|b l IH]; intros acc H1 H2; cbn [ubx_bytes length] in *; [rewrite app_nil_r; reflexivity|].
  rewrite ubx_byte_header by lia. cbn [mbind option_bind].
  rewrite IH by (rewrite length_app; cbn [length]; lia). rewrite <- app_assoc. reflexivity.
Qed.
Lemma ubx_byte_payload b acc : (6 <= length acc)%nat -> declared acc <= Z.of_nat GBUFFER_SIZE ->
  ubx_byte b acc = if Z.of_nat (length acc + 1) <? declared acc then Some (acc ++ [b], [])
    else Some ([], if checksum_ok (acc ++ [b]) then [slice (acc ++ [b]) 2 (length acc + 1 - 4)] else []).
Proof.
  intros H Hd. change (Z.of_nat GBUFFER_SIZE) with 512 in Hd. unfold ubx_byte.
  destruct (length acc) as [|[|n]] eqn:E; [lia..|]. change (Z.of_nat GBUFFER_SIZE) with 512.
  destruct (Nat.ltb_spec (S (S n)) 6); [lia|].
  destruct (Z.ltb_spec 65535 (declared acc)); [lia|]. destruct (Z.ltb_spec 512 (declared acc)); [lia|].
  rewrite declared_app, length_app, E by lia. reflexivity.
Qed.
Lemma ubx_payload l : forall acc, (6 <= length acc)%nat -> declared acc <= Z.of_nat GBUFFER_SIZE ->
  Z.of_nat (length acc + length l) < declared acc -> ubx_bytes l acc = Some (acc ++ l, []).
Proof.
  induction l as [|b l IH]; intros acc H1 H2 H3; cbn [ubx_bytes length] in *; [rewrite app_nil_r; reflexivity|].
  rewrite ubx_byte_payload by assumption.
  destruct (Z.ltb_spec (Z.of_nat (length acc + 1)) (declared acc)); [|lia]. cbn [mbind option_bind].
  rewrite IH by (rewrite ?length_app, ?declared_app; cbn [length]; lia). rewrite <- app_assoc. reflexivity.
Qed.
Lemma ubx_complete l acc : (6 <= length acc)%nat -> declared acc <= Z.of_nat GBUFFER_SIZE -> l <> [] ->
  Z.of_nat (length acc + length l) = declared acc ->
  ubx_bytes l acc = Some ([], if checksum_ok (acc ++ l) then [slice (acc ++ l) 2 (length (acc ++ l) - 4)] else []).
Proof.
  intros H1 H2 Hl H3. destruct (exists_last Hl) as (l' & b & ->). rewrite length_app in H3. cbn [length] in H3.
  rewrite ubx_bytes_app, ubx_payload by (assumption || lia). cbn [mbind option_bind ubx_bytes].
  rewrite ubx_byte_payload by (rewrite ?length_app, ?declared_app; lia). rewrite declared_app by lia.
  destruct (Z.ltb_spec (Z.of_nat (length (acc ++ l') + 1)) (declared acc)) as [Hlt|]; [rewrite length_app in Hlt; lia|].
  cbn [mbind option_bind app]. rewrite app_nil_r, <- app_assoc.
  replace (length (acc ++ l') + 1)%nat with (length (acc ++ l' ++ [b])) by (rewrite !length_app; cbn [length]; lia). reflexivity.
Qed.

(** ** The parser is the reference parser *)
Section Equivalence.
Context {D : Type} (ProcessUbxPacket : list Z -> D -> option D).
Abbreviation ubx_loop := (ubx_loop ProcessUbxPacket).
(** The handler on several packets. *)
Definition handle_all (ps : list (list Z)) (d : D) : option D := foldl (fun o p => d ← o; ProcessUbxPacket p d) (Some d) ps.
Lemma handle_all_cons p ps d : handle_all (p :: ps) d = d ← ProcessUbxPacket p d; handle_all ps d.
Proof.
  unfold handle_all. cbn [foldl mbind option_bind]. destruct (ProcessUbxPacket p d) as [d'|]; [reflexivity|].
  cbn [mbind option_bind]. induction ps as [|q ps IH]; [reflexivity|exact IH].
Qed.
Lemma handle_all_app ps qs d : handle_all (ps ++ qs) d = d ← handle_all ps d; handle_all qs d.
Proof.
  revert d. induction ps as [|p ps IH]; intros d; [reflexivity|]. cbn [app]. rewrite !handle_all_cons.
  destruct (ProcessUbxPacket p d); [apply IH|reflexivity].
Qed.

(** The parser's state for the bytes [acc]. *)
Record holds (acc : list Z) (s : ubx) : Prop := {
  holds_size : length (gbuffer_ s) = GBUFFER_SIZE;
  holds_fill : gbuffer_fill s = length acc;
  holds_bytes : take (length acc) (gbuffer_ s) = acc;
  holds_found : found_header_ s = (2 <=? length acc)%nat;
  holds_values : is_bytes acc;
  holds_length : (6 < length acc)%nat -> Z.of_nat (length acc) < declared acc <= Z.of_nat GBUFFER_SIZE }.
Lemma holds_split acc s : holds acc s -> exists r, gbuffer_ s = acc ++ r.
Proof. intros H. exists (drop (length acc) (gbuffer_ s)). rewrite <- (holds_bytes _ _ H) at 1. symmetry. apply take_drop. Qed.
Lemma holds_reset acc s : holds acc s -> holds [] (ResetParserState s).
Proof. intros [H1 _ _ _ _ _]. split; try reflexivity; [exact H1|constructor|cbn; lia]. Qed.
Lemma nth_holds acc r k : (k < length acc)%nat -> nth k (acc ++ r) 0 = nth k acc 0.
Proof. intros. apply app_nth1. lia. Qed.
Lemma declared_range acc : is_bytes acc -> 8 <= declared acc <= 65535 + 8.
Proof.
  intros H. unfold declared. assert (B : forall k, is_u8 (nth k acc 0)).
  { intros k. destruct (Nat.lt_ge_cases k (length acc)); [|rewrite nth_overflow by lia; unfold is_u8; lia].
    unfold is_bytes in H. rewrite List.Forall_forall in H. apply H, nth_In. lia. }
  pose proof (B 5%nat) as B5. pose proof (B 4%nat) as B4. unfold is_u8 in *.
  rewrite lor_hi by lia. change (2 ^ 8) with 256. lia.
Qed.
Lemma take_bytes_ok n buffer acc s : length (gbuffer_ s) = GBUFFER_SIZE -> gbuffer_fill s = length acc ->
  take (length acc) (gbuffer_ s) = acc -> (length acc + length (take n buffer) <= GBUFFER_SIZE)%nat ->
  exists s', take_bytes n buffer s = Some s' /\ length (gbuffer_ s') = GBUFFER_SIZE /\
    gbuffer_fill s' = length (acc ++ take n buffer) /\
    take (length (acc ++ take n buffer)) (gbuffer_ s') = acc ++ take n buffer /\ found_header_ s' = found_header_ s.
Proof.
  intros Hg Hf Ht Hn. unfold take_bytes. rewrite Hf. rewrite memcpy_total by lia.
  assert (E : memcpy (gbuffer_ s) (length acc) (take n buffer) = Some (take (length acc) (gbuffer_ s) ++ take n buffer ++
    drop (length acc + length (take n buffer)) (gbuffer_ s))) by (apply memcpy_total; lia).
  eexists. split; [reflexivity|]. cbn [mbind option_bind gbuffer_ gbuffer_fill found_header_ update eta eta_ubx].
  split; [exact (eq_trans (memcpy_length _ _ _ _ E) Hg)|]. rewrite length_app, Hf. split; [reflexivity|].
  split; [|reflexivity]. apply memcpy_take in E. rewrite E, Ht. reflexivity.
Qed.
(** The packet's checksum in the buffer. *)
Lemma ValidateChecksum_holds acc r : (8 <= length acc)%nat -> (length (acc ++ r) = GBUFFER_SIZE)%nat ->
  ValidateChecksum (acc ++ r) (Z.of_nat (length acc)) = Some (checksum_ok acc).
Proof.
  intros Ha Hg. unfold ValidateChecksum, checksum_ok. rewrite Hg. change GBUFFER_SIZE with 512%nat in *. rewrite length_app in Hg.
  rewrite !u32_small by (unfold is_u32; lia). destruct (Z.ltb_spec (Z.of_nat 512) (2 + (Z.of_nat (length acc) - 4))); [lia|].
  replace (Z.to_nat (Z.of_nat (length acc) - 4)) with (length acc - 4)%nat by lia.
  replace (Z.to_nat (Z.of_nat (length acc) - 2)) with (length acc - 2)%nat by lia.
  replace (Z.to_nat (Z.of_nat (length acc) - 1)) with (length acc - 1)%nat by lia.
  assert (E : slice (acc ++ r) 2 (length acc - 4) = slice acc 2 (length acc - 4)).
  { unfold slice. rewrite drop_app_le by lia. apply take_app_le. rewrite length_drop. lia. }
  rewrite E. destruct (CalculateChecksum _) as [ck_a ck_b]. rewrite !lookup_app_l by lia.
  destruct (lookup_lt_is_Some_2 acc (length acc - 2)) as [a Ea]; [lia|].
  destruct (lookup_lt_is_Some_2 acc (length acc - 1)) as [b Eb]; [lia|].
  rewrite Ea, Eb, (nth_lookup_Some _ _ _ _ Ea), (nth_lookup_Some _ _ _ _ Eb). reflexivity.
Qed.

(** The outcome of the loop against that of the reference. *)
Definition agrees (r : option (Z * ubx * D)) (acc' : list Z) (ps : list (list Z)) (d : D) : Prop :=
  match handle_all ps d with
  | Some d' => exists n s', r = Some (n, s', d') /\ holds acc' s'
  | None => r = None
  end.
Lemma agrees_end n s d acc : holds acc s -> agrees (Some (n, s, d)) acc [] d.
Proof. intros H. exists n, s. auto. Qed.
Lemma memchr_ref buffer : is_bytes buffer ->
  match memchr 0xb5 buffer with
  | None => ubx_bytes buffer [] = Some ([], [])
  | Some rest => ubx_bytes buffer [] = ubx_bytes rest [0xb5] /\ (length rest < length buffer)%nat /\ is_bytes rest
  end.
Proof.
  induction 1 as [|b l Hb Hl IH]; [reflexivity|]. cbn [memchr ubx_bytes]. unfold ubx_byte. cbn [length].
  destruct (Z.eqb_spec b 0xb5) as [->|Hne].
  - cbn [mbind option_bind]. split; [|split; [cbn; lia|exact Hl]].
    destruct (ubx_bytes l [0xb5]) as [[? ?]|]; reflexivity.
  - cbn [mbind option_bind]. destruct (memchr 0xb5 l) as [rest|].
    + destruct IH as (-> & Hr & Hb'). split; [|split; [cbn; lia|exact Hb']].
      destruct (ubx_bytes rest [0xb5]) as [[? ?]|]; reflexivity.
    + rewrite IH. reflexivity.
Qed.
(** Inside the header. *)
Lemma ubx_loop_header fuel buffer s acc d acc' ps : holds acc s -> is_bytes buffer -> buffer <> [] -> (2 <= length acc < 6)%nat ->
  ubx_bytes buffer acc = Some (acc', ps) ->
  (forall rest s', holds (acc ++ take (6 - length acc) buffer) s' -> rest = drop (6 - length acc) buffer ->
     ubx_bytes rest (acc ++ take (6 - length acc) buffer) = Some (acc', ps) -> agrees (ubx_loop fuel rest s' d) acc' ps d) ->
  agrees (ubx_loop (S fuel) buffer s d) acc' ps d.
Proof.
  intros H Hb Hne Hacc E IH. destruct buffer as [|b rest]; [congruence|]. cbn [Gps.ubx_loop]. set (buffer := b :: rest) in *.
  pose proof H as [Hg Hf Ht Hfound Hv _]. rewrite Hfound, Hf.
  destruct (Nat.leb_spec 2 (length acc)); [|lia]. cbn [negb]. destruct (Nat.ltb_spec (length acc) 6); [|lia].
  pose proof (length_take buffer (6 - length acc)) as Hlen.
  destruct (take_bytes_ok (6 - length acc) buffer acc s Hg Hf Ht ltac:(change GBUFFER_SIZE with 512%nat; lia)) as (s' & Es & Hg' & Hf' & Ht' & Hfo).
  rewrite Es. cbn [mbind option_bind].
  assert (H' : holds (acc ++ take (6 - length acc) buffer) s').
  { split; [exact Hg'|exact Hf'|exact Ht'|..].
    - rewrite Hfo, Hfound, length_app. destruct (Nat.leb_spec 2 (length acc)), (Nat.leb_spec 2 (length acc + length (take (6 - length acc) buffer))); lia || reflexivity.
    - apply is_bytes_app; [exact Hv|apply Forall_take, Hb].
    - rewrite length_app. lia. }
  rewrite <- (take_drop (6 - length acc) buffer), ubx_bytes_app, ubx_header in E by lia. cbn [mbind option_bind] in E.
  destruct (ubx_bytes (drop _ buffer) _) as [[a p]|] eqn:Er; [|discriminate]. cbn [mbind option_bind app] in E. injection E as -> ->.
  destruct (drop (6 - length acc) buffer) as [|x r] eqn:Ed.
  - injection Er as <- <-. destruct (negb _); apply agrees_end, H'.
  - apply (IH (x :: r) s' H' eq_refl Er).
Qed.
(** Inside the payload, when the declared length is in order. *)
Lemma ubx_loop_payload fuel buffer s acc d acc' ps : holds acc s -> is_bytes buffer -> buffer <> [] -> (6 <= length acc)%nat ->
  declared acc <= Z.of_nat GBUFFER_SIZE -> ubx_bytes buffer acc = Some (acc', ps) ->
  (forall rest s' d' ps', holds [] s' -> (length rest < length buffer)%nat -> is_bytes rest -> found_header_ s' = false ->
     ubx_bytes rest [] = Some (acc', ps') -> agrees (ubx_loop fuel rest s' d') acc' ps' d') ->
  agrees (ubx_loop (S fuel) buffer s d) acc' ps d.
Proof.
  intros H Hb Hne Hacc Hd E IH. destruct buffer as [|b rest]; [congruence|]. cbn [Gps.ubx_loop]. set (buffer := b :: rest) in *.
  pose proof H as [Hg Hf Ht Hfound Hv Hl]. destruct (holds_split _ _ H) as (r & Er). pose proof (declared_range acc Hv) as Hdr.
  assert (Hlt : Z.of_nat (length acc) < declared acc) by (destruct (Nat.eq_dec (length acc) 6%nat); [lia|apply Hl; lia]).
  rewrite Hfound, Hf. destruct (Nat.leb_spec 2 (length acc)); [|lia]. cbn [negb]. destruct (Nat.ltb_spec (length acc) 6); [lia|].
  assert (En : nth 5 (gbuffer_ s) 0 = nth 5 acc 0 /\ nth 4 (gbuffer_ s) 0 = nth 4 acc 0) by (rewrite Er, !nth_holds by lia; auto).
  destruct En as [-> ->]. fold (declared acc). change (Z.of_nat GBUFFER_SIZE) with 512 in *. rewrite u16_small by (unfold is_u16; lia).
  destruct (Z.ltb_spec 512 (declared acc)); [lia|]. rewrite u32_small by (unfold is_u32; lia).
  set (n := Z.to_nat (Z.min (Z.of_nat (length buffer)) (declared acc - Z.of_nat (length acc)))).
  assert (Hn : (1 <= n <= length buffer)%nat) by (unfold n; cbn [length buffer] in *; subst buffer; cbn [length] in *; lia).
  pose proof (length_take_le buffer n ltac:(lia)) as Hlen.
  destruct (take_bytes_ok n buffer acc s Hg Hf Ht ltac:(change GBUFFER_SIZE with 512%nat; lia)) as (s' & Es & Hg' & Hf' & Ht' & Hfo).
  rewrite Es. cbn [mbind option_bind]. rewrite Hf'.
  assert (Ha : length (acc ++ take n buffer) = (length acc + n)%nat) by (rewrite length_app; lia). rewrite Ha in *.
  rewrite <- (take_drop n buffer), ubx_bytes_app in E.
  destruct (Z.ltb_spec (Z.of_nat (length acc + n)) (declared acc)) as [Hshort|Hfull].
  - assert (Hd0 : drop n buffer = []) by (apply drop_ge; subst n; lia).
    rewrite Hd0, ubx_payload in E by (change (Z.of_nat GBUFFER_SIZE) with 512; lia). cbn in E. injection E as <- <-. apply agrees_end. split; rewrite ?Ha; auto.
    + rewrite Hfo, Hfound. destruct (Nat.leb_spec 2 (length acc)), (Nat.leb_spec 2 (length acc + n)); lia || reflexivity.
    + apply is_bytes_app; [exact Hv|apply Forall_take, Hb].
    + intros _. change (Z.of_nat GBUFFER_SIZE) with 512. rewrite declared_app by lia. lia.
  - assert (Hex : Z.of_nat (length acc + n) = declared acc) by (subst n; lia).
    rewrite ubx_complete in E; [|lia|exact Hd|intros E0; apply (f_equal length) in E0; rewrite Hlen in E0; cbn in E0; lia|rewrite Hlen; exact Hex].
    cbn [mbind option_bind] in E. destruct (ubx_bytes (drop n buffer) []) as [[a p]|] eqn:Ed; [|discriminate]. cbn [mbind option_bind] in E.
    injection E as -> Eps. assert (Er' : exists r', gbuffer_ s' = (acc ++ take n buffer) ++ r').
    { exists (drop (length acc + n) (gbuffer_ s')). rewrite <- Ht' at 1. symmetry. apply take_drop. }
    destruct Er' as (r' & Er'). rewrite Er', <- Hex, <- Ha.
    rewrite ValidateChecksum_holds by (rewrite ?Ha, <- ?Er'; lia || exact Hg'). cbn [mbind option_bind].
    assert (Hdl : (length (drop n buffer) < length buffer)%nat) by (rewrite length_drop; lia).
    assert (Hr0 : holds [] (ResetParserState s')) by (split; try reflexivity; [exact Hg'|constructor|cbn; lia]).
    assert (Hdb : is_bytes (drop n buffer)) by (apply Forall_drop, Hb).
    destruct (checksum_ok (acc ++ take n buffer)); cbn [negb app] in *; subst ps; [|apply IH; auto].
    assert (Esl : slice ((acc ++ take n buffer) ++ r') 2 (length (acc ++ take n buffer) - 4) =
      slice (acc ++ take n buffer) 2 (length (acc ++ take n buffer) - 4)).
    { unfold slice. rewrite drop_app_le by lia. apply take_app_le. rewrite length_drop. lia. }
    rewrite Esl. unfold agrees. rewrite handle_all_cons. destruct (ProcessUbxPacket _ d) as [d1|]; [|reflexivity].
    cbn [mbind option_bind]. apply IH; auto.
Qed.

(** What [fuel] iterations achieve: each takes a byte, or leaves a header behind. *)
Definition loop_ok (fuel : nat) : Prop := forall buffer s acc d acc' ps, holds acc s -> is_bytes buffer ->
  ubx_bytes buffer acc = Some (acc', ps) -> buffer = [] \/ (2 * length buffer + (if found_header_ s then 1 else 0) <= fuel)%nat ->
  agrees (ubx_loop fuel buffer s d) acc' ps d.
Lemma u8_b5 : is_u8 0xb5. Proof. vm_compute. split; congruence. Qed.
Lemma u8_62 : is_u8 0x62. Proof. vm_compute. split; congruence. Qed.
(** Looking for the header. *)
Lemma ubx_loop_start fuel b rest s acc d acc' ps : loop_ok fuel -> holds acc s -> is_bytes (b :: rest) -> (length acc < 2)%nat ->
  ubx_bytes (b :: rest) acc = Some (acc', ps) -> (2 * S (length rest) <= S fuel)%nat ->
  agrees (ubx_loop (S fuel) (b :: rest) s d) acc' ps d.
Proof.
  intros IH H Hb Hsmall E Hfuel. pose proof H as [Hg Hf Ht Hfound Hv _]. pose proof (proj1 (Forall_cons _ _ _) Hb) as [_ Hrest].
  destruct acc as [|x [|y acc]]; [..|cbn in Hsmall; lia]; cbn [Gps.ubx_loop]; rewrite Hfound, Hf; cbn [length Nat.leb negb].
  - pose proof (memchr_ref (b :: rest) Hb) as M. destruct (memchr 0xb5 (b :: rest)) as [r|].
    2:{ rewrite M in E. injection E as <- <-. apply agrees_end, H. }
    destruct M as (M & Hr & Hrb). rewrite M in E. cbn [length] in Hr.
    apply (IH r _ [0xb5]); [|exact Hrb|exact E|right; cbn; rewrite Hfound; cbn; lia].
    split; cbn [gbuffer_ gbuffer_fill found_header_ update eta eta_ubx length];
      [rewrite length_insert; exact Hg|reflexivity| |exact Hfound|repeat constructor; apply u8_b5|lia].
    destruct (gbuffer_ s); [cbn in Hg; discriminate Hg|reflexivity].
  - cbn [ubx_bytes] in E. unfold ubx_byte in E. cbn [length] in E. destruct (Z.eqb_spec b 0x62) as [->|Hne]; cbn [mbind option_bind app] in E.
    + destruct (ubx_bytes rest [x; 0x62]) as [[a p]|] eqn:Er; [|discriminate]. injection E as -> ->.
      assert (H' : holds [x; 0x62] (s <| gbuffer_ ::= insert 1%nat 0x62 |> <| gbuffer_fill := 2%nat |> <| found_header_ := true |>)).
      { split; cbn [gbuffer_ gbuffer_fill found_header_ update eta eta_ubx length]; [rewrite length_insert; exact Hg|reflexivity| |reflexivity| |lia].
        - destruct (gbuffer_ s) as [|g0 [|g1 g]]; [discriminate Hg..|]. cbn [length take] in Ht. injection Ht as ->. reflexivity.
        - apply Forall_cons in Hv as [Hx _]. repeat constructor; apply Hx || apply u8_62. }
      destruct rest as [|c rest]; [injection Er as <- <-; apply agrees_end, H'|].
      apply (IH (c :: rest) _ [x; 0x62]); [exact H'|exact Hrest|exact Er|right; cbn in *; lia].
    + destruct (ubx_bytes rest []) as [[a p]|] eqn:Er; [|discriminate]. injection E as -> ->.
      apply (IH rest _ []); [|exact Hrest|exact Er|destruct rest; [left; reflexivity|right; cbn in *; rewrite Hfound; lia]].
      split; cbn [gbuffer_ gbuffer_fill found_header_ update eta eta_ubx length]; [exact Hg|reflexivity|reflexivity|exact Hfound|constructor|lia].
Qed.
(** A length that does not fit the buffer: start over with the same bytes. *)
Lemma ubx_loop_oversize fuel b rest s acc d acc' ps : loop_ok fuel -> holds acc s -> is_bytes (b :: rest) -> (6 <= length acc)%nat ->
  Z.of_nat GBUFFER_SIZE < declared acc -> ubx_bytes (b :: rest) acc = Some (acc', ps) -> (2 * S (length rest) <= fuel)%nat ->
  agrees (ubx_loop (S fuel) (b :: rest) s d) acc' ps d.
Proof.
  intros IH H Hb Hp Hd E Hfuel. pose proof H as [Hg Hf Ht Hfound Hv _].
  assert (Ew : declared acc <= 65535 /\ ubx_bytes (b :: rest) [] = Some (acc', ps)).
  { cbn [ubx_bytes] in E |- *. unfold ubx_byte in E. destruct (length acc) as [|[|k]] eqn:Ek; [lia..|].
    destruct (Nat.ltb_spec (S (S k)) 6); [lia|]. destruct (Z.ltb_spec 65535 (declared acc)); [discriminate|].
    destruct (Z.ltb_spec (Z.of_nat GBUFFER_SIZE) (declared acc)); [|lia]. split; [lia|]. exact E. }
  destruct Ew as [Hw Ew]. cbn [Gps.ubx_loop]. rewrite Hfound, Hf. destruct (Nat.leb_spec 2 (length acc)); [|lia]. cbn [negb].
  destruct (Nat.ltb_spec (length acc) 6); [lia|]. destruct (holds_split _ _ H) as (r & Er).
  assert (En : nth 5 (gbuffer_ s) 0 = nth 5 acc 0 /\ nth 4 (gbuffer_ s) 0 = nth 4 acc 0) by (rewrite Er, !nth_holds by lia; auto).
  destruct En as [-> ->]. fold (declared acc). pose proof (declared_range acc Hv). rewrite u16_small by (unfold is_u16; lia).
  destruct (Z.ltb_spec (Z.of_nat GBUFFER_SIZE) (declared acc)); [|lia].
  apply (IH _ _ [] _ _ _ (holds_reset _ _ H) Hb Ew). right. cbn. lia.
Qed.
Lemma ubx_loop_ref fuel : loop_ok fuel.
Proof.
  induction fuel as [|fuel IH]; intros buffer s acc d acc' ps H Hb E Hfuel.
  { destruct buffer; [|destruct Hfuel; [discriminate|cbn in *; lia]]. injection E as <- <-. apply agrees_end, H. }
  destruct buffer as [|b rest]; [injection E as <- <-; apply agrees_end, H|].
  destruct Hfuel as [|Hfuel]; [discriminate|]. cbn [length] in Hfuel. rewrite (holds_found _ _ H) in Hfuel.
  destruct (Nat.leb_spec 2 (length acc)); [|apply (ubx_loop_start _ _ _ _ _ _ _ _ IH H Hb); auto; lia].
  destruct (Nat.lt_ge_cases (length acc) 6) as [Hh|Hp].
  - apply (ubx_loop_header fuel (b :: rest) s acc d acc' ps H Hb); [discriminate|lia|exact E|].
    intros r s' H' -> Er. apply (IH _ _ _ _ _ _ H'); [apply Forall_drop, Hb|exact Er|].
    right. rewrite length_drop. cbn [length]. destruct (found_header_ s'); lia.
  - destruct (Z.le_gt_cases (declared acc) (Z.of_nat GBUFFER_SIZE)) as [Hd|Hd].
    + apply (ubx_loop_payload fuel (b :: rest) s acc d acc' ps H Hb); [discriminate|lia|exact Hd|exact E|].
      intros r s' d' ps' H' Hlen Hrb Hnf Er. apply (IH _ _ [] _ _ _ H'); [exact Hrb|exact Er|right; rewrite Hnf; cbn [length] in *; lia].
    + apply (ubx_loop_oversize _ _ _ _ _ _ _ _ IH H Hb); auto; lia.
Qed.
Lemma ubx_chunks_ref chunks : forall s acc d acc' ps, holds acc s -> Forall is_bytes chunks ->
  ubx_bytes (concat chunks) acc = Some (acc', ps) ->
  match handle_all ps d with
  | Some d' => exists s', ubx_chunks ProcessUbxPacket chunks s d = Some (s', d') /\ holds acc' s'
  | None => ubx_chunks ProcessUbxPacket chunks s d = None
  end.
Proof.
  induction chunks as [|c chunks IH]; intros s acc d acc' ps H Hb E; cbn [concat ubx_chunks] in *.
  - injection E as <- <-. exists s. auto.
  - apply Forall_cons in Hb as [Hc Hb]. rewrite ubx_bytes_app in E.
    destruct (ubx_bytes c acc) as [[a p]|] eqn:Ec; [|discriminate]. cbn [mbind option_bind] in E.
    destruct (ubx_bytes (concat chunks) a) as [[a' ps']|] eqn:Er; [|discriminate]. injection E as -> <-.
    assert (A : agrees (ubx_ProcessBytes ProcessUbxPacket c s d) a p d).
    { apply (ubx_loop_ref _ c s acc d a p H Hc Ec). right. destruct (found_header_ s); lia. }
    unfold agrees in A. rewrite handle_all_app. destruct (handle_all p d) as [d1|]; [|rewrite A; reflexivity].
    destruct A as (n & s1 & -> & H1). cbn [mbind option_bind]. exact (IH s1 a d1 acc' ps' H1 Hb Er).
Qed.

(** *** Frames among other bytes *)
(** Other bytes hold no sync character; a packet fits the parser's buffer; one that does not, and whose
    total length does not wrap, holds no sync character behind its header. *)
Inductive piece := Noise (l : list Z) | Packet (cls id : Z) (payload : list Z) | TooLong (cls id : Z) (payload : list Z).
Definition piece_ok (x : piece) : Prop :=
  match x with
  | Noise l => is_bytes l /\ Forall (fun b => b <> 0xb5) l
  | Packet cls id payload => is_u8 cls /\ is_u8 id /\ is_bytes payload /\ (length payload + 8 <= GBUFFER_SIZE)%nat
  | TooLong cls id payload => is_u8 cls /\ is_u8 id /\ is_bytes payload /\ (GBUFFER_SIZE < length payload + 8)%nat /\
      Z.of_nat (length payload) + 8 <= 65535 /\ Forall (fun b => b <> 0xb5) (drop 6 (SendPacket cls id payload))
  end.
Definition piece_bytes (x : piece) : list Z :=
  match x with Noise l => l | Packet cls id payload | TooLong cls id payload => SendPacket cls id payload end.
(** What the handler is given: class, id, length, payload. *)
Definition packet_data (cls id : Z) (payload : list Z) : list Z :=
  cls :: id :: le_bytes 2 (Z.of_nat (length payload)) ++ payload.
Definition piece_data (x : piece) : list (list Z) :=
  match x with Noise _ | TooLong _ _ _ => [] | Packet cls id payload => [packet_data cls id payload] end.

Lemma CalculateChecksum_u8 l : is_u8 (CalculateChecksum l).1 /\ is_u8 (CalculateChecksum l).2.
Proof.
  unfold CalculateChecksum. assert (H : is_u8 (fst (0, 0)) /\ is_u8 (snd (0, 0))) by (split; cbn; width). revert H. generalize (0, 0).
  induction l as [|b l IH]; intros ck H; [exact H|]. cbn [fold_left]. apply IH. split; apply u8_range.
Qed.
Lemma ubx_noise l : Forall (fun b => b <> 0xb5) l -> ubx_bytes l [] = Some ([], []).
Proof.
  induction 1 as [|b l Hb _ IH]; [reflexivity|]. cbn [ubx_bytes]. unfold ubx_byte. cbn [length].
  destruct (Z.eqb_spec b 0xb5); [congruence|]. cbn [mbind option_bind]. rewrite IH. reflexivity.
Qed.
Lemma SendPacket_shape cls id payload : exists a b, SendPacket cls id payload = [0xb5; 0x62] ++ packet_data cls id payload ++ [a; b] /\
  CalculateChecksum (packet_data cls id payload) = (a, b) /\ is_u8 a /\ is_u8 b.
Proof.
  unfold SendPacket. fold (packet_data cls id payload). pose proof (CalculateChecksum_u8 (packet_data cls id payload)) as H.
  destruct (CalculateChecksum _) as [a b]. exists a, b. destruct H. auto.
Qed.
Lemma checksum_ok_frame data a b : CalculateChecksum data = (a, b) -> checksum_ok ([0xb5; 0x62] ++ data ++ [a; b]) = true.
Proof.
  intros H. unfold checksum_ok. rewrite !length_app. cbn [length].
  replace (2 + (length data + 2) - 4)%nat with (length data) by lia.
  replace (2 + (length data + 2) - 2)%nat with (2 + length data)%nat by lia.
  replace (2 + (length data + 2) - 1)%nat with (2 + (length data + 1))%nat by lia.
  assert (E : slice ([0xb5; 0x62] ++ data ++ [a; b]) 2 (length data) = data) by (unfold slice; cbn [app drop]; apply take_app_length).
  rewrite E, H. cbn [app Nat.add nth]. rewrite !app_nth2 by lia. rewrite Nat.sub_diag.
  replace (length data + 1 - length data)%nat with 1%nat by lia. cbn [nth]. rewrite !Z.eqb_refl. reflexivity.
Qed.
Lemma ubx_frame cls id payload : (length payload + 8 <= GBUFFER_SIZE)%nat ->
  ubx_bytes (SendPacket cls id payload) [] = Some ([], [packet_data cls id payload]).
Proof.
  intros Hl. change GBUFFER_SIZE with 512%nat in Hl. destruct (SendPacket_shape cls id payload) as (a & b & -> & Hck & _).
  set (n := Z.of_nat (length payload)). set (acc := [0xb5; 0x62; cls; id; u8 n; u8 (n / 256)]).
  assert (Es : [0xb5; 0x62] ++ packet_data cls id payload ++ [a; b] = acc ++ (payload ++ [a; b])) by reflexivity.
  assert (Ed : declared acc = n + 8).
  { unfold declared. unfold acc. cbn [nth]. rewrite lor_hi by (lia || apply u8_range). change (2 ^ 8) with 256. unfold n. width. }
  rewrite Es, ubx_bytes_app. assert (Eh : ubx_bytes acc [] = Some (acc, [])) by reflexivity. rewrite Eh. cbn [mbind option_bind].
  rewrite ubx_complete; [|cbn; lia|change (Z.of_nat GBUFFER_SIZE) with 512; lia|destruct payload; discriminate|rewrite length_app; cbn; lia].
  cbn [mbind option_bind app]. rewrite <- Es, (checksum_ok_frame _ _ _ Hck).
  assert (El : length ([0xb5; 0x62] ++ packet_data cls id payload ++ [a; b]) = (length (packet_data cls id payload) + 4)%nat)
    by (rewrite !length_app; cbn [length]; lia). rewrite El, Nat.add_sub.
  assert (E2 : slice ([0xb5; 0x62] ++ packet_data cls id payload ++ [a; b]) 2 (length (packet_data cls id payload)) = packet_data cls id payload)
    by (unfold slice; cbn [app drop]; apply take_app_length).
  rewrite E2. reflexivity.
Qed.
Lemma ubx_too_long cls id payload : piece_ok (TooLong cls id payload) -> ubx_bytes (SendPacket cls id payload) [] = Some ([], []).
Proof.
  intros (_ & _ & _ & Hl & Hw & Hs). change GBUFFER_SIZE with 512%nat in Hl. destruct (SendPacket_shape cls id payload) as (a & b & E & _).
  rewrite E in Hs |- *. set (n := Z.of_nat (length payload)) in *. set (acc := [0xb5; 0x62; cls; id; u8 n; u8 (n / 256)]).
  assert (Es : [0xb5; 0x62] ++ packet_data cls id payload ++ [a; b] = acc ++ (payload ++ [a; b])) by reflexivity.
  assert (Ed : declared acc = n + 8).
  { unfold declared. unfold acc. cbn [nth]. rewrite lor_hi by (lia || apply u8_range). change (2 ^ 8) with 256. unfold n. width. }
  rewrite Es in Hs |- *. change (drop 6 (acc ++ payload ++ [a; b])) with (payload ++ [a; b]) in Hs.
  rewrite ubx_bytes_app. assert (Eh : ubx_bytes acc [] = Some (acc, [])) by reflexivity. rewrite Eh. cbn [mbind option_bind].
  assert (Ep : payload = hd 0 payload :: tl payload) by (destruct payload; [cbn in Hl; lia|reflexivity]).
  rewrite Ep in Hs |- *. cbn [app ubx_bytes] in Hs |- *. apply Forall_cons in Hs as [Hb Hs].
  unfold ubx_byte at 1. change (length acc) with 6%nat. change (6 <? 6)%nat with false. cbv iota.
  rewrite Ed. destruct (Z.ltb_spec 65535 (n + 8)); [lia|]. change (Z.of_nat GBUFFER_SIZE) with 512.
  destruct (Z.ltb_spec 512 (n + 8)); [|lia]. destruct (Z.eqb_spec (hd 0 payload) 0xb5); [contradiction|].
  cbn [mbind option_bind]. rewrite ubx_noise by exact Hs. reflexivity.
Qed.
Lemma ubx_pieces l : Forall piece_ok l -> ubx_bytes (concat (map piece_bytes l)) [] = Some ([], concat (map piece_data l)).
Proof.
  induction 1 as [|x l Hx _ IH]; [reflexivity|]. cbn [map concat]. rewrite ubx_bytes_app.
  assert (E : ubx_bytes (piece_bytes x) [] = Some ([], piece_data x)).
  { destruct x as [n|cls id payload|cls id payload]; [apply ubx_noise, Hx|apply ubx_frame, Hx|apply ubx_too_long, Hx]. }
  rewrite E. cbn [mbind option_bind]. rewrite IH. reflexivity.
Qed.

(** C19. Packets get through the u-blox parser: let frames as [SendPacket] builds them follow one
    another, with any other bytes without a sync character between them, cut into buffers in any way,
    and let no frame's 8 bytes and payload be more than 65535, where the code's total length wraps.
    Of the frames that fit the parser's buffer of 512 bytes the parser hands the data of every
    packet to the handler, once and in order; longer ones, without a sync character behind their
    header, are dropped; it stays inside its buffer and ends up looking for the next
    frame, unless the handler itself runs outside a packet. *)
Theorem ubx_packets_received (l : list piece) (chunks : list (list Z)) (s : ubx) (d : D) :
  Forall piece_ok l -> holds [] s -> concat chunks = concat (map piece_bytes l) ->
  match handle_all (concat (map piece_data l)) d with
  | Some d' => exists s', ubx_chunks ProcessUbxPacket chunks s d = Some (s', d') /\ holds [] s'
  | None => ubx_chunks ProcessUbxPacket chunks s d = None
  end.
Proof.
  intros Hl Hs E. apply (ubx_chunks_ref chunks s [] d); [exact Hs| |rewrite E; apply ubx_pieces, Hl].
  assert (Hb : is_bytes (concat chunks)); [|].
  { rewrite E. clear E. induction Hl as [|x l Hx _ IH]; [constructor|]. cbn [map concat]. apply is_bytes_app; [|exact IH].
    destruct x as [n|cls id payload|cls id payload]; [apply Hx|..]; destruct Hx as (H1 & H2 & H3 & _); cbn [piece_bytes];
    destruct (SendPacket_shape cls id payload) as (a & b & -> & _ & Ha & Hb);
    repeat (apply is_bytes_app || (constructor; [assumption || (vm_compute; split; congruence)|]) || apply le_bytes_is_bytes || assumption || constructor). }
  clear - Hb. induction chunks as [|c chunks IH]; [constructor|]. apply Forall_app in Hb as [H1 H2]. constructor; auto.
Qed.
End Equivalence.

Module GpsDemo.
(** A fixed position with an RTK fix, heading north, moving east. *)
Definition demo_payload : list Z :=
  le_bytes 4 360000 ++ replicate 16 0 ++ [3; 0x83; 0; 17] ++ le_bytes 4 113500000 ++ le_bytes 4 481234567 ++ le_bytes 4 0 ++
  le_bytes 4 520000 ++ le_bytes 4 14 ++ le_bytes 4 20 ++ le_bytes 4 0 ++ le_bytes 4 500 ++ le_bytes 4 0 ++ le_bytes 4 500 ++
  le_bytes 4 9000000 ++ replicate 4 0 ++ le_bytes 4 100000 ++ replicate 12 0 ++ replicate 4 0.
Definition demo_gps : GpsDriver := mkGpsDriver zero_gps false [].
Definition demo_pieces : list piece := [Noise [1; 2; 0x62]; Packet 1 7 demo_payload; TooLong 2 0x15 (replicate 600 1); Packet 5 1 [6; 1]].
Definition demo_stream : list Z := concat (map piece_bytes demo_pieces).
Lemma ubx_witness :
  match handle_all ProcessUbxPacket (concat (map piece_data demo_pieces)) demo_gps with
  | Some d' => exists s', ubx_chunks ProcessUbxPacket [take 4 demo_stream; take 50 (drop 4 demo_stream); drop 54 demo_stream] initial_ubx demo_gps
      = Some (s', d') /\ holds [] s'
  | None => ubx_chunks ProcessUbxPacket [take 4 demo_stream; take 50 (drop 4 demo_stream); drop 54 demo_stream] initial_ubx demo_gps = None
  end.
Proof.
  assert (B : forall l, forallb (fun b => (0 <=? b) && (b <? 256)) l = true -> is_bytes l).
  { intros l H. apply List.Forall_forall. intros x Hx. rewrite forallb_forall in H. specialize (H x Hx). unfold is_u8. lia. }
  assert (N : forall l, forallb (fun b => negb (b =? 0xb5)) l = true -> Forall (fun b => b <> 0xb5) l).
  { intros l H. apply List.Forall_forall. intros x Hx. rewrite forallb_forall in H. specialize (H x Hx). lia. }
  assert (P : Forall piece_ok demo_pieces).
  { unfold demo_pieces. repeat apply Forall_cons_2; [..|apply Forall_nil_2]; cbn [piece_ok]; split_and!;
      lazymatch goal with
      | |- is_u8 _ => unfold is_u8; lia
      | |- is_bytes _ => apply B; vm_compute; reflexivity
      | |- (_ <= _)%nat => apply Nat.leb_le; vm_compute; reflexivity
      | |- (_ < _)%nat => apply Nat.ltb_lt; vm_compute; reflexivity
      | |- _ <= _ => apply Z.leb_le; vm_compute; reflexivity
      | |- _ => apply N; vm_compute; reflexivity
      end. }
  assert (S0 : holds [] initial_ubx) by (split; try reflexivity; [constructor|cbn; lia]).
  assert (E : concat [take 4 demo_stream; take 50 (drop 4 demo_stream); drop 54 demo_stream] = concat (map piece_bytes demo_pieces))
    by (vm_compute; reflexivity).
  exact (ubx_packets_received ProcessUbxPacket demo_pieces _ initial_ubx demo_gps P S0 E).
Defined.
(** The state the demonstration ends in: valid, RTK fix, and one callback. *)
Example pvt_demo :
  option_map (fun '(s, g) => (gps_state_valid_ g, fix_type (gps_state_ g), rtk_type (gps_state_ g), num_sv (gps_state_ g), vel_e (gps_state_ g),
      SFltb (motion_heading (gps_state_ g)) (ddiv (d_of_Z 1) (d_of_Z 1000)), length (triggered g)))
    (ubx_chunks ProcessUbxPacket [demo_stream] initial_ubx demo_gps)
  = Some (true, FIX_3D, RTK_FIX, 17, ddiv (d_of_Z 1) (d_of_Z 2), true, 1%nat).
Proof. vm_compute. reflexivity. Qed.
(** A declared length of 65532 makes [total_length] 4, and the next 512 bytes overrun the buffer. *)
Example wrapped_length_overruns :
  ubx_chunks ProcessUbxPacket [[0xb5; 0x62; 0; 0; 0xfc; 0xff]; replicate 512 0] initial_ubx demo_gps = None.
Proof. vm_compute. reflexivity. Qed.
(** A sync character just before a frame makes the parser miss it. *)
Example stray_sync_loses_packet :
  option_map (fun '(_, g) => triggered g) (ubx_chunks ProcessUbxPacket [0xb5 :: SendPacket 1 7 demo_payload] initial_ubx demo_gps) = Some [].
Proof. vm_compute. reflexivity. Qed.
End GpsDemo.
