(* ===== verification/GpsService.v ===== *)
(** The GPS service [services/gps_service], with the settings the Sabo robot keeps for it
    ([robots/src/sabo_robot.cpp]), and the high-level service [services/high_level_service].

    A start of the firmware is [boot], then the service's [OnStart] with the values of the high-level
    computer. What a service base class sends is an event. [None] is a call through a null pointer. *)
From stdpp Require Import strings.
From S2P Require Import Prelude Float32 Dma Gps Settings.

(** ** UARTs *)
(** The driver of index [n] is [n], where the board's configuration enables it. *)
(* @ board_utils.cpp GetUARTDriverByIndex *)
Definition GetUARTDriverByIndex (index : Z) : option Z :=
  if bool_decide (index ∈ [1; 2; 4; 6; 7; 8; 10]) then Some index else None.

(** ** The service *)
(** The values of [ProtocolType], as [robots/include/robot.hpp] gives them. *)
Definition UBX : Z := 0.
Definition NMEA : Z := 1.
(** A driver that was created: its protocol, its UART and the speed asked for. *)
Record gps_running := mkRunning { driver_protocol : Z; driver_uart : Z; driver_baudrate : Z }.
(* @ gps_service.hpp:49-57 GpsService *)
Record GpsService := mkGpsService { gps_driver_ : option gps_running; used_port_index_ : Z; last_ntrip_time_ : Z }.
#[export] Instance eta_GpsService : Eta GpsService := fun s => mkGpsService (gps_driver_ s) (used_port_index_ s) (last_ntrip_time_ s).
Definition new_GpsService : GpsService := mkGpsService None 0 0.
Inductive gps_out :=
  | UartError (uart : Z) | StartDriver (uart baudrate : Z) | DebugInterface
  | Rtcm (data : list Z)
  | StartTransaction | SendPosition (position : list f64) | SendPositionHorizontalAccuracy (v : f64)
  | SendPositionVerticalAccuracy (v : f64) | SendFixType (name : string) | SendMotionVectorENU (v : list f64) | CommitTransaction.

(** What a robot decides about GPS: its default port, how it keeps the settings, and the ones it starts
    with before the high-level computer is there. [St] is the file system. *)
Class GpsRobot (St : Type) := {
  GPS_GetUartPort : option Z;
  SaveGpsSettings : Z -> Z -> Z -> St -> bool * St;
  early_settings : St -> option (Z * Z * Z) * St }.

Section Service.
Context {St : Type} {robot : GpsRobot St}.
(* @ gps_service.cpp GpsService::LoadAndStartGpsDriver *)
Definition LoadAndStartGpsDriver (protocol_type uart baudrate : Z) (s : GpsService) : bool * GpsService * list gps_out :=
  match (if uart =? 0 then GPS_GetUartPort else GetUARTDriverByIndex uart) with
  | None => (false, s, [UartError uart])
  | Some port =>
    let protocol := if protocol_type =? UBX then UBX else NMEA in
    (true, s <| gps_driver_ := Some (mkRunning protocol port baudrate) |> <| used_port_index_ := uart |>, [StartDriver port baudrate; DebugInterface])
  end.
(** [OnStart] returns, or resets the processor. *)
Inductive started := Returned (ok : bool) (s : GpsService) (out : list gps_out) | SystemReset.
(* @ gps_service.cpp GpsService::OnStart *)
Definition gps_OnStart (Protocol Uart Baudrate : Z) (s : GpsService) (fs : St) : started * St :=
  match gps_driver_ s with
  | None => let '(ok, s, out) := LoadAndStartGpsDriver Protocol Uart Baudrate s in (Returned ok s out, fs)
  | Some d =>
    if (negb (driver_protocol d =? Protocol) || negb (used_port_index_ s =? Uart) || negb (driver_baudrate d =? Baudrate))%bool then
      let '(saved, fs) := SaveGpsSettings Protocol Uart Baudrate fs in
      if negb saved then (Returned false s [], fs) else (SystemReset, fs)
    else (Returned true s [], fs)
  end.
(** What the platform's initialisation does for GPS. *)
(* @ sabo_robot.cpp:38-42 SaboRobot::InitPlatform *)
Definition boot (fs : St) : GpsService * St :=
  match early_settings fs with
  | (Some (p, u, b), fs) => ((LoadAndStartGpsDriver p u b new_GpsService).1.2, fs)
  | (None, fs) => (new_GpsService, fs)
  end.
Definition start_up (Protocol Uart Baudrate : Z) (fs : St) : started * St :=
  let '(s, fs) := boot fs in gps_OnStart Protocol Uart Baudrate s fs.

(** [now] is the system time in ticks. *)
(* @ gps_service.cpp GpsService::OnRTCMChanged *)
Definition OnRTCMChanged (new_value : list Z) (now : Z) (s : GpsService) : option (GpsService * list gps_out) :=
  let s := s <| last_ntrip_time_ := u32 now |> in
  match gps_driver_ s with None => None | Some _ => Some (s, [Rtcm new_value]) end.
(* @ gps_service.cpp GpsService::GpsStateCallback *)
Definition GpsStateCallback (state : GpsState) : list gps_out :=
  [StartTransaction; SendPosition [pos_lat state; pos_lon state; pos_height state];
   SendPositionHorizontalAccuracy (position_h_accuracy state); SendPositionVerticalAccuracy (position_v_accuracy state)] ++
  match rtk_type state with RTK_FIX => [SendFixType "FIX"] | RTK_FLOAT => [SendFixType "FLOAT"] | RTK_NONE => [] end ++
  [SendMotionVectorENU [vel_e state; vel_n state; vel_u state]; CommitTransaction].
(** Ten thousand ticks a second, rounded up. *)
(* @ gps_service.cpp GpsService::GetSecondsSinceLastRtcmPacket *)
Definition GetSecondsSinceLastRtcmPacket (now : Z) (s : GpsService) : Z :=
  if last_ntrip_time_ s =? 0 then 0 else (u32 (now - last_ntrip_time_ s) + 9999) / 10000.
(* @ gps_service.hpp GetGpsState *)
Definition GetGpsState (driver_state : GpsState) (s : GpsService) : GpsState := match gps_driver_ s with Some _ => driver_state | None => zero_gps end.
(* @ gps_service.hpp IsGpsStateValid *)
Definition IsGpsStateValid (driver_valid : bool) (s : GpsService) : bool := match gps_driver_ s with Some _ => driver_valid | None => false end.

Lemma RTCM_age data now later s s' out : OnRTCMChanged data now s = Some (s', out) -> u32 now <> 0 ->
  0 <= later - now < 4294967296 -> GetSecondsSinceLastRtcmPacket later s' = (later - now + 9999) / 10000.
Proof.
  unfold OnRTCMChanged, GetSecondsSinceLastRtcmPacket. cbn. destruct (gps_driver_ s); [|discriminate]. intros [= <- <-] Hn Hl. cbn.
  destruct (Z.eqb_spec (u32 now) 0); [congruence|]. f_equal. f_equal. unfold u32. rewrite Zminus_mod_idemp_r. apply Z.mod_small. lia.
Qed.
End Service.

(** ** Robots *)
(** Most robots keep nothing and start no driver before [OnStart]. *)
(* @ robot.hpp SaveGpsSettings *)
Definition forgetful_SaveGpsSettings {St} (p u b : Z) (fs : St) : bool * St := (true, fs).
(* @ robot.hpp GPS_GetUartPort *)
Definition forgetful_robot (St : Type) (port : option Z) : GpsRobot St :=
  {| GPS_GetUartPort := port; SaveGpsSettings := forgetful_SaveGpsSettings; early_settings fs := (None, fs) |}.

Section Sabo.
Context {St H : Type} {L : Littlefs St H}.
(* @ sabo_robot.cpp SaboRobot::SaveGpsSettings *)
Definition sabo_SaveGpsSettings (p u b : Z) (fs : St) : bool * St := Save GPSSettings_struct (gps_bytes (mkGPS 1 p u b)) fs.
(* @ sabo_common.hpp:350-357 GPSSettings *)
Definition default_GPS : GPSSettings := mkGPS 1 NMEA 0 921600.
(** A failed load starts the driver with whatever the struct then holds. *)
(* @ sabo_robot.cpp:38-42 SaboRobot::InitPlatform *)
Definition sabo_early_settings (fs : St) : option (Z * Z * Z) * St :=
  let '(_, dest, fs) := Load GPSSettings_struct (gps_bytes default_GPS) fs in
  let x := gps_of dest in (Some (protocol x, uart x, baudrate x), fs).
(* @ sabo_robot.hpp GPS_GetUartPort *)
#[export] Instance SaboGps : GpsRobot St :=
  {| GPS_GetUartPort := Some 6; SaveGpsSettings := sabo_SaveGpsSettings; early_settings := sabo_early_settings |}.

Lemma gps_of_bytes x : 0 <= gps_version x < 65536 -> is_u32 (baudrate x) -> gps_of (gps_bytes x) = x.
Proof.
  intros Hv Hb. destruct x as [v p u b]. unfold gps_of, gps_bytes, slice. cbn [gps_version protocol uart baudrate] in *.
  rewrite take_app_length' by reflexivity. rewrite le_int_bytes. cbn [le_bytes app nth drop].
  f_equal; [apply Z.mod_small; cbn; lia|]. change [u8 b; u8 (b / 256); u8 (b / 256 / 256); u8 (b / 256 / 256 / 256)] with (le_bytes 4 b).
  rewrite take_ge by (rewrite length_le_bytes; lia). rewrite le_int_bytes. apply Z.mod_small. exact Hb.
Qed.

Context {laws : LittlefsLaws L}.
Definition gps_names : list (list Z) := [path_of "cfg"; path_of "sabo"; path_of "gps.bin"].
Lemma gps_path : PATH GPSSettings_struct = join gps_names.
Proof. reflexivity. Qed.
Lemma gps_plain : plain gps_names.
Proof. unfold plain. cbn. forall_list ltac:(split; [apply (bool_decide_unpack _); vm_compute; exact I|discriminate]). Qed.

(** A GPS configuration sent by the high-level computer takes effect. On a Sabo with a working file system, a
    service that already runs and is given another protocol, port or speed keeps the new values and resets; the
    next start-up starts the driver with them, and the service, given them again, then runs on that driver
    without another reset and without writing. *)
Theorem gps_change_takes_effect s0 p u b fs d : gps_driver_ s0 = Some d ->
  (driver_protocol d, used_port_index_ s0, driver_baudrate d) <> (p, u, b) ->
  (p = UBX \/ p = NMEA) -> (u = 0 \/ GetUARTDriverByIndex u <> None) -> is_u32 b -> fs_ok fs -> free gps_names fs ->
  exists fs', gps_OnStart p u b s0 fs = (SystemReset, fs') /\
    exists s fs'', start_up p u b fs' = (Returned true s [], fs'') /\ agrees (fun _ => True) fs' fs'' /\
      gps_driver_ s = Some (mkRunning p (if u =? 0 then 6 else u) b) /\ used_port_index_ s = u.
Proof.
  intros Hd Hdiff Hp Hu Hb Hfs Hfree. set (x := mkGPS 1 p u b).
  destruct (Save_spec GPSSettings_struct (gps_bytes x) (path_of "cfg") [path_of "sabo"] (path_of "gps.bin") fs Hfs gps_path gps_plain Hfree) as (fs' & E & S & C); [vm_compute; lia|].
  exists fs'. split.
  { unfold gps_OnStart. rewrite Hd. cbn [SaveGpsSettings SaboGps]. unfold sabo_SaveGpsSettings. fold x. rewrite E. cbn [negb].
    destruct (Z.eqb_spec (driver_protocol d) p), (Z.eqb_spec (used_port_index_ s0) u), (Z.eqb_spec (driver_baudrate d) b); try reflexivity. congruence. }
  destruct (Load_spec GPSSettings_struct (gps_bytes default_GPS) (gps_bytes x) fs' (proj1 S) C) as (fs'' & S' & EL); [vm_compute; lia|reflexivity|vm_compute; lia|].
  assert (Eover : overwrite (gps_bytes default_GPS) 2 (take (length (gps_bytes default_GPS) - 2) (drop 2 (gps_bytes x))) = gps_bytes x) by reflexivity.
  rewrite Eover in EL. change (VERSION GPSSettings_struct <? le_int (take 2 (gps_bytes x))) with false in EL. cbv iota in EL.
  set (port := if u =? 0 then 6 else u).
  assert (Hport : (if u =? 0 then Some 6 else GetUARTDriverByIndex u) = Some port).
  { unfold port. destruct (Z.eqb_spec u 0); [reflexivity|]. destruct Hu as [|Hu]; [congruence|]. unfold GetUARTDriverByIndex in *. case_bool_decide; congruence. }
  assert (Hproto : (if p =? UBX then UBX else NMEA) = p) by (destruct Hp as [-> | ->]; reflexivity).
  eexists _, fs''. unfold start_up, boot. cbn [early_settings SaboGps]. unfold sabo_early_settings. rewrite EL, gps_of_bytes by (cbn; lia || exact Hb).
  cbn [x protocol uart baudrate]. unfold LoadAndStartGpsDriver. cbn [GPS_GetUartPort SaboGps]. rewrite Hport, Hproto. cbn [fst snd].
  unfold gps_OnStart. cbn [gps_driver_ used_port_index_ update driver_protocol driver_baudrate]. rewrite !Z.eqb_refl. cbn [negb orb].
  split; [reflexivity|]. split; [exact S'|]. split; reflexivity.
Qed.
End Sabo.

(** A robot that keeps nothing starts the driver only when [OnStart] says how, so a reset is enough. *)
Lemma forgetful_change_takes_effect {St} port s0 p u b (fs : St) d : gps_driver_ s0 = Some d ->
  (driver_protocol d, used_port_index_ s0, driver_baudrate d) <> (p, u, b) -> (p = UBX \/ p = NMEA) ->
  forall n, (if u =? 0 then port else GetUARTDriverByIndex u) = Some n ->
  let _ := forgetful_robot St port in
  gps_OnStart p u b s0 fs = (SystemReset, fs) /\
  exists s out, start_up p u b fs = (Returned true s out, fs) /\ gps_driver_ s = Some (mkRunning p n b).
Proof.
  intros Hd Hdiff Hp n Hn r. split.
  - unfold gps_OnStart. rewrite Hd. cbn.
    destruct (Z.eqb_spec (driver_protocol d) p), (Z.eqb_spec (used_port_index_ s0) u), (Z.eqb_spec (driver_baudrate d) b); try reflexivity. congruence.
  - do 2 eexists. unfold start_up, boot, gps_OnStart, LoadAndStartGpsDriver. cbn. rewrite Hn. split; [reflexivity|]. cbn. f_equal. f_equal.
    destruct Hp as [-> | ->]; reflexivity.
Qed.

Module GpsServiceDemo.
Import Ramfs.
Definition running : GpsService := new_GpsService <| gps_driver_ := Some (mkRunning NMEA 6 921600) |>.
Lemma gps_change_witness : exists fs', gps_OnStart UBX 4 460800 running empty_ram = (SystemReset, fs') /\
  exists s fs'', start_up UBX 4 460800 fs' = (Returned true s [], fs'') /\ gps_driver_ s = Some (mkRunning UBX 4 460800).
Proof.
  destruct (gps_change_takes_effect running UBX 4 460800 empty_ram (mkRunning NMEA 6 921600)) as (fs' & E & s & fs'' & E' & _ & Hd & _).
  - reflexivity.
  - discriminate.
  - left. reflexivity.
  - right. discriminate.
  - unfold is_u32. lia.
  - split; [reflexivity|]. split; [reflexivity|]. split; [apply (bool_decide_unpack _); vm_compute; exact I|]. cbn. apply List.Forall_cons; [reflexivity|apply List.Forall_nil].
  - split; [cbn; apply (bool_decide_unpack _); vm_compute; exact I|]. intros a b _ _. reflexivity.
  - exists fs'. split; [exact E|]. exists s, fs''. split; [exact E'|exact Hd].
Defined.
(** On a full device [SaveGpsSettings] answers true and keeps nothing: every start ends in a reset, with the
    file system as it was. *)
Example full_device_restarts_forever : let full := empty_ram <| no_space := true |> in start_up UBX 4 460800 full = (SystemReset, full).
Proof. vm_compute. reflexivity. Qed.
(** RTCM data before a driver runs is sent through a null pointer. *)
Example rtcm_without_driver : OnRTCMChanged [1; 2; 3] 5 new_GpsService = None.
Proof. reflexivity. Qed.
End GpsServiceDemo.

(** ** The high-level service *)
Module HighLevel.
(** [HighLevelStatus] is its number. Strings have at most a hundred characters. *)
(* @ high_level_service.hpp:62-70 HighLevelService *)
Record HighLevelService := mkHL {
  state_id_ : Z; state_name_ : list Z; sub_state_name_ : list Z; gps_quality_ : f32;
  current_area_ : Z; current_path_ : Z; current_path_index_ : Z; state_changed_callback_ : bool }.
#[export] Instance eta_HL : Eta HighLevelService := fun s => mkHL (state_id_ s) (state_name_ s) (sub_state_name_ s) (gps_quality_ s)
  (current_area_ s) (current_path_ s) (current_path_index_ s) (state_changed_callback_ s).
(* @ high_level_service.hpp:62-70 HighLevelService *)
Definition new_HL (UNKNOWN : Z) : HighLevelService := mkHL UNKNOWN [] [] f0 0 0 0 false.
Definition max_size : Z := 100.
(** A new name, unless its pointer is null ([None]) or it is empty or too long. *)
Definition accepted (new_value : option (list Z)) (old : list Z) : list Z :=
  match new_value with Some v => if ((0 <? Z.of_nat (length v)) && (Z.of_nat (length v) <? max_size))%bool then v else old | None => old end.
(* @ high_level_service.cpp HighLevelService::OnStateIDChanged *)
Definition OnStateIDChanged (v : Z) (s : HighLevelService) : HighLevelService := s <| state_id_ := v |>.
(* @ high_level_service.cpp HighLevelService::OnStateNameChanged *)
Definition OnStateNameChanged (v : option (list Z)) (s : HighLevelService) : HighLevelService := s <| state_name_ ::= accepted v |>.
(* @ high_level_service.cpp HighLevelService::OnSubStateNameChanged *)
Definition OnSubStateNameChanged (v : option (list Z)) (s : HighLevelService) : HighLevelService := s <| sub_state_name_ ::= accepted v |>.
(* @ high_level_service.cpp HighLevelService::OnGpsQualityChanged *)
Definition OnGpsQualityChanged (v : f32) (s : HighLevelService) : HighLevelService := s <| gps_quality_ := v |>.
(* @ high_level_service.cpp HighLevelService::OnCurrentAreaChanged *)
Definition OnCurrentAreaChanged (v : Z) (s : HighLevelService) : HighLevelService := s <| current_area_ := v |>.
(* @ high_level_service.cpp HighLevelService::OnCurrentPathChanged *)
Definition OnCurrentPathChanged (v : Z) (s : HighLevelService) : HighLevelService := s <| current_path_ := v |>.
(* @ high_level_service.cpp HighLevelService::OnCurrentPathIndexChanged *)
Definition OnCurrentPathIndexChanged (v : Z) (s : HighLevelService) : HighLevelService := s <| current_path_index_ := v |>.
(* @ high_level_service.hpp SetCallback *)
Definition SetCallback (s : HighLevelService) : HighLevelService := s <| state_changed_callback_ := true |>.
(** Whether the callback is made. *)
(* @ high_level_service.cpp HighLevelService::OnTransactionEnd *)
Definition OnTransactionEnd (s : HighLevelService) : bool := state_changed_callback_ s.
(** The names always fit their strings. *)
Lemma names_fit v s : (length (state_name_ s) <= 100)%nat -> (length (state_name_ (OnStateNameChanged v s)) <= 100)%nat.
Proof.
  intros H. cbn. unfold accepted, max_size. destruct v as [v|]; [|exact H].
  destruct (0 <? Z.of_nat (length v)) eqn:E1, (Z.of_nat (length v) <? 100) eqn:E2; cbn [andb]; try exact H. bsimp. lia.
Qed.
End HighLevel.
