(* ===== verification/Nmea.v ===== *)
(** The NMEA receivers: [drivers/gps/nmea_gps_driver.cpp].

    [ProcessBytes] cuts the stream into lines, [ProcessLine] puts a sentence into the GPS
    state. The sentences' syntax is minmea's, which is not in the repository: its functions are
    parameters. [None] is an access outside the line buffer. The proofs go through [nmea_byte], a
    reference that takes one byte at a time. *)
From S2P Require Import Prelude Float32 Dma Gps.

Definition DOLLAR : Z := 36.
Definition NEWLINE : Z := 10.
(** [memchr]: the bytes up to and with the first [c], and those after it. *)
Fixpoint split_at (c : Z) (l : list Z) : option (list Z * list Z) :=
  match l with
  | [] => None
  | b :: l => if b =? c then Some ([b], l) else '(p, q) ← split_at c l; Some (b :: p, q)
  end.
(** What a C function sees of a buffer: the bytes before the first zero. *)
Fixpoint c_string (l : list Z) : list Z := match l with [] => [] | b :: l => if b =? 0 then [] else b :: c_string l end.

(** ** Lines *)
(* @ nmea_gps_driver.h:27-28 NmeaGpsDriver *)
Record nmea := mkNmea { line : list Z; line_len : nat }.
#[export] Instance eta_nmea : Eta nmea := fun s => mkNmea (line s) (line_len s).
Definition initial_nmea : nmea := mkNmea (replicate 512 0) 0.
(* @ nmea_gps_driver.cpp NmeaGpsDriver::ResetParserState *)
Definition nmea_ResetParserState (s : nmea) : nmea := s <| line_len := 0%nat |>.

Section Lines.
(** [ProcessLine] on a terminated line; its result is only counted. *)
Context {D : Type} (ProcessLine : list Z -> D -> bool * D).

(* @ nmea_gps_driver.cpp:10-70 NmeaGpsDriver::ProcessBytes (loop) *)
Fixpoint nmea_loop (fuel : nat) (buffer : list Z) (s : nmea) (d : D) : option (Z * nmea * D) :=
  match buffer, fuel with
  | [], _ => Some (1, s, d)
  | _, O => None
  | _, S fuel =>
    match (if (line_len s =? 0)%nat then '(junk, _) ← split_at DOLLAR buffer; Some (drop (length junk - 1) buffer) else Some buffer) with
    | None => Some (1, s, d)
    | Some buffer =>
      match split_at NEWLINE buffer with
      | Some (taken, rest) =>
        if (line_len s + length taken + 1 <=? 512)%nat then
          l ← memcpy (line s) (line_len s) taken;
          let n := (line_len s + length taken)%nat in
          l ← memcpy l n [0];
          let '(_, d) := ProcessLine (c_string (take (S n) l)) d in
          nmea_loop fuel rest (s <| line := l |> <| line_len := 0%nat |>) d
        else nmea_loop fuel (drop 1 buffer) (s <| line_len := 0%nat |>) d
      | None =>
        if (line_len s + length buffer + 2 <=? 512)%nat then
          l ← memcpy (line s) (line_len s) buffer;
          Some (1, s <| line := l |> <| line_len ::= fun n => (n + length buffer)%nat |>, d)
        else nmea_loop fuel (drop 1 buffer) (s <| line_len := 0%nat |>) d
      end
    end
  end.
(** Every round takes a byte at least. *)
(* @ nmea_gps_driver.cpp NmeaGpsDriver::ProcessBytes *)
Definition nmea_ProcessBytes (buffer : list Z) (s : nmea) (d : D) : option (Z * nmea * D) := nmea_loop (length buffer) buffer s d.
Fixpoint nmea_chunks (chunks : list (list Z)) (s : nmea) (d : D) : option (nmea * D) :=
  match chunks with
  | [] => Some (s, d)
  | c :: chunks => '(_, s, d) ← nmea_ProcessBytes c s d; nmea_chunks chunks s d
  end.

(** ** A reference, one byte at a time

    [acc]: the line so far. A line that does not fit is refused ([None]). *)
Definition nmea_byte (b : Z) (acc : list Z) (d : D) : option (list Z * D) :=
  match acc with
  | [] => Some (if b =? DOLLAR then [b] else [], d)
  | _ => if b =? NEWLINE then Some ([], (ProcessLine (c_string (acc ++ [b])) d).2)
         else if (length acc <? 510)%nat then Some (acc ++ [b], d) else None
  end.
Fixpoint nmea_bytes (l acc : list Z) (d : D) : option (list Z * D) :=
  match l with [] => Some (acc, d) | b :: l => '(acc, d) ← nmea_byte b acc d; nmea_bytes l acc d end.
Lemma nmea_bytes_app a b acc d : nmea_bytes (a ++ b) acc d = '(acc, d) ← nmea_bytes a acc d; nmea_bytes b acc d.
Proof.
  revert acc d. induction a as [|x a IH]; intros acc d; [reflexivity|]. cbn [app nmea_bytes].
  destruct (nmea_byte x acc d) as [[acc' d']|]; [apply IH|reflexivity].
Qed.

Lemma split_at_some c l p q : split_at c l = Some (p, q) -> l = p ++ q /\ exists p', p = p' ++ [c] /\ c ∉ p'.
Proof.
  revert p q. induction l as [|b l IH]; intros p q; cbn [split_at]; [discriminate|].
  destruct (Z.eqb_spec b c) as [->|Hb].
  - intros [= <- <-]. split; [reflexivity|]. exists []. split; [reflexivity|apply not_elem_of_nil].
  - destruct (split_at c l) as [[p1 q1]|]; [|discriminate]. intros [= <- <-].
    destruct (IH _ _ eq_refl) as (-> & p' & -> & Hp). split; [reflexivity|]. exists (b :: p'). split; [reflexivity|].
    apply not_elem_of_cons. auto.
Qed.
Lemma split_at_none c l : split_at c l = None -> c ∉ l.
Proof.
  induction l as [|b l IH]; cbn [split_at]; [intros _; apply not_elem_of_nil|].
  destruct (Z.eqb_spec b c) as [|Hb]; [discriminate|]. destruct (split_at c l) as [[]|]; [discriminate|].
  intros _. apply not_elem_of_cons. auto.
Qed.
Lemma split_at_app c p q : c ∉ p -> split_at c (p ++ c :: q) = Some (p ++ [c], q).
Proof.
  induction p as [|b p IH]; intros H; cbn [app split_at]; [rewrite Z.eqb_refl; reflexivity|].
  apply not_elem_of_cons in H as [H1 H2]. destruct (Z.eqb_spec b c); [congruence|]. rewrite IH by exact H2. reflexivity.
Qed.
Lemma c_string_terminated l : c_string (l ++ [0]) = c_string l.
Proof. induction l as [|b l IH]; cbn; [reflexivity|]. destruct (b =? 0); [reflexivity|]. f_equal. exact IH. Qed.

(** ** Safety: no input makes the driver leave its buffer *)
Definition nmea_inv (s : nmea) : Prop := length (line s) = 512%nat /\ (line_len s <= 510)%nat.
Lemma terminated (s : nmea) taken : nmea_inv s -> (line_len s + length taken + 1 <= 512)%nat ->
  exists l l', memcpy (line s) (line_len s) taken = Some l /\ memcpy l (line_len s + length taken) [0] = Some l' /\
    length l' = 512%nat /\ take (S (line_len s + length taken)) l' = (take (line_len s) (line s) ++ taken) ++ [0].
Proof.
  intros [Hl Hn] Hfit.
  destruct (memcpy (line s) (line_len s) taken) as [l|] eqn:E; [|rewrite memcpy_total in E by lia; discriminate].
  pose proof (memcpy_length _ _ _ _ E) as El. pose proof (memcpy_take _ _ _ _ E) as Et.
  destruct (memcpy l (line_len s + length taken) [0]) as [l'|] eqn:E'; [|rewrite memcpy_total in E' by (cbn; lia); discriminate].
  exists l, l'. split; [reflexivity|]. split; [exact E'|]. split; [rewrite (memcpy_length _ _ _ _ E'); congruence|].
  pose proof (memcpy_take _ _ _ _ E') as Et'. cbn [length] in Et'. rewrite Nat.add_1_r, Et in Et'. exact Et'.
Qed.

Lemma junk_skipped (buffer : list Z) junk rest : split_at DOLLAR buffer = Some (junk, rest) ->
  drop (length junk - 1) buffer = DOLLAR :: rest /\ exists p, buffer = p ++ DOLLAR :: rest /\ DOLLAR ∉ p.
Proof.
  intros H. apply split_at_some in H as (-> & p & -> & Hp). split.
  - rewrite length_app. cbn [length]. replace (length p + 1 - 1)%nat with (length p) by lia.
    rewrite <- app_assoc. rewrite drop_app_length. reflexivity.
  - exists p. split; [rewrite <- app_assoc; reflexivity|exact Hp].
Qed.

Lemma nmea_loop_safe fuel : forall buffer s d, (length buffer <= fuel)%nat -> nmea_inv s ->
  exists n s' d', nmea_loop fuel buffer s d = Some (n, s', d') /\ nmea_inv s'.
Proof.
  induction fuel as [|fuel IH]; intros buffer s d Hf Hs; (destruct buffer as [|b0 r0]; [exists 1, s, d; split; [reflexivity|exact Hs]|]); [cbn in Hf; lia|].
  assert (Hreset : nmea_inv (s <| line_len := 0%nat |>)) by (split; [exact (proj1 Hs)|cbn; lia]).
  cbn [nmea_loop]. destruct (if (line_len s =? 0)%nat then _ else _) as [buffer|] eqn:Estart; [|eauto].
  assert (Hlen : (0 < length buffer <= S fuel)%nat).
  { destruct (line_len s =? 0)%nat; [|injection Estart as <-; cbn in *; lia].
    destruct (split_at DOLLAR (b0 :: r0)) as [[junk rest]|] eqn:E; [|discriminate]. injection Estart as <-.
    apply junk_skipped in E as (-> & p & E & _). apply (f_equal length) in E. rewrite length_app in E. cbn [length] in *. lia. }
  destruct (split_at NEWLINE buffer) as [[taken rest]|] eqn:E.
  - pose proof (split_at_some _ _ _ _ E) as (Hb & p & Hp & _). assert (Hr : (length rest <= fuel)%nat).
    { rewrite Hb, Hp, !length_app in Hlen. cbn in Hlen. lia. }
    destruct (Nat.leb_spec (line_len s + length taken + 1) 512).
    + destruct (terminated s taken Hs) as (l & l' & -> & E2 & Hl' & _); [assumption|]. cbn [mbind option_bind]. rewrite E2. cbn [mbind option_bind].
      destruct (ProcessLine _ d) as [ok d']. apply IH; [exact Hr|]. split; [exact Hl'|cbn; lia].
    + apply IH; [rewrite length_drop; lia|exact Hreset].
  - destruct (Nat.leb_spec (line_len s + length buffer + 2) 512).
    + destruct Hs as [Hl Hn]. destruct (memcpy (line s) (line_len s) buffer) as [l|] eqn:E2; [|rewrite memcpy_total in E2 by lia; discriminate].
      cbn [mbind option_bind]. do 3 eexists. split; [reflexivity|]. split; [cbn; rewrite (memcpy_length _ _ _ _ E2); exact Hl|cbn; lia].
    + apply IH; [rewrite length_drop; lia|exact Hreset].
Qed.

(** ** The driver is the reference *)
Lemma nmea_run l : forall acc d, acc <> [] -> (length acc <= 510)%nat -> NEWLINE ∉ l ->
  nmea_bytes l acc d = if (length acc + length l <=? 510)%nat then Some (acc ++ l, d) else None.
Proof.
  induction l as [|b l IH]; intros acc d Ha Hn Hl; cbn [nmea_bytes length].
  - rewrite app_nil_r. destruct (Nat.leb_spec (length acc + 0) 510); [reflexivity|lia].
  - apply not_elem_of_cons in Hl as [Hb Hl]. destruct acc as [|a acc]; [congruence|]. unfold nmea_byte.
    destruct (Z.eqb_spec b NEWLINE); [congruence|].
    destruct (Nat.ltb_spec (length (a :: acc)) 510) as [H|H]; cbn [mbind option_bind].
    + rewrite IH; [|discriminate|rewrite length_app; cbn [length] in *; lia|exact Hl].
      rewrite length_app. cbn [length]. rewrite <- app_assoc.
      replace (S (length acc) + 1 + length l)%nat with (S (length acc) + S (length l))%nat by lia. reflexivity.
    + destruct (Nat.leb_spec (length (a :: acc) + S (length l)) 510); [lia|reflexivity].
Qed.
Lemma nmea_line l rest acc d : acc <> [] -> (length acc <= 510)%nat -> NEWLINE ∉ l ->
  nmea_bytes (l ++ NEWLINE :: rest) acc d =
  if (length acc + length l <=? 510)%nat then nmea_bytes rest [] (ProcessLine (c_string (acc ++ l ++ [NEWLINE])) d).2 else None.
Proof.
  intros Ha Hn Hl. rewrite nmea_bytes_app, nmea_run by assumption. destruct (_ <=? 510)%nat; [|reflexivity].
  cbn [mbind option_bind nmea_bytes]. unfold nmea_byte.
  destruct (acc ++ l) eqn:E; [destruct acc; [congruence|discriminate]|]. rewrite <- E, Z.eqb_refl, app_assoc. reflexivity.
Qed.
Lemma nmea_junk p acc d : DOLLAR ∉ p -> acc = [] -> nmea_bytes p acc d = Some ([], d).
Proof.
  intros H ->. induction p as [|b p IH]; [reflexivity|]. apply not_elem_of_cons in H as [Hb H].
  cbn [nmea_bytes nmea_byte]. destruct (Z.eqb_spec b DOLLAR); [congruence|]. exact (IH H).
Qed.

(** The driver's state for the line [acc]. *)
Record nmea_holds (acc : list Z) (s : nmea) : Prop := {
  nmea_size : length (line s) = 512%nat;
  nmea_fill : line_len s = length acc;
  nmea_content : take (length acc) (line s) = acc;
  nmea_short : (length acc <= 510)%nat }.
Lemma nmea_holds_inv acc s : nmea_holds acc s -> nmea_inv s.
Proof. intros [H1 H2 _ H4]. split; lia. Qed.

(** One line: the bytes [buffer] after those of [acc], which start with a dollar sign. *)
Lemma nmea_loop_line fuel acc buffer s d acc' d' : nmea_holds acc s -> buffer <> [] ->
  (acc = [] -> exists r, buffer = DOLLAR :: r) -> nmea_bytes buffer acc d = Some (acc', d') ->
  (forall rest s d, (length rest < length buffer)%nat -> nmea_holds [] s -> nmea_bytes rest [] d = Some (acc', d') ->
    exists n s', nmea_loop fuel rest s d = Some (n, s', d') /\ nmea_holds acc' s') ->
  exists n s', nmea_loop (S fuel) buffer s d = Some (n, s', d') /\ nmea_holds acc' s'.
Proof.
  intros Hs Hne Hstart Hb IH. pose proof (nmea_holds_inv _ _ Hs) as Hi. destruct Hs as [Hsize Hfill Hcontent Hshort].
  assert (Hloop : (if (line_len s =? 0)%nat then '(junk, _) ← split_at DOLLAR buffer; Some (drop (length junk - 1) buffer) else Some buffer) = Some buffer).
  { rewrite Hfill. destruct acc; [|reflexivity]. destruct (Hstart eq_refl) as [r ->]. reflexivity. }
  destruct buffer as [|b0 r0]; [congruence|]. cbn [nmea_loop]. rewrite Hloop. clear Hloop. set (buffer := b0 :: r0) in *.
  destruct (split_at NEWLINE buffer) as [[taken rest]|] eqn:E.
  - apply split_at_some in E as (Hbuf & p & -> & Hp).
    assert (Hrun : nmea_bytes buffer acc d =
      if (length acc + length p <=? 510)%nat then nmea_bytes rest [] (ProcessLine (c_string (acc ++ p ++ [NEWLINE])) d).2 else None).
    { rewrite Hbuf, <- app_assoc. cbn [app]. destruct acc as [|a acc].
      - destruct (Hstart eq_refl) as [r Er]. rewrite Er in Hbuf. destruct p as [|q p]; [discriminate|]. injection Hbuf as <- _.
        cbn [app nmea_bytes nmea_byte]. rewrite Z.eqb_refl. cbn [mbind option_bind].
        apply not_elem_of_cons in Hp as [_ Hp]. rewrite nmea_line; [reflexivity|discriminate|cbn; lia|exact Hp].
      - apply nmea_line; [discriminate|exact Hshort|exact Hp]. }
    rewrite Hrun in Hb. destruct (Nat.leb_spec (length acc + length p) 510) as [Hfit|]; [|discriminate].
    rewrite length_app. cbn [length]. destruct (Nat.leb_spec (line_len s + (length p + 1) + 1) 512); [|lia].
    destruct (terminated s (p ++ [NEWLINE]) Hi) as (l & l' & E1 & E2 & Hl' & E3); [rewrite length_app; cbn [length]; lia|].
    rewrite E1. cbn [mbind option_bind]. rewrite length_app in E2, E3. cbn [length] in E2, E3. rewrite E2. cbn [mbind option_bind].
    rewrite E3, c_string_terminated, Hfill, Hcontent.
    destruct (ProcessLine (c_string (acc ++ p ++ [NEWLINE])) d) as [ok d1]. apply IH; [|split; cbn; auto; lia|exact Hb].
    rewrite Hbuf, !length_app. cbn [length]. lia.
  - apply split_at_none in E.
    assert (Hrun : nmea_bytes buffer acc d = if (length acc + length buffer <=? 510)%nat then Some (acc ++ buffer, d) else None).
    { destruct acc as [|a acc]; [|apply nmea_run; [discriminate|assumption..]].
      destruct (Hstart eq_refl) as [r Er]. rewrite Er in *. apply not_elem_of_cons in E as [_ E].
      cbn [nmea_bytes nmea_byte]. rewrite Z.eqb_refl. cbn [mbind option_bind]. rewrite nmea_run; [reflexivity|discriminate|cbn; lia|exact E]. }
    rewrite Hrun in Hb. destruct (Nat.leb_spec (length acc + length buffer) 510) as [Hfit|]; [|discriminate]. injection Hb as <- <-.
    destruct (Nat.leb_spec (line_len s + length buffer + 2) 512); [|lia].
    destruct (memcpy (line s) (line_len s) buffer) as [l|] eqn:E2; [|rewrite memcpy_total in E2 by lia; discriminate].
    cbn [mbind option_bind]. do 2 eexists. split; [reflexivity|]. pose proof (memcpy_take _ _ _ _ E2) as Et.
    split; cbn; rewrite ?length_app; [rewrite (memcpy_length _ _ _ _ E2); exact Hsize|unfold buffer; cbn [length]; lia| |lia].
    rewrite <- Hfill, Et, Hfill, Hcontent. reflexivity.
Qed.

Lemma nmea_loop_bytes fuel : forall buffer acc s d acc' d', (length buffer <= fuel)%nat -> nmea_holds acc s ->
  nmea_bytes buffer acc d = Some (acc', d') -> exists n s', nmea_loop fuel buffer s d = Some (n, s', d') /\ nmea_holds acc' s'.
Proof.
  induction fuel as [|fuel IH]; intros buffer acc s d acc' d' Hf Hs Hb;
    (destruct buffer as [|b0 r0]; [injection Hb as <- <-; do 2 eexists; split; [reflexivity|exact Hs]|]); [cbn in Hf; lia|].
  assert (Hne : b0 :: r0 <> []) by discriminate. set (buffer := b0 :: r0) in *.
  destruct acc as [|a acc].
  - destruct (split_at DOLLAR buffer) as [[junk rest]|] eqn:E.
    + pose proof (junk_skipped _ _ _ E) as (Hd & p & Hbuf & Hp).
      assert (Hb' : nmea_bytes (DOLLAR :: rest) [] d = Some (acc', d')).
      { rewrite Hbuf, nmea_bytes_app, nmea_junk in Hb by auto. exact Hb. }
      assert (Hlen : (length (DOLLAR :: rest) <= length buffer)%nat) by (rewrite Hbuf, length_app; lia).
      destruct (nmea_loop_line fuel [] (DOLLAR :: rest) s d acc' d' Hs ltac:(discriminate) ltac:(eauto) Hb') as (n & s' & El & Hs').
      { intros rest' s1 d1 Hl H1 H2. apply (IH rest' []); [cbn [length] in *; lia|exact H1|exact H2]. }
      exists n, s'. split; [|exact Hs']. rewrite <- El. unfold buffer. cbn [nmea_loop]. fold buffer.
      rewrite (nmea_fill _ _ Hs). cbn [length Nat.eqb]. rewrite E. cbn [mbind option_bind split_at]. rewrite Hd, Z.eqb_refl. reflexivity.
    + assert (Hj : DOLLAR ∉ buffer) by (apply split_at_none; exact E). rewrite nmea_junk in Hb by auto. injection Hb as <- <-.
      do 2 eexists. split; [|exact Hs]. unfold buffer. cbn [nmea_loop]. fold buffer. rewrite (nmea_fill _ _ Hs). cbn [length Nat.eqb].
      rewrite E. reflexivity.
  - apply (nmea_loop_line fuel (a :: acc) buffer s d acc' d' Hs Hne); [discriminate|exact Hb|].
    intros rest s1 d1 Hl H1 H2. apply (IH rest []); [unfold buffer in *; cbn [length] in *; lia|exact H1|exact H2].
Qed.
Lemma nmea_chunks_bytes chunks : forall acc s d acc' d', nmea_holds acc s -> nmea_bytes (concat chunks) acc d = Some (acc', d') ->
  exists s', nmea_chunks chunks s d = Some (s', d') /\ nmea_holds acc' s'.
Proof.
  induction chunks as [|c chunks IH]; intros acc s d acc' d' Hs Hb; cbn [concat nmea_chunks] in *.
  - injection Hb as <- <-. eauto.
  - rewrite nmea_bytes_app in Hb. destruct (nmea_bytes c acc d) as [[acc1 d1]|] eqn:E1; [|discriminate]. cbn [mbind option_bind] in Hb.
    destruct (nmea_loop_bytes (length c) c acc s d acc1 d1 ltac:(lia) Hs E1) as (n & s1 & E & Hs1).
    unfold nmea_ProcessBytes. rewrite E. cbn [mbind option_bind]. eapply IH; eauto.
Qed.
End Lines.

(** ** Sentences *)
(** The kinds of sentence the driver tells apart. *)
Inductive sentence := GGA | RMC | GSA | GST | INVALID | OTHER.
(** minmea, as the driver uses it: a parser per sentence, over a line, and conversions of its
    fixed-point numbers, dates and times. The records hold the members the driver reads. *)
Record sentence_gga (F : Type) := mkGga { gga_latitude : F; gga_longitude : F; gga_altitude : F; gga_fix_quality : Z; satellites_tracked : Z }.
Record sentence_rmc (F T : Type) := mkRmc { rmc_latitude : F; rmc_longitude : F; rmc_speed : F; rmc_course : F; rmc_time : T }.
Record sentence_gst (F : Type) := mkGst { latitude_error : F; longitude_error : F; altitude_error : F }.
Arguments mkGga {F}. Arguments gga_latitude {F}. Arguments gga_longitude {F}. Arguments gga_altitude {F}. Arguments gga_fix_quality {F}. Arguments satellites_tracked {F}.
Arguments mkRmc {F T}. Arguments rmc_latitude {F T}. Arguments rmc_longitude {F T}. Arguments rmc_speed {F T}. Arguments rmc_course {F T}. Arguments rmc_time {F T}.
Arguments mkGst {F}. Arguments latitude_error {F}. Arguments longitude_error {F}. Arguments altitude_error {F}.
Class Minmea := {
  minmea_float : Type; minmea_datetime : Type;
  minmea_sentence_id : list Z -> sentence;
  minmea_parse_gga : list Z -> option (sentence_gga minmea_float);
  minmea_parse_rmc : list Z -> option (sentence_rmc minmea_float minmea_datetime);
  minmea_parse_gsa : list Z -> option Z;
  minmea_parse_gst : list Z -> option (sentence_gst minmea_float);
  minmea_tocoord : minmea_float -> f64; minmea_tofloat : minmea_float -> f64;
  minmea_gettime : minmea_datetime -> option Z;
  libm_sin : f64 -> f64; libm_cos : f64 -> f64 }.

(* @ nmea_gps_driver.h:30-30 NmeaGpsDriver *)
Record nmea_gps := mkNmeaGps { nmea_driver : GpsDriver; fix_quality : Z }.
#[export] Instance eta_nmea_gps : Eta nmea_gps := fun s => mkNmeaGps (nmea_driver s) (fix_quality s).
#[export] Instance eta_GpsState : Eta GpsState := fun s =>
  mkGpsState (sensor_time s) (received_time s) (position_valid s) (position_h_accuracy s) (position_v_accuracy s)
    (pos_lat s) (pos_lon s) (pos_height s) (motion_heading_valid s) (vel_e s) (vel_n s) (vel_u s)
    (motion_heading_accuracy s) (motion_heading s) (vehicle_heading_valid s) (vehicle_heading_accuracy s) (vehicle_heading s)
    (fix_type s) (rtk_type s) (num_sv s).
Definition initial_gps : nmea_gps := mkNmeaGps (mkGpsDriver zero_gps false []) 0.
Definition on_state (f : GpsState -> GpsState) (s : nmea_gps) : nmea_gps := s <| nmea_driver ::= fun g => g <| gps_state_ ::= f |> |>.

(* @ nmea_gps_driver.cpp NmeaGpsDriver::UpdateGpsStateValidity *)
Definition UpdateGpsStateValidity (s : nmea_gps) : nmea_gps :=
  let valid := match fix_type (gps_state_ (nmea_driver s)) with FIX_2D | FIX_3D => negb (fix_quality s =? 0) | _ => false end in
  s <| nmea_driver ::= fun g => g <| gps_state_valid_ := valid |> |>.
Definition trigger (s : nmea_gps) : nmea_gps := s <| nmea_driver ::= TriggerStateCallback |>.

Section Sentences.
Context `{Minmea}.
(** Sums and squares of the deviations are in [float]. *)
Definition fsqrt : f32 -> f32 := SFsqrt 24 128.
(** The knot in metres per second. *)
Definition KNOT : f64 := ddiv (d_of_Z 514444) (d_of_Z 1000000).

(* @ nmea_gps_driver.cpp:84-108 NmeaGpsDriver::ProcessLine (GGA) *)
Definition process_gga (gga : sentence_gga minmea_float) (s : nmea_gps) : nmea_gps :=
  let rtk := match gga_fix_quality gga with 5 => RTK_FLOAT | 4 => RTK_FIX | _ => RTK_NONE end in
  let s := on_state (fun st => st <| pos_lat := minmea_tocoord (gga_latitude gga) |> <| pos_lon := minmea_tocoord (gga_longitude gga) |>
    <| pos_height := minmea_tofloat (gga_altitude gga) |> <| position_valid := true |> <| rtk_type := rtk |>
    <| num_sv := u8 (satellites_tracked gga) |>) s in
  trigger (UpdateGpsStateValidity (s <| fix_quality := gga_fix_quality gga |>)).
(* @ nmea_gps_driver.cpp:110-137 NmeaGpsDriver::ProcessLine (RMC) *)
Definition process_rmc (rmc : sentence_rmc minmea_float minmea_datetime) (tv_sec : Z) (s : nmea_gps) : nmea_gps :=
  let speed := dmul (minmea_tofloat (rmc_speed rmc)) KNOT in
  let angle_rad := ddiv (dmul (minmea_tofloat (rmc_course rmc)) M_PI) (d_of_Z 180) in
  trigger (on_state (fun st => st <| sensor_time := u32 tv_sec |> <| received_time := u32 tv_sec |>
    <| pos_lat := minmea_tocoord (rmc_latitude rmc) |> <| pos_lon := minmea_tocoord (rmc_longitude rmc) |> <| position_valid := true |>
    <| vel_e := dmul (libm_sin angle_rad) speed |> <| vel_n := dmul (libm_cos angle_rad) speed |> <| vel_u := d0 |>
    <| motion_heading_valid := true |> <| vehicle_heading_valid := false |>) s).
(* @ nmea_gps_driver.cpp:139-154 NmeaGpsDriver::ProcessLine (GSA) *)
Definition process_gsa (gsa_fix_type : Z) (s : nmea_gps) : nmea_gps :=
  let dim := match gsa_fix_type with 2 => FIX_2D | 3 => FIX_3D | _ => NO_FIX end in
  trigger (UpdateGpsStateValidity (on_state (fun st => st <| fix_type := dim |>) s)).
(* @ nmea_gps_driver.cpp:156-171 NmeaGpsDriver::ProcessLine (GST) *)
Definition process_gst (gst : sentence_gst minmea_float) (s : nmea_gps) : nmea_gps :=
  let lat_std := f_of_f64 (minmea_tofloat (latitude_error gst)) in
  let lon_std := f_of_f64 (minmea_tofloat (longitude_error gst)) in
  let alt_std := f_of_f64 (minmea_tofloat (altitude_error gst)) in
  trigger (on_state (fun st => st
    <| position_h_accuracy := d_of_f32 (fsqrt (fadd (fmul lat_std lat_std) (fmul lon_std lon_std))) |>
    <| position_v_accuracy := d_of_f32 alt_std |>) s).
(* @ nmea_gps_driver.cpp NmeaGpsDriver::ProcessLine *)
Definition nmea_ProcessLine (line : list Z) (s : nmea_gps) : bool * nmea_gps :=
  match minmea_sentence_id line with
  | GGA => match minmea_parse_gga line with Some gga => (true, process_gga gga s) | None => (false, s) end
  | RMC => match minmea_parse_rmc line with
           | Some rmc => match minmea_gettime (rmc_time rmc) with Some t => (true, process_rmc rmc t s) | None => (false, s) end
           | None => (false, s)
           end
  | GSA => match minmea_parse_gsa line with Some dim => (true, process_gsa dim s) | None => (false, s) end
  | GST => match minmea_parse_gst line with Some gst => (true, process_gst gst s) | None => (false, s) end
  | INVALID => (false, s)
  | OTHER => (true, s)
  end.

(** The state is valid exactly with a fix in two or three dimensions and a position fix, after
    any sentences; a refused line changes nothing. *)
Definition validity_ok (s : nmea_gps) : Prop :=
  gps_state_valid_ (nmea_driver s) = match fix_type (gps_state_ (nmea_driver s)) with FIX_2D | FIX_3D => negb (fix_quality s =? 0) | _ => false end.
Lemma ProcessLine_validity line s : validity_ok s -> validity_ok (nmea_ProcessLine line s).2 /\ ((nmea_ProcessLine line s).1 = false -> (nmea_ProcessLine line s).2 = s).
Proof.
  intros Hs. unfold nmea_ProcessLine. repeat match goal with |- context [match ?x with _ => _ end] => destruct x end;
    cbn [fst snd]; (split; [try exact Hs; unfold validity_ok in *; cbn; try reflexivity; exact Hs|intros; congruence]).
Qed.
End Sentences.

(** ** The stream *)
(** A line a receiver sends: a dollar sign, at most 509 bytes without a newline, a newline. *)
Definition nmea_sentence (l : list Z) : Prop := exists body, l = DOLLAR :: body ++ [NEWLINE] /\ (NEWLINE ∉ body) /\ (length body <= 509)%nat.
(** Each line with what precedes it. *)
Definition stream (ls : list (list Z * list Z)) : list Z := concat (map (fun x => x.1 ++ x.2) ls).

Lemma stream_bytes {D} (ProcessLine : list Z -> D -> bool * D) ls tail d :
  Forall (fun x => (DOLLAR ∉ x.1) /\ nmea_sentence x.2) ls -> DOLLAR ∉ tail ->
  nmea_bytes ProcessLine (stream ls ++ tail) [] d = Some ([], fold_left (fun d l => (ProcessLine (c_string l) d).2) (map snd ls) d).
Proof.
  intros Hls Ht. revert d. induction Hls as [|[noise l] ls Hx Hls IH]; intros d.
  - cbn. apply nmea_junk; auto.
  - cbn [fst snd] in Hx. destruct Hx as [Hn (body & -> & Hb & Hlen)]. unfold stream. cbn [map concat fst snd fold_left]. fold (stream ls). rewrite <- !app_assoc.
    rewrite nmea_bytes_app, nmea_junk by auto. cbn [mbind option_bind].
    rewrite <- app_comm_cons. cbn [nmea_bytes nmea_byte]. rewrite Z.eqb_refl. cbn [mbind option_bind]. rewrite <- app_assoc. cbn [app].
    rewrite nmea_line by (discriminate || exact Hb || (cbn; lia)). cbn [length].
    destruct (Nat.leb_spec (1 + length body) 510); [|lia]. apply IH.
Qed.

(** C26. NMEA reception. The lines are sentences that fit the line buffer of 512 bytes (NMEA's have at most 82).
    However their stream, with any noise free of dollar signs between them, is cut into buffers, the driver takes it without leaving its line buffer; it processes
    each line once, in order, and nothing else, and is then ready for the next. *)
Theorem nmea_lines_received `{Minmea} ls tail chunks d :
  Forall (fun x => (DOLLAR ∉ x.1) /\ nmea_sentence x.2) ls -> DOLLAR ∉ tail -> concat chunks = stream ls ++ tail ->
  exists s', nmea_chunks nmea_ProcessLine chunks initial_nmea d =
      Some (s', fold_left (fun d l => (nmea_ProcessLine (c_string l) d).2) (map snd ls) d) /\ line_len s' = 0%nat /\ length (line s') = 512%nat.
Proof.
  intros Hls Ht Hc.
  assert (H0 : nmea_holds [] initial_nmea) by (split; cbn; auto; lia).
  destruct (nmea_chunks_bytes nmea_ProcessLine chunks [] initial_nmea d _ _ H0 ltac:(rewrite Hc; apply stream_bytes; eassumption)) as (s' & E & Hs').
  exists s'. split; [exact E|]. split; [exact (nmea_fill _ _ Hs')|exact (nmea_size _ _ Hs')].
Qed.

Module NmeaDemo.
(** A tiny grammar in minmea's place: the second byte tells the sentence, the third its number. *)
#[local] Instance tiny : Minmea := {
  minmea_float := Z; minmea_datetime := Z;
  minmea_sentence_id l := match nth 1 l 0 with 71 => GGA | 83 => GSA | _ => INVALID end;
  minmea_parse_gga l := Some (mkGga 473 95 400 (nth 2 l 0 - 48) 12);
  minmea_parse_rmc l := None; minmea_parse_gsa l := Some (nth 2 l 0 - 48); minmea_parse_gst l := None;
  minmea_tocoord := d_of_Z; minmea_tofloat := d_of_Z; minmea_gettime t := Some t;
  libm_sin x := x; libm_cos x := x }.
Definition gsa3 : list Z := [36; 83; 51; 10].
Definition gga4 : list Z := [36; 71; 52; 10].
Ltac not_in := apply (bool_decide_unpack _); vm_compute; exact I.
(** A three-dimensional fix, then an RTK position, cut in the middle of both lines. *)
Lemma nmea_witness : exists s', nmea_chunks nmea_ProcessLine [[13; 36; 83]; [51; 10; 36]; [71; 52; 10; 13]] initial_nmea initial_gps =
    Some (s', (nmea_ProcessLine gga4 (nmea_ProcessLine gsa3 initial_gps).2).2) /\
  gps_state_valid_ (nmea_driver (nmea_ProcessLine gga4 (nmea_ProcessLine gsa3 initial_gps).2).2) = true.
Proof.
  destruct (nmea_lines_received [([13], gsa3); ([], gga4)] [13] [[13; 36; 83]; [51; 10; 36]; [71; 52; 10; 13]] initial_gps) as (s' & E & _).
  - forall_list ltac:(split; [not_in|eexists [_; _]; split; [reflexivity|split; [not_in|cbn; lia]]]).
  - not_in.
  - reflexivity.
  - exists s'. split; [exact E|reflexivity].
Defined.
(** A line that is never ended, then a good one at the start of a buffer: the driver drops the
    first byte of the buffer, the dollar sign, and loses the good line. With one more byte before
    it, it is received. *)
Example sentence_after_overrun_is_lost :
  let overrun := DOLLAR :: replicate 509 88 in
  let log l d := (true, d ++ [l]) in
  nmea_chunks log [overrun; gga4] initial_nmea [] ≫= (fun r => Some r.2) = Some [] /\
  nmea_chunks log [overrun; 88 :: gga4] initial_nmea [] ≫= (fun r => Some r.2) = Some [gga4].
Proof. vm_compute. split; reflexivity. Qed.
End NmeaDemo.
