(* ===== verification/BoardInfo.v ===== *)
(** The boards' identification: [id_eeprom.c], and which boards each robot under
    [robots/src] accepts.

    What an EEPROM transfer delivers is an input: whether it succeeded, and the bytes. *)
From S2P Require Import Prelude.
From Stdlib Require Import Ascii.

(** ** The record in the EEPROM *)
(* @ id_eeprom.h:26-33 board_info *)
Definition sizeof_board_info : nat := 39.
(** [board_info] and [carrier_board_info] have the same packed layout; a record is its bytes. *)
(* @ id_eeprom.h:37-44 carrier_board_info *)
Definition board_info_version (b : list Z) : Z := nth 0 b 0.
Definition board_id (b : list Z) : list Z := take 32 (drop 1 b).
Definition version_major (b : list Z) : Z := nth 33 b 0.
Definition version_minor (b : list Z) : Z := nth 34 b 0.
Definition version_patch (b : list Z) : Z := nth 35 b 0 + 256 * nth 36 b 0.
Definition checksum_field (b : list Z) : Z := nth 37 b 0 + 256 * nth 38 b 0.

(** [even]: the index of the next byte is even. *)
(* @ id_eeprom.c checksum *)
Fixpoint checksum_from (even : bool) (data : list Z) (sum : Z) : Z :=
  match data with
  | [] => sum
  | x :: data => checksum_from (negb even) data (u16 (Z.lxor sum (if even then x else Z.shiftl x 8)))
  end.
Definition checksum (data : list Z) : Z := checksum_from true data 0.

(** The characters of a literal. *)
Fixpoint chars (s : string) : list Z :=
  match s with EmptyString => [] | String c s => Z.of_nat (nat_of_ascii c) :: chars s end.
(** All zero but for the name "N/A". *)
(* @ id_eeprom.c:64-65 ID_EEPROM_GetBoardInfo (default) *)
Definition not_available : list Z := 0 :: chars "N/A" ++ replicate 35 0.
Definition checksum_ok (b : list Z) : bool := checksum (take 37 b) =? checksum_field b.
(* @ id_eeprom.c ID_EEPROM_GetBoardInfo *)
Definition ID_EEPROM_GetBoardInfo (transfer : bool * list Z) : bool * list Z :=
  let '(success, buffer) := transfer in
  if negb success || negb (checksum (take (sizeof_board_info - 2) buffer) =? checksum_field buffer) then (success, not_available)
  else (success, buffer).
(* @ id_eeprom.c ID_EEPROM_GetCarrierBoardInfo *)
Definition ID_EEPROM_GetCarrierBoardInfo (transfer : bool * list Z) : bool * list Z :=
  let '(success, buffer) := transfer in
  if negb success || negb (checksum (take (sizeof_board_info - 2) buffer) =? checksum_field buffer) then (success, not_available)
  else (success, buffer).
(** The two records after a start. *)
(* @ globals.cpp InitGlobals *)
Definition InitGlobals (board carrier : bool * list Z) : list Z * list Z :=
  ((ID_EEPROM_GetBoardInfo board).2, (ID_EEPROM_GetCarrierBoardInfo carrier).2).
(** A failure leaves the caller's buffer as it was. *)
(* @ id_eeprom.c ID_EEPROM_GetMacAddress *)
Definition ID_EEPROM_GetMacAddress (transfer : bool * list Z) (buf : list Z) : bool * list Z :=
  let '(success, rx) := transfer in (success, if success then take (length buf) rx ++ drop (length rx) buf else buf).

(** ** Which boards a robot accepts *)
(** [strncmp(a, b, n) == 0]; what lies beyond an array is not looked at, since [n] is its size. *)
Fixpoint strncmp_eq (n : nat) (a b : list Z) : bool :=
  match n with
  | O => true
  | S n => let x := nth 0 a 0 in (x =? nth 0 b 0) && ((x =? 0) || strncmp_eq n (tail a) (tail b))
  end.
Definition is_named (name : string) (b : list Z) : bool := strncmp_eq 32 (chars name) (board_id b).
Abbreviation boards := (list Z * list Z)%type.

(** The first batch of universal boards has no working EEPROM. *)
Definition first_batch (upto : list Z -> bool) (i : boards) : bool :=
  let '(board, carrier) := i in
  (board_info_version carrier =? 0) && is_named "N/A" carrier && is_named "xcore" board && upto board.
(* @ worx_robot.cpp:19-20 WorxRobot::IsHardwareSupported *)
Definition upto_1_1_7 (b : list Z) : bool :=
  (version_major b <? 1) || ((version_major b =? 1) && (version_minor b <? 1)) ||
  ((version_major b =? 1) && (version_minor b =? 1) && (version_patch b <=? 7)).
Definition is_1_1_7 (b : list Z) : bool := (version_major b =? 1) && (version_minor b =? 1) && (version_patch b =? 7).
(* @ lyfco_e1600_robot.cpp Lyfco_E1600Robot::IsHardwareSupported *)
Definition lyfco_IsHardwareSupported (i : boards) : bool :=
  if first_batch is_1_1_7 i then true else is_named "hw-openmower-universal" i.2.
(* @ worx_robot.cpp WorxRobot::IsHardwareSupported *)
Definition worx_IsHardwareSupported (i : boards) : bool :=
  if first_batch upto_1_1_7 i then true else is_named "hw-openmower-universal" i.2.
(* @ universal_robot.cpp UniversalRobot::IsHardwareSupported *)
Definition universal_IsHardwareSupported (i : boards) : bool :=
  if first_batch upto_1_1_7 i then true else
  if is_named "hw-openmower-universal" i.2 then true else is_named "hw-module-logic" i.2.
(* @ yardforce_robot.cpp YardForceRobot::IsHardwareSupported *)
Definition yardforce_IsHardwareSupported (i : boards) : bool :=
  if is_named "hw-openmower-yardforce" i.2 && (version_major i.2 =? 1) then true else is_named "hw-xbot-devkit" i.2.
(* @ sabo_robot.cpp SaboRobot::IsHardwareSupported *)
Definition sabo_IsHardwareSupported (i : boards) : bool :=
  is_named "hw-openmower-sabo" i.2 && is_named "xcore" i.1 && (version_major i.1 =? 1) &&
  (version_major i.2 =? 0) && (1 <=? version_minor i.2) && (version_minor i.2 <=? 5).
(* @ xbot_robot.cpp xBotRobot::IsHardwareSupported *)
Definition xbot_IsHardwareSupported (i : boards) : bool := is_named "hw-xbot-mainboard" i.2 && (version_major i.2 =? 0).
(* @ husq_310mkii_robot.cpp husq310MKIIRobot::IsHardwareSupported *)
Definition husq_IsHardwareSupported (i : boards) : bool := is_named "hw-openmower-310mk2" i.2 && (version_major i.2 =? 1).
(** The robots, each built into a firmware of its own. *)
Inductive robot_class := Husq | Lyfco | Sabo | Universal | Worx | XBot | YardForce.
Definition IsHardwareSupported (r : robot_class) : boards -> bool :=
  match r with
  | Husq => husq_IsHardwareSupported | Lyfco => lyfco_IsHardwareSupported | Sabo => sabo_IsHardwareSupported
  | Universal => universal_IsHardwareSupported | Worx => worx_IsHardwareSupported | XBot => xbot_IsHardwareSupported
  | YardForce => yardforce_IsHardwareSupported
  end.

(** ** Damage is noticed *)
Lemma checksum_step_inj s s' v : is_u16 s -> is_u16 s' -> is_u16 v -> u16 (Z.lxor s v) = u16 (Z.lxor s' v) -> s = s'.
Proof.
  intros Hs Hs' Hv E. rewrite !u16_small in E by (apply u16_lxor; assumption).
  rewrite <- (Z.lxor_0_r s), <- (Z.lxor_0_r s'), <- (Z.lxor_nilpotent v), <- !Z.lxor_assoc, E. reflexivity.
Qed.
Lemma contribution_u16 (even : bool) x : is_u8 x -> is_u16 (if even then x else Z.shiftl x 8).
Proof. intros Hx. destruct even; [|rewrite Z.shiftl_mul_pow2 by lia; change (2 ^ 8) with 256]; width. Qed.
Lemma checksum_from_inj data : is_bytes data -> forall even s s', is_u16 s -> is_u16 s' ->
  checksum_from even data s = checksum_from even data s' -> s = s'.
Proof.
  induction 1 as [|x data Hx Hd IH]; intros even s s' Hs Hs' E; [exact E|]. cbn in E. apply IH in E; [|apply u16_range..].
  eapply checksum_step_inj; [exact Hs|exact Hs'| |exact E]. apply contribution_u16, Hx.
Qed.
(** One changed byte changes the checksum. *)
Lemma checksum_insert data : is_bytes data -> forall i x even s, is_u16 s -> is_u8 x -> (i < length data)%nat ->
  checksum_from even (<[i := x]> data) s = checksum_from even data s -> x = nth i data 0.
Proof.
  induction 1 as [|y data Hy Hd IH]; intros i x even s Hs Hx Hi E; cbn in Hi; [lia|]. destruct i as [|i]; cbn in E |- *.
  - apply checksum_from_inj in E; [|assumption|apply u16_range..]. rewrite !(Z.lxor_comm s) in E.
    assert (K : (if even then x else Z.shiftl x 8) = (if even then y else Z.shiftl y 8)).
    { eapply checksum_step_inj; [apply contribution_u16, Hx|apply contribution_u16, Hy|exact Hs|exact E]. }
    destruct even; [exact K|]. rewrite !Z.shiftl_mul_pow2 in K by lia. lia.
  - eapply (IH i x (negb even)); [apply u16_range|exact Hx|lia|exact E].
Qed.

Lemma nth_insert_other (l : list Z) i j x : j <> i -> nth j (<[i := x]> l) 0 = nth j l 0.
Proof. intros H. rewrite !nth_lookup, list_lookup_insert_ne by congruence. reflexivity. Qed.
Lemma nth_insert_same (l : list Z) i x : (i < length l)%nat -> nth i (<[i := x]> l) 0 = x.
Proof. intros H. rewrite nth_lookup, list_lookup_insert_eq by exact H. reflexivity. Qed.
Lemma damaged_checksum b i x : is_bytes b -> length b = 39%nat -> is_u8 x -> (i < 39)%nat -> x <> nth i b 0 ->
  checksum_ok b = true -> checksum_ok (<[i := x]> b) = false.
Proof.
  intros Hb Hl Hx Hi Hne Hok. unfold checksum_ok in *. apply Z.eqb_eq in Hok. apply Z.eqb_neq. unfold checksum_field, checksum in *.
  destruct (Nat.lt_ge_cases i 37) as [Hdata|Hsum].
  - rewrite take_insert_lt, !nth_insert_other by lia. rewrite <- Hok. intros E.
    apply checksum_insert in E; [|apply Forall_take, Hb|width|exact Hx|rewrite length_take; lia].
    rewrite nth_lookup, lookup_take_lt in E by exact Hdata. rewrite nth_lookup in Hne. contradiction.
  - rewrite take_insert_ge by lia. rewrite Hok. assert (is_u8 (nth 37 b 0) /\ is_u8 (nth 38 b 0)) as [B1 B2].
    { split; [destruct (nth_lookup_or_length b 37 0) as [E|E]|destruct (nth_lookup_or_length b 38 0) as [E|E]]; try lia;
        exact (proj1 (Forall_lookup _ _) Hb _ _ E). }
    assert (i = 37 \/ i = 38)%nat as [-> | ->] by lia; rewrite nth_insert_same, nth_insert_other by lia; unfold is_u8 in *; lia.
Qed.

(** A damaged EEPROM does not pass for a board. A record whose checksum is
    right is taken as it is; with any one of its bytes changed, or when the transfer fails, the
    record becomes that of no board; and with no carrier board a robot starts only if
    it is one of the three that allow for the first batch, on an early main board. *)
Theorem damaged_eeprom_is_refused b : is_bytes b -> length b = 39%nat -> checksum_ok b = true ->
  ID_EEPROM_GetCarrierBoardInfo (true, b) = (true, b) /\
  (forall i x, (i < 39)%nat -> is_u8 x -> x <> nth i b 0 -> ID_EEPROM_GetCarrierBoardInfo (true, <[i := x]> b) = (true, not_available)) /\
  (forall junk, ID_EEPROM_GetCarrierBoardInfo (false, junk) = (false, not_available)) /\
  forall r board, IsHardwareSupported r (board, not_available) = true ->
    (r = Lyfco \/ r = Universal \/ r = Worx) /\ is_named "xcore" board = true /\ upto_1_1_7 board = true.
Proof.
  intros Hb Hl Hok. split; [|split; [|split; [reflexivity|]]].
  - unfold ID_EEPROM_GetCarrierBoardInfo. unfold checksum_ok in Hok. change (sizeof_board_info - 2)%nat with 37%nat. rewrite Hok. reflexivity.
  - intros i x Hi Hx Hne. pose proof (damaged_checksum b i x Hb Hl Hx Hi Hne Hok) as Hbad. unfold checksum_ok in Hbad.
    unfold ID_EEPROM_GetCarrierBoardInfo. change (sizeof_board_info - 2)%nat with 37%nat. rewrite Hbad. reflexivity.
  - intros r board Hr. assert (Hfirst : forall upto, (forall c, upto c = true -> upto_1_1_7 c = true) -> first_batch upto (board, not_available) = true ->
      is_named "xcore" board = true /\ upto_1_1_7 board = true).
    { intros upto Hu Hf. unfold first_batch in Hf. apply andb_prop in Hf as [Hf U]. apply andb_prop in Hf as [_ Hn]. auto. }
    destruct r; try discriminate Hr; (split; [auto|]).
    + apply (Hfirst is_1_1_7); [unfold is_1_1_7, upto_1_1_7; intros; lia|]. unfold IsHardwareSupported, lyfco_IsHardwareSupported in Hr.
      destruct (first_batch _ _); [reflexivity|discriminate Hr].
    + apply (Hfirst upto_1_1_7); [auto|]. unfold IsHardwareSupported, universal_IsHardwareSupported in Hr.
      destruct (first_batch _ _); [reflexivity|discriminate Hr].
    + apply (Hfirst upto_1_1_7); [auto|]. unfold IsHardwareSupported, worx_IsHardwareSupported in Hr.
      destruct (first_batch _ _); [reflexivity|discriminate Hr].
Qed.

(** ** A YardForce carrier board *)
Module BoardDemo.
(** A board of version 1.2.3, and its checksum. *)
Definition carrier : list Z :=
  1 :: chars "hw-openmower-yardforce" ++ replicate 10 0 ++ [1; 2; 3; 0].
Definition checked : list Z :=
  carrier ++ [checksum carrier mod 256; checksum carrier / 256].
Example checked_board : (checksum_ok checked, yardforce_IsHardwareSupported (not_available, checked), universal_IsHardwareSupported (not_available, checked)) = (true, true, false).
Proof. vm_compute. reflexivity. Qed.
Lemma damaged_witness : ID_EEPROM_GetCarrierBoardInfo (true, <[1%nat := 0x48]> checked) = (true, not_available) /\
  IsHardwareSupported YardForce (not_available, not_available) = false.
Proof.
  destruct (damaged_eeprom_is_refused checked) as (_ & H & _ & Hr).
  - apply (bool_decide_unpack _). vm_compute. exact I.
  - reflexivity.
  - vm_compute. reflexivity.
  - split; [apply H; [lia|vm_compute; intuition congruence|vm_compute; discriminate]|].
    destruct (IsHardwareSupported YardForce _) eqn:E; [|reflexivity]. destruct (Hr _ _ E) as [[?|[?|?]] _]; discriminate.
Defined.
End BoardDemo.
