(* ===== verification/Diagnostics.v ===== *)
(** The network services for testing and discovery: the checksum test ([debug/checksum_test_interface.cpp]), the
    bootloader's discovery ([boot_service_discovery.cpp]) and the raw access to drivers over TCP and UDP
    ([debug/debug_tcp_interface.cpp], [debug/debug_udp_interface.cpp]). Sockets are lwIP's: what they receive is an input. *)
From S2P Require Import Prelude Crc BoardInfo.

(** ** The checksum test *)
(* @ checksum_test_interface.cpp:22-22 kTestMagic *)
Definition kTestMagic : Z := 0x54534554.
(* @ checksum_test_interface.cpp:23-23 kReplyMagic *)
Definition kReplyMagic : Z := 0x504C5052.
(** The 16 bytes of a header. *)
(* @ checksum_test_interface.cpp:25-30 TestHeader *)
Record TestHeader := mkTestHeader { magic : Z; test_id : Z; declared_len : Z; crc32 : Z }.
Definition header_size : nat := 16.
(* @ checksum_test_interface.cpp:40-46 Verdict *)
Inductive Verdict := VERDICT_OK | VERDICT_BAD_MAGIC | VERDICT_LEN_MISMATCH | VERDICT_CRC_MISMATCH | VERDICT_TOO_SHORT.
#[export] Instance Verdict_eq : EqDecision Verdict.
Proof. solve_decision. Defined.
(* @ checksum_test_interface.cpp:32-38 ReplyHeader *)
Record ReplyHeader := mkReplyHeader { reply_magic : Z; reply_test_id : Z; verdict : Verdict; received_total_len : Z; computed_crc : Z }.
Definition word (i : nat) (l : list Z) : Z := le_int (take 4 (drop (4 * i) l)).
(* @ checksum_test_interface.cpp:122-123 ChecksumTestThread (header) *)
Definition parse_header (datagram : list Z) : TestHeader := mkTestHeader (word 0 datagram) (word 1 datagram) (word 2 datagram) (word 3 datagram).
(** The bytes before the checksum's field and those after the header. *)
Definition covered (datagram : list Z) : list Z := take 12 datagram ++ drop header_size datagram.
(* @ checksum_test_interface.cpp:129-132 ChecksumTestThread (checksum) *)
Definition packet_crc (datagram : list Z) : Z := u32 (Z.lnot (Crc32Feed (Crc32Feed 0xFFFFFFFF (take 12 datagram)) (drop header_size datagram))).
(** What is answered to a datagram; the verdict is sent as its number. *)
(* @ checksum_test_interface.cpp:114-144 ChecksumTestThread *)
Definition checksum_reply (datagram : list Z) : ReplyHeader :=
  let reply := mkReplyHeader kReplyMagic 0 VERDICT_TOO_SHORT (Z.of_nat (length datagram)) 0 in
  if (header_size <=? length datagram)%nat then
    let hdr := parse_header datagram in
    let payload_len := Z.of_nat (length datagram - header_size) in
    let crc := packet_crc datagram in
    mkReplyHeader kReplyMagic (test_id hdr)
      (if negb (magic hdr =? kTestMagic) then VERDICT_BAD_MAGIC
       else if negb (declared_len hdr =? payload_len) then VERDICT_LEN_MISMATCH
       else if negb (crc32 hdr =? crc) then VERDICT_CRC_MISMATCH else VERDICT_OK)
      (Z.of_nat (length datagram)) crc
  else reply.

(* @ checksum_test_interface.cpp:41-45 Verdict (numbers) *)
Definition verdict_num (v : Verdict) : Z :=
  match v with VERDICT_OK => 0 | VERDICT_BAD_MAGIC => 1 | VERDICT_LEN_MISMATCH => 2 | VERDICT_CRC_MISMATCH => 3 | VERDICT_TOO_SHORT => 4 end.
(** The answer as it is sent. *)
(* @ checksum_test_interface.cpp:148-148 ChecksumTestThread (answer) *)
Definition reply_bytes (r : ReplyHeader) : list Z :=
  le_bytes 4 (reply_magic r) ++ le_bytes 4 (reply_test_id r) ++ le_bytes 4 (verdict_num (verdict r)) ++ le_bytes 4 (received_total_len r) ++ le_bytes 4 (computed_crc r).

(** ** Discovery *)
Inductive discovery_action := ResetToBootloader | Advertise | Ignore.
(** The request's buffer has 100 bytes, of which the last stays for the terminator. *)
(* @ boot_service_discovery.cpp:70-86 multicast_sender_thread *)
Definition discovery_request (received : list Z) : discovery_action :=
  match received with
  | [] => Ignore
  | _ =>
    if strncmp_eq 100 (received ++ [0]) (chars "RESET") then ResetToBootloader
    else if strncmp_eq 100 (received ++ [0]) (chars "DISCOVER_REQUEST") then Advertise else Ignore
  end.

(** ** Raw access *)
(** What reaches the driver and the network. *)
Inductive debug_event := SetRawMode (enabled : bool) | RawDataInput (data : list Z) | Write (socket : Z) (data : list Z) | Close (socket : Z).
(** A driver's raw mode, and whether it has a callback for its output. *)
(* @ debuggable_driver.hpp:32-34 DebuggableDriver *)
Record debuggable := mkDebuggable { is_raw_mode_ : bool; raw_data_callback_ : bool }.
#[export] Instance eta_debuggable : Eta debuggable := fun d => mkDebuggable (is_raw_mode_ d) (raw_data_callback_ d).
(* @ debuggable_driver.cpp DebuggableDriver::SetRawAccessMode *)
Definition SetRawAccessMode (enabled : bool) (d : debuggable) : debuggable := d <| is_raw_mode_ := enabled |>.
(* @ debuggable_driver.cpp DebuggableDriver::SetRawDataCallback *)
Definition SetRawDataCallback (d : debuggable) : debuggable := d <| raw_data_callback_ := true |>.
(* @ debuggable_driver.cpp DebuggableDriver::RawDataOutput *)
Definition RawDataOutput (callback : list Z -> list debug_event) (data : list Z) (d : debuggable) : list debug_event :=
  if raw_data_callback_ d then callback data else [].
(** The TCP server with its driver. *)
(* @ debug_tcp_interface.hpp:21-25 DebugTCPInterface *)
Record tcp := mkTcp { current_client_socket_ : Z; driver_ : debuggable }.
#[export] Instance eta_tcp : Eta tcp := fun s => mkTcp (current_client_socket_ s) (driver_ s).
Definition tcp_buffer_size : nat := 1024.
(** A read's result: some bytes, none at the end of the stream, or -1. *)
Inductive read_result := Bytes (data : list Z) | Failed.
(** The reads of a client. The result is kept as a [size_t]: -1 is positive, and the driver is given more than the
    buffer has, [None]. What is left of the results belongs to the next client. *)
(* @ debug_tcp_interface.cpp:72-75 DebugTCPInterface::ThreadFunc (reads) *)
Fixpoint read_client (reads : list read_result) : option (list debug_event * list read_result) :=
  match reads with
  | [] => Some ([], [])
  | Bytes [] :: reads => Some ([], reads)
  | Bytes data :: reads => '(o, reads) ← read_client reads; Some (RawDataInput data :: o, reads)
  | Failed :: _ => None
  end.
(** A client, from the acceptance of its connection on. *)
(* @ debug_tcp_interface.cpp:53-84 DebugTCPInterface::ThreadFunc (client) *)
Definition tcp_client (incoming : Z) (nodelay : bool) (reads : list read_result) (s : tcp) : option (list debug_event * list read_result * tcp) :=
  if incoming <? 0 then Some ([], reads, s)
  else if negb nodelay then Some ([Close incoming], reads, s)
  else
    let s := s <| current_client_socket_ := incoming |> <| driver_ ::= SetRawAccessMode true |> in
    '(o, reads) ← read_client reads;
    let s := s <| driver_ ::= SetRawAccessMode false |> <| current_client_socket_ := -1 |> in
    Some (SetRawMode true :: o ++ [SetRawMode false; Close incoming], reads, s).
(* @ debug_tcp_interface.cpp DebugTCPInterface::OnRawDriverData *)
Definition tcp_OnRawDriverData (s : tcp) (data : list Z) : list debug_event :=
  if 0 <=? current_client_socket_ s then [Write (current_client_socket_ s) data] else [].
(** The UDP server; what it sends goes to an address and a port. *)
(* @ debug_udp_interface.hpp:22-27 DebugUDPInterface *)
Record udp := mkUdp { udp_socket : Z; target_ip_ : Z; target_port_ : Z; udp_driver : debuggable }.
#[export] Instance eta_udp : Eta udp := fun s => mkUdp (udp_socket s) (target_ip_ s) (target_port_ s) (udp_driver s).
(* @ debug_udp_interface.cpp:51-61 DebugUDPInterface::ThreadFunc *)
Definition udp_receive (ip port : Z) (data : list Z) (s : udp) : list debug_event * udp :=
  match data with
  | [] => ([], s)
  | _ => ([SetRawMode true; RawDataInput data], s <| udp_driver ::= SetRawAccessMode true |> <| target_ip_ := ip |> <| target_port_ := port |>)
  end.
(** With the address and the port the datagram goes to. *)
(* @ debug_udp_interface.cpp DebugUDPInterface::OnRawDriverData *)
Definition udp_OnRawDriverData (s : udp) (data : list Z) : option (Z * Z * list Z) :=
  if (0 <=? udp_socket s) && (0 <? target_ip_ s) && (0 <? target_port_ s) then Some (target_ip_ s, target_port_ s, data) else None.

(** ** The checksum finds bursts *)
Definition crc32_poly : Z := 3988292384.
Lemma crc32_bit_odd c : crc32_bit c = if Z.odd c then Z.lxor (Z.shiftr c 1) crc32_poly else Z.shiftr c 1.
Proof.
  unfold crc32_bit. replace (Z.land c 1) with (Z.b2z (Z.odd c)) by (change 1 with (Z.ones 1) at 1; rewrite Z.land_ones, <- Z.bit0_mod, Z.bit0_odd by lia; reflexivity).
  destruct (Z.odd c); [reflexivity|]. apply Z.lxor_0_r.
Qed.
Lemma u32_testbit z : is_u32 z <-> 0 <= z /\ forall n, 32 <= n -> Z.testbit z n = false.
Proof.
  unfold is_u32. split.
  - intros H. split; [lia|]. intros n Hn. apply Z.bits_above_log2; [lia|]. destruct (decide (z = 0)) as [->|]; [cbn; lia|].
    apply Z.log2_lt_pow2; [lia|]. apply Z.lt_le_trans with (2 ^ 32); [lia|]. apply Z.pow_le_mono_r; lia.
  - intros [H0 H]. split; [exact H0|]. replace z with (z mod 2 ^ 32); [apply (Z.mod_pos_bound z (2 ^ 32)); lia|].
    apply Z.bits_inj'. intros n Hn. destruct (Z.ltb_spec n 32); [apply Z.mod_pow2_bits_low; lia|]. rewrite Z.mod_pow2_bits_high, H by lia. reflexivity.
Qed.
Lemma crc32_bit_u32 c : is_u32 c -> is_u32 (crc32_bit c).
Proof.
  intros H. assert (S : is_u32 (Z.shiftr c 1)) by (unfold is_u32 in *; rewrite Z.shiftr_div_pow2 by lia; split; [apply Z.div_pos; lia|apply Z.div_lt_upper_bound; lia]).
  rewrite crc32_bit_odd. destruct (Z.odd c); [apply u32_lxor; [exact S|unfold is_u32, crc32_poly; lia]|exact S].
Qed.
(** The top bit of the result is the bit shifted out, so nothing is lost. *)
Lemma crc32_bit_top c : is_u32 c -> Z.testbit (crc32_bit c) 31 = Z.odd c.
Proof.
  intros H. apply u32_testbit in H as [_ H]. rewrite crc32_bit_odd. destruct (Z.odd c); rewrite ?Z.lxor_spec, Z.shiftr_spec, H by lia; reflexivity.
Qed.
Lemma crc32_bit_inj a b : is_u32 a -> is_u32 b -> crc32_bit a = crc32_bit b -> a = b.
Proof.
  intros Ha Hb E. assert (O : Z.odd a = Z.odd b) by (rewrite <- !crc32_bit_top, E by assumption; reflexivity).
  assert (S : Z.shiftr a 1 = Z.shiftr b 1).
  { rewrite !crc32_bit_odd, O in E. destruct (Z.odd b); [|exact E]. apply (f_equal (Z.lxor crc32_poly)) in E.
    rewrite <- !(Z.lxor_comm crc32_poly), <- !Z.lxor_assoc, Z.lxor_nilpotent, !Z.lxor_0_l in E. exact E. }
  apply Z.bits_inj'. intros n Hn. destruct (decide (n = 0)) as [->|]; [rewrite !Z.bit0_odd; exact O|].
  replace n with (n - 1 + 1) by lia. rewrite <- !Z.shiftr_spec by lia. rewrite S. reflexivity.
Qed.
Lemma iter_bit_u32 n c : is_u32 c -> is_u32 (Nat.iter n crc32_bit c).
Proof. intros H. induction n as [|n IH]; [exact H|]. rewrite Nat.iter_succ. apply crc32_bit_u32, IH. Qed.
Lemma iter_bit_inj n a b : is_u32 a -> is_u32 b -> Nat.iter n crc32_bit a = Nat.iter n crc32_bit b -> a = b.
Proof.
  intros Ha Hb. induction n as [|n IH]; [auto|]. rewrite !Nat.iter_succ. intros E. apply IH, crc32_bit_inj; [apply iter_bit_u32, Ha|apply iter_bit_u32, Hb|exact E].
Qed.
Lemma lxor_inj a b c : Z.lxor a b = Z.lxor a c -> b = c.
Proof. intros E. apply (f_equal (Z.lxor a)) in E. rewrite <- !Z.lxor_assoc, Z.lxor_nilpotent, !Z.lxor_0_l in E. exact E. Qed.
(** Bits that are not reached are only shifted. *)
Lemma iter_bit_shift n x y : Nat.iter n crc32_bit (Z.lxor x (Z.shiftl y (Z.of_nat n))) = Z.lxor (Nat.iter n crc32_bit x) y.
Proof.
  revert x y. induction n as [|n IH]; intros x y; [rewrite Z.shiftl_0_r; reflexivity|]. rewrite !Nat.iter_succ_r.
  rewrite <- IH. f_equal. assert (O : Z.odd (Z.lxor x (Z.shiftl y (Z.of_nat (Datatypes.S n)))) = Z.odd x).
  { rewrite <- !Z.bit0_odd, Z.lxor_spec, Z.shiftl_spec_low by lia. apply xorb_false_r. }
  rewrite !crc32_bit_odd, O, Z.shiftr_lxor. replace (Z.shiftr (Z.shiftl y _) 1) with (Z.shiftl y (Z.of_nat n)).
  2:{ rewrite Z.shiftr_shiftl_l by lia. f_equal. lia. }
  destruct (Z.odd x); [|reflexivity]. rewrite !Z.lxor_assoc. f_equal. apply Z.lxor_comm.
Qed.
Lemma u8_u32 b : is_u8 b -> is_u32 b.
Proof. unfold is_u8, is_u32. lia. Qed.
Lemma feed_cons c b l : Crc32Feed c (b :: l) = Crc32Feed (Nat.iter 8 crc32_bit (Z.lxor c b)) l.
Proof. reflexivity. Qed.
Lemma feed_app c l1 l2 : Crc32Feed c (l1 ++ l2) = Crc32Feed (Crc32Feed c l1) l2.
Proof. apply fold_left_app. Qed.
Lemma feed_u32 l : forall c, is_u32 c -> is_bytes l -> is_u32 (Crc32Feed c l).
Proof.
  induction l as [|b l IH]; intros c Hc H; [exact Hc|]. inversion H; subst. rewrite feed_cons. apply IH; [|assumption].
  apply iter_bit_u32, u32_lxor; [exact Hc|apply u8_u32; assumption].
Qed.
(** The register tells its value before the same bytes. *)
Lemma feed_inj l : forall a b, is_u32 a -> is_u32 b -> is_bytes l -> Crc32Feed a l = Crc32Feed b l -> a = b.
Proof.
  induction l as [|x l IH]; intros a b Ha Hb H E; [exact E|]. inversion H as [|? ? Hx Hl]; subst. rewrite !feed_cons in E. apply u8_u32 in Hx.
  assert (K : forall c, is_u32 c -> is_u32 (Z.lxor c x)) by (intros c Hc; apply u32_lxor; assumption).
  apply IH in E; [|apply iter_bit_u32, K; assumption..|exact Hl]. apply iter_bit_inj in E; [|apply K; assumption..].
  rewrite !(Z.lxor_comm _ x) in E. apply lxor_inj in E. exact E.
Qed.
(** Up to four bytes are shifted in as one word. *)
Lemma feed_word l : forall c, is_bytes l -> Crc32Feed c l = Nat.iter (8 * length l) crc32_bit (Z.lxor c (le_int l)).
Proof.
  induction l as [|b l IH]; intros c H; [cbn; rewrite Z.lxor_0_r; reflexivity|]. inversion H as [|? ? Hb Hl]; subst. rewrite feed_cons, IH by exact Hl.
  rewrite <- iter_bit_shift. change (Z.of_nat 8) with 8. replace (8 * length (b :: l))%nat with (8 * length l + 8)%nat by (cbn; lia). rewrite Nat.iter_add. f_equal. f_equal.
  rewrite Z.lxor_assoc. f_equal. cbn [le_int]. rewrite Z.shiftl_mul_pow2 by lia. change (2 ^ 8) with 256.
  assert (L : Z.land b (le_int l * 256) = 0).
  { apply Z.bits_inj'. intros n Hn. rewrite Z.land_spec, Z.bits_0. change 256 with (2 ^ 8). destruct (Z.ltb_spec n 8); [rewrite Z.mul_pow2_bits_low by lia; apply andb_false_r|].
    replace (Z.testbit b n) with false; [reflexivity|]. symmetry. unfold is_u8 in Hb. destruct (decide (b = 0)) as [->|]; [apply Z.bits_0|].
    apply Z.bits_above_log2; [lia|]. apply Z.lt_le_trans with 8; [apply Z.log2_lt_pow2; lia|lia]. }
  rewrite <- Z.add_nocarry_lxor by exact L. lia.
Qed.
Lemma le_int_u32 l : is_bytes l -> (length l <= 4)%nat -> is_u32 (le_int l).
Proof.
  intros H L. assert (B : 0 <= le_int l < 256 ^ Z.of_nat (length l)).
  { clear L. induction H as [|b l Hb Hl IH]; [cbn; lia|]. cbn [le_int length]. rewrite Nat2Z.inj_succ, Z.pow_succ_r by lia. unfold is_u8 in Hb. nia. }
  unfold is_u32. assert (256 ^ Z.of_nat (length l) <= 256 ^ 4) by (apply Z.pow_le_mono_r; lia). lia.
Qed.
Lemma feed_burst c pre w w' post : is_u32 c -> is_bytes (pre ++ w ++ post) -> is_bytes w' -> length w = length w' -> (length w <= 4)%nat ->
  Crc32Feed c (pre ++ w ++ post) = Crc32Feed c (pre ++ w' ++ post) -> w = w'.
Proof.
  intros Hc [Hp [Hw Hq]%Forall_app]%Forall_app Hw' L L4 E. rewrite !feed_app in E.
  assert (Hr : is_u32 (Crc32Feed c pre)) by (apply feed_u32; assumption). apply feed_inj in E; [|apply feed_u32; assumption..|exact Hq].
  rewrite (feed_word w), (feed_word w'), L in E by assumption. pose proof (le_int_u32 w Hw L4) as U. pose proof (le_int_u32 w' Hw' ltac:(lia)) as U'.
  apply iter_bit_inj in E; [|apply u32_lxor; assumption..]. apply lxor_inj in E. rewrite <- (le_bytes_int w), <- (le_bytes_int w'), L, E by assumption. reflexivity.
Qed.
Lemma complement_inj a b : is_u32 a -> is_u32 b -> u32 (Z.lnot a) = u32 (Z.lnot b) -> a = b.
Proof.
  intros Ha Hb. assert (C : forall x, is_u32 x -> u32 (Z.lnot x) = 4294967295 - x); [|intros E; rewrite !C in E by assumption; lia].
  intros x Hx. unfold Z.lnot, u32. rewrite <- (Z.mod_add _ 1) by lia. rewrite Z.mod_small; unfold is_u32 in Hx; lia.
Qed.
Lemma packet_crc_covered d : packet_crc d = u32 (Z.lnot (Crc32Feed 0xFFFFFFFF (covered d))).
Proof. unfold packet_crc, covered. rewrite feed_app. reflexivity. Qed.
(** What a datagram that is answered OK has. *)
Lemma verdict_ok d : verdict (checksum_reply d) = VERDICT_OK <->
  (header_size <= length d)%nat /\ word 0 d = kTestMagic /\ word 2 d = Z.of_nat (length d - header_size) /\ word 3 d = packet_crc d.
Proof.
  unfold checksum_reply. destruct (Nat.leb_spec header_size (length d)) as [L|L]; cbn [verdict]; [|split; [discriminate|lia]]. cbn [magic declared_len crc32 parse_header].
  destruct (Z.eqb_spec (word 0 d) kTestMagic); cbn [negb]; [|split; [discriminate|tauto]].
  destruct (Z.eqb_spec (word 2 d) (Z.of_nat (length d - header_size))); cbn [negb]; [|split; [discriminate|tauto]].
  destruct (Z.eqb_spec (word 3 d) (packet_crc d)); cbn [negb]; split; (discriminate || tauto).
Qed.
(** Two datagrams of which one has a burst of up to four bytes' length damaged, in what the checksum covers or in the checksum. *)
Definition damaged (d d' : list Z) : Prop :=
  (word 3 d' = word 3 d /\ exists pre w w' post, covered d = pre ++ w ++ post /\ covered d' = pre ++ w' ++ post /\ length w = length w' /\ (length w <= 4)%nat /\ w <> w') \/
  (covered d' = covered d /\ word 3 d' <> word 3 d).

(** C40. The checksum test finds damage. A datagram is answered OK exactly when it has a whole header, the magic number,
    its payload's length, and the CRC-32 of the header before the checksum and of the payload; an answer repeats the
    test's number and the datagram's length. When a datagram that is answered OK has up to four neighbouring bytes of
    what the checksum covers damaged in any way, or its checksum, it is not answered OK any more, whatever its length. *)
Theorem checksum_test_finds_damage d d' : is_bytes d -> is_bytes d' ->
  (verdict (checksum_reply d) = VERDICT_OK <->
    (16 <= length d)%nat /\ word 0 d = kTestMagic /\ word 2 d = Z.of_nat (length d) - 16 /\ word 3 d = u32 (Z.lnot (Crc32Feed 0xFFFFFFFF (take 12 d ++ drop 16 d)))) /\
  ((16 <= length d)%nat -> reply_test_id (checksum_reply d) = word 1 d) /\ received_total_len (checksum_reply d) = Z.of_nat (length d) /\
  (verdict (checksum_reply d) = VERDICT_OK -> damaged d d' -> verdict (checksum_reply d') <> VERDICT_OK).
Proof.
  intros Hd Hd'. split; [|split; [|split]].
  { rewrite verdict_ok, packet_crc_covered. change header_size with 16%nat. split; intros (L & M & N & C); (split; [exact L|split; [exact M|split; [lia|exact C]]]). }
  { intros L. unfold checksum_reply. change header_size with 16%nat. rewrite (proj2 (Nat.leb_le _ _) L). reflexivity. }
  { unfold checksum_reply. destruct (_ <=? _)%nat; reflexivity. }
  intros (_ & _ & _ & C)%verdict_ok D (_ & _ & _ & C')%verdict_ok. rewrite packet_crc_covered in C, C'.
  assert (B : forall x, is_bytes x -> is_bytes (covered x)) by (intros x Hx; apply Forall_app; split; [apply Forall_take, Hx|apply Forall_drop, Hx]).
  destruct D as [(W & pre & w & w' & post & E & E' & L & L4 & N)|[E N]]; [|rewrite E in C'; congruence].
  rewrite W, C in C'. pose proof (B d Hd) as Hc. pose proof (B d' Hd') as Hc'.
  assert (I : is_u32 0xFFFFFFFF) by (unfold is_u32; lia). apply complement_inj in C'; [|apply feed_u32; assumption..]. rewrite E in C', Hc. rewrite E' in C', Hc'.
  apply N. apply (feed_burst 0xFFFFFFFF pre w w' post); try assumption. apply Forall_app in Hc' as [_ [Hw' _]%Forall_app]. exact Hw'.
Qed.

(** ** The other services *)
Lemma strncmp_reset_prefix n l p : (length p < n)%nat -> Forall (fun b => b <> 0) p -> strncmp_eq n (l ++ [0]) p = true -> exists rest, l ++ [0] = p ++ 0 :: rest.
Proof.
  revert n l. induction p as [|b p IH]; intros n l L F H.
  - destruct n as [|n]; [cbn in L; lia|]. destruct l as [|x l]; [exists []; reflexivity|]. cbn in H. bsimp. subst x. exists (l ++ [0]). reflexivity.
  - destruct n as [|n]; [cbn in L; lia|]. inversion F as [|? ? Hb Hp]; subst. destruct l as [|x l]; cbn in H; bsimp; [destruct b; congruence|].
    subst x. match goal with O : _ || _ = true |- _ => apply orb_prop in O as [|] end; [bsimp; congruence|]. destruct (IH n l) as [rest E]; [cbn in L; lia|exact Hp|assumption|]. exists rest. cbn. rewrite E. reflexivity.
Qed.
(** The board is only reset by a datagram that says so. *)
Lemma reset_is_asked_for l : discovery_request l = ResetToBootloader -> exists rest, l ++ [0] = chars "RESET" ++ 0 :: rest.
Proof.
  unfold discovery_request. destruct l as [|b l]; [discriminate|]. destruct (strncmp_eq 100 _ (chars "RESET")) eqn:E; [intros _|intros H; destruct (strncmp_eq 100 _ (chars "DISCOVER_REQUEST")); discriminate].
  apply (strncmp_reset_prefix 100) in E; [exact E|cbn; lia|]. forall_list ltac:(vm_compute; discriminate).
Qed.
(** A client's bytes reach the driver in order and within raw mode, which is left with its connection. *)
Lemma tcp_client_session incoming datas reads s : 0 <= incoming -> Forall (fun d => d <> []) datas ->
  tcp_client incoming true (map Bytes datas ++ Bytes [] :: reads) s =
    Some (SetRawMode true :: map RawDataInput datas ++ [SetRawMode false; Close incoming], reads, mkTcp (-1) (SetRawAccessMode false (driver_ s))).
Proof.
  intros H F. unfold tcp_client. rewrite (proj2 (Z.ltb_ge _ _)) by exact H. cbn [negb].
  assert (R : read_client (map Bytes datas ++ Bytes [] :: reads) = Some (map RawDataInput datas, reads)).
  { induction F as [|d datas Hd _ IH]; [reflexivity|]. destruct d as [|b d]; [congruence|]. cbn [map app read_client]. rewrite IH. reflexivity. }
  rewrite R. destruct s as [c [r k]]. reflexivity.
Qed.
(** Without a client nothing is written. *)
Lemma tcp_silent_without_client incoming datas reads s : 0 <= incoming -> Forall (fun d => d <> []) datas -> forall o rest s' data,
  tcp_client incoming true (map Bytes datas ++ Bytes [] :: reads) s = Some (o, rest, s') -> tcp_OnRawDriverData s' data = [] /\ is_raw_mode_ (driver_ s') = false.
Proof. intros H F o rest s' data. rewrite tcp_client_session by assumption. intros [= <- <- <-]. split; reflexivity. Qed.
(** The UDP server never leaves raw mode, and answers the one who wrote last. *)
Lemma udp_stays_raw ip port data s : data <> [] -> 0 < ip -> 0 < port -> 0 <= udp_socket s ->
  is_raw_mode_ (udp_driver (udp_receive ip port data s).2) = true /\ forall answer, udp_OnRawDriverData (udp_receive ip port data s).2 answer = Some (ip, port, answer).
Proof.
  intros N Hi Hp Hs. destruct data as [|b l]; [congruence|]. split; [reflexivity|]. intros answer. unfold udp_OnRawDriverData. cbn.
  rewrite (proj2 (Z.leb_le _ _)), !(proj2 (Z.ltb_lt _ _)) by assumption. reflexivity.
Qed.

(** ** Examples *)
Module DiagnosticsDemo.
(** A test of five bytes, and the same with its third one damaged. *)
Definition test_packet (payload : list Z) : list Z :=
  let d := le_bytes 4 kTestMagic ++ le_bytes 4 7 ++ le_bytes 4 (Z.of_nat (length payload)) in
  d ++ le_bytes 4 (packet_crc (d ++ le_bytes 4 0 ++ payload)) ++ payload.
Definition good : list Z := test_packet [1; 2; 3; 4; 5].
Definition bad : list Z := take 18 good ++ [0xFC; 4; 5].
Example good_is_ok : checksum_reply good = mkReplyHeader kReplyMagic 7 VERDICT_OK 21 (packet_crc good).
Proof. vm_compute. reflexivity. Qed.
Example bad_is_not : verdict (checksum_reply bad) = VERDICT_CRC_MISMATCH.
Proof. vm_compute. reflexivity. Qed.
Lemma damage_witness : verdict (checksum_reply bad) <> VERDICT_OK.
Proof.
  assert (B : forall l, forallb (fun b => (0 <=? b) && (b <? 256)) l = true -> is_bytes l).
  { intros l H. apply List.Forall_forall. intros b Hb. rewrite forallb_forall in H. specialize (H b Hb). bsimp. unfold is_u8. lia. }
  destruct (checksum_test_finds_damage good bad) as (_ & _ & _ & W); [| |apply W].
  - apply B. vm_compute. reflexivity.
  - apply B. vm_compute. reflexivity.
  - vm_compute. reflexivity.
  - left. split; [vm_compute; reflexivity|]. exists (take 14 (covered good)), [3], [0xFC], [4; 5].
    split; [vm_compute; reflexivity|]. split; [vm_compute; reflexivity|]. split; [reflexivity|]. split; [cbn; lia|discriminate].
Defined.
(** The end of a failed connection: the driver is given 4294967295 bytes of the buffer. *)
Example failed_read_overruns : tcp_client 5 true [Bytes [1; 2]; Failed] (mkTcp (-1) (mkDebuggable false true)) = None.
Proof. reflexivity. Qed.
End DiagnosticsDemo.
