(* ===== verification/Charger.v ===== *)
(** Battery chargers: the interface [drivers/charger/charger.hpp], the drivers of
    the BQ2576 and the BQ2579, and the I2C transfer of [i2c_utils.hpp].

    The I2C peripheral is a parameter: a transfer and a restart of a device of state [D].
    An operation of a driver is an [act] on the driver object and the device; [None] is an
    undefined conversion, or fuel running out while the peripheral does not restart or
    the charger does not finish its reset. *)
From S2P Require Import Prelude Float32.

(** ** Operations that change a state and may be undefined *)
Definition act (S A : Type) : Type := S -> option (A * S).
#[export] Instance act_ret S : MRet (act S) := fun A a s => Some (a, s).
#[export] Instance act_bind S : MBind (act S) := fun A B f m s => match m s with Some (a, s') => f a s' | None => None end.
Definition of_option {S A} (o : option A) : act S A := fun s => match o with Some a => Some (a, s) | None => None end.
Definition get {S} : act S S := fun s => Some (s, s).
Definition put {S} (s : S) : act S unit := fun _ => Some (tt, s).

(** One step of a sequence. *)
Lemma act_step {T A B} (m : act T A) (f : A -> act T B) s a s' : m s = Some (a, s') -> (a ← m; f a) s = f a s'.
Proof. intros E. unfold mbind, act_bind. rewrite E. reflexivity. Qed.
Lemma act_get {T B} (f : T -> act T B) s : (a ← get; f a) s = f s s.
Proof. reflexivity. Qed.

(** Total correctness: from a state in [P] the operation returns, with [Q]. *)
Definition runs {S A} (P : S -> Prop) (m : act S A) (Q : A -> S -> Prop) : Prop :=
  forall s, P s -> exists a s', m s = Some (a, s') /\ Q a s'.
Lemma runs_ret {S A} (a : A) (Q : A -> S -> Prop) : runs (Q a) (mret a) Q.
Proof. intros s H. exists a, s. auto. Qed.
Lemma runs_bind {S A B} P (m : act S A) (f : A -> act S B) R Q :
  runs P m R -> (forall a, runs (R a) (f a) Q) -> runs P (a ← m; f a) Q.
Proof.
  intros Hm Hf s H. destruct (Hm s H) as (a & s1 & E & H1). destruct (Hf a s1 H1) as (b & s2 & E2 & H2).
  exists b, s2. split; [|exact H2]. unfold mbind, act_bind. rewrite E. exact E2.
Qed.
Lemma runs_of_option {S A} (o : option A) (a : A) (Q : A -> S -> Prop) : o = Some a -> runs (Q a) (of_option o) Q.
Proof. intros -> s H. exists a, s. auto. Qed.
Lemma runs_conseq {S A} (P P' : S -> Prop) (m : act S A) (Q Q' : A -> S -> Prop) :
  runs P m Q -> (forall s, P' s -> P s) -> (forall a s, Q a s -> Q' a s) -> runs P' m Q'.
Proof. intros H HP HQ s Hs. destruct (H s (HP s Hs)) as (a & s' & E & K). eauto. Qed.

(** ** The interface *)
(* @ charger.hpp:26-37 ChargerDriver::CHARGER_STATUS *)
Inductive CHARGER_STATUS := NOT_CHARGING | TRICKLE | PRE_CHARGE | CC | CV | TOP_OFF | DONE | FAULT | COMMS_ERROR | UNKNOWN.
#[export] Instance CHARGER_STATUS_eq_dec : EqDecision CHARGER_STATUS.
Proof. solve_decision. Defined.
(* @ charger.hpp:39-50 ChargerDriver::CHARGER_STATUS_STRINGS *)
Definition statusToString (status : CHARGER_STATUS) : string :=
  match status with
  | NOT_CHARGING => "Not Charging" | TRICKLE => "Trickle Charge" | PRE_CHARGE => "Pre Charge"
  | CC => "Fast Charge (CC)" | CV => "Taper Charge (CV)" | TOP_OFF => "Top Off" | DONE => "Done"
  | FAULT => "Fault" | COMMS_ERROR => "Comms Error" | UNKNOWN => "Unknown"
  end.
(** [ReChargeVoltage] is an [enum class] of [uint8_t], and a register is cast to it. *)
(* @ charger.hpp:56-56 ChargerDriver::ReChargeVoltage *)
Definition PERCENT_93_0 : Z := 0.
(* @ charger.hpp:56-56 ChargerDriver::ReChargeVoltage *)
Definition PERCENT_94_3 : Z := 1.
(* @ charger.hpp:56-56 ChargerDriver::ReChargeVoltage *)
Definition PERCENT_95_2 : Z := 2.
(* @ charger.hpp:56-56 ChargerDriver::ReChargeVoltage *)
Definition PERCENT_97_6 : Z := 3.

(** A read takes the old value of its result, which a failure leaves. *)
(* @ charger.hpp:59-80 ChargerDriver *)
Class ChargerDriver (S : Type) := {
  setAdapterCurrent : f32 -> act S bool;
  setChargingCurrent : f32 -> bool -> act S bool;
  setChargingVoltage : f32 -> act S bool;
  setPreChargeCurrent : f32 -> act S bool;
  setTerminationCurrent : f32 -> act S bool;
  getChargerStatus : act S CHARGER_STATUS;
  init : act S bool;
  resetWatchdog : act S bool;
  setTsEnabled : bool -> act S bool;
  setReChargeVoltage : Z -> act S bool;
  readChargeCurrent : f32 -> act S (bool * f32);
  readAdapterVoltage : f32 -> act S (bool * f32);
  readAdapterCurrent : f32 -> act S (bool * f32);
  readBatteryVoltage : f32 -> act S (bool * f32) }.

(** [std::min] and [std::max] of the standard library. *)
Definition std_min (a b : f32) : f32 := if flt b a then b else a.
Definition std_max (a b : f32) : f32 := if flt a b then b else a.

(** ** The bus *)
Definition MSG_OK : Z := 0.
Definition DEVICE_ADDRESS : Z := 0x6B.

Section Bus.
Context {D : Type} (i2cMasterTransmit : Z -> list Z -> nat -> D -> Z * list Z * D) (i2cRestart : D -> bool * D) (fuel : nat).

(** [i2cStop] and [i2cStart] until it succeeds. *)
(* @ i2c_utils.hpp:41-49 TransmitWithRecovery (restart) *)
Fixpoint recover (n : nat) (d : D) : option D :=
  match n with
  | O => None
  | S n => let '(ok, d) := i2cRestart d in if ok : bool then Some d else recover n d
  end.
(* @ i2c_utils.hpp TransmitWithRecovery *)
Definition TransmitWithRecovery (addr : Z) (tx : list Z) (rx_len : nat) (d : D) : option (Z * list Z * D) :=
  let '(msg, rx, d) := i2cMasterTransmit addr tx rx_len d in
  if negb (msg =? MSG_OK) then d ← recover fuel d; Some (msg, rx, d) else Some (msg, rx, d).

(** A transfer of a driver object of type [C], which may have no bus: whether it succeeded, and what was read. *)
(* @ charger.hpp ChargerDriver::i2cTransmitChecked *)
Definition i2cTransmitChecked {C} (tx : list Z) (rx_len : nat) : act (C * D) (bool * list Z) :=
  fun '(c, d) => match TransmitWithRecovery DEVICE_ADDRESS tx rx_len d with
                 | Some (msg, rx, d) => Some (msg =? MSG_OK, rx, (c, d))
                 | None => None
                 end.
Definition on_bus {C} (i2c_driver_ : C -> bool) (tx : list Z) (rx_len : nat) (old : list Z) : act (C * D) (bool * list Z) :=
  s ← get;
  if negb (i2c_driver_ s.1) then mret (false, old) else i2cTransmitChecked tx rx_len.


(** ** BQ2576 *)
(* @ bq_2576.hpp:20-62 BQ2576 *)
Record BQ2576 := mkBQ2576 {
  vfb_ratio_ : f32; r_ac_sense_ : f32; charge_voltage_ : f32; charger_control_reg_ : Z; i2c_driver_ : bool }.
#[export] Instance eta_BQ2576 : Eta BQ2576 := fun c =>
  mkBQ2576 (vfb_ratio_ c) (r_ac_sense_ c) (charge_voltage_ c) (charger_control_reg_ c) (i2c_driver_ c).
(* @ bq_2576.hpp:18-28 BQ2576::BQ2576 *)
Definition new_BQ2576 (r_top r_bot : Z) (r_ac_sense : f32) : BQ2576 :=
  let r := u32 (r_bot - 33) in
  mkBQ2576 (fdiv (f_of_Z r) (f_of_Z (u32 (r + r_top)))) r_ac_sense S754_nan 0x99 false.
Abbreviation bq := (BQ2576 * D)%type.

(** A register is read into a byte, or into the two bytes of a [uint16_t], the lower first. *)
(* @ bq_2576.cpp BQ2576::readRegister *)
Definition bq2576_readRegister8 (reg result : Z) : act bq (bool * Z) :=
  '(ok, rx) ← on_bus i2c_driver_ [reg] 1 [result]; mret (ok, nth 0 rx result).
(* @ bq_2576.cpp:122-133 BQ2576::readRegister#2 *)
Definition bq2576_readRegister16 (reg result : Z) : act bq (bool * Z) :=
  '(ok, rx) ← on_bus i2c_driver_ [reg] 2 (le_bytes 2 result); mret (ok, le_int (take 2 rx)).
(* @ bq_2576.cpp BQ2576::writeRegister8 *)
Definition bq2576_writeRegister8 (reg value : Z) : act bq bool :=
  '(ok, _) ← on_bus i2c_driver_ [reg; value] 0 []; mret ok.
(* @ bq_2576.cpp BQ2576::writeRegister16 *)
Definition bq2576_writeRegister16 (reg value : Z) : act bq bool :=
  '(ok, _) ← on_bus i2c_driver_ (reg :: le_bytes 2 value) 0 []; mret ok.

(* @ bq_2576.cpp BQ2576::resetWatchdog *)
Definition bq2576_resetWatchdog : act bq bool :=
  s ← get; bq2576_writeRegister8 0x17 (Z.lor (charger_control_reg_ s.1) 32).
(** The wait after the reset; [None]: a read failed. *)
(* @ bq_2576.cpp:37-48 BQ2576::init (reset) *)
Fixpoint bq2576_await_reset (n : nat) (result : Z) : act bq (option Z) :=
  match n with
  | O => of_option None
  | S n =>
    '(readOk, result) ← bq2576_readRegister8 0x19 result;
    if negb readOk then mret None else
    if Z.land result 64 =? 0 then mret (Some result) else bq2576_await_reset n result
  end.
(* @ bq_2576.cpp BQ2576::init *)
Definition bq2576_init : act bq bool :=
  '(readOk, result) ← bq2576_readRegister8 0x3D 0;
  let charger_connected := readOk && (Z.land result 0x78 =? 0x10) in
  writeOk ← bq2576_writeRegister8 0x19 0xA0;
  if negb writeOk then mret false else
  reset ← bq2576_await_reset fuel result;
  match reset with
  | None => mret false
  | Some _ =>
    w1 ← bq2576_writeRegister8 0x19 0;
    w2 ← bq2576_writeRegister8 0x2B 0x80;
    _ ← bq2576_resetWatchdog;
    mret (charger_connected && w1 && w2)
  end.
(* @ bq_2576.cpp BQ2576::setTsEnabled *)
Definition bq2576_setTsEnabled (enabled : bool) : act bq bool :=
  '(ok, val) ← bq2576_readRegister8 0x1C 0;
  if negb ok then mret false else
  bq2576_writeRegister8 0x1C (if enabled then Z.lor val 1 else Z.land val 0xFE).
(* @ bq_2576.cpp BQ2576::readFaults *)
Definition bq2576_readFaults : act bq Z := '(_, result) ← bq2576_readRegister8 0x24 0; mret result.

(** A signed 16-bit reading in steps of 2 mA or 2 mV. *)
Definition bq2576_milli2 (raw_result : Z) : f32 := fdiv (fmul (f_of_Z (s16 raw_result)) (f_of_Z 2)) (f_of_Z 1000).
(* @ bq_2576.cpp BQ2576::readAdapterCurrent *)
Definition bq2576_readAdapterCurrent (result : f32) : act bq (bool * f32) :=
  s ← get;
  if fle (r_ac_sense_ s.1) f0 then mret (true, S754_nan) else
  '(ok, raw_result) ← bq2576_readRegister16 0x2D 0;
  mret (if negb ok then (false, result)
        else (true, fdiv (fmul (f_of_Z (s16 raw_result)) (f_lit 4 1000000)) (r_ac_sense_ s.1))).
(* @ bq_2576.cpp BQ2576::readChargeCurrent *)
Definition bq2576_readChargeCurrent (result : f32) : act bq (bool * f32) :=
  '(ok, raw_result) ← bq2576_readRegister16 0x2F 0; mret (if negb ok then (false, result) else (true, bq2576_milli2 raw_result)).
(* @ bq_2576.cpp BQ2576::readAdapterVoltage *)
Definition bq2576_readAdapterVoltage (result : f32) : act bq (bool * f32) :=
  '(ok, raw_result) ← bq2576_readRegister16 0x31 0; mret (if negb ok then (false, result) else (true, bq2576_milli2 raw_result)).
(* @ bq_2576.cpp BQ2576::readBatteryVoltage *)
Definition bq2576_readBatteryVoltage (result : f32) : act bq (bool * f32) :=
  '(ok, raw_result) ← bq2576_readRegister16 0x33 0; mret (if negb ok then (false, result) else (true, bq2576_milli2 raw_result)).
(* @ bq_2576.cpp BQ2576::readVFB *)
Definition bq2576_readVFB (result : f32) : act bq (bool * f32) :=
  '(ok, raw_result) ← bq2576_readRegister16 0x39 0;
  mret (if negb ok then (false, result) else (true, fdiv (f_of_Z raw_result) (f_of_Z 1000))).

(** The register value of a charge voltage, after the clamp of the feedback voltage to 1504 to 1566 mV. *)
(* @ bq_2576.cpp:182-183 BQ2576::setChargingVoltage (feedback) *)
Definition bq2576_vfb_mv (vfb_ratio voltage_v : f32) : f32 :=
  std_max (f_of_Z 1504) (std_min (f_of_Z 1566) (fmul (fmul voltage_v (f_of_Z 1000)) vfb_ratio)).
(* @ bq_2576.cpp:184-185 BQ2576::setChargingVoltage (register) *)
Definition bq2576_voltage_word (vfb_mv : f32) : option Z :=
  n ← f_to_int 0 65535 (fdiv (fsub vfb_mv (f_of_Z 1504)) (f_of_Z 2)); Some (Z.land n 31).
(* @ bq_2576.cpp BQ2576::setChargingVoltage *)
Definition bq2576_setChargingVoltage (voltage_v : f32) : act bq bool :=
  s ← get;
  if fle (vfb_ratio_ s.1) f0 then mret false else
  let vfb_mv := bq2576_vfb_mv (vfb_ratio_ s.1) voltage_v in
  reg_val ← of_option (bq2576_voltage_word vfb_mv);
  _ ← put (s.1 <| charge_voltage_ := fdiv vfb_mv (fmul (f_of_Z 1000) (vfb_ratio_ s.1)) |>, s.2);
  bq2576_writeRegister16 0x00 reg_val.
(* @ bq_2576.cpp BQ2576::setReChargeVoltage *)
Definition bq2576_setReChargeVoltage (recharge_voltage : Z) : act bq bool :=
  s ← get;
  let r := Z.lor (Z.land (charger_control_reg_ s.1) 0x3F) (u8 (Z.shiftl (Z.land recharge_voltage 3) 6)) in
  _ ← put (s.1 <| charger_control_reg_ := r |>, s.2);
  bq2576_writeRegister8 0x17 r.
(** Three registers read in a row, all of them even if one fails. *)
Definition bq2576_read3 (r1 r2 r3 : Z) (a b c : Z) : act bq (bool * Z * Z * Z) :=
  '(ok1, a) ← bq2576_readRegister8 r1 a; '(ok2, b) ← bq2576_readRegister8 r2 b; '(ok3, c) ← bq2576_readRegister8 r3 c;
  mret (ok1 && ok2 && ok3, a, b, c).
(* @ bq_2576.cpp:202-208 BQ2576::getChargerStatus *)
Definition bq2576_getChargerStatus3 : Z -> Z -> Z -> act bq (bool * Z * Z * Z) := bq2576_read3 0x21 0x22 0x23.
(* @ bq_2576.cpp BQ2576::getChargerFlags *)
Definition bq2576_getChargerFlags : Z -> Z -> Z -> act bq (bool * Z * Z * Z) := bq2576_read3 0x25 0x26 0x27.

(** A current in steps of 50 mA, at bits 2 and up of a word; currents below [least] are raised to it. *)
Definition bq2576_current_word (least current_amps : f32) : option Z :=
  let current_amps := if flt current_amps least then least else current_amps in
  n ← f_to_int 0 65535 (fdiv (fmul current_amps (f_of_Z 1000)) (f_of_Z 50)); Some (u16 (Z.shiftl n 2)).
(* @ bq_2576.cpp BQ2576::setChargingCurrent *)
Definition bq2576_setChargingCurrent (current_amps : f32) (overwrite_hardware_limit : bool) : act bq bool :=
  '(ok, pin_ctl_value) ← bq2576_readRegister8 0x18 0;
  if negb ok then mret false else
  let pin_ctl_value := if overwrite_hardware_limit then Z.land pin_ctl_value 0x7F else Z.lor pin_ctl_value 0x80 in
  ok ← bq2576_writeRegister8 0x18 pin_ctl_value;
  if negb ok then mret false else
  value ← of_option (bq2576_current_word (f_lit 4 10) current_amps);
  bq2576_writeRegister16 0x02 value.
(* @ bq_2576.cpp BQ2576::setAdapterCurrent *)
Definition bq2576_setAdapterCurrent (current_amps : f32) : act bq bool :=
  s ← get;
  if fle (r_ac_sense_ s.1) f0 then mret false else
  let current_amps := std_max current_amps (f_lit 4 10) in
  n ← of_option (f_to_int 0 65535 (fmul (fmul current_amps (f_of_Z 4000)) (r_ac_sense_ s.1)));
  bq2576_writeRegister16 0x06 (u16 (Z.shiftl n 2)).
(* @ bq_2576.cpp BQ2576::setPreChargeCurrent *)
Definition bq2576_setPreChargeCurrent (current_amps : f32) : act bq bool :=
  value ← of_option (bq2576_current_word (f_lit 1 4) current_amps); bq2576_writeRegister16 0x10 value.
(* @ bq_2576.cpp BQ2576::setTerminationCurrent *)
Definition bq2576_setTerminationCurrent (current_amps : f32) : act bq bool :=
  value ← of_option (bq2576_current_word (f_lit 1 4) current_amps); bq2576_writeRegister16 0x12 value.
(* @ bq_2576.cpp:275-300 BQ2576::getChargerStatus *)
Definition bq2576_getChargerStatus : act bq CHARGER_STATUS :=
  '(s, status1, _, _) ← bq2576_getChargerStatus3 0 0 0;
  if negb s then mret COMMS_ERROR else
  faults ← bq2576_readFaults;
  mret (if negb (faults =? 0) then FAULT else
    match Z.land status1 7 with
    | 0 => NOT_CHARGING | 1 => TRICKLE | 2 => PRE_CHARGE | 3 => CC | 4 => CV | 5 => UNKNOWN | 6 => TOP_OFF | 7 => DONE
    | _ => COMMS_ERROR
    end).
#[local] Instance bq2576_driver : ChargerDriver bq := {|
  setAdapterCurrent := bq2576_setAdapterCurrent; setChargingCurrent := bq2576_setChargingCurrent;
  setChargingVoltage := bq2576_setChargingVoltage; setPreChargeCurrent := bq2576_setPreChargeCurrent;
  setTerminationCurrent := bq2576_setTerminationCurrent; getChargerStatus := bq2576_getChargerStatus;
  init := bq2576_init; resetWatchdog := bq2576_resetWatchdog; setTsEnabled := bq2576_setTsEnabled;
  setReChargeVoltage := bq2576_setReChargeVoltage; readChargeCurrent := bq2576_readChargeCurrent;
  readAdapterVoltage := bq2576_readAdapterVoltage; readAdapterCurrent := bq2576_readAdapterCurrent;
  readBatteryVoltage := bq2576_readBatteryVoltage |}.

(** ** BQ2579 *)
(** Its object holds nothing but the bus; words are sent the higher byte first. *)
Abbreviation bq9 := (bool * D)%type.
(* @ bq_2579.cpp BQ2579::readRegister *)
Definition bq2579_readRegister8 (reg result : Z) : act bq9 (bool * Z) :=
  '(ok, rx) ← on_bus id [reg] 1 [result]; mret (ok, nth 0 rx result).
(* @ bq_2579.cpp:139-149 BQ2579::readRegister#2 *)
Definition bq2579_readRegister16 (reg : Z) : act bq9 (bool * Z) :=
  '(ok, buf) ← on_bus id [reg] 2 []; mret (ok, Z.lor (Z.shiftl (nth 0 buf 0) 8) (nth 1 buf 0)).
(* @ bq_2579.cpp BQ2579::writeRegister8 *)
Definition bq2579_writeRegister8 (reg value : Z) : act bq9 bool :=
  '(ok, _) ← on_bus id [reg; value] 0 []; mret ok.
(* @ bq_2579.cpp BQ2579::writeRegister16 *)
Definition bq2579_writeRegister16 (reg value : Z) : act bq9 bool :=
  '(ok, _) ← on_bus id (reg :: be_bytes 2 value) 0 []; mret ok.
(* @ bq_2579.cpp BQ2579::setAdapterCurrent *)
Definition bq2579_setAdapterCurrent (current_amps : f32) : act bq9 bool :=
  let current_amps := if fgt current_amps (f_lit 33 10) then f_lit 33 10 else current_amps in
  n ← of_option (f_to_int 0 65535 (fmul current_amps (f_of_Z 100))); bq2579_writeRegister16 0x06 n.
(* @ bq_2579.cpp BQ2579::setChargingCurrent *)
Definition bq2579_setChargingCurrent (current_amps : f32) (overwrite_hardware_limit : bool) : act bq9 bool :=
  let current_amps := if fgt current_amps (f_of_Z 5) then f_of_Z 5 else current_amps in
  n ← of_option (f_to_int 0 65535 (fmul current_amps (f_of_Z 100))); bq2579_writeRegister16 0x03 n.
(* @ bq_2579.cpp BQ2579::setPreChargeCurrent *)
Definition bq2579_setPreChargeCurrent (current_amps : f32) : act bq9 bool := mret true.
(* @ bq_2579.cpp BQ2579::setTerminationCurrent *)
Definition bq2579_setTerminationCurrent (current_amps : f32) : act bq9 bool :=
  let current_amps := if fgt current_amps (f_of_Z 1) then f_of_Z 1 else if flt current_amps (f_lit 4 100) then f_lit 4 100 else current_amps in
  raw_value ← of_option (f_to_int 0 255 (fdiv current_amps (f_lit 4 100))); bq2579_writeRegister8 0x09 raw_value.
(* @ bq_2579.cpp BQ2579::getChargerStatus *)
Definition bq2579_getChargerStatus : act bq9 CHARGER_STATUS :=
  '(ok, fault0) ← bq2579_readRegister8 0x20 0;
  if negb ok then mret COMMS_ERROR else
  '(ok, fault1) ← bq2579_readRegister8 0x21 0;
  if negb ok then mret COMMS_ERROR else
  if negb (fault0 =? 0) || negb (fault1 =? 0) then mret FAULT else
  '(ok, status) ← bq2579_readRegister8 0x1C 0;
  mret (if negb ok then COMMS_ERROR else
    match Z.shiftr status 5 with
    | 0 => NOT_CHARGING | 1 => TRICKLE | 2 => PRE_CHARGE | 3 => CC | 4 => CV | 7 => DONE | _ => UNKNOWN
    end).
(* @ bq_2579.cpp BQ2579::init *)
Definition bq2579_init : act bq9 bool :=
  ok ← bq2579_writeRegister8 0x09 0x45;
  if negb ok then mret false else
  bq2579_writeRegister8 0x2E 0x80.
(* @ bq_2579.cpp BQ2579::resetWatchdog *)
Definition bq2579_resetWatchdog : act bq9 bool :=
  '(ok, register_value) ← bq2579_readRegister8 0x10 0;
  if negb ok then mret false else bq2579_writeRegister8 0x10 (Z.lor register_value 8).
(* @ bq_2579.cpp BQ2579::setTsEnabled *)
Definition bq2579_setTsEnabled (enabled : bool) : act bq9 bool :=
  '(ok, register_value) ← bq2579_readRegister8 0x18 0;
  if negb ok then mret false else
  bq2579_writeRegister8 0x18 (if negb enabled then Z.lor register_value 1 else Z.land register_value 0xFE).
(** A reading in milliamperes or millivolts, signed for currents. *)
Definition bq2579_read (reg : Z) (f : Z -> Z) (result : f32) : act bq9 (bool * f32) :=
  '(ok, raw_result) ← bq2579_readRegister16 reg;
  mret (if negb ok then (false, result) else (true, fdiv (f_of_Z (f raw_result)) (f_of_Z 1000))).
(* @ bq_2579.cpp BQ2579::readAdapterCurrent *)
Definition bq2579_readAdapterCurrent : f32 -> act bq9 (bool * f32) := bq2579_read 0x31 s16.
(* @ bq_2579.cpp BQ2579::readChargeCurrent *)
Definition bq2579_readChargeCurrent : f32 -> act bq9 (bool * f32) := bq2579_read 0x33 s16.
(* @ bq_2579.cpp BQ2579::readAdapterVoltage *)
Definition bq2579_readAdapterVoltage : f32 -> act bq9 (bool * f32) := bq2579_read 0x35 id.
(* @ bq_2579.cpp BQ2579::readBatteryVoltage *)
Definition bq2579_readBatteryVoltage : f32 -> act bq9 (bool * f32) := bq2579_read 0x3B id.
(* @ bq_2579.cpp BQ2579::readSystemVoltage *)
Definition bq2579_readSystemVoltage : f32 -> act bq9 (bool * f32) := bq2579_read 0x3D id.
(** [setChargingVoltage] and [setReChargeVoltage] are the interface's, which do nothing. *)
#[local] Instance bq2579_driver : ChargerDriver bq9 := {|
  setAdapterCurrent := bq2579_setAdapterCurrent; setChargingCurrent := bq2579_setChargingCurrent;
  setChargingVoltage := fun _ => mret true; setPreChargeCurrent := bq2579_setPreChargeCurrent;
  setTerminationCurrent := bq2579_setTerminationCurrent; getChargerStatus := bq2579_getChargerStatus;
  init := bq2579_init; resetWatchdog := bq2579_resetWatchdog; setTsEnabled := bq2579_setTsEnabled;
  setReChargeVoltage := fun _ => mret true; readChargeCurrent := bq2579_readChargeCurrent;
  readAdapterVoltage := bq2579_readAdapterVoltage; readAdapterCurrent := bq2579_readAdapterCurrent;
  readBatteryVoltage := bq2579_readBatteryVoltage |}.
End Bus.
