(* ===== verification/Bms.v ===== *)
(** The battery management system: the Sabo driver ([drivers/bms/sabo_bms_driver.cpp]),
    the SBS helpers ([drivers/bms/sbs_protocol.hpp]) and the service on it
    ([services/bms_service]).

    The I2C bus is the parameter of [Charger], with the pack's address; a character array is the
    list of its bytes. [None] is an access outside an array, or fuel running out while the
    peripheral does not restart. *)
From S2P Require Import Prelude Float32 Charger.

(** ** SBS *)
(* @ sbs_protocol.hpp:90-103 SbsProtocol::BatteryStatusBit *)
Inductive BatteryStatusBit := StatusFullyDischarged | StatusFullyCharged | StatusDischarging | AlarmTerminateDischarge.
(* @ sbs_protocol.hpp:90-103 SbsProtocol::BatteryStatusBit *)
Definition bit_of (b : BatteryStatusBit) : Z :=
  match b with StatusFullyDischarged => 4 | StatusFullyCharged => 5 | StatusDischarging => 6 | AlarmTerminateDischarge => 11 end.
(* @ sbs_protocol.hpp SbsProtocol::SetBatteryStatus *)
Definition SetBatteryStatus (battery_status : Z) (b : BatteryStatusBit) : Z := Z.lor battery_status (Z.shiftl 1 (bit_of b)).
(* @ sbs_protocol.hpp SbsProtocol::ResetBatteryStatus *)
Definition ResetBatteryStatus (battery_status : Z) (b : BatteryStatusBit) : Z := u16 (Z.land battery_status (u32 (Z.lnot (Z.shiftl 1 (bit_of b))))).
(* @ sbs_protocol.hpp SbsProtocol::IsLeapYear *)
Definition IsLeapYear (year : Z) : bool := (year mod 4 =? 0) && (negb (year mod 100 =? 0) || (year mod 400 =? 0)).
(* @ sbs_protocol.hpp SbsProtocol::DaysInMonth *)
Definition DaysInMonth (year month : Z) : Z :=
  if (month <? 1) || (12 <? month) then 0 else
  if (month =? 2) && IsLeapYear year then 29 else
  nth (Z.to_nat (month - 1)) [31; 28; 31; 30; 31; 30; 31; 31; 30; 31; 30; 31] 0.
(** [%0<n>u] of a number that fits in [n] digits. *)
Fixpoint digits (n : nat) (x : Z) : list Z := match n with O => [] | S n => digits n (x / 10) ++ [48 + x mod 10] end.
(** The string is written over the start of the buffer, with its terminator. *)
Definition write_string (text buf : list Z) : list Z := text ++ [0] ++ drop (S (length text)) buf.
(* @ sbs_protocol.hpp SbsProtocol::SbsDateToYMDString *)
Definition SbsDateToYMDString (sbs_date : Z) (out_buf : list Z) : bool * list Z :=
  if (length out_buf <? 11)%nat then (false, out_buf) else
  let day := Z.land sbs_date 0x1F in
  let month := Z.land (Z.shiftr sbs_date 5) 0x0F in
  let year := 1980 + Z.land (Z.shiftr sbs_date 9) 0x7F in
  let dim := DaysInMonth year month in
  if (month <? 1) || (12 <? month) || (day <? 1) || (dim =? 0) || (dim <? day) then (false, <[0%nat := 0]> out_buf)
  else (true, write_string (digits 4 year ++ [45] ++ digits 2 month ++ [45] ++ digits 2 day) out_buf).

(** ** The data and the driver *)
Definition kCellCount : nat := 7.
(* @ bms_driver.hpp:29-74 Data *)
Record Data := mkData {
  mfr_name : list Z; mfr_date : list Z; dev_name : list Z; dev_version : list Z; dev_chemistry : list Z;
  serial_number : Z; design_capacity_ah : f32; design_voltage_v : f32;
  pack_voltage_v : f32; pack_current_a : f32; temperature_c : f32; battery_soc : f32;
  remaining_capacity_ah : f32; full_charge_capacity_ah : f32; cycle_count : Z; battery_status : Z;
  cell_voltage_v : list f32 }.
#[export] Instance eta_Data : Eta Data := fun d =>
  mkData (mfr_name d) (mfr_date d) (dev_name d) (dev_version d) (dev_chemistry d) (serial_number d) (design_capacity_ah d)
    (design_voltage_v d) (pack_voltage_v d) (pack_current_a d) (temperature_c d) (battery_soc d) (remaining_capacity_ah d)
    (full_charge_capacity_ah d) (cycle_count d) (battery_status d) (cell_voltage_v d).
(** [check_cnt] is a static of [Tick]. *)
(* @ sabo_bms_driver.hpp:60-66 SaboBmsDriver *)
Record SaboBms := mkBms { data_ : Data; battery_status_ : Z; configured_ : bool; present_ : bool; check_cnt : Z }.
#[export] Instance eta_SaboBms : Eta SaboBms := fun s =>
  mkBms (data_ s) (battery_status_ s) (configured_ s) (present_ s) (check_cnt s).
(* @ bms_driver.hpp:29-74 Data *)
Definition new_Data : Data :=
  mkData (replicate 33 0) (replicate 11 0) (replicate 33 0) (replicate 33 0) (replicate 33 0) 0 f0 f0 f0 f0 f0 f0 f0 f0 0 0 (replicate 8 f0).
(* @ sabo_bms_driver.cpp SaboBmsDriver::SaboBmsDriver *)
Definition new_SaboBms : SaboBms := mkBms new_Data 0 false false 100.
(** [bms_cfg_] and its bus are given. *)
(* @ sabo_bms_driver.cpp SaboBmsDriver::Init *)
Definition bms_Init (has_config has_i2c : bool) (s : SaboBms) : bool * SaboBms :=
  if negb has_config then (false, s) else if negb has_i2c then (false, s) else (true, s <| configured_ := true |>).
(* @ sabo_bms_driver.cpp SaboBmsDriver::ScaleCurrentRawToMilliA *)
Definition ScaleCurrentRawToMilliA (raw : Z) : Z :=
  let scaled := raw * 10 in
  if 32767 <? scaled then 32767 else if scaled <? -32768 then -32768 else scaled.

(** [strlen]: the index of the first zero, which must be in the array. *)
Fixpoint strlen (l : list Z) : option nat :=
  match l with [] => None | x :: l => if x =? 0 then Some 0%nat else S <$> strlen l end.
Definition isspace (c : Z) : bool := (c =? 32) || ((9 <=? c) && (c <=? 13)).
(** The index of the last character to keep. *)
Fixpoint rtrim_end (str : list Z) (e : nat) : nat :=
  match e with O => 0%nat | S e' => if isspace (nth e str 0) then rtrim_end str e' else e end.
(* @ sabo_bms_driver.cpp SaboBmsDriver::rtrim *)
Definition rtrim (str : list Z) : option (list Z) :=
  if nth 0 str 0 =? 0 then Some str else
  n ← strlen str; Some (<[S (rtrim_end str (n - 1)) := 0]> str).

Section Bms.
Context {D : Type} (i2cMasterTransmit : Z -> list Z -> nat -> D -> Z * list Z * D) (i2cRestart : D -> bool * D) (fuel : nat).
Definition BMS_ADDRESS : Z := 0x0B.
Definition i2c_retries : nat := 3.
Abbreviation bms := (SaboBms * D)%type.
(* @ sabo_bms_driver.cpp SaboBmsDriver::I2cMasterTransmit *)
Definition I2cMasterTransmit (tx : list Z) (rx_len : nat) : act bms (Z * list Z) :=
  fun '(s, d) => '(msg, rx, d) ← TransmitWithRecovery i2cMasterTransmit i2cRestart fuel BMS_ADDRESS tx rx_len d; Some ((msg, rx), (s, d)).
(** The first attempt that succeeds, or the last. *)
(* @ sabo_bms_driver.cpp SaboBmsDriver::ReadRegisterRaw *)
Fixpoint ReadRegisterRaw (attempts : nat) (reg : Z) (rx_len : nat) (last : Z * list Z) : act bms (Z * list Z) :=
  match attempts with
  | O => mret last
  | S attempts =>
    '(msg, rx) ← I2cMasterTransmit [reg] rx_len;
    if msg =? MSG_OK then mret (msg, rx) else ReadRegisterRaw attempts reg rx_len (msg, rx)
  end.
(** The value read, if the read succeeds. *)
(* @ sabo_bms_driver.cpp:431-437 SaboBmsDriver::ReadRegister *)
Definition ReadRegister16 (reg : Z) : act bms (option Z) :=
  '(msg, rx) ← ReadRegisterRaw i2c_retries reg 2 (-1, []);
  mret (if msg =? MSG_OK then Some (Z.lor (nth 0 rx 0) (u16 (Z.shiftl (nth 1 rx 0) 8))) else None).
(* @ sabo_bms_driver.cpp:439-445 SaboBmsDriver::ReadRegister *)
Definition ReadRegisterInt16 (reg : Z) : act bms (option Z) := r ← ReadRegister16 reg; mret (s16 <$> r).
(** What a transfer leaves in an array of which [rx_max] bytes were cleared. *)
Definition received (rx_max : nat) (rx data : list Z) : list Z :=
  let rx := take rx_max rx in rx ++ replicate (rx_max - length rx) 0 ++ drop rx_max data.
(** A block: its length, then its bytes; the result is whether it was read, and the array. *)
(* @ sabo_bms_driver.cpp SaboBmsDriver::ReadBlock *)
Fixpoint ReadBlock (attempts : nat) (cmd : Z) (data : list Z) (last : bool) : act bms (bool * list Z) :=
  match attempts with
  | O => mret (last, data)
  | S attempts =>
    let rx_max := Nat.min (length data) 33 in
    '(msg, rx) ← I2cMasterTransmit [cmd] rx_max;
    let data := received rx_max rx data in
    if negb (msg =? MSG_OK) then ReadBlock attempts cmd data false else
    let len := nth 0 data 0 in
    if 32 <? len then ReadBlock attempts cmd data false else
    let len := Z.to_nat len in
    if (rx_max <? 1 + len)%nat then ReadBlock attempts cmd data false else
    let data := take len (drop 1 data) ++ drop len data in
    mret (true, if (len <? length data)%nat then <[len := 0]> data else data)
  end.
(* @ sabo_bms_driver.cpp SaboBmsDriver::probe *)
Definition probe : act bms bool :=
  voltage ← ReadRegister16 0x09;
  if match voltage with Some v => 0 <? v | None => false end then mret true else
  status ← ReadRegister16 0x16;
  mret (match status with Some _ => true | None => false end).

Definition on_data (f : Data -> Data) : act bms unit := fun '(s, d) => Some (tt, (s <| data_ ::= f |>, d)).
(** A word is read, and stored if the read succeeds and [keep] accepts it. *)
Definition word_into (reg : Z) (keep : Z -> bool) (f : Z -> Data -> Data) : act bms unit :=
  r ← ReadRegister16 reg;
  match r with Some v => if keep v then on_data (f v) else mret tt | None => mret tt end.
Definition any (_ : Z) : bool := true.
Definition positive (v : Z) : bool := 0 <? v.
Definition milli (v : Z) : f32 := fdiv (f_of_Z v) (f_of_Z 1000).
(** A name is read as a block and trimmed, whether the read succeeded or not. *)
Definition name_into (cmd : Z) (field : Data -> list Z) (f : list Z -> Data -> Data) : act bms unit :=
  s ← get;
  '(_, name) ← ReadBlock i2c_retries cmd (field (data_ s.1)) false;
  name ← of_option (rtrim name);
  on_data (f name).
(** The data that do not change. *)
(* @ sabo_bms_driver.cpp:122-163 SaboBmsDriver::Tick (static) *)
Definition read_static : act bms unit :=
  _ ← name_into 0x20 mfr_name (fun l d => d <| mfr_name := l |>);
  _ ← name_into 0x21 dev_name (fun l d => d <| dev_name := l |>);
  _ ← name_into 0x22 dev_version (fun l d => d <| dev_version := l |>);
  _ ← on_data (fun d => d <| dev_chemistry ::= write_string [76; 73; 79; 78] |>);
  _ ← word_into 0x1B any (fun v d => d <| mfr_date ::= fun l => (SbsDateToYMDString v l).2 |>);
  _ ← word_into 0x1C any (fun v d => d <| serial_number := v |>);
  _ ← word_into 0x18 any (fun v d => d <| design_capacity_ah := milli v |>);
  word_into 0x19 any (fun v d => d <| design_voltage_v := milli v |>).
(* @ sabo_bms_driver.cpp:191-194 SaboBmsDriver::Tick (state of charge) *)
Definition soc_of (v : Z) : f32 :=
  let soc := fdiv (f_of_Z v) (f_of_Z 100) in
  let soc := if flt soc f0 then f0 else soc in
  if fgt soc f1 then f1 else soc.
(** The published status from the pack's own bits. *)
(* @ sabo_bms_driver.cpp:211-228 SaboBmsDriver::Tick (status) *)
Definition published_status (raw : Z) (d : Data) : Z :=
  let put (b : bool) bit st := if b then SetBatteryStatus st bit else ResetBatteryStatus st bit in
  let st := put (negb (Z.land raw 0x800 =? 0)) AlarmTerminateDischarge (battery_status d) in
  let st := put (negb (negb (Z.land raw 0xC0 =? 0) && fgt (pack_current_a d) f0)) StatusDischarging st in
  let charge_accepted := Z.land raw 32 =? 0 in
  let st := put (charge_accepted && fge (battery_soc d) (f_lit 99 100)) StatusFullyCharged st in
  put (negb (Z.land raw 2 =? 0)) StatusFullyDischarged st.
Fixpoint read_cells (i n : nat) : act bms unit :=
  match n with
  | O => mret tt
  | S n =>
    _ ← word_into (u8 (0x3C + Z.of_nat i)) positive (fun v d => d <| cell_voltage_v ::= <[i := milli v]> |>);
    read_cells (S i) n
  end.
(** The data that change. *)
(* @ sabo_bms_driver.cpp:170-249 SaboBmsDriver::Tick (dynamic) *)
Definition read_dynamic : act bms unit :=
  _ ← word_into 0x08 positive (fun v d => d <| temperature_c := fsub (fmul (f_of_Z v) (f_lit 1 10)) (f_lit 27315 100) |>);
  _ ← word_into 0x09 positive (fun v d => d <| pack_voltage_v := milli v |>);
  _ ← word_into 0x0A any (fun v d => d <| pack_current_a := milli (ScaleCurrentRawToMilliA (s16 v)) |>);
  _ ← word_into 0x0D any (fun v d => d <| battery_soc := soc_of v |>);
  _ ← word_into 0x0F positive (fun v d => d <| remaining_capacity_ah := milli v |>);
  _ ← word_into 0x10 positive (fun v d => d <| full_charge_capacity_ah := milli v |>);
  raw ← ReadRegister16 0x16;
  _ ← match raw with
      | Some raw => fun '(s, d) => Some (tt, ((s <| battery_status_ := raw |>) <| data_ ::= fun x => x <| battery_status := published_status raw x |> |>, d))
      | None => mret tt
      end;
  _ ← word_into 0x17 positive (fun v d => d <| cycle_count := v |>);
  read_cells 0 kCellCount.
(* @ sabo_bms_driver.cpp SaboBmsDriver::Tick *)
Definition bms_Tick : act bms unit :=
  s ← get;
  if negb (configured_ s.1) || (negb (present_ s.1) && (check_cnt s.1 =? 0)) then mret tt else
  if present_ s.1 then read_dynamic else
  found ← probe;
  _ ← (fun '(s, d) => Some (tt, (s <| present_ := found |> <| check_cnt ::= fun n => u8 (n - 1) |>, d)));
  if negb found then mret tt else
  _ ← read_static;
  read_dynamic.

(** ** The service *)
Inductive bms_message :=
  | BmsStart | BmsCommit | SendVoltage (v : f32) | SendCurrent (v : f32) | SendRelativeStateOfCharge (v : f32)
  | SendRemainingCapacity (v : f32) | SendFullChargeCapacity (v : f32) | SendCycleCount (v : Z) | SendTemperature (v : f32)
  | SendBatteryStatus (v : Z) | SendExtraData (text : list Z).
(** [bms_data_] is a pointer into the driver once the pack has been present; [extra] is the driver's
    text, of which the service sends [strlen] characters. *)
(* @ bms_service.cpp BmsService::driver_tick_ *)
Definition bms_driver_tick_ (has_bms has_data : bool) : act bms bool :=
  if negb has_bms then mret has_data else
  _ ← bms_Tick; s ← get; mret (if present_ s.1 then true else has_data).
(* @ bms_service.cpp BmsService::service_tick_ *)
Definition bms_service_tick_ (has_data : bool) (extra : option (list Z)) (d : Data) : list bms_message :=
  if negb has_data then [] else
  [BmsStart; SendVoltage (pack_voltage_v d); SendCurrent (pack_current_a d); SendRelativeStateOfCharge (battery_soc d);
   SendRemainingCapacity (remaining_capacity_ah d); SendFullChargeCapacity (full_charge_capacity_ah d);
   SendCycleCount (cycle_count d); SendTemperature (temperature_c d); SendBatteryStatus (battery_status d)] ++
  match extra with Some text => [SendExtraData text] | None => [] end ++ [BmsCommit].
End Bms.

(** ** A pack that answers *)
Section Pack.
Context {D : Type} (i2cMasterTransmit : Z -> list Z -> nat -> D -> Z * list Z * D) (i2cRestart : D -> bool * D) (fuel : nat).
Context (word : Z -> Z) (busy : D -> nat).
(** The pack holds a word per register. It may be [busy], that is, fail the next
    transfers, but for fewer than three at a time; the peripheral restarts in the end. *)
Record pack_answers : Prop := {
  pack_words : forall r, is_u16 (word r);
  pack_busy : forall d, (busy d <= 2)%nat;
  pack_restarts : forall d, exists d', recover i2cRestart fuel d = Some d' /\ busy d' = busy d;
  pack_reads : forall reg d, match busy d with
    | O => exists d', i2cMasterTransmit BMS_ADDRESS [reg] 2 d = (MSG_OK, le_bytes 2 (word reg), d')
    | S n => exists msg rx d', i2cMasterTransmit BMS_ADDRESS [reg] 2 d = (msg, rx, d') /\ msg <> MSG_OK /\ busy d' = n
    end }.
Context (pack : pack_answers).
Abbreviation raw := (@ReadRegisterRaw D i2cMasterTransmit i2cRestart fuel).
Abbreviation read16 := (@ReadRegister16 D i2cMasterTransmit i2cRestart fuel).

Lemma read_raw n reg s d last : (busy d < n)%nat -> exists d', raw n reg 2 last (s, d) = Some ((MSG_OK, le_bytes 2 (word reg)), (s, d')).
Proof.
  revert d last. induction n as [|n IH]; intros d last Hn; [lia|]. cbn [ReadRegisterRaw].
  pose proof (pack_reads pack reg d) as Hr. destruct (busy d) as [|b] eqn:Eb.
  - destruct Hr as (d' & E). exists d'.
    rewrite (act_step _ _ _ (MSG_OK, le_bytes 2 (word reg)) (s, d')) by (unfold I2cMasterTransmit, TransmitWithRecovery; rewrite E; reflexivity).
    reflexivity.
  - destruct Hr as (msg & rx & d1 & E & Hm & Hb). destruct (pack_restarts pack d1) as (d2 & E2 & Hb2).
    destruct (IH d2 (msg, rx)) as (d' & E'); [lia|]. exists d'.
    rewrite (act_step _ _ _ (msg, rx) (s, d2)); rewrite (proj2 (Z.eqb_neq _ _) Hm) || idtac; [exact E'|].
    unfold I2cMasterTransmit, TransmitWithRecovery. rewrite E, (proj2 (Z.eqb_neq _ _) Hm). cbn. rewrite E2. reflexivity.
Qed.
Lemma word_of_bytes w : is_u16 w -> Z.lor (nth 0 (le_bytes 2 w) 0) (u16 (Z.shiftl (nth 1 (le_bytes 2 w) 0) 8)) = w.
Proof.
  intros Hw. cbn [le_bytes nth]. assert (K : Z.shiftl (u8 (w / 256)) 8 = u8 (w / 256) * 256) by (rewrite Z.shiftl_mul_pow2 by lia; reflexivity).
  rewrite u16_small by (rewrite K; width). rewrite Z.lor_comm, lor_hi by width. change (2 ^ 8) with 256. width.
Qed.
Lemma read16_word reg s d : exists d', read16 reg (s, d) = Some (Some (word reg), (s, d')).
Proof.
  destruct (read_raw i2c_retries reg s d (-1, [])) as (d' & E); [pose proof (pack_busy pack d); unfold i2c_retries; lia|].
  exists d'. unfold ReadRegister16. rewrite (act_step _ _ _ _ _ E). cbn [fst snd]. rewrite word_of_bytes by apply pack. reflexivity.
Qed.
Lemma word_into_data reg keep f s d : exists d', word_into i2cMasterTransmit i2cRestart fuel reg keep f (s, d) =
  Some (tt, (if keep (word reg) then s <| data_ ::= f (word reg) |> else s, d')).
Proof.
  destruct (read16_word reg s d) as (d' & E). exists d'. unfold word_into. rewrite (act_step _ _ _ _ _ E). destruct (keep (word reg)); reflexivity.
Qed.
(** The cells, from the [i]-th, [n] of them. *)
Fixpoint cells_read (i n : nat) (l : list f32) : list f32 :=
  match n with
  | O => l
  | S n => cells_read (S i) n (if positive (word (u8 (0x3C + Z.of_nat i))) then <[i := milli (word (u8 (0x3C + Z.of_nat i)))]> l else l)
  end.
Lemma read_cells_data n i s d : exists d', read_cells i2cMasterTransmit i2cRestart fuel i n (s, d) =
  Some (tt, (s <| data_ ::= fun x => x <| cell_voltage_v ::= cells_read i n |> |>, d')).
Proof.
  revert i s d. induction n as [|n IH]; intros i s d; cbn [read_cells].
  - exists d. destruct s as [[] ? ? ? ?]. reflexivity.
  - destruct (word_into_data (u8 (0x3C + Z.of_nat i)) positive (fun v d => d <| cell_voltage_v ::= <[i := milli v]> |>) s d) as (d1 & E1).
    rewrite (act_step _ _ _ _ _ E1).
    destruct (IH (S i) (if positive (word (u8 (0x3C + Z.of_nat i))) then s <| data_ ::= fun x => x <| cell_voltage_v ::= <[i := milli (word (u8 (0x3C + Z.of_nat i)))]> |> |> else s) d1) as (d2 & E2).
    exists d2. rewrite E2. cbn [cells_read]. destruct (positive _); destruct s as [[] ? ? ? ?]; reflexivity.
Qed.
Lemma cells_read_lookup n i l j : cells_read i n l !! j =
  if (i <=? j)%nat && (j <? i + n)%nat && positive (word (u8 (0x3C + Z.of_nat j))) then (fun _ => milli (word (u8 (0x3C + Z.of_nat j)))) <$> l !! j else l !! j.
Proof.
  revert i l. induction n as [|n IH]; intros i l; cbn [cells_read].
  - destruct (Nat.leb_spec i j); [|reflexivity]. destruct (Nat.ltb_spec j (i + 0)); [lia|reflexivity].
  - rewrite IH. destruct (Nat.eq_dec i j) as [<-|Hne].
    + rewrite Nat.leb_refl. destruct (Nat.leb_spec (S i) i); [lia|]. destruct (Nat.ltb_spec i (i + S n)); [|lia]. cbn [andb].
      destruct (positive _); [|reflexivity]. destruct (l !! i) as [x|] eqn:El.
      * rewrite list_lookup_insert_eq by (eapply lookup_lt_Some, El). reflexivity.
      * rewrite list_insert_ge by (apply lookup_ge_None, El). rewrite El. reflexivity.
    + assert (El : (if positive (word (u8 (0x3C + Z.of_nat i))) then <[i:=milli (word (u8 (0x3C + Z.of_nat i)))]> l else l) !! j = l !! j)
        by (destruct (positive (word (u8 (0x3C + Z.of_nat i)))); [apply list_lookup_insert_ne, Hne|reflexivity]).
      rewrite El. destruct (Nat.leb_spec (S i) j), (Nat.leb_spec i j), (Nat.ltb_spec j (S i + n)), (Nat.ltb_spec j (i + S n)); try lia; reflexivity.
Qed.

(** *** The published status *)
Lemma negb_land_bit x k : 0 <= k -> negb (Z.land x (2 ^ k) =? 0) = Z.testbit x k.
Proof.
  intros Hk. destruct (Z.testbit x k) eqn:E.
  - apply negb_true_iff, Z.eqb_neq. intros K. assert (Z.testbit (Z.land x (2 ^ k)) k = true) as H by (rewrite Z.land_spec, E, Z.pow2_bits_true by lia; reflexivity).
    rewrite K, Z.bits_0 in H. discriminate.
  - apply negb_false_iff, Z.eqb_eq. apply Z.bits_inj'. intros n Hn. rewrite Z.land_spec, Z.bits_0, Z.pow2_bits_eqb by lia.
    destruct (Z.eqb_spec k n) as [<-|]; [rewrite E; reflexivity|apply andb_false_r].
Qed.
Definition put_bit (b : bool) (bit : BatteryStatusBit) (st : Z) : Z := if b then SetBatteryStatus st bit else ResetBatteryStatus st bit.
Lemma bit_of_range bit : 0 <= bit_of bit < 16.
Proof. destruct bit; cbn; lia. Qed.
Lemma put_bit_ok b bit st : is_u16 st -> is_u16 (put_bit b bit st) /\
  forall n, 0 <= n -> Z.testbit (put_bit b bit st) n = if n =? bit_of bit then b else Z.testbit st n.
Proof.
  intros Hst. pose proof (bit_of_range bit) as Hb. rewrite <- (u16_small st Hst). split.
  - destruct b; cbn [put_bit]; [|apply u16_range]. apply u16_lor; [apply u16_range|].
    rewrite Z.shiftl_1_l. split; [apply Z.pow_nonneg; lia|]. change 65536 with (2 ^ 16). apply Z.pow_lt_mono_r; lia.
  - intros n Hn. unfold put_bit, SetBatteryStatus, ResetBatteryStatus. rewrite Z.shiftl_1_l. destruct b.
    + rewrite Z.lor_spec, Z.pow2_bits_eqb by lia. rewrite (Z.eqb_sym n). destruct (_ =? n); [apply orb_true_r|apply orb_false_r].
    + unfold u16 at 1, u32. change 65536 with (2 ^ 16) at 1. change 4294967296 with (2 ^ 32).
      destruct (Z.lt_ge_cases n 16) as [Hlt|Hge].
      * rewrite Z.mod_pow2_bits_low, Z.land_spec, Z.mod_pow2_bits_low, Z.lnot_spec, Z.pow2_bits_eqb by lia. rewrite (Z.eqb_sym n).
        destruct (_ =? n); [apply andb_false_r|apply andb_true_r].
      * rewrite Z.mod_pow2_bits_high by lia. destruct (Z.eqb_spec n (bit_of bit)); [reflexivity|].
        unfold u16. change 65536 with (2 ^ 16). rewrite Z.mod_pow2_bits_high by lia. reflexivity.
Qed.
Lemma published_bits w x n : is_u16 (battery_status x) -> 0 <= n -> Z.testbit (published_status w x) n =
  if n =? 4 then Z.testbit w 1 else if n =? 5 then negb (Z.testbit w 5) && fge (battery_soc x) (f_lit 99 100)
  else if n =? 6 then negb ((Z.testbit w 6 || Z.testbit w 7) && fgt (pack_current_a x) f0)
  else if n =? 11 then Z.testbit w 11 else Z.testbit (battery_status x) n.
Proof.
  intros Hx Hn. unfold published_status. fold (put_bit).
  change (Z.land w 0x800) with (Z.land w (2 ^ 11)). change (Z.land w 2) with (Z.land w (2 ^ 1)). change (Z.land w 32) with (Z.land w (2 ^ 5)).
  assert (E6 : negb (Z.land w 0xC0 =? 0) = Z.testbit w 6 || Z.testbit w 7).
  { rewrite <- !negb_land_bit by lia. change 0xC0 with (Z.lor (2 ^ 6) (2 ^ 7)). rewrite Z.land_lor_distr_r.
    destruct (Z.eqb_spec (Z.land w (2 ^ 6)) 0) as [->|H6]; [reflexivity|]. apply negb_true_iff, Z.eqb_neq. intros K. apply Z.lor_eq_0_iff in K. tauto. }
  rewrite E6, !negb_land_bit by lia. rewrite <- (negb_involutive (Z.land w (2 ^ 5) =? 0)), negb_land_bit by lia.
  set (b1 := Z.testbit w 11). set (b2 := negb (_ && fgt _ _)). set (b3 := negb _ && fge _ _). set (b4 := Z.testbit w 1).
  destruct (put_bit_ok b1 AlarmTerminateDischarge (battery_status x) Hx) as [U1 T1].
  destruct (put_bit_ok b2 StatusDischarging _ U1) as [U2 T2]. destruct (put_bit_ok b3 StatusFullyCharged _ U2) as [U3 T3].
  destruct (put_bit_ok b4 StatusFullyDischarged _ U3) as [_ T4].
  etransitivity; [exact (T4 n Hn)|]. rewrite T3, T2, T1 by exact Hn. reflexivity.
Qed.

(** *** A tick *)
Definition keep_positive (reg : Z) (old : f32) : f32 := if positive (word reg) then fdiv (f_of_Z (word reg)) (f_of_Z 1000) else old.
(** A word stored in the data if it is accepted. *)
Definition stored_word (reg : Z) (keep : Z -> bool) (f : Z -> Data -> Data) (o : Data) : Data :=
  if keep (word reg) then f (word reg) o else o.
(** What a tick makes of the data: before the status, and after it. *)
Definition measured (o : Data) : Data :=
  let o := stored_word 0x08 positive (fun v x => x <| temperature_c := fsub (fmul (f_of_Z v) (f_lit 1 10)) (f_lit 27315 100) |>) o in
  let o := stored_word 0x09 positive (fun v x => x <| pack_voltage_v := milli v |>) o in
  let o := stored_word 0x0A any (fun v x => x <| pack_current_a := milli (ScaleCurrentRawToMilliA (s16 v)) |>) o in
  let o := stored_word 0x0D any (fun v x => x <| battery_soc := soc_of v |>) o in
  let o := stored_word 0x0F positive (fun v x => x <| remaining_capacity_ah := milli v |>) o in
  stored_word 0x10 positive (fun v x => x <| full_charge_capacity_ah := milli v |>) o.
Definition updated (o : Data) : Data :=
  let o := measured o in
  let o := o <| battery_status := published_status (word 0x16) o |> in
  let o := stored_word 0x17 positive (fun v x => x <| cycle_count := v |>) o in
  o <| cell_voltage_v ::= cells_read 0 kCellCount |>.
Lemma data_twice (s : SaboBms) f h : (s <| data_ ::= f |>) <| data_ ::= h |> = s <| data_ ::= fun o => h (f o) |>.
Proof. destruct s. reflexivity. Qed.
Lemma word_into_stored reg keep f s d : exists d', word_into i2cMasterTransmit i2cRestart fuel reg keep f (s, d) =
  Some (tt, (s <| data_ ::= stored_word reg keep f |>, d')).
Proof.
  destruct (word_into_data reg keep f s d) as (d' & E). exists d'. rewrite E. unfold stored_word. destruct (keep _), s; reflexivity.
Qed.
Ltac next_word := match goal with |- exists _, mbind _ (word_into _ _ _ ?reg ?keep ?f) (?s, ?d) = _ =>
  let d' := fresh "d" in let E := fresh "E" in destruct (word_into_stored reg keep f s d) as (d' & E); rewrite (act_step _ _ _ _ _ E); clear E end.
Lemma read_dynamic_updated s d : exists d', read_dynamic i2cMasterTransmit i2cRestart fuel (s, d) =
  Some (tt, (s <| data_ ::= updated |> <| battery_status_ := word 0x16 |>, d')).
Proof.
  unfold read_dynamic. do 6 next_word. rewrite !data_twice.
  match goal with |- exists _, mbind _ _ (?s1, ?d1) = _ => change s1 with (s <| data_ ::= measured |>); destruct (read16_word 0x16 (s <| data_ ::= measured |>) d1) as (d7 & E7) end.
  rewrite (act_step _ _ _ _ _ E7). clear E7.
  set (s7 := (s <| battery_status_ := word 0x16 |>) <| data_ ::= fun o => (measured o) <| battery_status := published_status (word 0x16) (measured o) |> |>).
  rewrite (act_step _ _ _ tt (s7, d7)) by reflexivity. next_word.
  match goal with |- exists _, read_cells _ _ _ _ _ (?s1, ?d1) = _ => destruct (read_cells_data kCellCount 0 s1 d1) as (d9 & E9) end.
  exists d9. rewrite E9. unfold s7. rewrite !data_twice. reflexivity.
Qed.
Ltac stored_words := unfold updated, measured, stored_word, keep_positive;
  destruct (positive (word 0x08)), (positive (word 0x09)), (positive (word 0x0F)), (positive (word 0x10)), (positive (word 0x17)); reflexivity.
Lemma updated_voltage o : pack_voltage_v (updated o) = keep_positive 0x09 (pack_voltage_v o).
Proof. stored_words. Qed.
Lemma updated_current o : pack_current_a (updated o) = milli (ScaleCurrentRawToMilliA (s16 (word 0x0A))).
Proof. stored_words. Qed.
Lemma updated_soc o : battery_soc (updated o) = soc_of (word 0x0D).
Proof. stored_words. Qed.
Lemma updated_remaining o : remaining_capacity_ah (updated o) = keep_positive 0x0F (remaining_capacity_ah o).
Proof. stored_words. Qed.
Lemma updated_full o : full_charge_capacity_ah (updated o) = keep_positive 0x10 (full_charge_capacity_ah o).
Proof. stored_words. Qed.
Lemma updated_cycles o : cycle_count (updated o) = if positive (word 0x17) then word 0x17 else cycle_count o.
Proof. stored_words. Qed.
Lemma updated_cells o : cell_voltage_v (updated o) = cells_read 0 kCellCount (cell_voltage_v o).
Proof. stored_words. Qed.
Lemma updated_temperature o : temperature_c (updated o) =
  if positive (word 0x08) then fsub (fmul (f_of_Z (word 0x08)) (f_lit 1 10)) (f_lit 27315 100) else temperature_c o.
Proof. stored_words. Qed.
Lemma updated_status o : battery_status (updated o) = published_status (word 0x16) (measured o).
Proof. unfold updated, stored_word. destruct (positive (word 0x17)); reflexivity. Qed.
Lemma measured_same o : battery_status (measured o) = battery_status o /\ battery_soc (measured o) = soc_of (word 0x0D) /\
  pack_current_a (measured o) = milli (ScaleCurrentRawToMilliA (s16 (word 0x0A))).
Proof. split; [|split]; stored_words. Qed.

Lemma soc_of_cases v : soc_of v = (let c := fdiv (f_of_Z v) (f_of_Z 100) in if flt c f0 then f0 else if fgt c f1 then f1 else c).
Proof. unfold soc_of. cbv zeta. destruct (flt _ f0); reflexivity. Qed.

(** C22. The published battery data follow the pack. With the pack present, a tick
    over a bus on which up to two transfers in a row fail returns, and then the pack's and the
    cells' voltages are the pack's millivolts over 1000, the capacities its milliampere-hours
    over 1000, the current its scaled reading over 1000, the temperature its tenths of a
    kelvin over 10 less 273.15, the charge its percentage over 100 kept within 0 and 1, a zero
    leaving the old value where zero means nothing; of the status the four known bits follow
    the pack's own bits, its current and its charge, and no other bit changes. *)
Theorem tick_follows_pack s d : configured_ s = true -> present_ s = true -> is_u16 (battery_status (data_ s)) ->
  exists s' d', bms_Tick i2cMasterTransmit i2cRestart fuel (s, d) = Some (tt, (s', d')) /\ present_ s' = true /\
    let o := data_ s in let x := data_ s' in
    temperature_c x = (if positive (word 0x08) then fsub (fmul (f_of_Z (word 0x08)) (f_lit 1 10)) (f_lit 27315 100) else temperature_c o) /\
    pack_voltage_v x = keep_positive 0x09 (pack_voltage_v o) /\
    pack_current_a x = fdiv (f_of_Z (ScaleCurrentRawToMilliA (s16 (word 0x0A)))) (f_of_Z 1000) /\
    battery_soc x = (let c := fdiv (f_of_Z (word 0x0D)) (f_of_Z 100) in if flt c f0 then f0 else if fgt c f1 then f1 else c) /\ remaining_capacity_ah x = keep_positive 0x0F (remaining_capacity_ah o) /\
    full_charge_capacity_ah x = keep_positive 0x10 (full_charge_capacity_ah o) /\
    cycle_count x = (if positive (word 0x17) then word 0x17 else cycle_count o) /\
    (forall j, (j < 7)%nat -> cell_voltage_v x !! j = keep_positive (0x3C + Z.of_nat j) <$> cell_voltage_v o !! j) /\
    (forall n, 0 <= n -> Z.testbit (battery_status x) n =
      if n =? 4 then Z.testbit (word 0x16) 1 else if n =? 5 then negb (Z.testbit (word 0x16) 5) && fge (battery_soc x) (f_lit 99 100)
      else if n =? 6 then negb ((Z.testbit (word 0x16) 6 || Z.testbit (word 0x16) 7) && fgt (pack_current_a x) f0)
      else if n =? 11 then Z.testbit (word 0x16) 11 else Z.testbit (battery_status o) n).
Proof.
  intros Hc Hp Hst. destruct (read_dynamic_updated s d) as (d' & E). eexists _, d'. split.
  { unfold bms_Tick. rewrite act_get. cbn [fst]. rewrite Hc, Hp. cbn [negb orb andb]. exact E. }
  split; [exact Hp|]. cbv zeta.
  change (data_ (s <| data_ ::= updated |> <| battery_status_ := word 0x16 |>)) with (updated (data_ s)).
  rewrite updated_temperature, updated_voltage, updated_current, updated_soc, updated_remaining, updated_full, updated_cycles, updated_cells, updated_status.
  do 3 (split; [reflexivity|]). split; [apply soc_of_cases|]. do 3 (split; [reflexivity|]). split.
  - intros j Hj. rewrite cells_read_lookup. destruct (Nat.ltb_spec j (0 + kCellCount)); [|unfold kCellCount in *; lia]. cbn [andb Nat.leb].
    replace (u8 (0x3C + Z.of_nat j)) with (0x3C + Z.of_nat j) by width. unfold keep_positive.
    destruct (positive _); [reflexivity|]. destruct (_ !! j); reflexivity.
  - intros n Hn. destruct (measured_same (data_ s)) as (Es & Eq & Ec). rewrite published_bits, Es, Eq, Ec by (rewrite ?Es; assumption). reflexivity.
Qed.
End Pack.

(** ** Block reads *)
Section Block.
Context {D : Type} (i2cMasterTransmit : Z -> list Z -> nat -> D -> Z * list Z * D) (i2cRestart : D -> bool * D) (fuel : nat).
(** A block that the pack sends in full is the string in the array, and trimming it succeeds. *)
Lemma ReadBlock_reads cmd data s d d' payload junk n last : length data = 33%nat -> (length payload <= 32)%nat -> length (payload ++ junk) = 32%nat ->
  i2cMasterTransmit BMS_ADDRESS [cmd] 33 d = (MSG_OK, Z.of_nat (length payload) :: payload ++ junk, d') ->
  exists rest, ReadBlock i2cMasterTransmit i2cRestart fuel (S n) cmd data last (s, d) = Some ((true, payload ++ 0 :: rest), (s, d')).
Proof.
  intros Hd Hp Hj E. cbn [ReadBlock]. rewrite Hd. cbn [Nat.min].
  rewrite (act_step _ _ _ (MSG_OK, Z.of_nat (length payload) :: payload ++ junk) (s, d')) by (unfold I2cMasterTransmit, TransmitWithRecovery; rewrite E; reflexivity).
  assert (Er : received 33 (Z.of_nat (length payload) :: payload ++ junk) data = Z.of_nat (length payload) :: payload ++ junk).
  { unfold received. rewrite take_ge by (cbn; lia). cbn [length]. rewrite Hj, drop_ge by lia. cbn. rewrite app_nil_r. reflexivity. }
  cbn [Z.eqb negb]. change (MSG_OK =? MSG_OK) with true. cbn [negb]. rewrite Er. cbn [nth].
  destruct (Z.ltb_spec 32 (Z.of_nat (length payload))); [lia|]. rewrite Nat2Z.id.
  destruct (Nat.ltb_spec 33 (1 + length payload)); [lia|]. cbn [drop skipn]. rewrite drop_0.
  rewrite take_app_le, take_ge by lia. set (l := payload ++ drop (length payload) _).
  assert (Hl : length l = 33%nat) by (unfold l; rewrite length_app, length_drop; cbn; rewrite Hj; lia).
  rewrite Hl. destruct (Nat.ltb_spec (length payload) 33); [|lia].
  assert (Hi : exists x rest, drop (length payload) (Z.of_nat (length payload) :: payload ++ junk) = x :: rest).
  { destruct (drop (length payload) _) as [|x rest] eqn:Ed; [|eauto]. apply (f_equal length) in Ed. rewrite length_drop in Ed. cbn in Ed. rewrite Hj in Ed. lia. }
  destruct Hi as (x & rest & Ei). exists rest. unfold l. rewrite Ei, insert_app_r_alt, Nat.sub_diag by lia. reflexivity.
Qed.
Lemma strlen_terminated payload rest : exists n, strlen (payload ++ 0 :: rest) = Some n.
Proof. induction payload as [|x l [n IH]]; cbn; [eauto|]. destruct (x =? 0); [eauto|]. rewrite IH. cbn. eauto. Qed.
Lemma rtrim_terminated payload rest : exists l, rtrim (payload ++ 0 :: rest) = Some l.
Proof. unfold rtrim. destruct (nth 0 _ 0 =? 0); [eauto|]. destruct (strlen_terminated payload rest) as (n & ->). cbn. eauto. Qed.
End Block.

(** ** A pack at work *)
Module BmsDemo.
(** The pack is the number of transfers it is going to fail; after an answer it fails one. *)
Definition demo_word (r : Z) : Z :=
  match r with 0x08 => 2982 | 0x09 => 25200 | 0x0A => 65436 | 0x0D => 80 | 0x0F => 3100 | 0x10 => 3900 | 0x16 => 0x0862 | 0x17 => 12
  | 0x3C => 3600 | 0x3D => 0 | _ => 3590 end.
Definition demo_transmit (addr : Z) (tx : list Z) (rx_len : nat) (d : nat) : Z * list Z * nat :=
  match d with O => (MSG_OK, take rx_len (le_bytes 2 (demo_word (nth 0 tx 0)) ++ replicate 31 65), 1%nat) | S n => (-1, [], n) end.
Definition demo_busy (d : nat) : nat := Nat.min d 2.
Definition demo_restart (d : nat) : bool * nat := (true, d).
Definition few (d : nat) : nat := Nat.min d 2.
Definition demo_bus (addr : Z) (tx : list Z) (rx_len : nat) (d : nat) : Z * list Z * nat := demo_transmit addr tx rx_len (few d).
Lemma demo_word_u16 r : is_u16 (demo_word r).
Proof. unfold demo_word. repeat case_match; width. Qed.
Lemma demo_pack : pack_answers demo_bus demo_restart 1 demo_word demo_busy.
Proof.
  split.
  - apply demo_word_u16.
  - intros d. unfold demo_busy. lia.
  - intros d. exists d. auto.
  - intros reg d. unfold demo_bus, few, demo_busy. destruct (Nat.min d 2) as [|n] eqn:E; cbn [demo_transmit].
    + eexists. reflexivity.
    + eexists _, _, _. split; [reflexivity|]. split; [discriminate|]. lia.
Qed.
Definition present_bms : SaboBms := new_SaboBms <| configured_ := true |> <| present_ := true |>.
Lemma tick_witness : exists s' d', bms_Tick demo_bus demo_restart 1 (present_bms, 2%nat) = Some (tt, (s', d')) /\
  Z.testbit (battery_status (data_ s')) 6 = true /\ cell_voltage_v (data_ s') !! 1%nat = Some f0.
Proof.
  destruct (tick_follows_pack demo_bus demo_restart 1 demo_word demo_busy demo_pack present_bms 2%nat eq_refl eq_refl ltac:(vm_compute; intuition congruence))
    as (s' & d' & E & _ & _ & _ & Hc & _ & _ & _ & _ & Hcells & Hbits).
  exists s', d'. split; [exact E|]. split.
  - rewrite (Hbits 6) by lia. rewrite Hc. vm_compute. reflexivity.
  - rewrite (Hcells 1%nat) by lia. vm_compute. reflexivity.
Defined.
(** 27 December 2025 is a date, 30 February is none. *)
Example dates :
  (SbsDateToYMDString (45 * 512 + 12 * 32 + 27) (replicate 11 0), (SbsDateToYMDString (45 * 512 + 2 * 32 + 30) (replicate 11 1)).1) =
  (true, [50; 48; 50; 53; 45; 49; 50; 45; 50; 55; 0], false).
Proof. vm_compute. reflexivity. Qed.
(** A block whose length byte says more than 32 stays in the name without a terminator, and trimming runs past its end. *)
Example bad_length_overruns :
  name_into (fun _ _ n d => (MSG_OK, replicate n 0x41, d)) demo_restart 1 0x20 mfr_name (fun l d => d <| mfr_name := l |>) (present_bms, 0%nat) = None.
Proof. vm_compute. reflexivity. Qed.
End BmsDemo.
