(* ===== verification/BmsJson.v ===== *)
(** The battery pack's data as a JSON text ([SaboBmsDriver::GetExtraDataJson]), which the service sends with every
    report. The text is built in a buffer of 512 bytes; the theorem is that it is whole in every state the driver reaches. *)
From Stdlib Require Import Reals Lra.
From S2P Require Import Prelude Float32 FloatError Chprintf Json Charger Bms.

(** A literal of the code, with its double quotes written as single ones. *)
Definition json (s : string) : list Z := map (fun c => if c =? 39 then 34 else c) (marker s).
(* @ sabo_bms_driver.cpp:255-255 SaboBmsDriver::GetExtraDataJson (json_buf) *)
Definition json_size : nat := 512.
(* @ sabo_bms_driver.cpp:264-264 SaboBmsDriver::GetExtraDataJson (esc_str) *)
Definition esc_size : nat := 60.
(** The string in an array, which must have a terminator; and what it is escaped to. *)
Definition str (l : list Z) : option (list Z) := n ← strlen l; Some (take n l).
Definition esc (l : list Z) : option (list Z) := s ← str l; Some (take (EscapeStringInto s esc_size).2 (EscapeStringInto s esc_size).1).
(** [chars += chsnprintf(json_buf + chars, sizeof(json_buf) - chars, ...)]. *)
(* @ sabo_bms_driver.cpp:269-269 SaboBmsDriver::GetExtraDataJson (print) *)
Definition print (fmt : list Z) (args : list arg) : list Z * Z -> option (list Z * Z) := fun '(json_buf, chars) =>
  '(tail, n) ← chsnprintf (drop (Z.to_nat chars) json_buf) (u32 (Z.of_nat json_size - chars)) fmt args;
  chars' ← int (chars + n);
  Some (take (Z.to_nat chars) json_buf ++ tail, chars').
(* @ sabo_bms_driver.cpp:290-293 SaboBmsDriver::GetExtraDataJson (cells) *)
Fixpoint print_cells (cells : list f32) (st : list Z * Z) : option (list Z * Z) :=
  match cells with
  | [] => Some st
  | v :: cells => st ← print (json "%.3f%s") [ArgF v; ArgS (match cells with [] => [] | _ => [44] end)] st; print_cells cells st
  end.
(** The static buffer, before and after. *)
(* @ sabo_bms_driver.cpp SaboBmsDriver::GetExtraDataJson *)
Definition GetExtraDataJson (s : SaboBms) (json_buf : list Z) : option (list Z) :=
  let json_buf := <[0%nat := 0]> json_buf in
  if negb (present_ s) then Some json_buf else
  let d := data_ s in
  esc_str ← esc (mfr_name d);
  st ← print (json "{'mfr_name':'%s'") [ArgS esc_str] (json_buf, 0);
  date ← str (mfr_date d);
  st ← print (json ",'mfr_date':'%s'") [ArgS date] st;
  esc_str ← esc (dev_name d);
  st ← print (json ",'dev_name':'%s'") [ArgS esc_str] st;
  esc_str ← esc (dev_version d);
  st ← print (json ",'dev_version':'%s'") [ArgS esc_str] st;
  esc_str ← esc (dev_chemistry d);
  st ← print (json ",'dev_chemistry':'%s'") [ArgS esc_str] st;
  st ← print (json ",'serial_number':%u,'design_capacity_ah':%.3f,'design_voltage_v':%.3f") [ArgZ (serial_number d); ArgF (design_capacity_ah d); ArgF (design_voltage_v d)] st;
  st ← print (json ",'status':%u") [ArgZ (battery_status_ s)] st;
  st ← print (json ",'cell_count':%u,'cell_voltage_v': [") [ArgZ (Z.of_nat kCellCount)] st;
  st ← print_cells (take kCellCount (cell_voltage_v d)) st;
  '(json_buf, chars) ← print (json "]}") [] st;
  Some (if chars <=? 0 then <[0%nat := 0]> json_buf else json_buf).

(** ** Printing one after the other *)
(** The buffer holds a text, which fits. *)
Definition holds (text : list Z) (st : list Z * Z) : Prop :=
  exists rest, st = (text ++ 0 :: rest, Z.of_nat (length text)) /\ length (text ++ 0 :: rest) = json_size.
Lemma print_ok text st fmt args out : holds text st -> chvprintf fmt args = Some out -> (length text + length out < json_size)%nat ->
  exists st', print fmt args st = Some st' /\ holds (text ++ out) st'.
Proof.
  intros (rest & -> & L) E H. unfold json_size in *. rewrite length_app in L. cbn [length] in L.
  assert (Ez : u32 (512 - Z.of_nat (length text)) = 512 - Z.of_nat (length text)) by (apply u32_small; unfold is_u32; lia).
  unfold print, json_size. rewrite Nat2Z.id, drop_app_length, take_app_length. change (Z.of_nat 512) with 512. rewrite Ez.
  rewrite (chsnprintf_ok (0 :: rest) (512 - Z.of_nat (length text)) fmt args out) by (assumption || (cbn [length]; lia)). cbn [mbind option_bind]. unfold int, INT_MIN, INT_MAX.
  rewrite (proj2 (Z.leb_le _ _)), (proj2 (Z.leb_le _ _)) by lia. cbn [andb mbind option_bind]. eexists. split; [reflexivity|].
  unfold stored. rewrite (proj2 (Z.leb_gt _ _)) by lia. rewrite take_ge by lia. eexists. split.
  - rewrite <- app_assoc, length_app, Nat2Z.inj_add. reflexivity.
  - rewrite !length_app. cbn [length]. rewrite length_drop. unfold json_size. cbn [length]. lia.
Qed.

(** ** What is printed *)
Definition small (x : f32) : Prop := valid_binary 24 128 x = true /\ is_finite x = true /\ (0 <= FV x < 100)%R.
(** A number with three digits behind the point, in at most six characters. *)
Definition volts_text (x : f32) (l : list Z) : Prop := exists ip fp, l = ip ++ 46 :: fp /\ decimal (FV x) 3 ip fp.
Definition unsigned_text (z : Z) (l : list Z) : Prop := Chprintf.digits l /\ value 10 l = z /\ shortest 10 z l.
Lemma small_float x rest args : small x -> exists l, directive (46 :: 51 :: 102 :: rest) (ArgF x :: args) = Some (Some (l, rest, args)) /\ volts_text x l /\ (length l <= 6)%nat.
Proof.
  intros (V & F & B). destruct (directive_float x 3 rest args V F) as (b & ip & fp & E & S1 & D); [rewrite Rabs_right by lra; eapply Rlt_trans; [apply B|apply IZR_lt; reflexivity]|lia|].
  rewrite Rabs_right in D by lra. assert (b = false) as -> by (destruct b; [destruct S1 as [S1 _]; specialize (S1 eq_refl); lra|reflexivity]).
  exists (ip ++ 46 :: fp). split; [exact E|]. split; [exists ip, fp; auto|]. assert (length ip <= 2)%nat by (apply (decimal_ip_length (FV x) 3 ip fp 2 D); [lia|change (10 ^ Z.of_nat 2) with 100; apply B|lia]).
  destruct D as [_ _ _ D4 _ _]. rewrite length_app. cbn [length]. lia.
Qed.
Lemma unsigned_16 z rest args : is_u16 z -> exists l, directive (117 :: rest) (ArgZ z :: args) = Some (Some (l, rest, args)) /\ unsigned_text z l /\ (length l <= 5)%nat.
Proof.
  unfold is_u16. intros Hz. destruct (directive_unsigned z rest args) as (ds & E & L & D & V & S1). rewrite u32_small in V, S1 by (unfold is_u32; lia).
  exists ds. split; [exact E|]. split; [split; [exact D|split; assumption]|]. apply (shortest_length 10 z ds 5); [lia|exact S1|cbn; lia|lia].
Qed.
(** A text, then a directive. *)
Lemma print_next t fmt text rest args args' out : Forall (fun c => c <> 37) t -> directive fmt args = Some (Some (text, rest, args')) -> chvprintf rest args' = Some out ->
  chvprintf (t ++ 37 :: fmt) args = Some (t ++ text ++ out).
Proof. intros Ht E R. rewrite chvprintf_text by exact Ht. rewrite (chvprintf_directive _ _ _ _ _ E), R. reflexivity. Qed.
Lemma print_end t args : Forall (fun c => c <> 37) t -> chvprintf t args = Some t.
Proof. intros H. rewrite <- (app_nil_r t) at 1. rewrite chvprintf_text, chvprintf_nil by exact H. cbn. rewrite app_nil_r. reflexivity. Qed.
(** A string between quotes. *)
Lemma print_quoted t s args : Forall (fun c => c <> 37) t -> Z.of_nat (length s) <= 32767 -> chvprintf (t ++ [37; 115; 34]) (ArgS s :: args) = Some (t ++ s ++ [34]).
Proof.
  intros Ht H. apply (print_next t _ s [34] _ args); [exact Ht|apply directive_string, H|]. apply print_end. constructor; [discriminate|constructor].
Qed.
Lemma all_but (x : Z) l : forallb (fun c => negb (c =? x)) l = true -> Forall (fun c => c <> x) l.
Proof. intros H. apply List.Forall_forall. intros c Hc. rewrite forallb_forall in H. specialize (H c Hc). bsimp. assumption. Qed.
Ltac plain := apply all_but; vm_compute; reflexivity.

(** ** Strings *)
Definition is_text (l : list Z) : Prop := Forall (fun c => 0 < c < 256) l.
Lemma strlen_text l n : is_bytes l -> strlen l = Some n -> is_text (take n l) /\ (n < length l)%nat.
Proof.
  revert n. induction l as [|c l IH]; intros n H; cbn; [discriminate|]. inversion H as [|? ? Hc Hl]; subst. destruct (Z.eqb_spec c 0); [intros [= <-]; split; [constructor|cbn; lia]|].
  destruct (strlen l) as [k|]; [|discriminate]. intros [= <-]. destruct (IH k Hl eq_refl). cbn. split; [constructor; [unfold is_u8 in Hc; lia|assumption]|lia].
Qed.
(** A name's text: what the escaping leaves of it; it is read back when it is not cut. *)
Definition name_text (field l : list Z) : Prop := exists s, str field = Some s /\
  l = take (esc_size - 1) (escaped s) /\ ((length (escaped s) < esc_size)%nat -> unescape l = Some s).
Lemma hex_digit_nonzero y : hex_digit (Z.land y 15) <> 0.
Proof. unfold hex_digit. assert (0 <= Z.land y 15) by (apply Z.land_nonneg; lia). destruct (_ <? 10); lia. Qed.
Lemma replacement_nonzero x c : x <> 0 -> In c (replacement x) -> c <> 0.
Proof.
  intros Hx. unfold replacement. repeat (match goal with |- context [if ?b then _ else _] => destruct b eqn:? end; [cbn; intuition (subst; discriminate || (eapply hex_digit_nonzero; eassumption))|]).
  cbn. intuition congruence.
Qed.
Lemma esc_ok field n : is_bytes field -> strlen field = Some n -> exists l, esc field = Some l /\ name_text field l /\ (length l < esc_size)%nat /\ Forall (fun c => c <> 0) l.
Proof.
  intros Hb Hn. destruct (strlen_text field n Hb Hn) as [Ht _]. unfold esc, str. rewrite Hn. cbn [mbind option_bind].
  assert (E : EscapeStringInto (take n field) esc_size = (take (esc_size - 1) (escaped (take n field)) ++ [0], length (take (esc_size - 1) (escaped (take n field))))).
  { unfold EscapeStringInto. cbn [esc_size Nat.eqb]. rewrite escape_loop_take by (cbn; unfold esc_size; lia). cbn [length app]. reflexivity. }
  rewrite E. cbn [fst snd]. rewrite take_app_length. exists (take (esc_size - 1) (escaped (take n field))). split; [reflexivity|]. split; [|split].
  - exists (take n field). unfold str. rewrite Hn. split; [reflexivity|]. split; [reflexivity|]. intros L. rewrite take_ge by (unfold esc_size in *; lia). apply unescape_escaped, Ht.
  - rewrite length_take. unfold esc_size. lia.
  - apply Forall_take. unfold escaped. apply List.Forall_forall. intros c Hc. apply in_concat in Hc as (r & Hr & Hc). apply in_map_iff in Hr as (x & <- & Hx).
    unfold is_text in Ht. rewrite List.Forall_forall in Ht. specialize (Ht x Hx). apply (replacement_nonzero x); [lia|exact Hc].
Qed.

(** ** The text *)
Fixpoint joined (l : list (list Z)) : list Z := match l with [] => [] | x :: l => x ++ match l with [] => [] | _ => 44 :: joined l end end.
(** What the driver's data must be for the text to be whole. *)
Record json_ready (d : Data) : Prop := {
  ready_mfr : is_bytes (mfr_name d) /\ exists n, strlen (mfr_name d) = Some n;
  ready_dev : is_bytes (dev_name d) /\ exists n, strlen (dev_name d) = Some n;
  ready_version : is_bytes (dev_version d) /\ exists n, strlen (dev_version d) = Some n;
  ready_chemistry : is_bytes (dev_chemistry d) /\ exists n, strlen (dev_chemistry d) = Some n;
  ready_date : is_bytes (mfr_date d) /\ length (mfr_date d) = 11%nat /\ exists n, strlen (mfr_date d) = Some n;
  ready_serial : is_u16 (serial_number d);
  ready_capacity : small (design_capacity_ah d);
  ready_voltage : small (design_voltage_v d);
  ready_cells : length (cell_voltage_v d) = 8%nat /\ Forall small (cell_voltage_v d) }.
(** The text, piece by piece. *)
Definition extra_data (d : Data) (status : Z) (text : list Z) : Prop := exists mfr date dev version chemistry serial capacity voltage stat cells,
  name_text (mfr_name d) mfr /\ str (mfr_date d) = Some date /\ name_text (dev_name d) dev /\ name_text (dev_version d) version /\ name_text (dev_chemistry d) chemistry /\
  unsigned_text (serial_number d) serial /\ volts_text (design_capacity_ah d) capacity /\ volts_text (design_voltage_v d) voltage /\ unsigned_text status stat /\
  Forall2 volts_text (take kCellCount (cell_voltage_v d)) cells /\
  text = json "{'mfr_name':'" ++ mfr ++ json "','mfr_date':'" ++ date ++ json "','dev_name':'" ++ dev ++ json "','dev_version':'" ++ version ++ json "','dev_chemistry':'" ++ chemistry ++
    json "','serial_number':" ++ serial ++ json ",'design_capacity_ah':" ++ capacity ++ json ",'design_voltage_v':" ++ voltage ++ json ",'status':" ++ stat ++
    json ",'cell_count':7,'cell_voltage_v': [" ++ joined cells ++ json "]}".
Lemma print_quoted_ok text st s t : holds text st -> Forall (fun c => c <> 37) t -> (length text + length t + length s + 1 < json_size)%nat ->
  exists st', print (t ++ [37; 115; 34]) [ArgS s] st = Some st' /\ holds (text ++ t ++ s ++ [34]) st'.
Proof.
  intros H Ht L. apply print_ok; [exact H|apply print_quoted; [exact Ht|unfold json_size in L; lia]|]. rewrite !length_app. cbn [length]. lia.
Qed.
Lemma print_unsigned_ok text st t t2 z : holds text st -> Forall (fun c => c <> 37) t -> Forall (fun c => c <> 37) t2 -> is_u16 z -> (length text + length t + length t2 + 5 < json_size)%nat ->
  exists l st', print (t ++ 37 :: 117 :: t2) [ArgZ z] st = Some st' /\ holds (text ++ t ++ l ++ t2) st' /\ unsigned_text z l /\ (length l <= 5)%nat.
Proof.
  intros H Ht Ht2 Hz L. destruct (unsigned_16 z t2 [] Hz) as (l & E & U & Ll). exists l.
  destruct (print_ok text st (t ++ 37 :: 117 :: t2) [ArgZ z] (t ++ l ++ t2) H) as (st' & P & H'); [apply (print_next t _ l t2 _ [] t2); [exact Ht|exact E|apply print_end, Ht2]|rewrite !length_app; lia|].
  exists st'. auto.
Qed.
Lemma print_cells_ok cells : forall text st, holds text st -> Forall small cells -> (length text + 7 * length cells < json_size)%nat ->
  exists ls st', print_cells cells st = Some st' /\ holds (text ++ joined ls) st' /\ Forall2 volts_text cells ls /\ (length (joined ls) <= 7 * length cells)%nat.
Proof.
  induction cells as [|v cells IH]; intros text st H Hs L; [exists [], st; rewrite app_nil_r; auto|]. inversion Hs as [|? ? Hv Hr]; subst. cbn [print_cells length] in *.
  set (sep := match cells with [] => [] | _ => [44] end). destruct (small_float v [37; 115] [ArgS sep] Hv) as (l & E & V & Ll).
  assert (Lsep : (length sep <= 1)%nat) by (unfold sep; destruct cells; cbn; lia).
  destruct (print_ok text st (json "%.3f%s") [ArgF v; ArgS sep] (l ++ sep) H) as (st1 & P & H1).
  { change (json "%.3f%s") with ([] ++ 37 :: 46 :: 51 :: 102 :: [37; 115]). apply (print_next [] _ l [37; 115] _ [ArgS sep] sep); [constructor|exact E|].
    change [37; 115] with ([] ++ 37 :: [115]). rewrite <- (app_nil_r sep) at 2. apply (print_next [] _ sep [] _ [] []); [constructor|apply directive_string; lia|apply chvprintf_nil]. }
  { rewrite length_app. lia. }
  rewrite P. cbn [mbind option_bind]. destruct (IH _ _ H1 Hr) as (ls & st2 & P2 & H2 & V2 & L2); [rewrite !length_app; lia|].
  exists (l :: ls), st2. split; [exact P2|]. split; [|split; [constructor; assumption|]].
  - cbn [joined]. replace (match ls with [] => [] | _ => 44 :: joined ls end) with (sep ++ joined ls); [rewrite <- !app_assoc in H2; exact H2|].
    inversion V2; subst; unfold sep; reflexivity.
  - cbn [joined]. rewrite length_app. destruct ls; cbn [length] in *; lia.
Qed.
Ltac lengths := rewrite ?length_app; repeat match goal with |- context [length (json ?s)] => let n := eval vm_compute in (length (json s)) in change (length (json s)) with n end;
  cbn [length]; unfold json_size, esc_size in *; lia.
Lemma print_static_ok text st z x y t1 t2 t3 : holds text st -> Forall (fun c => c <> 37) t1 -> Forall (fun c => c <> 37) t2 -> Forall (fun c => c <> 37) t3 -> is_u16 z -> small x -> small y ->
  (length text + length t1 + length t2 + length t3 + 17 < json_size)%nat ->
  exists l1 l2 l3 st', print (t1 ++ 37 :: 117 :: t2 ++ 37 :: 46 :: 51 :: 102 :: t3 ++ [37; 46; 51; 102]) [ArgZ z; ArgF x; ArgF y] st = Some st' /\
    holds (text ++ t1 ++ l1 ++ t2 ++ l2 ++ t3 ++ l3) st' /\ unsigned_text z l1 /\ volts_text x l2 /\ volts_text y l3 /\ (length l1 <= 5)%nat /\ (length l2 <= 6)%nat /\ (length l3 <= 6)%nat.
Proof.
  intros H H1 H2 H3 Hz Hx Hy L. destruct (unsigned_16 z (t2 ++ 37 :: 46 :: 51 :: 102 :: t3 ++ [37; 46; 51; 102]) [ArgF x; ArgF y] Hz) as (l1 & E1 & U & L1).
  destruct (small_float x (t3 ++ [37; 46; 51; 102]) [ArgF y] Hx) as (l2 & E2 & V2 & L2). destruct (small_float y [] [] Hy) as (l3 & E3 & V3 & L3). exists l1, l2, l3.
  destruct (print_ok text st (t1 ++ 37 :: 117 :: t2 ++ 37 :: 46 :: 51 :: 102 :: t3 ++ [37; 46; 51; 102]) [ArgZ z; ArgF x; ArgF y] (t1 ++ l1 ++ t2 ++ l2 ++ t3 ++ l3) H) as (st' & P & H').
  - rewrite <- (app_nil_r l3). eapply print_next; [exact H1|exact E1|]. eapply print_next; [exact H2|exact E2|]. eapply print_next; [exact H3|exact E3|apply chvprintf_nil].
  - rewrite !length_app. lia.
  - exists st'. auto 10.
Qed.
(** The next string: [f] is [t] with a directive and a quote behind it. *)
Ltac quoted H f t s := let st := fresh "st" in let P := fresh "P" in let H' := fresh "H" in
  destruct (print_quoted_ok _ _ s (json t) H) as (st & P & H'); [plain|lengths|]; change (json f) with (json t ++ [37; 115; 34]); rewrite P; cbn [mbind option_bind]; clear P H; rename H' into H.
(** No zeros in the texts. *)
Lemma nz_digits l : Chprintf.digits l -> Forall (fun c => c <> 0) l.
Proof. intros H. eapply Forall_impl; [exact H|]. cbn. lia. Qed.
Lemma nz_volts x l : volts_text x l -> Forall (fun c => c <> 0) l.
Proof. intros (ip & fp & -> & D). apply Forall_app. split; [apply nz_digits, D|constructor; [discriminate|apply nz_digits, D]]. Qed.
Lemma nz_joined xs ls : Forall2 volts_text xs ls -> Forall (fun c => c <> 0) (joined ls).
Proof.
  induction 1 as [|x l xs ls Hx Hr IH]; [constructor|]. cbn [joined]. apply Forall_app. split; [exact (nz_volts _ _ Hx)|]. destruct ls; [constructor|constructor; [discriminate|exact IH]].
Qed.
Lemma nz_text l : is_text l -> Forall (fun c => c <> 0) l.
Proof. intros H. eapply Forall_impl; [exact H|]. cbn. lia. Qed.
Lemma GetExtraDataJson_ok s buf : json_ready (data_ s) -> is_u16 (battery_status_ s) -> present_ s = true -> length buf = json_size ->
  exists text rest, GetExtraDataJson s buf = Some (text ++ 0 :: rest) /\ extra_data (data_ s) (battery_status_ s) text /\ Forall (fun c => c <> 0) text /\ (length text < json_size)%nat.
Proof.
  intros [[B1 [n1 R1]] [B2 [n2 R2]] [B3 [n3 R3]] [B4 [n4 R4]] (B5 & L5 & n5 & R5) R6 R7 R8 [L9 R9]] Hst Hp Hb.
  destruct (esc_ok _ _ B1 R1) as (mfr & E1 & N1 & K1 & Z1). destruct (esc_ok _ _ B2 R2) as (dev & E2 & N2 & K2 & Z2).
  destruct (esc_ok _ _ B3 R3) as (version & E3 & N3 & K3 & Z3). destruct (esc_ok _ _ B4 R4) as (chem & E4 & N4 & K4 & Z4).
  destruct (strlen_text _ _ B5 R5) as [Z5 K5]. assert (E5 : str (mfr_date (data_ s)) = Some (take n5 (mfr_date (data_ s)))) by (unfold str; rewrite R5; reflexivity).
  set (date := take n5 (mfr_date (data_ s))) in *. assert (D5 : (length date <= 10)%nat) by (unfold date; rewrite length_take; lia).
  assert (H : holds [] (<[0%nat := 0]> buf, 0)).
  { destruct buf as [|c buf]; [discriminate|]. exists buf. split; [reflexivity|exact Hb]. }
  unfold GetExtraDataJson. rewrite Hp, E1, E2, E3, E4, E5. cbn [negb mbind option_bind].
  quoted H "{'mfr_name':'%s'" "{'mfr_name':'" mfr. quoted H ",'mfr_date':'%s'" ",'mfr_date':'" date. quoted H ",'dev_name':'%s'" ",'dev_name':'" dev.
  quoted H ",'dev_version':'%s'" ",'dev_version':'" version. quoted H ",'dev_chemistry':'%s'" ",'dev_chemistry':'" chem.
  destruct (print_static_ok _ _ (serial_number (data_ s)) (design_capacity_ah (data_ s)) (design_voltage_v (data_ s)) (json ",'serial_number':") (json ",'design_capacity_ah':") (json ",'design_voltage_v':") H) as (serial & cap & volt & st5 & P & H6 & U1 & V1 & V2 & M1 & M2 & M3);
    [plain..|exact R6|exact R7|exact R8|lengths|]. clear H.
  change (json ",'serial_number':%u,'design_capacity_ah':%.3f,'design_voltage_v':%.3f") with (json ",'serial_number':" ++ 37 :: 117 :: json ",'design_capacity_ah':" ++ 37 :: 46 :: 51 :: 102 :: json ",'design_voltage_v':" ++ [37; 46; 51; 102]).
  rewrite P. cbn [mbind option_bind]. clear P.
  destruct (print_unsigned_ok _ _ (json ",'status':") [] (battery_status_ s) H6) as (stat & st6 & P & H7 & U2 & M4); [plain|constructor|exact Hst|lengths|]. clear H6.
  change (json ",'status':%u") with (json ",'status':" ++ [37; 117]). rewrite P. cbn [mbind option_bind]. clear P.
  destruct (print_ok _ _ (json ",'cell_count':%u,'cell_voltage_v': [") [ArgZ (Z.of_nat kCellCount)] (json ",'cell_count':7,'cell_voltage_v': [") H7) as (st7 & P & H8); [vm_compute; reflexivity|lengths|]. clear H7.
  rewrite P. cbn [mbind option_bind]. clear P.
  destruct (print_cells_ok (take kCellCount (cell_voltage_v (data_ s))) _ _ H8) as (cells & st8 & P & H9 & V3 & M5).
  { apply Forall_take, R9. } { rewrite length_take, L9. unfold kCellCount. lengths. } clear H8. rewrite P. cbn [mbind option_bind]. clear P. rewrite length_take, L9 in M5. change (7 * Nat.min kCellCount 8)%nat with 49%nat in M5.
  destruct (print_ok _ _ (json "]}") [] (json "]}") H9) as (st9 & P & (rest & -> & Hl)); [vm_compute; reflexivity|lengths|]. clear H9. rewrite P. cbn [mbind option_bind]. clear P.
  rewrite (proj2 (Z.leb_gt _ 0)) by lengths. eexists _, rest. split; [reflexivity|]. split; [|split].
  - exists mfr, date, dev, version, chem, serial, cap, volt, stat, cells. do 10 (split; [assumption|]).
    change (json "','mfr_date':'") with ([34] ++ json ",'mfr_date':'"). change (json "','dev_name':'") with ([34] ++ json ",'dev_name':'"). change (json "','dev_version':'") with ([34] ++ json ",'dev_version':'").
    change (json "','dev_chemistry':'") with ([34] ++ json ",'dev_chemistry':'"). change (json "','serial_number':") with ([34] ++ json ",'serial_number':"). rewrite app_nil_r, <- !app_assoc. reflexivity.
  - rewrite !Forall_app. pose proof (nz_text _ Z5). pose proof (nz_digits _ (proj1 U1)). pose proof (nz_digits _ (proj1 U2)). pose proof (nz_volts _ _ V1). pose proof (nz_volts _ _ V2). pose proof (nz_joined _ _ V3).
    repeat split; first [assumption|plain].
  - lengths.
Qed.

(** ** The states the driver reaches

    [runs P m Q]: from a state in [P] the operation returns, what it returns is in [Q] and the state is in [P] again. *)
Definition runs {D A} (P : SaboBms -> Prop) (m : act (SaboBms * D) A) (Q : A -> Prop) : Prop :=
  forall s d, P s -> exists a s' d', m (s, d) = Some (a, (s', d')) /\ P s' /\ Q a.
Lemma bms_runs_ret {D A} P (a : A) (Q : A -> Prop) : Q a -> runs (D := D) P (mret a) Q.
Proof. intros H s d Hs. exists a, s, d. split; [reflexivity|auto]. Qed.
Lemma bms_runs_bind {D A B} P (m : act (SaboBms * D) A) (f : A -> act (SaboBms * D) B) R Q : runs P m R -> (forall a, R a -> runs P (f a) Q) -> runs P (a ← m; f a) Q.
Proof.
  intros Hm Hf s d Hs. unfold mbind, act_bind. destruct (Hm s d Hs) as (a & s1 & d1 & -> & H1 & Ha). exact (Hf a Ha s1 d1 H1).
Qed.
Lemma bms_runs_option {D A} P (o : option A) (Q : A -> Prop) : (exists a, o = Some a /\ Q a) -> runs (D := D) P (of_option o) Q.
Proof. intros (a & -> & Ha) s d Hs. exists a, s, d. split; [reflexivity|auto]. Qed.
(** Bytes of a length. *)
Definition array (n : nat) (l : list Z) : Prop := is_bytes l /\ length l = n.
Lemma bytes_insert l i x : is_bytes l -> is_u8 x -> is_bytes (<[i := x]> l).
Proof. intros H Hx. apply Forall_insert; assumption. Qed.
Lemma bytes_nth l i : is_bytes l -> is_u8 (nth i l 0).
Proof. intros H. unfold is_bytes in H. destruct (nth_in_or_default i l 0) as [K| ->]; [|unfold is_u8; lia]. rewrite List.Forall_forall in H. apply H, K. Qed.
Lemma received_array n rx l m : is_bytes rx -> array m l -> (n <= m)%nat -> array m (received n rx l).
Proof.
  intros Hr [Hl L] Hn. unfold received. split.
  - apply Forall_app. split; [apply Forall_take, Hr|]. apply Forall_app. split; [apply Forall_replicate; unfold is_u8; lia|apply Forall_drop, Hl].
  - rewrite !length_app, length_replicate, length_drop, length_take. lia.
Qed.
Lemma strlen_insert l i : (exists n, strlen l = Some n) -> exists n, strlen (<[i := 0]> l) = Some n.
Proof.
  revert i. induction l as [|x l IH]; intros i [n H]; [discriminate|]. destruct i as [|i]; [exists 0%nat; reflexivity|]. change (<[S i := 0]> (x :: l)) with (x :: <[i := 0]> l). cbn [strlen] in H |- *.
  destruct (x =? 0); [eauto|]. destruct (strlen l) as [k|]; [|discriminate]. destruct (IH i) as (j & E); [eauto|]. rewrite E. eexists. reflexivity.
Qed.
Definition terminated (l : list Z) : Prop := exists n, strlen l = Some n.
Lemma rtrim_ok l : array 33 l -> terminated l -> exists l', rtrim l = Some l' /\ array 33 l' /\ terminated l'.
Proof.
  intros [Hl L] T. unfold rtrim. destruct (Z.eqb_spec (nth 0 l 0) 0) as [E|N]; [exists l; split; [reflexivity|split; [split; assumption|exact T]]|].
  destruct T as [n E]. rewrite E. eexists. split; [reflexivity|]. split; [split; [apply bytes_insert; [exact Hl|unfold is_u8; lia]|rewrite length_insert; exact L]|].
  apply strlen_insert. eauto.
Qed.
Lemma terminated_insert l n : (n < length l)%nat -> terminated (<[n := 0]> l).
Proof. intros H. rewrite insert_take_drop by exact H. apply strlen_terminated. Qed.

Section Reached.
Context {D : Type} (i2cMasterTransmit : Z -> list Z -> nat -> D -> Z * list Z * D) (i2cRestart : D -> bool * D) (fuel : nat).
(** What is assumed of the bus: it returns bytes, and its peripheral restarts after a failure in at most [fuel] attempts. *)
Definition bus_bytes : Prop := forall addr tx n d msg rx d', i2cMasterTransmit addr tx n d = (msg, rx, d') -> is_bytes rx.
Definition bus_restarts : Prop := forall d, exists d', recover i2cRestart fuel d = Some d'.
(** And of the pack, when its names are read: a block has a length of at most 32, as the bus's standard has it, or there
    is a zero in the 33 bytes that were received or cleared. *)
Definition blocks_end : Prop := forall cmd d msg rx d', cmd ∈ [0x20; 0x21; 0x22] -> i2cMasterTransmit BMS_ADDRESS [cmd] 33 d = (msg, rx, d') ->
  let l := received 33 rx (replicate 33 0) in msg = MSG_OK /\ nth 0 l 0 <= 32 \/ terminated l.
Context (bus : bus_bytes) (restarts : bus_restarts) (blocks : blocks_end) (P : SaboBms -> Prop).
Lemma transmit_returns tx n s d : exists msg rx d', I2cMasterTransmit i2cMasterTransmit i2cRestart fuel tx n (s, d) = Some ((msg, rx), (s, d')) /\
  is_bytes rx /\ exists d0, i2cMasterTransmit BMS_ADDRESS tx n d = (msg, rx, d0).
Proof.
  unfold I2cMasterTransmit, TransmitWithRecovery. destruct (i2cMasterTransmit BMS_ADDRESS tx n d) as [[msg rx] d1] eqn:E. pose proof (bus _ _ _ _ _ _ _ E) as B.
  destruct (restarts d1) as (d2 & R). destruct (negb (msg =? MSG_OK)); [rewrite R|]; cbn; eauto 8.
Qed.
Lemma bms_runs_transmit tx n : runs P (I2cMasterTransmit i2cMasterTransmit i2cRestart fuel tx n) (fun r => is_bytes r.2).
Proof. intros s d Hs. destruct (transmit_returns tx n s d) as (msg & rx & d' & E & B & _). exists (msg, rx), s, d'. auto. Qed.
Lemma bms_runs_raw n : forall reg k last, is_bytes last.2 -> runs P (ReadRegisterRaw i2cMasterTransmit i2cRestart fuel n reg k last) (fun r => is_bytes r.2).
Proof.
  induction n as [|n IH]; intros reg k last H; cbn [ReadRegisterRaw]; [apply bms_runs_ret, H|]. eapply bms_runs_bind; [apply bms_runs_transmit|]. intros [msg rx] B.
  destruct (msg =? MSG_OK); [apply bms_runs_ret, B|apply IH, B].
Qed.
Lemma bms_runs_read16 reg : runs P (ReadRegister16 i2cMasterTransmit i2cRestart fuel reg) (fun r => forall v, r = Some v -> is_u16 v).
Proof.
  unfold ReadRegister16. eapply bms_runs_bind; [apply bms_runs_raw; constructor|]. intros [msg rx] B. apply bms_runs_ret. destruct (msg =? MSG_OK); [|discriminate]. intros v [= <-].
  pose proof (bytes_nth rx 0 B) as H0. apply u16_lor; [unfold is_u8, is_u16 in *; lia|apply u16_range].
Qed.
Lemma bms_runs_data f : (forall s, P s -> P (s <| data_ ::= f |>)) -> runs (D := D) P (on_data f) (fun _ => True).
Proof. intros H s d Hs. exists tt, (s <| data_ ::= f |>), d. split; [reflexivity|auto]. Qed.
Lemma bms_runs_word reg keep f : (forall v s, is_u16 v -> P s -> P (s <| data_ ::= f v |>)) -> runs P (word_into i2cMasterTransmit i2cRestart fuel reg keep f) (fun _ => True).
Proof.
  intros H. unfold word_into. eapply bms_runs_bind; [apply bms_runs_read16|]. intros [v|] Hv; [|apply bms_runs_ret; exact I]. destruct (keep v); [|apply bms_runs_ret; exact I].
  apply bms_runs_data. intros s Hs. apply H; [apply Hv; reflexivity|exact Hs].
Qed.
Lemma received_any rx l : length l = 33%nat -> received 33 rx l = received 33 rx (replicate 33 0).
Proof. intros L. unfold received. rewrite !drop_ge by (rewrite ?length_replicate; lia). reflexivity. Qed.
Lemma block_shifted data k : array 33 data -> (k < 33)%nat -> let l := take k (drop 1 data) ++ drop k data in
  array 33 (if (k <? length l)%nat then <[k := 0]> l else l) /\ terminated (if (k <? length l)%nat then <[k := 0]> l else l).
Proof.
  intros R Hk l. assert (A : array 33 l).
  { split; [apply Forall_app; split; [apply Forall_take, Forall_drop, R|apply Forall_drop, R]|]. unfold l. rewrite length_app, length_take, !length_drop, (proj2 R). lia. }
  rewrite (proj2 A). rewrite (proj2 (Nat.ltb_lt k 33)) by exact Hk. split; [|apply terminated_insert; rewrite (proj2 A); exact Hk].
  split; [apply bytes_insert; [apply A|unfold is_u8; lia]|rewrite length_insert; apply A].
Qed.
Lemma bms_runs_block n : forall cmd l last, cmd ∈ [0x20; 0x21; 0x22] -> array 33 l -> (n = 0%nat -> terminated l) ->
  runs P (ReadBlock i2cMasterTransmit i2cRestart fuel n cmd l last) (fun r => array 33 r.2 /\ terminated r.2).
Proof.
  induction n as [|n IH]; intros cmd l last Hc H T; cbn [ReadBlock]; [apply bms_runs_ret; auto|]. rewrite (proj2 H). change (Nat.min 33 33) with 33%nat.
  intros s d Hs. unfold mbind at 1, act_bind at 1. destruct (transmit_returns [cmd] 33 s d) as (msg & rx & d' & -> & B & d0 & E).
  pose proof (received_array 33 rx l 33 B H ltac:(lia)) as R. pose proof (blocks cmd d msg rx d0 Hc E) as K. rewrite <- (received_any rx l (proj2 H)) in K. cbv zeta in K. set (data := received 33 rx l) in *.
  assert (Again : (n = 0%nat -> terminated data) -> exists a s' d'', ReadBlock i2cMasterTransmit i2cRestart fuel n cmd data false (s, d') = Some (a, (s', d'')) /\ P s' /\ array 33 a.2 /\ terminated a.2)
    by (intros T'; exact (IH cmd data false Hc R T' s d' Hs)).
  destruct (Z.eqb_spec msg MSG_OK) as [->|Nm]; cbn [negb]; [|apply Again; intros _; destruct K as [[? _]|K]; [contradiction|exact K]].
  destruct (Z.ltb_spec 32 (nth 0 data 0)) as [Hl|Hl]; [apply Again; intros _; destruct K as [[_ K]|K]; [lia|exact K]|].
  assert (Hk : (Z.to_nat (nth 0%nat data 0%Z) < 33)%nat) by lia.
  destruct (Nat.ltb_spec 33 (1 + Z.to_nat (nth 0 data 0))); [lia|]. eexists _, s, d'. split; [reflexivity|]. split; [exact Hs|]. cbn [snd]. exact (block_shifted data _ R Hk).
Qed.
Lemma bms_runs_name cmd field f : cmd ∈ [0x20; 0x21; 0x22] -> (forall s, P s -> array 33 (field (data_ s))) ->
  (forall l s, array 33 l -> terminated l -> P s -> P (s <| data_ ::= f l |>)) -> runs P (name_into i2cMasterTransmit i2cRestart fuel cmd field f) (fun _ => True).
Proof.
  intros Hc Hf H. unfold name_into. intros s d Hs. unfold mbind at 1, act_bind at 1, get. cbn [fst].
  assert (K : runs P ('(_, name) ← ReadBlock i2cMasterTransmit i2cRestart fuel i2c_retries cmd (field (data_ s)) false; name ← of_option (rtrim name); on_data (f name)) (fun _ => True)).
  { eapply bms_runs_bind; [apply bms_runs_block; [exact Hc|apply Hf, Hs|discriminate]|]. intros [ok name] [A T]. cbn [snd] in A, T.
    eapply bms_runs_bind; [apply (bms_runs_option P _ (fun l => array 33 l /\ terminated l)), (rtrim_ok _ A T)|]. intros name' [A' T']. apply bms_runs_data. intros s1 H1. apply H; assumption. }
  exact (K s d Hs).
Qed.
Lemma bms_runs_if {A} (b : bool) (m1 m2 : act (SaboBms * D) A) Q : runs P m1 Q -> runs P m2 Q -> runs P (if b then m1 else m2) Q.
Proof. destruct b; auto. Qed.
End Reached.

(** A word in thousandths is less than a hundred. *)
Lemma milli_small v : is_u16 v -> small (milli v).
Proof.
  intros Hv. unfold is_u16 in Hv. destruct (normalize_exact 24 128 ltac:(lia) ltac:(lia) v false ltac:(lia) ltac:(lia)) as [F E]. pose proof (proj1 (normalize_rounds 24 128 ltac:(lia) ltac:(lia) v 0 false)) as V.
  change (binary_normalize 24 128 v 0 false) with (f_of_Z v) in *. unfold milli, fdiv.
  assert (M : f_of_Z 1000 = S754_finite false 16384000 (-14)) by (vm_compute; reflexivity). assert (FM : FV (f_of_Z 1000) = 1000%R).
  { rewrite M. cbn [FV sgn]. rewrite Rmult_1_l. change 16384000%positive with (1000 * 2 ^ 14)%positive. rewrite Pos2Z.inj_mul, mult_IZR. change (Z.pos (2 ^ 14)) with (2 ^ 14). rewrite <- bpow_Z, Rmult_assoc, <- bpow_add by lia. change (bpow (14 + -14)) with 1%R. apply Rmult_1_r. }
  pose proof (SFdiv_rounds 24 128 ltac:(lia) ltac:(lia) (f_of_Z v) false 16384000 (-14) V F) as R. rewrite <- M, E, FM in R. destruct R as (V2 & _ & K).
  assert (B : (0 <= IZR v <= 65535)%R) by (split; apply IZR_le; lia).
  destruct K as [F2 K]. { rewrite Rabs_right by lra. apply Rle_trans with (bpow 7); [rewrite bpow_Z by lia; change (2 ^ 7) with 128; lra|apply bpow_le; lia]. }
  split; [exact V2|]. split; [exact F2|]. cbn [negb] in K. rewrite (Rabs_right (IZR v / 1000)) in K by lra. set (y := FV (SFdiv 24 128 (f_of_Z v) (f_of_Z 1000))) in *.
  pose proof (bpow_opp 24) as P1. rewrite (bpow_Z 24) in P1 by lia. change (2 ^ 24) with 16777216 in P1.
  assert (P2 : (bpow (emin 24 128 - 1) <= bpow (- 24))%R) by (apply bpow_le; unfold emin; lia).
  pose proof (bpow_pos (emin 24 128 - 1)). change (- (24)) with (-24) in *. assert (P3 : bpow (-24) = (/ 16777216)%R) by lra. rewrite P3 in *.
  assert (K2 : (- (IZR v / 1000 * / 16777216 + bpow (emin 24 128 - 1)) <= y - IZR v / 1000 <= IZR v / 1000 * / 16777216 + bpow (emin 24 128 - 1))%R)
    by (revert K; unfold Rabs; destruct (Rcase_abs _); lra).
  split; [|lra]. destruct (decide (v = 0)) as [->|N]; [|assert (1 <= IZR v)%R by (apply IZR_le; lia); lra].
  unfold y. vm_compute. lra.
Qed.
Definition text_ready (s : SaboBms) : Prop := json_ready (data_ s) /\ is_u16 (battery_status_ s) /\ length (cell_voltage_v (data_ s)) = 8%nat /\
  array 33 (mfr_name (data_ s)) /\ array 33 (dev_name (data_ s)) /\ array 33 (dev_version (data_ s)).
Lemma f0_small : small f0.
Proof. split; [reflexivity|]. split; [reflexivity|]. cbn. lra. Qed.
Lemma new_ready : text_ready new_SaboBms.
Proof.
  assert (Z : forall n, array n (replicate n 0)) by (intros n; split; [apply Forall_replicate; unfold is_u8; lia|apply length_replicate]).
  split; [|split; [cbn; unfold is_u16; lia|split; [reflexivity|split; [apply Z|split; apply Z]]]].
  split; cbn -[replicate]; try (split; [apply Z|exists 0%nat; reflexivity]).
  - split; [apply Z|]. split; [apply length_replicate|exists 0%nat; reflexivity].
  - unfold is_u16; lia.
  - apply f0_small.
  - apply f0_small.
  - split; [reflexivity|apply Forall_replicate, f0_small].
Qed.
Lemma digits_text n x : is_bytes (Bms.digits n x) /\ length (Bms.digits n x) = n.
Proof.
  revert x. induction n as [|n IH]; intros x; [split; [constructor|reflexivity]|]. cbn [Bms.digits]. destruct (IH (x / 10)) as [B L]. pose proof (Z.mod_pos_bound x 10 ltac:(lia)).
  split; [apply Forall_app; split; [exact B|constructor; [unfold is_u8; lia|constructor]]|rewrite length_app, L; cbn; lia].
Qed.
Lemma write_string_ok text l : is_bytes text -> is_bytes l -> is_bytes (write_string text l) /\ exists n, strlen (write_string text l) = Some n.
Proof.
  intros Ht Hl. unfold write_string. split; [|apply strlen_terminated]. apply Forall_app. split; [exact Ht|]. apply Forall_app. split; [constructor; [unfold is_u8; lia|constructor]|apply Forall_drop, Hl].
Qed.
Lemma date_ok w l : is_bytes l /\ length l = 11%nat /\ (exists n, strlen l = Some n) -> let l' := (SbsDateToYMDString w l).2 in is_bytes l' /\ length l' = 11%nat /\ exists n, strlen l' = Some n.
Proof.
  intros (B & L & T). unfold SbsDateToYMDString. rewrite L. cbn [Nat.ltb Nat.leb]. destruct (_ || _); cbn [snd].
  - split; [apply bytes_insert; [exact B|unfold is_u8; lia]|]. split; [rewrite length_insert; exact L|apply strlen_insert, T].
  - match goal with |- context [write_string ?t l] => assert (Ht : is_bytes t /\ length t = 10%nat) end.
    { split; [|rewrite !length_app, !(proj2 (digits_text _ _)); reflexivity]. unfold is_bytes. rewrite !Forall_app. repeat split; first [exact (proj1 (digits_text _ _))|constructor; [unfold is_u8; lia|constructor]]. }
    match goal with |- context [write_string ?t l] => revert Ht; generalize t end. intros t [Ht Lt]. destruct (write_string_ok _ l Ht B) as [B' T']. split; [exact B'|]. split; [|exact T']. unfold write_string. rewrite !length_app, length_drop, Lt, L. reflexivity.
Qed.
Ltac field_update := let v := fresh "v" in let s := fresh "s" in let Hv := fresh "Hv" in
  intros v s Hv ([] & Hst & Hc & Hm & Hn & Hw); split; [constructor; cbn -[strlen SbsDateToYMDString milli]; try assumption; try (apply milli_small; exact Hv)|cbn; auto].
Ltac name_update := let l := fresh "l" in let s := fresh "s" in let A := fresh "A" in let T := fresh "T" in
  intros l s A T ([] & Hst & Hc & Hm & Hn & Hw); split; [constructor; cbn; try assumption; exact (conj (proj1 A) T)|cbn; auto 6].
Section Ticks.
Context {D : Type} (i2cMasterTransmit : Z -> list Z -> nat -> D -> Z * list Z * D) (i2cRestart : D -> bool * D) (fuel : nat).
Context (bus : bus_bytes i2cMasterTransmit) (restarts : bus_restarts i2cRestart fuel) (blocks : blocks_end i2cMasterTransmit).
Lemma bms_runs_cells n : forall i, runs text_ready (read_cells i2cMasterTransmit i2cRestart fuel i n) (fun _ => True).
Proof.
  induction n as [|n IH]; intros i; cbn [read_cells]; [apply bms_runs_ret; exact I|]. eapply bms_runs_bind; [|intros _ _; apply IH]. apply bms_runs_word; [exact bus|exact restarts|].
  intros v s Hv ([] & Hst & Hc & Hm & Hn & Hw). split; [constructor; cbn; try assumption|cbn; rewrite length_insert; auto].
  destruct ready_cells0 as [L F]. split; [rewrite length_insert; exact L|apply Forall_insert; [exact F|apply milli_small, Hv]].
Qed.
Lemma bms_runs_static : runs text_ready (read_static i2cMasterTransmit i2cRestart fuel) (fun _ => True).
Proof.
  assert (C : (0x20 ∈ [0x20; 0x21; 0x22]) /\ (0x21 ∈ [0x20; 0x21; 0x22]) /\ 0x22 ∈ [0x20; 0x21; 0x22]) by (rewrite !elem_of_cons; auto 6). destruct C as (C1 & C2 & C3).
  unfold read_static. repeat (eapply bms_runs_bind; [|intros _ _]).
  - apply bms_runs_name; try assumption; [intros s H; apply H|name_update].
  - apply bms_runs_name; try assumption; [intros s H; apply H|name_update].
  - apply bms_runs_name; try assumption; [intros s H; apply H|name_update].
  - apply bms_runs_data. intros s ([] & Hst & Hc & Hm & Hn & Hw). split; [constructor; cbn -[write_string strlen]; try assumption|cbn; auto]. apply write_string_ok; [|apply ready_chemistry0]. repeat (constructor; [unfold is_u8; lia|]). constructor.
  - apply bms_runs_word; try assumption. field_update. apply date_ok. assumption.
  - apply bms_runs_word; try assumption. field_update.
  - apply bms_runs_word; try assumption. field_update.
  - apply bms_runs_word; try assumption. field_update.
Qed.
Lemma bms_runs_dynamic : runs text_ready (read_dynamic i2cMasterTransmit i2cRestart fuel) (fun _ => True).
Proof.
  unfold read_dynamic. do 6 (eapply bms_runs_bind; [apply bms_runs_word; [exact bus|exact restarts|field_update]|intros _ _]). eapply bms_runs_bind; [apply bms_runs_read16; assumption|]. intros raw Hraw.
  apply (bms_runs_bind _ _ _ (fun _ => True)); [|intros _ _; eapply bms_runs_bind; [apply bms_runs_word; [exact bus|exact restarts|field_update]|intros _ _; apply bms_runs_cells]].
  destruct raw as [raw|]; [|apply bms_runs_ret; exact I]. specialize (Hraw raw eq_refl). intros s d ([] & Hst & Hc & Hm & Hn & Hw). eexists _, _, _. split; [reflexivity|]. split; [|exact I]. split; [constructor; assumption|cbn; auto].
Qed.
Lemma bms_runs_tick : runs text_ready (bms_Tick i2cMasterTransmit i2cRestart fuel) (fun _ => True).
Proof.
  unfold bms_Tick. intros s d Hs. unfold mbind at 1, act_bind at 1, get. cbn [fst].
  destruct (_ || _); [eexists _, _, _; split; [reflexivity|auto]|]. destruct (present_ s); [exact (bms_runs_dynamic s d Hs)|].
  assert (K : runs (D := D) text_ready (probe i2cMasterTransmit i2cRestart fuel) (fun _ => True)).
  { unfold probe. eapply bms_runs_bind; [apply bms_runs_read16; assumption|]. intros v _. apply bms_runs_if; [apply bms_runs_ret; exact I|].
    eapply bms_runs_bind; [apply bms_runs_read16; assumption|]. intros st _. apply bms_runs_ret. exact I. }
  refine (bms_runs_bind text_ready _ _ (fun _ => True) (fun _ => True) K _ s d Hs). intros found _.
  apply (bms_runs_bind _ _ _ (fun _ => True)); [intros s1 d1 H1; eexists _, _, _; split; [reflexivity|]; split; [exact H1|exact I]|]. intros _ _. apply bms_runs_if; [apply bms_runs_ret; exact I|].
  eapply bms_runs_bind; [apply bms_runs_static|]. intros _ _. apply bms_runs_dynamic.
Qed.
Fixpoint bms_ticks (n : nat) : act (SaboBms * D) unit :=
  match n with O => mret tt | S n => _ ← bms_Tick i2cMasterTransmit i2cRestart fuel; bms_ticks n end.
Lemma bms_runs_ticks n : runs text_ready (bms_ticks n) (fun _ => True).
Proof. induction n as [|n IH]; cbn [bms_ticks]; [apply bms_runs_ret; exact I|]. eapply bms_runs_bind; [apply bms_runs_tick|]. intros _ _. exact IH. Qed.

(** C33. The battery's data reach the service as a text that is not cut. On a bus that returns bytes and whose
    peripheral restarts after a failure, with a pack whose names' blocks have a length of at most 32 or a zero among
    their 33 bytes (without one, trimming the name runs past it: [bad_length_overruns]), any number of ticks returns, whatever
    else the pack delivers and fails. The text is then built without leaving the buffer of 512 bytes and none of it is
    cut off there. It is empty while no pack is present, and otherwise consists of the members in order: the names escaped in
    at most 59 bytes, which are read back as the names if the whole escaping fits (a longer one is cut, even within an
    escape, and the text is then no JSON: [cut_escape]), the numbers in their shortest form and the voltages with
    exactly the beginning of their decimal expansion. *)
Theorem extra_data_is_whole n d buf : length buf = json_size ->
  exists s d' buf', bms_ticks n (new_SaboBms <| configured_ := true |>, d) = Some (tt, (s, d')) /\ GetExtraDataJson s buf = Some buf' /\
    (length (c_str buf') < json_size)%nat /\ if present_ s then extra_data (data_ s) (battery_status_ s) (c_str buf') else c_str buf' = [].
Proof.
  intros Hb. assert (R0 : text_ready (new_SaboBms <| configured_ := true |>)) by exact new_ready. destruct (bms_runs_ticks n _ d R0) as ([] & s & d' & E & (J & U & _) & _). exists s, d'.
  destruct (present_ s) eqn:Hp.
  - destruct (GetExtraDataJson_ok s buf J U Hp Hb) as (text & rest & G & X & Z & L). exists (text ++ 0 :: rest). rewrite c_str_app by exact Z. auto.
  - destruct buf as [|c buf]; [discriminate|]. exists (0 :: buf). split; [exact E|]. unfold GetExtraDataJson. rewrite Hp. split; [reflexivity|]. cbn. unfold json_size. split; [lia|reflexivity].
Qed.
End Ticks.

(** ** The date

    Printed with the widths of the code it is the date as [SbsDateToYMDString] is modelled. *)
Lemma directive_padded w z p text rest args : w = 2 \/ w = 4 -> ch_ltoa [] z 10 = Some p -> field false 48 w p = Some text ->
  directive (48 :: 48 + w :: 117 :: rest) (ArgZ z :: args) = Some (Some (text, rest, args)).
Proof.
  intros Hw E F. revert E F. unfold directive, convert. generalize field, ch_ltoa. intros fl lt E F. destruct Hw as [-> | ->]; cbv in E, F |- *; rewrite E, F; reflexivity.
Qed.
Definition prints (w : nat) (z : Z) : bool := match ch_ltoa [] z 10 with Some p => bool_decide (field false 48 (Z.of_nat w) p = Some (Bms.digits w z)) | None => false end.
Lemma padded (w lo n : nat) z rest args : w = 2%nat \/ w = 4%nat -> forallb (fun k => prints w (Z.of_nat k)) (seq lo n) = true -> Z.of_nat lo <= z < Z.of_nat lo + Z.of_nat n ->
  directive (48 :: 48 + Z.of_nat w :: 117 :: rest) (ArgZ z :: args) = Some (Some (Bms.digits w z, rest, args)).
Proof.
  intros Hw T Hz. rewrite forallb_forall in T. specialize (T (Z.to_nat z) ltac:(apply in_seq; lia)). rewrite Z2Nat.id in T by lia. unfold prints in T.
  destruct (ch_ltoa [] z 10) as [p|] eqn:E; [|discriminate]. apply bool_decide_eq_true in T. apply (directive_padded _ _ p); [lia|exact E|exact T].
Qed.
Lemma date_printed year month day : 1980 <= year < 2108 -> 1 <= month <= 12 -> 1 <= day <= 31 ->
  chvprintf (json "%04u-%02u-%02u") [ArgZ year; ArgZ month; ArgZ day] = Some (Bms.digits 4 year ++ [45] ++ Bms.digits 2 month ++ [45] ++ Bms.digits 2 day).
Proof.
  intros Hy Hm Hd. change (json "%04u-%02u-%02u") with ([] ++ 37 :: 48 :: 48 + Z.of_nat 4 :: 117 :: [45] ++ 37 :: 48 :: 48 + Z.of_nat 2 :: 117 :: [45] ++ 37 :: 48 :: 48 + Z.of_nat 2 :: [117]).
  rewrite <- (app_nil_r (Bms.digits 2 day)). assert (N : Forall (fun c => c <> 37) [45]) by (constructor; [discriminate|constructor]).
  eapply (print_next []); [constructor|apply (padded 4 1980 128); [lia|vm_compute; reflexivity|lia]|]. eapply print_next; [exact N|apply (padded 2 1 12); [lia|vm_compute; reflexivity|lia]|].
  eapply print_next; [exact N|apply (padded 2 1 31); [lia|vm_compute; reflexivity|lia]|apply chvprintf_nil].
Qed.

(** ** A pack's text *)
Module BmsJsonDemo.
Lemma demo_bytes : bus_bytes BmsDemo.demo_bus.
Proof.
  intros addr tx n d msg rx d'. unfold BmsDemo.demo_bus, BmsDemo.demo_transmit. destruct (BmsDemo.few d); intros [= <- <- <-]; [|constructor].
  apply Forall_take. repeat (constructor; [first [apply u8_range|unfold is_u8; lia]|]). constructor.
Qed.
Abbreviation after := (bms_ticks BmsDemo.demo_bus BmsDemo.demo_restart 1 3 (new_SaboBms <| configured_ := true |>, 0%nat)).
Definition is_there (r : option (unit * (SaboBms * nat))) : bool := match r with Some (_, (s, _)) => present_ s | None => false end.
(** 3590 in thousandths is printed as 3.589, and a name's control character is escaped. *)
Example printed : match after with Some (_, (s, _)) => c_str <$> GetExtraDataJson s (replicate 512 0) | None => None end =
  Some (json "{'mfr_name':'\u000EAAAAA','mfr_date':'','dev_name':'\u000EAAAAA','dev_version':'\u000EAAAAA','dev_chemistry':'LION','serial_number':3590,'design_capacity_ah':3.589,'design_voltage_v':3.589,'status':2146,'cell_count':7,'cell_voltage_v': [3.599,0.000,3.589,3.589,3.589,3.589,3.589]}").
Proof. vm_compute. reflexivity. Qed.
(** Ten control characters do not fit escaped: the last escape is cut, and takes the closing quote as a digit. *)
Example cut_escape : match esc (replicate 10 1 ++ [0]) with Some l => drop 54 l = json "\u000" /\ unescape l = None | None => False end.
Proof. vm_compute. split; reflexivity. Qed.
Lemma demo_restarts : bus_restarts BmsDemo.demo_restart 1.
Proof. intros d. eexists. reflexivity. Qed.
Lemma demo_blocks : blocks_end BmsDemo.demo_bus.
Proof.
  intros cmd d msg rx d' Hc. unfold BmsDemo.demo_bus, BmsDemo.demo_transmit. destruct (BmsDemo.few d); intros [= <- <- <-]; cbv zeta; [|right; exists 0%nat; reflexivity].
  left. split; [reflexivity|]. rewrite !elem_of_cons, elem_of_nil in Hc. destruct Hc as [-> |[-> |[-> |[]]]]; vm_compute; discriminate.
Qed.
Lemma extra_data_witness : exists s d' buf', after = Some (tt, (s, d')) /\ GetExtraDataJson s (replicate json_size 0) = Some buf' /\
  present_ s = true /\ extra_data (data_ s) (battery_status_ s) (c_str buf').
Proof.
  destruct (extra_data_is_whole BmsDemo.demo_bus BmsDemo.demo_restart 1 demo_bytes demo_restarts demo_blocks 3 0%nat (replicate json_size 0) (length_replicate _ _)) as (s & d' & buf' & E & G & _ & X).
  assert (T : is_there after = true) by (vm_compute; reflexivity). rewrite E in T. cbn [is_there] in T. rewrite T in X.
  exists s, d', buf'. split; [exact E|]. split; [exact G|]. split; [exact T|exact X].
Defined.
End BmsJsonDemo.
