(* ===== verification/BmsDump.v ===== *)
(** The debugging dump of a smart battery ([drivers/bms/sbs_debug.cpp]) and of the Sabo's pack
    ([SaboBmsDriver::DumpDevice]): its lines of text, over any way of reading the battery's words and blocks.

    [snprintf] cuts a text to the size of its array; the theorem is that no line is cut. *)
From stdpp Require Import strings.
From S2P Require Import Prelude Json Charger Bms.

(** ** Printing *)
(** [%u], with at most 10 digits; [%d]; [%0<n>X]; [%-16s]. *)
Fixpoint strip (l : list Z) : list Z := match l with c :: t => if (c =? 48) && negb (match t with [] => true | _ => false end) then strip t else l | [] => [] end.
Definition udec (x : Z) : list Z := strip (digits 10 x).
Definition sdec (x : Z) : list Z := if x <? 0 then 45 :: udec (- x) else udec x.
Definition hex_digit (d : Z) : Z := if d <? 10 then 48 + d else 55 + d.
Fixpoint hex (n : nat) (x : Z) : list Z := match n with O => [] | S n => hex n (x / 16) ++ [hex_digit (x mod 16)] end.
Definition pad (n : nat) (s : list Z) : list Z := s ++ replicate (n - length s) 32.
Definition txt (s : string) : list Z := marker s.
Definition crlf : list Z := [13; 10].
Definition snprintf (size : nat) (text : list Z) : list Z := take (size - 1) text.
(** A double quote. *)
Definition quote : list Z := [34].

(** ** SBS *)
(* @ sbs_protocol.hpp SbsProtocol::BatteryStatusToErrorCode *)
Definition BatteryStatusToErrorCode (battery_status : Z) : Z := let ec := Z.land battery_status 0x0F in if ec <=? 6 then ec else 7.
(* @ sbs_protocol.hpp SbsProtocol::GetErrorCodeStr *)
Definition GetErrorCodeStr (ec : Z) : list Z :=
  nth (Z.to_nat ec) (map txt ["Ok"; "Busy"; "ReservedCommand"; "UnsupportedCommand"; "AccessDenied"; "DataXFlow"; "BadSize"; "Unknown"]%string) (txt "Unknown").
Definition command_names : list (Z * string) :=
  [(0x01, "RemCapAlarm"); (0x02, "RemTimeAlarm"); (0x03, "BatteryMode"); (0x04, "AtRate"); (0x05, "AtRateToFull"); (0x06, "AtRateToEmpty"); (0x07, "AtRateOK");
   (0x08, "Temperature"); (0x09, "Voltage"); (0x0A, "Current"); (0x0B, "AvgCurrent"); (0x0C, "MaxError"); (0x0D, "RelSoC"); (0x0E, "AbsSoC"); (0x0F, "RemCap");
   (0x10, "FullChgCap"); (0x11, "RunTimeEmpty"); (0x12, "AvgTimeEmpty"); (0x13, "AvgTimeFull"); (0x14, "ChgCurrent"); (0x15, "ChgVolt"); (0x16, "BattStatus");
   (0x17, "CycleCount"); (0x18, "DesignCap"); (0x19, "DesignVolt"); (0x1A, "SpecInfo"); (0x1B, "MfrDate"); (0x1C, "Serial");
   (0x20, "ManufacturerName"); (0x21, "DeviceName"); (0x22, "DeviceChemistry"); (0x23, "ManufacturerData")]%string.
(* @ sbs_protocol.hpp SbsProtocol::GetCommandStr *)
Definition GetCommandStr (cmd : Z) : list Z := match List.find (fun e => e.1 =? cmd) command_names with Some e => txt e.2 | None => txt "<unknown>" end.
(* @ sbs_debug.cpp IsKnownSbsCmd *)
Definition IsKnownSbsCmd (cmd : Z) : bool := (0x01 <=? cmd) && (cmd <=? 0x1C) || (0x20 <=? cmd) && (cmd <=? 0x23).
(** [%ld.%02ld] of hundredths: the integral part of a number between -1 and 0 has no sign. *)
(* @ sbs_debug.cpp AppendSignedCentiToBuf *)
Definition AppendSignedCentiToBuf (dst_cap : nat) (centi : Z) : list Z :=
  let i := Z.quot centi 100 in
  let f := if 0 <=? centi then Z.rem centi 100 else - Z.rem centi 100 in
  snprintf dst_cap (txt " = " ++ sdec i ++ txt "." ++ digits 2 f).
(* @ sbs_debug.cpp:101-159 DumpSbsDevice (extra) *)
Definition word_extra (cmd value : Z) : list Z :=
  snprintf 96
    (if cmd =? 0x08 then AppendSignedCentiToBuf 48 (value * 10 - 27315) ++ txt " C"
     else if bool_decide (cmd ∈ [0x09; 0x15; 0x19]) then txt " = " ++ udec (value / 1000) ++ txt "." ++ digits 3 (value mod 1000) ++ txt " V"
     else if bool_decide (cmd ∈ [0x0A; 0x0B; 0x04; 0x14]) then txt " = " ++ sdec (s16 value) ++ txt " mA = " ++ sdec (s16 value * 10) ++ txt " mA@10mA/LSB"
     else if bool_decide (cmd ∈ [0x0F; 0x10; 0x18; 0x01]) then txt " = " ++ udec value ++ txt " mAh"
     else if bool_decide (cmd ∈ [0x02; 0x05; 0x06; 0x11; 0x12; 0x13]) then txt " = " ++ udec (value / 60) ++ txt "h" ++ digits 2 (value mod 60) ++ txt "m"
     else if cmd =? 0x16 then txt " ec=" ++ GetErrorCodeStr (BatteryStatusToErrorCode value)
     else if cmd =? 0x1B then txt " = " ++ digits 4 (1980 + Z.land (Z.shiftr value 9) 0x7F) ++ txt "-" ++ digits 2 (Z.land (Z.shiftr value 5) 0x0F) ++ txt "-" ++ digits 2 (Z.land value 0x1F)
     else []).

Section Dump.
(** The battery: [msg] and the word, 0 when the read fails; [msg], the buffer and the length of a block. *)
Context {D : Type} (ReadWord : Z -> act D (Z * Z)) (ReadBlock : Z -> list Z -> act D (Z * list Z * nat)) (GetI2cErrors : D -> Z).
(** The lines that were printed. *)
Abbreviation dump := (D * list (list Z))%type.
Definition dev {A} (m : act D A) : act dump A := fun '(d, out) => match m d with Some (a, d) => Some (a, (d, out)) | None => None end.
Definition PrintLine (line : list Z) : act dump unit := fun '(d, out) => Some (tt, (d, out ++ [line])).
Definition errors : act dump Z := fun '(d, out) => Some (GetI2cErrors d, (d, out)).
Record ReadWordResult := mkResult { msg : Z; value : Z; ok : bool; battery_status_valid : bool; battery_status : Z }.
(* @ sbs_protocol.hpp SbsProtocol::ReadWordWithBatteryStatus *)
Definition ReadWordWithBatteryStatus (cmd : Z) : act dump ReadWordResult :=
  '(m, v) ← dev (ReadWord cmd);
  if negb (m =? MSG_OK) && negb (cmd =? 0x16) then
    '(m', st) ← dev (ReadWord 0x16); mret (mkResult m v false (m' =? MSG_OK) st)
  else mret (mkResult m v (m =? MSG_OK) false 0).
Definition line_head (cmd : Z) : list Z := txt "  0x" ++ hex 2 cmd ++ txt " " ++ pad 16 (GetCommandStr cmd).
Definition nack (m err : Z) : list Z := txt " NACK msg=" ++ sdec m ++ txt " i2c_err=0x" ++ hex 8 err.
(* @ sbs_debug.cpp:161-173 DumpSbsDevice (line) *)
Definition word_line (cmd : Z) (r : ReadWordResult) (err : Z) : list Z :=
  snprintf 240
    (if ok r then line_head cmd ++ txt " ACK  = 0x" ++ hex 4 (value r) ++ txt " (" ++ udec (value r) ++ txt ")" ++ word_extra cmd (value r) ++ crlf
     else if battery_status_valid r then
       line_head cmd ++ nack (msg r) err ++ txt "  BattStatus=0x" ++ hex 4 (battery_status r) ++ txt " ec=" ++ GetErrorCodeStr (BatteryStatusToErrorCode (battery_status r)) ++ crlf
     else line_head cmd ++ nack (msg r) err ++ crlf).
(* @ sbs_debug.cpp:94-175 DumpSbsDevice (words) *)
Fixpoint dump_words (cmds : list Z) : act dump unit :=
  match cmds with
  | [] => mret tt
  | cmd :: cmds => r ← ReadWordWithBatteryStatus cmd; err ← errors; _ ← PrintLine (word_line cmd r err); dump_words cmds
  end.
(* @ sbs_debug.cpp:202-222 DumpSbsDevice (block line) *)
Definition block_line (cmd : Z) (buf : list Z) (len : nat) : list Z :=
  let n := Nat.min len 33 in
  let ascii := map (fun c => if (32 <=? c) && (c <=? 126) then c else 46) (take n buf) in
  let hexes := flat_map (fun c => hex 2 c ++ [32]) (take (Nat.min n 16) buf) in
  snprintf 320 (line_head cmd ++ txt " ACK  len=" ++ udec (Z.of_nat len) ++ txt " " ++ quote ++ ascii ++ quote ++ txt "  hex: " ++ hexes ++ crlf).
(* @ sbs_debug.cpp:187-224 DumpSbsDevice (blocks) *)
Fixpoint dump_blocks (cmds : list Z) (buf : list Z) : act dump unit :=
  match cmds with
  | [] => mret tt
  | cmd :: cmds =>
    '(m, buf, len) ← dev (ReadBlock cmd buf); err ← errors;
    _ ← PrintLine (if negb (m =? MSG_OK) then snprintf 320 (line_head cmd ++ nack m err ++ crlf) else block_line cmd buf len);
    dump_blocks cmds buf
  end.
(** One command of the scan: what is printed, whether it was acknowledged (2 for a block), and its value. *)
(* @ sbs_debug.cpp:242-254 DumpSbsDevice (command) *)
Definition scan_command (cmd : Z) : act dump (list Z * (Z * Z * Z)) :=
  if (0x20 <=? cmd) && (cmd <=? 0x23) then mret (txt " BB", (cmd, 2, 0)) else
  '(m, v) ← dev (ReadWord cmd);
  mret (if m =? MSG_OK then (txt " ++", (cmd, 1, v)) else (txt " --", (cmd, 0, v))).
Fixpoint scan_row (cmds : list Z) : act dump (list Z * list (Z * Z * Z)) :=
  match cmds with
  | [] => mret ([], [])
  | cmd :: cmds => '(t, r) ← scan_command cmd; '(ts, rs) ← scan_row cmds; mret (t ++ ts, r :: rs)
  end.
(** The text grows in the line's array, each piece behind the others. *)
(* @ sbs_debug.cpp:239-258 DumpSbsDevice (scan) *)
Fixpoint scan (bases : list Z) : act dump (list (Z * Z * Z)) :=
  match bases with
  | [] => mret []
  | base :: bases =>
    '(t, rs) ← scan_row (map (fun j => base + Z.of_nat j) (seq 0 16));
    _ ← PrintLine (snprintf 256 (txt "0x" ++ hex 2 base ++ txt ":" ++ t ++ crlf));
    rs' ← scan bases; mret (rs ++ rs')
  end.
Definition listed (suppress : bool) (r : Z * Z * Z) : bool :=
  let '(cmd, okv, v) := r in
  (okv =? 1) && negb (IsKnownSbsCmd cmd) && negb (suppress && ((0x3C <=? cmd) && (cmd <=? 0x42))) && negb (v =? 0).
(* @ sbs_debug.cpp:262-274 DumpSbsDevice (unknown) *)
Fixpoint dump_unknown (suppress : bool) (rs : list (Z * Z * Z)) : act dump unit :=
  match rs with
  | [] => mret tt
  | r :: rs =>
    _ ← (if listed suppress r then let '(cmd, _, v) := r in
           PrintLine (snprintf 200 (txt "  0x" ++ hex 2 cmd ++ txt " <unknown> ACK  = 0x" ++ hex 4 v ++ txt " (" ++ udec v ++ txt ")" ++ crlf))
         else mret tt);
    dump_unknown suppress rs
  end.
Definition kWordCommands : list Z := map Z.of_nat (seq 1 28).
Definition kBlockCommands : list Z := [0x20; 0x21; 0x22; 0x23].
(* @ sbs_debug.cpp DumpSbsDevice *)
Definition DumpSbsDevice (include_cmd_scan list_unknown_nonzero suppress : bool) : act dump bool :=
  '(msg_v, v) ← dev (ReadWord 0x09);
  '(failed, msg_st) ← (if (msg_v =? MSG_OK) && (0 <? v) then mret (false, 0) else
    '(msg_st, st) ← dev (ReadWord 0x16); mret (negb ((msg_st =? MSG_OK) && negb (st =? 0)), msg_st));
  if failed : bool then
    err ← errors;
    _ ← PrintLine (snprintf 160 (txt "SBS probe failed msg_v=" ++ sdec msg_v ++ txt " msg_st=" ++ sdec msg_st ++ txt " i2c_err=0x" ++ hex 8 err ++ crlf)); mret false
  else
    _ ← dump_words kWordCommands;
    _ ← dump_blocks kBlockCommands (replicate 33 0);
    if negb include_cmd_scan then mret true else
    _ ← PrintLine (txt "BMS cmd scan (word read) 0x00..0xFF: ++=ACK --=NACK BB=block" ++ crlf);
    rs ← scan (map (fun i => 16 * Z.of_nat i) (seq 0 16));
    if negb list_unknown_nonzero then mret true else
    _ ← PrintLine (txt "BMS cmd scan: non-zero ACK (unknown cmds)" ++ crlf);
    _ ← dump_unknown suppress rs; mret true.

(** ** The Sabo's cells *)
(** All cells were read; their sum, least and greatest voltage. *)
Definition cell_text (i : nat) (m mv : Z) : list Z :=
  let reg := 0x3C + Z.of_nat i in
  let head := txt "  Cell" ++ udec (Z.of_nat i + 1) ++ txt " (0x" ++ hex 2 reg ++ txt ")" in
  snprintf 160 (if negb (m =? MSG_OK) then head ++ txt " NACK msg=" ++ sdec m ++ crlf
    else head ++ txt " ACK  = " ++ udec mv ++ txt " mV = " ++ udec (mv / 1000) ++ txt "." ++ digits 3 (mv mod 1000) ++ txt " V" ++ crlf).
(* @ sabo_bms_driver.cpp:362-385 SaboBmsDriver::DumpDevice (cells) *)
Fixpoint dump_cells (cells : list nat) (st : bool * Z * Z * Z) : act dump (bool * Z * Z * Z) :=
  match cells with
  | [] => mret st
  | i :: cells =>
    '(m, mv) ← dev (ReadWord (0x3C + Z.of_nat i));
    _ ← PrintLine (cell_text i m mv);
    let '(all_ok, sum, least, most) := st in
    dump_cells cells (if m =? MSG_OK then (all_ok, u32 (sum + mv), if mv <? least then mv else least, if most <? mv then mv else most) else (false, sum, least, most))
  end.
(* @ sabo_bms_driver.cpp SaboBmsDriver::DumpDevice *)
Definition DumpDevice (has_config : bool) : act dump bool :=
  if negb has_config then mret false else
  _ ← PrintLine (snprintf 128 (txt "BMS dump addr=0x" ++ hex 2 BMS_ADDRESS ++ crlf));
  r ← DumpSbsDevice true true true;
  if negb r then mret false else
  _ ← PrintLine (txt "BMS cell voltages cmds 0x3C..0x42" ++ crlf);
  '(all_ok, sum, least, most) ← dump_cells (seq 0 7) (true, 0, 0xFFFF, 0);
  _ ← (if all_ok : bool then
         PrintLine (snprintf 192 (txt "  CellSum=" ++ udec (sum / 1000) ++ txt "." ++ digits 3 (sum mod 1000) ++ txt " V  Min=" ++ udec least ++ txt "  Max=" ++ udec most ++
           txt "  Delta=" ++ udec (u16 (most - least)) ++ txt " mV" ++ crlf))
       else mret tt);
  mret true.

(** ** No line is cut *)
Definition ends (l : list Z) : Prop := exists t, l = t ++ crlf.
Context (Hword : forall cmd d, exists a d', ReadWord cmd d = Some (a, d')) (Hblock : forall cmd buf d, exists a d', ReadBlock cmd buf d = Some (a, d')).
Definition all_end (st : dump) : Prop := Forall ends st.2.
Lemma ends_app a b : ends b -> ends (a ++ b).
Proof. intros [t ->]. exists (a ++ t). rewrite app_assoc. reflexivity. Qed.
Lemma ends_crlf : ends crlf.
Proof. exists []. reflexivity. Qed.
Lemma snprintf_ends size t : ends t -> (length t < size)%nat -> ends (snprintf size t).
Proof. intros H L. unfold snprintf. rewrite take_ge by lia. exact H. Qed.
Lemma strip_length l : (length (strip l) <= length l)%nat.
Proof. induction l as [|c t IH]; [reflexivity|]. cbn [strip]. destruct (_ && _); cbn [length]; lia. Qed.
Lemma dump_digits_length n : forall x, length (Bms.digits n x) = n.
Proof. induction n as [|n IH]; intros x; [reflexivity|]. cbn. rewrite length_app, IH. cbn. lia. Qed.
Lemma udec_length x : (length (udec x) <= 10)%nat.
Proof. unfold udec. pose proof (strip_length (Bms.digits 10 x)). rewrite dump_digits_length in H. exact H. Qed.
Lemma sdec_length x : (length (sdec x) <= 11)%nat.
Proof. unfold sdec. destruct (x <? 0); cbn [length]; [pose proof (udec_length (- x))|pose proof (udec_length x)]; lia. Qed.
Lemma hex_length n : forall x, length (hex n x) = n.
Proof. induction n as [|n IH]; intros x; [reflexivity|]. cbn. rewrite length_app, IH. cbn. lia. Qed.
Lemma command_length cmd : (length (pad 16 (GetCommandStr cmd)) <= 16)%nat.
Proof.
  unfold pad. rewrite length_app, length_replicate. enough (length (GetCommandStr cmd) <= 16)%nat by lia. unfold GetCommandStr.
  destruct (List.find _ _) as [e|] eqn:E; [|vm_compute; lia]. apply List.find_some in E as [I _].
  assert (A : Forall (fun e => (length (txt e.2) <= 16)%nat) command_names) by (apply (bool_decide_unpack _); vm_compute; exact Logic.I). rewrite List.Forall_forall in A. apply A, I.
Qed.
Lemma error_length ec : (length (GetErrorCodeStr ec) <= 18)%nat.
Proof.
  unfold GetErrorCodeStr. set (l := map txt _). assert (A : Forall (fun s => (length s <= 18)%nat) l) by (apply (bool_decide_unpack _); vm_compute; exact I).
  destruct (nth_in_or_default (Z.to_nat ec) l (txt "Unknown")) as [H| ->]; [|vm_compute; lia]. rewrite List.Forall_forall in A. apply A, H.
Qed.
Lemma extra_length cmd v : (length (word_extra cmd v) <= 95)%nat.
Proof. unfold word_extra, snprintf. rewrite length_take. lia. Qed.
(** The length of a text that is built of pieces. *)
Ltac bound f lem := repeat match goal with |- context [length (f ?x)] => pose proof (lem x); generalize dependent (length (f x)); intros end.
Ltac text_length :=
  repeat rewrite length_app; rewrite ?hex_length, ?dump_digits_length;
  repeat match goal with |- context [length (txt ?s)] => let n := eval vm_compute in (length (txt s)) in change (length (txt s)) with n end;
  change (length crlf) with 2%nat; change (length quote) with 1%nat;
  bound udec udec_length; bound sdec sdec_length; bound GetErrorCodeStr error_length;
  repeat match goal with |- context [length (pad 16 (GetCommandStr ?x))] => pose proof (command_length x); generalize dependent (length (pad 16 (GetCommandStr x))); intros end;
  repeat match goal with |- context [length (word_extra ?x ?y)] => pose proof (extra_length x y); generalize dependent (length (word_extra x y)); intros end;
  lia.
Ltac whole_line := apply snprintf_ends; [repeat apply ends_app; apply ends_crlf|unfold line_head, nack; text_length].
Lemma word_line_ends cmd r err : ends (word_line cmd r err).
Proof. unfold word_line. destruct (ok r); [|destruct (battery_status_valid r)]; whole_line. Qed.
Lemma block_line_ends cmd buf len : ends (block_line cmd buf len).
Proof.
  unfold block_line. set (ascii := map _ _). set (hexes := flat_map _ _).
  assert (La : (length ascii <= 33)%nat) by (unfold ascii; rewrite length_map, length_take; lia).
  assert (Lh : (length hexes <= 48)%nat).
  { unfold hexes. assert (G : forall l, length (flat_map (fun c => hex 2 c ++ [32]) l) = (3 * length l)%nat) by (induction l as [|c l IH]; [reflexivity|]; cbn [flat_map]; rewrite !length_app, hex_length, IH; cbn; lia).
    rewrite G, length_take. lia. }
  whole_line.
Qed.
Lemma cell_text_ends i m mv : ends (cell_text i m mv).
Proof. unfold cell_text. destruct (negb _); whole_line. Qed.
(** Each operation returns, and keeps that all lines end. *)
Definition keeps {A} (m : act dump A) (Q : A -> Prop) : Prop := runs all_end m (fun a st => Q a /\ all_end st).
Lemma dump_ret {A} (a : A) (Q : A -> Prop) : Q a -> keeps (mret a) Q.
Proof. intros H st E. exists a, st. auto. Qed.
Lemma dump_bind {A B} (m : act dump A) (f : A -> act dump B) Q R : keeps m Q -> (forall a, Q a -> keeps (f a) R) -> keeps (a ← m; f a) R.
Proof. intros Hm Hf. apply (runs_bind _ _ _ (fun a st => Q a /\ all_end st)); [exact Hm|]. intros a st [H E]. exact (Hf a H st E). Qed.
Lemma keeps_word cmd : keeps (dev (ReadWord cmd)) (fun _ => True).
Proof. intros [d out] E. destruct (Hword cmd d) as (a & d' & Er). exists a, (d', out). unfold dev. rewrite Er. auto. Qed.
Lemma keeps_block cmd buf : keeps (dev (ReadBlock cmd buf)) (fun _ => True).
Proof. intros [d out] E. destruct (Hblock cmd buf d) as (a & d' & Er). exists a, (d', out). unfold dev. rewrite Er. auto. Qed.
Lemma keeps_errors : keeps errors (fun _ => True).
Proof. intros [d out] E. exists (GetI2cErrors d), (d, out). auto. Qed.
Lemma keeps_line line : ends line -> keeps (PrintLine line) (fun _ => True).
Proof. intros H [d out] E. exists tt, (d, out ++ [line]). split; [reflexivity|]. split; [exact I|]. apply Forall_app. split; [exact E|]. constructor; [exact H|constructor]. Qed.
Ltac step := first [apply dump_bind with (Q := fun _ => True); [first [apply keeps_word|apply keeps_block|apply keeps_errors|apply keeps_line]|intros ? _]].
Lemma keeps_words cmds : keeps (dump_words cmds) (fun _ => True).
Proof.
  induction cmds as [|cmd cmds IH]; [apply dump_ret; exact I|]. cbn [dump_words]. apply dump_bind with (Q := fun _ => True).
  - unfold ReadWordWithBatteryStatus. step. destruct a as [m v]. destruct (_ && _); [step; destruct a as [m' st]|]; apply dump_ret; exact I.
  - intros r _. step. apply dump_bind with (Q := fun _ => True); [apply keeps_line, word_line_ends|]. intros ? _. exact IH.
Qed.
Lemma keeps_blocks cmds : forall buf, keeps (dump_blocks cmds buf) (fun _ => True).
Proof.
  induction cmds as [|cmd cmds IH]; intros buf; [apply dump_ret; exact I|]. cbn [dump_blocks]. step. destruct a as [[m b] len]. step.
  apply dump_bind with (Q := fun _ => True); [apply keeps_line; destruct (negb _); [whole_line|apply block_line_ends]|]. intros ? _. apply IH.
Qed.
Lemma keeps_row cmds : keeps (scan_row cmds) (fun r => length r.1 = (3 * length cmds)%nat).
Proof.
  induction cmds as [|cmd cmds IH]; [apply dump_ret; reflexivity|]. cbn [scan_row]. apply dump_bind with (Q := fun r => length r.1 = 3%nat).
  - unfold scan_command. destruct (_ && _); [apply dump_ret; reflexivity|]. step. destruct a as [m v]. apply dump_ret. destruct (_ =? _); reflexivity.
  - intros [t r] Ht. apply (dump_bind _ _ _ _ IH). intros [ts rs] Hts. apply dump_ret. cbn [fst length] in *. rewrite length_app. lia.
Qed.
Lemma keeps_scan bases : keeps (scan bases) (fun _ => True).
Proof.
  induction bases as [|base bases IH]; [apply dump_ret; exact I|]. cbn [scan]. apply (dump_bind _ _ _ _ (keeps_row _)). intros [t rs] Ht. rewrite length_map, length_seq in Ht. cbn [fst] in Ht.
  apply dump_bind with (Q := fun _ => True); [apply keeps_line, snprintf_ends; [repeat apply ends_app; apply ends_crlf|text_length]|]. intros ? _.
  apply (dump_bind _ _ _ _ IH). intros rs' _. apply dump_ret. exact I.
Qed.
Lemma keeps_unknown suppress rs : keeps (dump_unknown suppress rs) (fun _ => True).
Proof.
  induction rs as [|[[cmd k] v] rs IH]; [apply dump_ret; exact I|]. cbn [dump_unknown]. apply dump_bind with (Q := fun _ => True).
  - destruct (listed _ _); [apply keeps_line; whole_line|apply dump_ret; exact I].
  - intros ? _. exact IH.
Qed.
Lemma keeps_DumpSbsDevice a b c : keeps (DumpSbsDevice a b c) (fun _ => True).
Proof.
  unfold DumpSbsDevice. step. destruct a0 as [m v]. apply dump_bind with (Q := fun _ => True).
  - destruct (_ && _); [apply dump_ret; exact I|]. step. destruct a0 as [m' st]. apply dump_ret. exact I.
  - intros [[] m'] _.
    + step. apply dump_bind with (Q := fun _ => True); [apply keeps_line; whole_line|]. intros ? _. apply dump_ret. exact I.
    + apply (dump_bind _ _ _ _ (keeps_words _)). intros ? _. apply (dump_bind _ _ _ _ (keeps_blocks _ _)). intros ? _. destruct a; cbn [negb]; [|apply dump_ret; exact I].
      apply dump_bind with (Q := fun _ => True); [apply keeps_line, ends_app, ends_crlf|]. intros ? _. apply (dump_bind _ _ _ _ (keeps_scan _)). intros rs _.
      destruct b; cbn [negb]; [|apply dump_ret; exact I]. apply dump_bind with (Q := fun _ => True); [apply keeps_line, ends_app, ends_crlf|]. intros ? _.
      apply (dump_bind _ _ _ _ (keeps_unknown _ _)). intros ? _. apply dump_ret. exact I.
Qed.
Lemma keeps_cells cells : forall st, keeps (dump_cells cells st) (fun _ => True).
Proof.
  induction cells as [|i cells IH]; intros st; [apply dump_ret; exact I|]. cbn [dump_cells]. step. destruct a as [m mv].
  apply dump_bind with (Q := fun _ => True); [apply keeps_line, cell_text_ends|]. intros ? _. destruct st as [[[b s] l] g]. apply IH.
Qed.
(** The dump ends with every line whole, whatever the battery and its bus say. *)
Theorem dump_lines_are_whole has_config d : exists r d' lines, DumpDevice has_config (d, []) = Some (r, (d', lines)) /\ Forall ends lines.
Proof.
  assert (K : keeps (DumpDevice has_config) (fun _ => True)).
  { unfold DumpDevice. destruct has_config; cbn [negb]; [|apply dump_ret; exact I]. apply dump_bind with (Q := fun _ => True); [apply keeps_line; whole_line|]. intros ? _. apply (dump_bind _ _ _ _ (keeps_DumpSbsDevice _ _ _)). intros r _.
    destruct r; cbn [negb]; [|apply dump_ret; exact I]. apply dump_bind with (Q := fun _ => True); [apply keeps_line, ends_app, ends_crlf|]. intros ? _.
    apply (dump_bind _ _ _ _ (keeps_cells _ _)). intros [[[ok0 sum] least] most] _. apply dump_bind with (Q := fun _ => True); [|intros ? _; apply dump_ret; exact I].
    destruct ok0; [apply keeps_line; whole_line|apply dump_ret; exact I]. }
  destruct (K (d, [])) as (r & [d' lines] & E & _ & L); [constructor|]. eauto.
Qed.
End Dump.

(** ** Examples *)
Module BmsDumpDemo.
(** A pack that knows some words, and no others. *)
Definition words (cmd : Z) : act unit (Z * Z) := fun d =>
  Some (if cmd =? 0x08 then (0, 2726) else if cmd =? 0x09 then (0, 25123) else if cmd =? 0x50 then (0, 7) else if (0x3C <=? cmd) && (cmd <=? 0x42) then (0, 3600 + cmd) else (-1, 0), d).
Definition blocks (cmd : Z) (buf : list Z) : act unit (Z * list Z * nat) := fun d => Some (if cmd =? 0x20 then (0, [65; 7] ++ drop 2 buf, 2%nat) else (-1, buf, 0%nat), d).
Definition lines : list (list Z) := match DumpDevice words blocks (fun _ => 0) true (tt, []) with Some (_, (_, l)) => l | None => [] end.
Lemma dump_witness : exists r d' l, DumpDevice words blocks (fun _ => 0) true (tt, []) = Some (r, (d', l)) /\ Forall ends l.
Proof. apply (dump_lines_are_whole words blocks (fun _ => 0)); intros; eexists _, _; reflexivity. Defined.
(** -0.55 degrees are printed without their sign. *)
Example minus_is_lost : lines !! 8%nat = Some (txt "  0x08 Temperature      ACK  = 0x0AA6 (2726) = 0.55 C" ++ crlf).
Proof. vm_compute. reflexivity. Qed.
Example unknown_command : txt "  0x50 <unknown> ACK  = 0x0007 (7)" ++ crlf ∈ lines.
Proof. apply (bool_decide_unpack _). vm_compute. exact I. Qed.
Example name_is_dumped : lines !! 29%nat = Some (txt "  0x20 ManufacturerName ACK  len=2 " ++ quote ++ txt "A." ++ quote ++ txt "  hex: 41 07 " ++ crlf).
Proof. vm_compute. reflexivity. Qed.
End BmsDumpDemo.
