(* ===== verification/Peripherals.v ===== *)
(** Smaller drivers: the TCA95xx port expanders ([drivers/gpio/tca_95xx]), the PWM motor
    driver ([drivers/motor/pwm]) and the ADC ([drivers/adc]).

    I2C transfers, the ADC's conversions, the time and the encoder's second line are inputs
    or parameters. [None] is an undefined conversion. *)
From S2P Require Import Prelude Float32 Charger Motor.

(** ** Port expanders *)
(* @ tca95xx.hpp:32-38 TCA95xxRegisterMap *)
Record TCA95xxRegisterMap := mkRegisterMap { input_port_reg : Z; output_port_reg : Z; config_reg : Z; port_count : nat; pin_count : Z }.
(* @ tca9534.hpp:26-27 TCA9534 *)
Definition TCA9534 : TCA95xxRegisterMap := mkRegisterMap 0 1 3 1 8.
(* @ tca9535.hpp:26-30 TCA9535 *)
Definition TCA9535 : TCA95xxRegisterMap := mkRegisterMap 0 2 6 2 16.
(* @ tca95xx.hpp:45-65 TCA95xxDriver *)
Record TCA95xx := mkTCA { output_state_ : Z; config_state_ : Z; tca_present_ : bool }.
#[export] Instance eta_TCA : Eta TCA95xx := fun s => mkTCA (output_state_ s) (config_state_ s) (tca_present_ s).
Definition new_TCA : TCA95xx := mkTCA 0 0 false.

Section Expander.
Context {D : Type} (i2cMasterTransmit : Z -> list Z -> nat -> D -> Z * list Z * D) (address : Z) (map : TCA95xxRegisterMap).
Definition kI2cRetries : nat := 3.
Abbreviation tca := (TCA95xx * D)%type.
(** Up to three attempts at a transfer. *)
Fixpoint attempt (n : nat) (tx : list Z) (rx_len : nat) (d : D) : option (list Z) * D :=
  match n with
  | O => (None, d)
  | S n =>
    let '(msg, rx, d) := i2cMasterTransmit address tx rx_len d in
    if msg =? MSG_OK then (Some rx, d) else attempt n tx rx_len d
  end.
(* @ tca95xx.cpp TCA95xxDriver::ReadRegister *)
Definition tca_ReadRegister (reg : Z) (d : D) : option Z * D :=
  let '(r, d) := attempt kI2cRetries [reg] (port_count map) d in
  (rx ← r; Some (le_int (take (port_count map) rx)), d).
(* @ tca95xx.cpp TCA95xxDriver::WriteRegister *)
Definition tca_WriteRegister (reg value : Z) (d : D) : bool * D :=
  let '(r, d) := attempt kI2cRetries (reg :: le_bytes (port_count map) value) 0 d in
  (match r with Some _ => true | None => false end, d).
(* @ tca95xx.cpp TCA95xxDriver::Init *)
Definition tca_Init (s : tca) : bool * tca :=
  let '(s, d) := s in
  match tca_ReadRegister (config_reg map) d with
  | (None, d) => (false, (s, d))
  | (Some v, d) => (true, (s <| config_state_ := v |> <| tca_present_ := true |>, d))
  end.
(* @ tca95xx.cpp TCA95xxDriver::ReadPort *)
Definition ReadPort (s : tca) : option Z * tca :=
  if negb (tca_present_ s.1) then (None, s) else
  let '(v, d) := tca_ReadRegister (input_port_reg map) s.2 in (v, (s.1, d)).
(* @ tca95xx.cpp TCA95xxDriver::WritePort *)
Definition WritePort (value : Z) (s : tca) : bool * tca :=
  if negb (tca_present_ s.1) then (false, s) else
  let '(ok, d) := tca_WriteRegister (output_port_reg map) value s.2 in (ok, (s.1 <| output_state_ := value |>, d)).
(* @ tca95xx.cpp TCA95xxDriver::WritePin *)
Definition WritePin (pin : Z) (value : bool) (s : tca) : bool * tca :=
  if negb (tca_present_ s.1) then (false, s) else
  if pin_count map <=? pin then (false, s) else
  let pin_mask := u16 (Z.shiftl 1 pin) in
  let output_state := if value then Z.lor (output_state_ s.1) pin_mask else u16 (Z.land (output_state_ s.1) (Z.lnot pin_mask)) in
  let '(ok, d) := tca_WriteRegister (output_port_reg map) output_state s.2 in (ok, (s.1 <| output_state_ := output_state |>, d)).
(* @ tca95xx.cpp TCA95xxDriver::ConfigPort *)
Definition ConfigPort (direction_mask : Z) (s : tca) : bool * tca :=
  if negb (tca_present_ s.1) then (false, s) else
  let '(ok, d) := tca_WriteRegister (config_reg map) direction_mask s.2 in (ok, (s.1 <| config_state_ := direction_mask |>, d)).

(** Writing a pin changes that pin of the port only. *)
Lemma WritePin_pin pin value s : tca_present_ s.1 = true -> 0 <= pin < pin_count map -> pin_count map <= 16 -> is_u16 (output_state_ s.1) ->
  is_u16 (output_state_ (WritePin pin value s).2.1) /\
  forall n, 0 <= n -> Z.testbit (output_state_ (WritePin pin value s).2.1) n = if n =? pin then value else Z.testbit (output_state_ s.1) n.
Proof.
  intros Hp Hpin Hcount Ho. unfold WritePin. rewrite Hp. cbn [negb]. destruct (Z.leb_spec (pin_count map) pin); [lia|].
  assert (Hm : u16 (Z.shiftl 1 pin) = 2 ^ pin).
  { rewrite Z.shiftl_1_l. apply u16_small. split; [apply Z.pow_nonneg; lia|]. change 65536 with (2 ^ 16). apply Z.pow_lt_mono_r; lia. }
  rewrite Hm. destruct (tca_WriteRegister _ _ _) as [ok d]. cbn. destruct value.
  - split; [apply u16_lor; [exact Ho|rewrite <- Hm; apply u16_range]|]. intros n Hn. rewrite Z.lor_spec, Z.pow2_bits_eqb, (Z.eqb_sym n) by lia.
    destruct (pin =? n); [apply orb_true_r|apply orb_false_r].
  - split; [apply u16_range|]. intros n Hn. unfold u16. change 65536 with (2 ^ 16). destruct (Z.lt_ge_cases n 16).
    + rewrite Z.mod_pow2_bits_low, Z.land_spec, Z.lnot_spec, Z.pow2_bits_eqb, (Z.eqb_sym n) by lia.
      destruct (pin =? n); [apply andb_false_r|apply andb_true_r].
    + rewrite Z.mod_pow2_bits_high by lia. destruct (Z.eqb_spec n pin); [reflexivity|]. rewrite <- (u16_small _ Ho). unfold u16.
      change 65536 with (2 ^ 16). rewrite Z.mod_pow2_bits_high by lia. reflexivity.
Qed.
End Expander.

(** ** PWM motor *)
Module Pwm.
(* @ pwm_motor_driver.hpp:13-36 PwmMotorDriver *)
Record PwmMotorDriver := mkPwm {
  pwm_ : option nat; channel_1_ : Z; channel_2_ : Z; line_encoder_a_ : Z; line_encoder_b_ : Z;
  tacho_ : Z; tacho_abs : Z; latest_state_ : ESCState; started_ : bool }.
#[export] Instance eta_pwm : Eta PwmMotorDriver := fun m =>
  mkPwm (pwm_ m) (channel_1_ m) (channel_2_ m) (line_encoder_a_ m) (line_encoder_b_ m) (tacho_ m) (tacho_abs m) (latest_state_ m) (started_ m).
Definition new_pwm : PwmMotorDriver := mkPwm None 0 0 0 0 0 0 zero_esc false.
(** [pwmEnableChannel]: the driver's number, the channel and the width. *)
Inductive out := Width (pwm : option nat) (channel width : Z) | Notify (st : ESCState).

(* @ pwm_motor_driver.cpp PwmMotorDriver::SetPWM *)
Definition SetPWM (pwm : nat) (channel1 channel2 : Z) (m : PwmMotorDriver) : PwmMotorDriver :=
  m <| pwm_ := Some pwm |> <| channel_1_ := channel1 |> <| channel_2_ := channel2 |>.
(* @ pwm_motor_driver.cpp PwmMotorDriver::SetEncoder *)
Definition SetEncoder (a b : Z) (m : PwmMotorDriver) : PwmMotorDriver := m <| line_encoder_a_ := a |> <| line_encoder_b_ := b |>.
(* @ pwm_motor_driver.cpp PwmMotorDriver::RequestStatus *)
Definition RequestStatus (m : PwmMotorDriver) : PwmMotorDriver * list out :=
  let st := (latest_state_ m) <| tacho := tacho_ m |> <| tacho_absolute := tacho_abs m |> in
  (m <| latest_state_ := st |>, [Notify st]).
(** The product is converted to the timer's 32-bit width. *)
(* @ pwm_motor_driver.cpp PwmMotorDriver::SetDuty *)
Definition SetDuty (duty : f32) (m : PwmMotorDriver) : option (list out) :=
  let scale := f_of_Z (0xFFF * 4) in
  if fgt duty f0 then
    w ← f_to_int 0 4294967295 (fmul scale duty); Some [Width (pwm_ m) (channel_1_ m) w; Width (pwm_ m) (channel_2_ m) 0]
  else
    w ← f_to_int 0 4294967295 (fmul scale (fneg duty)); Some [Width (pwm_ m) (channel_2_ m) w; Width (pwm_ m) (channel_1_ m) 0].
(** [None] where an assertion of [Start] fails. *)
(* @ pwm_motor_driver.cpp PwmMotorDriver::Start *)
Definition Start (m : PwmMotorDriver) : option (PwmMotorDriver * bool) :=
  if (match pwm_ m with None => true | _ => false end || (line_encoder_a_ m =? 0) || (line_encoder_b_ m =? 0) || started_ m)%bool then None
  else Some (m <| started_ := true |>, true).
(* @ pwm_motor_driver.cpp PwmMotorDriver::HandleEncoderTick *)
Definition HandleEncoderTick (b_high : bool) (m : PwmMotorDriver) : PwmMotorDriver :=
  (m <| tacho_abs := u32 (tacho_abs m + 1) |>) <| tacho_ := u32 (if b_high then tacho_ m + 1 else tacho_ m - 1) |>.

Definition ticks (l : list bool) (m : PwmMotorDriver) : PwmMotorDriver := fold_left (fun m b => HandleEncoderTick b m) l m.
(** The counters are the distance and the position, modulo 2^32. *)
Lemma ticks_count l m :
  tacho_abs (ticks l m) mod 4294967296 = (tacho_abs m + Z.of_nat (length l)) mod 4294967296 /\
  tacho_ (ticks l m) mod 4294967296 = (tacho_ m + (2 * countb id l - Z.of_nat (length l))) mod 4294967296.
Proof.
  revert m. induction l as [|b l IH]; intros m; [cbn; split; f_equal; lia|].
  destruct (IH (HandleEncoderTick b m)) as [H1 H2]. cbn [ticks fold_left] in *. fold (ticks l (HandleEncoderTick b m)). rewrite H1, H2.
  cbn [tacho_abs tacho_ HandleEncoderTick update length countb]. unfold u32, id. rewrite !Zplus_mod_idemp_l.
  split; f_equal; [lia|]. destruct b; cbn [Z.b2z]; lia.
Qed.
Example forward_and_back : (fun m => (tacho_ m, tacho_abs m)) (ticks [true; true; false; false; false] new_pwm) = (4294967295, 5).
Proof. reflexivity. Qed.
Example half_reverse : SetDuty (f_lit (-1) 2) (SetPWM 3 0 1 new_pwm) = Some [Width (Some 3%nat) 1 8190; Width (Some 3%nat) 0 0].
Proof. reflexivity. Qed.
(** A duty that is not a number reaches an undefined cast. *)
Example pwm_nan_is_undefined : SetDuty S754_nan new_pwm = None.
Proof. reflexivity. Qed.
End Pwm.

(** ** ADC *)
(** Some group's registers, as handed to [adcConvert]. *)
Record ADCConversionGroup := mkADC { num_channels : Z; cfgr : Z; cfgr2 : Z; pcsel : Z; smpr : list Z; sqr : list Z }.
#[export] Instance eta_ADC : Eta ADCConversionGroup := fun g => mkADC (num_channels g) (cfgr g) (cfgr2 g) (pcsel g) (smpr g) (sqr g).
(* @ adc1.hpp Resolution *)
Inductive Resolution := BITS_16 | BITS_14 | BITS_12 | BITS_10 | BITS_8.
(* @ adc1.hpp ResolutionInfo *)
Record ResolutionInfo := mkRes { bits : Z; adc_mask : Z }.
(* @ adc1.hpp:47-49 ResolutionInfo *)
Definition max_value (r : ResolutionInfo) : Z := Z.shiftl 1 (bits r) - 1.
(* @ adc1.hpp:52-54 GetScaleFactor *)
Definition GetScaleFactor (r : ResolutionInfo) (vref_voltage : f32) : f32 := fdiv vref_voltage (f_of_Z (max_value r)).
(* @ adc1.hpp:57-59 RawToVoltage *)
Definition RawToVoltage (r : ResolutionInfo) (raw : Z) (vref_voltage : f32) : f32 := fmul (f_of_Z raw) (GetScaleFactor r vref_voltage).
(** The masks are those of the HAL for the board's revision of the chip. *)
(* @ adc1.hpp:63-71 kResolutionInfo *)
Definition GetResolutionInfo (res : Resolution) : ResolutionInfo :=
  match res with
  | BITS_16 => mkRes 16 0 | BITS_14 => mkRes 14 (5 * 4) | BITS_12 => mkRes 12 (6 * 4) | BITS_10 => mkRes 10 (3 * 4) | BITS_8 => mkRes 8 (7 * 4)
  end.
(* @ adc1.hpp EmaFilterConfig *)
Record EmaFilterConfig := mkEma { alpha : f32; alpha_fast : f32; threshold : f32; enabled : bool }.
(* @ adc1.hpp EmaFilterConfig *)
Definition default_ema : EmaFilterConfig := mkEma (f_lit 3 10) (f_lit 7 10) (f_lit 1 2) false.
(* @ adc1.hpp Adc1Sensor *)
Record Adc1Sensor := mkSensor { channel : Z; sample_rate : Z }.
(** [convert] is the group's delegate, with its user data applied; the samples are those of
    its buffer. *)
(* @ adc1.hpp:102-119 Adc1ConversionGroup *)
Record Adc1ConversionGroup := mkGroup {
  sensors : list Adc1Sensor; resolution : Resolution; ovs_ratio : Z; ovs_rshift : Z; convert : list Z -> f32 -> f32;
  ema_config : EmaFilterConfig; ema_value : f32; cached_value : f32; last_conversion_time : Z }.
#[export] Instance eta_group : Eta Adc1ConversionGroup := fun g =>
  mkGroup (sensors g) (resolution g) (ovs_ratio g) (ovs_rshift g) (convert g) (ema_config g) (ema_value g) (cached_value g) (last_conversion_time g).
(* @ adc1.hpp IsValid *)
Definition IsValid (g : Adc1ConversionGroup) : bool := (match sensors g with [] => false | _ => true end && (length (sensors g) <=? 20)%nat)%bool.
(** Ten ticks of the system time per millisecond. *)
(* @ adc1.hpp IsCacheValid *)
Definition IsCacheValid (now max_age_ms : Z) (g : Adc1ConversionGroup) : bool :=
  if max_age_ms =? 0 then false else u32 (now - last_conversion_time g) <=? 10 * max_age_ms.
(* @ adc1.hpp UpdateCache *)
Definition UpdateCache (now : Z) (value : f32) (g : Adc1ConversionGroup) : Adc1ConversionGroup :=
  g <| last_conversion_time := now |> <| cached_value := value |>.
(* @ adc1.hpp:144-147 RawToVoltage *)
Definition group_RawToVoltage (g : Adc1ConversionGroup) (raw : Z) (vref : f32) : f32 := RawToVoltage (GetResolutionInfo (resolution g)) raw vref.
(* @ adc1.hpp ApplyEma *)
Definition ApplyEma (value : f32) (g : Adc1ConversionGroup) : f32 * Adc1ConversionGroup :=
  let c := ema_config g in
  if negb (enabled c) then (value, g) else
  if is_nan (ema_value g) then (value, g <| ema_value := value |>) else
  let a := if fgt (SFabs (fsub value (ema_value g))) (threshold c) then alpha_fast c else alpha c in
  let e := fadd (fmul a value) (fmul (fsub f1 a) (ema_value g)) in
  (e, g <| ema_value := e |>).
(* @ adc1.hpp Create *)
Definition Create (sensors : list Adc1Sensor) (res : Resolution) (ovs_ratio ovs_rshift : Z) (convert : list Z -> f32 -> f32) (ema : EmaFilterConfig)
  : Adc1ConversionGroup :=
  mkGroup sensors res ovs_ratio ovs_rshift convert ema S754_nan f0 0.

Definition or_at (i : nat) (v : Z) (l : list Z) : list Z := alter (fun x => u32 (Z.lor x v)) i l.
(** One pass of the loop of [Convert] over the sensors. *)
(* @ adc1.cpp:76-99 Convert *)
Definition add_sensor (i : Z) (s : Adc1Sensor) (g : ADCConversionGroup) : ADCConversionGroup :=
  let ch := channel s in
  let g := g <| pcsel ::= fun p => u32 (Z.lor p (Z.shiftl 1 ch)) |> in
  let g := if ch <=? 9 then g <| smpr ::= or_at 0 (Z.shiftl (sample_rate s) (ch * 3)) |>
           else if ch <=? 19 then g <| smpr ::= or_at 1 (Z.shiftl (sample_rate s) ((ch - 10) * 3)) |> else g in
  if i <? 4 then g <| sqr ::= or_at 0 (Z.shiftl (Z.shiftl ch 6) (i * 6)) |>
  else if i <? 8 then g <| sqr ::= or_at 1 (Z.shiftl ch ((i - 4) * 6)) |>
  else if i <? 13 then g <| sqr ::= or_at 2 (Z.shiftl ch ((i - 8) * 6)) |>
  else if i <? 16 then g <| sqr ::= or_at 3 (Z.shiftl ch ((i - 12) * 6)) |> else g.
Fixpoint add_sensors (i : Z) (l : list Adc1Sensor) (g : ADCConversionGroup) : ADCConversionGroup :=
  match l with [] => g | s :: l => add_sensors (i + 1) l (add_sensor i s g) end.
(** The group of registers for a conversion; ChibiOS runs it. *)
(* @ adc1.cpp:61-99 Convert *)
Definition conversion (cg : Adc1ConversionGroup) : ADCConversionGroup :=
  let ratio := ovs_ratio cg in
  let cfgr2 := Z.lor (Z.lor (if 0 <? ratio then Z.shiftl (ratio - 1) 16 else 0) (Z.shiftl (ovs_rshift cg) 5)) (if 1 <? ratio then 1 else 0) in
  add_sensors 0 (sensors cg)
    (mkADC (Z.of_nat (length (sensors cg))) (adc_mask (GetResolutionInfo (resolution cg))) (u32 cfgr2) 0 [0; 0] [0; 0; 0; 0]).

(** *** ADC3, for the reference voltage *)
Record adc3_regs := mkAdc3 { CFGR : Z; CFGR2 : Z; SQR1 : Z; SMPR1 : Z; SMPR2 : Z; CR : Z }.
(** [ratio] is the exponent of the oversampling, [None] without; 4 is [ADC_CR_ADSTART]. *)
(* @ adc3.cpp StartConvert *)
Definition adc3_StartConvert (chan smpr res : Z) (ovsr : option Z) (ovss cr : Z) : adc3_regs :=
  mkAdc3 (Z.shiftl res 3)
    (match ovsr with None => 0 | Some r => Z.lor (Z.lor (Z.shiftl r 2) (Z.shiftl ovss 5)) 1 end)
    (Z.lor (Z.shiftl chan 6) 0)
    (if chan <=? 9 then u32 (Z.shiftl smpr (chan * 3)) else 0)
    (if chan <=? 9 then 0 else if chan <=? 18 then u32 (Z.shiftl smpr ((chan - 10) * 3)) else 0)
    (Z.lor cr 4).
(** The value for a factory calibration [cal]. *)
(* @ adc3.cpp GetVrefVoltage *)
Definition GetVrefVoltage (cal raw_value : Z) : f32 := fdiv (fmul (f_lit 33 10) (f_of_Z cal)) (f_of_Z raw_value).

(** *** The registry and the cache *)
(** A group is a static object, reached through the registry only once it is registered. *)
Record adc_state := mkAdc { conv_id_to_cg_ : list (option Adc1ConversionGroup); last_vref_ : f32 }.
#[export] Instance eta_adc : Eta adc_state := fun s => mkAdc (conv_id_to_cg_ s) (last_vref_ s).
Definition new_adc : adc_state := mkAdc [None; None; None] S754_nan.
(* @ adc1.hpp Adc1ConversionId *)
Definition V_CHARGER : nat := 0.
(* @ adc1.hpp Adc1ConversionId *)
Definition V_BATTERY : nat := 1.
(* @ adc1.hpp Adc1ConversionId *)
Definition I_IN_DCDC : nat := 2.
(* @ adc1.cpp RegisterConversionGroup *)
Definition RegisterConversionGroup (id : nat) (cg : Adc1ConversionGroup) (s : adc_state) : adc_state * bool :=
  if negb (IsValid cg) then (s, false) else
  if (3 <=? id)%nat then (s, false) else (s <| conv_id_to_cg_ ::= fun l => <[id := Some cg]> l |>, true).
(** [None] is an access beyond the table. *)
(* @ adc1.cpp GetConversionGroup *)
Definition GetConversionGroup (id : nat) (s : adc_state) : option (option Adc1ConversionGroup) := conv_id_to_cg_ s !! id.
(** [samples] is what the conversion leaves in the buffer, [None] when it fails, and [vref_raw]
    the sample of ADC3; [now1] and [now2] are the times of the cache's look-up and update. *)
(* @ adc1.cpp GetValueOrNaN *)
Definition GetValueOrNaN (cal : Z) (id : nat) (max_age_ms now1 : Z) (samples : option (list Z)) (vref_raw now2 : Z) (s : adc_state)
  : option (f32 * adc_state) :=
  cg ← GetConversionGroup id s;
  match cg with
  | None => Some (S754_nan, s)
  | Some cg =>
    if negb (IsValid cg) then Some (S754_nan, s) else
    if IsCacheValid now1 max_age_ms cg then Some (cached_value cg, s) else
    match samples with
    | None => Some (S754_nan, s)
    | Some samples =>
      let vref := GetVrefVoltage cal vref_raw in
      let s := s <| last_vref_ := vref |> in
      let '(value, cg) := ApplyEma (convert cg samples vref) cg in
      Some (value, s <| conv_id_to_cg_ ::= fun l => <[id := Some (UpdateCache now2 value cg)]> l |>)
    end
  end.

(** *** The robots' groups *)
(** The delegate of every group: the first sample, times the group's scale. *)
(* @ sabo_robot.cpp:91-99 lambda *)
Definition scaled (res : Resolution) (scale_factor : f32) (samples : list Z) (vref_voltage : f32) : f32 :=
  fmul (RawToVoltage (GetResolutionInfo res) (nth 0 samples 0) vref_voltage) scale_factor.
Definition group_at (ch ratio rshift : Z) (scale_factor : f32) (ema : EmaFilterConfig) : Adc1ConversionGroup :=
  Create [mkSensor ch 3] BITS_16 ratio rshift (scaled BITS_16 scale_factor) ema.
(** The scales of the hardware configuration. *)
(* @ sabo_common.hpp:140-144 Adc *)
Record Adc := mkScales { charger_voltage_scale_factor : f32; battery_voltage_scale_factor : f32; dcdc_in_current_scale_factor : f32 }.
(* @ sabo_common.hpp:213-215 ADC_V0_2_1 *)
Definition ADC_V0_2_1 : Adc := mkScales (f_lit 163846 10000) (f_lit 163846 10000) f1.
(* @ sabo_common.hpp:216-218 ADC_V0_4 *)
Definition ADC_V0_4 : Adc := mkScales (f_lit 164047 10000) (f_of_Z 11) f1.
(* @ sabo_robot.cpp SaboRobot::RegisterAdc1Sensors *)
Definition RegisterAdc1Sensors (adc_scales : Adc) (s : adc_state) : adc_state :=
  let s := (RegisterConversionGroup V_CHARGER (group_at 15 0 0 (charger_voltage_scale_factor adc_scales) default_ema) s).1 in
  let s := (RegisterConversionGroup V_BATTERY (group_at 16 0 0 (battery_voltage_scale_factor adc_scales) default_ema) s).1 in
  (RegisterConversionGroup I_IN_DCDC (group_at 18 16 4 (dcdc_in_current_scale_factor adc_scales) default_ema) s).1.
(* @ yardforce_robot.hpp:50-52 ADC_CHARGER_VOLTAGE_SCALE *)
Definition ADC_CHARGER_VOLTAGE_SCALE : f32 := f_lit 132222 10000.
(* @ yardforce_robot.hpp:50-52 ADC_BATTERY_VOLTAGE_SCALE *)
Definition ADC_BATTERY_VOLTAGE_SCALE : f32 := f_of_Z 11.
(* @ yardforce_robot.cpp YardForceRobot::RegisterAdcSensors *)
Definition RegisterAdcSensors (version_major version_minor : Z) (s : adc_state) : adc_state :=
  if ((version_major <? 1) || ((version_major =? 1) && (version_minor <? 2)))%bool then s else
  let s := (RegisterConversionGroup V_CHARGER (group_at 15 0 0 ADC_CHARGER_VOLTAGE_SCALE (mkEma (f_lit 2 10) (f_lit 5 10) (f_lit 1 10) true)) s).1 in
  (RegisterConversionGroup V_BATTERY (group_at 16 0 0 ADC_BATTERY_VOLTAGE_SCALE (mkEma (f_lit 3 10) (f_lit 7 10) (f_lit 5 10) true)) s).1.

(** *** Lemmas *)
(** The channel at position [i] of the regular sequence, as the chip reads it: four positions
    in SQR1 above the length, five in each of the others. *)
Definition regular_channel (g : ADCConversionGroup) (i : nat) : Z :=
  let field r b := Z.land (Z.shiftr (nth r (sqr g) 0) (Z.of_nat b)) 31 in
  if (i <? 4)%nat then field 0%nat (6 + 6 * i)%nat else if (i <? 9)%nat then field 1%nat (6 * (i - 4))%nat
  else if (i <? 14)%nat then field 2%nat (6 * (i - 9))%nat else field 3%nat (6 * (i - 14))%nat.

Lemma channel_bits c n : 0 <= c < 32 -> 5 <= n -> Z.testbit c n = false.
Proof. intros H Hn. rewrite <- (Z.mod_small c (2 ^ 5)) by (cbn; lia). apply Z.mod_pow2_bits_high. lia. Qed.
Lemma channel_ext c d : 0 <= c < 32 -> (forall n, 0 <= n < 5 -> Z.testbit d n = Z.testbit c n) -> Z.land d 31 = c.
Proof.
  intros Hc H. apply Z.bits_inj'. intros n Hn. change 31 with (Z.ones 5). rewrite Z.land_spec, Z.testbit_ones_nonneg by lia.
  destruct (Z.ltb_spec n 5); [rewrite andb_true_r; apply H; lia|]. rewrite andb_false_r, channel_bits by lia. reflexivity.
Qed.

Ltac sequence_bit :=
  unfold u32; change 4294967296 with (2 ^ 32); rewrite ?Z.shiftl_shiftl by lia;
  repeat first [ rewrite Z.mod_pow2_bits_low by lia | rewrite Z.lor_spec | rewrite Z.shiftl_spec by lia | rewrite Z.shiftr_spec by lia ];
  repeat match goal with
  | |- context [Z.testbit 0 ?i] => rewrite (Z.bits_0 i)
  | |- context [Z.testbit ?c ?i] => rewrite (Z.testbit_neg_r c i) by lia
  | |- context [Z.testbit ?c ?i] => rewrite (channel_bits c i) by (assumption || lia)
  end; rewrite ?orb_false_r, ?orb_false_l; f_equal; lia.

Definition seq_step (i c : Z) (r : list Z) : list Z :=
  if i <? 4 then or_at 0 (Z.shiftl (Z.shiftl c 6) (i * 6)) r
  else if i <? 8 then or_at 1 (Z.shiftl c ((i - 4) * 6)) r
  else if i <? 13 then or_at 2 (Z.shiftl c ((i - 8) * 6)) r
  else if i <? 16 then or_at 3 (Z.shiftl c ((i - 12) * 6)) r else r.
Fixpoint seq_from (i : Z) (cs r : list Z) : list Z := match cs with [] => r | c :: cs => seq_from (i + 1) cs (seq_step i c r) end.
Lemma sqr_add_sensor i s g : sqr (add_sensor i s g) = seq_step i (channel s) (sqr g).
Proof. unfold add_sensor, seq_step. destruct (channel s <=? 9), (channel s <=? 19), (i <? 4), (i <? 8), (i <? 13), (i <? 16); reflexivity. Qed.
Lemma sqr_add_sensors l : forall i g, sqr (add_sensors i l g) = seq_from i (map channel l) (sqr g).
Proof. induction l as [|s l IH]; intros i g; [reflexivity|]. cbn [add_sensors map seq_from]. rewrite IH, sqr_add_sensor. reflexivity. Qed.

(** Up to eight sensors are converted in their order. *)
Lemma regular_sequence cg i s : (length (sensors cg) <= 8)%nat -> Forall (fun s => 0 <= channel s < 32) (sensors cg) ->
  sensors cg !! i = Some s -> regular_channel (conversion cg) i = channel s.
Proof.
  intros Hl Hc Hi. unfold regular_channel, conversion. rewrite sqr_add_sensors. cbn [sqr].
  assert (Hm : map channel (sensors cg) !! i = Some (channel s)) by (rewrite list_lookup_fmap, Hi; reflexivity).
  assert (Hr : Forall (fun c => 0 <= c < 32) (map channel (sensors cg))) by (apply Forall_map; exact Hc).
  rewrite <- (length_map channel) in Hl. revert Hl Hm Hr. generalize (map channel (sensors cg)) (channel s). clear.
  intros cs c Hl Hm Hr.
  assert (Hb : 0 <= c < 32) by (eapply Forall_lookup_1 in Hr; eauto).
  destruct cs as [|c0 [|c1 [|c2 [|c3 [|c4 [|c5 [|c6 [|c7 [|]]]]]]]]]; [..|cbn in Hl; lia]; rewrite ?Forall_cons in Hr; destruct_and? Hr.
  all: do 9 (destruct i as [|i]; cbn in Hm; [first [discriminate Hm | injection Hm as ->; cbv -[Z.land Z.lor Z.shiftl Z.shiftr u32 Z.of_nat Z.le Z.lt]; apply channel_ext; [exact Hb|intros n Hn; sequence_bit]]|]); discriminate Hm.
Qed.
(** The ninth sensor is put at the tenth position; the ninth converts channel 0. *)
Example ninth_sensor_misplaced :
  let cg := Create (repeat (mkSensor 5 0) 8 ++ [mkSensor 7 0]) BITS_16 0 0 (fun _ _ => f0) default_ema in
  map (regular_channel (conversion cg)) (seq 7 3) = [5; 0; 7].
Proof. vm_compute. reflexivity. Qed.

(** A value read is what the next readings return, until it is older than their limit. *)
Lemma value_is_cached cal id age now1 samples vref_raw now2 s v s' age' now3 samples' vref_raw' now4 cg :
  conv_id_to_cg_ s !! id = Some (Some cg) -> IsCacheValid now1 age cg = false -> samples <> None -> IsValid cg = true ->
  GetValueOrNaN cal id age now1 samples vref_raw now2 s = Some (v, s') ->
  0 < age' -> 0 <= now3 - now2 <= 10 * age' -> 10 * age' < 4294967296 ->
  GetValueOrNaN cal id age' now3 samples' vref_raw' now4 s' = Some (v, s').
Proof.
  intros Hid Hold Hs Hv Hget Hage Hnow Hsmall. unfold GetValueOrNaN, GetConversionGroup in *. rewrite Hid in Hget. cbn in Hget.
  rewrite Hv, Hold in Hget. cbn [negb] in Hget. destruct samples as [raw|]; [|congruence].
  pose (ema := ApplyEma (convert cg raw (GetVrefVoltage cal vref_raw)) cg). fold ema in Hget.
  assert (Hg : sensors ema.2 = sensors cg).
  { unfold ema, ApplyEma. destruct (enabled _), (is_nan _); reflexivity. }
  destruct ema as [e cg']. injection Hget as -> <-. cbn [conv_id_to_cg_ update]. cbn in Hg.
  rewrite list_lookup_insert_eq by (apply lookup_lt_is_Some; eauto). cbn [mbind option_bind].
  unfold IsValid in *. cbn. rewrite Hg, Hv. cbn [negb]. unfold IsCacheValid. cbn.
  destruct (Z.eqb_spec age' 0); [lia|]. unfold u32. rewrite Z.mod_small by lia.
  destruct (Z.leb_spec (now3 - now2) (10 * age')); [reflexivity|lia].
Qed.

(** With a 3.3 V reference, half the range on the charger's input of the first boards. *)
Example half_range_charger_voltage :
  (r ← GetValueOrNaN 1500 V_CHARGER 100 5000 (Some [32768]) 1500 5001 (RegisterAdc1Sensors ADC_V0_2_1 new_adc); Some (f_trunc r.1)) = Some (Some 27).
Proof. vm_compute. reflexivity. Qed.
(** A group counts as converted when the system starts: within the limit of it, its value is 0. *)
Example cache_valid_at_boot :
  (r ← GetValueOrNaN 1500 V_BATTERY 100 999 (Some [32768]) 1500 1000 (RegisterAdcSensors 1 2 new_adc); Some r.1) = Some f0.
Proof. vm_compute. reflexivity. Qed.
(** A reference sample of 0 makes the filter infinite, and it stays so. *)
Example infinite_filter_stays :
  (r ← GetValueOrNaN 1500 V_BATTERY 0 5000 (Some [32768]) 0 5001 (RegisterAdcSensors 1 2 new_adc);
   r ← GetValueOrNaN 1500 V_BATTERY 0 6000 (Some [32768]) 1500 6001 r.2; Some r.1) = Some (S754_infinity false).
Proof. vm_compute. reflexivity. Qed.
(** Boards before 1.2 register no group: there is no value. *)
Example old_board_has_no_value :
  (r ← GetValueOrNaN 1500 V_BATTERY 100 5000 None 0 0 (RegisterAdcSensors 1 1 new_adc); Some (is_nan r.1)) = Some true.
Proof. reflexivity. Qed.
