(* ===== verification/SaboUi.v ===== *)
(** The Sabo cover UI: the panels of series I and II, the carrier boards that reach them, and the controller
    ([drivers/ui/SaboCoverUI]).

    A carrier board's driver is an instance of [Cabo]; the base class and the controller are written
    against it. SPI transfers, lines and the port expanders are parameters. [None] is a call through a null
    pointer. *)
From S2P Require Import Prelude ServiceExt Float32 Leds Charger Peripherals.

(** ** Buttons and LEDs *)
(* @ sabo_common.hpp:39-52 ButtonId *)
Inductive ButtonId := UP | DOWN | LEFT | RIGHT | OK | PLAY | S1_SELECT | MENU | BACK | S2_AUTO | S2_MOW | S2_HOME.
#[export] Instance ButtonId_eq : EqDecision ButtonId.
Proof. solve_decision. Defined.
(* @ sabo_common.hpp:39-52 ButtonId *)
Definition button_num (b : ButtonId) : Z :=
  match b with UP => 0 | DOWN => 1 | LEFT => 2 | RIGHT => 3 | OK => 4 | PLAY => 5 | S1_SELECT => 6 | MENU => 8 | BACK => 9
  | S2_AUTO => 10 | S2_MOW => 11 | S2_HOME => 12 end.
(* @ sabo_common.hpp:290-293 ALL_BUTTONS *)
Definition ALL_BUTTONS : list ButtonId := [UP; DOWN; LEFT; RIGHT; OK; PLAY; S1_SELECT; MENU; BACK; S2_AUTO; S2_MOW; S2_HOME].
(* @ sabo_common.hpp:54-54 LedId *)
Inductive LedId := AUTO | MOWING | HOME | PLAY_GN | PLAY_RD.
#[export] Instance LedId_eq : EqDecision LedId.
Proof. solve_decision. Defined.
(* @ sabo_common.hpp:54-54 LedId *)
Definition led_id (l : LedId) : Z := match l with AUTO => 0 | MOWING => 1 | HOME => 2 | PLAY_GN => 3 | PLAY_RD => 4 end.
Definition LEDS : list LedId := [AUTO; MOWING; HOME; PLAY_GN; PLAY_RD].
(* @ sabo_common.hpp:56-56 LedMode *)
Inductive LedMode := OFF | ON | BLINK_SLOW | BLINK_FAST.

(** ** The panels' series *)
(** [Series1 mask offset] is [SaboCoverUISeries1GPIO]. *)
Inductive series_kind := Series1V02 | Series1GPIO (led_offset : Z) | Series2 | Series2V02.
(* @ sabo_cover_ui_series1_v03.hpp:28-28 SaboCoverUISeries1V03 *)
Definition Series1V03 : series_kind := Series1GPIO 0.
(* @ sabo_cover_ui_series1_v04.hpp:28-28 SaboCoverUISeries1V04 *)
Definition Series1V04 : series_kind := Series1GPIO 9.
(* @ sabo_cover_ui_series1_v03.hpp:28-28 GPIO_LED_PINS *)
Definition V03_LED_PINS : Z := 31.
(* @ sabo_cover_ui_series1_v04.hpp:28-28 GPIO_LED_PINS *)
Definition V04_LED_PINS : Z := 15872.
(** A series driver: its kind, and of series II the row and the mask read so far. *)
(* @ sabo_cover_ui_series2.hpp:49-50 SaboCoverUISeries2 *)
Record series := mkSeries { kind : series_kind; current_button_row_ : Z; cur_btn_mask : Z }.
#[export] Instance eta_series : Eta series := fun s => mkSeries (kind s) (current_button_row_ s) (cur_btn_mask s).
Definition new_series (k : series_kind) : series := mkSeries k 0 0.
(* @ sabo_cover_ui_series_interface.hpp:13-13 SeriesType *)
Inductive SeriesType := Unknown | Series_I | Series_II.
(* @ sabo_cover_ui_series2.hpp GetType *)
Definition GetType (s : series) : SeriesType := match kind s with Series1V02 | Series1GPIO _ => Series_I | _ => Series_II end.
(* @ sabo_cover_ui_series2.hpp GetButtonRowMask *)
Definition GetButtonRowMask2 (s : series) : Z := Z.shiftl 1 (5 + Z.land (current_button_row_ s) 1).
(* @ sabo_cover_ui_series2_v02.hpp GetButtonRowMask *)
Definition GetButtonRowMask2V02 (s : series) : Z := Z.shiftl 1 (5 + Z.lxor 1 (Z.land (current_button_row_ s) 1)).
(* @ sabo_cover_ui_series1_gpio.hpp GetButtonRowMask *)
Definition GetButtonRowMask (s : series) : Z :=
  match kind s with Series2 => GetButtonRowMask2 s | Series2V02 => GetButtonRowMask2V02 s | _ => 0 end.
(* @ sabo_cover_ui_series2.hpp ProcessButtonCol *)
Definition ProcessButtonCol2 (cur_col_data : Z) (s : series) : series * Z :=
  let masked_col := Z.lor (Z.land cur_col_data 63) 192 in
  let row := Z.lxor (current_button_row_ s) 1 in
  let mask := u16 (Z.lor (Z.land (cur_btn_mask s) (if negb (row =? 0) then 0xFF00 else 0x00FF))
    (if negb (row =? 0) then masked_col else Z.shiftl masked_col 8)) in
  (s <| current_button_row_ := row |> <| cur_btn_mask := mask |>, mask).
(* @ sabo_cover_ui_series1_gpio.hpp ProcessButtonCol *)
Definition ProcessButtonCol (cur_col_data : Z) (s : series) : series * Z :=
  match GetType s with Series_I => (s, cur_col_data) | _ => ProcessButtonCol2 cur_col_data s end.
(* @ sabo_cover_ui_series1_v02.hpp MapButtonIDToMask *)
Definition MapButtonIDToMask1V02 (b : ButtonId) : Z :=
  match b with
  | UP => Z.shiftl 1 7 | DOWN => Z.shiftl 1 8 | LEFT => Z.shiftl 1 6 | RIGHT => Z.shiftl 1 4 | OK => Z.shiftl 1 10
  | PLAY => Z.shiftl 1 3 | MENU => Z.shiftl 1 1 | BACK => Z.shiftl 1 5 | S1_SELECT => Z.shiftl 1 0 | _ => 0
  end.
(* @ sabo_cover_ui_series1_gpio.hpp MapButtonIDToMask *)
Definition MapButtonIDToMask1 (b : ButtonId) : Z :=
  match b with
  | UP => Z.shiftl 1 0 | DOWN => Z.shiftl 1 1 | LEFT => Z.shiftl 1 2 | RIGHT => Z.shiftl 1 3 | OK => Z.shiftl 1 4
  | PLAY => Z.shiftl 1 5 | MENU => Z.shiftl 1 6 | BACK => Z.shiftl 1 7 | S1_SELECT => Z.shiftl 1 8 | _ => 0
  end.
(* @ sabo_cover_ui_series2.hpp MapButtonIDToMask *)
Definition MapButtonIDToMask2 (b : ButtonId) : Z := Z.shiftl 1 (button_num b).
(* @ sabo_cover_ui_series_interface.hpp MapButtonIDToMask *)
Definition MapButtonIDToMask (k : series_kind) (b : ButtonId) : Z :=
  match k with Series1V02 => MapButtonIDToMask1V02 b | Series1GPIO _ => MapButtonIDToMask1 b | _ => MapButtonIDToMask2 b end.
(* @ sabo_cover_ui_series_interface.hpp AllButtonsMask *)
Definition AllButtonsMask (k : series_kind) : Z :=
  match k with Series1V02 => 1531 | Series1GPIO _ => 511 | _ => 0x1F7F end.
(* @ sabo_cover_ui_series1_v02.hpp MapLedIdToMask *)
Definition MapLedIdToMask1V02 (l : LedId) : Z :=
  match l with AUTO => Z.shiftl 1 3 | HOME => Z.shiftl 1 4 | PLAY_RD => Z.shiftl 1 5 | MOWING => Z.shiftl 1 6 | PLAY_GN => Z.shiftl 1 7 end.
(* @ sabo_cover_ui_series1_gpio.hpp MapLedIdToMask *)
Definition MapLedIdToMask1 (offset : Z) (l : LedId) : Z := u16 (Z.shiftl 1 (led_id l + offset)).
(* @ sabo_cover_ui_series2.hpp MapLedIdToMask *)
Definition MapLedIdToMask2 (l : LedId) : Z := Z.land (Z.shiftl 1 (led_id l)) 31.
(* @ sabo_cover_ui_series_interface.hpp MapLedIdToMask *)
Definition MapLedIdToMask (k : series_kind) (l : LedId) : Z :=
  match k with Series1V02 => MapLedIdToMask1V02 l | Series1GPIO o => MapLedIdToMask1 o l | _ => MapLedIdToMask2 l end.

(** Every panel's buttons and LEDs have bits of their own. *)
Definition kinds : list series_kind := [Series1V02; Series1V03; Series1V04; Series2; Series2V02].
Ltac each_kind H := unfold kinds, Series1V03, Series1V04 in H; repeat (apply elem_of_cons in H as [->|H]); [..|apply elem_of_nil in H; destruct H].
Lemma led_masks k l l' : k ∈ kinds -> is_u16 (MapLedIdToMask k l) /\
  Z.land (MapLedIdToMask k l) (MapLedIdToMask k l') = if decide (l = l') then MapLedIdToMask k l else 0.
Proof. intros Hk. each_kind Hk; destruct l, l'; vm_compute; intuition congruence. Qed.
Lemma led_masks_nonzero k l : k ∈ kinds -> MapLedIdToMask k l <> 0.
Proof. intros Hk. each_kind Hk; destruct l; discriminate. Qed.
Lemma button_masks_nodup k : k ∈ kinds -> NoDup (filter (fun m => m <> 0) (map (MapButtonIDToMask k) ALL_BUTTONS)) /\
  AllButtonsMask k = fold_left Z.lor (map (MapButtonIDToMask k) ALL_BUTTONS) 0.
Proof. intros Hk. each_kind Hk; (split; [apply (bool_decide_unpack _); vm_compute; exact I|vm_compute; reflexivity]). Qed.

(** ** The base of the boards' drivers *)
(* @ sabo_cover_ui_cabo_driver_base.hpp:75-79 DriverState *)
Inductive DriverState := WAITING_FOR_CUI | BOOT_ANIMATION | READY.
(** The driver, with the two static variables of [DebounceRawButtons]. *)
(* @ sabo_cover_ui_cabo_driver_base.hpp:59-89 SaboCoverUICaboDriverBase *)
Record base := mkBase {
  series_ : option series; on_mask : Z; slow_blink_mask : Z; fast_blink_mask : Z; last_slow_update : Z; last_fast_update : Z;
  slow_blink_state : bool; fast_blink_state : bool; state_ : DriverState; current_led_mask_ : Z;
  btn_stable_raw_mask_ : Z; btn_last_raw_mask_ : Z; btn_debounce_counter_ : Z }.
#[export] Instance eta_base : Eta base := fun b => mkBase (series_ b) (on_mask b) (slow_blink_mask b) (fast_blink_mask b)
  (last_slow_update b) (last_fast_update b) (slow_blink_state b) (fast_blink_state b) (state_ b) (current_led_mask_ b)
  (btn_stable_raw_mask_ b) (btn_last_raw_mask_ b) (btn_debounce_counter_ b).
Definition new_base : base := mkBase None 0 0 0 0 0 false false WAITING_FOR_CUI 0 0xFFFF 0xFFFF 0.
(* @ sabo_cover_ui_cabo_driver_base.hpp:27-27 DEBOUNCE_TICKS *)
Definition DEBOUNCE_TICKS : Z := 5.
(** [TIME_MS2I]: a tick is 0.1 ms. *)
Definition TIME_MS2I (ms : Z) : Z := 10 * ms.
(* @ sabo_cover_ui_cabo_driver_base.cpp SaboCoverUICaboDriverBase::ProcessLedStates *)
Definition ProcessLedStates (now : Z) (b : base) : base :=
  let b := if negb (slow_blink_mask b =? 0) && (TIME_MS2I 500 <=? u32 (now - last_slow_update b))
    then b <| last_slow_update := now |> <| slow_blink_state := negb (slow_blink_state b) |> else b in
  let b := if negb (fast_blink_mask b =? 0) && (TIME_MS2I 100 <=? u32 (now - last_fast_update b))
    then b <| last_fast_update := now |> <| fast_blink_state := negb (fast_blink_state b) |> else b in
  b <| current_led_mask_ := Z.lor (Z.lor (on_mask b) (if slow_blink_state b then slow_blink_mask b else 0))
    (if fast_blink_state b then fast_blink_mask b else 0) |>.
(* @ sabo_cover_ui_cabo_driver_base.cpp SaboCoverUICaboDriverBase::DebounceRawButtons *)
Definition DebounceRawButtons (raw_buttons : Z) (b : base) : base :=
  let counter := if Z.lxor (btn_last_raw_mask_ b) raw_buttons =? 0
    then if btn_debounce_counter_ b <? DEBOUNCE_TICKS then btn_debounce_counter_ b + 1 else btn_debounce_counter_ b else 0 in
  b <| btn_debounce_counter_ := counter |> <| btn_stable_raw_mask_ := if DEBOUNCE_TICKS <=? counter then raw_buttons else btn_stable_raw_mask_ b |>
    <| btn_last_raw_mask_ := raw_buttons |>.
(* @ sabo_cover_ui_cabo_driver_base.cpp SaboCoverUICaboDriverBase::IsButtonPressed *)
Definition base_IsButtonPressed (btn : ButtonId) (b : base) : bool :=
  match series_ b with
  | None => false
  | Some s => let btn_mask := MapButtonIDToMask (kind s) btn in
    if btn_mask =? 0 then false else Z.land (btn_stable_raw_mask_ b) btn_mask =? 0
  end.
(* @ sabo_cover_ui_cabo_driver_base.cpp SaboCoverUICaboDriverBase::IsAnyButtonPressed *)
Definition IsAnyButtonPressed (b : base) : bool :=
  match series_ b with
  | None => false
  | Some s => negb (Z.land (btn_stable_raw_mask_ b) (AllButtonsMask (kind s)) =? AllButtonsMask (kind s))
  end.
(* @ sabo_cover_ui_cabo_driver_base.cpp SaboCoverUICaboDriverBase::GetButtonsMask *)
Definition base_GetButtonsMask (b : base) : Z :=
  match series_ b with
  | None => 0
  | Some s => fold_left (fun m id => let bit := MapButtonIDToMask (kind s) id in
      if negb (bit =? 0) && (Z.land (btn_stable_raw_mask_ b) bit =? 0) then u16 (Z.lor m (Z.shiftl 1 (button_num id))) else m) ALL_BUTTONS 0
  end.
(* @ sabo_cover_ui_cabo_driver_base.hpp GetSeriesType *)
Definition base_GetSeriesType (b : base) : SeriesType := match series_ b with Some s => GetType s | None => Unknown end.
(* @ sabo_cover_ui_cabo_driver_base.cpp SaboCoverUICaboDriverBase::IsReady *)
Definition IsReady (b : base) : bool := match state_ b with READY => true | _ => false end.

(** What the base class needs from a board: the time, its latch-and-load cycle, the panel's detection and its LEDs' bits.
    [X] is the board's driver and hardware. *)
Class Cabo (X : Type) := {
  chVTGetSystemTime : X -> Z;
  chThdSleepMilliseconds : Z -> X -> X;
  LatchLoad : base -> X -> option (base * X);
  GetSeriesDriver : X -> option (option series * X);
  CaboMapLedIdToMask : base -> LedId -> Z }.

Section Base.
Context {X : Type} `{Cabo X}.
(* @ sabo_cover_ui_cabo_driver_base.cpp SaboCoverUICaboDriverBase::SetLed *)
Definition SetLed (id : LedId) (mode : LedMode) (b : base) : base :=
  let bit := CaboMapLedIdToMask b id in
  let b := b <| on_mask := Z.land (on_mask b) (Z.lnot bit) |> <| slow_blink_mask := Z.land (slow_blink_mask b) (Z.lnot bit) |>
    <| fast_blink_mask := Z.land (fast_blink_mask b) (Z.lnot bit) |> in
  match mode with
  | ON => b <| on_mask := Z.lor (on_mask b) bit |>
  | BLINK_SLOW => b <| slow_blink_mask := Z.lor (slow_blink_mask b) bit |>
  | BLINK_FAST => b <| fast_blink_mask := Z.lor (fast_blink_mask b) bit |>
  | OFF => b
  end.
(** One picture of the animation, held for [ms]. *)
Definition show (modes : LedId -> LedMode) (ms : Z) (bx : base * X) : option (base * X) :=
  let b := fold_left (fun b l => SetLed l (modes l) b) LEDS bx.1 in
  '(b, x) ← LatchLoad (ProcessLedStates (chVTGetSystemTime bx.2) b) bx.2;
  Some (b, chThdSleepMilliseconds ms x).
Definition first_leds (i : Z) (l : LedId) : LedMode := if led_id l <? i then ON else OFF.
(* @ sabo_cover_ui_cabo_driver_base.cpp SaboCoverUICaboDriverBase::PowerOnAnimation *)
Definition PowerOnAnimation (bx : base * X) : option (base * X) :=
  bx ← show (fun _ => ON) 500 bx;
  bx ← show (fun _ => OFF) 800 bx;
  bx ← foldl (fun r i => bx ← r; show (first_leds i) 100 bx) (Some bx) [0; 1; 2; 3; 4; 5];
  foldl (fun r i => bx ← r; show (first_leds i) 100 bx) (Some bx) [4; 3; 2; 1; 0].
(* @ sabo_cover_ui_cabo_driver_base.cpp SaboCoverUICaboDriverBase::Tick *)
Definition base_Tick (b : base) (x : X) : option (base * X) :=
  let b := ProcessLedStates (chVTGetSystemTime x) b in
  match state_ b with
  | WAITING_FOR_CUI =>
    '(s, x) ← GetSeriesDriver x;
    let b := b <| series_ := s |> in
    match s with
    | None => Some (b, x)
    | Some _ =>
      let x := chThdSleepMilliseconds 200 x in
      '(b, x) ← PowerOnAnimation (b <| state_ := BOOT_ANIMATION |>, x);
      Some (b <| state_ := READY |>, chThdSleepMilliseconds 500 x)
    end
  | BOOT_ANIMATION => Some (b, x)
  | READY => LatchLoad b x
  end.
End Base.
