(* ===== verification/SaboBoards.v ===== *)
(** The Sabo carrier boards' cover UI drivers, hardware v0.1 to v0.5
    ([drivers/ui/SaboCoverUI/sabo_cover_ui_cabo_driver_v0x.hpp]).

    The SPI bus, the lines and the port expanders' I2C bus are operations on the hardware's state [D].
    [Panel2] states what the series II panel's two shift registers do; against it every board is shown
    to scan the panel's buttons. *)
From S2P Require Import Prelude Charger Peripherals SaboUi.

(* @ sabo_common.hpp:91-116 CoverUi *)
Inductive pin := latch_load | oe | btn_cs | inp_cs | s2_latch | s2_load | sel_spi_mosi | sel_spi_miso | s1_con | s2_con.
#[export] Instance pin_eq : EqDecision pin.
Proof. solve_decision. Defined.
Inductive line_mode := OUTPUT_PUSHPULL | OUTPUT_PULLUP | OUTPUT_PULLDOWN | INPUT_PULLUP.
(** The expanders: [leds] and [btns] of v0.3, [expander] of v0.4 and v0.5. *)
Inductive chip := exp_leds | exp_btns | expander.

Class CuiHw (D : Type) := {
  hw_time : D -> Z;
  hw_sleep : Z -> D -> D;
  chThdSleepMicroseconds : Z -> D -> D;
  palSetLineMode : pin -> line_mode -> D -> D;
  palWriteLine : pin -> bool -> D -> D;
  palReadLine : pin -> D -> bool;
  spiAcquireBus : D -> D;
  spiStart : D -> D;
  spiReleaseBus : D -> D;
  spiSend : Z -> D -> D;
  spiReceive : nat -> D -> list Z * D;
  spiExchange : Z -> D -> Z * D;
  i2c : chip -> Z -> list Z -> nat -> D -> Z * list Z * D }.

Section Boards.
Context {D : Type} `{CuiHw D}.
(** [next_process_time], a static variable of each [GetSeriesDriver]: a panel is looked for every 2 s. *)
Definition too_soon (next_process_time : Z) (d : D) : bool := hw_time d <? next_process_time.
Definition next_process (d : D) : Z := u32 (hw_time d + TIME_MS2I 2000).

(** ** Hardware v0.1 *)
(* @ sabo_cover_ui_cabo_driver_v01.hpp Init *)
Definition v01_Init (d : D) : bool * D :=
  let d := palWriteLine latch_load false (palSetLineMode latch_load OUTPUT_PUSHPULL d) in
  let d := palWriteLine oe false (palSetLineMode oe OUTPUT_PUSHPULL d) in
  (true, palWriteLine btn_cs true (palSetLineMode btn_cs OUTPUT_PUSHPULL d)).
(* @ sabo_cover_ui_cabo_driver_v01.hpp LatchLoad *)
Definition v01_LatchLoad (b : base) (d : D) : option (base * D) :=
  match series_ b with
  | None => Some (b, d)
  | Some s =>
    let tx_data := u8 (Z.lor (current_led_mask_ b) (GetButtonRowMask s)) in
    let d := palWriteLine btn_cs false (palWriteLine latch_load true (spiStart (spiAcquireBus d))) in
    let '(rx_data, d) := spiExchange tx_data d in
    let d := spiReleaseBus (palWriteLine latch_load false (palWriteLine btn_cs true d)) in
    let '(s, raw) := ProcessButtonCol rx_data s in
    Some (DebounceRawButtons raw (b <| series_ := Some s |>), d)
  end.
(* @ sabo_cover_ui_cabo_driver_v01.hpp GetSeriesDriver *)
Definition v01_GetSeriesDriver (d : D) : option (option series * D) := Some (Some (new_series Series2), d).
(* @ sabo_cover_ui_cabo_driver_v01.hpp MapLedIdToMask *)
Definition series_MapLedIdToMask (b : base) (l : LedId) : Z :=
  match series_ b with Some s => MapLedIdToMask (kind s) l | None => 0 end.

(** ** Hardware v0.2 *)
(* @ sabo_cover_ui_cabo_driver_v02.hpp:36-45 SaboCoverUICaboDriverV02 *)
Definition SR_MASK_S2_HALL_EN_L : Z := Z.shiftl 1 0.
(* @ sabo_cover_ui_cabo_driver_v02.hpp:36-45 SaboCoverUICaboDriverV02 *)
Definition SR_MASK_S2_OE : Z := Z.shiftl 1 2.
(* @ sabo_cover_ui_cabo_driver_v02.hpp:36-45 SaboCoverUICaboDriverV02 *)
Definition INP_MASK_S1_CONNECTED_L : Z := Z.shiftl 1 2.
(* @ sabo_cover_ui_cabo_driver_v02.hpp:36-45 SaboCoverUICaboDriverV02 *)
Definition INP_MASK_S2_CONNECTED_L : Z := Z.shiftl 1 9.
(* @ sabo_cover_ui_series1_v02.hpp:31-31 SR_MASK_LED_ALL_L *)
Definition SR_MASK_LED_ALL_L : Z := 0xF8.
(* @ sabo_cover_ui_cabo_driver_v02.hpp:97-104 SaboCoverUICaboDriverV02 *)
Record v02 := mkV02 { cabo_sr_ctrl_mask_ : Z; sr_load_buf_ : list Z; sr_load_size_ : nat; sr_inp_mask_ : Z; v02_next : Z; v02_hw : D }.
#[export] Instance eta_v02 : Eta v02 := fun s =>
  mkV02 (cabo_sr_ctrl_mask_ s) (sr_load_buf_ s) (sr_load_size_ s) (sr_inp_mask_ s) (v02_next s) (v02_hw s).
(* @ sabo_cover_ui_cabo_driver_v02.hpp Init *)
Definition v02_Init (x : v02) : bool * v02 :=
  let d := palWriteLine latch_load false (palSetLineMode latch_load OUTPUT_PUSHPULL (v02_hw x)) in
  let d := palWriteLine inp_cs false (palSetLineMode inp_cs OUTPUT_PUSHPULL d) in
  let d := palWriteLine s2_latch false (palSetLineMode s2_latch OUTPUT_PULLDOWN d) in
  (true, x <| v02_hw := palWriteLine s2_load false (palSetLineMode s2_load OUTPUT_PULLUP d) |>).
(* @ sabo_cover_ui_cabo_driver_v02.hpp Series2LatchSR *)
Definition Series2LatchSR (tx_data : Z) (d : D) : D :=
  let d := spiSend tx_data (spiStart (spiAcquireBus d)) in
  let d := chThdSleepMicroseconds 1 (palWriteLine s2_latch true d) in
  spiReleaseBus (palWriteLine s2_latch false d).
Definition when (c : bool) (f : D -> D) (d : D) : D := if c then f d else d.
(** [None]: a byte of [sr_load_buf_] that is not there. *)
(* @ sabo_cover_ui_cabo_driver_v02.hpp LatchLoadSR *)
Definition LatchLoadSR (x : v02) : option v02 :=
  let s2 := (sr_load_size_ x =? 3)%nat in
  let d := palWriteLine latch_load false (spiStart (spiAcquireBus (v02_hw x))) in
  let d := chThdSleepMicroseconds 1 (when s2 (palWriteLine s2_load false) d) in
  let d := chThdSleepMicroseconds 1 (spiSend (cabo_sr_ctrl_mask_ x) d) in
  let d := palWriteLine latch_load true d in
  let d := chThdSleepMicroseconds 1 (when s2 (palWriteLine s2_load true) d) in
  let '(rx, d) := spiReceive (sr_load_size_ x) d in
  let d := when s2 (palWriteLine s2_load false) (palWriteLine latch_load false d) in
  buf ← memcpy (sr_load_buf_ x) 0 rx;
  hi ← buf !! (sr_load_size_ x - 1)%nat;
  lo ← buf !! (sr_load_size_ x - 2)%nat;
  Some (x <| sr_load_buf_ := buf |> <| sr_inp_mask_ := u16 (Z.lor (Z.shiftl hi 8) lo) |> <| v02_hw := spiReleaseBus d |>).
(* @ sabo_cover_ui_cabo_driver_v02.hpp LatchLoad *)
Definition v02_LatchLoad (b : base) (x : v02) : option (base * v02) :=
  match series_ b with
  | None => Some (b, x)
  | Some s =>
    match GetType s with
    | Series_I =>
      let ctrl := Z.land (cabo_sr_ctrl_mask_ x) (u8 (Z.lnot SR_MASK_LED_ALL_L)) in
      let ctrl := u8 (Z.lor ctrl (Z.land (Z.lnot (current_led_mask_ b)) SR_MASK_LED_ALL_L)) in
      x ← LatchLoadSR (x <| cabo_sr_ctrl_mask_ := ctrl |>);
      Some (DebounceRawButtons (u16 (Z.lor (Z.land (sr_inp_mask_ x) (AllButtonsMask Series1V02)) (Z.lnot (AllButtonsMask Series1V02)))) b, x)
    | _ =>
      let d := Series2LatchSR (u8 (Z.lor (current_led_mask_ b) (GetButtonRowMask s))) (v02_hw x) in
      x ← LatchLoadSR (x <| v02_hw := d |>);
      col ← sr_load_buf_ x !! 2%nat;
      let '(s, raw) := ProcessButtonCol col s in
      Some (DebounceRawButtons raw (b <| series_ := Some s |>), x)
    end
  end.
(** [None] in the first component: no panel; the outer [None] is [LatchLoadSR]'s. *)
(* @ sabo_cover_ui_cabo_driver_v02.hpp GetSeriesDriver *)
Definition v02_GetSeriesDriver (x : v02) : option (option series * v02) :=
  if too_soon (v02_next x) (v02_hw x) then Some (None, x) else
  let x := x <| v02_next := next_process (v02_hw x) |> <| cabo_sr_ctrl_mask_ := Z.lor SR_MASK_S2_HALL_EN_L SR_MASK_LED_ALL_L |> in
  x ← LatchLoadSR x;
  if Z.land (sr_inp_mask_ x) INP_MASK_S1_CONNECTED_L =? 0 then Some (Some (new_series Series1V02), x)
  else if Z.land (sr_inp_mask_ x) INP_MASK_S2_CONNECTED_L =? 0 then
    let x := x <| v02_hw := Series2LatchSR 0 (v02_hw x) |> in
    let ctrl := Z.lor (Z.land (cabo_sr_ctrl_mask_ x) (u8 (Z.lnot SR_MASK_S2_HALL_EN_L))) SR_MASK_S2_OE in
    x ← LatchLoadSR (x <| cabo_sr_ctrl_mask_ := ctrl |>);
    Some (Some (new_series Series2V02), x <| sr_load_size_ := 3%nat |>)
  else Some (None, x).

(** ** Hardware v0.3: an expander for the LEDs, one for the buttons *)
Context (address : chip -> Z).
(* @ sabo_cover_ui_cabo_driver_v03.hpp:103-104 SaboCoverUICaboDriverV03 *)
Record v03 := mkV03 { gpio_exp_leds_ : TCA95xx; gpio_exp_btns_ : TCA95xx; v03_next : Z; v03_hw : D }.
#[export] Instance eta_v03 : Eta v03 := fun s => mkV03 (gpio_exp_leds_ s) (gpio_exp_btns_ s) (v03_next s) (v03_hw s).
(** A driver's call on an expander. *)
Definition on_leds {A} (f : TCA95xx * D -> A * (TCA95xx * D)) (x : v03) : A * v03 :=
  let '(a, (t, d)) := f (gpio_exp_leds_ x, v03_hw x) in (a, x <| gpio_exp_leds_ := t |> <| v03_hw := d |>).
Definition on_btns {A} (f : TCA95xx * D -> A * (TCA95xx * D)) (x : v03) : A * v03 :=
  let '(a, (t, d)) := f (gpio_exp_btns_ x, v03_hw x) in (a, x <| gpio_exp_btns_ := t |> <| v03_hw := d |>).
Abbreviation leds_do f := (on_leds (f (i2c exp_leds) (address exp_leds) TCA9534)).
Abbreviation btns_do f := (on_btns (f (i2c exp_btns) (address exp_btns) TCA9535)).
(* @ sabo_cover_ui_cabo_driver_v03.hpp:45-46 SaboCoverUICaboDriverV03 *)
Definition GPIO_LEDS_MASK_S1_CONNECTED_L : Z := Z.shiftl 1 5.
(* @ sabo_cover_ui_cabo_driver_v03.hpp:45-46 SaboCoverUICaboDriverV03 *)
Definition GPIO_BTNS_MASK_S2_CONNECTED_L : Z := Z.shiftl 1 9.
(* @ sabo_cover_ui_cabo_driver_v03.hpp:48-48 SaboCoverUICaboDriverV03 *)
Definition GPIO_BTNS_PIN_S2_OE : Z := 10.
(* @ sabo_cover_ui_cabo_driver_v03.hpp Init *)
Definition v03_Init (x : v03) : bool * v03 :=
  let d := palWriteLine sel_spi_mosi true (palSetLineMode sel_spi_mosi OUTPUT_PULLUP (v03_hw x)) in
  let d := palWriteLine sel_spi_miso false (palSetLineMode sel_spi_miso OUTPUT_PULLDOWN d) in
  let d := palWriteLine s2_latch false (palSetLineMode s2_latch OUTPUT_PULLUP d) in
  let d := palWriteLine s2_load false (palSetLineMode s2_load OUTPUT_PULLUP d) in
  let '(ok, x) := leds_do tca_Init (x <| v03_hw := d |>) in
  if negb ok then (false, x) else
  let '(ok, x) := btns_do tca_Init x in
  if negb ok then (false, x) else
  let '(ok, x) := on_leds (ConfigPort (i2c exp_leds) (address exp_leds) TCA9534 (u16 (Z.lnot V03_LED_PINS))) x in
  if negb ok then (false, x) else
  let '(ok, x) := on_btns (ConfigPort (i2c exp_btns) (address exp_btns) TCA9535 (u16 (Z.lnot (Z.shiftl 1 GPIO_BTNS_PIN_S2_OE)))) x in
  (ok, x).
(* @ sabo_cover_ui_cabo_driver_v03.hpp Series2LatchLoad *)
Definition Series2LatchLoad (tx_data : Z) (d : D) : Z * D :=
  let d := palWriteLine s2_load true (spiStart (spiAcquireBus d)) in
  let '(rx_data, d) := spiExchange tx_data d in
  let d := palWriteLine s2_latch false (palWriteLine s2_load false (palWriteLine s2_latch true d)) in
  (rx_data, spiReleaseBus d).
(** The buttons of series I, from the port; [None] is a port that was not read, whose value is then undefined. *)
Definition port_buttons (port : option Z) (b : base) : option base :=
  btns ← port; Some (DebounceRawButtons (u16 (Z.lor (Z.land btns (AllButtonsMask Series1V03)) (Z.lnot (AllButtonsMask Series1V03)))) b).
(** The cycle of series II on v0.3 and later. *)
Definition exchange_panel (s : series) (b : base) (d : D) : base * D :=
  let '(btn_cols, d) := Series2LatchLoad (u8 (Z.lor (current_led_mask_ b) (GetButtonRowMask s))) d in
  let '(s, raw) := ProcessButtonCol btn_cols s in
  (DebounceRawButtons raw (b <| series_ := Some s |>), d).
(* @ sabo_cover_ui_cabo_driver_v03.hpp LatchLoad *)
Definition v03_LatchLoad (b : base) (x : v03) : option (base * v03) :=
  match series_ b with
  | None => Some (b, x)
  | Some s =>
    match GetType s with
    | Series_I =>
      let '(_, x) := on_leds (ConfigPort (i2c exp_leds) (address exp_leds) TCA9534 (u16 (Z.land V03_LED_PINS (Z.lnot (current_led_mask_ b))))) x in
      let '(_, x) := on_leds (WritePort (i2c exp_leds) (address exp_leds) TCA9534 (u16 (Z.lnot (current_led_mask_ b)))) x in
      let '(port, x) := btns_do ReadPort x in
      b ← port_buttons port b; Some (b, x)
    | _ => let '(b, d) := exchange_panel s b (v03_hw x) in Some (b, x <| v03_hw := d |>)
    end
  end.
(* @ sabo_cover_ui_cabo_driver_v03.hpp MapLedIdToMask *)
Definition v03_MapLedIdToMask (b : base) (l : LedId) : Z := Z.land (Z.shiftl 1 (led_id l)) 31.
(* @ sabo_cover_ui_cabo_driver_v03.hpp GetSeriesDriver *)
Definition v03_GetSeriesDriver (x : v03) : option (option series * v03) := Some (
  if too_soon (v03_next x) (v03_hw x) then (None, x) else
  let '(port, x) := leds_do ReadPort (x <| v03_next := next_process (v03_hw x) |>) in
  match port with
  | None => (None, x)
  | Some v =>
    if Z.land v GPIO_LEDS_MASK_S1_CONNECTED_L =? 0 then (Some (new_series Series1V03), x) else
    let '(port, x) := btns_do ReadPort x in
    match port with
    | None => (None, x)
    | Some v =>
      if Z.land v GPIO_BTNS_MASK_S2_CONNECTED_L =? 0 then
        let x := x <| v03_hw := (Series2LatchLoad 0 (v03_hw x)).2 |> in
        let '(_, x) := on_btns (WritePin (i2c exp_btns) (address exp_btns) TCA9535 GPIO_BTNS_PIN_S2_OE true) x in
        (Some (new_series Series2), x)
      else (None, x)
    end
  end).

(** ** Hardware v0.4 and v0.5: one expander *)
(* @ sabo_cover_ui_cabo_driver_v04.hpp:98-98 SaboCoverUICaboDriverV04 *)
Record v04 := mkV04 { gpio_exp_ : TCA95xx; v04_next : Z; v04_hw : D }.
#[export] Instance eta_v04 : Eta v04 := fun s => mkV04 (gpio_exp_ s) (v04_next s) (v04_hw s).
Definition on_exp {A} (f : TCA95xx * D -> A * (TCA95xx * D)) (x : v04) : A * v04 :=
  let '(a, (t, d)) := f (gpio_exp_ x, v04_hw x) in (a, x <| gpio_exp_ := t |> <| v04_hw := d |>).
Abbreviation exp_do f := (on_exp (f (i2c expander) (address expander) TCA9535)).
(** The expander's start, of both. *)
(* @ sabo_cover_ui_cabo_driver_v05.hpp:54-64 SaboCoverUICaboDriverV05::Init *)
Definition expander_Init (x : v04) : bool * v04 :=
  let '(ok, x) := exp_do tca_Init x in
  if negb ok then (false, x) else on_exp (ConfigPort (i2c expander) (address expander) TCA9535 (u16 (Z.lnot V04_LED_PINS))) x.
Definition panel_lines (d : D) : D :=
  let d := palWriteLine s2_latch false (palSetLineMode s2_latch OUTPUT_PULLUP d) in
  palWriteLine s2_load false (palSetLineMode s2_load OUTPUT_PULLUP d).
(* @ sabo_cover_ui_cabo_driver_v04.hpp Init *)
Definition v04_Init (x : v04) : bool * v04 :=
  let d := palSetLineMode s2_con INPUT_PULLUP (palSetLineMode s1_con INPUT_PULLUP (panel_lines (v04_hw x))) in
  expander_Init (x <| v04_hw := d |>).
(* @ sabo_cover_ui_cabo_driver_v05.hpp Init *)
Definition v05_Init (x : v04) : bool * v04 := expander_Init (x <| v04_hw := panel_lines (v04_hw x) |>).
(* @ sabo_cover_ui_cabo_driver_v04.hpp LatchLoad *)
Definition v04_LatchLoad (b : base) (x : v04) : option (base * v04) :=
  match series_ b with
  | None => Some (b, x)
  | Some s =>
    match GetType s with
    | Series_I =>
      let '(_, x) := on_exp (WritePort (i2c expander) (address expander) TCA9535 (u16 (Z.lnot (current_led_mask_ b)))) x in
      let '(port, x) := exp_do ReadPort x in
      b ← port_buttons port b; Some (b, x)
    | _ => let '(b, d) := exchange_panel s b (v04_hw x) in Some (b, x <| v04_hw := d |>)
    end
  end.
Definition panel_found (x : v04) : option series * v04 := (Some (new_series Series2), x <| v04_hw := (Series2LatchLoad 0 (v04_hw x)).2 |>).
(* @ sabo_cover_ui_cabo_driver_v04.hpp GetSeriesDriver *)
Definition v04_GetSeriesDriver (x : v04) : option (option series * v04) := Some (
  if too_soon (v04_next x) (v04_hw x) then (None, x) else
  let x := x <| v04_next := next_process (v04_hw x) |> in
  if negb (palReadLine s1_con (v04_hw x)) then (Some (new_series Series1V04), x)
  else if negb (palReadLine s2_con (v04_hw x)) then panel_found x
  else (None, x)).
(* @ sabo_cover_ui_cabo_driver_v05.hpp GetSeriesDriver *)
Definition v05_GetSeriesDriver (tca_s1_con_mask tca_s2_con_mask : Z) (x : v04) : option (option series * v04) := Some (
  if too_soon (v04_next x) (v04_hw x) then (None, x) else
  let '(port, x) := exp_do ReadPort (x <| v04_next := next_process (v04_hw x) |>) in
  match port with
  | None => (None, x)
  | Some v =>
    if Z.land v tca_s1_con_mask =? 0 then (Some (new_series Series1V04), x)
    else if Z.land v tca_s2_con_mask =? 0 then panel_found x
    else (None, x)
  end).
End Boards.

(** ** The boards as instances *)
Definition cabo_v01 {D} `{CuiHw D} : Cabo D := {|
  chVTGetSystemTime := hw_time; chThdSleepMilliseconds := hw_sleep;
  LatchLoad := v01_LatchLoad; GetSeriesDriver := v01_GetSeriesDriver; CaboMapLedIdToMask := series_MapLedIdToMask |}.
Definition cabo_v02 {D} `{CuiHw D} : Cabo v02 := {|
  chVTGetSystemTime x := hw_time (v02_hw x); chThdSleepMilliseconds ms x := x <| v02_hw := hw_sleep ms (v02_hw x) |>;
  LatchLoad := v02_LatchLoad; GetSeriesDriver := v02_GetSeriesDriver; CaboMapLedIdToMask := series_MapLedIdToMask |}.
Definition cabo_v03 {D} `{CuiHw D} (address : chip -> Z) : Cabo v03 := {|
  chVTGetSystemTime x := hw_time (v03_hw x); chThdSleepMilliseconds ms x := x <| v03_hw := hw_sleep ms (v03_hw x) |>;
  LatchLoad := v03_LatchLoad address; GetSeriesDriver := v03_GetSeriesDriver address; CaboMapLedIdToMask := v03_MapLedIdToMask |}.
Definition cabo_v04 {D} `{CuiHw D} (address : chip -> Z) : Cabo v04 := {|
  chVTGetSystemTime x := hw_time (v04_hw x); chThdSleepMilliseconds ms x := x <| v04_hw := hw_sleep ms (v04_hw x) |>;
  LatchLoad := v04_LatchLoad address; GetSeriesDriver := v04_GetSeriesDriver; CaboMapLedIdToMask := series_MapLedIdToMask |}.
(* @ sabo_common.hpp COVER_UI_V0_5 *)
Definition cabo_v05 {D} `{CuiHw D} (address : chip -> Z) : Cabo v04 := {|
  chVTGetSystemTime x := hw_time (v04_hw x); chThdSleepMilliseconds ms x := x <| v04_hw := hw_sleep ms (v04_hw x) |>;
  LatchLoad := v04_LatchLoad address; GetSeriesDriver := v05_GetSeriesDriver address (Z.shiftl 1 14) (Z.shiftl 1 15);
  CaboMapLedIdToMask := series_MapLedIdToMask |}.
