(* ===== verification/SaboController.v ===== *)
(** The controller of the Sabo cover UI ([sabo_cover_ui_controller.cpp]): the LEDs it shows, the buttons it
    reports and its thread's loop.

    The display is a parameter: the calls on it are the loop's outputs, and [display_do] is their effect on
    the hardware. [None] is a call through a null pointer or an undefined value. *)
From S2P Require Import Prelude ServiceExt Float32 Leds SaboUi.

(** What the other services report. *)
Record cui_view := mkCuiView {
  cui_reasons : Z; cui_adapter : f32; cui_battery : f32; cui_charge : f32; cui_status : Z; cui_name : string }.
(** A call on the display. *)
Inductive cui_out := DisplayStart | WakeUp | DisplayTick | OnButtonPress (b : ButtonId).
#[export] Instance cui_out_eq : EqDecision cui_out.
Proof. solve_decision. Defined.
(* @ sabo_cover_ui_controller.hpp:24-43 SaboCoverUIController *)
Record controller (X : Type) := mkController {
  cabo_ : option base; board : X; display_ : bool; thread_ : bool; button_states_ : list bool; last_button_check : Z; last_display_tick : Z }.
Arguments mkController {X}. Arguments cabo_ {X}. Arguments board {X}. Arguments display_ {X}. Arguments thread_ {X}.
Arguments button_states_ {X}. Arguments last_button_check {X}. Arguments last_display_tick {X}.
#[export] Instance eta_controller X : Eta (controller X) := fun c =>
  mkController (cabo_ c) (board c) (display_ c) (thread_ c) (button_states_ c) (last_button_check c) (last_display_tick c).
(* @ sabo_common.hpp:295-295 NUM_BUTTONS *)
Definition NUM_BUTTONS : nat := length ALL_BUTTONS.
Definition new_controller {X} (cover_ui lcd : bool) (x : X) : controller X :=
  mkController (if cover_ui then Some new_base else None) x lcd false (repeat false NUM_BUTTONS) 0 0.
(** [TIME_I2MS], rounded up. *)
Definition TIME_I2MS (ticks : Z) : Z := (ticks + 9) / 10.

Section Controller.
Context {X : Type} `{CB : Cabo X} `{HL : HighLevelStatuses} `{ER : EmergencyReasons}.
(** [Init] of the board and of the display. *)
Context (cabo_Init display_Init : X -> bool * X).
(* @ sabo_cover_ui_controller.cpp SaboCoverUIController::Start *)
Definition controller_Start (c : controller X) : controller X :=
  if thread_ c then c else
  match cabo_ c with
  | None => c
  | Some _ =>
    let '(ok, x) := cabo_Init (board c) in
    let c := c <| board := x |> in
    if negb ok then c else
    let '(ok, x) := if display_ c then display_Init (board c) else (true, board c) in
    let c := c <| board := x |> in
    if negb ok then c else c <| thread_ := true |>
  end.

(* @ sabo_cover_ui_controller.cpp:157-165 SaboCoverUIController::UpdateStates *)
Definition cui_main_state (v : cui_view) : Z := Z.land (u8 (cui_status v)) (u8 (Z.shiftl 1 (u8 SUBSTATE_SHIFT) - 1)).
(* @ sabo_cover_ui_controller.cpp:157-165 SaboCoverUIController::UpdateStates *)
Definition cui_sub_state (v : cui_view) : Z := u8 (Z.land (Z.shiftr (u8 (cui_status v)) (u8 SUBSTATE_SHIFT)) (u8 SUBSTATE_MASK)).
(* @ sabo_cover_ui_controller.cpp:132-155 SaboCoverUIController::UpdateStates (play LEDs) *)
Definition UpdatePlayLeds (v : cui_view) (b : base) : base :=
  if negb (cui_reasons v =? 0) then SetLed PLAY_GN OFF (SetLed PLAY_RD BLINK_FAST b)
  else if negb (Z.land (cui_reasons v) TIMEOUT_HIGH_LEVEL =? 0) then SetLed PLAY_GN OFF (SetLed PLAY_RD BLINK_SLOW b)
  else
    let b := SetLed PLAY_RD OFF b in
    if fgt (cui_adapter v) (f_of_Z 26) then
      if flt (cui_battery v) (f_of_Z 20) then SetLed PLAY_GN BLINK_FAST b
      else if fgt (cui_charge v) (f_lit 1 10) then SetLed PLAY_GN BLINK_SLOW b
      else SetLed PLAY_GN ON b
    else SetLed PLAY_GN OFF b.
(* @ sabo_cover_ui_controller.cpp SaboCoverUIController::UpdateStates *)
Definition UpdateStates (v : cui_view) (b : base) : base :=
  if negb (IsReady b) then b else
  let b := UpdatePlayLeds v b in
  let b := if cui_main_state v =? AUTONOMOUS then SetLed AUTO ON b
    else if fle (cui_adapter v) (f_of_Z 26) then SetLed AUTO BLINK_SLOW b else SetLed AUTO OFF b in
  let b := if (cui_main_state v =? AUTONOMOUS) && (cui_sub_state v =? SUBSTATE_1)
    then if String.eqb (cui_name v) "MOWING" then SetLed MOWING ON b else SetLed MOWING BLINK_SLOW b
    else SetLed MOWING OFF b in
  if (cui_main_state v =? AUTONOMOUS) && (cui_sub_state v =? SUBSTATE_2) then SetLed HOME ON b else SetLed HOME OFF b.

(** The buttons as the others see them; [IsButtonPressed] does not test the driver's pointer. *)
(* @ sabo_cover_ui_controller.cpp SaboCoverUIController::IsButtonPressed *)
Definition IsButtonPressed (button : ButtonId) (c : controller X) : option bool :=
  b ← cabo_ c; Some (if negb (IsReady b) then false else base_IsButtonPressed button b).
(* @ sabo_cover_ui_controller.cpp SaboCoverUIController::GetButtonsMask *)
Definition GetButtonsMask (c : controller X) : Z :=
  match cabo_ c with Some b => if IsReady b then base_GetButtonsMask b else 0 | None => 0 end.
(* @ sabo_cover_ui_controller.cpp SaboCoverUIController::GetSeriesType *)
Definition GetSeriesType (c : controller X) : SeriesType :=
  match cabo_ c with Some b => if IsReady b then base_GetSeriesType b else Unknown | None => Unknown end.

(** The display's share of the loop, and the loop's sleep. *)
Context (display_do : cui_out -> X -> X) (chThdSleepUntil : Z -> X -> X).
(* @ sabo_cover_ui_controller.cpp:214-217 SaboCoverUIController::ThreadFunc *)
Definition thread_begin (c : controller X) : controller X * list cui_out :=
  if display_ c then (c <| board ::= fun x => display_do WakeUp (display_do DisplayStart x) |>, [DisplayStart; WakeUp]) else (c, []).
Definition show_display (now : Z) (c : controller X) (b : base) : controller X * list cui_out :=
  if IsReady b && display_ c then
    let '(c, o) := if 30 <=? TIME_I2MS (u32 (now - last_display_tick c))
      then (c <| last_display_tick := now |> <| board ::= display_do DisplayTick |>, [DisplayTick]) else (c, []) in
    if IsAnyButtonPressed b then (c <| board ::= display_do WakeUp |>, o ++ [WakeUp]) else (c, o)
  else (c, []).
(** One button of the check: its state, and whether the display hears of it. *)
(* @ sabo_cover_ui_controller.cpp:251-267 SaboCoverUIController::ThreadFunc *)
Definition button_step (b : base) (id : ButtonId) (was : bool) : bool * bool :=
  let is_pressed := base_IsButtonPressed id b in
  if is_pressed && negb was then (true, true)
  else if negb is_pressed && was then (false, false) else (was, false).
(* @ sabo_cover_ui_controller.cpp:248-268 SaboCoverUIController::ThreadFunc *)
Fixpoint check_buttons (b : base) (display : bool) (ids : list ButtonId) (states : list bool) (x : X)
    : option (list bool * list cui_out * X) :=
  match ids, states with
  | id :: ids, was :: states =>
    let '(now_pressed, press) := button_step b id was in
    x ← (if press then if display then Some (display_do (OnButtonPress id) x) else None else Some x);
    '(states, o, x) ← check_buttons b display ids states x;
    Some (now_pressed :: states, (if press then [OnButtonPress id] else []) ++ o, x)
  | _, _ => Some (states, [], x)
  end.
(** An iteration of the thread's loop. *)
(* @ sabo_cover_ui_controller.cpp:225-276 SaboCoverUIController::ThreadFunc *)
Definition iteration (v : cui_view) (c : controller X) : option (controller X * list cui_out) :=
  let next_wakeup := u32 (chVTGetSystemTime (board c) + TIME_MS2I 10) in
  let now := chVTGetSystemTime (board c) in
  b ← cabo_ c;
  '(b, x) ← base_Tick b (board c);
  let b := UpdateStates v b in
  let '(c, o1) := show_display now (c <| cabo_ := Some b |> <| board := x |>) b in
  '(c, o2) ← (if 100 <=? TIME_I2MS (u32 (now - last_button_check c)) then
      '(states, o, x) ← check_buttons b (display_ c) ALL_BUTTONS (button_states_ c) (board c);
      Some (c <| last_button_check := now |> <| button_states_ := states |> <| board := x |>, o)
    else Some (c, []));
  let c := if u32 (chVTGetSystemTime (board c) + 1) <? next_wakeup then c <| board ::= chThdSleepUntil next_wakeup |> else c in
  Some (c, o1 ++ o2).
(** [n] iterations, with what the services report at each. *)
(* @ sabo_cover_ui_controller.cpp:225-276 SaboCoverUIController::ThreadFunc (the loop) *)
Fixpoint loop (views : list cui_view) (c : controller X) : option (controller X * list cui_out) :=
  match views with
  | [] => Some (c, [])
  | v :: views => '(c, o1) ← iteration v c; '(c, o2) ← loop views c; Some (c, o1 ++ o2)
  end.
End Controller.

(** ** The LEDs *)
(** What a board promises of its LEDs: the panels it is built for, and that it drives the bits of the panel's own series. *)
Class CaboLeds (X : Type) `{Cabo X} := {
  led_kinds : list series_kind;
  led_kinds_known k : k ∈ led_kinds -> k ∈ kinds;
  led_map b s l : series_ b = Some s -> kind s ∈ led_kinds -> CaboMapLedIdToMask b l = MapLedIdToMask (kind s) l }.

(** What each LED is to show. *)
Section Shown.
Context `{HL : HighLevelStatuses}.
Definition docked (v : cui_view) : bool := fgt (cui_adapter v) (f_of_Z 26).
Definition shown (v : cui_view) (l : LedId) : LedMode :=
  match l with
  | PLAY_RD => if cui_reasons v =? 0 then OFF else BLINK_FAST
  | PLAY_GN =>
    if negb (cui_reasons v =? 0) || negb (docked v) then OFF
    else if flt (cui_battery v) (f_of_Z 20) then BLINK_FAST
    else if fgt (cui_charge v) (f_lit 1 10) then BLINK_SLOW else ON
  | AUTO => if cui_main_state v =? AUTONOMOUS then ON else if fle (cui_adapter v) (f_of_Z 26) then BLINK_SLOW else OFF
  | MOWING =>
    if (cui_main_state v =? AUTONOMOUS) && (cui_sub_state v =? SUBSTATE_1)
    then if String.eqb (cui_name v) "MOWING" then ON else BLINK_SLOW else OFF
  | HOME => if (cui_main_state v =? AUTONOMOUS) && (cui_sub_state v =? SUBSTATE_2) then ON else OFF
  end.
End Shown.
#[export] Instance LedMode_eq : EqDecision LedMode.
Proof. solve_decision. Defined.
(** LED [l] is set to [m] in the driver's three masks. *)
Definition mask_if (k : series_kind) (l : LedId) (m m' : LedMode) : Z := if decide (m = m') then MapLedIdToMask k l else 0.
Definition showing (k : series_kind) (b : base) (l : LedId) (m : LedMode) : Prop :=
  Z.land (on_mask b) (MapLedIdToMask k l) = mask_if k l m ON /\
  Z.land (slow_blink_mask b) (MapLedIdToMask k l) = mask_if k l m BLINK_SLOW /\
  Z.land (fast_blink_mask b) (MapLedIdToMask k l) = mask_if k l m BLINK_FAST.
(** The masks hold bits of the panel's LEDs only. *)
Definition all_leds (k : series_kind) : Z := fold_right (fun l m => Z.lor (MapLedIdToMask k l) m) 0 LEDS.
Definition leds_only (k : series_kind) (b : base) : Prop :=
  Forall (fun m => Z.land m (all_leds k) = m) [on_mask b; slow_blink_mask b; fast_blink_mask b].
Definition lit (k : series_kind) (b : base) (l : LedId) : bool := has (current_led_mask_ b) (MapLedIdToMask k l).

Lemma land_other x a c : Z.land a c = 0 -> Z.land (Z.land x (Z.lnot a)) c = Z.land x c.
Proof.
  intros E. apply Z.bits_inj'. intros i Hi. apply (f_equal (fun z => Z.testbit z i)) in E.
  rewrite Z.land_spec, Z.bits_0 in E. rewrite !Z.land_spec, Z.lnot_spec by lia. destruct (Z.testbit a i), (Z.testbit c i), (Z.testbit x i); cbn in *; congruence.
Qed.
Lemma land_self x a : Z.land (Z.land x (Z.lnot a)) a = 0.
Proof. bitwise. Qed.
Lemma lor_land x y a : Z.land (Z.lor x y) a = Z.lor (Z.land x a) (Z.land y a).
Proof. apply Z.land_lor_distr_l. Qed.

Section Leds.
Context {X : Type} `{CL : CaboLeds X}.
Definition panel (k : series_kind) (b : base) : Prop := exists s, series_ b = Some s /\ kind s = k /\ k ∈ led_kinds.

Lemma SetLed_panel k l m b : panel k b -> panel k (SetLed l m b).
Proof. unfold panel, SetLed. destruct m; exact id. Qed.
Lemma panel_map k b l : panel k b -> CaboMapLedIdToMask b l = MapLedIdToMask k l.
Proof. intros (s & Hs & <- & Hk). exact (led_map b s l Hs Hk). Qed.
Lemma panel_known k b : panel k b -> k ∈ kinds.
Proof. intros (s & _ & _ & Hk). exact (led_kinds_known _ Hk). Qed.
Lemma SetLed_same k l m b : panel k b -> showing k (SetLed l m b) l m.
Proof.
  intros Hp. unfold showing, SetLed. rewrite (panel_map _ _ _ Hp). unfold mask_if.
  destruct m; cbn [decide on_mask slow_blink_mask fast_blink_mask update]; cbn; rewrite ?lor_land, ?land_self, ?Z.land_diag, ?Z.lor_0_l; auto.
Qed.
Lemma SetLed_other k l l' m m' b : panel k b -> l <> l' -> showing k b l' m' -> showing k (SetLed l m b) l' m'.
Proof.
  intros Hp Hl (H1 & H2 & H3). unfold showing, SetLed. rewrite (panel_map _ _ _ Hp).
  pose proof (proj2 (led_masks k l l' (panel_known _ _ Hp))) as E. rewrite decide_False in E by exact Hl.
  destruct m; cbn; rewrite ?lor_land, ?(land_other _ _ _ E), ?E, ?Z.lor_0_r; auto.
Qed.
Lemma all_leds_le k l : Z.land (MapLedIdToMask k l) (all_leds k) = MapLedIdToMask k l.
Proof. unfold all_leds, LEDS. cbn [fold_right]. destruct l; bitwise. Qed.
Lemma SetLed_only k l m b : panel k b -> leds_only k b -> leds_only k (SetLed l m b).
Proof.
  intros Hp Ho. unfold leds_only, SetLed in *. rewrite (panel_map _ _ _ Hp).
  assert (Hw : forall x, Z.land x (all_leds k) = x -> Z.land (Z.land x (Z.lnot (MapLedIdToMask k l))) (all_leds k) = Z.land x (Z.lnot (MapLedIdToMask k l))).
  { intros x Hx. rewrite <- Hx at 2. bitwise. }
  inversion_clear Ho as [|? ? H1 Ho']. inversion_clear Ho' as [|? ? H2 Ho'']. inversion_clear Ho'' as [|? ? H3 _].
  destruct m; cbn; repeat constructor; rewrite ?lor_land, ?Hw, ?all_leds_le by assumption; reflexivity.
Qed.

(** Setting an LED keeps the panel, the masks to its LEDs, and the driver's state. *)
Definition fine (k : series_kind) (b b' : base) : Prop :=
  panel k b' /\ leds_only k b' /\ state_ b' = state_ b /\ series_ b' = series_ b /\
  slow_blink_state b' = slow_blink_state b /\ fast_blink_state b' = fast_blink_state b /\
  last_slow_update b' = last_slow_update b /\ last_fast_update b' = last_fast_update b /\
  current_led_mask_ b' = current_led_mask_ b /\ btn_stable_raw_mask_ b' = btn_stable_raw_mask_ b /\
  btn_last_raw_mask_ b' = btn_last_raw_mask_ b /\ btn_debounce_counter_ b' = btn_debounce_counter_ b.
Lemma SetLed_fine k l m b0 b : fine k b0 b -> fine k b0 (SetLed l m b).
Proof.
  intros (Hp & Ho & H'). split; [apply SetLed_panel, Hp|]. split; [apply SetLed_only; assumption|].
  unfold SetLed. destruct m; exact H'.
Qed.
(** The LEDs set so far. *)
Definition set_to (k : series_kind) (b0 b : base) (l : list (LedId * LedMode)) : Prop :=
  fine k b0 b /\ Forall (fun p => showing k b p.1 p.2) l.
Lemma SetLed_set k l m b0 b done : set_to k b0 b done -> Forall (fun p => l <> p.1) done ->
  set_to k b0 (SetLed l m b) ((l, m) :: done).
Proof.
  intros [Hf Hd] Hn. split; [apply SetLed_fine, Hf|]. constructor; [apply SetLed_same, Hf|].
  rewrite Forall_forall in *. intros p Hin. apply SetLed_other; [apply Hf|exact (Hn p Hin)|exact (Hd p Hin)].
Qed.
Context `{HL : HighLevelStatuses} `{ER : EmergencyReasons}.
Ltac set_led := apply SetLed_set; [|repeat constructor; discriminate].
Lemma UpdatePlayLeds_set k v b0 b : set_to k b0 b [] ->
  set_to k b0 (UpdatePlayLeds v b) [(PLAY_GN, shown v PLAY_GN); (PLAY_RD, shown v PLAY_RD)].
Proof.
  intros Hb. unfold UpdatePlayLeds, shown, docked.
  destruct (Z.eqb_spec (cui_reasons v) 0) as [->|Hr]; cbn [negb orb].
  - rewrite Z.land_0_l. cbn [Z.eqb negb]. destruct (fgt (cui_adapter v) (f_of_Z 26)); cbn [negb]; [|do 2 set_led; exact Hb].
    destruct (flt _ _); [do 2 set_led; exact Hb|]. destruct (fgt _ _); do 2 set_led; exact Hb.
  - do 2 set_led. exact Hb.
Qed.
Lemma UpdateStates_set k v b : panel k b -> leds_only k b -> IsReady b = true ->
  set_to k b (UpdateStates v b) [(HOME, shown v HOME); (MOWING, shown v MOWING); (AUTO, shown v AUTO); (PLAY_GN, shown v PLAY_GN); (PLAY_RD, shown v PLAY_RD)].
Proof.
  intros Hp Ho Hr. unfold UpdateStates. rewrite Hr. cbn [negb].
  assert (H0 : set_to k b b []) by (split; [repeat split; assumption|constructor]).
  apply (UpdatePlayLeds_set k v) in H0. generalize dependent (UpdatePlayLeds v b). intros b1 H1.
  change (shown v AUTO) with (if cui_main_state v =? AUTONOMOUS then ON else if fle (cui_adapter v) (f_of_Z 26) then BLINK_SLOW else OFF).
  change (shown v MOWING) with (if (cui_main_state v =? AUTONOMOUS) && (cui_sub_state v =? SUBSTATE_1) then if String.eqb (cui_name v) "MOWING" then ON else BLINK_SLOW else OFF).
  change (shown v HOME) with (if (cui_main_state v =? AUTONOMOUS) && (cui_sub_state v =? SUBSTATE_2) then ON else OFF).
  destruct (_ && (_ =? SUBSTATE_2))%bool; set_led; (destruct (_ && (_ =? SUBSTATE_1))%bool; [destruct (String.eqb _ _)|]); set_led;
    (destruct (_ =? AUTONOMOUS); [|destruct (fle _ _)]); set_led; exact H1.
Qed.
Lemma UpdateStates_showing k v b l : panel k b -> leds_only k b -> IsReady b = true -> showing k (UpdateStates v b) l (shown v l).
Proof.
  intros Hp Ho Hr. destruct (UpdateStates_set k v b Hp Ho Hr) as [_ Hs]. rewrite Forall_forall in Hs.
  apply (Hs (l, shown v l)). rewrite !elem_of_cons. destruct l; auto 7.
Qed.
(** Something blinks exactly when the mask is not empty. *)
Definition blinking (v : cui_view) (m : LedMode) : bool := existsb (fun l => bool_decide (shown v l = m)) LEDS.
Lemma mask_nonzero k v mask m : k ∈ kinds -> Z.land mask (all_leds k) = mask ->
  (forall l, Z.land mask (MapLedIdToMask k l) = mask_if k l (shown v l) m) -> negb (mask =? 0) = blinking v m.
Proof.
  intros Hk Ho Hm. apply eq_bool_prop_intro. rewrite !Is_true_true. unfold blinking. rewrite negb_true_iff, Z.eqb_neq, existsb_exists. split.
  - intros Hn. destruct (decide (Exists (fun l => shown v l = m) LEDS)) as [He|He].
    + apply List.Exists_exists in He as (l & Hin & Hl). exists l. split; [exact Hin|]. apply bool_decide_eq_true_2, Hl.
    + exfalso. apply Hn. rewrite <- Ho. unfold all_leds.
      assert (Hl : forall l, l ∈ LEDS -> Z.land mask (MapLedIdToMask k l) = 0).
      { intros l Hin. rewrite Hm. unfold mask_if. apply decide_False. intros E. apply He, Exists_exists. eauto. }
      revert Hl. generalize LEDS. induction l as [|l ls IH]; intros Hl; cbn [fold_right]; [apply Z.land_0_r|].
      rewrite Z.land_lor_distr_r, Hl by left. rewrite IH by (intros l' Hl'; apply Hl; right; exact Hl'). reflexivity.
  - intros (l & _ & Hl). apply bool_decide_eq_true_1 in Hl. intros ->. specialize (Hm l). rewrite Z.land_0_l in Hm.
    unfold mask_if in Hm. rewrite decide_True in Hm by exact Hl. exact (led_masks_nonzero k l Hk (eq_sym Hm)).
Qed.

Lemma process_phase now b : let b' := ProcessLedStates now b in
  slow_blink_state b' = xorb (slow_blink_state b) (negb (slow_blink_mask b =? 0) && (5000 <=? u32 (now - last_slow_update b))) /\
  fast_blink_state b' = xorb (fast_blink_state b) (negb (fast_blink_mask b =? 0) && (1000 <=? u32 (now - last_fast_update b))) /\
  current_led_mask_ b' = Z.lor (Z.lor (on_mask b) (if slow_blink_state b' then slow_blink_mask b else 0)) (if fast_blink_state b' then fast_blink_mask b else 0).
Proof.
  unfold ProcessLedStates. change (TIME_MS2I 500) with 5000. change (TIME_MS2I 100) with 1000.
  destruct (_ && (5000 <=? _))%bool eqn:E1; cbn; destruct (_ && (1000 <=? _))%bool; cbn; rewrite ?E1, ?xorb_true_r, ?xorb_false_r; auto.
Qed.

(** The panel's LEDs show the robot's state: whatever they were set to before, once the controller has
    updated them each of the panel's five LEDs is lit, dark, or lit in every other phase exactly as [shown]
    says (red blinks fast in any emergency and green is then dark; green tells charging, charged and a dead
    battery in the dock; the three function LEDs follow the high-level state); the slow phase changes after
    500 ms and the fast one after 100 ms, when an LED blinks so, and at no other time. *)
Theorem leds_show_the_state k v b now : panel k b -> leds_only k b -> IsReady b = true ->
  let b' := ProcessLedStates now (UpdateStates v b) in
  (forall l, lit k b' l = match shown v l with OFF => false | ON => true | BLINK_SLOW => slow_blink_state b' | BLINK_FAST => fast_blink_state b' end) /\
  slow_blink_state b' = xorb (slow_blink_state b) (blinking v BLINK_SLOW && (5000 <=? u32 (now - last_slow_update b))) /\
  fast_blink_state b' = xorb (fast_blink_state b) (blinking v BLINK_FAST && (1000 <=? u32 (now - last_fast_update b))).
Proof.
  intros Hp Ho Hr b'. pose proof (UpdateStates_showing k v b) as Hs. pose proof (UpdateStates_set k v b Hp Ho Hr) as [Hf _].
  destruct Hf as (_ & Ho' & _ & _ & <- & <- & <- & <- & _). unfold leds_only in Ho'. rewrite !Forall_cons in Ho'. destruct Ho' as (_ & O2 & O3 & _).
  destruct (process_phase now (UpdateStates v b)) as (P1 & P2 & P3). fold b' in P1, P2, P3.
  rewrite <- (mask_nonzero k v (slow_blink_mask (UpdateStates v b))), <- (mask_nonzero k v (fast_blink_mask (UpdateStates v b)))
    by first [exact (panel_known _ _ Hp)|assumption|intros l; apply (Hs l Hp Ho Hr)].
  split; [|split; assumption].
  intros l. unfold lit. rewrite P3, !has_lor. destruct (Hs l Hp Ho Hr) as (H1 & H2 & H3). unfold has.
  replace (Z.land (if slow_blink_state b' then slow_blink_mask (UpdateStates v b) else 0) (MapLedIdToMask k l)) with (if slow_blink_state b' then mask_if k l (shown v l) BLINK_SLOW else 0)
    by (destruct (slow_blink_state b'); [symmetry; exact H2|reflexivity]).
  replace (Z.land (if fast_blink_state b' then fast_blink_mask (UpdateStates v b) else 0) (MapLedIdToMask k l)) with (if fast_blink_state b' then mask_if k l (shown v l) BLINK_FAST else 0)
    by (destruct (fast_blink_state b'); [symmetry; exact H3|reflexivity]).
  rewrite H1. pose proof (proj2 (Z.eqb_neq _ _) (led_masks_nonzero k l (panel_known _ _ Hp))) as N. unfold mask_if.
  destruct (shown v l); repeat first [rewrite decide_True by reflexivity|rewrite decide_False by discriminate];
    destruct (slow_blink_state b'), (fast_blink_state b'); rewrite ?N; reflexivity.
Qed.
End Leds.
