(* ===== verification/SaboScan.v ===== *)
(** Scanning the buttons of the Sabo panel of series II: every carrier board's latch-and-load cycles, through
    the debouncing and the controller's loop, end in the set of buttons that is held down.

    [ScanBoard] is what a board promises of one cycle; [Panel2] is what the panel's shift registers do, against
    which the boards keep that promise. *)
From S2P Require Import Prelude ServiceExt Float32 Leds Charger Peripherals SaboUi SaboBoards SaboController.

(** ** One byte of the button matrix *)
(** The buttons of a row, of the mask of held buttons: row 0 carries bits 0 to 5, row 1 bits 8 to 13. *)
Definition side (row p : Z) : Z := if row =? 0 then p else Z.shiftr p 8.
(** The byte read for a row, and the mask of both: low-active, the bits that are not connected high. *)
Definition row_byte (row p : Z) : Z := Z.lor (Z.land (Z.lnot (side row p)) 63) 192.
Definition full_mask (p : Z) : Z := Z.lor (row_byte 0 p) (Z.shiftl (row_byte 1 p) 8).
(** The half of the button mask that belongs to a row. *)
Definition half (row mask : Z) : Z := if row =? 0 then Z.land mask 0xFF else Z.shiftr (Z.land mask 0xFF00) 8.

Lemma testbit_const n i : 0 <= n -> 0 <= i -> Z.testbit (Z.ones n) i = (i <? n).
Proof. intros. apply Z.testbit_ones_nonneg; lia. Qed.
Lemma testbit_FF00 i : 0 <= i -> Z.testbit 0xFF00 i = ((8 <=? i) && (i <? 16))%bool.
Proof.
  intros Hi. change 0xFF00 with (Z.shiftl (Z.ones 8) 8). rewrite Z.shiftl_spec by lia. destruct (Z.leb_spec 8 i); cbn.
  - rewrite testbit_const by lia. apply eq_true_iff_eq. rewrite !Z.ltb_lt. lia.
  - apply Z.testbit_neg_r. lia.
Qed.
Lemma u8_high x i : is_u8 x -> 8 <= i -> Z.testbit x i = false.
Proof. intros Hx Hi. rewrite <- (u8_small x Hx). unfold u8. change 256 with (2 ^ 8). apply Z.mod_pow2_bits_high. lia. Qed.
Lemma u16_bits x i : 0 <= i -> Z.testbit (u16 x) i = (Z.testbit x i && (i <? 16))%bool.
Proof.
  intros Hi. unfold u16. change 65536 with (2 ^ 16). destruct (Z.ltb_spec i 16).
  - rewrite Z.mod_pow2_bits_low by lia. symmetry. apply andb_true_r.
  - rewrite Z.mod_pow2_bits_high by lia. symmetry. apply andb_false_r.
Qed.
Lemma half_bits row mask i : 0 <= i -> Z.testbit (half row mask) i = ((i <? 8) && Z.testbit mask (if row =? 0 then i else i + 8))%bool.
Proof.
  intros Hi. unfold half. destruct (row =? 0).
  - rewrite Z.land_spec. change 0xFF with (Z.ones 8). rewrite testbit_const by lia. apply andb_comm.
  - rewrite Z.shiftr_spec, Z.land_spec, testbit_FF00 by lia. rewrite andb_comm. f_equal. apply eq_true_iff_eq.
    rewrite andb_true_iff, Z.leb_le, !Z.ltb_lt. lia.
Qed.
Lemma row_byte_u8 row p : is_u8 (row_byte row p).
Proof.
  unfold row_byte. rewrite Z.land_comm. apply u8_lor; [apply (word_land_l 8 63 _); [lia|compute; intuition discriminate]|compute; intuition discriminate].
Qed.
(** The mask is known from its halves. *)
Lemma mask_of_halves mask p : is_u16 mask -> half 0 mask = row_byte 0 p -> half 1 mask = row_byte 1 p -> mask = full_mask p.
Proof.
  intros Hm H0 H1. unfold full_mask. rewrite <- H0, <- H1. apply Z.bits_inj'. intros i Hi. rewrite Z.lor_spec, half_bits, Z.shiftl_spec by lia.
  cbn [Z.eqb]. destruct (Z.ltb_spec i 8) as [Hlt|Hge]; cbn [andb].
  - rewrite Z.testbit_neg_r with (n := i - 8) by lia. symmetry. apply orb_false_r.
  - rewrite half_bits by lia. cbn [Z.eqb orb]. replace (i - 8 + 8) with i by lia. rewrite <- (u16_small _ Hm) at 1. rewrite u16_bits by lia.
    rewrite andb_comm. f_equal. apply eq_true_iff_eq. rewrite !Z.ltb_lt. lia.
Qed.
(** Storing a byte sets its half of the mask and keeps the other. *)
Lemma store_half mask c (low : bool) : is_u16 mask -> is_u8 c ->
  let mask' := u16 (Z.lor (Z.land mask (if low then 0xFF00 else 0x00FF)) (if low then c else Z.shiftl c 8)) in
  half (if low then 0 else 1) mask' = c /\ half (if low then 1 else 0) mask' = half (if low then 1 else 0) mask.
Proof.
  intros Hm Hc mask'. split; apply Z.bits_inj'; intros i Hi; rewrite !half_bits by lia; unfold mask'; destruct low; cbn [Z.eqb];
    rewrite u16_bits, Z.lor_spec, Z.land_spec, ?testbit_FF00 by lia; change 0x00FF with (Z.ones 8); rewrite ?testbit_const, ?Z.shiftl_spec by lia;
    destruct (Z.ltb_spec i 8) as [Hlt|Hge]; rewrite ?(u8_high c i Hc Hge); cbn [andb]; try reflexivity.
  - rewrite (proj2 (Z.leb_gt 8 i)) by lia. rewrite (proj2 (Z.ltb_lt i 16)) by lia. rewrite andb_false_r, andb_true_r. reflexivity.
  - rewrite (proj2 (Z.ltb_ge (i + 8) 8)) by lia. rewrite (proj2 (Z.ltb_lt (i + 8) 16)) by lia. replace (i + 8 - 8) with i by lia.
    rewrite andb_false_r, andb_true_r. reflexivity.
  - rewrite (proj2 (Z.leb_le 8 (i + 8))), (proj2 (Z.ltb_lt (i + 8) 16)), (u8_high c (i + 8)) by (assumption || lia). rewrite !andb_true_r, orb_false_r. reflexivity.
  - rewrite (proj2 (Z.ltb_lt i 16)), (Z.testbit_neg_r c (i - 8)) by lia. rewrite !andb_true_r, orb_false_r. reflexivity.
Qed.
(** Processing a row's column. *)
Lemma process_row rx s p : current_button_row_ s = 0 \/ current_button_row_ s = 1 -> is_u16 (cur_btn_mask s) ->
  Z.land rx 63 = Z.land (Z.lnot (side (current_button_row_ s) p)) 63 ->
  let '(s', raw) := ProcessButtonCol2 rx s in
  raw = cur_btn_mask s' /\ half (current_button_row_ s) raw = row_byte (current_button_row_ s) p /\
  half (Z.lxor (current_button_row_ s) 1) raw = half (Z.lxor (current_button_row_ s) 1) (cur_btn_mask s).
Proof.
  intros Hrow Hm Hrx. unfold ProcessButtonCol2. cbn [fst snd cur_btn_mask update]. split; [reflexivity|]. unfold row_byte. rewrite <- Hrx.
  assert (Hc : is_u8 (Z.lor (Z.land rx 63) 192)) by (rewrite Hrx; apply row_byte_u8).
  destruct Hrow as [-> | ->]; [exact (store_half _ _ true Hm Hc)|exact (store_half _ _ false Hm Hc)].
Qed.
(** [ProcessButtonCol] of any byte keeps the driver in range and advances the row. *)
Lemma process_range rx s : let '(s', raw) := ProcessButtonCol2 rx s in
  kind s' = kind s /\ raw = cur_btn_mask s' /\ is_u16 raw /\ current_button_row_ s' = Z.lxor (current_button_row_ s) 1.
Proof. unfold ProcessButtonCol2. cbn. repeat split; apply u16_range. Qed.

(** ** Reading the mask *)
(** Case analysis on the bits of a variable mask. *)
Ltac bits_of p := repeat match goal with |- context [Z.testbit p ?i] => generalize (Z.testbit p i); intros [] end; try reflexivity.
Lemma land_bit m n : 0 <= n -> (Z.land m (Z.shiftl 1 n) =? 0) = negb (Z.testbit m n).
Proof.
  intros Hn. rewrite Z.shiftl_1_l. destruct (Z.testbit m n) eqn:E; cbn [negb].
  - apply Z.eqb_neq. intros E'. apply (f_equal (fun z => Z.testbit z n)) in E'. rewrite Z.land_spec, E, Z.pow2_bits_true, Z.bits_0 in E' by lia. discriminate E'.
  - apply Z.eqb_eq, Z.bits_inj'. intros i Hi. rewrite Z.land_spec, Z.pow2_bits_eqb, Z.bits_0 by lia. destruct (Z.eqb_spec n i) as [<-|]; [rewrite E; reflexivity|apply andb_false_r].
Qed.
Lemma full_mask_bits p i : 0 <= i < 16 -> Z.testbit (full_mask p) i = negb (Z.testbit p i && negb (Z.testbit 0xC0C0 i)).
Proof.
  intros Hi. unfold full_mask. rewrite Z.lor_spec, Z.shiftl_spec by lia.
  assert (Hb : forall row j, 0 <= j -> Z.testbit (row_byte row p) j = ((negb (Z.testbit (side row p) j) && Z.testbit 63 j) || Z.testbit 192 j)%bool).
  { intros row j Hj. unfold row_byte. rewrite Z.lor_spec, Z.land_spec, Z.lnot_spec by lia. reflexivity. }
  rewrite (Hb 0) by lia. unfold side at 1. cbn [Z.eqb].
  assert (Hcase : i < 8 \/ 8 <= i) by lia. destruct Hcase as [Hlt|Hge].
  - rewrite Z.testbit_neg_r with (n := i - 8) by lia.
    assert (Hc : i = 0 \/ i = 1 \/ i = 2 \/ i = 3 \/ i = 4 \/ i = 5 \/ i = 6 \/ i = 7) by lia.
    repeat (destruct Hc as [-> |Hc]); [..|subst i]; bits_of p.
  - rewrite Hb by lia. unfold side at 1. cbn [Z.eqb]. rewrite Z.shiftr_spec by lia. replace (i - 8 + 8) with i by lia.
    assert (Hc : i = 8 \/ i = 9 \/ i = 10 \/ i = 11 \/ i = 12 \/ i = 13 \/ i = 14 \/ i = 15) by lia.
    repeat (destruct Hc as [-> |Hc]); [..|subst i]; bits_of p.
Qed.
Definition is_series2 (k : series_kind) : Prop := k = Series2 \/ k = Series2V02.
Lemma button_read k p id b s : is_series2 k -> series_ b = Some s -> kind s = k -> btn_stable_raw_mask_ b = full_mask p ->
  base_IsButtonPressed id b = (Z.testbit p (button_num id) && negb (bool_decide (id = S1_SELECT)))%bool.
Proof.
  intros Hk Hs Hkind Hm. unfold base_IsButtonPressed. rewrite Hs, Hkind, Hm.
  assert (Hmask : MapButtonIDToMask k id = Z.shiftl 1 (button_num id)) by (destruct Hk as [-> | ->]; reflexivity). rewrite Hmask.
  assert (Hr : 0 <= button_num id < 16) by (destruct id; cbn; lia).
  rewrite (proj2 (Z.eqb_neq (Z.shiftl 1 (button_num id)) 0)) by (rewrite Z.shiftl_1_l; pose proof (Z.pow_pos_nonneg 2 (button_num id)); lia).
  rewrite land_bit, full_mask_bits, negb_involutive by lia. f_equal. destruct id; reflexivity.
Qed.
Lemma fold_left_pointwise {A B} (f g : A -> B -> A) l a : (forall a b, f a b = g a b) -> fold_left f l a = fold_left g l a.
Proof. intros E. revert a. induction l as [|b l IH]; intros a; cbn; [reflexivity|]. rewrite E. apply IH. Qed.
Lemma buttons_fold (c : ButtonId -> bool) l m i : is_u16 m -> 0 <= i -> Forall (fun id => 0 <= button_num id) l ->
  let r := fold_left (fun m id => if c id then u16 (Z.lor m (Z.shiftl 1 (button_num id))) else m) l m in
  is_u16 r /\ Z.testbit r i = (Z.testbit m i || ((i <? 16) && existsb (fun id => c id && (button_num id =? i)) l))%bool.
Proof.
  intros Hm Hi Hl. revert m Hm. induction Hl as [|id l Hid Hl IH]; intros m Hm; cbn [fold_left existsb].
  - split; [exact Hm|]. rewrite andb_false_r, orb_false_r. reflexivity.
  - destruct (c id); cbn [andb]; [|exact (IH m Hm)].
    destruct (IH (u16 (Z.lor m (Z.shiftl 1 (button_num id)))) (u16_range _)) as [Hr E]. split; [exact Hr|]. rewrite E.
    rewrite u16_bits, Z.lor_spec, Z.shiftl_1_l, Z.pow2_bits_eqb by lia. assert (Hh := u16_bits m i Hi). rewrite (u16_small _ Hm) in Hh.
    destruct (Z.testbit m i), (i <? 16), (button_num id =? i); cbn in *; congruence.
Qed.
Lemma buttons_read k p b s : is_series2 k -> series_ b = Some s -> kind s = k -> btn_stable_raw_mask_ b = full_mask p -> base_GetButtonsMask b = Z.land p 0x1F3F.
Proof.
  intros Hk Hs Hkind Hm. apply Z.bits_inj'. intros i Hi.
  assert (E : base_GetButtonsMask b = fold_left (fun m id => if base_IsButtonPressed id b then u16 (Z.lor m (Z.shiftl 1 (button_num id))) else m) ALL_BUTTONS 0).
  { unfold base_GetButtonsMask, base_IsButtonPressed. rewrite Hs. apply fold_left_pointwise. intros m id. destruct (MapButtonIDToMask (kind s) id =? 0); reflexivity. }
  rewrite E. destruct (buttons_fold (fun id => base_IsButtonPressed id b) ALL_BUTTONS 0 i) as [_ ->]; [split; reflexivity|exact Hi|repeat constructor; cbn; lia|].
  rewrite Z.bits_0, Z.land_spec. cbn [orb].
  replace (existsb (fun id => base_IsButtonPressed id b && (button_num id =? i)) ALL_BUTTONS)
    with (existsb (fun id => Z.testbit p (button_num id) && negb (bool_decide (id = S1_SELECT)) && (button_num id =? i)) ALL_BUTTONS)%bool
    by (unfold ALL_BUTTONS, existsb; rewrite !(fun id => button_read k p id b s Hk Hs Hkind Hm); reflexivity).
  destruct (Z.ltb_spec i 16) as [Hlt|Hge]; cbn [andb].
  - assert (Hc : i = 0 \/ i = 1 \/ i = 2 \/ i = 3 \/ i = 4 \/ i = 5 \/ i = 6 \/ i = 7 \/ i = 8 \/ i = 9 \/ i = 10 \/ i = 11 \/ i = 12 \/ i = 13 \/ i = 14 \/ i = 15) by lia.
    repeat (destruct Hc as [-> |Hc]); [..|subst i]; cbn [existsb ALL_BUTTONS button_num Z.eqb Pos.eqb]; rewrite ?andb_false_r, ?orb_false_r, ?andb_true_r, ?orb_false_l; bits_of p.
  - symmetry. change 0x1F3F with (u16 0x1F3F). rewrite u16_bits by lia. rewrite (proj2 (Z.ltb_ge i 16)) by lia. rewrite !andb_false_r. reflexivity.
Qed.

(** ** Debouncing *)
(** [mask] has been read [n] times running, after the first. *)
Definition settled (mask : Z) (n : Z) (b : base) : Prop :=
  btn_last_raw_mask_ b = mask /\ n <= btn_debounce_counter_ b <= DEBOUNCE_TICKS /\
  (DEBOUNCE_TICKS <= btn_debounce_counter_ b -> btn_stable_raw_mask_ b = mask).
Definition counting (b : base) : Prop := 0 <= btn_debounce_counter_ b <= DEBOUNCE_TICKS.
Lemma debounce_first mask b : counting b -> settled mask 0 (DebounceRawButtons mask b).
Proof.
  unfold counting, settled, DebounceRawButtons, DEBOUNCE_TICKS. intros Hb. cbn.
  destruct (Z.lxor _ _ =? 0); [destruct (Z.ltb_spec (btn_debounce_counter_ b) 5)|]; (split; [reflexivity|split; [lia|]]); intros Hc; rewrite (proj2 (Z.leb_le _ _) Hc); reflexivity.
Qed.
Lemma debounce_again mask n b : 0 <= n -> settled mask n b -> settled mask (Z.min (n + 1) 5) (DebounceRawButtons mask b).
Proof.
  unfold settled, DebounceRawButtons, DEBOUNCE_TICKS. intros Hn (E & Hc & Hs). cbn. rewrite E, Z.lxor_nilpotent. cbn [Z.eqb].
  destruct (Z.ltb_spec (btn_debounce_counter_ b) 5); (split; [reflexivity|split; [lia|]]); intros Hc'; rewrite (proj2 (Z.leb_le _ _) Hc'); reflexivity.
Qed.
Lemma debounce_counting mask b : counting b -> counting (DebounceRawButtons mask b).
Proof. intros Hb. destruct (debounce_first mask b Hb) as (_ & Hc & _). exact Hc. Qed.

(** ** What a board promises *)
(** With a panel of series II [attached], a cycle reads a byte and hands the processed mask to the debouncing;
    once the outputs are [aimed] at the row the driver expects, the byte is that row's. [pressed] is the mask of
    the buttons held. *)
Class ScanBoard (X : Type) `{CL : CaboLeds X} := {
  scan_kind : series_kind;
  scan_kind_ok : scan_kind ∈ led_kinds;
  scan_series2 : is_series2 scan_kind;
  pressed : X -> Z;
  attached : X -> Prop;
  aimed : Z -> X -> Prop;
  scan_step b x s : series_ b = Some s -> kind s = scan_kind -> attached x ->
    current_button_row_ s = 0 \/ current_button_row_ s = 1 -> Z.land (current_led_mask_ b) 31 = current_led_mask_ b ->
    exists rx x', LatchLoad b x = Some (let '(s', raw) := ProcessButtonCol2 rx s in (DebounceRawButtons raw (b <| series_ := Some s' |>), x')) /\
      attached x' /\ pressed x' = pressed x /\ aimed (Z.lxor (current_button_row_ s) 1) x' /\
      (aimed (current_button_row_ s) x -> Z.land rx 63 = Z.land (Z.lnot (side (current_button_row_ s) (pressed x))) 63) }.

Section Scan.
Context {X : Type} `{SB : ScanBoard X} `{HL : HighLevelStatuses} `{ER : EmergencyReasons}.
(** The display's traffic and the sleep leave the panel alone. *)
Definition quiet (f : X -> X) : Prop := forall x, attached x -> attached (f x) /\ pressed (f x) = pressed x /\ forall r, aimed r x -> aimed r (f x).
Context (display_do : cui_out -> X -> X) (chThdSleepUntil : Z -> X -> X).
Context (display_quiet : forall o, quiet (display_do o)) (sleep_quiet : forall t, quiet (chThdSleepUntil t)).
Abbreviation iterate := (iteration display_do chThdSleepUntil).
Abbreviation run := (loop display_do chThdSleepUntil).

(** A driver that is scanning: the panel is known, and everything is in range. *)
Definition scanning (st : DriverState) (b : base) (s : series) : Prop :=
  series_ b = Some s /\ kind s = scan_kind /\ (current_button_row_ s = 0 \/ current_button_row_ s = 1) /\ is_u16 (cur_btn_mask s) /\
  state_ b = st /\ counting b /\ leds_only scan_kind b.
(** [n] cycles after the set of buttons became [p]. *)
Definition stage (st : DriverState) (p n : Z) (b : base) (s : series) (x : X) : Prop :=
  scanning st b s /\ attached x /\ pressed x = p /\ (1 <= n -> aimed (current_button_row_ s) x) /\
  (2 <= n -> half (Z.lxor (current_button_row_ s) 1) (cur_btn_mask s) = row_byte (Z.lxor (current_button_row_ s) 1) p) /\
  (3 <= n -> cur_btn_mask s = full_mask p /\ settled (full_mask p) (Z.min (n - 3) 5) b).

Lemma all_leds_31 : all_leds scan_kind = 31.
Proof. destruct scan_series2 as [-> | ->]; reflexivity. Qed.
Lemma process_leds_only now k b : leds_only k b -> leds_only k (ProcessLedStates now b) /\
  Z.land (current_led_mask_ (ProcessLedStates now b)) (all_leds k) = current_led_mask_ (ProcessLedStates now b).
Proof.
  intros Ho. destruct (process_phase now b) as (_ & _ & ->).
  assert (E : on_mask (ProcessLedStates now b) = on_mask b /\ slow_blink_mask (ProcessLedStates now b) = slow_blink_mask b /\ fast_blink_mask (ProcessLedStates now b) = fast_blink_mask b).
  { unfold ProcessLedStates. destruct (_ && (TIME_MS2I 500 <=? _))%bool; cbn; destruct (_ && (TIME_MS2I 100 <=? _))%bool; cbn; auto. }
  destruct E as (E1 & E2 & E3). unfold leds_only in *. rewrite E1, E2, E3. split; [exact Ho|].
  rewrite !Forall_cons in Ho. destruct Ho as (H1 & H2 & H3 & _). rewrite !lor_land, H1.
  destruct (slow_blink_state _), (fast_blink_state _); rewrite ?H2, ?H3, ?Z.land_0_l; reflexivity.
Qed.
Lemma process_keeps now b : let b' := ProcessLedStates now b in series_ b' = series_ b /\ state_ b' = state_ b /\
  btn_last_raw_mask_ b' = btn_last_raw_mask_ b /\ btn_debounce_counter_ b' = btn_debounce_counter_ b /\ btn_stable_raw_mask_ b' = btn_stable_raw_mask_ b.
Proof. unfold ProcessLedStates. destruct (_ && (TIME_MS2I 500 <=? _))%bool; cbn; destruct (_ && (TIME_MS2I 100 <=? _))%bool; cbn; repeat split. Qed.

(** Stages do not see what the LEDs do. *)
Lemma stage_frame st p n b s x b' : stage st p n b s x -> series_ b' = series_ b -> state_ b' = state_ b -> leds_only scan_kind b' ->
  btn_last_raw_mask_ b' = btn_last_raw_mask_ b -> btn_debounce_counter_ b' = btn_debounce_counter_ b -> btn_stable_raw_mask_ b' = btn_stable_raw_mask_ b ->
  stage st p n b' s x.
Proof.
  intros (Hs & Ha) E1 E2 Ho E3 E4 E5. unfold stage, scanning, settled, counting in *. rewrite E1, E2, E3, E4, E5. intuition.
Qed.
Lemma stage_quiet st p n b s x f : quiet f -> stage st p n b s x -> stage st p n b s (f x).
Proof.
  intros Hq (Hs & Ha & Hp & Hr). destruct (Hq x Ha) as (Ha' & Hp' & Hr'). unfold stage. rewrite Hp'. intuition.
Qed.
(** A cycle of a driver that is ready. *)
Lemma stage_cycle st p n b s x : 0 <= n -> stage st p n b s x -> Z.land (current_led_mask_ b) 31 = current_led_mask_ b ->
  exists b' s' x', LatchLoad b x = Some (b', x') /\ stage st p (n + 1) b' s' x'.
Proof.
  intros Hn ((Hs & Hk & Hrow & Hm & Hr & Hc & Ho) & Ha & Hp & H1 & H2 & H3) Hl.
  destruct (scan_step b x s Hs Hk Ha Hrow Hl) as (rx & x' & E & Ha' & Hp' & Hr' & Hrx). rewrite E. clear E.
  pose proof (process_range rx s) as R. pose proof (process_row rx s p Hrow Hm) as P. destruct (ProcessButtonCol2 rx s) as [s' raw].
  destruct R as (Rk & Rraw & R16 & Rrow). exists (DebounceRawButtons raw (b <| series_ := Some s' |>)), s', x'. split; [reflexivity|].
  assert (Hcb : counting (b <| series_ := Some s' |>)) by exact Hc. unfold stage. rewrite <- Rraw, Hp', Rrow.
  split; [repeat split; [exact (eq_trans Rk Hk)|rewrite Rrow; destruct Hrow as [-> | ->]; auto|rewrite <- Rraw; apply R16|rewrite <- Rraw; apply R16|exact Hr|apply debounce_counting, Hcb|apply debounce_counting, Hcb|exact Ho]|].
  split; [exact Ha'|]. split; [exact Hp|]. split; [intros _; exact Hr'|].
  assert (Hx : Z.lxor (Z.lxor (current_button_row_ s) 1) 1 = current_button_row_ s) by (destruct Hrow as [-> | ->]; reflexivity). rewrite Hx.
  assert (Q : 1 <= n -> half (current_button_row_ s) raw = row_byte (current_button_row_ s) p /\
    half (Z.lxor (current_button_row_ s) 1) raw = half (Z.lxor (current_button_row_ s) 1) (cur_btn_mask s)).
  { intros Hn1. rewrite <- Hp in *. destruct (P (Hrx (H1 Hn1))) as (_ & ?). assumption. }
  split; [intros Hn2; apply Q; lia|]. intros Hn3. destruct (Q ltac:(lia)) as [Q1 Q2].
  assert (Hfull : raw = full_mask p).
  { rewrite (H2 ltac:(lia)) in Q2. destruct Hrow as [E | E]; rewrite E in Q1, Q2; apply mask_of_halves; assumption. }
  split; [exact Hfull|]. rewrite Hfull. destruct (Z.leb_spec 3 n) as [Hle|Hgt].
  - destruct (H3 Hle) as [_ Hst]. replace (Z.min (n + 1 - 3) 5) with (Z.min (Z.min (n - 3) 5 + 1) 5) by lia.
    apply debounce_again; [lia|exact Hst].
  - replace (Z.min (n + 1 - 3) 5) with 0 by lia. apply debounce_first, Hcb.
Qed.

(** ** Power-up *)
(** A panel that is found, from a driver that has just started: the animation ends with a driver that scans. *)
Context (animation_quiet : forall ms, quiet (chThdSleepMilliseconds ms)).
Definition playing (bx : base * X) : Prop := exists s, stage BOOT_ANIMATION (pressed bx.2) 0 bx.1 s bx.2.
Lemma set_all_fine k modes l b0 b : fine k b0 b -> fine k b0 (fold_left (fun b l => SetLed l (modes l) b) l b).
Proof. revert b. induction l as [|i l IH]; intros b Hf; cbn [fold_left]; [exact Hf|]. apply IH, SetLed_fine, Hf. Qed.
Lemma show_playing modes ms bx : playing bx -> exists bx', show modes ms bx = Some bx' /\ playing bx'.
Proof.
  intros [s Hst]. destruct bx as [b x]. cbn [fst snd] in Hst. unfold show. cbn [fst snd]. pose proof (Hst) as ((Hs & Hk & _ & _ & Hr & _ & Ho) & Ha & _).
  assert (Hf : fine scan_kind b b) by (repeat split; [exists s; repeat split; [exact Hs|exact Hk|exact scan_kind_ok]|exact Ho]).
  apply (set_all_fine _ modes LEDS) in Hf. destruct Hf as (_ & Ho1 & F1 & F2 & _ & _ & _ & _ & _ & F5 & F3 & F4).
  set (b1 := fold_left _ LEDS b) in *. destruct (process_leds_only (chVTGetSystemTime x) scan_kind b1 Ho1) as [Ho2 Hc]. rewrite all_leds_31 in Hc.
  destruct (process_keeps (chVTGetSystemTime x) b1) as (G1 & G2 & G3 & G4 & G5).
  destruct (stage_cycle BOOT_ANIMATION (pressed x) 0 (ProcessLedStates (chVTGetSystemTime x) b1) s x) as (b' & s' & x' & -> & Hst'); [lia| |exact Hc|].
  - apply (stage_frame _ _ _ _ _ _ _ Hst); congruence || assumption.
  - cbn [mbind option_bind]. eexists. split; [reflexivity|]. exists s'. cbn [fst snd].
    assert (Hst0 : stage BOOT_ANIMATION (pressed x) 0 b' s' x') by (unfold stage in *; intuition; lia).
    pose proof (stage_quiet _ _ _ _ _ _ _ (animation_quiet ms) Hst0) as Hq. destruct (Hq) as (_ & _ & -> & _). exact Hq.
Qed.
Lemma shows_playing l bx : playing bx -> exists bx', foldl (fun r i => bx ← r; show (first_leds i) 100 bx) (Some bx) l = Some bx' /\ playing bx'.
Proof.
  revert bx. induction l as [|i l IH]; intros bx Hp; cbn [foldl]; [exists bx; auto|]. cbn [mbind option_bind].
  destruct (show_playing (first_leds i) 100 bx Hp) as (bx' & -> & Hp'). apply IH, Hp'.
Qed.
Lemma power_on_scans x x' : GetSeriesDriver x = Some (Some (new_series scan_kind), x') -> attached x' ->
  exists b s x'', base_Tick new_base x = Some (b, x'') /\ scanning READY b s /\ attached x''.
Proof.
  intros Hg Ha. unfold base_Tick, new_base. cbn -[GetSeriesDriver PowerOnAnimation]. rewrite Hg. cbn [mbind option_bind].
  match goal with |- context [PowerOnAnimation (?b, _)] => set (b1 := b) end. destruct (animation_quiet 200 x' Ha) as (Ha1 & _).
  assert (P0 : playing (b1, chThdSleepMilliseconds 200 x')).
  { exists (new_series scan_kind). unfold stage, scanning, counting, DEBOUNCE_TICKS. cbn. repeat split; auto; try lia. repeat constructor. }
  unfold PowerOnAnimation. destruct (show_playing (fun _ => ON) 500 _ P0) as (bx1 & -> & P1). cbn [mbind option_bind].
  destruct (show_playing (fun _ => OFF) 800 _ P1) as (bx2 & -> & P2). cbn [mbind option_bind].
  destruct (shows_playing [0; 1; 2; 3; 4; 5] _ P2) as (bx3 & -> & P3). cbn [mbind option_bind].
  destruct (shows_playing [4; 3; 2; 1; 0] _ P3) as ([b4 x4] & -> & [s4 ((S1 & S2 & S3 & S4 & S5 & S6 & S7) & A4 & _)]). cbn [mbind option_bind fst snd] in *.
  eexists _, s4, _. split; [reflexivity|]. split; [|apply (animation_quiet 500), A4]. repeat split; try assumption; apply S4 || apply S6.
Qed.

(** ** The controller's loop *)
(** The loop's own state is in order: there is a display, and a state for each button. *)
Definition running (c : controller X) : Prop := display_ c = true /\ length (button_states_ c) = NUM_BUTTONS.
Lemma UpdateStates_stage v p n b s x : stage READY p n b s x -> stage READY p n (UpdateStates v b) s x.
Proof.
  intros Hst. destruct (Hst) as ((Hs & Hk & _ & _ & Hr & _ & Ho) & _).
  assert (Hp : SaboController.panel scan_kind b) by (exists s; repeat split; [exact Hs|exact Hk|exact scan_kind_ok]).
  assert (Hr' : IsReady b = true) by (unfold IsReady; rewrite Hr; reflexivity).
  destruct (UpdateStates_set scan_kind v b Hp Ho Hr') as [(_ & Ho' & E1 & E2 & _ & _ & _ & _ & _ & E5 & E3 & E4) _].
  exact (stage_frame _ _ _ _ _ _ _ Hst E2 E1 Ho' E3 E4 E5).
Qed.
Lemma tick_stage p n b s x : 0 <= n -> stage READY p n b s x -> exists b' s' x', base_Tick b x = Some (b', x') /\ stage READY p (n + 1) b' s' x'.
Proof.
  intros Hn Hst. pose proof (Hst) as ((_ & _ & _ & _ & Hr & _ & Ho) & _). set (now := chVTGetSystemTime x).
  destruct (process_leds_only now scan_kind b Ho) as [Ho' Hc]. rewrite all_leds_31 in Hc.
  destruct (process_keeps now b) as (E1 & E2 & E3 & E4 & E5). unfold base_Tick. fold now.
  assert (Hready : state_ (ProcessLedStates now b) = READY) by (rewrite E2; exact Hr).
  rewrite Hready. exact (stage_cycle READY p n _ s x Hn (stage_frame _ _ _ _ _ _ _ Hst E1 E2 Ho' E3 E4 E5) Hc).
Qed.
(** The button check in closed form. *)
Definition presses (b : base) (ids : list ButtonId) (states : list bool) : list cui_out :=
  omap (fun p => if base_IsButtonPressed p.1 b && negb p.2 then Some (OnButtonPress p.1) else None) (zip ids states).
Lemma check_buttons_true b ids states x : length states = length ids ->
  exists x', check_buttons display_do b true ids states x = Some (map (fun id => base_IsButtonPressed id b) ids, presses b ids states, x') /\
    forall P : X -> Prop, (forall o x, P x -> P (display_do o x)) -> P x -> P x'.
Proof.
  revert states x. induction ids as [|id ids IH]; intros [|was states] x Hlen; try discriminate Hlen.
  - exists x. split; [reflexivity|auto].
  - injection Hlen as Hlen. cbn [check_buttons]. unfold button_step, presses. cbn [zip zip_with omap list_omap map fst snd].
    destruct (base_IsButtonPressed id b) eqn:Hp, was; cbn;
      match goal with |- context [check_buttons _ _ _ _ _ ?y] => destruct (IH states y Hlen) as (x' & E & HP) end;
      rewrite E; exists x'; cbn; rewrite ?Hp; (split; [reflexivity|]); intros P HD Hx; apply HP; auto.
Qed.
(** An iteration in closed form: the driver's tick, then the display's calls and the button check on what it read. *)
Definition due (c : controller X) : bool := 100 <=? TIME_I2MS (u32 (chVTGetSystemTime (board c) - last_button_check c)).
Lemma show_display_spec now c b : let '(c', o) := show_display display_do now c b in
  cabo_ c' = cabo_ c /\ display_ c' = display_ c /\ button_states_ c' = button_states_ c /\ last_button_check c' = last_button_check c /\
  Forall (fun o => forall id, o <> OnButtonPress id) o /\ forall P : X -> Prop, (forall o x, P x -> P (display_do o x)) -> P (board c) -> P (board c').
Proof.
  unfold show_display. destruct (IsReady b && display_ c)%bool; [|repeat split; auto].
  destruct (30 <=? _); cbn; destruct (IsAnyButtonPressed b); cbn; repeat split; auto; repeat constructor; intros; discriminate.
Qed.
Lemma iteration_spec v c b b1 x1 : running c -> cabo_ c = Some b -> base_Tick b (board c) = Some (b1, x1) ->
  exists c' o1, let b' := UpdateStates v b1 in
    iterate v c = Some (c', o1 ++ if due c then presses b' ALL_BUTTONS (button_states_ c) else []) /\ running c' /\ cabo_ c' = Some b' /\
    button_states_ c' = (if due c then map (fun id => base_IsButtonPressed id b') ALL_BUTTONS else button_states_ c) /\
    Forall (fun o => forall id, o <> OnButtonPress id) o1 /\
    forall P : X -> Prop, (forall o x, P x -> P (display_do o x)) -> (forall t x, P x -> P (chThdSleepUntil t x)) -> P x1 -> P (board c').
Proof.
  intros [Hd Hlen] Hb Ht. unfold iteration. rewrite Hb. cbn [mbind option_bind]. rewrite Ht. cbn [mbind option_bind]. set (b' := UpdateStates v b1).
  pose proof (show_display_spec (chVTGetSystemTime (board c)) (c <| cabo_ := Some b' |> <| board := x1 |>) b') as S1.
  destruct (show_display _ _ _ _) as [c1 o1]. cbn in S1. destruct S1 as (C1 & C2 & C3 & C4 & C5 & C6). rewrite C4. unfold due.
  destruct (100 <=? _).
  - rewrite C2, C3, Hd. destruct (check_buttons_true b' ALL_BUTTONS (button_states_ c) (board c1) Hlen) as (x' & -> & HP). cbn [mbind option_bind].
    eexists _, o1. split; [reflexivity|]. unfold running. destruct (_ <? _); cbn; (split; [split; [congruence|reflexivity]|]); (split; [exact C1|]); (split; [reflexivity|]); (split; [exact C5|]); intros P HD HS Hx;
      try apply HS; (apply HP; [exact HD|]); apply C6; assumption.
  - cbn [mbind option_bind]. eexists _, o1. split; [reflexivity|]. unfold running. destruct (_ <? _); cbn; (split; [split; [congruence|rewrite C3; exact Hlen]|]); (split; [exact C1|]); (split; [exact C3|]); (split; [exact C5|]); intros P HD HS Hx;
      try apply HS; apply C6; assumption.
Qed.
Lemma iteration_stage v p n c b s : 0 <= n -> running c -> cabo_ c = Some b -> stage READY p n b s (board c) ->
  exists c' o b' s', iterate v c = Some (c', o) /\ running c' /\ cabo_ c' = Some b' /\ stage READY p (n + 1) b' s' (board c').
Proof.
  intros Hn Hrun Hb Hst. destruct (tick_stage p n b s (board c) Hn Hst) as (b1 & s1 & x1 & Ht & Hst1).
  destruct (iteration_spec v c b b1 x1 Hrun Hb Ht) as (c' & o1 & E & Hrun' & Hb' & _ & _ & HP).
  eexists c', _, (UpdateStates v b1), s1. split; [exact E|]. split; [exact Hrun'|]. split; [exact Hb'|].
  apply (HP (stage READY p (n + 1) (UpdateStates v b1) s1)); [intros o x; apply stage_quiet, display_quiet|intros t x; apply stage_quiet, sleep_quiet|].
  apply UpdateStates_stage, Hst1.
Qed.
Lemma loop_stage views p n c b s : 0 <= n -> running c -> cabo_ c = Some b -> stage READY p n b s (board c) ->
  exists c' o b' s', run views c = Some (c', o) /\ running c' /\ cabo_ c' = Some b' /\ stage READY p (n + Z.of_nat (length views)) b' s' (board c').
Proof.
  revert n c b s. induction views as [|v views IH]; intros n c b s Hn Hrun Hb Hst.
  - exists c, [], b, s. cbn. rewrite Z.add_0_r. auto.
  - destruct (iteration_stage v p n c b s Hn Hrun Hb Hst) as (c1 & o1 & b1 & s1 & E1 & Hrun1 & Hb1 & Hst1).
    destruct (IH (n + 1) c1 b1 s1 ltac:(lia) Hrun1 Hb1 Hst1) as (c2 & o2 & b2 & s2 & E2 & Hrun2 & Hb2 & Hst2).
    exists c2, (o1 ++ o2), b2, s2. cbn [loop]. rewrite E1. cbn. rewrite E2. cbn. split; [reflexivity|]. split; [exact Hrun2|]. split; [exact Hb2|].
    replace (n + Z.of_nat (S (length views))) with (n + 1 + Z.of_nat (length views)) by lia. exact Hst2.
Qed.

(** C23. The buttons of a series II panel reach the services. The controller has its display, and the board keeps
    [ScanBoard]'s promise (v0.1 does too, but has no display: there the press itself uses a null pointer,
    [press_without_display]). From any state of a driver that is scanning (whatever it read before, whichever row is
    driven), the controller's loop never stops, and after eight iterations in which the same buttons are held
    down, whatever it shows on the LEDs and the display meanwhile, the mask it reports is exactly the held
    buttons that exist on the panel and each button is reported pressed exactly when it is held. *)
Theorem held_buttons_are_reported views c b s : running c -> cabo_ c = Some b -> scanning READY b s -> attached (board c) ->
  (8 <= length views)%nat ->
  exists c' o, run views c = Some (c', o) /\
    GetButtonsMask c' = Z.land (pressed (board c)) 0x1F3F /\
    forall id, IsButtonPressed id c' = Some (Z.testbit (pressed (board c)) (button_num id) && negb (bool_decide (id = S1_SELECT)))%bool.
Proof.
  intros Hrun Hb Hscan Ha Hlen. set (p := pressed (board c)).
  assert (H0 : stage READY p 0 b s (board c)) by (split; [exact Hscan|split; [exact Ha|split; [reflexivity|repeat split; lia]]]).
  destruct (loop_stage views p 0 c b s ltac:(lia) Hrun Hb H0) as (c' & o & b' & s' & E & _ & Hb' & ((Hs & Hk & _ & _ & Hr & _) & _ & _ & _ & _ & H3)).
  exists c', o. split; [exact E|]. destruct (H3 ltac:(lia)) as [_ (_ & Hc & Hst)]. specialize (Hst ltac:(unfold DEBOUNCE_TICKS in *; lia)).
  unfold GetButtonsMask, IsButtonPressed. rewrite Hb'. cbn [mbind option_bind]. unfold IsReady. rewrite Hr. cbn [negb]. split.
  - exact (buttons_read scan_kind p b' s' scan_series2 Hs Hk Hst).
  - intros id. f_equal. exact (button_read scan_kind p id b' s' scan_series2 Hs Hk Hst).
Qed.

(** ** Presses *)
(** What the button checks of a run saw, and how often a button goes down in it. *)
Fixpoint samples (views : list cui_view) (c : controller X) : list base :=
  match views with
  | [] => []
  | v :: views =>
    match iterate v c with
    | Some (c', _) => (if due c then match cabo_ c' with Some b => [b] | None => [] end else []) ++ samples views c'
    | None => []
    end
  end.
Fixpoint rising (was : bool) (l : list bool) : Z :=
  match l with [] => 0 | p :: l => (if p && negb was then 1 else 0) + rising p l end.
Definition heard (id : ButtonId) (o : list cui_out) : Z := countb (fun o => bool_decide (o = OnButtonPress id)) o.
Lemma heard_app id o1 o2 : heard id (o1 ++ o2) = heard id o1 + heard id o2.
Proof. apply countb_app. Qed.
Lemma heard_none id o : Forall (fun o => forall id, o <> OnButtonPress id) o -> heard id o = 0.
Proof. intros Ho. apply countb_false. eapply Forall_impl; [exact Ho|]. cbn. intros x Hx. apply bool_decide_eq_false_2, Hx. Qed.
Lemma heard_presses b ids states i id was : NoDup ids -> length states = length ids -> ids !! i = Some id -> states !! i = Some was ->
  heard id (presses b ids states) = if base_IsButtonPressed id b && negb was then 1 else 0.
Proof.
  intros Hnd. revert i states. induction Hnd as [|id0 ids Hni Hnd IH]; intros i [|was0 states] Hlen Hid Hwas; try discriminate; try (rewrite lookup_nil in Hid; discriminate Hid).
  injection Hlen as Hlen. unfold presses. cbn [zip zip_with omap list_omap fst snd].
  change (omap _ (zip_with pair ids states)) with (presses b ids states).
  assert (Hmiss : id0 = id -> heard id (presses b ids states) = 0).
  { intros ->. apply countb_false, Forall_forall. intros x Hx. apply bool_decide_eq_false_2. intros ->.
    apply list_elem_of_omap in Hx as ([id1 was1] & Hin & E). cbn [fst snd] in E. split_if_in E; [|discriminate E]. injection E as ->.
    apply elem_of_zip_l in Hin. exact (Hni Hin). }
  destruct i as [|i].
  - injection Hid as ->. injection Hwas as ->. destruct (_ && _)%bool; [|exact (Hmiss eq_refl)].
    unfold heard in *. cbn [countb]. rewrite bool_decide_eq_true_2 by reflexivity. cbn. rewrite (Hmiss eq_refl). reflexivity.
  - assert (Hne : id0 <> id) by (intros ->; apply Hni; exact (list_elem_of_lookup_2 ids i id Hid)).
    rewrite <- (IH i states Hlen Hid Hwas). destruct (base_IsButtonPressed id0 b && negb was0)%bool; [|reflexivity].
    unfold heard. cbn [countb]. rewrite bool_decide_eq_false_2 by (intros [= E]; exact (Hne E)). reflexivity.
Qed.

(** C24. A press is handled once: over any run of the controller's loop, however long the button is held and
    however often it is sampled, the display hears of each button exactly as often as the button goes from
    released to pressed in what the ten-a-second checks saw, and never otherwise. *)
Theorem presses_are_handled_once views c c' o i id was : run views c = Some (c', o) -> running c ->
  ALL_BUTTONS !! i = Some id -> button_states_ c !! i = Some was ->
  heard id o = rising was (map (base_IsButtonPressed id) (samples views c)).
Proof.
  intros Hl Hrun Hi Hw. revert c c' o was Hl Hrun Hw. induction views as [|v views IH]; intros c c' o was Hl Hrun Hw; cbn [loop samples] in *.
  - injection Hl as _ <-. reflexivity.
  - destruct (iterate v c) as [[c1 o1]|] eqn:E1; [|discriminate Hl]. cbn in Hl.
    destruct (run views c1) as [[c2 o2]|] eqn:E2; [|discriminate Hl]. injection Hl as _ <-.
    assert (Ht : exists b b1 x1, cabo_ c = Some b /\ base_Tick b (board c) = Some (b1, x1)).
    { unfold iteration in E1. destruct (cabo_ c) as [b|]; [|discriminate E1]. cbn in E1. destruct (base_Tick b (board c)) as [[b1 x1]|] eqn:Ht; [|discriminate E1].
      exists b, b1, x1. auto. }
    destruct Ht as (b & b1 & x1 & Hb & Ht). destruct (iteration_spec v c b b1 x1 Hrun Hb Ht) as (c1' & o1' & E1' & Hrun1 & Hb1 & Hs1 & Hn & _).
    rewrite E1 in E1'. injection E1' as <- ->. rewrite Hb1, !heard_app, (heard_none id o1' Hn).
    assert (Hnd : NoDup ALL_BUTTONS) by (apply (bool_decide_unpack _); vm_compute; exact I).
    destruct (due c); cbn [app map rising].
    + rewrite (heard_presses _ ALL_BUTTONS (button_states_ c) i id was Hnd (proj2 Hrun) Hi Hw). f_equal.
      apply (IH c1 c2 o2); [exact E2|exact Hrun1|]. rewrite Hs1. apply list_lookup_fmap_Some. eauto.
    + apply (IH c1 c2 o2 was E2 Hrun1). rewrite Hs1. exact Hw.
Qed.
End Scan.
