(* ===== verification/SaboPanel.v ===== *)
(** The carrier boards against the Sabo panel of series II: an HEF4794 drives the LEDs and the button rows, an
    HC165 reads the columns. [Panel2] states what these registers do; each board's latch-and-load cycle is
    shown to read the row that its series driver expects, which is [SaboScan]'s interface. *)
From S2P Require Import Prelude ServiceExt Float32 Leds Charger Peripherals SaboUi SaboBoards SaboController SaboScan.

(** ** The LEDs' bits of each board *)
Section BoardLeds.
Context {D : Type} `{CuiHw D} (address : chip -> Z).
Lemma series_map b s l : series_ b = Some s -> series_MapLedIdToMask b l = MapLedIdToMask (kind s) l.
Proof. unfold series_MapLedIdToMask. intros ->. reflexivity. Qed.
Lemma known_kinds l : Forall (fun k => k ∈ kinds) l -> forall k, k ∈ l -> k ∈ kinds.
Proof. intros Hl k. rewrite Forall_forall in Hl. apply Hl. Qed.
Ltac kinds_ok := apply (bool_decide_unpack _); vm_compute; exact I.
#[export] Instance series_kind_eq : EqDecision series_kind.
Proof. solve_decision. Defined.
Definition leds_v01 : @CaboLeds D cabo_v01.
Proof. refine {| led_kinds := [Series2] |}; [apply known_kinds; kinds_ok|intros; apply series_map; assumption]. Defined.
Definition leds_v02 : @CaboLeds v02 cabo_v02.
Proof. refine {| led_kinds := [Series1V02; Series2V02] |}; [apply known_kinds; kinds_ok|intros; apply series_map; assumption]. Defined.
Definition leds_v03 : @CaboLeds v03 (cabo_v03 address).
Proof.
  refine {| led_kinds := [Series1V03; Series2] |}; [apply known_kinds; kinds_ok|].
  intros b s l Hs Hk. change (v03_MapLedIdToMask b l = MapLedIdToMask (kind s) l). rewrite !elem_of_cons in Hk.
  destruct Hk as [E|[E|E]]; [rewrite E; destruct l; reflexivity..|apply elem_of_nil in E; destruct E].
Defined.
Definition leds_v04 : @CaboLeds v04 (cabo_v04 address).
Proof. refine {| led_kinds := [Series1V04; Series2] |}; [apply known_kinds; kinds_ok|intros; apply series_map; assumption]. Defined.
Definition leds_v05 : @CaboLeds v04 (cabo_v05 address).
Proof. refine {| led_kinds := [Series1V04; Series2] |}; [apply known_kinds; kinds_ok|intros; apply series_map; assumption]. Defined.
End BoardLeds.

(** ** The panel's registers *)
(** The HEF4794's shift register and outputs, which follow it while the strobe is high; the HC165's register, loaded
    from the columns of the driven rows while its load line is low; the buttons held. *)
Record registers := mkPanel { shift : Z; outputs : Z; strobe_open : bool; loaded : Z; held : Z }.
#[export] Instance eta_registers : Eta registers := fun p => mkPanel (shift p) (outputs p) (strobe_open p) (loaded p) (held p).
(** A column is low when a button of a driven row is held. *)
Definition columns (p : registers) : Z :=
  Z.land (Z.lnot (Z.lor (if Z.testbit (outputs p) 6 then side 0 (held p) else 0) (if Z.testbit (outputs p) 5 then side 1 (held p) else 0))) 63.
Definition clock (tx : Z) (p : registers) : registers := p <| shift := tx |> <| outputs := if strobe_open p then tx else outputs p |>.
Definition line_effect (strobe load q : pin) (v : bool) (p : registers) : registers :=
  let p := if bool_decide (q = load) && v then p <| loaded := columns p |> else p in
  if bool_decide (q = strobe) then if v then p <| strobe_open := true |> <| outputs := shift p |> else p <| strobe_open := false |> else p.
Class Panel2 (D : Type) `{HW : CuiHw D} (strobe load : pin) := {
  panel_of : D -> registers;
  panel_write q v d : panel_of (palWriteLine q v d) = line_effect strobe load q v (panel_of d);
  panel_quiet d us : panel_of (spiAcquireBus d) = panel_of d /\ panel_of (spiStart d) = panel_of d /\ panel_of (spiReleaseBus d) = panel_of d /\
    panel_of (chThdSleepMicroseconds us d) = panel_of d;
  panel_send tx d : panel_of (spiSend tx d) = clock tx (panel_of d);
  panel_exchange tx d : panel_of (spiExchange tx d).2 = clock tx (panel_of d) /\ Z.land (spiExchange tx d).1 63 = loaded (panel_of d);
  panel_receive d : exists tx b0 b1 b2, panel_of (spiReceive 3 d).2 = clock tx (panel_of d) /\ (spiReceive 3 d).1 = [b0; b1; b2] /\
    Z.land b2 63 = loaded (panel_of d) }.

(** The outputs drive one row. *)
Definition drives (row out : Z) : Prop := Z.testbit out 6 = (row =? 0) /\ Z.testbit out 5 = negb (row =? 0).
Lemma columns_row p row : (row = 0 \/ row = 1) -> drives row (outputs p) -> columns p = Z.land (Z.lnot (side row (held p))) 63.
Proof. intros Hr [H6 H5]. unfold columns. rewrite H6, H5. destruct Hr as [-> | ->]; cbn [Z.eqb negb]; rewrite ?Z.lor_0_l, ?Z.lor_0_r; reflexivity. Qed.
(** What the driver sends drives the row it means. *)
Lemma sent_row led n : Z.land led 31 = led -> n = 5 \/ n = 6 -> drives (6 - n) (u8 (Z.lor led (Z.shiftl 1 n))).
Proof.
  intros Hl Hn. assert (Hb : forall i, 5 <= i < 8 -> Z.testbit (u8 (Z.lor led (Z.shiftl 1 n))) i = (n =? i)).
  { intros i Hi. unfold u8. change 256 with (2 ^ 8). rewrite Z.mod_pow2_bits_low, Z.lor_spec, Z.shiftl_1_l, Z.pow2_bits_eqb by lia.
    rewrite <- Hl, Z.land_spec. change 31 with (Z.ones 5). rewrite testbit_const by lia. rewrite (proj2 (Z.ltb_ge i 5)) by lia. rewrite andb_false_r. reflexivity. }
  unfold drives. rewrite !Hb by lia. destruct Hn as [-> | ->]; split; reflexivity.
Qed.

(** ** The boards keep the scan's promise *)
Section BoardScan.
Context {D : Type} `{HW : CuiHw D}.
(** The rows a driver of each kind selects. *)
Lemma row_of_Series2 s : current_button_row_ s = 0 \/ current_button_row_ s = 1 -> kind s = Series2 ->
  exists n, GetButtonRowMask s = Z.shiftl 1 n /\ (n = 5 \/ n = 6) /\ 6 - n = Z.lxor (current_button_row_ s) 1.
Proof. intros Hr Hk. unfold GetButtonRowMask, GetButtonRowMask2. rewrite Hk. destruct Hr as [-> | ->]; [exists 5|exists 6]; auto. Qed.
Lemma row_of_Series2V02 s : current_button_row_ s = 0 \/ current_button_row_ s = 1 -> kind s = Series2V02 ->
  exists n, GetButtonRowMask s = Z.shiftl 1 n /\ (n = 5 \/ n = 6) /\ 6 - n = current_button_row_ s.
Proof. intros Hr Hk. unfold GetButtonRowMask, GetButtonRowMask2V02. rewrite Hk. destruct Hr as [-> | ->]; [exists 6|exists 5]; auto. Qed.
Lemma process_series2 rx s : is_series2 (kind s) -> ProcessButtonCol rx s = ProcessButtonCol2 rx s.
Proof. unfold ProcessButtonCol, GetType. intros [-> | ->]; reflexivity. Qed.

Ltac regs := repeat first
  [ rewrite panel_write | rewrite panel_send | rewrite (proj1 (panel_exchange _ _)) | rewrite (proj1 (panel_quiet _ 0)) | rewrite (proj1 (proj2 (panel_quiet _ 0)))
  | rewrite (proj1 (proj2 (proj2 (panel_quiet _ 0)))) | rewrite (proj2 (proj2 (proj2 (panel_quiet _ _)))) ].

(** Boards whose one exchange sends a row and reads the row sent before it: the cycle's effect on the registers. *)
Definition exchanged (tx : Z) (p p' : registers) : Prop := outputs p' = tx /\ strobe_open p' = false /\ held p' = held p.
Lemma cycle_v04 `{P2 : !Panel2 D s2_latch s2_load} tx d : strobe_open (panel_of d) = false ->
  let '(rx, d') := Series2LatchLoad tx d in exchanged tx (panel_of d) (panel_of d') /\ Z.land rx 63 = columns (panel_of d).
Proof.
  intros Hs. unfold Series2LatchLoad. set (d1 := palWriteLine s2_load true _).
  pose proof (panel_exchange tx d1) as [E1 E2]. destruct (spiExchange tx d1) as [rx d2]. cbn [fst snd] in E1, E2. cbn.
  assert (R : panel_of d1 = (panel_of d) <| loaded := columns (panel_of d) |>) by (unfold d1; regs; reflexivity).
  split; [|rewrite E2, R; reflexivity]. unfold exchanged. regs. rewrite E1, R. unfold line_effect, clock. cbn. rewrite ?Hs. auto.
Qed.
Lemma cycle_v01 `{P2 : !Panel2 D latch_load latch_load} tx d : strobe_open (panel_of d) = false ->
  let d1 := palWriteLine btn_cs false (palWriteLine latch_load true (spiStart (spiAcquireBus d))) in
  let '(rx, d2) := spiExchange tx d1 in
  let d' := spiReleaseBus (palWriteLine latch_load false (palWriteLine btn_cs true d2)) in
  exchanged tx (panel_of d) (panel_of d') /\ Z.land rx 63 = columns (panel_of d).
Proof.
  intros Hs d1. pose proof (panel_exchange tx d1) as [E1 E2]. destruct (spiExchange tx d1) as [rx d2]. cbn [fst snd] in E1, E2. cbn zeta.
  assert (R : panel_of d1 = (panel_of d) <| loaded := columns (panel_of d) |> <| strobe_open := true |> <| outputs := shift (panel_of d) |>)
    by (unfold d1; regs; reflexivity).
  split; [|rewrite E2, R; reflexivity]. unfold exchanged. regs. rewrite E1, R. unfold line_effect, clock. cbn. auto.
Qed.
(** Their promise, from the cycle. *)
Lemma exchange_promise s d d' led rx : current_button_row_ s = 0 \/ current_button_row_ s = 1 -> kind s = Series2 -> Z.land led 31 = led ->
  exchanged (u8 (Z.lor led (GetButtonRowMask s))) d d' -> Z.land rx 63 = columns d ->
  strobe_open d' = false /\ held d' = held d /\ drives (Z.lxor (current_button_row_ s) 1) (outputs d') /\
  (drives (current_button_row_ s) (outputs d) -> Z.land rx 63 = Z.land (Z.lnot (side (current_button_row_ s) (held d))) 63).
Proof.
  intros Hr Hk Hl (Ho & Hs & Hh) Hrx. destruct (row_of_Series2 s Hr Hk) as (n & En & Hn & En'). rewrite En in Ho.
  split; [exact Hs|]. split; [exact Hh|]. split; [rewrite Ho, <- En'; apply sent_row; assumption|].
  intros Hd. rewrite Hrx. apply columns_row; assumption.
Qed.

Definition scan_v01 `{P2 : !Panel2 D latch_load latch_load} : @ScanBoard D cabo_v01 leds_v01.
Proof.
  refine (@Build_ScanBoard D cabo_v01 leds_v01 Series2 _ (or_introl eq_refl) (fun d => held (panel_of d)) (fun d => strobe_open (panel_of d) = false)
    (fun r d => drives r (outputs (panel_of d))) _); [apply (bool_decide_unpack _); vm_compute; exact I|].
  intros b d s Hs Hk Ha Hr Hl. change (@LatchLoad D cabo_v01 b d) with (v01_LatchLoad b d). unfold v01_LatchLoad. rewrite Hs. cbn zeta.
  pose proof (cycle_v01 (u8 (Z.lor (current_led_mask_ b) (GetButtonRowMask s))) d Ha) as C. cbn zeta in C.
  destruct (spiExchange _ _) as [rx d2]. destruct C as [C1 C2]. exists rx. rewrite process_series2 by (rewrite Hk; left; reflexivity).
  destruct (ProcessButtonCol2 rx s) as [s' raw]. eexists. split; [reflexivity|]. exact (exchange_promise s _ _ _ rx Hr Hk Hl C1 C2).
Defined.
(** v0.3 and later share the cycle; the driver's own state is beside it. *)
Lemma exchange_scan `{P2 : !Panel2 D s2_latch s2_load} b s d : kind s = Series2 -> strobe_open (panel_of d) = false ->
  current_button_row_ s = 0 \/ current_button_row_ s = 1 -> Z.land (current_led_mask_ b) 31 = current_led_mask_ b ->
  exists rx d', exchange_panel s b d = (let '(s', raw) := ProcessButtonCol2 rx s in (DebounceRawButtons raw (b <| series_ := Some s' |>), d')) /\
    strobe_open (panel_of d') = false /\ held (panel_of d') = held (panel_of d) /\ drives (Z.lxor (current_button_row_ s) 1) (outputs (panel_of d')) /\
    (drives (current_button_row_ s) (outputs (panel_of d)) -> Z.land rx 63 = Z.land (Z.lnot (side (current_button_row_ s) (held (panel_of d)))) 63).
Proof.
  intros Hk Ha Hr Hl. unfold exchange_panel. pose proof (cycle_v04 (u8 (Z.lor (current_led_mask_ b) (GetButtonRowMask s))) d Ha) as C.
  destruct (Series2LatchLoad _ d) as [rx d2]. destruct C as [C1 C2]. exists rx, d2. rewrite process_series2 by (rewrite Hk; left; reflexivity).
  destruct (ProcessButtonCol2 rx s) as [s' raw]. split; [reflexivity|]. exact (exchange_promise s _ _ _ rx Hr Hk Hl C1 C2).
Qed.
Definition scan_v03 `{P2 : !Panel2 D s2_latch s2_load} (address : chip -> Z) : @ScanBoard v03 (cabo_v03 address) (leds_v03 address).
Proof.
  refine (@Build_ScanBoard v03 (cabo_v03 address) (leds_v03 address) Series2 _ (or_introl eq_refl) (fun x => held (panel_of (v03_hw x)))
    (fun x => strobe_open (panel_of (v03_hw x)) = false) (fun r x => drives r (outputs (panel_of (v03_hw x)))) _); [apply (bool_decide_unpack _); vm_compute; exact I|].
  intros b x s Hs Hk Ha Hr Hl. change (@LatchLoad v03 (cabo_v03 address) b x) with (v03_LatchLoad address b x). unfold v03_LatchLoad. rewrite Hs. unfold GetType. rewrite Hk.
  destruct (exchange_scan b s (v03_hw x) Hk Ha Hr Hl) as (rx & d' & -> & Hp). destruct (ProcessButtonCol2 rx s) as [s' raw] eqn:Ep.
  exists rx. rewrite Ep. eexists. split; [reflexivity|exact Hp].
Defined.
Definition scan_v04 `{P2 : !Panel2 D s2_latch s2_load} (address : chip -> Z) : @ScanBoard v04 (cabo_v04 address) (leds_v04 address).
Proof.
  refine (@Build_ScanBoard v04 (cabo_v04 address) (leds_v04 address) Series2 _ (or_introl eq_refl) (fun x => held (panel_of (v04_hw x)))
    (fun x => strobe_open (panel_of (v04_hw x)) = false) (fun r x => drives r (outputs (panel_of (v04_hw x)))) _); [apply (bool_decide_unpack _); vm_compute; exact I|].
  intros b x s Hs Hk Ha Hr Hl. change (@LatchLoad v04 (cabo_v04 address) b x) with (v04_LatchLoad address b x). unfold v04_LatchLoad. rewrite Hs. unfold GetType. rewrite Hk.
  destruct (exchange_scan b s (v04_hw x) Hk Ha Hr Hl) as (rx & d' & -> & Hp). destruct (ProcessButtonCol2 rx s) as [s' raw] eqn:Ep.
  exists rx. rewrite Ep. eexists. split; [reflexivity|exact Hp].
Defined.
Definition scan_v05 `{P2 : !Panel2 D s2_latch s2_load} (address : chip -> Z) : @ScanBoard v04 (cabo_v05 address) (leds_v05 address).
Proof.
  refine (@Build_ScanBoard v04 (cabo_v05 address) (leds_v05 address) Series2 _ (or_introl eq_refl) (fun x => held (panel_of (v04_hw x)))
    (fun x => strobe_open (panel_of (v04_hw x)) = false) (fun r x => drives r (outputs (panel_of (v04_hw x)))) _); [apply (bool_decide_unpack _); vm_compute; exact I|].
  exact (@scan_step v04 (cabo_v04 address) (leds_v04 address) (scan_v04 address)).
Defined.

(** Hardware v0.2 latches the row first and then reads it, in a chain of three bytes. *)
Definition three (x : v02 (D := D)) : Prop := sr_load_size_ x = 3%nat /\ length (sr_load_buf_ x) = 3%nat.
Lemma latch_v02 `{P2 : !Panel2 D s2_latch s2_load} tx d : strobe_open (panel_of d) = false -> exchanged tx (panel_of d) (panel_of (Series2LatchSR tx d)).
Proof. intros Hs. unfold Series2LatchSR, exchanged. regs. unfold line_effect, clock. cbn. auto. Qed.
Lemma load_v02 `{P2 : !Panel2 D s2_latch s2_load} x : three x -> strobe_open (panel_of (v02_hw x)) = false ->
  exists x' col, LatchLoadSR x = Some x' /\ three x' /\ sr_load_buf_ x' !! 2%nat = Some col /\
    Z.land col 63 = columns (panel_of (v02_hw x)) /\
    outputs (panel_of (v02_hw x')) = outputs (panel_of (v02_hw x)) /\ strobe_open (panel_of (v02_hw x')) = false /\
    held (panel_of (v02_hw x')) = held (panel_of (v02_hw x)).
Proof.
  intros [Hsize Hbuf] Hs. unfold LatchLoadSR. rewrite Hsize. cbn [Nat.eqb when]. cbn zeta. set (d1 := chThdSleepMicroseconds 1 (palWriteLine s2_load true _)).
  assert (R : outputs (panel_of d1) = outputs (panel_of (v02_hw x)) /\ strobe_open (panel_of d1) = false /\ held (panel_of d1) = held (panel_of (v02_hw x)) /\
    loaded (panel_of d1) = columns (panel_of (v02_hw x))).
  { unfold d1. regs. revert Hs. destruct (panel_of (v02_hw x)) as [sh ou so lo he]. cbn [strobe_open]. intros ->. repeat split. }
  destruct R as (R1 & R2 & R3 & R4). destruct (panel_receive d1) as (tx & b0 & b1 & b2 & E1 & E2 & E3). destruct (spiReceive 3 d1) as [rx d2]. cbn [fst snd] in E1, E2. subst rx.
  destruct (sr_load_buf_ x) as [|c0 [|c1 [|c2 [|c3 l]]]] eqn:Eb; try discriminate Hbuf.
  change (memcpy [c0; c1; c2] 0 [b0; b1; b2]) with (Some [b0; b1; b2]). cbn. eexists _, b2. split; [reflexivity|]. cbn.
  split; [split; [exact Hsize|reflexivity]|]. split; [reflexivity|]. split; [rewrite E3; exact R4|]. regs. rewrite E1. rewrite <- R1, <- R3. revert R2. destruct (panel_of d1) as [sh ou so lo he]. cbn [strobe_open]. intros ->. repeat split.
Qed.
Definition scan_v02 `{P2 : !Panel2 D s2_latch s2_load} : @ScanBoard v02 cabo_v02 leds_v02.
Proof.
  refine (@Build_ScanBoard v02 cabo_v02 leds_v02 Series2V02 _ (or_intror eq_refl) (fun x => held (panel_of (v02_hw x)))
    (fun x => three x /\ strobe_open (panel_of (v02_hw x)) = false) (fun _ _ => True) _); [apply (bool_decide_unpack _); vm_compute; exact I|].
  intros b x s Hs Hk [H3 Ha] Hr Hl. change (@LatchLoad v02 cabo_v02 b x) with (v02_LatchLoad b x). unfold v02_LatchLoad. rewrite Hs. unfold GetType. rewrite Hk. cbn zeta.
  set (tx := u8 (Z.lor (current_led_mask_ b) (GetButtonRowMask s))). destruct (latch_v02 tx (v02_hw x) Ha) as (L1 & L2 & L3).
  assert (Hx : three (x <| v02_hw := Series2LatchSR tx (v02_hw x) |>)) by exact H3.
  destruct (load_v02 _ Hx L2) as (x' & col & -> & H3' & Hcol & Ecol & E1 & E2 & E3). cbn [v02_hw update] in Ecol, E1, E3.
  cbn [mbind option_bind]. rewrite Hcol. cbn [mbind option_bind]. rewrite process_series2 by (rewrite Hk; right; reflexivity). exists col.
  destruct (ProcessButtonCol2 col s) as [s' raw]. exists x'. split; [reflexivity|]. split; [split; [exact H3'|exact E2]|]. split; [congruence|]. split; [exact I|]. intros _.
  rewrite Ecol. destruct (row_of_Series2V02 s Hr Hk) as (n & En & Hn & En'). cbv beta. rewrite <- L3. apply columns_row; [exact Hr|]. rewrite L1. unfold tx. rewrite En, <- En'.
  apply sent_row; assumption.
Defined.
End BoardScan.

(** ** A panel on hardware v0.4, v0.2 and v0.1 *)
Module SaboDemo.
Record sim := mkSim { regs : registers; clock_ : Z }.
Definition on_regs (f : registers -> registers) (d : sim) : sim := mkSim (f (regs d)) (clock_ d).
Definition sim_hw (strobe load : pin) : CuiHw sim := {|
  hw_time := clock_; hw_sleep ms d := mkSim (regs d) (u32 (clock_ d + 10 * ms)); chThdSleepMicroseconds _ d := d;
  palSetLineMode _ _ d := d; palWriteLine q v := on_regs (line_effect strobe load q v); palReadLine q _ := bool_decide (q = s1_con);
  spiAcquireBus d := d; spiStart d := d; spiReleaseBus d := d; spiSend tx := on_regs (clock tx);
  spiReceive n d := (repeat 255 (n - 1) ++ [loaded (regs d)], on_regs (clock 0) d);
  spiExchange tx d := (Z.land (loaded (regs d)) 63, on_regs (clock tx) d);
  i2c _ _ _ n d := (MSG_OK, repeat 255 n, d) |}.
Definition cut (p : registers) : registers := p <| loaded := Z.land (loaded p) 63 |>.
Lemma cut_effect strobe load q v p : cut (line_effect strobe load q v p) = line_effect strobe load q v (cut p).
Proof.
  unfold line_effect. destruct (bool_decide (q = load) && v)%bool, (bool_decide (q = strobe)), v; try reflexivity;
    unfold cut, columns; cbn; rewrite <- Z.land_assoc; reflexivity.
Qed.
Definition sim_panel (strobe load : pin) : @Panel2 sim (sim_hw strobe load) strobe load.
Proof.
  refine (@Build_Panel2 sim (sim_hw strobe load) strobe load (fun d => cut (regs d)) _ _ _ _ _); intros; cbn.
  - apply cut_effect.
  - auto.
  - reflexivity.
  - split; [reflexivity|]. rewrite <- Z.land_assoc. reflexivity.
  - exists 0, 255, 255, (loaded (regs d)). repeat split.
Defined.
(** MENU and S2_HOME are held on a panel that was off. *)
Definition powered : sim := mkSim (mkPanel 0 0 false 63 (2 ^ 8 + 2 ^ 12)) 30000.
#[local] Existing Instance demo_reasons.
#[local] Instance statuses : HighLevelStatuses := {| IDLE := 1; AUTONOMOUS := 2; RECORDING := 3; SUBSTATE_1 := 0; SUBSTATE_2 := 1; SUBSTATE_3 := 2; SUBSTATE_SHIFT := 6; SUBSTATE_MASK := 3 |}.
Definition quiet_view : cui_view := mkCuiView 0 (f_of_Z 0) (f_of_Z 25) (f_of_Z 0) 0 "IDLE".
Definition started (x : v04 (D := sim)) : controller v04 := (new_controller true true x) <| thread_ := true |>.
#[local] Instance hw4 : CuiHw sim := sim_hw s2_latch s2_load.
#[local] Instance cabo4 : Cabo v04 := cabo_v04 (fun _ => 32).
Definition sleep4 (t : Z) (x : v04 (D := sim)) : v04 := x <| v04_hw ::= fun d => mkSim (regs d) t |>.
Definition no_display (_ : cui_out) (x : v04 (D := sim)) : v04 := x.
Abbreviation iterate4 := (loop no_display sleep4).
Definition awake : controller v04 :=
  Eval vm_compute in match iterate4 [quiet_view] (started (mkV04 new_TCA 0 powered)) with Some (c, _) => c | None => started (mkV04 new_TCA 0 powered) end.
Example panel_found_at_power_up : iterate4 [quiet_view] (started (mkV04 new_TCA 0 powered)) =
  Some (awake, [DisplayTick; WakeUp; OnButtonPress MENU; OnButtonPress S2_HOME]).
Proof. vm_compute. reflexivity. Qed.
Definition awake_base : base := Eval vm_compute in match cabo_ awake with Some b => b | None => new_base end.
Definition awake_series : series := Eval vm_compute in match series_ awake_base with Some s => s | None => new_series Series2 end.
(** The two are released, and UP and S2_AUTO held instead. *)
Definition regrip (c : controller (v04 (D := sim))) : controller v04 :=
  c <| board ::= fun x => x <| v04_hw ::= on_regs (fun r => r <| held := 2 ^ 0 + 2 ^ 10 |>) |> |>.
Lemma held_buttons_witness : running (regrip awake) /\ length (repeat quiet_view 9) = 9%nat /\
  exists c' o, iterate4 (repeat quiet_view 9) (regrip awake) = Some (c', o) /\ GetButtonsMask c' = 2 ^ 0 + 2 ^ 10.
Proof.
  split; [split; reflexivity|]. split; [reflexivity|].
  pose (P := sim_panel s2_latch s2_load). pose (SB := @scan_v04 sim hw4 P (fun _ => 32)).
  destruct (@held_buttons_are_reported v04 cabo4 (leds_v04 (fun _ => 32)) SB statuses demo_reasons no_display sleep4
    (fun _ x Hx => conj Hx (conj eq_refl (fun r Hr => Hr))) (fun _ x Hx => conj Hx (conj eq_refl (fun r Hr => Hr)))
    (repeat quiet_view 9) (regrip awake) awake_base awake_series) as (c' & o & E & Hm & _);
    [split; reflexivity|reflexivity| |reflexivity|cbn; lia|exists c', o; split; [exact E|exact Hm]].
  repeat split; [right; reflexivity|discriminate|discriminate|discriminate|repeat constructor].
Defined.
(** A button that is held for a second and then let go is heard once. *)
Lemma presses_witness : exists c' o, iterate4 (repeat quiet_view 100) (regrip awake) = Some (c', o) /\ heard UP o = 1 /\
  rising false (map (base_IsButtonPressed UP) (samples no_display sleep4 (repeat quiet_view 100) (regrip awake))) = 1.
Proof.
  destruct (iterate4 (repeat quiet_view 100) (regrip awake)) as [[c' o]|] eqn:E; [|vm_compute in E; discriminate E].
  exists c', o. split; [reflexivity|].
  assert (Hr : rising false (map (base_IsButtonPressed UP) (samples no_display sleep4 (repeat quiet_view 100) (regrip awake))) = 1) by (vm_compute; reflexivity).
  split; [|exact Hr]. rewrite <- Hr.
  refine (@presses_are_handled_once v04 cabo4 statuses demo_reasons no_display sleep4 (repeat quiet_view 100) (regrip awake) c' o 0%nat UP false E _ _ _);
    [split; reflexivity|reflexivity|reflexivity].
Defined.
(** Docked and charging, mowing just ended: green and the function LEDs of the panel. *)
Definition charging_view : cui_view := mkCuiView 0 (f_of_Z 28) (f_of_Z 25) (f_of_Z 1) (2 + 64) "DOCKING".
Lemma sabo_leds_witness : let b' := ProcessLedStates 90000 (UpdateStates charging_view awake_base) in
  map (lit Series2 b') LEDS = [true; false; true; true; false] /\ slow_blink_state b' = true.
Proof.
  destruct (@leds_show_the_state v04 cabo4 (leds_v04 (fun _ => 32)) statuses demo_reasons Series2 charging_view awake_base 90000) as (Hl & Hs & _).
  - exists awake_series. split; [reflexivity|]. split; [reflexivity|]. apply (bool_decide_unpack _). vm_compute. exact I.
  - repeat constructor.
  - reflexivity.
  - cbn zeta. split; [|rewrite Hs; vm_compute; reflexivity]. cbn [map LEDS]. rewrite !Hl, Hs. vm_compute. reflexivity.
Defined.

(** Without an LCD, as on hardware v0.1, the first press calls the display through a null pointer. *)
Example press_without_display : loop no_display sleep4 [quiet_view] (awake <| display_ := false |> <| button_states_ := repeat false 12 |>) = None.
Proof. vm_compute. reflexivity. Qed.
(** The high-level timeout is an emergency like any other to the LEDs: its own branch is never reached. *)
Example timeout_blinks_fast b : let v := mkCuiView TIMEOUT_HIGH_LEVEL f0 f0 f0 0 "" in
  UpdatePlayLeds v b = SetLed PLAY_GN OFF (SetLed PLAY_RD BLINK_FAST b).
Proof. reflexivity. Qed.
(** Series I on hardware v0.3: showing the LEDs turns every pin above them into an output and drives it high,
    the panel's connected signal among them, which [v03_Init] had made an input. *)
Definition v03_started : v03 (D := sim) :=
  Eval vm_compute in (@v03_Init sim hw4 (fun _ => 32) (mkV03 new_TCA new_TCA 0 powered)).2.
Example connected_line_is_driven : Z.testbit (config_state_ (gpio_exp_leds_ v03_started)) 5 = true /\
  exists b x, @v03_LatchLoad sim hw4 (fun _ => 32) (new_base <| series_ := Some (new_series Series1V03) |>) v03_started = Some (b, x) /\
    Z.testbit (config_state_ (gpio_exp_leds_ x)) 5 = false /\ Z.testbit (output_state_ (gpio_exp_leds_ x)) 5 = true.
Proof. split; [reflexivity|]. eexists _, _. split; [vm_compute; reflexivity|]. split; reflexivity. Qed.
(** A failed read of the expander leaves the buttons to whatever the variable held. *)
Example unread_port_is_undefined b : port_buttons None b = None.
Proof. reflexivity. Qed.
End SaboDemo.
