(* ===== verification/Uc1698.v ===== *)
(** The UC1698 LCD of the Sabo cover UI ([sabo_cover_ui_display_driver_uc1698.cpp]): its commands, the conversion
    of LVGL's pictures, and the transfer's state machine between LVGL's thread, the driver's thread and the SPI
    interrupt.

    A dot of the LCD is a nibble; three neighbouring dots are a pixel of the controller. [None] is an access
    outside an array. *)
From S2P Require Import Prelude.

(** ** Areas *)
Record lv_area := mkArea { x1 : Z; y1 : Z; x2 : Z; y2 : Z }.
#[export] Instance eta_area : Eta lv_area := fun a => mkArea (x1 a) (y1 a) (x2 a) (y2 a).
(* @ sabo_common.hpp:298-300 LCD_WIDTH *)
Definition LCD_WIDTH : Z := 240.
(* @ sabo_common.hpp:298-300 LCD_HEIGHT *)
Definition LCD_HEIGHT : Z := 160.
(* @ sabo_common.hpp:298-300 BUFFER_FRACTION *)
Definition BUFFER_FRACTION : Z := 10.
(* @ sabo_cover_ui_display_driver_uc1698.hpp:88-88 buffer_size_ *)
Definition buffer_size_ : Z := LCD_WIDTH * LCD_HEIGHT / BUFFER_FRACTION / 2.
Definition width (a : lv_area) : Z := x2 a - x1 a + 1.
Definition height (a : lv_area) : Z := y2 a - y1 a + 1.
Definition on_screen (a : lv_area) : Prop := 0 <= x1 a <= x2 a /\ x2 a < LCD_WIDTH /\ 0 <= y1 a <= y2 a /\ y2 a < LCD_HEIGHT.
(* @ sabo_cover_ui_display_driver_uc1698.cpp SaboCoverUIDisplayDriverUC1698::LVGLRounderCB *)
Definition LVGLRounderCB (area : lv_area) : lv_area :=
  let area := area <| x1 := Z.quot (x1 area) 24 * 24 |> in
  let area := area <| x2 := Z.quot (x2 area + 1 + 23) 24 * 24 - 1 |> in
  let rest := Z.rem (width area * height area) 6 in
  if negb (rest =? 0) then area <| y2 := y2 area + Z.quot (6 - rest + width area - 1) (width area) |> else area.
(** Columns in steps of 24. *)
Definition aligned (a : lv_area) : Prop := (24 | x1 a) /\ (24 | x2 a + 1).

(** Rounding takes an area on the screen to the smallest aligned one around it, still on the screen. *)
Lemma rounder_aligns a : on_screen a -> let a' := LVGLRounderCB a in
  aligned a' /\ on_screen a' /\ y1 a' = y1 a /\ y2 a' = y2 a /\ x1 a' <= x1 a < x1 a' + 24 /\ x2 a' - 24 < x2 a <= x2 a'.
Proof.
  intros (Hx & Hw & Hy & Hh). unfold LCD_WIDTH, LCD_HEIGHT in *. unfold LVGLRounderCB. cbn zeta.
  set (a1 := (a <| x1 := _ |>) <| x2 := _ |>).
  assert (X1 : x1 a1 = 24 * (x1 a / 24)) by (cbn; rewrite Z.quot_div_nonneg by lia; lia).
  assert (X2 : x2 a1 = 24 * ((x2 a + 24) / 24) - 1) by (cbn; rewrite Z.quot_div_nonneg by lia; replace (x2 a + 1 + 23) with (x2 a + 24) by lia; lia).
  assert (E : Z.rem (width a1 * height a1) 6 = 0).
  { unfold width. rewrite X1, X2. replace (_ * height a1) with (4 * ((x2 a + 24) / 24 - x1 a / 24) * height a1 * 6) by lia. apply Z.rem_mul. lia. }
  rewrite E. cbn [Z.eqb negb]. split; [|split; [|split; [reflexivity|split; [reflexivity|]]]].
  - unfold aligned. rewrite X1, X2. split; [exists (x1 a / 24)|exists ((x2 a + 24) / 24)]; lia.
  - unfold on_screen, LCD_WIDTH, LCD_HEIGHT. rewrite X1, X2. change (y1 a1) with (y1 a). change (y2 a1) with (y2 a). Z.to_euclidean_division_equations. lia.
  - rewrite X1, X2. Z.to_euclidean_division_equations. lia.
Qed.

(** ** The picture's conversion *)
(** Two dots a byte: an LVGL bit that is set is white, a dot that is off. *)
(* @ sabo_cover_ui_display_driver_uc1698.cpp:191-197 SaboCoverUIDisplayDriverUC1698::LVGLFlushCB *)
Definition two_dots (p1 p2 : bool) : Z := Z.lor (if p1 then 0 else 0xF0) (if p2 then 0 else 0x0F).
(** A block of 24 pixels, from three bytes. *)
(* @ sabo_cover_ui_display_driver_uc1698.cpp:185-198 SaboCoverUIDisplayDriverUC1698::LVGLFlushCB *)
Definition block (s0 s1 s2 : Z) : list Z :=
  let pix24 := Z.lor (Z.lor (Z.shiftl s0 16) (Z.shiftl s1 8)) s2 in
  map (fun i => two_dots (Z.testbit pix24 i) (Z.testbit pix24 (i - 1))) [23; 21; 19; 17; 15; 13; 11; 9; 7; 5; 3; 1].
(* @ sabo_cover_ui_display_driver_uc1698.cpp:182-199 SaboCoverUIDisplayDriverUC1698::LVGLFlushCB *)
Fixpoint convert (blocks : nat) (src : list Z) : option (list Z) :=
  match blocks with
  | O => Some []
  | Datatypes.S n =>
    match src with
    | s0 :: s1 :: s2 :: src => rest ← convert n src; Some (block s0 s1 s2 ++ rest)
    | _ => None
    end
  end.
(** What [LVGLFlushCB] leaves in [pending_flush_.buffer]; [None] also when it does not fit. *)
(* @ sabo_cover_ui_display_driver_uc1698.cpp SaboCoverUIDisplayDriverUC1698::LVGLFlushCB *)
Definition LVGLFlushCB (area : lv_area) (px_map : list Z) : option (list Z) :=
  let blocks := Z.quot (width area * height area) 24 in
  buf ← convert (Z.to_nat blocks) (drop 8 px_map);
  if Z.of_nat (length buf) <=? buffer_size_ then Some buf else None.

(** ** Commands *)
(* @ sabo_cover_ui_display_driver_uc1698.cpp SaboCoverUIDisplayDriverUC1698::SetWindowProgramAreaRaw *)
Definition SetWindowProgramAreaRaw (t_x1 t_x2 t_y1 t_y2 : Z) (t_outside_mode : bool) : list Z :=
  [ u8 (Z.lor 0x10 (Z.land (Z.shiftr (Z.quot t_x1 3) 4) 7)); u8 (Z.land (Z.quot t_x1 3) 15);
    u8 (Z.lor 0x70 (Z.shiftr t_y1 4)); u8 (Z.lor 0x60 (Z.land t_y1 15));
    0xf5; t_y1; 0xf7; t_y2; 0xf4; u8 (Z.quot t_x1 3); 0xf6; u8 (s8 (Z.quot (t_x2 + 1) 3) - 1);
    u8 (Z.lor 0xf8 (Z.b2z t_outside_mode)) ].
(* @ sabo_cover_ui_display_driver_uc1698.cpp SaboCoverUIDisplayDriverUC1698::SetVBiasPotentiometer *)
Definition SetVBiasPotentiometer (data : Z) : list Z := [0x81; data].
(* @ sabo_cover_ui_display_driver_uc1698.cpp SaboCoverUIDisplayDriverUC1698::SetTemperatureCompensation *)
Definition SetTemperatureCompensation (tc : Z) : list Z := [Z.lor 0x24 tc].
(* @ sabo_cover_ui_display_driver_uc1698.cpp SaboCoverUIDisplayDriverUC1698::SetDisplayEnable *)
Definition SetDisplayEnable (on : bool) : list Z * bool := ([Z.lor 0xA8 (if on then 7 else 6)], on).
(** The start of the controller: the commands and the waits between them, in ms. *)
Inductive lcd_start := Command (l : list Z) | Wait (ms : Z).
(* @ sabo_cover_ui_display_driver_uc1698.cpp SaboCoverUIDisplayDriverUC1698::InitController *)
Definition InitController (contrast temp_compensation : Z) : list lcd_start :=
  [ Command [Z.lor 0x28 1]; Wait 10; Command [Z.lor 0x28 2]; Wait 100; Command (SetTemperatureCompensation temp_compensation);
    Command [Z.lor 0xC0 4]; Command [Z.lor 0xD0 1]; Command [Z.lor 0xD4 1]; Command (SetVBiasPotentiometer contrast);
    Command (SetDisplayEnable true).1 ].
(** The window a command list programs, as the source's comments number the controller's registers: starting and
    ending row, starting and ending column, and the address the data starts at. *)
Definition window (l : list Z) : option (Z * Z * Z * Z) :=
  match l with
  | [a; b; c; d; 0xf5; r1; 0xf7; r2; 0xf4; c1; 0xf6; c2; 0xf8] =>
    if (Z.lor (Z.shiftl (Z.land a 7) 4) (Z.land b 15) =? c1) && (Z.lor (Z.shiftl (Z.land c 15) 4) (Z.land d 15) =? r1) then Some (c1, c2, r1, r2) else None
  | _ => None
  end.
(** The dot at (x, y) after the window has been filled with [data], row by row; [None] where it does not reach. *)
Definition nibble (data : list Z) (k : Z) : option Z :=
  b ← data !! Z.to_nat (k / 2); Some (if k mod 2 =? 0 then Z.shiftr b 4 else Z.land b 15).
Definition dot (commands data : list Z) (x y : Z) : option Z :=
  '(c1, c2, r1, r2) ← window commands;
  if (3 * c1 <=? x) && (x <? 3 * (c2 + 1)) && (r1 <=? y) && (y <=? r2) then nibble data ((y - r1) * (3 * (c2 - c1 + 1)) + (x - 3 * c1)) else None.
(** LVGL's picture of an area: a bit a pixel, the leftmost one highest, after a palette of eight bytes. *)
Definition pixel (px_map : list Z) (k : Z) : option bool := b ← drop 8 px_map !! Z.to_nat (k / 8); Some (Z.testbit b (7 - k mod 8)).

(** *** A block's dots *)
Lemma byte_high x i : is_u8 x -> 8 <= i -> Z.testbit x i = false.
Proof. intros Hx Hi. rewrite <- (u8_small x Hx). unfold u8. change 256 with (2 ^ 8). apply Z.mod_pow2_bits_high. lia. Qed.
Lemma pix24_bits s0 s1 s2 i : is_u8 s0 -> is_u8 s1 -> is_u8 s2 -> 0 <= i ->
  Z.testbit (Z.lor (Z.lor (Z.shiftl s0 16) (Z.shiftl s1 8)) s2) i =
    if i <? 8 then Z.testbit s2 i else if i <? 16 then Z.testbit s1 (i - 8) else Z.testbit s0 (i - 16).
Proof.
  intros H0 H1 H2 Hi. rewrite !Z.lor_spec, !Z.shiftl_spec by lia. destruct (Z.ltb_spec i 8) as [Ha|Ha].
  - rewrite (Z.testbit_neg_r s0), (Z.testbit_neg_r s1) by lia. reflexivity.
  - rewrite (byte_high s2) by (assumption || lia). rewrite orb_false_r. destruct (Z.ltb_spec i 16) as [Hb|Hb].
    + rewrite (Z.testbit_neg_r s0) by lia. reflexivity.
    + rewrite (byte_high s1) by (assumption || lia). apply orb_false_r.
Qed.
Definition dot_of (p : bool) : Z := if p then 0 else 15.
Lemma two_dots_nibbles p1 p2 : Z.shiftr (two_dots p1 p2) 4 = dot_of p1 /\ Z.land (two_dots p1 p2) 15 = dot_of p2.
Proof. destruct p1, p2; split; reflexivity. Qed.
Definition bit_of (src : list Z) (k : Z) : option bool := b ← src !! Z.to_nat (k / 8); Some (Z.testbit b (7 - k mod 8)).
Lemma block_dots s0 s1 s2 k : is_u8 s0 -> is_u8 s1 -> is_u8 s2 -> 0 <= k < 24 ->
  nibble (block s0 s1 s2) k = dot_of <$> bit_of [s0; s1; s2] k.
Proof.
  intros H0 H1 H2 Hk. unfold block. set (p := Z.lor _ s2).
  assert (Hp : forall i, 0 <= i -> Z.testbit p i = if i <? 8 then Z.testbit s2 i else if i <? 16 then Z.testbit s1 (i - 8) else Z.testbit s0 (i - 16))
    by (intros i; apply pix24_bits; assumption). clearbody p.
  assert (Hn : forall j, 0 <= j < 12 -> map (fun i => two_dots (Z.testbit p i) (Z.testbit p (i - 1))) [23; 21; 19; 17; 15; 13; 11; 9; 7; 5; 3; 1] !! Z.to_nat j =
    Some (two_dots (Z.testbit p (23 - 2 * j)) (Z.testbit p (22 - 2 * j)))).
  { intros j Hj. assert (Hc : j = 0 \/ j = 1 \/ j = 2 \/ j = 3 \/ j = 4 \/ j = 5 \/ j = 6 \/ j = 7 \/ j = 8 \/ j = 9 \/ j = 10 \/ j = 11) by lia.
    repeat (destruct Hc as [-> |Hc]); [..|subst j]; reflexivity. }
  unfold nibble. rewrite Hn by (Z.to_euclidean_division_equations; lia). cbn [mbind option_bind].
  destruct (two_dots_nibbles (Z.testbit p (23 - 2 * (k / 2))) (Z.testbit p (22 - 2 * (k / 2)))) as [-> ->].
  assert (E : (if k mod 2 =? 0 then dot_of (Z.testbit p (23 - 2 * (k / 2))) else dot_of (Z.testbit p (22 - 2 * (k / 2)))) = dot_of (Z.testbit p (23 - k))).
  { destruct (Z.eqb_spec (k mod 2) 0); do 2 f_equal; Z.to_euclidean_division_equations; lia. }
  rewrite E, Hp by lia. unfold bit_of.
  assert (Hq : k / 8 = 0 \/ k / 8 = 1 \/ k / 8 = 2) by (Z.to_euclidean_division_equations; lia).
  destruct Hq as [Hq|[Hq|Hq]]; rewrite Hq; [set (b := s0)|set (b := s1)|set (b := s2)];
    match goal with |- ?l = _ => change (l = Some (dot_of (Z.testbit b (7 - k mod 8)))) end; unfold b; clear b; do 2 f_equal.
  - rewrite (proj2 (Z.ltb_ge (23 - k) 8)), (proj2 (Z.ltb_ge (23 - k) 16)) by (Z.to_euclidean_division_equations; lia). f_equal. Z.to_euclidean_division_equations; lia.
  - rewrite (proj2 (Z.ltb_ge (23 - k) 8)), (proj2 (Z.ltb_lt (23 - k) 16)) by (Z.to_euclidean_division_equations; lia). f_equal. Z.to_euclidean_division_equations; lia.
  - rewrite (proj2 (Z.ltb_lt (23 - k) 8)) by (Z.to_euclidean_division_equations; lia). f_equal. Z.to_euclidean_division_equations; lia.
Qed.
Lemma block_length s0 s1 s2 : length (block s0 s1 s2) = 12%nat.
Proof. reflexivity. Qed.
(** *** The conversion's dots *)
Lemma convert_dots n src : is_bytes src -> (3 * n <= length src)%nat -> exists buf, convert n src = Some buf /\ length buf = (12 * n)%nat /\
  forall k, 0 <= k < 24 * Z.of_nat n -> nibble buf k = dot_of <$> bit_of src k.
Proof.
  revert src. induction n as [|n IH]; intros src Hb Hlen; cbn [convert].
  - exists []. split; [reflexivity|]. split; [reflexivity|]. intros k Hk. lia.
  - destruct src as [|s0 [|s1 [|s2 src]]]; cbn [length] in Hlen; try lia.
    unfold is_bytes in Hb. rewrite !Forall_cons in Hb. destruct Hb as (H0 & H1 & H2 & Hb).
    destruct (IH src Hb ltac:(lia)) as (rest & E & Hl & Hd). rewrite E. cbn [mbind option_bind]. eexists. split; [reflexivity|].
    split; [rewrite length_app, Hl, block_length; lia|]. intros k Hk. destruct (Z.lt_ge_cases k 24) as [Hlt|Hge].
    + unfold nibble. rewrite lookup_app_l by (rewrite block_length; Z.to_euclidean_division_equations; lia).
      fold (nibble (block s0 s1 s2) k). rewrite block_dots by (assumption || lia). unfold bit_of.
      assert (Hq : (Z.to_nat (k / 8) < 3)%nat) by (Z.to_euclidean_division_equations; lia).
      destruct (Z.to_nat (k / 8)) as [|[|[|q]]]; [reflexivity..|lia].
    + unfold nibble. rewrite lookup_app_r by (rewrite block_length; Z.to_euclidean_division_equations; lia). rewrite block_length.
      replace (Z.to_nat (k / 2) - 12)%nat with (Z.to_nat ((k - 24) / 2)) by (Z.to_euclidean_division_equations; lia).
      replace (k mod 2) with ((k - 24) mod 2) by (Z.to_euclidean_division_equations; lia).
      fold (nibble rest (k - 24)). rewrite Hd by lia. unfold bit_of.
      replace (Z.to_nat (k / 8)) with (3 + Z.to_nat ((k - 24) / 8))%nat by (Z.to_euclidean_division_equations; lia).
      replace (k mod 8) with ((k - 24) mod 8) by (Z.to_euclidean_division_equations; lia). reflexivity.
Qed.
(** *** The window *)
Lemma range_check (f : Z -> bool) n : forallb f (map Z.of_nat (seq 0 n)) = true -> forall z, 0 <= z < Z.of_nat n -> f z = true.
Proof.
  intros Hf z Hz. rewrite forallb_forall in Hf. apply Hf. apply in_map_iff. exists (Z.to_nat z). split; [lia|]. apply in_seq. lia.
Qed.
Lemma window_programs c1 c2 r1 r2 : 0 <= c1 < 80 -> 0 <= c2 < 80 -> 0 <= r1 < 160 ->
  window (SetWindowProgramAreaRaw (3 * c1) (3 * (c2 + 1) - 1) r1 r2 false) = Some (c1, c2, r1, r2).
Proof.
  intros H1 H2 Hr. unfold SetWindowProgramAreaRaw. replace (3 * (c2 + 1) - 1 + 1) with ((c2 + 1) * 3) by lia. rewrite (Z.mul_comm 3 c1), !Z.quot_mul by lia.
  assert (E2 : u8 (s8 (c2 + 1) - 1) = c2) by (unfold u8, s8; Z.to_euclidean_division_equations; lia).
  pose proof (range_check (fun c => (u8 c =? c) && (Z.lor (Z.shiftl (Z.land (u8 (Z.lor 0x10 (Z.land (Z.shiftr c 4) 7))) 7) 4) (Z.land (u8 (Z.land c 15)) 15) =? c)) 80 ltac:(vm_compute; reflexivity) c1 H1) as C.
  pose proof (range_check (fun r => Z.lor (Z.shiftl (Z.land (u8 (Z.lor 0x70 (Z.shiftr r 4))) 15) 4) (Z.land (u8 (Z.lor 0x60 (Z.land r 15))) 15) =? r) 160 ltac:(vm_compute; reflexivity) r1 Hr) as R.
  cbv beta in C, R. apply andb_prop in C as [C1 C2]. apply Z.eqb_eq in C1. rewrite E2, C1. change (u8 (Z.lor 0xf8 (Z.b2z false))) with 0xf8.
  unfold window. rewrite C2, R. reflexivity.
Qed.

(** C28. What LVGL drew is what the LCD shows: for every aligned area on the screen of at most a tenth of it (what
    LVGL's buffer holds) the conversion of the picture fits the transfer's buffer and never reads past the picture,
    the window programmed is the area, and the dot at every position of the area is on exactly when that pixel of
    the picture is black; no dot outside the area is written. *)
Theorem picture_reaches_the_lcd area px_map : on_screen area -> aligned area -> width area * height area <= LCD_WIDTH * LCD_HEIGHT / BUFFER_FRACTION ->
  is_bytes px_map -> Z.of_nat (length px_map) = 8 + width area * height area / 8 ->
  exists buf, LVGLFlushCB area px_map = Some buf /\ 2 * Z.of_nat (length buf) = width area * height area /\
    forall x y, dot (SetWindowProgramAreaRaw (x1 area) (x2 area) (y1 area) (y2 area) false) buf x y =
      if (x1 area <=? x) && (x <=? x2 area) && (y1 area <=? y) && (y <=? y2 area)
      then dot_of <$> pixel px_map ((y - y1 area) * width area + (x - x1 area)) else None.
Proof.
  intros (Hx & Hw & Hy & Hh) [[a1 A1] [a2 A2]] Hsize Hb Hlen. unfold LCD_WIDTH, LCD_HEIGHT, BUFFER_FRACTION, buffer_size_ in *. change (240 * 160 / 10) with 3840 in Hsize.
  set (n := (a2 - a1) * height area). assert (Htotal : width area * height area = n * 24) by (unfold width, n; nia).
  assert (Hn : 0 <= n) by (unfold n, height; nia). rewrite Htotal in Hsize, Hlen.
  destruct (convert_dots (Z.to_nat n) (drop 8 px_map)) as (buf & E & Hl & Hd).
  { apply Forall_drop, Hb. }
  { rewrite length_drop. replace (n * 24 / 8) with (n * 3) in Hlen by (replace (n * 24) with (n * 3 * 8) by lia; symmetry; apply Z.div_mul; lia). lia. }
  exists buf. unfold LVGLFlushCB. rewrite Htotal, Z.quot_mul, E by lia. cbn [mbind option_bind].
  unfold buffer_size_, LCD_WIDTH, LCD_HEIGHT, BUFFER_FRACTION. change (240 * 160 / 10 / 2) with 1920. rewrite (proj2 (Z.leb_le _ _)) by lia.
  split; [reflexivity|]. split; [lia|]. intros x y. unfold dot.
  replace (x1 area) with (3 * (8 * a1)) at 1 by lia. replace (x2 area) with (3 * (8 * a2 - 1 + 1) - 1) at 1 by lia.
  rewrite window_programs by (unfold height in *; lia). cbn [mbind option_bind].
  replace (3 * (8 * a1)) with (x1 area) by lia. replace (3 * (8 * a2 - 1 - 8 * a1 + 1)) with (width area) by (unfold width; lia).
  replace (x <? 3 * (8 * a2 - 1 + 1)) with (x <=? x2 area) by (apply eq_true_iff_eq; rewrite Z.ltb_lt, Z.leb_le; lia).
  destruct (_ && (y <=? y2 area))%bool eqn:Ein; [|reflexivity]. bsimp. apply Hd. unfold width, height in *. nia.
Qed.

(** ** The transfer *)
(** A picture on its way: the window's commands and the data. *)
Record flush := mkFlush { commands : list Z; data : list Z }.
(* @ sabo_cover_ui_display_driver_uc1698.hpp:54-54 TransferState *)
Inductive TransferState := IDLE | QUEUED | SYNC | FLUSH_AREA.
Inductive owner := Driver | Controller.
(** What goes over the wire: the LCD's commands and data, and whatever the controller sends on the shared bus. *)
Inductive wire := ToLcd (commands : list Z) | Pixels (data : list Z) | Other (bytes : list Z).
(** Where the driver's thread is: waiting for an event, or with the events it took, before the bus is acquired,
    before the picture is sent, and after. *)
Inductive pc := Waiting | Acquiring (done : bool) | Sending (done : bool) | Finishing (done : bool).
(* @ sabo_cover_ui_display_driver_uc1698.hpp:83-108 SaboCoverUIDisplayDriverUC1698 *)
Record lcd := mkLcd {
  transfer_state_ : TransferState; pending_flush_ : flush; buf_ready : bool; tx_done : bool; driver : pc;
  bus : option owner; spi_busy : bool; sent : list wire; flushed : list flush }.
#[export] Instance eta_lcd : Eta lcd := fun s => mkLcd (transfer_state_ s) (pending_flush_ s) (buf_ready s) (tx_done s) (driver s)
  (bus s) (spi_busy s) (sent s) (flushed s).
Definition lcd_init : lcd := mkLcd IDLE (mkFlush [] []) false false Waiting None false [] [].

(** The driver's thread and the interrupt. *)
(* @ sabo_cover_ui_display_driver_uc1698.cpp:283-309 SaboCoverUIDisplayDriverUC1698::ThreadFunc *)
Inductive background : lcd -> lcd -> Prop :=
| driver_wakes s : driver s = Waiting -> buf_ready s || tx_done s = true ->
    background s (s <| driver := if buf_ready s then Acquiring (tx_done s) else Finishing (tx_done s) |> <| buf_ready := false |> <| tx_done := false |>)
| driver_acquires s d : driver s = Acquiring d -> bus s = None ->
    background s (s <| driver := Sending d |> <| bus := Some Driver |> <| transfer_state_ := SYNC |>)
| driver_sends s d : driver s = Sending d ->
    background s (s <| driver := Finishing d |> <| sent := sent s ++ [ToLcd (commands (pending_flush_ s))] |> <| transfer_state_ := FLUSH_AREA |> <| spi_busy := true |>)
| driver_done s : driver s = Finishing true -> background s (s <| driver := Waiting |> <| bus := None |> <| transfer_state_ := IDLE |>)
| driver_loops s : driver s = Finishing false -> background s (s <| driver := Waiting |>)
(* SPIDataCB *)
| spi_done s : spi_busy s = true ->
    background s (s <| spi_busy := false |> <| sent := sent s ++ [Pixels (data (pending_flush_ s))] |>
      <| tx_done := match transfer_state_ s with FLUSH_AREA => true | _ => tx_done s end |>).
(** The controller's thread: LVGL hands over a picture once [LVGLFlushWaitCB] has seen [IDLE]; the panel's driver
    and the LCD's single commands take the bus for a transfer of their own. *)
(* @ sabo_cover_ui_display_driver_uc1698.cpp:200-235 SaboCoverUIDisplayDriverUC1698::LVGLFlushCB *)
Inductive foreground : lcd -> lcd -> Prop :=
(* LVGLFlushCB *)
| lvgl_flushes s f : transfer_state_ s = IDLE -> bus s <> Some Controller ->
    foreground s (s <| transfer_state_ := QUEUED |> <| pending_flush_ := f |> <| buf_ready := true |> <| flushed := flushed s ++ [f] |>)
(* SendCommand and SendCommands *)
| other_acquires s : bus s = None -> foreground s (s <| bus := Some Controller |>)
| other_sends s l : bus s = Some Controller -> foreground s (s <| bus := None |> <| sent := sent s ++ [Other l] |>).
Inductive reachable : lcd -> Prop :=
| reach_init : reachable lcd_init
| reach_background s s' : reachable s -> background s s' -> reachable s'
| reach_foreground s s' : reachable s -> foreground s s' -> reachable s'.

(** *** The specification: whole pictures in the order they were drawn, and other traffic between them *)
Inductive delivery := Picture (f : flush) | Between (l : list Z).
Definition render (d : delivery) : list wire := match d with Picture f => [ToLcd (commands f); Pixels (data f)] | Between l => [Other l] end.
Definition pictures (l : list delivery) : list flush := omap (fun d => match d with Picture f => Some f | Between _ => None end) l.
Definition wire_of (l : list delivery) : list wire := mjoin (map render l).
(** How far the picture under way has come: not begun, its window sent, all of it sent. *)
Inductive progress := NotBegun | WindowSent | AllSent.
Definition tail (p : progress) (f : flush) : list wire := match p with WindowSent => [ToLcd (commands f)] | _ => [] end.

(** Each reachable state is one of these. *)
Inductive situation : TransferState -> bool -> bool -> pc -> option owner -> bool -> progress -> Prop :=
| resting o : o <> Some Driver -> situation IDLE false false Waiting o false AllSent
| queued o : o <> Some Driver -> situation QUEUED true false Waiting o false NotBegun
| acquiring o : o <> Some Driver -> situation QUEUED false false (Acquiring false) o false NotBegun
| sending : situation SYNC false false (Sending false) (Some Driver) false NotBegun
| started : situation FLUSH_AREA false false (Finishing false) (Some Driver) true WindowSent
| waiting : situation FLUSH_AREA false false Waiting (Some Driver) true WindowSent
| interrupted : situation FLUSH_AREA false true (Finishing false) (Some Driver) false AllSent
| signalled : situation FLUSH_AREA false true Waiting (Some Driver) false AllSent
| finishing : situation FLUSH_AREA false false (Finishing true) (Some Driver) false AllSent.
Definition invariant (s : lcd) : Prop := exists p l,
  situation (transfer_state_ s) (buf_ready s) (tx_done s) (driver s) (bus s) (spi_busy s) p /\
  sent s = wire_of l ++ tail p (pending_flush_ s) /\
  flushed s = pictures l ++ match p with AllSent => [] | _ => [pending_flush_ s] end.

Lemma wire_of_app a b : wire_of (a ++ b) = wire_of a ++ wire_of b.
Proof. unfold wire_of. rewrite map_app. apply join_app. Qed.
Lemma pictures_app a b : pictures (a ++ b) = pictures a ++ pictures b.
Proof. apply omap_app. Qed.
(** The cases of a step: the state's fields, its situation, and what that leaves of the step's guards. *)
Ltac situations s Hsit := destruct s as [ts pf br td dr bu sb se fl]; cbn in *; subst; inversion Hsit; subst; cbn in *; try discriminate.
Lemma background_keeps s s' : invariant s -> background s s' -> invariant s'.
Proof.
  intros (p & l & Hsit & Hsent & Hfl) Hstep. destruct Hstep as [s Hd Hev|s d Hd Hb|s d Hd|s Hd|s Hd|s Hb]; situations s Hsit;
    first [eexists _, l; split; [constructor; assumption || discriminate|cbn; rewrite ?app_nil_r in *; subst; auto; fail]
          |exists AllSent, (l ++ [Picture pf]); rewrite wire_of_app, pictures_app; split; [constructor; discriminate|cbn; rewrite ?app_nil_r, <- ?app_assoc; auto]].
Qed.
Lemma foreground_keeps s s' : invariant s -> foreground s s' -> invariant s'.
Proof.
  intros (p & l & Hsit & Hsent & Hfl) Hstep. destruct Hstep as [s f Hi Hb|s Hb|s o Hb]; situations s Hsit;
    first [exists NotBegun, l; split; [constructor; assumption|cbn; rewrite ?app_nil_r; auto; fail]
          |eexists _, l; split; [constructor; discriminate|cbn; auto; fail]
          |eexists _, (l ++ [Between o]); rewrite wire_of_app, pictures_app; split; [constructor; discriminate|cbn; rewrite ?app_nil_r; auto]].
Qed.
Lemma reachable_invariant s : reachable s -> invariant s.
Proof.
  induction 1 as [|s s' _ IH Hst|s s' _ IH Hst]; [|exact (background_keeps _ _ IH Hst)|exact (foreground_keeps _ _ IH Hst)].
  exists AllSent, []. split; [constructor; discriminate|split; reflexivity].
Qed.

(** C27. The transfers implement the specification, whatever the interleaving of LVGL's thread, the driver's thread
    and the SPI interrupt: in every reachable state the wire carries whole deliveries, each picture's window
    directly followed by its data with nothing of the shared bus's other traffic in between, and at most one
    begun one; the pictures delivered are exactly those LVGL handed over, in their order and unchanged, but for
    the one under way; and once [IDLE] is seen all of them have been delivered and the bus is not the driver's. *)
Theorem pictures_are_delivered_in_order s : reachable s -> exists l p,
  sent s = wire_of l ++ tail p (pending_flush_ s) /\
  flushed s = pictures l ++ match p with AllSent => [] | _ => [pending_flush_ s] end /\
  (transfer_state_ s = IDLE -> sent s = wire_of l /\ flushed s = pictures l /\ bus s <> Some Driver).
Proof.
  intros Hr. destruct (reachable_invariant s Hr) as (p & l & Hsit & Hsent & Hfl). exists l, p. split; [exact Hsent|]. split; [exact Hfl|].
  intros Hi. revert Hsit. rewrite Hi. intros Hsit. inversion Hsit; subst. rewrite app_nil_r in Hfl. rewrite Hsent. cbn. rewrite app_nil_r. auto.
Qed.

(** *** The wait for [IDLE] ends *)
(** Every schedule of the background reaches [P] and none is stuck before. *)
Inductive eventually (P : lcd -> Prop) (s : lcd) : Prop :=
| now_ : P s -> eventually P s
| later : (exists s', background s s') -> (forall s', background s s' -> eventually P s') -> eventually P s.
(** What is left to do for the picture under way. *)
Definition left_to_do (s : lcd) : nat :=
  match transfer_state_ s, driver s with
  | IDLE, _ => 0
  | FLUSH_AREA, Finishing true => 1
  | FLUSH_AREA, Waiting => if spi_busy s then 3 else 2
  | FLUSH_AREA, _ => if spi_busy s then 4 else 3
  | SYNC, _ => 5
  | QUEUED, Acquiring _ => 6
  | QUEUED, _ => 7
  end%nat.
Lemma background_progress s : invariant s -> transfer_state_ s <> IDLE -> bus s <> Some Controller ->
  (exists s', background s s') /\ forall s', background s s' -> (left_to_do s' < left_to_do s)%nat /\ bus s' <> Some Controller.
Proof.
  intros (p & l & Hsit & _) Hni Hb. split.
  - destruct s as [ts pf br td dr bu sb se fl]. cbn in *. inversion Hsit; subst; [contradiction Hni; reflexivity|..].
    + eexists. apply driver_wakes; reflexivity.
    + eexists. eapply driver_acquires; [reflexivity|]. cbn. destruct bu as [[|]|]; congruence.
    + eexists. eapply driver_sends. reflexivity.
    + eexists. apply driver_loops. reflexivity.
    + eexists. apply spi_done. reflexivity.
    + eexists. apply driver_loops. reflexivity.
    + eexists. apply driver_wakes; reflexivity.
    + eexists. apply driver_done. reflexivity.
  - intros s' Hstep. destruct Hstep as [s Hd Hev|s d Hd Hbus|s d Hd|s Hd|s Hd|s Hbusy]; situations s Hsit; try (contradiction Hni; reflexivity);
      unfold left_to_do; cbn; (split; [lia|congruence]).
Qed.

(** LVGL's wait ends: from every reachable state in which the controller's thread is waiting for a picture,
    so that it does not itself hold the bus, every schedule of the driver's thread and the interrupt goes on to
    [IDLE], without anything else having to happen and without being stuck on the way. *)
Theorem flush_wait_ends s : reachable s -> bus s <> Some Controller -> eventually (fun s' => transfer_state_ s' = IDLE) s.
Proof.
  intros Hr. apply reachable_invariant in Hr. remember (left_to_do s) as n eqn:En. revert s En Hr.
  induction (lt_wf n) as [n _ IH]. intros s -> Hinv Hb.
  assert (Hdec : transfer_state_ s = IDLE \/ transfer_state_ s <> IDLE) by (destruct (transfer_state_ s); [left; reflexivity|right; discriminate..]).
  destruct Hdec as [Hi|Hi]; [apply now_, Hi|]. destruct (background_progress s Hinv Hi Hb) as [Hex Hall].
  apply later; [exact Hex|]. intros s' Hs'. destruct (Hall s' Hs') as [Hlt Hb']. exact (IH _ Hlt s' eq_refl (background_keeps _ _ Hinv Hs') Hb').
Qed.

Module LcdDemo.
(** A cursor drawn at (30, 7): the area LVGL invalidates, what the rounder makes of it, and its picture. *)
Definition cursor : lv_area := mkArea 30 7 33 8.
Definition picture : list Z := repeat 0 8 ++ [255; 15; 255; 0; 255; 255].
Lemma picture_witness : let a := LVGLRounderCB cursor in
  exists buf, LVGLFlushCB a picture = Some buf /\ 2 * Z.of_nat (length buf) = 48 /\
    dot (SetWindowProgramAreaRaw (x1 a) (x2 a) (y1 a) (y2 a) false) buf 32 7 = Some 15 /\
    dot (SetWindowProgramAreaRaw (x1 a) (x2 a) (y1 a) (y2 a) false) buf 48 7 = None.
Proof.
  destruct (picture_reaches_the_lcd (LVGLRounderCB cursor) picture) as (buf & E & Hl & Hd).
  - repeat split; discriminate.
  - split; [exists 1|exists 2]; reflexivity.
  - discriminate.
  - repeat constructor; discriminate.
  - reflexivity.
  - exists buf. split; [exact E|]. split; [exact Hl|]. rewrite !Hd. split; reflexivity.
Defined.
(** A picture while the panel's driver holds the bus: it waits, and is sent after. *)
Definition f1 : flush := mkFlush [1] [2; 3].
Lemma contended : exists s, reachable s /\ sent s = [Other [9]; ToLcd [1]; Pixels [2; 3]] /\ transfer_state_ s = FLUSH_AREA /\ bus s <> Some Controller.
Proof.
  unshelve epose proof (reach_foreground _ _ reach_init (lvgl_flushes _ f1 _ _)) as R1; [reflexivity|discriminate|].
  unshelve epose proof (reach_foreground _ _ R1 (other_acquires _ _)) as R2; [reflexivity|].
  unshelve epose proof (reach_background _ _ R2 (driver_wakes _ _ _)) as R3; [reflexivity..|].
  unshelve epose proof (reach_foreground _ _ R3 (other_sends _ [9] _)) as R4; [reflexivity|].
  unshelve epose proof (reach_background _ _ R4 (driver_acquires _ false _ _)) as R5; [reflexivity..|].
  unshelve epose proof (reach_background _ _ R5 (driver_sends _ false _)) as R6; [reflexivity|].
  unshelve epose proof (reach_background _ _ R6 (spi_done _ _)) as R7; [reflexivity|].
  eexists. split; [exact R7|]. cbn. repeat split. discriminate.
Qed.
Lemma delivered_witness : exists s l p, sent s = [Other [9]; ToLcd [1]; Pixels [2; 3]] /\ sent s = wire_of l ++ tail p (pending_flush_ s).
Proof.
  destruct contended as (s & Hr & Hs & _). destruct (pictures_are_delivered_in_order s Hr) as (l & p & E & _). exists s, l, p. split; [exact Hs|exact E].
Defined.
Lemma wait_witness : exists s, transfer_state_ s = FLUSH_AREA /\ eventually (fun s' => transfer_state_ s' = IDLE) s.
Proof. destruct contended as (s & Hr & _ & Hs & Hb). exists s. split; [exact Hs|exact (flush_wait_ends s Hr Hb)]. Defined.
End LcdDemo.
