(* ===== verification/SaboWidgets.v ===== *)
(** The widgets of the Sabo's screens ([drivers/ui/lvgl/widget_*.hpp]) over LVGL's objects.

    What is kept of an LVGL object is what the widgets set: a label's text and its hidden flag, a bar's value,
    the animation that shows and hides an icon. Positions, fonts and drawing are LVGL's. *)
From stdpp Require Import strings.
From S2P Require Import Prelude.

(** ** Labels *)
Record label := mkLabel { text : string; hidden : bool }.
#[export] Instance eta_label : Eta label := fun l => mkLabel (text l) (hidden l).
Definition set_text (t : string) (l : label) : label := l <| text := t |>.

(** ** Icons *)
(* @ widget_icon.hpp:51-73 WidgetIcon::Icon *)
Inductive Icon :=
  | ICON_UNDEF | ROS | EMERGENCY_WHEEL_LIFT | EMERGENCY_GENERIC | NO_RTK_FIX | ICON_RTK_FIX | SATELLITE | BULLSEYE | DOWNLOAD
  | BATTERY_EMPTY | BATTERY_QUARTER | BATTERY_HALF | BATTERY_THREE_QUARTER | BATTERY_FULL | DOCKED | BATTERY_VOLTAGE | CURRENT
  | HAND_STOP | TIMEOUT | CHECK | SQUARE_XMARK.
#[export] Instance Icon_eq : EqDecision Icon.
Proof. solve_decision. Defined.
(* @ widget_icon.hpp:75-75 WidgetIcon::State *)
Inductive IconState := UNDEF | OFF | ON | BLINK.
#[export] Instance IconState_eq : EqDecision IconState.
Proof. solve_decision. Defined.
(* @ widget_icon.hpp:81-103 WidgetIcon::ICONS *)
Definition ICONS (i : Icon) : list Z :=
  match i with
  | ICON_UNDEF => [0xEF; 0x80; 0xC8] | ROS => [0xEF; 0x95; 0x84] | EMERGENCY_WHEEL_LIFT => [0xEF; 0x97; 0xA1]
  | EMERGENCY_GENERIC => [0xEF; 0x81; 0xB1] | NO_RTK_FIX => [0xEF; 0x81; 0x9B] | ICON_RTK_FIX => [0xEF; 0x98; 0x81]
  | SATELLITE => [0xEF; 0x9E; 0xBF] | BULLSEYE => [0xEF; 0x85; 0x80] | DOWNLOAD => [0xEF; 0x80; 0x99]
  | BATTERY_EMPTY => [0xEF; 0x89; 0x84] | BATTERY_QUARTER => [0xEF; 0x89; 0x83] | BATTERY_HALF => [0xEF; 0x89; 0x82]
  | BATTERY_THREE_QUARTER => [0xEF; 0x89; 0x81] | BATTERY_FULL => [0xEF; 0x89; 0x80] | DOCKED => [0xEF; 0x97; 0xA7]
  | BATTERY_VOLTAGE => [0xEF; 0x97; 0x9F] | CURRENT => [0xEE; 0x82; 0xB7] | HAND_STOP => [0xEF; 0x89; 0x96]
  | TIMEOUT => [0xEF; 0x89; 0x93] | CHECK => [0xEF; 0x80; 0x8C] | SQUARE_XMARK => [0xEF; 0x8B; 0x93]
  end.
(** The label is shown or hidden, steadily or by the animation. *)
(* @ widget_icon.hpp:249-252 WidgetIcon *)
Record WidgetIcon := mkIcon { icon_state : IconState; icon_hidden : bool; icon_blinks : bool; last_set_icon_ : Icon; glyph : list Z }.
#[export] Instance eta_WidgetIcon : Eta WidgetIcon := fun i => mkIcon (icon_state i) (icon_hidden i) (icon_blinks i) (last_set_icon_ i) (glyph i).
#[export] Instance WidgetIcon_eq : EqDecision WidgetIcon.
Proof. solve_decision. Defined.
(* @ widget_icon.hpp WidgetIcon::StartBlinking_ *)
Definition StartBlinking (i : WidgetIcon) : WidgetIcon := i <| icon_blinks := true |> <| icon_hidden := false |>.
(* @ widget_icon.hpp WidgetIcon::SetState *)
Definition SetState (new_state : IconState) (i : WidgetIcon) : WidgetIcon :=
  if decide (new_state = icon_state i) then i else
  let i := match new_state with
    | ON => i <| icon_blinks := false |> <| icon_hidden := false |>
    | OFF | UNDEF => i <| icon_blinks := false |> <| icon_hidden := true |>
    | BLINK => StartBlinking i
    end in
  i <| icon_state := new_state |>.
(* @ widget_icon.hpp:217-221 WidgetIcon::SetIcon *)
Definition SetIcon (new_icon : Icon) (i : WidgetIcon) : WidgetIcon :=
  if decide (new_icon = last_set_icon_ i) then i else i <| glyph := ICONS new_icon |> <| last_set_icon_ := new_icon |>.
(* @ widget_icon.hpp:118-155 WidgetIcon::WidgetIcon *)
Definition new_icon (icon : Icon) (state : IconState) : WidgetIcon := SetState state (mkIcon UNDEF false false ICON_UNDEF (ICONS icon)).
(** A frame of the animation. *)
(* @ widget_icon.hpp WidgetIcon::BlinkCallback_ *)
Definition BlinkCallback (value : Z) (i : WidgetIcon) : WidgetIcon :=
  if icon_blinks i then i <| icon_hidden := (value =? 0) |> else i.

(** What is seen of an icon. *)
Inductive appearance := Hidden | Steady | Blinking.
Definition seen (i : WidgetIcon) : appearance := if icon_blinks i then Blinking else if icon_hidden i then Hidden else Steady.
Definition look (s : IconState) : appearance := match s with ON => Steady | BLINK => Blinking | OFF | UNDEF => Hidden end.
(** An icon that was given a state shows it. *)
Definition icon_ok (i : WidgetIcon) : Prop := icon_state i <> UNDEF /\ seen i = look (icon_state i).
Lemma new_icon_ok icon s : s <> UNDEF -> icon_ok (new_icon icon s) /\ seen (new_icon icon s) = look s /\ glyph (new_icon icon s) = ICONS icon.
Proof. destruct s; intros H; try congruence; repeat split; discriminate. Qed.
Lemma SetState_ok s i : s <> UNDEF -> icon_ok i -> icon_ok (SetState s i) /\ icon_state (SetState s i) = s /\ seen (SetState s i) = look s.
Proof.
  intros H [N O]. unfold SetState. destruct (decide (s = icon_state i)) as [->|]; [split; [split; assumption|split; [reflexivity|exact O]]|].
  destruct s; try congruence; (split; [split; [discriminate|reflexivity]|split; reflexivity]).
Qed.
Lemma SetState_glyph s i : glyph (SetState s i) = glyph i /\ last_set_icon_ (SetState s i) = last_set_icon_ i.
Proof. unfold SetState. destruct (decide _); [split; reflexivity|]. destruct s; split; reflexivity. Qed.
Lemma SetIcon_ok icon i : icon_ok i -> icon_ok (SetIcon icon i) /\ icon_state (SetIcon icon i) = icon_state i /\ seen (SetIcon icon i) = seen i.
Proof. intros O. unfold SetIcon. destruct (decide _); split; try exact O; split; reflexivity. Qed.
Lemma BlinkCallback_ok v i : icon_ok i -> icon_ok (BlinkCallback v i) /\ icon_state (BlinkCallback v i) = icon_state i.
Proof.
  intros O. unfold BlinkCallback. destruct (icon_blinks i) eqn:E; [|split; [exact O|reflexivity]]. split; [|reflexivity].
  destruct O as [N O]. split; [exact N|]. unfold seen in *. cbn. rewrite E in *. exact O.
Qed.
(** The glyph is the one set last, once one was set. *)
Definition glyph_ok (i : WidgetIcon) : Prop := last_set_icon_ i <> ICON_UNDEF -> glyph i = ICONS (last_set_icon_ i).
Lemma SetIcon_glyph icon i : icon <> ICON_UNDEF -> glyph_ok i -> glyph_ok (SetIcon icon i) /\ glyph (SetIcon icon i) = ICONS icon /\ last_set_icon_ (SetIcon icon i) = icon.
Proof.
  intros N O. unfold SetIcon. destruct (decide _) as [E|]; [|split; [intros _; reflexivity|split; reflexivity]].
  split; [exact O|]. split; [|congruence]. rewrite E. apply O. congruence.
Qed.

(** The glyphs are characters of the private use area in UTF-8, but for the placeholder's. *)
Definition utf8 (c : Z) : list Z := [224 + Z.shiftr c 12; 128 + Z.land (Z.shiftr c 6) 63; 128 + Z.land c 63].
Definition codepoint (l : list Z) : Z :=
  match l with [a; b; c] => Z.shiftl (a - 224) 12 + Z.shiftl (b - 128) 6 + (c - 128) | _ => 0 end.
Lemma ICONS_are_utf8 i : i <> ICON_UNDEF -> 0xE000 <= codepoint (ICONS i) <= 0xF8FF /\ ICONS i = utf8 (codepoint (ICONS i)).
Proof. destruct i; intros H; try congruence; vm_compute; (split; [split; discriminate|reflexivity]). Qed.
Example undefined_glyph_is_malformed c : 0 <= c -> ICONS ICON_UNDEF <> utf8 c.
Proof.
  intros H E. unfold utf8 in E. injection E as _ _ E. assert (Z.land c 63 < 64); [|lia]. change 63 with (Z.ones 6). rewrite Z.land_ones by lia. apply Z.mod_pos_bound. lia.
Qed.

(** ** Bars with a text *)
(* @ widget_textbar.hpp:143-147 WidgetTextBar *)
Record WidgetTextBar := mkBar { bar_value : Z; format_string_ : string; text_buffer_ : string; bar_hidden : bool; right_to_left : bool }.
#[export] Instance eta_WidgetTextBar : Eta WidgetTextBar := fun b =>
  mkBar (bar_value b) (format_string_ b) (text_buffer_ b) (bar_hidden b) (right_to_left b).
#[export] Instance WidgetTextBar_eq : EqDecision WidgetTextBar.
Proof. solve_decision. Defined.
(* @ widget_textbar.hpp:36-52 WidgetTextBar::WidgetTextBar *)
Definition new_bar (format : string) : WidgetTextBar := mkBar 0 format "" false false.
(** The buffer holds 63 characters and the terminator. *)
(* @ widget_textbar.hpp WidgetTextBar::SetText *)
Definition SetText (t : string) (b : WidgetTextBar) : WidgetTextBar := b <| text_buffer_ := String.substring 0 63 t |>.
(* @ widget_textbar.hpp WidgetTextBar::SetValues *)
Definition SetValues (value : Z) (custom_text : option string) (b : WidgetTextBar) : WidgetTextBar :=
  let b := b <| bar_value := value |> in match custom_text with Some t => SetText t b | None => b end.
(* @ widget_textbar.hpp WidgetTextBar::SetValuesOnBarChange *)
Definition SetValuesOnBarChange (value : Z) (custom_text : option string) (b : WidgetTextBar) : WidgetTextBar :=
  if (value =? bar_value b) && match custom_text with Some t => bool_decide (t = text_buffer_ b) | None => true end then b
  else SetValues value custom_text b.
(* @ widget_textbar.hpp WidgetTextBar::Hide *)
Definition bar_Hide (b : WidgetTextBar) : WidgetTextBar := b <| bar_hidden := true |>.
(* @ widget_textbar.hpp WidgetTextBar::Show *)
Definition bar_Show (b : WidgetTextBar) : WidgetTextBar := b <| bar_hidden := false |>.
(* @ widget_textbar.hpp WidgetTextBar::SetBaseDir *)
Definition SetBaseDir (rtl : bool) (b : WidgetTextBar) : WidgetTextBar := b <| right_to_left := rtl |>.
(** What is written over the bar: its text, or the format, where [%] stands for the value. *)
(* @ widget_textbar.hpp:162-183 WidgetTextBar::event_bar_label_cb *)
Definition bar_text (chsnprintf : string -> Z -> string) (b : WidgetTextBar) : string :=
  if bool_decide (text_buffer_ b = "") then
    if existsb (Ascii.eqb (Ascii.ascii_of_nat 37)) (String.list_ascii_of_string (format_string_ b)) then chsnprintf (format_string_ b) (bar_value b)
    else String.substring 0 63 (format_string_ b)
  else String.substring 0 63 (text_buffer_ b).

Definition bar_ok (b : WidgetTextBar) : Prop := (String.length (text_buffer_ b) <= 63)%nat.
Lemma substring_all t n : (String.length t <= n)%nat -> String.substring 0 n t = t.
Proof. revert t. induction n as [|n IH]; intros [|c t] H; cbn in *; try lia; try reflexivity. rewrite IH by lia. reflexivity. Qed.
Lemma substring_length t n : (String.length (String.substring 0 n t) <= n)%nat.
Proof. revert t. induction n as [|n IH]; intros [|c t]; cbn; try lia. specialize (IH t). lia. Qed.
(** Leaving a bar alone when nothing changes is the same as setting it. *)
Lemma SetValuesOnBarChange_sets v t b : bar_ok b -> SetValuesOnBarChange v (Some t) b = SetValues v (Some t) b.
Proof.
  intros O. unfold SetValuesOnBarChange. destruct (Z.eqb_spec v (bar_value b)) as [->|]; [|reflexivity]. cbn.
  destruct (bool_decide_reflect (t = text_buffer_ b)) as [->|]; [|reflexivity]. unfold SetText. rewrite substring_all by exact O. destruct b; reflexivity.
Qed.
Lemma SetValues_ok v t b : bar_ok b -> bar_ok (SetValues v t b).
Proof. intros O. destruct t as [t|]; [apply substring_length|exact O]. Qed.

(** ** Sensors of the inputs' screen *)
(* @ widget_sensor.hpp:36-36 WidgetSensor::State *)
Inductive SensorState := SENSOR_IDLE | TRIGGERED | DISABLED.
#[export] Instance SensorState_eq : EqDecision SensorState.
Proof. solve_decision. Defined.
(** How the rectangle looks: a small empty box or the full filled one. *)
(* @ widget_sensor.hpp:117-124 WidgetSensor *)
Record WidgetSensor := mkSensor { sensor_state : SensorState; shape_hidden : bool; shape_full : bool; sensor_blinks : bool }.
#[export] Instance eta_WidgetSensor : Eta WidgetSensor := fun s => mkSensor (sensor_state s) (shape_hidden s) (shape_full s) (sensor_blinks s).
(* @ widget_sensor.hpp:47-67 WidgetSensor::WidgetSensor *)
Definition new_sensor : WidgetSensor := mkSensor DISABLED true false false.
(* @ widget_sensor.hpp WidgetSensor::SetState *)
Definition sensor_SetState (new_state : SensorState) (s : WidgetSensor) : WidgetSensor :=
  if decide (new_state = sensor_state s) then s else
  let s := match new_state with
    | SENSOR_IDLE => s <| sensor_blinks := false |> <| shape_full := false |> <| shape_hidden := false |>
    | TRIGGERED => s <| sensor_blinks := true |> <| shape_hidden := false |>
    | DISABLED => s <| sensor_blinks := false |> <| shape_hidden := true |>
    end in
  s <| sensor_state := new_state |>.
(* @ widget_sensor.hpp WidgetSensor::BlinkCallback_ *)
Definition sensor_BlinkCallback (value : Z) (s : WidgetSensor) : WidgetSensor :=
  if sensor_blinks s then s <| shape_full := negb (value mod 800 <? 400) |> else s.
Definition sensor_seen (s : WidgetSensor) : appearance := if shape_hidden s then Hidden else if sensor_blinks s then Blinking else Steady.
Definition sensor_look (s : SensorState) : appearance := match s with SENSOR_IDLE => Steady | TRIGGERED => Blinking | DISABLED => Hidden end.
(** A sensor that does not blink is a small box. *)
Definition sensor_ok (s : WidgetSensor) : Prop :=
  sensor_seen s = sensor_look (sensor_state s) /\ (sensor_state s = SENSOR_IDLE -> shape_full s = false).
Lemma sensor_SetState_ok n s : sensor_ok s -> sensor_ok (sensor_SetState n s) /\ sensor_state (sensor_SetState n s) = n.
Proof.
  intros O. unfold sensor_SetState. destruct (decide _) as [->|]; [split; [exact O|reflexivity]|].
  destruct n; (split; [split; [reflexivity|cbn; congruence]|reflexivity]).
Qed.
Lemma sensor_BlinkCallback_ok v s : sensor_ok s -> sensor_ok (sensor_BlinkCallback v s) /\ sensor_state (sensor_BlinkCallback v s) = sensor_state s.
Proof.
  intros [O1 O2]. unfold sensor_BlinkCallback. destruct (sensor_blinks s) eqn:E; [|split; [split; assumption|reflexivity]]. split; [|reflexivity].
  unfold sensor_ok, sensor_seen in *. cbn. rewrite E in *. split; [exact O1|]. intros Hs. rewrite Hs in O1. destruct (shape_hidden s); discriminate.
Qed.
