(* ===== verification/SaboPercent.v ===== *)
(** The percentages of the Sabo main screen's bars ([GetPercent] of [sabo_screen_main.hpp]), and what rounding
    may do to them. [None] is a conversion to an integer that does not fit. *)
From Stdlib Require Import Lra.
From S2P Require Import Prelude Float32 FloatError.

(* @ sabo_screen_main.hpp:270-277 SaboScreenMain::GetPercent *)
Definition GetPercent (value min max : f32) (invert : bool) : option Z :=
  if fle value min then Some (if invert then 100 else 0)
  else if fge value max then Some (if invert then 0 else 100)
  else
    percent ← f_to_int (-2147483648) 2147483647 (fdiv (fmul (fsub value min) (f_of_Z 100)) (fsub max min));
    Some (if invert then 100 - percent else percent).

(** A [float] that is neither infinite nor NaN. *)
Definition ordinary (x : f32) : Prop := valid_binary 24 128 x = true /\ is_finite x = true.
Lemma rounds_ordinary below r x : rounds 24 128 below r x -> (Rabs x <= bpow 126)%R ->
  ordinary r /\ (Rabs (FV r - x) <= Rabs x * bpow (-24) + (if below then bpow (-150) else 0))%R.
Proof. intros (V & _ & F) H. destruct (F H) as [F1 F2]. split; [split; assumption|exact F2]. Qed.
Lemma fsub_ordinary x y : ordinary x -> ordinary y -> rounds 24 128 false (fsub x y) (FV x - FV y).
Proof. intros [] []. apply SFsub_rounds; (lia || assumption). Qed.
Lemma fmul_ordinary x y : ordinary x -> ordinary y -> rounds 24 128 true (fmul x y) (FV x * FV y).
Proof. intros [] []. apply SFmul_rounds; (lia || assumption). Qed.
Lemma fdiv_ordinary x y : ordinary x -> FV y <> 0%R -> ordinary y -> rounds 24 128 true (fdiv x y) (FV x / FV y).
Proof. intros [] N []. destruct y as [| | |s m e]; try (exfalso; apply N; reflexivity); try discriminate. apply SFdiv_rounds; (lia || assumption). Qed.
Lemma fle_ordinary x y : ordinary x -> ordinary y -> fle x y = false -> (FV y < FV x)%R.
Proof. intros [] []. apply (SFleb_nle 24 128); (lia || assumption). Qed.
(** The least positive float. *)
Lemma ordinary_least x : ordinary x -> (0 < FV x)%R -> (bpow (-149) <= FV x)%R.
Proof.
  destruct x as [s| | |s m e]; intros [V F] P; try discriminate; [cbn in P; lra|]. pose proof (valid_emin 24 128 _ _ _ V) as E. change (emin 24 128) with (-149) in E.
  apply bpow_le in E. pose proof (bpow_pos e). cbn [FV] in *. assert (1 <= IZR (Zpos m))%R by (apply IZR_le; lia). destruct s; cbn [sgn] in *; nra.
Qed.
(** A bound that can be computed. *)
Lemma FV_bounded x k : valid_binary 24 128 x && match x with S754_finite _ _ e => e + 24 <=? k | _ => true end = true -> (Rabs (FV x) <= bpow k)%R.
Proof.
  intros [V K]%andb_prop. pose proof (bpow_pos k). destruct x as [s| | |s m e]; try (cbn; rewrite Rabs_R0; lra). cbn [FV]. rewrite sgn_abs.
  apply valid_finite in V as [C _]; [|lia..]. apply Z.leb_le in K. pose proof (bpow_pos e). assert (0 <= IZR (Zpos m))%R by (apply IZR_le; lia).
  rewrite Rabs_right by (apply Rle_ge, Rmult_le_pos; lra). replace k with (k - e + e) by lia. rewrite bpow_add, (bpow_Z (k - e)) by lia.
  apply Rmult_le_compat_r; [lra|]. apply IZR_le. pose proof (Zdigits2_bounds (Zpos m) ltac:(lia)) as [_ B].
  transitivity (2 ^ Zdigits2 (Zpos m)); [lia|]. apply Z.pow_le_mono_r; [lia|]. unfold fexp in C. lia.
Qed.
Lemma FV_100 : FV (f_of_Z 100) = 100%R.
Proof.
  change (f_of_Z 100) with (S754_finite false 13107200 (-17)). cbn [FV sgn]. pose proof (bpow_opp 17) as H. rewrite (bpow_Z 17) in H by lia.
  change (2 ^ 17) with 131072 in H. change (- (17)) with (-17) in H. lra.
Qed.
Lemma bpow_small : (0 < bpow (-24) <= 1 / 10000)%R /\ (0 < bpow (-150) <= 1 / 10000)%R /\ bpow (-150) = (bpow (-149) / 2)%R.
Proof.
  assert (A : (bpow (-24) <= 1 / 10000)%R).
  { transitivity (bpow (-14)); [apply bpow_le; lia|]. pose proof (bpow_opp 14) as H. rewrite (bpow_Z 14) in H by lia.
    change (2 ^ 14) with 16384 in H. change (- (14)) with (-14) in H. lra. }
  split; [split; [apply bpow_pos|exact A]|]. split; [split; [apply bpow_pos|transitivity (bpow (-24)); [apply bpow_le; lia|exact A]]|]. apply (bpow_half (-149)).
Qed.

Lemma Rabs_inv x a : (Rabs x <= a -> - a <= x <= a)%R.
Proof. unfold Rabs. destruct (Rcase_abs x); lra. Qed.
Lemma small_mul u y : (0 < u <= 1 / 10000 -> 0 <= y -> 0 <= y * u <= y / 10000)%R.
Proof. intros Hu Hy. split; nra. Qed.
Lemma bounded_by c y x : (0 < x -> - (c * x) <= y * x <= c * x -> - c <= y <= c)%R.
Proof. intros Hx [H1 H2]. split; apply (Rmult_le_reg_r x); lra. Qed.
(** The errors of the four operations together. *)
Lemma percent_error a b u n x1 x2 x3 q : (0 < a <= b)%R -> (0 < u <= 1 / 10000)%R -> (0 < n <= 1 / 10000)%R ->
  (Rabs (x1 - a) <= a * u)%R -> (Rabs (x3 - b) <= b * u)%R -> (n <= x3 / 2)%R -> (0 <= x2)%R ->
  (Rabs (x2 - x1 * 100) <= x1 * 100 * u + n)%R -> (Rabs (q - x2 / x3) <= x2 / x3 * u + n)%R ->
  (Rabs (q - 100 * (a / b)) < 1)%R.
Proof.
  intros [Ha Hab] Hu Hn H1 H3 Hx Hx2 H2 Hq. apply Rabs_inv in H1, H3, H2, Hq.
  pose proof (small_mul u a Hu ltac:(lra)) as Ka. pose proof (small_mul u b Hu ltac:(lra)) as Kb. assert (P3 : (0 < x3)%R) by lra.
  set (r := (a / b)%R). assert (Er : (r * b = a)%R) by (unfold r; field; lra).
  assert (Hr : (0 < r <= 1)%R) by (split; [apply Rdiv_lt_0_compat; lra|apply (Rmult_le_reg_r b); lra]).
  set (t := (x1 / x3)%R). assert (Et : (t * x3 = x1)%R) by (unfold t; field; lra).
  set (w := (x2 / x3)%R) in *. assert (Ew : (w * x3 = x2)%R) by (unfold w; field; lra).
  assert (Ht : (- (1 / 1000) <= t - r <= 1 / 1000)%R).
  { apply (bounded_by _ _ x3 P3). assert (R3 : (- (b / 10000) <= r * (x3 - b) <= b / 10000)%R) by nra. lra. }
  pose proof (small_mul u x1 Hu ltac:(lra)) as K1.
  assert (Hw : (- (6 / 10) <= w - 100 * t <= 6 / 10)%R) by (apply (bounded_by _ _ x3 P3); lra).
  pose proof (small_mul u w Hu) as Kw. assert (0 <= w)%R by (apply (Rmult_le_reg_r x3); lra). apply Rabs_def1; lra.
Qed.
Lemma quotient_le x y c : (0 <= x)%R -> (0 < y)%R -> (x <= c * y)%R -> (0 <= x / y <= c)%R.
Proof.
  intros Hx Hy H. split; [apply Rmult_le_pos; [exact Hx|left; apply Rinv_0_lt_compat, Hy]|]. apply (Rmult_le_reg_r y); [exact Hy|].
  replace (x / y * y)%R with x by (field; lra). exact H.
Qed.
(** What is cut off a number near a percentage. *)
Lemma percent_trunc q r : is_finite q = true -> (- (1 / 1000) <= FV q)%R -> (0 <= r <= 1)%R -> (Rabs (FV q - 100 * r) < 1)%R ->
  exists p, f_to_int (-2147483648) 2147483647 q = Some p /\ 0 <= p <= 100 /\ (Rabs (IZR p - 100 * r) < 2)%R.
Proof.
  intros F P Hr E. destruct (f_trunc_FV q F) as (p & T & B & S). assert (A := Rle_abs (FV q - 100 * r)). assert (A' := Rle_abs (- (FV q - 100 * r))). rewrite Rabs_Ropp in A'.
  assert (Hp : (0 <= IZR p)%R /\ (IZR p <= FV q \/ IZR p = 0)%R /\ (FV q < IZR p + 1)%R).
  { destruct (Rle_lt_dec 0 (FV q)) as [L|L].
    - specialize (S L). rewrite !Rabs_right in B by lra. lra.
    - assert (p = 0) as ->; [|lra]. rewrite (Rabs_left (FV q)) in B by exact L. destruct (decide (p = 0)) as [|N]; [assumption|].
      assert (1 <= Rabs (IZR p))%R; [|lra]. rewrite <- abs_IZR. apply IZR_le. lia. }
  destruct Hp as (H0 & H1 & H2). assert (I0 : 0 <= p) by (apply le_IZR; exact H0). assert (I1 : p < 101) by (apply lt_IZR; lra).
  exists p. unfold f_to_int. rewrite T. cbn. rewrite (proj2 (Z.leb_le _ _)), (proj2 (Z.leb_le _ _)) by lia.
  split; [reflexivity|]. split; [lia|]. apply Rabs_def1; lra.
Qed.
(** The part of [GetPercent] between the bounds. *)
Lemma percent_between v lo hi : ordinary v -> ordinary lo -> ordinary hi -> (Rabs (FV lo) <= bpow 100)%R -> (Rabs (FV hi) <= bpow 100)%R ->
  (FV lo < FV v < FV hi)%R -> exists p, f_to_int (-2147483648) 2147483647 (fdiv (fmul (fsub v lo) (f_of_Z 100)) (fsub hi lo)) = Some p /\
    0 <= p <= 100 /\ (Rabs (IZR p - 100 * ((FV v - FV lo) / (FV hi - FV lo))) < 2)%R.
Proof.
  intros Ov Ol Oh Bl Bh [Hl Hh]. apply Rabs_inv in Bl, Bh. destruct bpow_small as (U & N & M). pose proof (ordinary_least).
  assert (B : (bpow 100 * 1024 <= bpow 126)%R).
  { change 1024%R with (IZR (2 ^ 10)). rewrite <- bpow_Z, <- bpow_add by lia. apply bpow_le. lia. }
  assert (B1 : (1 <= bpow 100)%R) by (rewrite bpow_Z by lia; apply IZR_le; vm_compute; discriminate).
  destruct (rounds_ordinary _ _ _ (fsub_ordinary v lo Ov Ol)) as [O1 E1]; [apply Rabs_le; lra|].
  destruct (rounds_ordinary _ _ _ (fsub_ordinary hi lo Oh Ol)) as [O3 E3]; [apply Rabs_le; lra|].
  set (x1 := fsub v lo) in *. set (x3 := fsub hi lo) in *. rewrite (Rabs_right (FV v - FV lo)), Rplus_0_r in E1 by lra.
  rewrite (Rabs_right (FV hi - FV lo)), Rplus_0_r in E3 by lra. pose proof (Rabs_inv _ _ E1). pose proof (Rabs_inv _ _ E3).
  assert (P1 : (0 < FV x1 <= bpow 100 * 4)%R) by (split; nra). assert (P3 : (0 < FV x3)%R) by nra.
  assert (Oc : ordinary (f_of_Z 100)) by (split; reflexivity).
  destruct (rounds_ordinary _ _ _ (fmul_ordinary x1 (f_of_Z 100) O1 Oc)) as [O2 E2]; [rewrite FV_100; apply Rabs_le; lra|].
  rewrite FV_100 in E2. set (x2 := fmul x1 (f_of_Z 100)) in *. rewrite (Rabs_right (FV x1 * 100)) in E2 by lra. pose proof (Rabs_inv _ _ E2).
  pose proof (H x1 O1 ltac:(lra)) as L1. pose proof (H x3 O3 P3) as L3.
  pose proof (fun y => small_mul (bpow (-24)) y U) as K.
  pose proof (K (FV x1) ltac:(lra)) as K1. assert (P2 : (0 <= FV x2)%R) by lra.
  assert (Q : (0 <= FV x2 / FV x3 <= 202)%R) by (pose proof (K (FV v - FV lo)%R ltac:(lra)); pose proof (K (FV hi - FV lo)%R ltac:(lra)); apply quotient_le; lra).
  destruct (rounds_ordinary _ _ _ (fdiv_ordinary x2 x3 O2 ltac:(lra) O3)) as [O E]; [apply Rabs_le; lra|].
  set (q := fdiv x2 x3) in *. rewrite (Rabs_right (FV x2 / FV x3)) in E by lra. pose proof (Rabs_inv _ _ E).
  assert (Err : (Rabs (FV q - 100 * ((FV v - FV lo) / (FV hi - FV lo))) < 1)%R).
  { apply (percent_error _ _ (bpow (-24)) (bpow (-150)) (FV x1) (FV x2) (FV x3)); try assumption; lra. }
  apply percent_trunc; [apply O|pose proof (K _ (proj1 Q)); lra| |exact Err]. apply quotient_le; lra.
Qed.


(** A bound for [GetPercent]: an ordinary float that is not absurdly large. *)
Definition bound (x : f32) : Prop := ordinary x /\ (Rabs (FV x) <= bpow 100)%R.
Lemma percent_cases value min max : valid_binary 24 128 value = true -> value <> S754_nan -> ordinary min -> ordinary max ->
  fle value min = true /\ (is_finite value = true -> (FV value <= FV min)%R) \/
  fle value min = false /\ fge value max = true /\ (is_finite value = true -> (FV max <= FV value)%R) \/
  fle value min = false /\ fge value max = false /\ ordinary value /\ (FV min < FV value < FV max)%R.
Proof.
  intros V N Omin Omax. destruct (fle value min) eqn:E.
  { left. split; [reflexivity|]. intros F. apply (SFleb_FV 24 128) in E; [exact E|lia..|assumption|apply Omin|assumption|apply Omin]. }
  right. destruct (fge value max) eqn:E'; [left|right]; (split; [reflexivity|]); (split; [reflexivity|]).
  - intros F. apply (SFleb_FV 24 128) in E'; [exact E'|lia..|apply Omax|assumption|apply Omax|assumption].
  - assert (O : ordinary value).
    { split; [assumption|]. destruct Omin as [_ Fmin], Omax as [_ Fmax]. destruct value as [|[]| |]; try reflexivity; [destruct min; discriminate|destruct max; discriminate|congruence]. }
    split; [exact O|]. split; [exact (fle_ordinary _ _ O Omin E)|exact (fle_ordinary _ _ Omax O E')].
Qed.
Lemma percent_defined value min max invert : valid_binary 24 128 value = true -> value <> S754_nan -> bound min -> bound max ->
  exists p, GetPercent value min max invert = Some p /\ 0 <= p <= 100.
Proof.
  intros V N [Omin Bmin] [Omax Bmax]. unfold GetPercent.
  destruct (percent_cases value min max V N Omin Omax) as [[-> _]|[(-> & -> & _)|(-> & -> & O & L)]]; [exists (if invert then 100 else 0)|exists (if invert then 0 else 100)|].
  1,2: split; [reflexivity|destruct invert; lia].
  destruct (percent_between value min max O Omin Omax Bmin Bmax L) as (p & -> & B & _). exists (if invert then 100 - p else p). split; [reflexivity|destruct invert; lia].
Qed.

(** Percentages stay percentages: of any number (infinite ones too) between any two bounds that are not
    absurdly large, the conversion to an integer never overflows, the result is from 0 to 100, the other way round
    when inverted, and within two of the exact percentage however the four operations round. *)
Theorem percent_in_range value min max invert : valid_binary 24 128 value = true -> value <> S754_nan -> bound min -> bound max ->
  exists p, GetPercent value min max invert = Some p /\ 0 <= p <= 100 /\
    (is_finite value = true -> (FV min < FV value < FV max)%R ->
      let exact := (100 * ((FV value - FV min) / (FV max - FV min)))%R in (Rabs (IZR p - if invert then 100 - exact else exact) < 2)%R).
Proof.
  intros V N [Omin Bmin] [Omax Bmax]. unfold GetPercent.
  destruct (percent_cases value min max V N Omin Omax) as [[-> L]|[(-> & -> & L)|(-> & -> & O & L)]].
  - exists (if invert then 100 else 0). split; [reflexivity|]. split; [destruct invert; lia|]. intros F ?. specialize (L F). lra.
  - exists (if invert then 0 else 100). split; [reflexivity|]. split; [destruct invert; lia|]. intros F ?. specialize (L F). lra.
  - destruct (percent_between value min max O Omin Omax Bmin Bmax L) as (p & -> & B & D).
    exists (if invert then 100 - p else p). split; [reflexivity|]. split; [destruct invert; lia|]. intros _ _. destruct invert; [|exact D].
    rewrite minus_IZR. set (r := (100 * _)%R) in *. replace (IZR 100 - IZR p - (100 - r))%R with (- (IZR p - r))%R by ring. rewrite Rabs_Ropp. exact D.
Qed.
Lemma percent_witness : exists p, GetPercent (f_lit 253 10) (f_of_Z 21) (f_lit 294 10) false = Some p /\ 0 <= p <= 100.
Proof.
  destruct (percent_in_range (f_lit 253 10) (f_of_Z 21) (f_lit 294 10) false) as (p & E & H & _).
  - reflexivity.
  - discriminate.
  - split; [split; reflexivity|apply FV_bounded; reflexivity].
  - split; [split; reflexivity|apply FV_bounded; reflexivity].
  - exists p. split; assumption.
Defined.
(** In the middle between the bounds, and beside a bound that is not a number. *)
Example half_full : GetPercent (f_lit 252 10) (f_of_Z 21) (f_lit 294 10) false = Some 50.
Proof. reflexivity. Qed.
Example nan_is_undefined : GetPercent S754_nan (f_lit 1 100) f1 true = None.
Proof. reflexivity. Qed.
