(* ===== verification/SaboMain.v ===== *)
(** The Sabo's main screen ([sabo_screen_main.hpp]): six phases that update its widgets in turn from what the
    services, the charger and the battery's management report, each behind a cache of what it showed last, and
    the icons of the emergency.

    Texts are printed with ChibiOS' [chsnprintf] ([Chprintf]); LVGL's own formatting is a parameter. [None] is a
    percentage or the number of a text that does not fit an integer. *)
From stdpp Require Import strings.
From S2P Require Import Chprintf Prelude Json ServiceExt Float32 FloatError Leds Gps Charger SaboWidgets SaboPercent.

(** ** What is reported *)
(** [bms] is the pack's voltage and current where there is a [BmsData]; a charger's reading is [None] when it fails. *)
Record main_view := mkMainView {
  gps_is_valid : bool; gps_state : GpsState; seconds_since_rtcm : Z;
  bms : option (f32 * f32);
  battery_reading : option f32; charge_voltage_target : f32; current_reading : option f32; adapter_reading : option f32; reported_status : CHARGER_STATUS;
  view_status : Z; view_sub_name : string;
  view_reasons : Z; view_sensors : Z; view_event : bool }.

(** The characters of a text. *)
Definition to_string (l : list Z) : string := String.string_of_list_ascii (map (fun c => Ascii.ascii_of_nat (Z.to_nat c)) l).
(** [chsnprintf(shared_text_buffer_, SHARED_TEXT_BUFFER_SIZE, ...)]: the string it leaves in a buffer of [size] bytes. *)
Definition printed_in (size : nat) (format : string) (args : list arg) : option string :=
  '(str, _) ← Chprintf.chsnprintf (replicate size 0) (Z.of_nat size) (marker format) args; Some (to_string (c_str str)).
(* @ sabo_screen_main.hpp:258-259 SaboScreenMain::SHARED_TEXT_BUFFER_SIZE *)
Definition MAIN_TEXT_BUFFER_SIZE : nat := 32.
Definition screen_text (format : string) (args : list arg) : option string := printed_in MAIN_TEXT_BUFFER_SIZE format args.

Section Main.
Context `{ER : EmergencyReasons} `{HL : HighLevelStatuses} (HL_UNKNOWN SUBSTATE_4 : Z).
Context (lv_format : string -> list arg -> string).
(** [std::round] of a [float]. *)
Definition fround (x : f32) : f32 := match x, d_round x with S754_finite s _ _, Some k => binary_normalize 24 128 k 0 s | _, _ => x end.
Definition dround (x : f64) : f64 := match x, d_round x with S754_finite s _ _, Some k => binary_normalize 53 1024 k 0 s | _, _ => x end.
(** [std::round(x * n) / n]. *)
Definition rounded (n : Z) (x : f32) : f32 := fdiv (fround (fmul x (f_of_Z n))) (f_of_Z n).
Definition fne (a b : f32) : bool := negb (SFeqb a b).

(** ** GPS *)
(* @ sabo_screen_main.hpp:236-243 SaboScreenMain (GPS) *)
Record gps_part := mkGpsPart {
  sats_value : label; gps_mode_value : label; ntrip_value : label; icon_gps_mode : WidgetIcon; accuracy_bar : WidgetTextBar;
  last_invalid : bool; last_num_sats : Z; last_rtk : RTKType; last_fix : FixType; last_seconds_since_rtcm : Z; last_accuracy : f32 }.
#[export] Instance eta_gps_part : Eta gps_part := fun p => mkGpsPart (sats_value p) (gps_mode_value p) (ntrip_value p) (icon_gps_mode p)
  (accuracy_bar p) (last_invalid p) (last_num_sats p) (last_rtk p) (last_fix p) (last_seconds_since_rtcm p) (last_accuracy p).
(* @ sabo_screen_main.hpp:353-374 SaboScreenMain::UpdateGpsData (mode) *)
Definition gps_mode (g : GpsState) : string * Icon * IconState :=
  match rtk_type g with
  | RTK_FIX => ("RTK FIX", ICON_RTK_FIX, ON)
  | RTK_FLOAT => ("RTK FLOAT", NO_RTK_FIX, BLINK)
  | RTK_NONE =>
    (match fix_type g with FIX_3D => "3D FIX" | FIX_2D => "2D FIX" | GNSS_DR_COMBINED => "GNSS+DR" | DR_ONLY => "DR ONLY" | NO_FIX => "NO FIX" end,
     NO_RTK_FIX, BLINK)
  end%string.
#[export] Instance RTKType_eq : EqDecision RTKType.
Proof. solve_decision. Defined.
#[export] Instance FixType_eq : EqDecision FixType.
Proof. solve_decision. Defined.
(* @ sabo_screen_main.hpp:389-395 SaboScreenMain::UpdateGpsData (NTRIP) *)
Definition ntrip_text (seconds : Z) : string :=
  if seconds =? 0 then "N/A" else if 99 <? seconds then ">99 sec" else lv_format "%lu sec" [ArgZ seconds].
(* @ sabo_screen_main.hpp SaboScreenMain::UpdateGpsData *)
Definition UpdateGpsData (v : main_view) (p : gps_part) : gps_part :=
  if negb (gps_is_valid v) then
    if negb (last_invalid p) then
      p <| sats_value ::= set_text (lv_format "%d" [ArgZ 0]) |> <| icon_gps_mode ::= fun i => SetState BLINK (SetIcon NO_RTK_FIX i) |>
        <| gps_mode_value ::= set_text "N/A" |> <| ntrip_value ::= set_text "N/A" |> <| last_invalid := true |>
    else p
  else
    let g := gps_state v in
    let p := p <| last_invalid := false |> in
    let p := if negb (num_sv g =? last_num_sats p)
      then p <| sats_value ::= set_text (lv_format "%d" [ArgZ (num_sv g)]) |> <| last_num_sats := num_sv g |> else p in
    let p := if bool_decide (rtk_type g <> last_rtk p) || bool_decide (fix_type g <> last_fix p) then
        let '(mode, icon, state) := gps_mode g in
        p <| gps_mode_value ::= set_text mode |> <| icon_gps_mode ::= fun i => SetState state (SetIcon icon i) |>
          <| last_rtk := rtk_type g |> <| last_fix := fix_type g |>
      else p in
    if negb (seconds_since_rtcm v =? last_seconds_since_rtcm p)
    then p <| ntrip_value ::= set_text (ntrip_text (seconds_since_rtcm v)) |> <| last_seconds_since_rtcm := seconds_since_rtcm v |> else p.
(* @ sabo_screen_main.hpp SaboScreenMain::UpdateGpsBar *)
Definition UpdateGpsBar (v : main_view) (p : gps_part) : option gps_part :=
  if negb (gps_is_valid v) then Some (p <| accuracy_bar ::= SetValuesOnBarChange 0 (Some "N/A"%string) |>)
  else
    let accuracy := f_of_f64 (ddiv (dround (dmul (position_h_accuracy (gps_state v)) (d_of_Z 100))) (d_of_Z 100)) in
    if fne accuracy (last_accuracy p) then
      text ← screen_text "%.2fm" [ArgF accuracy];
      acc_percent ← GetPercent accuracy (f_lit 1 100) f1 true;
      Some (p <| accuracy_bar ::= SetValues acc_percent (Some text) |> <| last_accuracy := accuracy |>)
    else Some p.

(** ** Battery, current and dock *)
(** What the robot says of its battery. *)
Context (Power_GetDefaultChargeVoltage Power_GetAbsoluteMinVoltage Power_GetDefaultChargeCurrent : f32).
(* @ sabo_screen_main.hpp:246-251 SaboScreenMain (power) *)
Record power_part := mkPowerPart {
  icon_battery : WidgetIcon; battery_voltage_bar : WidgetTextBar; icon_docked : WidgetIcon; icon_current : WidgetIcon; current_bar : WidgetTextBar;
  adapter_voltage_label : label; charger_status_label : label; is_docked_ : bool; has_bms_current_ : bool;
  last_battery_volts : f32; last_battery_percent : Z; last_battery_icon : Icon; last_battery_state : IconState;
  last_current : f32; last_adapter_volts : f32; last_charger_status : CHARGER_STATUS }.
#[export] Instance eta_power_part : Eta power_part := fun p => mkPowerPart (icon_battery p) (battery_voltage_bar p) (icon_docked p) (icon_current p)
  (current_bar p) (adapter_voltage_label p) (charger_status_label p) (is_docked_ p) (has_bms_current_ p) (last_battery_volts p) (last_battery_percent p)
  (last_battery_icon p) (last_battery_state p) (last_current p) (last_adapter_volts p) (last_charger_status p).
(* @ sabo_screen_main.hpp:434-443 SaboScreenMain::UpdateBatteryWidgets (voltage) *)
Definition battery_volts (v : main_view) : f32 :=
  match (match bms v with Some (pack, _) => if fgt pack (f_of_Z 2) then Some (rounded 10 pack) else None | None => None end) with
  | Some volts => volts
  | None => match battery_reading v with Some x => rounded 10 x | None => f0 end
  end.
(* @ sabo_screen_main.hpp:447-453 SaboScreenMain::UpdateBatteryWidgets (full voltage) *)
Definition battery_full_v (v : main_view) : f32 :=
  let target := charge_voltage_target v in if negb (is_nan target) && fgt target f0 then target else Power_GetDefaultChargeVoltage.
(* @ sabo_screen_main.hpp:457-472 SaboScreenMain::UpdateBatteryWidgets (icon) *)
Definition battery_icon (percent : Z) : Icon * IconState :=
  if percent <=? 0 then (BATTERY_EMPTY, BLINK) else if percent <=? 25 then (BATTERY_EMPTY, ON) else if percent <=? 50 then (BATTERY_QUARTER, ON)
  else if percent <=? 75 then (BATTERY_HALF, ON) else if percent <? 100 then (BATTERY_THREE_QUARTER, ON) else (BATTERY_FULL, ON).
(* @ sabo_screen_main.hpp:454-454 SaboScreenMain::UpdateBatteryWidgets (percentage) *)
Definition battery_percent (v : main_view) : option Z := GetPercent (battery_volts v) Power_GetAbsoluteMinVoltage (battery_full_v v) false.
Definition battery_text (percent : Z) (volts : f32) : option string := screen_text "%d%% / %.1fV" [ArgZ percent; ArgF volts].
(* @ sabo_screen_main.hpp SaboScreenMain::UpdateBatteryWidgets *)
Definition UpdateBatteryWidgets (v : main_view) (p : power_part) : option power_part :=
  percent ← battery_percent v;
  let volts := battery_volts v in
  let p' := if negb (percent =? last_battery_percent p) then
      let '(icon, state) := battery_icon percent in
      if bool_decide (icon <> last_battery_icon p) || bool_decide (state <> last_battery_state p)
      then p <| icon_battery ::= fun i => SetState state (SetIcon icon i) |> <| last_battery_icon := icon |> <| last_battery_state := state |> else p
    else p in
  if fne volts (last_battery_volts p) || negb (percent =? last_battery_percent p) then
    text ← battery_text percent volts;
    Some (p' <| battery_voltage_bar ::= SetValuesOnBarChange percent (Some text) |> <| last_battery_volts := volts |> <| last_battery_percent := percent |>)
  else Some p'.
(* @ sabo_screen_main.hpp:499-499 SaboScreenMain::UpdateCurrentWidgets (BMS) *)
Definition has_bms_current (v : main_view) : bool := match bms v with Some (_, current) => fne current f0 | None => false end.
(* @ sabo_screen_main.hpp:508-517 SaboScreenMain::UpdateCurrentWidgets (current) *)
Definition shown_current (v : main_view) : f32 :=
  if has_bms_current v then rounded 100 (from_option snd f0 (bms v))
  else match current_reading v with Some x => rounded 100 x | None => f0 end.
Definition fabs (x : f32) : f32 := SFabs x.
Definition current_text (a : f32) : option string := screen_text "%.2fA" [ArgF a].
(* @ sabo_screen_main.hpp SaboScreenMain::UpdateCurrentWidgets *)
Definition UpdateCurrentWidgets (v : main_view) (p : power_part) : option power_part :=
  let p := p <| has_bms_current_ := has_bms_current v |> in
  if negb (is_docked_ p) && negb (has_bms_current_ p) then Some p else
  let current := shown_current v in
  if fne current (last_current p) then
    text ← current_text current;
    current_percent ← GetPercent (fabs current) f0 Power_GetDefaultChargeCurrent false;
    Some (p <| current_bar ::= fun b => SetBaseDir (flt current f0) (SetValuesOnBarChange current_percent (Some text) b) |>
            <| last_current := current |>)
  else Some p.
Definition hide (h : bool) (l : label) : label := l <| hidden := h |>.
Definition adapter_text (volts : f32) : option string := screen_text "%.1fV" [ArgF volts].
(* @ sabo_screen_main.hpp SaboScreenMain::UpdateDockWidgets *)
Definition UpdateDockWidgets (v : main_view) (p : power_part) : option power_part :=
  let adapter_volts := match adapter_reading v with Some x => rounded 10 x | None => f0 end in
  let p := match adapter_reading v with Some _ => p <| is_docked_ := fgt adapter_volts (f_of_Z 10) |> | None => p end in
  let p := p <| icon_docked ::= SetState (if is_docked_ p then ON else OFF) |> in
  if is_docked_ p then
    let p := p <| icon_current ::= SetState ON |> <| current_bar ::= bar_Show |> <| adapter_voltage_label ::= hide false |>
      <| charger_status_label ::= hide false |> in
    p ← (if fne adapter_volts (last_adapter_volts p)
         then text ← adapter_text adapter_volts; Some (p <| adapter_voltage_label ::= set_text text |> <| last_adapter_volts := adapter_volts |>)
         else Some p);
    Some (if decide (reported_status v = last_charger_status p) then p
          else p <| charger_status_label ::= set_text (statusToString (reported_status v)) |> <| last_charger_status := reported_status v |>)
  else Some (if negb (has_bms_current_ p) then p <| icon_current ::= SetState OFF |> <| current_bar ::= bar_Hide |>
             else p <| adapter_voltage_label ::= hide true |> <| charger_status_label ::= hide true |>).

(** ** The robot's state *)
(* @ sabo_screen_main.hpp:253-255 SaboScreenMain (state) *)
Record state_part := mkStatePart { state_label : label; state_name : string; last_hl_status : Z; last_sub_state_name : string }.
#[export] Instance eta_state_part : Eta state_part := fun p => mkStatePart (state_label p) (state_name p) (last_hl_status p) (last_sub_state_name p).
Definition ROS_OFFLINE_TEXT : string := "Waiting for ROS".
(* @ sabo_screen_main.hpp:601-607 SaboScreenMain::UpdateRobotState (main state) *)
Definition view_main_state (v : main_view) : Z := Z.land (u8 (view_status v)) (u8 (Z.shiftl 1 (u8 SUBSTATE_SHIFT) - 1)).
(* @ sabo_screen_main.hpp:601-607 SaboScreenMain::UpdateRobotState (sub-state) *)
Definition view_sub_state (v : main_view) : Z := u8 (Z.land (Z.shiftr (u8 (view_status v)) (u8 SUBSTATE_SHIFT)) (u8 SUBSTATE_MASK)).
(* @ sabo_screen_main.hpp:609-648 SaboScreenMain::UpdateRobotState (name) *)
Definition named_state (v : main_view) (before : string) : string :=
  if view_main_state v =? IDLE then "IDLE"
  else if view_main_state v =? AUTONOMOUS then
    if view_sub_state v =? SUBSTATE_1 then "MOWING" else if view_sub_state v =? SUBSTATE_2 then "DOCKING"
    else if view_sub_state v =? SUBSTATE_3 then "UNDOCKING" else if view_sub_state v =? SUBSTATE_4 then "PAUSED" else before
  else if view_main_state v =? RECORDING then
    String.append "RECORDING" (String.append
      (if view_sub_state v =? SUBSTATE_2 then " (OUTLINE)" else if view_sub_state v =? SUBSTATE_3 then " (OBSTACLE)" else "")
      (if bool_decide (view_sub_name v = "RECORD_DOCKING_POSITION") then " (DOCK)" else ""))
  else "UNKNOWN".
(* @ sabo_screen_main.hpp SaboScreenMain::UpdateRobotState *)
Definition UpdateRobotState (v : main_view) (p : state_part) : state_part :=
  if negb (Z.land (view_reasons v) TIMEOUT_HIGH_LEVEL =? 0) then
    p <| state_label ::= set_text ROS_OFFLINE_TEXT |> <| last_hl_status := HL_UNKNOWN |>
  else if (view_status v =? last_hl_status p) && bool_decide (view_sub_name v = last_sub_state_name p) then p
  else
    let name := named_state v (state_name p) in
    p <| state_label ::= set_text name |> <| state_name := name |> <| last_hl_status := view_status v |> <| last_sub_state_name := view_sub_name v |>.

(** ** The emergency *)
(* @ sabo_screen_main.hpp:226-227 SaboScreenMain::EmergencyIconType *)
Inductive EmergencyIconType := GENERIC | ICON_STOP | WHEEL | TIMEOUT_ANY | TIMEOUT_HL.
(* @ sabo_screen_main.hpp:226-231 SaboScreenMain (emergency) *)
Record emergency_part := mkEmergencyPart {
  emergency_icons_ : list (EmergencyIconType * WidgetIcon); last_sensor_bits_ : Z;
  last_emergency_reasons : Z; last_sensor_reasons : Z; triggered_emergency_reasons : Z }.
#[export] Instance eta_emergency_part : Eta emergency_part := fun p => mkEmergencyPart (emergency_icons_ p) (last_sensor_bits_ p)
  (last_emergency_reasons p) (last_sensor_reasons p) (triggered_emergency_reasons p).
(* @ sabo_screen_main.hpp:675-683 SaboScreenMain::UpdateEmergencyWidgets (sensors) *)
Definition sensor_reasons (bits : Z) : Z :=
  let stop := if negb (Z.land bits (Z.lor (Z.shiftl 1 2) (Z.shiftl 1 3)) =? 0) then STOP else 0 in
  Z.lor stop (if negb (Z.land bits (Z.lor (Z.shiftl 1 0) (Z.shiftl 1 1)) =? 0) then LIFT else 0).
(* @ sabo_screen_main.hpp:694-716 SaboScreenMain::UpdateEmergencyWidgets (icon) *)
Definition emergency_state (display_reasons service_reasons : Z) (t : EmergencyIconType) : IconState :=
  let blink (mask : Z) := if negb (Z.land display_reasons mask =? 0) then BLINK else OFF in
  match t with
  | GENERIC => if negb (display_reasons =? 0) then BLINK else OFF
  | ICON_STOP => blink STOP
  | WHEEL => blink (Z.lor (Z.lor LIFT LIFT_MULTIPLE) COLLISION)
  | TIMEOUT_ANY => blink (Z.lor TIMEOUT_HIGH_LEVEL TIMEOUT_INPUTS)
  | TIMEOUT_HL => if negb (Z.land service_reasons TIMEOUT_HIGH_LEVEL =? 0) then BLINK else ON
  end.
(* @ sabo_screen_main.hpp:668-673 SaboScreenMain::UpdateEmergencyWidgets (trigger) *)
Definition triggered_by (last service_reasons triggered : Z) : Z :=
  if (last =? 0) && negb (service_reasons =? 0) then service_reasons else if service_reasons =? 0 then 0 else triggered.
(* @ sabo_screen_main.hpp SaboScreenMain::UpdateEmergencyWidgets *)
Definition UpdateEmergencyWidgets (service_reasons : Z) (p : emergency_part) : emergency_part :=
  let triggered := triggered_by (last_emergency_reasons p) service_reasons (triggered_emergency_reasons p) in
  let p := p <| triggered_emergency_reasons := triggered |> in
  let sensors := sensor_reasons (last_sensor_bits_ p) in
  if (service_reasons =? last_emergency_reasons p) && (sensors =? last_sensor_reasons p) then p else
  let display_reasons := Z.lor sensors (Z.lor service_reasons triggered) in
  p <| last_emergency_reasons := service_reasons |> <| last_sensor_reasons := sensors |>
    <| emergency_icons_ ::= map (fun x => (x.1, SetState (emergency_state display_reasons service_reasons x.1) x.2)) |>.
(** The screen hears of an emergency's change by an event, and polls the sensors when there is none. *)
(* @ sabo_screen_main.hpp:186-199 SaboScreenMain::Tick (emergency) *)
Definition tick_emergency (v : main_view) (p : emergency_part) : emergency_part :=
  if view_event v then UpdateEmergencyWidgets (view_reasons v) p
  else if negb (view_sensors v =? last_sensor_bits_ p) then UpdateEmergencyWidgets (view_reasons v) (p <| last_sensor_bits_ := view_sensors v |>) else p.

(** ** The screen *)
(* @ sabo_screen_main.hpp:54-54 SaboScreenMain *)
Record main_screen := mkMain { gps_widgets : gps_part; power_widgets : power_part; state_widgets : state_part; emergency_widgets : emergency_part; update_phase : Z }.
#[export] Instance eta_main_screen : Eta main_screen := fun s => mkMain (gps_widgets s) (power_widgets s) (state_widgets s) (emergency_widgets s) (update_phase s).
(* @ sabo_screen_main.hpp SaboScreenMain::CreateTopbar *)
Definition CreateTopbar : list (EmergencyIconType * WidgetIcon) * WidgetIcon * WidgetIcon :=
  ([(GENERIC, new_icon EMERGENCY_GENERIC BLINK); (ICON_STOP, new_icon HAND_STOP OFF); (WHEEL, new_icon EMERGENCY_WHEEL_LIFT OFF);
    (TIMEOUT_ANY, new_icon TIMEOUT BLINK); (TIMEOUT_HL, new_icon ROS BLINK)], new_icon BATTERY_FULL ON, new_icon DOCKED ON).
(* @ sabo_screen_main.hpp SaboScreenMain::Create *)
Definition Create (reasons : Z) : main_screen :=
  let '(icons, battery, docked) := CreateTopbar in
  mkMain
    (mkGpsPart (mkLabel "0" false) (mkLabel "N/A" false) (mkLabel "N/A" false) (new_icon NO_RTK_FIX BLINK) (new_bar "N/A")
       false 0 RTK_NONE NO_FIX 0 (f_of_Z (-1)))
    (mkPowerPart battery (new_bar "N/A") docked (new_icon CURRENT ON) (new_bar "N/A") (mkLabel "" false) (mkLabel "" false) false false
       f0 0 BATTERY_FULL ON f0 f0 UNKNOWN)
    (mkStatePart (mkLabel ROS_OFFLINE_TEXT false) "" HL_UNKNOWN "")
    (UpdateEmergencyWidgets reasons (mkEmergencyPart icons 0 0xffff 0 0)) 0.
(* @ sabo_screen_main.hpp:173-184 SaboScreenMain::Tick (phases) *)
Definition tick_phase (v : main_view) (s : main_screen) : option main_screen :=
  let phase := update_phase s in
  s ← (if phase =? 0 then Some (s <| gps_widgets ::= UpdateGpsData v |>)
       else if phase =? 1 then g ← UpdateGpsBar v (gps_widgets s); Some (s <| gps_widgets := g |>)
       else if phase =? 2 then p ← UpdateBatteryWidgets v (power_widgets s); Some (s <| power_widgets := p |>)
       else if phase =? 3 then p ← UpdateCurrentWidgets v (power_widgets s); Some (s <| power_widgets := p |>)
       else if phase =? 4 then p ← UpdateDockWidgets v (power_widgets s); Some (s <| power_widgets := p |>)
       else Some (s <| state_widgets ::= UpdateRobotState v |>));
  Some (s <| update_phase := (phase + 1) mod 6 |>).
(* @ sabo_screen_main.hpp SaboScreenMain::Tick *)
Definition main_Tick (v : main_view) (s : main_screen) : option main_screen :=
  s ← tick_phase v s; Some (s <| emergency_widgets ::= tick_emergency v |>).
Fixpoint ticks (views : list main_view) (s : main_screen) : option main_screen :=
  match views with [] => Some s | v :: views => s ← main_Tick v s; ticks views s end.
End Main.
