(* ===== verification/SaboMainShows.v ===== *)
(** What the Sabo's main screen shows ([SaboMain]): it never meets an undefined percentage or text, its emergency icons
    follow the emergency, and twelve ticks with the same reports make the other widgets show them. *)
From Stdlib Require Import Reals Lra.
From stdpp Require Import strings.
From S2P Require Import Chprintf Prelude Json ServiceExt Float32 FloatError Leds Gps Charger SaboWidgets SaboPercent SaboMain.

(** ** Rounding to the nearest integer *)
Lemma d_round_FV x : is_finite x = true -> exists k, d_round x = Some k /\ (Rabs (IZR k - FV x) <= 1 / 2)%R.
Proof.
  destruct x as [s| | |s m e]; intros F; try discriminate; [exists 0; split; [reflexivity|cbn; rewrite Rminus_diag, Rabs_R0; lra]|].
  set (v := if 0 <=? e then Z.shiftl (Zpos m) e else Z.shiftr (Zpos m + Z.shiftl 1 (- e - 1)) (- e)).
  exists (if s then - v else v). split; [reflexivity|].
  assert (B : (Rabs (IZR v - IZR (Zpos m) * bpow e) <= 1 / 2)%R).
  { unfold v. destruct (Z.leb_spec 0 e) as [P|P].
    - rewrite Z.shiftl_mul_pow2, mult_IZR, <- bpow_Z, Rminus_diag, Rabs_R0 by exact P. lra.
    - rewrite Z.shiftr_div_pow2, Z.shiftl_mul_pow2, Z.mul_1_l by lia. set (h := 2 ^ (- e - 1)).
      assert (Eh : 2 ^ (- e) = 2 * h) by (unfold h; rewrite <- Z.pow_succ_r by lia; f_equal; lia). assert (0 < h) by (apply Z.pow_pos_nonneg; lia).
      pose proof (Z.mul_div_le (Zpos m + h) (2 ^ (- e)) ltac:(lia)) as L. pose proof (Z.mul_succ_div_gt (Zpos m + h) (2 ^ (- e)) ltac:(lia)) as U.
      set (q := (Zpos m + h) / 2 ^ (- e)) in *. rewrite Eh in L, U. apply IZR_le in L. apply IZR_lt in U.
      rewrite <- Z.add_1_r in U. rewrite ?mult_IZR, ?plus_IZR, ?mult_IZR in L, U.
      pose proof (bpow_opp (- e)) as O. rewrite Z.opp_involutive, (bpow_Z (- e)), Eh, mult_IZR in O by lia.
      pose proof (bpow_pos e) as P'. assert (H' : (0 < IZR h)%R) by (apply IZR_lt; assumption). set (b := bpow e) in *. set (M := IZR (Zpos m)) in *.
      apply (Rmult_le_compat_l b) in L; [|lra]. apply (Rmult_lt_compat_l b) in U; [|lra].
      assert (Eb : forall x, (b * (2 * IZR h * x) = x)%R) by (intros x; replace (b * (2 * IZR h * x))%R with (2 * IZR h * b * x)%R by ring; rewrite O; ring).
      rewrite Eb in L, U. rewrite plus_IZR in U. apply Rabs_le. lra. }
  cbn [FV]. replace (IZR (if s then - v else v) - _)%R with (sgn s * (IZR v - IZR (Zpos m) * bpow e))%R by (destruct s; cbn [sgn]; rewrite ?opp_IZR; ring).
  rewrite sgn_abs. exact B.
Qed.

(** ** Numbers *)
(** A float that is neither NaN nor infinite, of at most [c]. *)
Definition within (prec emax : Z) (c : R) (x : spec_float) : Prop := valid_binary prec emax x = true /\ is_finite x = true /\ (Rabs (FV x) <= c)%R.
Section Within.
Context (prec emax : Z) (Hprec : 1 < prec) (Hemax : prec + 2 < emax) (Hlarge : 42 <= emax).
Lemma within_rounds below r x c : rounds prec emax below r x -> (Rabs x <= c)%R -> (c <= 1000000000000)%R -> within prec emax (2 * c + 1) r.
Proof.
  intros (V & _ & F) H Hc. assert (Hb : (1000000000000 <= bpow (emax - 2))%R).
  { transitivity (bpow 40); [rewrite bpow_Z by lia; apply IZR_le; vm_compute; discriminate|apply bpow_le; lia]. }
  destruct (F ltac:(lra)) as [F1 F2]. split; [exact V|]. split; [exact F1|].
  assert (U : (0 < bpow (- prec) <= 1)%R) by (split; [apply bpow_pos|change 1%R with (bpow 0); apply bpow_le; lia]).
  assert (N : ((if below then bpow (emin prec emax - 1) else 0) <= 1)%R) by (destruct below; [change 1%R with (bpow 0); apply bpow_le; unfold emin; lia|lra]).
  pose proof (Rabs_pos x). assert (Rabs x * bpow (- prec) <= Rabs x)%R by nra. replace (FV r) with (x + (FV r - x))%R by ring. eapply Rle_trans; [apply Rabs_triang|]. lra.
Qed.
Lemma within_normalize k sz c : (Rabs (IZR k) <= c)%R -> (c <= 1000000000000)%R -> within prec emax (2 * c + 1) (binary_normalize prec emax k 0 sz).
Proof.
  intros H Hc. apply (within_rounds _ _ (IZR k * bpow 0) c (normalize_rounds prec emax Hprec Hemax k 0 sz)); [|exact Hc].
  change (bpow 0) with 1%R. rewrite Rmult_1_r. exact H.
Qed.
Lemma within_mul x s m e n c : within prec emax c x -> valid_binary prec emax (S754_finite s m e) = true -> FV (S754_finite s m e) = IZR n ->
  1 <= n <= 100 -> (c * IZR n <= 1000000000000)%R -> within prec emax (2 * (c * IZR n) + 1) (SFmul prec emax x (S754_finite s m e)).
Proof.
  intros (V & F & B) Vn En Hn Hc. eapply within_rounds; [apply SFmul_rounds; try assumption; reflexivity| |exact Hc].
  rewrite En, Rabs_mult, (Rabs_right (IZR n)) by (apply Rle_ge, IZR_le; lia). apply Rmult_le_compat_r; [apply IZR_le; lia|exact B].
Qed.
Lemma within_div x s m e n c : within prec emax c x -> FV (S754_finite s m e) = IZR n -> 1 <= n -> (c <= 1000000000000 * IZR n)%R ->
  within prec emax (2 * (c / IZR n) + 1) (SFdiv prec emax x (S754_finite s m e)).
Proof.
  intros (V & F & B) En Hn Hc. assert (N : (0 < IZR n)%R) by (apply IZR_lt; lia).
  eapply within_rounds; [apply SFdiv_rounds; assumption| |].
  - rewrite En. unfold Rdiv. rewrite Rabs_mult, (Rabs_right (/ IZR n)) by (left; apply Rinv_0_lt_compat, N). apply Rmult_le_compat_r; [left; apply Rinv_0_lt_compat, N|exact B].
  - apply (Rmult_le_reg_r (IZR n)); [exact N|]. unfold Rdiv. rewrite Rmult_assoc, Rinv_l, Rmult_1_r by lra. exact Hc.
Qed.
Lemma within_le c c' x : within prec emax c x -> (c <= c')%R -> within prec emax c' x.
Proof. intros (V & F & B) H. split; [exact V|split; [exact F|lra]]. Qed.
Lemma within_round x c s m e k : within prec emax c x -> x = S754_finite s m e -> d_round x = Some k -> (0 <= c)%R -> (c + 1 <= 1000000000000)%R ->
  within prec emax (2 * c + 3) (binary_normalize prec emax k 0 s).
Proof.
  intros (V & F & B) -> Hk Hc Hl. destruct (d_round_FV _ F) as (k' & E & R). rewrite Hk in E. injection E as <-.
  apply (within_le (2 * (c + 1) + 1)); [|lra]. apply within_normalize; [|exact Hl]. replace (IZR k) with (FV (S754_finite s m e) + (IZR k - FV (S754_finite s m e)))%R by ring.
  eapply Rle_trans; [apply Rabs_triang|]. lra.
Qed.
End Within.
Lemma within_fround x c : within 24 128 c x -> (0 <= c)%R -> (c + 1 <= 1000000000000)%R -> within 24 128 (2 * c + 3) (fround x).
Proof.
  intros W Hc Hl. unfold fround. destruct x as [s| | |s m e] eqn:E; try (apply (within_le 24 128 c); [exact W|lra]).
  destruct (d_round (S754_finite s m e)) as [k|] eqn:Hk; [|discriminate]. eapply within_round; try exact Hk; try eassumption; (lia || reflexivity).
Qed.
Lemma within_dround x c : within 53 1024 c x -> (0 <= c)%R -> (c + 1 <= 1000000000000)%R -> within 53 1024 (2 * c + 3) (dround x).
Proof.
  intros W Hc Hl. unfold dround. destruct x as [s| | |s m e] eqn:E; try (apply (within_le 53 1024 c); [exact W|lra]).
  destruct (d_round (S754_finite s m e)) as [k|] eqn:Hk; [|discriminate]. eapply within_round; try exact Hk; try eassumption; (lia || reflexivity).
Qed.
(** A report is of at most a hundred millions. *)
Definition reported (prec emax : Z) (x : spec_float) : Prop := within prec emax 100000000 x.
Lemma reported_literal prec emax x : (1 <? prec) && valid_binary prec emax x && match x with S754_finite _ _ e => e + prec <=? 26 | S754_zero _ => true | _ => false end = true -> reported prec emax x.
Proof.
  intros [[Hp V]%andb_prop B]%andb_prop. apply Z.ltb_lt in Hp. split; [exact V|]. destruct x as [| | |s m e]; try discriminate.
  - split; [reflexivity|]. cbn. rewrite Rabs_R0. lra.
  - split; [reflexivity|]. apply Z.leb_le in B. cbn [FV]. rewrite sgn_abs, Rabs_right by (apply Rle_ge, Rmult_le_pos; [apply IZR_le; lia|left; apply bpow_pos]).
    apply valid_finite in V as [C _]. pose proof (Zdigits2_bounds (Zpos m) ltac:(lia)) as [_ D].
    assert (Hm : Zpos m <= 2 ^ prec) by (transitivity (2 ^ Zdigits2 (Zpos m)); [lia|apply Z.pow_le_mono_r; [lia|unfold fexp in C; lia]]).
    apply IZR_le in Hm. rewrite <- bpow_Z in Hm by lia. transitivity (bpow prec * bpow e)%R; [apply Rmult_le_compat_r; [left; apply bpow_pos|exact Hm]|].
    rewrite <- bpow_add. transitivity (bpow 26); [apply bpow_le; lia|]. rewrite bpow_Z by lia. apply IZR_le. vm_compute. discriminate.
Qed.
(** A number that can be printed. *)
Definition printable (x : f32) : Prop := within 24 128 2000000000 x.
Lemma rounded_printable n s m e x : f_of_Z n = S754_finite s m e -> valid_binary 24 128 (f_of_Z n) = true -> FV (f_of_Z n) = IZR n -> 1 <= n <= 100 ->
  reported 24 128 x -> printable (rounded n x).
Proof.
  intros En V F Hn H. assert (N : (1 <= IZR n <= 100)%R) by (split; apply IZR_le; lia). unfold rounded. rewrite En in *.
  eapply (within_mul 24 128 ltac:(lia) ltac:(lia) ltac:(lia)) in H; [|exact V|exact F|exact Hn|lra]. apply within_fround in H; [|lra|lra].
  eapply (within_div 24 128 ltac:(lia) ltac:(lia) ltac:(lia)) in H; [|exact F|lia|lra]. eapply within_le; [exact H|].
  assert (I : (/ IZR n <= 1)%R) by (rewrite <- Rinv_1; apply Rinv_le_contravar; lra). assert (Q : (0 < / IZR n)%R) by (apply Rinv_0_lt_compat; lra).
  assert (E : ((2 * (2 * (100000000 * IZR n) + 1) + 3) / IZR n = 400000000 + 5 * / IZR n)%R) by (field; lra). rewrite E. lra.
Qed.
Lemma f_of_Z_value n : Z.abs n < 2 ^ 24 -> FV (f_of_Z n) = IZR n.
Proof. intros H. apply (normalize_exact 24 128); lia. Qed.
Lemma rounded_10 x : reported 24 128 x -> printable (rounded 10 x).
Proof. eapply rounded_printable; [reflexivity|reflexivity|apply f_of_Z_value; lia|lia]. Qed.
Lemma rounded_100 x : reported 24 128 x -> printable (rounded 100 x).
Proof. eapply rounded_printable; [reflexivity|reflexivity|apply f_of_Z_value; lia|lia]. Qed.
Definition shown_accuracy (x : f64) : f32 := f_of_f64 (ddiv (dround (dmul x (d_of_Z 100))) (d_of_Z 100)).
Lemma accuracy_printable x : reported 53 1024 x -> printable (shown_accuracy x).
Proof.
  intros H. unfold shown_accuracy. destruct (d_of_Z_exact 100 ltac:(lia)) as (V & _ & F). destruct (d_of_Z 100) as [| | |s m e] eqn:E; try discriminate.
  eapply (within_mul 53 1024 ltac:(lia) ltac:(lia) ltac:(lia) _ _ _ _ 100) in H; [|exact V|exact F|lia|lra]. apply within_dround in H; [|lra|lra].
  eapply (within_div 53 1024 ltac:(lia) ltac:(lia) ltac:(lia) _ _ _ _ 100) in H; [|exact F|lia|lra].
  fold (dmul x (S754_finite s m e)) in H. fold (ddiv (dround (dmul x (S754_finite s m e))) (S754_finite s m e)) in H.
  destruct H as (V' & F' & B). set (y := ddiv _ _) in *. clearbody y.
  destruct y as [s'| | |s' m' e']; try discriminate; [split; [reflexivity|split; [reflexivity|change (Rabs 0 <= 2000000000)%R; rewrite Rabs_R0; lra]]|].
  eapply within_le; [eapply (within_rounds 24 128); [lia..|apply normalize_rounds; lia| |]|].
  - rewrite <- finite_value. exact B.
  - lra.
  - lra.
Qed.
Lemma printable_number x : printable x -> valid_binary 24 128 x = true /\ x <> S754_nan.
Proof. intros (V & F & _). split; [exact V|]. intros ->. discriminate. Qed.
Lemma printable_fabs x : printable x -> printable (fabs x).
Proof.
  intros (V & F & B). destruct x as [| | |s m e]; try discriminate; [exact (conj V (conj F B))|]. split; [exact V|]. split; [reflexivity|].
  cbn [fabs SFabs FV sgn] in *. rewrite sgn_abs in B. rewrite Rmult_1_l. exact B.
Qed.
Lemma printable_0 : printable f0.
Proof. split; [reflexivity|split; [reflexivity|change (FV f0) with 0%R; rewrite Rabs_R0; lra]]. Qed.

(** ** Texts *)
Lemma printed_some size format args out : chvprintf (marker format) args = Some out -> (0 < size < 1000)%nat -> exists t, printed_in size format args = Some t.
Proof.
  intros E Hs. unfold printed_in. rewrite (chsnprintf_ok (replicate size 0) (Z.of_nat size) (marker format) args out) by (rewrite ?length_replicate; (lia || exact E)).
  cbn [mbind option_bind]. eauto.
Qed.
Lemma printable_directive x n rest : printable x -> 1 <= n <= 9 -> exists t, directive (46 :: 48 + n :: 102 :: rest) [ArgF x] = Some (Some (t, rest, [])).
Proof.
  intros (V & F & B) Hn. destruct (directive_float x n rest [] V F ltac:(change (IZR (2 ^ 31)) with 2147483648%R; lra) Hn) as (b & ip & fp & E & _). eauto.
Qed.
(** A number with [n] digits behind the point and a unit. *)
Lemma number_printed x n unit format : printable x -> 1 <= n <= 9 -> unit <> 37 -> marker format = [37; 46; 48 + n; 102; unit] -> exists t, screen_text format [ArgF x] = Some t.
Proof.
  intros P Hn Hu Hf. destruct (printable_directive x n [unit] P Hn) as (t & E). eapply printed_some; [|unfold MAIN_TEXT_BUFFER_SIZE; lia]. rewrite Hf.
  rewrite (chvprintf_directive _ _ _ _ _ E). change [unit] with ([unit] ++ []) at 1. rewrite chvprintf_text by (constructor; [exact Hu|constructor]). rewrite chvprintf_nil. reflexivity.
Qed.
Lemma battery_text_some percent volts : 0 <= percent <= 100 -> printable volts -> exists t, battery_text percent volts = Some t.
Proof.
  intros Hp P. destruct (directive_int percent (marker "%% / %.1fV") [ArgF volts]) as (ds & E1 & _); [unfold INT_MIN, INT_MAX; lia|].
  destruct (printable_directive volts 1 [86] P ltac:(lia)) as (t & E2). eapply printed_some; [|unfold MAIN_TEXT_BUFFER_SIZE; lia].
  change (marker "%d%% / %.1fV") with (37 :: 100 :: marker "%% / %.1fV"). rewrite (chvprintf_directive _ _ _ _ _ E1).
  change (marker "%% / %.1fV") with (37 :: [37; 32; 47; 32] ++ 37 :: 46 :: 48 + 1 :: 102 :: [86]) at 1.
  rewrite (chvprintf_directive ([37; 32; 47; 32] ++ 37 :: 46 :: 48 + 1 :: 102 :: [86]) [ArgF volts] [37] ([32; 47; 32] ++ 37 :: 46 :: 48 + 1 :: 102 :: [86]) [ArgF volts] eq_refl).
  rewrite chvprintf_text by (repeat (constructor; [discriminate|]); constructor). rewrite (chvprintf_directive _ _ _ _ _ E2).
  change [86] with ([86] ++ []) at 1. rewrite chvprintf_text by (repeat (constructor; [discriminate|]); constructor). rewrite chvprintf_nil. reflexivity.
Qed.
Lemma current_text_some a : printable a -> exists t, current_text a = Some t.
Proof. intros P. apply (number_printed a 2 65); [exact P|lia|discriminate|reflexivity]. Qed.
Lemma adapter_text_some a : printable a -> exists t, adapter_text a = Some t.
Proof. intros P. apply (number_printed a 1 86); [exact P|lia|discriminate|reflexivity]. Qed.

#[local] Arguments adapter_text : simpl never.
#[local] Arguments battery_text : simpl never.
#[local] Arguments current_text : simpl never.

(** Equal floats are the same but for the sign of zero. *)
Definition same (a b : f32) : Prop := a = b \/ is_zero a = true /\ is_zero b = true.
Lemma SFeqb_same a b : SFeqb a b = true -> same a b.
Proof.
  unfold SFeqb, same. destruct a as [s1|s1| |s1 m1 e1], b as [s2|s2| |s2 m2 e2]; cbn; try (intros; discriminate);
    try (destruct s1; discriminate); try (destruct s2; discriminate).
  - auto.
  - destruct s1, s2; try discriminate; auto.
  - destruct (Z.compare_spec e1 e2) as [->|?|?]; [|destruct s1, s2; discriminate..].
    change (Pos.compare_cont Eq m1 m2) with (m1 ?= m2)%positive. destruct (Pos.compare_spec m1 m2) as [->|?|?]; destruct s1, s2; cbn; intros; try discriminate; auto.
Qed.
Lemma fne_same a b : fne a b = false -> same a b.
Proof. unfold fne. intros H%negb_false_iff. apply SFeqb_same, H. Qed.
Lemma same_float_refl a : same a a.
Proof. left. reflexivity. Qed.

Section Shows.
Context `{ER : EmergencyReasons} `{HL : HighLevelStatuses} (HL_UNKNOWN SUBSTATE_4 : Z).
Context (lv_format : string -> list arg -> string).
Context (full_v min_v charge_a : f32) (Hfull : bound full_v) (Hmin : bound min_v) (Hcharge : bound charge_a).
Abbreviation Tick := (main_Tick HL_UNKNOWN SUBSTATE_4 lv_format full_v min_v charge_a).
Abbreviation Ticks := (ticks HL_UNKNOWN SUBSTATE_4 lv_format full_v min_v charge_a).
Abbreviation Battery := (UpdateBatteryWidgets full_v min_v).
Abbreviation Current := (UpdateCurrentWidgets charge_a).
Abbreviation Dock := UpdateDockWidgets.
Abbreviation Robot := (UpdateRobotState HL_UNKNOWN SUBSTATE_4).

(** ** No percentage and no text is undefined *)
(** Reports that are numbers, up to a hundred millions; a charge voltage that is one is not absurdly large. *)
Record proper (v : main_view) : Prop := {
  proper_accuracy : reported 53 1024 (position_h_accuracy (gps_state v));
  proper_bms : forall pack current, bms v = Some (pack, current) -> (pack = S754_nan \/ reported 24 128 pack) /\ reported 24 128 current;
  proper_battery : forall x, battery_reading v = Some x -> reported 24 128 x;
  proper_current : forall x, current_reading v = Some x -> reported 24 128 x;
  proper_adapter : forall x, adapter_reading v = Some x -> reported 24 128 x;
  proper_target : charge_voltage_target v = S754_nan \/ bound (charge_voltage_target v) }.

Lemma bound_literal x : valid_binary 24 128 x && is_finite x && match x with S754_finite _ _ e => e + 24 <=? 100 | _ => true end = true -> bound x.
Proof. intros [[V F]%andb_prop B]%andb_prop. split; [split; assumption|]. apply FV_bounded. rewrite V, B. reflexivity. Qed.
Lemma battery_volts_printable v : proper v -> printable (battery_volts v).
Proof.
  intros P. unfold battery_volts. assert (R : printable match battery_reading v with Some x => rounded 10 x | None => f0 end).
  { destruct (battery_reading v) eqn:E; [apply rounded_10, (proper_battery _ P), E|apply printable_0]. }
  destruct (bms v) as [[pack c]|] eqn:E; [|exact R]. destruct (fgt pack (f_of_Z 2)) eqn:G; [|exact R].
  apply rounded_10. destruct (proper_bms _ P _ _ E) as [[->|H] _]; [discriminate|exact H].
Qed.
Lemma battery_percent_defined v : proper v -> exists p, battery_percent full_v min_v v = Some p /\ 0 <= p <= 100.
Proof.
  intros P. destruct (printable_number _ (battery_volts_printable v P)) as [V N]. apply percent_defined; [exact V|exact N|exact Hmin|].
  unfold battery_full_v. destruct (proper_target _ P) as [->|B]; [exact Hfull|]. destruct (negb _ && _); assumption.
Qed.
Lemma shown_current_printable v : proper v -> printable (shown_current v).
Proof.
  intros P. unfold shown_current, has_bms_current. assert (R : printable match current_reading v with Some x => rounded 100 x | None => f0 end).
  { destruct (current_reading v) eqn:E; [apply rounded_100, (proper_current _ P), E|apply printable_0]. }
  destruct (bms v) as [[pack c]|] eqn:E; [|exact R]. destruct (fne c f0); [|exact R]. apply rounded_100, (proper_bms _ P _ _ E).
Qed.
Lemma current_percent_defined v : proper v -> exists p, GetPercent (fabs (shown_current v)) f0 charge_a false = Some p /\ 0 <= p <= 100.
Proof.
  intros P. destruct (printable_number _ (printable_fabs _ (shown_current_printable v P))) as [V N]. apply percent_defined; [exact V|exact N| |exact Hcharge]. apply bound_literal. reflexivity.
Qed.
Lemma UpdateGpsBar_defined v g : proper v -> exists g', UpdateGpsBar v g = Some g'.
Proof.
  intros P. unfold UpdateGpsBar. destruct (negb _); [eauto|]. fold (shown_accuracy (position_h_accuracy (gps_state v))). destruct (fne _ _); [|eauto].
  pose proof (accuracy_printable _ (proper_accuracy _ P)) as A. destruct (number_printed _ 2 109 "%.2fm" A ltac:(lia) ltac:(discriminate) eq_refl) as (t & ->).
  destruct (printable_number _ A) as [V N]. destruct (percent_defined (shown_accuracy (position_h_accuracy (gps_state v))) (f_lit 1 100) f1 true V N) as (p & -> & _); [apply bound_literal; reflexivity..|].
  cbn [mbind option_bind]. eauto.
Qed.
Lemma Battery_defined v p : proper v -> exists p', Battery v p = Some p'.
Proof.
  intros P. unfold UpdateBatteryWidgets. destruct (battery_percent_defined v P) as (n & -> & Hn). cbn [mbind option_bind]. destruct (_ || _); [|eauto].
  destruct (battery_text_some n (battery_volts v) Hn (battery_volts_printable v P)) as (t & ->). cbn [mbind option_bind]. eauto.
Qed.
Lemma Current_defined v p : proper v -> exists p', Current v p = Some p'.
Proof.
  intros P. unfold UpdateCurrentWidgets. destruct (negb _ && negb _); [eauto|]. destruct (fne _ _); [|eauto].
  destruct (current_text_some _ (shown_current_printable v P)) as (t & ->). destruct (current_percent_defined v P) as (n & -> & _). cbn [mbind option_bind]. eauto.
Qed.
Lemma Dock_defined v p : proper v -> exists p', Dock v p = Some p'.
Proof.
  intros P. unfold UpdateDockWidgets. match goal with |- context [if is_docked_ ?x then _ else _] => destruct (is_docked_ x) end; [|eauto].
  assert (A : printable match adapter_reading v with Some x => rounded 10 x | None => f0 end) by (destruct (adapter_reading v) eqn:E; [apply rounded_10, (proper_adapter _ P), E|apply printable_0]).
  destruct (fne _ _); [destruct (adapter_text_some _ A) as (t & ->)|]; cbn [mbind option_bind]; eauto.
Qed.
Lemma Tick_defined v s : proper v -> exists s', Tick v s = Some s'.
Proof.
  intros P. unfold main_Tick, tick_phase. destruct (_ =? 0); [cbn; eauto|].
  destruct (_ =? 1); [destruct (UpdateGpsBar_defined v (gps_widgets s) P) as [g ->]; cbn; eauto|].
  destruct (_ =? 2); [destruct (Battery_defined v (power_widgets s) P) as [g ->]; cbn; eauto|].
  destruct (_ =? 3); [destruct (Current_defined v (power_widgets s) P) as [g ->]; cbn; eauto|].
  destruct (_ =? 4); [destruct (Dock_defined v (power_widgets s) P) as [g ->]; cbn; eauto|]. cbn; eauto.
Qed.
Lemma Ticks_defined views s : Forall proper views -> exists s', Ticks views s = Some s'.
Proof.
  intros F. revert s. induction F as [|v views P F IH]; intros s; cbn; [eauto|]. destruct (Tick_defined v s P) as [s1 ->]. apply IH.
Qed.

(** ** The emergency's icons *)
Definition icon_types : list EmergencyIconType := [GENERIC; ICON_STOP; WHEEL; TIMEOUT_ANY; TIMEOUT_HL].
(** How the icons look when the services report [reasons], an emergency that began with [began] is going on, and
    the sensors were last polled as [bits]: without any cache. *)
Definition icons_for (reasons began bits : Z) : list (EmergencyIconType * appearance) :=
  map (fun t => (t, look (emergency_state (Z.lor (sensor_reasons bits) (Z.lor reasons began)) reasons t))) icon_types.
Definition displayed (p : emergency_part) : list (EmergencyIconType * appearance) := map (fun x => (x.1, seen x.2)) (emergency_icons_ p).
Record emergency_inv (p : emergency_part) : Prop := {
  inv_icons : Forall (fun x => icon_ok x.2) (emergency_icons_ p);
  inv_types : map fst (emergency_icons_ p) = icon_types;
  inv_sensors : last_sensor_reasons p = sensor_reasons (last_sensor_bits_ p);
  inv_began : last_emergency_reasons p = 0 -> triggered_emergency_reasons p = 0;
  inv_shown : displayed p = icons_for (last_emergency_reasons p) (triggered_emergency_reasons p) (last_sensor_bits_ p) }.

Lemma emergency_state_defined d r t : emergency_state d r t <> UNDEF.
Proof. destruct t; cbn; destruct (negb _); discriminate. Qed.
Lemma set_icons (f : EmergencyIconType -> IconState) (l : list (EmergencyIconType * WidgetIcon)) : (forall t, f t <> UNDEF) -> Forall (fun x => icon_ok x.2) l ->
  let l' := map (fun x => (x.1, SetState (f x.1) x.2)) l in
  Forall (fun x => icon_ok x.2) l' /\ map fst l' = map fst l /\ map (fun x => (x.1, seen x.2)) l' = map (fun t => (t, look (f t))) (map fst l).
Proof.
  intros Hf F. induction F as [|[t i] l O F (IH1 & IH2 & IH3)]; [repeat constructor|]. cbn in *.
  destruct (SetState_ok (f t) i (Hf t) O) as (O' & _ & E). split; [constructor; assumption|]. rewrite IH2, IH3, E. split; reflexivity.
Qed.
(** An update with new sensor bits shows the reasons and leaves nothing of what was shown before. *)
Lemma update_shows p reasons bits : Forall (fun x => icon_ok x.2) (emergency_icons_ p) -> map fst (emergency_icons_ p) = icon_types ->
  last_emergency_reasons p <> reasons \/ emergency_inv p ->
  let p' := UpdateEmergencyWidgets reasons (p <| last_sensor_bits_ := bits |>) in
  emergency_inv p' /\ last_sensor_bits_ p' = bits /\ last_emergency_reasons p' = reasons /\
  triggered_emergency_reasons p' = triggered_by (last_emergency_reasons p) reasons (triggered_emergency_reasons p).
Proof.
  intros Ho Ht Hc. assert (T0 : reasons = 0 -> triggered_by (last_emergency_reasons p) reasons (triggered_emergency_reasons p) = 0).
  { intros ->. unfold triggered_by. rewrite andb_false_r. reflexivity. }
  unfold UpdateEmergencyWidgets. destruct p as [icons old last lsr trig]. cbn in *.
  destruct (Z.eqb_spec reasons last) as [->|N]; cbn; [destruct (Z.eqb_spec (sensor_reasons bits) lsr) as [<-|N]|]; cbn.
  - destruct Hc as [C|[I1 I2 I3 I4 I5]]; [congruence|]. cbn in *.
    assert (T : triggered_by last last trig = trig) by (unfold triggered_by; destruct (Z.eqb_spec last 0); cbn; [rewrite I4 by assumption|]; reflexivity).
    rewrite T. split; [|split; [reflexivity|split; reflexivity]]. split; cbn; try assumption; [reflexivity|].
    rewrite I5. unfold icons_for. rewrite I3. reflexivity.
  - destruct (set_icons (emergency_state (Z.lor (sensor_reasons bits) (Z.lor last (triggered_by last last trig))) last) icons (emergency_state_defined _ _) Ho) as (A & B & C).
    split; [|split; [reflexivity|split; reflexivity]]. split; cbn; [exact A|rewrite B; exact Ht|reflexivity|exact T0|]. unfold displayed. cbn. rewrite C, Ht. reflexivity.
  - destruct (set_icons (emergency_state (Z.lor (sensor_reasons bits) (Z.lor reasons (triggered_by last reasons trig))) reasons) icons (emergency_state_defined _ _) Ho) as (A & B & C).
    split; [|split; [reflexivity|split; reflexivity]]. split; cbn; [exact A|rewrite B; exact Ht|reflexivity|exact T0|]. unfold displayed. cbn. rewrite C, Ht. reflexivity.
Qed.

(** Which reports the screen takes notice of, starting with the sensors' [bits]: those with an event, and those with
    other sensors; and the bits it has polled then. *)
Definition takes_notice (bits : Z) (v : main_view) : bool := view_event v || negb (view_sensors v =? bits).
Definition polled (bits : Z) (v : main_view) : Z := if view_event v then bits else view_sensors v.
Fixpoint noticed (bits : Z) (views : list main_view) : list Z :=
  match views with [] => [] | v :: views => (if takes_notice bits v then [view_reasons v] else []) ++ noticed (polled bits v) views end.
(** The reasons an emergency began with, from the reasons noticed: the first ones after there were none. *)
Fixpoint began_with (last began : Z) (reasons : list Z) : Z * Z :=
  match reasons with [] => (last, began) | r :: reasons => began_with r (triggered_by last r began) reasons end.

Lemma tick_emergency_shows v p : emergency_inv p -> let p' := tick_emergency v p in
  emergency_inv p' /\ last_sensor_bits_ p' = polled (last_sensor_bits_ p) v /\
  (last_emergency_reasons p', triggered_emergency_reasons p') =
    began_with (last_emergency_reasons p) (triggered_emergency_reasons p) (noticed (last_sensor_bits_ p) [v]).
Proof.
  intros I. unfold tick_emergency, noticed, takes_notice, polled. rewrite app_nil_r. destruct (view_event v); cbn [orb].
  - destruct (update_shows p (view_reasons v) (last_sensor_bits_ p)) as (A & B & C & D); [apply I|apply I|right; exact I|].
    replace (p <| last_sensor_bits_ := last_sensor_bits_ p |>) with p in * by (destruct p; reflexivity). rewrite B, C, D. split; [exact A|split; reflexivity].
  - destruct (Z.eqb_spec (view_sensors v) (last_sensor_bits_ p)) as [E|N]; cbn.
    + split; [exact I|split; [congruence|reflexivity]].
    + destruct (update_shows p (view_reasons v) (view_sensors v)) as (A & B & C & D); [apply I|apply I|right; exact I|].
      split; [exact A|split; [exact B|apply f_equal2; [exact C|exact D]]].
Qed.
Lemma began_with_app a b l1 l2 : began_with a b (l1 ++ l2) = let '(a, b) := began_with a b l1 in began_with a b l2.
Proof. revert a b. induction l1 as [|r l1 IH]; intros a b; cbn; [reflexivity|apply IH]. Qed.
Lemma Tick_emergency v s s' : Tick v s = Some s' -> emergency_widgets s' = tick_emergency v (emergency_widgets s).
Proof.
  unfold main_Tick, tick_phase. intros H. apply bind_Some in H as (s2 & H & [= <-]). cbn. f_equal. apply bind_Some in H as (s1 & H & [= <-]). cbn.
  repeat match type of H with context [if ?b then _ else _] => destruct b end; try (injection H as <-; reflexivity);
    apply bind_Some in H as (x & _ & [= <-]); reflexivity.
Qed.
Lemma Ticks_emergency views s s' : Ticks views s = Some s' -> emergency_inv (emergency_widgets s) ->
  emergency_inv (emergency_widgets s') /\
  last_sensor_bits_ (emergency_widgets s') = fold_left polled views (last_sensor_bits_ (emergency_widgets s)) /\
  (last_emergency_reasons (emergency_widgets s'), triggered_emergency_reasons (emergency_widgets s')) =
    began_with (last_emergency_reasons (emergency_widgets s)) (triggered_emergency_reasons (emergency_widgets s)) (noticed (last_sensor_bits_ (emergency_widgets s)) views).
Proof.
  revert s. induction views as [|v views IH]; intros s H I; cbn in H; [injection H as <-; auto|].
  apply bind_Some in H as (s1 & H1 & H). destruct (tick_emergency_shows v _ I) as (I1 & B1 & T1). rewrite <- (Tick_emergency _ _ _ H1) in *.
  destruct (IH s1 H I1) as (I2 & B2 & T2). split; [exact I2|]. rewrite B2, T2, B1. split; [reflexivity|].
  change (noticed _ (v :: views)) with ((if takes_notice (last_sensor_bits_ (emergency_widgets s)) v then [view_reasons v] else []) ++ noticed (polled (last_sensor_bits_ (emergency_widgets s)) v) views).
  rewrite began_with_app. unfold noticed in T1. rewrite app_nil_r in T1. rewrite <- T1. reflexivity.
Qed.

Lemma created_emergency r0 : r0 <> 0xffff -> let p := emergency_widgets (Create HL_UNKNOWN r0) in
  emergency_inv p /\ last_sensor_bits_ p = 0 /\ last_emergency_reasons p = r0 /\ triggered_emergency_reasons p = 0.
Proof.
  intros N. set (p0 := mkEmergencyPart CreateTopbar.1.1 0 0xffff 0 0). change (emergency_widgets (Create HL_UNKNOWN r0)) with (UpdateEmergencyWidgets r0 (p0 <| last_sensor_bits_ := 0 |>)).
  destruct (update_shows p0 r0 0) as (A & B & C & D); [repeat (constructor; [split; [discriminate|reflexivity]|]); constructor|reflexivity|left; cbn; congruence|].
  split; [exact A|]. split; [exact B|]. split; [exact C|]. rewrite D. unfold triggered_by. cbn. destruct (r0 =? 0); reflexivity.
Qed.
Lemma began_with_fst a b l : (began_with a b l).1 = default a (last l).
Proof. revert a b. induction l as [|r l IH]; intros a b; [reflexivity|]. cbn [began_with]. rewrite IH, last_cons. destruct (last l); reflexivity. Qed.
Lemma noticed_app bits l1 l2 : noticed bits (l1 ++ l2) = noticed bits l1 ++ noticed (fold_left polled l1 bits) l2.
Proof. revert bits. induction l1 as [|v l1 IH]; intros bits; cbn; [reflexivity|]. rewrite IH, app_assoc. reflexivity. Qed.
Lemma noticed_constant r views : Forall (fun v => view_reasons v = r) views -> forall bits, Forall (eq r) (noticed bits views).
Proof. intros F. induction F as [|v l E F IH]; intros bits; cbn; [constructor|]. destruct (takes_notice bits v); cbn; [constructor; [congruence|]|]; apply IH. Qed.
(** Reasons noticed after there were none are what the emergency began with, until there are none again. *)
Lemma began_with_goes_on r rest : Forall (fun x => x <> 0) rest -> forall last, last <> 0 -> (began_with last r rest).2 = r.
Proof.
  intros F. induction F as [|x rest N F IH]; intros last L; [reflexivity|]. cbn. unfold triggered_by. rewrite (proj2 (Z.eqb_neq last 0) L), (proj2 (Z.eqb_neq x 0) N).
  apply IH, N.
Qed.
Lemma began_with_first a b l r rest : r <> 0 -> Forall (fun x => x <> 0) rest -> (began_with a b (l ++ 0 :: r :: rest)).2 = r.
Proof.
  intros N F. rewrite began_with_app. destruct (began_with a b l) as [a' b']. cbn. unfold triggered_by at 1. cbn. rewrite (proj2 (Z.eqb_neq r 0) N).
  apply began_with_goes_on; assumption.
Qed.

(** C31. The emergency is shown. The reports since the screen was created are numbers of at most a hundred millions
    (the pack's voltage may be NaN, as may the charger's target, which is otherwise at most 2^100). Then the screen
    does not fail: every percentage and every number that is printed, by ChibiOS' [chsnprintf] as it is, fits its
    integer. And once the emergency's last change has been announced by an event the five icons are exactly those of
    the reasons now, of the sensors as last polled and of the reasons the emergency began with (those noticed first
    after there were none), although they are redrawn only on events and changes. Beyond that range the screen can
    fail: [huge_voltage_is_undefined], [nan_accuracy_is_undefined]. *)
Theorem emergency_is_shown r0 before v after r : r0 <> 0xffff -> Forall proper (before ++ v :: after) ->
  view_event v = true -> Forall (fun v => view_reasons v = r) (v :: after) ->
  exists s, Ticks (before ++ v :: after) (Create HL_UNKNOWN r0) = Some s /\
    displayed (emergency_widgets s) =
      icons_for r (began_with r0 0 (noticed 0 (before ++ v :: after))).2 (fold_left polled (before ++ v :: after) 0).
Proof.
  intros N P Ev R. destruct (Ticks_defined _ (Create HL_UNKNOWN r0) P) as [s E]. exists s. split; [exact E|].
  destruct (created_emergency r0 N) as (I0 & B0 & L0 & T0). destruct (Ticks_emergency _ _ _ E I0) as (I & B & T). rewrite B0, L0, T0 in *.
  rewrite (inv_shown _ I). replace (last_emergency_reasons (emergency_widgets s)) with r; [apply (f_equal snd) in T; cbn in T; rewrite T, B; reflexivity|].
  apply (f_equal fst) in T. cbn [fst] in T. rewrite T, began_with_fst, noticed_app. pose proof (noticed_constant r _ R (fold_left polled before 0)) as F.
  cbn [noticed] in *. unfold takes_notice in *. rewrite Ev in *. cbn [orb app] in *. set (l := noticed _ after) in *. rewrite last_app, last_cons.
  apply Forall_cons in F as [-> F]. destruct (last l) as [x|] eqn:El; [|reflexivity]. cbn. apply last_Some_elem_of in El.
  rewrite Forall_forall in F. apply F, El.
Qed.

(** ** The battery *)
Definition is_text (t : option string) (b : WidgetTextBar) : Prop := exists s, t = Some s /\ text_buffer_ b = String.substring 0 63 s.
Definition bar_of_battery (percent : Z) (volts : f32) (b : WidgetTextBar) : Prop := bar_value b = percent /\ is_text (battery_text percent volts) b.
Record battery_inv (p : power_part) : Prop := {
  inv_battery_bar : bar_ok (battery_voltage_bar p);
  inv_battery_icon : icon_ok (icon_battery p) /\ glyph_ok (icon_battery p) /\ glyph (icon_battery p) = ICONS (last_battery_icon p) /\
    icon_state (icon_battery p) = last_battery_state p /\ last_battery_icon p <> ICON_UNDEF;
  inv_battery_last : (last_battery_icon p, last_battery_state p) = battery_icon (last_battery_percent p) \/ last_battery_percent p = 0;
  inv_battery_text : bar_of_battery (last_battery_percent p) (last_battery_volts p) (battery_voltage_bar p) \/ last_battery_percent p = 0 }.
(** The bar, its text and the icon are those of the reported voltage. *)
Definition battery_shown (v : main_view) (p : power_part) : Prop := exists percent volts,
  battery_percent full_v min_v v = Some percent /\ same (battery_volts v) volts /\ bar_of_battery percent volts (battery_voltage_bar p) /\
  glyph (icon_battery p) = ICONS (battery_icon percent).1 /\ seen (icon_battery p) = look (battery_icon percent).2.

Lemma battery_icon_defined n : (battery_icon n).1 <> ICON_UNDEF /\ (battery_icon n).2 <> UNDEF.
Proof. unfold battery_icon. repeat match goal with |- context [if ?b then _ else _] => destruct b end; split; discriminate. Qed.
Lemma set_bar v t b : bar_ok b -> let b' := SetValuesOnBarChange v (Some t) b in bar_ok b' /\ bar_value b' = v /\ is_text (Some t) b' /\ bar_hidden b' = bar_hidden b.
Proof. intros O b'. subst b'. rewrite SetValuesOnBarChange_sets by exact O. split; [apply SetValues_ok, O|split; [reflexivity|split; [exists t; split; reflexivity|reflexivity]]]. Qed.
Lemma set_icon icon s i : icon <> ICON_UNDEF -> s <> UNDEF -> icon_ok i -> glyph_ok i -> let i' := SetState s (SetIcon icon i) in
  icon_ok i' /\ glyph_ok i' /\ glyph i' = ICONS icon /\ icon_state i' = s.
Proof.
  intros Ni Ns O G i'. subst i'. destruct (SetIcon_ok icon i O) as (O1 & _ & _). destruct (SetIcon_glyph icon i Ni G) as (G1 & E1 & L1).
  destruct (SetState_ok s _ Ns O1) as (O2 & S2 & _). destruct (SetState_glyph s (SetIcon icon i)) as [E2 L2].
  split; [exact O2|]. split; [|split; [congruence|exact S2]]. intros N. rewrite L2, E2, L1 in *. exact E1.
Qed.
Lemma Battery_shows v p p' : Battery v p = Some p' -> battery_inv p ->
  battery_inv p' /\ (battery_percent full_v min_v v <> Some 0 -> battery_shown v p').
Proof.
  unfold UpdateBatteryWidgets. intros H [B (Io & Ig & Eg & Es & Nu) L T]. apply bind_Some in H as (n & En & H).
  destruct (battery_icon_defined n) as [N1 N2]. destruct (battery_icon n) as [icon state] eqn:Ei. cbn [fst snd] in N1, N2.
  set (p1 := if negb (n =? last_battery_percent p) then _ else p) in H.
  assert (F : battery_voltage_bar p1 = battery_voltage_bar p /\ last_battery_percent p1 = last_battery_percent p /\ last_battery_volts p1 = last_battery_volts p).
  { clear H. subst p1. destruct (negb _); [|auto]. destruct (_ || _); auto. }
  assert (J : icon_ok (icon_battery p1) /\ glyph_ok (icon_battery p1) /\ glyph (icon_battery p1) = ICONS (last_battery_icon p1) /\
    icon_state (icon_battery p1) = last_battery_state p1 /\ last_battery_icon p1 <> ICON_UNDEF /\
    ((last_battery_icon p1, last_battery_state p1) = (icon, state) \/ n = 0)).
  { clear H. subst p1. destruct (Z.eqb_spec n (last_battery_percent p)) as [->|Nn]; cbn [negb].
    - repeat (split; [assumption|]). rewrite <- Ei. exact L.
    - destruct (bool_decide_reflect (icon <> last_battery_icon p)) as [C|C]; [|destruct (bool_decide_reflect (state <> last_battery_state p)) as [C'|C']]; cbn [orb].
      1,2: destruct (set_icon icon state (icon_battery p) N1 N2 Io Ig) as (X1 & X2 & X3 & X4); cbn; repeat (split; [assumption|]); left; reflexivity.
      apply dec_stable in C, C'. repeat (split; [assumption|]). left. congruence. }
  clearbody p1. destruct F as (F1 & F2 & F3), J as (J1 & J2 & J3 & J4 & J5 & J6). rewrite <- F1 in B, T. rewrite <- F2, <- F3 in T, H. clear F1 F2 F3 Io Ig Eg Es Nu L.
  assert (K : forall p2, icon_battery p2 = icon_battery p1 -> last_battery_icon p2 = last_battery_icon p1 -> last_battery_state p2 = last_battery_state p1 ->
    last_battery_percent p2 = n -> same (battery_volts v) (last_battery_volts p2) -> bar_ok (battery_voltage_bar p2) ->
    (bar_of_battery n (last_battery_volts p2) (battery_voltage_bar p2) \/ n = 0) ->
    battery_inv p2 /\ (battery_percent full_v min_v v <> Some 0 -> battery_shown v p2)).
  { intros p2 E1 E2 E3 E4 Sv Bo Bt. split.
    - split; [exact Bo|rewrite E1, E2, E3; auto|rewrite E2, E3, E4, Ei; exact J6|rewrite E4; exact Bt].
    - intros Nz. rewrite En in Nz. exists n, (last_battery_volts p2). destruct J6 as [J6|]; [|congruence]. destruct Bt as [Bt|]; [|congruence].
      rewrite E1, Ei, J3, (proj2 J1), J4. injection J6 as <- <-. repeat (split; [assumption|]). split; reflexivity. }
  destruct (fne (battery_volts v) (last_battery_volts p1)) eqn:Ef; [|destruct (Z.eqb_spec n (last_battery_percent p1)) as [->|Nn]]; cbn [orb negb] in H.
  2:{ injection H as <-. apply K; try reflexivity; [apply fne_same, Ef|exact B|exact T]. }
  all: apply bind_Some in H as (t & Et & [= <-]); destruct (set_bar n t _ B) as (X1 & X2 & X3 & _).
  all: apply K; try reflexivity; [apply same_float_refl|exact X1|left; split; [exact X2|]; cbn; rewrite Et; exact X3].
Qed.

(** ** The current and the dock *)
Definition bar_of_current (a : f32) (b : WidgetTextBar) : Prop :=
  GetPercent (fabs a) f0 charge_a false = Some (bar_value b) /\ is_text (current_text a) b /\ right_to_left b = flt a f0.
Record dock_inv (p : power_part) : Prop := {
  inv_current_bar : bar_ok (current_bar p);
  inv_current : bar_of_current (last_current p) (current_bar p) \/ is_zero (last_current p) = true;
  inv_dock_icons : icon_ok (icon_docked p) /\ icon_ok (icon_current p);
  inv_adapter : adapter_text (last_adapter_volts p) = Some (text (adapter_voltage_label p)) \/ is_zero (last_adapter_volts p) = true;
  inv_status : text (charger_status_label p) = statusToString (last_charger_status p) \/ last_charger_status p = UNKNOWN }.
(** The bar is that of the reported current. *)
Definition current_shown (v : main_view) (p : power_part) : Prop := exists a, same (shown_current v) a /\ bar_of_current a (current_bar p).
(** The dock's icon, and what is shown in the dock and outside: in it the adapter's voltage and the charger's status,
    outside the current only if the battery's management reports one. *)
Definition dock_shown (v : main_view) (volts : f32) (p : power_part) : Prop :=
  let docked := fgt volts (f_of_Z 10) in
  seen (icon_docked p) = (if docked then Steady else Hidden) /\
  if docked then
    seen (icon_current p) = Steady /\ bar_hidden (current_bar p) = false /\ hidden (adapter_voltage_label p) = false /\ hidden (charger_status_label p) = false /\
    adapter_text volts = Some (text (adapter_voltage_label p)) /\ (reported_status v <> UNKNOWN -> text (charger_status_label p) = statusToString (reported_status v))
  else if has_bms_current v then hidden (adapter_voltage_label p) = true /\ hidden (charger_status_label p) = true
  else seen (icon_current p) = Hidden /\ bar_hidden (current_bar p) = true.

Lemma same_nonzero a b : same a b -> is_zero b = false -> a = b.
Proof. intros [E|[_ E]] N; [exact E|congruence]. Qed.
Lemma docked_nonzero a : fgt a (f_of_Z 10) = true -> is_zero a = false.
Proof. destruct a; intros H; try reflexivity. discriminate. Qed.
Lemma fne_nonzero a : fne a f0 = true -> is_zero a = false.
Proof. destruct a; intros H; try reflexivity. discriminate. Qed.
Lemma same_zero a b : same a b -> is_zero a = is_zero b.
Proof. intros [->|[-> ->]]; reflexivity. Qed.

Lemma Current_shows v p p' : Current v p = Some p' -> dock_inv p ->
  dock_inv p' /\ has_bms_current_ p' = has_bms_current v /\ is_docked_ p' = is_docked_ p /\
  (is_docked_ p || has_bms_current v = true -> fne (shown_current v) f0 = true -> current_shown v p').
Proof.
  unfold UpdateCurrentWidgets. intros H [B C I A S]. set (p0 := p <| has_bms_current_ := has_bms_current v |>) in *.
  change (is_docked_ p0) with (is_docked_ p) in H. change (has_bms_current_ p0) with (has_bms_current v) in H. rewrite <- negb_orb in H.
  destruct (is_docked_ p || has_bms_current v); cbn [negb] in H.
  2:{ injection H as <-. split; [split; assumption|]. split; [reflexivity|]. split; [reflexivity|discriminate]. }
  change (last_current p0) with (last_current p) in H. destruct (fne (shown_current v) (last_current p)) eqn:Ef.
  - apply bind_Some in H as (t & Et & H). apply bind_Some in H as (n & En & [= <-]).
    destruct (set_bar n t _ B) as (X1 & X2 & X3 & _).
    assert (Bar : bar_of_current (shown_current v) (SetBaseDir (flt (shown_current v) f0) (SetValuesOnBarChange n (Some t) (current_bar p)))).
    { split; [cbn; rewrite X2; exact En|]. split; [rewrite Et; exact X3|reflexivity]. }
    split; [split; cbn; try assumption; left; exact Bar|]. split; [reflexivity|]. split; [reflexivity|]. intros _ _. exists (shown_current v). split; [apply same_float_refl|exact Bar].
  - injection H as <-. split; [split; assumption|]. split; [reflexivity|]. split; [reflexivity|]. intros _ Nz. apply fne_same in Ef.
    exists (last_current p). split; [exact Ef|]. destruct C as [C|C]; [exact C|]. rewrite <- (same_zero _ _ Ef), (fne_nonzero _ Nz) in C. discriminate.
Qed.
Lemma Dock_shows v p p' : Dock v p = Some p' -> dock_inv p ->
  dock_inv p' /\ has_bms_current_ p' = has_bms_current_ p /\
  (forall x, adapter_reading v = Some x -> is_docked_ p' = fgt (rounded 10 x) (f_of_Z 10) /\
    (has_bms_current_ p = has_bms_current v -> dock_shown v (rounded 10 x) p')).
Proof.
  intros H [B C [I1 I2] A S]. revert H. unfold UpdateDockWidgets. set (volts := match adapter_reading v with Some x => rounded 10 x | None => f0 end).
  set (d := match adapter_reading v with Some _ => fgt volts (f_of_Z 10) | None => is_docked_ p end).
  replace (match adapter_reading v with Some _ => p <| is_docked_ := fgt volts (f_of_Z 10) |> | None => p end) with (p <| is_docked_ := d |>)
    by (unfold d; destruct (adapter_reading v); [reflexivity|destruct p; reflexivity]).
  assert (D : forall x, adapter_reading v = Some x -> volts = rounded 10 x /\ d = fgt (rounded 10 x) (f_of_Z 10)) by (intros x E; unfold d, volts; rewrite E; split; reflexivity).
  destruct p as [? ? idock icur bar alabel slabel ? bms0 ? ? ? ? lcur lvolts lstat]. cbn in B, C, I1, I2, A, S |- *. clearbody d volts.
  destruct (SetState_ok (if d then ON else OFF) idock ltac:(destruct d; discriminate) I1) as (O1 & _ & S1).
  destruct (SetState_ok ON icur ltac:(discriminate) I2) as (O2 & _ & S2). destruct (SetState_ok OFF icur ltac:(discriminate) I2) as (O3 & _ & S3).
  unfold current_shown, dock_shown. destruct d; cbn; [|destruct bms0; cbn; intros [= <-]; cbn].
  - assert (T : fne volts lvolts = false -> is_zero volts = false -> adapter_text volts = Some (text alabel)).
    { intros Ef Nz. apply fne_same in Ef. rewrite (same_zero _ _ Ef) in Nz. destruct A as [A|A]; [|congruence]. rewrite <- A. f_equal. apply (same_nonzero _ _ Ef), Nz. }
    assert (T' : reported_status v = lstat -> reported_status v <> UNKNOWN -> text slabel = statusToString (reported_status v)).
    { intros <- N. destruct S as [S|S]; [exact S|congruence]. }
    intros H. apply bind_Some in H as (p1 & H1 & [= <-]). destruct (fne volts lvolts); [apply bind_Some in H1 as (t & Et & [= <-])|injection H1 as <-]; cbn;
      (destruct (decide (reported_status v = lstat)) as [Es|Es]; cbn); (split; [split; cbn; auto|]); (split; [reflexivity|]);
      intros x E; destruct (D x E) as [-> D2]; (split; [exact D2|]); intros Hb; rewrite <- D2; repeat (split; [assumption || reflexivity || (apply T; [reflexivity|apply docked_nonzero; congruence])|]); auto.
  - split; [split; cbn; auto|]. split; [reflexivity|]. intros x E. destruct (D x E) as [-> D2]. split; [exact D2|]. intros Hb. rewrite <- Hb, <- D2. auto.
  - split; [split; cbn; auto|]. split; [reflexivity|]. intros x E. destruct (D x E) as [-> D2]. split; [exact D2|]. intros Hb. rewrite <- Hb, <- D2. auto.
Qed.

(** What each update leaves alone. *)
Lemma Battery_frame v p p' : Battery v p = Some p' -> has_bms_current_ p' = has_bms_current_ p /\ is_docked_ p' = is_docked_ p /\
  (dock_inv p -> dock_inv p') /\ (forall w, current_shown w p -> current_shown w p') /\ (forall w x, dock_shown w x p -> dock_shown w x p').
Proof.
  unfold UpdateBatteryWidgets. intros H. apply bind_Some in H as (n & _ & H). destruct (battery_icon n) as [icon state].
  destruct (fne (battery_volts v) (last_battery_volts p)), (n =? last_battery_percent p), (bool_decide (icon <> last_battery_icon p)), (bool_decide (state <> last_battery_state p));
    cbn in H; try (apply bind_Some in H as (t & _ & H)); injection H as <-; cbn; (split; [reflexivity|]); (split; [reflexivity|]);
    (split; [intros [B C I A S]; split; assumption|]); split; intros; assumption.
Qed.
Lemma Current_frame v p p' : Current v p = Some p' -> (battery_inv p -> battery_inv p') /\ (forall w, battery_shown w p -> battery_shown w p') /\
  (dock_inv p -> forall w x, dock_shown w x p -> dock_shown w x p').
Proof.
  unfold UpdateCurrentWidgets. set (p0 := p <| has_bms_current_ := has_bms_current v |>). intros H.
  destruct (negb _ && negb _); [injection H as <-; split; [intros []; split; assumption|split; intros; assumption]|].
  destruct (fne _ _); [|injection H as <-; split; [intros []; split; assumption|split; intros; assumption]].
  apply bind_Some in H as (t & _ & H). apply bind_Some in H as (n & _ & [= <-]). split; [intros []; split; assumption|]. split; [intros; assumption|]. intros D w x.
  destruct (set_bar n t _ (inv_current_bar _ D)) as (_ & _ & _ & E).
  unfold dock_shown. cbn -[SetValuesOnBarChange SetBaseDir]. unfold SetBaseDir. cbn -[SetValuesOnBarChange].
  subst p0. cbn -[SetValuesOnBarChange]. rewrite E. auto.
Qed.
Lemma Dock_frame v p p' : Dock v p = Some p' -> (battery_inv p -> battery_inv p') /\ (forall w, battery_shown w p -> battery_shown w p') /\
  (forall w, current_shown w p -> current_shown w p').
Proof.
  unfold UpdateDockWidgets. intros H. destruct p. destruct (adapter_reading v); cbn in H;
    repeat (match type of H with context [if ?b then _ else _] => destruct b end; cbn in H);
    repeat (match goal with E : (_ ≫= _) = Some _ |- _ => let x := fresh "x" in let E' := fresh "E" in apply bind_Some in E as (x & E' & E) end);
    repeat (match goal with E : Some _ = Some _ |- _ => injection E as <- end); repeat (match goal with |- context [decide ?b] => destruct (decide b) end);
    (split; [intros [B I L T]; split; assumption|split; intros w Q; exact Q]).
Qed.

(** ** The robot's state *)
(** The name of a state that does not depend on what was shown before. *)
Definition known_state (v : main_view) : Prop := forall a b, named_state SUBSTATE_4 v a = named_state SUBSTATE_4 v b.
Definition state_inv (p : state_part) : Prop := last_hl_status p = HL_UNKNOWN \/
  exists v before, view_status v = last_hl_status p /\ view_sub_name v = last_sub_state_name p /\ text (state_label p) = named_state SUBSTATE_4 v before.
Definition state_shown (v : main_view) (p : state_part) : Prop :=
  text (state_label p) = if negb (Z.land (view_reasons v) TIMEOUT_HIGH_LEVEL =? 0) then ROS_OFFLINE_TEXT else named_state SUBSTATE_4 v "".
Lemma named_state_ext v w a : view_status v = view_status w -> view_sub_name v = view_sub_name w -> named_state SUBSTATE_4 v a = named_state SUBSTATE_4 w a.
Proof. intros E1 E2. unfold named_state, view_main_state, view_sub_state. rewrite E1, E2. reflexivity. Qed.
Lemma Robot_shows v p : state_inv p -> state_inv (Robot v p) /\ (known_state v -> view_status v <> HL_UNKNOWN -> state_shown v (Robot v p)).
Proof.
  intros I. unfold UpdateRobotState, state_shown. destruct (negb _); [split; [left; reflexivity|reflexivity]|].
  destruct (Z.eqb_spec (view_status v) (last_hl_status p)) as [E|N]; cbn [andb]; [destruct (bool_decide_reflect (view_sub_name v = last_sub_state_name p)) as [E'|N]|].
  2,3: split; [right; exists v, (state_name p); repeat split|intros K _; apply K].
  split; [exact I|]. intros K Nu. destruct I as [I|(w & b & W1 & W2 & T)]; [congruence|]. rewrite T. rewrite (named_state_ext w v b) by congruence. apply K.
Qed.

(** ** A tick *)
Definition phase_effect (v : main_view) (s s' : main_screen) : Prop :=
  let k := update_phase s in
  update_phase s' = (k + 1) mod 6 /\
  (if k =? 2 then Battery v (power_widgets s) = Some (power_widgets s')
   else if k =? 3 then Current v (power_widgets s) = Some (power_widgets s')
   else if k =? 4 then Dock v (power_widgets s) = Some (power_widgets s') else power_widgets s' = power_widgets s) /\
  (if k =? 5 then state_widgets s' = Robot v (state_widgets s) else state_widgets s' = state_widgets s).
Lemma Tick_effect v s s' : Tick v s = Some s' -> 0 <= update_phase s < 6 -> phase_effect v s s'.
Proof.
  unfold main_Tick, tick_phase, phase_effect. intros H Hk. apply bind_Some in H as (s2 & H & [= <-]). apply bind_Some in H as (s1 & H & [= <-]). cbn.
  assert (C : update_phase s = 0 \/ update_phase s = 1 \/ update_phase s = 2 \/ update_phase s = 3 \/ update_phase s = 4 \/ update_phase s = 5) by lia.
  destruct C as [E|[E|[E|[E|[E|E]]]]]; rewrite E in *; cbn in H |- *.
  1,6: injection H as <-; repeat split.
  all: apply bind_Some in H as (x & Hx & [= <-]); cbn; auto.
Qed.
Record screen_inv (s : main_screen) : Prop := {
  inv_phase : 0 <= update_phase s < 6; inv_battery : battery_inv (power_widgets s); inv_dock : dock_inv (power_widgets s); inv_state : state_inv (state_widgets s) }.
Lemma Tick_inv v s s' : Tick v s = Some s' -> screen_inv s -> screen_inv s'.
Proof.
  intros H [P B D S]. destruct (Tick_effect _ _ _ H P) as (E1 & E2 & E3). split.
  - rewrite E1. apply Z.mod_pos_bound. lia.
  - destruct (_ =? 2); [exact (proj1 (Battery_shows _ _ _ E2 B))|]. destruct (_ =? 3); [exact (proj1 (Current_frame _ _ _ E2) B)|].
    destruct (_ =? 4); [exact (proj1 (Dock_frame _ _ _ E2) B)|rewrite E2; exact B].
  - destruct (_ =? 2); [apply (Battery_frame _ _ _ E2), D|]. destruct (_ =? 3); [exact (proj1 (Current_shows _ _ _ E2 D))|].
    destruct (_ =? 4); [exact (proj1 (Dock_shows _ _ _ E2 D))|rewrite E2; exact D].
  - destruct (_ =? 5); rewrite E3; [apply Robot_shows, S|exact S].
Qed.

(** Six ticks go through all phases: what the tick of phase [k] establishes and every tick keeps holds after them. *)
Lemma six_ticks v k (I Q : main_screen -> Prop) : 0 <= k < 6 -> (forall s, I s -> screen_inv s) -> (forall s s', I s -> Tick v s = Some s' -> I s') ->
  (forall s s', I s -> update_phase s = k -> Tick v s = Some s' -> Q s') -> (forall s s', I s -> Q s -> Tick v s = Some s' -> Q s') ->
  forall s s', I s -> Ticks (replicate 6 v) s = Some s' -> I s' /\ Q s'.
Proof.
  intros Hk Hinv HI Est Keep s s' Is H. cbn in H.
  repeat match type of H with (_ ≫= _) = Some _ => let a := fresh "a" in let Ha := fresh "Ha" in apply bind_Some in H as (a & Ha & H) end. injection H as <-.
  assert (P : forall s s', I s -> Tick v s = Some s' -> I s' /\ 0 <= update_phase s < 6 /\ update_phase s' = (update_phase s + 1) mod 6).
  { intros x y Ix Hx. split; [exact (HI _ _ Ix Hx)|]. pose proof (inv_phase _ (Hinv _ Ix)) as B. split; [exact B|apply (Tick_effect _ _ _ Hx B)]. }
  destruct (P _ _ Is Ha) as (I1 & B & E1). destruct (P _ _ I1 Ha0) as (I2 & _ & E2). destruct (P _ _ I2 Ha1) as (I3 & _ & E3).
  destruct (P _ _ I3 Ha2) as (I4 & _ & E4). destruct (P _ _ I4 Ha3) as (I5 & _ & E5). destruct (P _ _ I5 Ha4) as (I6 & _ & E6). split; [exact I6|].
  rewrite E4, E3, E2, E1 in E5. rewrite E3, E2, E1 in E4. rewrite E2, E1 in E3. rewrite E1 in E2.
  assert (C : update_phase s = k \/ update_phase a = k \/ update_phase a0 = k \/ update_phase a1 = k \/ update_phase a2 = k \/ update_phase a3 = k)
    by (rewrite E1, E2, E3, E4, E5; Z.to_euclidean_division_equations; lia).
  assert (K5 : Q a3 -> Q a4) by (intros q; exact (Keep _ _ I5 q Ha4)). assert (K4 : Q a2 -> Q a3) by (intros q; exact (Keep _ _ I4 q Ha3)).
  assert (K3 : Q a1 -> Q a2) by (intros q; exact (Keep _ _ I3 q Ha2)). assert (K2 : Q a0 -> Q a1) by (intros q; exact (Keep _ _ I2 q Ha1)).
  assert (K1 : Q a -> Q a0) by (intros q; exact (Keep _ _ I1 q Ha0)).
  destruct C as [C|[C|[C|[C|[C|C]]]]]; [apply K5, K4, K3, K2, K1, (Est _ _ Is C Ha)|apply K5, K4, K3, K2, (Est _ _ I1 C Ha0)|apply K5, K4, K3, (Est _ _ I2 C Ha1)|
    apply K5, K4, (Est _ _ I3 C Ha2)|apply K5, (Est _ _ I4 C Ha3)|apply (Est _ _ I5 C Ha4)].
Qed.
Lemma Ticks_app l1 l2 s : Ticks (l1 ++ l2) s = (s ← Ticks l1 s; Ticks l2 s).
Proof. revert s. induction l1 as [|v l1 IH]; intros s; cbn; [reflexivity|]. destruct (Tick v s); cbn; [apply IH|reflexivity]. Qed.
Lemma Ticks_inv views s s' : Ticks views s = Some s' -> screen_inv s -> screen_inv s'.
Proof.
  revert s. induction views as [|v views IH]; intros s H I; cbn in H; [injection H as <-; exact I|]. apply bind_Some in H as (s1 & H1 & H).
  exact (IH _ H (Tick_inv _ _ _ H1 I)).
Qed.
Lemma created_inv r0 : screen_inv (Create HL_UNKNOWN r0).
Proof.
  unfold Create. cbn. split; cbn.
  - lia.
  - split; cbn; [unfold bar_ok; cbn; lia| |right; reflexivity|right; reflexivity]. split; [split; [discriminate|reflexivity]|]. split; [intros N; destruct N; reflexivity|].
    split; [reflexivity|]. split; [reflexivity|discriminate].
  - split; cbn; [unfold bar_ok; cbn; lia|right; reflexivity| |right; reflexivity|right; reflexivity]. split; (split; [discriminate|reflexivity]).
  - left. reflexivity.
Qed.

Section Constant.
Context (v : main_view) (x : f32) (Hx : adapter_reading v = Some x).
Abbreviation volts := (rounded 10 x).
Abbreviation docked := (fgt volts (f_of_Z 10)).
(** What the first round establishes for the second. *)
Record settled (s : main_screen) : Prop := {
  settled_inv : screen_inv s; settled_bms : has_bms_current_ (power_widgets s) = has_bms_current v; settled_dock : is_docked_ (power_widgets s) = docked }.
Ltac at_phase H E := destruct (Tick_effect _ _ _ H (inv_phase _ ltac:(eassumption || (apply settled_inv; eassumption)))) as (_ & E & _).

Lemma bms_settles s s' : screen_inv s -> Ticks (replicate 6 v) s = Some s' -> has_bms_current_ (power_widgets s') = has_bms_current v.
Proof.
  intros I H. refine (proj2 (six_ticks v 3 screen_inv (fun s => has_bms_current_ (power_widgets s) = has_bms_current v) ltac:(lia) (fun s H => H) (fun s s' I H => Tick_inv _ _ _ H I) _ _ s s' I H)); clear s s' I H.
  - intros s s' I Hp H. at_phase H E. rewrite Hp in E. apply (Current_shows _ _ _ E), I.
  - intros s s' I Q H. at_phase H E. destruct (_ =? 2); [rewrite (proj1 (Battery_frame _ _ _ E)); exact Q|].
    destruct (_ =? 3); [apply (Current_shows _ _ _ E), I|].  destruct (_ =? 4); [|rewrite E; exact Q].
    rewrite (proj1 (proj2 (Dock_shows _ _ _ E (inv_dock _ I)))). exact Q.
Qed.
Lemma dock_settles s s' : screen_inv s -> Ticks (replicate 6 v) s = Some s' -> is_docked_ (power_widgets s') = docked.
Proof.
  intros I H. refine (proj2 (six_ticks v 4 screen_inv (fun s => is_docked_ (power_widgets s) = docked) ltac:(lia) (fun s H => H) (fun s s' I H => Tick_inv _ _ _ H I) _ _ s s' I H)); clear s s' I H.
  - intros s s' I Hp H. at_phase H E. rewrite Hp in E. cbn in E. apply (proj2 (proj2 (Dock_shows _ _ _ E (inv_dock _ I))) x Hx).
  - intros s s' I Q H. at_phase H E. destruct (_ =? 2); [rewrite (proj1 (proj2 (Battery_frame _ _ _ E))); exact Q|].
    destruct (_ =? 3); [destruct (Current_shows _ _ _ E (inv_dock _ I)) as (_ & _ & -> & _); exact Q|].  destruct (_ =? 4); [|rewrite E; exact Q].
    apply (proj2 (proj2 (Dock_shows _ _ _ E (inv_dock _ I))) x Hx).
Qed.
Lemma settled_after s s' : screen_inv s -> Ticks (replicate 6 v) s = Some s' -> settled s'.
Proof. intros I H. split; [exact (Ticks_inv _ _ _ H I)|exact (bms_settles _ _ I H)|exact (dock_settles _ _ I H)]. Qed.
Lemma settled_Tick s s' : settled s -> Tick v s = Some s' -> settled s'.
Proof.
  intros [I B D] H. split; [exact (Tick_inv _ _ _ H I)| |]; at_phase H E.
  - destruct (_ =? 2); [rewrite (proj1 (Battery_frame _ _ _ E)); exact B|]. destruct (_ =? 3); [apply (Current_shows _ _ _ E), I|]. 
    destruct (_ =? 4); [|rewrite E; exact B]. rewrite (proj1 (proj2 (Dock_shows _ _ _ E (inv_dock _ I)))). exact B.
  - destruct (_ =? 2); [rewrite (proj1 (proj2 (Battery_frame _ _ _ E))); exact D|].
    destruct (_ =? 3); [destruct (Current_shows _ _ _ E (inv_dock _ I)) as (_ & _ & -> & _); exact D|].  destruct (_ =? 4); [|rewrite E; exact D].
    apply (proj2 (proj2 (Dock_shows _ _ _ E (inv_dock _ I))) x Hx).
Qed.
Lemma battery_follows s s' : settled s -> Ticks (replicate 6 v) s = Some s' -> battery_percent full_v min_v v <> Some 0 -> battery_shown v (power_widgets s').
Proof.
  intros I H Nz. refine (proj2 (six_ticks v 2 settled (fun s => battery_shown v (power_widgets s)) ltac:(lia) settled_inv settled_Tick _ _ s s' I H)); clear s s' I H.
  - intros s s' I Hp H. at_phase H E. rewrite Hp in E. apply (Battery_shows _ _ _ E), Nz. apply I.
  - intros s s' I Q H. at_phase H E. destruct (_ =? 2); [apply (Battery_shows _ _ _ E), Nz; apply I|].
    destruct (_ =? 3); [apply (Current_frame _ _ _ E), Q|]. destruct (_ =? 4); [apply (Dock_frame _ _ _ E), Q|rewrite E; exact Q].
Qed.
Lemma dock_follows s s' : settled s -> Ticks (replicate 6 v) s = Some s' -> dock_shown v volts (power_widgets s').
Proof.
  intros I H. refine (proj2 (six_ticks v 4 settled (fun s => dock_shown v volts (power_widgets s)) ltac:(lia) settled_inv settled_Tick _ _ s s' I H)); clear s s' I H.
  - intros s s' I Hp H. at_phase H E. rewrite Hp in E. cbn in E. apply (proj2 (proj2 (Dock_shows _ _ _ E (inv_dock _ (settled_inv _ I)))) x Hx), I.
  - intros s s' I Q H. at_phase H E. destruct (_ =? 2); [apply (Battery_frame _ _ _ E), Q|].
    destruct (_ =? 3); [apply (Current_frame _ _ _ E); [apply I|exact Q]|].  destruct (_ =? 4); [|rewrite E; exact Q].
    apply (proj2 (proj2 (Dock_shows _ _ _ E (inv_dock _ (settled_inv _ I)))) x Hx), I.
Qed.
Lemma current_follows s s' : settled s -> Ticks (replicate 6 v) s = Some s' -> docked || has_bms_current v = true -> fne (shown_current v) f0 = true ->
  current_shown v (power_widgets s').
Proof.
  intros I H Hd Nz. refine (proj2 (six_ticks v 3 settled (fun s => current_shown v (power_widgets s)) ltac:(lia) settled_inv settled_Tick _ _ s s' I H)); clear s s' I H.
  - intros s s' I Hp H. at_phase H E. rewrite Hp in E. apply (Current_shows _ _ _ E); [apply I|rewrite (settled_dock _ I); exact Hd|exact Nz].
  - intros s s' I Q H. at_phase H E. destruct (_ =? 2); [apply (Battery_frame _ _ _ E), Q|].
    destruct (_ =? 3); [apply (Current_shows _ _ _ E); [apply I|rewrite (settled_dock _ I); exact Hd|exact Nz]|]. destruct (_ =? 4); [apply (Dock_frame _ _ _ E), Q|rewrite E; exact Q].
Qed.
Lemma state_follows s s' : settled s -> Ticks (replicate 6 v) s = Some s' -> known_state v -> view_status v <> HL_UNKNOWN -> state_shown v (state_widgets s').
Proof.
  intros I H K N. refine (proj2 (six_ticks v 5 settled (fun s => state_shown v (state_widgets s)) ltac:(lia) settled_inv settled_Tick _ _ s s' I H)); clear s s' I H.
  - intros s s' I Hp H. destruct (Tick_effect _ _ _ H (inv_phase _ (settled_inv _ I))) as (_ & _ & E). rewrite Hp in E. cbn in E. rewrite E. apply Robot_shows; [apply I|exact K|exact N].
  - intros s s' I Q H. destruct (Tick_effect _ _ _ H (inv_phase _ (settled_inv _ I))) as (_ & _ & E). destruct (_ =? 5); rewrite E; [|exact Q]. apply Robot_shows; [apply I|exact K|exact N].
Qed.
End Constant.

(** The main screen catches up: whatever was reported since it was created, two rounds of its six phases with the
    same reports (0.36 s) make it show them: the battery's bar and icon (unless it is at 0 %), the dock's icon with what belongs in
    the dock and outside of it, the current when one is to be shown, and the robot's state (unless that is unknown), although every
    widget is behind a cache. *)
Theorem main_screen_catches_up r0 views v x : Forall proper views -> proper v -> adapter_reading v = Some x ->
  exists s, Ticks (views ++ replicate 12 v) (Create HL_UNKNOWN r0) = Some s /\
    (battery_percent full_v min_v v <> Some 0 -> battery_shown v (power_widgets s)) /\
    dock_shown v (rounded 10 x) (power_widgets s) /\
    (fgt (rounded 10 x) (f_of_Z 10) || has_bms_current v = true -> fne (shown_current v) f0 = true -> current_shown v (power_widgets s)) /\
    (known_state v -> view_status v <> HL_UNKNOWN -> state_shown v (state_widgets s)).
Proof.
  intros P Pv Hx. destruct (Ticks_defined (views ++ replicate 12 v) (Create HL_UNKNOWN r0)) as [s E].
  { apply Forall_app. split; [exact P|]. apply Forall_replicate, Pv. }
  exists s. split; [exact E|]. rewrite Ticks_app in E. apply bind_Some in E as (s1 & E1 & E). change 12%nat with (6 + 6)%nat in E.
  rewrite replicate_add, Ticks_app in E. apply bind_Some in E as (s2 & E2 & E). pose proof (Ticks_inv _ _ _ E1 (created_inv r0)) as I.
  pose proof (settled_after v x Hx _ _ I E2) as S. split; [intros; eapply battery_follows; eassumption|]. split; [eapply dock_follows; eassumption|].
  split; [intros; eapply current_follows; eassumption|intros; eapply state_follows; eassumption].
Qed.
End Shows.

(** ** At work *)
Module MainDemo.
#[local] Existing Instance demo_reasons.
#[local] Instance states : HighLevelStatuses :=
  {| IDLE := 1; AUTONOMOUS := 2; RECORDING := 3; SUBSTATE_1 := 0; SUBSTATE_2 := 1; SUBSTATE_3 := 2; SUBSTATE_SHIFT := 6; SUBSTATE_MASK := 3 |}.
Definition format (f : string) (args : list arg) : string := f.
(** The Sabo's battery, from 24.15 V to 29.4 V, charged at 2.5 A. *)
Definition full : f32 := f_lit 294 10.
Definition empty : f32 := f_lit 2415 100.
Definition charge : f32 := f_lit 25 10.
Abbreviation run := (ticks 0 3 format full empty charge).
Definition fixed_gps (accuracy : f64) : GpsState := mkGpsState 0 0 true accuracy d0 d0 d0 d0 false d0 d0 d0 d0 d0 false d0 d0 FIX_3D RTK_FIX 24.
Definition report : main_view := mkMainView true (fixed_gps (ddiv (d_of_Z 1) (d_of_Z 50))) 3 (Some (f_lit 267 10, f_lit (-12) 10)) (Some (f_lit 268 10)) S754_nan
  (Some (f_lit 12 10)) (Some (f_of_Z 28)) CC 2 "" 0 0 false.
#[local] Instance eta_main_view : Eta main_view := fun v => mkMainView (gps_is_valid v) (gps_state v) (seconds_since_rtcm v) (bms v) (battery_reading v)
  (charge_voltage_target v) (current_reading v) (adapter_reading v) (reported_status v) (view_status v) (view_sub_name v) (view_reasons v) (view_sensors v) (view_event v).
Lemma bound_full : bound full.
Proof. apply bound_literal. reflexivity. Qed.
Lemma bound_empty : bound empty.
Proof. apply bound_literal. reflexivity. Qed.
Lemma bound_charge : bound charge.
Proof. apply bound_literal. reflexivity. Qed.
Lemma report_proper s e r : proper (report <| view_sensors := s |> <| view_event := e |> <| view_reasons := r |>).
Proof.
  split; cbn.
  - apply reported_literal. reflexivity.
  - intros pack current [= <- <-]. split; [right|]; apply reported_literal; reflexivity.
  - intros x [= <-]. apply reported_literal. reflexivity.
  - intros x [= <-]. apply reported_literal. reflexivity.
  - intros x [= <-]. apply reported_literal. reflexivity.
  - left. reflexivity.
Qed.
Lemma emergency_shown_witness : exists s,
  run [report; report <| view_sensors := 4 |> <| view_event := true |> <| view_reasons := 24 |>; report <| view_reasons := 8 |> <| view_event := true |>; report <| view_reasons := 8 |>] (Create 0 0) = Some s /\
  displayed (emergency_widgets s) = [(GENERIC, Blinking); (ICON_STOP, Blinking); (WHEEL, Hidden); (TIMEOUT_ANY, Hidden); (TIMEOUT_HL, Steady)].
Proof.
  destruct (emergency_is_shown 0 3 format full empty charge bound_full bound_empty bound_charge 0
    [report; report <| view_sensors := 4 |> <| view_event := true |> <| view_reasons := 24 |>] (report <| view_reasons := 8 |> <| view_event := true |>)
    [report <| view_reasons := 8 |>] 8) as (s & E & H).
  - lia.
  - repeat (apply List.Forall_cons; [first [exact (report_proper 0 false 0)|exact (report_proper 4 true 24)|exact (report_proper 0 true 8)|exact (report_proper 0 false 8)]|]).
    apply List.Forall_nil.
  - reflexivity.
  - repeat constructor.
  - exists s. split; [exact E|]. rewrite H. reflexivity.
Defined.
Lemma catches_up_witness : exists s, run (replicate 7 report ++ replicate 12 (report <| view_event := true |>)) (Create 0 0) = Some s /\
  seen (icon_docked (power_widgets s)) = Steady /\ text (state_label (state_widgets s)) = "MOWING".
Proof.
  destruct (main_screen_catches_up 0 3 format full empty charge bound_full bound_empty bound_charge 0 (replicate 7 report)
    (report <| view_event := true |>) (f_of_Z 28)) as (s & E & _ & D & _ & S).
  - apply Forall_replicate. apply (report_proper 0 false 0).
  - apply (report_proper 0 true 0).
  - reflexivity.
  - exists s. split; [exact E|]. split; [exact (proj1 D)|]. apply S; [intros a b; reflexivity|discriminate].
Defined.

(** GPS: what is shown after a dropout is only set again when it changes. *)
Example gps_mode_lost_after_dropout :
  (fun s => (text (gps_mode_value (gps_widgets s)), seen (icon_gps_mode (gps_widgets s)))) <$> run (replicate 6 report) (Create 0 0) = Some ("RTK FIX"%string, Steady) /\
  (fun s => (text (gps_mode_value (gps_widgets s)), seen (icon_gps_mode (gps_widgets s)))) <$>
    run (replicate 6 report ++ replicate 6 (report <| gps_is_valid := false |>) ++ replicate 60 report) (Create 0 0) = Some ("N/A"%string, Blinking).
Proof. split; vm_compute; reflexivity. Qed.
(** An accuracy that is not a number is converted to an integer. *)
Example nan_accuracy_is_undefined : run (replicate 2 (report <| gps_state := fixed_gps S754_nan |>)) (Create 0 0) = None.
Proof. vm_compute. reflexivity. Qed.
(** A voltage of three milliards is converted to an integer to be printed. *)
Example huge_voltage_is_undefined : run (replicate 3 (report <| bms := Some (f_of_Z 3000000000, f0) |>)) (Create 0 0) = None.
Proof. vm_compute. reflexivity. Qed.
(** What is written on the battery's bar: 26.7 V, printed as 26.7. *)
Example battery_bar_text : (fun s => text_buffer_ (battery_voltage_bar (power_widgets s))) <$> run (replicate 3 report) (Create 0 0) = Some "48% / 26.7V"%string.
Proof. vm_compute. reflexivity. Qed.
(** A battery that is empty from the start looks full. *)
Example empty_battery_looks_full :
  (fun s => glyph (icon_battery (power_widgets s))) <$> run (replicate 60 (report <| bms := None |> <| battery_reading := Some (f_of_Z 20) |>)) (Create 0 0) = Some (ICONS BATTERY_FULL).
Proof. vm_compute. reflexivity. Qed.
(** Without a current from the battery's management the adapter's voltage stays visible outside the dock, and a
    current reported there later does not bring its bar back. *)
Definition outside : main_view := report <| bms := None |> <| adapter_reading := Some f0 |>.
Example adapter_stays_after_undocking :
  (fun s => (hidden (adapter_voltage_label (power_widgets s)), seen (icon_docked (power_widgets s)))) <$>
    run (replicate 12 report ++ replicate 60 outside) (Create 0 0) = Some (false, Hidden).
Proof. vm_compute. reflexivity. Qed.
Example current_stays_hidden :
  (fun s => bar_hidden (current_bar (power_widgets s))) <$>
    run (replicate 12 outside ++ replicate 60 (report <| adapter_reading := Some f0 |>)) (Create 0 0) = Some true.
Proof. vm_compute. reflexivity. Qed.
(** Back online in an unknown state, the label still waits for ROS. *)
Example online_but_waiting :
  (fun s => text (state_label (state_widgets s))) <$> run (replicate 60 (report <| view_status := 0 |>)) (Create 0 0) = Some ROS_OFFLINE_TEXT.
Proof. vm_compute. reflexivity. Qed.
End MainDemo.
