(* ===== verification/SaboScreens.v ===== *)
(** The Sabo's battery screen ([sabo_screen_battery.cpp]) and inputs screen ([sabo_screen_inputs.hpp]): what their
    ticks show of the battery's management and of the sensors and buttons.

    Texts are formatted by parameters (ChibiOS' and LVGL's [printf]). [None] is a conversion to an integer that does not fit. *)
From stdpp Require Import strings.
From S2P Require Import Chprintf Prelude Float32 FloatError Leds Nmea Bms InputDrivers SaboUi SaboWidgets SaboPercent SaboMain.

Section Screens.
Context (chsnprintf lv_format : string -> list arg -> string).

(** ** The battery *)
(* @ sabo_screen_battery.hpp:124-124 SaboScreenBattery::BATTERY_CELLS *)
Definition BATTERY_CELLS : nat := 7.
(* @ sabo_screen_battery.hpp:145-146 SaboScreenBattery::DELTA_WARNING_THRESHOLD_MV *)
Definition DELTA_WARNING_THRESHOLD_MV : Z := 50.
(* @ sabo_screen_battery.hpp:145-146 SaboScreenBattery::DELTA_ERROR_THRESHOLD_MV *)
Definition DELTA_ERROR_THRESHOLD_MV : Z := 100.
(** A label and the value it shows. *)
Record value_label := mkValue { value_text : string; last_value : f32 }.
(* @ sabo_screen_battery.hpp:106-142 SaboScreenBattery *)
Record battery_screen := mkBattery {
  mfr_val : string; dev_val : string; ver_val : string; ser_val : string; dat_val : string; bms_info_printed_ : bool;
  design_v_val : value_label; design_ah_val : value_label; full_charge_ah_val : value_label; actual_v_val : value_label; actual_ah_val : value_label;
  health_cycles_val : string; last_cycle_count_ : Z; health_pct_val : string; last_health_pct_ : Z; soc_val : value_label;
  cell_voltage_labels_ : list string; last_cell_voltages_ : list f32;
  cell_diff_labels_ : list string; last_cell_diffs_ : list Z; cell_status_icons_ : list WidgetIcon }.
#[export] Instance eta_battery_screen : Eta battery_screen := fun s => mkBattery (mfr_val s) (dev_val s) (ver_val s) (ser_val s) (dat_val s) (bms_info_printed_ s)
  (design_v_val s) (design_ah_val s) (full_charge_ah_val s) (actual_v_val s) (actual_ah_val s) (health_cycles_val s) (last_cycle_count_ s) (health_pct_val s)
  (last_health_pct_ s) (soc_val s) (cell_voltage_labels_ s) (last_cell_voltages_ s) (cell_diff_labels_ s) (last_cell_diffs_ s) (cell_status_icons_ s).
(* @ sabo_screen_battery.cpp SaboScreenBattery::Create *)
Definition battery_Create : battery_screen :=
  let na := mkValue "N/A" f0 in
  mkBattery "N/A" "N/A" "N/A" "N/A" "N/A" false na na na na na "N/A" 0 "N/A" 0 (mkValue "N/A" (f_of_Z (-1)))
    (replicate BATTERY_CELLS ""%string) (replicate BATTERY_CELLS f0) (replicate BATTERY_CELLS ""%string) (replicate BATTERY_CELLS 0)
    (replicate BATTERY_CELLS (new_icon ICON_UNDEF ON)).
(** A character array up to its terminator, where it is not empty. *)
Definition string_of_chars (buf : list Z) : string := String.string_of_list_ascii (map (fun c => Ascii.ascii_of_nat (Z.to_nat c)) (c_string buf)).
Definition printed_name (buf : list Z) (old : string) : string :=
  match buf with c :: _ => if c =? 0 then old else string_of_chars buf | [] => old end.
(* @ sabo_screen_battery.cpp SaboScreenBattery::UpdateBmsInfo *)
Definition UpdateBmsInfo (d : Data) (s : battery_screen) : battery_screen :=
  if bms_info_printed_ s then s else
  s <| mfr_val ::= printed_name (mfr_name d) |> <| dev_val ::= printed_name (dev_name d) |> <| ver_val ::= printed_name (dev_version d) |>
    <| ser_val := if serial_number d =? 0 then ser_val s else lv_format "%u" [ArgZ (serial_number d)] |>
    <| dat_val ::= printed_name (mfr_date d) |> <| bms_info_printed_ := true |>.
(** A value that is new and positive is shown. *)
(* @ sabo_screen_battery.cpp:327-331 SaboScreenBattery::UpdateBmsData (value) *)
Definition show_value (format : string) (x : f32) (l : value_label) : value_label :=
  if fne x (last_value l) && fgt x f0 then mkValue (chsnprintf format [ArgF x]) x else l.
(* @ sabo_screen_battery.cpp:363-366 SaboScreenBattery::UpdateBmsData (health) *)
Definition health_pct (d : Data) : option Z :=
  if fgt (design_capacity_ah d) f0 && fgt (full_charge_capacity_ah d) f0
  then f_to_int 0 255 (fround (fmul (fdiv (f_of_Z 100) (design_capacity_ah d)) (full_charge_capacity_ah d))) else Some 0.
(* @ sabo_screen_battery.cpp:372-375 SaboScreenBattery::UpdateBmsData (state of charge) *)
Definition show_soc (x : f32) (l : value_label) : option value_label :=
  if fge x f0 && fne x (last_value l) then n ← f_to_int 0 4294967295 (fmul x (f_of_Z 100)); Some (mkValue (lv_format "%u%%" [ArgZ n]) x) else Some l.
(* @ sabo_screen_battery.cpp SaboScreenBattery::UpdateBmsData *)
Definition UpdateBmsData (d : Data) (s : battery_screen) : option battery_screen :=
  let s := s <| design_v_val ::= show_value "%.1fV" (design_voltage_v d) |> <| design_ah_val ::= show_value "%.2fAh" (design_capacity_ah d) |>
    <| full_charge_ah_val ::= show_value "%.2fAh" (full_charge_capacity_ah d) |> <| actual_v_val ::= show_value "%.1fV" (pack_voltage_v d) |>
    <| actual_ah_val ::= show_value "%.2fAh" (remaining_capacity_ah d) |> in
  let s := if (0 <? cycle_count d) && negb (cycle_count d =? last_cycle_count_ s)
    then s <| health_cycles_val := lv_format "%u cycles" [ArgZ (cycle_count d)] |> <| last_cycle_count_ := cycle_count d |> else s in
  pct ← health_pct d;
  let s := if negb (pct =? last_health_pct_ s) && (0 <? pct) then s <| health_pct_val := lv_format "%u%%" [ArgZ pct] |> <| last_health_pct_ := pct |> else s in
  soc ← show_soc (battery_soc d) (soc_val s);
  Some (s <| soc_val := soc |>).
(** A cell's voltage in the table. *)
(* @ sabo_screen_battery.cpp:384-391 SaboScreenBattery::UpdateCellVoltages (voltage) *)
Definition show_cell (v : f32) (text : string) (last : f32) : string * f32 :=
  let voltage := rounded 1000 v in if fne voltage last then (chsnprintf "%.3fV" [ArgF voltage], voltage) else (text, last).
(* @ sabo_screen_battery.cpp:404-411 SaboScreenBattery::UpdateCellVoltages (icon) *)
Definition delta_icon (diff : Z) : Icon :=
  if Z.abs diff <? DELTA_WARNING_THRESHOLD_MV then CHECK else if Z.abs diff <? DELTA_ERROR_THRESHOLD_MV then EMERGENCY_GENERIC else SQUARE_XMARK.
(** The difference to the cell before, in millivolts. *)
(* @ sabo_screen_battery.cpp:395-395 SaboScreenBattery::UpdateCellVoltages (delta) *)
Definition cell_delta (v before : f32) : option Z := f_to_int (-2147483648) 2147483647 (fround (fmul (fsub v before) (f_of_Z 1000))).
(* @ sabo_screen_battery.cpp:394-413 SaboScreenBattery::UpdateCellVoltages (difference) *)
Definition show_delta (diff : Z) (text : string) (last : Z) (icon : WidgetIcon) : string * Z * WidgetIcon :=
  if negb (diff =? last) then (lv_format "%dmV" [ArgZ diff], diff, SetIcon (delta_icon diff) icon) else (text, last, icon).
(** The cells of the first loop, then the differences of the second, from the second cell on. *)
Fixpoint show_deltas (before : f32) (volts : list f32) (texts : list string) (lasts : list Z) (icons : list WidgetIcon)
    : option (list string * list Z * list WidgetIcon) :=
  match volts, texts, lasts, icons with
  | v :: volts, t :: texts, l :: lasts, i :: icons =>
    diff ← cell_delta v before;
    let '(t, l, i) := show_delta diff t l i in
    '(texts, lasts, icons) ← show_deltas v volts texts lasts icons; Some (t :: texts, l :: lasts, i :: icons)
  | _, _, _, _ => Some (texts, lasts, icons)
  end.
(** The driver's data has seven cells: [cell_count] is the constant [kCellCount]. *)
(* @ sabo_screen_battery.cpp SaboScreenBattery::UpdateCellVoltages *)
Definition UpdateCellVoltages (d : Data) (s : battery_screen) : option battery_screen :=
  if (kCellCount =? 0)%nat then Some s else
  let cells := zip_with (fun v x => show_cell v x.1 x.2) (take BATTERY_CELLS (cell_voltage_v d)) (zip (cell_voltage_labels_ s) (last_cell_voltages_ s)) in
  let volts := map snd cells in
  let s := s <| cell_voltage_labels_ := map fst cells |> <| last_cell_voltages_ := volts |> in
  match volts, cell_diff_labels_ s, last_cell_diffs_ s, cell_status_icons_ s with
  | v :: volts, t :: texts, l :: lasts, i :: icons =>
    '(texts, lasts, icons) ← show_deltas v volts texts lasts icons;
    Some (s <| cell_diff_labels_ := t :: texts |> <| last_cell_diffs_ := l :: lasts |> <| cell_status_icons_ := i :: icons |>)
  | _, _, _, _ => Some s
  end.
(* @ sabo_screen_battery.cpp SaboScreenBattery::Tick *)
Definition battery_Tick (d : Data) (s : battery_screen) : option battery_screen :=
  s ← UpdateBmsData d (UpdateBmsInfo d s); UpdateCellVoltages d s.
Fixpoint battery_ticks (l : list Data) (s : battery_screen) : option battery_screen :=
  match l with [] => Some s | d :: l => s ← battery_Tick d s; battery_ticks l s end.

(** ** The inputs *)
(* @ sabo_common.hpp ButtonIdToString *)
Definition ButtonIdToString (id : ButtonId) : string :=
  match id with
  | UP => "Up" | DOWN => "Down" | LEFT => "Left" | RIGHT => "Right" | OK => "OK" | PLAY => "Play" | S1_SELECT => "Select (S1)"
  | MENU => "Menu" | BACK => "Back" | S2_AUTO => "Auto (S2)" | S2_MOW => "Mow (S2)" | S2_HOME => "Home (S2)"
  end.
(* @ sabo_screen_inputs.hpp:164-187 SaboScreenInputs *)
Record inputs_screen := mkInputs { sensors_ : list (Z * WidgetSensor); heartbeat_value_ : string; btn_test_value_ : string }.
(* @ sabo_screen_inputs.hpp SaboScreenInputs::Create *)
Definition inputs_Create : inputs_screen := mkInputs (map (fun id => (id, sensor_SetState SENSOR_IDLE new_sensor)) [0; 1; 2; 3]) "0 Hz" "?".
(** The first button of the list that is pressed. *)
(* @ sabo_screen_inputs.hpp:149-157 SaboScreenInputs::Tick (buttons) *)
Definition pressed_button (pressed : ButtonId -> bool) : string :=
  match List.find pressed ALL_BUTTONS with Some id => ButtonIdToString id | None => "?" end.
(** [GetSensorState], the heartbeat's frequency and the buttons are the robot's. *)
(* @ sabo_screen_inputs.hpp SaboScreenInputs::Tick *)
Definition inputs_Tick (sensor_state : Z -> bool) (heartbeat_frequency : Z) (pressed : ButtonId -> bool) (s : inputs_screen) : inputs_screen :=
  mkInputs (map (fun x => (x.1, sensor_SetState (if sensor_state x.1 then TRIGGERED else SENSOR_IDLE) x.2)) (sensors_ s))
    (chsnprintf "%u Hz" [ArgZ heartbeat_frequency]) (pressed_button pressed).
End Screens.
