(* ===== verification/SaboCells.v ===== *)
(** The cells' table of the Sabo's battery screen: after any ticks it shows the cells as they are, each voltage and
    the difference to the cell before within the rounding of the floats. *)
From Stdlib Require Import Lra.
From stdpp Require Import strings.
From S2P Require Import Chprintf Prelude Float32 FloatError Leds Bms SaboUi SaboWidgets SaboPercent SaboMain SaboMainShows SaboScreens.

(** ** Rounding to the nearest integer *)
Lemma fround_integer x : ordinary x -> (Rabs (FV x) <= bpow 22)%R ->
  exists k, ordinary (fround x) /\ FV (fround x) = IZR k /\ (Rabs (IZR k - FV x) <= 1 / 2)%R.
Proof.
  intros [V F] B. destruct (d_round_FV x F) as (k & R & E). exists k. unfold fround.
  destruct x as [s| | |s m e]; try discriminate; [injection R as <-; split; [split; assumption|split; [reflexivity|exact E]]|]. rewrite R.
  assert (K : Z.abs k < 2 ^ 24).
  { apply lt_IZR. rewrite abs_IZR. rewrite bpow_Z in B by lia. apply Rabs_inv in E, B. change (IZR (2 ^ 22)) with 4194304%R in B. change (IZR (2 ^ 24)) with 16777216%R. apply Rabs_def1; lra. }
  destruct (normalize_exact 24 128 ltac:(lia) ltac:(lia) k s K ltac:(lia)) as [N1 N2].
  split; [split; [apply normalize_rounds; lia|exact N1]|]. split; assumption.
Qed.
Lemma FV_1000 : FV (f_of_Z 1000) = 1000%R.
Proof. apply (normalize_exact 24 128); [lia..|reflexivity|lia]. Qed.
Lemma ordinary_1000 : ordinary (f_of_Z 1000).
Proof. split; reflexivity. Qed.
(** A voltage of a cell, far from the limits. *)
Definition cell_ok (v : f32) : Prop := ordinary v /\ (Rabs (FV v) <= 128)%R.
Lemma unit_bounds : (0 < bpow (-24) <= 1 / 16000000)%R /\ (0 < bpow (-150) <= 1 / 16000000)%R /\ (1000000 <= bpow 22)%R /\ (1000000 <= bpow 126)%R.
Proof.
  assert (A : (bpow (-24) <= 1 / 16000000)%R).
  { pose proof (bpow_opp 24) as H. rewrite (bpow_Z 24) in H by lia. change (2 ^ 24) with 16777216 in H. change (- (24)) with (-24) in H. lra. }
  assert (B : (1000000 <= bpow 22)%R) by (rewrite bpow_Z by lia; apply IZR_le; vm_compute; discriminate).
  repeat split; try apply bpow_pos; try exact A; try exact B; [transitivity (bpow (-24)); [apply bpow_le; lia|exact A]|].
  transitivity (bpow 22); [exact B|apply bpow_le; lia].
Qed.
(** One operation's error, by bounds that are numbers. *)
Lemma error_bound r x c n : (Rabs (FV r - x) <= Rabs x * bpow (-24) + n)%R -> (n <= 1 / 16000000)%R -> (Rabs x <= c)%R ->
  (Rabs (FV r - x) <= (c + 1) / 16000000)%R.
Proof.
  intros H N Hc. destruct unit_bounds as (U & _). pose proof (Rabs_pos x). assert (Rabs x * bpow (-24) <= c / 16000000)%R by nra. lra.
Qed.
Lemma rounded_1000 v : cell_ok v -> ordinary (rounded 1000 v) /\ (Rabs (FV (rounded 1000 v) - FV v) <= 6 / 10000)%R.
Proof.
  intros [O B]. destruct unit_bounds as (_ & [_ N] & B22 & B126). apply Rabs_inv in B. unfold rounded.
  assert (X1 : (Rabs (FV v * FV (f_of_Z 1000)) <= 128000)%R) by (rewrite FV_1000; apply Rabs_le; lra).
  destruct (rounds_ordinary _ _ _ (fmul_ordinary v _ O ordinary_1000)) as [O1 E1]; [lra|]. apply error_bound with (c := 128000%R) in E1; [|lra|exact X1].
  rewrite FV_1000 in E1. set (p := fmul v (f_of_Z 1000)) in *. apply Rabs_inv in E1.
  destruct (fround_integer p O1) as (k & O2 & E2 & E3); [apply Rabs_le; lra|]. set (q := fround p) in *. apply Rabs_inv in E3.
  assert (X3 : (Rabs (FV q / FV (f_of_Z 1000)) <= 129)%R) by (rewrite FV_1000, E2; apply Rabs_le; lra).
  destruct (rounds_ordinary _ _ _ (fdiv_ordinary q _ O2 ltac:(rewrite FV_1000; lra) ordinary_1000)) as [O4 E4]; [lra|].
  apply error_bound with (c := 129%R) in E4; [|lra|exact X3]. rewrite FV_1000, E2 in E4. split; [exact O4|]. apply Rabs_inv in E4. apply Rabs_le. lra.
Qed.
(** The difference in millivolts of two rounded voltages. *)
Lemma cell_delta_close v w x y : cell_ok v -> cell_ok w -> ordinary x -> ordinary y -> (Rabs (FV x - FV v) <= 6 / 10000)%R -> (Rabs (FV y - FV w) <= 6 / 10000)%R ->
  exists n, cell_delta x y = Some n /\ (Rabs (IZR n - 1000 * (FV v - FV w)) < 2)%R.
Proof.
  intros [_ Bv] [_ Bw] Ox Oy Ex Ey. destruct unit_bounds as (_ & [_ N] & B22 & B126). apply Rabs_inv in Bv, Bw, Ex, Ey. unfold cell_delta.
  assert (X1 : (Rabs (FV x - FV y) <= 258)%R) by (apply Rabs_le; lra).
  destruct (rounds_ordinary _ _ _ (fsub_ordinary x y Ox Oy)) as [O1 E1]; [lra|]. apply error_bound with (c := 258%R) in E1; [|lra|exact X1].
  set (d := fsub x y) in *. apply Rabs_inv in E1.
  assert (X2 : (Rabs (FV d * FV (f_of_Z 1000)) <= 259000)%R) by (rewrite FV_1000; apply Rabs_le; apply Rabs_inv in X1; lra).
  destruct (rounds_ordinary _ _ _ (fmul_ordinary d _ O1 ordinary_1000)) as [O2 E2]; [lra|]. apply error_bound with (c := 259000%R) in E2; [|lra|exact X2].
  rewrite FV_1000 in E2, X2. set (p := fmul d _) in *. apply Rabs_inv in E2, X2. destruct (fround_integer p O2) as (k & O3 & E3 & E4); [apply Rabs_le; lra|].
  apply Rabs_inv in E4. exists k. unfold f_to_int. rewrite (f_trunc_integer _ k (proj2 O3) E3). cbn [mbind option_bind].
  assert (K : -300000 <= k <= 300000) by (split; apply le_IZR; lra).
  rewrite (proj2 (Z.leb_le _ _)), (proj2 (Z.leb_le _ _)) by lia. split; [reflexivity|]. apply Rabs_def1; lra.
Qed.

(** ** The rows of the table *)
Lemma same_value a b : same a b -> FV a = FV b /\ (ordinary b -> ordinary a).
Proof. intros [->|[Ha Hb]]; [split; auto|]. destruct a, b; try discriminate. split; [reflexivity|]. split; reflexivity. Qed.
Lemma delta_icon_defined n : delta_icon n <> ICON_UNDEF.
Proof. unfold delta_icon. repeat case_match; discriminate. Qed.

Section Table.
Context (chsnprintf lv_format : string -> list arg -> string).
(** A label shows the voltage that was written last; nothing is written for zero at the start. *)
Definition volts_ok (t : string) (x : f32) : Prop := t = chsnprintf "%.3fV" [ArgF x] \/ x = f0 /\ t = "".
(** A row shows the difference, its icon how bad it is; again, nothing is written for zero at the start. *)
Definition delta_ok (t : string) (n : Z) (i : WidgetIcon) : Prop :=
  glyph_ok i /\ (t = lv_format "%dmV" [ArgZ n] /\ glyph i = ICONS (delta_icon n) \/ n = 0 /\ t = "" /\ glyph i = ICONS ICON_UNDEF).
Lemma show_cell_ok v t x : volts_ok t x -> let r := show_cell chsnprintf v t x in volts_ok r.1 r.2 /\ same r.2 (rounded 1000 v).
Proof.
  intros H. unfold show_cell. destruct (fne (rounded 1000 v) x) eqn:E; [split; [left; reflexivity|apply same_float_refl]|].
  split; [exact H|]. destruct (fne_same _ _ E) as [->|[? ?]]; [apply same_float_refl|right; split; assumption].
Qed.
Lemma show_delta_ok n t l i : delta_ok t l i -> let '(t, l, i) := show_delta lv_format n t l i in delta_ok t l i /\ l = n.
Proof.
  intros [G H]. unfold show_delta. destruct (Z.eqb_spec n l) as [->|N]; cbn [negb]; [split; [split; assumption|reflexivity]|].
  destruct (SetIcon_glyph (delta_icon n) i (delta_icon_defined n) G) as (G' & E & _). split; [|reflexivity]. split; [exact G'|]. left. split; [reflexivity|exact E].
Qed.
Lemma show_cells_ok volts : forall texts lasts, length volts = length texts -> Forall2 volts_ok texts lasts ->
  let cells := zip_with (fun v x => show_cell chsnprintf v x.1 x.2) volts (zip texts lasts) in
  Forall2 volts_ok (map fst cells) (map snd cells) /\ Forall2 same (map snd cells) (map (rounded 1000) volts).
Proof.
  induction volts as [|v volts IH]; intros texts lasts L H; [split; constructor|].
  destruct H as [|t x texts lasts Htx H]; [discriminate|]. injection L as L. destruct (IH _ _ L H) as [H1 H2].
  destruct (show_cell_ok v t x Htx). split; constructor; assumption.
Qed.

(** The differences [lasts] of the cells to those before them. *)
Fixpoint deltas (before : f32) (volts : list f32) (lasts : list Z) : Prop :=
  match volts, lasts with
  | v :: volts, n :: lasts => cell_delta v before = Some n /\ deltas v volts lasts
  | [], [] => True
  | _, _ => False
  end.
(** A rounded voltage near the voltage [v] of a cell. *)
Definition near (x v : f32) : Prop := cell_ok v /\ ordinary x /\ (Rabs (FV x - FV v) <= 6 / 10000)%R.
Lemma show_deltas_ok volts : forall cells before b texts lasts icons, near before b -> Forall2 near volts cells -> length volts = length texts -> Forall3 delta_ok texts lasts icons ->
  exists texts' lasts' icons', show_deltas lv_format before volts texts lasts icons = Some (texts', lasts', icons') /\
    length texts' = length texts /\ Forall3 delta_ok texts' lasts' icons' /\ deltas before volts lasts'.
Proof.
  induction volts as [|x volts IH]; intros cells before b texts lasts icons Hb Hv L H.
  - destruct H as [|]; [|discriminate]. exists [], [], []. repeat split; constructor.
  - inversion Hv as [|? v ? cells' Hx Hv']; subst. destruct H as [|t l i texts lasts icons Hr H]; [discriminate|]. injection L as L.
    destruct Hb as (B1 & B2 & B3). pose proof Hx as (X1 & X2 & X3). destruct (cell_delta_close _ _ _ _ X1 B1 X2 B2 X3 B3) as (n & E & _).
    cbn [show_deltas]. rewrite E. cbn [mbind option_bind]. pose proof (show_delta_ok n t l i Hr) as S1. destruct (show_delta lv_format n t l i) as [[t' l'] i']. destruct S1 as [S1 ->].
    destruct (IH cells' x v texts lasts icons Hx Hv' L H) as (T & N & I & -> & EL & S2 & D). exists (t' :: T), (n :: N), (i' :: I).
    split; [reflexivity|]. split; [cbn; f_equal; exact EL|]. split; [constructor; assumption|]. split; assumption.
Qed.

(** ** The screen *)
(** The rows of a screen. *)
Definition table_ok (s : battery_screen) : Prop :=
  length (cell_voltage_labels_ s) = BATTERY_CELLS /\ Forall2 volts_ok (cell_voltage_labels_ s) (last_cell_voltages_ s) /\
  length (cell_diff_labels_ s) = BATTERY_CELLS /\ Forall3 delta_ok (cell_diff_labels_ s) (last_cell_diffs_ s) (cell_status_icons_ s).
(** The rows show the cells of [d]. *)
Definition table_of (d : Data) (s : battery_screen) : Prop :=
  Forall2 near (last_cell_voltages_ s) (take BATTERY_CELLS (cell_voltage_v d)) /\
  match last_cell_voltages_ s, last_cell_diffs_ s with x :: volts, _ :: lasts => deltas x volts lasts | _, _ => True end.
(** Cells that can be shown, and percentages that fit their types. *)
Definition readable (d : Data) : Prop :=
  (BATTERY_CELLS <= length (cell_voltage_v d))%nat /\ Forall cell_ok (cell_voltage_v d) /\
  is_Some (health_pct d) /\ is_Some (f_to_int 0 4294967295 (fmul (battery_soc d) (f_of_Z 100))).
Lemma Create_table_ok : table_ok battery_Create.
Proof.
  split; [reflexivity|]. split; [|split; [reflexivity|]].
  - change (Forall2 volts_ok (replicate 7 ""%string) (replicate 7 f0)). repeat (constructor; [right; split; reflexivity|]). constructor.
  - change (Forall3 delta_ok (replicate 7 ""%string) (replicate 7 0) (replicate 7 (new_icon ICON_UNDEF ON))).
    repeat (constructor; [split; [intros N; exfalso; apply N; reflexivity|right; repeat split; reflexivity]|]). constructor.
Qed.
Lemma near_same x v : cell_ok v -> same x (rounded 1000 v) -> near x v.
Proof. intros H S. destruct (rounded_1000 v H) as [O E], (same_value _ _ S) as [F P]. split; [exact H|]. split; [apply P, O|]. rewrite F. exact E. Qed.
Lemma Forall2_near l : forall cells, Forall cell_ok cells -> Forall2 same l (map (rounded 1000) cells) -> Forall2 near l cells.
Proof.
  induction l as [|x l IH]; intros cells Hc H; destruct cells as [|v cells]; inversion H; subst; [constructor|]. inversion Hc; subst.
  constructor; [apply near_same; assumption|apply IH; assumption].
Qed.
Lemma UpdateCellVoltages_ok d s : readable d -> table_ok s ->
  exists s', UpdateCellVoltages chsnprintf lv_format d s = Some s' /\ table_ok s' /\ table_of d s'.
Proof.
  intros (Ln & Hc & _) (L1 & R1 & L2 & R2). unfold UpdateCellVoltages. assert (Hc7 : Forall cell_ok (take BATTERY_CELLS (cell_voltage_v d))) by (apply Forall_take, Hc).
  assert (L7 : length (take BATTERY_CELLS (cell_voltage_v d)) = BATTERY_CELLS) by (rewrite length_take; lia).
  destruct (show_cells_ok (take BATTERY_CELLS (cell_voltage_v d)) _ _ ltac:(rewrite L7, L1; reflexivity) R1) as [R3 R4].
  set (cells := zip_with _ _ _) in *. pose proof (Forall2_near _ _ Hc7 R4) as R5. pose proof (Forall2_length _ _ _ R5) as L5. rewrite L7 in L5.
  remember (take BATTERY_CELLS (cell_voltage_v d)) as cells7 eqn:E7. clearbody cells. cbn -[show_deltas BATTERY_CELLS].
  destruct R2 as [|t n i texts lasts icons Hr R2]; [discriminate|]. destruct R5 as [|x v volts cells' Hx R5]; [discriminate|].
  injection L5 as L5. injection L2 as L2. destruct (show_deltas_ok volts cells' x v texts lasts icons Hx R5 ltac:(rewrite L5, L2; reflexivity) R2) as (T & N & I & -> & EL & S2 & D).
  eexists. split; [reflexivity|]. pose proof (Forall2_length _ _ _ R3) as L3. split.
  - split; [transitivity (length (x :: volts)); [exact L3|cbn; rewrite L5; reflexivity]|]. split; [exact R3|]. split; [cbn; rewrite EL, L2; reflexivity|]. constructor; assumption.
  - split; [cbn -[BATTERY_CELLS]; rewrite <- E7; constructor; assumption|exact D].
Qed.
Lemma UpdateBmsData_defined d s : readable d -> table_ok s -> exists s', UpdateBmsData chsnprintf lv_format d s = Some s' /\ table_ok s'.
Proof.
  intros (_ & _ & [p Hp] & [n Hn]) H. unfold UpdateBmsData. rewrite Hp. cbn [mbind option_bind]. unfold show_soc. rewrite Hn. cbn [mbind option_bind].
  set (s1 := s <| design_v_val ::= _ |> <| design_ah_val ::= _ |> <| full_charge_ah_val ::= _ |> <| actual_v_val ::= _ |> <| actual_ah_val ::= _ |>).
  assert (H1 : table_ok s1) by exact H. clearbody s1. clear H s.
  set (s2 := if (0 <? cycle_count d) && _ then _ else s1). assert (H2 : table_ok s2) by (unfold s2; destruct (_ && _); exact H1). clearbody s2.
  set (s3 := if negb _ && (0 <? p) then _ else s2). assert (H3 : table_ok s3) by (unfold s3; destruct (_ && _); exact H2). clearbody s3.
  destruct (_ && _); (eexists; split; [reflexivity|exact H3]).
Qed.
Lemma battery_Tick_ok d s : readable d -> table_ok s -> exists s', battery_Tick chsnprintf lv_format d s = Some s' /\ table_ok s' /\ table_of d s'.
Proof.
  intros R H. unfold battery_Tick. assert (H1 : table_ok (UpdateBmsInfo lv_format d s)) by (unfold UpdateBmsInfo; destruct (bms_info_printed_ s); exact H).
  destruct (UpdateBmsData_defined d _ R H1) as (s1 & -> & H2). cbn [mbind option_bind]. apply UpdateCellVoltages_ok; assumption.
Qed.
Lemma battery_ticks_ok l : forall d s, Forall readable (l ++ [d]) -> table_ok s ->
  exists s', battery_ticks chsnprintf lv_format (l ++ [d]) s = Some s' /\ table_ok s' /\ table_of d s'.
Proof.
  induction l as [|e l IH]; intros d s H Hs; inversion H as [|? ? R F]; subst; cbn [app battery_ticks].
  - destruct (battery_Tick_ok d s R Hs) as (s' & -> & ?). exists s'. split; [reflexivity|assumption].
  - destruct (battery_Tick_ok e s R Hs) as (s' & -> & ? & _). cbn [mbind option_bind]. apply IH; assumption.
Qed.
Lemma deltas_lookup volts : forall before lasts i x y n, deltas before volts lasts -> volts !! i = Some x -> (before :: volts) !! i = Some y -> lasts !! i = Some n -> cell_delta x y = Some n.
Proof.
  induction volts as [|v volts IH]; intros before [|l lasts] [|i] x y n; cbn; try tauto; try discriminate; intros D.
  - intros [= ->] [= ->] [= ->]. apply D.
  - apply IH, D.
Qed.

(** The battery screen's table follows the cells: after any ticks on data whose cells are ordinary voltages (up to
    128 V) and whose percentages fit, the ticks succeed, and every cell's label is that of a voltage within 0.6 mV of
    the cell's (or still empty, for a cell that was never anything but zero); from the second cell on, the delta's
    label is that of a whole number of millivolts within two of the difference to the cell before, with the icon of
    its threshold (or still empty, with no icon, for a difference that was never anything but zero). *)
Lemma cells_follow l d : Forall readable (l ++ [d]) -> exists s, battery_ticks chsnprintf lv_format (l ++ [d]) battery_Create = Some s /\
  (forall i v, (i < BATTERY_CELLS)%nat -> cell_voltage_v d !! i = Some v ->
    exists t x, cell_voltage_labels_ s !! i = Some t /\ ordinary x /\ (Rabs (FV x - FV v) <= 6 / 10000)%R /\ (t = chsnprintf "%.3fV" [ArgF x] \/ x = f0 /\ t = "")) /\
  (forall i v w, (Datatypes.S i < BATTERY_CELLS)%nat -> cell_voltage_v d !! Datatypes.S i = Some v -> cell_voltage_v d !! i = Some w ->
    exists t n icon, cell_diff_labels_ s !! Datatypes.S i = Some t /\ cell_status_icons_ s !! Datatypes.S i = Some icon /\
      (Rabs (IZR n - 1000 * (FV v - FV w)) < 2)%R /\
      (t = lv_format "%dmV" [ArgZ n] /\ glyph icon = ICONS (delta_icon n) \/ n = 0 /\ t = "" /\ glyph icon = ICONS ICON_UNDEF)).
Proof.
  intros R. destruct (battery_ticks_ok l d _ R Create_table_ok) as (s & E & (L1 & R1 & L2 & R2) & N & D). exists s. split; [exact E|]. split.
  - intros i v Hi Hv. rewrite <- (lookup_take_lt _ BATTERY_CELLS) in Hv by exact Hi.
    destruct (Forall2_lookup_r _ _ _ _ _ N Hv) as (x & Hx & _ & O & B). destruct (Forall2_lookup_r _ _ _ _ _ R1 Hx) as (t & Ht & V). exists t, x. auto.
  - intros i v w Hi Hv Hw. rewrite <- (lookup_take_lt _ BATTERY_CELLS) in Hv, Hw by lia.
    destruct (Forall2_lookup_r _ _ _ _ _ N Hv) as (x & Hx & X1 & X2 & X3), (Forall2_lookup_r _ _ _ _ _ N Hw) as (y & Hy & Y1 & Y2 & Y3).
    destruct (lookup_lt_is_Some_2 (cell_diff_labels_ s) (Datatypes.S i)) as [t Ht]; [rewrite L2; exact Hi|].
    destruct (Forall3_lookup_l _ _ _ _ _ _ R2 Ht) as (n & icon & Hn & Hicon & _ & G). exists t, n, icon. split; [exact Ht|]. split; [exact Hicon|]. split; [|exact G].
    destruct (last_cell_voltages_ s) as [|z volts]; [discriminate|]. destruct (last_cell_diffs_ s) as [|k lasts]; [discriminate|].
    pose proof (deltas_lookup _ _ _ _ _ _ _ D Hx Hy Hn) as C. destruct (cell_delta_close _ _ _ _ X1 Y1 X2 Y2 X3 Y3) as (n' & E' & B). rewrite C in E'. injection E' as <-. exact B.
Qed.
End Table.

(** ** The inputs' screen *)
(** After any ticks each sensor blinks exactly when it is active, and the label names the first pressed button. *)
Section Inputs.
Context (chsnprintf : string -> list arg -> string).
Definition inputs_ok (s : inputs_screen) : Prop := map fst (sensors_ s) = [0; 1; 2; 3] /\ Forall (fun x => sensor_ok x.2) (sensors_ s).
Lemma inputs_Create_ok : inputs_ok inputs_Create.
Proof. split; [reflexivity|]. repeat (constructor; [split; reflexivity|]). constructor. Qed.
Lemma inputs_Tick_ok sensor hb pressed s : inputs_ok s -> let s' := inputs_Tick chsnprintf sensor hb pressed s in
  inputs_ok s' /\ Forall (fun x => sensor_seen x.2 = if sensor x.1 then Blinking else Steady) (sensors_ s') /\ btn_test_value_ s' = pressed_button pressed.
Proof.
  intros [H1 H2]. cbn. split; [split|split; [|reflexivity]]; cbn [sensors_].
  - unfold inputs_Tick. cbn [sensors_]. rewrite List.map_map. exact H1.
  - unfold inputs_Tick; cbn [sensors_]; apply Forall_map. eapply Forall_impl; [exact H2|]. intros [id x] O. apply sensor_SetState_ok, O.
  - unfold inputs_Tick; cbn [sensors_]; apply Forall_map. eapply Forall_impl; [exact H2|]. intros [id x] O. cbn in *.
    destruct (sensor_SetState_ok (if sensor id then TRIGGERED else SENSOR_IDLE) x O) as [[S _] E]. rewrite S, E. destruct (sensor id); reflexivity.
Qed.
Lemma pressed_button_first pressed : (forall id, id ∈ ALL_BUTTONS -> pressed id = false) /\ pressed_button pressed = "?" \/
  exists id, pressed id = true /\ pressed_button pressed = ButtonIdToString id.
Proof.
  unfold pressed_button. destruct (List.find pressed ALL_BUTTONS) as [id|] eqn:E.
  - right. exists id. split; [exact (proj2 (List.find_some _ _ E))|reflexivity].
  - left. split; [|reflexivity]. intros id Hid. apply (List.find_none _ _ E), list_elem_of_In, Hid.
Qed.
End Inputs.

(** ** Examples *)
Module CellsDemo.
Definition print (format : string) (_ : list arg) : string := format.
(** Seven cells of 3.9 V but for one of 4.02 V. *)
Definition cells (odd : f32) : list f32 := [f_lit 39 10; f_lit 39 10; odd; f_lit 39 10; f_lit 39 10; f_lit 39 10; f_lit 39 10; f0].
Definition pack (odd : f32) : Data :=
  new_Data <| cell_voltage_v := cells odd |> <| design_capacity_ah := f_of_Z 5 |> <| full_charge_capacity_ah := f_of_Z 4 |> <| battery_soc := f_lit 1 2 |>
    <| mfr_name := [83; 97; 98; 111; 0] |>.
(** A difference of 120 mV is an error, of which the two neighbours show both signs. *)
Example odd_cell_is_marked : option_map (fun s => (cell_diff_labels_ s, last_cell_diffs_ s, map last_set_icon_ (cell_status_icons_ s)))
    (battery_ticks print print [pack (f_lit 402 100)] battery_Create) =
  Some ([""; ""; "%dmV"; "%dmV"; ""; ""; ""]%string, [0; 0; 120; -120; 0; 0; 0],
        [ICON_UNDEF; ICON_UNDEF; SQUARE_XMARK; SQUARE_XMARK; ICON_UNDEF; ICON_UNDEF; ICON_UNDEF]).
Proof. reflexivity. Qed.
(** Cells that are balanced from the start get neither a delta nor a check mark. *)
Example balanced_cells_are_unmarked : option_map (fun s => (cell_diff_labels_ s, map last_set_icon_ (cell_status_icons_ s)))
    (battery_ticks print print [pack (f_lit 39 10); pack (f_lit 39 10)] battery_Create) = Some (replicate 7 ""%string, replicate 7 ICON_UNDEF).
Proof. reflexivity. Qed.
(** The manufacturer's data is looked at once, even before the battery's management was read. *)
Example names_are_missed : option_map mfr_val (battery_ticks print print [new_Data; pack (f_lit 39 10)] battery_Create) = Some "N/A"%string /\
  option_map mfr_val (battery_ticks print print [pack (f_lit 39 10)] battery_Create) = Some "Sabo"%string.
Proof. split; reflexivity. Qed.
(** A full charge of 2.6 times the design does not fit the percentage's byte. *)
Example health_overflows : health_pct (new_Data <| design_capacity_ah := f_of_Z 1 |> <| full_charge_capacity_ah := f_lit 26 10 |>) = None.
Proof. reflexivity. Qed.
End CellsDemo.
