(* ===== verification/SaboTexts.v ===== *)
(** What is read on the battery screen: the cells' labels with the texts that ChibiOS' formatted output writes into the
    screen's buffer of 64 bytes. *)
From Stdlib Require Import Reals Lra.
From stdpp Require Import strings.
From S2P Require Import Chprintf Prelude Float32 FloatError Json Leds Bms SaboUi SaboWidgets SaboPercent SaboMain SaboMainShows SaboScreens SaboCells.

(* @ sabo_screen_battery.hpp:149-149 SaboScreenBattery::SHARED_TEXT_BUFFER_SIZE *)
Definition SHARED_TEXT_BUFFER_SIZE : nat := 64.
(** The string [chsnprintf] leaves in the screen's buffer, which the label copies. *)
Definition shown (format : string) (args : list arg) : string :=
  default ""%string (printed_in SHARED_TEXT_BUFFER_SIZE format args).
Definition negated (b : bool) (z : Z) : Z := if b then - z else z.
(** A text of a voltage [v], with three digits behind the point, within 1.6 mV. *)
Definition reads_volts (t : string) (v : R) : Prop := exists b ip fp,
  t = to_string (minus_sign b ++ ip ++ [46] ++ fp ++ [86]) /\ Chprintf.digits ip /\ Chprintf.digits fp /\ (0 < length ip)%nat /\ length fp = 3%nat /\
  (Rabs (IZR (negated b (value 10 (ip ++ fp))) - 1000 * v) < 16 / 10)%R.
Lemma volts_shown x v : ordinary x -> (Rabs v <= 128)%R -> (Rabs (FV x - v) <= 6 / 10000)%R -> reads_volts (shown "%.3fV" [ArgF x]) v.
Proof.
  intros [V F] B N. apply Rabs_inv in B, N. destruct (directive_float x 3 [86] [] V F) as (b & ip & fp & E & Sb & D); [|lia|].
  { change (IZR (2 ^ 31)) with 2147483648%R. apply Rabs_def1; lra. }
  assert (P : chvprintf (marker "%.3fV") [ArgF x] = Some (minus_sign b ++ ip ++ [46] ++ fp ++ [86])).
  { change (marker "%.3fV") with (37 :: 46 :: 48 + 3 :: 102 :: [86]). rewrite (chvprintf_directive _ _ _ _ _ E). change [86] with ([86] ++ []) at 1. rewrite chvprintf_text by (constructor; [discriminate|constructor]).
    rewrite chvprintf_nil. cbn. rewrite <- !app_assoc. reflexivity. }
  assert (Li : (length ip <= 3)%nat) by (apply (decimal_ip_length (Rabs (FV x)) 3 ip fp 3 D); [lia|change (10 ^ Z.of_nat 3) with 1000; apply Rabs_def1; lra|lia]).
  destruct D as [D1 D2 D3 D4 _ D6]. change (Z.to_nat 3) with 3%nat in D4.
  assert (Lt : (length (minus_sign b ++ ip ++ [46%Z] ++ fp ++ [86%Z]) <= 9)%nat) by (rewrite !length_app, D4; destruct b; cbn [minus_sign length]; lia).
  unfold shown, printed_in. rewrite (chsnprintf_ok (replicate SHARED_TEXT_BUFFER_SIZE 0) (Z.of_nat SHARED_TEXT_BUFFER_SIZE) (marker "%.3fV") [ArgF x] _) with (3 := P) by (rewrite ?length_replicate; unfold SHARED_TEXT_BUFFER_SIZE; lia).
  cbn [mbind option_bind from_option id]. unfold stored. change (Z.of_nat SHARED_TEXT_BUFFER_SIZE <=? 0) with false. rewrite take_ge by (change (Z.to_nat (Z.of_nat SHARED_TEXT_BUFFER_SIZE - 1)) with 63%nat; lia). rewrite c_str_app.
  2:{ rewrite !Forall_app. repeat split; first [destruct b; constructor; [discriminate|constructor]|constructor; [discriminate|constructor]|eapply Forall_impl; [exact D1|]; cbn; lia|eapply Forall_impl; [exact D2|]; cbn; lia|constructor]. }
  exists b, ip, fp. do 5 (split; [first [reflexivity|assumption]|]). change (10 ^ 3) with 1000 in D6.
  assert (A : (Rabs (FV x) = if b then - FV x else FV x)%R).
  { destruct b; [apply Rabs_left, Sb; reflexivity|]. apply Rabs_right, Rnot_lt_ge. intros H. apply Sb in H. discriminate. }
  rewrite A in D6. unfold negated. destruct b; rewrite ?opp_IZR; apply Rabs_def1; lra.
Qed.

(** C32. What is read on the battery screen is what the battery has: after any ticks on data whose cells are ordinary
    voltages (up to 128 V) and whose percentages fit, the ticks succeed, and every cell's label is a number of volts
    with three digits behind the point, within 1.6 mV of the cell's voltage (0.6 for the two roundings, 1 because the
    digits are cut), or still empty, for a cell that is zero within 0.6 mV; from the second cell on, the delta's label
    is that of a whole number of millivolts within two of the difference to the cell before, with the icon of its
    threshold, or still empty, with no icon, for a difference that was never anything but zero. *)
Theorem cells_are_read lv_format l d : Forall readable (l ++ [d]) -> exists s, battery_ticks shown lv_format (l ++ [d]) battery_Create = Some s /\
  (forall i v, (i < BATTERY_CELLS)%nat -> cell_voltage_v d !! i = Some v ->
    exists t, cell_voltage_labels_ s !! i = Some t /\ (reads_volts t (FV v) \/ t = "" /\ (Rabs (FV v) <= 6 / 10000)%R)) /\
  (forall i v w, (Datatypes.S i < BATTERY_CELLS)%nat -> cell_voltage_v d !! Datatypes.S i = Some v -> cell_voltage_v d !! i = Some w ->
    exists t n icon, cell_diff_labels_ s !! Datatypes.S i = Some t /\ cell_status_icons_ s !! Datatypes.S i = Some icon /\
      (Rabs (IZR n - 1000 * (FV v - FV w)) < 2)%R /\
      (t = lv_format "%dmV" [ArgZ n] /\ glyph icon = ICONS (delta_icon n) \/ n = 0 /\ t = "" /\ glyph icon = ICONS ICON_UNDEF)).
Proof.
  intros R. destruct (cells_follow shown lv_format l d R) as (s & E & H1 & H2). exists s. split; [exact E|]. split; [|exact H2].
  apply Forall_app in R as [_ R]. inversion R as [|? ? (_ & Hc & _) _]; subst. intros i v Hi Hv. destruct (H1 i v Hi Hv) as (t & x & Ht & O & N & [-> |[-> ->]]).
  - eexists. split; [exact Ht|]. left. apply volts_shown; [exact O| |exact N]. rewrite Forall_lookup in Hc. apply (Hc i v Hv).
  - eexists. split; [exact Ht|]. right. split; [reflexivity|]. cbn [FV f0] in N. rewrite Rminus_0_l, Rabs_Ropp in N. exact N.
Qed.

(** ** Examples *)
Module TextsDemo.
Definition pack (odd : f32) : Data := CellsDemo.pack odd.
Definition lv_format (format : string) (_ : list arg) : string := format.
(** A cell of 4.1 V is shown as 4.099 V, although the voltage was rounded to three digits to be shown. *)
Example rounded_voltage_is_cut : option_map cell_voltage_labels_ (battery_ticks shown lv_format [pack (f_lit 41 10)] battery_Create) =
  Some ["3.900V"; "3.900V"; "4.099V"; "3.900V"; "3.900V"; "3.900V"; "3.900V"]%string.
Proof. vm_compute. reflexivity. Qed.
Lemma cells_are_read_witness : exists s, battery_ticks shown lv_format [pack (f_lit 41 10)] battery_Create = Some s /\
  exists t, cell_voltage_labels_ s !! 2%nat = Some t /\ (reads_volts t (FV (f_lit 41 10)) \/ t = "" /\ (Rabs (FV (f_lit 41 10)) <= 6 / 10000)%R).
Proof.
  destruct (cells_are_read lv_format [] (pack (f_lit 41 10))) as (s & E & H & _).
  - assert (B : forall x, valid_binary 24 128 x && match x with S754_finite _ _ e => e + 24 <=? 7 | _ => true end = true -> is_finite x = true -> cell_ok x).
    { intros x Hx F. split; [split; [exact (proj1 (andb_prop _ _ Hx))|exact F]|]. replace 128%R with (bpow 7) by (rewrite bpow_Z by lia; reflexivity). exact (FV_bounded x 7 Hx). }
    constructor; [|constructor]. split; [vm_compute; lia|]. split; [|split; eexists; vm_compute; reflexivity].
    change (cell_voltage_v _) with (CellsDemo.cells (f_lit 41 10)). unfold CellsDemo.cells. repeat (constructor; [apply B; reflexivity|]). constructor.
  - exists s. split; [exact E|]. apply (H 2%nat); [vm_compute; lia|reflexivity].
Defined.
End TextsDemo.
