(* ===== verification/SaboBoot.v ===== *)
(** The boot screen of the Sabo cover UI ([sabo_screen_boot.cpp]): the sequence of peripheral tests before the main
    screen. The tests are parameters, and what is shown is the output. *)
From S2P Require Import Prelude SaboUi SaboController.

(* @ sabo_screen_boot.hpp:67-67 AnimationState *)
Inductive boot_animation := NOT_STARTED | STARTED | DONE.
(* @ sabo_screen_boot.hpp:82-82 BootStepState *)
Inductive BootStepState := INIT | RUNNING | ERROR.
(* @ sabo_screen_boot.hpp:71-72 BOOT_STEP_COUNT_ *)
Definition BOOT_STEP_COUNT_ : Z := 6.
(* @ sabo_screen_boot.hpp:71-72 BOOT_STEP_RETRIES_ *)
Definition BOOT_STEP_RETRIES_ : Z := 3.
(* @ sabo_screen_boot.hpp:67-84 SaboScreenBoot *)
Record boot := mkBoot { current_boot_step_ : Z; boot_step_state_ : BootStepState; boot_step_retry_count_ : Z; last_boot_step_action_time_ : Z; animation_state_ : boot_animation }.
#[export] Instance eta_boot : Eta boot := fun b =>
  mkBoot (current_boot_step_ b) (boot_step_state_ b) (boot_step_retry_count_ b) (last_boot_step_action_time_ b) (animation_state_ b).
Definition new_boot : boot := mkBoot 0 INIT 0 0 NOT_STARTED.
(** The steps: the wait before a test, and its name. *)
(* @ sabo_screen_boot.cpp SaboScreenBoot::SaboScreenBoot *)
Definition boot_steps_ : list (string * Z) :=
  [("Initializing", 2000); ("Motion Sensor", 1000); ("Charger", 1000); ("Left ESC", 1000); ("Right ESC", 1000); ("Mower ESC", 1000)]%string.
(** What happens on the screen. *)
Inductive boot_out := Status (step progress : Z) (failures : Z) | ReadyToMow | RunTest (step : Z) | BootComplete.
#[export] Instance boot_out_eq : EqDecision boot_out.
Proof. solve_decision. Defined.
Definition delay_ms (step : Z) : Z := match boot_steps_ !! Z.to_nat step with Some s => s.2 | None => 0 end.
Definition boot_progress (step : Z) : Z := Z.quot (step * 100) BOOT_STEP_COUNT_.
(* @ sabo_screen_boot.cpp SaboScreenBoot::OnButtonPress *)
Definition boot_OnButtonPress (b : boot) : boot * bool :=
  if current_boot_step_ b <? BOOT_STEP_COUNT_ then
    match boot_step_state_ b with
    | ERROR => (b <| current_boot_step_ := current_boot_step_ b + 1 |> <| boot_step_state_ := INIT |> <| boot_step_retry_count_ := 0 |>, true)
    | _ => (b, false)
    end
  else (b, false).
(** [test] gives the outcome of a step's test. *)
(* @ sabo_screen_boot.cpp SaboScreenBoot::Tick *)
Definition boot_Tick (now : Z) (test : Z -> bool) (b : boot) : boot * list boot_out :=
  let step := current_boot_step_ b in
  if BOOT_STEP_COUNT_ <=? step then
    match animation_state_ b with
    | NOT_STARTED => (b <| animation_state_ := STARTED |>, [ReadyToMow])
    | DONE => (b, [BootComplete])
    | STARTED => (b, [])
    end
  else
    let elapsed_ms := TIME_I2MS (u32 (now - last_boot_step_action_time_ b)) in
    match boot_step_state_ b with
    | INIT => (b <| last_boot_step_action_time_ := now |> <| boot_step_retry_count_ := 0 |> <| boot_step_state_ := RUNNING |>, [Status step (boot_progress step) 0])
    | RUNNING =>
      if delay_ms step <=? elapsed_ms then
        if test step then (b <| current_boot_step_ := step + 1 |> <| boot_step_state_ := INIT |>, [RunTest step])
        else
          let retry := boot_step_retry_count_ b + 1 in
          let b := b <| boot_step_retry_count_ := retry |> <| last_boot_step_action_time_ := now |> in
          if retry <? BOOT_STEP_RETRIES_ then (b, [RunTest step; Status step (boot_progress step) retry])
          else (b <| boot_step_state_ := ERROR |>, [RunTest step; Status step (boot_progress step) retry])
      else (b, [])
    | ERROR =>
      if 60000 <=? elapsed_ms then (b <| current_boot_step_ := step + 1 |> <| boot_step_state_ := INIT |> <| boot_step_retry_count_ := 0 |>, [])
      else (b, [])
    end.

(** ** The sequence ends *)
(** Ticks 30 ms apart from [t0] on, the [i]-th with the outcomes [tests i]. *)
Definition PERIOD : Z := 300.
Fixpoint boot_run (n : nat) (i t0 : Z) (tests : Z -> Z -> bool) (b : boot) : boot * list boot_out :=
  match n with
  | O => (b, [])
  | Datatypes.S n =>
    let '(b, o) := boot_Tick (u32 (t0 + PERIOD * i)) (tests i) b in
    let '(b, o') := boot_run n (i + 1) t0 tests b in (b, o ++ o')
  end.
Definition tested (step : Z) (o : list boot_out) : Z := countb (fun x => match x with RunTest s => s =? step | _ => false end) o.
(** The ticks a wait takes, at most. *)
Definition WAIT_TICKS : Z := 67.
Definition ERROR_TICKS : Z := 2000.
(** The steps known to be [good] pass their tests; the ticks each of the steps from [step] on takes, at most. *)
Definition step_ticks (good : Z -> bool) (step : Z) : Z := if good step then 1 + WAIT_TICKS else 1 + 3 * WAIT_TICKS + ERROR_TICKS.
Definition ticks_from (good : Z -> bool) (step : Z) : Z := foldr Z.add 0 (map (step_ticks good) (seqZ step (BOOT_STEP_COUNT_ - step))).
Lemma ticks_from_cons good step : step < BOOT_STEP_COUNT_ -> ticks_from good step = step_ticks good step + ticks_from good (step + 1).
Proof. intros H. unfold ticks_from. rewrite seqZ_cons by lia. cbn [map foldr]. unfold Z.succ. replace (Z.pred (BOOT_STEP_COUNT_ - step)) with (BOOT_STEP_COUNT_ - (step + 1)) by lia. reflexivity. Qed.
(** The ticks left: of the steps to come, and of the one under way, whose last action was at tick [j]. *)
Definition ticks_left (good : Z -> bool) (i j : Z) (b : boot) : Z :=
  ticks_from good (current_boot_step_ b + 1) +
  match boot_step_state_ b with
  | INIT => step_ticks good (current_boot_step_ b)
  | RUNNING => (if good (current_boot_step_ b) then WAIT_TICKS else ERROR_TICKS + WAIT_TICKS * (BOOT_STEP_RETRIES_ - boot_step_retry_count_ b)) - (i - 1 - j)
  | ERROR => ERROR_TICKS - (i - 1 - j)
  end.
(** Before the [i]-th tick: the last action was at the tick [j], not long ago. *)
Definition boot_ok (t0 i j : Z) (b : boot) : Prop :=
  0 <= current_boot_step_ b < BOOT_STEP_COUNT_ /\
  match boot_step_state_ b with
  | INIT => True
  | RUNNING => 0 <= boot_step_retry_count_ b < BOOT_STEP_RETRIES_ /\ last_boot_step_action_time_ b = u32 (t0 + PERIOD * j) /\ 0 <= i - 1 - j < WAIT_TICKS
  | ERROR => boot_step_retry_count_ b = BOOT_STEP_RETRIES_ /\ last_boot_step_action_time_ b = u32 (t0 + PERIOD * j) /\ 0 <= i - 1 - j < ERROR_TICKS
  end.
(** How often the step under way has been tested. *)
Definition tests_so_far (b : boot) : Z := match boot_step_state_ b with INIT => 0 | _ => boot_step_retry_count_ b end.
Definition finished (b : boot) : Prop := current_boot_step_ b = BOOT_STEP_COUNT_.

Lemma elapsed_ticks t0 i j : 0 <= i - j <= 10000 -> TIME_I2MS (u32 (u32 (t0 + PERIOD * i) - u32 (t0 + PERIOD * j))) = 30 * (i - j).
Proof.
  intros H. unfold TIME_I2MS, PERIOD. replace (u32 (u32 (t0 + 300 * i) - u32 (t0 + 300 * j))) with (300 * (i - j)).
  - Z.to_euclidean_division_equations. lia.
  - unfold u32. rewrite Zminus_mod_idemp_l, Zminus_mod_idemp_r. replace (t0 + 300 * i - (t0 + 300 * j)) with (300 * (i - j)) by lia. symmetry. apply Z.mod_small. lia.
Qed.
Lemma delay_bounds step : 0 <= step < 6 -> 1000 <= delay_ms step <= 2000.
Proof. intros H. assert (Hc : step = 0 \/ step = 1 \/ step = 2 \/ step = 3 \/ step = 4 \/ step = 5) by lia. repeat (destruct Hc as [-> |Hc]); [..|subst step]; vm_compute; split; discriminate. Qed.

Lemma step_ticks_now good step : step_ticks good step = if good step then 68 else 2202.
Proof. reflexivity. Qed.
#[local] Ltac fits := repeat split; try assumption; try lia;
  match goal with
  | Hgood : ?g = true -> _, Hnow : step_ticks _ _ = _ |- _ => revert Hgood Hnow; destruct g; intros Hgood Hnow; [try (specialize (Hgood eq_refl); congruence); lia|lia]
  end.
(** One tick: closer to the end, and the tests of a step counted. *)
Lemma tick_progress good t0 i j test b : (good (current_boot_step_ b) = true -> test (current_boot_step_ b) = true) -> boot_ok t0 i j b -> let '(b', o) := boot_Tick (u32 (t0 + PERIOD * i)) test b in
  exists j', (finished b' \/ boot_ok t0 (i + 1) j' b' /\ ticks_left good (i + 1) j' b' < ticks_left good i j b) /\
    (current_boot_step_ b' = current_boot_step_ b /\ tests_so_far b + tested (current_boot_step_ b) o = tests_so_far b' \/
     current_boot_step_ b' = current_boot_step_ b + 1 /\ tests_so_far b' = 0 /\ 1 <= tests_so_far b + tested (current_boot_step_ b) o <= BOOT_STEP_RETRIES_) /\
    forall step, step <> current_boot_step_ b -> tested step o = 0.
Proof.
  intros Hgood [Hstep Hs]. unfold boot_Tick. rewrite (proj2 (Z.leb_gt _ _)) by (unfold BOOT_STEP_COUNT_ in *; lia).
  assert (Hother : forall step l, step <> current_boot_step_ b -> tested step (RunTest (current_boot_step_ b) :: l) = tested step l)
    by (intros step l Hne; unfold tested; cbn [countb]; rewrite (proj2 (Z.eqb_neq _ _)) by congruence; reflexivity).
  assert (Hthis : forall l, tested (current_boot_step_ b) (RunTest (current_boot_step_ b) :: l) = 1 + tested (current_boot_step_ b) l)
    by (intros l; unfold tested; cbn [countb]; rewrite Z.eqb_refl; reflexivity).
  pose proof (delay_bounds (current_boot_step_ b) Hstep) as Hd.
  pose proof (ticks_from_cons good (current_boot_step_ b + 1)) as Hnext. pose proof (step_ticks_now good (current_boot_step_ b)) as Hnow.
  unfold boot_ok, ticks_left, tests_so_far, finished, BOOT_STEP_COUNT_, BOOT_STEP_RETRIES_, WAIT_TICKS, ERROR_TICKS in *.
  destruct (boot_step_state_ b) eqn:Es.
  - exists i. cbn -[tested ticks_from step_ticks Z.add Z.mul]. split; [right; fits|]. split; [left; split; reflexivity|reflexivity].
  - destruct Hs as (Hr & Hl & Hj). rewrite Hl, elapsed_ticks by lia. destruct (Z.leb_spec (delay_ms (current_boot_step_ b)) (30 * (i - j))) as [Hdue|Hnot].
    + destruct (test (current_boot_step_ b)) eqn:Et; [|destruct (Z.ltb_spec (boot_step_retry_count_ b + 1) 3)].
      * exists i. cbn -[tested ticks_from step_ticks Z.add Z.mul]. rewrite ?Es. split; [assert (current_boot_step_ b + 1 = 6 \/ current_boot_step_ b + 1 < 6) as [|] by lia; [left; assumption|right; fits]|].
        rewrite Hthis. split; [right; unfold tested; cbn; lia|]. intros step Hne. apply (Hother step [] Hne).
      * exists i. cbn -[tested ticks_from step_ticks Z.add Z.mul]. rewrite ?Es. split; [right; fits|]. rewrite Hthis. split; [left; unfold tested; cbn; lia|]. intros step Hne. rewrite (Hother step _ Hne). reflexivity.
      * exists i. cbn -[tested ticks_from step_ticks Z.add Z.mul]. rewrite ?Es. split; [right; fits|]. rewrite Hthis. split; [left; unfold tested; cbn; lia|]. intros step Hne. rewrite (Hother step _ Hne). reflexivity.
    + exists j. rewrite ?Es. split; [right; fits|]. split; [left; unfold tested; cbn; lia|reflexivity].
  - destruct Hs as (Hr & Hl & Hj). rewrite Hl, elapsed_ticks by lia. destruct (Z.leb_spec 60000 (30 * (i - j))) as [Hdue|Hnot].
    + exists i. cbn -[tested ticks_from step_ticks Z.add Z.mul]. split; [assert (current_boot_step_ b + 1 = 6 \/ current_boot_step_ b + 1 < 6) as [|] by lia; [left; assumption|right; fits]|].
      split; [right; unfold tested; cbn; lia|reflexivity].
    + exists j. rewrite ?Es. split; [right; fits|]. split; [left; unfold tested; cbn; lia|reflexivity].
Qed.
Lemma tested_app step o1 o2 : tested step (o1 ++ o2) = tested step o1 + tested step o2.
Proof. apply countb_app. Qed.
(** The end, announced once. *)
Definition announced (o : list boot_out) : Z := countb (fun x => match x with ReadyToMow => true | _ => false end) o.
Lemma finished_run n i t0 tests b : finished b -> animation_state_ b = STARTED -> let '(b', o) := boot_run n i t0 tests b in
  finished b' /\ animation_state_ b' = STARTED /\ o = [].
Proof.
  revert i b. induction n as [|n IH]; intros i b Hf Ha; cbn [boot_run]; [auto|]. unfold finished in Hf. unfold boot_Tick. rewrite Hf, Ha. cbn [Z.leb Z.compare BOOT_STEP_COUNT_ Pos.compare Pos.compare_cont].
  specialize (IH (i + 1) b Hf Ha). destruct (boot_run n (i + 1) t0 tests b) as [b' o]. destruct IH as (H1 & H2 & ->). auto.
Qed.
Lemma tick_quiet now test b : 0 <= current_boot_step_ b < BOOT_STEP_COUNT_ -> let '(b', o) := boot_Tick now test b in animation_state_ b' = animation_state_ b /\ announced o = 0.
Proof.
  intros Hs. unfold boot_Tick. rewrite (proj2 (Z.leb_gt _ _)) by lia.
  destruct (boot_step_state_ b); [split; reflexivity| |]; destruct (_ <=? _); try (split; reflexivity).
  destruct (test _); [split; reflexivity|]. destruct (_ <? _); split; reflexivity.
Qed.
Lemma ticks_from_nonneg good step : 0 <= ticks_from good step.
Proof. unfold ticks_from. induction (seqZ step _) as [|x l IH]; cbn [map foldr]; [lia|]. rewrite step_ticks_now. destruct (good x); lia. Qed.
Lemma ticks_left_pos good t0 i j b : boot_ok t0 i j b -> 0 < ticks_left good i j b.
Proof.
  intros [Hs H]. pose proof (ticks_from_nonneg good (current_boot_step_ b + 1)). unfold ticks_left, WAIT_TICKS, ERROR_TICKS, BOOT_STEP_RETRIES_ in *. rewrite step_ticks_now.
  destruct (boot_step_state_ b), (good (current_boot_step_ b)); lia.
Qed.
(** No step known to pass. *)
Definition worst (step : Z) : bool := false.
Lemma tick_incomplete now test b : 0 <= current_boot_step_ b < BOOT_STEP_COUNT_ -> (BootComplete ∉ (boot_Tick now test b).2).
Proof.
  intros Hs. unfold boot_Tick. rewrite (proj2 (Z.leb_gt _ _)) by lia.
  destruct (boot_step_state_ b); [|destruct (_ <=? _); [destruct (test _); [|destruct (_ <? _)]|]|destruct (_ <=? _)]; cbn; rewrite ?elem_of_cons, elem_of_nil; intuition discriminate.
Qed.
Lemma closing_tick now test b : finished b -> boot_Tick now test b =
  match animation_state_ b with NOT_STARTED => (b <| animation_state_ := STARTED |>, [ReadyToMow]) | DONE => (b, [BootComplete]) | STARTED => (b, []) end.
Proof. unfold finished, boot_Tick. intros ->. reflexivity. Qed.
Lemma ticks_left_start good : ticks_left good 0 0 new_boot = ticks_from good 0.
Proof. unfold ticks_left. cbn [new_boot current_boot_step_ boot_step_state_]. rewrite (ticks_from_cons good 0) by reflexivity. change (0 + 1) with 1. lia. Qed.
Lemma boot_run_from n i j t0 tests b : boot_ok t0 i j b -> animation_state_ b = NOT_STARTED -> ticks_left worst i j b < Z.of_nat n ->
  let '(b', o) := boot_run n i t0 tests b in
  finished b' /\ animation_state_ b' = STARTED /\ announced o = 1 /\
  forall step, (0 <= step < current_boot_step_ b -> tested step o = 0) /\
    (current_boot_step_ b <= step < BOOT_STEP_COUNT_ -> 1 <= (if step =? current_boot_step_ b then tests_so_far b else 0) + tested step o <= BOOT_STEP_RETRIES_).
Proof.
  revert i j b. induction n as [|n IH]; intros i j b Hok Ha Hn.
  { exfalso. pose proof (ticks_left_pos worst t0 i j b Hok). lia. }
  cbn [boot_run]. pose proof (tick_progress worst t0 i j (tests i) b ltac:(discriminate) Hok) as P. pose proof (tick_quiet (u32 (t0 + PERIOD * i)) (tests i) b (proj1 Hok)) as Q.
  destruct (boot_Tick _ _ b) as [b1 o1]. destruct Q as [Qa Qr]. destruct P as (j' & Hend & Hstep & Hother).
  assert (Hgoal : forall b' o, (finished b' /\ animation_state_ b' = STARTED /\ announced o = 1 /\ forall step, (0 <= step < current_boot_step_ b1 -> tested step o = 0) /\
      (current_boot_step_ b1 <= step < BOOT_STEP_COUNT_ -> 1 <= (if step =? current_boot_step_ b1 then tests_so_far b1 else 0) + tested step o <= BOOT_STEP_RETRIES_)) ->
      finished b' /\ animation_state_ b' = STARTED /\ announced (o1 ++ o) = 1 /\ forall step, (0 <= step < current_boot_step_ b -> tested step (o1 ++ o) = 0) /\
      (current_boot_step_ b <= step < BOOT_STEP_COUNT_ -> 1 <= (if step =? current_boot_step_ b then tests_so_far b else 0) + tested step (o1 ++ o) <= BOOT_STEP_RETRIES_)).
  { pose proof (proj1 Hok) as Hcur. intros b' o (H1 & H2 & H3 & H4). split; [exact H1|]. split; [exact H2|].
    split; [unfold announced in *; rewrite countb_app; lia|]. intros step. rewrite tested_app. destruct (H4 step) as [H5 H6]. specialize (Hother step).
    destruct (Z.eqb_spec step (current_boot_step_ b)) as [->|Hne]; [|specialize (Hother Hne)]; destruct Hstep as [(E1 & E2)|(E1 & E2 & E3)]; rewrite E1 in *.
    - rewrite Z.eqb_refl in H6. split; lia.
    - rewrite (proj2 (Z.eqb_neq _ _)) in H6 by lia. split; [lia|]. intros Hs. rewrite (H5 ltac:(lia)). lia.
    - rewrite (proj2 (Z.eqb_neq _ _)) in H6 by lia. split; lia.
    - destruct (step =? current_boot_step_ b + 1); split; lia. }
  destruct Hend as [Hf|[Hok' Hlt]].
  - destruct n as [|n]; [exfalso; pose proof (ticks_left_pos worst t0 i j b Hok); lia|].
    cbn [boot_run]. unfold boot_Tick. rewrite Qa, Ha. unfold finished in Hf. rewrite Hf. cbn [Z.leb Z.compare BOOT_STEP_COUNT_ Pos.compare Pos.compare_cont].
    assert (Hb1 : animation_state_ (b1 <| animation_state_ := STARTED |>) = STARTED) by reflexivity.
    assert (Hf1 : finished (b1 <| animation_state_ := STARTED |>)) by exact Hf.
    pose proof (finished_run n (i + 1 + 1) t0 tests _ Hf1 Hb1) as R.
    destruct (boot_run n (i + 1 + 1) t0 tests _) as [b' o]. destruct R as (R1 & R2 & ->). apply Hgoal. split; [exact R1|]. split; [exact R2|]. split; [reflexivity|].
    intros step. rewrite Hf. split; [reflexivity|lia].
  - specialize (IH (i + 1) j' b1 Hok' (eq_trans Qa Ha) ltac:(lia)). destruct (boot_run n (i + 1) t0 tests b1) as [b' o]. apply Hgoal, IH.
Qed.

(** Whatever the outcomes of the tests, tick by tick, within 13212 ticks of 30 ms (under seven minutes, with every test
    failing every time) the sequence is over and the closing animation has been started exactly once; and each of the
    six steps has then been tested at least once and at most three times. *)
Lemma boot_sequence_ends t0 tests n : 13212 < Z.of_nat n -> let '(b, o) := boot_run n 0 t0 tests new_boot in
  finished b /\ animation_state_ b = STARTED /\ announced o = 1 /\
  forall step, 0 <= step < BOOT_STEP_COUNT_ -> 1 <= tested step o <= BOOT_STEP_RETRIES_.
Proof.
  intros Hn. assert (Hok : boot_ok t0 0 0 new_boot) by (split; [compute; intuition discriminate|exact I]).
  pose proof (boot_run_from n 0 0 t0 tests new_boot Hok eq_refl ltac:(change (ticks_left worst 0 0 new_boot) with 13212; lia)) as R.
  destruct (boot_run n 0 t0 tests new_boot) as [b o]. destruct R as (H1 & H2 & H3 & H4). split; [exact H1|]. split; [exact H2|]. split; [exact H3|].
  intros step Hs. destruct (H4 step) as [_ H5]. specialize (H5 Hs). destruct (step =? _); exact H5.
Qed.
