(* ===== verification/SaboDisplay.v ===== *)
(** The display of the Sabo cover UI ([sabo_cover_ui_display.cpp], [sabo_menu_main.hpp], [screen_base.hpp]) and the
    keypad LVGL reads: which screen is active, the menu over it, sleeping and waking.

    LVGL's animations are [Animations]; what LVGL draws is not modelled. [None] is a call through a null or dangling
    pointer. *)
From S2P Require Import Prelude Dma Settings SaboUi SaboController SaboBoot.

(* @ sabo_common.hpp:37-37 ScreenId *)
Inductive ScreenId := SCR_BOOT | SCR_MAIN | SCR_MENU | SCR_CMD | SCR_SETTINGS | SCR_BATTERY | SCR_INPUTS | SCR_ABOUT.
#[export] Instance ScreenId_eq : EqDecision ScreenId.
Proof. solve_decision. Defined.
(* @ sabo_menu_main.hpp:40-40 MenuItem *)
Inductive MenuItem := ITEM_CMD | ITEM_SETTINGS | ITEM_BATTERY | ITEM_INPUTS | ITEM_ABOUT.
(* @ sabo_menu_main.hpp:41-41 AnimationState *)
Inductive AnimationState := HIDDEN | SLIDING_IN | VISIBLE | SLIDING_OUT.
#[export] Instance AnimationState_eq : EqDecision AnimationState.
Proof. solve_decision. Defined.

(** ** The keypad *)
(** LVGL's keys, and what its read callback fills in. *)
Inductive lv_key := LV_KEY_PREV | LV_KEY_NEXT | LV_KEY_LEFT | LV_KEY_RIGHT | LV_KEY_ENTER | LV_KEY_ESC | KEY_NONE.
(* @ sabo_input_device_keypad.hpp:66-73 SaboInputDeviceKeypad::ReadCallback *)
Definition button_map : list (ButtonId * lv_key) :=
  [(UP, LV_KEY_PREV); (DOWN, LV_KEY_NEXT); (LEFT, LV_KEY_LEFT); (RIGHT, LV_KEY_RIGHT); (OK, LV_KEY_ENTER); (BACK, LV_KEY_ESC)].
(** From the last key and the buttons: the key, whether it is pressed, and the last key. *)
(* @ sabo_input_device_keypad.hpp SaboInputDeviceKeypad::ReadCallback *)
Definition ReadCallback (pressed : ButtonId -> bool) (last_key_ : lv_key) : lv_key * bool * lv_key :=
  match List.find (fun m => pressed m.1) button_map with
  | Some m => (m.2, true, m.2)
  | None => (last_key_, false, last_key_)
  end.

(** ** LVGL's animations *)
(** An animation is started for a variable, runs its callbacks with that variable, and is deleted by it. *)
Inductive anim_var := TheMenu (n : nat) | ItsContainer (n : nat).
Inductive slide := In | Out.
#[export] Instance anim_var_eq : EqDecision anim_var.
Proof. solve_decision. Defined.
#[export] Instance slide_eq : EqDecision slide.
Proof. solve_decision. Defined.
Class Animations (L : Type) := {
  lv_anim_start : anim_var -> slide -> L -> L;
  lv_anim_delete : anim_var -> L -> L;
  lv_anim_done : anim_var -> slide -> L -> L;
  running : L -> list (anim_var * slide) }.
Class AnimationsLaws (L : Type) `{Animations L} : Prop := {
  started_runs v k l a : a ∈ running (lv_anim_start v k l) <-> a = (v, k) \/ a ∈ running l;
  deleted_stops v l a : a ∈ running (lv_anim_delete v l) <-> a ∈ running l /\ a.1 <> v;
  done_stops v k l a : a ∈ running (lv_anim_done v k l) <-> a ∈ running l /\ a <> (v, k) }.

(** ** The display's state *)
(** A menu: which one, its animation's state, whether it holds an animation, and the screen it lies over. *)
(* @ sabo_menu_main.hpp:224-230 SaboMenuMain *)
Record menu := mkMenu { menu_id : nat; anim_state_ : AnimationState; menu_anim_ : bool; parent : ScreenId }.
#[export] Instance eta_menu : Eta menu := fun m => mkMenu (menu_id m) (anim_state_ m) (menu_anim_ m) (parent m).
(** What can have the input focus. *)
Inductive focus := MenuItems (n : nat) | ScreenItems (s : ScreenId).
#[export] Instance focus_eq : EqDecision focus.
Proof. solve_decision. Defined.

Section Display.
Context {L F : Type} `{AN : Animations L}.
(** The settings' file. *)
Context (lcd_load : F -> option LCDSettings) (lcd_save : LCDSettings -> F -> F).
(* @ sabo_cover_ui_display.hpp:97-116 SaboCoverUIDisplay *)
Record display := mkDisplay {
  active_screen_ : option ScreenId; screens : list ScreenId; menu_main_ : option menu; next_menu : nat; anims : L;
  input_group_ : list focus; block_buttons_ : bool; lcd_settings_ : LCDSettings; screen_settings : LCDSettings; file : F;
  boot_ : boot; last_activity_ : Z; backlight : bool; display_enabled_ : bool }.
#[export] Instance eta_display : Eta display := fun d => mkDisplay (active_screen_ d) (screens d) (menu_main_ d) (next_menu d) (anims d)
  (input_group_ d) (block_buttons_ d) (lcd_settings_ d) (screen_settings d) (file d) (boot_ d) (last_activity_ d) (backlight d) (display_enabled_ d).
(* @ sabo_cover_ui_display.cpp SaboCoverUIDisplay::SaboCoverUIDisplay *)
Definition new_display (anims0 : L) (file0 : F) : display :=
  mkDisplay None [] None 0 anims0 [] false (default default_LCD (lcd_load file0)) default_LCD file0 new_boot 0 false false.

(** *** Screens *)
(** A screen's items in the focus group; only these screens have some. *)
Definition focusable (s : ScreenId) : bool := match s with SCR_SETTINGS | SCR_ABOUT | SCR_BATTERY => true | _ => false end.
Definition ungroup (i : focus) (d : display) : display := d <| input_group_ := filter (fun j => j <> i) (input_group_ d) |>.
(* @ sabo_screen_settings.hpp Activate *)
Definition Activate (s : ScreenId) (d : display) : display :=
  if focusable s then d <| input_group_ := input_group_ d ++ [ScreenItems s] |> else d.
(* @ sabo_screen_settings.hpp Deactivate *)
Definition Deactivate (s : ScreenId) (d : display) : display := if focusable s then ungroup (ScreenItems s) d else d.
(* @ sabo_screen_inputs.hpp Show *)
Definition Show (s : ScreenId) (d : display) : display := match s with SCR_INPUTS => d <| block_buttons_ := true |> | _ => d end.
(* @ sabo_screen_inputs.hpp Hide *)
Definition Hide (s : ScreenId) (d : display) : display := match s with SCR_INPUTS => d <| block_buttons_ := false |> | _ => d end.
Definition is_live (s : ScreenId) (d : display) : bool := bool_decide (s ∈ screens d).
(** A method of a screen: its object has to be there. *)
Definition on_screen (s : ScreenId) (f : display -> display) (d : display) : option display := if is_live s d then Some (f d) else None.
Definition on_active (f : ScreenId -> display -> display) (d : display) : option display :=
  match active_screen_ d with Some s => on_screen s (f s) d | None => Some d end.
(** [new ScreenT()] and [Create]; the settings' screen loads the file. *)
(* @ sabo_screen_settings.hpp:38-42 SaboScreenSettings *)
Definition new_screen (s : ScreenId) (d : display) : display :=
  let d := match s with SCR_SETTINGS => d <| screen_settings := default default_LCD (lcd_load (file d)) |> | SCR_BOOT => d <| boot_ := new_boot |> | _ => d end in
  d <| screens := s :: screens d |>.
(** [delete screen]: its destructor, and LVGL takes its objects out of the group. *)
(* @ sabo_screen_inputs.hpp:53-65 SaboScreenInputs::~SaboScreenInputs *)
Definition delete_screen (s : ScreenId) (d : display) : display :=
  Hide s (ungroup (ScreenItems s) (d <| screens := filter (fun t => t <> s) (screens d) |>)).

(** *** The menu *)
(* @ sabo_menu_main.hpp:47-63 SaboMenuMain::~SaboMenuMain *)
Definition delete_menu (d : display) : display :=
  match menu_main_ d with
  | None => d
  | Some m =>
    let d := if menu_anim_ m then d <| anims := lv_anim_delete (ItsContainer (menu_id m)) (anims d) |> else d in
    ungroup (MenuItems (menu_id m)) (d <| menu_main_ := None |>)
  end.
(* @ sabo_menu_main.hpp SaboMenuMain::SlideIn *)
Definition SlideIn (m : menu) (d : display) : display :=
  match anim_state_ m with
  | VISIBLE | SLIDING_IN => d <| menu_main_ := Some m |>
  | _ => d <| menu_main_ := Some (m <| menu_anim_ := true |> <| anim_state_ := SLIDING_IN |>) |> <| anims := lv_anim_start (TheMenu (menu_id m)) In (anims d) |>
  end.
(* @ sabo_menu_main.hpp SaboMenuMain::SlideOut *)
Definition SlideOut (m : menu) (d : display) : display :=
  match anim_state_ m with
  | HIDDEN | SLIDING_OUT => d <| menu_main_ := Some m |>
  | _ => d <| menu_main_ := Some (m <| menu_anim_ := true |> <| anim_state_ := SLIDING_OUT |>) |> <| anims := lv_anim_start (TheMenu (menu_id m)) Out (anims d) |>
  end.
Definition menu_state (d : display) : option AnimationState := m ← menu_main_ d; Some (anim_state_ m).

(** *** Switching *)
(* @ sabo_cover_ui_display.cpp SaboCoverUIDisplay::ShowBootScreen *)
Definition ShowBootScreen (d : display) : display :=
  let d := if is_live SCR_BOOT d then d else new_screen SCR_BOOT d in
  Show SCR_BOOT (d <| active_screen_ := Some SCR_BOOT |>).
(* @ sabo_cover_ui_display.hpp SwitchToScreen *)
Definition SwitchToScreen (s : ScreenId) (d : display) : option display :=
  let d := delete_menu d in
  d ← on_active (fun a d => Hide a (Deactivate a d)) d;
  let d := if is_live s d then d else new_screen s d in
  Some (Activate s (Show s (d <| active_screen_ := Some s |>))).
(* @ sabo_cover_ui_display.cpp SaboCoverUIDisplay::ShowMainScreen *)
Definition ShowMainScreen (d : display) : option display := SwitchToScreen SCR_MAIN d.
(* @ sabo_cover_ui_display.hpp CloseScreen *)
Definition CloseScreen (s : ScreenId) (d : display) : option display :=
  let d := delete_menu d in
  d ← (if is_live s d then d ← ShowMainScreen d; Some (delete_screen s d) else Some d);
  Some (d <| input_group_ := [] |>).
(* @ sabo_cover_ui_display.hpp CloseSettingsScreen *)
Definition CloseSettingsScreen (d : display) : option display :=
  CloseScreen SCR_SETTINGS (if is_live SCR_SETTINGS d then d <| lcd_settings_ := screen_settings d |> else d).
(* @ sabo_cover_ui_display.cpp SaboCoverUIDisplay::ShowMenu *)
Definition ShowMenu (d : display) : option display :=
  if bool_decide (menu_state d = Some SLIDING_OUT) then Some d else
  let d := delete_menu d in
  let d := d <| next_menu := S (next_menu d) |> in
  match active_screen_ d with
  | None => Some (d <| menu_main_ := Some (mkMenu (next_menu d) HIDDEN false SCR_BOOT) |>)
  | Some a =>
    if negb (is_live a d) then None else
    let m := mkMenu (next_menu d) HIDDEN false a in
    Some (SlideIn m (d <| input_group_ := [MenuItems (menu_id m)] |>))
  end.
(* @ sabo_cover_ui_display.cpp SaboCoverUIDisplay::HideMenu *)
Definition HideMenu (d : display) : option display :=
  match menu_main_ d with
  | None => Some d
  | Some m => on_active Activate ((SlideOut m d) <| input_group_ := [] |>)
  end.
(** The callbacks of the menu's items. *)
(* @ sabo_cover_ui_display.cpp:137-168 SaboCoverUIDisplay::ShowMenu *)
Definition item_clicked (i : MenuItem) (d : display) : option display :=
  match i with
  | ITEM_CMD => Some d
  | ITEM_SETTINGS => SwitchToScreen SCR_SETTINGS d
  | ITEM_BATTERY => SwitchToScreen SCR_BATTERY d
  | ITEM_INPUTS => SwitchToScreen SCR_INPUTS d
  | ITEM_ABOUT => SwitchToScreen SCR_ABOUT d
  end.
(* @ sabo_cover_ui_display.cpp SaboCoverUIDisplay::OnBootComplete *)
Definition OnBootComplete (d : display) : option display := d ← ShowMainScreen d; Some (delete_screen SCR_BOOT d).
(* @ sabo_cover_ui_display.cpp SaboCoverUIDisplay::OnMenuClosed *)
Definition OnMenuClosed (d : display) : display := delete_menu d.

(** *** Buttons *)
(** The active screen's own reaction: whether it took the press. *)
(* @ sabo_screen_about.hpp OnButtonPress *)
Definition screen_OnButtonPress (s : ScreenId) (id : ButtonId) (d : display) : display * bool :=
  match s with
  | SCR_BOOT => let '(b, handled) := boot_OnButtonPress (boot_ d) in (d <| boot_ := b |>, handled)
  | SCR_ABOUT | SCR_BATTERY => (d, match id with UP | DOWN => true | _ => false end)
  | _ => (d, false)
  end.
(* @ sabo_screen_settings.hpp SaboScreenSettings::SaveSettings *)
Definition SaveSettings (d : display) : display := d <| file := lcd_save (screen_settings d) (file d) |>.
(* @ sabo_cover_ui_display.cpp SaboCoverUIDisplay::OnButtonPress *)
Definition display_OnButtonPress (id : ButtonId) (d : display) : option (display * bool) :=
  match active_screen_ d with
  | None => Some (d, false)
  | Some a =>
    if negb (is_live a d) then None else
    let '(d, taken) := match menu_main_ d with None => screen_OnButtonPress a id d | Some _ => (d, false) end in
    if taken then Some (d, true) else
    match id with
    | MENU =>
      if decide (a = SCR_BOOT) then Some (d, false)
      else if bool_decide (menu_state d = Some VISIBLE \/ menu_state d = Some SLIDING_IN) then
        let d := if decide (a = SCR_SETTINGS) then if is_live SCR_SETTINGS d then SaveSettings d else d else d in
        d ← HideMenu d; Some (d, true)
      else d ← ShowMenu d; Some (d, true)
    | BACK =>
      match a with
      | SCR_SETTINGS => d ← CloseSettingsScreen (if is_live SCR_SETTINGS d then SaveSettings d else d); Some (d, true)
      | SCR_ABOUT | SCR_BATTERY | SCR_INPUTS => d ← CloseScreen a d; Some (d, true)
      | SCR_BOOT => Some (d, false)
      | _ => d ← HideMenu d; Some (d, true)
      end
    | _ => Some (d, false)
    end
  end.

(** *** Sleeping and waking *)
(* @ sabo_cover_ui_display.cpp SaboCoverUIDisplay::WakeUp *)
Definition display_WakeUp (now : Z) (d : display) : display := d <| display_enabled_ := true |> <| backlight := true |> <| last_activity_ := now |>.
(** [test] gives the outcomes of the boot screen's tests. *)
(* @ sabo_cover_ui_display.cpp SaboCoverUIDisplay::Tick *)
Definition display_Tick (now : Z) (test : Z -> bool) (d : display) : option display :=
  let timeout := TIME_MS2I (1000 * (auto_sleep_minutes (lcd_settings_ d) * 60)) in
  if timeout <? u32 (now - last_activity_ d) then Some (d <| backlight := false |> <| display_enabled_ := false |>)
  else match active_screen_ d with
  | None => Some d
  | Some a =>
    if negb (is_live a d) then None else
    match a with
    | SCR_BOOT =>
      let '(b, o) := boot_Tick now test (boot_ d) in
      let d := d <| boot_ := b |> in
      if bool_decide (BootComplete ∈ o) then OnBootComplete d else Some d
    | _ => Some d
    end
  end.

(** *** LVGL's callbacks *)
(** The user's changes on the settings' screen. *)
(* @ sabo_screen_settings.hpp:78-90 SaboScreenSettings::Create *)
Definition contrast_changed (v : Z) (d : display) : display := d <| screen_settings := mkLCD (lcd_version (screen_settings d)) (u8 v) (temp_compensation (screen_settings d)) (auto_sleep_minutes (screen_settings d)) |>.
(* @ sabo_screen_settings.hpp:110-121 SaboScreenSettings::Create *)
Definition temp_changed (v : Z) (d : display) : display := d <| screen_settings := mkLCD (lcd_version (screen_settings d)) (contrast (screen_settings d)) v (auto_sleep_minutes (screen_settings d)) |>.
(* @ sabo_screen_settings.hpp:140-151 SaboScreenSettings::Create *)
Definition sleep_changed (v : Z) (d : display) : display := d <| screen_settings := mkLCD (lcd_version (screen_settings d)) (contrast (screen_settings d)) (temp_compensation (screen_settings d)) (u8 v) |>.
(** A frame of an animation, and its end: the menu it was started for has to be there. *)
Definition menu_of (v : anim_var) (d : display) : option menu :=
  m ← menu_main_ d; if decide (v = TheMenu (menu_id m)) then Some m else None.
(* @ sabo_menu_main.hpp:136-139 SaboMenuMain::SlideIn *)
Definition anim_frame (v : anim_var) (d : display) : option display := _ ← menu_of v d; Some d.
(* @ sabo_menu_main.hpp:168-177 SaboMenuMain::SlideOut *)
Definition anim_completed (v : anim_var) (k : slide) (d : display) : option display :=
  let d := d <| anims := lv_anim_done v k (anims d) |> in
  m ← menu_of v d;
  match k with
  | In => Some (d <| menu_main_ := Some (m <| anim_state_ := VISIBLE |>) |>)
  | Out => Some (OnMenuClosed (d <| menu_main_ := Some (m <| anim_state_ := HIDDEN |>) |>))
  end.
(** The closing animation of the boot screen is deleted by LVGL when it is over. *)
(* @ sabo_screen_boot.cpp:144-148 SaboScreenBoot::StartForwardAnimation *)
Definition boot_anim_deleted (d : display) : display := d <| boot_ := (boot_ d) <| animation_state_ := DONE |> |>.

(** ** Consistency *)
(** What can happen to the display. A slider is changed on its screen, an item clicked in its menu. LVGL runs a frame,
    or the end, of any animation it has, whether its menu is still there or not. *)
Inductive event :=
| EvTick (now : Z) (test : Z -> bool) | EvWakeUp (now : Z) | EvButton (id : ButtonId) | EvItem (i : MenuItem)
| EvContrast (v : Z) | EvTemp (v : Z) | EvSleep (v : Z) | EvBootAnim | EvMenuAnim (n : nat) (k : slide) (over : bool).
Definition handle (e : event) (d : display) : option display :=
  match e with
  | EvTick now test => display_Tick now test d
  | EvWakeUp now => Some (display_WakeUp now d)
  | EvButton id => '(d, _) ← display_OnButtonPress id d; Some d
  | EvItem i => match menu_main_ d with Some _ => item_clicked i d | None => Some d end
  | EvContrast v => Some (if is_live SCR_SETTINGS d then contrast_changed v d else d)
  | EvTemp v => Some (if is_live SCR_SETTINGS d then temp_changed v d else d)
  | EvSleep v => Some (if is_live SCR_SETTINGS d then sleep_changed v d else d)
  | EvBootAnim => Some (if is_live SCR_BOOT d then boot_anim_deleted d else d)
  | EvMenuAnim n k over =>
    if decide ((TheMenu n, k) ∈ running (anims d)) then if over then anim_completed (TheMenu n) k d else anim_frame (TheMenu n) d else Some d
  end.
Definition handles (l : list event) (d : display) : option display := foldl (fun r e => d ← r; handle e d) (Some d) l.

Definition in_focus (a : ScreenId) (d : display) (i : focus) : Prop :=
  match i with MenuItems n => exists m, menu_main_ d = Some m /\ menu_id m = n | ScreenItems s => s = a /\ focusable s = true end.
Record consistent_at (a : ScreenId) (d : display) : Prop := {
  c_active : active_screen_ d = Some a;
  c_live : a ∈ screens d;
  c_known : a ∈ [SCR_BOOT; SCR_MAIN; SCR_SETTINGS; SCR_BATTERY; SCR_INPUTS; SCR_ABOUT];
  c_boot : SCR_BOOT ∈ screens d <-> a = SCR_BOOT;
  c_blocked : block_buttons_ d = bool_decide (a = SCR_INPUTS);
  c_menu : forall m, menu_main_ d = Some m -> parent m = a /\ a <> SCR_BOOT /\ anim_state_ m <> HIDDEN;
  c_focus : Forall (in_focus a d) (input_group_ d) }.
Definition consistent (d : display) : Prop := exists a, consistent_at a d.

Lemma live_true s d : s ∈ screens d -> is_live s d = true.
Proof. intros Hs. apply bool_decide_eq_true_2, Hs. Qed.
Lemma delete_menu_spec d : let d' := delete_menu d in
  menu_main_ d' = None /\ active_screen_ d' = active_screen_ d /\ screens d' = screens d /\ block_buttons_ d' = block_buttons_ d /\
  input_group_ d' = match menu_main_ d with Some m => filter (fun j => j <> MenuItems (menu_id m)) (input_group_ d) | None => input_group_ d end /\
  lcd_settings_ d' = lcd_settings_ d /\ screen_settings d' = screen_settings d /\ file d' = file d /\ boot_ d' = boot_ d.
Proof. unfold delete_menu. destruct (menu_main_ d) as [m|] eqn:E; [destruct (menu_anim_ m)|]; cbn; repeat split; assumption. Qed.
(** Without a menu the focus is the active screen's. *)
Lemma focus_after_menu a d : Forall (in_focus a d) (input_group_ d) ->
  Forall (fun i => i = ScreenItems a /\ focusable a = true) (input_group_ (delete_menu d)).
Proof.
  intros Hf. destruct (delete_menu_spec d) as (_ & _ & _ & _ & -> & _). destruct (menu_main_ d) as [m|] eqn:E.
  - rewrite Forall_forall in *. intros i [Hn Hi]%list_elem_of_filter. specialize (Hf i Hi). destruct i as [n|s]; [|destruct Hf as [-> Hs]; auto].
    destruct Hf as (m' & E' & Hm). rewrite E in E'. injection E' as <-. congruence.
  - eapply Forall_impl; [exact Hf|]. intros [n|s] Hi; cbn in Hi; [destruct Hi as (m & Hm & _); congruence|destruct Hi as [-> Hs]; auto].
Qed.
Lemma deactivated a d : Forall (fun i => i = ScreenItems a /\ focusable a = true) (input_group_ d) -> input_group_ (Hide a (Deactivate a d)) = [].
Proof.
  intros Hf. assert (Hh : forall d, input_group_ (Hide a d) = input_group_ d) by (intros d0; destruct a; reflexivity). rewrite Hh. unfold Deactivate.
  destruct (focusable a) eqn:E; cbn.
  - induction Hf as [|i l [-> _] _ IH]; [reflexivity|]. rewrite filter_cons_False by (intros Hn; apply Hn; reflexivity). exact IH.
  - destruct Hf as [|i l [_ Hi] _]; [reflexivity|discriminate Hi].
Qed.
(** What switching leaves: the screen is there and active, the menu gone, the focus and the buttons the screen's. *)
Record switched (s : ScreenId) (d d' : display) : Prop := {
  sw_active : active_screen_ d' = Some s;
  sw_live t : t ∈ screens d' <-> t = s \/ t ∈ screens d;
  sw_menu : menu_main_ d' = None;
  sw_focus : input_group_ d' = if focusable s then [ScreenItems s] else [];
  sw_blocked : block_buttons_ d' = bool_decide (s = SCR_INPUTS);
  sw_kept : lcd_settings_ d' = lcd_settings_ d /\ file d' = file d }.
Lemma SwitchToScreen_spec s a d : consistent_at a d -> exists d', SwitchToScreen s d = Some d' /\ switched s d d'.
Proof.
  intros C. unfold SwitchToScreen. destruct (delete_menu_spec d) as (M1 & M2 & M3 & M4 & _ & M6 & _ & M8 & _).
  pose proof (focus_after_menu a d (c_focus _ _ C)) as Hf. set (d1 := delete_menu d) in *.
  unfold on_active, on_screen. rewrite M2, (c_active _ _ C), (live_true a d1) by (rewrite M3; apply C). cbn [mbind option_bind].
  pose proof (deactivated a d1 Hf) as Hg. set (d2 := Hide a (Deactivate a d1)) in *.
  assert (E : screens d2 = screens d /\ menu_main_ d2 = None /\ block_buttons_ d2 = false /\ lcd_settings_ d2 = lcd_settings_ d /\ file d2 = file d).
  { unfold d2, Deactivate. pose proof (c_blocked _ _ C) as Hb. rewrite <- M4 in Hb. rewrite <- M3, <- M6, <- M8. destruct a; cbn; auto. }
  destruct E as (E1 & E2 & E3 & E4 & E5).
  eexists. split; [reflexivity|]. set (d3 := if is_live s d2 then d2 else new_screen s d2).
  assert (N : menu_main_ d3 = None /\ input_group_ d3 = [] /\ block_buttons_ d3 = false /\ lcd_settings_ d3 = lcd_settings_ d /\ file d3 = file d /\ forall t, t ∈ screens d3 <-> t = s \/ t ∈ screens d).
  { unfold d3. destruct (is_live s d2) eqn:Es.
    - repeat split; auto; rewrite E1 in *; [auto|]. intros [-> | Ht]; [|exact Ht]. apply bool_decide_eq_true_1 in Es. rewrite <- E1. exact Es.
    - unfold new_screen. destruct s; cbn; rewrite ?E1, ?E5; repeat split; auto; try (intros Ht; apply elem_of_cons in Ht; exact Ht); intros Ht; apply elem_of_cons; exact Ht. }
  destruct N as (N1 & N2 & N3 & N4 & N5 & N6). unfold Activate.
  destruct s; cbn; rewrite ?N2; split; cbn; auto.
Qed.

(** *** Every operation keeps the display consistent *)
Definition real_screen (s : ScreenId) : Prop := s ∈ [SCR_MAIN; SCR_SETTINGS; SCR_BATTERY; SCR_INPUTS; SCR_ABOUT].
Lemma real_known s : real_screen s -> s <> SCR_BOOT /\ s ∈ [SCR_BOOT; SCR_MAIN; SCR_SETTINGS; SCR_BATTERY; SCR_INPUTS; SCR_ABOUT].
Proof. unfold real_screen. rewrite !elem_of_cons, elem_of_nil. intros Hs. split; [intros ->; intuition discriminate|tauto]. Qed.
Lemma switched_consistent s d d' : switched s d d' -> real_screen s -> SCR_BOOT ∉ screens d -> consistent_at s d'.
Proof.
  intros W Hs Hb. destruct (real_known s Hs) as [Hn Hk]. split.
  - apply W.
  - apply (sw_live _ _ _ W). auto.
  - exact Hk.
  - rewrite (sw_live _ _ _ W). split; [intros [E|E]; [congruence|contradiction]|congruence].
  - apply W.
  - rewrite (sw_menu _ _ _ W). discriminate.
  - rewrite (sw_focus _ _ _ W). destruct (focusable s) eqn:E; repeat constructor. exact E.
Qed.
Lemma not_booting a d : consistent_at a d -> a <> SCR_BOOT -> SCR_BOOT ∉ screens d.
Proof. intros C Ha Hb. apply Ha, (c_boot _ _ C), Hb. Qed.
Lemma switch_consistent s a d : consistent_at a d -> a <> SCR_BOOT -> real_screen s ->
  exists d', SwitchToScreen s d = Some d' /\ consistent_at s d' /\ switched s d d'.
Proof.
  intros C Ha Hs. destruct (SwitchToScreen_spec s a d C) as (d' & E & W). exists d'. split; [exact E|]. split; [|exact W].
  exact (switched_consistent s d d' W Hs (not_booting a d C Ha)).
Qed.
(** Deleting a screen that is not active. *)
Lemma delete_screen_spec s a d : active_screen_ d = Some a -> s <> a -> let d' := delete_screen s d in
  active_screen_ d' = Some a /\ (forall t, t ∈ screens d' <-> t ∈ screens d /\ t <> s) /\ menu_main_ d' = menu_main_ d /\
  input_group_ d' = filter (fun j => j <> ScreenItems s) (input_group_ d) /\
  block_buttons_ d' = (if decide (s = SCR_INPUTS) then false else block_buttons_ d) /\ lcd_settings_ d' = lcd_settings_ d /\ file d' = file d.
Proof.
  intros Hact Hne. unfold delete_screen, ungroup. assert (Hf : forall t, t ∈ filter (fun t => t <> s) (screens d) <-> t ∈ screens d /\ t <> s) by (intros t; rewrite list_elem_of_filter; tauto).
  destruct s; cbn; (split; [exact Hact|]); (split; [exact Hf|]); repeat split; reflexivity.
Qed.
Lemma CloseScreen_spec s a d : consistent_at a d -> a <> SCR_BOOT -> s ∈ screens d -> real_screen s -> s <> SCR_MAIN ->
  exists d', CloseScreen s d = Some d' /\ consistent_at SCR_MAIN d' /\ (s ∉ screens d') /\ menu_main_ d' = None /\ input_group_ d' = [] /\
    block_buttons_ d' = false /\ lcd_settings_ d' = lcd_settings_ d /\ file d' = file d.
Proof.
  intros C Ha Hs Hr Hm. unfold CloseScreen. destruct (delete_menu_spec d) as (M1 & M2 & M3 & M4 & _ & M6 & _ & M8 & _).
  pose proof (focus_after_menu a d (c_focus _ _ C)) as Hf. set (d1 := delete_menu d) in *.
  assert (C1 : consistent_at a d1).
  { split; rewrite ?M1, ?M2, ?M3, ?M4; try apply C; [discriminate|]. eapply Forall_impl; [exact Hf|]. intros i [-> Hi]. cbn. auto. }
  rewrite (live_true s d1) by (rewrite M3; exact Hs). unfold ShowMainScreen.
  destruct (switch_consistent SCR_MAIN a d1 C1 Ha ltac:(left)) as (d2 & -> & C2 & W). cbn [mbind option_bind].
  destruct (delete_screen_spec s SCR_MAIN d2 (sw_active _ _ _ W) Hm) as (D1 & D2 & D3 & _ & D5 & D6 & D7). eexists. split; [reflexivity|]. cbn.
  rewrite (sw_blocked _ _ _ W) in D5. destruct (sw_kept _ _ _ W) as [K1 K2].
  assert (Hb0 : block_buttons_ (delete_screen s d2) = false) by (rewrite D5; destruct (decide _); reflexivity).
  split; [|repeat split; [intros Hin; apply D2 in Hin; tauto|rewrite D3; apply W|exact Hb0|congruence|congruence]].
  split; cbn.
  - exact D1.
  - apply D2. split; [apply (sw_live _ _ _ W); auto|congruence].
  - right. left.
  - rewrite D2. split; [intros [Hb _]; exact (proj1 (c_boot _ _ C2) Hb)|discriminate].
  - rewrite Hb0. reflexivity.
  - rewrite D3, (sw_menu _ _ _ W). discriminate.
  - constructor.
Qed.
Lemma OnBootComplete_spec d : consistent_at SCR_BOOT d -> exists d', OnBootComplete d = Some d' /\ consistent_at SCR_MAIN d'.
Proof.
  intros C. unfold OnBootComplete, ShowMainScreen. destruct (SwitchToScreen_spec SCR_MAIN SCR_BOOT d C) as (d1 & -> & W). cbn [mbind option_bind].
  eexists. split; [reflexivity|]. destruct (delete_screen_spec SCR_BOOT SCR_MAIN d1 (sw_active _ _ _ W) ltac:(discriminate)) as (D1 & D2 & D3 & D4 & D5 & _).
  split.
  - exact D1.
  - apply D2. split; [apply (sw_live _ _ _ W); auto|discriminate].
  - right. left.
  - rewrite D2. split; [intros [_ Hb]; congruence|discriminate].
  - rewrite D5. rewrite (sw_blocked _ _ _ W). reflexivity.
  - rewrite D3, (sw_menu _ _ _ W). discriminate.
  - rewrite D4, (sw_focus _ _ _ W). constructor.
Qed.
(** A change of what consistency does not see. *)
Lemma consistent_same a d d' : consistent_at a d -> active_screen_ d' = active_screen_ d -> screens d' = screens d -> block_buttons_ d' = block_buttons_ d ->
  menu_main_ d' = menu_main_ d -> input_group_ d' = input_group_ d -> consistent_at a d'.
Proof.
  intros C E1 E2 E3 E4 E5. split; rewrite ?E1, ?E2, ?E3, ?E4, ?E5; try apply C. eapply Forall_impl; [apply (c_focus _ _ C)|].
  intros [n|s]; cbn; rewrite ?E4; auto.
Qed.
(** A change of the menu and the focus. *)
Lemma consistent_menu a d d' m : consistent_at a d -> a <> SCR_BOOT -> active_screen_ d' = active_screen_ d -> screens d' = screens d -> block_buttons_ d' = block_buttons_ d ->
  menu_main_ d' = Some m -> parent m = a -> anim_state_ m <> HIDDEN ->
  Forall (fun i => i = MenuItems (menu_id m) \/ i = ScreenItems a /\ focusable a = true) (input_group_ d') -> consistent_at a d'.
Proof.
  intros C Ha E1 E2 E3 E4 Hp Hh Hf. split; rewrite ?E1, ?E2, ?E3; try apply C.
  - rewrite E4. intros m' [= <-]. auto.
  - eapply Forall_impl; [exact Hf|]. intros i [-> | [-> Hi]]; cbn; [exists m; auto|auto].
Qed.
Lemma menu_gone a d : consistent_at a d -> consistent_at a (delete_menu d).
Proof.
  intros C. pose proof (focus_after_menu a d (c_focus _ _ C)) as Hf. destruct (delete_menu_spec d) as (M1 & M2 & M3 & M4 & _).
  split; rewrite ?M1, ?M2, ?M3, ?M4; try apply C; [discriminate|]. eapply Forall_impl; [exact Hf|]. intros i [-> Hi]. cbn. auto.
Qed.
Lemma ShowMenu_spec a d : consistent_at a d -> a <> SCR_BOOT -> exists d', ShowMenu d = Some d' /\ consistent_at a d'.
Proof.
  intros C Ha. unfold ShowMenu. destruct (bool_decide (menu_state d = Some SLIDING_OUT)); [eauto|].
  pose proof (menu_gone a d C) as C1. cbn. rewrite (c_active _ _ C1). unfold is_live. cbn. rewrite bool_decide_eq_true_2 by apply C1. cbn.
  eexists. split; [reflexivity|]. eapply (consistent_menu a (delete_menu d)); cbn; try reflexivity; [exact C1|exact Ha|symmetry; apply C1|cbn; discriminate|]. repeat constructor.
Qed.
Lemma HideMenu_spec a d : consistent_at a d -> a <> SCR_BOOT -> exists d', HideMenu d = Some d' /\ consistent_at a d'.
Proof.
  intros C Ha. unfold HideMenu. destruct (menu_main_ d) as [m|] eqn:Em; [|eauto]. destruct (c_menu _ _ C m Em) as (Hp & _ & Hh).
  assert (E : exists m', menu_main_ (SlideOut m d) = Some m' /\ menu_id m' = menu_id m /\ parent m' = a /\ anim_state_ m' <> HIDDEN /\
    active_screen_ (SlideOut m d) = Some a /\ screens (SlideOut m d) = screens d /\ block_buttons_ (SlideOut m d) = block_buttons_ d).
  { pose proof (c_active _ _ C) as Hact. unfold SlideOut. destruct (anim_state_ m) eqn:Es; [contradiction Hh; reflexivity|..]; cbn; eexists; (split; [reflexivity|]); cbn; rewrite ?Es; repeat split; auto; discriminate. }
  destruct E as (m' & E1 & E2 & E3 & E4 & E5 & E6 & E7). set (d1 := SlideOut m d) in *. clearbody d1. unfold on_active, on_screen. cbn. rewrite E5. unfold is_live. cbn. rewrite E6, bool_decide_eq_true_2 by apply C.
  eexists. split; [reflexivity|]. unfold Activate. destruct (focusable a) eqn:Ef;
    (eapply (consistent_menu a d _ m' C Ha); cbn; [rewrite ?E5; symmetry; apply C|rewrite ?E6; reflexivity|rewrite ?E7; reflexivity|exact E1|exact E3|exact E4|]); first [apply List.Forall_nil|apply List.Forall_cons; [right; auto|apply List.Forall_nil]].
Qed.
Lemma anim_completed_spec a d m k : consistent_at a d -> menu_main_ d = Some m -> exists d', anim_completed (TheMenu (menu_id m)) k d = Some d' /\ consistent_at a d'.
Proof.
  intros C Em. destruct (c_menu _ _ C m Em) as (Hp & Ha & Hh). unfold anim_completed, menu_of. cbn. rewrite Em. cbn. rewrite decide_True by reflexivity. cbn.
  assert (Hf : Forall (fun i => i = MenuItems (menu_id m) \/ i = ScreenItems a /\ focusable a = true) (input_group_ d)).
  { eapply Forall_impl; [apply (c_focus _ _ C)|]. intros [n|s]; cbn; [intros (m' & E & <-); left; congruence|intros [-> Hs]; auto]. }
  destruct k; (eexists; split; [reflexivity|]).
  - eapply (consistent_menu a d _ (m <| anim_state_ := VISIBLE |>) C Ha); try reflexivity; [exact Hp|cbn; discriminate|exact Hf].
  - match goal with |- consistent_at _ ?x => replace x with (delete_menu (d <| anims := lv_anim_done (TheMenu (menu_id m)) Out (anims d) |>)) end.
    + apply menu_gone. apply (consistent_same a d); try reflexivity. exact C.
    + unfold OnMenuClosed, delete_menu. cbn. rewrite Em. destruct (menu_anim_ m); reflexivity.
Qed.

(** Any button keeps the display consistent, and it never fails. *)
Lemma button_consistent id d : consistent d -> exists d' h, display_OnButtonPress id d = Some (d', h) /\ consistent d'.
Proof.
  intros [a C]. unfold display_OnButtonPress. rewrite (c_active _ _ C), (live_true a d) by apply C. cbn [negb].
  assert (S0 : exists d1 h, (match menu_main_ d with None => screen_OnButtonPress a id d | Some _ => (d, false) end) = (d1, h) /\ consistent_at a d1).
  { destruct (menu_main_ d); [eauto|]. unfold screen_OnButtonPress. destruct a; eauto.
    destruct (boot_OnButtonPress (boot_ d)) as [b h]. eexists _, h. split; [reflexivity|]. apply (consistent_same _ d); auto. }
  destruct S0 as (d1 & h & -> & C1). destruct h; [eexists _, _; split; [reflexivity|exists a; exact C1]|].
  assert (Hsame : exists d' h, Some (d1, false) = Some (d', h) /\ consistent d') by (eexists _, _; split; [reflexivity|exists a; exact C1]).
  destruct id; try exact Hsame.
  - destruct (decide (a = SCR_BOOT)) as [->|Ha]; [exact Hsame|].
    assert (C2 : consistent_at a (if decide (a = SCR_SETTINGS) then if is_live SCR_SETTINGS d1 then SaveSettings d1 else d1 else d1)).
    { destruct (decide _); [destruct (is_live SCR_SETTINGS d1)|]; try exact C1; apply (consistent_same a d1); try reflexivity; exact C1. }
    destruct (bool_decide _).
    + destruct (HideMenu_spec a _ C2 Ha) as (d' & -> & C'). eexists _, _. split; [reflexivity|exists a; exact C'].
    + destruct (ShowMenu_spec a d1 C1 Ha) as (d' & -> & C'). eexists _, _. split; [reflexivity|exists a; exact C'].
  - assert (Hclose : forall s d2, consistent_at a d2 -> a <> SCR_BOOT -> s ∈ screens d2 -> real_screen s -> s <> SCR_MAIN ->
      exists d' h, (d' ← CloseScreen s d2; Some (d', true)) = Some (d', h) /\ consistent d').
    { intros s d2 C2 Ha Hs Hr Hm. destruct (CloseScreen_spec s a d2 C2 Ha Hs Hr Hm) as (d' & -> & C' & _). eexists _, _. split; [reflexivity|eexists; exact C']. }
    pose proof (c_known _ _ C1) as Hk. destruct a; try exact Hsame;
      try (destruct (HideMenu_spec _ d1 C1 ltac:(discriminate)) as (d' & -> & C'); eexists _, _; split; [reflexivity|eexists; exact C']);
      try (apply Hclose; [exact C1|discriminate|apply C1|unfold real_screen; rewrite !elem_of_cons; auto 7|discriminate]).
    rewrite (live_true SCR_SETTINGS d1) by apply C1. unfold CloseSettingsScreen. rewrite (live_true SCR_SETTINGS (SaveSettings d1)) by apply C1.
    apply Hclose; [apply (consistent_same _ d1); try reflexivity; exact C1|discriminate|apply C1|unfold real_screen; rewrite !elem_of_cons; auto 7|discriminate].
Qed.
Lemma tick_consistent now test d : consistent d -> exists d', display_Tick now test d = Some d' /\ consistent d'.
Proof.
  intros [a C]. unfold display_Tick. destruct (_ <? _); [eexists; split; [reflexivity|exists a; apply (consistent_same a d); try reflexivity; exact C]|].
  rewrite (c_active _ _ C), (live_true a d) by apply C. cbn [negb].
  assert (Hsame : exists d', Some d = Some d' /\ consistent d') by (exists d; split; [reflexivity|exists a; exact C]). destruct a; try exact Hsame.
  destruct (boot_Tick now test (boot_ d)) as [b o]. assert (C1 : consistent_at SCR_BOOT (d <| boot_ := b |>)) by (apply (consistent_same _ d); try reflexivity; exact C).
  destruct (bool_decide _); [|eexists; split; [reflexivity|exists SCR_BOOT; exact C1]].
  destruct (OnBootComplete_spec _ C1) as (d' & -> & C'). exists d'. split; [reflexivity|exists SCR_MAIN; exact C'].
Qed.
Lemma item_consistent i d : consistent d -> exists d', handle (EvItem i) d = Some d' /\ consistent d'.
Proof.
  intros [a C]. cbn [handle]. destruct (menu_main_ d) as [m|] eqn:Em; [|exists d; split; [reflexivity|exists a; exact C]].
  destruct (c_menu _ _ C m Em) as (_ & Ha & _).
  assert (Hsw : forall s, real_screen s -> exists d', SwitchToScreen s d = Some d' /\ consistent d').
  { intros s Hs. destruct (switch_consistent s a d C Ha Hs) as (d' & E & C' & _). exists d'. split; [exact E|exists s; exact C']. }
  destruct i; try (apply Hsw; unfold real_screen; rewrite !elem_of_cons; auto 7). exists d. split; [reflexivity|exists a; exact C].
Qed.
(** The event is a frame or the end of an animation that has outlived its menu. *)
Definition outlives_menu (e : event) (d : display) : Prop := exists n k over, e = EvMenuAnim n k over /\
  (TheMenu n, k) ∈ running (anims d) /\ forall m, menu_main_ d = Some m -> menu_id m <> n.
Lemma handle_consistent e d : consistent d -> match handle e d with Some d' => consistent d' | None => outlives_menu e d end.
Proof.
  enough (K : consistent d -> (exists d', handle e d = Some d' /\ consistent d') \/ handle e d = None /\ outlives_menu e d).
  { intros Hd. destruct (K Hd) as [(d' & -> & C')|[-> O]]; assumption. }
  intros Hd.
  assert (Hsame : forall d', active_screen_ d' = active_screen_ d -> screens d' = screens d -> block_buttons_ d' = block_buttons_ d ->
    menu_main_ d' = menu_main_ d -> input_group_ d' = input_group_ d -> exists d'', Some d' = Some d'' /\ consistent d'').
  { intros d' E1 E2 E3 E4 E5. exists d'. split; [reflexivity|]. destruct Hd as [a C]. exists a. apply (consistent_same a d); assumption. }
  destruct e; [left..|]; cbn [handle].
  9: {
    destruct (decide _) as [Hin|]; [|left; exists d; auto].
    destruct (menu_main_ d) as [m|] eqn:Em; [destruct (decide (menu_id m = n)) as [<-|Hne]|].
    - left. destruct Hd as [a C]. destruct over.
      + destruct (anim_completed_spec a d m k C Em) as (d' & -> & C'). exists d'. split; [reflexivity|exists a; exact C'].
      + exists d. unfold anim_frame, menu_of. rewrite Em. cbn. rewrite decide_True by reflexivity. split; [reflexivity|exists a; exact C].
    - right. split; [|exists n, k, over; repeat split; [exact Hin|intros m' Em'; congruence]].
      assert (Hv : TheMenu n <> TheMenu (menu_id m)) by congruence.
      destruct over; unfold anim_completed, anim_frame, menu_of; cbn; rewrite Em; cbn; rewrite decide_False by exact Hv; reflexivity.
    - right. split; [|exists n, k, over; repeat split; [exact Hin|intros m' Em'; congruence]].
      destruct over; unfold anim_completed, anim_frame, menu_of; cbn; rewrite Em; reflexivity. }
  - apply tick_consistent, Hd.
  - apply Hsame; reflexivity.
  - destruct (button_consistent id d Hd) as (d' & h & -> & C'). exists d'. split; [reflexivity|exact C'].
  - apply (item_consistent i d Hd).
  - destruct (is_live _ _); apply Hsame; reflexivity.
  - destruct (is_live _ _); apply Hsame; reflexivity.
  - destruct (is_live _ _); apply Hsame; reflexivity.
  - destruct (is_live _ _); apply Hsame; reflexivity.
Qed.
Lemma booting_consistent_at anims0 file0 : consistent_at SCR_BOOT (ShowBootScreen (new_display anims0 file0)) /\ boot_ (ShowBootScreen (new_display anims0 file0)) = new_boot.
Proof.
  split; [|reflexivity]. unfold ShowBootScreen, is_live, new_display, new_screen. cbn. split; cbn; try reflexivity.
  - left.
  - left.
  - split; [reflexivity|]. left.
  - discriminate.
  - constructor.
Qed.
Lemma booting_consistent anims0 file0 : consistent (ShowBootScreen (new_display anims0 file0)).
Proof. exists SCR_BOOT. apply booting_consistent_at. Qed.

(** C29. The display stays consistent. From the boot screen on, whatever is pressed, clicked, moved and animated and
    however long it takes: the active screen is always one that exists, the boot screen exists only while it is
    active, a menu lies over the active screen and never over the boot screen, the input focus is never on anything
    but that menu's or the active screen's items, and the buttons are kept from the robot exactly while the inputs'
    screen is the active one; and no operation goes through an object that is not there, but for one: LVGL may run a
    frame or the end of a menu's animation that the deletion of the menu has not ended ([animation_outlives_menu]).
    A sequence in which that does not happen never fails. *)
Theorem display_stays_consistent l anims0 file0 : let start := ShowBootScreen (new_display anims0 file0) in
  match handles l start with
  | Some d => consistent d
  | None => exists l1 e l2 d, l = l1 ++ e :: l2 /\ handles l1 start = Some d /\ consistent d /\ outlives_menu e d
  end.
Proof.
  cbv zeta. pose proof (booting_consistent anims0 file0) as Hc. revert Hc. generalize (ShowBootScreen (new_display anims0 file0)) as d0. intros d0 Hc.
  induction l as [|e l IH] using rev_ind; [exact Hc|]. unfold handles in *. rewrite foldl_app. cbn [foldl].
  destruct (foldl _ (Some d0) l) as [d|] eqn:E; cbn [mbind option_bind].
  - pose proof (handle_consistent e d IH) as K. destruct (handle e d) as [d'|]; [exact K|]. exists l, e, [], d. auto.
  - destruct IH as (l1 & e' & l2 & d & -> & H1 & H2 & H3). exists l1, e', (l2 ++ [e]), d. rewrite <- app_assoc. auto.
Qed.

(** ** The boot screen's end *)
(** The display from its start on, ticked every 30 ms without a button. LVGL has its turn after every tick: it ends the
    closing animation, which was started in tick [s], after tick [i] if [over s i]. *)
Section Booting.
Context (t0 : Z) (tests : Z -> Z -> bool) (over : Z -> Z -> bool).
Definition boot_frame (i : Z) (started : option Z) (d : display) : option (option Z * display) :=
  d ← handle (EvTick (u32 (t0 + PERIOD * i)) (tests i)) d;
  match is_live SCR_BOOT d, animation_state_ (boot_ d) with
  | true, STARTED => let s := default i started in d ← (if over s i then handle EvBootAnim d else Some d); Some (Some s, d)
  | _, _ => Some (None, d)
  end.
Fixpoint boot_display (n : nat) (i : Z) (started : option Z) (d : display) : option display :=
  match n with
  | O => Some d
  | Datatypes.S n => '(started, d) ← boot_frame i started d; boot_display n (i + 1) started d
  end.
Definition reaches_main (n : nat) (i : Z) (started : option Z) (d : display) : Prop :=
  exists d', boot_display n i started d = Some d' /\ consistent_at SCR_MAIN d'.

Lemma main_stays n i started d : consistent_at SCR_MAIN d -> reaches_main n i started d.
Proof.
  unfold reaches_main. revert i started d. induction n as [|n IH]; intros i started d C; [exists d; split; [reflexivity|exact C]|].
  assert (E : exists d', display_Tick (u32 (t0 + PERIOD * i)) (tests i) d = Some d' /\ consistent_at SCR_MAIN d').
  { unfold display_Tick. destruct (_ <? _); [eexists; split; [reflexivity|apply (consistent_same SCR_MAIN d); try reflexivity; exact C]|].
    rewrite (c_active _ _ C), (live_true SCR_MAIN d) by apply C. exists d. split; [reflexivity|exact C]. }
  destruct E as (d' & E & C'). cbn [boot_display]. unfold boot_frame. cbn [handle]. rewrite E. cbn [mbind option_bind].
  assert (Hno : is_live SCR_BOOT d' = false) by (apply bool_decide_eq_false_2; rewrite (c_boot _ _ C'); discriminate).
  rewrite Hno. cbn [mbind option_bind]. apply (IH (i + 1) None d' C').
Qed.

(** Up to the tick [N] the display is awake. *)
Context (N last : Z) (set : LCDSettings).
Hypothesis awake : forall i, 0 <= i <= N -> u32 (u32 (t0 + PERIOD * i) - last) <= TIME_MS2I (1000 * (auto_sleep_minutes set * 60)).
Definition booting (d : display) : Prop := consistent_at SCR_BOOT d /\ last_activity_ d = last /\ lcd_settings_ d = set.
Lemma booting_with d b : booting d -> booting (d <| boot_ := b |>).
Proof. intros (C & H1 & H2). split; [|split; assumption]. apply (consistent_same SCR_BOOT d); try reflexivity. exact C. Qed.
Lemma booting_tick i d : booting d -> 0 <= i <= N -> let '(b, o) := boot_Tick (u32 (t0 + PERIOD * i)) (tests i) (boot_ d) in
  display_Tick (u32 (t0 + PERIOD * i)) (tests i) d = (if bool_decide (BootComplete ∈ o) then OnBootComplete (d <| boot_ := b |>) else Some (d <| boot_ := b |>)).
Proof.
  intros (C & H1 & H2) Hi. destruct (boot_Tick _ _ _) as [b o] eqn:E. unfold display_Tick. rewrite H1, H2, (proj2 (Z.ltb_ge _ _)) by (apply awake; exact Hi).
  rewrite (c_active _ _ C), (live_true SCR_BOOT d) by apply C. cbn [negb]. rewrite E. reflexivity.
Qed.
(** A frame in which the boot screen goes on. *)
Lemma booting_frame i started d b o : booting d -> 0 <= i <= N -> boot_Tick (u32 (t0 + PERIOD * i)) (tests i) (boot_ d) = (b, o) -> (BootComplete ∉ o) ->
  boot_frame i started d = Some (match animation_state_ b with
    | STARTED => let s := default i started in (Some s, if over s i then boot_anim_deleted (d <| boot_ := b |>) else d <| boot_ := b |>)
    | _ => (None, d <| boot_ := b |>) end).
Proof.
  intros B Hi E Ho. pose proof (booting_tick i d B Hi) as T. rewrite E in T. cbv iota beta in T. rewrite bool_decide_eq_false_2 in T by exact Ho.
  unfold boot_frame. cbn [handle]. rewrite T. cbn [mbind option_bind]. pose proof (booting_with d b B) as (C & _).
  rewrite (live_true SCR_BOOT _ (c_live _ _ C)). cbn [boot_]. change (boot_ (d <| boot_ := b |>)) with b. destruct (animation_state_ b); try reflexivity.
  cbn zeta. destruct (over _ i); reflexivity.
Qed.
Lemma done_leads_to_main n i started d : booting d -> 0 <= i <= N -> finished (boot_ d) -> animation_state_ (boot_ d) = DONE -> reaches_main (Datatypes.S n) i started d.
Proof.
  intros B Hi Hf Ha. pose proof (booting_tick i d B Hi) as T. rewrite closing_tick, Ha in T by exact Hf. cbv iota beta in T.
  rewrite bool_decide_eq_true_2 in T by left. destruct (booting_with d (boot_ d) B) as (C & _). destruct (OnBootComplete_spec _ C) as (d' & E & C').
  unfold reaches_main. cbn [boot_display]. unfold boot_frame. cbn [handle]. rewrite T, E. cbn [mbind option_bind].
  assert (Hno : is_live SCR_BOOT d' = false) by (apply bool_decide_eq_false_2; rewrite (c_boot _ _ C'); discriminate).
  rewrite Hno. apply main_stays, C'.
Qed.
Lemma closing_leads_to_main n i k s d : booting d -> 0 <= i -> i <= k < N -> over s k = true -> k - i + 2 <= Z.of_nat n ->
  finished (boot_ d) -> animation_state_ (boot_ d) = STARTED -> reaches_main n i (Some s) d.
Proof.
  revert i d. induction n as [|n IH]; intros i d B Hi Hk Ho Hn Hf Ha; [lia|].
  assert (Hb : d <| boot_ := boot_ d |> = d) by (destruct d; reflexivity).
  pose proof (booting_frame i (Some s) d _ _ B ltac:(lia) ltac:(rewrite closing_tick, Ha by exact Hf; reflexivity) ltac:(inversion 1)) as E.
  rewrite Ha, Hb in E. cbn [from_option id] in E. unfold reaches_main. cbn [boot_display]. rewrite E. cbn [mbind option_bind].
  destruct (over s i) eqn:Eo.
  - destruct n as [|n]; [lia|]. apply done_leads_to_main; [apply (booting_with d), B|lia|exact Hf|reflexivity].
  - assert (k <> i) by congruence. apply IH; try assumption; lia.
Qed.

Context (good : Z -> bool) (A : Z).
Hypothesis good_passes : forall i step, good step = true -> tests i step = true.
Hypothesis animation_ends : forall s, exists i, s <= i <= s + A /\ over s i = true.
Lemma finished_leads_to_main n i d : booting d -> 0 <= i -> i + A + 1 <= N -> A + 2 <= Z.of_nat n ->
  finished (boot_ d) -> animation_state_ (boot_ d) = NOT_STARTED -> reaches_main n i None d.
Proof.
  intros B Hi HN Hn Hf Ha. destruct (animation_ends i) as (k & Hk & Ho). destruct n as [|n]; [lia|].
  pose proof (booting_frame i None d _ _ B ltac:(lia) ltac:(rewrite closing_tick, Ha by exact Hf; reflexivity) ltac:(intros [?|?%elem_of_nil]%elem_of_cons; [discriminate|contradiction])) as E.
  cbn [from_option id animation_state_] in E. unfold reaches_main. cbn [boot_display]. rewrite E. cbn [mbind option_bind]. destruct (over i i) eqn:Eo.
  - destruct n as [|n]; [lia|]. apply done_leads_to_main; [apply (booting_with (d <| boot_ := _ |>)), (booting_with d), B|lia|exact Hf|reflexivity].
  - assert (k <> i) by congruence. apply (closing_leads_to_main n (i + 1) k i); [apply (booting_with d), B|lia|lia|exact Ho|lia|exact Hf|reflexivity].
Qed.
Lemma testing_leads_to_main n i j d : booting d -> 0 <= i -> boot_ok t0 i j (boot_ d) -> animation_state_ (boot_ d) = NOT_STARTED ->
  i + ticks_left good i j (boot_ d) + A + 1 <= N -> ticks_left good i j (boot_ d) + A + 2 <= Z.of_nat n -> reaches_main n i None d.
Proof.
  revert i j d. induction n as [|n IH]; intros i j d B Hi Hok Ha HN Hn; pose proof (ticks_left_pos good t0 i j _ Hok) as Hpos; destruct (animation_ends 0) as (k0 & Hk0 & _); [lia|].
  pose proof (tick_progress good t0 i j (tests i) (boot_ d) (good_passes i _) Hok) as P. pose proof (tick_quiet (u32 (t0 + PERIOD * i)) (tests i) (boot_ d) (proj1 Hok)) as Q.
  pose proof (tick_incomplete (u32 (t0 + PERIOD * i)) (tests i) (boot_ d) (proj1 Hok)) as I.
  destruct (boot_Tick _ _ (boot_ d)) as [b o] eqn:E. cbn [snd] in I. destruct Q as [Qa _]. rewrite Ha in Qa. destruct P as (j' & P & _).
  pose proof (booting_frame i None d b o B ltac:(lia) E I) as Fr. rewrite Qa in Fr.
  unfold reaches_main. cbn [boot_display]. rewrite Fr. cbn [mbind option_bind]. destruct P as [Pf|[Pok Plt]].
  - apply finished_leads_to_main; [apply booting_with, B|lia|lia|lia|exact Pf|exact Qa].
  - apply (IH (i + 1) j'); [apply booting_with, B|lia|exact Pok|exact Qa|change (boot_ (d <| boot_ := b |>)) with b; lia..].
Qed.
End Booting.

(** C30. The boot screen gives way to the main screen, if the display stays awake that long. The display is started and
    woken, its ticks come every 30 ms from [lag] later on, no button is pressed, LVGL ends the closing animation within
    [A] ticks, and the steps that are [good] pass their tests, whatever the outcomes of the others, tick by tick: a
    good step takes 68 ticks at most and any other 2202. If the display's auto-sleep is not shorter than what the six
    steps and the animation can then take, the main screen is reached by then, with the boot screen deleted, and it
    stays (asleep or awake). Each of the six steps is tested at least once and at most three times. (The default of
    five minutes covers four of the steps failing; with five failing the display is asleep before the sequence is
    over, and stays with the boot screen until a button wakes it, [boot_falls_asleep].) *)
Theorem boot_leads_to_main anims0 file0 t0 lag tests good over A n : let d0 := display_WakeUp (u32 (t0 - lag)) (ShowBootScreen (new_display anims0 file0)) in
  (forall i step, good step = true -> tests i step = true) ->
  (forall s, exists i, s <= i <= s + A /\ over s i = true) ->
  0 <= lag -> lag + PERIOD * (ticks_from good 0 + A + 1) <= TIME_MS2I (1000 * (auto_sleep_minutes (lcd_settings_ d0) * 60)) ->
  ticks_from good 0 + A + 2 <= Z.of_nat n ->
  (exists d, boot_display t0 tests over n 0 None d0 = Some d /\ consistent_at SCR_MAIN d) /\
  forall m step, 13212 < Z.of_nat m -> 0 <= step < BOOT_STEP_COUNT_ -> 1 <= tested step (boot_run m 0 t0 tests new_boot).2 <= BOOT_STEP_RETRIES_.
Proof.
  intros d0 Hgood Hanim Hlag Hsleep Hn. split.
  - destruct (booting_consistent_at anims0 file0) as (C & Hb). change (boot_ (ShowBootScreen (new_display anims0 file0))) with (boot_ d0) in Hb.
    assert (C0 : consistent_at SCR_BOOT d0) by (apply (consistent_same SCR_BOOT (ShowBootScreen (new_display anims0 file0))); try reflexivity; exact C).
    apply (testing_leads_to_main t0 tests over (ticks_from good 0 + A + 1) (u32 (t0 - lag)) (lcd_settings_ d0)) with (good := good) (A := A) (j := 0);
      rewrite ?Hb, ?(ticks_left_start good); try assumption; try reflexivity; try lia.
    + intros i Hi. unfold u32. rewrite Zminus_mod_idemp_l, Zminus_mod_idemp_r. replace (t0 + PERIOD * i - (t0 - lag)) with (PERIOD * i + lag) by lia.
      unfold PERIOD in *. etransitivity; [apply Z.mod_le; lia|lia].
    + split; [exact C0|split; reflexivity].
    + split; [compute; intuition discriminate|exact I].
  - intros m step Hm Hs. pose proof (boot_sequence_ends t0 tests m Hm) as R. destruct (boot_run m 0 t0 tests new_boot) as [b o]. apply R, Hs.
Qed.


(** BACK always leads home: from each of the four screens the menu leads to, with the menu open, sliding or closed
    over it, one press of BACK closes the screen and the menu and shows the main screen, with the focus empty and the
    buttons released to the robot; from the settings' screen the values on it have then been saved and are the
    display's own. *)
Theorem back_leads_home a d : consistent_at a d -> a ∈ [SCR_SETTINGS; SCR_BATTERY; SCR_INPUTS; SCR_ABOUT] ->
  exists d', display_OnButtonPress BACK d = Some (d', true) /\ consistent_at SCR_MAIN d' /\ (a ∉ screens d') /\ menu_main_ d' = None /\
    input_group_ d' = [] /\ block_buttons_ d' = false /\
    file d' = (if decide (a = SCR_SETTINGS) then lcd_save (screen_settings d) (file d) else file d) /\
    lcd_settings_ d' = (if decide (a = SCR_SETTINGS) then screen_settings d else lcd_settings_ d).
Proof.
  intros C Ha. rewrite !elem_of_cons, elem_of_nil in Ha. unfold display_OnButtonPress. rewrite (c_active _ _ C), (live_true a d) by apply C. cbn [negb].
  assert (S0 : match menu_main_ d with None => screen_OnButtonPress a BACK d | Some _ => (d, false) end = (d, false)).
  { destruct (menu_main_ d); [reflexivity|]. destruct Ha as [-> |[-> |[-> |[-> |[]]]]]; reflexivity. }
  rewrite S0. destruct Ha as [-> |[-> |[-> |[-> |[]]]]];
    [|destruct (CloseScreen_spec SCR_BATTERY _ d C) as (d' & -> & C' & H1 & H2 & H3 & H4 & H5 & H6)
     |destruct (CloseScreen_spec SCR_INPUTS _ d C) as (d' & -> & C' & H1 & H2 & H3 & H4 & H5 & H6)
     |destruct (CloseScreen_spec SCR_ABOUT _ d C) as (d' & -> & C' & H1 & H2 & H3 & H4 & H5 & H6)];
    try discriminate; try apply C; try (unfold real_screen; rewrite !elem_of_cons; auto 7);
    try (cbn [mbind option_bind]; exists d'; split; [reflexivity|]; repeat (split; [assumption|]); assumption).
  rewrite (live_true SCR_SETTINGS d) by apply C. unfold CloseSettingsScreen. rewrite (live_true SCR_SETTINGS (SaveSettings d)) by apply C.
  set (d1 := (SaveSettings d) <| lcd_settings_ := _ |>). assert (C1 : consistent_at SCR_SETTINGS d1) by (apply (consistent_same _ d); try reflexivity; exact C).
  destruct (CloseScreen_spec SCR_SETTINGS _ d1 C1) as (d' & -> & C' & H1 & H2 & H3 & H4 & H5 & H6);
    [discriminate|apply C1|unfold real_screen; rewrite !elem_of_cons; auto 7|discriminate|].
  exists d'. split; [reflexivity|]. repeat (split; [assumption|]). exact H5.
Qed.

(** ** Sleeping *)
(** After a tick the light is on exactly when the last activity is recent enough, and a button wakes the display. *)
Lemma sleeping now test d : (TIME_MS2I (1000 * (auto_sleep_minutes (lcd_settings_ d) * 60)) <? u32 (now - last_activity_ d)) = true ->
  display_Tick now test d = Some (d <| backlight := false |> <| display_enabled_ := false |>).
Proof. unfold display_Tick. intros ->. reflexivity. Qed.
End Display.

(** ** A list of animations, and a display on it *)
Module DisplayDemo.
#[local] Instance list_anims : Animations (list (anim_var * slide)) := {|
  lv_anim_start v k l := (v, k) :: l; lv_anim_delete v l := filter (fun a => a.1 <> v) l; lv_anim_done v k l := filter (fun a => a <> (v, k)) l; running l := l |}.
#[local] Instance list_anims_laws : AnimationsLaws (list (anim_var * slide)).
Proof.
  split; intros; cbn.
  - apply elem_of_cons.
  - rewrite list_elem_of_filter. tauto.
  - rewrite list_elem_of_filter. tauto.
Qed.
Definition load1 (f : LCDSettings) : option LCDSettings := Some f.
Definition save1 (x f : LCDSettings) : LCDSettings := x.
Abbreviation go l := (handles load1 save1 l (ShowBootScreen load1 (new_display load1 [] default_LCD))).
(** The boot screen's six steps pass, its animation ends, and the main screen is shown. *)
Definition booted : list event :=
  concat (map (fun i => [EvTick (100000 * i) (fun _ => true); EvTick (100000 * i + 30000) (fun _ => true)]) [1; 2; 3; 4; 5; 6]) ++
  [EvTick 700000 (fun _ => true); EvBootAnim; EvTick 700300 (fun _ => true)].
(** The settings are opened from the menu, the contrast and the sleep are changed, and BACK closes them. *)
Definition to_settings : list event := booted ++ [EvButton MENU; EvMenuAnim 1 In true; EvItem ITEM_SETTINGS; EvContrast 99; EvSleep 10].
Definition on_settings := Eval vm_compute in match go to_settings with Some d => d | None => new_display load1 [] default_LCD end.
Lemma back_witness : exists d', display_OnButtonPress load1 save1 BACK on_settings = Some (d', true) /\
  active_screen_ d' = Some SCR_MAIN /\ file d' = mkLCD 1 99 2 10 /\ lcd_settings_ d' = mkLCD 1 99 2 10.
Proof.
  assert (C : consistent_at SCR_SETTINGS on_settings).
  { split; cbn; try reflexivity; [left|right; right; left| |discriminate|repeat constructor].
    split; [intros Hb; rewrite !elem_of_cons, elem_of_nil in Hb; intuition discriminate|discriminate]. }
  destruct (back_leads_home load1 save1 SCR_SETTINGS on_settings C) as (d' & E & C' & _ & _ & _ & _ & Hf & Hl); [left|].
  exists d'. split; [exact E|]. split; [apply C'|]. split; [exact Hf|exact Hl].
Defined.
(** BACK while the menu is still sliding in over a screen: the menu is deleted, its animation is not, since it was
    started for the menu and is deleted by the menu's container; the next frame runs on the deleted menu. *)
Example animation_outlives_menu : exists d, go (to_settings ++ [EvButton MENU; EvButton BACK]) = Some d /\
  exists n, (TheMenu n, In) ∈ running (anims d) /\ menu_main_ d = None /\ handle load1 save1 (EvMenuAnim n In false) d = None.
Proof. eexists. split; [vm_compute; reflexivity|]. exists 2%nat. split; [left|split; vm_compute; reflexivity]. Qed.
(** Leaving the settings through the menu neither saves nor applies them. *)
Example settings_left_through_menu : exists d, go (to_settings ++ [EvButton MENU; EvMenuAnim 2 In true; EvItem ITEM_ABOUT]) = Some d /\
  file d = default_LCD /\ lcd_settings_ d = default_LCD /\ contrast (screen_settings d) = 99.
Proof. eexists. split; [vm_compute; reflexivity|]. repeat split. Qed.
(** The motion sensor answers, the charger and the ESCs never do: four steps fail three times each. LVGL ends the
    animation 100 ticks after its start. *)
Abbreviation woken t0 := (display_WakeUp (u32 (t0 - 500)) (ShowBootScreen load1 (new_display load1 [] default_LCD))).
Definition hundred (s i : Z) : bool := s + 100 <=? i.
Lemma boot_main_witness : exists d, boot_display load1 save1 4294000000 (fun _ step => step <? 2) hundred (Z.to_nat 9046) 0 None (woken 4294000000) = Some d /\ consistent_at SCR_MAIN d.
Proof.
  apply (boot_leads_to_main load1 save1 [] default_LCD 4294000000 500 (fun _ step => step <? 2) (fun step => step <? 2) hundred 100).
  - intros i step H. exact H.
  - intros s. exists (s + 100). unfold hundred. split; [lia|]. apply Z.leb_le. lia.
  - lia.
  - vm_compute. discriminate.
  - rewrite Z2Nat.id by lia. vm_compute. discriminate.
Defined.
(** The motion sensor does not answer either: after five minutes the display sleeps, on the boot screen, and it is not
    ticked any further, whatever time passes, until a button wakes it. *)
Example boot_falls_asleep :
  option_map (fun d => (active_screen_ d, display_enabled_ d, current_boot_step_ (boot_ d)))
    (boot_display load1 save1 0 (fun _ step => step <? 1) hundred (Z.to_nat 30000) 0 None (woken 0)) = Some (Some SCR_BOOT, false, 5).
Proof. vm_compute. reflexivity. Qed.
End DisplayDemo.
