(* ===== verification/Robots.v ===== *)
(** What the robots under [robots/include] say about their power supply: the
    battery's voltages, the charging currents, and the resistors around the charger. *)
From S2P Require Import Prelude Float32 Charger.

(** [3.9], a [double], returned as a [float]. *)
Definition d_lit (n d : Z) : f32 := f_of_f64 (ddiv (d_of_Z n) (d_of_Z d)).
(** [n * x / d], cells times the voltage of one, in [float]. *)
Definition cells (n : Z) (x d : Z) : f32 := fmul (f_of_Z n) (f_lit x d).

(* @ robot.hpp:30-84 Robot *)
Record Robot := mkRobot {
  Power_GetDefaultBatteryFullVoltage : f32; Power_GetDefaultBatteryEmptyVoltage : f32;
  Power_GetDefaultChargeCurrent : f32; Power_GetMaxChargeCurrent : f32; Power_GetDefaultChargeVoltage : f32;
  Power_GetDefaultTerminationCurrent : f32; Power_GetDefaultPreChargeCurrent : f32;
  Power_GetDefaultReChargeVoltage : Z; Power_GetAbsoluteMinVoltage : f32 }.
#[export] Instance eta_Robot : Eta Robot := fun r =>
  mkRobot (Power_GetDefaultBatteryFullVoltage r) (Power_GetDefaultBatteryEmptyVoltage r) (Power_GetDefaultChargeCurrent r)
    (Power_GetMaxChargeCurrent r) (Power_GetDefaultChargeVoltage r) (Power_GetDefaultTerminationCurrent r)
    (Power_GetDefaultPreChargeCurrent r) (Power_GetDefaultReChargeVoltage r) (Power_GetAbsoluteMinVoltage r).
(** A robot that overrides only the pure virtual methods. *)
(* @ robot.hpp:57-79 Robot *)
Definition default_robot (full empty charge max min : f32) : Robot :=
  mkRobot full empty charge max (fneg (f_of_Z 1)) (f_lit 1 4) (f_lit 1 4) PERCENT_94_3 min.

(* @ husq_310mkii_robot.hpp:20-38 husq310MKIIRobot *)
Definition husq310MKIIRobot : Robot := default_robot (cells 5 42 10) (cells 5 33 10) (f_lit 1 2) (f_lit 1 2) (cells 5 3 1).
(* @ lyfco_e1600_robot.hpp:13-37 Lyfco_E1600Robot *)
Definition Lyfco_E1600Robot : Robot :=
  (default_robot (cells 7 42 10) (cells 7 33 10) (f_lit 5 2) (f_of_Z 4) (cells 7 3 1)) <| Power_GetDefaultReChargeVoltage := PERCENT_95_2 |>.
(* @ universal_robot.hpp:17-28 UniversalRobot *)
Definition UniversalRobot (full empty min : f32) : Robot :=
  (default_robot full empty (f_lit 1 2) (f_of_Z 5) min) <| Power_GetDefaultReChargeVoltage := PERCENT_95_2 |>.
(* @ universal_5s_robot.hpp:12-27 Universal5SRobot *)
Definition Universal5SRobot : Robot :=
  (UniversalRobot (cells 5 42 10) (cells 5 33 10) (cells 5 3 1)) <| Power_GetDefaultTerminationCurrent := f_lit 1 2 |>.
(* @ universal_7s_robot.hpp:12-23 Universal7SRobot *)
Definition Universal7SRobot : Robot := UniversalRobot (cells 7 42 10) (cells 7 33 10) (cells 7 3 1).
(* @ universal_8s_robot.hpp:12-23 Universal8SRobot *)
Definition Universal8SRobot : Robot := UniversalRobot (cells 8 42 10) (cells 8 33 10) (cells 8 3 1).
(* @ worx_robot.hpp:17-45 WorxRobot *)
Definition WorxRobot : Robot :=
  (default_robot (cells 5 42 10) (cells 5 33 10) (f_of_Z 1) (f_of_Z 2) (cells 5 3 1))
    <| Power_GetDefaultReChargeVoltage := PERCENT_95_2 |> <| Power_GetDefaultTerminationCurrent := f_lit 1 2 |>.
(* @ xbot_robot.hpp:21-40 xBotRobot *)
Definition xBotRobot : Robot := default_robot (cells 4 42 10) (cells 4 33 10) (f_of_Z 1) (f_of_Z 1) (cells 4 3 1).
(* @ yardforce_robot.hpp:22-41 YardForceRobot *)
Definition YardForceRobot : Robot := default_robot (cells 7 42 10) (cells 7 33 10) (f_of_Z 1) (f_of_Z 1) (cells 7 3 1).
(* @ sabo_robot.hpp:44-87 SaboRobot *)
Definition SaboRobot : Robot :=
  let charge_voltage := fmul (f_of_Z 7) (f_lit 4157 1000) in
  mkRobot (fmul charge_voltage (f_lit 9 10)) (cells 7 35 10) (f_lit 5 2) (d_lit 39 10) charge_voltage (f_lit 3 10) (f_lit 1 2)
    PERCENT_95_2 (cells 7 345 100).
Definition robots : list Robot :=
  [husq310MKIIRobot; Lyfco_E1600Robot; Universal5SRobot; Universal7SRobot; Universal8SRobot; WorxRobot; xBotRobot; YardForceRobot; SaboRobot].

(** Every robot's values are ordered as they should be. *)
Definition robot_ok (r : Robot) : bool :=
  fle (Power_GetAbsoluteMinVoltage r) (Power_GetDefaultBatteryEmptyVoltage r) &&
  flt (Power_GetDefaultBatteryEmptyVoltage r) (Power_GetDefaultBatteryFullVoltage r) &&
  flt f0 (Power_GetDefaultChargeCurrent r) && fle (Power_GetDefaultChargeCurrent r) (Power_GetMaxChargeCurrent r) &&
  fle (Power_GetDefaultTerminationCurrent r) (Power_GetDefaultChargeCurrent r) &&
  (0 <=? Power_GetDefaultReChargeVoltage r) && (Power_GetDefaultReChargeVoltage r <=? PERCENT_97_6).
Example robots_are_ordered : forallb robot_ok robots = true.
Proof. vm_compute. reflexivity. Qed.

(** ** The Sabo boards *)
(* @ sabo_common.hpp:154-157 Limits *)
Record Limits := mkLimits { max_adapter_current : f32; max_charge_current : f32 }.
(* @ sabo_common.hpp:31-31 HardwareVersion *)
Inductive HardwareVersion := V0_1 | V0_2_0 | V0_2_1 | V0_3 | V0_4 | V0_5.
(* @ sabo_common.hpp:223-227 LIMITS *)
Definition limits (v : HardwareVersion) : Limits :=
  match v with
  | V0_1 => mkLimits (f_lit 42 10) (f_of_Z 5)
  | V0_2_0 | V0_2_1 => mkLimits (f_lit 49 10) (f_lit 49 10)
  | V0_3 => mkLimits (f_lit 48 10) (f_lit 55 10)
  | V0_4 => mkLimits (f_of_Z 6) (f_of_Z 9)
  | V0_5 => mkLimits (f_of_Z 10) (f_of_Z 9)
  end.
(* @ sabo_common.hpp:220-221 CHARGER *)
Definition sabo_charger (v : HardwareVersion) : BQ2576 :=
  new_BQ2576 249000 (match v with V0_5 => 14300 | _ => 13700 end) (f_lit 5 1000).
