(* ===== verification/RobotsInit.v ===== *)
(** How the robots set up their hardware: [InitPlatform] of each robot ([robots/src]), as what it does in order; and that
    every service a robot starts has got the drivers it dereferences, from ports that nobody else uses. *)
From stdpp Require Import strings.
From S2P Require Import Prelude Robots Startup.

(** Ports, pins and peripherals are their numbers; a pin is an alternate function, an output or an input. *)
Inductive line := LINE_GPIO (n : Z) | LINE_UART_RX (n : Z) | LINE_UART_TX (n : Z).
Inductive pin_mode := PAL_MODE_ALTERNATE (f : Z) | PAL_MODE_OUTPUT_PUSHPULL | PAL_MODE_INPUT.
Inductive motor := LEFT | RIGHT | MOWER_MOTOR.
#[export] Instance line_eq : EqDecision line.
Proof. solve_decision. Defined.
#[export] Instance pin_mode_eq : EqDecision pin_mode.
Proof. solve_decision. Defined.
#[export] Instance motor_eq : EqDecision motor.
Proof. solve_decision. Defined.
Inductive init_action :=
  | SetUART (m : motor) (uart : Z) (baudrate : Z) | StartInterface (m : motor) (port : Z)
  | DiffDriveSetDrivers | MowerSetDriver | ChargerSetI2C (i2c : Z) | PowerSetDriver
  | BmsInit | BmsSetDriver | RegisterInput (name : string) | AdcInit | AdcStart | RegisterAdcSensors | SetPowerManagementCallback
  | LoadGpsSettings | StartGps | StartSaboCoverUi | StartYfCoverUi (uart : Z)
  | SetLineMode (l : line) (m : pin_mode) | SetLine (l : line)
  | PwmStart (pwm period frequency : Z) | PwmEnableChannel (pwm channel width : Z) | SetPWM (m : motor) (pwm c1 c2 : Z) | SetEncoder (m : motor) (a b : line).
#[export] Instance init_action_eq : EqDecision init_action.
Proof. solve_decision. Defined.

(* @ robot.hpp:125-127 MowerRobot *)
Definition interface_port (m : motor) : Z := match m with LEFT => 65102 | MOWER_MOTOR => 65103 | RIGHT => 65104 end.
(* @ robot.cpp MowerRobot::InitMotors *)
Definition InitMotors : list init_action :=
  [SetUART LEFT 1 115200; SetUART RIGHT 4 115200; SetUART MOWER_MOTOR 2 115200;
   StartInterface LEFT (interface_port LEFT); StartInterface RIGHT (interface_port RIGHT); StartInterface MOWER_MOTOR (interface_port MOWER_MOTOR);
   DiffDriveSetDrivers; MowerSetDriver].
(* @ husq_310mkii_robot.cpp husq310MKIIRobot::InitPlatform *)
Definition husq_InitPlatform : list init_action := InitMotors ++ [ChargerSetI2C 1; PowerSetDriver].
(* @ lyfco_e1600_robot.cpp Lyfco_E1600Robot::InitPlatform *)
Definition lyfco_InitPlatform : list init_action := InitMotors ++ [ChargerSetI2C 1; PowerSetDriver].
(* @ universal_robot.cpp UniversalRobot::InitPlatform *)
Definition universal_InitPlatform : list init_action := InitMotors ++ [ChargerSetI2C 1; PowerSetDriver].
(* @ worx_robot.cpp WorxRobot::InitPlatform *)
Definition worx_InitPlatform : list init_action := InitMotors ++ [ChargerSetI2C 1; PowerSetDriver; RegisterInput "worx"].
(** The carrier board has the ADC's dividers from version 1.2 on. *)
(* @ yardforce_robot.cpp:45-52 YardForceRobot::RegisterAdcSensors (version) *)
Definition yardforce_adc (version_major version_minor : Z) : list init_action :=
  if (version_major <? 1) || ((version_major =? 1) && (version_minor <? 2)) then [] else [AdcInit; AdcStart; RegisterAdcSensors].
(* @ yardforce_robot.cpp YardForceRobot::InitPlatform *)
Definition yardforce_InitPlatform (version_major version_minor : Z) : list init_action :=
  InitMotors ++ [ChargerSetI2C 1; PowerSetDriver] ++ yardforce_adc version_major version_minor ++
  [RegisterInput "yf_cover_ui"; StartYfCoverUi 7; SetLineMode (LINE_GPIO 4) PAL_MODE_OUTPUT_PUSHPULL; SetLine (LINE_GPIO 4)].
(** Which boards have a BMS, an ADC and an LCD. *)
(* @ sabo_common.hpp:241-285 HARDWARE_CONFIGS *)
Definition HARDWARE_CONFIGS (v : HardwareVersion) : bool * bool * bool :=
  match v with V0_1 => (false, false, false) | V0_2_0 => (true, false, true) | V0_2_1 | V0_3 | V0_4 | V0_5 => (true, true, true) end.
(* @ sabo_robot.cpp SaboRobot::InitPlatform *)
Definition sabo_InitPlatform (v : HardwareVersion) : list init_action :=
  let '(bms, adc, _) := HARDWARE_CONFIGS v in
  InitMotors ++ [ChargerSetI2C 1; PowerSetDriver] ++ (if bms : bool then [BmsInit; BmsSetDriver] else []) ++ [RegisterInput "sabo"] ++
  (if adc : bool then [AdcInit; AdcStart; RegisterAdcSensors] else []) ++ [SetPowerManagementCallback; LoadGpsSettings; StartGps; StartSaboCoverUi].
(* @ xbot_robot.cpp:36-89 xBotRobot::InitPlatform *)
Definition xbot_InitPlatform : list init_action :=
  [SetLineMode (LINE_UART_RX 1) (PAL_MODE_ALTERNATE 1); SetLineMode (LINE_UART_TX 1) (PAL_MODE_ALTERNATE 1);
   SetLineMode (LINE_UART_RX 6) (PAL_MODE_ALTERNATE 2); SetLineMode (LINE_UART_TX 6) (PAL_MODE_ALTERNATE 2);
   PwmStart 1 (0xFFF * 4) 275000000; PwmStart 3 (0xFFF * 4) 275000000;
   PwmEnableChannel 1 1 0; PwmEnableChannel 1 2 0; PwmEnableChannel 3 0 0; PwmEnableChannel 3 1 0;
   SetPWM LEFT 1 1 2; SetEncoder LEFT (LINE_GPIO 16) (LINE_GPIO 17); SetPWM RIGHT 3 0 1; SetEncoder RIGHT (LINE_GPIO 18) (LINE_GPIO 19); DiffDriveSetDrivers;
   SetLineMode (LINE_GPIO 8) PAL_MODE_OUTPUT_PUSHPULL; SetLineMode (LINE_GPIO 9) PAL_MODE_OUTPUT_PUSHPULL;
   SetLineMode (LINE_GPIO 10) PAL_MODE_OUTPUT_PUSHPULL; SetLineMode (LINE_GPIO 11) PAL_MODE_INPUT; SetLineMode (LINE_GPIO 12) PAL_MODE_OUTPUT_PUSHPULL;
   SetLineMode (LINE_GPIO 13) PAL_MODE_INPUT; SetLineMode (LINE_GPIO 14) PAL_MODE_OUTPUT_PUSHPULL; SetLineMode (LINE_GPIO 15) PAL_MODE_INPUT;
   ChargerSetI2C 1; PowerSetDriver].

(** ** What the services need *)
(** The drivers without which the service's start dereferences a null pointer. *)
Definition needs_driver (id : service_id) : list init_action := match id with DIFF_DRIVE => [DiffDriveSetDrivers] | MOWER => [MowerSetDriver] | _ => [] end.
Inductive robot_kind := Husq310MKII | LyfcoE1600 | Universal | Worx | YardForce (major minor : Z) | Sabo (v : HardwareVersion) | XBot.
Definition platform (r : robot_kind) : list init_action :=
  match r with
  | Husq310MKII => husq_InitPlatform | LyfcoE1600 => lyfco_InitPlatform | Universal => universal_InitPlatform | Worx => worx_InitPlatform
  | YardForce a b => yardforce_InitPlatform a b | Sabo v => sabo_InitPlatform v | XBot => xbot_InitPlatform
  end.
Definition needs (r : robot_kind) : service_id -> bool :=
  match r with Sabo v => sabo_NeedsService (HARDWARE_CONFIGS v).1.1 | XBot => xbot_NeedsService | _ => robot_NeedsService end.
(** The UARTs in use, and the one of a GPS receiver that nobody has configured otherwise. *)
Definition uarts (l : list init_action) : list Z := omap (fun a => match a with SetUART _ u _ | StartYfCoverUi u => Some u | SetLineMode (LINE_UART_RX u) _ => Some u | _ => None end) l.
Definition default_gps_uart (r : robot_kind) : list Z := match r with Husq310MKII | YardForce _ _ | Sabo _ => [6] | _ => [] end.
Lemma mowers_have_motors r : match r with XBot => True | _ => exists l, platform r = InitMotors ++ l end.
Proof. destruct r as [| | | |a b|v|]; cbn [platform]; unfold sabo_InitPlatform; try (destruct (HARDWARE_CONFIGS v) as [[bms adc] lcd]); eauto. Qed.
Lemma start_needed (f : service_id -> bool) sabo debug id : Start id ∈ StartServices f sabo debug -> f id = true.
Proof.
  unfold StartServices, START_IF_NEEDED, require_if_needed. rewrite !elem_of_app. intros H.
  repeat match goal with H : _ \/ _ |- _ => destruct H as [H|H] | H : _ ∈ (if ?b then _ else _) |- _ => destruct b eqn:?
    | H : _ ∈ _ ++ _ |- _ => apply elem_of_app in H | H : _ ∈ [_] |- _ => apply list_elem_of_singleton in H; discriminate || (injection H as ->; assumption)
    | H : _ ∈ [] |- _ => apply not_elem_of_nil in H as [] end.
Qed.
(** Every service that a robot starts has its drivers. The mower's battery management has a driver exactly on the boards
    that start it; every robot's power service has its charger; and no UART is used twice. *)
Theorem services_have_drivers r sabo debug :
  (forall id a, Start id ∈ StartServices (needs r) sabo debug -> a ∈ needs_driver id -> a ∈ platform r) /\
  PowerSetDriver ∈ platform r /\ (BmsSetDriver ∈ platform r -> needs r BMS = true) /\ NoDup (default_gps_uart r ++ uarts (platform r)).
Proof.
  split; [|split; [|split]].
  - intros id a H I. apply start_needed in H. destruct r; [| | | | | |destruct id; cbn in I; try (apply not_elem_of_nil in I as []); [apply list_elem_of_singleton in I as ->; apply (bool_decide_unpack _); vm_compute; exact Logic.I|discriminate H]];
      (match goal with |- _ ∈ platform ?r => destruct (mowers_have_motors r) as [l ->] end; apply elem_of_app; left; destruct id; cbn in I; try (apply not_elem_of_nil in I as []); apply list_elem_of_singleton in I as ->; apply (bool_decide_unpack _); vm_compute; exact Logic.I).
  - destruct r as [| | | |a b|v|]; cbn [platform]; [..|destruct v|]; try (apply (bool_decide_unpack _); vm_compute; exact I).
  - destruct r as [| | | |a b|v|]; cbn [platform]; [..|destruct v|]; try (intros H; exfalso; revert H; apply (bool_decide_unpack _); vm_compute; exact I); try reflexivity.
    unfold yardforce_InitPlatform, yardforce_adc. destruct (_ || _); intros H; exfalso; revert H; apply (bool_decide_unpack _); vm_compute; exact I.
  - destruct r as [| | | |a b|v|]; cbn [platform]; [..|destruct v|]; try (apply (bool_decide_unpack _); vm_compute; exact I).
    unfold yardforce_InitPlatform, yardforce_adc. destruct (_ || _); apply (bool_decide_unpack _); vm_compute; exact I.
Qed.
