(* ===== verification/Power.v ===== *)
(** Power service: [services/power_service], with any charger behind the interface,
    and the Sabo robot's power management ([robots/src/sabo_robot.cpp]).

    A tick of the driver schedule acts on the service, the line that enables the high-level
    computer, the charger, and the state of the robot's power management callback. *)
From S2P Require Import Prelude Float32 Charger Robots.

(* @ power_service.hpp:118-132 PowerService *)
Record PowerService := mkPower {
  charger_configured_ : bool;
  charge_current_ : f32; adapter_volts_ : f32; battery_volts_ : f32; battery_percent_ : f32;
  adapter_volts_adc_ : f32; battery_volts_adc_ : f32; adapter_current_ : f32; dcdc_current_ : f32;
  critical_count_ : Z; charger_status_ : CHARGER_STATUS; charger_ : bool }.
#[export] Instance eta_PowerService : Eta PowerService := fun p =>
  mkPower (charger_configured_ p) (charge_current_ p) (adapter_volts_ p) (battery_volts_ p) (battery_percent_ p)
    (adapter_volts_adc_ p) (battery_volts_adc_ p) (adapter_current_ p) (dcdc_current_ p) (critical_count_ p)
    (charger_status_ p) (charger_ p).
(* @ power_service.hpp:118-132 PowerService *)
Definition new_PowerService : PowerService :=
  mkPower false f0 f0 f0 f0 S754_nan S754_nan S754_nan S754_nan 0 COMMS_ERROR false.
(* @ power_service.cpp PowerService::SetDriver *)
Definition pw_SetDriver (p : PowerService) : PowerService := p <| charger_ := true |>.

(** The service's registers; [None] is a register that is not valid. *)
Record PowerRegisters := mkRegisters {
  PreChargeCurrent : option f32; ChargeCurrent : option f32; ChargeVoltage : option f32; TerminationCurrent : option f32;
  ReChargeVoltage : option Z; BatteryFullVoltage : option f32; BatteryEmptyVoltage : option f32; SystemCurrent : option f32;
  DangerouslyOverrideHardwareChargeCurrentLimit : option bool }.

(** A line of a port: its two mode bits and its output bit. It is driven, to its output bit, only
    as an output; setting and clearing a line write the output bit and leave the mode. *)
Record gpio := mkGpio { MODER : Z; ODR : bool }.
#[export] Instance eta_gpio : Eta gpio := fun l => mkGpio (MODER l) (ODR l).
(* @ boards/XCORE/board.h:378-378 PIN_MODE_INPUT *)
Definition PIN_MODE_INPUT : Z := 0.
(* @ boards/XCORE/board.h:379-379 PIN_MODE_OUTPUT *)
Definition PIN_MODE_OUTPUT : Z := 1.
Definition driven (l : gpio) : option bool := if MODER l =? PIN_MODE_OUTPUT then Some (ODR l) else None.
Definition palSetLine (l : gpio) : gpio := l <| ODR := true |>.
Definition palClearLine (l : gpio) : gpio := l <| ODR := false |>.
(** The board leaves the line an input, with its output bit set. *)
(* @ boards/XCORE/board.h:663-663 VAL_GPIOC_MODER (PC14) *)
Definition board_HIGH_LEVEL_GLOBAL_EN : gpio := mkGpio PIN_MODE_INPUT true.

(** The world of a tick: [X] is the state of the robot's callback. *)
Record world (S X : Type) := mkWorld { service : PowerService; HIGH_LEVEL_GLOBAL_EN : gpio; charger : S; extra : X }.
Arguments mkWorld {S X}. Arguments service {S X}. Arguments HIGH_LEVEL_GLOBAL_EN {S X}. Arguments charger {S X}. Arguments extra {S X}.
#[export] Instance eta_world S X : Eta (world S X) := fun w => mkWorld (service w) (HIGH_LEVEL_GLOBAL_EN w) (charger w) (extra w).

(* @ power_service.hpp PowerService::GetConfiguredChargeCurrent *)
Definition GetConfiguredChargeCurrent (g : PowerRegisters) : f32 := default S754_nan (ChargeCurrent g).
(* @ power_service.hpp PowerService::GetConfiguredSystemCurrent *)
Definition GetConfiguredSystemCurrent (g : PowerRegisters) : f32 := default S754_nan (SystemCurrent g).
(* @ power_service.hpp PowerService::IsHealthy *)
Definition pw_IsHealthy (IsRunning : bool) (p : PowerService) : bool := IsRunning && charger_configured_ p.
(* @ power_service.cpp PowerService::OnStart *)
Definition pw_OnStart (p : PowerService) : bool * PowerService := (true, p <| charger_configured_ := false |>).

(** A setting from its register if that is valid and positive, else the robot's. *)
Definition setting (register : option f32) (dflt : f32) : f32 :=
  match register with Some v => if fgt v f0 then v else dflt | None => dflt end.
(* @ power_service.cpp:117-131 PowerService::update_charger_ (charge current) *)
Definition software_charge_current (g : PowerRegisters) (robot : Robot) : f32 :=
  let c := setting (ChargeCurrent g) (Power_GetDefaultChargeCurrent robot) in
  if default false (DangerouslyOverrideHardwareChargeCurrentLimit g) then c else std_min (Power_GetMaxChargeCurrent robot) c.
(** The charge voltage, if one is to be set. *)
(* @ power_service.cpp:142-153 PowerService::update_charger_ (charge voltage) *)
Definition charge_voltage (g : PowerRegisters) (robot : Robot) : option f32 :=
  let dflt := if fgt (Power_GetDefaultChargeVoltage robot) f0 then Some (Power_GetDefaultChargeVoltage robot) else None in
  match ChargeVoltage g with Some v => if fgt v f0 then Some v else dflt | None => dflt end.

Section Service.
Context {S X : Type} `{ChargerDriver S} (robot : Robot) (g : PowerRegisters).
Abbreviation world := (world S X).

(** An operation of the charger, in the world. *)
Definition call {A} (op : act S A) : act world A :=
  fun w => match op (charger w) with Some (a, c) => Some (a, w <| charger := c |>) | None => None end.
Definition modify (f : PowerService -> PowerService) : act world unit := fun w => Some (tt, w <| service ::= f |>).

(* @ power_service.cpp:106-173 PowerService::update_charger_ (configuration) *)
Definition configure_charger : act S bool :=
  ok ← init;
  if negb ok then mret false else
  s1 ← setPreChargeCurrent (setting (PreChargeCurrent g) (Power_GetDefaultPreChargeCurrent robot));
  s2 ← setChargingCurrent (software_charge_current g robot) true;
  s3 ← match charge_voltage g robot with Some v => setChargingVoltage v | None => mret true end;
  s4 ← setTerminationCurrent (setting (TerminationCurrent g) (Power_GetDefaultTerminationCurrent robot));
  s5 ← setReChargeVoltage (default (Power_GetDefaultReChargeVoltage robot) (ReChargeVoltage g));
  s6 ← setTsEnabled false;
  mret (s1 && s2 && s3 && s4 && s5 && s6).

(** Monitoring reads into the fields; [false] when something failed. *)
(* @ power_service.cpp:183-221 PowerService::update_charger_ (monitoring) *)
Definition read_charger : act world bool :=
  s1 ← call resetWatchdog;
  w ← get; '(s2, v) ← call (readChargeCurrent (charge_current_ (service w))); _ ← modify (fun p => p <| charge_current_ := v |>);
  w ← get; '(s3, v) ← call (readBatteryVoltage (battery_volts_ (service w))); _ ← modify (fun p => p <| battery_volts_ := v |>);
  w ← get; '(s4, v) ← call (readAdapterVoltage (adapter_volts_ (service w))); _ ← modify (fun p => p <| adapter_volts_ := v |>);
  w ← get; '(s5, v) ← call (readAdapterCurrent (adapter_current_ (service w))); _ ← modify (fun p => p <| adapter_current_ := v |>);
  status ← call getChargerStatus; _ ← modify (fun p => p <| charger_status_ := status |>);
  mret (s1 && s2 && s3 && s4 && s5 && negb (bool_decide (status = COMMS_ERROR))).
(** The battery is critical at the eleventh low reading. [critical_count_] is an [int]. *)
(* @ power_service.cpp:226-234 PowerService::update_charger_ (critical) *)
Definition check_battery : act world unit :=
  w ← get;
  if flt (battery_volts_ (service w)) (Power_GetAbsoluteMinVoltage robot) then
    if critical_count_ (service w) =? 2147483647 then of_option None else
    let n := critical_count_ (service w) + 1 in
    put ((w <| service ::= fun p => p <| critical_count_ := n |> |>) <| HIGH_LEVEL_GLOBAL_EN ::= fun l => if 10 <? n then palClearLine l else l |>)
  else put ((w <| service ::= fun p => p <| critical_count_ := 0 |> |>) <| HIGH_LEVEL_GLOBAL_EN ::= palSetLine |>).
(* @ power_service.cpp PowerService::update_charger_ *)
Definition update_charger_ : act world unit :=
  w ← get;
  if negb (charger_ (service w)) then mret tt else
  if negb (charger_configured_ (service w)) then
    success ← call configure_charger; modify (fun p => p <| charger_configured_ := success |>)
  else
    success ← read_charger;
    if negb success then modify (fun p => p <| charger_configured_ := false |>) else check_battery.
(** The voltages of the ADC are [adc1::GetValueOrNaN] of the charger, the battery and the converter's input. *)
(* @ power_service.cpp PowerService::read_adc_ *)
Definition read_adc_ (v_charger v_battery i_in_dcdc : f32) : act world unit :=
  modify (fun p => p <| adapter_volts_adc_ := v_charger |> <| battery_volts_adc_ := v_battery |> <| dcdc_current_ := i_in_dcdc |>).
Context (power_management_callback_ : option (act world unit)).
(* @ power_service.cpp PowerService::driver_tick_ *)
Definition driver_tick_ (v_charger v_battery i_in_dcdc : f32) : act world unit :=
  _ ← update_charger_;
  _ ← read_adc_ v_charger v_battery i_in_dcdc;
  w ← get;
  match power_management_callback_ with
  | Some callback => if charger_configured_ (service w) then callback else mret tt
  | None => mret tt
  end.

(** What the service sends. [etl::min] and [etl::max] are parameters. *)
Inductive power_message :=
  | StartTransaction | CommitTransaction | SendChargingStatus (text : string) | SendChargerEnabled (b : bool)
  | SendBatteryVoltage (v : f32) | SendChargeVoltage (v : f32) | SendChargeCurrent (v : f32) | SendBatteryPercentage (v : f32)
  | SendChargerInputCurrent (v : f32) | SendBatteryVoltageADC (v : f32) | SendChargeVoltageADC (v : f32) | SendDCDCInputCurrent (v : f32).
Context (etl_min etl_max : f32 -> f32 -> f32).
Definition battery_percent (p : PowerService) : f32 :=
  match BatteryFullVoltage g, BatteryEmptyVoltage g with
  | Some full, Some empty => fdiv (fsub (battery_volts_ p) empty) (fsub full empty)
  | _, _ => fdiv (fsub (battery_volts_ p) (Power_GetDefaultBatteryEmptyVoltage robot))
              (fsub (Power_GetDefaultBatteryFullVoltage robot) (Power_GetDefaultBatteryEmptyVoltage robot))
  end.
(* @ power_service.cpp PowerService::service_tick_ *)
Definition service_tick_ (p : PowerService) : PowerService * list power_message :=
  let percent := battery_percent p in
  (p <| battery_percent_ := percent |>,
   [StartTransaction;
    SendChargingStatus (if charger_configured_ p then statusToString (charger_status_ p) else "Charger Not Found");
    SendBatteryVoltage (battery_volts_ p); SendChargeVoltage (adapter_volts_ p); SendChargeCurrent (charge_current_ p);
    SendChargerEnabled true; SendBatteryPercentage (etl_max f0 (etl_min f1 percent)); SendChargerInputCurrent (adapter_current_ p);
    SendBatteryVoltageADC (battery_volts_adc_ p); SendChargeVoltageADC (adapter_volts_adc_ p); SendDCDCInputCurrent (dcdc_current_ p);
    CommitTransaction]).
End Service.

(** ** The Sabo robot's power management *)
Record sabo_statics := mkStatics { last_adapter_limit : f32; last_charge_limit : f32 }.
#[export] Instance eta_statics : Eta sabo_statics := fun x => mkStatics (last_adapter_limit x) (last_charge_limit x).

Section Sabo.
Context {S : Type} `{ChargerDriver S} (robot : Robot) (g : PowerRegisters) (hw : Limits).
(* @ sabo_robot.cpp:166-168 SaboRobot::OnPowerManagement (adapter) *)
Definition sabo_adapter_limit (system_current dcdc_current : f32) : f32 :=
  std_min (std_max (f_lit 3 10) (fsub (fsub system_current dcdc_current) (f_lit 2 10))) (max_adapter_current hw).
(* @ sabo_robot.cpp:175-180 SaboRobot::OnPowerManagement (charge) *)
Definition sabo_charge_limit : f32 :=
  let config := GetConfiguredChargeCurrent g in
  std_min (max_charge_current hw) (if fgt config f0 then config else Power_GetDefaultChargeCurrent robot).
(* @ sabo_robot.cpp SaboRobot::OnPowerManagement *)
Definition OnPowerManagement : act (world S sabo_statics) unit :=
  w ← get;
  let system_current := GetConfiguredSystemCurrent g in
  if is_nan system_current || fle system_current f0 then mret tt else
  let dcdc_current := dcdc_current_ (service w) in
  if is_nan dcdc_current || fle dcdc_current f0 then mret tt else
  let adapter_limit := sabo_adapter_limit system_current dcdc_current in
  _ ← (if fgt (SFabs (fsub adapter_limit (last_adapter_limit (extra w)))) (f_lit 5 100) then
         _ ← call (setAdapterCurrent adapter_limit);
         w ← get; put (w <| extra ::= fun x => x <| last_adapter_limit := adapter_limit |> |>)
       else mret tt);
  if negb (SFeqb (last_charge_limit (extra w)) sabo_charge_limit) then
    _ ← call (setChargingCurrent sabo_charge_limit true);
    w ← get; put (w <| extra ::= fun x => x <| last_charge_limit := sabo_charge_limit |> |>)
  else mret tt.
End Sabo.

(** ** A critical battery *)
(** The operation returns, whatever the state. *)
Definition returns {S A} (m : act S A) : Prop := forall s, exists a s', m s = Some (a, s').

Section Critical.
Context {S X : Type} `{ChargerDriver S} (robot : Robot) (g : PowerRegisters).
Abbreviation world := (world S X).
Context (callback : option (act world unit)).

(** What a tick has read: the battery's voltage, unless the charger was not configured or failed. *)
Definition reading (w w' : world) : option f32 :=
  if charger_ (service w) && charger_configured_ (service w) && charger_configured_ (service w') then Some (battery_volts_ (service w')) else None.
Fixpoint driver_ticks (adc : list (f32 * f32 * f32)) : act world (list (option f32)) :=
  match adc with
  | [] => mret []
  | (v_charger, v_battery, i_dcdc) :: adc =>
    w ← get; _ ← driver_tick_ robot g callback v_charger v_battery i_dcdc; w' ← get;
    h ← driver_ticks adc; mret (reading w w' :: h)
  end.
(** The readings, latest first. *)
Definition readings (h : list (option f32)) : list f32 := rev (omap id h).
Definition low (v : f32) : bool := flt v (Power_GetAbsoluteMinVoltage robot).
Definition critical (h : list (option f32)) : bool := (length (take 11 (readings h)) =? 11)%nat && forallb low (take 11 (readings h)).

(** What the theorem asks of the parts: the charger's operations return, and the
    callback leaves the service's state and the line alone. *)
Record parts_return : Prop := {
  returns_configure : returns (configure_charger robot g);
  returns_watchdog : returns resetWatchdog;
  returns_charge : forall v, returns (readChargeCurrent v);
  returns_battery : forall v, returns (readBatteryVoltage v);
  returns_adapter : forall v, returns (readAdapterVoltage v);
  returns_adapter_current : forall v, returns (readAdapterCurrent v);
  returns_status : returns getChargerStatus;
  returns_callback : match callback with
    | Some cb => forall w, exists w', cb w = Some (tt, w') /\ service w' = service w /\ HIGH_LEVEL_GLOBAL_EN w' = HIGH_LEVEL_GLOBAL_EN w
    | None => True
    end }.

(** What reading and configuring leave alone. *)
Definition framed (w w' : world) : Prop :=
  critical_count_ (service w') = critical_count_ (service w) /\ HIGH_LEVEL_GLOBAL_EN w' = HIGH_LEVEL_GLOBAL_EN w /\
  charger_ (service w') = charger_ (service w) /\ charger_configured_ (service w') = charger_configured_ (service w).
Lemma framed_refl w : framed w w.
Proof. repeat split. Qed.
Lemma framed_get w : runs (framed w) get (fun _ => framed w).
Proof. intros s Hs. exists s, s. auto. Qed.
Lemma framed_call {A} (op : act S A) w : returns op -> runs (framed w) (call op) (fun _ => framed w).
Proof.
  intros Hr s Hs. destruct (Hr (charger s)) as (a & c & E). exists a, (s <| charger := c |>). unfold call. rewrite E. auto.
Qed.
Lemma framed_modify f w : (forall p, critical_count_ (f p) = critical_count_ p /\ charger_ (f p) = charger_ p /\
  charger_configured_ (f p) = charger_configured_ p) -> runs (framed w) (modify f) (fun _ => framed w).
Proof.
  intros Hf s (E1 & E2 & E3 & E4). exists tt, (s <| service ::= f |>). destruct (Hf (service s)) as (F1 & F2 & F3).
  unfold framed. cbn. rewrite F1, F2, F3. auto.
Qed.
Lemma read_charger_framed w : parts_return -> runs (framed w) read_charger (fun _ => framed w).
Proof.
  intros [R1 R2 R3 R4 R5 R6 R7 _]. unfold read_charger.
  repeat (eapply runs_bind; [first [apply framed_get|apply framed_call; auto|apply framed_modify; intros ?; cbn; auto]|intros x; try destruct x]).
  all: apply (runs_ret _ (fun _ => framed w)).
Qed.

(** One tick: the alarm follows the reading. *)
Definition alarm_ok (mode : Z) (w : world) : Prop :=
  0 <= critical_count_ (service w) /\ HIGH_LEVEL_GLOBAL_EN w = mkGpio mode (negb (10 <? critical_count_ (service w))).
Definition count_after (r : option f32) (n : Z) : Z := match r with Some v => if low v then n + 1 else 0 | None => n end.
Lemma check_battery_alarm mode w : alarm_ok mode w -> critical_count_ (service w) < 2147483647 ->
  exists w', check_battery robot w = Some (tt, w') /\ alarm_ok mode w' /\ charger_ (service w') = charger_ (service w) /\
    charger_configured_ (service w') = charger_configured_ (service w) /\
    critical_count_ (service w') = count_after (Some (battery_volts_ (service w'))) (critical_count_ (service w)).
Proof.
  intros [Hn Hl] Hb. unfold check_battery, alarm_ok, count_after, low. rewrite act_get.
  destruct (flt (battery_volts_ (service w)) (Power_GetAbsoluteMinVoltage robot)) eqn:E.
  - destruct (Z.eqb_spec (critical_count_ (service w)) 2147483647); [lia|]. eexists. split; [reflexivity|]. cbn. rewrite E.
    repeat split; try lia. rewrite Hl. destruct (Z.ltb_spec 10 (critical_count_ (service w) + 1)); [reflexivity|].
    destruct (Z.ltb_spec 10 (critical_count_ (service w))); [lia|reflexivity].
  - eexists. split; [reflexivity|]. cbn. rewrite E, Hl. repeat split; lia.
Qed.
Lemma driver_tick_alarm mode a b c w : parts_return -> alarm_ok mode w -> critical_count_ (service w) < 2147483647 ->
  exists w', driver_tick_ robot g callback a b c w = Some (tt, w') /\ alarm_ok mode w' /\
    critical_count_ (service w') = count_after (reading w w') (critical_count_ (service w)).
Proof.
  intros R Hw Hb.
  assert (Hu : exists u, update_charger_ robot g w = Some (tt, u) /\ alarm_ok mode u /\
    critical_count_ (service u) = count_after (reading w u) (critical_count_ (service w))).
  { unfold update_charger_, reading. rewrite act_get. destruct (charger_ (service w)) eqn:Ec; cbn.
    2: { exists w. auto. }
    destruct (charger_configured_ (service w)) eqn:Ef; cbn.
    - destruct (read_charger_framed w R w (framed_refl w)) as (ok & v & E & F1 & F2 & F3 & F4). rewrite (act_step _ _ _ _ _ E).
      destruct ok; cbn.
      + destruct (check_battery_alarm mode v) as (u & Eu & Hu & G1 & G2 & G3).
        * unfold alarm_ok. rewrite F1, F2. exact Hw.
        * rewrite F1. exact Hb.
        * exists u. rewrite G2, F4, Ef, G3, F1. cbn. auto.
      + eexists. split; [reflexivity|]. unfold alarm_ok. cbn. rewrite F1, F2. auto.
    - destruct (returns_configure R (charger w)) as (ok & ch & E).
      rewrite (act_step _ _ _ ok (w <| charger := ch |>)) by (unfold call; rewrite E; reflexivity).
      eexists. split; [reflexivity|]. auto. }
  destruct Hu as (u & Eu & Hu & Ecount). unfold driver_tick_. rewrite (act_step _ _ _ _ _ Eu). unfold read_adc_. rewrite (act_step (modify _) _ _ _ _ eq_refl), act_get.
  set (u' := u <| service ::= _ |>).
  assert (Hu' : alarm_ok mode u' /\ reading w u' = reading w u /\ critical_count_ (service u') = critical_count_ (service u)) by auto.
  clearbody u'. destruct Hu' as (Hu' & Hr & Hc). rewrite <- Hr, <- Hc in Ecount.
  pose proof (returns_callback R) as Rc. destruct callback as [cb|]; [|eauto].
  destruct (charger_configured_ (service u')); [|eauto]. destruct (Rc u') as (v & E & Hs & Hl).
  exists v. split; [exact E|]. unfold alarm_ok, reading in *. rewrite Hs, Hl. auto.
Qed.
Lemma count_readings h k : Z.of_nat k <= fold_left (fun n r => count_after r n) h 0 <->
  (k <= length (readings h))%nat /\ forallb low (take k (readings h)) = true.
Proof.
  revert k. induction h as [|r h IH] using rev_ind; intros k; [destruct k; cbn; intuition lia|].
  rewrite fold_left_app. cbn. unfold readings in *. rewrite omap_app, rev_app_distr. destruct r as [v|]; cbn; [|apply IH].
  destruct k as [|k]; cbn -[Z.of_nat].
  - assert (0 <= fold_left (fun n r => count_after r n) h 0) by (apply (IH 0%nat); split; [lia|reflexivity]).
    destruct (low v); intuition lia.
  - destruct (low v); cbn; [|intuition (lia || discriminate)]. specialize (IH k). rewrite <- (Nat.succ_le_mono k). rewrite <- IH. lia.
Qed.
Lemma critical_count h : (10 <? fold_left (fun n r => count_after r n) h 0) = critical h.
Proof.
  unfold critical. rewrite length_take. pose proof (count_readings h 11) as K.
  destruct (Z.ltb_spec 10 (fold_left (fun n r => count_after r n) h 0)) as [Hlt|Hge].
  - destruct K as [K _]. destruct K as [K1 K2]; [lia|]. rewrite K2. symmetry. rewrite andb_true_r. apply Nat.eqb_eq. lia.
  - symmetry. apply andb_false_iff. destruct (forallb low _) eqn:E; [left|auto]. apply Nat.eqb_neq. intros K2.
    destruct K as [_ K]. assert (Z.of_nat 11 <= fold_left (fun n r => count_after r n) h 0) by (apply K; split; [lia|reflexivity]). lia.
Qed.
Lemma count_after_bound r n : count_after r n <= Z.max 0 (n + 1).
Proof. unfold count_after. destruct r; [destruct (low _)|]; lia. Qed.
Lemma driver_ticks_alarm mode adc w : parts_return -> alarm_ok mode w -> critical_count_ (service w) + Z.of_nat (length adc) <= 2147483647 ->
  exists h w', driver_ticks adc w = Some (h, w') /\ length h = length adc /\ alarm_ok mode w' /\
    critical_count_ (service w') = fold_left (fun n r => count_after r n) h (critical_count_ (service w)).
Proof.
  intros R. revert w. induction adc as [|[[a b] c] adc IH]; intros w Hw Hb.
  - exists [], w. auto.
  - cbn in Hb. destruct (driver_tick_alarm mode a b c w R Hw) as (u & E & Hu & Hc); [lia|].
    destruct (IH u Hu) as (h & w' & E' & Hlen & Hw' & Hc').
    + rewrite Hc. pose proof (count_after_bound (reading w u) (critical_count_ (service w))). destruct Hw. lia.
    + exists (reading w u :: h), w'. cbn [driver_ticks]. rewrite act_get.
      rewrite (act_step _ _ _ _ _ E). rewrite act_get. rewrite (act_step _ _ _ _ _ E').
      rewrite Hc', Hc. cbn. auto.
Qed.

(** C20. The line that enables the high-level computer is cleared exactly when the battery is
    critical: over any number of ticks of a fresh service, whose charger may be lost and
    configured again and fail to answer at any point, the line's output bit is off at the end if
    and only if there were eleven readings and the last eleven were all below the
    robot's absolute minimum; ticks without a reading count neither way. The line's mode is left
    as it is, so this level is driven if the line is an output; the board makes it an input
    ([enable_line_is_not_driven]), and then nothing is. *)
Theorem critical_battery_switches_off mode adc w : parts_return ->
  service w = pw_SetDriver new_PowerService -> HIGH_LEVEL_GLOBAL_EN w = mkGpio mode true -> Z.of_nat (length adc) <= 2147483647 ->
  exists h w', driver_ticks adc w = Some (h, w') /\ length h = length adc /\
    HIGH_LEVEL_GLOBAL_EN w' = mkGpio mode (negb (critical h)) /\
    driven (HIGH_LEVEL_GLOBAL_EN w') = if mode =? PIN_MODE_OUTPUT then Some (negb (critical h)) else None.
Proof.
  intros R Hs Hl Hn. destruct (driver_ticks_alarm mode adc w R) as (h & w' & E & Hlen & [_ Hw] & Hc).
  - split; rewrite Hs; [reflexivity|exact Hl].
  - rewrite Hs. exact Hn.
  - exists h, w'. rewrite Hw, Hc, Hs, <- critical_count. auto.
Qed.
End Critical.

(** The Sabo robot's callback keeps to what is asked of it. *)
Definition left_alone {S X} (w w' : world S X) : Prop :=
  service w' = service w /\ HIGH_LEVEL_GLOBAL_EN w' = HIGH_LEVEL_GLOBAL_EN w.
Lemma left_alone_call {S X A} (op : act S A) (w : world S X) : returns op -> runs (left_alone w) (call op) (fun _ => left_alone w).
Proof. intros Hr s Hs. destruct (Hr (charger s)) as (a & c & E). exists a, (s <| charger := c |>). unfold call. rewrite E. auto. Qed.
Lemma left_alone_get {S X} (w : world S X) : runs (left_alone w) get (fun v u => v = u /\ left_alone w u).
Proof. intros s Hs. exists s, s. auto. Qed.
Lemma OnPowerManagement_quiet {S} `{ChargerDriver S} robot g hw (w : world S sabo_statics) :
  (forall v, returns (setAdapterCurrent v)) -> (forall v, returns (setChargingCurrent v true)) ->
  exists w', OnPowerManagement robot g hw w = Some (tt, w') /\ service w' = service w /\
    HIGH_LEVEL_GLOBAL_EN w' = HIGH_LEVEL_GLOBAL_EN w.
Proof.
  intros Ra Rc. assert (K : runs (left_alone w) (OnPowerManagement robot g hw) (fun _ => left_alone w)).
  { eapply runs_bind; [apply left_alone_get|]. intros v.
    assert (Hput : forall f, runs (left_alone w) (u ← get; put (u <| extra ::= f |>)) (fun _ => left_alone w)).
    { intros f s Hs. exists tt, (s <| extra ::= f |>). auto. }
    assert (Hset : forall A (op : act S A) f, returns op -> runs (left_alone w) (_ ← call op; u ← get; put (u <| extra ::= f |>)) (fun _ => left_alone w)).
    { intros A op f Hop. eapply (runs_bind _ _ _ (fun _ => left_alone w)); [apply left_alone_call, Hop|]. intros _. apply Hput. }
    eapply (runs_conseq (left_alone w) _ _ (fun _ => left_alone w)); [|intros s Hs; apply Hs|auto].
    assert (Hret : runs (left_alone w) (mret tt) (fun _ => left_alone w)) by apply (runs_ret tt (fun _ => left_alone w)).
    cbv zeta. destruct (is_nan _ || _); [exact Hret|]. destruct (is_nan _ || _); [exact Hret|].
    eapply (runs_bind _ _ _ (fun _ => left_alone w)); [destruct (fgt _ _); [apply Hset, Ra|exact Hret]|intros ?].
    destruct (negb _); [apply Hset, Rc|exact Hret]. }
  destruct (K w) as ([] & w' & E & Hs); [split; reflexivity|]. eauto.
Qed.

(** ** The service at work *)
Module PowerDemo.
(** A charger that plays a list of battery voltages; [None] is a failure. *)
#[local] Instance script : ChargerDriver (list (option f32)) := {|
  setAdapterCurrent _ := mret true; setChargingCurrent _ _ := mret true; setChargingVoltage _ := mret true;
  setPreChargeCurrent _ := mret true; setTerminationCurrent _ := mret true; getChargerStatus := mret CC;
  init := mret true; resetWatchdog := mret true; setTsEnabled _ := mret true; setReChargeVoltage _ := mret true;
  readChargeCurrent _ := mret (true, f0); readAdapterVoltage _ := mret (true, f0); readAdapterCurrent _ := mret (true, f0);
  readBatteryVoltage v := fun l => match l with Some x :: l => Some ((true, x), l) | _ :: l => Some ((false, v), l) | [] => Some ((false, v), []) end |}.
Definition no_registers : PowerRegisters := mkRegisters None None None None None None None None None.
Definition low_volts : f32 := cells 7 3 1.
Definition demo_world (l : list (option f32)) : world (list (option f32)) sabo_statics :=
  mkWorld (pw_SetDriver new_PowerService) board_HIGH_LEVEL_GLOBAL_EN l (mkStatics f0 f0).
Definition demo_callback := Some (OnPowerManagement (S := list (option f32)) SaboRobot no_registers (limits V0_3)).
(** Five low readings, a failure after which the charger is configured again, and six more. *)
Definition sagging : list (option f32) := replicate 5 (Some low_volts) ++ [None] ++ replicate 6 (Some low_volts).
Lemma script_returns : parts_return SaboRobot no_registers demo_callback.
Proof.
  split; try (intros; intros l; cbn; eauto; fail).
  - intros v [|[x|] l]; eexists _, _; reflexivity.
  - intros w. apply OnPowerManagement_quiet; intros v l; eexists _, _; reflexivity.
Qed.
Lemma critical_witness : exists h w',
  driver_ticks SaboRobot no_registers demo_callback (replicate 14 (f0, f0, f1)) (demo_world sagging) = Some (h, w') /\
  critical SaboRobot h = true /\ HIGH_LEVEL_GLOBAL_EN w' = mkGpio PIN_MODE_INPUT false.
Proof.
  destruct (critical_battery_switches_off SaboRobot no_registers demo_callback PIN_MODE_INPUT (replicate 14 (f0, f0, f1)) (demo_world sagging)
    script_returns eq_refl eq_refl ltac:(cbn; lia)) as (h & w' & E & _ & Hl & _).
  exists h, w'. assert (critical SaboRobot h = true) as Hc.
  { enough (option_map (fun p => critical SaboRobot p.1) (Some (h, w')) = Some true) as [= K] by exact K.
    rewrite <- E. vm_compute. reflexivity. }
  rewrite Hl, Hc. auto.
Defined.

(** On the board the pin is not driven, however critical the battery is. *)
Example enable_line_is_not_driven :
  option_map (fun p => (critical SaboRobot p.1, HIGH_LEVEL_GLOBAL_EN p.2, driven (HIGH_LEVEL_GLOBAL_EN p.2)))
    (driver_ticks SaboRobot no_registers demo_callback (replicate 14 (f0, f0, f1)) (demo_world sagging)) =
  Some (true, mkGpio PIN_MODE_INPUT false, None).
Proof. vm_compute. reflexivity. Qed.

(** A BQ2576 whose registers are a memory. *)
Definition memory : Type := Z -> Z.
Definition chip_transmit (addr : Z) (tx : list Z) (rx_len : nat) (m : memory) : Z * list Z * memory :=
  match tx with
  | [] => (MSG_OK, [], m)
  | reg :: vals => (MSG_OK, map (fun i => m (reg + Z.of_nat i)) (seq 0 rx_len),
      fun r => if (reg <=? r) && (r <? reg + Z.of_nat (length vals)) then nth (Z.to_nat (r - reg)) vals 0 else m r)
  end.
#[local] Instance chip_driver : ChargerDriver (BQ2576 * memory) := bq2576_driver chip_transmit (fun m => (true, m)) 3.
Definition fresh_chip : memory := fun r => if r =? 0x3D then 0x10 else 0.
Definition sabo_world : world (BQ2576 * memory) sabo_statics :=
  mkWorld (pw_SetDriver new_PowerService) board_HIGH_LEVEL_GLOBAL_EN ((sabo_charger V0_1) <| i2c_driver_ := true |>, fresh_chip) (mkStatics f0 f0).
(** The words programmed for the adapter's and the charging current. *)
Definition programmed (w : world (BQ2576 * memory) sabo_statics) : Z * Z :=
  let m := (charger w).2 in (m 6 + 256 * m 7, m 2 + 256 * m 3).
Definition sabo_tick (g : PowerRegisters) : act (world (BQ2576 * memory) sabo_statics) unit :=
  driver_tick_ SaboRobot g (Some (OnPowerManagement SaboRobot g (limits V0_1))) f0 f0 (f_of_Z 1).
(** A charge current of 5 A and a system current of 4 A are configured, without overriding
    the limit of 3.9 A, which is 312: the service programs it, and the callback
    replaces it by 5 A, which is 400. *)
Definition greedy : PowerRegisters :=
  mkRegisters None (Some (f_of_Z 5)) None None None None None (Some (f_of_Z 4)) None.
Example power_management_exceeds_limit :
  option_map (fun p => programmed p.2) (update_charger_ SaboRobot greedy sabo_world) = Some (0, 312) /\
  option_map (fun p => programmed p.2) (sabo_tick greedy sabo_world) = Some (224, 400).
Proof. vm_compute. auto. Qed.
(** The charger loses its registers and is configured again: the callback takes
    the adapter's limit for programmed, as it had been. *)
Definition replugged (w : world (BQ2576 * memory) sabo_statics) : world (BQ2576 * memory) sabo_statics :=
  (w <| charger ::= fun c => (c.1, fresh_chip) |>) <| service ::= fun p => p <| charger_configured_ := false |> |>.
Example adapter_limit_is_lost :
  option_map (fun p => (programmed p.2, charger_configured_ (service p.2)))
    (p ← sabo_tick greedy sabo_world; sabo_tick greedy (replugged p.2)) = Some (0, 312, true).
Proof. vm_compute. reflexivity. Qed.
End PowerDemo.
