(* ===== verification/PowerBq2576.v ===== *)
(** The power service on a BQ2576: what the charger's registers hold once it
    is configured, over a bus that may fail at any transfer. What they say is read by the chip's
    own scales, in real numbers, so that it does not depend on how the driver encodes a setting. *)
From S2P Require Import Prelude Float32 FloatError Charger Robots Power.
From Stdlib Require Import Lra.
Local Open Scope Z_scope.

(** ** Numbers and their rounding *)
Definition num (x : f32) : Prop := valid_binary 24 128 x = true /\ is_finite x = true.
Definition near (e : R) (x : f32) (v : R) : Prop := num x /\ (Rabs (FV x - v) <= e)%R.
Lemma within x b : (Rabs x <= b)%R <-> (- b <= x <= b)%R.
Proof. unfold Rabs. destruct (Rcase_abs x); lra. Qed.
Lemma bpow_const : (bpow (-24) = / 16777216 /\ 0 < bpow (-150) <= / 1000000000 /\ 1000000000 <= bpow 126)%R.
Proof.
  pose proof (bpow_opp 24) as A. pose proof (bpow_opp 150) as B. pose proof (bpow_pos (-150)) as P. pose proof (bpow_pos (-24)) as P2. rewrite (bpow_Z 24) in A by lia. rewrite (bpow_Z 150) in B by lia.
  change (2 ^ 24) with 16777216 in A. change (- (24)) with (-24) in A. change (- (150)) with (-150) in B.
  assert (1000000000 <= IZR (2 ^ 150))%R by (apply IZR_le; vm_compute; discriminate).
  split; [|split; [split|]].
  - apply (Rmult_eq_reg_l 16777216); [|lra]. rewrite A. field.
  - exact P.
  - apply (Rmult_le_reg_l 1000000000); [lra|]. rewrite Rinv_r by lra. rewrite <- B. apply Rmult_le_compat_r; lra.
  - rewrite bpow_Z by lia. apply IZR_le. vm_compute. discriminate.
Qed.
(** A rounded result whose exact value is at most [B]. *)
Lemma rounds_near below r v B : (B <= 100000000)%R -> rounds 24 128 below r v -> (Rabs v <= B)%R -> near (B / 16000000 + / 1000000000) r v.
Proof.
  intros HB (V & _ & H) Hv. destruct bpow_const as (E1 & [P1 E2] & E3).
  destruct H as [F H]; [change (128 - 2) with 126; lra|]. split; [split; assumption|]. change (- (24)) with (-24) in H. change (emin 24 128 - 1) with (-150) in H.
  eapply Rle_trans; [exact H|]. rewrite E1. assert (Rabs v * / 16777216 <= B / 16000000)%R.
  { pose proof (Rabs_pos v). lra. }
  destruct below; lra.
Qed.
Lemma f_of_Z_exact k : Z.abs k < 2 ^ 24 -> num (f_of_Z k) /\ FV (f_of_Z k) = IZR k.
Proof.
  intros H. unfold f_of_Z, num. destruct (normalize_exact 24 128 ltac:(lia) ltac:(lia) k false H ltac:(lia)) as [F E].
  split; [split; [apply (normalize_rounds 24 128 ltac:(lia) ltac:(lia))|exact F]|exact E].
Qed.
Lemma fmul_near x y B : num x -> num y -> (B <= 100000000)%R -> (Rabs (FV x * FV y) <= B)%R ->
  near (B / 16000000 + / 1000000000) (fmul x y) (FV x * FV y).
Proof. intros [Vx Fx] [Vy Fy] HB Hv. exact (rounds_near _ _ _ _ HB (SFmul_rounds 24 128 ltac:(lia) ltac:(lia) x y Vx Vy Fx Fy) Hv). Qed.
Lemma fsub_near x y B : num x -> num y -> (B <= 100000000)%R -> (Rabs (FV x - FV y) <= B)%R ->
  near (B / 16000000 + / 1000000000) (fsub x y) (FV x - FV y).
Proof. intros [Vx Fx] [Vy Fy] HB Hv. exact (rounds_near _ _ _ _ HB (SFsub_rounds 24 128 ltac:(lia) ltac:(lia) x y Vx Vy Fx Fy) Hv). Qed.
Lemma fdiv_near x y B : num x -> num y -> FV y <> 0%R -> (B <= 100000000)%R -> (Rabs (FV x / FV y) <= B)%R ->
  near (B / 16000000 + / 1000000000) (fdiv x y) (FV x / FV y).
Proof.
  intros [Vx Fx] [Vy Fy] Hy HB Hv. destruct y as [s| | |s m e]; [destruct Hy; reflexivity|discriminate Fy..|].
  exact (rounds_near _ _ _ _ HB (SFdiv_rounds 24 128 ltac:(lia) ltac:(lia) x s m e Vx Fx) Hv).
Qed.
Lemma flt_FV x y : num x -> num y -> if flt x y then (FV x < FV y)%R else (FV y <= FV x)%R.
Proof.
  intros [Vx Fx] [Vy Fy]. pose proof (SFcompare_FV 24 128 ltac:(lia) x y Vx Vy Fx Fy) as C.
  unfold flt, SFltb. destruct (SFcompare x y) as [[]|]; lra.
Qed.
Lemma fle_FV x y : num x -> num y -> fle x y = true -> (FV x <= FV y)%R.
Proof. intros [Vx Fx] [Vy Fy]. apply (SFleb_FV 24 128); assumption || lia. Qed.

(** ** What the registers say

    The data sheet's scales: a current register holds steps of 50 mA at bit 2 and up, the voltage
    register steps of 2 mV above a feedback of 1504 mV. *)
Definition word (f : Z -> Z) (r : Z) : Z := f r + 256 * f (r + 1).
Definition amps (f : Z -> Z) (r : Z) : R := (IZR (word f r / 4) * 50 / 1000)%R.
Definition feedback_mv (f : Z -> Z) (r : Z) : R := (1504 + 2 * IZR (word f r))%R.
(** A register holds the current asked for, or the least it takes, but for the step it is cut to and the
    rounding; likewise the voltage, kept within the range of the register. *)
Definition holds_amps (f : Z -> Z) (r : Z) (least : R) (x : f32) : Prop :=
  word f r mod 4 = 0 /\ (Rmax (FV x) least - 502 / 10000 < amps f r <= Rmax (FV x) least + 2 / 10000)%R.
Definition holds_volts (f : Z -> Z) (r : Z) (ratio v : f32) : Prop :=
  let want := Rmax 1504 (Rmin 1566 (FV v * 1000 * FV ratio)) in
  (want - 202 / 100 < feedback_mv f r <= want + 2 / 100)%R.
(** A number between 0 and [hi]. *)
Definition sane (hi : Z) (x : f32) : bool := valid_binary 24 128 x && is_finite x && fle f0 x && fle x (f_of_Z hi).

Lemma sane_num hi x : Z.abs hi < 2 ^ 24 -> sane hi x = true -> num x /\ (0 <= FV x <= IZR hi)%R.
Proof.
  intros Hh H. unfold sane in H. apply andb_prop in H as [H H4]. apply andb_prop in H as [H H3]. apply andb_prop in H as [H1 H2].
  destruct (f_of_Z_exact hi Hh) as [Nh Eh]. assert (N : num x) by (split; assumption). split; [exact N|].
  apply fle_FV in H3, H4; try assumption; [|split; reflexivity]. rewrite Eh in H4. exact (conj H3 H4).
Qed.
Lemma lit_near n d : 0 < n <= d -> d < 2 ^ 10 -> near (/ 1000000) (f_lit n d) (IZR n / IZR d).
Proof.
  intros Hn Hd. unfold f_lit. destruct (f_of_Z_exact n ltac:(lia)) as [Nn En]. destruct (f_of_Z_exact d ltac:(lia)) as [Nd Ed].
  assert (0 < IZR n <= IZR d)%R as [P1 P2] by (split; [apply IZR_lt|apply IZR_le]; lia).
  destruct (fdiv_near (f_of_Z n) (f_of_Z d) 1 Nn Nd) as [N E].
  - rewrite Ed. lra.
  - lra.
  - rewrite En, Ed. rewrite Rabs_right; [|apply Rle_ge, Rmult_le_pos; [lra|left; apply Rinv_0_lt_compat; lra]].
    apply (Rmult_le_reg_r (IZR d)); [lra|]. unfold Rdiv. rewrite Rmult_assoc, Rinv_l by lra. lra.
  - rewrite En, Ed in E. split; [exact N|]. lra.
Qed.
(** The larger of a current and the least one. *)
Lemma raised_near least lr c : near (/ 1000000) least lr -> num c ->
  near (/ 1000000) (if flt c least then least else c) (Rmax (FV c) lr).
Proof.
  intros [Nl El] Nc. pose proof (flt_FV c least Nc Nl) as H. apply within in El. destruct (flt c least).
  - split; [exact Nl|]. apply within. unfold Rmax. destruct (Rle_dec _ _); lra.
  - split; [exact Nc|]. apply within. unfold Rmax. destruct (Rle_dec _ _); lra.
Qed.
Lemma to_word_floor x : is_finite x = true -> (0 <= FV x < 65535)%R -> exists n, f_to_int 0 65535 x = Some n /\ 0 <= n <= 65535 /\ (IZR n <= FV x < IZR n + 1)%R.
Proof.
  intros F [P1 P2]. destruct (f_trunc_floor x F P1) as (n & T & Hn & B1 & B2). exists n. unfold f_to_int. rewrite T. cbn [mbind option_bind].
  assert (n < 65535) by (apply lt_IZR; lra). destruct (Z.leb_spec 0 n); [|lia]. destruct (Z.leb_spec n 65535); [|lia]. cbn [andb].
  repeat split; auto; lia.
Qed.
Lemma current_word_holds least lr c : near (/ 1000000) least lr -> (1 / 10 <= lr <= 1)%R -> sane 400 c = true ->
  exists w, bq2576_current_word least c = Some w /\ forall f r, word f r = w -> holds_amps f r lr c.
Proof.
  intros Hl Hlr Hc. apply sane_num in Hc as [Nc [C0 C1]]; [|lia].
  unfold bq2576_current_word. destruct (raised_near least lr c Hl Nc) as [Nm Em]. set (m := if flt c least then least else c) in *.
  set (a := Rmax (FV c) lr) in *. assert (Ha : (lr <= a <= 400)%R) by (unfold a, Rmax; destruct (Rle_dec _ _); lra). apply within in Em.
  destruct (f_of_Z_exact 1000 ltac:(lia)) as [N1 E1]. destruct (f_of_Z_exact 50 ltac:(lia)) as [N2 E2].
  destruct (fmul_near m (f_of_Z 1000) 400001 Nm N1 ltac:(lra)) as [Np Ep]; [rewrite E1; apply within; lra|].
  rewrite E1 in Ep. apply within in Ep. set (p := fmul m _) in *.
  destruct (fdiv_near p (f_of_Z 50) 8001 Np N2) as [Nq Eq]; [lra..| |].
  { rewrite E2. apply within. lra. }
  rewrite E2 in Eq. apply within in Eq. set (q := fdiv p _) in *.
  assert (Hq : (20 * a - 2 / 1000 <= FV q <= 20 * a + 2 / 1000)%R) by lra.
  assert (Q0 : (0 <= FV q)%R).
  { lra. }
  destruct (to_word_floor q (proj2 Nq)) as (n & -> & Hn & B1 & B2); [lra|].
  cbn [mbind option_bind]. eexists. split; [reflexivity|]. intros f r Hw. 
  assert (n < 8002) by (apply lt_IZR; lra).
  assert (Ew : u16 (Z.shiftl n 2) = 4 * n) by (rewrite Z.shiftl_mul_pow2 by lia; change (2 ^ 2) with 4; unfold u16; rewrite Z.mod_small; lia).
  unfold holds_amps, amps. rewrite Hw, Ew. replace (4 * n / 4) with n by (rewrite Z.mul_comm, Z.div_mul; lia). split; [rewrite Z.mul_comm; apply Z.mod_mul; lia|].
  fold a. lra.
Qed.
Lemma std_min_FV x y : num x -> num y -> num (std_min x y) /\ FV (std_min x y) = Rmin (FV x) (FV y).
Proof.
  intros Nx Ny. pose proof (flt_FV y x Ny Nx) as H. unfold std_min, Rmin.
  destruct (flt y x); (split; [assumption|]); destruct (Rle_dec (FV x) (FV y)); lra.
Qed.
Lemma std_max_FV x y : num x -> num y -> num (std_max x y) /\ FV (std_max x y) = Rmax (FV x) (FV y).
Proof.
  intros Nx Ny. pose proof (flt_FV x y Nx Ny) as H. unfold std_max, Rmax.
  destruct (flt x y); (split; [assumption|]); destruct (Rle_dec (FV x) (FV y)); lra.
Qed.
Lemma to_word_near x : is_finite x = true -> (- / 1000 <= FV x < 65535)%R -> exists n, f_to_int 0 65535 x = Some n /\ 0 <= n /\ (FV x - 1 < IZR n <= FV x + / 1000)%R.
Proof.
  intros F [P1 P2]. destruct (Rle_lt_dec 0 (FV x)) as [P|P].
  - destruct (to_word_floor x F) as (n & E & Hn & B); [lra|]. exists n. split; [exact E|]. split; [lia|lra].
  - destruct (f_trunc_FV x F) as (n & T & B & _). assert (n = 0) as ->.
    { rewrite (Rabs_left (FV x)) in B by exact P. assert (Rabs (IZR n) < 1)%R as Hn by lra. rewrite <- abs_IZR in Hn. apply lt_IZR in Hn. lia. }
    exists 0. unfold f_to_int. rewrite T. split; [reflexivity|]. split; [lia|lra].
Qed.
Lemma product_near v k ratio : sane 1000 v = true -> num k -> FV k = 1000%R -> sane 1 ratio = true -> let x := (FV v * 1000 * FV ratio)%R in
  num (fmul (fmul v k) ratio) /\ (Rabs (FV (fmul (fmul v k) ratio) - x) <= x * / 4000000 + / 1000)%R.
Proof.
  intros Hv Nk Ek Hr x. apply sane_num in Hv as [Nv [V0 V1]]; [|lia]. apply sane_num in Hr as [Nr [R0 R1]]; [|lia].
  set (P := (FV v * 1000)%R). assert (P0 : (0 <= P <= 1000000)%R) by (unfold P; lra).
  destruct (fmul_near v k P Nv Nk ltac:(lra)) as [Np Ep]; [rewrite Ek; fold P; apply within; lra|]. rewrite Ek in Ep. fold P in Ep.
  set (p := fmul v k) in *. apply within in Ep. change x with (P * FV ratio)%R. clearbody P p. clear x.
  assert (X0 : (0 <= P * FV ratio <= P)%R) by nra.
  assert (B : (P * FV ratio - (P * FV ratio / 16000000 + / 1000000000) <= FV p * FV ratio <= P * FV ratio + (P * FV ratio / 16000000 + / 1000000000))%R) by nra.
  destruct (fmul_near p ratio (P * FV ratio * 2 + 1) Np Nr ltac:(lra)) as [Nz Ez]; [apply within; lra|].
  split; [exact Nz|]. apply within in Ez. apply within. lra.
Qed.
Definition clamped (x : R) : R := Rmax 1504 (Rmin 1566 x).
Lemma clamped_range x : (1504 <= clamped x <= 1566)%R.
Proof. unfold clamped, Rmax, Rmin. destruct (Rle_dec 1566 x), (Rle_dec _ _); lra. Qed.
(** Rounding moves the voltage by little within the range, and a large one stays above it. *)
Lemma clamped_near x y : (0 <= x)%R -> (Rabs (y - x) <= x * / 4000000 + / 1000)%R -> (Rabs (clamped y - clamped x) <= 3 / 1000)%R.
Proof.
  intros Hx H. apply within in H. apply within. unfold clamped, Rmax, Rmin.
  destruct (Rle_dec 1566 x), (Rle_dec 1566 y); repeat destruct (Rle_dec _ _); lra.
Qed.
Lemma voltage_word_holds ratio v : sane 1000 v = true -> sane 1 ratio = true ->
  exists w, bq2576_voltage_word (bq2576_vfb_mv ratio v) = Some w /\ 0 <= w < 32 /\ forall f r, word f r = w -> holds_volts f r ratio v.
Proof.
  intros Hv Hr. destruct (f_of_Z_exact 1000 ltac:(lia)) as [N1 E1]. destruct (f_of_Z_exact 1504 ltac:(lia)) as [N2 E2].
  destruct (f_of_Z_exact 1566 ltac:(lia)) as [N3 E3]. destruct (f_of_Z_exact 2 ltac:(lia)) as [N4 E4].
  pose proof (product_near v (f_of_Z 1000) ratio) as Hm. cbv zeta in Hm. unfold holds_volts. set (x := (FV v * 1000 * FV ratio)%R) in *.
  set (z := fmul (fmul v (f_of_Z 1000)) ratio) in *. destruct Hm as [Nz Hz]; try assumption.
  apply sane_num in Hv as [Nv [V0 V1]]; [|lia]. apply sane_num in Hr as [Nr [R0 R1]]; [|lia].
  assert (X0 : (0 <= x)%R) by (unfold x; repeat apply Rmult_le_pos; lra).
  apply clamped_near in Hz; [|exact X0]. apply within in Hz.
  unfold bq2576_vfb_mv. fold z.
  destruct (std_min_FV _ _ N3 Nz) as [Nn En]. destruct (std_max_FV _ _ N2 Nn) as [Nx Ex]. set (vfb := std_max _ _) in *.
  rewrite En, E2, E3 in Ex. fold (clamped (FV z)) in Ex. pose proof (clamped_range (FV z)) as Cr. pose proof (clamped_range x) as Cx.
  unfold bq2576_voltage_word. change (Rmax 1504 (Rmin 1566 x)) with (clamped x).
  destruct (fsub_near vfb (f_of_Z 1504) 62 Nx N2) as [Ns Es]; [lra|rewrite E2, Ex; apply within; lra|]. rewrite E2, Ex in Es. apply within in Es.
  set (s := fsub _ _) in *.
  destruct (fdiv_near s (f_of_Z 2) 32 Ns N4) as [Nq Eq]; [rewrite E4; lra|lra|rewrite E4; apply within; lra|]. rewrite E4 in Eq. apply within in Eq.
  set (q := fdiv _ _) in *. destruct (to_word_near q (proj2 Nq)) as (n & -> & Hn & B); [lra|].
  assert (n < 32) by (apply lt_IZR; lra). cbn [mbind option_bind]. exists n. change 31 with (Z.ones 5). rewrite Z.land_ones, Z.mod_small by lia.
  split; [reflexivity|]. split; [lia|]. intros f r Hw. unfold feedback_mv. rewrite Hw. lra.
Qed.

(** ** The charger's registers *)
Section Chip.
Context {D : Type} (i2cMasterTransmit : Z -> list Z -> nat -> D -> Z * list Z * D) (i2cRestart : D -> bool * D) (fuel : nat).
Context (peek : Z -> D -> Z).

(** The registers of the settings. *)
Definition is_setting (r : Z) : bool := existsb (Z.eqb r) [0; 1; 2; 3; 0x10; 0x11; 0x12; 0x13; 0x17; 0x18; 0x1C].
(** The watchdog bit of register 0x17 clears itself. *)
Definition stored (r v : Z) : Z := if r =? 0x17 then Z.ldiff v 32 else v.
Definition written (reg : Z) (vals : list Z) (r : Z) : bool := (reg <=? r) && (r <? reg + Z.of_nat (length vals)).

Lemma written_other reg vals r : (forall i, (i < length vals)%nat -> r <> reg + Z.of_nat i) -> written reg vals r = false.
Proof.
  intros H. unfold written. destruct (Z.leb_spec reg r); [|reflexivity]. cbn. apply Z.ltb_ge.
  destruct (Z.le_gt_cases (reg + Z.of_nat (length vals)) r); [assumption|]. destruct (H (Z.to_nat (r - reg))); lia.
Qed.
(** What is asked of the bus and the chip. A transfer may fail, and then what it
    wrote is unknown. Settings are stored, and change only when they are written or the chip is reset, by a
    write to 0x19, whose bit 6 reads as written. The peripheral restarts in the end. *)
Record register_chip : Prop := {
  chip_restarts : forall d, exists d', recover i2cRestart fuel d = Some d' /\ forall r, peek r d' = peek r d;
  chip_reads : forall reg n d, exists msg rx d', i2cMasterTransmit DEVICE_ADDRESS [reg] n d = (msg, rx, d') /\
    (forall r, peek r d' = peek r d) /\ (msg = MSG_OK -> rx = map (fun i => peek (reg + Z.of_nat i) d) (seq 0 n));
  chip_writes : forall reg vals d, vals <> [] -> exists msg rx d', i2cMasterTransmit DEVICE_ADDRESS (reg :: vals) 0 d = (msg, rx, d') /\
    (reg <> 0x19 -> forall r, is_setting r = true -> written reg vals r = false -> peek r d' = peek r d) /\
    (msg = MSG_OK -> forall i v, vals !! i = Some v -> is_setting (reg + Z.of_nat i) = true ->
      peek (reg + Z.of_nat i) d' = stored (reg + Z.of_nat i) v) /\
    (msg = MSG_OK -> forall v, reg = 0x19 -> vals = [v] -> Z.land (peek 0x19 d') 64 = Z.land v 64) }.
(** No transfer fails. *)
Definition reliable : Prop := forall tx n d, (i2cMasterTransmit DEVICE_ADDRESS tx n d).1.1 = MSG_OK.
Context (chip : register_chip) (fuel_pos : (0 < fuel)%nat) (c0 : BQ2576).

Abbreviation bq := (BQ2576 * D)%type.
(** The driver object is the one given, on a bus. *)
Definition object (s : bq) : Prop := i2c_driver_ s.1 = true /\ vfb_ratio_ s.1 = vfb_ratio_ c0.
(** The operation writes the registers [W] and reports whether [P] holds of them. *)
Definition sets (W : list Z) (P : (Z -> Z) -> Prop) (op : act bq bool) : Prop := forall s, object s ->
  exists ok s', op s = Some (ok, s') /\ object s' /\ (reliable -> ok = true) /\
    (forall r, is_setting r = true -> existsb (Z.eqb r) W = false -> peek r s'.2 = peek r s.2) /\
    (ok = true -> P (fun r => peek r s'.2)).

Abbreviation transfer := (@on_bus D i2cMasterTransmit i2cRestart fuel BQ2576 i2c_driver_).
Lemma read_transfer reg n old c d : i2c_driver_ c = true -> exists ok rx d', transfer [reg] n old (c, d) = Some ((ok, rx), (c, d')) /\
  (reliable -> ok = true) /\ (forall r, peek r d' = peek r d) /\ (ok = true -> rx = map (fun i => peek (reg + Z.of_nat i) d) (seq 0 n)).
Proof.
  intros Hc. unfold on_bus. rewrite act_get. cbn. rewrite Hc. cbn. unfold i2cTransmitChecked, TransmitWithRecovery.
  destruct (chip_reads chip reg n d) as (msg & rx & d1 & E & Hp & Hrx). pose proof (fun R : reliable => R [reg] n d) as Hr.
  rewrite E in *. destruct (Z.eqb_spec msg MSG_OK) as [->|Hm]; cbn.
  - exists true, rx, d1. auto.
  - destruct (chip_restarts chip d1) as (d2 & E2 & Hp2). rewrite E2. exists false, rx, d2. cbn. rewrite (proj2 (Z.eqb_neq _ _) Hm).
    repeat split; try discriminate; [intros R; destruct Hm; exact (Hr R)|]. intros r. rewrite Hp2. apply Hp.
Qed.
Lemma write_transfer reg vals old c d : i2c_driver_ c = true -> vals <> [] ->
  exists ok rx d', transfer (reg :: vals) 0 old (c, d) = Some ((ok, rx), (c, d')) /\ (reliable -> ok = true) /\
    (reg <> 0x19 -> forall r, is_setting r = true -> written reg vals r = false -> peek r d' = peek r d) /\
    (ok = true -> forall i v, vals !! i = Some v -> is_setting (reg + Z.of_nat i) = true ->
      peek (reg + Z.of_nat i) d' = stored (reg + Z.of_nat i) v) /\
    (ok = true -> forall v, reg = 0x19 -> vals = [v] -> Z.land (peek 0x19 d') 64 = Z.land v 64).
Proof.
  intros Hc Hv. unfold on_bus. rewrite act_get. cbn. rewrite Hc. cbn. unfold i2cTransmitChecked, TransmitWithRecovery.
  destruct (chip_writes chip reg vals d Hv) as (msg & rx & d1 & E & Hp & Hs & Hb). pose proof (fun R : reliable => R (reg :: vals) 0%nat d) as Hr.
  rewrite E in *. destruct (Z.eqb_spec msg MSG_OK) as [->|Hm]; cbn.
  - exists true, rx, d1. auto 10.
  - destruct (chip_restarts chip d1) as (d2 & E2 & Hp2). rewrite E2. exists false, rx, d2. cbn. rewrite (proj2 (Z.eqb_neq _ _) Hm).
    repeat split; try discriminate; [intros R; destruct Hm; exact (Hr R)|]. intros Hreg r Hset Hw. rewrite Hp2. apply Hp; assumption.
Qed.

(** *** The driver's operations *)
Abbreviation write8 := (@bq2576_writeRegister8 D i2cMasterTransmit i2cRestart fuel).
Abbreviation write16 := (@bq2576_writeRegister16 D i2cMasterTransmit i2cRestart fuel).
Abbreviation read8 := (@bq2576_readRegister8 D i2cMasterTransmit i2cRestart fuel).
Lemma write8_sets reg v : reg <> 0x19 -> is_setting reg = true -> sets [reg] (fun f => f reg = stored reg v) (write8 reg v).
Proof.
  intros Hreg Hset [c d] [Hc Hv]. unfold bq2576_writeRegister8.
  destruct (write_transfer reg [v] [] c d Hc ltac:(discriminate)) as (ok & rx & d' & E & Hr & Hp & Hs & _).
  rewrite (act_step _ _ _ _ _ E). exists ok, (c, d'). repeat split; auto.
  - intros r Hr1 Hr2. apply Hp; auto. apply written_other. cbn in *. rewrite orb_false_r in Hr2. apply Z.eqb_neq in Hr2. lia.
  - intros Hok. specialize (Hs Hok 0%nat v eq_refl). cbn in *. rewrite Z.add_0_r in Hs. auto.
Qed.
Lemma stored_plain r v : r <> 0x17 -> stored r v = v.
Proof. intros H. unfold stored. destruct (Z.eqb_spec r 0x17); [contradiction|reflexivity]. Qed.
Lemma write16_sets reg v : reg <> 0x19 -> reg <> 0x17 -> reg + 1 <> 0x17 -> is_setting reg = true -> is_setting (reg + 1) = true -> is_u16 v ->
  sets [reg; reg + 1] (fun f => word f reg = v) (write16 reg v).
Proof.
  intros H1 H2 H3 S1 S2 Hv [c d] [Hc Hratio]. unfold bq2576_writeRegister16.
  destruct (write_transfer reg (le_bytes 2 v) [] c d Hc ltac:(discriminate)) as (ok & rx & d' & E & Hr & Hp & Hs & _).
  rewrite (act_step _ _ _ _ _ E). exists ok, (c, d'). repeat split; auto.
  - intros r Hr1 Hr2. apply Hp; auto. apply written_other. cbn in *. rewrite orb_false_r in Hr2. apply orb_false_iff in Hr2 as [A B].
    apply Z.eqb_neq in A, B. lia.
  - intros Hok. pose proof (Hs Hok 0%nat _ eq_refl) as P0. pose proof (Hs Hok 1%nat _ eq_refl) as P1. 
    change (Z.of_nat 0) with 0 in P0. change (Z.of_nat 1) with 1 in P1. rewrite Z.add_0_r in P0.
    rewrite stored_plain in P0, P1 by assumption. unfold word. cbn [snd]. rewrite P0, P1 by assumption. clear -Hv. width.
Qed.
(** A read changes nothing. *)
Lemma read8_chip reg old c d : i2c_driver_ c = true -> exists ok v d', read8 reg old (c, d) = Some ((ok, v), (c, d')) /\
  (reliable -> ok = true) /\ (forall r, peek r d' = peek r d) /\ (ok = true -> v = peek reg d).
Proof.
  intros Hc. unfold bq2576_readRegister8. destruct (read_transfer reg 1 [old] c d Hc) as (ok & rx & d' & E & Hr & Hp & Hv).
  rewrite (act_step _ _ _ _ _ E). exists ok, (nth 0 rx old), d'. repeat split; auto.
  intros Hok. rewrite (Hv Hok). cbn. rewrite Z.add_0_r. reflexivity.
Qed.

(** The charge current, in steps of 50 mA. *)
Lemma current_word_u16 least c w : bq2576_current_word least c = Some w -> is_u16 w.
Proof.
  unfold bq2576_current_word. destruct (f_to_int _ _ _); cbn; [|discriminate]. intros [= <-]. apply u16_range.
Qed.
Lemma sets_of_option W (P : (Z -> Z) -> Prop) (o : option Z) w (op : Z -> act bq bool) :
  o = Some w -> sets W P (op w) -> sets W P (v ← of_option o; op v).
Proof. intros -> H. exact H. Qed.
Lemma setPreChargeCurrent_sets v w : bq2576_current_word (f_lit 1 4) v = Some w ->
  sets [0x10; 0x11] (fun f => word f 0x10 = w) (@bq2576_setPreChargeCurrent D i2cMasterTransmit i2cRestart fuel v).
Proof.
  intros E. apply (sets_of_option _ _ _ w); [exact E|]. apply current_word_u16 in E.
  apply (write16_sets 0x10); auto; discriminate.
Qed.
Lemma setTerminationCurrent_sets v w : bq2576_current_word (f_lit 1 4) v = Some w ->
  sets [0x12; 0x13] (fun f => word f 0x12 = w) (@bq2576_setTerminationCurrent D i2cMasterTransmit i2cRestart fuel v).
Proof.
  intros E. apply (sets_of_option _ _ _ w); [exact E|]. apply current_word_u16 in E.
  apply (write16_sets 0x12); auto; discriminate.
Qed.
Lemma resetWatchdog_sets : sets [0x17] (fun _ => True) (@bq2576_resetWatchdog D i2cMasterTransmit i2cRestart fuel).
Proof.
  intros s Hs. unfold bq2576_resetWatchdog. rewrite act_get.
  destruct (write8_sets 0x17 (Z.lor (charger_control_reg_ s.1) 32) ltac:(discriminate) eq_refl s Hs) as (ok & s' & E & H1 & H2 & H3 & _).
  exists ok, s'. auto 10.
Qed.
Lemma setReChargeVoltage_sets v : sets [0x17] (fun f => Z.land (Z.shiftr (f 0x17) 6) 3 = Z.land v 3)
  (@bq2576_setReChargeVoltage D i2cMasterTransmit i2cRestart fuel v).
Proof.
  intros s [Hc Hv]. unfold bq2576_setReChargeVoltage. rewrite act_get.
  set (r := Z.lor _ _). rewrite (act_step (put _) _ _ _ _ eq_refl).
  destruct (write8_sets 0x17 r ltac:(discriminate) eq_refl (s.1 <| charger_control_reg_ := r |>, s.2)) as (ok & s' & E & H1 & H2 & H3 & H4).
  { split; assumption. }
  exists ok, s'. repeat split; auto; try apply H1. intros Hok. rewrite (H4 Hok). unfold stored. cbn [Z.eqb Pos.eqb]. subst r.
  apply Z.bits_inj'. intros n Hn. rewrite !Z.land_spec, Z.shiftr_spec, Z.ldiff_spec, Z.lor_spec, Z.land_spec by lia.
  unfold u8. change 256 with (2 ^ 8). destruct (Z.testbit 3 n) eqn:E3; [|rewrite !andb_false_r; reflexivity].
  assert (n = 0 \/ n = 1) as [->| ->].
  { destruct (Z.le_gt_cases 2 n); [|lia]. rewrite (Z.bits_above_log2 3 n) in E3; [discriminate|lia|]. change (Z.log2 3) with 1. lia. }
  all: rewrite Z.mod_pow2_bits_low, Z.shiftl_spec, Z.land_spec by lia; cbn -[Z.testbit]; rewrite !andb_false_r, !andb_true_r; reflexivity.
Qed.
Lemma setTsEnabled_sets : sets [0x1C] (fun f => Z.testbit (f 0x1C) 0 = false)
  (@bq2576_setTsEnabled D i2cMasterTransmit i2cRestart fuel false).
Proof.
  intros [c d] Hs. unfold bq2576_setTsEnabled. destruct (read8_chip 0x1C 0 c d (proj1 Hs)) as (ok & v & d1 & E & Hr & Hp & Hv).
  rewrite (act_step _ _ _ _ _ E). destruct ok; cbn [negb].
  - destruct (write8_sets 0x1C (Z.land v 0xFE) ltac:(discriminate) eq_refl (c, d1) Hs) as (ok & s' & E' & H1 & H2 & H3 & H4).
    exists ok, s'. repeat split; auto; try apply H1; [intros r A B; rewrite H3 by assumption; apply Hp|].
    intros Hok. rewrite (H4 Hok). unfold stored. cbn [Z.eqb Pos.eqb]. rewrite Z.land_spec. apply andb_false_r.
  - exists false, (c, d1). repeat split; try apply Hs; try discriminate; auto.
Qed.
Lemma setChargingCurrent_sets v w : bq2576_current_word (f_lit 4 10) v = Some w ->
  sets [0x18; 2; 3] (fun f => Z.testbit (f 0x18) 7 = false /\ word f 2 = w)
    (@bq2576_setChargingCurrent D i2cMasterTransmit i2cRestart fuel v true).
Proof.
  intros Ew [c d] Hs. unfold bq2576_setChargingCurrent. destruct (read8_chip 0x18 0 c d (proj1 Hs)) as (ok & x & d1 & E & Hr & Hp & Hv).
  rewrite (act_step _ _ _ _ _ E). destruct ok; cbn [negb].
  2: { exists false, (c, d1). repeat split; try apply Hs; try discriminate; auto. }
  destruct (write8_sets 0x18 (Z.land x 0x7F) ltac:(discriminate) eq_refl (c, d1) Hs) as (ok & s1 & E1 & H1 & H2 & H3 & H4).
  rewrite (act_step _ _ _ _ _ E1). destruct ok; cbn [negb].
  2: { exists false, s1. repeat split; try apply H1; try discriminate; auto.
    intros r A B. cbn in B. rewrite H3; [apply Hp|assumption|]. cbn. destruct (r =? 24); [discriminate|reflexivity]. }
  rewrite (act_step _ _ s1 w s1) by (unfold of_option; rewrite Ew; reflexivity).
  destruct (write16_sets 2 w ltac:(discriminate) ltac:(discriminate) ltac:(discriminate) eq_refl eq_refl (current_word_u16 _ _ _ Ew) s1 H1)
    as (ok & s2 & E2 & K1 & K2 & K3 & K4).
  exists ok, s2. repeat split; try apply K1; auto.
  - intros r A B. cbn in B. rewrite K3, H3; [apply Hp|..]; try assumption; change (2 + 1) with 3; cbn;
    destruct (r =? 24), (r =? 2), (r =? 3); try discriminate; reflexivity.
  - rewrite K3, (H4 eq_refl) by reflexivity. unfold stored. cbn [Z.eqb Pos.eqb]. rewrite Z.land_spec. apply andb_false_r.
Qed.
Lemma setChargingVoltage_sets v w : fle (vfb_ratio_ c0) f0 = false -> bq2576_voltage_word (bq2576_vfb_mv (vfb_ratio_ c0) v) = Some w ->
  sets [0; 1] (fun f => word f 0 = w) (@bq2576_setChargingVoltage D i2cMasterTransmit i2cRestart fuel v).
Proof.
  intros Hratio Ew s [Hc Hv]. unfold bq2576_setChargingVoltage. rewrite act_get, Hv, Hratio.
  rewrite (act_step _ _ s w s) by (unfold of_option; rewrite Ew; reflexivity). rewrite (act_step (put _) _ _ _ _ eq_refl).
  assert (Hw : is_u16 w).
  { unfold bq2576_voltage_word in Ew. destruct (f_to_int _ _ _) as [n|]; cbn in Ew; [|discriminate]. injection Ew as <-.
    change 31 with (Z.ones 5). rewrite Z.land_ones by lia. change (2 ^ 5) with 32. width. }
  set (c := s.1 <| charge_voltage_ := _ |>).
  destruct (write16_sets 0 w ltac:(discriminate) ltac:(discriminate) ltac:(discriminate) eq_refl eq_refl Hw (c, s.2)) as (ok & s' & E & H1 & H2 & H3 & H4).
  { split; assumption. }
  exists ok, s'. repeat split; auto; apply H1.
Qed.
(** The reset, and what follows it. *)
Lemma await_reset_ends n result c d : (0 < n)%nat -> i2c_driver_ c = true -> Z.land (peek 0x19 d) 64 = 0 ->
  exists r d', bq2576_await_reset i2cMasterTransmit i2cRestart fuel n result (c, d) = Some (r, (c, d')) /\ (reliable -> r <> None).
Proof.
  intros Hn Hc Hb. destruct n as [|n]; [lia|]. cbn [bq2576_await_reset].
  destruct (read8_chip 0x19 result c d Hc) as (ok & v & d' & E & Hr & _ & Hv). rewrite (act_step _ _ _ _ _ E).
  destruct ok; cbn [negb].
  - rewrite (Hv eq_refl), Hb. exists (Some (peek 0x19 d)), d'. auto.
  - exists None, d'. split; [reflexivity|]. intros R. discriminate (Hr R).
Qed.
Lemma write8_any reg v c d : i2c_driver_ c = true -> exists ok d', write8 reg v (c, d) = Some (ok, (c, d')) /\ (reliable -> ok = true) /\
  (ok = true -> reg = 0x19 -> Z.land (peek 0x19 d') 64 = Z.land v 64).
Proof.
  intros Hc. unfold bq2576_writeRegister8.
  destruct (write_transfer reg [v] [] c d Hc ltac:(discriminate)) as (ok & rx & d' & E & Hr & _ & _ & Hb).
  rewrite (act_step _ _ _ _ _ E). exists ok, d'. auto.
Qed.
Lemma init_returns s : object s -> exists ok s', bq2576_init i2cMasterTransmit i2cRestart fuel s = Some (ok, s') /\ object s' /\
  (reliable -> Z.land (peek 0x3D s.2) 0x78 = 0x10 -> ok = true).
Proof.
  destruct s as [c d]. intros Hs. pose proof (proj1 Hs) as Hc. cbn in Hc. unfold bq2576_init.
  destruct (read8_chip 0x3D 0 c d Hc) as (readOk & v & d1 & E & Hr & Hp & Hv). rewrite (act_step _ _ _ _ _ E).
  destruct (write8_any 0x19 0xA0 c d1 Hc) as (ok & d2 & E2 & Hr2 & Hb). rewrite (act_step _ _ _ _ _ E2).
  destruct ok; cbn [negb].
  2: { exists false, (c, d2). repeat split; try apply Hs. intros R _. discriminate (Hr2 R). }
  destruct (await_reset_ends fuel v c d2 fuel_pos Hc (Hb eq_refl eq_refl)) as (r & d3 & E3 & Hr3).
  rewrite (act_step _ _ _ _ _ E3). destruct r as [x|].
  2: { exists false, (c, d3). repeat split; try apply Hs. intros R _. destruct (Hr3 R eq_refl). }
  destruct (write8_any 0x19 0 c d3 Hc) as (w1 & d4 & E4 & Hr4 & _). rewrite (act_step _ _ _ _ _ E4).
  destruct (write8_any 0x2B 0x80 c d4 Hc) as (w2 & d5 & E5 & Hr5 & _). rewrite (act_step _ _ _ _ _ E5).
  destruct (resetWatchdog_sets (c, d5)) as (w3 & s6 & E6 & H6 & _); [exact Hs|]. rewrite (act_step _ _ _ _ _ E6).
  eexists _, s6. split; [reflexivity|]. split; [exact H6|]. intros R Hpart. cbn in Hpart.
  rewrite (Hr4 R), (Hr5 R), (Hv (Hr R)), (Hr R), Hpart. reflexivity.
Qed.

(** *** Settings in sequence *)
(** An operation that also carries on whether all went well before. *)
Definition sets_if (b : bool) (W : list Z) (P : (Z -> Z) -> Prop) (op : act bq bool) : Prop := forall s, object s ->
  exists ok s', op s = Some (ok, s') /\ object s' /\ (reliable -> b = true -> ok = true) /\
    (forall r, is_setting r = true -> existsb (Z.eqb r) W = false -> peek r s'.2 = peek r s.2) /\
    (ok = true -> b = true /\ P (fun r => peek r s'.2)).
Definition depends (W : list Z) (P : (Z -> Z) -> Prop) : Prop :=
  forall f h, (forall r, r ∈ W -> f r = h r) -> P f -> P h.
Lemma sets_done b : sets_if b [] (fun _ => True) (mret b).
Proof. intros s Hs. exists b, s. repeat split; auto; apply Hs. Qed.
Lemma sets_then b W1 P1 op W2 P2 (k : bool -> act bq bool) : sets W1 P1 op -> (forall x, sets_if (b && x) W2 P2 (k x)) ->
  depends W1 P1 -> forallb (fun r => is_setting r && negb (existsb (Z.eqb r) W2)) W1 = true ->
  sets_if b (W1 ++ W2) (fun f => P1 f /\ P2 f) (x ← op; k x).
Proof.
  intros Hop Hk Hdep Hfresh s Hs. destruct (Hop s Hs) as (x & s1 & E1 & H1 & R1 & F1 & Q1). rewrite (act_step _ _ _ _ _ E1).
  destruct (Hk x s1 H1) as (ok & s2 & E2 & H2 & R2 & F2 & Q2). exists ok, s2. split; [exact E2|]. split; [exact H2|]. repeat split.
  - intros R Hb. apply (R2 R). rewrite Hb, (R1 R). reflexivity.
  - intros r Hset Hw. rewrite existsb_app in Hw. apply orb_false_iff in Hw as [Hw1 Hw2]. rewrite F2, F1; auto.
  - destruct (Q2 H) as [Hb _]. apply andb_prop in Hb. apply Hb.
  - destruct (Q2 H) as [Hb _]. apply andb_prop in Hb as [_ Hx]. apply (Hdep (fun r => peek r s1.2)); [|apply Q1, Hx].
    intros r Hr. rewrite forallb_forall in Hfresh. specialize (Hfresh r (proj1 (list_elem_of_In _ _) Hr)).
    apply andb_prop in Hfresh as [Hset Hw]. symmetry. apply F2; [exact Hset|]. apply negb_true_iff, Hw.
  - apply Q2. assumption.
Qed.
Ltac depends_on := intros ? ? Hf ?; unfold word in *; rewrite <- ?Hf by (apply list_elem_of_In; cbn; tauto); assumption.

(** *** The service configures the charger *)
Context (robot : Robot) (g : PowerRegisters).
#[local] Instance chip_bq2576 : ChargerDriver bq := bq2576_driver i2cMasterTransmit i2cRestart fuel.
(** The words that encode the settings; [wvolt] matters when a charge voltage is to be set. *)
Record encoded (wpre wchg wterm wvolt : Z) : Prop := {
  fit_pre : bq2576_current_word (f_lit 1 4) (setting (PreChargeCurrent g) (Power_GetDefaultPreChargeCurrent robot)) = Some wpre;
  fit_charge : bq2576_current_word (f_lit 4 10) (software_charge_current g robot) = Some wchg;
  fit_term : bq2576_current_word (f_lit 1 4) (setting (TerminationCurrent g) (Power_GetDefaultTerminationCurrent robot)) = Some wterm;
  fit_voltage : match charge_voltage g robot with
    | Some v => fle (vfb_ratio_ c0) f0 = false /\ bq2576_voltage_word (bq2576_vfb_mv (vfb_ratio_ c0) v) = Some wvolt
    | None => True
    end }.
Definition words_set (wpre wchg wterm wvolt : Z) (f : Z -> Z) : Prop :=
  word f 0x10 = wpre /\ (Z.testbit (f 0x18) 7 = false /\ word f 2 = wchg) /\ (charge_voltage g robot <> None -> word f 0 = wvolt) /\
  word f 0x12 = wterm /\ Z.land (Z.shiftr (f 0x17) 6) 3 = Z.land (default (Power_GetDefaultReChargeVoltage robot) (ReChargeVoltage g)) 3 /\
  Z.testbit (f 0x1C) 0 = false /\ True.
Lemma voltage_sets wpre wchg wterm wvolt : encoded wpre wchg wterm wvolt -> sets [0; 1] (fun f => charge_voltage g robot <> None -> word f 0 = wvolt)
  (match charge_voltage g robot with Some v => setChargingVoltage v | None => mret true end).
Proof.
  intros [_ _ _ Ev]. destruct (charge_voltage g robot) as [v|].
  - intros t Ht. destruct (setChargingVoltage_sets v wvolt (proj1 Ev) (proj2 Ev) t Ht) as (k & t' & E & A & B & F & P).
    exists k, t'. auto 10.
  - intros t Ht. exists true, t. repeat split; auto; try apply Ht. intros _ C. destruct (C eq_refl).
Qed.
(** The settings after the reset. *)
Lemma settings_sets wpre wchg wterm wvolt : encoded wpre wchg wterm wvolt ->
  sets_if true ([0x10; 0x11] ++ [0x18; 2; 3] ++ [0; 1] ++ [0x12; 0x13] ++ [0x17] ++ [0x1C] ++ []) (words_set wpre wchg wterm wvolt)
   (s1 ← setPreChargeCurrent (setting (PreChargeCurrent g) (Power_GetDefaultPreChargeCurrent robot));
    s2 ← setChargingCurrent (software_charge_current g robot) true;
    s3 ← match charge_voltage g robot with Some v => setChargingVoltage v | None => mret true end;
    s4 ← setTerminationCurrent (setting (TerminationCurrent g) (Power_GetDefaultTerminationCurrent robot));
    s5 ← setReChargeVoltage (default (Power_GetDefaultReChargeVoltage robot) (ReChargeVoltage g));
    s6 ← setTsEnabled false;
    mret (s1 && s2 && s3 && s4 && s5 && s6)).
Proof.
  intros Hfit. pose proof Hfit as [F1 F2 F3 F4].
  apply sets_then; [apply setPreChargeCurrent_sets, F1|intros b1|depends_on|reflexivity].
  apply sets_then; [apply setChargingCurrent_sets, F2|intros b2|depends_on|reflexivity].
  apply sets_then; [exact (voltage_sets _ _ _ _ Hfit)|intros b3|depends_on|reflexivity].
  apply sets_then; [apply setTerminationCurrent_sets, F3|intros b4|depends_on|reflexivity].
  apply sets_then; [apply setReChargeVoltage_sets|intros b5|depends_on|reflexivity].
  apply sets_then; [apply setTsEnabled_sets|intros b6|depends_on|reflexivity].
  apply sets_done.
Qed.
Lemma configure_programs s wpre wchg wterm wvolt : object s -> encoded wpre wchg wterm wvolt ->
  exists ok s', configure_charger robot g s = Some (ok, s') /\ (reliable -> Z.land (peek 0x3D s.2) 0x78 = 0x10 -> ok = true) /\
    (ok = true -> words_set wpre wchg wterm wvolt (fun r => peek r s'.2)).
Proof.
  intros Hs Hfit. unfold configure_charger. cbn [init chip_bq2576 bq2576_driver].
  destruct (init_returns s Hs) as (ok & s0 & E0 & H0 & R0). rewrite (act_step _ _ _ _ _ E0). destruct ok; cbn [negb].
  2: { exists false, s0. repeat split; try discriminate; intros R P; discriminate (R0 R P). }
  destruct (settings_sets _ _ _ _ Hfit s0 H0) as (ok & s' & E & _ & R & _ & P).
  exists ok, s'. split; [exact E|]. split; [auto|]. apply P.
Qed.
(** The settings are numbers a charger can be asked for: currents up to 400 A, and, where a charge voltage
    is to be set, one up to 1000 V with a feedback divider between 0 and 1. *)
Record settings_sane : Prop := {
  sane_pre : sane 400 (setting (PreChargeCurrent g) (Power_GetDefaultPreChargeCurrent robot)) = true;
  sane_charge : sane 400 (software_charge_current g robot) = true;
  sane_max : sane 400 (Power_GetMaxChargeCurrent robot) = true;
  sane_term : sane 400 (setting (TerminationCurrent g) (Power_GetDefaultTerminationCurrent robot)) = true;
  sane_voltage : match charge_voltage g robot with
    | Some v => sane 1000 v = true /\ sane 1 (vfb_ratio_ c0) = true /\ fle (vfb_ratio_ c0) f0 = false
    | None => True
    end }.
(** What the registers say once the charger is configured. *)
Record in_registers (f : Z -> Z) : Prop := {
  says_pre : holds_amps f 0x10 (1 / 4) (setting (PreChargeCurrent g) (Power_GetDefaultPreChargeCurrent robot));
  says_no_resistor : Z.testbit (f 0x18) 7 = false;
  says_charge : holds_amps f 2 (4 / 10) (software_charge_current g robot);
  says_voltage : forall v, charge_voltage g robot = Some v -> holds_volts f 0 (vfb_ratio_ c0) v;
  says_term : holds_amps f 0x12 (1 / 4) (setting (TerminationCurrent g) (Power_GetDefaultTerminationCurrent robot));
  says_recharge : Z.land (Z.shiftr (f 0x17) 6) 3 = Z.land (default (Power_GetDefaultReChargeVoltage robot) (ReChargeVoltage g)) 3;
  says_no_ts : Z.testbit (f 0x1C) 0 = false;
  says_limited : default false (DangerouslyOverrideHardwareChargeCurrentLimit g) = false ->
    (amps f 2 <= Rmax (FV (Power_GetMaxChargeCurrent robot)) (4 / 10) + 2 / 10000)%R }.
Lemma limited_current : settings_sane -> default false (DangerouslyOverrideHardwareChargeCurrentLimit g) = false ->
  (FV (software_charge_current g robot) <= FV (Power_GetMaxChargeCurrent robot))%R.
Proof.
  intros [_ Sc Sm _ _] Ho. apply sane_num in Sc as [Nc _], Sm as [Nm _]; [|lia..].
  assert (flt (Power_GetMaxChargeCurrent robot) (software_charge_current g robot) = false) as E.
  { unfold software_charge_current, std_min. rewrite Ho.
    destruct (flt (setting _ _) (Power_GetMaxChargeCurrent robot)) eqn:El; [apply flt_asym, El|apply flt_irrefl]. }
  pose proof (flt_FV _ _ Nm Nc) as H. rewrite E in H. exact H.
Qed.
(** The words that encode sane settings are read back as the settings. *)
Lemma encoded_exist : settings_sane -> exists wpre wchg wterm wvolt, encoded wpre wchg wterm wvolt /\
  forall f, words_set wpre wchg wterm wvolt f -> in_registers f.
Proof.
  intros S. pose proof S as [S1 S2 S3 S4 S5]. pose proof (limited_current S) as L.
  destruct (current_word_holds _ _ _ (lit_near 1 4 ltac:(lia) ltac:(lia)) ltac:(lra) S1) as (wpre & E1 & H1).
  destruct (current_word_holds _ _ _ (lit_near 4 10 ltac:(lia) ltac:(lia)) ltac:(lra) S2) as (wchg & E2 & H2).
  destruct (current_word_holds _ _ _ (lit_near 1 4 ltac:(lia) ltac:(lia)) ltac:(lra) S4) as (wterm & E3 & H3).
  assert (V : exists wvolt, match charge_voltage g robot with
    | Some v => (fle (vfb_ratio_ c0) f0 = false /\ bq2576_voltage_word (bq2576_vfb_mv (vfb_ratio_ c0) v) = Some wvolt) /\
        forall f r, word f r = wvolt -> holds_volts f r (vfb_ratio_ c0) v
    | None => True end).
  { destruct (charge_voltage g robot) as [v|]; [|exists 0; exact I]. destruct S5 as (A & B & C).
    destruct (voltage_word_holds _ _ A B) as (w & E & _ & H). exists w. auto. }
  destruct V as (wvolt & V). exists wpre, wchg, wterm, wvolt. split.
  - split; auto. destruct (charge_voltage g robot); [apply V|exact I].
  - intros f (P1 & (P2 & P3) & P4 & P5 & P6 & P7 & _). split; auto.
    + intros v Ev. rewrite Ev in *. apply V, P4. discriminate.
    + intros Ho. specialize (L Ho). destruct (H2 _ _ P3) as [_ [_ B]]. eapply Rle_trans; [exact B|].
      apply Rplus_le_compat_r. unfold Rmax. repeat destruct (Rle_dec _ _); lra.
Qed.

(** C21. When the service takes a BQ2576 as configured, the chip holds the settings.
    Over a bus on which any transfer may fail, a tick that finds the charger not configured
    returns, and if it then calls it configured, the registers, read by the chip's scales (steps of
    50 mA; steps of 2 mV of feedback above 1504 mV), say so: the
    pre-charge, charge and termination currents, the charge voltage where one is to be set, and
    the recharge threshold are those of the registers or else of the robot, at most one step below
    them, currents raised to 0.25 A or 0.4 A and the feedback kept within 1504 and 1566 mV; the
    resistor's limit and the temperature sensor are off; and the charge current in the register is not above
    the robot's maximum, or 0.4 A, unless that is overridden. If no transfer fails and
    the chip gives its part number, the charger is configured. The settings are asked to be numbers
    between 0 and 400 A or 1000 V: the conversion of others to an integer is undefined. *)
Theorem charger_is_programmed {X} (w : world bq X) :
  charger_ (service w) = true -> charger_configured_ (service w) = false -> object (charger w) -> settings_sane ->
  exists w', update_charger_ robot g w = Some (tt, w') /\
    (charger_configured_ (service w') = true -> in_registers (fun r => peek r (charger w').2)) /\
    (reliable -> Z.land (peek 0x3D (charger w).2) 0x78 = 0x10 -> charger_configured_ (service w') = true).
Proof.
  intros Hc Hf Hs Hsane. destruct (encoded_exist Hsane) as (wpre & wchg & wterm & wvolt & Hfit & Hin).
  destruct (configure_programs _ _ _ _ _ Hs Hfit) as (ok & s' & E & Hr & Hp).
  unfold update_charger_. rewrite act_get, Hc, Hf. cbn [negb].
  rewrite (act_step _ _ w ok (w <| charger := s' |>)) by (unfold call; rewrite E; reflexivity).
  eexists. split; [reflexivity|]. split; [intros Hok; apply Hin, Hp, Hok|exact Hr].
Qed.
End Chip.

(** ** On a bus whose transfers fail now and then *)
Module Bq2576Demo.
(** The registers, and which of the next transfers fail. *)
Definition flaky : Type := (Z -> Z) * list bool.
Definition fails (d : flaky) : bool := match d.2 with b :: _ => b | [] => false end.
Definition flaky_transmit (addr : Z) (tx : list Z) (rx_len : nat) (d : flaky) : Z * list Z * flaky :=
  match tx with
  | [] => (MSG_OK, [], d)
  | reg :: vals =>
    if fails d then (-1, [], (d.1, tail d.2)) else
    (MSG_OK, map (fun i => d.1 (reg + Z.of_nat i)) (seq 0 rx_len),
     (fun r => if written reg vals r then stored r (nth (Z.to_nat (r - reg)) vals 0) else d.1 r, tail d.2))
  end.
Definition flaky_restart (d : flaky) : bool * flaky := (true, d).
Definition flaky_peek (r : Z) (d : flaky) : Z := d.1 r.
Lemma written_nth reg vals i v : vals !! i = Some v ->
  written reg vals (reg + Z.of_nat i) = true /\ nth (Z.to_nat (reg + Z.of_nat i - reg)) vals 0 = v.
Proof.
  intros Hv. pose proof (lookup_lt_Some _ _ _ Hv). unfold written. split; [lia|].
  replace (Z.to_nat (reg + Z.of_nat i - reg)) with i by lia. apply nth_lookup_Some, Hv.
Qed.
Lemma flaky_chip : register_chip flaky_transmit flaky_restart 3 flaky_peek.
Proof.
  split.
  - intros d. exists d. auto.
  - intros reg n d. unfold flaky_transmit. destruct (fails d); eexists _, _, _; (split; [reflexivity|]); (split; [intros r; unfold flaky_peek; cbn|]);
      [reflexivity|discriminate|rewrite written_other; [reflexivity|cbn; lia]|reflexivity].
  - intros reg vals d _. unfold flaky_transmit. destruct (fails d); eexists _, _, _; (split; [reflexivity|]); unfold flaky_peek; cbn.
    + repeat split; auto; discriminate.
    + repeat split.
      * intros _ r _ ->. reflexivity.
      * intros _ i v Hv _. destruct (written_nth reg vals i v Hv) as [-> ->]. reflexivity.
      * intros _ v -> ->. reflexivity.
Qed.
Definition demo_object : BQ2576 := (new_BQ2576 249000 14040 f0) <| i2c_driver_ := true |>.
Definition demo_world (faults : list bool) : world (BQ2576 * flaky) unit :=
  mkWorld (pw_SetDriver new_PowerService) board_HIGH_LEVEL_GLOBAL_EN (demo_object, (fun r => if r =? 0x3D then 0x10 else 0xFF, faults)) tt.
Definition demo_registers : PowerRegisters := mkRegisters (Some (f_lit 1 2)) (Some (f_of_Z 3)) (Some (f_of_Z 29)) None (Some 3) None None None None.
#[local] Instance demo_driver : ChargerDriver (BQ2576 * flaky) := bq2576_driver flaky_transmit flaky_restart 3.

(** 3 A are asked for, the robot allows 1 A, which is 20 steps; 29 V are 1544 mV of feedback, 20 steps. *)
Lemma programmed_witness : exists w', update_charger_ YardForceRobot demo_registers (demo_world []) = Some (tt, w') /\
  charger_configured_ (service w') = true /\ in_registers demo_object YardForceRobot demo_registers (fun r => flaky_peek r (charger w').2).
Proof.
  destruct (charger_is_programmed flaky_transmit flaky_restart 3 flaky_peek flaky_chip ltac:(lia) demo_object YardForceRobot demo_registers
    (demo_world [])) as (w' & E & Hp & _).
  - reflexivity.
  - reflexivity.
  - split; reflexivity.
  - split; vm_compute; repeat split.
  - exists w'. assert (charger_configured_ (service w') = true) as Hc.
    { enough (option_map (fun p => charger_configured_ (service p.2)) (Some (tt, w')) = Some true) as [= K] by exact K.
      rewrite <- E. vm_compute. reflexivity. }
    auto.
Defined.
(** The words are the pre-charge current's 10 steps, the charge current's 20, the termination current's 5, and the voltage's 20. *)
Example programmed_words :
  option_map (fun p => map (word (fun r => flaky_peek r (charger p.2).2)) [0x10; 2; 0x12; 0]) (update_charger_ YardForceRobot demo_registers (demo_world []))
  = Some [40; 80; 20; 20].
Proof. vm_compute. reflexivity. Qed.
(** With the ninth transfer failing the charger is not taken as configured; the next tick configures it. *)
Example configured_again :
  option_map (fun p => map (fun w => charger_configured_ (service w)) [p.1; p.2])
    (w ← update_charger_ YardForceRobot demo_registers (demo_world (replicate 8 false ++ [true]));
     w2 ← update_charger_ YardForceRobot demo_registers w.2; Some (w.2, w2.2)) = Some [false; true].
Proof. vm_compute. reflexivity. Qed.
(** The wait for the reset looks at bit 6 of register 0x19, which [init] has just written as 0 together with
    the reset in bit 7: it never waits. *)
Example reset_is_not_awaited : Z.land 0xA0 64 = 0.
Proof. reflexivity. Qed.
End Bq2576Demo.
