(* ===== verification/Cobs.v ===== *)
(** Consistent overhead byte stuffing: the helpers of [drivers/motor/yfr4esc/cobs.h]
    and of [drivers/ui/yf_cover_ui/yf_cover_ui.cpp].

    The encoder reserves a code byte at the start of each block and fills it in
    when the block closes; the decoder is a pair of the bytes it has written and
    whether it succeeded, since it writes before it finds an error. *)
From S2P Require Import Prelude.

(** ** Encoder

    What the output holds, the index of the open block's code byte, and the code so far. *)
Record encoder := Encoder { out : list Z; code_idx : nat; code : Z }.

(** [placeholder] is the byte a code position holds until its block closes. *)
Definition open_block (placeholder : Z) (out : list Z) : encoder :=
  Encoder (out ++ [placeholder]) (length out) 1.
Definition close_block (e : encoder) : list Z := <[code_idx e := code e]> (out e).
Definition encode_byte (placeholder : Z) (e : encoder) (b : Z) : encoder :=
  if negb (b =? 0) then
    let e := Encoder (out e ++ [b]) (code_idx e) (u8 (code e + 1)) in
    if code e =? 0xFF then open_block placeholder (close_block e) else e
  else open_block placeholder (close_block e).
Definition encode_with (first placeholder : Z) (input : list Z) : list Z :=
  close_block (fold_left (encode_byte placeholder) input (open_block first [])).

(** [cobs_encode] leaves the code position as the buffer had it, here 0. *)
(* @ cobs.h cobs_encode *)
Definition cobs_encode (input : list Z) : list Z := encode_with 0 0 input.
(* @ yf_cover_ui.cpp YFCoverUI::CobsEncode *)
Definition CobsEncode (src : list Z) : list Z := encode_with 0 1 src.

(** ** Decoder *)
Fixpoint decode_blocks (fuel : nat) (input out : list Z) : list Z * bool :=
  match fuel, input with
  | _, [] => (out, true)
  | O, _ => (out, false)
  | S fuel, code :: input =>
    if code =? 0 then (out, false) else
    let n := Z.to_nat (code - 1) in
    if (length input <? n)%nat then (out ++ input, false) else
    let out := out ++ take n input in
    let input := drop n input in
    let out := if negb (code =? 0xFF) && (0 <? length input)%nat then out ++ [0] else out in
    decode_blocks fuel input out
  end.

(** Bytes written and success; the C function returns 0 for failure. *)
(* @ cobs.h cobs_decode *)
Definition cobs_decode (input : list Z) : list Z * bool := decode_blocks (length input) input [].
(* @ yf_cover_ui.cpp YFCoverUI::CobsDecode *)
Definition CobsDecode (src : list Z) : list Z * bool := decode_blocks (length src) src [].

(** ** The encoding as a sequence of blocks *)
Fixpoint blocks (l cur : list Z) : list Z :=
  match l with
  | [] => Z.of_nat (length cur + 1) :: cur
  | b :: l =>
    if b =? 0 then Z.of_nat (length cur + 1) :: cur ++ blocks l []
    else if (length cur + 1 =? 254)%nat then 255 :: (cur ++ [b]) ++ blocks l []
    else blocks l (cur ++ [b])
  end.

Lemma close_open ph done cur c : close_block (Encoder (done ++ ph :: cur) (length done) c) = done ++ c :: cur.
Proof. unfold close_block. cbn. rewrite insert_app_r_alt, Nat.sub_diag by lia. reflexivity. Qed.
Lemma encode_blocks ph p l done cur : (length cur < 254)%nat ->
  close_block (fold_left (encode_byte ph) l
    (Encoder (done ++ p :: cur) (length done) (Z.of_nat (length cur + 1)))) = done ++ blocks l cur.
Proof.
  revert p done cur. induction l as [|b l IH]; intros p done cur Hc; cbn [fold_left blocks].
  { apply close_open. }
  unfold encode_byte at 2. destruct (b =? 0); cbn [negb].
  - rewrite close_open. unfold open_block.
    etransitivity; [apply (IH ph (done ++ Z.of_nat (length cur + 1) :: cur) []); cbn; lia|].
    rewrite <- app_assoc. reflexivity.
  - cbn [out code_idx code]. rewrite u8_small by (unfold is_u8; lia).
    destruct (Nat.eqb_spec (length cur + 1) 254) as [E|E].
    + replace (Z.of_nat (length cur + 1) + 1) with 255 by lia. rewrite Z.eqb_refl.
      rewrite <- app_assoc. cbn [app]. rewrite close_open. unfold open_block.
      etransitivity; [apply (IH ph (done ++ 255 :: cur ++ [b]) []); cbn; lia|].
      rewrite <- app_assoc. reflexivity.
    + destruct (Z.eqb_spec (Z.of_nat (length cur + 1) + 1) 255); [lia|].
      rewrite <- app_assoc. cbn [app]. rewrite <- (IH p done (cur ++ [b])) by (rewrite length_app; cbn; lia).
      rewrite length_app. cbn [length]. do 3 f_equal. lia.
Qed.
Lemma encode_with_blocks first ph l : encode_with first ph l = blocks l [].
Proof. unfold encode_with, open_block. apply (encode_blocks ph first l [] []). cbn. lia. Qed.

Lemma blocks_cons l cur : exists c r, blocks l cur = c :: r.
Proof.
  revert cur. induction l as [|b l IH]; intros cur; cbn; [eauto|].
  destruct (b =? 0); [eauto|]. destruct (_ =? _)%nat; [eauto|]. apply IH.
Qed.
(** No delimiter inside, every byte a byte, and the worst-case overhead. *)
Lemma blocks_no_zero l cur : (length cur < 254)%nat -> is_bytes l -> is_bytes cur ->
  Forall (fun b => b ≠ 0) cur -> Forall (fun b => 0 < b < 256) (blocks l cur).
Proof.
  assert (Hcur : forall c, is_bytes c -> Forall (fun b => b ≠ 0) c -> Forall (fun b => 0 < b < 256) c).
  { intros c H1 H2. unfold is_bytes in H1. rewrite Forall_forall in *. intros x Hx. specialize (H1 x Hx). specialize (H2 x Hx).
    unfold is_u8 in H1. lia. }
  revert cur. induction l as [|b l IH]; intros cur Hc Hl H1 H2; cbn [blocks].
  { constructor; [lia|auto]. }
  apply Forall_cons in Hl as [Hb Hl]. destruct (Z.eqb_spec b 0) as [->|Hz].
  - constructor; [lia|]. apply Forall_app. split; [auto|]. apply IH; auto; [cbn; lia|constructor..].
  - destruct (Nat.eqb_spec (length cur + 1) 254).
    + constructor; [lia|]. apply Forall_app. split; [|apply IH; auto; [cbn; lia|constructor..]].
      apply Hcur; apply Forall_app; split; auto.
    + apply IH; auto; [rewrite length_app; cbn; lia| |]; apply Forall_app; split; auto.
Qed.
Lemma blocks_length l cur : (length cur < 254)%nat ->
  (length (blocks l cur) <= length cur + length l + 1 + (length cur + length l) / 254)%nat.
Proof.
  revert cur. induction l as [|b l IH]; intros cur Hc; cbn [blocks length].
  { pose proof (Nat.Div0.div_le_mono 0 (length cur + 0) 254). cbn in *. lia. }
  destruct (b =? 0).
  - cbn [length]. rewrite length_app. specialize (IH [] ltac:(cbn; lia)). cbn [length Nat.add] in IH.
    pose proof (Nat.Div0.div_le_mono (length l) (length cur + S (length l)) 254). lia.
  - destruct (Nat.eqb_spec (length cur + 1) 254) as [E|E].
    + cbn [length]. rewrite !length_app. cbn [length]. specialize (IH [] ltac:(cbn; lia)). cbn [length Nat.add] in IH.
      replace (length cur + S (length l))%nat with (length l + 1 * 254)%nat by lia.
      rewrite Nat.div_add by lia. lia.
    + specialize (IH (cur ++ [b])). rewrite length_app in IH. cbn [length] in IH. specialize (IH ltac:(lia)).
      replace (length cur + S (length l))%nat with (length cur + 1 + length l)%nat by lia. lia.
Qed.
Lemma decode_encoded fuel l cur w : (length cur < 254)%nat -> (length (blocks l cur) <= fuel)%nat ->
  decode_blocks fuel (blocks l cur) w = (w ++ cur ++ l, true).
Proof.
  revert fuel cur w. induction l as [|b l IH]; intros fuel cur w Hc Hf; cbn [blocks] in *.
  { destruct fuel as [|fuel]; [cbn in Hf; lia|]. cbn [decode_blocks].
    destruct (Z.eqb_spec (Z.of_nat (length cur + 1)) 0); [lia|].
    replace (Z.to_nat (Z.of_nat (length cur + 1) - 1)) with (length cur) by lia.
    rewrite Nat.ltb_irrefl, take_ge, drop_ge by lia. cbn [length]. rewrite andb_false_r, app_nil_r.
    destruct fuel; reflexivity. }
  destruct (Z.eqb_spec b 0) as [->|Hz]; [|destruct (Nat.eqb_spec (length cur + 1) 254) as [E|E]].
  - destruct fuel as [|fuel]; [cbn in Hf; lia|]. cbn [decode_blocks].
    destruct (Z.eqb_spec (Z.of_nat (length cur + 1)) 0); [lia|].
    replace (Z.to_nat (Z.of_nat (length cur + 1) - 1)) with (length cur) by lia.
    rewrite take_app_length, drop_app_length, length_app.
    destruct (Nat.ltb_spec (length cur + length (blocks l [])) (length cur)); [lia|].
    destruct (Z.eqb_spec (Z.of_nat (length cur + 1)) 255); [lia|].
    destruct (blocks_cons l []) as (c & r & Eb). cbn [negb andb].
    replace (0 <? length (blocks l []))%nat with true by (rewrite Eb; reflexivity).
    cbn [length] in Hf. rewrite length_app in Hf. rewrite IH by (cbn; lia).
    rewrite <- !app_assoc. reflexivity.
  - destruct fuel as [|fuel]; [cbn in Hf; lia|]. cbn [decode_blocks].
    change (255 =? 0) with false. change (Z.to_nat (255 - 1)) with 254%nat. cbn match.
    assert (E2 : length (cur ++ [b]) = 254%nat) by (rewrite length_app; cbn; lia).
    rewrite length_app, E2. destruct (Nat.ltb_spec (254 + length (blocks l [])) 254); [lia|].
    rewrite take_app_length', drop_app_length' by (symmetry; exact E2). change (255 =? 255) with true.
    cbn [negb andb]. cbn [length] in Hf. rewrite length_app in Hf. rewrite IH by (cbn; lia).
    rewrite <- !app_assoc. reflexivity.
  - rewrite IH by (rewrite ?length_app; cbn; lia || exact Hf). rewrite <- app_assoc. reflexivity.
Qed.

(** What the decoder writes is shorter than what it reads, even when it fails. *)
Lemma decode_written fuel input w : (length (decode_blocks fuel input w).1 <= length w + (length input - 1))%nat.
Proof.
  revert input w. induction fuel as [|fuel IH]; intros [|c input] w; cbn [decode_blocks]; try (cbn; lia).
  destruct (c =? 0); [cbn; lia|].
  destruct (Nat.ltb_spec (length input) (Z.to_nat (c - 1))); [cbn; rewrite length_app; lia|].
  etransitivity; [apply IH|]. rewrite length_drop. cbn [length].
  destruct (Nat.ltb_spec 0 (length input - Z.to_nat (c - 1))); destruct (c =? 255); cbn [negb andb];
    rewrite ?length_app, length_take; cbn [length]; lia.
Qed.
Lemma cobs_decode_written input : (length (cobs_decode input).1 <= length input - 1)%nat.
Proof. apply (decode_written (length input) input []). Qed.

Lemma encode_facts (l : list Z) : is_bytes l ->
  Forall (fun b => 0 < b < 256) (cobs_encode l) /\
  (length (cobs_encode l) <= length l + length l / 254 + 1)%nat /\
  cobs_decode (cobs_encode l) = (l, true).
Proof.
  intros Hl. unfold cobs_encode, cobs_decode. rewrite !encode_with_blocks.
  split_and!; [| |apply (decode_encoded _ l [] []); cbn; lia].
  - apply blocks_no_zero; auto; [cbn; lia|constructor..].
  - pose proof (blocks_length l [] ltac:(cbn; lia)). cbn [length Nat.add] in H. lia.
Qed.
Lemma encoders_agree l : cobs_encode l = CobsEncode l.
Proof. unfold cobs_encode, CobsEncode. rewrite !encode_with_blocks. reflexivity. Qed.

(** C12. Byte stuffing: for any bytes, what either encoder produces contains no
    zero, so the frame ends at its delimiter; it is at most one byte longer per
    254, plus one; and either decoder gives the bytes back. *)
Theorem cobs_roundtrip (l : list Z) : is_bytes l ->
  cobs_encode l = CobsEncode l /\
  Forall (fun b => 0 < b < 256) (cobs_encode l) /\
  (length (cobs_encode l) <= length l + length l / 254 + 1)%nat /\
  cobs_decode (cobs_encode l) = (l, true) /\ CobsDecode (CobsEncode l) = (l, true).
Proof.
  intros Hl. destruct (encode_facts l Hl) as (H1 & H2 & H3). rewrite <- encoders_agree. auto.
Qed.
Lemma cobs_witness : is_bytes [17; 0; 0; 34] /\ cobs_decode (cobs_encode [17; 0; 0; 34]) = ([17; 0; 0; 34], true).
Proof.
  assert (H : is_bytes [17; 0; 0; 34]) by (forall_list ltac:(cbv; split; congruence)).
  split; [exact H|]. apply (cobs_roundtrip [17; 0; 0; 34] H).
Defined.
Example cobs_frame : cobs_encode [17; 0; 0; 34] = [2; 17; 1; 2; 34].
Proof. reflexivity. Qed.
