(* ===== verification/YfCoverUi.v ===== *)
(** The YardForce cover UI: [drivers/ui/yf_cover_ui/yf_cover_ui.cpp].

    A panel with buttons, emergency sensors, a rain sensor and LEDs, on a UART.
    Its messages arrive through a circular DMA buffer that a thread drains; the
    same thread polls the panel for its version, notices when it does not answer
    and sends the LEDs. The panel's inputs belong to the input service, which
    the handlers call. The driver's state is split into what the reception
    writes ([reception]) and the rest; [None] is a write outside a buffer. *)
From S2P Require Import Prelude ServiceExt Crc Json Input InputConfig InputDrivers Leds Dma Cobs.

(* @ yf_cover_ui_protocol.hpp:26-30 YFCoverUIProtocol *)
Inductive YFCoverUIProtocol := UNCONFIGURED | OM | OEM.
#[export] Instance YFCoverUIProtocol_eq : EqDecision YFCoverUIProtocol.
Proof. solve_decision. Defined.
(* @ yf_cover_ui_protocol.hpp:34-42 YFCoverUIType *)
Definition Get_Version : Z := 0xB0.
(* @ yf_cover_ui_protocol.hpp:34-42 YFCoverUIType *)
Definition Set_LEDs : Z := 0xB2.
(* @ yf_cover_ui_protocol.hpp:34-42 YFCoverUIType *)
Definition Get_Button : Z := 0xB3.
(* @ yf_cover_ui_protocol.hpp:34-42 YFCoverUIType *)
Definition Get_Emergency : Z := 0xB4.
(* @ yf_cover_ui_protocol.hpp:34-42 YFCoverUIType *)
Definition Get_Rain : Z := 0xB5.
(* @ yf_cover_ui_protocol.hpp:34-42 YFCoverUIType *)
Definition Get_Subscribe : Z := 0xB6.
(** Sizes of the packed structs. *)
(* @ yf_cover_ui_protocol.hpp:101-106 msg_get_version *)
Definition sizeof_msg_get_version : nat := 1 + 1 + 2 + 2.
(* @ yf_cover_ui_protocol.hpp:134-139 msg_event_button *)
Definition sizeof_msg_event_button : nat := 1 + 2 + 1 + 2.
(* @ yf_cover_ui_protocol.hpp:141-145 msg_event_emergency *)
Definition sizeof_msg_event_emergency : nat := 1 + 1 + 2.
(* @ yf_cover_ui_protocol.hpp:147-153 msg_event_rain *)
Definition sizeof_msg_event_rain : nat := 1 + 1 + 4 + 4 + 2.
(* @ yf_cover_ui_protocol.hpp:155-160 msg_event_subscribe *)
Definition sizeof_msg_event_subscribe : nat := 1 + 1 + 2 + 2.

(* @ yf_cover_ui.hpp:53-62 YFCoverUIChannel *)
Definition BUTTON_FLAG : Z := 0x80.
(* @ yf_cover_ui.hpp YFCoverUIChannelIsButton *)
Definition YFCoverUIChannelIsButton (ch : Z) : bool := negb (Z.land ch 0x80 =? 0).
(* @ yf_cover_ui.hpp YFCoverUIChannelButtonId *)
Definition YFCoverUIChannelButtonId (ch : Z) : Z := Z.land ch 0x7F.
(* @ input_driver.hpp:24-28 YFCoverUIFlags *)
Definition YF_FLAG_HALL_MUX : Z := Z.shiftl 1 0.
(* @ input_driver.hpp:24-28 YFCoverUIFlags *)
Definition YF_FLAG_PROTOCOL : Z := Z.shiftl 1 1.

(* @ yf_cover_ui.hpp:162-163 RX_MAX_PKT_CODED *)
Definition RX_MAX_PKT_CODED : nat := sizeof_msg_event_rain + sizeof_msg_event_rain / 254 + 1.
(* @ yf_cover_ui.hpp:164-164 DMA_RX_BUFFER_SIZE *)
Definition DMA_RX_BUFFER_SIZE : nat := 2 * (RX_MAX_PKT_CODED + 1).
(* @ yf_cover_ui.hpp:169-169 RX_BUF_SIZE *)
Definition RX_BUF_SIZE : nat := 32.
(* @ yf_cover_ui.hpp:172-172 DECODE_BUF_SIZE *)
Definition DECODE_BUF_SIZE : nat := 24.
(* @ yf_cover_ui.hpp:177-177 TX_BUF_SIZE *)
Definition TX_BUF_SIZE : nat := 32.
(** ChibiOS' [TIME_MS2I] at the configured tick frequency. *)
(* @ cfg/chconf.h:79-81 CH_CFG_ST_FREQUENCY *)
Definition CH_CFG_ST_FREQUENCY : Z := 10000.
Definition TIME_MS2I (ms : Z) : Z := (ms * CH_CFG_ST_FREQUENCY + 999) / 1000.
(* @ yf_cover_ui.cpp:28-28 VERSION_POLL_MS *)
Definition VERSION_POLL_MS : Z := 5000.
(* @ yf_cover_ui.cpp:29-29 VERSION_TIMEOUT_MS *)
Definition VERSION_TIMEOUT_MS : Z := 250.
(* @ yf_cover_ui.hpp:154-154 PRESENCE_PROBE_MS *)
Definition PRESENCE_PROBE_MS : Z := 3000.

(** ** State *)
(* @ yf_cover_ui.hpp:129-170 YFCoverUI *)
Record YFCoverUI := mkUi {
  thread_ : bool; uart_ : bool;
  protocol_ : YFCoverUIProtocol; hall_mux_value_ : Z;
  ui_available_ : bool; ui_present_ : bool;
  emergency_state_ : Z; rain_detected_ : bool; ui_interval_ : Z;
  version_pending_ : bool; presence_determined_ : bool;
  rx_buf_ : list Z   (** its first [rx_len_] bytes *) }.
#[export] Instance eta_YFCoverUI : Eta YFCoverUI := fun u =>
  mkUi (thread_ u) (uart_ u) (protocol_ u) (hall_mux_value_ u) (ui_available_ u) (ui_present_ u)
    (emergency_state_ u) (rain_detected_ u) (ui_interval_ u) (version_pending_ u) (presence_determined_ u) (rx_buf_ u).
(* @ yf_cover_ui.hpp:129-170 YFCoverUI (initializers) *)
Definition initial_ui : YFCoverUI :=
  mkUi false false UNCONFIGURED 0 false false 0 false 1000 false false [].
(** [dma_rx_buffer_] and [rx_seen_len_], with the DMA's NDTR and the pending wrap event. *)
(* @ yf_cover_ui.hpp:165-166 YFCoverUI (reception) *)
Record reception := mkReception { dma_rx_buffer_ : list Z; ndtr : nat; wrapped : bool; rx_seen_len_ : nat }.
#[export] Instance eta_reception : Eta reception := fun r =>
  mkReception (dma_rx_buffer_ r) (ndtr r) (wrapped r) (rx_seen_len_ r).
(** The driver together with the input service it calls and its list there. *)
Record panel := mkPanel { ui : YFCoverUI; inputs : InputService; inputs_head_ : option nat }.
#[export] Instance eta_panel : Eta panel := fun p => mkPanel (ui p) (inputs p) (inputs_head_ p).

(** What the driver does to the UART and to the line of the multiplexer. *)
Inductive ui_event := Transmit (frame : list Z) | StopReceive | SetHallMux (v : Z).

(** ** Configuration *)
Definition yf_view (c : input_config) : Z * Z := match c with YfCoverUiConfig ch fl => (ch, fl) | _ => (0, 0) end.
Definition set_channel (ch : Z) (i : Input) : Input := i <| config ::= fun c => YfCoverUiConfig ch (yf_view c).2 |>.
Definition raise_flag (f : Z) (i : Input) : Input :=
  i <| config ::= fun c => YfCoverUiConfig (yf_view c).1 (Z.lor (yf_view c).2 f) |>.
(* @ yf_cover_ui.hpp:53-62 YFCoverUIChannel *)
Definition CHANNELS : list (string * Z) := [("latch", 0); ("stop1", 1); ("stop2", 2); ("lift", 3); ("liftx", 4)]%string.
(* @ yf_cover_ui.cpp YFCoverUI::OnInputConfigValue *)
Definition yf_OnInputConfigValue `{TA : ToArithmetic} (key : string) (j : jsp) (type : lwjson_stream_type_t) (inp : Input)
    (u : YFCoverUI) : bool * Input * YFCoverUI :=
  let ch := (yf_view (config inp)).1 in
  let flags := (yf_view (config inp)).2 in
  if String.eqb key "channel" then
    if negb (JsonExpectType STRING type) then (false, inp, u) else
    match snd <$> find (fun e => String.eqb e.1 (buff j)) CHANNELS with
    | Some c => (true, set_channel c inp, u)
    | None =>
      if String.eqb (buff j) "button" then (true, set_channel (Z.lor BUTTON_FLAG (Z.land ch 0x7F)) inp, u)
      else (false, inp, u)
    end
  else if String.eqb key "button_id" then
    match JsonGetNumber 8 j type with
    | Some button_id => (true, set_channel (Z.lor BUTTON_FLAG (Z.land button_id 0x7F)) inp, u)
    | None => (false, inp, u)
    end
  else if String.eqb key "id" then
    if negb (JsonExpectType STRING type) then (false, inp, u) else
    if String.eqb (buff j) "hall_mux" then (true, raise_flag YF_FLAG_HALL_MUX inp, u)
    else if String.eqb (buff j) "protocol" then (true, raise_flag YF_FLAG_PROTOCOL inp, u)
    else (false, inp, u)
  else if String.eqb key "value" then
    if negb (JsonExpectType STRING type) then (false, inp, u) else
    if has flags YF_FLAG_PROTOCOL then
      if String.eqb (buff j) "om" then (true, inp, u <| protocol_ := OM |>)
      else if String.eqb (buff j) "oem" then (true, inp, u <| protocol_ := OEM |>)
      else (false, inp, u)
    else if has flags YF_FLAG_HALL_MUX then
      if String.eqb (buff j) "om" then (true, inp, u <| hall_mux_value_ := 0 |>)
      else if String.eqb (buff j) "oem_idc" then (true, inp, u <| hall_mux_value_ := 1 |>)
      else (false, inp, u)
    else (false, inp, u)
  else (false, inp, u).
Definition YFCoverUIDriver `{TA : ToArithmetic} : driver YFCoverUI := Driver "yf_cover_ui" yf_OnInputConfigValue.
#[export] Instance yf_cover_ui_ok `{TA : ToArithmetic} : DriverOk YFCoverUIDriver.
Proof.
  intros key j type i u. unfold YFCoverUIDriver, yf_OnInputConfigValue. cbn [on_value].
  repeat first [split_if | case_match]; split; reflexivity.
Qed.

(** A channel is an emergency bit, so that shifting by it is defined, or a button. *)
Definition channel_ok (c : input_config) : Prop := 0 <= (yf_view c).1 < 5 \/ 128 <= (yf_view c).1 < 256.
Lemma button_channel x : 128 <= Z.lor BUTTON_FLAG (Z.land x 127) < 256.
Proof.
  change 127 with (Z.ones 7). rewrite Z.land_ones by lia. change BUTTON_FLAG with (Z.shiftl 1 7).
  pose proof (Z.mod_pos_bound x (2 ^ 7) ltac:(lia)). rewrite lor_hi by lia. change (2 ^ 7) with 128 in *. lia.
Qed.
Lemma channel_range `{TA : ToArithmetic} key j type i u :
  channel_ok (config i) -> channel_ok (config (yf_OnInputConfigValue key j type i u).1.2).
Proof.
  intros H. unfold yf_OnInputConfigValue. pose proof button_channel.
  repeat first [split_if | case_match eqn:Hc]; try exact H; try solve [right; cbn; auto].
  all: left; cbn; unfold CHANNELS in Hc; cbn [find fst] in Hc;
    repeat (split_if_in Hc; [injection Hc as <-; cbn; lia|]); discriminate Hc.
Qed.

(** [version]: of the carrier board, major and minor. *)
(* @ yf_cover_ui.cpp YFCoverUI::OnStart *)
Definition yf_OnStart (version : Z * Z) (u : YFCoverUI) : bool * list ui_event :=
  let is_pre_v120 := (version.1 <? 1) || ((version.1 =? 1) && (version.2 <? 2)) in
  if is_pre_v120 && negb (hall_mux_value_ u =? 0) then (false, []) else
  (true, (if bool_decide (protocol_ u <> OM) && uart_ u then [StopReceive] else []) ++
         (if is_pre_v120 then [] else [SetHallMux (hall_mux_value_ u)])).
(** [uart_given]: the port is not null; [started]: [uartStart] succeeded. Reception
    is armed from the start of the buffer. *)
(* @ yf_cover_ui.cpp YFCoverUI::Start *)
Definition yf_ui_Start (uart_given started : bool) (u : YFCoverUI) (r : reception) : YFCoverUI * reception :=
  if thread_ u then (u, r) else
  if negb uart_given then (u, r) else
  if negb started then (u <| uart_ := false |>, r) else
  (u <| uart_ := true |> <| thread_ := true |>,
   r <| rx_seen_len_ := 0%nat |> <| ndtr := DMA_RX_BUFFER_SIZE |>).

(** ** Messages received *)
Section Rx.
Context `{ER : EmergencyReasons} (clock : nat -> Z) (regs : input_regs).
(** [etl::crc16_ccitt] over the bytes. *)
Context (CalcCRC : list Z -> Z).

(** An emergency channel is below 8 ([channel_range]), so the shift is defined. *)
Definition emergency_input (v : Input) : bool :=
  negb (has (yf_view (config v)).2 (Z.lor YF_FLAG_HALL_MUX YF_FLAG_PROTOCOL)) &&
  negb (YFCoverUIChannelIsButton (yf_view (config v)).1).
(* @ yf_cover_ui.cpp YFCoverUI::UpdateEmergencyInputs *)
Definition UpdateEmergencyInputs (p : panel) : option panel :=
  let state := emergency_state_ (ui p) in
  s ← poll clock regs emergency_input (fun _ v => IS_BIT_SET state (yf_view (config v)).1) (inputs_head_ p) (inputs p);
  Some (p <| inputs := s |>).
(* @ yf_cover_ui.cpp YFCoverUI::HandleVersion *)
Definition HandleVersion (p : panel) : panel :=
  let p := p <| ui ::= fun u => u <| version_pending_ := false |> <| ui_available_ := true |> |> in
  if negb (ui_present_ (ui p)) then p <| ui ::= fun u => u <| ui_present_ := true |> <| presence_determined_ := true |> |>
  else p.
Definition button_input (btn_id : Z) (v : Input) : bool :=
  YFCoverUIChannelIsButton (yf_view (config v)).1 && (YFCoverUIChannelButtonId (yf_view (config v)).1 =? btn_id).
(* @ yf_cover_ui.cpp YFCoverUI::HandleButton *)
Definition HandleButton (button_id press_duration : Z) (p : panel) : option panel :=
  let btn_id := u8 (Z.land button_id 0x7F) in
  let long_press := 1 <=? press_duration in
  s ← for_inputs MAX_INPUTS (fun i v s => if button_input btn_id v then InjectPress clock regs s i long_press else Some s)
        (inputs_head_ p) (inputs p);
  Some (p <| inputs := s |>).
(* @ yf_cover_ui.cpp YFCoverUI::HandleEmergency *)
Definition HandleEmergency (state : Z) (p : panel) : option panel :=
  UpdateEmergencyInputs (p <| ui ::= fun u => u <| emergency_state_ := state |> |>).
(* @ yf_cover_ui.cpp YFCoverUI::HandleRain *)
Definition HandleRain (value threshold : Z) (p : panel) : panel :=
  p <| ui ::= fun u => u <| rain_detected_ := value <? threshold |> |>.
(* @ yf_cover_ui.cpp YFCoverUI::HandleSubscribe *)
Definition HandleSubscribe (interval : Z) (p : panel) : panel :=
  if (100 <=? interval) && (interval <=? 10000) then p <| ui ::= fun u => u <| ui_interval_ := interval |> |> else p.

(** The members of the packed struct are little-endian at their offsets. *)
(* @ yf_cover_ui.cpp:489-516 YFCoverUI::HandleMessage (switch) *)
Definition dispatch_message (buf : list Z) (p : panel) : option panel :=
  let len := length buf in
  let field off n := le_int (slice buf off n) in
  let type := nth 0 buf 0 in
  if type =? Get_Version then
    if (len =? sizeof_msg_get_version)%nat then Some (HandleVersion p) else Some p
  else if type =? Get_Button then
    if (len =? sizeof_msg_event_button)%nat then HandleButton (field 1%nat 2%nat) (field 3%nat 1%nat) p else Some p
  else if type =? Get_Emergency then
    if (len =? sizeof_msg_event_emergency)%nat then HandleEmergency (field 1%nat 1%nat) p else Some p
  else if type =? Get_Rain then
    if (len =? sizeof_msg_event_rain)%nat then Some (HandleRain (field 2%nat 4%nat) (field 6%nat 4%nat) p) else Some p
  else if type =? Get_Subscribe then
    if (len =? sizeof_msg_event_subscribe)%nat then Some (HandleSubscribe (field 2%nat 2%nat) p) else Some p
  else Some p.
(* @ yf_cover_ui.cpp YFCoverUI::HandleMessage *)
Definition HandleMessage (buf : list Z) (p : panel) : option panel :=
  let len := length buf in
  if (len <? 1)%nat then Some p else
  if (len <? 3)%nat then Some p else
  let received_crc := Z.lor (nth (len - 2) buf 0) (Z.shiftl (nth (len - 1) buf 0) 8) in
  let computed_crc := CalcCRC (take (len - 2) buf) in
  if negb (received_crc =? computed_crc) then Some p else dispatch_message buf p.

(** One byte; what [CobsDecode] writes must fit [decode_buf_]. *)
(* @ yf_cover_ui.cpp:450-471 YFCoverUI::ProcessRxBytes (loop body) *)
Definition ui_rx_byte (b : Z) (p : panel) : option panel :=
  if b =? 0 then
    if (0 <? length (rx_buf_ (ui p)))%nat then
      let (decoded, ok) := CobsDecode (rx_buf_ (ui p)) in
      if (DECODE_BUF_SIZE <? length decoded)%nat then None else
      p ← (if ok then HandleMessage decoded p else Some p);
      Some (p <| ui ::= fun u => u <| rx_buf_ := [] |> |>)
    else Some p
  else if (length (rx_buf_ (ui p)) <? RX_BUF_SIZE)%nat
  then Some (p <| ui ::= fun u => u <| rx_buf_ ::= fun l => l ++ [b] |> |>)
  else Some (p <| ui ::= fun u => u <| rx_buf_ := [] |> |>).
(* @ yf_cover_ui.cpp YFCoverUI::ProcessRxBytes *)
Fixpoint ui_ProcessRxBytes (data : list Z) (p : panel) : option panel :=
  match data with
  | [] => Some p
  | b :: data => p ← ui_rx_byte b p; ui_ProcessRxBytes data p
  end.

(** ** The thread's reception

    What the DMA does to the buffer while [data] arrive. *)
Definition ui_receive (data : list Z) (r : reception) : reception :=
  let '(buf, n, w) := dma_bytes DMA_RX_BUFFER_SIZE data (dma_rx_buffer_ r, ndtr r, wrapped r) in
  r <| dma_rx_buffer_ := buf |> <| ndtr := n |> <| wrapped := w |>.
(** One round: the events are taken, then [between] arrives, then NDTR is read. *)
(* @ yf_cover_ui.cpp:250-261 YFCoverUI::ThreadFunc (reception) *)
Definition ui_drain (between : list Z) (r : reception) (p : panel) : option (reception * panel) :=
  let evt := wrapped r in
  let r := r <| wrapped := false |> in
  '(r, p) ← (if evt then
      p ← ui_ProcessRxBytes (slice (dma_rx_buffer_ r) (rx_seen_len_ r) (DMA_RX_BUFFER_SIZE - rx_seen_len_ r)) p;
      Some (r <| rx_seen_len_ := 0%nat |>, p)
    else Some (r, p));
  let r := ui_receive between r in
  let ndtr_now := ndtr r in
  if (ndtr_now <=? DMA_RX_BUFFER_SIZE)%nat then
    let received_so_far := (DMA_RX_BUFFER_SIZE - ndtr_now)%nat in
    if (rx_seen_len_ r <? received_so_far)%nat then
      p ← ui_ProcessRxBytes (slice (dma_rx_buffer_ r) (rx_seen_len_ r) (received_so_far - rx_seen_len_ r)) p;
      Some (r <| rx_seen_len_ := received_so_far |>, p)
    else Some (r, p)
  else Some (r, p).

(** ** Messages sent *)
Definition append_crc (msg : list Z) : list Z := msg ++ le_bytes 2 (CalcCRC msg).
(* @ yf_cover_ui.cpp YFCoverUI::SendMessage *)
Definition SendMessage (msg : list Z) (p : panel) : list ui_event :=
  let size := length msg in
  if negb (uart_ (ui p)) then [] else
  if (TX_BUF_SIZE <? size + size / 254 + 2)%nat then [] else [Transmit (CobsEncode msg ++ [0])].
(* @ yf_cover_ui.cpp YFCoverUI::SendVersionRequest *)
Definition SendVersionRequest (p : panel) : list ui_event :=
  SendMessage (append_crc (Get_Version :: 0 :: le_bytes 2 0)) p.
(* @ yf_cover_ui.cpp YFCoverUI::SendLeds *)
Definition SendLeds `{HL : HighLevelStatuses} (v : ui_view) (p : panel) : option (list ui_event) :=
  leds ← BuildLedMessage v; Some (SendMessage (append_crc (Set_LEDs :: 0 :: le_bytes 8 leds)) p).

(** ** The thread *)
(** Its local variables, and the readings of the clock in one round (in ticks
    since the start; [systime_t] is their value modulo 2^32). *)
(* @ yf_cover_ui.cpp:226-232 YFCoverUI::ThreadFunc (locals) *)
Record timers := mkTimers { last_version_poll : Z; version_request : Z; last_led_update : Z; probe_start : Z }.
#[export] Instance eta_timers : Eta timers := fun t =>
  mkTimers (last_version_poll t) (version_request t) (last_led_update t) (probe_start t).
Record readings := mkTimes {
  at_probe : Z; at_timeout : Z; at_poll : Z; at_polled : Z; at_led : Z; at_leds_sent : Z }.
(* @ yf_cover_ui.cpp:226-232 YFCoverUI::ThreadFunc (locals) *)
Definition initial_timers (t0 t1 t2 : Z) : timers :=
  mkTimers (u32 (t0 - TIME_MS2I VERSION_POLL_MS)) 0 (u32 (t1 - TIME_MS2I 500)) (u32 t2).
Definition elapsed (now since : Z) : Z := u32 (u32 now - since).

(* @ yf_cover_ui.cpp:264-268 YFCoverUI::ThreadFunc (presence verdict) *)
Definition presence_verdict (now : readings) (tm : timers) (p : panel) : panel :=
  if negb (presence_determined_ (ui p)) && negb (ui_present_ (ui p)) &&
     (TIME_MS2I PRESENCE_PROBE_MS <=? elapsed (at_probe now) (probe_start tm))
  then p <| ui ::= fun u => u <| presence_determined_ := true |> |> else p.
(* @ yf_cover_ui.cpp:273-281 YFCoverUI::ThreadFunc (version timeout) *)
Definition version_timeout (now : readings) (tm : timers) (p : panel) : option panel :=
  if version_pending_ (ui p) && (TIME_MS2I VERSION_TIMEOUT_MS <=? elapsed (at_timeout now) (version_request tm)) then
    p ← (if ui_available_ (ui p) then
           UpdateEmergencyInputs (p <| ui ::= fun u => u <| ui_available_ := false |> <| emergency_state_ := 0 |> |>)
         else Some p);
    Some (p <| ui ::= fun u => u <| version_pending_ := false |> |>)
  else Some p.
(* @ yf_cover_ui.cpp:284-289 YFCoverUI::ThreadFunc (version poll) *)
Definition version_poll (now : readings) (tm : timers) (p : panel) : timers * panel * list ui_event :=
  if TIME_MS2I VERSION_POLL_MS <=? elapsed (at_poll now) (last_version_poll tm) then
    (tm <| last_version_poll := u32 (at_polled now) |> <| version_request := u32 (at_polled now) |>,
     p <| ui ::= fun u => u <| version_pending_ := true |> |>, SendVersionRequest p)
  else (tm, p, []).
(* @ yf_cover_ui.cpp:292-295 YFCoverUI::ThreadFunc (LED update) *)
Definition led_update `{HL : HighLevelStatuses} (now : readings) (v : ui_view) (tm : timers) (p : panel) :
    option (timers * list ui_event) :=
  if TIME_MS2I (ui_interval_ (ui p)) <=? elapsed (at_led now) (last_led_update tm) then
    leds ← SendLeds v p; Some (tm <| last_led_update := u32 (at_leds_sent now) |>, leds)
  else Some (tm, []).
(** Everything after the reception. *)
(* @ yf_cover_ui.cpp:263-295 YFCoverUI::ThreadFunc (timers) *)
Definition ui_timers `{HL : HighLevelStatuses} (now : readings) (v : ui_view) (tm : timers) (p : panel) :
    option (timers * panel * list ui_event) :=
  p ← version_timeout now tm (presence_verdict now tm p);
  let '(tm, p, polled) := version_poll now tm p in
  '(tm, leds) ← led_update now v tm p;
  Some (tm, p, polled ++ leds).

(** A round and its surroundings: what arrives before the wait ends and before
    NDTR is read, the clock, and what the other services report. *)
Record round := mkRound { before : list Z; between : list Z; times : readings; view : ui_view }.
(* @ yf_cover_ui.cpp YFCoverUI::ThreadFunc *)
Definition ui_round `{HL : HighLevelStatuses} (x : round) (st : reception * timers * panel) :
    option (reception * timers * panel * list ui_event) :=
  let '(r, tm, p) := st in
  let r := ui_receive (before x) r in
  if bool_decide (protocol_ (ui p) <> OM) then Some (ui_receive (between x) r, tm, p, []) else
  '(r, p) ← ui_drain (between x) r p;
  '(tm, p, o) ← ui_timers (times x) (view x) tm p;
  Some (r, tm, p, o).
Fixpoint ui_rounds `{HL : HighLevelStatuses} (l : list round) (st : reception * timers * panel) :
    option (reception * timers * panel * list ui_event) :=
  match l with
  | [] => Some (st, [])
  | x :: l => '(st, o) ← ui_round x st; '(st, o') ← ui_rounds l st; Some (st, o ++ o')
  end.
End Rx.

(** ** The reception loses nothing *)
Section Reception.
Context `{ER : EmergencyReasons} (clock : nat -> Z) (regs : input_regs) (CalcCRC : list Z -> Z).
Abbreviation ui_ProcessRxBytes := (ui_ProcessRxBytes clock regs CalcCRC).
Abbreviation ui_drain := (ui_drain clock regs CalcCRC).

Lemma ui_rx_app a b p : ui_ProcessRxBytes (a ++ b) p = p ← ui_ProcessRxBytes a p; ui_ProcessRxBytes b p.
Proof.
  revert p. induction a as [|x a IH]; intros p; [reflexivity|]. cbn [app YfCoverUi.ui_ProcessRxBytes].
  destruct (ui_rx_byte _ _ _ x p); [apply IH|reflexivity].
Qed.
(** The bytes [d] are received and not yet processed. *)
Definition unread (d : list Z) (r : reception) : Prop :=
  pending DMA_RX_BUFFER_SIZE d (rx_seen_len_ r) (dma_rx_buffer_ r, ndtr r, wrapped r).
Lemma receive_unread data d r : unread d r -> (length d + length data < DMA_RX_BUFFER_SIZE)%nat ->
  unread (d ++ data) (ui_receive data r).
Proof.
  intros H Hl. unfold unread, ui_receive in *. apply (dma_bytes_pending _ data) in H; [|exact Hl].
  destruct (dma_bytes _ _ _) as [[buf n] w]. exact H.
Qed.
Lemma receive_seen data r : rx_seen_len_ (ui_receive data r) = rx_seen_len_ r.
Proof. unfold ui_receive. destruct (dma_bytes _ _ _) as [[buf n] w]. reflexivity. Qed.

(** Taking the wrap event: the bytes up to the end of the buffer come first. *)
Lemma event_taken d r : unread d r -> let r1 := r <| wrapped := false |> in
  if wrapped r then exists rest,
    d = slice (dma_rx_buffer_ r) (rx_seen_len_ r) (DMA_RX_BUFFER_SIZE - rx_seen_len_ r) ++ rest /\
    unread rest (r1 <| rx_seen_len_ := 0%nat |>)
  else unread d r1.
Proof.
  destruct r as [buf n w seen]. unfold unread. intros H. cbn in *. destruct w; [|exact H].
  destruct H as [Hb Hn Hl Hs (Hr & ->)]. cbn [fst snd] in *. eexists. split; [reflexivity|].
  split; cbn [fst snd]; try lia; rewrite ?length_slice by lia; [lia|].
  split; [lia|]. rewrite Nat.sub_0_r. reflexivity.
Qed.
(** Without one, everything unread lies between the two positions. *)
Lemma no_event d r : unread d r -> wrapped r = false ->
  (rx_seen_len_ r <= DMA_RX_BUFFER_SIZE - ndtr r)%nat /\ (ndtr r <= DMA_RX_BUFFER_SIZE)%nat /\
  d = slice (dma_rx_buffer_ r) (rx_seen_len_ r) (DMA_RX_BUFFER_SIZE - ndtr r - rx_seen_len_ r) /\
  unread [] (r <| rx_seen_len_ := (DMA_RX_BUFFER_SIZE - ndtr r)%nat |>).
Proof.
  destruct r as [buf n w seen]. unfold unread. cbn. intros [Hb Hn Hl Hs H] ->. cbn [fst snd] in *.
  destruct H as [Hr ->]. split; [exact Hr|]. split; [lia|]. split; [reflexivity|]. apply caught_up_pending; assumption.
Qed.
(** Reading NDTR and what lies before it. *)
Definition read_ndtr (r : reception) (p : panel) : option (reception * panel) :=
  let ndtr_now := ndtr r in
  if (ndtr_now <=? DMA_RX_BUFFER_SIZE)%nat then
    let received_so_far := (DMA_RX_BUFFER_SIZE - ndtr_now)%nat in
    if (rx_seen_len_ r <? received_so_far)%nat then
      p ← ui_ProcessRxBytes (slice (dma_rx_buffer_ r) (rx_seen_len_ r) (received_so_far - rx_seen_len_ r)) p;
      Some (r <| rx_seen_len_ := received_so_far |>, p)
    else Some (r, p)
  else Some (r, p).
Lemma read_ndtr_unread d r : unread d r -> exists done rest r', d = done ++ rest /\ unread rest r' /\
  (rest = [] \/ (rest = d /\ done = [] /\ wrapped r = true /\ wrapped r' = true)) /\
  forall p, read_ndtr r p = (fun p => (r', p)) <$> ui_ProcessRxBytes done p.
Proof.
  intros H. destruct (wrapped r) eqn:Ew.
  - exists [], d, r. split; [reflexivity|]. split; [exact H|]. split; [right; auto|]. intros p.
    destruct H as [Hb Hn Hl Hs H]. cbn [fst snd] in *. rewrite Ew in H. unfold read_ndtr.
    destruct (Nat.leb_spec (ndtr r) DMA_RX_BUFFER_SIZE); [|lia].
    destruct (Nat.ltb_spec (rx_seen_len_ r) (DMA_RX_BUFFER_SIZE - ndtr r)); [lia|reflexivity].
  - destruct (no_event d r H Ew) as (Hr & Hn & -> & H'). eexists _, [], _. split; [symmetry; apply app_nil_r|].
    split; [exact H'|]. split; [auto|]. intros p. unfold read_ndtr.
    destruct (Nat.leb_spec (ndtr r) DMA_RX_BUFFER_SIZE); [|lia].
    destruct (Nat.ltb_spec (rx_seen_len_ r) (DMA_RX_BUFFER_SIZE - ndtr r)) as [Hlt|Hge].
    + destruct (ui_ProcessRxBytes _ p); reflexivity.
    + replace (DMA_RX_BUFFER_SIZE - ndtr r - rx_seen_len_ r)%nat with 0%nat by lia. unfold slice. rewrite take_0.
      replace (DMA_RX_BUFFER_SIZE - ndtr r)%nat with (rx_seen_len_ r) by lia.
      change (Some (r, p) = Some (r <| rx_seen_len_ := rx_seen_len_ r |>, p)). destruct r; reflexivity.
Qed.
Lemma receive_wrapped data r : wrapped (ui_receive data r) = true -> wrapped r = false -> data <> [].
Proof. intros H H' ->. unfold ui_receive in H. cbn in H. congruence. Qed.
Lemma unread_start d r : unread d r -> wrapped r = true -> rx_seen_len_ r <> 0%nat.
Proof. intros [_ _ _ _ H] E. cbn [fst snd] in *. rewrite E in H. lia. Qed.

(** One round processes, in order, everything that had arrived, or leaves a
    suffix because the buffer went round between the wait and the reading. *)
Lemma ui_drain_unread d between r : unread d r -> (length d + length between < DMA_RX_BUFFER_SIZE)%nat ->
  exists done rest r', d ++ between = done ++ rest /\ unread rest r' /\
    (rest = [] \/ (wrapped r = false /\ between <> [] /\ wrapped r' = true)) /\
    forall p, ui_drain between r p = (fun p => (r', p)) <$> ui_ProcessRxBytes done p.
Proof.
  intros H Hl. pose proof (event_taken d r H) as Ht. cbv zeta in Ht. unfold YfCoverUi.ui_drain.
  destruct (wrapped r) eqn:Ew.
  - destruct Ht as (rest1 & -> & H1). rewrite length_app in Hl.
    set (r1 := r <| wrapped := false |> <| rx_seen_len_ := 0%nat |>) in *.
    pose proof (receive_unread between rest1 r1 H1 ltac:(lia)) as H2.
    destruct (read_ndtr_unread _ _ H2) as (done & rest & r' & E & H3 & Hd & Hp).
    exists (slice (dma_rx_buffer_ r) (rx_seen_len_ r) (DMA_RX_BUFFER_SIZE - rx_seen_len_ r) ++ done), rest, r'.
    split; [rewrite <- !app_assoc, <- E; reflexivity|]. split; [exact H3|].
    split; [left; destruct Hd as [|(_ & _ & Hw & _)]; [assumption|]|].
    { exfalso. apply (unread_start _ _ H2 Hw). exact (receive_seen between r1). }
    intros p. rewrite ui_rx_app. change (dma_rx_buffer_ (r <| wrapped := false |>)) with (dma_rx_buffer_ r).
    change (rx_seen_len_ (r <| wrapped := false |>)) with (rx_seen_len_ r).
    destruct (ui_ProcessRxBytes _ p) as [p1|]; [|reflexivity]. cbn [mbind option_bind]. apply Hp.
  - pose proof (receive_unread between d _ Ht Hl) as H2.
    destruct (read_ndtr_unread _ _ H2) as (done & rest & r' & E & H3 & Hd & Hp).
    exists done, rest, r'. split; [exact E|]. split; [exact H3|]. split; [|intros p; apply Hp].
    destruct Hd as [|(_ & _ & Hw & Hw')]; [auto|right]. split; [reflexivity|]. split; [|exact Hw'].
    exact (receive_wrapped _ _ Hw eq_refl).
Qed.

(** Rounds: what arrives before each wait and before each reading of NDTR. *)
Fixpoint ui_drains (l : list (list Z * list Z)) (r : reception) (p : panel) : option (reception * panel) :=
  match l with
  | [] => Some (r, p)
  | (b, c) :: l => '(r, p) ← ui_drain c (ui_receive b r) p; ui_drains l r p
  end.
Definition received (l : list (list Z * list Z)) : list Z := concat (map (fun x => x.1 ++ x.2) l).
(** Less than a buffer arrives in any two consecutive rounds. *)
Fixpoint keeps_up (prev : nat) (l : list (list Z * list Z)) : Prop :=
  match l with
  | [] => True
  | x :: l => (prev + length (x.1 ++ x.2) < DMA_RX_BUFFER_SIZE)%nat /\ keeps_up (length (x.1 ++ x.2)) l
  end.
Lemma receive_wrap data r : wrapped r = true -> wrapped (ui_receive data r) = true.
Proof.
  intros H. unfold ui_receive. pose proof (dma_bytes_wrap DMA_RX_BUFFER_SIZE data (dma_rx_buffer_ r, ndtr r, wrapped r) H) as E.
  destruct (dma_bytes _ _ _) as [[buf n] w]. exact E.
Qed.
Lemma ui_drains_unread l : forall prev d r, unread d r -> (length d <= prev)%nat -> d = [] \/ wrapped r = true ->
  keeps_up prev l -> exists done rest r', d ++ received l = done ++ rest /\ unread rest r' /\
    (rest = [] \/ wrapped r' = true) /\ (forall l' b, l = l' ++ [(b, [])] -> rest = []) /\
    forall p, ui_drains l r p = (fun p => (r', p)) <$> ui_ProcessRxBytes done p.
Proof.
  induction l as [|[b c] l IH]; intros prev d r H Hd Hw Hk.
  - exists [], d, r. unfold received. cbn. rewrite app_nil_r. split; [reflexivity|]. split; [exact H|]. split; [exact Hw|].
    split; [|reflexivity]. intros l' b E. destruct l'; discriminate E.
  - destruct Hk as [Hlen Hk]. cbn [fst snd] in Hlen, Hk. rewrite length_app in Hlen.
    pose proof (receive_unread b d r H ltac:(lia)) as H1.
    destruct (ui_drain_unread (d ++ b) c (ui_receive b r) H1 ltac:(rewrite length_app; lia))
      as (done1 & rest1 & r1 & E1 & H2 & Hr1 & P1).
    assert (Hl1 : (length rest1 <= length (b ++ c))%nat).
    { destruct Hr1 as [->|(Hf & _)]; [cbn; lia|]. destruct Hw as [->|Hw]; [|rewrite receive_wrap in Hf by exact Hw; discriminate].
      apply (f_equal length) in E1. rewrite !length_app in E1. cbn in E1. rewrite length_app. lia. }
    assert (Hw1 : rest1 = [] \/ wrapped r1 = true) by (destruct Hr1 as [|(_ & _ & ?)]; auto).
    destruct (IH _ rest1 r1 H2 Hl1 Hw1 Hk) as (done2 & rest2 & r2 & E2 & H3 & Hr2 & Hq & P2).
    exists (done1 ++ done2), rest2, r2. split.
    { change (received ((b, c) :: l)) with ((b ++ c) ++ received l). rewrite <- (app_assoc done1), <- E2, !app_assoc, E1. reflexivity. }
    split; [exact H3|]. split; [exact Hr2|]. split.
    + intros l' b' E. destruct l' as [|x l']; [|injection E as _ E; exact (Hq _ _ E)].
      injection E as _ Ec El. subst c l. unfold received in E2. cbn in E2. destruct Hr1 as [->|(_ & Hne & _)]; [|congruence].
      symmetry in E2. apply app_eq_nil in E2 as [_ ->]. reflexivity.
    + intros p. cbn [ui_drains]. rewrite P1, ui_rx_app. destruct (ui_ProcessRxBytes done1 p) as [p1|]; [|reflexivity].
      cbn [fmap option_fmap option_map mbind option_bind]. apply P2.
Qed.
(** From a thread that is up to date, rounds of which the last is quiet at the
    reading of NDTR process what was received, byte by byte. *)
Lemma ui_drains_lossless l b r : unread [] r -> keeps_up 0 (l ++ [(b, [])]) -> exists r', unread [] r' /\
  forall p, ui_drains (l ++ [(b, [])]) r p = (fun p => (r', p)) <$> ui_ProcessRxBytes (received (l ++ [(b, [])])) p.
Proof.
  intros H Hk. destruct (ui_drains_unread _ 0 [] r H (le_n 0) (or_introl eq_refl) Hk) as (done & rest & r' & E & H' & _ & Hq & P).
  rewrite (Hq l b eq_refl) in E, H'. rewrite app_nil_r in E. cbn [app] in E. rewrite E. eauto.
Qed.
End Reception.

(** ** Messages and their effects *)
Section Messages.
Context `{ER : EmergencyReasons} (clock : nat -> Z) (regs : input_regs) (CalcCRC : list Z -> Z).
Context (CalcCRC_u16 : forall l, is_u16 (CalcCRC l)).
Abbreviation ui_rx_byte := (ui_rx_byte clock regs CalcCRC).
Abbreviation ui_ProcessRxBytes := (ui_ProcessRxBytes clock regs CalcCRC).
Abbreviation HandleMessage := (HandleMessage clock regs CalcCRC).

Inductive message :=
  | Version (reserved version : Z)
  | Button (button_id press_duration : Z)
  | Emergency (state : Z)
  | Rain (reserved value threshold : Z)
  | Subscribe (topic_bitmask interval : Z).
(** A message as the panel sends it, without and with its checksum and framing. *)
Definition message_body (m : message) : list Z :=
  match m with
  | Version r v => Get_Version :: le_bytes 1 r ++ le_bytes 2 v
  | Button b d => Get_Button :: le_bytes 2 b ++ le_bytes 1 d
  | Emergency s => Get_Emergency :: le_bytes 1 s
  | Rain r v t => Get_Rain :: le_bytes 1 r ++ le_bytes 4 v ++ le_bytes 4 t
  | Subscribe t i => Get_Subscribe :: le_bytes 1 t ++ le_bytes 2 i
  end.
Definition message_frame (m : message) : list Z := CobsEncode (append_crc CalcCRC (message_body m)) ++ [0].
Definition message_ok (m : message) : Prop :=
  match m with
  | Version r v => is_u8 r /\ is_u16 v
  | Button b d => is_u16 b /\ is_u8 d
  | Emergency s => is_u8 s
  | Rain r v t => is_u8 r /\ is_u32 v /\ is_u32 t
  | Subscribe t i => is_u8 t /\ is_u16 i
  end.

(** What the input service guarantees of the driver's list [l]. *)
Record panel_ok (l : list nat) (p : panel) : Prop := {
  panel_counters : counters_ok (inputs p);
  panel_inputs : Inputs MAX_INPUTS (all_inputs_ (inputs p)) (inputs_head_ p) = Some l;
  panel_real : Forall (real (inputs p)) l }.
Lemma panel_ok_ui l p u : panel_ok l p -> panel_ok l (p <| ui := u |>).
Proof. intros [H1 H2 H3]. split; assumption. Qed.

(** The effect each message is meant to have. *)
Definition pressed (_ : nat) (v w : Input) : Prop :=
  active w = invert v /\ (emergency_pending v = true -> emergency_pending w = true).
Definition emergency_level (state : Z) (_ : nat) (v : Input) : bool := IS_BIT_SET state (yf_view (config v)).1.
Definition handled (l : list nat) (m : message) (p p' : panel) : Prop :=
  inputs_head_ p' = inputs_head_ p /\
  match m with
  | Version _ _ => inputs p' = inputs p /\
    ui p' = (ui p) <| version_pending_ := false |> <| ui_available_ := true |> <| ui_present_ := true |>
      <| presence_determined_ ::= fun d => d || negb (ui_present_ (ui p)) |>
  | Button b _ => ui p' = ui p /\
    touched (fun i v w => if button_input (b mod 128) v then pressed i v w else w = v) l (inputs p) (inputs p')
  | Emergency s => ui p' = (ui p) <| emergency_state_ := s |> /\
    follows emergency_input (emergency_level s) l (inputs p) (inputs p')
  | Rain _ v t => inputs p' = inputs p /\ ui p' = (ui p) <| rain_detected_ := v <? t |>
  | Subscribe _ i => inputs p' = inputs p /\
    ui p' = (ui p) <| ui_interval_ ::= fun old => if (100 <=? i) && (i <=? 10000) then i else old |>
  end.

Lemma UpdateEmergencyInputs_ok l p : panel_ok l p -> exists s',
  UpdateEmergencyInputs clock regs p = Some (p <| inputs := s' |>) /\ panel_ok l (p <| inputs := s' |>) /\
  follows emergency_input (emergency_level (emergency_state_ (ui p))) l (inputs p) s'.
Proof.
  intros [K I R]. unfold UpdateEmergencyInputs.
  destruct (poll_touches clock regs emergency_input (emergency_level (emergency_state_ (ui p))) _ _ _ K I R)
    as (s' & E & K' & I' & R' & F). exists s'. unfold emergency_level in E. rewrite E.
  split; [reflexivity|]. split; [split; assumption|exact F].
Qed.
Lemma InjectPress_touches (long_press : bool) :
  touches pressed (fun i v s => InjectPress clock regs s i long_press).
Proof.
  intros i v s K Hv Hn. unfold InjectPress, update_input.
  destruct (Update_ok clock regs 0 s i v true (GetPressDelay regs long_press) K Hv Hn) as (s1 & E1 & K1 & H1).
  set (v1 := updated clock s v true _) in *. assert (S1 : static v1 = static v) by apply updated_static.
  destruct (Update_ok clock regs 0 s1 i v1 false 0 K1 H1) as (s2 & E2 & K2 & H2); [rewrite (static_virtual v v1 S1); exact Hn|].
  exists s2. rewrite E1. cbn [mbind option_bind]. rewrite E2. split; [reflexivity|]. split; [exact K2|].
  split; [rewrite (Update_fixed _ _ _ _ _ _ _ _ _ E2); exact (Update_fixed _ _ _ _ _ _ _ _ _ E1)|].
  apply (touched_one _ i v (updated clock s1 v1 false 0) s s2 Hv H2); [rewrite updated_static; exact S1| |].
  - split; [rewrite updated_active; unfold static in S1; injection S1 as _ -> _ _ _; apply xorb_false_r|].
    intros Hp. subst v1. unfold updated. repeat split_if; cbn in *; rewrite ?Hp, ?orb_true_r; reflexivity.
  - intros j u Hj Hu Hun.
    apply (Update_others _ _ _ _ _ _ _ _ _ j u E2 K1 Hj); [|exact Hun].
    exact (Update_others _ _ _ _ _ _ _ _ _ j u E1 K Hj Hu Hun).
Qed.
Lemma HandleButton_ok b d l p : panel_ok l p -> exists s',
  HandleButton clock regs b d p = Some (p <| inputs := s' |>) /\ panel_ok l (p <| inputs := s' |>) /\
  touched (fun i v w => if button_input (b mod 128) v then pressed i v w else w = v) l (inputs p) s'.
Proof.
  intros [K I R]. unfold HandleButton. assert (E0 : u8 (Z.land b 127) = b mod 128).
  { change 127 with (Z.ones 7). rewrite Z.land_ones by lia. change (2 ^ 7) with 128. width. }
  rewrite E0.
  destruct (for_inputs_list clock _ _ _ l _ (touches_if _ _ (button_input (b mod 128)) (InjectPress_touches (1 <=? d))) K I R)
    as (s' & E & K' & I' & R' & T). exists s'. rewrite E. split; [reflexivity|]. split; [split; assumption|exact T].
Qed.

Lemma HandleVersion_ok l p : panel_ok l p -> panel_ok l (HandleVersion p) /\ forall r v, handled l (Version r v) p (HandleVersion p).
Proof.
  intros H. unfold HandleVersion. destruct (ui_present_ (ui p)) eqn:E; cbn [negb ui ui_present_ update eta eta_panel eta_YFCoverUI];
    rewrite E; (split; [apply panel_ok_ui, panel_ok_ui, H || apply panel_ok_ui, H|]); intros r v; (split; [reflexivity|split; [reflexivity|]]);
    cbn; rewrite E, ?orb_false_r, ?orb_true_r; reflexivity.
Qed.
Lemma HandleSubscribe_ok i l p : panel_ok l p -> panel_ok l (HandleSubscribe i p) /\ forall t, handled l (Subscribe t i) p (HandleSubscribe i p).
Proof.
  intros H. unfold HandleSubscribe, handled.
  destruct ((100 <=? i) && (i <=? 10000)); (split; [apply panel_ok_ui, H || exact H|]); intros t; (split; [reflexivity|split; [reflexivity|]]);
    cbn; destruct (ui p); reflexivity.
Qed.
Lemma HandleEmergency_ok s l p : panel_ok l p -> exists p', HandleEmergency clock regs s p = Some p' /\ panel_ok l p' /\
  handled l (Emergency s) p p'.
Proof.
  intros H. destruct (UpdateEmergencyInputs_ok l (p <| ui ::= fun u => u <| emergency_state_ := s |> |>)) as (s' & E & K & F);
    [apply panel_ok_ui, H|]. unfold HandleEmergency. rewrite E. eexists. split; [reflexivity|]. split; [exact K|].
  split; [reflexivity|]. split; [reflexivity|exact F].
Qed.
(** Any bytes leave the driver's list and the input service in order. *)
Lemma HandleMessage_ok buf l p : panel_ok l p -> exists p', HandleMessage buf p = Some p' /\ panel_ok l p'.
Proof.
  intros H. unfold YfCoverUi.HandleMessage, dispatch_message. repeat split_if; try (exists p; split; [reflexivity|exact H]).
  - eexists. split; [reflexivity|]. apply HandleVersion_ok, H.
  - destruct (HandleButton_ok (le_int (slice buf 1 2)) (le_int (slice buf 3 1)) l p H) as (s' & E' & K & _). eauto.
  - destruct (HandleEmergency_ok (le_int (slice buf 1 1)) l p H) as (p' & E' & K & _). eauto.
  - eexists. split; [reflexivity|]. apply panel_ok_ui, H.
  - eexists. split; [reflexivity|]. apply HandleSubscribe_ok, H.
Qed.
Lemma ui_rx_byte_ok b l p p' : panel_ok l p -> ui_rx_byte b p = Some p' -> panel_ok l p'.
Proof.
  intros H. unfold YfCoverUi.ui_rx_byte. destruct (b =? 0); [|split_if; intros [= <-]; apply panel_ok_ui, H].
  split_if; [|intros [= <-]; exact H]. destruct (CobsDecode _) as [d ok]. split_if; [discriminate|].
  destruct ok; [destruct (HandleMessage_ok d l p H) as (q & -> & K)|]; cbn [mbind option_bind]; intros [= <-]; apply panel_ok_ui; assumption.
Qed.
Lemma ui_rx_ok data l p p' : panel_ok l p -> ui_ProcessRxBytes data p = Some p' -> panel_ok l p'.
Proof.
  revert p. induction data as [|b data IH]; intros p H; [intros [= <-]; exact H|]. cbn [YfCoverUi.ui_ProcessRxBytes].
  destruct (ui_rx_byte b p) as [q|] eqn:E; [|discriminate]. cbn [mbind option_bind]. apply IH. exact (ui_rx_byte_ok b l p q H E).
Qed.

(** A packet that carries its own checksum is accepted. *)
Lemma HandleMessage_crc body p : body <> [] -> HandleMessage (append_crc CalcCRC body) p = dispatch_message clock regs (append_crc CalcCRC body) p.
Proof.
  intros Hb. unfold YfCoverUi.HandleMessage, append_crc. rewrite length_app, length_le_bytes.
  destruct body as [|x body]; [congruence|]. set (l := x :: body). assert (1 <= length l)%nat by (cbn; lia).
  destruct (Nat.ltb_spec (length l + 2) 1); [lia|]. destruct (Nat.ltb_spec (length l + 2) 3); [lia|].
  rewrite Nat.add_sub, take_app_length. replace (length l + 2 - 1)%nat with (length l + 1)%nat by lia.
  rewrite !app_nth2, Nat.sub_diag by lia. replace (length l + 1 - length l)%nat with 1%nat by lia.
  cbn [nth le_bytes]. rewrite Z.lor_comm, lor_hi by (try apply u8_range; lia).
  pose proof (CalcCRC_u16 l) as Hc. unfold is_u16 in Hc.
  replace (u8 (CalcCRC l / 256) * 2 ^ 8 + u8 (CalcCRC l)) with (CalcCRC l) by (change (2 ^ 8) with 256; width).
  rewrite Z.eqb_refl. reflexivity.
Qed.
Lemma le_int_small n z : 0 <= z < 256 ^ Z.of_nat n -> le_int (le_bytes n z) = z.
Proof. intros H. rewrite le_int_bytes. apply Z.mod_small. exact H. Qed.
Lemma message_handled m l p : message_ok m -> panel_ok l p -> exists p',
  HandleMessage (append_crc CalcCRC (message_body m)) p = Some p' /\ panel_ok l p' /\ handled l m p p'.
Proof.
  intros Hm H. rewrite HandleMessage_crc by (destruct m; discriminate).
  destruct m as [r v|b d|s|r v t|t i]; cbn [message_ok] in Hm; unfold is_u8, is_u16, is_u32 in Hm.
  - destruct (HandleVersion_ok l p H) as [K E]. eexists. split; [reflexivity|]. eauto.
  - destruct (HandleButton_ok b d l p H) as (s' & E & K & T). eexists.
    split; [|split; [exact K|split; [reflexivity|split; [reflexivity|exact T]]]].
    transitivity (HandleButton clock regs (le_int (le_bytes 2 b)) (le_int (le_bytes 1 d)) p); [reflexivity|].
    rewrite !le_int_small by (cbn; lia). exact E.
  - destruct (HandleEmergency_ok s l p H) as (p' & E & K & T). eexists. split; [|eauto].
    transitivity (HandleEmergency clock regs (le_int (le_bytes 1 s)) p); [reflexivity|].
    rewrite le_int_small by (cbn; lia). exact E.
  - exists (HandleRain v t p). split; [|split; [apply panel_ok_ui, H|split; [reflexivity|split; reflexivity]]].
    transitivity (Some (HandleRain (le_int (le_bytes 4 v)) (le_int (le_bytes 4 t)) p)); [reflexivity|].
    rewrite !le_int_small by (cbn; lia). reflexivity.
  - destruct (HandleSubscribe_ok i l p H) as [K T]. exists (HandleSubscribe i p). split; [|eauto].
    transitivity (Some (HandleSubscribe (le_int (le_bytes 2 i)) p)); [reflexivity|].
    rewrite le_int_small by (cbn; lia). reflexivity.
Qed.

(** A frame from an empty buffer is one message. *)
Definition with_rx (l : list Z) (p : panel) : panel := p <| ui ::= fun u => u <| rx_buf_ := l |> |>.
Lemma with_rx_same p : rx_buf_ (ui p) = [] -> with_rx [] p = p.
Proof. intros H. destruct p as [u i h]. destruct u. cbn in *. subst. reflexivity. Qed.
Lemma handled_rx l m p p' c c' : handled l m (with_rx c p) p' -> handled l m (with_rx c' p) (with_rx c' p').
Proof.
  unfold handled. intros [Hh H]. split; [exact Hh|].
  destruct m; destruct H as [H1 H2]; split; try exact H1; try exact H2; cbn [with_rx ui update eta eta_panel]; first [rewrite H2|rewrite H1]; reflexivity.
Qed.
Lemma ui_rx_block l p : Forall (fun b => 0 < b < 256) l -> (length (rx_buf_ (ui p)) + length l <= RX_BUF_SIZE)%nat ->
  ui_ProcessRxBytes l p = Some (with_rx (rx_buf_ (ui p) ++ l) p).
Proof.
  intros H. revert p. induction H as [|b l Hb Hl IH]; intros p Hlen; cbn [YfCoverUi.ui_ProcessRxBytes length] in *.
  - destruct p as [u i h]. destruct u. cbn. rewrite app_nil_r. reflexivity.
  - unfold YfCoverUi.ui_rx_byte. destruct (Z.eqb_spec b 0); [lia|].
    destruct (Nat.ltb_spec (length (rx_buf_ (ui p))) RX_BUF_SIZE); [|lia]. cbn [mbind option_bind].
    rewrite IH by (cbn [ui rx_buf_ update eta eta_panel eta_YFCoverUI]; rewrite length_app; cbn [length]; lia).
    cbn. rewrite <- app_assoc. reflexivity.
Qed.
Lemma ui_rx_frame packet p : is_bytes packet -> (1 <= length packet <= DECODE_BUF_SIZE)%nat -> rx_buf_ (ui p) = [] ->
  ui_ProcessRxBytes (CobsEncode packet ++ [0]) p = with_rx [] <$> HandleMessage packet (with_rx (CobsEncode packet) p).
Proof.
  intros Hp Hl Hs. destruct (encode_facts packet Hp) as (Hz & Hlen & Hdec). rewrite encoders_agree in *.
  change DECODE_BUF_SIZE with 24%nat in *. rewrite (Nat.div_small (length packet)) in Hlen by lia.
  rewrite ui_rx_app, ui_rx_block; [|exact Hz|rewrite Hs; cbn [length]; change RX_BUF_SIZE with 32%nat; lia].
  cbn [mbind option_bind YfCoverUi.ui_ProcessRxBytes]. rewrite Hs. cbn [app]. unfold YfCoverUi.ui_rx_byte. cbn [Z.eqb].
  change (rx_buf_ (ui (with_rx (CobsEncode packet) p))) with (CobsEncode packet).
  change (CobsDecode (CobsEncode packet)) with (cobs_decode (CobsEncode packet)). rewrite Hdec.
  destruct (Nat.ltb_spec 0 (length (CobsEncode packet))) as [_|H0].
  2:{ destruct (blocks_cons packet []) as (c & r & E). unfold CobsEncode in H0. rewrite encode_with_blocks, E in H0. cbn in H0. lia. }
  destruct (Nat.ltb_spec DECODE_BUF_SIZE (length packet)); [change DECODE_BUF_SIZE with 24%nat in *; lia|].
  destruct (HandleMessage packet _); reflexivity.
Qed.
(** After a delimiter the buffer is empty. *)
Lemma ui_rx_delimiter p p' : ui_rx_byte 0 p = Some p' -> rx_buf_ (ui p') = [].
Proof.
  unfold YfCoverUi.ui_rx_byte. cbn [Z.eqb]. destruct (Nat.ltb_spec 0 (length (rx_buf_ (ui p)))).
  - destruct (CobsDecode _) as [d ok]. split_if; [discriminate|].
    destruct (if ok then _ else _); [|discriminate]. intros [= <-]. reflexivity.
  - intros [= <-]. destruct (rx_buf_ (ui p)); [reflexivity|cbn in *; lia].
Qed.
Lemma message_bytes m : is_bytes (append_crc CalcCRC (message_body m)) /\
  (1 <= length (append_crc CalcCRC (message_body m)) <= DECODE_BUF_SIZE)%nat.
Proof.
  assert (T : forall c l, is_u8 c -> is_bytes l -> is_bytes (c :: l)) by (intros; constructor; assumption).
  unfold append_crc. split.
  - apply is_bytes_app; [|apply le_bytes_is_bytes].
    destruct m; (apply T; [vm_compute; split; congruence|repeat apply is_bytes_app; apply le_bytes_is_bytes]).
  - change DECODE_BUF_SIZE with 24%nat. destruct m; cbn [message_body]; cbn [app length]; rewrite !length_app, ?length_le_bytes; lia.
Qed.
Lemma ui_rx_message m l p : message_ok m -> panel_ok l p -> rx_buf_ (ui p) = [] -> exists p',
  ui_ProcessRxBytes (message_frame m) p = Some p' /\ panel_ok l p' /\ handled l m p p'.
Proof.
  intros Hm H Hs. destruct (message_bytes m) as [Hb Hl].
  destruct (message_handled m l (with_rx (CobsEncode (append_crc CalcCRC (message_body m))) p) Hm ltac:(apply panel_ok_ui, H))
    as (p' & E & K & T). exists (with_rx [] p'). split; [|split; [apply panel_ok_ui, K|]].
  - unfold message_frame. rewrite ui_rx_frame by assumption. rewrite E. reflexivity.
  - rewrite <- (with_rx_same p Hs) at 1. eapply handled_rx, T.
Qed.

(** Messages get through the interrupt, the circular buffer and the thread:
    let any bytes and then a message's frame arrive, cut between rounds and between
    a round's wait and its reading of NDTR in any way that leaves less than a
    buffer in two consecutive rounds. The thread processes exactly those bytes:
    it overruns the decoding buffer exactly when the earlier bytes do, and otherwise the
    message has its effect - on the panel's state, and for emergencies and
    buttons on the inputs of the driver's list and on no other one. *)
Theorem panel_message_received (noise : list Z) (m : message) (l : list nat) (p : panel) (r : reception)
    (rounds : list (list Z * list Z)) (last : list Z) :
  message_ok m -> panel_ok l p -> unread [] r -> keeps_up 0 (rounds ++ [(last, [])]) ->
  received (rounds ++ [(last, [])]) = noise ++ [0] ++ message_frame m ->
  match ui_ProcessRxBytes (noise ++ [0]) p with
  | None => ui_drains clock regs CalcCRC (rounds ++ [(last, [])]) r p = None
  | Some p1 => exists r' p2, ui_drains clock regs CalcCRC (rounds ++ [(last, [])]) r p = Some (r', p2) /\
      unread [] r' /\ panel_ok l p2 /\ handled l m p1 p2
  end.
Proof.
  intros Hm H Hr Hk E. destruct (ui_drains_lossless clock regs CalcCRC rounds last r Hr Hk) as (r' & Hr' & P).
  rewrite P, E, app_assoc, (ui_rx_app clock regs CalcCRC (noise ++ [0]) (message_frame m) p). destruct (ui_ProcessRxBytes (noise ++ [0]) p) as [p1|] eqn:E1; [|reflexivity].
  cbn [mbind option_bind]. pose proof (ui_rx_ok _ l p p1 H E1) as H1.
  assert (Hs : rx_buf_ (ui p1) = []).
  { rewrite ui_rx_app in E1. destruct (ui_ProcessRxBytes noise p) as [p0|]; [|discriminate]. cbn [mbind option_bind] in E1.
    cbn [YfCoverUi.ui_ProcessRxBytes] in E1. destruct (ui_rx_byte 0 p0) as [q|] eqn:E0; [|discriminate].
    injection E1 as <-. exact (ui_rx_delimiter _ _ E0). }
  destruct (ui_rx_message m l p1 Hm H1 Hs) as (p2 & -> & K & T). exists r', p2. auto.
Qed.
End Messages.

(** ** A panel that stops answering *)
Section Watchdog.
Context `{ER : EmergencyReasons} `{HL : HighLevelStatuses} (clock : nat -> Z) (regs : input_regs) (CalcCRC : list Z -> Z).
Abbreviation ui_timers := (ui_timers clock regs CalcCRC).
Abbreviation ui_round := (ui_round clock regs CalcCRC).
Abbreviation ui_rounds := (ui_rounds clock regs CalcCRC).

Abbreviation POLL := (TIME_MS2I VERSION_POLL_MS).
Abbreviation TIMEOUT := (TIME_MS2I VERSION_TIMEOUT_MS).
(** Nothing was lost: the panel was unavailable already, or its emergencies are withdrawn now. *)
Definition withdrawn (l : list nat) (p p' : panel) : Prop :=
  if ui_available_ (ui p) then emergency_state_ (ui p') = 0 /\ follows emergency_input (fun _ _ => false) l (inputs p) (inputs p')
  else inputs p' = inputs p /\ emergency_state_ (ui p') = emergency_state_ (ui p).

Definition times_out (now : readings) (tm : timers) (p : panel) : bool :=
  version_pending_ (ui p) && (TIMEOUT <=? elapsed (at_timeout now) (version_request tm)).
Definition polls (now : readings) (tm : timers) : bool := POLL <=? elapsed (at_poll now) (last_version_poll tm).

(** The part of a round after the presence verdict and the timeout. *)
Lemma follows_0 l s s' : follows emergency_input (emergency_level 0) l s s' -> follows emergency_input (fun _ _ => false) l s s'.
Proof.
  intros H i v Hv Hn. destruct (H i v Hv Hn) as (w & Hw & S & A). exists w. split; [exact Hw|]. split; [exact S|].
  unfold emergency_level, IS_BIT_SET in A. rewrite Z.land_0_l in A. exact A.
Qed.
Lemma presence_same now tm p : let p' := presence_verdict now tm p in
  inputs p' = inputs p /\ inputs_head_ p' = inputs_head_ p /\ protocol_ (ui p') = protocol_ (ui p) /\
  ui_available_ (ui p') = ui_available_ (ui p) /\ version_pending_ (ui p') = version_pending_ (ui p) /\
  emergency_state_ (ui p') = emergency_state_ (ui p).
Proof. unfold presence_verdict. split_if; cbn; auto 10. Qed.
Lemma version_timeout_ok now tm l p : panel_ok l p -> exists p',
  version_timeout clock regs now tm p = Some p' /\ panel_ok l p' /\ protocol_ (ui p') = protocol_ (ui p) /\
  ui_available_ (ui p') = ui_available_ (ui p) && negb (times_out now tm p) /\
  version_pending_ (ui p') = version_pending_ (ui p) && negb (times_out now tm p) /\
  if times_out now tm p then withdrawn l p p' else p' = p.
Proof.
  intros H. unfold version_timeout. fold (times_out now tm p). destruct (times_out now tm p) eqn:Et.
  2:{ exists p. rewrite !andb_true_r. auto 10. }
  unfold withdrawn. destruct (ui_available_ (ui p)) eqn:Ea.
  - destruct (UpdateEmergencyInputs_ok clock regs l
      (p <| ui ::= fun u => u <| ui_available_ := false |> <| emergency_state_ := 0 |> |>) (panel_ok_ui _ _ _ H)) as (s' & E & K & F).
    rewrite E. eexists. split; [reflexivity|]. split; [apply panel_ok_ui, K|]. split; [reflexivity|].
    split; [reflexivity|]. split; [cbn; rewrite andb_false_r; reflexivity|]. split; [reflexivity|exact (follows_0 _ _ _ F)].
  - eexists. split; [reflexivity|]. split; [apply panel_ok_ui, H|]. split; [reflexivity|].
    split; [cbn; rewrite Ea; reflexivity|]. split; [cbn; rewrite andb_false_r; reflexivity|]. split; reflexivity.
Qed.
(** What a round without messages does. *)
Lemma ui_timers_watch now v tm l p : panel_ok l p -> BuildLedMessage v <> None ->
  exists tm' p' o, ui_timers now v tm p = Some (tm', p', o) /\ panel_ok l p' /\
    protocol_ (ui p') = protocol_ (ui p) /\
    ui_available_ (ui p') = ui_available_ (ui p) && negb (times_out now tm p) /\
    version_pending_ (ui p') = (version_pending_ (ui p) && negb (times_out now tm p)) || polls now tm /\
    (if polls now tm then last_version_poll tm' = u32 (at_polled now) /\ version_request tm' = u32 (at_polled now)
     else last_version_poll tm' = last_version_poll tm /\ version_request tm' = version_request tm) /\
    if times_out now tm p then withdrawn l p p' else inputs p' = inputs p /\ emergency_state_ (ui p') = emergency_state_ (ui p).
Proof.
  intros H Hv. unfold YfCoverUi.ui_timers. pose proof (presence_same now tm p) as Hs. cbv zeta in Hs.
  set (p0 := presence_verdict now tm p) in *. destruct Hs as (I0 & H0 & P0 & A0 & V0 & M0).
  assert (K0 : panel_ok l p0) by (destruct H as [H1 H2 H3]; split; [rewrite I0|rewrite I0, H0|rewrite I0]; assumption).
  assert (T0 : times_out now tm p0 = times_out now tm p) by (unfold times_out; rewrite V0; reflexivity).
  destruct (version_timeout_ok now tm l p0 K0) as (p1 & E1 & K1 & P1 & A1 & V1 & W1). rewrite E1. cbn [mbind option_bind].
  rewrite T0, A0 in A1. rewrite T0, V0 in V1. rewrite P0 in P1.
  assert (W : if times_out now tm p then withdrawn l p p1 else inputs p1 = inputs p /\ emergency_state_ (ui p1) = emergency_state_ (ui p)).
  { rewrite T0 in W1. destruct (times_out now tm p); [unfold withdrawn in *; rewrite A0, I0, M0 in W1; exact W1|subst p1; auto]. }
  assert (L : forall tm1 q, exists tm' leds, led_update CalcCRC now v tm1 q = Some (tm', leds) /\
    last_version_poll tm' = last_version_poll tm1 /\ version_request tm' = version_request tm1).
  { intros tm1 q. unfold led_update, SendLeds. split_if; [|eauto]. destruct (BuildLedMessage v) as [leds|]; [|congruence].
    cbn. eauto. }
  unfold version_poll. fold (polls now tm). destruct (polls now tm).
  - destruct (L (tm <| last_version_poll := u32 (at_polled now) |> <| version_request := u32 (at_polled now) |>)
      (p1 <| ui ::= fun u => u <| version_pending_ := true |> |>)) as (tm' & leds & E & L1 & L2). rewrite E.
    do 3 eexists. split; [reflexivity|]. split; [apply panel_ok_ui, K1|]. split; [exact P1|]. split; [exact A1|].
    split; [rewrite orb_true_r; reflexivity|]. split; [auto|exact W].
  - destruct (L tm p1) as (tm' & leds & E & L1 & L2). rewrite E. do 3 eexists. split; [reflexivity|].
    split; [exact K1|]. split; [exact P1|]. split; [exact A1|]. split; [rewrite orb_false_r; exact V1|]. auto.
Qed.

(** A round in which nothing arrives, and whose LEDs can be shown. *)
Definition silent (x : round) : Prop := before x = [] /\ between x = [] /\ BuildLedMessage (view x) <> None.
Lemma receive_nothing r : ui_receive [] r = r.
Proof. destruct r. reflexivity. Qed.
Lemma silent_drain r p : unread [] r -> exists r', ui_drain clock regs CalcCRC [] r p = Some (r', p) /\ unread [] r'.
Proof.
  intros H. destruct (ui_drain_unread clock regs CalcCRC [] [] r H ltac:(change DMA_RX_BUFFER_SIZE with 28%nat; cbn; lia))
    as (done & rest & r' & E & H' & _ & P).
  symmetry in E. apply app_eq_nil in E as [-> ->]. exists r'. rewrite P. auto.
Qed.
Lemma silent_round x r tm l p : silent x -> unread [] r -> panel_ok l p -> protocol_ (ui p) = OM ->
  exists r' tm' p' o, ui_round x (r, tm, p) = Some (r', tm', p', o) /\ unread [] r' /\ ui_timers (times x) (view x) tm p = Some (tm', p', o).
Proof.
  intros (E1 & E2 & Hv) Hr H Hp. unfold YfCoverUi.ui_round. rewrite E1, E2. cbv beta iota zeta. rewrite !receive_nothing.
  rewrite bool_decide_false by (rewrite Hp; auto). destruct (silent_drain r p Hr) as (r' & E & Hr'). rewrite E.
  destruct (ui_timers_watch (times x) (view x) tm l p H Hv) as (tm' & p' & o & Et & _). cbn [mbind option_bind].
  rewrite Et. eauto 10.
Qed.

(** [rs] are rounds from time [t] to time [T], none longer than [G]; within a
    round the clock is read in order. *)
Fixpoint paced (G t : Z) (rs : list round) (T : Z) : Prop :=
  match rs with
  | [] => t = T
  | x :: rs => exists t', t <= at_timeout (times x) <= at_poll (times x) /\ at_poll (times x) <= at_polled (times x) <= t' /\
      t' <= t + G /\ paced G t' rs T
  end.
(** The end of silent rounds: the panel is marked unavailable. *)
Definition ends_down (l : list nat) (rs : list round) (r : reception) (tm : timers) (p : panel) : Prop :=
  exists r' tm' p' o, ui_rounds rs (r, tm, p) = Some (r', tm', p', o) /\
    ui_available_ (ui p') = false /\ panel_ok l p' /\ withdrawn l p p'.

Lemma withdrawn_then l p p1 p' : withdrawn l p p1 -> inputs p' = inputs p1 -> emergency_state_ (ui p') = emergency_state_ (ui p1) ->
  withdrawn l p p'.
Proof. unfold withdrawn. intros H -> ->. exact H. Qed.
Lemma ends_down_step l x rs r tm p : silent x -> unread [] r -> panel_ok l p -> protocol_ (ui p) = OM ->
  (forall r1 tm1 p1, unread [] r1 -> panel_ok l p1 -> protocol_ (ui p1) = OM ->
    ui_available_ (ui p1) = ui_available_ (ui p) && negb (times_out (times x) tm p) ->
    version_pending_ (ui p1) = (version_pending_ (ui p) && negb (times_out (times x) tm p)) || polls (times x) tm ->
    (if polls (times x) tm then last_version_poll tm1 = u32 (at_polled (times x)) /\ version_request tm1 = u32 (at_polled (times x))
     else last_version_poll tm1 = last_version_poll tm /\ version_request tm1 = version_request tm) ->
    ends_down l rs r1 tm1 p1) -> ends_down l (x :: rs) r tm p.
Proof.
  intros Hx Hr H Hp IH. destruct (silent_round x r tm l p Hx Hr H Hp) as (r1 & tm1 & p1 & o1 & E1 & Hr1 & Et).
  destruct (ui_timers_watch (times x) (view x) tm l p H (proj2 (proj2 Hx))) as (tm2 & p2 & o2 & Et' & K1 & P1 & A1 & V1 & L1 & W1).
  rewrite Et in Et'. injection Et' as <- <- <-.
  destruct (IH r1 tm1 p1 Hr1 K1 (eq_trans P1 Hp) A1 V1 L1) as (r' & tm' & p' & o & E & D & K & W).
  exists r', tm', p', (o1 ++ o). split; [cbn [YfCoverUi.ui_rounds]; rewrite E1; cbn [mbind option_bind]; rewrite E; reflexivity|].
  split; [exact D|]. split; [exact K|]. unfold withdrawn in W |- *. rewrite A1 in W.
  destruct (times_out (times x) tm p); cbn [negb] in W.
  - rewrite andb_false_r in W. destruct W as [-> ->]. exact W1.
  - destruct W1 as [I1 M1]. rewrite andb_true_r, I1, M1 in W. exact W.
Qed.
(** Once down, it stays down without a message. *)
Lemma stays_down rs : forall r tm l p, Forall silent rs -> unread [] r -> panel_ok l p -> protocol_ (ui p) = OM ->
  ui_available_ (ui p) = false -> ends_down l rs r tm p.
Proof.
  induction rs as [|x rs IH]; intros r tm l p Hs Hr H Hp Ha.
  - exists r, tm, p, []. split; [reflexivity|]. unfold withdrawn. rewrite Ha. auto.
  - apply Forall_cons in Hs as [Hx Hs]. apply ends_down_step; auto.
    intros r1 tm1 p1 Hr1 K1 P1 A1 _ _. rewrite Ha in A1. auto.
Qed.
Lemma elapsed_since now P : P <= now < P + 2 ^ 32 -> elapsed now (u32 P) = now - P.
Proof. intros H. unfold elapsed. change (2 ^ 32) with 4294967296 in H. width. Qed.
(** A poll sent at [P] and not answered. *)
Lemma unanswered G T rs : forall t P r tm l p, 0 < G -> G + TIMEOUT <= POLL -> Forall silent rs -> unread [] r -> panel_ok l p ->
  protocol_ (ui p) = OM -> version_pending_ (ui p) = true -> last_version_poll tm = u32 P -> version_request tm = u32 P ->
  P <= t < P + POLL + G -> t < P + TIMEOUT + G \/ t < T -> P + TIMEOUT + G <= T -> paced G t rs T -> ends_down l rs r tm p.
Proof.
  change TIMEOUT with 2500. change POLL with 50000.
  induction rs as [|x rs IH]; intros t P r tm l p HG HGP Hs Hr H Hp Hv HP HR Ht Hinv HT Hpace; [cbn in Hpace; lia|].
  destruct Hpace as (t' & (Ht1 & Ht2) & (Ht3 & Ht4) & Ht5 & Hpace). apply Forall_cons in Hs as [Hx Hs].
  apply ends_down_step; auto. intros r1 tm1 p1 Hr1 K1 P1 A1 V1 L1.
  assert (Et : times_out (times x) tm p = (2500 <=? at_timeout (times x) - P)).
  { unfold times_out. rewrite Hv, HR, elapsed_since by lia. reflexivity. }
  rewrite Et in A1, V1. destruct (Z.leb_spec 2500 (at_timeout (times x) - P)).
  - cbn [negb] in A1. rewrite andb_false_r in A1. apply stays_down; auto.
  - rewrite Hv in V1. unfold polls in L1. rewrite HP, elapsed_since in L1 by lia. change POLL with 50000 in L1.
    destruct (Z.leb_spec 50000 (at_poll (times x) - P)); [lia|]. destruct L1 as [L1 L2]. rewrite HR in L2.
    apply (IH t' P); auto; lia.
Qed.
(** Until the next poll. *)
Lemma unpolled G T rs : forall t P r tm l p, 0 < G -> G + TIMEOUT <= POLL -> Forall silent rs -> unread [] r -> panel_ok l p ->
  protocol_ (ui p) = OM -> version_pending_ (ui p) = false -> last_version_poll tm = u32 P ->
  P <= t < P + POLL + G -> P + POLL + TIMEOUT + 3 * G <= T -> paced G t rs T -> ends_down l rs r tm p.
Proof.
  change TIMEOUT with 2500. change POLL with 50000.
  induction rs as [|x rs IH]; intros t P r tm l p HG HGP Hs Hr H Hp Hv HP Ht HT Hpace; [cbn in Hpace; lia|].
  destruct Hpace as (t' & (Ht1 & Ht2) & (Ht3 & Ht4) & Ht5 & Hpace). apply Forall_cons in Hs as [Hx Hs].
  apply ends_down_step; auto. intros r1 tm1 p1 Hr1 K1 P1 A1 V1 L1.
  unfold polls in V1, L1. rewrite HP, elapsed_since in V1, L1 by lia. change POLL with 50000 in V1, L1. rewrite Hv in V1. cbn [andb orb] in V1.
  destruct (Z.leb_spec 50000 (at_poll (times x) - P)).
  - destruct L1 as [L1 L2]. apply (unanswered G T rs t' (at_polled (times x))); auto; change TIMEOUT with 2500; change POLL with 50000; lia.
  - destruct L1 as [L1 _]. apply (IH t' P); auto; lia.
Qed.

(** C17. A panel that has gone silent is noticed, with the OpenMower protocol: if no byte arrives and none is unread,
    the thread's rounds take at most [G] ticks each (with the timeout no more than the poll interval), the last
    request for the version is no older than that, and the rounds go on for a poll interval, a
    timeout and three rounds, then at their end the panel is marked unavailable;
    if it was available its emergency state is cleared and the driver's emergency inputs
    have been updated to it, once, while every other input is untouched. *)
Theorem silent_panel_goes_down (G t T P : Z) (rs : list round) (r : reception) (tm : timers) (l : list nat) (p : panel) :
  0 < G -> G + TIME_MS2I VERSION_TIMEOUT_MS <= TIME_MS2I VERSION_POLL_MS ->
  Forall silent rs -> paced G t rs T -> unread [] r -> panel_ok l p -> protocol_ (ui p) = OM ->
  last_version_poll tm = u32 P -> P <= t < P + TIME_MS2I VERSION_POLL_MS + G ->
  (version_pending_ (ui p) = true -> version_request tm = last_version_poll tm) ->
  t + TIME_MS2I VERSION_POLL_MS + TIME_MS2I VERSION_TIMEOUT_MS + 3 * G <= T ->
  exists r' tm' p' o, ui_rounds rs (r, tm, p) = Some (r', tm', p', o) /\
    ui_available_ (ui p') = false /\ panel_ok l p' /\ withdrawn l p p'.
Proof.
  intros HG HGP Hs Hpace Hr H Hp HP Ht HR HT. destruct (version_pending_ (ui p)) eqn:Ev.
  - apply (unanswered G T rs t P); auto; [rewrite HR; auto|..]; change TIMEOUT with 2500 in *; change POLL with 50000 in *; lia.
  - apply (unpolled G T rs t P); auto; lia.
Qed.
End Watchdog.

Module YfCoverUiDemo.
Import Demo DriversDemo.
#[local] Existing Instance demo_reasons.
#[local] Existing Instance LedsDemo.statuses.
(** The inputs 2 to 5: the latch, the lift sensor, button 5 and a setup entry. *)
Definition stocked : InputService :=
  linked <| all_inputs_ ::= imap (fun i v => v <| config :=
    nth i [NoConfig; NoConfig; YfCoverUiConfig 0 0; YfCoverUiConfig 3 0; YfCoverUiConfig 0x85 0; YfCoverUiConfig 0 YF_FLAG_PROTOCOL] NoConfig |>) |>.
Lemma stocked_ok : counters_ok stocked.
Proof.
  split; try reflexivity; try (cbn; lia); try discriminate.
  - intros g [<-|[<-|[<-|[<-|[]]]]]; reflexivity.
  - intros i v H. do 6 (destruct i as [|i]; [injection H as <-; cbn; tauto|]). discriminate H.
  - exists 0%nat. eexists. repeat split.
  - exists 1%nat. eexists. repeat split.
Qed.
Definition demo_panel : panel :=
  mkPanel (initial_ui <| uart_ := true |> <| thread_ := true |> <| protocol_ := OM |> <| ui_available_ := true |>) stocked (Some 2%nat).
Definition demo_reception : reception := mkReception (replicate DMA_RX_BUFFER_SIZE 0) DMA_RX_BUFFER_SIZE false 0.
Lemma demo_panel_ok : panel_ok [2; 3; 4; 5]%nat demo_panel.
Proof.
  split; [exact stocked_ok|vm_compute; reflexivity|].
  forall_list ltac:(eexists; split; [vm_compute; reflexivity|vm_compute; reflexivity]).
Qed.
Lemma demo_unread : unread [] demo_reception.
Proof.
  change (pending DMA_RX_BUFFER_SIZE [] (DMA_RX_BUFFER_SIZE - DMA_RX_BUFFER_SIZE) (replicate DMA_RX_BUFFER_SIZE 0, DMA_RX_BUFFER_SIZE, false)).
  apply caught_up_pending; [reflexivity|]. change DMA_RX_BUFFER_SIZE with 28%nat. lia.
Qed.
Abbreviation crc := crc16_ccitt_false.
(** Two stray bytes, then a lifted wheel; cut in three. *)
Definition demo_rounds : list (list Z * list Z) := [([9; 9; 0], [5]); (drop 1 (take 4 (message_frame crc (Emergency 8))), [])].
Definition demo_last : list Z := drop 4 (message_frame crc (Emergency 8)).
Lemma panel_witness :
  match ui_ProcessRxBytes clock regs crc ([9; 9] ++ [0]) demo_panel with
  | None => ui_drains clock regs crc (demo_rounds ++ [(demo_last, [])]) demo_reception demo_panel = None
  | Some p1 => exists r' p2,
      ui_drains clock regs crc (demo_rounds ++ [(demo_last, [])]) demo_reception demo_panel = Some (r', p2) /\
      unread [] r' /\ panel_ok [2; 3; 4; 5]%nat p2 /\ handled [2; 3; 4; 5]%nat (Emergency 8) p1 p2
  end.
Proof.
  assert (M : message_ok (Emergency 8)) by (cbv; split; congruence).
  assert (K : keeps_up 0 (demo_rounds ++ [(demo_last, [])]))
    by (change DMA_RX_BUFFER_SIZE with 28%nat; vm_compute; repeat split; lia).
  assert (E : received (demo_rounds ++ [(demo_last, [])]) = [9; 9] ++ [0] ++ message_frame crc (Emergency 8)) by (vm_compute; reflexivity).
  exact (panel_message_received clock regs crc crc16_ccitt_u16 [9; 9] (Emergency 8) [2; 3; 4; 5]%nat demo_panel demo_reception
    demo_rounds demo_last M demo_panel_ok demo_unread K E).
Defined.
(** The lift sensor has become active; the setup entry is left as it was. *)
Example lifted_demo :
  option_map (fun '(r, p) => (emergency_state_ (ui p), map active (all_inputs_ (inputs p))))
    (ui_drains clock regs crc (demo_rounds ++ [(demo_last, [])]) demo_reception demo_panel)
  = Some (8, [false; false; false; true; false; active (nth 5 (all_inputs_ stocked) new_input)]).
Proof. vm_compute. reflexivity. Qed.
(** A frame of 26 bytes fits [rx_buf_], but its 25 bytes do not fit [decode_buf_]. *)
Example long_frame_overruns : ui_ProcessRxBytes clock regs crc (26 :: replicate 25 1 ++ [0]) demo_panel = None.
Proof. vm_compute. reflexivity. Qed.
(** A frame one byte shorter is decoded. *)
Example short_frame_is_decoded : ui_ProcessRxBytes clock regs crc (25 :: replicate 24 1 ++ [0]) demo_panel <> None.
Proof. vm_compute. discriminate. Qed.

(** Rounds of 100 ms from time 0, in which nothing arrives. *)
Definition quiet (k : nat) : round :=
  let now := 1000 * Z.of_nat k + 500 in mkRound [] [] (mkTimes now now now now now now) LedsDemo.mowing.
Lemma quiet_paced n : forall k, paced 1000 (1000 * Z.of_nat k) (map quiet (seq k n)) (1000 * Z.of_nat (k + n)).
Proof.
  induction n as [|n IH]; intros k; cbn [seq map paced]; [f_equal; lia|].
  exists (1000 * Z.of_nat (S k)). cbn [quiet times at_timeout at_poll at_polled]. split; [lia|]. split; [lia|]. split; [lia|].
  replace (k + S n)%nat with (S k + n)%nat by lia. apply IH.
Qed.
Lemma quiet_silent l : Forall silent (map quiet l).
Proof.
  apply Forall_map, Forall_true. intros k. split; [reflexivity|]. split; [reflexivity|]. cbn [quiet view].
  vm_compute. discriminate.
Qed.
Lemma silent_witness : exists r' tm' p' o,
  ui_rounds clock regs crc (map quiet (seq 0 60)) (demo_reception, initial_timers 0 0 0, demo_panel) = Some (r', tm', p', o) /\
  ui_available_ (ui p') = false /\ panel_ok [2; 3; 4; 5]%nat p' /\ withdrawn [2; 3; 4; 5]%nat demo_panel p'.
Proof.
  apply (silent_panel_goes_down clock regs crc 1000 0 60000 (-50000));
    [lia|vm_compute; congruence|apply quiet_silent|exact (quiet_paced 60 0)|exact demo_unread|exact demo_panel_ok|reflexivity|
     reflexivity|vm_compute; split; congruence|discriminate|vm_compute; congruence].
Defined.
End YfCoverUiDemo.
