(* ===== verification/Yfr4.v ===== *)
(** The YardForce R4 motor controller: [drivers/motor/yfr4esc/YFR4escDriver.cpp].

    Packets with a CRC, byte-stuffed, over a UART whose reception is a circular
    DMA buffer that a thread drains. What the driver sends, notifies and outputs
    in raw mode is a list of events. [cobs_rx_buffer_] is the list of the bytes
    stored in it; [None] is a write outside a buffer. *)
From S2P Require Import Prelude Float32 Motor Crc Dma Cobs.

(* @ yfr4esc/datatypes.h:8-8 MessageType *)
Definition STATUS : Z := 1.
(* @ yfr4esc/datatypes.h:8-8 MessageType *)
Definition CONTROL : Z := 2.
(* @ yfr4esc/datatypes.h:8-8 MessageType *)
Definition SETTINGS : Z := 3.
(* @ yfr4esc/datatypes.h:10-21 FaultBit *)
Definition UNINITIALIZED : Z := 0.

(** Sizes of the packed structs and of the buffers. *)
(* @ yfr4esc/datatypes.h:23-39 StatusPacket *)
Definition sizeof_StatusPacket : nat := 1 + 4 + 1 + 1 + 8 + 8 + 8 + 1 + 4 + 4 + 2 + 4 + 2.
(* @ yfr4esc/datatypes.h:41-47 ControlPacket *)
Definition sizeof_ControlPacket : nat := 1 + 8 + 2.
(* @ yfr4esc/datatypes.h:49-57 SettingsPacket *)
Definition sizeof_SettingsPacket : nat := 1 + 4 + 4 + 4 + 2.
(* @ YFR4escDriver.h:43-44 RX_MAX_PKT_CODED *)
Definition RX_MAX_PKT_CODED : nat := sizeof_StatusPacket + sizeof_StatusPacket / 254 + 1.
(* @ YFR4escDriver.h:47-47 DMA_RX_BUFFER_SIZE *)
Definition DMA_RX_BUFFER_SIZE : nat := 2 * (RX_MAX_PKT_CODED + 1).
(* @ YFR4escDriver.h:51-54 COBS_BUFFER_SIZE *)
Definition COBS_BUFFER_SIZE : nat := RX_MAX_PKT_CODED.
(* @ YFR4escDriver.h:57-62 TX_BUFFER_SIZE *)
Definition TX_BUFFER_SIZE : nat :=
  let decoded := Nat.max sizeof_ControlPacket sizeof_SettingsPacket in
  (decoded + decoded / 254 + 1) + 1.

Inductive yf_event :=
  | Sent (frame : list Z)
  | Notified (st : ESCState)
  | RawOut (data : list Z).

(* @t YFR4escDriver.h YFR4escDriver *)
Record YFR4escDriver := mkYfr4 {
  last_duty_ : f32;
  dma_rx_buffer_ : list Z;
  cobs_rx_buffer_ : list Z   (** its first [cobs_rx_len_] bytes *);
  rx_seen_len_ : nat;
  latest_state_ : ESCState;
  started_ : bool; is_raw_mode_ : bool }.
#[export] Instance eta_Yfr4 : Eta YFR4escDriver := fun s =>
  mkYfr4 (last_duty_ s) (dma_rx_buffer_ s) (cobs_rx_buffer_ s) (rx_seen_len_ s) (latest_state_ s)
    (started_ s) (is_raw_mode_ s).
(* @ YFR4escDriver.h YFR4escDriver::YFR4escDriver *)
Definition initial_yfr4 : YFR4escDriver :=
  mkYfr4 f0 (replicate DMA_RX_BUFFER_SIZE 0) [] 0 (zero_esc <| status := ESC_STATUS_DISCONNECTED |>) false false.

(** ** Sending *)
Definition with_crc (payload : list Z) : list Z := payload ++ le_bytes 2 (crc16_ccitt_false payload).
(** The frame of a packet, or nothing when it does not fit the buffer. *)
Definition send_packet (packet : list Z) : list yf_event :=
  let tx := cobs_encode packet in
  if (TX_BUFFER_SIZE <? length tx + 1)%nat then [] else [Sent (tx ++ [0])].
(* @ YFR4escDriver.cpp YFR4escDriver::SendControl *)
Definition SendControl (duty : f32) : list yf_event :=
  send_packet (with_crc (CONTROL :: le_bytes 8 (d_bits (d_of_f32 duty)))).
(* @ YFR4escDriver.cpp YFR4escDriver::SendSettings *)
Definition SendSettings : list yf_event :=
  send_packet (with_crc (SETTINGS :: le_bytes 4 (f_bits (f_lit 5 2)) ++ le_bytes 4 (f_bits f0) ++
    le_bytes 4 (f_bits (f_of_Z 70)))).
(* @ YFR4escDriver.cpp YFR4escDriver::SetDuty *)
Definition yf_SetDuty (duty : f32) (s : YFR4escDriver) : YFR4escDriver * list yf_event :=
  if negb (started_ s) || is_raw_mode_ s then (s, []) else (s <| last_duty_ := duty |>, SendControl duty).
(* @ YFR4escDriver.cpp YFR4escDriver::RawDataInput *)
Definition yf_RawDataInput (data : list Z) (s : YFR4escDriver) : list yf_event :=
  if negb (is_raw_mode_ s) || negb (started_ s) then [] else [Sent (take TX_BUFFER_SIZE data)].
(** [Start] after the UART has started: reception armed, settings sent. *)
(* @ YFR4escDriver.cpp YFR4escDriver::Start *)
Definition yf_Start (uart_ok : bool) (s : YFR4escDriver) : bool * YFR4escDriver * list yf_event :=
  if started_ s then (false, s, []) else
  if negb uart_ok then (false, s, []) else
  let s := s <| started_ := true |> <| rx_seen_len_ := 0%nat |> in
  (started_ s, s, SendSettings).

(** ** Receiving *)
(** The members of the packed struct; a [double] is its 64-bit pattern. *)
(* @ yfr4esc/datatypes.h:23-39 StatusPacket *)
Record StatusPacket := mkStatusPacket {
  sp_message_type : Z; sp_seq : Z; sp_fw_version_major : Z; sp_fw_version_minor : Z;
  sp_temperature_pcb : Z; sp_current_input : Z; sp_duty_cycle : Z; sp_direction : Z;
  sp_tacho : Z; sp_tacho_absolute : Z; sp_rpm : Z; sp_fault_code : Z; sp_crc : Z }.
(** [memcpy(&sp, packet, sizeof(StatusPacket))]. *)
(* @ YFR4escDriver.cpp:63-64 YFR4escDriver::ProcessDecodedPacket (memcpy) *)
Definition read_status (packet : list Z) : StatusPacket :=
  let field off n := le_int (slice packet off n) in
  mkStatusPacket (field 0%nat 1%nat) (field 1%nat 4%nat) (field 5%nat 1%nat) (field 6%nat 1%nat)
    (field 7%nat 8%nat) (field 15%nat 8%nat) (field 23%nat 8%nat) (field 31%nat 1%nat)
    (field 32%nat 4%nat) (field 36%nat 4%nat) (field 40%nat 2%nat) (s32 (field 42%nat 4%nat)) (field 46%nat 2%nat).
(* @ YFR4escDriver.cpp:66-76 YFR4escDriver::ProcessDecodedPacket (STATUS) *)
Definition status_state (sp : StatusPacket) (st : ESCState) : ESCState :=
  st <| fw_major := sp_fw_version_major sp |> <| fw_minor := sp_fw_version_minor sp |>
     <| temperature_pcb := f_of_f64 (d_of_bits (sp_temperature_pcb sp)) |>
     <| current_input := f_of_f64 (d_of_bits (sp_current_input sp)) |>
     <| duty_cycle := f_of_f64 (d_of_bits (sp_duty_cycle sp)) |>
     <| direction := if negb (sp_direction sp =? 0) then f1 else f0 |>
     <| tacho := sp_tacho sp |> <| tacho_absolute := sp_tacho_absolute sp |>
     <| rpm := f_of_Z (sp_rpm sp) |>
     <| status := if sp_fault_code sp =? 0 then ESC_STATUS_OK else ESC_STATUS_ERROR |>.
(** Settings are sent again to a controller that reports it has none. *)
(* @ YFR4escDriver.cpp:78-80 YFR4escDriver::ProcessDecodedPacket (UNINITIALIZED) *)
Definition settings_wanted (sp : StatusPacket) : list yf_event :=
  if negb (Z.land (sp_fault_code sp) (Z.shiftl 1 UNINITIALIZED) =? 0) then SendSettings else [].
(* @ YFR4escDriver.cpp YFR4escDriver::ProcessDecodedPacket *)
Definition ProcessDecodedPacket (packet : list Z) (s : YFR4escDriver) : YFR4escDriver * list yf_event :=
  let len := length packet in
  if (len <? 4)%nat then (s, []) else
  let crc_rx := le_int (slice packet (len - 2) 2) in
  let crc_calc := crc16_ccitt_false (take (len - 2) packet) in
  if negb (crc_rx =? crc_calc) then (s, []) else
  if nth 0 packet 0 =? STATUS then
    if negb (len =? sizeof_StatusPacket)%nat then (s, []) else
    let sp := read_status packet in
    let s := s <| latest_state_ ::= status_state sp |> in
    (s, settings_wanted sp ++ [Notified (latest_state_ s)])
  else (s, []).

(** One received byte; the decoder writes into a buffer of one status packet. *)
(* @ YFR4escDriver.cpp:103-118 YFR4escDriver::ProcessRxBytes (loop body) *)
Definition rx_byte (b : Z) (s : YFR4escDriver) : option (YFR4escDriver * list yf_event) :=
  if b =? 0 then
    if (0 <? length (cobs_rx_buffer_ s))%nat then
      let (decoded, ok) := cobs_decode (cobs_rx_buffer_ s) in
      if (sizeof_StatusPacket <? length decoded)%nat then None else
      let dec := if ok then decoded else [] in
      let (s, o) := if (3 <=? length dec)%nat then ProcessDecodedPacket dec s else (s, []) in
      Some (s <| cobs_rx_buffer_ := [] |>, o)
    else Some (s, [])
  else if (length (cobs_rx_buffer_ s) <? COBS_BUFFER_SIZE)%nat
  then Some (s <| cobs_rx_buffer_ ::= fun l => l ++ [b] |>, [])
  else Some (s <| cobs_rx_buffer_ := [] |>, []).
Fixpoint rx_bytes (data : list Z) (s : YFR4escDriver) : option (YFR4escDriver * list yf_event) :=
  match data with
  | [] => Some (s, [])
  | b :: data => '(s, o) ← rx_byte b s; '(s, o') ← rx_bytes data s; Some (s, o ++ o')
  end.
(* @ YFR4escDriver.cpp YFR4escDriver::ProcessRxBytes *)
Definition yf_ProcessRxBytes (data : list Z) (s : YFR4escDriver) : option (YFR4escDriver * list yf_event) :=
  match data with
  | [] => Some (s, [])
  | _ => if is_raw_mode_ s then Some (s, [RawOut data]) else rx_bytes data s
  end.

(** ** Reception and the thread

    What the DMA does to the driver's buffer while bytes arrive. *)
Definition dma_receive (data : list Z) (ndtr : nat) (s : YFR4escDriver) : nat * YFR4escDriver :=
  let '(buf, ndtr, _) := dma_bytes DMA_RX_BUFFER_SIZE data (dma_rx_buffer_ s, ndtr, false) in
  (ndtr, s <| dma_rx_buffer_ := buf |>).
(** One round of the thread at a reading of NDTR. *)
(* @ YFR4escDriver.cpp:234-248 YFR4escDriver::threadFunc *)
Definition drain (ndtr_now : Z) (s : YFR4escDriver) : option (YFR4escDriver * list yf_event) :=
  if ndtr_now <=? Z.of_nat DMA_RX_BUFFER_SIZE then
    let received_so_far := (DMA_RX_BUFFER_SIZE - Z.to_nat ndtr_now)%nat in
    '(s, o1) ← (if (received_so_far <? rx_seen_len_ s)%nat then
        '(s, o) ← yf_ProcessRxBytes (slice (dma_rx_buffer_ s) (rx_seen_len_ s)
                    (DMA_RX_BUFFER_SIZE - rx_seen_len_ s)) s;
        Some (s <| rx_seen_len_ := 0%nat |>, o)
      else Some (s, []));
    '(s, o2) ← (if (rx_seen_len_ s <? received_so_far)%nat then
        let delta := (received_so_far - rx_seen_len_ s)%nat in
        '(s, o) ← yf_ProcessRxBytes (slice (dma_rx_buffer_ s) (rx_seen_len_ s) delta) s;
        Some (s <| rx_seen_len_ := received_so_far |>, o)
      else Some (s, []));
    Some (s, o1 ++ o2)
  else Some (s, []).
(** [HEARTBEAT_INTERVAL] is 100 ms in the kernel's ticks. *)
(* @ YFR4escDriver.cpp YFR4escDriver::threadFunc *)
Definition thread_round (HEARTBEAT_INTERVAL ndtr_now now : Z) (last_heartbeat : Z) (s : YFR4escDriver) :
    option (YFR4escDriver * Z * list yf_event) :=
  '(s, o) ← drain ndtr_now s;
  if HEARTBEAT_INTERVAL <=? u32 (now - last_heartbeat) then
    Some (s, u32 (last_heartbeat + HEARTBEAT_INTERVAL), o ++ SendControl (last_duty_ s))
  else Some (s, last_heartbeat, o).
(** Bytes arrive in chunks, a round of the thread after each. *)
Fixpoint rounds (chunks : list (list Z)) (ndtr : nat) (s : YFR4escDriver) :
    option (nat * YFR4escDriver * list yf_event) :=
  match chunks with
  | [] => Some (ndtr, s, [])
  | c :: chunks =>
    let (ndtr, s) := dma_receive c ndtr s in
    '(s, o) ← drain (Z.of_nat ndtr) s;
    '(ndtr, s, o') ← rounds chunks ndtr s; Some (ndtr, s, o ++ o')
  end.

(** ** The receiver stays inside its buffers *)
Definition rx_ok (s : YFR4escDriver) : Prop := (length (cobs_rx_buffer_ s) <= COBS_BUFFER_SIZE)%nat.

Lemma ProcessDecodedPacket_buffer packet s :
  cobs_rx_buffer_ (ProcessDecodedPacket packet s).1 = cobs_rx_buffer_ s.
Proof. unfold ProcessDecodedPacket. repeat split_if; reflexivity. Qed.
Lemma rx_byte_total b s : rx_ok s -> exists s' o, rx_byte b s = Some (s', o) /\ rx_ok s'.
Proof.
  unfold rx_ok, rx_byte. intros H. destruct (b =? 0).
  - destruct (Nat.ltb_spec 0 (length (cobs_rx_buffer_ s))); [|eauto].
    pose proof (cobs_decode_written (cobs_rx_buffer_ s)) as Hw.
    destruct (cobs_decode (cobs_rx_buffer_ s)) as [d ok]. cbn [fst] in Hw.
    destruct (Nat.ltb_spec sizeof_StatusPacket (length d)) as [Hl|_].
    { change COBS_BUFFER_SIZE with 49%nat in H. change sizeof_StatusPacket with 48%nat in Hl. lia. }
    destruct (if (3 <=? _)%nat then _ else _) as [s1 o]. do 2 eexists. split; [reflexivity|]. cbn. lia.
  - destruct (Nat.ltb_spec (length (cobs_rx_buffer_ s)) COBS_BUFFER_SIZE); do 2 eexists; (split; [reflexivity|]);
      cbn [cobs_rx_buffer_ update eta eta_Yfr4]; rewrite ?length_app; cbn [length]; lia.
Qed.
Lemma rx_bytes_total data s : rx_ok s -> exists s' o, rx_bytes data s = Some (s', o) /\ rx_ok s'.
Proof.
  revert s. induction data as [|b data IH]; intros s H; [eexists _, _; split; [reflexivity|exact H]|].
  destruct (rx_byte_total b s H) as (s1 & o1 & E1 & H1). destruct (IH s1 H1) as (s2 & o2 & E2 & H2).
  exists s2, (o1 ++ o2). cbn [rx_bytes]. rewrite E1. cbn [mbind option_bind]. rewrite E2. split; [reflexivity|exact H2].
Qed.
Lemma rx_bytes_app a b s : rx_bytes (a ++ b) s =
  '(s, o) ← rx_bytes a s; '(s, o') ← rx_bytes b s; Some (s, o ++ o').
Proof.
  revert s. induction a as [|x a IH]; intros s; cbn [app rx_bytes].
  - cbn. destruct (rx_bytes b s) as [[? ?]|]; reflexivity.
  - destruct (rx_byte x s) as [[s1 o1]|]; [|reflexivity]. cbn [mbind option_bind]. rewrite IH.
    destruct (rx_bytes a s1) as [[s2 o2]|]; [|reflexivity]. cbn [mbind option_bind].
    destruct (rx_bytes b s2) as [[s3 o3]|]; [|reflexivity]. cbn. rewrite app_assoc. reflexivity.
Qed.
Lemma rx_bytes_seq a b s s1 s2 o1 o2 :
  rx_bytes a s = Some (s1, o1) -> rx_bytes b s1 = Some (s2, o2) -> rx_bytes (a ++ b) s = Some (s2, o1 ++ o2).
Proof. intros Ea Eb. rewrite rx_bytes_app, Ea. cbn [mbind option_bind]. rewrite Eb. reflexivity. Qed.

(** ** The circular buffer loses nothing *)
Definition at_ (buf : list Z) (n : nat) (s : YFR4escDriver) : YFR4escDriver :=
  s <| dma_rx_buffer_ := buf |> <| rx_seen_len_ := n |>.
Definition at_r (buf : list Z) (n : nat) (r : YFR4escDriver * list yf_event) : YFR4escDriver * list yf_event :=
  (at_ buf n r.1, r.2).
Lemma ProcessDecodedPacket_at buf n packet s :
  ProcessDecodedPacket packet (at_ buf n s) = at_r buf n (ProcessDecodedPacket packet s).
Proof. unfold ProcessDecodedPacket. repeat split_if; reflexivity. Qed.
Lemma rx_byte_at buf n b s : rx_byte b (at_ buf n s) = at_r buf n <$> rx_byte b s.
Proof.
  unfold rx_byte. change (cobs_rx_buffer_ (at_ buf n s)) with (cobs_rx_buffer_ s).
  destruct (b =? 0); [|split_if; reflexivity].
  split_if; [|reflexivity]. destruct (cobs_decode _) as [d ok]. split_if; [reflexivity|].
  rewrite ProcessDecodedPacket_at. destruct (3 <=? _)%nat; [|reflexivity].
  destruct (ProcessDecodedPacket _ s) as [s1 o]. reflexivity.
Qed.
Lemma rx_bytes_at buf n data s : rx_bytes data (at_ buf n s) = at_r buf n <$> rx_bytes data s.
Proof.
  revert s. induction data as [|b data IH]; intros s; [reflexivity|]. cbn [rx_bytes].
  rewrite rx_byte_at. destruct (rx_byte b s) as [[s1 o1]|]; [|reflexivity].
  cbn [fmap option_fmap option_map at_r fst snd mbind option_bind]. rewrite IH.
  destruct (rx_bytes data s1) as [[s2 o2]|]; reflexivity.
Qed.
Lemma rx_byte_raw b s s' o : rx_byte b s = Some (s', o) -> is_raw_mode_ s' = is_raw_mode_ s.
Proof.
  unfold rx_byte. destruct (b =? 0); [|split_if; intros [= <- _]; reflexivity].
  split_if; [|intros [= <- _]; reflexivity]. destruct (cobs_decode _) as [d ok]. split_if; [discriminate|].
  unfold ProcessDecodedPacket. repeat split_if; intros [= <- _]; reflexivity.
Qed.
Lemma rx_bytes_raw data s s' o : rx_bytes data s = Some (s', o) -> is_raw_mode_ s' = is_raw_mode_ s.
Proof.
  revert s s' o. induction data as [|b data IH]; intros s s' o; cbn [rx_bytes]; [intros [= <- _]; reflexivity|].
  destruct (rx_byte b s) as [[s1 o1]|] eqn:E1; [|discriminate]. cbn [mbind option_bind].
  destruct (rx_bytes data s1) as [[s2 o2]|] eqn:E2; [|discriminate]. cbn. intros [= <- _].
  rewrite (IH _ _ _ E2). exact (rx_byte_raw _ _ _ _ E1).
Qed.
Lemma ProcessRxBytes_plain data s : is_raw_mode_ s = false -> yf_ProcessRxBytes data s = rx_bytes data s.
Proof. intros H. unfold yf_ProcessRxBytes. destruct data; [reflexivity|]. rewrite H. reflexivity. Qed.

Lemma at_same s : at_ (dma_rx_buffer_ s) (rx_seen_len_ s) s = s.
Proof. destruct s; reflexivity. Qed.
Lemma drain_forward m t : is_raw_mode_ t = false -> (m <= DMA_RX_BUFFER_SIZE)%nat ->
  (rx_seen_len_ t <= DMA_RX_BUFFER_SIZE - m)%nat ->
  drain (Z.of_nat m) t = at_r (dma_rx_buffer_ t) (DMA_RX_BUFFER_SIZE - m) <$>
    rx_bytes (slice (dma_rx_buffer_ t) (rx_seen_len_ t) (DMA_RX_BUFFER_SIZE - m - rx_seen_len_ t)) t.
Proof.
  intros Hraw Hm Hs. unfold drain. rewrite Nat2Z.id.
  destruct (Z.leb_spec (Z.of_nat m) (Z.of_nat DMA_RX_BUFFER_SIZE)); [|lia].
  destruct (Nat.ltb_spec (DMA_RX_BUFFER_SIZE - m) (rx_seen_len_ t)); [lia|]. cbn [mbind option_bind].
  rewrite ProcessRxBytes_plain by exact Hraw.
  destruct (Nat.ltb_spec (rx_seen_len_ t) (DMA_RX_BUFFER_SIZE - m)) as [Hlt|Hge].
  - pose proof (rx_bytes_at (dma_rx_buffer_ t) (rx_seen_len_ t)
      (slice (dma_rx_buffer_ t) (rx_seen_len_ t) (DMA_RX_BUFFER_SIZE - m - rx_seen_len_ t)) t) as E.
    rewrite at_same in E. destruct (rx_bytes _ t) as [[t1 o1]|]; [|reflexivity].
    injection E as E1. cbn. do 2 f_equal. rewrite E1. reflexivity.
  - replace (DMA_RX_BUFFER_SIZE - m - rx_seen_len_ t)%nat with 0%nat by lia.
    replace (DMA_RX_BUFFER_SIZE - m)%nat with (rx_seen_len_ t) by lia.
    unfold slice. rewrite take_0. cbn. unfold at_r. cbn [fst snd]. rewrite at_same. reflexivity.
Qed.
Lemma drain_wrapped m t : is_raw_mode_ t = false -> (m <= DMA_RX_BUFFER_SIZE)%nat ->
  (DMA_RX_BUFFER_SIZE - m < rx_seen_len_ t)%nat ->
  drain (Z.of_nat m) t = at_r (dma_rx_buffer_ t) (DMA_RX_BUFFER_SIZE - m) <$>
    rx_bytes (slice (dma_rx_buffer_ t) (rx_seen_len_ t) (DMA_RX_BUFFER_SIZE - rx_seen_len_ t) ++
              slice (dma_rx_buffer_ t) 0 (DMA_RX_BUFFER_SIZE - m)) t.
Proof.
  intros Hraw Hm Hs.
  pose proof (rx_bytes_at (dma_rx_buffer_ t) (rx_seen_len_ t)
    (slice (dma_rx_buffer_ t) (rx_seen_len_ t) (DMA_RX_BUFFER_SIZE - rx_seen_len_ t)) t) as E.
  rewrite at_same in E. set (buf := dma_rx_buffer_ t) in *. rewrite rx_bytes_app.
  transitivity ('(t, o1) ← rx_bytes (slice buf (rx_seen_len_ t) (DMA_RX_BUFFER_SIZE - rx_seen_len_ t)) t;
    let t := t <| rx_seen_len_ := 0%nat |> in '(t, o2) ← drain (Z.of_nat m) t; Some (t, o1 ++ o2)).
  - unfold drain at 1. rewrite Nat2Z.id. subst buf.
    destruct (Z.leb_spec (Z.of_nat m) (Z.of_nat DMA_RX_BUFFER_SIZE)) as [Hz|]; [|lia].
    destruct (Nat.ltb_spec (DMA_RX_BUFFER_SIZE - m) (rx_seen_len_ t)); [|lia].
    rewrite ProcessRxBytes_plain by exact Hraw. destruct (rx_bytes _ t) as [[t1 o1]|]; [|reflexivity].
    cbn [mbind option_bind]. unfold drain. rewrite Nat2Z.id. apply Z.leb_le in Hz. rewrite Hz.
    change (rx_seen_len_ (t1 <| rx_seen_len_ := 0%nat |>)) with 0%nat.
    destruct (_ <? 0)%nat eqn:E0; [apply Nat.ltb_lt in E0; lia|]. cbn [mbind option_bind].
    destruct (if (0 <? _)%nat then _ else _) as [[t2 o2]|]; reflexivity.
  - destruct (rx_bytes _ t) as [[t1 o1]|] eqn:E1; [|reflexivity]. injection E as Et. cbn [mbind option_bind].
    pose proof (rx_bytes_raw _ _ _ _ E1) as Hr. rewrite Hraw in Hr.
    rewrite drain_forward; [|exact Hr|exact Hm|cbn [rx_seen_len_ update eta eta_Yfr4]; lia].
    change (rx_seen_len_ (t1 <| rx_seen_len_ := 0%nat |>)) with 0%nat. rewrite Nat.sub_0_r.
    change (dma_rx_buffer_ (t1 <| rx_seen_len_ := 0%nat |>)) with (dma_rx_buffer_ t1).
    assert (Eb : dma_rx_buffer_ t1 = buf) by (rewrite Et; reflexivity). rewrite Eb.
    replace (t1 <| rx_seen_len_ := 0%nat |>) with (at_ buf 0 t1) by (rewrite <- Eb; destruct t1; reflexivity).
    rewrite rx_bytes_at. destruct (rx_bytes _ t1) as [[t2 o2]|]; reflexivity.
Qed.

Lemma at_dma buf s : s <| dma_rx_buffer_ := buf |> = at_ buf (rx_seen_len_ s) s.
Proof. destruct s; reflexivity. Qed.
Lemma at_r_at_r buf buf' k k' (r : option (YFR4escDriver * list yf_event)) :
  at_r buf k <$> (at_r buf' k' <$> r) = at_r buf k <$> r.
Proof. destruct r as [[? ?]|]; reflexivity. Qed.

(** A round processes what is pending, wrapped or not. *)
Lemma drain_pending p buf n w s : is_raw_mode_ s = false ->
  pending DMA_RX_BUFFER_SIZE p (rx_seen_len_ s) (buf, n, w) ->
  drain (Z.of_nat n) (s <| dma_rx_buffer_ := buf |>) = at_r buf (DMA_RX_BUFFER_SIZE - n) <$> rx_bytes p s.
Proof.
  intros Hraw [Hb Hn Hp Hs H]. cbn [fst snd] in *. rewrite at_dma. destruct w; destruct H as [Hr ->].
  - rewrite drain_wrapped by (try exact Hraw; unfold at_; cbn [rx_seen_len_ update eta eta_Yfr4]; lia).
    rewrite rx_bytes_at. apply at_r_at_r.
  - rewrite drain_forward by (try exact Hraw; unfold at_; cbn [rx_seen_len_ update eta eta_Yfr4]; lia).
    rewrite rx_bytes_at. apply at_r_at_r.
Qed.

(** What holds between two rounds: all that was received has been processed. *)
Definition caught_up (n : nat) (s : YFR4escDriver) : Prop :=
  is_raw_mode_ s = false /\ length (dma_rx_buffer_ s) = DMA_RX_BUFFER_SIZE /\
  (1 <= n <= DMA_RX_BUFFER_SIZE)%nat /\ rx_seen_len_ s = (DMA_RX_BUFFER_SIZE - n)%nat.
Lemma caught_up_at buf m s : is_raw_mode_ s = false -> length buf = DMA_RX_BUFFER_SIZE ->
  (1 <= m <= DMA_RX_BUFFER_SIZE)%nat -> caught_up m (at_ buf (DMA_RX_BUFFER_SIZE - m) s).
Proof. intros. unfold caught_up, at_. cbn [is_raw_mode_ dma_rx_buffer_ rx_seen_len_ update eta eta_Yfr4]. auto. Qed.
Lemma drain_chunk data n s : caught_up n s -> (length data < DMA_RX_BUFFER_SIZE)%nat ->
  exists m buf, (1 <= m <= DMA_RX_BUFFER_SIZE)%nat /\ length buf = DMA_RX_BUFFER_SIZE /\
    exists t, dma_receive data n s = (m, t) /\
      drain (Z.of_nat m) t = at_r buf (DMA_RX_BUFFER_SIZE - m) <$> rx_bytes data s.
Proof.
  intros (Hraw & Hbuf & Hn & Hseen) Hlen. unfold dma_receive.
  pose proof (caught_up_pending DMA_RX_BUFFER_SIZE (dma_rx_buffer_ s) n Hbuf Hn) as H. rewrite <- Hseen in H.
  apply (dma_bytes_pending _ data) in H; [|cbn [length]; lia]. cbn [app] in H.
  destruct (dma_bytes _ data _) as [[buf m] w]. exists m, buf.
  split; [apply H|]. split; [apply H|]. eexists. split; [reflexivity|].
  apply (drain_pending data buf m w s Hraw H).
Qed.
Lemma rounds_process chunks n s : caught_up n s -> rx_ok s ->
  Forall (fun c => (length c < DMA_RX_BUFFER_SIZE)%nat) chunks ->
  exists s1 o m buf, rx_bytes (concat chunks) s = Some (s1, o) /\
    rounds chunks n s = Some (m, at_ buf (DMA_RX_BUFFER_SIZE - m) s1, o) /\
    caught_up m (at_ buf (DMA_RX_BUFFER_SIZE - m) s1) /\ rx_ok s1.
Proof.
  intros Hc Hok Hf. revert n s Hc Hok. induction Hf as [|c chunks Hlen Hf IH]; intros n s Hc Hok.
  - exists s, [], n, (dma_rx_buffer_ s). destruct Hc as (H1 & H2 & H3 & H4).
    rewrite <- H4, at_same. unfold caught_up. auto 10.
  - destruct (drain_chunk c n s Hc Hlen) as (m & buf & Hm & Hb & t & Et & Ed).
    destruct (rx_bytes_total c s Hok) as (s1 & o1 & E1 & Hok1).
    rewrite E1 in Ed. cbn [fmap option_fmap option_map] in Ed. unfold at_r in Ed. cbn [fst snd] in Ed.
    assert (Hraw1 : is_raw_mode_ s1 = false) by (rewrite (rx_bytes_raw _ _ _ _ E1); apply Hc).
    destruct (IH m (at_ buf (DMA_RX_BUFFER_SIZE - m) s1)) as (s2 & o2 & m2 & buf2 & E2 & Er & Hc2 & Hok2);
      [apply caught_up_at; assumption|exact Hok1|].
    rewrite rx_bytes_at in E2. destruct (rx_bytes (concat chunks) s1) as [[s3 o3]|] eqn:E3; [|discriminate].
    injection E2 as Es Eo.
    exists s3, (o1 ++ o3), m2, buf2. cbn [concat rounds]. rewrite rx_bytes_app, E1, Et. cbn [mbind option_bind].
    rewrite E3, Ed. cbn [mbind option_bind]. rewrite Er. subst s2 o2. auto.
Qed.

(** C13. Reception stays inside its buffers and the circular buffer loses
    nothing: if fewer than [DMA_RX_BUFFER_SIZE] bytes arrive between two rounds of
    the thread, then whatever the bytes are, however they are cut into rounds
    and wherever the buffer wraps, the rounds do to the driver what processing
    the bytes in order does, and leave it ready for the next round. *)
Theorem drain_lossless (chunks : list (list Z)) (n : nat) (s : YFR4escDriver) :
  caught_up n s -> rx_ok s -> Forall (fun c => (length c < DMA_RX_BUFFER_SIZE)%nat) chunks ->
  exists s1 o m buf, rx_bytes (concat chunks) s = Some (s1, o) /\
    rounds chunks n s = Some (m, at_ buf (DMA_RX_BUFFER_SIZE - m) s1, o) /\
    caught_up m (at_ buf (DMA_RX_BUFFER_SIZE - m) s1) /\ rx_ok s1.
Proof. apply rounds_process. Qed.
Lemma drain_witness : exists s1 o m buf, rx_bytes [2; 17; 0; 3; 5] initial_yfr4 = Some (s1, o) /\
  rounds [[2; 17; 0]; [3; 5]] DMA_RX_BUFFER_SIZE initial_yfr4 = Some (m, at_ buf (DMA_RX_BUFFER_SIZE - m) s1, o) /\
  caught_up m (at_ buf (DMA_RX_BUFFER_SIZE - m) s1) /\ rx_ok s1.
Proof.
  apply (drain_lossless [[2; 17; 0]; [3; 5]] DMA_RX_BUFFER_SIZE initial_yfr4).
  - unfold caught_up. split; [reflexivity|]. split; [reflexivity|]. split; [|reflexivity].
    change DMA_RX_BUFFER_SIZE with 100%nat. lia.
  - unfold rx_ok. cbn. lia.
  - change DMA_RX_BUFFER_SIZE with 100%nat. forall_list ltac:(cbn; lia).
Defined.
(** A whole buffer between two rounds leaves NDTR where it was: all of it is lost. *)
Example full_buffer_is_lost :
  rounds [replicate DMA_RX_BUFFER_SIZE 7] DMA_RX_BUFFER_SIZE initial_yfr4 =
    Some (DMA_RX_BUFFER_SIZE, initial_yfr4 <| dma_rx_buffer_ := replicate DMA_RX_BUFFER_SIZE 7 |>, []).
Proof. vm_compute. reflexivity. Qed.

(** ** Status packets as the controller sends them *)
Definition status_body (sp : StatusPacket) : list Z :=
  le_bytes 1 (sp_message_type sp) ++ le_bytes 4 (sp_seq sp) ++ le_bytes 1 (sp_fw_version_major sp) ++
  le_bytes 1 (sp_fw_version_minor sp) ++ le_bytes 8 (sp_temperature_pcb sp) ++ le_bytes 8 (sp_current_input sp) ++
  le_bytes 8 (sp_duty_cycle sp) ++ le_bytes 1 (sp_direction sp) ++ le_bytes 4 (sp_tacho sp) ++
  le_bytes 4 (sp_tacho_absolute sp) ++ le_bytes 2 (sp_rpm sp) ++ le_bytes 4 (sp_fault_code sp).
Definition status_packet (sp : StatusPacket) : list Z := with_crc (status_body sp).
Definition status_frame (sp : StatusPacket) : list Z := cobs_encode (status_packet sp) ++ [0].
(** The members hold values of their types. *)
Record status_ok (sp : StatusPacket) : Prop := {
  ok_type : sp_message_type sp = STATUS; ok_seq : is_u32 (sp_seq sp);
  ok_fw : is_u8 (sp_fw_version_major sp) /\ is_u8 (sp_fw_version_minor sp);
  ok_doubles : Forall (fun x => 0 <= x < 2 ^ 64) [sp_temperature_pcb sp; sp_current_input sp; sp_duty_cycle sp];
  ok_direction : is_u8 (sp_direction sp); ok_tacho : is_u32 (sp_tacho sp) /\ is_u32 (sp_tacho_absolute sp);
  ok_rpm : is_u16 (sp_rpm sp); ok_fault : is_s32 (sp_fault_code sp);
  ok_crc : sp_crc sp = crc16_ccitt_false (status_body sp) }.

Lemma with_crc_bytes l : is_bytes l -> is_bytes (with_crc l).
Proof. intros H. apply is_bytes_app; [exact H|apply le_bytes_is_bytes]. Qed.
Lemma status_packet_bytes sp : is_bytes (status_packet sp).
Proof. apply with_crc_bytes. repeat apply is_bytes_app; apply le_bytes_is_bytes. Qed.
Lemma read_status_packet sp : status_ok sp -> read_status (status_packet sp) = sp.
Proof.
  intros [Ht Hs [F1 F2] Hd Hdir [T1 T2] Hr Hf Hc].
  pose proof (crc16_ccitt_u16 (status_body sp)) as Hcrc. rewrite <- Hc in Hcrc.
  transitivity (mkStatusPacket (le_int (le_bytes 1 (sp_message_type sp))) (le_int (le_bytes 4 (sp_seq sp)))
    (le_int (le_bytes 1 (sp_fw_version_major sp))) (le_int (le_bytes 1 (sp_fw_version_minor sp)))
    (le_int (le_bytes 8 (sp_temperature_pcb sp))) (le_int (le_bytes 8 (sp_current_input sp)))
    (le_int (le_bytes 8 (sp_duty_cycle sp))) (le_int (le_bytes 1 (sp_direction sp)))
    (le_int (le_bytes 4 (sp_tacho sp))) (le_int (le_bytes 4 (sp_tacho_absolute sp)))
    (le_int (le_bytes 2 (sp_rpm sp))) (s32 (le_int (le_bytes 4 (sp_fault_code sp))))
    (le_int (le_bytes 2 (crc16_ccitt_false (status_body sp))))).
  - reflexivity.
  - rewrite !le_int_bytes, <- Hc. destruct sp; cbn [sp_message_type sp_seq sp_fw_version_major
      sp_fw_version_minor sp_temperature_pcb sp_current_input sp_duty_cycle sp_direction sp_tacho
      sp_tacho_absolute sp_rpm sp_fault_code sp_crc] in *.
    repeat match goal with H : Forall _ (_ :: _) |- _ => apply Forall_cons in H as [? H] end.
    subst. unfold STATUS, is_u8, is_u16, is_u32 in *. change (Z.of_nat 1) with 1. change (Z.of_nat 2) with 2.
    change (Z.of_nat 4) with 4. change (Z.of_nat 8) with 8. rewrite !Z.mod_small by lia.
    f_equal; [apply s32_u32; exact Hf|apply Z.mod_small; lia].
Qed.

(** A packet's bytes between two delimiters. *)
Lemma rx_block l s : Forall (fun b => 0 < b < 256) l ->
  (length (cobs_rx_buffer_ s) + length l <= COBS_BUFFER_SIZE)%nat ->
  rx_bytes l s = Some (s <| cobs_rx_buffer_ ::= fun c => c ++ l |>, []).
Proof.
  intros H. revert s. induction H as [|b l Hb Hl IH]; intros s Hlen; cbn [rx_bytes length] in *.
  - destruct s. cbn. rewrite app_nil_r. reflexivity.
  - unfold rx_byte. destruct (Z.eqb_spec b 0); [lia|].
    destruct (Nat.ltb_spec (length (cobs_rx_buffer_ s)) COBS_BUFFER_SIZE); [|lia]. cbn [mbind option_bind].
    rewrite IH by (cbn [cobs_rx_buffer_ update eta eta_Yfr4]; rewrite length_app; cbn [length]; lia).
    cbn. rewrite <- app_assoc. reflexivity.
Qed.
(** A delimiter empties the buffer. *)
Lemma rx_delimiter s s' o : rx_byte 0 s = Some (s', o) -> cobs_rx_buffer_ s' = [].
Proof.
  unfold rx_byte. cbn [Z.eqb]. destruct (Nat.ltb_spec 0 (length (cobs_rx_buffer_ s))).
  - destruct (cobs_decode _) as [d ok]. split_if; [discriminate|].
    destruct (if (3 <=? _)%nat then _ else _). intros [= <- _]. reflexivity.
  - intros [= <- _]. destruct (cobs_rx_buffer_ s); [reflexivity|cbn in *; lia].
Qed.
Lemma ProcessDecodedPacket_cobs buf packet s :
  ProcessDecodedPacket packet (s <| cobs_rx_buffer_ := buf |>) =
    let (s, o) := ProcessDecodedPacket packet s in (s <| cobs_rx_buffer_ := buf |>, o).
Proof. unfold ProcessDecodedPacket. repeat split_if; reflexivity. Qed.
(** A good frame from an empty buffer is one decoded packet. *)
Lemma rx_frame packet s : is_bytes packet -> (3 <= length packet <= sizeof_StatusPacket)%nat ->
  cobs_rx_buffer_ s = [] ->
  rx_bytes (cobs_encode packet ++ [0]) s = Some (ProcessDecodedPacket packet s).
Proof.
  intros Hp Hl Hs. destruct (encode_facts packet Hp) as (Hz & Hlen & Hdec).
  change sizeof_StatusPacket with 48%nat in Hl. rewrite (Nat.div_small (length packet)) in Hlen by lia.
  rewrite rx_bytes_app, rx_block; [|exact Hz|rewrite Hs; cbn [length]; change COBS_BUFFER_SIZE with 49%nat; lia].
  cbn [mbind option_bind rx_bytes]. unfold rx_byte. cbn [Z.eqb].
  change (cobs_rx_buffer_ (s <| cobs_rx_buffer_ ::= fun c => c ++ cobs_encode packet |>))
    with (cobs_rx_buffer_ s ++ cobs_encode packet). rewrite Hs. cbn [app]. rewrite Hdec.
  destruct (Nat.ltb_spec 0 (length (cobs_encode packet))) as [_|H0].
  2:{ destruct (blocks_cons packet []) as (c & r & E). unfold cobs_encode in H0. rewrite encode_with_blocks, E in H0. cbn in H0. lia. }
  destruct (Nat.ltb_spec sizeof_StatusPacket (length packet)); [change sizeof_StatusPacket with 48%nat in *; lia|].
  destruct (Nat.leb_spec 3 (length packet)); [|lia].
  change (s <| cobs_rx_buffer_ ::= fun c => c ++ cobs_encode packet |>)
    with (s <| cobs_rx_buffer_ := cobs_rx_buffer_ s ++ cobs_encode packet |>).
  rewrite ProcessDecodedPacket_cobs. pose proof (ProcessDecodedPacket_buffer packet s) as E. rewrite Hs in E.
  destruct (ProcessDecodedPacket packet s) as [s1 o1]. cbn [fst] in E. cbn. rewrite app_nil_r, <- E.
  destruct s1; reflexivity.
Qed.

(** Checking a packet that carries its own checksum. *)
Lemma process_with_crc body s : (2 <= length body)%nat ->
  ProcessDecodedPacket (with_crc body) s =
    if nth 0 body 0 =? STATUS then
      if negb (length body + 2 =? sizeof_StatusPacket)%nat then (s, []) else
      let sp := read_status (with_crc body) in
      let s := s <| latest_state_ ::= status_state sp |> in
      (s, settings_wanted sp ++ [Notified (latest_state_ s)])
    else (s, []).
Proof.
  intros Hl. unfold ProcessDecodedPacket.
  assert (El : length (with_crc body) = (length body + 2)%nat) by (unfold with_crc; rewrite length_app, length_le_bytes; lia).
  rewrite El. destruct (Nat.ltb_spec (length body + 2) 4); [lia|].
  replace (length body + 2 - 2)%nat with (length body) by lia.
  assert (E1 : slice (with_crc body) (length body) 2 = le_bytes 2 (crc16_ccitt_false body)).
  { unfold slice, with_crc. rewrite drop_app_length. reflexivity. }
  assert (E2 : take (length body) (with_crc body) = body) by (unfold with_crc; apply take_app_length).
  rewrite E1, E2, le_int_bytes, Z.mod_small by (pose proof (crc16_ccitt_u16 body) as H'; exact H').
  rewrite Z.eqb_refl. cbn [negb].
  assert (E3 : nth 0 (with_crc body) 0 = nth 0 body 0) by (unfold with_crc; destruct body; [cbn in Hl; lia|reflexivity]).
  rewrite E3. reflexivity.
Qed.

Lemma length_status_body sp : length (status_body sp) = 46%nat.
Proof. unfold status_body. rewrite !length_app, !length_le_bytes. reflexivity. Qed.
Lemma length_status_packet sp : length (status_packet sp) = sizeof_StatusPacket.
Proof. unfold status_packet, with_crc. rewrite length_app, length_le_bytes, length_status_body. reflexivity. Qed.
Lemma process_status sp s : status_ok sp ->
  ProcessDecodedPacket (status_packet sp) s =
    let st := status_state sp (latest_state_ s) in
    (s <| latest_state_ := st |>, settings_wanted sp ++ [Notified st]).
Proof.
  intros Hsp. unfold status_packet at 1. rewrite process_with_crc by (rewrite length_status_body; lia).
  assert (Et : nth 0 (status_body sp) 0 = STATUS).
  { transitivity (u8 (sp_message_type sp)); [reflexivity|]. rewrite (ok_type _ Hsp). reflexivity. }
  rewrite Et, Z.eqb_refl, length_status_body. change (negb (46 + 2 =? sizeof_StatusPacket)%nat) with false.
  fold (status_packet sp). rewrite (read_status_packet sp Hsp). reflexivity.
Qed.

Lemma rx_status_frame sp s : status_ok sp -> cobs_rx_buffer_ s = [] ->
  rx_bytes (status_frame sp) s =
    Some (s <| latest_state_ := status_state sp (latest_state_ s) |>,
          settings_wanted sp ++ [Notified (status_state sp (latest_state_ s))]).
Proof.
  intros Hsp Hs. pose proof (process_status sp s Hsp) as E. cbv zeta in E. rewrite <- E.
  apply rx_frame; [apply status_packet_bytes| |exact Hs].
  rewrite length_status_packet. change sizeof_StatusPacket with 48%nat. lia.
Qed.

(** C14. Status reports get through: whatever bytes came before, once a delimiter
    has been received a status packet in its frame is decoded, its checksum
    accepted, the driver's state takes its values, the client is notified once,
    and settings are sent exactly when the controller reports that it has none. *)
Theorem status_received (noise : list Z) (sp : StatusPacket) (s : YFR4escDriver) :
  status_ok sp -> rx_ok s ->
  exists s1 o1, rx_bytes (noise ++ [0]) s = Some (s1, o1) /\
    let st := status_state sp (latest_state_ s1) in
    rx_bytes (noise ++ [0] ++ status_frame sp) s =
      Some (s1 <| latest_state_ := st |>, o1 ++ settings_wanted sp ++ [Notified st]).
Proof.
  intros Hsp Hok. destruct (rx_bytes_total noise s Hok) as (s0 & o0 & E0 & Hok0).
  destruct (rx_byte_total 0 s0 Hok0) as (s1 & o1 & E1 & _).
  assert (En : rx_bytes (noise ++ [0]) s = Some (s1, o0 ++ o1)).
  { rewrite rx_bytes_app, E0. cbn [mbind option_bind rx_bytes]. rewrite E1. cbn. rewrite app_nil_r. reflexivity. }
  exists s1, (o0 ++ o1). split; [exact En|]. cbv zeta. rewrite app_assoc.
  exact (rx_bytes_seq _ _ _ _ _ _ _ En (rx_status_frame sp s1 Hsp (rx_delimiter _ _ _ E1))).
Qed.
Definition demo_status : StatusPacket :=
  let body crc := mkStatusPacket STATUS 7 1 4 (d_bits (d_of_Z 25)) (d_bits (d_of_Z 1)) (d_bits (d_of_f32 (f_lit 1 2)))
    1 1000 2000 300 1 crc in
  body (crc16_ccitt_false (status_body (body 0))).
Lemma demo_status_ok : status_ok demo_status.
Proof.
  assert (Hd : Forall (fun x => 0 <= x < 2 ^ 64)
    [sp_temperature_pcb demo_status; sp_current_input demo_status; sp_duty_cycle demo_status])
    by (forall_list ltac:(vm_compute; split; congruence)).
  split; [reflexivity|..|vm_compute; reflexivity]; try exact Hd; vm_compute; repeat split; congruence.
Qed.
Lemma status_witness : exists s1 o1, rx_bytes ([9; 9] ++ [0]) initial_yfr4 = Some (s1, o1) /\
  let st := status_state demo_status (latest_state_ s1) in
  rx_bytes ([9; 9] ++ [0] ++ status_frame demo_status) initial_yfr4 =
    Some (s1 <| latest_state_ := st |>, o1 ++ settings_wanted demo_status ++ [Notified st]).
Proof.
  apply (status_received [9; 9] demo_status initial_yfr4); [exact demo_status_ok|].
  unfold rx_ok. cbn [initial_yfr4 cobs_rx_buffer_ length]. lia.
Defined.
Example status_demo :
  option_map (fun r => (rpm (latest_state_ r.1), tacho (latest_state_ r.1), status (latest_state_ r.1), length r.2))
    (rx_bytes (status_frame demo_status) initial_yfr4) = Some (f_of_Z 300, 1000, ESC_STATUS_ERROR, 2%nat).
Proof. vm_compute. reflexivity. Qed.

(** ** Commands *)
(** [evs] sends one packet: a frame that fits the buffer and that the decoder
    turns back into [body] with its checksum. *)
Definition sends (body : list Z) (evs : list yf_event) : Prop :=
  exists f, evs = [Sent (f ++ [0])] /\ (length (f ++ [0%Z]) <= TX_BUFFER_SIZE)%nat /\
    Forall (fun b => 0 < b < 256) f /\ cobs_decode f = (with_crc body, true).
Definition control_body (duty : f32) : list Z := CONTROL :: le_bytes 8 (d_bits (d_of_f32 duty)).
Definition settings_body : list Z :=
  SETTINGS :: le_bytes 4 (f_bits (f_lit 5 2)) ++ le_bytes 4 (f_bits f0) ++ le_bytes 4 (f_bits (f_of_Z 70)).

Lemma send_packet_sends body : is_bytes body -> (length body <= 13)%nat -> sends body (send_packet (with_crc body)).
Proof.
  intros Hb Hl. destruct (encode_facts (with_crc body) (with_crc_bytes body Hb)) as (Hz & Hlen & Hd).
  assert (El : length (with_crc body) = (length body + 2)%nat) by (unfold with_crc; rewrite length_app, length_le_bytes; lia).
  rewrite El, Nat.div_small in Hlen by lia. exists (cobs_encode (with_crc body)).
  assert (Hf : (length (cobs_encode (with_crc body) ++ [0%Z]) <= TX_BUFFER_SIZE)%nat)
    by (rewrite length_app; change TX_BUFFER_SIZE with 17%nat; cbn [length]; lia).
  split; [|auto]. unfold send_packet. rewrite length_app in Hf. cbn [length] in Hf.
  destruct (Nat.ltb_spec TX_BUFFER_SIZE (length (cobs_encode (with_crc body)) + 1)); [lia|reflexivity].
Qed.
Lemma SendControl_sends duty : sends (control_body duty) (SendControl duty).
Proof.
  apply (send_packet_sends (control_body duty)).
  - constructor; [unfold CONTROL, is_u8; lia|apply le_bytes_is_bytes].
  - cbn [control_body length]. rewrite length_le_bytes. lia.
Qed.
Lemma SendSettings_sends : sends settings_body SendSettings.
Proof.
  apply (send_packet_sends settings_body).
  - constructor; [unfold SETTINGS, is_u8; lia|repeat apply is_bytes_app; apply le_bytes_is_bytes].
  - cbn [settings_body length]. rewrite !length_app, !length_le_bytes. lia.
Qed.

(** Commands: a duty is stored and sent, as a [double] in a control packet,
    exactly while the driver runs and is not in raw mode; the heartbeat sends
    the stored duty again once per interval, whatever was received meanwhile; a successful start arms
    reception and sends the settings. Every frame fits the send buffer, so no
    packet is dropped as too large, and decodes to its packet with a good checksum. *)
Theorem yf_commands (duty : f32) (s : YFR4escDriver) :
  let active := started_ s && negb (is_raw_mode_ s) in
  (let (s', evs) := yf_SetDuty duty s in
   if active then s' = s <| last_duty_ := duty |> /\ sends (control_body duty) evs else s' = s /\ evs = []) /\
  (forall HEARTBEAT_INTERVAL ndtr_now now last,
   match drain ndtr_now s, thread_round HEARTBEAT_INTERVAL ndtr_now now last s with
   | Some (s', o), Some (s'', last', o') => s'' = s' /\
     if HEARTBEAT_INTERVAL <=? u32 (now - last)
     then last' = u32 (last + HEARTBEAT_INTERVAL) /\ exists evs, o' = o ++ evs /\ sends (control_body (last_duty_ s')) evs
     else last' = last /\ o' = o
   | None, None => True
   | _, _ => False
   end) /\
  (let '(ok, s', evs) := yf_Start true s in
   if started_ s then ok = false /\ s' = s /\ evs = []
   else ok = true /\ started_ s' = true /\ rx_seen_len_ s' = 0%nat /\ sends settings_body evs).
Proof.
  cbv zeta. split_and!.
  - unfold yf_SetDuty. destruct (started_ s), (is_raw_mode_ s); cbn [negb orb andb]; auto using SendControl_sends.
  - intros H nd now last. unfold thread_round. destruct (drain nd s) as [[s' o]|]; cbn [mbind option_bind]; [|exact I].
    split_if; split; auto. split; [reflexivity|]. exists (SendControl (last_duty_ s')). auto using SendControl_sends.
  - unfold yf_Start. destruct (started_ s) eqn:E; [auto|]. cbn [negb].
    split_and!; [reflexivity..|apply SendSettings_sends].
Qed.
Example control_frame : SendControl (f_lit 1 2) = [Sent [2; 2; 1; 1; 1; 1; 1; 5; 224; 63; 27; 9; 0]].
Proof. vm_compute. reflexivity. Qed.
