(* ===== verification/Lsm6ds3Reg.v ===== *)
(** LSM6DS3TR-C inertial sensor: registers, bit fields and enumerations.

    The register addresses, the bit-field structs and the enumerations of
    [lsm6ds3tr-c_reg.h]. A struct of bit fields is a [layout]: its fields from
    the least significant bit up, each with its width, in the order the
    little-endian branch of the header declares them. A value of the struct is
    the integer its bytes hold; [x.["f"]] reads a field and [x.["f" := v]]
    stores [v] in it, keeping the low bits that fit, as a C bit field does. An
    enumeration is an inductive type with the integer of each enumerator. *)
From S2P Require Import Prelude.

Definition layout := list (string * Z).
Definition reg (L : layout) := Z.
Coercion reg : layout >-> Sortclass.

(** The offset and the width of a field. *)
Fixpoint field (L : layout) (f : string) : Z * Z :=
  match L with
  | [] => (0, 0)
  | (g, w) :: r => if String.eqb g f then (0, w) else let (o, v) := field r f in (w + o, v)
  end.
Definition getf {L : layout} (f : string) (x : L) : Z :=
  let (o, w) := field L f in Z.land (Z.shiftr x o) (Z.ones w).
Definition setf {L : layout} (f : string) (v : Z) (x : L) : L :=
  let (o, w) := field L f in
  Z.lor (Z.ldiff x (Z.shiftl (Z.ones w) o)) (Z.shiftl (Z.land v (Z.ones w)) o).
Arguments getf {L} f%_string x : simpl never.
Arguments setf {L} f%_string v x : simpl never.
Notation "x .[ f ]" := (getf f x) (at level 1, left associativity) : mower_scope.
Notation "x .[ f := v ]" := (setf f v x) (at level 1, left associativity) : mower_scope.
Notation "a ≠? b" := (negb (a =? b)) (at level 70, no associativity) : mower_scope.
Bind Scope string_scope with string.

(** Enumerations: the integer of each enumerator, and the [switch] that maps
    an integer back, as the getters write it. *)
Class Enum (T : Type) := code : T -> Z.
Fixpoint switch {T} `{Enum T} (z : Z) (cases : list T) (default : T) : T :=
  match cases with
  | [] => default
  | c :: r => if z =? code c then c else switch z r default
  end.

(** ** Register addresses and constants *)

(* @ lsm6ds3tr-c_reg.h:101-101 PROPERTY_DISABLE *)
Definition PROPERTY_DISABLE : Z := 0.
(* @ lsm6ds3tr-c_reg.h:102-102 PROPERTY_ENABLE *)
Definition PROPERTY_ENABLE : Z := 1.
(* @ lsm6ds3tr-c_reg.h:183-183 LSM6DS3TR_C_FUNC_CFG_ACCESS *)
Definition LSM6DS3TR_C_FUNC_CFG_ACCESS : Z := 0x01.
(* @ lsm6ds3tr-c_reg.h:195-195 LSM6DS3TR_C_SENSOR_SYNC_TIME_FRAME *)
Definition LSM6DS3TR_C_SENSOR_SYNC_TIME_FRAME : Z := 0x04.
(* @ lsm6ds3tr-c_reg.h:207-207 LSM6DS3TR_C_SENSOR_SYNC_RES_RATIO *)
Definition LSM6DS3TR_C_SENSOR_SYNC_RES_RATIO : Z := 0x05.
(* @ lsm6ds3tr-c_reg.h:219-219 LSM6DS3TR_C_FIFO_CTRL1 *)
Definition LSM6DS3TR_C_FIFO_CTRL1 : Z := 0x06.
(* @ lsm6ds3tr-c_reg.h:225-225 LSM6DS3TR_C_FIFO_CTRL2 *)
Definition LSM6DS3TR_C_FIFO_CTRL2 : Z := 0x07.
(* @ lsm6ds3tr-c_reg.h:243-243 LSM6DS3TR_C_FIFO_CTRL3 *)
Definition LSM6DS3TR_C_FIFO_CTRL3 : Z := 0x08.
(* @ lsm6ds3tr-c_reg.h:257-257 LSM6DS3TR_C_FIFO_CTRL4 *)
Definition LSM6DS3TR_C_FIFO_CTRL4 : Z := 0x09.
(* @ lsm6ds3tr-c_reg.h:273-273 LSM6DS3TR_C_FIFO_CTRL5 *)
Definition LSM6DS3TR_C_FIFO_CTRL5 : Z := 0x0A.
(* @ lsm6ds3tr-c_reg.h:287-287 LSM6DS3TR_C_DRDY_PULSE_CFG_G *)
Definition LSM6DS3TR_C_DRDY_PULSE_CFG_G : Z := 0x0B.
(* @ lsm6ds3tr-c_reg.h:301-301 LSM6DS3TR_C_INT1_CTRL *)
Definition LSM6DS3TR_C_INT1_CTRL : Z := 0x0D.
(* @ lsm6ds3tr-c_reg.h:325-325 LSM6DS3TR_C_INT2_CTRL *)
Definition LSM6DS3TR_C_INT2_CTRL : Z := 0x0E.
(* @ lsm6ds3tr-c_reg.h:349-349 LSM6DS3TR_C_WHO_AM_I *)
Definition LSM6DS3TR_C_WHO_AM_I : Z := 0x0F.
(* @ lsm6ds3tr-c_reg.h:350-350 LSM6DS3TR_C_CTRL1_XL *)
Definition LSM6DS3TR_C_CTRL1_XL : Z := 0x10.
(* @ lsm6ds3tr-c_reg.h:366-366 LSM6DS3TR_C_CTRL2_G *)
Definition LSM6DS3TR_C_CTRL2_G : Z := 0x11.
(* @ lsm6ds3tr-c_reg.h:380-380 LSM6DS3TR_C_CTRL3_C *)
Definition LSM6DS3TR_C_CTRL3_C : Z := 0x12.
(* @ lsm6ds3tr-c_reg.h:404-404 LSM6DS3TR_C_CTRL4_C *)
Definition LSM6DS3TR_C_CTRL4_C : Z := 0x13.
(* @ lsm6ds3tr-c_reg.h:428-428 LSM6DS3TR_C_CTRL5_C *)
Definition LSM6DS3TR_C_CTRL5_C : Z := 0x14.
(* @ lsm6ds3tr-c_reg.h:444-444 LSM6DS3TR_C_CTRL6_C *)
Definition LSM6DS3TR_C_CTRL6_C : Z := 0x15.
(* @ lsm6ds3tr-c_reg.h:462-462 LSM6DS3TR_C_CTRL7_G *)
Definition LSM6DS3TR_C_CTRL7_G : Z := 0x16.
(* @ lsm6ds3tr-c_reg.h:482-482 LSM6DS3TR_C_CTRL8_XL *)
Definition LSM6DS3TR_C_CTRL8_XL : Z := 0x17.
(* @ lsm6ds3tr-c_reg.h:504-504 LSM6DS3TR_C_CTRL9_XL *)
Definition LSM6DS3TR_C_CTRL9_XL : Z := 0x18.
(* @ lsm6ds3tr-c_reg.h:526-526 LSM6DS3TR_C_CTRL10_C *)
Definition LSM6DS3TR_C_CTRL10_C : Z := 0x19.
(* @ lsm6ds3tr-c_reg.h:550-550 LSM6DS3TR_C_MASTER_CONFIG *)
Definition LSM6DS3TR_C_MASTER_CONFIG : Z := 0x1A.
(* @ lsm6ds3tr-c_reg.h:574-574 LSM6DS3TR_C_WAKE_UP_SRC *)
Definition LSM6DS3TR_C_WAKE_UP_SRC : Z := 0x1B.
(* @ lsm6ds3tr-c_reg.h:596-596 LSM6DS3TR_C_TAP_SRC *)
Definition LSM6DS3TR_C_TAP_SRC : Z := 0x1C.
(* @ lsm6ds3tr-c_reg.h:620-620 LSM6DS3TR_C_D6D_SRC *)
Definition LSM6DS3TR_C_D6D_SRC : Z := 0x1D.
(* @ lsm6ds3tr-c_reg.h:644-644 LSM6DS3TR_C_STATUS_REG *)
Definition LSM6DS3TR_C_STATUS_REG : Z := 0x1E.
(* @ lsm6ds3tr-c_reg.h:660-660 LSM6DS3TR_C_OUT_TEMP_L *)
Definition LSM6DS3TR_C_OUT_TEMP_L : Z := 0x20.
(* @ lsm6ds3tr-c_reg.h:662-662 LSM6DS3TR_C_OUTX_L_G *)
Definition LSM6DS3TR_C_OUTX_L_G : Z := 0x22.
(* @ lsm6ds3tr-c_reg.h:668-668 LSM6DS3TR_C_OUTX_L_XL *)
Definition LSM6DS3TR_C_OUTX_L_XL : Z := 0x28.
(* @ lsm6ds3tr-c_reg.h:674-674 LSM6DS3TR_C_SENSORHUB1_REG *)
Definition LSM6DS3TR_C_SENSORHUB1_REG : Z := 0x2E.
(* @ lsm6ds3tr-c_reg.h:962-962 LSM6DS3TR_C_FIFO_STATUS1 *)
Definition LSM6DS3TR_C_FIFO_STATUS1 : Z := 0x3A.
(* @ lsm6ds3tr-c_reg.h:968-968 LSM6DS3TR_C_FIFO_STATUS2 *)
Definition LSM6DS3TR_C_FIFO_STATUS2 : Z := 0x3B.
(* @ lsm6ds3tr-c_reg.h:988-988 LSM6DS3TR_C_FIFO_STATUS3 *)
Definition LSM6DS3TR_C_FIFO_STATUS3 : Z := 0x3C.
(* @ lsm6ds3tr-c_reg.h:994-994 LSM6DS3TR_C_FIFO_STATUS4 *)
Definition LSM6DS3TR_C_FIFO_STATUS4 : Z := 0x3D.
(* @ lsm6ds3tr-c_reg.h:1006-1006 LSM6DS3TR_C_FIFO_DATA_OUT_L *)
Definition LSM6DS3TR_C_FIFO_DATA_OUT_L : Z := 0x3E.
(* @ lsm6ds3tr-c_reg.h:1016-1016 LSM6DS3TR_C_SENSORHUB13_REG *)
Definition LSM6DS3TR_C_SENSORHUB13_REG : Z := 0x4D.
(* @ lsm6ds3tr-c_reg.h:1160-1160 LSM6DS3TR_C_FUNC_SRC1 *)
Definition LSM6DS3TR_C_FUNC_SRC1 : Z := 0x53.
(* @ lsm6ds3tr-c_reg.h:1184-1184 LSM6DS3TR_C_FUNC_SRC2 *)
Definition LSM6DS3TR_C_FUNC_SRC2 : Z := 0x54.
(* @ lsm6ds3tr-c_reg.h:1206-1206 LSM6DS3TR_C_WRIST_TILT_IA *)
Definition LSM6DS3TR_C_WRIST_TILT_IA : Z := 0x55.
(* @ lsm6ds3tr-c_reg.h:1228-1228 LSM6DS3TR_C_TAP_CFG *)
Definition LSM6DS3TR_C_TAP_CFG : Z := 0x58.
(* @ lsm6ds3tr-c_reg.h:1250-1250 LSM6DS3TR_C_TAP_THS_6D *)
Definition LSM6DS3TR_C_TAP_THS_6D : Z := 0x59.
(* @ lsm6ds3tr-c_reg.h:1264-1264 LSM6DS3TR_C_INT_DUR2 *)
Definition LSM6DS3TR_C_INT_DUR2 : Z := 0x5A.
(* @ lsm6ds3tr-c_reg.h:1278-1278 LSM6DS3TR_C_WAKE_UP_THS *)
Definition LSM6DS3TR_C_WAKE_UP_THS : Z := 0x5B.
(* @ lsm6ds3tr-c_reg.h:1292-1292 LSM6DS3TR_C_WAKE_UP_DUR *)
Definition LSM6DS3TR_C_WAKE_UP_DUR : Z := 0x5C.
(* @ lsm6ds3tr-c_reg.h:1308-1308 LSM6DS3TR_C_FREE_FALL *)
Definition LSM6DS3TR_C_FREE_FALL : Z := 0x5D.
(* @ lsm6ds3tr-c_reg.h:1320-1320 LSM6DS3TR_C_MD1_CFG *)
Definition LSM6DS3TR_C_MD1_CFG : Z := 0x5E.
(* @ lsm6ds3tr-c_reg.h:1344-1344 LSM6DS3TR_C_MD2_CFG *)
Definition LSM6DS3TR_C_MD2_CFG : Z := 0x5F.
(* @ lsm6ds3tr-c_reg.h:1368-1368 LSM6DS3TR_C_MASTER_CMD_CODE *)
Definition LSM6DS3TR_C_MASTER_CMD_CODE : Z := 0x60.
(* @ lsm6ds3tr-c_reg.h:1374-1374 LSM6DS3TR_C_SENS_SYNC_SPI_ERROR_CODE *)
Definition LSM6DS3TR_C_SENS_SYNC_SPI_ERROR_CODE : Z := 0x61.
(* @ lsm6ds3tr-c_reg.h:1380-1380 LSM6DS3TR_C_OUT_MAG_RAW_X_L *)
Definition LSM6DS3TR_C_OUT_MAG_RAW_X_L : Z := 0x66.
(* @ lsm6ds3tr-c_reg.h:1386-1386 LSM6DS3TR_C_X_OFS_USR *)
Definition LSM6DS3TR_C_X_OFS_USR : Z := 0x73.
(* @ lsm6ds3tr-c_reg.h:1389-1389 LSM6DS3TR_C_SLV0_ADD *)
Definition LSM6DS3TR_C_SLV0_ADD : Z := 0x02.
(* @ lsm6ds3tr-c_reg.h:1401-1401 LSM6DS3TR_C_SLV0_SUBADD *)
Definition LSM6DS3TR_C_SLV0_SUBADD : Z := 0x03.
(* @ lsm6ds3tr-c_reg.h:1407-1407 LSM6DS3TR_C_SLAVE0_CONFIG *)
Definition LSM6DS3TR_C_SLAVE0_CONFIG : Z := 0x04.
(* @ lsm6ds3tr-c_reg.h:1423-1423 LSM6DS3TR_C_SLV1_ADD *)
Definition LSM6DS3TR_C_SLV1_ADD : Z := 0x05.
(* @ lsm6ds3tr-c_reg.h:1435-1435 LSM6DS3TR_C_SLV1_SUBADD *)
Definition LSM6DS3TR_C_SLV1_SUBADD : Z := 0x06.
(* @ lsm6ds3tr-c_reg.h:1441-1441 LSM6DS3TR_C_SLAVE1_CONFIG *)
Definition LSM6DS3TR_C_SLAVE1_CONFIG : Z := 0x07.
(* @ lsm6ds3tr-c_reg.h:1457-1457 LSM6DS3TR_C_SLV2_ADD *)
Definition LSM6DS3TR_C_SLV2_ADD : Z := 0x08.
(* @ lsm6ds3tr-c_reg.h:1469-1469 LSM6DS3TR_C_SLV2_SUBADD *)
Definition LSM6DS3TR_C_SLV2_SUBADD : Z := 0x09.
(* @ lsm6ds3tr-c_reg.h:1475-1475 LSM6DS3TR_C_SLAVE2_CONFIG *)
Definition LSM6DS3TR_C_SLAVE2_CONFIG : Z := 0x0A.
(* @ lsm6ds3tr-c_reg.h:1489-1489 LSM6DS3TR_C_SLV3_ADD *)
Definition LSM6DS3TR_C_SLV3_ADD : Z := 0x0B.
(* @ lsm6ds3tr-c_reg.h:1501-1501 LSM6DS3TR_C_SLV3_SUBADD *)
Definition LSM6DS3TR_C_SLV3_SUBADD : Z := 0x0C.
(* @ lsm6ds3tr-c_reg.h:1507-1507 LSM6DS3TR_C_SLAVE3_CONFIG *)
Definition LSM6DS3TR_C_SLAVE3_CONFIG : Z := 0x0D.
(* @ lsm6ds3tr-c_reg.h:1521-1521 LSM6DS3TR_C_DATAWRITE_SRC_MODE_SUB_SLV0 *)
Definition LSM6DS3TR_C_DATAWRITE_SRC_MODE_SUB_SLV0 : Z := 0x0E.
(* @ lsm6ds3tr-c_reg.h:1527-1527 LSM6DS3TR_C_CONFIG_PEDO_THS_MIN *)
Definition LSM6DS3TR_C_CONFIG_PEDO_THS_MIN : Z := 0x0F.
(* @ lsm6ds3tr-c_reg.h:1541-1541 LSM6DS3TR_C_SM_THS *)
Definition LSM6DS3TR_C_SM_THS : Z := 0x13.
(* @ lsm6ds3tr-c_reg.h:1542-1542 LSM6DS3TR_C_PEDO_DEB_REG *)
Definition LSM6DS3TR_C_PEDO_DEB_REG : Z := 0x14.
(* @ lsm6ds3tr-c_reg.h:1554-1554 LSM6DS3TR_C_STEP_COUNT_DELTA *)
Definition LSM6DS3TR_C_STEP_COUNT_DELTA : Z := 0x15.
(* @ lsm6ds3tr-c_reg.h:1555-1555 LSM6DS3TR_C_MAG_SI_XX *)
Definition LSM6DS3TR_C_MAG_SI_XX : Z := 0x24.
(* @ lsm6ds3tr-c_reg.h:1564-1564 LSM6DS3TR_C_MAG_OFFX_L *)
Definition LSM6DS3TR_C_MAG_OFFX_L : Z := 0x2D.
(* @ lsm6ds3tr-c_reg.h:1570-1570 LSM6DS3TR_C_A_WRIST_TILT_LAT *)
Definition LSM6DS3TR_C_A_WRIST_TILT_LAT : Z := 0x50.
(* @ lsm6ds3tr-c_reg.h:1571-1571 LSM6DS3TR_C_A_WRIST_TILT_THS *)
Definition LSM6DS3TR_C_A_WRIST_TILT_THS : Z := 0x54.
(* @ lsm6ds3tr-c_reg.h:1572-1572 LSM6DS3TR_C_A_WRIST_TILT_MASK *)
Definition LSM6DS3TR_C_A_WRIST_TILT_MASK : Z := 0x59.

(** ** Bit-field structs *)

(* @ lsm6ds3tr-c_reg.h:184-193 lsm6ds3tr_c_func_cfg_access_t *)
Definition lsm6ds3tr_c_func_cfg_access_t : layout :=
  [("not_used_01", 5); ("func_cfg_en", 3)]%string.
(* @ lsm6ds3tr-c_reg.h:196-205 lsm6ds3tr_c_sensor_sync_time_frame_t *)
Definition lsm6ds3tr_c_sensor_sync_time_frame_t : layout :=
  [("tph", 4); ("not_used_01", 4)]%string.
(* @ lsm6ds3tr-c_reg.h:208-217 lsm6ds3tr_c_sensor_sync_res_ratio_t *)
Definition lsm6ds3tr_c_sensor_sync_res_ratio_t : layout :=
  [("rr", 2); ("not_used_01", 6)]%string.
(* @ lsm6ds3tr-c_reg.h:220-223 lsm6ds3tr_c_fifo_ctrl1_t *)
Definition lsm6ds3tr_c_fifo_ctrl1_t : layout :=
  [("fth", 8)]%string.
(* @ lsm6ds3tr-c_reg.h:226-241 lsm6ds3tr_c_fifo_ctrl2_t *)
Definition lsm6ds3tr_c_fifo_ctrl2_t : layout :=
  [("fth", 3); ("fifo_temp_en", 1); ("not_used_01", 2); ("timer_pedo_fifo_drdy", 1);
   ("timer_pedo_fifo_en", 1)]%string.
(* @ lsm6ds3tr-c_reg.h:244-255 lsm6ds3tr_c_fifo_ctrl3_t *)
Definition lsm6ds3tr_c_fifo_ctrl3_t : layout :=
  [("dec_fifo_xl", 3); ("dec_fifo_gyro", 3); ("not_used_01", 2)]%string.
(* @ lsm6ds3tr-c_reg.h:258-271 lsm6ds3tr_c_fifo_ctrl4_t *)
Definition lsm6ds3tr_c_fifo_ctrl4_t : layout :=
  [("dec_ds3_fifo", 3); ("dec_ds4_fifo", 3); ("only_high_data", 1); ("stop_on_fth", 1)]%string.
(* @ lsm6ds3tr-c_reg.h:274-285 lsm6ds3tr_c_fifo_ctrl5_t *)
Definition lsm6ds3tr_c_fifo_ctrl5_t : layout :=
  [("fifo_mode", 3); ("odr_fifo", 4); ("not_used_01", 1)]%string.
(* @ lsm6ds3tr-c_reg.h:288-299 lsm6ds3tr_c_drdy_pulse_cfg_g_t *)
Definition lsm6ds3tr_c_drdy_pulse_cfg_g_t : layout :=
  [("int2_wrist_tilt", 1); ("not_used_01", 6); ("drdy_pulsed", 1)]%string.
(* @ lsm6ds3tr-c_reg.h:302-323 lsm6ds3tr_c_int1_ctrl_t *)
Definition lsm6ds3tr_c_int1_ctrl_t : layout :=
  [("int1_drdy_xl", 1); ("int1_drdy_g", 1); ("int1_boot", 1); ("int1_fth", 1);
   ("int1_fifo_ovr", 1); ("int1_full_flag", 1); ("int1_sign_mot", 1); ("int1_step_detector", 1)]%string.
(* @ lsm6ds3tr-c_reg.h:326-347 lsm6ds3tr_c_int2_ctrl_t *)
Definition lsm6ds3tr_c_int2_ctrl_t : layout :=
  [("int2_drdy_xl", 1); ("int2_drdy_g", 1); ("int2_drdy_temp", 1); ("int2_fth", 1);
   ("int2_fifo_ovr", 1); ("int2_full_flag", 1); ("int2_step_count_ov", 1); ("int2_step_delta", 1)]%string.
(* @ lsm6ds3tr-c_reg.h:351-364 lsm6ds3tr_c_ctrl1_xl_t *)
Definition lsm6ds3tr_c_ctrl1_xl_t : layout :=
  [("bw0_xl", 1); ("lpf1_bw_sel", 1); ("fs_xl", 2); ("odr_xl", 4)]%string.
(* @ lsm6ds3tr-c_reg.h:367-378 lsm6ds3tr_c_ctrl2_g_t *)
Definition lsm6ds3tr_c_ctrl2_g_t : layout :=
  [("not_used_01", 1); ("fs_g", 3); ("odr_g", 4)]%string.
(* @ lsm6ds3tr-c_reg.h:381-402 lsm6ds3tr_c_ctrl3_c_t *)
Definition lsm6ds3tr_c_ctrl3_c_t : layout :=
  [("sw_reset", 1); ("ble", 1); ("if_inc", 1); ("sim", 1); ("pp_od", 1); ("h_lactive", 1);
   ("bdu", 1); ("boot", 1)]%string.
(* @ lsm6ds3tr-c_reg.h:405-426 lsm6ds3tr_c_ctrl4_c_t *)
Definition lsm6ds3tr_c_ctrl4_c_t : layout :=
  [("not_used_01", 1); ("lpf1_sel_g", 1); ("i2c_disable", 1); ("drdy_mask", 1);
   ("den_drdy_int1", 1); ("int2_on_int1", 1); ("sleep", 1); ("den_xl_en", 1)]%string.
(* @ lsm6ds3tr-c_reg.h:429-442 lsm6ds3tr_c_ctrl5_c_t *)
Definition lsm6ds3tr_c_ctrl5_c_t : layout :=
  [("st_xl", 2); ("st_g", 2); ("den_lh", 1); ("rounding", 3)]%string.
(* @ lsm6ds3tr-c_reg.h:445-460 lsm6ds3tr_c_ctrl6_c_t *)
Definition lsm6ds3tr_c_ctrl6_c_t : layout :=
  [("ftype", 2); ("not_used_01", 1); ("usr_off_w", 1); ("xl_hm_mode", 1); ("den_mode", 3)]%string.
(* @ lsm6ds3tr-c_reg.h:463-480 lsm6ds3tr_c_ctrl7_g_t *)
Definition lsm6ds3tr_c_ctrl7_g_t : layout :=
  [("not_used_01", 2); ("rounding_status", 1); ("not_used_02", 1); ("hpm_g", 2); ("hp_en_g", 1);
   ("g_hm_mode", 1)]%string.
(* @ lsm6ds3tr-c_reg.h:483-502 lsm6ds3tr_c_ctrl8_xl_t *)
Definition lsm6ds3tr_c_ctrl8_xl_t : layout :=
  [("low_pass_on_6d", 1); ("not_used_01", 1); ("hp_slope_xl_en", 1); ("input_composite", 1);
   ("hp_ref_mode", 1); ("hpcf_xl", 2); ("lpf2_xl_en", 1)]%string.
(* @ lsm6ds3tr-c_reg.h:505-524 lsm6ds3tr_c_ctrl9_xl_t *)
Definition lsm6ds3tr_c_ctrl9_xl_t : layout :=
  [("not_used_01", 2); ("soft_en", 1); ("not_used_02", 1); ("den_xl_g", 1); ("den_z", 1);
   ("den_y", 1); ("den_x", 1)]%string.
(* @ lsm6ds3tr-c_reg.h:527-548 lsm6ds3tr_c_ctrl10_c_t *)
Definition lsm6ds3tr_c_ctrl10_c_t : layout :=
  [("sign_motion_en", 1); ("pedo_rst_step", 1); ("func_en", 1); ("tilt_en", 1); ("pedo_en", 1);
   ("timer_en", 1); ("not_used_01", 1); ("wrist_tilt_en", 1)]%string.
(* @ lsm6ds3tr-c_reg.h:551-572 lsm6ds3tr_c_master_config_t *)
Definition lsm6ds3tr_c_master_config_t : layout :=
  [("master_on", 1); ("iron_en", 1); ("pass_through_mode", 1); ("pull_up_en", 1);
   ("start_config", 1); ("not_used_01", 1); ("data_valid_sel_fifo", 1); ("drdy_on_int1", 1)]%string.
(* @ lsm6ds3tr-c_reg.h:597-618 lsm6ds3tr_c_tap_src_t *)
Definition lsm6ds3tr_c_tap_src_t : layout :=
  [("z_tap", 1); ("y_tap", 1); ("x_tap", 1); ("tap_sign", 1); ("double_tap", 1);
   ("single_tap", 1); ("tap_ia", 1); ("not_used_01", 1)]%string.
(* @ lsm6ds3tr-c_reg.h:645-658 lsm6ds3tr_c_status_reg_t *)
Definition lsm6ds3tr_c_status_reg_t : layout :=
  [("xlda", 1); ("gda", 1); ("tda", 1); ("not_used_01", 5)]%string.
(* @ lsm6ds3tr-c_reg.h:963-966 lsm6ds3tr_c_fifo_status1_t *)
Definition lsm6ds3tr_c_fifo_status1_t : layout :=
  [("diff_fifo", 8)]%string.
(* @ lsm6ds3tr-c_reg.h:969-986 lsm6ds3tr_c_fifo_status2_t *)
Definition lsm6ds3tr_c_fifo_status2_t : layout :=
  [("diff_fifo", 3); ("not_used_01", 1); ("fifo_empty", 1); ("fifo_full_smart", 1);
   ("over_run", 1); ("waterm", 1)]%string.
(* @ lsm6ds3tr-c_reg.h:989-992 lsm6ds3tr_c_fifo_status3_t *)
Definition lsm6ds3tr_c_fifo_status3_t : layout :=
  [("fifo_pattern", 8)]%string.
(* @ lsm6ds3tr-c_reg.h:995-1004 lsm6ds3tr_c_fifo_status4_t *)
Definition lsm6ds3tr_c_fifo_status4_t : layout :=
  [("fifo_pattern", 2); ("not_used_01", 6)]%string.
(* @ lsm6ds3tr-c_reg.h:1229-1248 lsm6ds3tr_c_tap_cfg_t *)
Definition lsm6ds3tr_c_tap_cfg_t : layout :=
  [("lir", 1); ("tap_z_en", 1); ("tap_y_en", 1); ("tap_x_en", 1); ("slope_fds", 1);
   ("inact_en", 2); ("interrupts_enable", 1)]%string.
(* @ lsm6ds3tr-c_reg.h:1251-1262 lsm6ds3tr_c_tap_ths_6d_t *)
Definition lsm6ds3tr_c_tap_ths_6d_t : layout :=
  [("tap_ths", 5); ("sixd_ths", 2); ("d4d_en", 1)]%string.
(* @ lsm6ds3tr-c_reg.h:1265-1276 lsm6ds3tr_c_int_dur2_t *)
Definition lsm6ds3tr_c_int_dur2_t : layout :=
  [("shock", 2); ("quiet", 2); ("dur", 4)]%string.
(* @ lsm6ds3tr-c_reg.h:1279-1290 lsm6ds3tr_c_wake_up_ths_t *)
Definition lsm6ds3tr_c_wake_up_ths_t : layout :=
  [("wk_ths", 6); ("not_used_01", 1); ("single_double_tap", 1)]%string.
(* @ lsm6ds3tr-c_reg.h:1293-1306 lsm6ds3tr_c_wake_up_dur_t *)
Definition lsm6ds3tr_c_wake_up_dur_t : layout :=
  [("sleep_dur", 4); ("timer_hr", 1); ("wake_dur", 2); ("ff_dur", 1)]%string.
(* @ lsm6ds3tr-c_reg.h:1309-1318 lsm6ds3tr_c_free_fall_t *)
Definition lsm6ds3tr_c_free_fall_t : layout :=
  [("ff_ths", 3); ("ff_dur", 5)]%string.
(* @ lsm6ds3tr-c_reg.h:1321-1342 lsm6ds3tr_c_md1_cfg_t *)
Definition lsm6ds3tr_c_md1_cfg_t : layout :=
  [("int1_timer", 1); ("int1_tilt", 1); ("int1_6d", 1); ("int1_double_tap", 1); ("int1_ff", 1);
   ("int1_wu", 1); ("int1_single_tap", 1); ("int1_inact_state", 1)]%string.
(* @ lsm6ds3tr-c_reg.h:1345-1366 lsm6ds3tr_c_md2_cfg_t *)
Definition lsm6ds3tr_c_md2_cfg_t : layout :=
  [("int2_iron", 1); ("int2_tilt", 1); ("int2_6d", 1); ("int2_double_tap", 1); ("int2_ff", 1);
   ("int2_wu", 1); ("int2_single_tap", 1); ("int2_inact_state", 1)]%string.
(* @ lsm6ds3tr-c_reg.h:1369-1372 lsm6ds3tr_c_master_cmd_code_t *)
Definition lsm6ds3tr_c_master_cmd_code_t : layout :=
  [("master_cmd_code", 8)]%string.
(* @ lsm6ds3tr-c_reg.h:1375-1378 lsm6ds3tr_c_sens_sync_spi_error_code_t *)
Definition lsm6ds3tr_c_sens_sync_spi_error_code_t : layout :=
  [("error_code", 8)]%string.
(* @ lsm6ds3tr-c_reg.h:1390-1399 lsm6ds3tr_c_slv0_add_t *)
Definition lsm6ds3tr_c_slv0_add_t : layout :=
  [("rw_0", 1); ("slave0_add", 7)]%string.
(* @ lsm6ds3tr-c_reg.h:1408-1421 lsm6ds3tr_c_slave0_config_t *)
Definition lsm6ds3tr_c_slave0_config_t : layout :=
  [("slave0_numop", 3); ("src_mode", 1); ("aux_sens_on", 2); ("slave0_rate", 2)]%string.
(* @ lsm6ds3tr-c_reg.h:1424-1433 lsm6ds3tr_c_slv1_add_t *)
Definition lsm6ds3tr_c_slv1_add_t : layout :=
  [("r_1", 1); ("slave1_add", 7)]%string.
(* @ lsm6ds3tr-c_reg.h:1442-1455 lsm6ds3tr_c_slave1_config_t *)
Definition lsm6ds3tr_c_slave1_config_t : layout :=
  [("slave1_numop", 3); ("not_used_01", 2); ("write_once", 1); ("slave1_rate", 2)]%string.
(* @ lsm6ds3tr-c_reg.h:1458-1467 lsm6ds3tr_c_slv2_add_t *)
Definition lsm6ds3tr_c_slv2_add_t : layout :=
  [("r_2", 1); ("slave2_add", 7)]%string.
(* @ lsm6ds3tr-c_reg.h:1476-1487 lsm6ds3tr_c_slave2_config_t *)
Definition lsm6ds3tr_c_slave2_config_t : layout :=
  [("slave2_numop", 3); ("not_used_01", 3); ("slave2_rate", 2)]%string.
(* @ lsm6ds3tr-c_reg.h:1490-1499 lsm6ds3tr_c_slv3_add_t *)
Definition lsm6ds3tr_c_slv3_add_t : layout :=
  [("r_3", 1); ("slave3_add", 7)]%string.
(* @ lsm6ds3tr-c_reg.h:1508-1519 lsm6ds3tr_c_slave3_config_t *)
Definition lsm6ds3tr_c_slave3_config_t : layout :=
  [("slave3_numop", 3); ("not_used_01", 3); ("slave3_rate", 2)]%string.
(* @ lsm6ds3tr-c_reg.h:1528-1539 lsm6ds3tr_c_config_pedo_ths_min_t *)
Definition lsm6ds3tr_c_config_pedo_ths_min_t : layout :=
  [("ths_min", 5); ("not_used_01", 2); ("pedo_fs", 1)]%string.
(* @ lsm6ds3tr-c_reg.h:1543-1552 lsm6ds3tr_c_pedo_deb_reg_t *)
Definition lsm6ds3tr_c_pedo_deb_reg_t : layout :=
  [("deb_step", 3); ("deb_time", 5)]%string.
(* @ lsm6ds3tr-c_reg.h:1573-1592 lsm6ds3tr_c_a_wrist_tilt_mask_t *)
Definition lsm6ds3tr_c_a_wrist_tilt_mask_t : layout :=
  [("not_used_01", 2); ("wrist_tilt_mask_zneg", 1); ("wrist_tilt_mask_zpos", 1);
   ("wrist_tilt_mask_yneg", 1); ("wrist_tilt_mask_ypos", 1); ("wrist_tilt_mask_xneg", 1);
   ("wrist_tilt_mask_xpos", 1)]%string.
(* @ lsm6ds3tr-c_reg.h:1846-1856 lsm6ds3tr_c_all_sources_t *)
Definition lsm6ds3tr_c_all_sources_t : layout :=
  [("wake_up_src", 8); ("tap_src", 8); ("d6d_src", 8); ("status_reg", 8); ("func_src1", 8);
   ("func_src2", 8); ("wrist_tilt_ia", 8); ("a_wrist_tilt_mask", 8)]%string.
(* @ lsm6ds3tr-c_reg.h:2112-2132 lsm6ds3tr_c_int1_route_t *)
Definition lsm6ds3tr_c_int1_route_t : layout :=
  [("int1_drdy_xl", 1); ("int1_drdy_g", 1); ("int1_boot", 1); ("int1_fth", 1);
   ("int1_fifo_ovr", 1); ("int1_full_flag", 1); ("int1_sign_mot", 1); ("int1_step_detector", 1);
   ("int1_timer", 1); ("int1_tilt", 1); ("int1_6d", 1); ("int1_double_tap", 1); ("int1_ff", 1);
   ("int1_wu", 1); ("int1_single_tap", 1); ("int1_inact_state", 1); ("den_drdy_int1", 1);
   ("drdy_on_int1", 1)]%string.
(* @ lsm6ds3tr-c_reg.h:2138-2157 lsm6ds3tr_c_int2_route_t *)
Definition lsm6ds3tr_c_int2_route_t : layout :=
  [("int2_drdy_xl", 1); ("int2_drdy_g", 1); ("int2_drdy_temp", 1); ("int2_fth", 1);
   ("int2_fifo_ovr", 1); ("int2_full_flag", 1); ("int2_step_count_ov", 1); ("int2_step_delta", 1);
   ("int2_iron", 1); ("int2_tilt", 1); ("int2_6d", 1); ("int2_double_tap", 1); ("int2_ff", 1);
   ("int2_wu", 1); ("int2_single_tap", 1); ("int2_inact_state", 1); ("int2_wrist_tilt", 1)]%string.
(* @ lsm6ds3tr-c_reg.h:2659-2679 lsm6ds3tr_c_emb_sh_read_t *)
Definition lsm6ds3tr_c_emb_sh_read_t : layout :=
  [("sh_byte_1", 8); ("sh_byte_2", 8); ("sh_byte_3", 8); ("sh_byte_4", 8); ("sh_byte_5", 8);
   ("sh_byte_6", 8); ("sh_byte_7", 8); ("sh_byte_8", 8); ("sh_byte_9", 8); ("sh_byte_10", 8);
   ("sh_byte_11", 8); ("sh_byte_12", 8); ("sh_byte_13", 8); ("sh_byte_14", 8); ("sh_byte_15", 8);
   ("sh_byte_16", 8); ("sh_byte_17", 8); ("sh_byte_18", 8)]%string.
(* @ lsm6ds3tr-c_reg.h:2706-2711 lsm6ds3tr_c_sh_cfg_write_t *)
Definition lsm6ds3tr_c_sh_cfg_write_t : layout :=
  [("slv0_add", 8); ("slv0_subadd", 8); ("slv0_data", 8)]%string.
(* @ lsm6ds3tr-c_reg.h:2715-2720 lsm6ds3tr_c_sh_cfg_read_t *)
Definition lsm6ds3tr_c_sh_cfg_read_t : layout :=
  [("slv_add", 8); ("slv_subadd", 8); ("slv_len", 8)]%string.

(** ** Enumerations *)

(* @ lsm6ds3tr-c_reg.h:1729-1736 lsm6ds3tr_c_fs_xl_t *)
Inductive lsm6ds3tr_c_fs_xl_t :=
  | LSM6DS3TR_C_2g | LSM6DS3TR_C_16g | LSM6DS3TR_C_4g | LSM6DS3TR_C_8g | LSM6DS3TR_C_XL_FS_ND.
#[export] Instance fs_xl_code : Enum lsm6ds3tr_c_fs_xl_t := fun val =>
  match val with
  | LSM6DS3TR_C_2g => 0 | LSM6DS3TR_C_16g => 1 | LSM6DS3TR_C_4g => 2 | LSM6DS3TR_C_8g => 3
  | LSM6DS3TR_C_XL_FS_ND => 4
  end.
(* @ lsm6ds3tr-c_reg.h:1742-1757 lsm6ds3tr_c_odr_xl_t *)
Inductive lsm6ds3tr_c_odr_xl_t :=
  | LSM6DS3TR_C_XL_ODR_OFF | LSM6DS3TR_C_XL_ODR_12Hz5 | LSM6DS3TR_C_XL_ODR_26Hz
  | LSM6DS3TR_C_XL_ODR_52Hz | LSM6DS3TR_C_XL_ODR_104Hz | LSM6DS3TR_C_XL_ODR_208Hz
  | LSM6DS3TR_C_XL_ODR_416Hz | LSM6DS3TR_C_XL_ODR_833Hz | LSM6DS3TR_C_XL_ODR_1k66Hz
  | LSM6DS3TR_C_XL_ODR_3k33Hz | LSM6DS3TR_C_XL_ODR_6k66Hz | LSM6DS3TR_C_XL_ODR_1Hz6
  | LSM6DS3TR_C_XL_ODR_ND.
#[export] Instance odr_xl_code : Enum lsm6ds3tr_c_odr_xl_t := fun val =>
  match val with
  | LSM6DS3TR_C_XL_ODR_OFF => 0 | LSM6DS3TR_C_XL_ODR_12Hz5 => 1 | LSM6DS3TR_C_XL_ODR_26Hz => 2
  | LSM6DS3TR_C_XL_ODR_52Hz => 3 | LSM6DS3TR_C_XL_ODR_104Hz => 4 | LSM6DS3TR_C_XL_ODR_208Hz => 5
  | LSM6DS3TR_C_XL_ODR_416Hz => 6 | LSM6DS3TR_C_XL_ODR_833Hz => 7 | LSM6DS3TR_C_XL_ODR_1k66Hz => 8
  | LSM6DS3TR_C_XL_ODR_3k33Hz => 9 | LSM6DS3TR_C_XL_ODR_6k66Hz => 10
  | LSM6DS3TR_C_XL_ODR_1Hz6 => 11 | LSM6DS3TR_C_XL_ODR_ND => 12
  end.
(* @ lsm6ds3tr-c_reg.h:1763-1771 lsm6ds3tr_c_fs_g_t *)
Inductive lsm6ds3tr_c_fs_g_t :=
  | LSM6DS3TR_C_250dps | LSM6DS3TR_C_125dps | LSM6DS3TR_C_500dps | LSM6DS3TR_C_1000dps
  | LSM6DS3TR_C_2000dps | LSM6DS3TR_C_GY_FS_ND.
#[export] Instance fs_g_code : Enum lsm6ds3tr_c_fs_g_t := fun val =>
  match val with
  | LSM6DS3TR_C_250dps => 0 | LSM6DS3TR_C_125dps => 1 | LSM6DS3TR_C_500dps => 2
  | LSM6DS3TR_C_1000dps => 4 | LSM6DS3TR_C_2000dps => 6 | LSM6DS3TR_C_GY_FS_ND => 7
  end.
(* @ lsm6ds3tr-c_reg.h:1777-1791 lsm6ds3tr_c_odr_g_t *)
Inductive lsm6ds3tr_c_odr_g_t :=
  | LSM6DS3TR_C_GY_ODR_OFF | LSM6DS3TR_C_GY_ODR_12Hz5 | LSM6DS3TR_C_GY_ODR_26Hz
  | LSM6DS3TR_C_GY_ODR_52Hz | LSM6DS3TR_C_GY_ODR_104Hz | LSM6DS3TR_C_GY_ODR_208Hz
  | LSM6DS3TR_C_GY_ODR_416Hz | LSM6DS3TR_C_GY_ODR_833Hz | LSM6DS3TR_C_GY_ODR_1k66Hz
  | LSM6DS3TR_C_GY_ODR_3k33Hz | LSM6DS3TR_C_GY_ODR_6k66Hz | LSM6DS3TR_C_GY_ODR_ND.
#[export] Instance odr_g_code : Enum lsm6ds3tr_c_odr_g_t := fun val =>
  match val with
  | LSM6DS3TR_C_GY_ODR_OFF => 0 | LSM6DS3TR_C_GY_ODR_12Hz5 => 1 | LSM6DS3TR_C_GY_ODR_26Hz => 2
  | LSM6DS3TR_C_GY_ODR_52Hz => 3 | LSM6DS3TR_C_GY_ODR_104Hz => 4 | LSM6DS3TR_C_GY_ODR_208Hz => 5
  | LSM6DS3TR_C_GY_ODR_416Hz => 6 | LSM6DS3TR_C_GY_ODR_833Hz => 7 | LSM6DS3TR_C_GY_ODR_1k66Hz => 8
  | LSM6DS3TR_C_GY_ODR_3k33Hz => 9 | LSM6DS3TR_C_GY_ODR_6k66Hz => 10 | LSM6DS3TR_C_GY_ODR_ND => 11
  end.
(* @ lsm6ds3tr-c_reg.h:1802-1807 lsm6ds3tr_c_usr_off_w_t *)
Inductive lsm6ds3tr_c_usr_off_w_t :=
  | LSM6DS3TR_C_LSb_1mg | LSM6DS3TR_C_LSb_16mg | LSM6DS3TR_C_WEIGHT_ND.
#[export] Instance usr_off_w_code : Enum lsm6ds3tr_c_usr_off_w_t := fun val =>
  match val with
  | LSM6DS3TR_C_LSb_1mg => 0 | LSM6DS3TR_C_LSb_16mg => 1 | LSM6DS3TR_C_WEIGHT_ND => 2
  end.
(* @ lsm6ds3tr-c_reg.h:1813-1818 lsm6ds3tr_c_xl_hm_mode_t *)
Inductive lsm6ds3tr_c_xl_hm_mode_t :=
  | LSM6DS3TR_C_XL_HIGH_PERFORMANCE | LSM6DS3TR_C_XL_NORMAL | LSM6DS3TR_C_XL_PW_MODE_ND.
#[export] Instance xl_hm_mode_code : Enum lsm6ds3tr_c_xl_hm_mode_t := fun val =>
  match val with
  | LSM6DS3TR_C_XL_HIGH_PERFORMANCE => 0 | LSM6DS3TR_C_XL_NORMAL => 1
  | LSM6DS3TR_C_XL_PW_MODE_ND => 2
  end.
(* @ lsm6ds3tr-c_reg.h:1824-1829 lsm6ds3tr_c_rounding_status_t *)
Inductive lsm6ds3tr_c_rounding_status_t :=
  | LSM6DS3TR_C_STAT_RND_DISABLE | LSM6DS3TR_C_STAT_RND_ENABLE | LSM6DS3TR_C_STAT_RND_ND.
#[export] Instance rounding_status_code : Enum lsm6ds3tr_c_rounding_status_t := fun val =>
  match val with
  | LSM6DS3TR_C_STAT_RND_DISABLE => 0 | LSM6DS3TR_C_STAT_RND_ENABLE => 1
  | LSM6DS3TR_C_STAT_RND_ND => 2
  end.
(* @ lsm6ds3tr-c_reg.h:1835-1840 lsm6ds3tr_c_g_hm_mode_t *)
Inductive lsm6ds3tr_c_g_hm_mode_t :=
  | LSM6DS3TR_C_GY_HIGH_PERFORMANCE | LSM6DS3TR_C_GY_NORMAL | LSM6DS3TR_C_GY_PW_MODE_ND.
#[export] Instance g_hm_mode_code : Enum lsm6ds3tr_c_g_hm_mode_t := fun val =>
  match val with
  | LSM6DS3TR_C_GY_HIGH_PERFORMANCE => 0 | LSM6DS3TR_C_GY_NORMAL => 1
  | LSM6DS3TR_C_GY_PW_MODE_ND => 2
  end.
(* @ lsm6ds3tr-c_reg.h:1879-1884 lsm6ds3tr_c_timer_hr_t *)
Inductive lsm6ds3tr_c_timer_hr_t :=
  | LSM6DS3TR_C_LSB_6ms4 | LSM6DS3TR_C_LSB_25us | LSM6DS3TR_C_TS_RES_ND.
#[export] Instance timer_hr_code : Enum lsm6ds3tr_c_timer_hr_t := fun val =>
  match val with
  | LSM6DS3TR_C_LSB_6ms4 => 0 | LSM6DS3TR_C_LSB_25us => 1 | LSM6DS3TR_C_TS_RES_ND => 2
  end.
(* @ lsm6ds3tr-c_reg.h:1890-1901 lsm6ds3tr_c_rounding_t *)
Inductive lsm6ds3tr_c_rounding_t :=
  | LSM6DS3TR_C_ROUND_DISABLE | LSM6DS3TR_C_ROUND_XL | LSM6DS3TR_C_ROUND_GY
  | LSM6DS3TR_C_ROUND_GY_XL | LSM6DS3TR_C_ROUND_SH1_TO_SH6 | LSM6DS3TR_C_ROUND_XL_SH1_TO_SH6
  | LSM6DS3TR_C_ROUND_GY_XL_SH1_TO_SH12 | LSM6DS3TR_C_ROUND_GY_XL_SH1_TO_SH6
  | LSM6DS3TR_C_ROUND_OUT_ND.
#[export] Instance rounding_code : Enum lsm6ds3tr_c_rounding_t := fun val =>
  match val with
  | LSM6DS3TR_C_ROUND_DISABLE => 0 | LSM6DS3TR_C_ROUND_XL => 1 | LSM6DS3TR_C_ROUND_GY => 2
  | LSM6DS3TR_C_ROUND_GY_XL => 3 | LSM6DS3TR_C_ROUND_SH1_TO_SH6 => 4
  | LSM6DS3TR_C_ROUND_XL_SH1_TO_SH6 => 5 | LSM6DS3TR_C_ROUND_GY_XL_SH1_TO_SH12 => 6
  | LSM6DS3TR_C_ROUND_GY_XL_SH1_TO_SH6 => 7 | LSM6DS3TR_C_ROUND_OUT_ND => 8
  end.
(* @ lsm6ds3tr-c_reg.h:1921-1927 lsm6ds3tr_c_func_cfg_en_t *)
Inductive lsm6ds3tr_c_func_cfg_en_t :=
  | LSM6DS3TR_C_USER_BANK | LSM6DS3TR_C_BANK_A | LSM6DS3TR_C_BANK_B | LSM6DS3TR_C_BANK_ND.
#[export] Instance func_cfg_en_code : Enum lsm6ds3tr_c_func_cfg_en_t := fun val =>
  match val with
  | LSM6DS3TR_C_USER_BANK => 0 | LSM6DS3TR_C_BANK_A => 4 | LSM6DS3TR_C_BANK_B => 5
  | LSM6DS3TR_C_BANK_ND => 6
  end.
(* @ lsm6ds3tr-c_reg.h:1933-1938 lsm6ds3tr_c_drdy_pulsed_g_t *)
Inductive lsm6ds3tr_c_drdy_pulsed_g_t :=
  | LSM6DS3TR_C_DRDY_LATCHED | LSM6DS3TR_C_DRDY_PULSED | LSM6DS3TR_C_DRDY_ND.
#[export] Instance drdy_pulsed_g_code : Enum lsm6ds3tr_c_drdy_pulsed_g_t := fun val =>
  match val with
  | LSM6DS3TR_C_DRDY_LATCHED => 0 | LSM6DS3TR_C_DRDY_PULSED => 1 | LSM6DS3TR_C_DRDY_ND => 2
  end.
(* @ lsm6ds3tr-c_reg.h:1948-1953 lsm6ds3tr_c_ble_t *)
Inductive lsm6ds3tr_c_ble_t :=
  | LSM6DS3TR_C_LSB_AT_LOW_ADD | LSM6DS3TR_C_MSB_AT_LOW_ADD | LSM6DS3TR_C_DATA_FMT_ND.
#[export] Instance ble_code : Enum lsm6ds3tr_c_ble_t := fun val =>
  match val with
  | LSM6DS3TR_C_LSB_AT_LOW_ADD => 0 | LSM6DS3TR_C_MSB_AT_LOW_ADD => 1
  | LSM6DS3TR_C_DATA_FMT_ND => 2
  end.
(* @ lsm6ds3tr-c_reg.h:1967-1973 lsm6ds3tr_c_st_xl_t *)
Inductive lsm6ds3tr_c_st_xl_t :=
  | LSM6DS3TR_C_XL_ST_DISABLE | LSM6DS3TR_C_XL_ST_POSITIVE | LSM6DS3TR_C_XL_ST_NEGATIVE
  | LSM6DS3TR_C_XL_ST_ND.
#[export] Instance st_xl_code : Enum lsm6ds3tr_c_st_xl_t := fun val =>
  match val with
  | LSM6DS3TR_C_XL_ST_DISABLE => 0 | LSM6DS3TR_C_XL_ST_POSITIVE => 1
  | LSM6DS3TR_C_XL_ST_NEGATIVE => 2 | LSM6DS3TR_C_XL_ST_ND => 3
  end.
(* @ lsm6ds3tr-c_reg.h:1979-1985 lsm6ds3tr_c_st_g_t *)
Inductive lsm6ds3tr_c_st_g_t :=
  | LSM6DS3TR_C_GY_ST_DISABLE | LSM6DS3TR_C_GY_ST_POSITIVE | LSM6DS3TR_C_GY_ST_NEGATIVE
  | LSM6DS3TR_C_GY_ST_ND.
#[export] Instance st_g_code : Enum lsm6ds3tr_c_st_g_t := fun val =>
  match val with
  | LSM6DS3TR_C_GY_ST_DISABLE => 0 | LSM6DS3TR_C_GY_ST_POSITIVE => 1
  | LSM6DS3TR_C_GY_ST_NEGATIVE => 3 | LSM6DS3TR_C_GY_ST_ND => 4
  end.
(* @ lsm6ds3tr-c_reg.h:1996-2001 lsm6ds3tr_c_slope_fds_t *)
Inductive lsm6ds3tr_c_slope_fds_t :=
  | LSM6DS3TR_C_USE_SLOPE | LSM6DS3TR_C_USE_HPF | LSM6DS3TR_C_HP_PATH_ND.
#[export] Instance slope_fds_code : Enum lsm6ds3tr_c_slope_fds_t := fun val =>
  match val with
  | LSM6DS3TR_C_USE_SLOPE => 0 | LSM6DS3TR_C_USE_HPF => 1 | LSM6DS3TR_C_HP_PATH_ND => 2
  end.
(* @ lsm6ds3tr-c_reg.h:2007-2012 lsm6ds3tr_c_bw0_xl_t *)
Inductive lsm6ds3tr_c_bw0_xl_t :=
  | LSM6DS3TR_C_XL_ANA_BW_1k5Hz | LSM6DS3TR_C_XL_ANA_BW_400Hz | LSM6DS3TR_C_XL_ANA_BW_ND.
#[export] Instance bw0_xl_code : Enum lsm6ds3tr_c_bw0_xl_t := fun val =>
  match val with
  | LSM6DS3TR_C_XL_ANA_BW_1k5Hz => 0 | LSM6DS3TR_C_XL_ANA_BW_400Hz => 1
  | LSM6DS3TR_C_XL_ANA_BW_ND => 2
  end.
(* @ lsm6ds3tr-c_reg.h:2018-2023 lsm6ds3tr_c_lpf1_bw_sel_t *)
Inductive lsm6ds3tr_c_lpf1_bw_sel_t :=
  | LSM6DS3TR_C_XL_LP1_ODR_DIV_2 | LSM6DS3TR_C_XL_LP1_ODR_DIV_4 | LSM6DS3TR_C_XL_LP1_NA.
#[export] Instance lpf1_bw_sel_code : Enum lsm6ds3tr_c_lpf1_bw_sel_t := fun val =>
  match val with
  | LSM6DS3TR_C_XL_LP1_ODR_DIV_2 => 0 | LSM6DS3TR_C_XL_LP1_ODR_DIV_4 => 1
  | LSM6DS3TR_C_XL_LP1_NA => 2
  end.
(* @ lsm6ds3tr-c_reg.h:2029-2040 lsm6ds3tr_c_input_composite_t *)
Inductive lsm6ds3tr_c_input_composite_t :=
  | LSM6DS3TR_C_XL_LOW_LAT_LP_ODR_DIV_50 | LSM6DS3TR_C_XL_LOW_LAT_LP_ODR_DIV_100
  | LSM6DS3TR_C_XL_LOW_LAT_LP_ODR_DIV_9 | LSM6DS3TR_C_XL_LOW_LAT_LP_ODR_DIV_400
  | LSM6DS3TR_C_XL_LOW_NOISE_LP_ODR_DIV_50 | LSM6DS3TR_C_XL_LOW_NOISE_LP_ODR_DIV_100
  | LSM6DS3TR_C_XL_LOW_NOISE_LP_ODR_DIV_9 | LSM6DS3TR_C_XL_LOW_NOISE_LP_ODR_DIV_400
  | LSM6DS3TR_C_XL_LP_NA.
#[export] Instance input_composite_code : Enum lsm6ds3tr_c_input_composite_t := fun val =>
  match val with
  | LSM6DS3TR_C_XL_LOW_LAT_LP_ODR_DIV_50 => 0x00 | LSM6DS3TR_C_XL_LOW_LAT_LP_ODR_DIV_100 => 0x01
  | LSM6DS3TR_C_XL_LOW_LAT_LP_ODR_DIV_9 => 0x02 | LSM6DS3TR_C_XL_LOW_LAT_LP_ODR_DIV_400 => 0x03
  | LSM6DS3TR_C_XL_LOW_NOISE_LP_ODR_DIV_50 => 0x10
  | LSM6DS3TR_C_XL_LOW_NOISE_LP_ODR_DIV_100 => 0x11
  | LSM6DS3TR_C_XL_LOW_NOISE_LP_ODR_DIV_9 => 0x12
  | LSM6DS3TR_C_XL_LOW_NOISE_LP_ODR_DIV_400 => 0x13 | LSM6DS3TR_C_XL_LP_NA => 0x20
  end.
(* @ lsm6ds3tr-c_reg.h:2051-2058 lsm6ds3tr_c_hpcf_xl_t *)
Inductive lsm6ds3tr_c_hpcf_xl_t :=
  | LSM6DS3TR_C_XL_HP_ODR_DIV_4 | LSM6DS3TR_C_XL_HP_ODR_DIV_100 | LSM6DS3TR_C_XL_HP_ODR_DIV_9
  | LSM6DS3TR_C_XL_HP_ODR_DIV_400 | LSM6DS3TR_C_XL_HP_NA.
#[export] Instance hpcf_xl_code : Enum lsm6ds3tr_c_hpcf_xl_t := fun val =>
  match val with
  | LSM6DS3TR_C_XL_HP_ODR_DIV_4 => 0x00 | LSM6DS3TR_C_XL_HP_ODR_DIV_100 => 0x01
  | LSM6DS3TR_C_XL_HP_ODR_DIV_9 => 0x02 | LSM6DS3TR_C_XL_HP_ODR_DIV_400 => 0x03
  | LSM6DS3TR_C_XL_HP_NA => 0x10
  end.
(* @ lsm6ds3tr-c_reg.h:2064-2084 lsm6ds3tr_c_lpf1_sel_g_t *)
Inductive lsm6ds3tr_c_lpf1_sel_g_t :=
  | LSM6DS3TR_C_LP2_ONLY | LSM6DS3TR_C_HP_16mHz_LP2 | LSM6DS3TR_C_HP_65mHz_LP2
  | LSM6DS3TR_C_HP_260mHz_LP2 | LSM6DS3TR_C_HP_1Hz04_LP2 | LSM6DS3TR_C_HP_DISABLE_LP1_LIGHT
  | LSM6DS3TR_C_HP_DISABLE_LP1_NORMAL | LSM6DS3TR_C_HP_DISABLE_LP_STRONG
  | LSM6DS3TR_C_HP_DISABLE_LP1_AGGRESSIVE | LSM6DS3TR_C_HP_16mHz_LP1_LIGHT
  | LSM6DS3TR_C_HP_65mHz_LP1_NORMAL | LSM6DS3TR_C_HP_260mHz_LP1_STRONG
  | LSM6DS3TR_C_HP_1Hz04_LP1_AGGRESSIVE | LSM6DS3TR_C_HP_GY_BAND_NA.
#[export] Instance lpf1_sel_g_code : Enum lsm6ds3tr_c_lpf1_sel_g_t := fun val =>
  match val with
  | LSM6DS3TR_C_LP2_ONLY => 0x00 | LSM6DS3TR_C_HP_16mHz_LP2 => 0x80
  | LSM6DS3TR_C_HP_65mHz_LP2 => 0x90 | LSM6DS3TR_C_HP_260mHz_LP2 => 0xA0
  | LSM6DS3TR_C_HP_1Hz04_LP2 => 0xB0 | LSM6DS3TR_C_HP_DISABLE_LP1_LIGHT => 0x0A
  | LSM6DS3TR_C_HP_DISABLE_LP1_NORMAL => 0x09 | LSM6DS3TR_C_HP_DISABLE_LP_STRONG => 0x08
  | LSM6DS3TR_C_HP_DISABLE_LP1_AGGRESSIVE => 0x0B | LSM6DS3TR_C_HP_16mHz_LP1_LIGHT => 0x8A
  | LSM6DS3TR_C_HP_65mHz_LP1_NORMAL => 0x99 | LSM6DS3TR_C_HP_260mHz_LP1_STRONG => 0xA8
  | LSM6DS3TR_C_HP_1Hz04_LP1_AGGRESSIVE => 0xBB | LSM6DS3TR_C_HP_GY_BAND_NA => 0xFF
  end.
(* @ lsm6ds3tr-c_reg.h:2090-2095 lsm6ds3tr_c_sim_t *)
Inductive lsm6ds3tr_c_sim_t :=
  | LSM6DS3TR_C_SPI_4_WIRE | LSM6DS3TR_C_SPI_3_WIRE | LSM6DS3TR_C_SPI_MODE_ND.
#[export] Instance sim_code : Enum lsm6ds3tr_c_sim_t := fun val =>
  match val with
  | LSM6DS3TR_C_SPI_4_WIRE => 0 | LSM6DS3TR_C_SPI_3_WIRE => 1 | LSM6DS3TR_C_SPI_MODE_ND => 2
  end.
(* @ lsm6ds3tr-c_reg.h:2101-2106 lsm6ds3tr_c_i2c_disable_t *)
Inductive lsm6ds3tr_c_i2c_disable_t :=
  | LSM6DS3TR_C_I2C_ENABLE | LSM6DS3TR_C_I2C_DISABLE | LSM6DS3TR_C_I2C_MODE_ND.
#[export] Instance i2c_disable_code : Enum lsm6ds3tr_c_i2c_disable_t := fun val =>
  match val with
  | LSM6DS3TR_C_I2C_ENABLE => 0 | LSM6DS3TR_C_I2C_DISABLE => 1 | LSM6DS3TR_C_I2C_MODE_ND => 2
  end.
(* @ lsm6ds3tr-c_reg.h:2163-2168 lsm6ds3tr_c_pp_od_t *)
Inductive lsm6ds3tr_c_pp_od_t :=
  | LSM6DS3TR_C_PUSH_PULL | LSM6DS3TR_C_OPEN_DRAIN | LSM6DS3TR_C_PIN_MODE_ND.
#[export] Instance pp_od_code : Enum lsm6ds3tr_c_pp_od_t := fun val =>
  match val with
  | LSM6DS3TR_C_PUSH_PULL => 0 | LSM6DS3TR_C_OPEN_DRAIN => 1 | LSM6DS3TR_C_PIN_MODE_ND => 2
  end.
(* @ lsm6ds3tr-c_reg.h:2174-2179 lsm6ds3tr_c_h_lactive_t *)
Inductive lsm6ds3tr_c_h_lactive_t :=
  | LSM6DS3TR_C_ACTIVE_HIGH | LSM6DS3TR_C_ACTIVE_LOW | LSM6DS3TR_C_POLARITY_ND.
#[export] Instance h_lactive_code : Enum lsm6ds3tr_c_h_lactive_t := fun val =>
  match val with
  | LSM6DS3TR_C_ACTIVE_HIGH => 0 | LSM6DS3TR_C_ACTIVE_LOW => 1 | LSM6DS3TR_C_POLARITY_ND => 2
  end.
(* @ lsm6ds3tr-c_reg.h:2188-2193 lsm6ds3tr_c_lir_t *)
Inductive lsm6ds3tr_c_lir_t :=
  | LSM6DS3TR_C_INT_PULSED | LSM6DS3TR_C_INT_LATCHED | LSM6DS3TR_C_INT_MODE.
#[export] Instance lir_code : Enum lsm6ds3tr_c_lir_t := fun val =>
  match val with
  | LSM6DS3TR_C_INT_PULSED => 0 | LSM6DS3TR_C_INT_LATCHED => 1 | LSM6DS3TR_C_INT_MODE => 2
  end.
(* @ lsm6ds3tr-c_reg.h:2211-2218 lsm6ds3tr_c_inact_en_t *)
Inductive lsm6ds3tr_c_inact_en_t :=
  | LSM6DS3TR_C_PROPERTY_DISABLE | LSM6DS3TR_C_XL_12Hz5_GY_NOT_AFFECTED
  | LSM6DS3TR_C_XL_12Hz5_GY_SLEEP | LSM6DS3TR_C_XL_12Hz5_GY_PD | LSM6DS3TR_C_ACT_MODE_ND.
#[export] Instance inact_en_code : Enum lsm6ds3tr_c_inact_en_t := fun val =>
  match val with
  | LSM6DS3TR_C_PROPERTY_DISABLE => 0 | LSM6DS3TR_C_XL_12Hz5_GY_NOT_AFFECTED => 1
  | LSM6DS3TR_C_XL_12Hz5_GY_SLEEP => 2 | LSM6DS3TR_C_XL_12Hz5_GY_PD => 3
  | LSM6DS3TR_C_ACT_MODE_ND => 4
  end.
(* @ lsm6ds3tr-c_reg.h:2260-2265 lsm6ds3tr_c_single_double_tap_t *)
Inductive lsm6ds3tr_c_single_double_tap_t :=
  | LSM6DS3TR_C_ONLY_SINGLE | LSM6DS3TR_C_BOTH_SINGLE_DOUBLE | LSM6DS3TR_C_TAP_MODE_ND.
#[export] Instance single_double_tap_code : Enum lsm6ds3tr_c_single_double_tap_t := fun val =>
  match val with
  | LSM6DS3TR_C_ONLY_SINGLE => 0 | LSM6DS3TR_C_BOTH_SINGLE_DOUBLE => 1
  | LSM6DS3TR_C_TAP_MODE_ND => 2
  end.
(* @ lsm6ds3tr-c_reg.h:2271-2276 lsm6ds3tr_c_low_pass_on_6d_t *)
Inductive lsm6ds3tr_c_low_pass_on_6d_t :=
  | LSM6DS3TR_C_ODR_DIV_2_FEED | LSM6DS3TR_C_LPF2_FEED | LSM6DS3TR_C_6D_FEED_ND.
#[export] Instance low_pass_on_6d_code : Enum lsm6ds3tr_c_low_pass_on_6d_t := fun val =>
  match val with
  | LSM6DS3TR_C_ODR_DIV_2_FEED => 0 | LSM6DS3TR_C_LPF2_FEED => 1 | LSM6DS3TR_C_6D_FEED_ND => 2
  end.
(* @ lsm6ds3tr-c_reg.h:2282-2289 lsm6ds3tr_c_sixd_ths_t *)
Inductive lsm6ds3tr_c_sixd_ths_t :=
  | LSM6DS3TR_C_DEG_80 | LSM6DS3TR_C_DEG_70 | LSM6DS3TR_C_DEG_60 | LSM6DS3TR_C_DEG_50
  | LSM6DS3TR_C_6D_TH_ND.
#[export] Instance sixd_ths_code : Enum lsm6ds3tr_c_sixd_ths_t := fun val =>
  match val with
  | LSM6DS3TR_C_DEG_80 => 0 | LSM6DS3TR_C_DEG_70 => 1 | LSM6DS3TR_C_DEG_60 => 2
  | LSM6DS3TR_C_DEG_50 => 3 | LSM6DS3TR_C_6D_TH_ND => 4
  end.
(* @ lsm6ds3tr-c_reg.h:2301-2312 lsm6ds3tr_c_ff_ths_t *)
Inductive lsm6ds3tr_c_ff_ths_t :=
  | LSM6DS3TR_C_FF_TSH_156mg | LSM6DS3TR_C_FF_TSH_219mg | LSM6DS3TR_C_FF_TSH_250mg
  | LSM6DS3TR_C_FF_TSH_312mg | LSM6DS3TR_C_FF_TSH_344mg | LSM6DS3TR_C_FF_TSH_406mg
  | LSM6DS3TR_C_FF_TSH_469mg | LSM6DS3TR_C_FF_TSH_500mg | LSM6DS3TR_C_FF_TSH_ND.
#[export] Instance ff_ths_code : Enum lsm6ds3tr_c_ff_ths_t := fun val =>
  match val with
  | LSM6DS3TR_C_FF_TSH_156mg => 0 | LSM6DS3TR_C_FF_TSH_219mg => 1 | LSM6DS3TR_C_FF_TSH_250mg => 2
  | LSM6DS3TR_C_FF_TSH_312mg => 3 | LSM6DS3TR_C_FF_TSH_344mg => 4 | LSM6DS3TR_C_FF_TSH_406mg => 5
  | LSM6DS3TR_C_FF_TSH_469mg => 6 | LSM6DS3TR_C_FF_TSH_500mg => 7 | LSM6DS3TR_C_FF_TSH_ND => 8
  end.
(* @ lsm6ds3tr-c_reg.h:2337-2343 lsm6ds3tr_c_trigger_fifo_t *)
Inductive lsm6ds3tr_c_trigger_fifo_t :=
  | LSM6DS3TR_C_TRG_XL_GY_DRDY | LSM6DS3TR_C_TRG_STEP_DETECT | LSM6DS3TR_C_TRG_SH_DRDY
  | LSM6DS3TR_C_TRG_SH_ND.
#[export] Instance trigger_fifo_code : Enum lsm6ds3tr_c_trigger_fifo_t := fun val =>
  match val with
  | LSM6DS3TR_C_TRG_XL_GY_DRDY => 0 | LSM6DS3TR_C_TRG_STEP_DETECT => 1
  | LSM6DS3TR_C_TRG_SH_DRDY => 2 | LSM6DS3TR_C_TRG_SH_ND => 3
  end.
(* @ lsm6ds3tr-c_reg.h:2356-2367 lsm6ds3tr_c_dec_fifo_xl_t *)
Inductive lsm6ds3tr_c_dec_fifo_xl_t :=
  | LSM6DS3TR_C_FIFO_XL_DISABLE | LSM6DS3TR_C_FIFO_XL_NO_DEC | LSM6DS3TR_C_FIFO_XL_DEC_2
  | LSM6DS3TR_C_FIFO_XL_DEC_3 | LSM6DS3TR_C_FIFO_XL_DEC_4 | LSM6DS3TR_C_FIFO_XL_DEC_8
  | LSM6DS3TR_C_FIFO_XL_DEC_16 | LSM6DS3TR_C_FIFO_XL_DEC_32 | LSM6DS3TR_C_FIFO_XL_DEC_ND.
#[export] Instance dec_fifo_xl_code : Enum lsm6ds3tr_c_dec_fifo_xl_t := fun val =>
  match val with
  | LSM6DS3TR_C_FIFO_XL_DISABLE => 0 | LSM6DS3TR_C_FIFO_XL_NO_DEC => 1
  | LSM6DS3TR_C_FIFO_XL_DEC_2 => 2 | LSM6DS3TR_C_FIFO_XL_DEC_3 => 3
  | LSM6DS3TR_C_FIFO_XL_DEC_4 => 4 | LSM6DS3TR_C_FIFO_XL_DEC_8 => 5
  | LSM6DS3TR_C_FIFO_XL_DEC_16 => 6 | LSM6DS3TR_C_FIFO_XL_DEC_32 => 7
  | LSM6DS3TR_C_FIFO_XL_DEC_ND => 8
  end.
(* @ lsm6ds3tr-c_reg.h:2373-2384 lsm6ds3tr_c_dec_fifo_gyro_t *)
Inductive lsm6ds3tr_c_dec_fifo_gyro_t :=
  | LSM6DS3TR_C_FIFO_GY_DISABLE | LSM6DS3TR_C_FIFO_GY_NO_DEC | LSM6DS3TR_C_FIFO_GY_DEC_2
  | LSM6DS3TR_C_FIFO_GY_DEC_3 | LSM6DS3TR_C_FIFO_GY_DEC_4 | LSM6DS3TR_C_FIFO_GY_DEC_8
  | LSM6DS3TR_C_FIFO_GY_DEC_16 | LSM6DS3TR_C_FIFO_GY_DEC_32 | LSM6DS3TR_C_FIFO_GY_DEC_ND.
#[export] Instance dec_fifo_gyro_code : Enum lsm6ds3tr_c_dec_fifo_gyro_t := fun val =>
  match val with
  | LSM6DS3TR_C_FIFO_GY_DISABLE => 0 | LSM6DS3TR_C_FIFO_GY_NO_DEC => 1
  | LSM6DS3TR_C_FIFO_GY_DEC_2 => 2 | LSM6DS3TR_C_FIFO_GY_DEC_3 => 3
  | LSM6DS3TR_C_FIFO_GY_DEC_4 => 4 | LSM6DS3TR_C_FIFO_GY_DEC_8 => 5
  | LSM6DS3TR_C_FIFO_GY_DEC_16 => 6 | LSM6DS3TR_C_FIFO_GY_DEC_32 => 7
  | LSM6DS3TR_C_FIFO_GY_DEC_ND => 8
  end.
(* @ lsm6ds3tr-c_reg.h:2390-2401 lsm6ds3tr_c_dec_ds3_fifo_t *)
Inductive lsm6ds3tr_c_dec_ds3_fifo_t :=
  | LSM6DS3TR_C_FIFO_DS3_DISABLE | LSM6DS3TR_C_FIFO_DS3_NO_DEC | LSM6DS3TR_C_FIFO_DS3_DEC_2
  | LSM6DS3TR_C_FIFO_DS3_DEC_3 | LSM6DS3TR_C_FIFO_DS3_DEC_4 | LSM6DS3TR_C_FIFO_DS3_DEC_8
  | LSM6DS3TR_C_FIFO_DS3_DEC_16 | LSM6DS3TR_C_FIFO_DS3_DEC_32 | LSM6DS3TR_C_FIFO_DS3_DEC_ND.
#[export] Instance dec_ds3_fifo_code : Enum lsm6ds3tr_c_dec_ds3_fifo_t := fun val =>
  match val with
  | LSM6DS3TR_C_FIFO_DS3_DISABLE => 0 | LSM6DS3TR_C_FIFO_DS3_NO_DEC => 1
  | LSM6DS3TR_C_FIFO_DS3_DEC_2 => 2 | LSM6DS3TR_C_FIFO_DS3_DEC_3 => 3
  | LSM6DS3TR_C_FIFO_DS3_DEC_4 => 4 | LSM6DS3TR_C_FIFO_DS3_DEC_8 => 5
  | LSM6DS3TR_C_FIFO_DS3_DEC_16 => 6 | LSM6DS3TR_C_FIFO_DS3_DEC_32 => 7
  | LSM6DS3TR_C_FIFO_DS3_DEC_ND => 8
  end.
(* @ lsm6ds3tr-c_reg.h:2407-2418 lsm6ds3tr_c_dec_ds4_fifo_t *)
Inductive lsm6ds3tr_c_dec_ds4_fifo_t :=
  | LSM6DS3TR_C_FIFO_DS4_DISABLE | LSM6DS3TR_C_FIFO_DS4_NO_DEC | LSM6DS3TR_C_FIFO_DS4_DEC_2
  | LSM6DS3TR_C_FIFO_DS4_DEC_3 | LSM6DS3TR_C_FIFO_DS4_DEC_4 | LSM6DS3TR_C_FIFO_DS4_DEC_8
  | LSM6DS3TR_C_FIFO_DS4_DEC_16 | LSM6DS3TR_C_FIFO_DS4_DEC_32 | LSM6DS3TR_C_FIFO_DS4_DEC_ND.
#[export] Instance dec_ds4_fifo_code : Enum lsm6ds3tr_c_dec_ds4_fifo_t := fun val =>
  match val with
  | LSM6DS3TR_C_FIFO_DS4_DISABLE => 0 | LSM6DS3TR_C_FIFO_DS4_NO_DEC => 1
  | LSM6DS3TR_C_FIFO_DS4_DEC_2 => 2 | LSM6DS3TR_C_FIFO_DS4_DEC_3 => 3
  | LSM6DS3TR_C_FIFO_DS4_DEC_4 => 4 | LSM6DS3TR_C_FIFO_DS4_DEC_8 => 5
  | LSM6DS3TR_C_FIFO_DS4_DEC_16 => 6 | LSM6DS3TR_C_FIFO_DS4_DEC_32 => 7
  | LSM6DS3TR_C_FIFO_DS4_DEC_ND => 8
  end.
(* @ lsm6ds3tr-c_reg.h:2434-2442 lsm6ds3tr_c_fifo_mode_t *)
Inductive lsm6ds3tr_c_fifo_mode_t :=
  | LSM6DS3TR_C_BYPASS_MODE | LSM6DS3TR_C_FIFO_MODE | LSM6DS3TR_C_STREAM_TO_FIFO_MODE
  | LSM6DS3TR_C_BYPASS_TO_STREAM_MODE | LSM6DS3TR_C_STREAM_MODE | LSM6DS3TR_C_FIFO_MODE_ND.
#[export] Instance fifo_mode_code : Enum lsm6ds3tr_c_fifo_mode_t := fun val =>
  match val with
  | LSM6DS3TR_C_BYPASS_MODE => 0 | LSM6DS3TR_C_FIFO_MODE => 1
  | LSM6DS3TR_C_STREAM_TO_FIFO_MODE => 3 | LSM6DS3TR_C_BYPASS_TO_STREAM_MODE => 4
  | LSM6DS3TR_C_STREAM_MODE => 6 | LSM6DS3TR_C_FIFO_MODE_ND => 8
  end.
(* @ lsm6ds3tr-c_reg.h:2448-2462 lsm6ds3tr_c_odr_fifo_t *)
Inductive lsm6ds3tr_c_odr_fifo_t :=
  | LSM6DS3TR_C_FIFO_DISABLE | LSM6DS3TR_C_FIFO_12Hz5 | LSM6DS3TR_C_FIFO_26Hz
  | LSM6DS3TR_C_FIFO_52Hz | LSM6DS3TR_C_FIFO_104Hz | LSM6DS3TR_C_FIFO_208Hz
  | LSM6DS3TR_C_FIFO_416Hz | LSM6DS3TR_C_FIFO_833Hz | LSM6DS3TR_C_FIFO_1k66Hz
  | LSM6DS3TR_C_FIFO_3k33Hz | LSM6DS3TR_C_FIFO_6k66Hz | LSM6DS3TR_C_FIFO_RATE_ND.
#[export] Instance odr_fifo_code : Enum lsm6ds3tr_c_odr_fifo_t := fun val =>
  match val with
  | LSM6DS3TR_C_FIFO_DISABLE => 0 | LSM6DS3TR_C_FIFO_12Hz5 => 1 | LSM6DS3TR_C_FIFO_26Hz => 2
  | LSM6DS3TR_C_FIFO_52Hz => 3 | LSM6DS3TR_C_FIFO_104Hz => 4 | LSM6DS3TR_C_FIFO_208Hz => 5
  | LSM6DS3TR_C_FIFO_416Hz => 6 | LSM6DS3TR_C_FIFO_833Hz => 7 | LSM6DS3TR_C_FIFO_1k66Hz => 8
  | LSM6DS3TR_C_FIFO_3k33Hz => 9 | LSM6DS3TR_C_FIFO_6k66Hz => 10 | LSM6DS3TR_C_FIFO_RATE_ND => 11
  end.
(* @ lsm6ds3tr-c_reg.h:2468-2473 lsm6ds3tr_c_den_lh_t *)
Inductive lsm6ds3tr_c_den_lh_t :=
  | LSM6DS3TR_C_DEN_ACT_LOW | LSM6DS3TR_C_DEN_ACT_HIGH | LSM6DS3TR_C_DEN_POL_ND.
#[export] Instance den_lh_code : Enum lsm6ds3tr_c_den_lh_t := fun val =>
  match val with
  | LSM6DS3TR_C_DEN_ACT_LOW => 0 | LSM6DS3TR_C_DEN_ACT_HIGH => 1 | LSM6DS3TR_C_DEN_POL_ND => 2
  end.
(* @ lsm6ds3tr-c_reg.h:2479-2487 lsm6ds3tr_c_den_mode_t *)
Inductive lsm6ds3tr_c_den_mode_t :=
  | LSM6DS3TR_C_DEN_DISABLE | LSM6DS3TR_C_LEVEL_FIFO | LSM6DS3TR_C_LEVEL_LETCHED
  | LSM6DS3TR_C_LEVEL_TRIGGER | LSM6DS3TR_C_EDGE_TRIGGER | LSM6DS3TR_C_DEN_MODE_ND.
#[export] Instance den_mode_code : Enum lsm6ds3tr_c_den_mode_t := fun val =>
  match val with
  | LSM6DS3TR_C_DEN_DISABLE => 0 | LSM6DS3TR_C_LEVEL_FIFO => 6 | LSM6DS3TR_C_LEVEL_LETCHED => 3
  | LSM6DS3TR_C_LEVEL_TRIGGER => 2 | LSM6DS3TR_C_EDGE_TRIGGER => 4 | LSM6DS3TR_C_DEN_MODE_ND => 5
  end.
(* @ lsm6ds3tr-c_reg.h:2493-2499 lsm6ds3tr_c_den_xl_en_t *)
Inductive lsm6ds3tr_c_den_xl_en_t :=
  | LSM6DS3TR_C_STAMP_IN_GY_DATA | LSM6DS3TR_C_STAMP_IN_XL_DATA | LSM6DS3TR_C_STAMP_IN_GY_XL_DATA
  | LSM6DS3TR_C_DEN_STAMP_ND.
#[export] Instance den_xl_en_code : Enum lsm6ds3tr_c_den_xl_en_t := fun val =>
  match val with
  | LSM6DS3TR_C_STAMP_IN_GY_DATA => 0 | LSM6DS3TR_C_STAMP_IN_XL_DATA => 1
  | LSM6DS3TR_C_STAMP_IN_GY_XL_DATA => 2 | LSM6DS3TR_C_DEN_STAMP_ND => 3
  end.
(* @ lsm6ds3tr-c_reg.h:2533-2538 lsm6ds3tr_c_pedo_fs_t *)
Inductive lsm6ds3tr_c_pedo_fs_t :=
  | LSM6DS3TR_C_PEDO_AT_2g | LSM6DS3TR_C_PEDO_AT_4g | LSM6DS3TR_C_PEDO_FS_ND.
#[export] Instance pedo_fs_code : Enum lsm6ds3tr_c_pedo_fs_t := fun val =>
  match val with
  | LSM6DS3TR_C_PEDO_AT_2g => 0 | LSM6DS3TR_C_PEDO_AT_4g => 1 | LSM6DS3TR_C_PEDO_FS_ND => 2
  end.
(* @ lsm6ds3tr-c_reg.h:2611-2618 lsm6ds3tr_c_rr_t *)
Inductive lsm6ds3tr_c_rr_t :=
  | LSM6DS3TR_C_RES_RATIO_2_11 | LSM6DS3TR_C_RES_RATIO_2_12 | LSM6DS3TR_C_RES_RATIO_2_13
  | LSM6DS3TR_C_RES_RATIO_2_14 | LSM6DS3TR_C_RES_RATIO_ND.
#[export] Instance rr_code : Enum lsm6ds3tr_c_rr_t := fun val =>
  match val with
  | LSM6DS3TR_C_RES_RATIO_2_11 => 0 | LSM6DS3TR_C_RES_RATIO_2_12 => 1
  | LSM6DS3TR_C_RES_RATIO_2_13 => 2 | LSM6DS3TR_C_RES_RATIO_2_14 => 3
  | LSM6DS3TR_C_RES_RATIO_ND => 4
  end.
(* @ lsm6ds3tr-c_reg.h:2632-2637 lsm6ds3tr_c_pull_up_en_t *)
Inductive lsm6ds3tr_c_pull_up_en_t :=
  | LSM6DS3TR_C_EXT_PULL_UP | LSM6DS3TR_C_INTERNAL_PULL_UP | LSM6DS3TR_C_SH_PIN_MODE.
#[export] Instance pull_up_en_code : Enum lsm6ds3tr_c_pull_up_en_t := fun val =>
  match val with
  | LSM6DS3TR_C_EXT_PULL_UP => 0 | LSM6DS3TR_C_INTERNAL_PULL_UP => 1
  | LSM6DS3TR_C_SH_PIN_MODE => 2
  end.
(* @ lsm6ds3tr-c_reg.h:2643-2648 lsm6ds3tr_c_start_config_t *)
Inductive lsm6ds3tr_c_start_config_t :=
  | LSM6DS3TR_C_XL_GY_DRDY | LSM6DS3TR_C_EXT_ON_INT2_PIN | LSM6DS3TR_C_SH_SYNCRO_ND.
#[export] Instance start_config_code : Enum lsm6ds3tr_c_start_config_t := fun val =>
  match val with
  | LSM6DS3TR_C_XL_GY_DRDY => 0 | LSM6DS3TR_C_EXT_ON_INT2_PIN => 1 | LSM6DS3TR_C_SH_SYNCRO_ND => 2
  end.
(* @ lsm6ds3tr-c_reg.h:2693-2700 lsm6ds3tr_c_aux_sens_on_t *)
Inductive lsm6ds3tr_c_aux_sens_on_t :=
  | LSM6DS3TR_C_SLV_0 | LSM6DS3TR_C_SLV_0_1 | LSM6DS3TR_C_SLV_0_1_2 | LSM6DS3TR_C_SLV_0_1_2_3
  | LSM6DS3TR_C_SLV_EN_ND.
#[export] Instance aux_sens_on_code : Enum lsm6ds3tr_c_aux_sens_on_t := fun val =>
  match val with
  | LSM6DS3TR_C_SLV_0 => 0 | LSM6DS3TR_C_SLV_0_1 => 1 | LSM6DS3TR_C_SLV_0_1_2 => 2
  | LSM6DS3TR_C_SLV_0_1_2_3 => 3 | LSM6DS3TR_C_SLV_EN_ND => 4
  end.
(* @ lsm6ds3tr-c_reg.h:2730-2737 lsm6ds3tr_c_slave0_rate_t *)
Inductive lsm6ds3tr_c_slave0_rate_t :=
  | LSM6DS3TR_C_SL0_NO_DEC | LSM6DS3TR_C_SL0_DEC_2 | LSM6DS3TR_C_SL0_DEC_4 | LSM6DS3TR_C_SL0_DEC_8
  | LSM6DS3TR_C_SL0_DEC_ND.
#[export] Instance slave0_rate_code : Enum lsm6ds3tr_c_slave0_rate_t := fun val =>
  match val with
  | LSM6DS3TR_C_SL0_NO_DEC => 0 | LSM6DS3TR_C_SL0_DEC_2 => 1 | LSM6DS3TR_C_SL0_DEC_4 => 2
  | LSM6DS3TR_C_SL0_DEC_8 => 3 | LSM6DS3TR_C_SL0_DEC_ND => 4
  end.
(* @ lsm6ds3tr-c_reg.h:2743-2748 lsm6ds3tr_c_write_once_t *)
Inductive lsm6ds3tr_c_write_once_t :=
  | LSM6DS3TR_C_EACH_SH_CYCLE | LSM6DS3TR_C_ONLY_FIRST_CYCLE | LSM6DS3TR_C_SH_WR_MODE_ND.
#[export] Instance write_once_code : Enum lsm6ds3tr_c_write_once_t := fun val =>
  match val with
  | LSM6DS3TR_C_EACH_SH_CYCLE => 0 | LSM6DS3TR_C_ONLY_FIRST_CYCLE => 1
  | LSM6DS3TR_C_SH_WR_MODE_ND => 2
  end.
(* @ lsm6ds3tr-c_reg.h:2754-2761 lsm6ds3tr_c_slave1_rate_t *)
Inductive lsm6ds3tr_c_slave1_rate_t :=
  | LSM6DS3TR_C_SL1_NO_DEC | LSM6DS3TR_C_SL1_DEC_2 | LSM6DS3TR_C_SL1_DEC_4 | LSM6DS3TR_C_SL1_DEC_8
  | LSM6DS3TR_C_SL1_DEC_ND.
#[export] Instance slave1_rate_code : Enum lsm6ds3tr_c_slave1_rate_t := fun val =>
  match val with
  | LSM6DS3TR_C_SL1_NO_DEC => 0 | LSM6DS3TR_C_SL1_DEC_2 => 1 | LSM6DS3TR_C_SL1_DEC_4 => 2
  | LSM6DS3TR_C_SL1_DEC_8 => 3 | LSM6DS3TR_C_SL1_DEC_ND => 4
  end.
(* @ lsm6ds3tr-c_reg.h:2767-2774 lsm6ds3tr_c_slave2_rate_t *)
Inductive lsm6ds3tr_c_slave2_rate_t :=
  | LSM6DS3TR_C_SL2_NO_DEC | LSM6DS3TR_C_SL2_DEC_2 | LSM6DS3TR_C_SL2_DEC_4 | LSM6DS3TR_C_SL2_DEC_8
  | LSM6DS3TR_C_SL2_DEC_ND.
#[export] Instance slave2_rate_code : Enum lsm6ds3tr_c_slave2_rate_t := fun val =>
  match val with
  | LSM6DS3TR_C_SL2_NO_DEC => 0 | LSM6DS3TR_C_SL2_DEC_2 => 1 | LSM6DS3TR_C_SL2_DEC_4 => 2
  | LSM6DS3TR_C_SL2_DEC_8 => 3 | LSM6DS3TR_C_SL2_DEC_ND => 4
  end.
(* @ lsm6ds3tr-c_reg.h:2780-2787 lsm6ds3tr_c_slave3_rate_t *)
Inductive lsm6ds3tr_c_slave3_rate_t :=
  | LSM6DS3TR_C_SL3_NO_DEC | LSM6DS3TR_C_SL3_DEC_2 | LSM6DS3TR_C_SL3_DEC_4 | LSM6DS3TR_C_SL3_DEC_8
  | LSM6DS3TR_C_SL3_DEC_ND.
#[export] Instance slave3_rate_code : Enum lsm6ds3tr_c_slave3_rate_t := fun val =>
  match val with
  | LSM6DS3TR_C_SL3_NO_DEC => 0 | LSM6DS3TR_C_SL3_DEC_2 => 1 | LSM6DS3TR_C_SL3_DEC_4 => 2
  | LSM6DS3TR_C_SL3_DEC_8 => 3 | LSM6DS3TR_C_SL3_DEC_ND => 4
  end.
