(* ===== verification/Lsm6ds3.v ===== *)
(** LSM6DS3TR-C inertial sensor: the register driver.

    Every operation of [lsm6ds3tr-c_reg.c], in the order of the file. The bus
    is the context [ctx] the caller gives, with its two callbacks: an arbitrary
    device of state [S] that answers, or fails with a non-zero code. An
    operation is a function of the device's state, in the monad [io]; a
    parameter passed by pointer is an argument with its value before the call
    and a result with its value after it. A local that the code leaves
    uninitialised holds an arbitrary byte [undef]. *)
From S2P Require Import Prelude Float32 Lsm6ds3Reg.

Definition io (S A : Type) := S -> A * S.
Definition mret {S A} (x : A) : io S A := fun s => (x, s).
Definition io_bind {S A B} (m : io S A) (k : A -> io S B) : io S B :=
  fun s => let (x, s) := m s in k x s.
Notation "'let*' p := m 'in' k" := (io_bind m (fun p => k))
  (at level 10, p strict pattern, m at level 200, k at level 200,
   format "'[v' 'let*'  p  :=  m  'in' '/' k ']'") : mower_scope.

(* @ lsm6ds3tr-c_reg.h:116-125 stmdev_ctx_t *)
Record stmdev_ctx_t (S : Type) := {
  write_reg : Z -> list Z -> Z -> io S Z;
  read_reg : Z -> list Z -> Z -> io S (Z * list Z);
}.
Arguments write_reg {S}.
Arguments read_reg {S}.

Section Driver.
Context {S : Type} (ctx : option (stmdev_ctx_t S)) (junk : string -> nat -> Z).
Abbreviation io := (io S).

Definition undef (x : string) (i : nat) : Z := u8 (junk x i).
Arguments undef x%_string i.

(* @ lsm6ds3tr-c_reg.c:49-63 lsm6ds3tr_c_read_reg *)
Definition lsm6ds3tr_c_read_reg (reg : Z) (data : list Z) (len : Z) : io (Z * list Z) :=
  match ctx with
  | None => mret (-1, data)
  | Some ctx => read_reg ctx reg data len
  end.

(* @ lsm6ds3tr-c_reg.c:75-89 lsm6ds3tr_c_write_reg *)
Definition lsm6ds3tr_c_write_reg (reg : Z) (data : list Z) (len : Z) : io Z :=
  match ctx with
  | None => mret (-1)
  | Some ctx => write_reg ctx reg data len
  end.

(** One-register transfers to and from a byte, and a one-byte struct. *)
Definition read_byte (reg : Z) (x : Z) : io (Z * Z) :=
  let* (ret, d) := lsm6ds3tr_c_read_reg reg [x] 1 in
  mret (ret, d !!! 0%nat).
Definition write_byte (reg : Z) (x : Z) : io Z := lsm6ds3tr_c_write_reg reg [x] 1.
Definition read_struct {L : layout} (reg : Z) (x : L) : io (Z * L) := read_byte reg x.
Definition write_struct {L : layout} (reg : Z) (x : L) : io Z := write_byte reg x.

(* @ lsm6ds3tr-c_reg.c:103-106 lsm6ds3tr_c_from_fs2g_to_mg *)
Definition lsm6ds3tr_c_from_fs2g_to_mg (lsb : Z) : f32 := fmul (f_of_Z lsb) (f_lit 61 1000).

(* @ lsm6ds3tr-c_reg.c:108-111 lsm6ds3tr_c_from_fs4g_to_mg *)
Definition lsm6ds3tr_c_from_fs4g_to_mg (lsb : Z) : f32 := fmul (f_of_Z lsb) (f_lit 122 1000).

(* @ lsm6ds3tr-c_reg.c:113-116 lsm6ds3tr_c_from_fs8g_to_mg *)
Definition lsm6ds3tr_c_from_fs8g_to_mg (lsb : Z) : f32 := fmul (f_of_Z lsb) (f_lit 244 1000).

(* @ lsm6ds3tr-c_reg.c:118-121 lsm6ds3tr_c_from_fs16g_to_mg *)
Definition lsm6ds3tr_c_from_fs16g_to_mg (lsb : Z) : f32 := fmul (f_of_Z lsb) (f_lit 488 1000).

(* @ lsm6ds3tr-c_reg.c:123-126 lsm6ds3tr_c_from_fs125dps_to_mdps *)
Definition lsm6ds3tr_c_from_fs125dps_to_mdps (lsb : Z) : f32 := fmul (f_of_Z lsb) (f_lit 4375 1000).

(* @ lsm6ds3tr-c_reg.c:128-131 lsm6ds3tr_c_from_fs250dps_to_mdps *)
Definition lsm6ds3tr_c_from_fs250dps_to_mdps (lsb : Z) : f32 := fmul (f_of_Z lsb) (f_lit 8750 1000).

(* @ lsm6ds3tr-c_reg.c:133-136 lsm6ds3tr_c_from_fs500dps_to_mdps *)
Definition lsm6ds3tr_c_from_fs500dps_to_mdps (lsb : Z) : f32 := fmul (f_of_Z lsb) (f_lit 1750 100).

(* @ lsm6ds3tr-c_reg.c:138-141 lsm6ds3tr_c_from_fs1000dps_to_mdps *)
Definition lsm6ds3tr_c_from_fs1000dps_to_mdps (lsb : Z) : f32 := fmul (f_of_Z lsb) (f_of_Z 35).

(* @ lsm6ds3tr-c_reg.c:143-146 lsm6ds3tr_c_from_fs2000dps_to_mdps *)
Definition lsm6ds3tr_c_from_fs2000dps_to_mdps (lsb : Z) : f32 := fmul (f_of_Z lsb) (f_of_Z 70).

(* @ lsm6ds3tr-c_reg.c:148-151 lsm6ds3tr_c_from_lsb_to_celsius *)
Definition lsm6ds3tr_c_from_lsb_to_celsius (lsb : Z) : f32 :=
  fadd (fdiv (f_of_Z lsb) (f_of_Z 256)) (f_of_Z 25).

(* @ lsm6ds3tr-c_reg.c:1385-1402 lsm6ds3tr_c_mem_bank_set *)
Definition lsm6ds3tr_c_mem_bank_set (val : lsm6ds3tr_c_func_cfg_en_t) : io Z :=
  let func_cfg_access : lsm6ds3tr_c_func_cfg_access_t := undef "func_cfg_access" 0%nat in
  let* (ret, func_cfg_access) := read_struct LSM6DS3TR_C_FUNC_CFG_ACCESS func_cfg_access in
  if ret =? 0 then
    let func_cfg_access := func_cfg_access.["func_cfg_en" := u8 (code val)] in
    write_struct LSM6DS3TR_C_FUNC_CFG_ACCESS func_cfg_access
  else mret ret.

(* @ lsm6ds3tr-c_reg.c:175-192 lsm6ds3tr_c_xl_full_scale_set *)
Definition lsm6ds3tr_c_xl_full_scale_set (val : lsm6ds3tr_c_fs_xl_t) : io Z :=
  let ctrl1_xl : lsm6ds3tr_c_ctrl1_xl_t := undef "ctrl1_xl" 0%nat in
  let* (ret, ctrl1_xl) := read_struct LSM6DS3TR_C_CTRL1_XL ctrl1_xl in
  if ret =? 0 then
    let ctrl1_xl := ctrl1_xl.["fs_xl" := u8 (code val)] in
    write_struct LSM6DS3TR_C_CTRL1_XL ctrl1_xl
  else mret ret.

(* @ lsm6ds3tr-c_reg.c:202-235 lsm6ds3tr_c_xl_full_scale_get *)
Definition lsm6ds3tr_c_xl_full_scale_get (val : lsm6ds3tr_c_fs_xl_t) :
    io (Z * lsm6ds3tr_c_fs_xl_t) :=
  let ctrl1_xl : lsm6ds3tr_c_ctrl1_xl_t := undef "ctrl1_xl" 0%nat in
  let* (ret, ctrl1_xl) := read_struct LSM6DS3TR_C_CTRL1_XL ctrl1_xl in
  let val := switch ctrl1_xl.["fs_xl"]
      [LSM6DS3TR_C_2g; LSM6DS3TR_C_16g; LSM6DS3TR_C_4g; LSM6DS3TR_C_8g] LSM6DS3TR_C_XL_FS_ND in
  mret (ret, val).

(* @ lsm6ds3tr-c_reg.c:245-262 lsm6ds3tr_c_xl_data_rate_set *)
Definition lsm6ds3tr_c_xl_data_rate_set (val : lsm6ds3tr_c_odr_xl_t) : io Z :=
  let ctrl1_xl : lsm6ds3tr_c_ctrl1_xl_t := undef "ctrl1_xl" 0%nat in
  let* (ret, ctrl1_xl) := read_struct LSM6DS3TR_C_CTRL1_XL ctrl1_xl in
  if ret =? 0 then
    let ctrl1_xl := ctrl1_xl.["odr_xl" := u8 (code val)] in
    write_struct LSM6DS3TR_C_CTRL1_XL ctrl1_xl
  else mret ret.

(* @ lsm6ds3tr-c_reg.c:272-337 lsm6ds3tr_c_xl_data_rate_get *)
Definition lsm6ds3tr_c_xl_data_rate_get (val : lsm6ds3tr_c_odr_xl_t) :
    io (Z * lsm6ds3tr_c_odr_xl_t) :=
  let ctrl1_xl : lsm6ds3tr_c_ctrl1_xl_t := undef "ctrl1_xl" 0%nat in
  let* (ret, ctrl1_xl) := read_struct LSM6DS3TR_C_CTRL1_XL ctrl1_xl in
  let val := switch ctrl1_xl.["odr_xl"]
      [LSM6DS3TR_C_XL_ODR_OFF; LSM6DS3TR_C_XL_ODR_12Hz5; LSM6DS3TR_C_XL_ODR_26Hz;
       LSM6DS3TR_C_XL_ODR_52Hz; LSM6DS3TR_C_XL_ODR_104Hz; LSM6DS3TR_C_XL_ODR_208Hz;
       LSM6DS3TR_C_XL_ODR_416Hz; LSM6DS3TR_C_XL_ODR_833Hz; LSM6DS3TR_C_XL_ODR_1k66Hz;
       LSM6DS3TR_C_XL_ODR_3k33Hz; LSM6DS3TR_C_XL_ODR_6k66Hz;
       LSM6DS3TR_C_XL_ODR_1Hz6] LSM6DS3TR_C_XL_ODR_ND in
  mret (ret, val).

(* @ lsm6ds3tr-c_reg.c:347-364 lsm6ds3tr_c_gy_full_scale_set *)
Definition lsm6ds3tr_c_gy_full_scale_set (val : lsm6ds3tr_c_fs_g_t) : io Z :=
  let ctrl2_g : lsm6ds3tr_c_ctrl2_g_t := undef "ctrl2_g" 0%nat in
  let* (ret, ctrl2_g) := read_struct LSM6DS3TR_C_CTRL2_G ctrl2_g in
  if ret =? 0 then
    let ctrl2_g := ctrl2_g.["fs_g" := u8 (code val)] in
    write_struct LSM6DS3TR_C_CTRL2_G ctrl2_g
  else mret ret.

(* @ lsm6ds3tr-c_reg.c:374-411 lsm6ds3tr_c_gy_full_scale_get *)
Definition lsm6ds3tr_c_gy_full_scale_get (val : lsm6ds3tr_c_fs_g_t) : io (Z * lsm6ds3tr_c_fs_g_t) :=
  let ctrl2_g : lsm6ds3tr_c_ctrl2_g_t := undef "ctrl2_g" 0%nat in
  let* (ret, ctrl2_g) := read_struct LSM6DS3TR_C_CTRL2_G ctrl2_g in
  let val := switch ctrl2_g.["fs_g"]
      [LSM6DS3TR_C_250dps; LSM6DS3TR_C_125dps; LSM6DS3TR_C_500dps; LSM6DS3TR_C_1000dps;
       LSM6DS3TR_C_2000dps] LSM6DS3TR_C_GY_FS_ND in
  mret (ret, val).

(* @ lsm6ds3tr-c_reg.c:421-438 lsm6ds3tr_c_gy_data_rate_set *)
Definition lsm6ds3tr_c_gy_data_rate_set (val : lsm6ds3tr_c_odr_g_t) : io Z :=
  let ctrl2_g : lsm6ds3tr_c_ctrl2_g_t := undef "ctrl2_g" 0%nat in
  let* (ret, ctrl2_g) := read_struct LSM6DS3TR_C_CTRL2_G ctrl2_g in
  if ret =? 0 then
    let ctrl2_g := ctrl2_g.["odr_g" := u8 (code val)] in
    write_struct LSM6DS3TR_C_CTRL2_G ctrl2_g
  else mret ret.

(* @ lsm6ds3tr-c_reg.c:448-509 lsm6ds3tr_c_gy_data_rate_get *)
Definition lsm6ds3tr_c_gy_data_rate_get (val : lsm6ds3tr_c_odr_g_t) :
    io (Z * lsm6ds3tr_c_odr_g_t) :=
  let ctrl2_g : lsm6ds3tr_c_ctrl2_g_t := undef "ctrl2_g" 0%nat in
  let* (ret, ctrl2_g) := read_struct LSM6DS3TR_C_CTRL2_G ctrl2_g in
  let val := switch ctrl2_g.["odr_g"]
      [LSM6DS3TR_C_GY_ODR_OFF; LSM6DS3TR_C_GY_ODR_12Hz5; LSM6DS3TR_C_GY_ODR_26Hz;
       LSM6DS3TR_C_GY_ODR_52Hz; LSM6DS3TR_C_GY_ODR_104Hz; LSM6DS3TR_C_GY_ODR_208Hz;
       LSM6DS3TR_C_GY_ODR_416Hz; LSM6DS3TR_C_GY_ODR_833Hz; LSM6DS3TR_C_GY_ODR_1k66Hz;
       LSM6DS3TR_C_GY_ODR_3k33Hz; LSM6DS3TR_C_GY_ODR_6k66Hz] LSM6DS3TR_C_GY_ODR_ND in
  mret (ret, val).

(* @ lsm6ds3tr-c_reg.c:519-536 lsm6ds3tr_c_block_data_update_set *)
Definition lsm6ds3tr_c_block_data_update_set (val : Z) : io Z :=
  let ctrl3_c : lsm6ds3tr_c_ctrl3_c_t := undef "ctrl3_c" 0%nat in
  let* (ret, ctrl3_c) := read_struct LSM6DS3TR_C_CTRL3_C ctrl3_c in
  if ret =? 0 then
    let ctrl3_c := ctrl3_c.["bdu" := val] in
    write_struct LSM6DS3TR_C_CTRL3_C ctrl3_c
  else mret ret.

(* @ lsm6ds3tr-c_reg.c:546-557 lsm6ds3tr_c_block_data_update_get *)
Definition lsm6ds3tr_c_block_data_update_get (val : Z) : io (Z * Z) :=
  let ctrl3_c : lsm6ds3tr_c_ctrl3_c_t := undef "ctrl3_c" 0%nat in
  let* (ret, ctrl3_c) := read_struct LSM6DS3TR_C_CTRL3_C ctrl3_c in
  let val := ctrl3_c.["bdu"] in
  mret (ret, val).

(* @ lsm6ds3tr-c_reg.c:568-585 lsm6ds3tr_c_xl_offset_weight_set *)
Definition lsm6ds3tr_c_xl_offset_weight_set (val : lsm6ds3tr_c_usr_off_w_t) : io Z :=
  let ctrl6_c : lsm6ds3tr_c_ctrl6_c_t := undef "ctrl6_c" 0%nat in
  let* (ret, ctrl6_c) := read_struct LSM6DS3TR_C_CTRL6_C ctrl6_c in
  if ret =? 0 then
    let ctrl6_c := ctrl6_c.["usr_off_w" := u8 (code val)] in
    write_struct LSM6DS3TR_C_CTRL6_C ctrl6_c
  else mret ret.

(* @ lsm6ds3tr-c_reg.c:596-621 lsm6ds3tr_c_xl_offset_weight_get *)
Definition lsm6ds3tr_c_xl_offset_weight_get (val : lsm6ds3tr_c_usr_off_w_t) :
    io (Z * lsm6ds3tr_c_usr_off_w_t) :=
  let ctrl6_c : lsm6ds3tr_c_ctrl6_c_t := undef "ctrl6_c" 0%nat in
  let* (ret, ctrl6_c) := read_struct LSM6DS3TR_C_CTRL6_C ctrl6_c in
  let val := switch ctrl6_c.["usr_off_w"] [LSM6DS3TR_C_LSb_1mg; LSM6DS3TR_C_LSb_16mg] LSM6DS3TR_C_WEIGHT_ND in
  mret (ret, val).

(* @ lsm6ds3tr-c_reg.c:631-648 lsm6ds3tr_c_xl_power_mode_set *)
Definition lsm6ds3tr_c_xl_power_mode_set (val : lsm6ds3tr_c_xl_hm_mode_t) : io Z :=
  let ctrl6_c : lsm6ds3tr_c_ctrl6_c_t := undef "ctrl6_c" 0%nat in
  let* (ret, ctrl6_c) := read_struct LSM6DS3TR_C_CTRL6_C ctrl6_c in
  if ret =? 0 then
    let ctrl6_c := ctrl6_c.["xl_hm_mode" := u8 (code val)] in
    write_struct LSM6DS3TR_C_CTRL6_C ctrl6_c
  else mret ret.

(* @ lsm6ds3tr-c_reg.c:658-683 lsm6ds3tr_c_xl_power_mode_get *)
Definition lsm6ds3tr_c_xl_power_mode_get (val : lsm6ds3tr_c_xl_hm_mode_t) :
    io (Z * lsm6ds3tr_c_xl_hm_mode_t) :=
  let ctrl6_c : lsm6ds3tr_c_ctrl6_c_t := undef "ctrl6_c" 0%nat in
  let* (ret, ctrl6_c) := read_struct LSM6DS3TR_C_CTRL6_C ctrl6_c in
  let val := switch ctrl6_c.["xl_hm_mode"]
      [LSM6DS3TR_C_XL_HIGH_PERFORMANCE; LSM6DS3TR_C_XL_NORMAL] LSM6DS3TR_C_XL_PW_MODE_ND in
  mret (ret, val).

(* @ lsm6ds3tr-c_reg.c:695-712 lsm6ds3tr_c_rounding_on_status_set *)
Definition lsm6ds3tr_c_rounding_on_status_set (val : lsm6ds3tr_c_rounding_status_t) : io Z :=
  let ctrl7_g : lsm6ds3tr_c_ctrl7_g_t := undef "ctrl7_g" 0%nat in
  let* (ret, ctrl7_g) := read_struct LSM6DS3TR_C_CTRL7_G ctrl7_g in
  if ret =? 0 then
    let ctrl7_g := ctrl7_g.["rounding_status" := u8 (code val)] in
    write_struct LSM6DS3TR_C_CTRL7_G ctrl7_g
  else mret ret.

(* @ lsm6ds3tr-c_reg.c:724-749 lsm6ds3tr_c_rounding_on_status_get *)
Definition lsm6ds3tr_c_rounding_on_status_get (val : lsm6ds3tr_c_rounding_status_t) :
    io (Z * lsm6ds3tr_c_rounding_status_t) :=
  let ctrl7_g : lsm6ds3tr_c_ctrl7_g_t := undef "ctrl7_g" 0%nat in
  let* (ret, ctrl7_g) := read_struct LSM6DS3TR_C_CTRL7_G ctrl7_g in
  let val := switch ctrl7_g.["rounding_status"]
      [LSM6DS3TR_C_STAT_RND_DISABLE; LSM6DS3TR_C_STAT_RND_ENABLE] LSM6DS3TR_C_STAT_RND_ND in
  mret (ret, val).

(* @ lsm6ds3tr-c_reg.c:759-776 lsm6ds3tr_c_gy_power_mode_set *)
Definition lsm6ds3tr_c_gy_power_mode_set (val : lsm6ds3tr_c_g_hm_mode_t) : io Z :=
  let ctrl7_g : lsm6ds3tr_c_ctrl7_g_t := undef "ctrl7_g" 0%nat in
  let* (ret, ctrl7_g) := read_struct LSM6DS3TR_C_CTRL7_G ctrl7_g in
  if ret =? 0 then
    let ctrl7_g := ctrl7_g.["g_hm_mode" := u8 (code val)] in
    write_struct LSM6DS3TR_C_CTRL7_G ctrl7_g
  else mret ret.

(* @ lsm6ds3tr-c_reg.c:786-811 lsm6ds3tr_c_gy_power_mode_get *)
Definition lsm6ds3tr_c_gy_power_mode_get (val : lsm6ds3tr_c_g_hm_mode_t) :
    io (Z * lsm6ds3tr_c_g_hm_mode_t) :=
  let ctrl7_g : lsm6ds3tr_c_ctrl7_g_t := undef "ctrl7_g" 0%nat in
  let* (ret, ctrl7_g) := read_struct LSM6DS3TR_C_CTRL7_G ctrl7_g in
  let val := switch ctrl7_g.["g_hm_mode"]
      [LSM6DS3TR_C_GY_HIGH_PERFORMANCE; LSM6DS3TR_C_GY_NORMAL] LSM6DS3TR_C_GY_PW_MODE_ND in
  mret (ret, val).

(* @ lsm6ds3tr-c_reg.c:822-883 lsm6ds3tr_c_all_sources_get *)
Definition lsm6ds3tr_c_all_sources_get (val : lsm6ds3tr_c_all_sources_t) :
    io (Z * lsm6ds3tr_c_all_sources_t) :=
  let* (ret, wake_up_src) := read_byte LSM6DS3TR_C_WAKE_UP_SRC val.["wake_up_src"] in
  let val := val.["wake_up_src" := wake_up_src] in
  let* (ret, val) :=
    (if ret =? 0 then
      let* (ret, tap_src) := read_byte LSM6DS3TR_C_TAP_SRC val.["tap_src"] in
      let val := val.["tap_src" := tap_src] in
      mret (ret, val)
     else mret (ret, val)) in
  let* (ret, val) :=
    (if ret =? 0 then
      let* (ret, d6d_src) := read_byte LSM6DS3TR_C_D6D_SRC val.["d6d_src"] in
      let val := val.["d6d_src" := d6d_src] in
      mret (ret, val)
     else mret (ret, val)) in
  let* (ret, val) :=
    (if ret =? 0 then
      let* (ret, status_reg) := read_byte LSM6DS3TR_C_STATUS_REG val.["status_reg"] in
      let val := val.["status_reg" := status_reg] in
      mret (ret, val)
     else mret (ret, val)) in
  let* (ret, val) :=
    (if ret =? 0 then
      let* (ret, func_src1) := read_byte LSM6DS3TR_C_FUNC_SRC1 val.["func_src1"] in
      let val := val.["func_src1" := func_src1] in
      mret (ret, val)
     else mret (ret, val)) in
  let* (ret, val) :=
    (if ret =? 0 then
      let* (ret, func_src2) := read_byte LSM6DS3TR_C_FUNC_SRC2 val.["func_src2"] in
      let val := val.["func_src2" := func_src2] in
      mret (ret, val)
     else mret (ret, val)) in
  let* (ret, val) :=
    (if ret =? 0 then
      let* (ret, wrist_tilt_ia) := read_byte LSM6DS3TR_C_WRIST_TILT_IA val.["wrist_tilt_ia"] in
      let val := val.["wrist_tilt_ia" := wrist_tilt_ia] in
      mret (ret, val)
     else mret (ret, val)) in
  let* ret :=
    (if ret =? 0 then
      lsm6ds3tr_c_mem_bank_set LSM6DS3TR_C_BANK_B
     else mret ret) in
  let* (ret, val) :=
    (if ret =? 0 then
      let* (ret, a_wrist_tilt_mask) := read_byte LSM6DS3TR_C_A_WRIST_TILT_MASK val.["a_wrist_tilt_mask"] in
      let val := val.["a_wrist_tilt_mask" := a_wrist_tilt_mask] in
      mret (ret, val)
     else mret (ret, val)) in
  if ret =? 0 then
    let* ret := lsm6ds3tr_c_mem_bank_set LSM6DS3TR_C_USER_BANK in
    mret (ret, val)
  else mret (ret, val).

(* @ lsm6ds3tr-c_reg.c:892-901 lsm6ds3tr_c_status_reg_get *)
Definition lsm6ds3tr_c_status_reg_get (val : lsm6ds3tr_c_status_reg_t) :
    io (Z * lsm6ds3tr_c_status_reg_t) :=
  read_struct LSM6DS3TR_C_STATUS_REG val.

(* @ lsm6ds3tr-c_reg.c:911-922 lsm6ds3tr_c_xl_flag_data_ready_get *)
Definition lsm6ds3tr_c_xl_flag_data_ready_get (val : Z) : io (Z * Z) :=
  let status_reg : lsm6ds3tr_c_status_reg_t := undef "status_reg" 0%nat in
  let* (ret, status_reg) := read_struct LSM6DS3TR_C_STATUS_REG status_reg in
  let val := status_reg.["xlda"] in
  mret (ret, val).

(* @ lsm6ds3tr-c_reg.c:932-943 lsm6ds3tr_c_gy_flag_data_ready_get *)
Definition lsm6ds3tr_c_gy_flag_data_ready_get (val : Z) : io (Z * Z) :=
  let status_reg : lsm6ds3tr_c_status_reg_t := undef "status_reg" 0%nat in
  let* (ret, status_reg) := read_struct LSM6DS3TR_C_STATUS_REG status_reg in
  let val := status_reg.["gda"] in
  mret (ret, val).

(* @ lsm6ds3tr-c_reg.c:953-964 lsm6ds3tr_c_temp_flag_data_ready_get *)
Definition lsm6ds3tr_c_temp_flag_data_ready_get (val : Z) : io (Z * Z) :=
  let status_reg : lsm6ds3tr_c_status_reg_t := undef "status_reg" 0%nat in
  let* (ret, status_reg) := read_struct LSM6DS3TR_C_STATUS_REG status_reg in
  let val := status_reg.["tda"] in
  mret (ret, val).

(* @ lsm6ds3tr-c_reg.c:976-984 lsm6ds3tr_c_xl_usr_offset_set *)
Definition lsm6ds3tr_c_xl_usr_offset_set (buff : list Z) : io Z :=
  lsm6ds3tr_c_write_reg LSM6DS3TR_C_X_OFS_USR buff 3.

(* @ lsm6ds3tr-c_reg.c:996-1004 lsm6ds3tr_c_xl_usr_offset_get *)
Definition lsm6ds3tr_c_xl_usr_offset_get (buff : list Z) : io (Z * list Z) :=
  lsm6ds3tr_c_read_reg LSM6DS3TR_C_X_OFS_USR buff 3.

(* @ lsm6ds3tr-c_reg.c:1028-1049 lsm6ds3tr_c_timestamp_set *)
Definition lsm6ds3tr_c_timestamp_set (val : Z) : io Z :=
  let ctrl10_c : lsm6ds3tr_c_ctrl10_c_t := undef "ctrl10_c" 0%nat in
  let* (ret, ctrl10_c) := read_struct LSM6DS3TR_C_CTRL10_C ctrl10_c in
  if ret =? 0 then
    let ctrl10_c := ctrl10_c.["timer_en" := val] in
    if val ≠? 0x00 then
      let ctrl10_c := ctrl10_c.["func_en" := val] in
      write_struct LSM6DS3TR_C_CTRL10_C ctrl10_c
    else mret ret
  else mret ret.

(* @ lsm6ds3tr-c_reg.c:1060-1070 lsm6ds3tr_c_timestamp_get *)
Definition lsm6ds3tr_c_timestamp_get (val : Z) : io (Z * Z) :=
  let ctrl10_c : lsm6ds3tr_c_ctrl10_c_t := undef "ctrl10_c" 0%nat in
  let* (ret, ctrl10_c) := read_struct LSM6DS3TR_C_CTRL10_C ctrl10_c in
  let val := ctrl10_c.["timer_en"] in
  mret (ret, val).

(* @ lsm6ds3tr-c_reg.c:1085-1102 lsm6ds3tr_c_timestamp_res_set *)
Definition lsm6ds3tr_c_timestamp_res_set (val : lsm6ds3tr_c_timer_hr_t) : io Z :=
  let wake_up_dur : lsm6ds3tr_c_wake_up_dur_t := undef "wake_up_dur" 0%nat in
  let* (ret, wake_up_dur) := read_struct LSM6DS3TR_C_WAKE_UP_DUR wake_up_dur in
  if ret =? 0 then
    let wake_up_dur := wake_up_dur.["timer_hr" := u8 (code val)] in
    write_struct LSM6DS3TR_C_WAKE_UP_DUR wake_up_dur
  else mret ret.

(* @ lsm6ds3tr-c_reg.c:1117-1142 lsm6ds3tr_c_timestamp_res_get *)
Definition lsm6ds3tr_c_timestamp_res_get (val : lsm6ds3tr_c_timer_hr_t) :
    io (Z * lsm6ds3tr_c_timer_hr_t) :=
  let wake_up_dur : lsm6ds3tr_c_wake_up_dur_t := undef "wake_up_dur" 0%nat in
  let* (ret, wake_up_dur) := read_struct LSM6DS3TR_C_WAKE_UP_DUR wake_up_dur in
  let val := switch wake_up_dur.["timer_hr"] [LSM6DS3TR_C_LSB_6ms4; LSM6DS3TR_C_LSB_25us] LSM6DS3TR_C_TS_RES_ND in
  mret (ret, val).

(* @ lsm6ds3tr-c_reg.c:1165-1182 lsm6ds3tr_c_rounding_mode_set *)
Definition lsm6ds3tr_c_rounding_mode_set (val : lsm6ds3tr_c_rounding_t) : io Z :=
  let ctrl5_c : lsm6ds3tr_c_ctrl5_c_t := undef "ctrl5_c" 0%nat in
  let* (ret, ctrl5_c) := read_struct LSM6DS3TR_C_CTRL5_C ctrl5_c in
  if ret =? 0 then
    let ctrl5_c := ctrl5_c.["rounding" := u8 (code val)] in
    write_struct LSM6DS3TR_C_CTRL5_C ctrl5_c
  else mret ret.

(* @ lsm6ds3tr-c_reg.c:1193-1242 lsm6ds3tr_c_rounding_mode_get *)
Definition lsm6ds3tr_c_rounding_mode_get (val : lsm6ds3tr_c_rounding_t) :
    io (Z * lsm6ds3tr_c_rounding_t) :=
  let ctrl5_c : lsm6ds3tr_c_ctrl5_c_t := undef "ctrl5_c" 0%nat in
  let* (ret, ctrl5_c) := read_struct LSM6DS3TR_C_CTRL5_C ctrl5_c in
  let val := switch ctrl5_c.["rounding"]
      [LSM6DS3TR_C_ROUND_DISABLE; LSM6DS3TR_C_ROUND_XL; LSM6DS3TR_C_ROUND_GY;
       LSM6DS3TR_C_ROUND_GY_XL; LSM6DS3TR_C_ROUND_SH1_TO_SH6; LSM6DS3TR_C_ROUND_XL_SH1_TO_SH6;
       LSM6DS3TR_C_ROUND_GY_XL_SH1_TO_SH12;
       LSM6DS3TR_C_ROUND_GY_XL_SH1_TO_SH6] LSM6DS3TR_C_ROUND_OUT_ND in
  mret (ret, val).

(* @ lsm6ds3tr-c_reg.c:1253-1264 lsm6ds3tr_c_temperature_raw_get *)
Definition lsm6ds3tr_c_temperature_raw_get (val : Z) : io (Z * Z) :=
  let buff := map (undef "buff") (seq 0 2) in
  let* (ret, buff) := lsm6ds3tr_c_read_reg LSM6DS3TR_C_OUT_TEMP_L buff 2 in
  let val := s16 (s16 (buff !!! 1%nat)) in
  let val := s16 ((val * 256) + (s16 (buff !!! 0%nat))) in
  mret (ret, val).

(* @ lsm6ds3tr-c_reg.c:1275-1290 lsm6ds3tr_c_angular_rate_raw_get *)
Definition lsm6ds3tr_c_angular_rate_raw_get (val : list Z) : io (Z * list Z) :=
  let buff := map (undef "buff") (seq 0 6) in
  let* (ret, buff) := lsm6ds3tr_c_read_reg LSM6DS3TR_C_OUTX_L_G buff 6 in
  let val := <[0%nat := s16 (buff !!! 1%nat)]> val in
  let val := <[0%nat := s16 (((val !!! 0%nat) * 256) + (s16 (buff !!! 0%nat)))]> val in
  let val := <[1%nat := s16 (buff !!! 3%nat)]> val in
  let val := <[1%nat := s16 (((val !!! 1%nat) * 256) + (s16 (buff !!! 2%nat)))]> val in
  let val := <[2%nat := s16 (buff !!! 5%nat)]> val in
  let val := <[2%nat := s16 (((val !!! 2%nat) * 256) + (s16 (buff !!! 4%nat)))]> val in
  mret (ret, val).

(* @ lsm6ds3tr-c_reg.c:1301-1316 lsm6ds3tr_c_acceleration_raw_get *)
Definition lsm6ds3tr_c_acceleration_raw_get (val : list Z) : io (Z * list Z) :=
  let buff := map (undef "buff") (seq 0 6) in
  let* (ret, buff) := lsm6ds3tr_c_read_reg LSM6DS3TR_C_OUTX_L_XL buff 6 in
  let val := <[0%nat := s16 (buff !!! 1%nat)]> val in
  let val := <[0%nat := s16 (((val !!! 0%nat) * 256) + (s16 (buff !!! 0%nat)))]> val in
  let val := <[1%nat := s16 (buff !!! 3%nat)]> val in
  let val := <[1%nat := s16 (((val !!! 1%nat) * 256) + (s16 (buff !!! 2%nat)))]> val in
  let val := <[2%nat := s16 (buff !!! 5%nat)]> val in
  let val := <[2%nat := s16 (((val !!! 2%nat) * 256) + (s16 (buff !!! 4%nat)))]> val in
  mret (ret, val).

(* @ lsm6ds3tr-c_reg.c:1326-1341 lsm6ds3tr_c_mag_calibrated_raw_get *)
Definition lsm6ds3tr_c_mag_calibrated_raw_get (val : list Z) : io (Z * list Z) :=
  let buff := map (undef "buff") (seq 0 6) in
  let* (ret, buff) := lsm6ds3tr_c_read_reg LSM6DS3TR_C_OUT_MAG_RAW_X_L buff 6 in
  let val := <[0%nat := s16 (buff !!! 1%nat)]> val in
  let val := <[0%nat := s16 (((val !!! 0%nat) * 256) + (s16 (buff !!! 0%nat)))]> val in
  let val := <[1%nat := s16 (buff !!! 3%nat)]> val in
  let val := <[1%nat := s16 (((val !!! 1%nat) * 256) + (s16 (buff !!! 2%nat)))]> val in
  let val := <[2%nat := s16 (buff !!! 5%nat)]> val in
  let val := <[2%nat := s16 (((val !!! 2%nat) * 256) + (s16 (buff !!! 4%nat)))]> val in
  mret (ret, val).

(* @ lsm6ds3tr-c_reg.c:1352-1362 lsm6ds3tr_c_fifo_raw_data_get *)
Definition lsm6ds3tr_c_fifo_raw_data_get (buffer : list Z) (len : Z) : io (Z * list Z) :=
  lsm6ds3tr_c_read_reg LSM6DS3TR_C_FIFO_DATA_OUT_L buffer len.

(* @ lsm6ds3tr-c_reg.c:1413-1438 lsm6ds3tr_c_mem_bank_get *)
Definition lsm6ds3tr_c_mem_bank_get (val : lsm6ds3tr_c_func_cfg_en_t) :
    io (Z * lsm6ds3tr_c_func_cfg_en_t) :=
  let func_cfg_access : lsm6ds3tr_c_func_cfg_access_t := undef "func_cfg_access" 0%nat in
  let* (ret, func_cfg_access) := read_struct LSM6DS3TR_C_FUNC_CFG_ACCESS func_cfg_access in
  let val := switch func_cfg_access.["func_cfg_en"]
      [LSM6DS3TR_C_USER_BANK; LSM6DS3TR_C_BANK_B] LSM6DS3TR_C_BANK_ND in
  mret (ret, val).

(* @ lsm6ds3tr-c_reg.c:1448-1465 lsm6ds3tr_c_data_ready_mode_set *)
Definition lsm6ds3tr_c_data_ready_mode_set (val : lsm6ds3tr_c_drdy_pulsed_g_t) : io Z :=
  let drdy_pulse_cfg_g : lsm6ds3tr_c_drdy_pulse_cfg_g_t := undef "drdy_pulse_cfg_g" 0%nat in
  let* (ret, drdy_pulse_cfg_g) := read_struct LSM6DS3TR_C_DRDY_PULSE_CFG_G drdy_pulse_cfg_g in
  if ret =? 0 then
    let drdy_pulse_cfg_g := drdy_pulse_cfg_g.["drdy_pulsed" := u8 (code val)] in
    write_struct LSM6DS3TR_C_DRDY_PULSE_CFG_G drdy_pulse_cfg_g
  else mret ret.

(* @ lsm6ds3tr-c_reg.c:1475-1500 lsm6ds3tr_c_data_ready_mode_get *)
Definition lsm6ds3tr_c_data_ready_mode_get (val : lsm6ds3tr_c_drdy_pulsed_g_t) :
    io (Z * lsm6ds3tr_c_drdy_pulsed_g_t) :=
  let drdy_pulse_cfg_g : lsm6ds3tr_c_drdy_pulse_cfg_g_t := undef "drdy_pulse_cfg_g" 0%nat in
  let* (ret, drdy_pulse_cfg_g) := read_struct LSM6DS3TR_C_DRDY_PULSE_CFG_G drdy_pulse_cfg_g in
  let val := switch drdy_pulse_cfg_g.["drdy_pulsed"]
      [LSM6DS3TR_C_DRDY_LATCHED; LSM6DS3TR_C_DRDY_PULSED] LSM6DS3TR_C_DRDY_ND in
  mret (ret, val).

(* @ lsm6ds3tr-c_reg.c:1510-1517 lsm6ds3tr_c_device_id_get *)
Definition lsm6ds3tr_c_device_id_get (buff : list Z) : io (Z * list Z) :=
  lsm6ds3tr_c_read_reg LSM6DS3TR_C_WHO_AM_I buff 1.

(* @ lsm6ds3tr-c_reg.c:1527-1543 lsm6ds3tr_c_reset_set *)
Definition lsm6ds3tr_c_reset_set (val : Z) : io Z :=
  let ctrl3_c : lsm6ds3tr_c_ctrl3_c_t := undef "ctrl3_c" 0%nat in
  let* (ret, ctrl3_c) := read_struct LSM6DS3TR_C_CTRL3_C ctrl3_c in
  if ret =? 0 then
    let ctrl3_c := ctrl3_c.["sw_reset" := val] in
    write_struct LSM6DS3TR_C_CTRL3_C ctrl3_c
  else mret ret.

(* @ lsm6ds3tr-c_reg.c:1553-1563 lsm6ds3tr_c_reset_get *)
Definition lsm6ds3tr_c_reset_get (val : Z) : io (Z * Z) :=
  let ctrl3_c : lsm6ds3tr_c_ctrl3_c_t := undef "ctrl3_c" 0%nat in
  let* (ret, ctrl3_c) := read_struct LSM6DS3TR_C_CTRL3_C ctrl3_c in
  let val := ctrl3_c.["sw_reset"] in
  mret (ret, val).

(* @ lsm6ds3tr-c_reg.c:1573-1590 lsm6ds3tr_c_data_format_set *)
Definition lsm6ds3tr_c_data_format_set (val : lsm6ds3tr_c_ble_t) : io Z :=
  let ctrl3_c : lsm6ds3tr_c_ctrl3_c_t := undef "ctrl3_c" 0%nat in
  let* (ret, ctrl3_c) := read_struct LSM6DS3TR_C_CTRL3_C ctrl3_c in
  if ret =? 0 then
    let ctrl3_c := ctrl3_c.["ble" := u8 (code val)] in
    write_struct LSM6DS3TR_C_CTRL3_C ctrl3_c
  else mret ret.

(* @ lsm6ds3tr-c_reg.c:1600-1625 lsm6ds3tr_c_data_format_get *)
Definition lsm6ds3tr_c_data_format_get (val : lsm6ds3tr_c_ble_t) : io (Z * lsm6ds3tr_c_ble_t) :=
  let ctrl3_c : lsm6ds3tr_c_ctrl3_c_t := undef "ctrl3_c" 0%nat in
  let* (ret, ctrl3_c) := read_struct LSM6DS3TR_C_CTRL3_C ctrl3_c in
  let val := switch ctrl3_c.["ble"] [LSM6DS3TR_C_LSB_AT_LOW_ADD; LSM6DS3TR_C_MSB_AT_LOW_ADD] LSM6DS3TR_C_DATA_FMT_ND in
  mret (ret, val).

(* @ lsm6ds3tr-c_reg.c:1636-1652 lsm6ds3tr_c_auto_increment_set *)
Definition lsm6ds3tr_c_auto_increment_set (val : Z) : io Z :=
  let ctrl3_c : lsm6ds3tr_c_ctrl3_c_t := undef "ctrl3_c" 0%nat in
  let* (ret, ctrl3_c) := read_struct LSM6DS3TR_C_CTRL3_C ctrl3_c in
  if ret =? 0 then
    let ctrl3_c := ctrl3_c.["if_inc" := val] in
    write_struct LSM6DS3TR_C_CTRL3_C ctrl3_c
  else mret ret.

(* @ lsm6ds3tr-c_reg.c:1663-1674 lsm6ds3tr_c_auto_increment_get *)
Definition lsm6ds3tr_c_auto_increment_get (val : Z) : io (Z * Z) :=
  let ctrl3_c : lsm6ds3tr_c_ctrl3_c_t := undef "ctrl3_c" 0%nat in
  let* (ret, ctrl3_c) := read_struct LSM6DS3TR_C_CTRL3_C ctrl3_c in
  let val := ctrl3_c.["if_inc"] in
  mret (ret, val).

(* @ lsm6ds3tr-c_reg.c:1684-1700 lsm6ds3tr_c_boot_set *)
Definition lsm6ds3tr_c_boot_set (val : Z) : io Z :=
  let ctrl3_c : lsm6ds3tr_c_ctrl3_c_t := undef "ctrl3_c" 0%nat in
  let* (ret, ctrl3_c) := read_struct LSM6DS3TR_C_CTRL3_C ctrl3_c in
  if ret =? 0 then
    let ctrl3_c := ctrl3_c.["boot" := val] in
    write_struct LSM6DS3TR_C_CTRL3_C ctrl3_c
  else mret ret.

(* @ lsm6ds3tr-c_reg.c:1710-1720 lsm6ds3tr_c_boot_get *)
Definition lsm6ds3tr_c_boot_get (val : Z) : io (Z * Z) :=
  let ctrl3_c : lsm6ds3tr_c_ctrl3_c_t := undef "ctrl3_c" 0%nat in
  let* (ret, ctrl3_c) := read_struct LSM6DS3TR_C_CTRL3_C ctrl3_c in
  let val := ctrl3_c.["boot"] in
  mret (ret, val).

(* @ lsm6ds3tr-c_reg.c:1730-1747 lsm6ds3tr_c_xl_self_test_set *)
Definition lsm6ds3tr_c_xl_self_test_set (val : lsm6ds3tr_c_st_xl_t) : io Z :=
  let ctrl5_c : lsm6ds3tr_c_ctrl5_c_t := undef "ctrl5_c" 0%nat in
  let* (ret, ctrl5_c) := read_struct LSM6DS3TR_C_CTRL5_C ctrl5_c in
  if ret =? 0 then
    let ctrl5_c := ctrl5_c.["st_xl" := u8 (code val)] in
    write_struct LSM6DS3TR_C_CTRL5_C ctrl5_c
  else mret ret.

(* @ lsm6ds3tr-c_reg.c:1757-1786 lsm6ds3tr_c_xl_self_test_get *)
Definition lsm6ds3tr_c_xl_self_test_get (val : lsm6ds3tr_c_st_xl_t) :
    io (Z * lsm6ds3tr_c_st_xl_t) :=
  let ctrl5_c : lsm6ds3tr_c_ctrl5_c_t := undef "ctrl5_c" 0%nat in
  let* (ret, ctrl5_c) := read_struct LSM6DS3TR_C_CTRL5_C ctrl5_c in
  let val := switch ctrl5_c.["st_xl"]
      [LSM6DS3TR_C_XL_ST_DISABLE; LSM6DS3TR_C_XL_ST_POSITIVE;
       LSM6DS3TR_C_XL_ST_NEGATIVE] LSM6DS3TR_C_XL_ST_ND in
  mret (ret, val).

(* @ lsm6ds3tr-c_reg.c:1796-1813 lsm6ds3tr_c_gy_self_test_set *)
Definition lsm6ds3tr_c_gy_self_test_set (val : lsm6ds3tr_c_st_g_t) : io Z :=
  let ctrl5_c : lsm6ds3tr_c_ctrl5_c_t := undef "ctrl5_c" 0%nat in
  let* (ret, ctrl5_c) := read_struct LSM6DS3TR_C_CTRL5_C ctrl5_c in
  if ret =? 0 then
    let ctrl5_c := ctrl5_c.["st_g" := u8 (code val)] in
    write_struct LSM6DS3TR_C_CTRL5_C ctrl5_c
  else mret ret.

(* @ lsm6ds3tr-c_reg.c:1823-1852 lsm6ds3tr_c_gy_self_test_get *)
Definition lsm6ds3tr_c_gy_self_test_get (val : lsm6ds3tr_c_st_g_t) : io (Z * lsm6ds3tr_c_st_g_t) :=
  let ctrl5_c : lsm6ds3tr_c_ctrl5_c_t := undef "ctrl5_c" 0%nat in
  let* (ret, ctrl5_c) := read_struct LSM6DS3TR_C_CTRL5_C ctrl5_c in
  let val := switch ctrl5_c.["st_g"]
      [LSM6DS3TR_C_GY_ST_DISABLE; LSM6DS3TR_C_GY_ST_POSITIVE;
       LSM6DS3TR_C_GY_ST_NEGATIVE] LSM6DS3TR_C_GY_ST_ND in
  mret (ret, val).

(* @ lsm6ds3tr-c_reg.c:1876-1893 lsm6ds3tr_c_filter_settling_mask_set *)
Definition lsm6ds3tr_c_filter_settling_mask_set (val : Z) : io Z :=
  let ctrl4_c : lsm6ds3tr_c_ctrl4_c_t := undef "ctrl4_c" 0%nat in
  let* (ret, ctrl4_c) := read_struct LSM6DS3TR_C_CTRL4_C ctrl4_c in
  if ret =? 0 then
    let ctrl4_c := ctrl4_c.["drdy_mask" := val] in
    write_struct LSM6DS3TR_C_CTRL4_C ctrl4_c
  else mret ret.

(* @ lsm6ds3tr-c_reg.c:1904-1915 lsm6ds3tr_c_filter_settling_mask_get *)
Definition lsm6ds3tr_c_filter_settling_mask_get (val : Z) : io (Z * Z) :=
  let ctrl4_c : lsm6ds3tr_c_ctrl4_c_t := undef "ctrl4_c" 0%nat in
  let* (ret, ctrl4_c) := read_struct LSM6DS3TR_C_CTRL4_C ctrl4_c in
  let val := ctrl4_c.["drdy_mask"] in
  mret (ret, val).

(* @ lsm6ds3tr-c_reg.c:1926-1943 lsm6ds3tr_c_xl_hp_path_internal_set *)
Definition lsm6ds3tr_c_xl_hp_path_internal_set (val : lsm6ds3tr_c_slope_fds_t) : io Z :=
  let tap_cfg : lsm6ds3tr_c_tap_cfg_t := undef "tap_cfg" 0%nat in
  let* (ret, tap_cfg) := read_struct LSM6DS3TR_C_TAP_CFG tap_cfg in
  if ret =? 0 then
    let tap_cfg := tap_cfg.["slope_fds" := u8 (code val)] in
    write_struct LSM6DS3TR_C_TAP_CFG tap_cfg
  else mret ret.

(* @ lsm6ds3tr-c_reg.c:1954-1979 lsm6ds3tr_c_xl_hp_path_internal_get *)
Definition lsm6ds3tr_c_xl_hp_path_internal_get (val : lsm6ds3tr_c_slope_fds_t) :
    io (Z * lsm6ds3tr_c_slope_fds_t) :=
  let tap_cfg : lsm6ds3tr_c_tap_cfg_t := undef "tap_cfg" 0%nat in
  let* (ret, tap_cfg) := read_struct LSM6DS3TR_C_TAP_CFG tap_cfg in
  let val := switch tap_cfg.["slope_fds"] [LSM6DS3TR_C_USE_SLOPE; LSM6DS3TR_C_USE_HPF] LSM6DS3TR_C_HP_PATH_ND in
  mret (ret, val).

(* @ lsm6ds3tr-c_reg.c:2003-2020 lsm6ds3tr_c_xl_filter_analog_set *)
Definition lsm6ds3tr_c_xl_filter_analog_set (val : lsm6ds3tr_c_bw0_xl_t) : io Z :=
  let ctrl1_xl : lsm6ds3tr_c_ctrl1_xl_t := undef "ctrl1_xl" 0%nat in
  let* (ret, ctrl1_xl) := read_struct LSM6DS3TR_C_CTRL1_XL ctrl1_xl in
  if ret =? 0 then
    let ctrl1_xl := ctrl1_xl.["bw0_xl" := u8 (code val)] in
    write_struct LSM6DS3TR_C_CTRL1_XL ctrl1_xl
  else mret ret.

(* @ lsm6ds3tr-c_reg.c:2031-2056 lsm6ds3tr_c_xl_filter_analog_get *)
Definition lsm6ds3tr_c_xl_filter_analog_get (val : lsm6ds3tr_c_bw0_xl_t) :
    io (Z * lsm6ds3tr_c_bw0_xl_t) :=
  let ctrl1_xl : lsm6ds3tr_c_ctrl1_xl_t := undef "ctrl1_xl" 0%nat in
  let* (ret, ctrl1_xl) := read_struct LSM6DS3TR_C_CTRL1_XL ctrl1_xl in
  let val := switch ctrl1_xl.["bw0_xl"]
      [LSM6DS3TR_C_XL_ANA_BW_1k5Hz; LSM6DS3TR_C_XL_ANA_BW_400Hz] LSM6DS3TR_C_XL_ANA_BW_ND in
  mret (ret, val).

(* @ lsm6ds3tr-c_reg.c:2080-2112 lsm6ds3tr_c_xl_lp1_bandwidth_set *)
Definition lsm6ds3tr_c_xl_lp1_bandwidth_set (val : lsm6ds3tr_c_lpf1_bw_sel_t) : io Z :=
  let ctrl1_xl : lsm6ds3tr_c_ctrl1_xl_t := undef "ctrl1_xl" 0%nat in
  let ctrl8_xl : lsm6ds3tr_c_ctrl8_xl_t := undef "ctrl8_xl" 0%nat in
  let* (ret, ctrl1_xl) := read_struct LSM6DS3TR_C_CTRL1_XL ctrl1_xl in
  if ret =? 0 then
    let ctrl1_xl := ctrl1_xl.["lpf1_bw_sel" := u8 (code val)] in
    let* ret := write_struct LSM6DS3TR_C_CTRL1_XL ctrl1_xl in
    if ret =? 0 then
      let* (ret, ctrl8_xl) := read_struct LSM6DS3TR_C_CTRL8_XL ctrl8_xl in
      if ret =? 0 then
        let ctrl8_xl := ctrl8_xl.["lpf2_xl_en" := 0] in
        let ctrl8_xl := ctrl8_xl.["hp_slope_xl_en" := 0] in
        write_struct LSM6DS3TR_C_CTRL8_XL ctrl8_xl
      else mret ret
    else mret ret
  else mret ret.

(* @ lsm6ds3tr-c_reg.c:2123-2164 lsm6ds3tr_c_xl_lp1_bandwidth_get *)
Definition lsm6ds3tr_c_xl_lp1_bandwidth_get (val : lsm6ds3tr_c_lpf1_bw_sel_t) :
    io (Z * lsm6ds3tr_c_lpf1_bw_sel_t) :=
  let ctrl1_xl : lsm6ds3tr_c_ctrl1_xl_t := undef "ctrl1_xl" 0%nat in
  let ctrl8_xl : lsm6ds3tr_c_ctrl8_xl_t := undef "ctrl8_xl" 0%nat in
  let* (ret, ctrl8_xl) := read_struct LSM6DS3TR_C_CTRL8_XL ctrl8_xl in
  if ret =? 0 then
    if (ctrl8_xl.["lpf2_xl_en"] ≠? 0x00) ||
          (ctrl8_xl.["hp_slope_xl_en"] ≠? 0x00) then
      let val := LSM6DS3TR_C_XL_LP1_NA in
      mret (ret, val)
    else
      let* (ret, ctrl1_xl) := read_struct LSM6DS3TR_C_CTRL1_XL ctrl1_xl in
      let val := switch ctrl1_xl.["lpf1_bw_sel"]
          [LSM6DS3TR_C_XL_LP1_ODR_DIV_2; LSM6DS3TR_C_XL_LP1_ODR_DIV_4] LSM6DS3TR_C_XL_LP1_NA in
      mret (ret, val)
  else mret (ret, val).

(* @ lsm6ds3tr-c_reg.c:2174-2194 lsm6ds3tr_c_xl_lp2_bandwidth_set *)
Definition lsm6ds3tr_c_xl_lp2_bandwidth_set (val : lsm6ds3tr_c_input_composite_t) : io Z :=
  let ctrl8_xl : lsm6ds3tr_c_ctrl8_xl_t := undef "ctrl8_xl" 0%nat in
  let* (ret, ctrl8_xl) := read_struct LSM6DS3TR_C_CTRL8_XL ctrl8_xl in
  if ret =? 0 then
    let ctrl8_xl := ctrl8_xl.["input_composite" := Z.shiftr (Z.land (u8 (code val)) 0x10) 4] in
    let ctrl8_xl := ctrl8_xl.["hpcf_xl" := Z.land (u8 (code val)) 0x03] in
    let ctrl8_xl := ctrl8_xl.["lpf2_xl_en" := 1] in
    let ctrl8_xl := ctrl8_xl.["hp_slope_xl_en" := 0] in
    write_struct LSM6DS3TR_C_CTRL8_XL ctrl8_xl
  else mret ret.

(* @ lsm6ds3tr-c_reg.c:2204-2265 lsm6ds3tr_c_xl_lp2_bandwidth_get *)
Definition lsm6ds3tr_c_xl_lp2_bandwidth_get (val : lsm6ds3tr_c_input_composite_t) :
    io (Z * lsm6ds3tr_c_input_composite_t) :=
  let ctrl8_xl : lsm6ds3tr_c_ctrl8_xl_t := undef "ctrl8_xl" 0%nat in
  let* (ret, ctrl8_xl) := read_struct LSM6DS3TR_C_CTRL8_XL ctrl8_xl in
  let val := if ret =? 0 then
      let val := if (ctrl8_xl.["lpf2_xl_en"] =? 0x00) ||
            (ctrl8_xl.["hp_slope_xl_en"] ≠? 0x00) then
          LSM6DS3TR_C_XL_LP_NA
        else
          let val := switch ((Z.shiftl ctrl8_xl.["input_composite"] 4) + ctrl8_xl.["hpcf_xl"])
              [LSM6DS3TR_C_XL_LOW_LAT_LP_ODR_DIV_50; LSM6DS3TR_C_XL_LOW_LAT_LP_ODR_DIV_100;
               LSM6DS3TR_C_XL_LOW_LAT_LP_ODR_DIV_9; LSM6DS3TR_C_XL_LOW_LAT_LP_ODR_DIV_400;
               LSM6DS3TR_C_XL_LOW_NOISE_LP_ODR_DIV_50; LSM6DS3TR_C_XL_LOW_NOISE_LP_ODR_DIV_100;
               LSM6DS3TR_C_XL_LOW_NOISE_LP_ODR_DIV_9;
               LSM6DS3TR_C_XL_LOW_NOISE_LP_ODR_DIV_400] LSM6DS3TR_C_XL_LP_NA in
          val
      in
      val
    else
      val
  in
  mret (ret, val).

(* @ lsm6ds3tr-c_reg.c:2275-2292 lsm6ds3tr_c_xl_reference_mode_set *)
Definition lsm6ds3tr_c_xl_reference_mode_set (val : Z) : io Z :=
  let ctrl8_xl : lsm6ds3tr_c_ctrl8_xl_t := undef "ctrl8_xl" 0%nat in
  let* (ret, ctrl8_xl) := read_struct LSM6DS3TR_C_CTRL8_XL ctrl8_xl in
  if ret =? 0 then
    let ctrl8_xl := ctrl8_xl.["hp_ref_mode" := val] in
    write_struct LSM6DS3TR_C_CTRL8_XL ctrl8_xl
  else mret ret.

(* @ lsm6ds3tr-c_reg.c:2302-2313 lsm6ds3tr_c_xl_reference_mode_get *)
Definition lsm6ds3tr_c_xl_reference_mode_get (val : Z) : io (Z * Z) :=
  let ctrl8_xl : lsm6ds3tr_c_ctrl8_xl_t := undef "ctrl8_xl" 0%nat in
  let* (ret, ctrl8_xl) := read_struct LSM6DS3TR_C_CTRL8_XL ctrl8_xl in
  let val := ctrl8_xl.["hp_ref_mode"] in
  mret (ret, val).

(* @ lsm6ds3tr-c_reg.c:2323-2342 lsm6ds3tr_c_xl_hp_bandwidth_set *)
Definition lsm6ds3tr_c_xl_hp_bandwidth_set (val : lsm6ds3tr_c_hpcf_xl_t) : io Z :=
  let ctrl8_xl : lsm6ds3tr_c_ctrl8_xl_t := undef "ctrl8_xl" 0%nat in
  let* (ret, ctrl8_xl) := read_struct LSM6DS3TR_C_CTRL8_XL ctrl8_xl in
  if ret =? 0 then
    let ctrl8_xl := ctrl8_xl.["input_composite" := 0] in
    let ctrl8_xl := ctrl8_xl.["hpcf_xl" := Z.land (u8 (code val)) 0x03] in
    let ctrl8_xl := ctrl8_xl.["hp_slope_xl_en" := 1] in
    write_struct LSM6DS3TR_C_CTRL8_XL ctrl8_xl
  else mret ret.

(* @ lsm6ds3tr-c_reg.c:2352-2390 lsm6ds3tr_c_xl_hp_bandwidth_get *)
Definition lsm6ds3tr_c_xl_hp_bandwidth_get (val : lsm6ds3tr_c_hpcf_xl_t) :
    io (Z * lsm6ds3tr_c_hpcf_xl_t) :=
  let ctrl8_xl : lsm6ds3tr_c_ctrl8_xl_t := undef "ctrl8_xl" 0%nat in
  let* (ret, ctrl8_xl) := read_struct LSM6DS3TR_C_CTRL8_XL ctrl8_xl in
  let val := if ctrl8_xl.["hp_slope_xl_en"] =? 0x00 then LSM6DS3TR_C_XL_HP_NA else val in
  let val := switch ctrl8_xl.["hpcf_xl"]
      [LSM6DS3TR_C_XL_HP_ODR_DIV_4; LSM6DS3TR_C_XL_HP_ODR_DIV_100; LSM6DS3TR_C_XL_HP_ODR_DIV_9;
       LSM6DS3TR_C_XL_HP_ODR_DIV_400] LSM6DS3TR_C_XL_HP_NA in
  mret (ret, val).

(* @ lsm6ds3tr-c_reg.c:2413-2459 lsm6ds3tr_c_gy_band_pass_set *)
Definition lsm6ds3tr_c_gy_band_pass_set (val : lsm6ds3tr_c_lpf1_sel_g_t) : io Z :=
  let ctrl4_c : lsm6ds3tr_c_ctrl4_c_t := undef "ctrl4_c" 0%nat in
  let ctrl6_c : lsm6ds3tr_c_ctrl6_c_t := undef "ctrl6_c" 0%nat in
  let ctrl7_g : lsm6ds3tr_c_ctrl7_g_t := undef "ctrl7_g" 0%nat in
  let* (ret, ctrl7_g) := read_struct LSM6DS3TR_C_CTRL7_G ctrl7_g in
  if ret =? 0 then
    let ctrl7_g := ctrl7_g.["hpm_g" := Z.shiftr (Z.land (u8 (code val)) 0x30) 4] in
    let ctrl7_g := ctrl7_g.["hp_en_g" := Z.shiftr (Z.land (u8 (code val)) 0x80) 7] in
    let* ret := write_struct LSM6DS3TR_C_CTRL7_G ctrl7_g in
    if ret =? 0 then
      let* (ret, ctrl6_c) := read_struct LSM6DS3TR_C_CTRL6_C ctrl6_c in
      if ret =? 0 then
        let ctrl6_c := ctrl6_c.["ftype" := Z.land (u8 (code val)) 0x03] in
        let* ret := write_struct LSM6DS3TR_C_CTRL6_C ctrl6_c in
        if ret =? 0 then
          let* (ret, ctrl4_c) := read_struct LSM6DS3TR_C_CTRL4_C ctrl4_c in
          if ret =? 0 then
            let ctrl4_c := ctrl4_c.["lpf1_sel_g" := Z.shiftr (Z.land (u8 (code val)) 0x08) 3] in
            write_struct LSM6DS3TR_C_CTRL4_C ctrl4_c
          else mret ret
        else mret ret
      else mret ret
    else mret ret
  else mret ret.

(* @ lsm6ds3tr-c_reg.c:2469-2549 lsm6ds3tr_c_gy_band_pass_get *)
Definition lsm6ds3tr_c_gy_band_pass_get (val : lsm6ds3tr_c_lpf1_sel_g_t) :
    io (Z * lsm6ds3tr_c_lpf1_sel_g_t) :=
  let ctrl4_c : lsm6ds3tr_c_ctrl4_c_t := undef "ctrl4_c" 0%nat in
  let ctrl6_c : lsm6ds3tr_c_ctrl6_c_t := undef "ctrl6_c" 0%nat in
  let ctrl7_g : lsm6ds3tr_c_ctrl7_g_t := undef "ctrl7_g" 0%nat in
  let* (ret, ctrl6_c) := read_struct LSM6DS3TR_C_CTRL6_C ctrl6_c in
  if ret =? 0 then
    let* (ret, ctrl4_c) := read_struct LSM6DS3TR_C_CTRL4_C ctrl4_c in
    if ret =? 0 then
      let* (ret, ctrl7_g) := read_struct LSM6DS3TR_C_CTRL7_G ctrl7_g in
      let val := switch ((((Z.shiftl ctrl7_g.["hp_en_g"] 7) + (Z.shiftl ctrl7_g.["hpm_g"] 4)) + (Z.shiftl ctrl4_c.["lpf1_sel_g"] 3)) + ctrl6_c.["ftype"])
          [LSM6DS3TR_C_HP_16mHz_LP2; LSM6DS3TR_C_HP_65mHz_LP2; LSM6DS3TR_C_HP_260mHz_LP2;
           LSM6DS3TR_C_HP_1Hz04_LP2; LSM6DS3TR_C_HP_DISABLE_LP1_LIGHT;
           LSM6DS3TR_C_HP_DISABLE_LP1_NORMAL; LSM6DS3TR_C_HP_DISABLE_LP_STRONG;
           LSM6DS3TR_C_HP_DISABLE_LP1_AGGRESSIVE; LSM6DS3TR_C_HP_16mHz_LP1_LIGHT;
           LSM6DS3TR_C_HP_65mHz_LP1_NORMAL; LSM6DS3TR_C_HP_260mHz_LP1_STRONG;
           LSM6DS3TR_C_HP_1Hz04_LP1_AGGRESSIVE] LSM6DS3TR_C_HP_GY_BAND_NA in
      mret (ret, val)
    else mret (ret, val)
  else mret (ret, val).

(* @ lsm6ds3tr-c_reg.c:2572-2589 lsm6ds3tr_c_spi_mode_set *)
Definition lsm6ds3tr_c_spi_mode_set (val : lsm6ds3tr_c_sim_t) : io Z :=
  let ctrl3_c : lsm6ds3tr_c_ctrl3_c_t := undef "ctrl3_c" 0%nat in
  let* (ret, ctrl3_c) := read_struct LSM6DS3TR_C_CTRL3_C ctrl3_c in
  if ret =? 0 then
    let ctrl3_c := ctrl3_c.["sim" := u8 (code val)] in
    write_struct LSM6DS3TR_C_CTRL3_C ctrl3_c
  else mret ret.

(* @ lsm6ds3tr-c_reg.c:2599-2624 lsm6ds3tr_c_spi_mode_get *)
Definition lsm6ds3tr_c_spi_mode_get (val : lsm6ds3tr_c_sim_t) : io (Z * lsm6ds3tr_c_sim_t) :=
  let ctrl3_c : lsm6ds3tr_c_ctrl3_c_t := undef "ctrl3_c" 0%nat in
  let* (ret, ctrl3_c) := read_struct LSM6DS3TR_C_CTRL3_C ctrl3_c in
  let val := switch ctrl3_c.["sim"] [LSM6DS3TR_C_SPI_4_WIRE; LSM6DS3TR_C_SPI_3_WIRE] LSM6DS3TR_C_SPI_MODE_ND in
  mret (ret, val).

(* @ lsm6ds3tr-c_reg.c:2634-2651 lsm6ds3tr_c_i2c_interface_set *)
Definition lsm6ds3tr_c_i2c_interface_set (val : lsm6ds3tr_c_i2c_disable_t) : io Z :=
  let ctrl4_c : lsm6ds3tr_c_ctrl4_c_t := undef "ctrl4_c" 0%nat in
  let* (ret, ctrl4_c) := read_struct LSM6DS3TR_C_CTRL4_C ctrl4_c in
  if ret =? 0 then
    let ctrl4_c := ctrl4_c.["i2c_disable" := u8 (code val)] in
    write_struct LSM6DS3TR_C_CTRL4_C ctrl4_c
  else mret ret.

(* @ lsm6ds3tr-c_reg.c:2661-2686 lsm6ds3tr_c_i2c_interface_get *)
Definition lsm6ds3tr_c_i2c_interface_get (val : lsm6ds3tr_c_i2c_disable_t) :
    io (Z * lsm6ds3tr_c_i2c_disable_t) :=
  let ctrl4_c : lsm6ds3tr_c_ctrl4_c_t := undef "ctrl4_c" 0%nat in
  let* (ret, ctrl4_c) := read_struct LSM6DS3TR_C_CTRL4_C ctrl4_c in
  let val := switch ctrl4_c.["i2c_disable"]
      [LSM6DS3TR_C_I2C_ENABLE; LSM6DS3TR_C_I2C_DISABLE] LSM6DS3TR_C_I2C_MODE_ND in
  mret (ret, val).

(* @ lsm6ds3tr-c_reg.c:2710-2824 lsm6ds3tr_c_pin_int1_route_set *)
Definition lsm6ds3tr_c_pin_int1_route_set (val : lsm6ds3tr_c_int1_route_t) : io Z :=
  let master_config : lsm6ds3tr_c_master_config_t := undef "master_config" 0%nat in
  let int1_ctrl : lsm6ds3tr_c_int1_ctrl_t := undef "int1_ctrl" 0%nat in
  let md1_cfg : lsm6ds3tr_c_md1_cfg_t := undef "md1_cfg" 0%nat in
  let md2_cfg : lsm6ds3tr_c_md2_cfg_t := undef "md2_cfg" 0%nat in
  let ctrl4_c : lsm6ds3tr_c_ctrl4_c_t := undef "ctrl4_c" 0%nat in
  let tap_cfg : lsm6ds3tr_c_tap_cfg_t := undef "tap_cfg" 0%nat in
  let* (ret, int1_ctrl) := read_struct LSM6DS3TR_C_INT1_CTRL int1_ctrl in
  let* ret :=
    (if ret =? 0 then
      let int1_ctrl := int1_ctrl.["int1_drdy_xl" := val.["int1_drdy_xl"]] in
      let int1_ctrl := int1_ctrl.["int1_drdy_g" := val.["int1_drdy_g"]] in
      let int1_ctrl := int1_ctrl.["int1_boot" := val.["int1_boot"]] in
      let int1_ctrl := int1_ctrl.["int1_fth" := val.["int1_fth"]] in
      let int1_ctrl := int1_ctrl.["int1_fifo_ovr" := val.["int1_fifo_ovr"]] in
      let int1_ctrl := int1_ctrl.["int1_full_flag" := val.["int1_full_flag"]] in
      let int1_ctrl := int1_ctrl.["int1_sign_mot" := val.["int1_sign_mot"]] in
      let int1_ctrl := int1_ctrl.["int1_step_detector" := val.["int1_step_detector"]] in
      write_struct LSM6DS3TR_C_INT1_CTRL int1_ctrl
     else mret ret) in
  let* (ret, md1_cfg) :=
    (if ret =? 0 then
      read_struct LSM6DS3TR_C_MD1_CFG md1_cfg
     else mret (ret, md1_cfg)) in
  let* (ret, md2_cfg) :=
    (if ret =? 0 then
      read_struct LSM6DS3TR_C_MD2_CFG md2_cfg
     else mret (ret, md2_cfg)) in
  let* ret :=
    (if ret =? 0 then
      let md1_cfg := md1_cfg.["int1_timer" := val.["int1_timer"]] in
      let md1_cfg := md1_cfg.["int1_tilt" := val.["int1_tilt"]] in
      let md1_cfg := md1_cfg.["int1_6d" := val.["int1_6d"]] in
      let md1_cfg := md1_cfg.["int1_double_tap" := val.["int1_double_tap"]] in
      let md1_cfg := md1_cfg.["int1_ff" := val.["int1_ff"]] in
      let md1_cfg := md1_cfg.["int1_wu" := val.["int1_wu"]] in
      let md1_cfg := md1_cfg.["int1_single_tap" := val.["int1_single_tap"]] in
      let md1_cfg := md1_cfg.["int1_inact_state" := val.["int1_inact_state"]] in
      write_struct LSM6DS3TR_C_MD1_CFG md1_cfg
     else mret ret) in
  let* (ret, ctrl4_c) :=
    (if ret =? 0 then
      read_struct LSM6DS3TR_C_CTRL4_C ctrl4_c
     else mret (ret, ctrl4_c)) in
  let* ret :=
    (if ret =? 0 then
      let ctrl4_c := ctrl4_c.["den_drdy_int1" := val.["den_drdy_int1"]] in
      write_struct LSM6DS3TR_C_CTRL4_C ctrl4_c
     else mret ret) in
  let* (ret, master_config) :=
    (if ret =? 0 then
      read_struct LSM6DS3TR_C_MASTER_CONFIG master_config
     else mret (ret, master_config)) in
  let* ret :=
    (if ret =? 0 then
      let master_config := master_config.["drdy_on_int1" := val.["den_drdy_int1"]] in
      write_struct LSM6DS3TR_C_MASTER_CONFIG master_config
     else mret ret) in
  let* (ret, tap_cfg) :=
    (if ret =? 0 then
      let* (ret, tap_cfg) := read_struct LSM6DS3TR_C_TAP_CFG tap_cfg in
      let tap_cfg := if (val.["int1_6d"] ≠? 0x00) ||
            (val.["int1_ff"] ≠? 0x00) ||
            (val.["int1_wu"] ≠? 0x00) ||
            (val.["int1_single_tap"] ≠? 0x00) ||
            (val.["int1_double_tap"] ≠? 0x00) ||
            (val.["int1_inact_state"] ≠? 0x00) ||
            (md2_cfg.["int2_6d"] ≠? 0x00) ||
            (md2_cfg.["int2_ff"] ≠? 0x00) ||
            (md2_cfg.["int2_wu"] ≠? 0x00) ||
            (md2_cfg.["int2_single_tap"] ≠? 0x00) ||
            (md2_cfg.["int2_double_tap"] ≠? 0x00) ||
            (md2_cfg.["int2_inact_state"] ≠? 0x00) then
          tap_cfg.["interrupts_enable" := PROPERTY_ENABLE]
        else
          tap_cfg.["interrupts_enable" := PROPERTY_DISABLE]
      in
      mret (ret, tap_cfg)
     else mret (ret, tap_cfg)) in
  if ret =? 0 then
    write_struct LSM6DS3TR_C_TAP_CFG tap_cfg
  else mret ret.

(* @ lsm6ds3tr-c_reg.c:2835-2884 lsm6ds3tr_c_pin_int1_route_get *)
Definition lsm6ds3tr_c_pin_int1_route_get (val : lsm6ds3tr_c_int1_route_t) :
    io (Z * lsm6ds3tr_c_int1_route_t) :=
  let master_config : lsm6ds3tr_c_master_config_t := undef "master_config" 0%nat in
  let int1_ctrl : lsm6ds3tr_c_int1_ctrl_t := undef "int1_ctrl" 0%nat in
  let md1_cfg : lsm6ds3tr_c_md1_cfg_t := undef "md1_cfg" 0%nat in
  let ctrl4_c : lsm6ds3tr_c_ctrl4_c_t := undef "ctrl4_c" 0%nat in
  let* (ret, int1_ctrl) := read_struct LSM6DS3TR_C_INT1_CTRL int1_ctrl in
  if ret =? 0 then
    let val := val.["int1_drdy_xl" := int1_ctrl.["int1_drdy_xl"]] in
    let val := val.["int1_drdy_g" := int1_ctrl.["int1_drdy_g"]] in
    let val := val.["int1_boot" := int1_ctrl.["int1_boot"]] in
    let val := val.["int1_fth" := int1_ctrl.["int1_fth"]] in
    let val := val.["int1_fifo_ovr" := int1_ctrl.["int1_fifo_ovr"]] in
    let val := val.["int1_full_flag" := int1_ctrl.["int1_full_flag"]] in
    let val := val.["int1_sign_mot" := int1_ctrl.["int1_sign_mot"]] in
    let val := val.["int1_step_detector" := int1_ctrl.["int1_step_detector"]] in
    let* (ret, md1_cfg) := read_struct LSM6DS3TR_C_MD1_CFG md1_cfg in
    if ret =? 0 then
      let val := val.["int1_timer" := md1_cfg.["int1_timer"]] in
      let val := val.["int1_tilt" := md1_cfg.["int1_tilt"]] in
      let val := val.["int1_6d" := md1_cfg.["int1_6d"]] in
      let val := val.["int1_double_tap" := md1_cfg.["int1_double_tap"]] in
      let val := val.["int1_ff" := md1_cfg.["int1_ff"]] in
      let val := val.["int1_wu" := md1_cfg.["int1_wu"]] in
      let val := val.["int1_single_tap" := md1_cfg.["int1_single_tap"]] in
      let val := val.["int1_inact_state" := md1_cfg.["int1_inact_state"]] in
      let* (ret, ctrl4_c) := read_struct LSM6DS3TR_C_CTRL4_C ctrl4_c in
      if ret =? 0 then
        let val := val.["den_drdy_int1" := ctrl4_c.["den_drdy_int1"]] in
        let* (ret, master_config) := read_struct LSM6DS3TR_C_MASTER_CONFIG master_config in
        let val := val.["den_drdy_int1" := master_config.["drdy_on_int1"]] in
        mret (ret, val)
      else mret (ret, val)
    else mret (ret, val)
  else mret (ret, val).

(* @ lsm6ds3tr-c_reg.c:2894-2994 lsm6ds3tr_c_pin_int2_route_set *)
Definition lsm6ds3tr_c_pin_int2_route_set (val : lsm6ds3tr_c_int2_route_t) : io Z :=
  let int2_ctrl : lsm6ds3tr_c_int2_ctrl_t := undef "int2_ctrl" 0%nat in
  let md1_cfg : lsm6ds3tr_c_md1_cfg_t := undef "md1_cfg" 0%nat in
  let md2_cfg : lsm6ds3tr_c_md2_cfg_t := undef "md2_cfg" 0%nat in
  let drdy_pulse_cfg_g : lsm6ds3tr_c_drdy_pulse_cfg_g_t := undef "drdy_pulse_cfg_g" 0%nat in
  let tap_cfg : lsm6ds3tr_c_tap_cfg_t := undef "tap_cfg" 0%nat in
  let* (ret, int2_ctrl) := read_struct LSM6DS3TR_C_INT2_CTRL int2_ctrl in
  let* ret :=
    (if ret =? 0 then
      let int2_ctrl := int2_ctrl.["int2_drdy_xl" := val.["int2_drdy_xl"]] in
      let int2_ctrl := int2_ctrl.["int2_drdy_g" := val.["int2_drdy_g"]] in
      let int2_ctrl := int2_ctrl.["int2_drdy_temp" := val.["int2_drdy_temp"]] in
      let int2_ctrl := int2_ctrl.["int2_fth" := val.["int2_fth"]] in
      let int2_ctrl := int2_ctrl.["int2_fifo_ovr" := val.["int2_fifo_ovr"]] in
      let int2_ctrl := int2_ctrl.["int2_full_flag" := val.["int2_full_flag"]] in
      let int2_ctrl := int2_ctrl.["int2_step_count_ov" := val.["int2_step_count_ov"]] in
      let int2_ctrl := int2_ctrl.["int2_step_delta" := val.["int2_step_delta"]] in
      write_struct LSM6DS3TR_C_INT2_CTRL int2_ctrl
     else mret ret) in
  let* (ret, md1_cfg) :=
    (if ret =? 0 then
      read_struct LSM6DS3TR_C_MD1_CFG md1_cfg
     else mret (ret, md1_cfg)) in
  let* (ret, md2_cfg) :=
    (if ret =? 0 then
      read_struct LSM6DS3TR_C_MD2_CFG md2_cfg
     else mret (ret, md2_cfg)) in
  let* ret :=
    (if ret =? 0 then
      let md2_cfg := md2_cfg.["int2_iron" := val.["int2_iron"]] in
      let md2_cfg := md2_cfg.["int2_tilt" := val.["int2_tilt"]] in
      let md2_cfg := md2_cfg.["int2_6d" := val.["int2_6d"]] in
      let md2_cfg := md2_cfg.["int2_double_tap" := val.["int2_double_tap"]] in
      let md2_cfg := md2_cfg.["int2_ff" := val.["int2_ff"]] in
      let md2_cfg := md2_cfg.["int2_wu" := val.["int2_wu"]] in
      let md2_cfg := md2_cfg.["int2_single_tap" := val.["int2_single_tap"]] in
      let md2_cfg := md2_cfg.["int2_inact_state" := val.["int2_inact_state"]] in
      write_struct LSM6DS3TR_C_MD2_CFG md2_cfg
     else mret ret) in
  let* (ret, drdy_pulse_cfg_g) :=
    (if ret =? 0 then
      read_struct LSM6DS3TR_C_DRDY_PULSE_CFG_G drdy_pulse_cfg_g
     else mret (ret, drdy_pulse_cfg_g)) in
  let* ret :=
    (if ret =? 0 then
      let drdy_pulse_cfg_g := drdy_pulse_cfg_g.["int2_wrist_tilt" := val.["int2_wrist_tilt"]] in
      write_struct LSM6DS3TR_C_DRDY_PULSE_CFG_G drdy_pulse_cfg_g
     else mret ret) in
  let* (ret, tap_cfg) :=
    (if ret =? 0 then
      let* (ret, tap_cfg) := read_struct LSM6DS3TR_C_TAP_CFG tap_cfg in
      let tap_cfg := if (md1_cfg.["int1_6d"] ≠? 0x00) ||
            (md1_cfg.["int1_ff"] ≠? 0x00) ||
            (md1_cfg.["int1_wu"] ≠? 0x00) ||
            (md1_cfg.["int1_single_tap"] ≠? 0x00) ||
            (md1_cfg.["int1_double_tap"] ≠? 0x00) ||
            (md1_cfg.["int1_inact_state"] ≠? 0x00) ||
            (val.["int2_6d"] ≠? 0x00) ||
            (val.["int2_ff"] ≠? 0x00) ||
            (val.["int2_wu"] ≠? 0x00) ||
            (val.["int2_single_tap"] ≠? 0x00) ||
            (val.["int2_double_tap"] ≠? 0x00) ||
            (val.["int2_inact_state"] ≠? 0x00) then
          tap_cfg.["interrupts_enable" := PROPERTY_ENABLE]
        else
          tap_cfg.["interrupts_enable" := PROPERTY_DISABLE]
      in
      mret (ret, tap_cfg)
     else mret (ret, tap_cfg)) in
  if ret =? 0 then
    write_struct LSM6DS3TR_C_TAP_CFG tap_cfg
  else mret ret.

(* @ lsm6ds3tr-c_reg.c:3004-3045 lsm6ds3tr_c_pin_int2_route_get *)
Definition lsm6ds3tr_c_pin_int2_route_get (val : lsm6ds3tr_c_int2_route_t) :
    io (Z * lsm6ds3tr_c_int2_route_t) :=
  let int2_ctrl : lsm6ds3tr_c_int2_ctrl_t := undef "int2_ctrl" 0%nat in
  let md2_cfg : lsm6ds3tr_c_md2_cfg_t := undef "md2_cfg" 0%nat in
  let drdy_pulse_cfg_g : lsm6ds3tr_c_drdy_pulse_cfg_g_t := undef "drdy_pulse_cfg_g" 0%nat in
  let* (ret, int2_ctrl) := read_struct LSM6DS3TR_C_INT2_CTRL int2_ctrl in
  if ret =? 0 then
    let val := val.["int2_drdy_xl" := int2_ctrl.["int2_drdy_xl"]] in
    let val := val.["int2_drdy_g" := int2_ctrl.["int2_drdy_g"]] in
    let val := val.["int2_drdy_temp" := int2_ctrl.["int2_drdy_temp"]] in
    let val := val.["int2_fth" := int2_ctrl.["int2_fth"]] in
    let val := val.["int2_fifo_ovr" := int2_ctrl.["int2_fifo_ovr"]] in
    let val := val.["int2_full_flag" := int2_ctrl.["int2_full_flag"]] in
    let val := val.["int2_step_count_ov" := int2_ctrl.["int2_step_count_ov"]] in
    let val := val.["int2_step_delta" := int2_ctrl.["int2_step_delta"]] in
    let* (ret, md2_cfg) := read_struct LSM6DS3TR_C_MD2_CFG md2_cfg in
    if ret =? 0 then
      let val := val.["int2_iron" := md2_cfg.["int2_iron"]] in
      let val := val.["int2_tilt" := md2_cfg.["int2_tilt"]] in
      let val := val.["int2_6d" := md2_cfg.["int2_6d"]] in
      let val := val.["int2_double_tap" := md2_cfg.["int2_double_tap"]] in
      let val := val.["int2_ff" := md2_cfg.["int2_ff"]] in
      let val := val.["int2_wu" := md2_cfg.["int2_wu"]] in
      let val := val.["int2_single_tap" := md2_cfg.["int2_single_tap"]] in
      let val := val.["int2_inact_state" := md2_cfg.["int2_inact_state"]] in
      let* (ret, drdy_pulse_cfg_g) := read_struct LSM6DS3TR_C_DRDY_PULSE_CFG_G drdy_pulse_cfg_g in
      let val := val.["int2_wrist_tilt" := drdy_pulse_cfg_g.["int2_wrist_tilt"]] in
      mret (ret, val)
    else mret (ret, val)
  else mret (ret, val).

(* @ lsm6ds3tr-c_reg.c:3055-3072 lsm6ds3tr_c_pin_mode_set *)
Definition lsm6ds3tr_c_pin_mode_set (val : lsm6ds3tr_c_pp_od_t) : io Z :=
  let ctrl3_c : lsm6ds3tr_c_ctrl3_c_t := undef "ctrl3_c" 0%nat in
  let* (ret, ctrl3_c) := read_struct LSM6DS3TR_C_CTRL3_C ctrl3_c in
  if ret =? 0 then
    let ctrl3_c := ctrl3_c.["pp_od" := u8 (code val)] in
    write_struct LSM6DS3TR_C_CTRL3_C ctrl3_c
  else mret ret.

(* @ lsm6ds3tr-c_reg.c:3082-3107 lsm6ds3tr_c_pin_mode_get *)
Definition lsm6ds3tr_c_pin_mode_get (val : lsm6ds3tr_c_pp_od_t) : io (Z * lsm6ds3tr_c_pp_od_t) :=
  let ctrl3_c : lsm6ds3tr_c_ctrl3_c_t := undef "ctrl3_c" 0%nat in
  let* (ret, ctrl3_c) := read_struct LSM6DS3TR_C_CTRL3_C ctrl3_c in
  let val := switch ctrl3_c.["pp_od"] [LSM6DS3TR_C_PUSH_PULL; LSM6DS3TR_C_OPEN_DRAIN] LSM6DS3TR_C_PIN_MODE_ND in
  mret (ret, val).

(* @ lsm6ds3tr-c_reg.c:3117-3134 lsm6ds3tr_c_pin_polarity_set *)
Definition lsm6ds3tr_c_pin_polarity_set (val : lsm6ds3tr_c_h_lactive_t) : io Z :=
  let ctrl3_c : lsm6ds3tr_c_ctrl3_c_t := undef "ctrl3_c" 0%nat in
  let* (ret, ctrl3_c) := read_struct LSM6DS3TR_C_CTRL3_C ctrl3_c in
  if ret =? 0 then
    let ctrl3_c := ctrl3_c.["h_lactive" := u8 (code val)] in
    write_struct LSM6DS3TR_C_CTRL3_C ctrl3_c
  else mret ret.

(* @ lsm6ds3tr-c_reg.c:3144-3169 lsm6ds3tr_c_pin_polarity_get *)
Definition lsm6ds3tr_c_pin_polarity_get (val : lsm6ds3tr_c_h_lactive_t) :
    io (Z * lsm6ds3tr_c_h_lactive_t) :=
  let ctrl3_c : lsm6ds3tr_c_ctrl3_c_t := undef "ctrl3_c" 0%nat in
  let* (ret, ctrl3_c) := read_struct LSM6DS3TR_C_CTRL3_C ctrl3_c in
  let val := switch ctrl3_c.["h_lactive"] [LSM6DS3TR_C_ACTIVE_HIGH; LSM6DS3TR_C_ACTIVE_LOW] LSM6DS3TR_C_POLARITY_ND in
  mret (ret, val).

(* @ lsm6ds3tr-c_reg.c:3179-3195 lsm6ds3tr_c_all_on_int1_set *)
Definition lsm6ds3tr_c_all_on_int1_set (val : Z) : io Z :=
  let ctrl4_c : lsm6ds3tr_c_ctrl4_c_t := undef "ctrl4_c" 0%nat in
  let* (ret, ctrl4_c) := read_struct LSM6DS3TR_C_CTRL4_C ctrl4_c in
  if ret =? 0 then
    let ctrl4_c := ctrl4_c.["int2_on_int1" := val] in
    write_struct LSM6DS3TR_C_CTRL4_C ctrl4_c
  else mret ret.

(* @ lsm6ds3tr-c_reg.c:3205-3215 lsm6ds3tr_c_all_on_int1_get *)
Definition lsm6ds3tr_c_all_on_int1_get (val : Z) : io (Z * Z) :=
  let ctrl4_c : lsm6ds3tr_c_ctrl4_c_t := undef "ctrl4_c" 0%nat in
  let* (ret, ctrl4_c) := read_struct LSM6DS3TR_C_CTRL4_C ctrl4_c in
  let val := ctrl4_c.["int2_on_int1"] in
  mret (ret, val).

(* @ lsm6ds3tr-c_reg.c:3225-3242 lsm6ds3tr_c_int_notification_set *)
Definition lsm6ds3tr_c_int_notification_set (val : lsm6ds3tr_c_lir_t) : io Z :=
  let tap_cfg : lsm6ds3tr_c_tap_cfg_t := undef "tap_cfg" 0%nat in
  let* (ret, tap_cfg) := read_struct LSM6DS3TR_C_TAP_CFG tap_cfg in
  if ret =? 0 then
    let tap_cfg := tap_cfg.["lir" := u8 (code val)] in
    write_struct LSM6DS3TR_C_TAP_CFG tap_cfg
  else mret ret.

(* @ lsm6ds3tr-c_reg.c:3252-3277 lsm6ds3tr_c_int_notification_get *)
Definition lsm6ds3tr_c_int_notification_get (val : lsm6ds3tr_c_lir_t) :
    io (Z * lsm6ds3tr_c_lir_t) :=
  let tap_cfg : lsm6ds3tr_c_tap_cfg_t := undef "tap_cfg" 0%nat in
  let* (ret, tap_cfg) := read_struct LSM6DS3TR_C_TAP_CFG tap_cfg in
  let val := switch tap_cfg.["lir"] [LSM6DS3TR_C_INT_PULSED; LSM6DS3TR_C_INT_LATCHED] LSM6DS3TR_C_INT_MODE in
  mret (ret, val).

(* @ lsm6ds3tr-c_reg.c:3300-3316 lsm6ds3tr_c_wkup_threshold_set *)
Definition lsm6ds3tr_c_wkup_threshold_set (val : Z) : io Z :=
  let wake_up_ths : lsm6ds3tr_c_wake_up_ths_t := undef "wake_up_ths" 0%nat in
  let* (ret, wake_up_ths) := read_struct LSM6DS3TR_C_WAKE_UP_THS wake_up_ths in
  if ret =? 0 then
    let wake_up_ths := wake_up_ths.["wk_ths" := val] in
    write_struct LSM6DS3TR_C_WAKE_UP_THS wake_up_ths
  else mret ret.

(* @ lsm6ds3tr-c_reg.c:3326-3337 lsm6ds3tr_c_wkup_threshold_get *)
Definition lsm6ds3tr_c_wkup_threshold_get (val : Z) : io (Z * Z) :=
  let wake_up_ths : lsm6ds3tr_c_wake_up_ths_t := undef "wake_up_ths" 0%nat in
  let* (ret, wake_up_ths) := read_struct LSM6DS3TR_C_WAKE_UP_THS wake_up_ths in
  let val := wake_up_ths.["wk_ths"] in
  mret (ret, val).

(* @ lsm6ds3tr-c_reg.c:3347-3363 lsm6ds3tr_c_wkup_dur_set *)
Definition lsm6ds3tr_c_wkup_dur_set (val : Z) : io Z :=
  let wake_up_dur : lsm6ds3tr_c_wake_up_dur_t := undef "wake_up_dur" 0%nat in
  let* (ret, wake_up_dur) := read_struct LSM6DS3TR_C_WAKE_UP_DUR wake_up_dur in
  if ret =? 0 then
    let wake_up_dur := wake_up_dur.["wake_dur" := val] in
    write_struct LSM6DS3TR_C_WAKE_UP_DUR wake_up_dur
  else mret ret.

(* @ lsm6ds3tr-c_reg.c:3373-3383 lsm6ds3tr_c_wkup_dur_get *)
Definition lsm6ds3tr_c_wkup_dur_get (val : Z) : io (Z * Z) :=
  let wake_up_dur : lsm6ds3tr_c_wake_up_dur_t := undef "wake_up_dur" 0%nat in
  let* (ret, wake_up_dur) := read_struct LSM6DS3TR_C_WAKE_UP_DUR wake_up_dur in
  let val := wake_up_dur.["wake_dur"] in
  mret (ret, val).

(* @ lsm6ds3tr-c_reg.c:3406-3422 lsm6ds3tr_c_gy_sleep_mode_set *)
Definition lsm6ds3tr_c_gy_sleep_mode_set (val : Z) : io Z :=
  let ctrl4_c : lsm6ds3tr_c_ctrl4_c_t := undef "ctrl4_c" 0%nat in
  let* (ret, ctrl4_c) := read_struct LSM6DS3TR_C_CTRL4_C ctrl4_c in
  if ret =? 0 then
    let ctrl4_c := ctrl4_c.["sleep" := val] in
    write_struct LSM6DS3TR_C_CTRL4_C ctrl4_c
  else mret ret.

(* @ lsm6ds3tr-c_reg.c:3432-3442 lsm6ds3tr_c_gy_sleep_mode_get *)
Definition lsm6ds3tr_c_gy_sleep_mode_get (val : Z) : io (Z * Z) :=
  let ctrl4_c : lsm6ds3tr_c_ctrl4_c_t := undef "ctrl4_c" 0%nat in
  let* (ret, ctrl4_c) := read_struct LSM6DS3TR_C_CTRL4_C ctrl4_c in
  let val := ctrl4_c.["sleep"] in
  mret (ret, val).

(* @ lsm6ds3tr-c_reg.c:3452-3469 lsm6ds3tr_c_act_mode_set *)
Definition lsm6ds3tr_c_act_mode_set (val : lsm6ds3tr_c_inact_en_t) : io Z :=
  let tap_cfg : lsm6ds3tr_c_tap_cfg_t := undef "tap_cfg" 0%nat in
  let* (ret, tap_cfg) := read_struct LSM6DS3TR_C_TAP_CFG tap_cfg in
  if ret =? 0 then
    let tap_cfg := tap_cfg.["inact_en" := u8 (code val)] in
    write_struct LSM6DS3TR_C_TAP_CFG tap_cfg
  else mret ret.

(* @ lsm6ds3tr-c_reg.c:3479-3512 lsm6ds3tr_c_act_mode_get *)
Definition lsm6ds3tr_c_act_mode_get (val : lsm6ds3tr_c_inact_en_t) :
    io (Z * lsm6ds3tr_c_inact_en_t) :=
  let tap_cfg : lsm6ds3tr_c_tap_cfg_t := undef "tap_cfg" 0%nat in
  let* (ret, tap_cfg) := read_struct LSM6DS3TR_C_TAP_CFG tap_cfg in
  let val := switch tap_cfg.["inact_en"]
      [LSM6DS3TR_C_PROPERTY_DISABLE; LSM6DS3TR_C_XL_12Hz5_GY_NOT_AFFECTED;
       LSM6DS3TR_C_XL_12Hz5_GY_SLEEP; LSM6DS3TR_C_XL_12Hz5_GY_PD] LSM6DS3TR_C_ACT_MODE_ND in
  mret (ret, val).

(* @ lsm6ds3tr-c_reg.c:3522-3538 lsm6ds3tr_c_act_sleep_dur_set *)
Definition lsm6ds3tr_c_act_sleep_dur_set (val : Z) : io Z :=
  let wake_up_dur : lsm6ds3tr_c_wake_up_dur_t := undef "wake_up_dur" 0%nat in
  let* (ret, wake_up_dur) := read_struct LSM6DS3TR_C_WAKE_UP_DUR wake_up_dur in
  if ret =? 0 then
    let wake_up_dur := wake_up_dur.["sleep_dur" := val] in
    write_struct LSM6DS3TR_C_WAKE_UP_DUR wake_up_dur
  else mret ret.

(* @ lsm6ds3tr-c_reg.c:3548-3558 lsm6ds3tr_c_act_sleep_dur_get *)
Definition lsm6ds3tr_c_act_sleep_dur_get (val : Z) : io (Z * Z) :=
  let wake_up_dur : lsm6ds3tr_c_wake_up_dur_t := undef "wake_up_dur" 0%nat in
  let* (ret, wake_up_dur) := read_struct LSM6DS3TR_C_WAKE_UP_DUR wake_up_dur in
  let val := wake_up_dur.["sleep_dur"] in
  mret (ret, val).

(* @ lsm6ds3tr-c_reg.c:3581-3589 lsm6ds3tr_c_tap_src_get *)
Definition lsm6ds3tr_c_tap_src_get (val : lsm6ds3tr_c_tap_src_t) : io (Z * lsm6ds3tr_c_tap_src_t) :=
  read_struct LSM6DS3TR_C_TAP_SRC val.

(* @ lsm6ds3tr-c_reg.c:3598-3615 lsm6ds3tr_c_tap_detection_on_z_set *)
Definition lsm6ds3tr_c_tap_detection_on_z_set (val : Z) : io Z :=
  let tap_cfg : lsm6ds3tr_c_tap_cfg_t := undef "tap_cfg" 0%nat in
  let* (ret, tap_cfg) := read_struct LSM6DS3TR_C_TAP_CFG tap_cfg in
  if ret =? 0 then
    let tap_cfg := tap_cfg.["tap_z_en" := val] in
    write_struct LSM6DS3TR_C_TAP_CFG tap_cfg
  else mret ret.

(* @ lsm6ds3tr-c_reg.c:3625-3636 lsm6ds3tr_c_tap_detection_on_z_get *)
Definition lsm6ds3tr_c_tap_detection_on_z_get (val : Z) : io (Z * Z) :=
  let tap_cfg : lsm6ds3tr_c_tap_cfg_t := undef "tap_cfg" 0%nat in
  let* (ret, tap_cfg) := read_struct LSM6DS3TR_C_TAP_CFG tap_cfg in
  let val := tap_cfg.["tap_z_en"] in
  mret (ret, val).

(* @ lsm6ds3tr-c_reg.c:3646-3663 lsm6ds3tr_c_tap_detection_on_y_set *)
Definition lsm6ds3tr_c_tap_detection_on_y_set (val : Z) : io Z :=
  let tap_cfg : lsm6ds3tr_c_tap_cfg_t := undef "tap_cfg" 0%nat in
  let* (ret, tap_cfg) := read_struct LSM6DS3TR_C_TAP_CFG tap_cfg in
  if ret =? 0 then
    let tap_cfg := tap_cfg.["tap_y_en" := val] in
    write_struct LSM6DS3TR_C_TAP_CFG tap_cfg
  else mret ret.

(* @ lsm6ds3tr-c_reg.c:3673-3684 lsm6ds3tr_c_tap_detection_on_y_get *)
Definition lsm6ds3tr_c_tap_detection_on_y_get (val : Z) : io (Z * Z) :=
  let tap_cfg : lsm6ds3tr_c_tap_cfg_t := undef "tap_cfg" 0%nat in
  let* (ret, tap_cfg) := read_struct LSM6DS3TR_C_TAP_CFG tap_cfg in
  let val := tap_cfg.["tap_y_en"] in
  mret (ret, val).

(* @ lsm6ds3tr-c_reg.c:3694-3711 lsm6ds3tr_c_tap_detection_on_x_set *)
Definition lsm6ds3tr_c_tap_detection_on_x_set (val : Z) : io Z :=
  let tap_cfg : lsm6ds3tr_c_tap_cfg_t := undef "tap_cfg" 0%nat in
  let* (ret, tap_cfg) := read_struct LSM6DS3TR_C_TAP_CFG tap_cfg in
  if ret =? 0 then
    let tap_cfg := tap_cfg.["tap_x_en" := val] in
    write_struct LSM6DS3TR_C_TAP_CFG tap_cfg
  else mret ret.

(* @ lsm6ds3tr-c_reg.c:3721-3732 lsm6ds3tr_c_tap_detection_on_x_get *)
Definition lsm6ds3tr_c_tap_detection_on_x_get (val : Z) : io (Z * Z) :=
  let tap_cfg : lsm6ds3tr_c_tap_cfg_t := undef "tap_cfg" 0%nat in
  let* (ret, tap_cfg) := read_struct LSM6DS3TR_C_TAP_CFG tap_cfg in
  let val := tap_cfg.["tap_x_en"] in
  mret (ret, val).

(* @ lsm6ds3tr-c_reg.c:3742-3759 lsm6ds3tr_c_tap_threshold_x_set *)
Definition lsm6ds3tr_c_tap_threshold_x_set (val : Z) : io Z :=
  let tap_ths_6d : lsm6ds3tr_c_tap_ths_6d_t := undef "tap_ths_6d" 0%nat in
  let* (ret, tap_ths_6d) := read_struct LSM6DS3TR_C_TAP_THS_6D tap_ths_6d in
  if ret =? 0 then
    let tap_ths_6d := tap_ths_6d.["tap_ths" := val] in
    write_struct LSM6DS3TR_C_TAP_THS_6D tap_ths_6d
  else mret ret.

(* @ lsm6ds3tr-c_reg.c:3769-3780 lsm6ds3tr_c_tap_threshold_x_get *)
Definition lsm6ds3tr_c_tap_threshold_x_get (val : Z) : io (Z * Z) :=
  let tap_ths_6d : lsm6ds3tr_c_tap_ths_6d_t := undef "tap_ths_6d" 0%nat in
  let* (ret, tap_ths_6d) := read_struct LSM6DS3TR_C_TAP_THS_6D tap_ths_6d in
  let val := tap_ths_6d.["tap_ths"] in
  mret (ret, val).

(* @ lsm6ds3tr-c_reg.c:3795-3811 lsm6ds3tr_c_tap_shock_set *)
Definition lsm6ds3tr_c_tap_shock_set (val : Z) : io Z :=
  let int_dur2 : lsm6ds3tr_c_int_dur2_t := undef "int_dur2" 0%nat in
  let* (ret, int_dur2) := read_struct LSM6DS3TR_C_INT_DUR2 int_dur2 in
  if ret =? 0 then
    let int_dur2 := int_dur2.["shock" := val] in
    write_struct LSM6DS3TR_C_INT_DUR2 int_dur2
  else mret ret.

(* @ lsm6ds3tr-c_reg.c:3826-3836 lsm6ds3tr_c_tap_shock_get *)
Definition lsm6ds3tr_c_tap_shock_get (val : Z) : io (Z * Z) :=
  let int_dur2 : lsm6ds3tr_c_int_dur2_t := undef "int_dur2" 0%nat in
  let* (ret, int_dur2) := read_struct LSM6DS3TR_C_INT_DUR2 int_dur2 in
  let val := int_dur2.["shock"] in
  mret (ret, val).

(* @ lsm6ds3tr-c_reg.c:3851-3867 lsm6ds3tr_c_tap_quiet_set *)
Definition lsm6ds3tr_c_tap_quiet_set (val : Z) : io Z :=
  let int_dur2 : lsm6ds3tr_c_int_dur2_t := undef "int_dur2" 0%nat in
  let* (ret, int_dur2) := read_struct LSM6DS3TR_C_INT_DUR2 int_dur2 in
  if ret =? 0 then
    let int_dur2 := int_dur2.["quiet" := val] in
    write_struct LSM6DS3TR_C_INT_DUR2 int_dur2
  else mret ret.

(* @ lsm6ds3tr-c_reg.c:3882-3892 lsm6ds3tr_c_tap_quiet_get *)
Definition lsm6ds3tr_c_tap_quiet_get (val : Z) : io (Z * Z) :=
  let int_dur2 : lsm6ds3tr_c_int_dur2_t := undef "int_dur2" 0%nat in
  let* (ret, int_dur2) := read_struct LSM6DS3TR_C_INT_DUR2 int_dur2 in
  let val := int_dur2.["quiet"] in
  mret (ret, val).

(* @ lsm6ds3tr-c_reg.c:3908-3924 lsm6ds3tr_c_tap_dur_set *)
Definition lsm6ds3tr_c_tap_dur_set (val : Z) : io Z :=
  let int_dur2 : lsm6ds3tr_c_int_dur2_t := undef "int_dur2" 0%nat in
  let* (ret, int_dur2) := read_struct LSM6DS3TR_C_INT_DUR2 int_dur2 in
  if ret =? 0 then
    let int_dur2 := int_dur2.["dur" := val] in
    write_struct LSM6DS3TR_C_INT_DUR2 int_dur2
  else mret ret.

(* @ lsm6ds3tr-c_reg.c:3940-3950 lsm6ds3tr_c_tap_dur_get *)
Definition lsm6ds3tr_c_tap_dur_get (val : Z) : io (Z * Z) :=
  let int_dur2 : lsm6ds3tr_c_int_dur2_t := undef "int_dur2" 0%nat in
  let* (ret, int_dur2) := read_struct LSM6DS3TR_C_INT_DUR2 int_dur2 in
  let val := int_dur2.["dur"] in
  mret (ret, val).

(* @ lsm6ds3tr-c_reg.c:3961-3978 lsm6ds3tr_c_tap_mode_set *)
Definition lsm6ds3tr_c_tap_mode_set (val : lsm6ds3tr_c_single_double_tap_t) : io Z :=
  let wake_up_ths : lsm6ds3tr_c_wake_up_ths_t := undef "wake_up_ths" 0%nat in
  let* (ret, wake_up_ths) := read_struct LSM6DS3TR_C_WAKE_UP_THS wake_up_ths in
  if ret =? 0 then
    let wake_up_ths := wake_up_ths.["single_double_tap" := u8 (code val)] in
    write_struct LSM6DS3TR_C_WAKE_UP_THS wake_up_ths
  else mret ret.

(* @ lsm6ds3tr-c_reg.c:3989-4014 lsm6ds3tr_c_tap_mode_get *)
Definition lsm6ds3tr_c_tap_mode_get (val : lsm6ds3tr_c_single_double_tap_t) :
    io (Z * lsm6ds3tr_c_single_double_tap_t) :=
  let wake_up_ths : lsm6ds3tr_c_wake_up_ths_t := undef "wake_up_ths" 0%nat in
  let* (ret, wake_up_ths) := read_struct LSM6DS3TR_C_WAKE_UP_THS wake_up_ths in
  let val := switch wake_up_ths.["single_double_tap"]
      [LSM6DS3TR_C_ONLY_SINGLE; LSM6DS3TR_C_BOTH_SINGLE_DOUBLE] LSM6DS3TR_C_TAP_MODE_ND in
  mret (ret, val).

(* @ lsm6ds3tr-c_reg.c:4038-4055 lsm6ds3tr_c_6d_feed_data_set *)
Definition lsm6ds3tr_c_6d_feed_data_set (val : lsm6ds3tr_c_low_pass_on_6d_t) : io Z :=
  let ctrl8_xl : lsm6ds3tr_c_ctrl8_xl_t := undef "ctrl8_xl" 0%nat in
  let* (ret, ctrl8_xl) := read_struct LSM6DS3TR_C_CTRL8_XL ctrl8_xl in
  if ret =? 0 then
    let ctrl8_xl := ctrl8_xl.["low_pass_on_6d" := u8 (code val)] in
    write_struct LSM6DS3TR_C_CTRL8_XL ctrl8_xl
  else mret ret.

(* @ lsm6ds3tr-c_reg.c:4065-4090 lsm6ds3tr_c_6d_feed_data_get *)
Definition lsm6ds3tr_c_6d_feed_data_get (val : lsm6ds3tr_c_low_pass_on_6d_t) :
    io (Z * lsm6ds3tr_c_low_pass_on_6d_t) :=
  let ctrl8_xl : lsm6ds3tr_c_ctrl8_xl_t := undef "ctrl8_xl" 0%nat in
  let* (ret, ctrl8_xl) := read_struct LSM6DS3TR_C_CTRL8_XL ctrl8_xl in
  let val := switch ctrl8_xl.["low_pass_on_6d"]
      [LSM6DS3TR_C_ODR_DIV_2_FEED; LSM6DS3TR_C_LPF2_FEED] LSM6DS3TR_C_6D_FEED_ND in
  mret (ret, val).

(* @ lsm6ds3tr-c_reg.c:4100-4117 lsm6ds3tr_c_6d_threshold_set *)
Definition lsm6ds3tr_c_6d_threshold_set (val : lsm6ds3tr_c_sixd_ths_t) : io Z :=
  let tap_ths_6d : lsm6ds3tr_c_tap_ths_6d_t := undef "tap_ths_6d" 0%nat in
  let* (ret, tap_ths_6d) := read_struct LSM6DS3TR_C_TAP_THS_6D tap_ths_6d in
  if ret =? 0 then
    let tap_ths_6d := tap_ths_6d.["sixd_ths" := u8 (code val)] in
    write_struct LSM6DS3TR_C_TAP_THS_6D tap_ths_6d
  else mret ret.

(* @ lsm6ds3tr-c_reg.c:4127-4160 lsm6ds3tr_c_6d_threshold_get *)
Definition lsm6ds3tr_c_6d_threshold_get (val : lsm6ds3tr_c_sixd_ths_t) :
    io (Z * lsm6ds3tr_c_sixd_ths_t) :=
  let tap_ths_6d : lsm6ds3tr_c_tap_ths_6d_t := undef "tap_ths_6d" 0%nat in
  let* (ret, tap_ths_6d) := read_struct LSM6DS3TR_C_TAP_THS_6D tap_ths_6d in
  let val := switch tap_ths_6d.["sixd_ths"]
      [LSM6DS3TR_C_DEG_80; LSM6DS3TR_C_DEG_70; LSM6DS3TR_C_DEG_60;
       LSM6DS3TR_C_DEG_50] LSM6DS3TR_C_6D_TH_ND in
  mret (ret, val).

(* @ lsm6ds3tr-c_reg.c:4170-4186 lsm6ds3tr_c_4d_mode_set *)
Definition lsm6ds3tr_c_4d_mode_set (val : Z) : io Z :=
  let tap_ths_6d : lsm6ds3tr_c_tap_ths_6d_t := undef "tap_ths_6d" 0%nat in
  let* (ret, tap_ths_6d) := read_struct LSM6DS3TR_C_TAP_THS_6D tap_ths_6d in
  if ret =? 0 then
    let tap_ths_6d := tap_ths_6d.["d4d_en" := val] in
    write_struct LSM6DS3TR_C_TAP_THS_6D tap_ths_6d
  else mret ret.

(* @ lsm6ds3tr-c_reg.c:4196-4206 lsm6ds3tr_c_4d_mode_get *)
Definition lsm6ds3tr_c_4d_mode_get (val : Z) : io (Z * Z) :=
  let tap_ths_6d : lsm6ds3tr_c_tap_ths_6d_t := undef "tap_ths_6d" 0%nat in
  let* (ret, tap_ths_6d) := read_struct LSM6DS3TR_C_TAP_THS_6D tap_ths_6d in
  let val := tap_ths_6d.["d4d_en"] in
  mret (ret, val).

(* @ lsm6ds3tr-c_reg.c:4229-4259 lsm6ds3tr_c_ff_dur_set *)
Definition lsm6ds3tr_c_ff_dur_set (val : Z) : io Z :=
  let wake_up_dur : lsm6ds3tr_c_wake_up_dur_t := undef "wake_up_dur" 0%nat in
  let free_fall : lsm6ds3tr_c_free_fall_t := undef "free_fall" 0%nat in
  let* (ret, free_fall) := read_struct LSM6DS3TR_C_FREE_FALL free_fall in
  if ret =? 0 then
    let free_fall := free_fall.["ff_dur" := Z.land val 0x1F] in
    let* ret := write_struct LSM6DS3TR_C_FREE_FALL free_fall in
    if ret =? 0 then
      let* (ret, wake_up_dur) := read_struct LSM6DS3TR_C_WAKE_UP_DUR wake_up_dur in
      if ret =? 0 then
        let wake_up_dur := wake_up_dur.["ff_dur" := Z.shiftr (Z.land val 0x20) 5] in
        write_struct LSM6DS3TR_C_WAKE_UP_DUR wake_up_dur
      else mret ret
    else mret ret
  else mret ret.

(* @ lsm6ds3tr-c_reg.c:4269-4287 lsm6ds3tr_c_ff_dur_get *)
Definition lsm6ds3tr_c_ff_dur_get (val : Z) : io (Z * Z) :=
  let wake_up_dur : lsm6ds3tr_c_wake_up_dur_t := undef "wake_up_dur" 0%nat in
  let free_fall : lsm6ds3tr_c_free_fall_t := undef "free_fall" 0%nat in
  let* (ret, wake_up_dur) := read_struct LSM6DS3TR_C_WAKE_UP_DUR wake_up_dur in
  let* (ret, free_fall) :=
    (if ret =? 0 then
      read_struct LSM6DS3TR_C_FREE_FALL free_fall
     else mret (ret, free_fall)) in
  let val := u8 ((Z.shiftl wake_up_dur.["ff_dur"] 5) + free_fall.["ff_dur"]) in
  mret (ret, val).

(* @ lsm6ds3tr-c_reg.c:4297-4314 lsm6ds3tr_c_ff_threshold_set *)
Definition lsm6ds3tr_c_ff_threshold_set (val : lsm6ds3tr_c_ff_ths_t) : io Z :=
  let free_fall : lsm6ds3tr_c_free_fall_t := undef "free_fall" 0%nat in
  let* (ret, free_fall) := read_struct LSM6DS3TR_C_FREE_FALL free_fall in
  if ret =? 0 then
    let free_fall := free_fall.["ff_ths" := u8 (code val)] in
    write_struct LSM6DS3TR_C_FREE_FALL free_fall
  else mret ret.

(* @ lsm6ds3tr-c_reg.c:4324-4373 lsm6ds3tr_c_ff_threshold_get *)
Definition lsm6ds3tr_c_ff_threshold_get (val : lsm6ds3tr_c_ff_ths_t) :
    io (Z * lsm6ds3tr_c_ff_ths_t) :=
  let free_fall : lsm6ds3tr_c_free_fall_t := undef "free_fall" 0%nat in
  let* (ret, free_fall) := read_struct LSM6DS3TR_C_FREE_FALL free_fall in
  let val := switch free_fall.["ff_ths"]
      [LSM6DS3TR_C_FF_TSH_156mg; LSM6DS3TR_C_FF_TSH_219mg; LSM6DS3TR_C_FF_TSH_250mg;
       LSM6DS3TR_C_FF_TSH_312mg; LSM6DS3TR_C_FF_TSH_344mg; LSM6DS3TR_C_FF_TSH_406mg;
       LSM6DS3TR_C_FF_TSH_469mg; LSM6DS3TR_C_FF_TSH_500mg] LSM6DS3TR_C_FF_TSH_ND in
  mret (ret, val).

(* @ lsm6ds3tr-c_reg.c:4396-4421 lsm6ds3tr_c_fifo_watermark_set *)
Definition lsm6ds3tr_c_fifo_watermark_set (val : Z) : io Z :=
  let fifo_ctrl1 : lsm6ds3tr_c_fifo_ctrl1_t := undef "fifo_ctrl1" 0%nat in
  let fifo_ctrl2 : lsm6ds3tr_c_fifo_ctrl2_t := undef "fifo_ctrl2" 0%nat in
  let* (ret, fifo_ctrl2) := read_struct LSM6DS3TR_C_FIFO_CTRL2 fifo_ctrl2 in
  if ret =? 0 then
    let fifo_ctrl1 := fifo_ctrl1.["fth" := u8 (Z.land 0x00FF val)] in
    let fifo_ctrl2 := fifo_ctrl2.["fth" := u8 (Z.shiftr (Z.land 0x0700 val) 8)] in
    let* ret := write_struct LSM6DS3TR_C_FIFO_CTRL1 fifo_ctrl1 in
    if ret =? 0 then
      write_struct LSM6DS3TR_C_FIFO_CTRL2 fifo_ctrl2
    else mret ret
  else mret ret.

(* @ lsm6ds3tr-c_reg.c:4431-4450 lsm6ds3tr_c_fifo_watermark_get *)
Definition lsm6ds3tr_c_fifo_watermark_get (val : Z) : io (Z * Z) :=
  let fifo_ctrl1 : lsm6ds3tr_c_fifo_ctrl1_t := undef "fifo_ctrl1" 0%nat in
  let fifo_ctrl2 : lsm6ds3tr_c_fifo_ctrl2_t := undef "fifo_ctrl2" 0%nat in
  let* (ret, fifo_ctrl1) := read_struct LSM6DS3TR_C_FIFO_CTRL1 fifo_ctrl1 in
  let* (ret, fifo_ctrl2) :=
    (if ret =? 0 then
      read_struct LSM6DS3TR_C_FIFO_CTRL2 fifo_ctrl2
     else mret (ret, fifo_ctrl2)) in
  let val := u16 ((Z.shiftl (u16 fifo_ctrl2.["fth"]) 8) + (u16 fifo_ctrl1.["fth"])) in
  mret (ret, val).

(* @ lsm6ds3tr-c_reg.c:4462-4481 lsm6ds3tr_c_fifo_data_level_get *)
Definition lsm6ds3tr_c_fifo_data_level_get (val : Z) : io (Z * Z) :=
  let fifo_status1 : lsm6ds3tr_c_fifo_status1_t := undef "fifo_status1" 0%nat in
  let fifo_status2 : lsm6ds3tr_c_fifo_status2_t := undef "fifo_status2" 0%nat in
  let* (ret, fifo_status1) := read_struct LSM6DS3TR_C_FIFO_STATUS1 fifo_status1 in
  if ret =? 0 then
    let* (ret, fifo_status2) := read_struct LSM6DS3TR_C_FIFO_STATUS2 fifo_status2 in
    let val := u16 ((Z.shiftl (u16 fifo_status2.["diff_fifo"]) 8) + (u16 fifo_status1.["diff_fifo"])) in
    mret (ret, val)
  else mret (ret, val).

(* @ lsm6ds3tr-c_reg.c:4491-4501 lsm6ds3tr_c_fifo_wtm_flag_get *)
Definition lsm6ds3tr_c_fifo_wtm_flag_get (val : Z) : io (Z * Z) :=
  let fifo_status2 : lsm6ds3tr_c_fifo_status2_t := undef "fifo_status2" 0%nat in
  let* (ret, fifo_status2) := read_struct LSM6DS3TR_C_FIFO_STATUS2 fifo_status2 in
  let val := fifo_status2.["waterm"] in
  mret (ret, val).

(* @ lsm6ds3tr-c_reg.c:4512-4530 lsm6ds3tr_c_fifo_pattern_get *)
Definition lsm6ds3tr_c_fifo_pattern_get (val : Z) : io (Z * Z) :=
  let fifo_status3 : lsm6ds3tr_c_fifo_status3_t := undef "fifo_status3" 0%nat in
  let fifo_status4 : lsm6ds3tr_c_fifo_status4_t := undef "fifo_status4" 0%nat in
  let* (ret, fifo_status3) := read_struct LSM6DS3TR_C_FIFO_STATUS3 fifo_status3 in
  if ret =? 0 then
    let* (ret, fifo_status4) := read_struct LSM6DS3TR_C_FIFO_STATUS4 fifo_status4 in
    let val := u16 ((Z.shiftl (u16 fifo_status4.["fifo_pattern"]) 8) + fifo_status3.["fifo_pattern"]) in
    mret (ret, val)
  else mret (ret, val).

(* @ lsm6ds3tr-c_reg.c:4540-4557 lsm6ds3tr_c_fifo_temp_batch_set *)
Definition lsm6ds3tr_c_fifo_temp_batch_set (val : Z) : io Z :=
  let fifo_ctrl2 : lsm6ds3tr_c_fifo_ctrl2_t := undef "fifo_ctrl2" 0%nat in
  let* (ret, fifo_ctrl2) := read_struct LSM6DS3TR_C_FIFO_CTRL2 fifo_ctrl2 in
  if ret =? 0 then
    let fifo_ctrl2 := fifo_ctrl2.["fifo_temp_en" := val] in
    write_struct LSM6DS3TR_C_FIFO_CTRL2 fifo_ctrl2
  else mret ret.

(* @ lsm6ds3tr-c_reg.c:4567-4578 lsm6ds3tr_c_fifo_temp_batch_get *)
Definition lsm6ds3tr_c_fifo_temp_batch_get (val : Z) : io (Z * Z) :=
  let fifo_ctrl2 : lsm6ds3tr_c_fifo_ctrl2_t := undef "fifo_ctrl2" 0%nat in
  let* (ret, fifo_ctrl2) := read_struct LSM6DS3TR_C_FIFO_CTRL2 fifo_ctrl2 in
  let val := fifo_ctrl2.["fifo_temp_en"] in
  mret (ret, val).

(* @ lsm6ds3tr-c_reg.c:4589-4620 lsm6ds3tr_c_fifo_write_trigger_set *)
Definition lsm6ds3tr_c_fifo_write_trigger_set (val : lsm6ds3tr_c_trigger_fifo_t) : io Z :=
  let fifo_ctrl2 : lsm6ds3tr_c_fifo_ctrl2_t := undef "fifo_ctrl2" 0%nat in
  let master_config : lsm6ds3tr_c_master_config_t := undef "master_config" 0%nat in
  let* (ret, fifo_ctrl2) := read_struct LSM6DS3TR_C_FIFO_CTRL2 fifo_ctrl2 in
  if ret =? 0 then
    let fifo_ctrl2 := fifo_ctrl2.["timer_pedo_fifo_drdy" := Z.land (u8 (code val)) 0x01] in
    let* ret := write_struct LSM6DS3TR_C_FIFO_CTRL2 fifo_ctrl2 in
    if ret =? 0 then
      let* (ret, master_config) := read_struct LSM6DS3TR_C_MASTER_CONFIG master_config in
      if ret =? 0 then
        let master_config := master_config.["data_valid_sel_fifo" := Z.shiftr (Z.land (u8 (code val)) 0x02) 1] in
        write_struct LSM6DS3TR_C_MASTER_CONFIG master_config
      else mret ret
    else mret ret
  else mret ret.

(* @ lsm6ds3tr-c_reg.c:4631-4668 lsm6ds3tr_c_fifo_write_trigger_get *)
Definition lsm6ds3tr_c_fifo_write_trigger_get (val : lsm6ds3tr_c_trigger_fifo_t) :
    io (Z * lsm6ds3tr_c_trigger_fifo_t) :=
  let fifo_ctrl2 : lsm6ds3tr_c_fifo_ctrl2_t := undef "fifo_ctrl2" 0%nat in
  let master_config : lsm6ds3tr_c_master_config_t := undef "master_config" 0%nat in
  let* (ret, fifo_ctrl2) := read_struct LSM6DS3TR_C_FIFO_CTRL2 fifo_ctrl2 in
  if ret =? 0 then
    let* (ret, master_config) := read_struct LSM6DS3TR_C_MASTER_CONFIG master_config in
    let val := switch ((Z.shiftl fifo_ctrl2.["timer_pedo_fifo_drdy"] 1) + fifo_ctrl2.["timer_pedo_fifo_drdy"])
        [LSM6DS3TR_C_TRG_XL_GY_DRDY; LSM6DS3TR_C_TRG_STEP_DETECT;
         LSM6DS3TR_C_TRG_SH_DRDY] LSM6DS3TR_C_TRG_SH_ND in
    mret (ret, val)
  else mret (ret, val).

(* @ lsm6ds3tr-c_reg.c:4679-4697 lsm6ds3tr_c_fifo_pedo_and_timestamp_batch_set *)
Definition lsm6ds3tr_c_fifo_pedo_and_timestamp_batch_set (val : Z) : io Z :=
  let fifo_ctrl2 : lsm6ds3tr_c_fifo_ctrl2_t := undef "fifo_ctrl2" 0%nat in
  let* (ret, fifo_ctrl2) := read_struct LSM6DS3TR_C_FIFO_CTRL2 fifo_ctrl2 in
  if ret =? 0 then
    let fifo_ctrl2 := fifo_ctrl2.["timer_pedo_fifo_en" := val] in
    write_struct LSM6DS3TR_C_FIFO_CTRL2 fifo_ctrl2
  else mret ret.

(* @ lsm6ds3tr-c_reg.c:4708-4720 lsm6ds3tr_c_fifo_pedo_and_timestamp_batch_get *)
Definition lsm6ds3tr_c_fifo_pedo_and_timestamp_batch_get (val : Z) : io (Z * Z) :=
  let fifo_ctrl2 : lsm6ds3tr_c_fifo_ctrl2_t := undef "fifo_ctrl2" 0%nat in
  let* (ret, fifo_ctrl2) := read_struct LSM6DS3TR_C_FIFO_CTRL2 fifo_ctrl2 in
  let val := fifo_ctrl2.["timer_pedo_fifo_en"] in
  mret (ret, val).

(* @ lsm6ds3tr-c_reg.c:4731-4748 lsm6ds3tr_c_fifo_xl_batch_set *)
Definition lsm6ds3tr_c_fifo_xl_batch_set (val : lsm6ds3tr_c_dec_fifo_xl_t) : io Z :=
  let fifo_ctrl3 : lsm6ds3tr_c_fifo_ctrl3_t := undef "fifo_ctrl3" 0%nat in
  let* (ret, fifo_ctrl3) := read_struct LSM6DS3TR_C_FIFO_CTRL3 fifo_ctrl3 in
  if ret =? 0 then
    let fifo_ctrl3 := fifo_ctrl3.["dec_fifo_xl" := u8 (code val)] in
    write_struct LSM6DS3TR_C_FIFO_CTRL3 fifo_ctrl3
  else mret ret.

(* @ lsm6ds3tr-c_reg.c:4759-4808 lsm6ds3tr_c_fifo_xl_batch_get *)
Definition lsm6ds3tr_c_fifo_xl_batch_get (val : lsm6ds3tr_c_dec_fifo_xl_t) :
    io (Z * lsm6ds3tr_c_dec_fifo_xl_t) :=
  let fifo_ctrl3 : lsm6ds3tr_c_fifo_ctrl3_t := undef "fifo_ctrl3" 0%nat in
  let* (ret, fifo_ctrl3) := read_struct LSM6DS3TR_C_FIFO_CTRL3 fifo_ctrl3 in
  let val := switch fifo_ctrl3.["dec_fifo_xl"]
      [LSM6DS3TR_C_FIFO_XL_DISABLE; LSM6DS3TR_C_FIFO_XL_NO_DEC; LSM6DS3TR_C_FIFO_XL_DEC_2;
       LSM6DS3TR_C_FIFO_XL_DEC_3; LSM6DS3TR_C_FIFO_XL_DEC_4; LSM6DS3TR_C_FIFO_XL_DEC_8;
       LSM6DS3TR_C_FIFO_XL_DEC_16; LSM6DS3TR_C_FIFO_XL_DEC_32] LSM6DS3TR_C_FIFO_XL_DEC_ND in
  mret (ret, val).

(* @ lsm6ds3tr-c_reg.c:4819-4836 lsm6ds3tr_c_fifo_gy_batch_set *)
Definition lsm6ds3tr_c_fifo_gy_batch_set (val : lsm6ds3tr_c_dec_fifo_gyro_t) : io Z :=
  let fifo_ctrl3 : lsm6ds3tr_c_fifo_ctrl3_t := undef "fifo_ctrl3" 0%nat in
  let* (ret, fifo_ctrl3) := read_struct LSM6DS3TR_C_FIFO_CTRL3 fifo_ctrl3 in
  if ret =? 0 then
    let fifo_ctrl3 := fifo_ctrl3.["dec_fifo_gyro" := u8 (code val)] in
    write_struct LSM6DS3TR_C_FIFO_CTRL3 fifo_ctrl3
  else mret ret.

(* @ lsm6ds3tr-c_reg.c:4847-4896 lsm6ds3tr_c_fifo_gy_batch_get *)
Definition lsm6ds3tr_c_fifo_gy_batch_get (val : lsm6ds3tr_c_dec_fifo_gyro_t) :
    io (Z * lsm6ds3tr_c_dec_fifo_gyro_t) :=
  let fifo_ctrl3 : lsm6ds3tr_c_fifo_ctrl3_t := undef "fifo_ctrl3" 0%nat in
  let* (ret, fifo_ctrl3) := read_struct LSM6DS3TR_C_FIFO_CTRL3 fifo_ctrl3 in
  let val := switch fifo_ctrl3.["dec_fifo_gyro"]
      [LSM6DS3TR_C_FIFO_GY_DISABLE; LSM6DS3TR_C_FIFO_GY_NO_DEC; LSM6DS3TR_C_FIFO_GY_DEC_2;
       LSM6DS3TR_C_FIFO_GY_DEC_3; LSM6DS3TR_C_FIFO_GY_DEC_4; LSM6DS3TR_C_FIFO_GY_DEC_8;
       LSM6DS3TR_C_FIFO_GY_DEC_16; LSM6DS3TR_C_FIFO_GY_DEC_32] LSM6DS3TR_C_FIFO_GY_DEC_ND in
  mret (ret, val).

(* @ lsm6ds3tr-c_reg.c:4907-4924 lsm6ds3tr_c_fifo_dataset_3_batch_set *)
Definition lsm6ds3tr_c_fifo_dataset_3_batch_set (val : lsm6ds3tr_c_dec_ds3_fifo_t) : io Z :=
  let fifo_ctrl4 : lsm6ds3tr_c_fifo_ctrl4_t := undef "fifo_ctrl4" 0%nat in
  let* (ret, fifo_ctrl4) := read_struct LSM6DS3TR_C_FIFO_CTRL4 fifo_ctrl4 in
  if ret =? 0 then
    let fifo_ctrl4 := fifo_ctrl4.["dec_ds3_fifo" := u8 (code val)] in
    write_struct LSM6DS3TR_C_FIFO_CTRL4 fifo_ctrl4
  else mret ret.

(* @ lsm6ds3tr-c_reg.c:4935-4984 lsm6ds3tr_c_fifo_dataset_3_batch_get *)
Definition lsm6ds3tr_c_fifo_dataset_3_batch_get (val : lsm6ds3tr_c_dec_ds3_fifo_t) :
    io (Z * lsm6ds3tr_c_dec_ds3_fifo_t) :=
  let fifo_ctrl4 : lsm6ds3tr_c_fifo_ctrl4_t := undef "fifo_ctrl4" 0%nat in
  let* (ret, fifo_ctrl4) := read_struct LSM6DS3TR_C_FIFO_CTRL4 fifo_ctrl4 in
  let val := switch fifo_ctrl4.["dec_ds3_fifo"]
      [LSM6DS3TR_C_FIFO_DS3_DISABLE; LSM6DS3TR_C_FIFO_DS3_NO_DEC; LSM6DS3TR_C_FIFO_DS3_DEC_2;
       LSM6DS3TR_C_FIFO_DS3_DEC_3; LSM6DS3TR_C_FIFO_DS3_DEC_4; LSM6DS3TR_C_FIFO_DS3_DEC_8;
       LSM6DS3TR_C_FIFO_DS3_DEC_16; LSM6DS3TR_C_FIFO_DS3_DEC_32] LSM6DS3TR_C_FIFO_DS3_DEC_ND in
  mret (ret, val).

(* @ lsm6ds3tr-c_reg.c:4995-5012 lsm6ds3tr_c_fifo_dataset_4_batch_set *)
Definition lsm6ds3tr_c_fifo_dataset_4_batch_set (val : lsm6ds3tr_c_dec_ds4_fifo_t) : io Z :=
  let fifo_ctrl4 : lsm6ds3tr_c_fifo_ctrl4_t := undef "fifo_ctrl4" 0%nat in
  let* (ret, fifo_ctrl4) := read_struct LSM6DS3TR_C_FIFO_CTRL4 fifo_ctrl4 in
  if ret =? 0 then
    let fifo_ctrl4 := fifo_ctrl4.["dec_ds4_fifo" := u8 (code val)] in
    write_struct LSM6DS3TR_C_FIFO_CTRL4 fifo_ctrl4
  else mret ret.

(* @ lsm6ds3tr-c_reg.c:5023-5072 lsm6ds3tr_c_fifo_dataset_4_batch_get *)
Definition lsm6ds3tr_c_fifo_dataset_4_batch_get (val : lsm6ds3tr_c_dec_ds4_fifo_t) :
    io (Z * lsm6ds3tr_c_dec_ds4_fifo_t) :=
  let fifo_ctrl4 : lsm6ds3tr_c_fifo_ctrl4_t := undef "fifo_ctrl4" 0%nat in
  let* (ret, fifo_ctrl4) := read_struct LSM6DS3TR_C_FIFO_CTRL4 fifo_ctrl4 in
  let val := switch fifo_ctrl4.["dec_ds4_fifo"]
      [LSM6DS3TR_C_FIFO_DS4_DISABLE; LSM6DS3TR_C_FIFO_DS4_NO_DEC; LSM6DS3TR_C_FIFO_DS4_DEC_2;
       LSM6DS3TR_C_FIFO_DS4_DEC_3; LSM6DS3TR_C_FIFO_DS4_DEC_4; LSM6DS3TR_C_FIFO_DS4_DEC_8;
       LSM6DS3TR_C_FIFO_DS4_DEC_16; LSM6DS3TR_C_FIFO_DS4_DEC_32] LSM6DS3TR_C_FIFO_DS4_DEC_ND in
  mret (ret, val).

(* @ lsm6ds3tr-c_reg.c:5082-5099 lsm6ds3tr_c_fifo_xl_gy_8bit_format_set *)
Definition lsm6ds3tr_c_fifo_xl_gy_8bit_format_set (val : Z) : io Z :=
  let fifo_ctrl4 : lsm6ds3tr_c_fifo_ctrl4_t := undef "fifo_ctrl4" 0%nat in
  let* (ret, fifo_ctrl4) := read_struct LSM6DS3TR_C_FIFO_CTRL4 fifo_ctrl4 in
  if ret =? 0 then
    let fifo_ctrl4 := fifo_ctrl4.["only_high_data" := val] in
    write_struct LSM6DS3TR_C_FIFO_CTRL4 fifo_ctrl4
  else mret ret.

(* @ lsm6ds3tr-c_reg.c:5109-5120 lsm6ds3tr_c_fifo_xl_gy_8bit_format_get *)
Definition lsm6ds3tr_c_fifo_xl_gy_8bit_format_get (val : Z) : io (Z * Z) :=
  let fifo_ctrl4 : lsm6ds3tr_c_fifo_ctrl4_t := undef "fifo_ctrl4" 0%nat in
  let* (ret, fifo_ctrl4) := read_struct LSM6DS3TR_C_FIFO_CTRL4 fifo_ctrl4 in
  let val := fifo_ctrl4.["only_high_data"] in
  mret (ret, val).

(* @ lsm6ds3tr-c_reg.c:5131-5148 lsm6ds3tr_c_fifo_stop_on_wtm_set *)
Definition lsm6ds3tr_c_fifo_stop_on_wtm_set (val : Z) : io Z :=
  let fifo_ctrl4 : lsm6ds3tr_c_fifo_ctrl4_t := undef "fifo_ctrl4" 0%nat in
  let* (ret, fifo_ctrl4) := read_struct LSM6DS3TR_C_FIFO_CTRL4 fifo_ctrl4 in
  if ret =? 0 then
    let fifo_ctrl4 := fifo_ctrl4.["stop_on_fth" := val] in
    write_struct LSM6DS3TR_C_FIFO_CTRL4 fifo_ctrl4
  else mret ret.

(* @ lsm6ds3tr-c_reg.c:5159-5170 lsm6ds3tr_c_fifo_stop_on_wtm_get *)
Definition lsm6ds3tr_c_fifo_stop_on_wtm_get (val : Z) : io (Z * Z) :=
  let fifo_ctrl4 : lsm6ds3tr_c_fifo_ctrl4_t := undef "fifo_ctrl4" 0%nat in
  let* (ret, fifo_ctrl4) := read_struct LSM6DS3TR_C_FIFO_CTRL4 fifo_ctrl4 in
  let val := fifo_ctrl4.["stop_on_fth"] in
  mret (ret, val).

(* @ lsm6ds3tr-c_reg.c:5180-5197 lsm6ds3tr_c_fifo_mode_set *)
Definition lsm6ds3tr_c_fifo_mode_set (val : lsm6ds3tr_c_fifo_mode_t) : io Z :=
  let fifo_ctrl5 : lsm6ds3tr_c_fifo_ctrl5_t := undef "fifo_ctrl5" 0%nat in
  let* (ret, fifo_ctrl5) := read_struct LSM6DS3TR_C_FIFO_CTRL5 fifo_ctrl5 in
  if ret =? 0 then
    let fifo_ctrl5 := fifo_ctrl5.["fifo_mode" := u8 (code val)] in
    write_struct LSM6DS3TR_C_FIFO_CTRL5 fifo_ctrl5
  else mret ret.

(* @ lsm6ds3tr-c_reg.c:5207-5244 lsm6ds3tr_c_fifo_mode_get *)
Definition lsm6ds3tr_c_fifo_mode_get (val : lsm6ds3tr_c_fifo_mode_t) :
    io (Z * lsm6ds3tr_c_fifo_mode_t) :=
  let fifo_ctrl5 : lsm6ds3tr_c_fifo_ctrl5_t := undef "fifo_ctrl5" 0%nat in
  let* (ret, fifo_ctrl5) := read_struct LSM6DS3TR_C_FIFO_CTRL5 fifo_ctrl5 in
  let val := switch fifo_ctrl5.["fifo_mode"]
      [LSM6DS3TR_C_BYPASS_MODE; LSM6DS3TR_C_FIFO_MODE; LSM6DS3TR_C_STREAM_TO_FIFO_MODE;
       LSM6DS3TR_C_BYPASS_TO_STREAM_MODE; LSM6DS3TR_C_STREAM_MODE] LSM6DS3TR_C_FIFO_MODE_ND in
  mret (ret, val).

(* @ lsm6ds3tr-c_reg.c:5254-5271 lsm6ds3tr_c_fifo_data_rate_set *)
Definition lsm6ds3tr_c_fifo_data_rate_set (val : lsm6ds3tr_c_odr_fifo_t) : io Z :=
  let fifo_ctrl5 : lsm6ds3tr_c_fifo_ctrl5_t := undef "fifo_ctrl5" 0%nat in
  let* (ret, fifo_ctrl5) := read_struct LSM6DS3TR_C_FIFO_CTRL5 fifo_ctrl5 in
  if ret =? 0 then
    let fifo_ctrl5 := fifo_ctrl5.["odr_fifo" := u8 (code val)] in
    write_struct LSM6DS3TR_C_FIFO_CTRL5 fifo_ctrl5
  else mret ret.

(* @ lsm6ds3tr-c_reg.c:5281-5342 lsm6ds3tr_c_fifo_data_rate_get *)
Definition lsm6ds3tr_c_fifo_data_rate_get (val : lsm6ds3tr_c_odr_fifo_t) :
    io (Z * lsm6ds3tr_c_odr_fifo_t) :=
  let fifo_ctrl5 : lsm6ds3tr_c_fifo_ctrl5_t := undef "fifo_ctrl5" 0%nat in
  let* (ret, fifo_ctrl5) := read_struct LSM6DS3TR_C_FIFO_CTRL5 fifo_ctrl5 in
  let val := switch fifo_ctrl5.["odr_fifo"]
      [LSM6DS3TR_C_FIFO_DISABLE; LSM6DS3TR_C_FIFO_12Hz5; LSM6DS3TR_C_FIFO_26Hz;
       LSM6DS3TR_C_FIFO_52Hz; LSM6DS3TR_C_FIFO_104Hz; LSM6DS3TR_C_FIFO_208Hz;
       LSM6DS3TR_C_FIFO_416Hz; LSM6DS3TR_C_FIFO_833Hz; LSM6DS3TR_C_FIFO_1k66Hz;
       LSM6DS3TR_C_FIFO_3k33Hz; LSM6DS3TR_C_FIFO_6k66Hz] LSM6DS3TR_C_FIFO_RATE_ND in
  mret (ret, val).

(* @ lsm6ds3tr-c_reg.c:5365-5382 lsm6ds3tr_c_den_polarity_set *)
Definition lsm6ds3tr_c_den_polarity_set (val : lsm6ds3tr_c_den_lh_t) : io Z :=
  let ctrl5_c : lsm6ds3tr_c_ctrl5_c_t := undef "ctrl5_c" 0%nat in
  let* (ret, ctrl5_c) := read_struct LSM6DS3TR_C_CTRL5_C ctrl5_c in
  if ret =? 0 then
    let ctrl5_c := ctrl5_c.["den_lh" := u8 (code val)] in
    write_struct LSM6DS3TR_C_CTRL5_C ctrl5_c
  else mret ret.

(* @ lsm6ds3tr-c_reg.c:5392-5417 lsm6ds3tr_c_den_polarity_get *)
Definition lsm6ds3tr_c_den_polarity_get (val : lsm6ds3tr_c_den_lh_t) :
    io (Z * lsm6ds3tr_c_den_lh_t) :=
  let ctrl5_c : lsm6ds3tr_c_ctrl5_c_t := undef "ctrl5_c" 0%nat in
  let* (ret, ctrl5_c) := read_struct LSM6DS3TR_C_CTRL5_C ctrl5_c in
  let val := switch ctrl5_c.["den_lh"] [LSM6DS3TR_C_DEN_ACT_LOW; LSM6DS3TR_C_DEN_ACT_HIGH] LSM6DS3TR_C_DEN_POL_ND in
  mret (ret, val).

(* @ lsm6ds3tr-c_reg.c:5427-5444 lsm6ds3tr_c_den_mode_set *)
Definition lsm6ds3tr_c_den_mode_set (val : lsm6ds3tr_c_den_mode_t) : io Z :=
  let ctrl6_c : lsm6ds3tr_c_ctrl6_c_t := undef "ctrl6_c" 0%nat in
  let* (ret, ctrl6_c) := read_struct LSM6DS3TR_C_CTRL6_C ctrl6_c in
  if ret =? 0 then
    let ctrl6_c := ctrl6_c.["den_mode" := u8 (code val)] in
    write_struct LSM6DS3TR_C_CTRL6_C ctrl6_c
  else mret ret.

(* @ lsm6ds3tr-c_reg.c:5454-5487 lsm6ds3tr_c_den_mode_get *)
Definition lsm6ds3tr_c_den_mode_get (val : lsm6ds3tr_c_den_mode_t) :
    io (Z * lsm6ds3tr_c_den_mode_t) :=
  let ctrl6_c : lsm6ds3tr_c_ctrl6_c_t := undef "ctrl6_c" 0%nat in
  let* (ret, ctrl6_c) := read_struct LSM6DS3TR_C_CTRL6_C ctrl6_c in
  let val := switch ctrl6_c.["den_mode"]
      [LSM6DS3TR_C_DEN_DISABLE; LSM6DS3TR_C_LEVEL_LETCHED; LSM6DS3TR_C_LEVEL_TRIGGER;
       LSM6DS3TR_C_EDGE_TRIGGER] LSM6DS3TR_C_DEN_MODE_ND in
  mret (ret, val).

(* @ lsm6ds3tr-c_reg.c:5498-5529 lsm6ds3tr_c_den_enable_set *)
Definition lsm6ds3tr_c_den_enable_set (val : lsm6ds3tr_c_den_xl_en_t) : io Z :=
  let ctrl4_c : lsm6ds3tr_c_ctrl4_c_t := undef "ctrl4_c" 0%nat in
  let ctrl9_xl : lsm6ds3tr_c_ctrl9_xl_t := undef "ctrl9_xl" 0%nat in
  let* (ret, ctrl9_xl) := read_struct LSM6DS3TR_C_CTRL9_XL ctrl9_xl in
  if ret =? 0 then
    let ctrl9_xl := ctrl9_xl.["den_xl_g" := Z.land (u8 (code val)) 0x01] in
    let* ret := write_struct LSM6DS3TR_C_CTRL9_XL ctrl9_xl in
    if ret =? 0 then
      let* (ret, ctrl4_c) := read_struct LSM6DS3TR_C_CTRL4_C ctrl4_c in
      if ret =? 0 then
        let ctrl4_c := ctrl4_c.["den_xl_en" := Z.land (u8 (code val)) 0x02] in
        write_struct LSM6DS3TR_C_CTRL4_C ctrl4_c
      else mret ret
    else mret ret
  else mret ret.

(* @ lsm6ds3tr-c_reg.c:5540-5576 lsm6ds3tr_c_den_enable_get *)
Definition lsm6ds3tr_c_den_enable_get (val : lsm6ds3tr_c_den_xl_en_t) :
    io (Z * lsm6ds3tr_c_den_xl_en_t) :=
  let ctrl4_c : lsm6ds3tr_c_ctrl4_c_t := undef "ctrl4_c" 0%nat in
  let ctrl9_xl : lsm6ds3tr_c_ctrl9_xl_t := undef "ctrl9_xl" 0%nat in
  let* (ret, ctrl4_c) := read_struct LSM6DS3TR_C_CTRL4_C ctrl4_c in
  if ret =? 0 then
    let* (ret, ctrl9_xl) := read_struct LSM6DS3TR_C_CTRL9_XL ctrl9_xl in
    let val := switch ((Z.shiftl ctrl4_c.["den_xl_en"] 1) + ctrl9_xl.["den_xl_g"])
        [LSM6DS3TR_C_STAMP_IN_GY_DATA; LSM6DS3TR_C_STAMP_IN_XL_DATA;
         LSM6DS3TR_C_STAMP_IN_GY_XL_DATA] LSM6DS3TR_C_DEN_STAMP_ND in
    mret (ret, val)
  else mret (ret, val).

(* @ lsm6ds3tr-c_reg.c:5586-5603 lsm6ds3tr_c_den_mark_axis_z_set *)
Definition lsm6ds3tr_c_den_mark_axis_z_set (val : Z) : io Z :=
  let ctrl9_xl : lsm6ds3tr_c_ctrl9_xl_t := undef "ctrl9_xl" 0%nat in
  let* (ret, ctrl9_xl) := read_struct LSM6DS3TR_C_CTRL9_XL ctrl9_xl in
  if ret =? 0 then
    let ctrl9_xl := ctrl9_xl.["den_z" := val] in
    write_struct LSM6DS3TR_C_CTRL9_XL ctrl9_xl
  else mret ret.

(* @ lsm6ds3tr-c_reg.c:5613-5624 lsm6ds3tr_c_den_mark_axis_z_get *)
Definition lsm6ds3tr_c_den_mark_axis_z_get (val : Z) : io (Z * Z) :=
  let ctrl9_xl : lsm6ds3tr_c_ctrl9_xl_t := undef "ctrl9_xl" 0%nat in
  let* (ret, ctrl9_xl) := read_struct LSM6DS3TR_C_CTRL9_XL ctrl9_xl in
  let val := ctrl9_xl.["den_z"] in
  mret (ret, val).

(* @ lsm6ds3tr-c_reg.c:5634-5651 lsm6ds3tr_c_den_mark_axis_y_set *)
Definition lsm6ds3tr_c_den_mark_axis_y_set (val : Z) : io Z :=
  let ctrl9_xl : lsm6ds3tr_c_ctrl9_xl_t := undef "ctrl9_xl" 0%nat in
  let* (ret, ctrl9_xl) := read_struct LSM6DS3TR_C_CTRL9_XL ctrl9_xl in
  if ret =? 0 then
    let ctrl9_xl := ctrl9_xl.["den_y" := val] in
    write_struct LSM6DS3TR_C_CTRL9_XL ctrl9_xl
  else mret ret.

(* @ lsm6ds3tr-c_reg.c:5661-5672 lsm6ds3tr_c_den_mark_axis_y_get *)
Definition lsm6ds3tr_c_den_mark_axis_y_get (val : Z) : io (Z * Z) :=
  let ctrl9_xl : lsm6ds3tr_c_ctrl9_xl_t := undef "ctrl9_xl" 0%nat in
  let* (ret, ctrl9_xl) := read_struct LSM6DS3TR_C_CTRL9_XL ctrl9_xl in
  let val := ctrl9_xl.["den_y"] in
  mret (ret, val).

(* @ lsm6ds3tr-c_reg.c:5682-5699 lsm6ds3tr_c_den_mark_axis_x_set *)
Definition lsm6ds3tr_c_den_mark_axis_x_set (val : Z) : io Z :=
  let ctrl9_xl : lsm6ds3tr_c_ctrl9_xl_t := undef "ctrl9_xl" 0%nat in
  let* (ret, ctrl9_xl) := read_struct LSM6DS3TR_C_CTRL9_XL ctrl9_xl in
  if ret =? 0 then
    let ctrl9_xl := ctrl9_xl.["den_x" := val] in
    write_struct LSM6DS3TR_C_CTRL9_XL ctrl9_xl
  else mret ret.

(* @ lsm6ds3tr-c_reg.c:5709-5720 lsm6ds3tr_c_den_mark_axis_x_get *)
Definition lsm6ds3tr_c_den_mark_axis_x_get (val : Z) : io (Z * Z) :=
  let ctrl9_xl : lsm6ds3tr_c_ctrl9_xl_t := undef "ctrl9_xl" 0%nat in
  let* (ret, ctrl9_xl) := read_struct LSM6DS3TR_C_CTRL9_XL ctrl9_xl in
  let val := ctrl9_xl.["den_x"] in
  mret (ret, val).

(* @ lsm6ds3tr-c_reg.c:5742-5759 lsm6ds3tr_c_pedo_step_reset_set *)
Definition lsm6ds3tr_c_pedo_step_reset_set (val : Z) : io Z :=
  let ctrl10_c : lsm6ds3tr_c_ctrl10_c_t := undef "ctrl10_c" 0%nat in
  let* (ret, ctrl10_c) := read_struct LSM6DS3TR_C_CTRL10_C ctrl10_c in
  if ret =? 0 then
    let ctrl10_c := ctrl10_c.["pedo_rst_step" := val] in
    write_struct LSM6DS3TR_C_CTRL10_C ctrl10_c
  else mret ret.

(* @ lsm6ds3tr-c_reg.c:5769-5780 lsm6ds3tr_c_pedo_step_reset_get *)
Definition lsm6ds3tr_c_pedo_step_reset_get (val : Z) : io (Z * Z) :=
  let ctrl10_c : lsm6ds3tr_c_ctrl10_c_t := undef "ctrl10_c" 0%nat in
  let* (ret, ctrl10_c) := read_struct LSM6DS3TR_C_CTRL10_C ctrl10_c in
  let val := ctrl10_c.["pedo_rst_step"] in
  mret (ret, val).

(* @ lsm6ds3tr-c_reg.c:5790-5812 lsm6ds3tr_c_pedo_sens_set *)
Definition lsm6ds3tr_c_pedo_sens_set (val : Z) : io Z :=
  let ctrl10_c : lsm6ds3tr_c_ctrl10_c_t := undef "ctrl10_c" 0%nat in
  let* (ret, ctrl10_c) := read_struct LSM6DS3TR_C_CTRL10_C ctrl10_c in
  if ret =? 0 then
    let ctrl10_c := ctrl10_c.["pedo_en" := val] in
    let ctrl10_c := if val ≠? 0x00 then ctrl10_c.["func_en" := val] else ctrl10_c in
    write_struct LSM6DS3TR_C_CTRL10_C ctrl10_c
  else mret ret.

(* @ lsm6ds3tr-c_reg.c:5822-5832 lsm6ds3tr_c_pedo_sens_get *)
Definition lsm6ds3tr_c_pedo_sens_get (val : Z) : io (Z * Z) :=
  let ctrl10_c : lsm6ds3tr_c_ctrl10_c_t := undef "ctrl10_c" 0%nat in
  let* (ret, ctrl10_c) := read_struct LSM6DS3TR_C_CTRL10_C ctrl10_c in
  let val := ctrl10_c.["pedo_en"] in
  mret (ret, val).

(* @ lsm6ds3tr-c_reg.c:5843-5869 lsm6ds3tr_c_pedo_threshold_set *)
Definition lsm6ds3tr_c_pedo_threshold_set (val : Z) : io Z :=
  let config_pedo_ths_min : lsm6ds3tr_c_config_pedo_ths_min_t := undef "config_pedo_ths_min" 0%nat in
  let* ret := lsm6ds3tr_c_mem_bank_set LSM6DS3TR_C_BANK_A in
  if ret =? 0 then
    let* (ret, config_pedo_ths_min) := read_struct LSM6DS3TR_C_CONFIG_PEDO_THS_MIN config_pedo_ths_min in
    if ret =? 0 then
      let config_pedo_ths_min := config_pedo_ths_min.["ths_min" := val] in
      let* ret := write_struct LSM6DS3TR_C_CONFIG_PEDO_THS_MIN config_pedo_ths_min in
      if ret =? 0 then
        lsm6ds3tr_c_mem_bank_set LSM6DS3TR_C_USER_BANK
      else mret ret
    else mret ret
  else mret ret.

(* @ lsm6ds3tr-c_reg.c:5879-5900 lsm6ds3tr_c_pedo_threshold_get *)
Definition lsm6ds3tr_c_pedo_threshold_get (val : Z) : io (Z * Z) :=
  let config_pedo_ths_min : lsm6ds3tr_c_config_pedo_ths_min_t := undef "config_pedo_ths_min" 0%nat in
  let* ret := lsm6ds3tr_c_mem_bank_set LSM6DS3TR_C_BANK_A in
  if ret =? 0 then
    let* (ret, config_pedo_ths_min) := read_struct LSM6DS3TR_C_CONFIG_PEDO_THS_MIN config_pedo_ths_min in
    if ret =? 0 then
      let val := config_pedo_ths_min.["ths_min"] in
      let* ret := lsm6ds3tr_c_mem_bank_set LSM6DS3TR_C_USER_BANK in
      mret (ret, val)
    else mret (ret, val)
  else mret (ret, val).

(* @ lsm6ds3tr-c_reg.c:5911-5938 lsm6ds3tr_c_pedo_full_scale_set *)
Definition lsm6ds3tr_c_pedo_full_scale_set (val : lsm6ds3tr_c_pedo_fs_t) : io Z :=
  let config_pedo_ths_min : lsm6ds3tr_c_config_pedo_ths_min_t := undef "config_pedo_ths_min" 0%nat in
  let* ret := lsm6ds3tr_c_mem_bank_set LSM6DS3TR_C_BANK_A in
  if ret =? 0 then
    let* (ret, config_pedo_ths_min) := read_struct LSM6DS3TR_C_CONFIG_PEDO_THS_MIN config_pedo_ths_min in
    if ret =? 0 then
      let config_pedo_ths_min := config_pedo_ths_min.["pedo_fs" := u8 (code val)] in
      let* ret := write_struct LSM6DS3TR_C_CONFIG_PEDO_THS_MIN config_pedo_ths_min in
      if ret =? 0 then
        lsm6ds3tr_c_mem_bank_set LSM6DS3TR_C_USER_BANK
      else mret ret
    else mret ret
  else mret ret.

(* @ lsm6ds3tr-c_reg.c:5949-5984 lsm6ds3tr_c_pedo_full_scale_get *)
Definition lsm6ds3tr_c_pedo_full_scale_get (val : lsm6ds3tr_c_pedo_fs_t) :
    io (Z * lsm6ds3tr_c_pedo_fs_t) :=
  let config_pedo_ths_min : lsm6ds3tr_c_config_pedo_ths_min_t := undef "config_pedo_ths_min" 0%nat in
  let* ret := lsm6ds3tr_c_mem_bank_set LSM6DS3TR_C_BANK_A in
  if ret =? 0 then
    let* (ret, config_pedo_ths_min) := read_struct LSM6DS3TR_C_CONFIG_PEDO_THS_MIN config_pedo_ths_min in
    if ret =? 0 then
      let val := switch config_pedo_ths_min.["pedo_fs"]
          [LSM6DS3TR_C_PEDO_AT_2g; LSM6DS3TR_C_PEDO_AT_4g] LSM6DS3TR_C_PEDO_FS_ND in
      let* ret := lsm6ds3tr_c_mem_bank_set LSM6DS3TR_C_USER_BANK in
      mret (ret, val)
    else mret (ret, val)
  else mret (ret, val).

(* @ lsm6ds3tr-c_reg.c:5994-6021 lsm6ds3tr_c_pedo_debounce_steps_set *)
Definition lsm6ds3tr_c_pedo_debounce_steps_set (val : Z) : io Z :=
  let pedo_deb_reg : lsm6ds3tr_c_pedo_deb_reg_t := undef "pedo_deb_reg" 0%nat in
  let* ret := lsm6ds3tr_c_mem_bank_set LSM6DS3TR_C_BANK_A in
  if ret =? 0 then
    let* (ret, pedo_deb_reg) := read_struct LSM6DS3TR_C_PEDO_DEB_REG pedo_deb_reg in
    if ret =? 0 then
      let pedo_deb_reg := pedo_deb_reg.["deb_step" := val] in
      let* ret := write_struct LSM6DS3TR_C_PEDO_DEB_REG pedo_deb_reg in
      if ret =? 0 then
        lsm6ds3tr_c_mem_bank_set LSM6DS3TR_C_USER_BANK
      else mret ret
    else mret ret
  else mret ret.

(* @ lsm6ds3tr-c_reg.c:6031-6052 lsm6ds3tr_c_pedo_debounce_steps_get *)
Definition lsm6ds3tr_c_pedo_debounce_steps_get (val : Z) : io (Z * Z) :=
  let pedo_deb_reg : lsm6ds3tr_c_pedo_deb_reg_t := undef "pedo_deb_reg" 0%nat in
  let* ret := lsm6ds3tr_c_mem_bank_set LSM6DS3TR_C_BANK_A in
  if ret =? 0 then
    let* (ret, pedo_deb_reg) := read_struct LSM6DS3TR_C_PEDO_DEB_REG pedo_deb_reg in
    if ret =? 0 then
      let val := pedo_deb_reg.["deb_step"] in
      let* ret := lsm6ds3tr_c_mem_bank_set LSM6DS3TR_C_USER_BANK in
      mret (ret, val)
    else mret (ret, val)
  else mret (ret, val).

(* @ lsm6ds3tr-c_reg.c:6064-6090 lsm6ds3tr_c_pedo_timeout_set *)
Definition lsm6ds3tr_c_pedo_timeout_set (val : Z) : io Z :=
  let pedo_deb_reg : lsm6ds3tr_c_pedo_deb_reg_t := undef "pedo_deb_reg" 0%nat in
  let* ret := lsm6ds3tr_c_mem_bank_set LSM6DS3TR_C_BANK_A in
  if ret =? 0 then
    let* (ret, pedo_deb_reg) := read_struct LSM6DS3TR_C_PEDO_DEB_REG pedo_deb_reg in
    if ret =? 0 then
      let pedo_deb_reg := pedo_deb_reg.["deb_time" := val] in
      let* ret := write_struct LSM6DS3TR_C_PEDO_DEB_REG pedo_deb_reg in
      if ret =? 0 then
        lsm6ds3tr_c_mem_bank_set LSM6DS3TR_C_USER_BANK
      else mret ret
    else mret ret
  else mret ret.

(* @ lsm6ds3tr-c_reg.c:6102-6122 lsm6ds3tr_c_pedo_timeout_get *)
Definition lsm6ds3tr_c_pedo_timeout_get (val : Z) : io (Z * Z) :=
  let pedo_deb_reg : lsm6ds3tr_c_pedo_deb_reg_t := undef "pedo_deb_reg" 0%nat in
  let* ret := lsm6ds3tr_c_mem_bank_set LSM6DS3TR_C_BANK_A in
  if ret =? 0 then
    let* (ret, pedo_deb_reg) := read_struct LSM6DS3TR_C_PEDO_DEB_REG pedo_deb_reg in
    if ret =? 0 then
      let val := pedo_deb_reg.["deb_time"] in
      let* ret := lsm6ds3tr_c_mem_bank_set LSM6DS3TR_C_USER_BANK in
      mret (ret, val)
    else mret (ret, val)
  else mret (ret, val).

(* @ lsm6ds3tr-c_reg.c:6132-6150 lsm6ds3tr_c_pedo_steps_period_set *)
Definition lsm6ds3tr_c_pedo_steps_period_set (buff : list Z) : io Z :=
  let* ret := lsm6ds3tr_c_mem_bank_set LSM6DS3TR_C_BANK_A in
  if ret =? 0 then
    let* ret := lsm6ds3tr_c_write_reg LSM6DS3TR_C_STEP_COUNT_DELTA buff 1 in
    if ret =? 0 then
      lsm6ds3tr_c_mem_bank_set LSM6DS3TR_C_USER_BANK
    else mret ret
  else mret ret.

(* @ lsm6ds3tr-c_reg.c:6160-6178 lsm6ds3tr_c_pedo_steps_period_get *)
Definition lsm6ds3tr_c_pedo_steps_period_get (buff : list Z) : io (Z * list Z) :=
  let* ret := lsm6ds3tr_c_mem_bank_set LSM6DS3TR_C_BANK_A in
  if ret =? 0 then
    let* (ret, buff) := lsm6ds3tr_c_read_reg LSM6DS3TR_C_STEP_COUNT_DELTA buff 1 in
    if ret =? 0 then
      let* ret := lsm6ds3tr_c_mem_bank_set LSM6DS3TR_C_USER_BANK in
      mret (ret, buff)
    else mret (ret, buff)
  else mret (ret, buff).

(* @ lsm6ds3tr-c_reg.c:6201-6222 lsm6ds3tr_c_motion_sens_set *)
Definition lsm6ds3tr_c_motion_sens_set (val : Z) : io Z :=
  let ctrl10_c : lsm6ds3tr_c_ctrl10_c_t := undef "ctrl10_c" 0%nat in
  let* (ret, ctrl10_c) := read_struct LSM6DS3TR_C_CTRL10_C ctrl10_c in
  if ret =? 0 then
    let ctrl10_c := ctrl10_c.["sign_motion_en" := val] in
    if val ≠? 0x00 then
      let ctrl10_c := ctrl10_c.["func_en" := val] in
      write_struct LSM6DS3TR_C_CTRL10_C ctrl10_c
    else mret ret
  else mret ret.

(* @ lsm6ds3tr-c_reg.c:6232-6242 lsm6ds3tr_c_motion_sens_get *)
Definition lsm6ds3tr_c_motion_sens_get (val : Z) : io (Z * Z) :=
  let ctrl10_c : lsm6ds3tr_c_ctrl10_c_t := undef "ctrl10_c" 0%nat in
  let* (ret, ctrl10_c) := read_struct LSM6DS3TR_C_CTRL10_C ctrl10_c in
  let val := ctrl10_c.["sign_motion_en"] in
  mret (ret, val).

(* @ lsm6ds3tr-c_reg.c:6252-6270 lsm6ds3tr_c_motion_threshold_set *)
Definition lsm6ds3tr_c_motion_threshold_set (buff : list Z) : io Z :=
  let* ret := lsm6ds3tr_c_mem_bank_set LSM6DS3TR_C_BANK_A in
  if ret =? 0 then
    let* ret := lsm6ds3tr_c_write_reg LSM6DS3TR_C_SM_THS buff 1 in
    if ret =? 0 then
      lsm6ds3tr_c_mem_bank_set LSM6DS3TR_C_USER_BANK
    else mret ret
  else mret ret.

(* @ lsm6ds3tr-c_reg.c:6280-6298 lsm6ds3tr_c_motion_threshold_get *)
Definition lsm6ds3tr_c_motion_threshold_get (buff : list Z) : io (Z * list Z) :=
  let* ret := lsm6ds3tr_c_mem_bank_set LSM6DS3TR_C_BANK_A in
  if ret =? 0 then
    let* (ret, buff) := lsm6ds3tr_c_read_reg LSM6DS3TR_C_SM_THS buff 1 in
    if ret =? 0 then
      let* ret := lsm6ds3tr_c_mem_bank_set LSM6DS3TR_C_USER_BANK in
      mret (ret, buff)
    else mret (ret, buff)
  else mret (ret, buff).

(* @ lsm6ds3tr-c_reg.c:6321-6343 lsm6ds3tr_c_tilt_sens_set *)
Definition lsm6ds3tr_c_tilt_sens_set (val : Z) : io Z :=
  let ctrl10_c : lsm6ds3tr_c_ctrl10_c_t := undef "ctrl10_c" 0%nat in
  let* (ret, ctrl10_c) := read_struct LSM6DS3TR_C_CTRL10_C ctrl10_c in
  if ret =? 0 then
    let ctrl10_c := ctrl10_c.["tilt_en" := val] in
    let ctrl10_c := if val ≠? 0x00 then ctrl10_c.["func_en" := val] else ctrl10_c in
    write_struct LSM6DS3TR_C_CTRL10_C ctrl10_c
  else mret ret.

(* @ lsm6ds3tr-c_reg.c:6353-6363 lsm6ds3tr_c_tilt_sens_get *)
Definition lsm6ds3tr_c_tilt_sens_get (val : Z) : io (Z * Z) :=
  let ctrl10_c : lsm6ds3tr_c_ctrl10_c_t := undef "ctrl10_c" 0%nat in
  let* (ret, ctrl10_c) := read_struct LSM6DS3TR_C_CTRL10_C ctrl10_c in
  let val := ctrl10_c.["tilt_en"] in
  mret (ret, val).

(* @ lsm6ds3tr-c_reg.c:6373-6396 lsm6ds3tr_c_wrist_tilt_sens_set *)
Definition lsm6ds3tr_c_wrist_tilt_sens_set (val : Z) : io Z :=
  let ctrl10_c : lsm6ds3tr_c_ctrl10_c_t := undef "ctrl10_c" 0%nat in
  let* (ret, ctrl10_c) := read_struct LSM6DS3TR_C_CTRL10_C ctrl10_c in
  if ret =? 0 then
    let ctrl10_c := ctrl10_c.["wrist_tilt_en" := val] in
    let ctrl10_c := if val ≠? 0x00 then ctrl10_c.["func_en" := val] else ctrl10_c in
    write_struct LSM6DS3TR_C_CTRL10_C ctrl10_c
  else mret ret.

(* @ lsm6ds3tr-c_reg.c:6406-6417 lsm6ds3tr_c_wrist_tilt_sens_get *)
Definition lsm6ds3tr_c_wrist_tilt_sens_get (val : Z) : io (Z * Z) :=
  let ctrl10_c : lsm6ds3tr_c_ctrl10_c_t := undef "ctrl10_c" 0%nat in
  let* (ret, ctrl10_c) := read_struct LSM6DS3TR_C_CTRL10_C ctrl10_c in
  let val := ctrl10_c.["wrist_tilt_en"] in
  mret (ret, val).

(* @ lsm6ds3tr-c_reg.c:6429-6446 lsm6ds3tr_c_tilt_latency_set *)
Definition lsm6ds3tr_c_tilt_latency_set (buff : list Z) : io Z :=
  let* ret := lsm6ds3tr_c_mem_bank_set LSM6DS3TR_C_BANK_B in
  if ret =? 0 then
    let* ret := lsm6ds3tr_c_write_reg LSM6DS3TR_C_A_WRIST_TILT_LAT buff 1 in
    if ret =? 0 then
      lsm6ds3tr_c_mem_bank_set LSM6DS3TR_C_USER_BANK
    else mret ret
  else mret ret.

(* @ lsm6ds3tr-c_reg.c:6458-6475 lsm6ds3tr_c_tilt_latency_get *)
Definition lsm6ds3tr_c_tilt_latency_get (buff : list Z) : io (Z * list Z) :=
  let* ret := lsm6ds3tr_c_mem_bank_set LSM6DS3TR_C_BANK_B in
  if ret =? 0 then
    let* (ret, buff) := lsm6ds3tr_c_read_reg LSM6DS3TR_C_A_WRIST_TILT_LAT buff 1 in
    if ret =? 0 then
      let* ret := lsm6ds3tr_c_mem_bank_set LSM6DS3TR_C_USER_BANK in
      mret (ret, buff)
    else mret (ret, buff)
  else mret (ret, buff).

(* @ lsm6ds3tr-c_reg.c:6487-6505 lsm6ds3tr_c_tilt_threshold_set *)
Definition lsm6ds3tr_c_tilt_threshold_set (buff : list Z) : io Z :=
  let* ret := lsm6ds3tr_c_mem_bank_set LSM6DS3TR_C_BANK_B in
  if ret =? 0 then
    let* ret := lsm6ds3tr_c_write_reg LSM6DS3TR_C_A_WRIST_TILT_THS buff 1 in
    if ret =? 0 then
      lsm6ds3tr_c_mem_bank_set LSM6DS3TR_C_USER_BANK
    else mret ret
  else mret ret.

(* @ lsm6ds3tr-c_reg.c:6517-6535 lsm6ds3tr_c_tilt_threshold_get *)
Definition lsm6ds3tr_c_tilt_threshold_get (buff : list Z) : io (Z * list Z) :=
  let* ret := lsm6ds3tr_c_mem_bank_set LSM6DS3TR_C_BANK_B in
  if ret =? 0 then
    let* (ret, buff) := lsm6ds3tr_c_read_reg LSM6DS3TR_C_A_WRIST_TILT_THS buff 1 in
    if ret =? 0 then
      let* ret := lsm6ds3tr_c_mem_bank_set LSM6DS3TR_C_USER_BANK in
      mret (ret, buff)
    else mret (ret, buff)
  else mret (ret, buff).

(* @ lsm6ds3tr-c_reg.c:6545-6564 lsm6ds3tr_c_tilt_src_set *)
Definition lsm6ds3tr_c_tilt_src_set (val : lsm6ds3tr_c_a_wrist_tilt_mask_t) :
    io (Z * lsm6ds3tr_c_a_wrist_tilt_mask_t) :=
  let* ret := lsm6ds3tr_c_mem_bank_set LSM6DS3TR_C_BANK_B in
  if ret =? 0 then
    let* (ret, val) := read_struct LSM6DS3TR_C_A_WRIST_TILT_MASK val in
    if ret =? 0 then
      let* ret := lsm6ds3tr_c_mem_bank_set LSM6DS3TR_C_USER_BANK in
      mret (ret, val)
    else mret (ret, val)
  else mret (ret, val).

(* @ lsm6ds3tr-c_reg.c:6574-6593 lsm6ds3tr_c_tilt_src_get *)
Definition lsm6ds3tr_c_tilt_src_get (val : lsm6ds3tr_c_a_wrist_tilt_mask_t) :
    io (Z * lsm6ds3tr_c_a_wrist_tilt_mask_t) :=
  let* ret := lsm6ds3tr_c_mem_bank_set LSM6DS3TR_C_BANK_B in
  if ret =? 0 then
    let* (ret, val) := read_struct LSM6DS3TR_C_A_WRIST_TILT_MASK val in
    if ret =? 0 then
      let* ret := lsm6ds3tr_c_mem_bank_set LSM6DS3TR_C_USER_BANK in
      mret (ret, val)
    else mret (ret, val)
  else mret (ret, val).

(* @ lsm6ds3tr-c_reg.c:6616-6632 lsm6ds3tr_c_mag_soft_iron_set *)
Definition lsm6ds3tr_c_mag_soft_iron_set (val : Z) : io Z :=
  let ctrl9_xl : lsm6ds3tr_c_ctrl9_xl_t := undef "ctrl9_xl" 0%nat in
  let* (ret, ctrl9_xl) := read_struct LSM6DS3TR_C_CTRL9_XL ctrl9_xl in
  if ret =? 0 then
    let ctrl9_xl := ctrl9_xl.["soft_en" := val] in
    write_struct LSM6DS3TR_C_CTRL9_XL ctrl9_xl
  else mret ret.

(* @ lsm6ds3tr-c_reg.c:6642-6652 lsm6ds3tr_c_mag_soft_iron_get *)
Definition lsm6ds3tr_c_mag_soft_iron_get (val : Z) : io (Z * Z) :=
  let ctrl9_xl : lsm6ds3tr_c_ctrl9_xl_t := undef "ctrl9_xl" 0%nat in
  let* (ret, ctrl9_xl) := read_struct LSM6DS3TR_C_CTRL9_XL ctrl9_xl in
  let val := ctrl9_xl.["soft_en"] in
  mret (ret, val).

(* @ lsm6ds3tr-c_reg.c:6662-6696 lsm6ds3tr_c_mag_hard_iron_set *)
Definition lsm6ds3tr_c_mag_hard_iron_set (val : Z) : io Z :=
  let master_config : lsm6ds3tr_c_master_config_t := undef "master_config" 0%nat in
  let ctrl10_c : lsm6ds3tr_c_ctrl10_c_t := undef "ctrl10_c" 0%nat in
  let* (ret, master_config) := read_struct LSM6DS3TR_C_MASTER_CONFIG master_config in
  if ret =? 0 then
    let master_config := master_config.["iron_en" := val] in
    let* ret := write_struct LSM6DS3TR_C_MASTER_CONFIG master_config in
    if ret =? 0 then
      let* (ret, ctrl10_c) := read_struct LSM6DS3TR_C_CTRL10_C ctrl10_c in
      if ret =? 0 then
        let ctrl10_c := if val ≠? 0x00 then ctrl10_c.["func_en" := val] else ctrl10_c in
        write_struct LSM6DS3TR_C_CTRL10_C ctrl10_c
      else mret ret
    else mret ret
  else mret ret.

(* @ lsm6ds3tr-c_reg.c:6706-6716 lsm6ds3tr_c_mag_hard_iron_get *)
Definition lsm6ds3tr_c_mag_hard_iron_get (val : Z) : io (Z * Z) :=
  let master_config : lsm6ds3tr_c_master_config_t := undef "master_config" 0%nat in
  let* (ret, master_config) := read_struct LSM6DS3TR_C_MASTER_CONFIG master_config in
  let val := master_config.["iron_en"] in
  mret (ret, val).

(* @ lsm6ds3tr-c_reg.c:6727-6745 lsm6ds3tr_c_mag_soft_iron_mat_set *)
Definition lsm6ds3tr_c_mag_soft_iron_mat_set (buff : list Z) : io Z :=
  let* ret := lsm6ds3tr_c_mem_bank_set LSM6DS3TR_C_BANK_A in
  if ret =? 0 then
    let* ret := lsm6ds3tr_c_write_reg LSM6DS3TR_C_MAG_SI_XX buff 9 in
    if ret =? 0 then
      lsm6ds3tr_c_mem_bank_set LSM6DS3TR_C_USER_BANK
    else mret ret
  else mret ret.

(* @ lsm6ds3tr-c_reg.c:6756-6774 lsm6ds3tr_c_mag_soft_iron_mat_get *)
Definition lsm6ds3tr_c_mag_soft_iron_mat_get (buff : list Z) : io (Z * list Z) :=
  let* ret := lsm6ds3tr_c_mem_bank_set LSM6DS3TR_C_BANK_A in
  if ret =? 0 then
    let* (ret, buff) := lsm6ds3tr_c_read_reg LSM6DS3TR_C_MAG_SI_XX buff 9 in
    if ret =? 0 then
      let* ret := lsm6ds3tr_c_mem_bank_set LSM6DS3TR_C_USER_BANK in
      mret (ret, buff)
    else mret (ret, buff)
  else mret (ret, buff).

(* @ lsm6ds3tr-c_reg.c:6785-6809 lsm6ds3tr_c_mag_offset_set *)
Definition lsm6ds3tr_c_mag_offset_set (val : list Z) : io Z :=
  let buff := map (undef "buff") (seq 0 6) in
  let* ret := lsm6ds3tr_c_mem_bank_set LSM6DS3TR_C_BANK_A in
  if ret =? 0 then
    let buff := <[1%nat := u8 ((u16 (val !!! 0%nat)) / 256)]> buff in
    let buff := <[0%nat := u8 ((u16 (val !!! 0%nat)) - ((buff !!! 1%nat) * 256))]> buff in
    let buff := <[3%nat := u8 ((u16 (val !!! 1%nat)) / 256)]> buff in
    let buff := <[2%nat := u8 ((u16 (val !!! 1%nat)) - ((buff !!! 3%nat) * 256))]> buff in
    let buff := <[5%nat := u8 ((u16 (val !!! 2%nat)) / 256)]> buff in
    let buff := <[4%nat := u8 ((u16 (val !!! 2%nat)) - ((buff !!! 5%nat) * 256))]> buff in
    let* ret := lsm6ds3tr_c_write_reg LSM6DS3TR_C_MAG_OFFX_L buff 6 in
    if ret =? 0 then
      lsm6ds3tr_c_mem_bank_set LSM6DS3TR_C_USER_BANK
    else mret ret
  else mret ret.

(* @ lsm6ds3tr-c_reg.c:6820-6844 lsm6ds3tr_c_mag_offset_get *)
Definition lsm6ds3tr_c_mag_offset_get (val : list Z) : io (Z * list Z) :=
  let buff := map (undef "buff") (seq 0 6) in
  let* ret := lsm6ds3tr_c_mem_bank_set LSM6DS3TR_C_BANK_A in
  if ret =? 0 then
    let* (ret, buff) := lsm6ds3tr_c_read_reg LSM6DS3TR_C_MAG_OFFX_L buff 6 in
    if ret =? 0 then
      let val := <[0%nat := s16 (buff !!! 1%nat)]> val in
      let val := <[0%nat := s16 (((val !!! 0%nat) * 256) + (s16 (buff !!! 0%nat)))]> val in
      let val := <[1%nat := s16 (buff !!! 3%nat)]> val in
      let val := <[1%nat := s16 (((val !!! 1%nat) * 256) + (s16 (buff !!! 2%nat)))]> val in
      let val := <[2%nat := s16 (buff !!! 5%nat)]> val in
      let val := <[2%nat := s16 (((val !!! 2%nat) * 256) + (s16 (buff !!! 4%nat)))]> val in
      let* ret := lsm6ds3tr_c_mem_bank_set LSM6DS3TR_C_USER_BANK in
      mret (ret, val)
    else mret (ret, val)
  else mret (ret, val).

(* @ lsm6ds3tr-c_reg.c:6867-6883 lsm6ds3tr_c_func_en_set *)
Definition lsm6ds3tr_c_func_en_set (val : Z) : io Z :=
  let ctrl10_c : lsm6ds3tr_c_ctrl10_c_t := undef "ctrl10_c" 0%nat in
  let* (ret, ctrl10_c) := read_struct LSM6DS3TR_C_CTRL10_C ctrl10_c in
  if ret =? 0 then
    let ctrl10_c := ctrl10_c.["func_en" := val] in
    write_struct LSM6DS3TR_C_CTRL10_C ctrl10_c
  else mret ret.

(* @ lsm6ds3tr-c_reg.c:6894-6911 lsm6ds3tr_c_sh_sync_sens_frame_set *)
Definition lsm6ds3tr_c_sh_sync_sens_frame_set (val : Z) : io Z :=
  let sensor_sync_time_frame : lsm6ds3tr_c_sensor_sync_time_frame_t := undef "sensor_sync_time_frame" 0%nat in
  let* (ret, sensor_sync_time_frame) := read_struct LSM6DS3TR_C_SENSOR_SYNC_TIME_FRAME sensor_sync_time_frame in
  if ret =? 0 then
    let sensor_sync_time_frame := sensor_sync_time_frame.["tph" := val] in
    write_struct LSM6DS3TR_C_SENSOR_SYNC_TIME_FRAME sensor_sync_time_frame
  else mret ret.

(* @ lsm6ds3tr-c_reg.c:6922-6933 lsm6ds3tr_c_sh_sync_sens_frame_get *)
Definition lsm6ds3tr_c_sh_sync_sens_frame_get (val : Z) : io (Z * Z) :=
  let sensor_sync_time_frame : lsm6ds3tr_c_sensor_sync_time_frame_t := undef "sensor_sync_time_frame" 0%nat in
  let* (ret, sensor_sync_time_frame) := read_struct LSM6DS3TR_C_SENSOR_SYNC_TIME_FRAME sensor_sync_time_frame in
  let val := sensor_sync_time_frame.["tph"] in
  mret (ret, val).

(* @ lsm6ds3tr-c_reg.c:6943-6960 lsm6ds3tr_c_sh_sync_sens_ratio_set *)
Definition lsm6ds3tr_c_sh_sync_sens_ratio_set (val : lsm6ds3tr_c_rr_t) : io Z :=
  let sensor_sync_res_ratio : lsm6ds3tr_c_sensor_sync_res_ratio_t := undef "sensor_sync_res_ratio" 0%nat in
  let* (ret, sensor_sync_res_ratio) := read_struct LSM6DS3TR_C_SENSOR_SYNC_RES_RATIO sensor_sync_res_ratio in
  if ret =? 0 then
    let sensor_sync_res_ratio := sensor_sync_res_ratio.["rr" := u8 (code val)] in
    write_struct LSM6DS3TR_C_SENSOR_SYNC_RES_RATIO sensor_sync_res_ratio
  else mret ret.

(* @ lsm6ds3tr-c_reg.c:6970-7003 lsm6ds3tr_c_sh_sync_sens_ratio_get *)
Definition lsm6ds3tr_c_sh_sync_sens_ratio_get (val : lsm6ds3tr_c_rr_t) :
    io (Z * lsm6ds3tr_c_rr_t) :=
  let sensor_sync_res_ratio : lsm6ds3tr_c_sensor_sync_res_ratio_t := undef "sensor_sync_res_ratio" 0%nat in
  let* (ret, sensor_sync_res_ratio) := read_struct LSM6DS3TR_C_SENSOR_SYNC_RES_RATIO sensor_sync_res_ratio in
  let val := switch sensor_sync_res_ratio.["rr"]
      [LSM6DS3TR_C_RES_RATIO_2_11; LSM6DS3TR_C_RES_RATIO_2_12; LSM6DS3TR_C_RES_RATIO_2_13;
       LSM6DS3TR_C_RES_RATIO_2_14] LSM6DS3TR_C_RES_RATIO_ND in
  mret (ret, val).

(* @ lsm6ds3tr-c_reg.c:7013-7029 lsm6ds3tr_c_sh_master_set *)
Definition lsm6ds3tr_c_sh_master_set (val : Z) : io Z :=
  let master_config : lsm6ds3tr_c_master_config_t := undef "master_config" 0%nat in
  let* (ret, master_config) := read_struct LSM6DS3TR_C_MASTER_CONFIG master_config in
  if ret =? 0 then
    let master_config := master_config.["master_on" := val] in
    write_struct LSM6DS3TR_C_MASTER_CONFIG master_config
  else mret ret.

(* @ lsm6ds3tr-c_reg.c:7039-7049 lsm6ds3tr_c_sh_master_get *)
Definition lsm6ds3tr_c_sh_master_get (val : Z) : io (Z * Z) :=
  let master_config : lsm6ds3tr_c_master_config_t := undef "master_config" 0%nat in
  let* (ret, master_config) := read_struct LSM6DS3TR_C_MASTER_CONFIG master_config in
  let val := master_config.["master_on"] in
  mret (ret, val).

(* @ lsm6ds3tr-c_reg.c:7059-7076 lsm6ds3tr_c_sh_pass_through_set *)
Definition lsm6ds3tr_c_sh_pass_through_set (val : Z) : io Z :=
  let master_config : lsm6ds3tr_c_master_config_t := undef "master_config" 0%nat in
  let* (ret, master_config) := read_struct LSM6DS3TR_C_MASTER_CONFIG master_config in
  if ret =? 0 then
    let master_config := master_config.["pass_through_mode" := val] in
    write_struct LSM6DS3TR_C_MASTER_CONFIG master_config
  else mret ret.

(* @ lsm6ds3tr-c_reg.c:7086-7097 lsm6ds3tr_c_sh_pass_through_get *)
Definition lsm6ds3tr_c_sh_pass_through_get (val : Z) : io (Z * Z) :=
  let master_config : lsm6ds3tr_c_master_config_t := undef "master_config" 0%nat in
  let* (ret, master_config) := read_struct LSM6DS3TR_C_MASTER_CONFIG master_config in
  let val := master_config.["pass_through_mode"] in
  mret (ret, val).

(* @ lsm6ds3tr-c_reg.c:7107-7124 lsm6ds3tr_c_sh_pin_mode_set *)
Definition lsm6ds3tr_c_sh_pin_mode_set (val : lsm6ds3tr_c_pull_up_en_t) : io Z :=
  let master_config : lsm6ds3tr_c_master_config_t := undef "master_config" 0%nat in
  let* (ret, master_config) := read_struct LSM6DS3TR_C_MASTER_CONFIG master_config in
  if ret =? 0 then
    let master_config := master_config.["pull_up_en" := u8 (code val)] in
    write_struct LSM6DS3TR_C_MASTER_CONFIG master_config
  else mret ret.

(* @ lsm6ds3tr-c_reg.c:7134-7159 lsm6ds3tr_c_sh_pin_mode_get *)
Definition lsm6ds3tr_c_sh_pin_mode_get (val : lsm6ds3tr_c_pull_up_en_t) :
    io (Z * lsm6ds3tr_c_pull_up_en_t) :=
  let master_config : lsm6ds3tr_c_master_config_t := undef "master_config" 0%nat in
  let* (ret, master_config) := read_struct LSM6DS3TR_C_MASTER_CONFIG master_config in
  let val := switch master_config.["pull_up_en"]
      [LSM6DS3TR_C_EXT_PULL_UP; LSM6DS3TR_C_INTERNAL_PULL_UP] LSM6DS3TR_C_SH_PIN_MODE in
  mret (ret, val).

(* @ lsm6ds3tr-c_reg.c:7169-7186 lsm6ds3tr_c_sh_syncro_mode_set *)
Definition lsm6ds3tr_c_sh_syncro_mode_set (val : lsm6ds3tr_c_start_config_t) : io Z :=
  let master_config : lsm6ds3tr_c_master_config_t := undef "master_config" 0%nat in
  let* (ret, master_config) := read_struct LSM6DS3TR_C_MASTER_CONFIG master_config in
  if ret =? 0 then
    let master_config := master_config.["start_config" := u8 (code val)] in
    write_struct LSM6DS3TR_C_MASTER_CONFIG master_config
  else mret ret.

(* @ lsm6ds3tr-c_reg.c:7196-7221 lsm6ds3tr_c_sh_syncro_mode_get *)
Definition lsm6ds3tr_c_sh_syncro_mode_get (val : lsm6ds3tr_c_start_config_t) :
    io (Z * lsm6ds3tr_c_start_config_t) :=
  let master_config : lsm6ds3tr_c_master_config_t := undef "master_config" 0%nat in
  let* (ret, master_config) := read_struct LSM6DS3TR_C_MASTER_CONFIG master_config in
  let val := switch master_config.["start_config"]
      [LSM6DS3TR_C_XL_GY_DRDY; LSM6DS3TR_C_EXT_ON_INT2_PIN] LSM6DS3TR_C_SH_SYNCRO_ND in
  mret (ret, val).

(* @ lsm6ds3tr-c_reg.c:7231-7248 lsm6ds3tr_c_sh_drdy_on_int1_set *)
Definition lsm6ds3tr_c_sh_drdy_on_int1_set (val : Z) : io Z :=
  let master_config : lsm6ds3tr_c_master_config_t := undef "master_config" 0%nat in
  let* (ret, master_config) := read_struct LSM6DS3TR_C_MASTER_CONFIG master_config in
  if ret =? 0 then
    let master_config := master_config.["drdy_on_int1" := val] in
    write_struct LSM6DS3TR_C_MASTER_CONFIG master_config
  else mret ret.

(* @ lsm6ds3tr-c_reg.c:7258-7269 lsm6ds3tr_c_sh_drdy_on_int1_get *)
Definition lsm6ds3tr_c_sh_drdy_on_int1_get (val : Z) : io (Z * Z) :=
  let master_config : lsm6ds3tr_c_master_config_t := undef "master_config" 0%nat in
  let* (ret, master_config) := read_struct LSM6DS3TR_C_MASTER_CONFIG master_config in
  let val := master_config.["drdy_on_int1"] in
  mret (ret, val).

(* @ lsm6ds3tr-c_reg.c:7279-7294 lsm6ds3tr_c_sh_read_data_raw_get *)
Definition lsm6ds3tr_c_sh_read_data_raw_get (val : lsm6ds3tr_c_emb_sh_read_t) :
    io (Z * lsm6ds3tr_c_emb_sh_read_t) :=
  let bytes := le_bytes 18 val in
  let* (ret, d) := lsm6ds3tr_c_read_reg LSM6DS3TR_C_SENSORHUB1_REG (take 12 bytes) 12 in
  let bytes := take 12 d ++ drop 12 bytes in
  if ret =? 0 then
    let* (ret, d) := lsm6ds3tr_c_read_reg LSM6DS3TR_C_SENSORHUB13_REG (drop 12 bytes) 6 in
    let bytes := take 12 bytes ++ take 6 d in
    mret (ret, le_int bytes : reg lsm6ds3tr_c_emb_sh_read_t)
  else mret (ret, le_int bytes : reg lsm6ds3tr_c_emb_sh_read_t).

(* @ lsm6ds3tr-c_reg.c:7305-7322 lsm6ds3tr_c_sh_cmd_sens_sync_set *)
Definition lsm6ds3tr_c_sh_cmd_sens_sync_set (val : Z) : io Z :=
  let master_cmd_code : lsm6ds3tr_c_master_cmd_code_t := undef "master_cmd_code" 0%nat in
  let* (ret, master_cmd_code) := read_struct LSM6DS3TR_C_MASTER_CMD_CODE master_cmd_code in
  if ret =? 0 then
    let master_cmd_code := master_cmd_code.["master_cmd_code" := val] in
    write_struct LSM6DS3TR_C_MASTER_CMD_CODE master_cmd_code
  else mret ret.

(* @ lsm6ds3tr-c_reg.c:7333-7344 lsm6ds3tr_c_sh_cmd_sens_sync_get *)
Definition lsm6ds3tr_c_sh_cmd_sens_sync_get (val : Z) : io (Z * Z) :=
  let master_cmd_code : lsm6ds3tr_c_master_cmd_code_t := undef "master_cmd_code" 0%nat in
  let* (ret, master_cmd_code) := read_struct LSM6DS3TR_C_MASTER_CMD_CODE master_cmd_code in
  let val := master_cmd_code.["master_cmd_code"] in
  mret (ret, val).

(* @ lsm6ds3tr-c_reg.c:7355-7372 lsm6ds3tr_c_sh_spi_sync_error_set *)
Definition lsm6ds3tr_c_sh_spi_sync_error_set (val : Z) : io Z :=
  let sens_sync_spi_error_code : lsm6ds3tr_c_sens_sync_spi_error_code_t := undef "sens_sync_spi_error_code" 0%nat in
  let* (ret, sens_sync_spi_error_code) := read_struct LSM6DS3TR_C_SENS_SYNC_SPI_ERROR_CODE sens_sync_spi_error_code in
  if ret =? 0 then
    let sens_sync_spi_error_code := sens_sync_spi_error_code.["error_code" := val] in
    write_struct LSM6DS3TR_C_SENS_SYNC_SPI_ERROR_CODE sens_sync_spi_error_code
  else mret ret.

(* @ lsm6ds3tr-c_reg.c:7383-7394 lsm6ds3tr_c_sh_spi_sync_error_get *)
Definition lsm6ds3tr_c_sh_spi_sync_error_get (val : Z) : io (Z * Z) :=
  let sens_sync_spi_error_code : lsm6ds3tr_c_sens_sync_spi_error_code_t := undef "sens_sync_spi_error_code" 0%nat in
  let* (ret, sens_sync_spi_error_code) := read_struct LSM6DS3TR_C_SENS_SYNC_SPI_ERROR_CODE sens_sync_spi_error_code in
  let val := sens_sync_spi_error_code.["error_code"] in
  mret (ret, val).

(* @ lsm6ds3tr-c_reg.c:7404-7431 lsm6ds3tr_c_sh_num_of_dev_connected_set *)
Definition lsm6ds3tr_c_sh_num_of_dev_connected_set (val : lsm6ds3tr_c_aux_sens_on_t) : io Z :=
  let slave0_config : lsm6ds3tr_c_slave0_config_t := undef "slave0_config" 0%nat in
  let* ret := lsm6ds3tr_c_mem_bank_set LSM6DS3TR_C_BANK_A in
  if ret =? 0 then
    let* (ret, slave0_config) := read_struct LSM6DS3TR_C_SLAVE0_CONFIG slave0_config in
    if ret =? 0 then
      let slave0_config := slave0_config.["aux_sens_on" := u8 (code val)] in
      let* ret := write_struct LSM6DS3TR_C_SLAVE0_CONFIG slave0_config in
      if ret =? 0 then
        lsm6ds3tr_c_mem_bank_set LSM6DS3TR_C_USER_BANK
      else mret ret
    else mret ret
  else mret ret.

(* @ lsm6ds3tr-c_reg.c:7441-7484 lsm6ds3tr_c_sh_num_of_dev_connected_get *)
Definition lsm6ds3tr_c_sh_num_of_dev_connected_get (val : lsm6ds3tr_c_aux_sens_on_t) :
    io (Z * lsm6ds3tr_c_aux_sens_on_t) :=
  let slave0_config : lsm6ds3tr_c_slave0_config_t := undef "slave0_config" 0%nat in
  let* ret := lsm6ds3tr_c_mem_bank_set LSM6DS3TR_C_BANK_A in
  if ret =? 0 then
    let* (ret, slave0_config) := read_struct LSM6DS3TR_C_SLAVE0_CONFIG slave0_config in
    if ret =? 0 then
      let val := switch slave0_config.["aux_sens_on"]
          [LSM6DS3TR_C_SLV_0; LSM6DS3TR_C_SLV_0_1; LSM6DS3TR_C_SLV_0_1_2;
           LSM6DS3TR_C_SLV_0_1_2_3] LSM6DS3TR_C_SLV_EN_ND in
      let* ret := lsm6ds3tr_c_mem_bank_set LSM6DS3TR_C_USER_BANK in
      mret (ret, val)
    else mret (ret, val)
  else mret (ret, val).

(* @ lsm6ds3tr-c_reg.c:7497-7532 lsm6ds3tr_c_sh_cfg_write *)
Definition lsm6ds3tr_c_sh_cfg_write (val : lsm6ds3tr_c_sh_cfg_write_t) : io Z :=
  let slv0_add : lsm6ds3tr_c_slv0_add_t := undef "slv0_add" 0%nat in
  let* ret := lsm6ds3tr_c_mem_bank_set LSM6DS3TR_C_BANK_A in
  if ret =? 0 then
    let slv0_add := slv0_add.["slave0_add" := val.["slv0_add"]] in
    let slv0_add := slv0_add.["rw_0" := 0] in
    let* ret := write_struct LSM6DS3TR_C_SLV0_ADD slv0_add in
    if ret =? 0 then
      let* ret := write_byte LSM6DS3TR_C_SLV0_SUBADD val.["slv0_subadd"] in
      if ret =? 0 then
        let* ret := write_byte LSM6DS3TR_C_DATAWRITE_SRC_MODE_SUB_SLV0 val.["slv0_data"] in
        if ret =? 0 then
          lsm6ds3tr_c_mem_bank_set LSM6DS3TR_C_USER_BANK
        else mret ret
      else mret ret
    else mret ret
  else mret ret.

(* @ lsm6ds3tr-c_reg.c:7545-7587 lsm6ds3tr_c_sh_slv0_cfg_read *)
Definition lsm6ds3tr_c_sh_slv0_cfg_read (val : lsm6ds3tr_c_sh_cfg_read_t) : io Z :=
  let slave0_config : lsm6ds3tr_c_slave0_config_t := undef "slave0_config" 0%nat in
  let slv0_add : lsm6ds3tr_c_slv0_add_t := undef "slv0_add" 0%nat in
  let* ret := lsm6ds3tr_c_mem_bank_set LSM6DS3TR_C_BANK_A in
  if ret =? 0 then
    let slv0_add := slv0_add.["slave0_add" := val.["slv_add"]] in
    let slv0_add := slv0_add.["rw_0" := 1] in
    let* ret := write_struct LSM6DS3TR_C_SLV0_ADD slv0_add in
    if ret =? 0 then
      let* ret := write_byte LSM6DS3TR_C_SLV0_SUBADD val.["slv_subadd"] in
      if ret =? 0 then
        let* (ret, slave0_config) := read_struct LSM6DS3TR_C_SLAVE0_CONFIG slave0_config in
        let slave0_config := slave0_config.["slave0_numop" := val.["slv_len"]] in
        if ret =? 0 then
          let* ret := write_struct LSM6DS3TR_C_SLAVE0_CONFIG slave0_config in
          if ret =? 0 then
            lsm6ds3tr_c_mem_bank_set LSM6DS3TR_C_USER_BANK
          else mret ret
        else mret ret
      else mret ret
    else mret ret
  else mret ret.

(* @ lsm6ds3tr-c_reg.c:7600-7642 lsm6ds3tr_c_sh_slv1_cfg_read *)
Definition lsm6ds3tr_c_sh_slv1_cfg_read (val : lsm6ds3tr_c_sh_cfg_read_t) : io Z :=
  let slave1_config : lsm6ds3tr_c_slave1_config_t := undef "slave1_config" 0%nat in
  let slv1_add : lsm6ds3tr_c_slv1_add_t := undef "slv1_add" 0%nat in
  let* ret := lsm6ds3tr_c_mem_bank_set LSM6DS3TR_C_BANK_A in
  if ret =? 0 then
    let slv1_add := slv1_add.["slave1_add" := val.["slv_add"]] in
    let slv1_add := slv1_add.["r_1" := 1] in
    let* ret := write_struct LSM6DS3TR_C_SLV1_ADD slv1_add in
    if ret =? 0 then
      let* ret := write_byte LSM6DS3TR_C_SLV1_SUBADD val.["slv_subadd"] in
      if ret =? 0 then
        let* (ret, slave1_config) := read_struct LSM6DS3TR_C_SLAVE1_CONFIG slave1_config in
        let slave1_config := slave1_config.["slave1_numop" := val.["slv_len"]] in
        if ret =? 0 then
          let* ret := write_struct LSM6DS3TR_C_SLAVE1_CONFIG slave1_config in
          if ret =? 0 then
            lsm6ds3tr_c_mem_bank_set LSM6DS3TR_C_USER_BANK
          else mret ret
        else mret ret
      else mret ret
    else mret ret
  else mret ret.

(* @ lsm6ds3tr-c_reg.c:7655-7697 lsm6ds3tr_c_sh_slv2_cfg_read *)
Definition lsm6ds3tr_c_sh_slv2_cfg_read (val : lsm6ds3tr_c_sh_cfg_read_t) : io Z :=
  let slv2_add : lsm6ds3tr_c_slv2_add_t := undef "slv2_add" 0%nat in
  let slave2_config : lsm6ds3tr_c_slave2_config_t := undef "slave2_config" 0%nat in
  let* ret := lsm6ds3tr_c_mem_bank_set LSM6DS3TR_C_BANK_A in
  if ret =? 0 then
    let slv2_add := slv2_add.["slave2_add" := val.["slv_add"]] in
    let slv2_add := slv2_add.["r_2" := 1] in
    let* ret := write_struct LSM6DS3TR_C_SLV2_ADD slv2_add in
    if ret =? 0 then
      let* ret := write_byte LSM6DS3TR_C_SLV2_SUBADD val.["slv_subadd"] in
      if ret =? 0 then
        let* (ret, slave2_config) := read_struct LSM6DS3TR_C_SLAVE2_CONFIG slave2_config in
        if ret =? 0 then
          let slave2_config := slave2_config.["slave2_numop" := val.["slv_len"]] in
          let* ret := write_struct LSM6DS3TR_C_SLAVE2_CONFIG slave2_config in
          if ret =? 0 then
            lsm6ds3tr_c_mem_bank_set LSM6DS3TR_C_USER_BANK
          else mret ret
        else mret ret
      else mret ret
    else mret ret
  else mret ret.

(* @ lsm6ds3tr-c_reg.c:7710-7752 lsm6ds3tr_c_sh_slv3_cfg_read *)
Definition lsm6ds3tr_c_sh_slv3_cfg_read (val : lsm6ds3tr_c_sh_cfg_read_t) : io Z :=
  let slave3_config : lsm6ds3tr_c_slave3_config_t := undef "slave3_config" 0%nat in
  let slv3_add : lsm6ds3tr_c_slv3_add_t := undef "slv3_add" 0%nat in
  let* ret := lsm6ds3tr_c_mem_bank_set LSM6DS3TR_C_BANK_A in
  if ret =? 0 then
    let slv3_add := slv3_add.["slave3_add" := val.["slv_add"]] in
    let slv3_add := slv3_add.["r_3" := 1] in
    let* ret := write_struct LSM6DS3TR_C_SLV3_ADD slv3_add in
    if ret =? 0 then
      let* ret := write_byte LSM6DS3TR_C_SLV3_SUBADD val.["slv_subadd"] in
      if ret =? 0 then
        let* (ret, slave3_config) := read_struct LSM6DS3TR_C_SLAVE3_CONFIG slave3_config in
        if ret =? 0 then
          let slave3_config := slave3_config.["slave3_numop" := val.["slv_len"]] in
          let* ret := write_struct LSM6DS3TR_C_SLAVE3_CONFIG slave3_config in
          if ret =? 0 then
            lsm6ds3tr_c_mem_bank_set LSM6DS3TR_C_USER_BANK
          else mret ret
        else mret ret
      else mret ret
    else mret ret
  else mret ret.

(* @ lsm6ds3tr-c_reg.c:7763-7790 lsm6ds3tr_c_sh_slave_0_dec_set *)
Definition lsm6ds3tr_c_sh_slave_0_dec_set (val : lsm6ds3tr_c_slave0_rate_t) : io Z :=
  let slave0_config : lsm6ds3tr_c_slave0_config_t := undef "slave0_config" 0%nat in
  let* ret := lsm6ds3tr_c_mem_bank_set LSM6DS3TR_C_BANK_A in
  if ret =? 0 then
    let* (ret, slave0_config) := read_struct LSM6DS3TR_C_SLAVE0_CONFIG slave0_config in
    if ret =? 0 then
      let slave0_config := slave0_config.["slave0_rate" := u8 (code val)] in
      let* ret := write_struct LSM6DS3TR_C_SLAVE0_CONFIG slave0_config in
      if ret =? 0 then
        lsm6ds3tr_c_mem_bank_set LSM6DS3TR_C_USER_BANK
      else mret ret
    else mret ret
  else mret ret.

(* @ lsm6ds3tr-c_reg.c:7801-7844 lsm6ds3tr_c_sh_slave_0_dec_get *)
Definition lsm6ds3tr_c_sh_slave_0_dec_get (val : lsm6ds3tr_c_slave0_rate_t) :
    io (Z * lsm6ds3tr_c_slave0_rate_t) :=
  let slave0_config : lsm6ds3tr_c_slave0_config_t := undef "slave0_config" 0%nat in
  let* ret := lsm6ds3tr_c_mem_bank_set LSM6DS3TR_C_BANK_A in
  if ret =? 0 then
    let* (ret, slave0_config) := read_struct LSM6DS3TR_C_SLAVE0_CONFIG slave0_config in
    if ret =? 0 then
      let val := switch slave0_config.["slave0_rate"]
          [LSM6DS3TR_C_SL0_NO_DEC; LSM6DS3TR_C_SL0_DEC_2; LSM6DS3TR_C_SL0_DEC_4;
           LSM6DS3TR_C_SL0_DEC_8] LSM6DS3TR_C_SL0_DEC_ND in
      let* ret := lsm6ds3tr_c_mem_bank_set LSM6DS3TR_C_USER_BANK in
      mret (ret, val)
    else mret (ret, val)
  else mret (ret, val).

(* @ lsm6ds3tr-c_reg.c:7857-7884 lsm6ds3tr_c_sh_write_mode_set *)
Definition lsm6ds3tr_c_sh_write_mode_set (val : lsm6ds3tr_c_write_once_t) : io Z :=
  let slave1_config : lsm6ds3tr_c_slave1_config_t := undef "slave1_config" 0%nat in
  let* ret := lsm6ds3tr_c_mem_bank_set LSM6DS3TR_C_BANK_A in
  if ret =? 0 then
    let* (ret, slave1_config) := read_struct LSM6DS3TR_C_SLAVE1_CONFIG slave1_config in
    let slave1_config := slave1_config.["write_once" := u8 (code val)] in
    if ret =? 0 then
      let* ret := write_struct LSM6DS3TR_C_SLAVE1_CONFIG slave1_config in
      if ret =? 0 then
        lsm6ds3tr_c_mem_bank_set LSM6DS3TR_C_USER_BANK
      else mret ret
    else mret ret
  else mret ret.

(* @ lsm6ds3tr-c_reg.c:7897-7932 lsm6ds3tr_c_sh_write_mode_get *)
Definition lsm6ds3tr_c_sh_write_mode_get (val : lsm6ds3tr_c_write_once_t) :
    io (Z * lsm6ds3tr_c_write_once_t) :=
  let slave1_config : lsm6ds3tr_c_slave1_config_t := undef "slave1_config" 0%nat in
  let* ret := lsm6ds3tr_c_mem_bank_set LSM6DS3TR_C_BANK_A in
  if ret =? 0 then
    let* (ret, slave1_config) := read_struct LSM6DS3TR_C_SLAVE1_CONFIG slave1_config in
    if ret =? 0 then
      let val := switch slave1_config.["write_once"]
          [LSM6DS3TR_C_EACH_SH_CYCLE; LSM6DS3TR_C_ONLY_FIRST_CYCLE] LSM6DS3TR_C_SH_WR_MODE_ND in
      let* ret := lsm6ds3tr_c_mem_bank_set LSM6DS3TR_C_USER_BANK in
      mret (ret, val)
    else mret (ret, val)
  else mret (ret, val).

(* @ lsm6ds3tr-c_reg.c:7943-7970 lsm6ds3tr_c_sh_slave_1_dec_set *)
Definition lsm6ds3tr_c_sh_slave_1_dec_set (val : lsm6ds3tr_c_slave1_rate_t) : io Z :=
  let slave1_config : lsm6ds3tr_c_slave1_config_t := undef "slave1_config" 0%nat in
  let* ret := lsm6ds3tr_c_mem_bank_set LSM6DS3TR_C_BANK_A in
  if ret =? 0 then
    let* (ret, slave1_config) := read_struct LSM6DS3TR_C_SLAVE1_CONFIG slave1_config in
    if ret =? 0 then
      let slave1_config := slave1_config.["slave1_rate" := u8 (code val)] in
      let* ret := write_struct LSM6DS3TR_C_SLAVE1_CONFIG slave1_config in
      if ret =? 0 then
        lsm6ds3tr_c_mem_bank_set LSM6DS3TR_C_USER_BANK
      else mret ret
    else mret ret
  else mret ret.

(* @ lsm6ds3tr-c_reg.c:7980-8023 lsm6ds3tr_c_sh_slave_1_dec_get *)
Definition lsm6ds3tr_c_sh_slave_1_dec_get (val : lsm6ds3tr_c_slave1_rate_t) :
    io (Z * lsm6ds3tr_c_slave1_rate_t) :=
  let slave1_config : lsm6ds3tr_c_slave1_config_t := undef "slave1_config" 0%nat in
  let* ret := lsm6ds3tr_c_mem_bank_set LSM6DS3TR_C_BANK_A in
  if ret =? 0 then
    let* (ret, slave1_config) := read_struct LSM6DS3TR_C_SLAVE1_CONFIG slave1_config in
    if ret =? 0 then
      let val := switch slave1_config.["slave1_rate"]
          [LSM6DS3TR_C_SL1_NO_DEC; LSM6DS3TR_C_SL1_DEC_2; LSM6DS3TR_C_SL1_DEC_4;
           LSM6DS3TR_C_SL1_DEC_8] LSM6DS3TR_C_SL1_DEC_ND in
      let* ret := lsm6ds3tr_c_mem_bank_set LSM6DS3TR_C_USER_BANK in
      mret (ret, val)
    else mret (ret, val)
  else mret (ret, val).

(* @ lsm6ds3tr-c_reg.c:8034-8061 lsm6ds3tr_c_sh_slave_2_dec_set *)
Definition lsm6ds3tr_c_sh_slave_2_dec_set (val : lsm6ds3tr_c_slave2_rate_t) : io Z :=
  let slave2_config : lsm6ds3tr_c_slave2_config_t := undef "slave2_config" 0%nat in
  let* ret := lsm6ds3tr_c_mem_bank_set LSM6DS3TR_C_BANK_A in
  if ret =? 0 then
    let* (ret, slave2_config) := read_struct LSM6DS3TR_C_SLAVE2_CONFIG slave2_config in
    if ret =? 0 then
      let slave2_config := slave2_config.["slave2_rate" := u8 (code val)] in
      let* ret := write_struct LSM6DS3TR_C_SLAVE2_CONFIG slave2_config in
      if ret =? 0 then
        lsm6ds3tr_c_mem_bank_set LSM6DS3TR_C_USER_BANK
      else mret ret
    else mret ret
  else mret ret.

(* @ lsm6ds3tr-c_reg.c:8072-8115 lsm6ds3tr_c_sh_slave_2_dec_get *)
Definition lsm6ds3tr_c_sh_slave_2_dec_get (val : lsm6ds3tr_c_slave2_rate_t) :
    io (Z * lsm6ds3tr_c_slave2_rate_t) :=
  let slave2_config : lsm6ds3tr_c_slave2_config_t := undef "slave2_config" 0%nat in
  let* ret := lsm6ds3tr_c_mem_bank_set LSM6DS3TR_C_BANK_A in
  if ret =? 0 then
    let* (ret, slave2_config) := read_struct LSM6DS3TR_C_SLAVE2_CONFIG slave2_config in
    if ret =? 0 then
      let val := switch slave2_config.["slave2_rate"]
          [LSM6DS3TR_C_SL2_NO_DEC; LSM6DS3TR_C_SL2_DEC_2; LSM6DS3TR_C_SL2_DEC_4;
           LSM6DS3TR_C_SL2_DEC_8] LSM6DS3TR_C_SL2_DEC_ND in
      let* ret := lsm6ds3tr_c_mem_bank_set LSM6DS3TR_C_USER_BANK in
      mret (ret, val)
    else mret (ret, val)
  else mret (ret, val).

(* @ lsm6ds3tr-c_reg.c:8126-8153 lsm6ds3tr_c_sh_slave_3_dec_set *)
Definition lsm6ds3tr_c_sh_slave_3_dec_set (val : lsm6ds3tr_c_slave3_rate_t) : io Z :=
  let slave3_config : lsm6ds3tr_c_slave3_config_t := undef "slave3_config" 0%nat in
  let* ret := lsm6ds3tr_c_mem_bank_set LSM6DS3TR_C_BANK_A in
  if ret =? 0 then
    let* (ret, slave3_config) := read_struct LSM6DS3TR_C_SLAVE3_CONFIG slave3_config in
    let slave3_config := slave3_config.["slave3_rate" := u8 (code val)] in
    if ret =? 0 then
      let* ret := write_struct LSM6DS3TR_C_SLAVE3_CONFIG slave3_config in
      if ret =? 0 then
        lsm6ds3tr_c_mem_bank_set LSM6DS3TR_C_USER_BANK
      else mret ret
    else mret ret
  else mret ret.

(* @ lsm6ds3tr-c_reg.c:8164-8207 lsm6ds3tr_c_sh_slave_3_dec_get *)
Definition lsm6ds3tr_c_sh_slave_3_dec_get (val : lsm6ds3tr_c_slave3_rate_t) :
    io (Z * lsm6ds3tr_c_slave3_rate_t) :=
  let slave3_config : lsm6ds3tr_c_slave3_config_t := undef "slave3_config" 0%nat in
  let* ret := lsm6ds3tr_c_mem_bank_set LSM6DS3TR_C_BANK_A in
  if ret =? 0 then
    let* (ret, slave3_config) := read_struct LSM6DS3TR_C_SLAVE3_CONFIG slave3_config in
    if ret =? 0 then
      let val := switch slave3_config.["slave3_rate"]
          [LSM6DS3TR_C_SL3_NO_DEC; LSM6DS3TR_C_SL3_DEC_2; LSM6DS3TR_C_SL3_DEC_4;
           LSM6DS3TR_C_SL3_DEC_8] LSM6DS3TR_C_SL3_DEC_ND in
      let* ret := lsm6ds3tr_c_mem_bank_set LSM6DS3TR_C_USER_BANK in
      mret (ret, val)
    else mret (ret, val)
  else mret (ret, val).

End Driver.
