(* ===== verification/Lsm6ds3Laws.v ===== *)
(** LSM6DS3TR-C inertial sensor: what the register driver guarantees.

    First the laws of bit fields. Then a table of the accessors of one bit
    field, in the user bank ([accessors]) and in the embedded-function bank
    ([embedded]), each shown to be one read and one write of its register with
    the field replaced, and the getter to decode that field. The claims are
    about all of them at once, with the settings of several fields and bytes, for an arbitrary bus where errors are concerned,
    and for the register file [device] where values are. *)
From S2P Require Import Prelude Lsm6ds3Reg Lsm6ds3.

(** ** Bit fields *)
Section Fields.
Context {L : layout} (f : string) (o w : Z).
Hypothesis field_f : field L f = (o, w).
Hypothesis offset_f : 0 <= o.
Hypothesis width_f : 0 <= w.

Lemma testbit_getf (x : L) i : 0 <= i ->
  Z.testbit x.[f] i = if i <? w then Z.testbit x (i + o) else false.
Proof.
  intros Hi. unfold getf. rewrite field_f, Z.land_spec, Z.shiftr_spec by lia.
  destruct (Z.ltb_spec i w).
  - rewrite Z.ones_spec_low by lia. apply andb_true_r.
  - rewrite Z.ones_spec_high by lia. apply andb_false_r.
Qed.
Lemma testbit_setf (x : L) v i : 0 <= i ->
  Z.testbit x.[f := v] i = if (o <=? i) && (i <? o + w) then Z.testbit v (i - o) else Z.testbit x i.
Proof.
  intros Hi. unfold setf. rewrite field_f, Z.lor_spec, Z.ldiff_spec, !Z.shiftl_spec by lia.
  destruct (Z.leb_spec o i); cbn [andb].
  - rewrite Z.land_spec. destruct (Z.ltb_spec i (o + w)).
    + rewrite Z.ones_spec_low by lia. destruct (Z.testbit x i), (Z.testbit v (i - o)); reflexivity.
    + rewrite Z.ones_spec_high by lia. destruct (Z.testbit x i), (Z.testbit v (i - o)); reflexivity.
  - rewrite !(Z.testbit_neg_r _ (i - o)) by lia. cbn. rewrite andb_true_r, orb_false_r. reflexivity.
Qed.
(** A stored field reads back the bits that fit. *)
Lemma getf_setf (x : L) v : (x.[f := v]).[f] = Z.land v (Z.ones w).
Proof.
  apply Z.bits_inj'. intros i Hi. rewrite testbit_getf, testbit_setf by lia.
  rewrite Z.land_spec. destruct (Z.ltb_spec i w).
  - rewrite Z.ones_spec_low, andb_true_r by lia.
    replace ((o <=? i + o) && (i + o <? o + w)) with true by lia. f_equal; lia.
  - rewrite Z.ones_spec_high by lia. symmetry; apply andb_false_r.
Qed.
(** Fields that do not overlap do not disturb one another. *)
Lemma getf_setf_other (x : L) v g p q : field L g = (p, q) -> 0 <= p -> 0 <= q ->
  p + q <= o \/ o + w <= p -> (x.[f := v]).[g] = x.[g].
Proof.
  intros Hg Hp Hq Hd. apply Z.bits_inj'. intros i Hi. unfold getf. rewrite Hg.
  rewrite !Z.land_spec, !Z.shiftr_spec, testbit_setf by lia.
  destruct (Z.ltb_spec i q).
  - replace ((o <=? i + p) && (i + p <? o + w)) with false by lia. reflexivity.
  - rewrite Z.ones_spec_high, !andb_false_r by lia. reflexivity.
Qed.
Lemma setf_u8 (x : L) v : is_u8 x -> o + w <= 8 -> is_u8 x.[f := v].
Proof.
  intros Hx Ho. apply (word_land 8); [lia|]. apply (word_land 8) in Hx; [|lia].
  apply Z.bits_inj'. intros i Hi. rewrite Z.land_spec, testbit_setf by lia.
  destruct (Z.ltb_spec i 8).
  - rewrite Z.ones_spec_low by lia. apply andb_true_r.
  - rewrite Z.ones_spec_high, andb_false_r by lia.
    replace ((o <=? i) && (i <? o + w)) with false by lia.
    rewrite <- Hx, Z.land_spec, Z.ones_spec_high by lia. symmetry; apply andb_false_r.
Qed.
End Fields.

(** The same with the side conditions as a computation. *)
Lemma getf_setf_same {L : layout} f (x : L) v :
  (0 <=? (field L f).1) && (0 <=? (field L f).2) = true ->
  (x.[f := v]).[f] = Z.land v (Z.ones (field L f).2).
Proof.
  intros H. destruct (field L f) as [o w] eqn:E. cbn in *. bsimp. apply (getf_setf f o w); assumption.
Qed.
Definition apart (L : layout) (f g : string) : bool :=
  let (o, w) := field L f in let (p, q) := field L g in
  (0 <=? o) && (0 <=? w) && (0 <=? p) && (0 <=? q) && ((p + q <=? o) || (o + w <=? p)).
Lemma getf_setf_apart {L : layout} f g (x : L) v : apart L f g = true -> (x.[f := v]).[g] = x.[g].
Proof.
  unfold apart. destruct (field L f) as [o w] eqn:Ef, (field L g) as [p q] eqn:Eg.
  rewrite orb_comm. intros H. bsimp. apply orb_prop in H0.
  apply (getf_setf_other f o w) with p q; auto. destruct H0; bsimp; auto.
Qed.

(** ** Accessors of one bit field *)

(** The setter as one read and one write of a register, the getter as one read. *)
Definition update_field {S} (ctx : option (stmdev_ctx_t S)) (r : Z) {L : layout} (f : string)
    (v : Z) (x : Z) : io S Z :=
  let* (ret, x) := read_byte ctx r x in
  if ret =? 0 then write_byte ctx r (x : L).[f := v] else mret ret.
Definition read_field {S} (ctx : option (stmdev_ctx_t S)) (r : Z) {L : layout} (f : string)
    {T} (dec : Z -> T) (x : Z) : io S (Z * T) :=
  let* (ret, x) := read_byte ctx r x in mret (ret, dec (x : L).[f]).
Definition setter (T : Type) := forall S, option (stmdev_ctx_t S) -> (string -> nat -> Z) -> T -> io S Z.
Definition getter (T : Type) :=
  forall S, option (stmdev_ctx_t S) -> (string -> nat -> Z) -> T -> io S (Z * T).

Record accessor := Accessor {
  acc_type : Type;
  acc_set : setter acc_type;
  acc_get : getter acc_type;
  acc_reg : Z;
  acc_local : string;
  acc_layout : layout;
  acc_field : string;
  acc_enc : acc_type -> Z;
  acc_dec : Z -> acc_type;
  acc_valid : acc_type -> Prop;
}.
(** A number stored as it is, and an enumeration decoded by a [switch]. *)
Definition flag (set : setter Z) (get : getter Z) r local (L : layout) f : accessor :=
  Accessor Z set get r local L f (fun v => v) (fun z => z) (fun v => 0 <= v < 2 ^ (field L f).2).
Definition choice {T} `{Enum T} (set : setter T) (get : getter T) r local (L : layout) f cases nd :
    accessor :=
  Accessor T set get r local L f (fun v => u8 (code v)) (fun z => switch z cases nd)
    (fun v => v ∈ cases).
Arguments flag set get r local%_string L f%_string.
Arguments choice {T H} set get r local%_string L f%_string cases nd.

Record implements (a : accessor) : Prop := {
  set_spec : forall S ctx junk v s, acc_set a S ctx junk v s =
    update_field ctx (acc_reg a) (L := acc_layout a) (acc_field a) (acc_enc a v)
      (undef junk (acc_local a) 0) s;
  get_spec : forall S ctx junk v s, acc_get a S ctx junk v s =
    read_field ctx (acc_reg a) (L := acc_layout a) (acc_field a) (acc_dec a)
      (undef junk (acc_local a) 0) s;
  fits : 0 <= (field (acc_layout a) (acc_field a)).1 /\ 0 < (field (acc_layout a) (acc_field a)).2
    /\ (field (acc_layout a) (acc_field a)).1 + (field (acc_layout a) (acc_field a)).2 <= 8;
  decodes : forall v, acc_valid a v ->
    acc_dec a (Z.land (acc_enc a v) (Z.ones (field (acc_layout a) (acc_field a)).2)) = v;
  not_bank : acc_reg a ≠ LSM6DS3TR_C_FUNC_CFG_ACCESS;
}.

Lemma choice_decodes {T} `{Enum T} (cases : list T) nd w :
  Forall (fun v => switch (Z.land (u8 (code v)) (Z.ones w)) cases nd = v) cases ->
  forall v, v ∈ cases -> switch (Z.land (u8 (code v)) (Z.ones w)) cases nd = v.
Proof. intros HF v Hv. rewrite Forall_forall in HF. auto. Qed.

Ltac implement := constructor;
  [reflexivity | reflexivity | cbn; lia
  | first [ apply choice_decodes; cbn; forall_list ltac:(cbv beta; reflexivity)
          | intros v Hv; cbn in v, Hv |- *; rewrite Z.land_ones by lia; apply Z.mod_small; apply Hv ]
  | discriminate].

Definition accessors : list accessor := [
    choice (@lsm6ds3tr_c_xl_full_scale_set) (@lsm6ds3tr_c_xl_full_scale_get)
      LSM6DS3TR_C_CTRL1_XL "ctrl1_xl" lsm6ds3tr_c_ctrl1_xl_t "fs_xl"
      [LSM6DS3TR_C_2g; LSM6DS3TR_C_16g; LSM6DS3TR_C_4g; LSM6DS3TR_C_8g] LSM6DS3TR_C_XL_FS_ND;
    choice (@lsm6ds3tr_c_xl_data_rate_set) (@lsm6ds3tr_c_xl_data_rate_get)
      LSM6DS3TR_C_CTRL1_XL "ctrl1_xl" lsm6ds3tr_c_ctrl1_xl_t "odr_xl"
      [LSM6DS3TR_C_XL_ODR_OFF; LSM6DS3TR_C_XL_ODR_12Hz5; LSM6DS3TR_C_XL_ODR_26Hz;
       LSM6DS3TR_C_XL_ODR_52Hz; LSM6DS3TR_C_XL_ODR_104Hz; LSM6DS3TR_C_XL_ODR_208Hz;
       LSM6DS3TR_C_XL_ODR_416Hz; LSM6DS3TR_C_XL_ODR_833Hz; LSM6DS3TR_C_XL_ODR_1k66Hz;
       LSM6DS3TR_C_XL_ODR_3k33Hz; LSM6DS3TR_C_XL_ODR_6k66Hz;
       LSM6DS3TR_C_XL_ODR_1Hz6] LSM6DS3TR_C_XL_ODR_ND;
    choice (@lsm6ds3tr_c_gy_full_scale_set) (@lsm6ds3tr_c_gy_full_scale_get)
      LSM6DS3TR_C_CTRL2_G "ctrl2_g" lsm6ds3tr_c_ctrl2_g_t "fs_g"
      [LSM6DS3TR_C_250dps; LSM6DS3TR_C_125dps; LSM6DS3TR_C_500dps; LSM6DS3TR_C_1000dps;
       LSM6DS3TR_C_2000dps] LSM6DS3TR_C_GY_FS_ND;
    choice (@lsm6ds3tr_c_gy_data_rate_set) (@lsm6ds3tr_c_gy_data_rate_get)
      LSM6DS3TR_C_CTRL2_G "ctrl2_g" lsm6ds3tr_c_ctrl2_g_t "odr_g"
      [LSM6DS3TR_C_GY_ODR_OFF; LSM6DS3TR_C_GY_ODR_12Hz5; LSM6DS3TR_C_GY_ODR_26Hz;
       LSM6DS3TR_C_GY_ODR_52Hz; LSM6DS3TR_C_GY_ODR_104Hz; LSM6DS3TR_C_GY_ODR_208Hz;
       LSM6DS3TR_C_GY_ODR_416Hz; LSM6DS3TR_C_GY_ODR_833Hz; LSM6DS3TR_C_GY_ODR_1k66Hz;
       LSM6DS3TR_C_GY_ODR_3k33Hz; LSM6DS3TR_C_GY_ODR_6k66Hz] LSM6DS3TR_C_GY_ODR_ND;
    flag (@lsm6ds3tr_c_block_data_update_set) (@lsm6ds3tr_c_block_data_update_get)
      LSM6DS3TR_C_CTRL3_C "ctrl3_c" lsm6ds3tr_c_ctrl3_c_t "bdu";
    choice (@lsm6ds3tr_c_xl_offset_weight_set) (@lsm6ds3tr_c_xl_offset_weight_get)
      LSM6DS3TR_C_CTRL6_C "ctrl6_c" lsm6ds3tr_c_ctrl6_c_t "usr_off_w"
      [LSM6DS3TR_C_LSb_1mg; LSM6DS3TR_C_LSb_16mg] LSM6DS3TR_C_WEIGHT_ND;
    choice (@lsm6ds3tr_c_xl_power_mode_set) (@lsm6ds3tr_c_xl_power_mode_get)
      LSM6DS3TR_C_CTRL6_C "ctrl6_c" lsm6ds3tr_c_ctrl6_c_t "xl_hm_mode"
      [LSM6DS3TR_C_XL_HIGH_PERFORMANCE; LSM6DS3TR_C_XL_NORMAL] LSM6DS3TR_C_XL_PW_MODE_ND;
    choice (@lsm6ds3tr_c_rounding_on_status_set) (@lsm6ds3tr_c_rounding_on_status_get)
      LSM6DS3TR_C_CTRL7_G "ctrl7_g" lsm6ds3tr_c_ctrl7_g_t "rounding_status"
      [LSM6DS3TR_C_STAT_RND_DISABLE; LSM6DS3TR_C_STAT_RND_ENABLE] LSM6DS3TR_C_STAT_RND_ND;
    choice (@lsm6ds3tr_c_gy_power_mode_set) (@lsm6ds3tr_c_gy_power_mode_get)
      LSM6DS3TR_C_CTRL7_G "ctrl7_g" lsm6ds3tr_c_ctrl7_g_t "g_hm_mode"
      [LSM6DS3TR_C_GY_HIGH_PERFORMANCE; LSM6DS3TR_C_GY_NORMAL] LSM6DS3TR_C_GY_PW_MODE_ND;
    choice (@lsm6ds3tr_c_timestamp_res_set) (@lsm6ds3tr_c_timestamp_res_get)
      LSM6DS3TR_C_WAKE_UP_DUR "wake_up_dur" lsm6ds3tr_c_wake_up_dur_t "timer_hr"
      [LSM6DS3TR_C_LSB_6ms4; LSM6DS3TR_C_LSB_25us] LSM6DS3TR_C_TS_RES_ND;
    choice (@lsm6ds3tr_c_rounding_mode_set) (@lsm6ds3tr_c_rounding_mode_get)
      LSM6DS3TR_C_CTRL5_C "ctrl5_c" lsm6ds3tr_c_ctrl5_c_t "rounding"
      [LSM6DS3TR_C_ROUND_DISABLE; LSM6DS3TR_C_ROUND_XL; LSM6DS3TR_C_ROUND_GY;
       LSM6DS3TR_C_ROUND_GY_XL; LSM6DS3TR_C_ROUND_SH1_TO_SH6; LSM6DS3TR_C_ROUND_XL_SH1_TO_SH6;
       LSM6DS3TR_C_ROUND_GY_XL_SH1_TO_SH12;
       LSM6DS3TR_C_ROUND_GY_XL_SH1_TO_SH6] LSM6DS3TR_C_ROUND_OUT_ND;
    choice (@lsm6ds3tr_c_data_ready_mode_set) (@lsm6ds3tr_c_data_ready_mode_get)
      LSM6DS3TR_C_DRDY_PULSE_CFG_G "drdy_pulse_cfg_g" lsm6ds3tr_c_drdy_pulse_cfg_g_t "drdy_pulsed"
      [LSM6DS3TR_C_DRDY_LATCHED; LSM6DS3TR_C_DRDY_PULSED] LSM6DS3TR_C_DRDY_ND;
    flag (@lsm6ds3tr_c_reset_set) (@lsm6ds3tr_c_reset_get)
      LSM6DS3TR_C_CTRL3_C "ctrl3_c" lsm6ds3tr_c_ctrl3_c_t "sw_reset";
    choice (@lsm6ds3tr_c_data_format_set) (@lsm6ds3tr_c_data_format_get)
      LSM6DS3TR_C_CTRL3_C "ctrl3_c" lsm6ds3tr_c_ctrl3_c_t "ble"
      [LSM6DS3TR_C_LSB_AT_LOW_ADD; LSM6DS3TR_C_MSB_AT_LOW_ADD] LSM6DS3TR_C_DATA_FMT_ND;
    flag (@lsm6ds3tr_c_auto_increment_set) (@lsm6ds3tr_c_auto_increment_get)
      LSM6DS3TR_C_CTRL3_C "ctrl3_c" lsm6ds3tr_c_ctrl3_c_t "if_inc";
    flag (@lsm6ds3tr_c_boot_set) (@lsm6ds3tr_c_boot_get)
      LSM6DS3TR_C_CTRL3_C "ctrl3_c" lsm6ds3tr_c_ctrl3_c_t "boot";
    choice (@lsm6ds3tr_c_xl_self_test_set) (@lsm6ds3tr_c_xl_self_test_get)
      LSM6DS3TR_C_CTRL5_C "ctrl5_c" lsm6ds3tr_c_ctrl5_c_t "st_xl"
      [LSM6DS3TR_C_XL_ST_DISABLE; LSM6DS3TR_C_XL_ST_POSITIVE;
       LSM6DS3TR_C_XL_ST_NEGATIVE] LSM6DS3TR_C_XL_ST_ND;
    choice (@lsm6ds3tr_c_gy_self_test_set) (@lsm6ds3tr_c_gy_self_test_get)
      LSM6DS3TR_C_CTRL5_C "ctrl5_c" lsm6ds3tr_c_ctrl5_c_t "st_g"
      [LSM6DS3TR_C_GY_ST_DISABLE; LSM6DS3TR_C_GY_ST_POSITIVE;
       LSM6DS3TR_C_GY_ST_NEGATIVE] LSM6DS3TR_C_GY_ST_ND;
    flag (@lsm6ds3tr_c_filter_settling_mask_set) (@lsm6ds3tr_c_filter_settling_mask_get)
      LSM6DS3TR_C_CTRL4_C "ctrl4_c" lsm6ds3tr_c_ctrl4_c_t "drdy_mask";
    choice (@lsm6ds3tr_c_xl_hp_path_internal_set) (@lsm6ds3tr_c_xl_hp_path_internal_get)
      LSM6DS3TR_C_TAP_CFG "tap_cfg" lsm6ds3tr_c_tap_cfg_t "slope_fds"
      [LSM6DS3TR_C_USE_SLOPE; LSM6DS3TR_C_USE_HPF] LSM6DS3TR_C_HP_PATH_ND;
    choice (@lsm6ds3tr_c_xl_filter_analog_set) (@lsm6ds3tr_c_xl_filter_analog_get)
      LSM6DS3TR_C_CTRL1_XL "ctrl1_xl" lsm6ds3tr_c_ctrl1_xl_t "bw0_xl"
      [LSM6DS3TR_C_XL_ANA_BW_1k5Hz; LSM6DS3TR_C_XL_ANA_BW_400Hz] LSM6DS3TR_C_XL_ANA_BW_ND;
    flag (@lsm6ds3tr_c_xl_reference_mode_set) (@lsm6ds3tr_c_xl_reference_mode_get)
      LSM6DS3TR_C_CTRL8_XL "ctrl8_xl" lsm6ds3tr_c_ctrl8_xl_t "hp_ref_mode";
    choice (@lsm6ds3tr_c_spi_mode_set) (@lsm6ds3tr_c_spi_mode_get)
      LSM6DS3TR_C_CTRL3_C "ctrl3_c" lsm6ds3tr_c_ctrl3_c_t "sim"
      [LSM6DS3TR_C_SPI_4_WIRE; LSM6DS3TR_C_SPI_3_WIRE] LSM6DS3TR_C_SPI_MODE_ND;
    choice (@lsm6ds3tr_c_i2c_interface_set) (@lsm6ds3tr_c_i2c_interface_get)
      LSM6DS3TR_C_CTRL4_C "ctrl4_c" lsm6ds3tr_c_ctrl4_c_t "i2c_disable"
      [LSM6DS3TR_C_I2C_ENABLE; LSM6DS3TR_C_I2C_DISABLE] LSM6DS3TR_C_I2C_MODE_ND;
    choice (@lsm6ds3tr_c_pin_mode_set) (@lsm6ds3tr_c_pin_mode_get)
      LSM6DS3TR_C_CTRL3_C "ctrl3_c" lsm6ds3tr_c_ctrl3_c_t "pp_od"
      [LSM6DS3TR_C_PUSH_PULL; LSM6DS3TR_C_OPEN_DRAIN] LSM6DS3TR_C_PIN_MODE_ND;
    choice (@lsm6ds3tr_c_pin_polarity_set) (@lsm6ds3tr_c_pin_polarity_get)
      LSM6DS3TR_C_CTRL3_C "ctrl3_c" lsm6ds3tr_c_ctrl3_c_t "h_lactive"
      [LSM6DS3TR_C_ACTIVE_HIGH; LSM6DS3TR_C_ACTIVE_LOW] LSM6DS3TR_C_POLARITY_ND;
    flag (@lsm6ds3tr_c_all_on_int1_set) (@lsm6ds3tr_c_all_on_int1_get)
      LSM6DS3TR_C_CTRL4_C "ctrl4_c" lsm6ds3tr_c_ctrl4_c_t "int2_on_int1";
    choice (@lsm6ds3tr_c_int_notification_set) (@lsm6ds3tr_c_int_notification_get)
      LSM6DS3TR_C_TAP_CFG "tap_cfg" lsm6ds3tr_c_tap_cfg_t "lir"
      [LSM6DS3TR_C_INT_PULSED; LSM6DS3TR_C_INT_LATCHED] LSM6DS3TR_C_INT_MODE;
    flag (@lsm6ds3tr_c_wkup_threshold_set) (@lsm6ds3tr_c_wkup_threshold_get)
      LSM6DS3TR_C_WAKE_UP_THS "wake_up_ths" lsm6ds3tr_c_wake_up_ths_t "wk_ths";
    flag (@lsm6ds3tr_c_wkup_dur_set) (@lsm6ds3tr_c_wkup_dur_get)
      LSM6DS3TR_C_WAKE_UP_DUR "wake_up_dur" lsm6ds3tr_c_wake_up_dur_t "wake_dur";
    flag (@lsm6ds3tr_c_gy_sleep_mode_set) (@lsm6ds3tr_c_gy_sleep_mode_get)
      LSM6DS3TR_C_CTRL4_C "ctrl4_c" lsm6ds3tr_c_ctrl4_c_t "sleep";
    choice (@lsm6ds3tr_c_act_mode_set) (@lsm6ds3tr_c_act_mode_get)
      LSM6DS3TR_C_TAP_CFG "tap_cfg" lsm6ds3tr_c_tap_cfg_t "inact_en"
      [LSM6DS3TR_C_PROPERTY_DISABLE; LSM6DS3TR_C_XL_12Hz5_GY_NOT_AFFECTED;
       LSM6DS3TR_C_XL_12Hz5_GY_SLEEP; LSM6DS3TR_C_XL_12Hz5_GY_PD] LSM6DS3TR_C_ACT_MODE_ND;
    flag (@lsm6ds3tr_c_act_sleep_dur_set) (@lsm6ds3tr_c_act_sleep_dur_get)
      LSM6DS3TR_C_WAKE_UP_DUR "wake_up_dur" lsm6ds3tr_c_wake_up_dur_t "sleep_dur";
    flag (@lsm6ds3tr_c_tap_detection_on_z_set) (@lsm6ds3tr_c_tap_detection_on_z_get)
      LSM6DS3TR_C_TAP_CFG "tap_cfg" lsm6ds3tr_c_tap_cfg_t "tap_z_en";
    flag (@lsm6ds3tr_c_tap_detection_on_y_set) (@lsm6ds3tr_c_tap_detection_on_y_get)
      LSM6DS3TR_C_TAP_CFG "tap_cfg" lsm6ds3tr_c_tap_cfg_t "tap_y_en";
    flag (@lsm6ds3tr_c_tap_detection_on_x_set) (@lsm6ds3tr_c_tap_detection_on_x_get)
      LSM6DS3TR_C_TAP_CFG "tap_cfg" lsm6ds3tr_c_tap_cfg_t "tap_x_en";
    flag (@lsm6ds3tr_c_tap_threshold_x_set) (@lsm6ds3tr_c_tap_threshold_x_get)
      LSM6DS3TR_C_TAP_THS_6D "tap_ths_6d" lsm6ds3tr_c_tap_ths_6d_t "tap_ths";
    flag (@lsm6ds3tr_c_tap_shock_set) (@lsm6ds3tr_c_tap_shock_get)
      LSM6DS3TR_C_INT_DUR2 "int_dur2" lsm6ds3tr_c_int_dur2_t "shock";
    flag (@lsm6ds3tr_c_tap_quiet_set) (@lsm6ds3tr_c_tap_quiet_get)
      LSM6DS3TR_C_INT_DUR2 "int_dur2" lsm6ds3tr_c_int_dur2_t "quiet";
    flag (@lsm6ds3tr_c_tap_dur_set) (@lsm6ds3tr_c_tap_dur_get)
      LSM6DS3TR_C_INT_DUR2 "int_dur2" lsm6ds3tr_c_int_dur2_t "dur";
    choice (@lsm6ds3tr_c_tap_mode_set) (@lsm6ds3tr_c_tap_mode_get)
      LSM6DS3TR_C_WAKE_UP_THS "wake_up_ths" lsm6ds3tr_c_wake_up_ths_t "single_double_tap"
      [LSM6DS3TR_C_ONLY_SINGLE; LSM6DS3TR_C_BOTH_SINGLE_DOUBLE] LSM6DS3TR_C_TAP_MODE_ND;
    choice (@lsm6ds3tr_c_6d_feed_data_set) (@lsm6ds3tr_c_6d_feed_data_get)
      LSM6DS3TR_C_CTRL8_XL "ctrl8_xl" lsm6ds3tr_c_ctrl8_xl_t "low_pass_on_6d"
      [LSM6DS3TR_C_ODR_DIV_2_FEED; LSM6DS3TR_C_LPF2_FEED] LSM6DS3TR_C_6D_FEED_ND;
    choice (@lsm6ds3tr_c_6d_threshold_set) (@lsm6ds3tr_c_6d_threshold_get)
      LSM6DS3TR_C_TAP_THS_6D "tap_ths_6d" lsm6ds3tr_c_tap_ths_6d_t "sixd_ths"
      [LSM6DS3TR_C_DEG_80; LSM6DS3TR_C_DEG_70; LSM6DS3TR_C_DEG_60;
       LSM6DS3TR_C_DEG_50] LSM6DS3TR_C_6D_TH_ND;
    flag (@lsm6ds3tr_c_4d_mode_set) (@lsm6ds3tr_c_4d_mode_get)
      LSM6DS3TR_C_TAP_THS_6D "tap_ths_6d" lsm6ds3tr_c_tap_ths_6d_t "d4d_en";
    choice (@lsm6ds3tr_c_ff_threshold_set) (@lsm6ds3tr_c_ff_threshold_get)
      LSM6DS3TR_C_FREE_FALL "free_fall" lsm6ds3tr_c_free_fall_t "ff_ths"
      [LSM6DS3TR_C_FF_TSH_156mg; LSM6DS3TR_C_FF_TSH_219mg; LSM6DS3TR_C_FF_TSH_250mg;
       LSM6DS3TR_C_FF_TSH_312mg; LSM6DS3TR_C_FF_TSH_344mg; LSM6DS3TR_C_FF_TSH_406mg;
       LSM6DS3TR_C_FF_TSH_469mg; LSM6DS3TR_C_FF_TSH_500mg] LSM6DS3TR_C_FF_TSH_ND;
    flag (@lsm6ds3tr_c_fifo_temp_batch_set) (@lsm6ds3tr_c_fifo_temp_batch_get)
      LSM6DS3TR_C_FIFO_CTRL2 "fifo_ctrl2" lsm6ds3tr_c_fifo_ctrl2_t "fifo_temp_en";
    flag (@lsm6ds3tr_c_fifo_pedo_and_timestamp_batch_set) (@lsm6ds3tr_c_fifo_pedo_and_timestamp_batch_get)
      LSM6DS3TR_C_FIFO_CTRL2 "fifo_ctrl2" lsm6ds3tr_c_fifo_ctrl2_t "timer_pedo_fifo_en";
    choice (@lsm6ds3tr_c_fifo_xl_batch_set) (@lsm6ds3tr_c_fifo_xl_batch_get)
      LSM6DS3TR_C_FIFO_CTRL3 "fifo_ctrl3" lsm6ds3tr_c_fifo_ctrl3_t "dec_fifo_xl"
      [LSM6DS3TR_C_FIFO_XL_DISABLE; LSM6DS3TR_C_FIFO_XL_NO_DEC; LSM6DS3TR_C_FIFO_XL_DEC_2;
       LSM6DS3TR_C_FIFO_XL_DEC_3; LSM6DS3TR_C_FIFO_XL_DEC_4; LSM6DS3TR_C_FIFO_XL_DEC_8;
       LSM6DS3TR_C_FIFO_XL_DEC_16; LSM6DS3TR_C_FIFO_XL_DEC_32] LSM6DS3TR_C_FIFO_XL_DEC_ND;
    choice (@lsm6ds3tr_c_fifo_gy_batch_set) (@lsm6ds3tr_c_fifo_gy_batch_get)
      LSM6DS3TR_C_FIFO_CTRL3 "fifo_ctrl3" lsm6ds3tr_c_fifo_ctrl3_t "dec_fifo_gyro"
      [LSM6DS3TR_C_FIFO_GY_DISABLE; LSM6DS3TR_C_FIFO_GY_NO_DEC; LSM6DS3TR_C_FIFO_GY_DEC_2;
       LSM6DS3TR_C_FIFO_GY_DEC_3; LSM6DS3TR_C_FIFO_GY_DEC_4; LSM6DS3TR_C_FIFO_GY_DEC_8;
       LSM6DS3TR_C_FIFO_GY_DEC_16; LSM6DS3TR_C_FIFO_GY_DEC_32] LSM6DS3TR_C_FIFO_GY_DEC_ND;
    choice (@lsm6ds3tr_c_fifo_dataset_3_batch_set) (@lsm6ds3tr_c_fifo_dataset_3_batch_get)
      LSM6DS3TR_C_FIFO_CTRL4 "fifo_ctrl4" lsm6ds3tr_c_fifo_ctrl4_t "dec_ds3_fifo"
      [LSM6DS3TR_C_FIFO_DS3_DISABLE; LSM6DS3TR_C_FIFO_DS3_NO_DEC; LSM6DS3TR_C_FIFO_DS3_DEC_2;
       LSM6DS3TR_C_FIFO_DS3_DEC_3; LSM6DS3TR_C_FIFO_DS3_DEC_4; LSM6DS3TR_C_FIFO_DS3_DEC_8;
       LSM6DS3TR_C_FIFO_DS3_DEC_16; LSM6DS3TR_C_FIFO_DS3_DEC_32] LSM6DS3TR_C_FIFO_DS3_DEC_ND;
    choice (@lsm6ds3tr_c_fifo_dataset_4_batch_set) (@lsm6ds3tr_c_fifo_dataset_4_batch_get)
      LSM6DS3TR_C_FIFO_CTRL4 "fifo_ctrl4" lsm6ds3tr_c_fifo_ctrl4_t "dec_ds4_fifo"
      [LSM6DS3TR_C_FIFO_DS4_DISABLE; LSM6DS3TR_C_FIFO_DS4_NO_DEC; LSM6DS3TR_C_FIFO_DS4_DEC_2;
       LSM6DS3TR_C_FIFO_DS4_DEC_3; LSM6DS3TR_C_FIFO_DS4_DEC_4; LSM6DS3TR_C_FIFO_DS4_DEC_8;
       LSM6DS3TR_C_FIFO_DS4_DEC_16; LSM6DS3TR_C_FIFO_DS4_DEC_32] LSM6DS3TR_C_FIFO_DS4_DEC_ND;
    flag (@lsm6ds3tr_c_fifo_xl_gy_8bit_format_set) (@lsm6ds3tr_c_fifo_xl_gy_8bit_format_get)
      LSM6DS3TR_C_FIFO_CTRL4 "fifo_ctrl4" lsm6ds3tr_c_fifo_ctrl4_t "only_high_data";
    flag (@lsm6ds3tr_c_fifo_stop_on_wtm_set) (@lsm6ds3tr_c_fifo_stop_on_wtm_get)
      LSM6DS3TR_C_FIFO_CTRL4 "fifo_ctrl4" lsm6ds3tr_c_fifo_ctrl4_t "stop_on_fth";
    choice (@lsm6ds3tr_c_fifo_mode_set) (@lsm6ds3tr_c_fifo_mode_get)
      LSM6DS3TR_C_FIFO_CTRL5 "fifo_ctrl5" lsm6ds3tr_c_fifo_ctrl5_t "fifo_mode"
      [LSM6DS3TR_C_BYPASS_MODE; LSM6DS3TR_C_FIFO_MODE; LSM6DS3TR_C_STREAM_TO_FIFO_MODE;
       LSM6DS3TR_C_BYPASS_TO_STREAM_MODE; LSM6DS3TR_C_STREAM_MODE] LSM6DS3TR_C_FIFO_MODE_ND;
    choice (@lsm6ds3tr_c_fifo_data_rate_set) (@lsm6ds3tr_c_fifo_data_rate_get)
      LSM6DS3TR_C_FIFO_CTRL5 "fifo_ctrl5" lsm6ds3tr_c_fifo_ctrl5_t "odr_fifo"
      [LSM6DS3TR_C_FIFO_DISABLE; LSM6DS3TR_C_FIFO_12Hz5; LSM6DS3TR_C_FIFO_26Hz;
       LSM6DS3TR_C_FIFO_52Hz; LSM6DS3TR_C_FIFO_104Hz; LSM6DS3TR_C_FIFO_208Hz;
       LSM6DS3TR_C_FIFO_416Hz; LSM6DS3TR_C_FIFO_833Hz; LSM6DS3TR_C_FIFO_1k66Hz;
       LSM6DS3TR_C_FIFO_3k33Hz; LSM6DS3TR_C_FIFO_6k66Hz] LSM6DS3TR_C_FIFO_RATE_ND;
    choice (@lsm6ds3tr_c_den_polarity_set) (@lsm6ds3tr_c_den_polarity_get)
      LSM6DS3TR_C_CTRL5_C "ctrl5_c" lsm6ds3tr_c_ctrl5_c_t "den_lh"
      [LSM6DS3TR_C_DEN_ACT_LOW; LSM6DS3TR_C_DEN_ACT_HIGH] LSM6DS3TR_C_DEN_POL_ND;
    choice (@lsm6ds3tr_c_den_mode_set) (@lsm6ds3tr_c_den_mode_get)
      LSM6DS3TR_C_CTRL6_C "ctrl6_c" lsm6ds3tr_c_ctrl6_c_t "den_mode"
      [LSM6DS3TR_C_DEN_DISABLE; LSM6DS3TR_C_LEVEL_LETCHED; LSM6DS3TR_C_LEVEL_TRIGGER;
       LSM6DS3TR_C_EDGE_TRIGGER] LSM6DS3TR_C_DEN_MODE_ND;
    flag (@lsm6ds3tr_c_den_mark_axis_z_set) (@lsm6ds3tr_c_den_mark_axis_z_get)
      LSM6DS3TR_C_CTRL9_XL "ctrl9_xl" lsm6ds3tr_c_ctrl9_xl_t "den_z";
    flag (@lsm6ds3tr_c_den_mark_axis_y_set) (@lsm6ds3tr_c_den_mark_axis_y_get)
      LSM6DS3TR_C_CTRL9_XL "ctrl9_xl" lsm6ds3tr_c_ctrl9_xl_t "den_y";
    flag (@lsm6ds3tr_c_den_mark_axis_x_set) (@lsm6ds3tr_c_den_mark_axis_x_get)
      LSM6DS3TR_C_CTRL9_XL "ctrl9_xl" lsm6ds3tr_c_ctrl9_xl_t "den_x";
    flag (@lsm6ds3tr_c_pedo_step_reset_set) (@lsm6ds3tr_c_pedo_step_reset_get)
      LSM6DS3TR_C_CTRL10_C "ctrl10_c" lsm6ds3tr_c_ctrl10_c_t "pedo_rst_step";
    flag (@lsm6ds3tr_c_mag_soft_iron_set) (@lsm6ds3tr_c_mag_soft_iron_get)
      LSM6DS3TR_C_CTRL9_XL "ctrl9_xl" lsm6ds3tr_c_ctrl9_xl_t "soft_en";
    flag (@lsm6ds3tr_c_sh_sync_sens_frame_set) (@lsm6ds3tr_c_sh_sync_sens_frame_get)
      LSM6DS3TR_C_SENSOR_SYNC_TIME_FRAME "sensor_sync_time_frame" lsm6ds3tr_c_sensor_sync_time_frame_t "tph";
    choice (@lsm6ds3tr_c_sh_sync_sens_ratio_set) (@lsm6ds3tr_c_sh_sync_sens_ratio_get)
      LSM6DS3TR_C_SENSOR_SYNC_RES_RATIO "sensor_sync_res_ratio" lsm6ds3tr_c_sensor_sync_res_ratio_t "rr"
      [LSM6DS3TR_C_RES_RATIO_2_11; LSM6DS3TR_C_RES_RATIO_2_12; LSM6DS3TR_C_RES_RATIO_2_13;
       LSM6DS3TR_C_RES_RATIO_2_14] LSM6DS3TR_C_RES_RATIO_ND;
    flag (@lsm6ds3tr_c_sh_master_set) (@lsm6ds3tr_c_sh_master_get)
      LSM6DS3TR_C_MASTER_CONFIG "master_config" lsm6ds3tr_c_master_config_t "master_on";
    flag (@lsm6ds3tr_c_sh_pass_through_set) (@lsm6ds3tr_c_sh_pass_through_get)
      LSM6DS3TR_C_MASTER_CONFIG "master_config" lsm6ds3tr_c_master_config_t "pass_through_mode";
    choice (@lsm6ds3tr_c_sh_pin_mode_set) (@lsm6ds3tr_c_sh_pin_mode_get)
      LSM6DS3TR_C_MASTER_CONFIG "master_config" lsm6ds3tr_c_master_config_t "pull_up_en"
      [LSM6DS3TR_C_EXT_PULL_UP; LSM6DS3TR_C_INTERNAL_PULL_UP] LSM6DS3TR_C_SH_PIN_MODE;
    choice (@lsm6ds3tr_c_sh_syncro_mode_set) (@lsm6ds3tr_c_sh_syncro_mode_get)
      LSM6DS3TR_C_MASTER_CONFIG "master_config" lsm6ds3tr_c_master_config_t "start_config"
      [LSM6DS3TR_C_XL_GY_DRDY; LSM6DS3TR_C_EXT_ON_INT2_PIN] LSM6DS3TR_C_SH_SYNCRO_ND;
    flag (@lsm6ds3tr_c_sh_drdy_on_int1_set) (@lsm6ds3tr_c_sh_drdy_on_int1_get)
      LSM6DS3TR_C_MASTER_CONFIG "master_config" lsm6ds3tr_c_master_config_t "drdy_on_int1";
    flag (@lsm6ds3tr_c_sh_cmd_sens_sync_set) (@lsm6ds3tr_c_sh_cmd_sens_sync_get)
      LSM6DS3TR_C_MASTER_CMD_CODE "master_cmd_code" lsm6ds3tr_c_master_cmd_code_t "master_cmd_code";
    flag (@lsm6ds3tr_c_sh_spi_sync_error_set) (@lsm6ds3tr_c_sh_spi_sync_error_get)
      LSM6DS3TR_C_SENS_SYNC_SPI_ERROR_CODE "sens_sync_spi_error_code" lsm6ds3tr_c_sens_sync_spi_error_code_t "error_code"].

Lemma accessors_implement : Forall implements accessors.
Proof. unfold accessors. forall_list implement. Qed.

(** Reading and writing one field of a register, whatever the bus does. *)
Lemma update_field_failed {S} (ctx : option (stmdev_ctx_t S)) r {L : layout} f v x e x' s s' :
  read_byte ctx r x s = ((e, x'), s') -> e ≠ 0 -> update_field ctx r (L := L) f v x s = (e, s').
Proof.
  unfold update_field, io_bind. intros -> He. apply Z.eqb_neq in He. rewrite He. reflexivity.
Qed.
Lemma update_field_done {S} (ctx : option (stmdev_ctx_t S)) r {L : layout} f v x x' s s' :
  read_byte ctx r x s = ((0, x'), s') ->
  update_field ctx r (L := L) f v x s = lsm6ds3tr_c_write_reg ctx r [(x' : L).[f := v]] 1 s'.
Proof. unfold update_field, io_bind. intros ->. reflexivity. Qed.

(** No accessor of the user bank hides a bus error or writes what it did
    not read: if the read of its register fails, with whatever code, the setter
    returns that code and the device is left as the read left it; if it
    succeeds, the setter makes exactly one write, to the same register, of the
    byte read with its own field replaced, and returns the code of that write.
    The getter returns the code of its one read. A null context answers -1. *)
Theorem accessors_report_errors : Forall (fun a =>
  forall S (ctx : option (stmdev_ctx_t S)) junk v s,
  let x := undef junk (acc_local a) 0 in
  (forall e b s', read_byte ctx (acc_reg a) x s = ((e, b), s') ->
    acc_set a S ctx junk v s =
      (if e =? 0 then lsm6ds3tr_c_write_reg ctx (acc_reg a)
         [(b : acc_layout a).[acc_field a := acc_enc a v]] 1 s' else (e, s')) /\
    (acc_get a S ctx junk v s).1.1 = e /\ (acc_get a S ctx junk v s).2 = s') /\
  acc_set a S None junk v s = (-1, s)) accessors.
Proof.
  eapply Forall_impl; [exact accessors_implement|]. intros a [Hs Hg _ _ _] S ctx junk v s x. split.
  - intros e b s' H. rewrite Hs, Hg. unfold update_field, read_field, io_bind.
    fold x. rewrite H. cbn. split; [|auto]. destruct (e =? 0); reflexivity.
  - rewrite Hs. reflexivity.
Qed.

(** ** A register file

    A device that keeps the bytes written to it: [FUNC_CFG_ACCESS] selects the
    bank the other addresses refer to. [faults] are the codes of the next
    transfers, 0 for one that succeeds; past its end they all do. *)
Record device := Device { cfg : Z; bank : Z -> Z -> Z; faults : list Z }.
#[export] Instance eta_device : Eta device := fun d => Device (cfg d) (bank d) (faults d).

Definition selected (d : device) : Z := (cfg d : lsm6ds3tr_c_func_cfg_access_t).["func_cfg_en"].
Definition peek (d : device) (a : Z) : Z :=
  if a =? LSM6DS3TR_C_FUNC_CFG_ACCESS then cfg d else bank d (selected d) a.
Definition poke (d : device) (a v : Z) : device :=
  if a =? LSM6DS3TR_C_FUNC_CFG_ACCESS then d <| cfg := v |>
  else d <| bank := fun b x => if (b =? selected d) && (x =? a) then v else bank d b x |>.
Definition fault (d : device) : Z := default 0 (head (faults d)).
Definition served (d : device) : device := d <| faults ::= tail |>.
Definition device_read (a : Z) (data : list Z) (len : Z) : io device (Z * list Z) := fun d =>
  ((fault d, if fault d =? 0 then map (fun i => peek d (a + Z.of_nat i)) (seq 0 (Z.to_nat len))
             else data), served d).
Definition device_write (a : Z) (data : list Z) (len : Z) : io device Z := fun d =>
  (fault d, if fault d =? 0
            then foldl (fun d '(i, v) => poke d (a + i) v) (served d)
                   (imap (fun i v => (Z.of_nat i, v)) (take (Z.to_nat len) data))
            else served d).
Definition device_ctx : option (stmdev_ctx_t device) :=
  Some {| write_reg := device_write; read_reg := device_read |}.

Lemma read_byte_device a x d : read_byte device_ctx a x d =
  ((fault d, if fault d =? 0 then peek d a else x), served d).
Proof.
  unfold read_byte, io_bind. cbn. unfold device_read. destruct (fault d =? 0); cbn; [|reflexivity].
  change (Z.to_nat 1) with 1%nat. unfold mret. cbn. rewrite Z.add_0_r. reflexivity.
Qed.
Lemma write_byte_device a x d : lsm6ds3tr_c_write_reg device_ctx a [x] 1 d =
  (fault d, if fault d =? 0 then poke (served d) a x else served d).
Proof.
  cbn. unfold device_write. change (Z.to_nat 1) with 1%nat. cbn. rewrite Z.add_0_r. reflexivity.
Qed.
Lemma no_fault d : faults d = [] -> fault d = 0 /\ served d = d.
Proof. destruct d as [c b fl]; cbn; intros ->; split; reflexivity. Qed.

Lemma selected_poke d a v : a ≠ LSM6DS3TR_C_FUNC_CFG_ACCESS -> selected (poke d a v) = selected d.
Proof. intros H. unfold poke. apply Z.eqb_neq in H. rewrite H. reflexivity. Qed.
Lemma peek_poke d a v x : a ≠ LSM6DS3TR_C_FUNC_CFG_ACCESS ->
  peek (poke d a v) x = if x =? a then v else peek d x.
Proof.
  intros H. unfold peek. rewrite selected_poke by exact H. unfold poke.
  destruct (Z.eqb_spec a LSM6DS3TR_C_FUNC_CFG_ACCESS) as [|_]; [contradiction|]. cbn.
  rewrite Z.eqb_refl. cbn. destruct (Z.eqb_spec x a) as [->|]; [|reflexivity].
  apply Z.eqb_neq in H. rewrite H. reflexivity.
Qed.
Lemma faults_poke d a v : faults (poke d a v) = faults d.
Proof. unfold poke. destruct (a =? _); reflexivity. Qed.
Lemma fault_poke d a v : fault (poke d a v) = fault d.
Proof. unfold fault. rewrite faults_poke. reflexivity. Qed.
Lemma served_poke d a v : faults d = [] -> served (poke d a v) = poke d a v.
Proof. intros H. apply no_fault. rewrite faults_poke. exact H. Qed.

(** On a register file the accessors of the user bank set a legal value and read it back, and
    change no bit but those of their own field. *)
Definition own_bits_only (a : accessor) : Prop := forall junk v w d, acc_valid a v -> faults d = [] ->
  exists d', acc_set a device device_ctx junk v d = (0, d') /\
    acc_get a device device_ctx junk w d' = ((0, v), d') /\
    (forall x, x ≠ acc_reg a -> peek d' x = peek d x) /\
    (forall i, 0 <= i -> (let (o, n) := field (acc_layout a) (acc_field a) in i < o \/ o + n <= i) ->
       Z.testbit (peek d' (acc_reg a)) i = Z.testbit (peek d (acc_reg a)) i).
Lemma accessors_own_bits : Forall own_bits_only accessors.
Proof.
  eapply Forall_impl; [exact accessors_implement|]. intros a [Hs Hg Hf Hd Hb]. unfold own_bits_only. intros junk v w d Hv Hfl.
  destruct (no_fault d Hfl) as [F0 F1].
  destruct (field (acc_layout a) (acc_field a)) as [o n] eqn:Ef. cbn in Hf, Hd.
  exists (poke d (acc_reg a) ((peek d (acc_reg a) : acc_layout a).[acc_field a := acc_enc a v])).
  rewrite Hs, Hg. erewrite update_field_done by (rewrite read_byte_device, F0, F1; reflexivity).
  rewrite write_byte_device, F0, F1. split_and!; [reflexivity| | |].
  - unfold read_field, io_bind. rewrite read_byte_device.
    rewrite fault_poke, served_poke, F0 by exact Hfl.
    cbn. rewrite peek_poke, Z.eqb_refl by exact Hb. rewrite (getf_setf _ o n) by (auto || lia).
    rewrite Hd by exact Hv. reflexivity.
  - intros x Hx. rewrite peek_poke by exact Hb. apply Z.eqb_neq in Hx. rewrite Hx. reflexivity.
  - intros i Hi Ho. rewrite peek_poke, Z.eqb_refl by exact Hb.
    rewrite (testbit_setf _ o n) by (auto || lia).
    replace ((o <=? i) && (i <? o + n)) with false by lia. reflexivity.
Qed.

(** ** Accessors in an embedded-function bank

    The same, between a switch to another bank and the switch back, which the
    code does on success only. *)
Definition in_bank {S} (ctx : option (stmdev_ctx_t S)) junk (b : lsm6ds3tr_c_func_cfg_en_t) {A}
    (failed : A) (m : io S (Z * A)) : io S (Z * A) :=
  let* ret := lsm6ds3tr_c_mem_bank_set ctx junk b in
  if ret =? 0 then
    let* (ret, x) := m in
    if ret =? 0 then
      let* ret := lsm6ds3tr_c_mem_bank_set ctx junk LSM6DS3TR_C_USER_BANK in
      mret (ret, x)
    else mret (ret, failed)
  else mret (ret, failed).

Record implements_in (b : lsm6ds3tr_c_func_cfg_en_t) (a : accessor) : Prop := {
  set_spec_in : forall S ctx junk v s, acc_set a S ctx junk v s =
    (let* (ret, _) := in_bank ctx junk b tt
      (let* ret := update_field ctx (acc_reg a) (L := acc_layout a) (acc_field a) (acc_enc a v)
         (undef junk (acc_local a) 0) in mret (ret, tt)) in mret ret) s;
  get_spec_in : forall S ctx junk v s, acc_get a S ctx junk v s =
    in_bank ctx junk b v (read_field ctx (acc_reg a) (L := acc_layout a) (acc_field a) (acc_dec a)
      (undef junk (acc_local a) 0)) s;
  fits_in : 0 <= (field (acc_layout a) (acc_field a)).1 /\ 0 < (field (acc_layout a) (acc_field a)).2
    /\ (field (acc_layout a) (acc_field a)).1 + (field (acc_layout a) (acc_field a)).2 <= 8;
  decodes_in : forall v, acc_valid a v ->
    acc_dec a (Z.land (acc_enc a v) (Z.ones (field (acc_layout a) (acc_field a)).2)) = v;
  not_bank_in : acc_reg a ≠ LSM6DS3TR_C_FUNC_CFG_ACCESS;
}.

Definition embedded : list accessor := [
    flag (@lsm6ds3tr_c_pedo_threshold_set) (@lsm6ds3tr_c_pedo_threshold_get)
      LSM6DS3TR_C_CONFIG_PEDO_THS_MIN "config_pedo_ths_min" lsm6ds3tr_c_config_pedo_ths_min_t "ths_min";
    choice (@lsm6ds3tr_c_pedo_full_scale_set) (@lsm6ds3tr_c_pedo_full_scale_get)
      LSM6DS3TR_C_CONFIG_PEDO_THS_MIN "config_pedo_ths_min" lsm6ds3tr_c_config_pedo_ths_min_t "pedo_fs"
      [LSM6DS3TR_C_PEDO_AT_2g; LSM6DS3TR_C_PEDO_AT_4g] LSM6DS3TR_C_PEDO_FS_ND;
    flag (@lsm6ds3tr_c_pedo_debounce_steps_set) (@lsm6ds3tr_c_pedo_debounce_steps_get)
      LSM6DS3TR_C_PEDO_DEB_REG "pedo_deb_reg" lsm6ds3tr_c_pedo_deb_reg_t "deb_step";
    flag (@lsm6ds3tr_c_pedo_timeout_set) (@lsm6ds3tr_c_pedo_timeout_get)
      LSM6DS3TR_C_PEDO_DEB_REG "pedo_deb_reg" lsm6ds3tr_c_pedo_deb_reg_t "deb_time";
    choice (@lsm6ds3tr_c_sh_num_of_dev_connected_set) (@lsm6ds3tr_c_sh_num_of_dev_connected_get)
      LSM6DS3TR_C_SLAVE0_CONFIG "slave0_config" lsm6ds3tr_c_slave0_config_t "aux_sens_on"
      [LSM6DS3TR_C_SLV_0; LSM6DS3TR_C_SLV_0_1; LSM6DS3TR_C_SLV_0_1_2;
       LSM6DS3TR_C_SLV_0_1_2_3] LSM6DS3TR_C_SLV_EN_ND;
    choice (@lsm6ds3tr_c_sh_slave_0_dec_set) (@lsm6ds3tr_c_sh_slave_0_dec_get)
      LSM6DS3TR_C_SLAVE0_CONFIG "slave0_config" lsm6ds3tr_c_slave0_config_t "slave0_rate"
      [LSM6DS3TR_C_SL0_NO_DEC; LSM6DS3TR_C_SL0_DEC_2; LSM6DS3TR_C_SL0_DEC_4;
       LSM6DS3TR_C_SL0_DEC_8] LSM6DS3TR_C_SL0_DEC_ND;
    choice (@lsm6ds3tr_c_sh_write_mode_set) (@lsm6ds3tr_c_sh_write_mode_get)
      LSM6DS3TR_C_SLAVE1_CONFIG "slave1_config" lsm6ds3tr_c_slave1_config_t "write_once"
      [LSM6DS3TR_C_EACH_SH_CYCLE; LSM6DS3TR_C_ONLY_FIRST_CYCLE] LSM6DS3TR_C_SH_WR_MODE_ND;
    choice (@lsm6ds3tr_c_sh_slave_1_dec_set) (@lsm6ds3tr_c_sh_slave_1_dec_get)
      LSM6DS3TR_C_SLAVE1_CONFIG "slave1_config" lsm6ds3tr_c_slave1_config_t "slave1_rate"
      [LSM6DS3TR_C_SL1_NO_DEC; LSM6DS3TR_C_SL1_DEC_2; LSM6DS3TR_C_SL1_DEC_4;
       LSM6DS3TR_C_SL1_DEC_8] LSM6DS3TR_C_SL1_DEC_ND;
    choice (@lsm6ds3tr_c_sh_slave_2_dec_set) (@lsm6ds3tr_c_sh_slave_2_dec_get)
      LSM6DS3TR_C_SLAVE2_CONFIG "slave2_config" lsm6ds3tr_c_slave2_config_t "slave2_rate"
      [LSM6DS3TR_C_SL2_NO_DEC; LSM6DS3TR_C_SL2_DEC_2; LSM6DS3TR_C_SL2_DEC_4;
       LSM6DS3TR_C_SL2_DEC_8] LSM6DS3TR_C_SL2_DEC_ND;
    choice (@lsm6ds3tr_c_sh_slave_3_dec_set) (@lsm6ds3tr_c_sh_slave_3_dec_get)
      LSM6DS3TR_C_SLAVE3_CONFIG "slave3_config" lsm6ds3tr_c_slave3_config_t "slave3_rate"
      [LSM6DS3TR_C_SL3_NO_DEC; LSM6DS3TR_C_SL3_DEC_2; LSM6DS3TR_C_SL3_DEC_4;
       LSM6DS3TR_C_SL3_DEC_8] LSM6DS3TR_C_SL3_DEC_ND].

(** [run_io] runs both sides of an equation of programs on the same answers of the bus. *)
Ltac run_io :=
  cbv beta iota zeta delta -[lsm6ds3tr_c_mem_bank_set read_byte lsm6ds3tr_c_write_reg undef u8 getf
    setf switch code Z.eqb];
  repeat match goal with
  | |- context [@lsm6ds3tr_c_mem_bank_set ?S ?c ?j ?b ?s] =>
    let r := fresh "r" in destruct (@lsm6ds3tr_c_mem_bank_set S c j b s) as [r ?]
  | |- context [@read_byte ?S ?c ?r ?x ?s] =>
    let e := fresh "e" in destruct (@read_byte S c r x s) as [[e ?] ?]
  | |- context [@lsm6ds3tr_c_write_reg ?S ?c ?r ?x ?n ?s] =>
    let e := fresh "e" in destruct (@lsm6ds3tr_c_write_reg S c r x n s) as [e ?]
  | |- context [if ?e =? 0 then _ else _] => is_var e; destruct (e =? 0) eqn:?
  end; try (reflexivity || congruence).
Ltac implement_in := constructor;
  [ intros S ctx junk v s; run_io | intros S ctx junk v s; run_io | cbn; lia
  | first [ apply choice_decodes; cbn; forall_list ltac:(cbv beta; reflexivity)
          | intros v Hv; cbn in v, Hv |- *; rewrite Z.land_ones by lia; apply Z.mod_small; apply Hv ]
  | discriminate ].
Lemma embedded_implement : Forall (implements_in LSM6DS3TR_C_BANK_A) embedded.
Proof. unfold embedded. forall_list implement_in. Qed.

(** Storing a field twice keeps the last value. *)
Lemma setf_setf {L : layout} f o w (x : L) u v : field L f = (o, w) -> 0 <= o -> 0 <= w ->
  x.[f := u].[f := v] = x.[f := v].
Proof.
  intros Hf Ho Hw. apply Z.bits_inj'. intros i Hi. rewrite !(testbit_setf _ o w) by assumption.
  destruct ((o <=? i) && (i <? o + w)); reflexivity.
Qed.

Definition in_user_bank (d : device) : Prop := selected d = code LSM6DS3TR_C_USER_BANK.
Definition switched (b : lsm6ds3tr_c_func_cfg_en_t) (d : device) : device :=
  d <| cfg := (cfg d : lsm6ds3tr_c_func_cfg_access_t).["func_cfg_en" := u8 (code b)] |>.

Lemma mem_bank_set_device junk b d : lsm6ds3tr_c_mem_bank_set device_ctx junk b d =
  if fault d =? 0 then
    (fault (served d), if fault (served d) =? 0 then switched b (served (served d)) else served (served d))
  else (fault d, served d).
Proof.
  change (lsm6ds3tr_c_mem_bank_set device_ctx junk b d) with
    (update_field device_ctx LSM6DS3TR_C_FUNC_CFG_ACCESS (L := lsm6ds3tr_c_func_cfg_access_t)
       "func_cfg_en" (u8 (code b)) (undef junk "func_cfg_access" 0) d).
  unfold update_field, io_bind. rewrite read_byte_device. destruct (fault d =? 0) eqn:E; cbn -[Z.add].
  - unfold write_byte. rewrite write_byte_device. destruct (fault (served d) =? 0); reflexivity.
  - reflexivity.
Qed.
Lemma selected_switched b d : selected (switched b d) = code b.
Proof.
  unfold selected, switched. cbn. rewrite (getf_setf _ 5 3) by (reflexivity || lia).
  destruct b; reflexivity.
Qed.
Lemma switched_switched b c d : switched b (switched c d) = switched b d.
Proof. unfold switched. cbn. rewrite (setf_setf _ 5 3) by (reflexivity || lia). reflexivity. Qed.
Lemma mem_bank_set_works junk b d : faults d = [] ->
  lsm6ds3tr_c_mem_bank_set device_ctx junk b d = (0, switched b d).
Proof. intros H. destruct (no_fault d H) as [F0 F1]. rewrite mem_bank_set_device, F0, F1, F0, F1. reflexivity. Qed.
Lemma mem_bank_set_ok junk b d d' : lsm6ds3tr_c_mem_bank_set device_ctx junk b d = (0, d') ->
  selected d' = code b.
Proof.
  rewrite mem_bank_set_device. destruct (Z.eqb_spec (fault d) 0) as [E|E]; [|congruence].
  intros [= F <-]. rewrite F. cbn. apply selected_switched.
Qed.

(** A program run in another bank ends in the user bank whenever it reports success. *)
Lemma in_bank_user junk b {A} (failed x : A) m d d' :
  in_bank device_ctx junk b failed m d = ((0, x), d') -> in_user_bank d'.
Proof.
  unfold in_bank, io_bind. destruct (lsm6ds3tr_c_mem_bank_set _ _ b d) as [r d1].
  destruct (Z.eqb_spec r 0) as [->|E]; [|unfold mret; congruence].
  destruct (m d1) as [[r2 y] d2]. destruct (Z.eqb_spec r2 0) as [->|E]; [|unfold mret; congruence].
  destruct (lsm6ds3tr_c_mem_bank_set _ _ LSM6DS3TR_C_USER_BANK d2) as [r3 d3] eqn:H.
  unfold mret. intros [= -> _ <-]. exact (mem_bank_set_ok _ _ _ _ H).
Qed.
Lemma in_bank_works junk b {A} (failed x : A) m d d' : faults d = [] -> faults d' = [] ->
  m (switched b d) = ((0, x), d') ->
  in_bank device_ctx junk b failed m d = ((0, x), switched LSM6DS3TR_C_USER_BANK d').
Proof.
  intros Hd Hd' Hm. unfold in_bank, io_bind. rewrite mem_bank_set_works by exact Hd. cbn [Z.eqb].
  rewrite Hm. cbn [Z.eqb]. rewrite mem_bank_set_works by exact Hd'. reflexivity.
Qed.

(** The accessors of the embedded-function bank leave the device in the
    user bank whenever they report success, whatever transfers failed before
    and whichever bank was selected. *)
Theorem embedded_restores_bank : Forall (fun a => forall junk v d,
  (forall d', acc_set a device device_ctx junk v d = (0, d') -> in_user_bank d') /\
  (forall w d', acc_get a device device_ctx junk v d = ((0, w), d') -> in_user_bank d')) embedded.
Proof.
  eapply Forall_impl; [exact embedded_implement|]. intros a [Hs Hg _ _ _] junk v d. split.
  - intros d'. rewrite Hs. unfold io_bind at 1. destruct (in_bank _ _ _ _ _ _) as [[r x] d1] eqn:E.
    unfold mret. intros [= -> ->]. exact (in_bank_user _ _ _ _ _ _ _ E).
  - intros w d'. rewrite Hg. apply in_bank_user.
Qed.

Lemma bank_poke b d a v : a ≠ LSM6DS3TR_C_FUNC_CFG_ACCESS -> forall c x,
  bank (poke (switched b d) a v) c x = if (c =? code b) && (x =? a) then v else bank d c x.
Proof.
  intros H c x. unfold poke. apply Z.eqb_neq in H. rewrite H. cbn -[switched].
  rewrite selected_switched. reflexivity.
Qed.
Lemma bank_switched b d : bank (switched b d) = bank d.
Proof. reflexivity. Qed.

(** The accessors of the embedded-function bank work on a register file,
    from whichever bank is selected: setting a legal value succeeds and ends in
    the user bank, the getter then returns it and changes nothing, and the only
    byte written besides the bank selector is the accessor's register of bank
    A, of which only the accessor's own bits change. *)
Theorem embedded_roundtrip : Forall (fun a => forall junk v w d,
  acc_valid a v -> faults d = [] ->
  exists d', acc_set a device device_ctx junk v d = (0, d') /\ in_user_bank d' /\
    acc_get a device device_ctx junk w d' = ((0, v), d') /\
    (forall b x, b ≠ code LSM6DS3TR_C_BANK_A \/ x ≠ acc_reg a -> bank d' b x = bank d b x) /\
    (forall i, 0 <= i -> (let (o, n) := field (acc_layout a) (acc_field a) in i < o \/ o + n <= i) ->
       Z.testbit (bank d' (code LSM6DS3TR_C_BANK_A) (acc_reg a)) i =
       Z.testbit (bank d (code LSM6DS3TR_C_BANK_A) (acc_reg a)) i)) embedded.
Proof.
  eapply Forall_impl; [exact embedded_implement|]. intros a [Hs Hg Hf Hd Hb] junk v w d Hv Hfl.
  destruct (field (acc_layout a) (acc_field a)) as [o n] eqn:Ef. cbn in Hf, Hd.
  set (dA := switched LSM6DS3TR_C_BANK_A d).
  set (y := (peek dA (acc_reg a) : acc_layout a).[acc_field a := acc_enc a v]).
  assert (HA : forall v', faults (poke dA (acc_reg a) v') = []) by (intros; rewrite faults_poke; exact Hfl).
  assert (Hpeek : peek dA (acc_reg a) = bank d (code LSM6DS3TR_C_BANK_A) (acc_reg a)).
  { unfold peek. apply Z.eqb_neq in Hb. rewrite Hb. unfold dA. rewrite selected_switched. reflexivity. }
  exists (switched LSM6DS3TR_C_USER_BANK (poke dA (acc_reg a) y)).
  rewrite Hs, Hg. split_and!.
  - unfold io_bind at 1. erewrite in_bank_works; [reflexivity|exact Hfl|apply (HA y)|].
    destruct (no_fault dA Hfl) as [F0 F1].
    unfold io_bind. erewrite update_field_done by (fold dA; rewrite read_byte_device, F0, F1; reflexivity).
    rewrite write_byte_device, F0, F1. reflexivity.
  - apply selected_switched.
  - erewrite (in_bank_works _ _ _ _ _ _ (poke dA (acc_reg a) y)); [reflexivity|apply HA|apply HA|].
    rewrite switched_switched. destruct (no_fault _ (HA y)) as [F0 F1].
    replace (switched LSM6DS3TR_C_BANK_A (poke dA (acc_reg a) y)) with (poke dA (acc_reg a) y).
    + unfold read_field, io_bind. rewrite read_byte_device, F0, F1. cbn [Z.eqb]. unfold mret.
      rewrite peek_poke, Z.eqb_refl by exact Hb. unfold y. rewrite (getf_setf _ o n) by (auto || lia).
      rewrite Hd by exact Hv. reflexivity.
    + unfold poke. apply Z.eqb_neq in Hb. rewrite Hb. unfold dA, switched. cbn.
      rewrite (setf_setf _ 5 3) by (reflexivity || lia). reflexivity.
  - intros b x Hbx. rewrite bank_switched. unfold dA. rewrite bank_poke by exact Hb.
    replace ((b =? _) && (x =? _)) with false; [reflexivity|]. destruct Hbx; lia.
  - intros i Hi Ho. rewrite bank_switched. unfold dA. rewrite bank_poke by exact Hb. rewrite !Z.eqb_refl. cbn [andb].
    unfold y. rewrite Hpeek, (testbit_setf _ o n) by (auto || lia).
    replace ((o <=? i) && (i <? o + n)) with false by lia. reflexivity.
Qed.

(** ** Operations over several registers *)

Lemma read_byte_works a x d : faults d = [] -> read_byte device_ctx a x d = ((0, peek d a), d).
Proof. intros H. destruct (no_fault d H) as [F0 F1]. rewrite read_byte_device, F0, F1. reflexivity. Qed.
Lemma write_byte_works a x d : faults d = [] -> write_byte device_ctx a x d = (0, poke d a x).
Proof.
  intros H. destruct (no_fault d H) as [F0 F1]. unfold write_byte.
  rewrite write_byte_device, F0, F1. reflexivity.
Qed.
Lemma no_faults_poke d a v : faults d = [] -> faults (poke d a v) = [].
Proof. rewrite faults_poke. auto. Qed.
#[export] Hint Resolve no_faults_poke : mower.
Lemma peek_poke_eq d a v : a ≠ LSM6DS3TR_C_FUNC_CFG_ACCESS -> peek (poke d a v) a = v.
Proof. intros H. rewrite peek_poke, Z.eqb_refl by exact H. reflexivity. Qed.
Lemma peek_poke_ne d a v x : a ≠ LSM6DS3TR_C_FUNC_CFG_ACCESS -> x ≠ a ->
  peek (poke d a v) x = peek d x.
Proof. intros H E. apply Z.eqb_neq in E. rewrite peek_poke, E by exact H. reflexivity. Qed.

(** [run_device f] runs the operation [f] on a register file without faults,
    down to the bytes of the registers it read. *)
Ltac run_device := cbv beta iota zeta delta [io_bind mret read_struct write_struct]; repeat (first
  [ rewrite read_byte_works by auto 20 with mower | rewrite write_byte_works by auto 20 with mower
  | rewrite peek_poke_eq by discriminate | rewrite peek_poke_ne by discriminate ]; cbv beta iota zeta;
  change (0 =? 0) with true; cbv beta iota zeta).
(** [fields] reads fields back through the stores before them. *)
Ltac fields := repeat first
  [ rewrite getf_setf_same by reflexivity | rewrite getf_setf_apart by reflexivity ].

(** An equation on the integers below a bound holds if it holds for each of them. *)
Lemma below_Z n (f g : Z -> Z) : forallb (fun v => f v =? g v) (seqZ 0 n) = true ->
  forall v, 0 <= v < n -> f v = g v.
Proof.
  rewrite forallb_forall. intros H v Hv. apply Z.eqb_eq, H, list_elem_of_In, elem_of_seqZ. lia.
Qed.

Section Wide.
Context (junk : string -> nat -> Z) (d : device).
Hypothesis no_faults : faults d = [].
Lemma lp2_roundtrip (v w : lsm6ds3tr_c_input_composite_t) : v ≠ LSM6DS3TR_C_XL_LP_NA ->
  exists d', lsm6ds3tr_c_xl_lp2_bandwidth_set device_ctx junk v d = (0, d') /\
    lsm6ds3tr_c_xl_lp2_bandwidth_get device_ctx junk w d' = ((0, v), d').
Proof.
  intros Hv. eexists. split.
  - unfold lsm6ds3tr_c_xl_lp2_bandwidth_set. run_device. reflexivity.
  - unfold lsm6ds3tr_c_xl_lp2_bandwidth_get. run_device. fields. destruct v; reflexivity || (exfalso; tauto).
Qed.
Lemma lp1_roundtrip (v w : lsm6ds3tr_c_lpf1_bw_sel_t) : v ≠ LSM6DS3TR_C_XL_LP1_NA ->
  exists d', lsm6ds3tr_c_xl_lp1_bandwidth_set device_ctx junk v d = (0, d') /\
    lsm6ds3tr_c_xl_lp1_bandwidth_get device_ctx junk w d' = ((0, v), d').
Proof.
  intros Hv. eexists. split.
  - unfold lsm6ds3tr_c_xl_lp1_bandwidth_set. run_device. reflexivity.
  - unfold lsm6ds3tr_c_xl_lp1_bandwidth_get. run_device. fields.
    lazymatch goal with |- (if ?b then _ else _) _ = _ => change b with false end.
    run_device. fields. destruct v; reflexivity || (exfalso; tauto).
Qed.
Lemma hp_roundtrip (v w : lsm6ds3tr_c_hpcf_xl_t) : v ≠ LSM6DS3TR_C_XL_HP_NA ->
  exists d', lsm6ds3tr_c_xl_hp_bandwidth_set device_ctx junk v d = (0, d') /\
    lsm6ds3tr_c_xl_hp_bandwidth_get device_ctx junk w d' = ((0, v), d').
Proof.
  intros Hv. eexists. split.
  - unfold lsm6ds3tr_c_xl_hp_bandwidth_set. run_device. reflexivity.
  - unfold lsm6ds3tr_c_xl_hp_bandwidth_get. run_device. fields. destruct v; reflexivity || (exfalso; tauto).
Qed.
Lemma gy_band_pass_roundtrip (v w : lsm6ds3tr_c_lpf1_sel_g_t) : v ≠ LSM6DS3TR_C_HP_GY_BAND_NA /\ v ≠ LSM6DS3TR_C_LP2_ONLY ->
  exists d', lsm6ds3tr_c_gy_band_pass_set device_ctx junk v d = (0, d') /\
    lsm6ds3tr_c_gy_band_pass_get device_ctx junk w d' = ((0, v), d').
Proof.
  intros Hv. eexists. split.
  - unfold lsm6ds3tr_c_gy_band_pass_set. run_device. reflexivity.
  - unfold lsm6ds3tr_c_gy_band_pass_get. run_device. fields. destruct v; reflexivity || (exfalso; tauto).
Qed.
Lemma ff_dur_roundtrip (v w : Z) : 0 <= v < 64 ->
  exists d', lsm6ds3tr_c_ff_dur_set device_ctx junk v d = (0, d') /\
    lsm6ds3tr_c_ff_dur_get device_ctx junk w d' = ((0, v), d').
Proof.
  intros Hv. eexists. split.
  - unfold lsm6ds3tr_c_ff_dur_set. run_device. reflexivity.
  - unfold lsm6ds3tr_c_ff_dur_get. run_device. fields. 
    do 2 f_equal. revert v Hv. apply below_Z. reflexivity.
Qed.
Lemma fifo_watermark_roundtrip (v w : Z) : 0 <= v < 2048 ->
  exists d', lsm6ds3tr_c_fifo_watermark_set device_ctx junk v d = (0, d') /\
    lsm6ds3tr_c_fifo_watermark_get device_ctx junk w d' = ((0, v), d').
Proof.
  intros Hv. eexists. split.
  - unfold lsm6ds3tr_c_fifo_watermark_set. run_device. reflexivity.
  - unfold lsm6ds3tr_c_fifo_watermark_get. run_device. fields. 
    do 2 f_equal. revert v Hv. apply below_Z. reflexivity.
Qed.
End Wide.

Definition keeps {T} (set : setter T) (get : getter T) (d : device) (v : T) : Prop :=
  forall junk w, exists d', set device device_ctx junk v d = (0, d') /\
    get device device_ctx junk w d' = ((0, v), d').

(** The settings spread over several fields or registers are read back as
    they were set, on a register file in any state: the accelerometer's low-pass
    and high-pass chains, the gyroscope's filter chain (except its low-pass-only
    mode), the free-fall duration and the FIFO watermark, each over the whole
    range its fields can hold. *)
Theorem wide_settings_roundtrip (d : device) : faults d = [] ->
  (forall v, v ≠ LSM6DS3TR_C_XL_LP_NA ->
     keeps (@lsm6ds3tr_c_xl_lp2_bandwidth_set) (@lsm6ds3tr_c_xl_lp2_bandwidth_get) d v) /\
  (forall v, v ≠ LSM6DS3TR_C_XL_LP1_NA ->
     keeps (@lsm6ds3tr_c_xl_lp1_bandwidth_set) (@lsm6ds3tr_c_xl_lp1_bandwidth_get) d v) /\
  (forall v, v ≠ LSM6DS3TR_C_XL_HP_NA ->
     keeps (@lsm6ds3tr_c_xl_hp_bandwidth_set) (@lsm6ds3tr_c_xl_hp_bandwidth_get) d v) /\
  (forall v, v ≠ LSM6DS3TR_C_HP_GY_BAND_NA /\ v ≠ LSM6DS3TR_C_LP2_ONLY ->
     keeps (@lsm6ds3tr_c_gy_band_pass_set) (@lsm6ds3tr_c_gy_band_pass_get) d v) /\
  (forall v, 0 <= v < 64 -> keeps (@lsm6ds3tr_c_ff_dur_set) (@lsm6ds3tr_c_ff_dur_get) d v) /\
  (forall v, 0 <= v < 2048 ->
     keeps (@lsm6ds3tr_c_fifo_watermark_set) (@lsm6ds3tr_c_fifo_watermark_get) d v).
Proof.
  intros Hd. split_and!; intros v Hv junk w.
  - apply lp2_roundtrip; assumption.
  - apply lp1_roundtrip; assumption.
  - apply hp_roundtrip; assumption.
  - apply gy_band_pass_roundtrip; assumption.
  - apply ff_dur_roundtrip; assumption.
  - apply fifo_watermark_roundtrip; assumption.
Qed.

(** ** All the settings

    The driver's 106 pairs of a setter and a getter. [settings] lists 99 of them, each with its
    legal values and with the buffers its getter takes: the accessors of one field, the settings
    over several fields, those that also turn the embedded functions on, and the multi-byte ones,
    in the user bank or in bank A. Three of these have a legal value that is lost, and are listed
    without it; [lossy] lists the three again, with that value, and four more pairs. Of the last
    three, the setter of the tilt mask reads instead of writing ([tilt_src_set_reads]), and the
    choice of signals on the two interrupt pins is the subject of [interrupt_routing]. *)
Record setting := Setting {
  st_type : Type; st_set : setter st_type; st_get : getter st_type;
  st_legal : st_type -> Prop; st_room : st_type -> Prop;
}.
Definition kept (s : setting) (d : device) (v : st_type s) : Prop := forall junk w, st_room s w ->
  exists d', st_set s device device_ctx junk v d = (0, d') /\ st_get s device device_ctx junk w d' = ((0, v), d').
Definition of_accessor (a : accessor) : setting := Setting (acc_type a) (acc_set a) (acc_get a) (acc_valid a) (fun _ => True).
Definition scalar {T} (set : setter T) (get : getter T) (legal : T -> Prop) : setting := Setting T set get legal (fun _ => True).
Definition bytes (set : setter (list Z)) (get : getter (list Z)) (n : nat) : setting :=
  Setting (list Z) set get (fun l => length l = n) (fun l => length l = n).
Definition is_bit (v : Z) : Prop := v = 0 \/ v = 1.
Definition wide : list setting := [
  scalar (@lsm6ds3tr_c_xl_lp2_bandwidth_set) (@lsm6ds3tr_c_xl_lp2_bandwidth_get) (fun v => v ≠ LSM6DS3TR_C_XL_LP_NA);
  scalar (@lsm6ds3tr_c_xl_lp1_bandwidth_set) (@lsm6ds3tr_c_xl_lp1_bandwidth_get) (fun v => v ≠ LSM6DS3TR_C_XL_LP1_NA);
  scalar (@lsm6ds3tr_c_xl_hp_bandwidth_set) (@lsm6ds3tr_c_xl_hp_bandwidth_get) (fun v => v ≠ LSM6DS3TR_C_XL_HP_NA);
  scalar (@lsm6ds3tr_c_gy_band_pass_set) (@lsm6ds3tr_c_gy_band_pass_get)
    (fun v => v ≠ LSM6DS3TR_C_HP_GY_BAND_NA /\ v ≠ LSM6DS3TR_C_LP2_ONLY);
  scalar (@lsm6ds3tr_c_ff_dur_set) (@lsm6ds3tr_c_ff_dur_get) (fun v => 0 <= v < 64);
  scalar (@lsm6ds3tr_c_fifo_watermark_set) (@lsm6ds3tr_c_fifo_watermark_get) (fun v => 0 <= v < 2048)].
Definition functions : list setting := [
  scalar (@lsm6ds3tr_c_pedo_sens_set) (@lsm6ds3tr_c_pedo_sens_get) is_bit;
  scalar (@lsm6ds3tr_c_tilt_sens_set) (@lsm6ds3tr_c_tilt_sens_get) is_bit;
  scalar (@lsm6ds3tr_c_wrist_tilt_sens_set) (@lsm6ds3tr_c_wrist_tilt_sens_get) is_bit;
  scalar (@lsm6ds3tr_c_mag_hard_iron_set) (@lsm6ds3tr_c_mag_hard_iron_get) is_bit;
  scalar (@lsm6ds3tr_c_mem_bank_set) (@lsm6ds3tr_c_mem_bank_get) (fun v => v ≠ LSM6DS3TR_C_BANK_ND /\ v ≠ LSM6DS3TR_C_BANK_A)].
Definition buffers : list setting := [
  bytes (fun S ctx _ => lsm6ds3tr_c_xl_usr_offset_set ctx) (fun S ctx _ => lsm6ds3tr_c_xl_usr_offset_get ctx) 3;
  bytes (@lsm6ds3tr_c_pedo_steps_period_set) (@lsm6ds3tr_c_pedo_steps_period_get) 1;
  bytes (@lsm6ds3tr_c_motion_threshold_set) (@lsm6ds3tr_c_motion_threshold_get) 1;
  bytes (@lsm6ds3tr_c_tilt_latency_set) (@lsm6ds3tr_c_tilt_latency_get) 1;
  bytes (@lsm6ds3tr_c_tilt_threshold_set) (@lsm6ds3tr_c_tilt_threshold_get) 1;
  bytes (@lsm6ds3tr_c_mag_soft_iron_mat_set) (@lsm6ds3tr_c_mag_soft_iron_mat_get) 9;
  Setting (list Z) (@lsm6ds3tr_c_mag_offset_set) (@lsm6ds3tr_c_mag_offset_get)
    (fun l => length l = 3%nat /\ Forall is_s16 l) (fun l => length l = 3%nat)].
Definition settings : list setting := map of_accessor accessors ++ map of_accessor embedded ++ wide ++ functions ++ buffers.
Definition lossy : list setting := [
  scalar (@lsm6ds3tr_c_timestamp_set) (@lsm6ds3tr_c_timestamp_get) is_bit;
  scalar (@lsm6ds3tr_c_motion_sens_set) (@lsm6ds3tr_c_motion_sens_get) is_bit;
  scalar (@lsm6ds3tr_c_den_enable_set) (@lsm6ds3tr_c_den_enable_get) (fun v => v ≠ LSM6DS3TR_C_DEN_STAMP_ND);
  scalar (@lsm6ds3tr_c_fifo_write_trigger_set) (@lsm6ds3tr_c_fifo_write_trigger_get) (fun v => v ≠ LSM6DS3TR_C_TRG_SH_ND);
  scalar (@lsm6ds3tr_c_gy_band_pass_set) (@lsm6ds3tr_c_gy_band_pass_get) (fun v => v ≠ LSM6DS3TR_C_HP_GY_BAND_NA);
  scalar (@lsm6ds3tr_c_mem_bank_set) (@lsm6ds3tr_c_mem_bank_get) (fun v => v ≠ LSM6DS3TR_C_BANK_ND);
  scalar (@lsm6ds3tr_c_den_mode_set) (@lsm6ds3tr_c_den_mode_get) (fun v => v ≠ LSM6DS3TR_C_DEN_MODE_ND)].

(** A run of bytes stored from an address on. *)
Definition store (a : Z) (l : list Z) (d : device) : device :=
  foldl (fun d '(i, v) => poke d (a + i) v) d (imap (fun i v => (Z.of_nat i, v)) l).
Lemma store_snoc a l x d : store a (l ++ [x]) d = poke (store a l d) (a + Z.of_nat (length l)) x.
Proof. unfold store. rewrite imap_app, foldl_app. cbn. rewrite Nat.add_0_r. reflexivity. Qed.
Lemma faults_store a l d : faults (store a l d) = faults d.
Proof. induction l as [|x l IH] using rev_ind; [reflexivity|]. rewrite store_snoc, faults_poke. exact IH. Qed.
Lemma cfg_store a l d : LSM6DS3TR_C_FUNC_CFG_ACCESS < a -> cfg (store a l d) = cfg d.
Proof.
  intros Ha. induction l as [|x l IH] using rev_ind; [reflexivity|]. rewrite store_snoc. unfold poke.
  destruct (Z.eqb_spec (a + Z.of_nat (length l)) LSM6DS3TR_C_FUNC_CFG_ACCESS); [lia|]. exact IH.
Qed.
Lemma peek_store a l d : LSM6DS3TR_C_FUNC_CFG_ACCESS < a ->
  map (fun i => peek (store a l d) (a + Z.of_nat i)) (seq 0 (length l)) = l.
Proof.
  intros Ha. induction l as [|x l IH] using rev_ind; [reflexivity|].
  rewrite length_app, Nat.add_1_r, seq_S, map_app, store_snoc. cbn [map Nat.add]. rewrite peek_poke_eq by lia. f_equal.
  etransitivity; [|exact IH]. apply map_ext_in. intros i Hi. apply in_seq in Hi. rewrite peek_poke_ne by lia. reflexivity.
Qed.
Lemma write_reg_works a l n d : faults d = [] -> Z.to_nat n = length l ->
  lsm6ds3tr_c_write_reg device_ctx a l n d = (0, store a l d).
Proof.
  intros H Hn. cbn. unfold device_write. destruct (no_fault d H) as [F0 F1]. rewrite F0, F1, Hn, take_ge by lia. reflexivity.
Qed.
Lemma read_reg_works a data n d : faults d = [] ->
  lsm6ds3tr_c_read_reg device_ctx a data n d =
  ((0, map (fun i => peek d (a + Z.of_nat i)) (seq 0 (Z.to_nat n))), d).
Proof.
  intros H. cbn. unfold device_read. destruct (no_fault d H) as [F0 F1]. rewrite F0, F1. reflexivity.
Qed.
Lemma switched_store a l b d : LSM6DS3TR_C_FUNC_CFG_ACCESS < a ->
  switched b (switched LSM6DS3TR_C_USER_BANK (store a l (switched b d))) = store a l (switched b d).
Proof.
  intros Ha. rewrite switched_switched. pose proof (cfg_store a l (switched b d) Ha) as E.
  destruct (store a l (switched b d)) as [c k f]. cbn in E. subst c. unfold switched. cbn.
  rewrite (setf_setf _ 5 3) by (reflexivity || lia). reflexivity.
Qed.
Lemma faults_switched b d : faults (switched b d) = faults d.
Proof. reflexivity. Qed.

(** [run_banks] runs an operation on a register file without faults, bank switches and runs of bytes included. *)
Ltac no_faults := repeat (rewrite faults_switched || rewrite faults_store); assumption.
Ltac run_banks := cbv beta iota zeta delta [io_bind mret]; repeat (first
  [ rewrite mem_bank_set_works by no_faults | rewrite write_reg_works by first [no_faults | reflexivity | symmetry; assumption]
  | rewrite switched_store by reflexivity | rewrite read_reg_works by no_faults ];
  cbv beta iota zeta; change (0 =? 0) with true; cbv beta iota zeta).
Ltac stored_bytes set get := eexists; split; cbn [st_set st_get bytes];
  [ unfold set; run_banks; reflexivity | unfold get; run_banks; do 2 f_equal;
    match goal with Hv : length _ = ?n |- context [seq 0 ?m] => change m with n; rewrite <- Hv end; apply peek_store; reflexivity ].
(** A word's two bytes, as the setter splits it, give the word back as the getter joins them. *)
Lemma word_split x : is_s16 x -> let hi := u8 (u16 x / 256) in let lo := u8 (u16 x - hi * 256) in s16 (s16 hi * 256 + s16 lo) = x.
Proof. intros H. cbv zeta. width. Qed.
Lemma mag_offset_kept d x y z : is_s16 x -> is_s16 y -> is_s16 z -> faults d = [] -> forall junk w, length w = 3%nat ->
  exists d', lsm6ds3tr_c_mag_offset_set device_ctx junk [x; y; z] d = (0, d') /\
    lsm6ds3tr_c_mag_offset_get device_ctx junk w d' = ((0, [x; y; z]), d').
Proof.
  intros Hx Hy Hz Hd junk w Hw. destruct w as [|p [|q [|r [|]]]]; try discriminate Hw.
  pose (hi := fun v => u8 (u16 v / 256)). pose (lo := fun v => u8 (u16 v - hi v * 256)).
  set (bs := [lo x; hi x; lo y; hi y; lo z; hi z]). eexists. split.
  - unfold lsm6ds3tr_c_mag_offset_set.
    match goal with |- context [lsm6ds3tr_c_write_reg device_ctx ?a ?l 6] => change l with bs end. run_banks. reflexivity.
  - unfold lsm6ds3tr_c_mag_offset_get. run_banks. change (Z.to_nat 6) with (length bs). rewrite peek_store by reflexivity.
    unfold bs. cbn -[s16 Z.mul Z.add switched store]. 
    rewrite ?(s16_small (s16 _)) by apply s16_range. unfold lo, hi. rewrite !word_split by assumption. reflexivity.
Qed.
Lemma buffers_kept : Forall (fun s => forall d v, st_legal s v -> faults d = [] -> kept s d v) buffers.
Proof.
  unfold buffers. repeat apply Forall_cons_2; [..|apply Forall_nil_2]; intros d v Hv Hd junk w Hw; cbn in v, Hv, w, Hw.
  7: { destruct Hv as [Hl HF]. destruct v as [|x [|y [|z [|]]]]; try discriminate Hl.
       rewrite !Forall_cons in HF. apply mag_offset_kept; tauto. }
  all: clear Hw.
  - stored_bytes @lsm6ds3tr_c_xl_usr_offset_set @lsm6ds3tr_c_xl_usr_offset_get.
  - stored_bytes @lsm6ds3tr_c_pedo_steps_period_set @lsm6ds3tr_c_pedo_steps_period_get.
  - stored_bytes @lsm6ds3tr_c_motion_threshold_set @lsm6ds3tr_c_motion_threshold_get.
  - stored_bytes @lsm6ds3tr_c_tilt_latency_set @lsm6ds3tr_c_tilt_latency_get.
  - stored_bytes @lsm6ds3tr_c_tilt_threshold_set @lsm6ds3tr_c_tilt_threshold_get.
  - stored_bytes @lsm6ds3tr_c_mag_soft_iron_mat_set @lsm6ds3tr_c_mag_soft_iron_mat_get.
Qed.
Ltac bit_kept set get := eexists; split; cbn [st_set st_get scalar];
  [ unfold set; run_device; reflexivity | unfold get; run_device; change (1 =? 0) with false; cbn [negb]; fields; reflexivity ].
Lemma functions_kept : Forall (fun s => forall d v, st_legal s v -> faults d = [] -> kept s d v) functions.
Proof.
  unfold functions. repeat apply Forall_cons_2; [..|apply Forall_nil_2]; intros d v Hv Hd junk w _; cbn in v, Hv, w.
  1-4: destruct Hv as [-> | ->].
  - bit_kept @lsm6ds3tr_c_pedo_sens_set @lsm6ds3tr_c_pedo_sens_get.
  - bit_kept @lsm6ds3tr_c_pedo_sens_set @lsm6ds3tr_c_pedo_sens_get.
  - bit_kept @lsm6ds3tr_c_tilt_sens_set @lsm6ds3tr_c_tilt_sens_get.
  - bit_kept @lsm6ds3tr_c_tilt_sens_set @lsm6ds3tr_c_tilt_sens_get.
  - bit_kept @lsm6ds3tr_c_wrist_tilt_sens_set @lsm6ds3tr_c_wrist_tilt_sens_get.
  - bit_kept @lsm6ds3tr_c_wrist_tilt_sens_set @lsm6ds3tr_c_wrist_tilt_sens_get.
  - bit_kept @lsm6ds3tr_c_mag_hard_iron_set @lsm6ds3tr_c_mag_hard_iron_get.
  - bit_kept @lsm6ds3tr_c_mag_hard_iron_set @lsm6ds3tr_c_mag_hard_iron_get.
  - exists (switched v d). cbn [st_set st_get scalar]. rewrite mem_bank_set_works by exact Hd. split; [reflexivity|].
    unfold lsm6ds3tr_c_mem_bank_get. cbv beta iota zeta delta [io_bind mret read_struct].
    rewrite read_byte_works by exact Hd. change (peek (switched v d) LSM6DS3TR_C_FUNC_CFG_ACCESS) with (cfg (switched v d)).
    change ((cfg (switched v d) : lsm6ds3tr_c_func_cfg_access_t).["func_cfg_en"]) with (selected (switched v d)).
    rewrite selected_switched. destruct Hv as [Hn Ha]. destruct v; reflexivity || contradiction.
Qed.
Lemma wide_kept : Forall (fun s => forall d v, st_legal s v -> faults d = [] -> kept s d v) wide.
Proof.
  unfold wide. repeat apply Forall_cons_2; [..|apply Forall_nil_2]; intros d v Hv Hd junk w _; cbn in v, Hv, w.
  - apply lp2_roundtrip; assumption.
  - apply lp1_roundtrip; assumption.
  - apply hp_roundtrip; assumption.
  - apply gy_band_pass_roundtrip; assumption.
  - apply ff_dur_roundtrip; assumption.
  - apply fifo_watermark_roundtrip; assumption.
Qed.
Lemma accessors_kept : Forall (fun s => forall d v, st_legal s v -> faults d = [] -> kept s d v) (map of_accessor accessors).
Proof.
  apply Forall_map. eapply Forall_impl; [exact accessors_own_bits|]. intros a Ha d v Hv Hd junk w _.
  destruct (Ha junk v w d Hv Hd) as (d' & E1 & E2 & _). exists d'. split; assumption.
Qed.
Lemma embedded_kept : Forall (fun s => forall d v, st_legal s v -> faults d = [] -> kept s d v) (map of_accessor embedded).
Proof.
  apply Forall_map. eapply Forall_impl; [exact embedded_roundtrip|]. intros a Ha d v Hv Hd junk w _.
  destruct (Ha junk v w d Hv Hd) as (d' & E1 & _ & E2 & _). exists d'. split; assumption.
Qed.
(** A register file whose registers all hold the same byte, the user bank selected. *)
Definition filled (x : Z) : device := Device 0 (fun _ _ => x) [].
Ltac lost x v w := exists (filled x), v; split; [cbn; (discriminate || (unfold is_bit; lia))|split; [reflexivity|]];
  let K := fresh in intros K; destruct (K (fun _ _ => 0) w I) as (d' & E1 & E2); cbn [st_set st_get scalar] in E1, E2;
  apply (f_equal snd) in E1; cbn [snd] in E1; subst d'; apply (f_equal (fun p => snd (fst p))) in E2; vm_compute in E2; discriminate E2.
Lemma lossy_lose : Forall (fun s => exists d v, st_legal s v /\ faults d = [] /\ ~ kept s d v) lossy.
Proof.
  unfold lossy. repeat apply Forall_cons_2; [..|apply Forall_nil_2].
  - lost 0xFF 0 0.
  - lost 0xFF 0 0.
  - lost 0 LSM6DS3TR_C_STAMP_IN_GY_XL_DATA LSM6DS3TR_C_DEN_STAMP_ND.
  - lost 0 LSM6DS3TR_C_TRG_STEP_DETECT LSM6DS3TR_C_TRG_SH_ND.
  - lost 0 LSM6DS3TR_C_LP2_ONLY LSM6DS3TR_C_LP2_ONLY.
  - lost 0 LSM6DS3TR_C_BANK_A LSM6DS3TR_C_BANK_A.
  - lost 0 LSM6DS3TR_C_LEVEL_FIFO LSM6DS3TR_C_LEVEL_FIFO.
Qed.

(** C10. The driver's settings on a register file without faults. Of the 106 pairs of a setter and
    a getter the 99 of [settings] round trip: from any contents and any selected bank, setting a
    legal value succeeds and the getter then returns it, whatever its argument held before;
    legal is every value the field can hold or every enumerator but the not-defined one, except
    the gyroscope's low-pass-only filter, bank A and the DEN pin's FIFO mode. The 71 that set one
    field of the user bank change no bit but their own. Of the other pairs four, and the three
    with a value excepted, do lose a legal value: the timestamp and significant motion (0), the
    DEN stamp, the FIFO trigger, that filter, that bank and that mode. The tilt mask, whose
    setter only reads, and the routing of the two interrupt pins are not among these. *)
Theorem accessors_roundtrip : (length settings = 99)%nat /\
  Forall (fun s => forall d v, st_legal s v -> faults d = [] -> kept s d v) settings /\
  (length accessors = 71)%nat /\ Forall own_bits_only accessors /\
  Forall (fun s => exists d v, st_legal s v /\ faults d = [] /\ ~ kept s d v) lossy.
Proof.
  split; [reflexivity|]. split; [|split; [reflexivity|split; [exact accessors_own_bits|exact lossy_lose]]].
  unfold settings. rewrite !Forall_app. split_and!; [exact accessors_kept|exact embedded_kept|exact wide_kept|exact functions_kept|exact buffers_kept].
Qed.

(** The events that need the interrupt unit, on each of the two pins. *)
Definition int1_events : list string :=
  ["int1_6d"; "int1_ff"; "int1_wu"; "int1_single_tap"; "int1_double_tap"; "int1_inact_state"]%string.
Definition int2_events : list string :=
  ["int2_6d"; "int2_ff"; "int2_wu"; "int2_single_tap"; "int2_double_tap"; "int2_inact_state"]%string.
Definition wants {L : layout} (x : L) (events : list string) : bool :=
  existsb (fun f => x.[f] ≠? 0) events.
Definition interrupts_on (d : device) : bool :=
  (peek d LSM6DS3TR_C_TAP_CFG : lsm6ds3tr_c_tap_cfg_t).["interrupts_enable"] =? 1.

(** Copying fields of the same name from one struct to another, one by one. *)
Definition copy {L M : layout} (fs : list string) (src : L) (dst : M) : M :=
  foldl (fun x f => x.[f := src.[f]]) dst fs.
Lemma getf_copy_out {L M : layout} fs (src : L) (dst : M) f :
  forallb (fun g => apart M g f) fs = true -> (copy fs src dst).[f] = dst.[f].
Proof.
  revert dst. induction fs as [|g fs IH]; intros dst H; [reflexivity|].
  cbn in H. bsimp. change (copy (g :: fs) src dst) with (copy fs src dst.[g := src.[g]]).
  rewrite IH by assumption. apply getf_setf_apart. exact H.
Qed.
Lemma getf_copy_in {L M : layout} fs (src : L) (dst : M) f :
  (0 <=? (field M f).1) && (0 <=? (field M f).2) = true ->
  existsb (String.eqb f) fs && forallb (fun g => String.eqb g f || apart M g f) fs = true ->
  (copy fs src dst).[f] = Z.land src.[f] (Z.ones (field M f).2).
Proof.
  intros Hf. revert dst. induction fs as [|g fs IH]; intros dst H; [discriminate|].
  cbn in H. rewrite !andb_true_iff in H. destruct H as (Hin & Hg & Hall).
  change (copy (g :: fs) src dst) with (copy fs src dst.[g := src.[g]]).
  destruct (existsb (String.eqb f) fs) eqn:E; [apply IH; rewrite Hall; reflexivity|].
  rewrite orb_false_r in Hin. apply String.eqb_eq in Hin. subst g.
  rewrite getf_copy_out; [apply getf_setf_same; exact Hf|].
  rewrite forallb_forall in Hall |- *. intros h Hh. specialize (Hall h Hh).
  destruct (String.eqb_spec h f) as [Eh|]; [|exact Hall]. exfalso. apply not_true_iff_false in E.
  apply E, existsb_exists. exists h. split; [exact Hh|]. rewrite Eh. apply String.eqb_refl.
Qed.

Definition int1_ctrl_fields : list string :=
  ["int1_drdy_xl"; "int1_drdy_g"; "int1_boot"; "int1_fth"; "int1_fifo_ovr"; "int1_full_flag";
   "int1_sign_mot"; "int1_step_detector"]%string.
Definition md1_fields : list string :=
  ["int1_timer"; "int1_tilt"; "int1_6d"; "int1_double_tap"; "int1_ff"; "int1_wu";
   "int1_single_tap"; "int1_inact_state"]%string.
Definition int2_ctrl_fields : list string :=
  ["int2_drdy_xl"; "int2_drdy_g"; "int2_drdy_temp"; "int2_fth"; "int2_fifo_ovr"; "int2_full_flag";
   "int2_step_count_ov"; "int2_step_delta"]%string.
Definition md2_fields : list string :=
  ["int2_iron"; "int2_tilt"; "int2_6d"; "int2_double_tap"; "int2_ff"; "int2_wu";
   "int2_single_tap"; "int2_inact_state"]%string.

Definition byte_at (d : device) (a : Z) (L : layout) : L := peek d a.

Lemma enable_if (b c : bool) (x : lsm6ds3tr_c_tap_cfg_t) : b = c ->
  ((if b then x.["interrupts_enable" := PROPERTY_ENABLE]
    else x.["interrupts_enable" := PROPERTY_DISABLE]).["interrupts_enable"] =? 1) = c.
Proof. intros <-. destruct b; fields; reflexivity. Qed.
(** The registers after the setters, as copies of the fields of the argument. *)
Lemma int1_route_set_state junk (v : lsm6ds3tr_c_int1_route_t) d : faults d = [] ->
  exists d', lsm6ds3tr_c_pin_int1_route_set device_ctx junk v d = (0, d') /\ faults d' = [] /\
    peek d' LSM6DS3TR_C_INT1_CTRL =
      copy int1_ctrl_fields v (byte_at d LSM6DS3TR_C_INT1_CTRL lsm6ds3tr_c_int1_ctrl_t) /\
    peek d' LSM6DS3TR_C_MD1_CFG =
      copy md1_fields v (byte_at d LSM6DS3TR_C_MD1_CFG lsm6ds3tr_c_md1_cfg_t) /\
    peek d' LSM6DS3TR_C_CTRL4_C =
      (byte_at d LSM6DS3TR_C_CTRL4_C lsm6ds3tr_c_ctrl4_c_t).["den_drdy_int1" := v.["den_drdy_int1"]] /\
    peek d' LSM6DS3TR_C_MASTER_CONFIG =
      (byte_at d LSM6DS3TR_C_MASTER_CONFIG lsm6ds3tr_c_master_config_t).["drdy_on_int1" := v.["den_drdy_int1"]] /\
    peek d' LSM6DS3TR_C_MD2_CFG = peek d LSM6DS3TR_C_MD2_CFG /\
    interrupts_on d' = wants v int1_events
      || wants (byte_at d LSM6DS3TR_C_MD2_CFG lsm6ds3tr_c_md2_cfg_t) int2_events.
Proof.
  intros Hd. eexists. split; [unfold lsm6ds3tr_c_pin_int1_route_set; run_device; reflexivity|].
  split; [auto 20 with mower|].
  unfold copy, byte_at. cbn [foldl int1_ctrl_fields md1_fields].
  split_and!; [run_device; reflexivity ..|]. unfold interrupts_on. run_device. apply enable_if.
  cbn. rewrite !orb_false_r, !orb_assoc. reflexivity.
Qed.
Lemma int2_route_set_state junk (v : lsm6ds3tr_c_int2_route_t) d : faults d = [] ->
  exists d', lsm6ds3tr_c_pin_int2_route_set device_ctx junk v d = (0, d') /\ faults d' = [] /\
    peek d' LSM6DS3TR_C_INT2_CTRL =
      copy int2_ctrl_fields v (byte_at d LSM6DS3TR_C_INT2_CTRL lsm6ds3tr_c_int2_ctrl_t) /\
    peek d' LSM6DS3TR_C_MD2_CFG =
      copy md2_fields v (byte_at d LSM6DS3TR_C_MD2_CFG lsm6ds3tr_c_md2_cfg_t) /\
    peek d' LSM6DS3TR_C_DRDY_PULSE_CFG_G =
      (byte_at d LSM6DS3TR_C_DRDY_PULSE_CFG_G lsm6ds3tr_c_drdy_pulse_cfg_g_t).["int2_wrist_tilt" := v.["int2_wrist_tilt"]] /\
    peek d' LSM6DS3TR_C_MD1_CFG = peek d LSM6DS3TR_C_MD1_CFG /\
    interrupts_on d' = wants (byte_at d LSM6DS3TR_C_MD1_CFG lsm6ds3tr_c_md1_cfg_t) int1_events
      || wants v int2_events.
Proof.
  intros Hd. eexists. split; [unfold lsm6ds3tr_c_pin_int2_route_set; run_device; reflexivity|].
  split; [auto 20 with mower|].
  unfold copy, byte_at. cbn [foldl int2_ctrl_fields md2_fields].
  split_and!; [run_device; reflexivity ..|]. unfold interrupts_on. run_device. apply enable_if.
  cbn. rewrite !orb_false_r, !orb_assoc. reflexivity.
Qed.

Lemma int1_route_get_state junk (w : lsm6ds3tr_c_int1_route_t) d : faults d = [] ->
  lsm6ds3tr_c_pin_int1_route_get device_ctx junk w d =
  ((0, (copy md1_fields (byte_at d LSM6DS3TR_C_MD1_CFG lsm6ds3tr_c_md1_cfg_t)
          (copy int1_ctrl_fields (byte_at d LSM6DS3TR_C_INT1_CTRL lsm6ds3tr_c_int1_ctrl_t) w
            : lsm6ds3tr_c_int1_route_t)
          : lsm6ds3tr_c_int1_route_t)
        .["den_drdy_int1" := (byte_at d LSM6DS3TR_C_CTRL4_C lsm6ds3tr_c_ctrl4_c_t).["den_drdy_int1"]]
        .["den_drdy_int1" := (byte_at d LSM6DS3TR_C_MASTER_CONFIG lsm6ds3tr_c_master_config_t).["drdy_on_int1"]]),
   d).
Proof.
  intros Hd. unfold copy, byte_at. cbn [foldl int1_ctrl_fields md1_fields].
  unfold lsm6ds3tr_c_pin_int1_route_get. run_device. reflexivity.
Qed.
Lemma int2_route_get_state junk (w : lsm6ds3tr_c_int2_route_t) d : faults d = [] ->
  lsm6ds3tr_c_pin_int2_route_get device_ctx junk w d =
  ((0, (copy md2_fields (byte_at d LSM6DS3TR_C_MD2_CFG lsm6ds3tr_c_md2_cfg_t)
          (copy int2_ctrl_fields (byte_at d LSM6DS3TR_C_INT2_CTRL lsm6ds3tr_c_int2_ctrl_t) w
            : lsm6ds3tr_c_int2_route_t)
          : lsm6ds3tr_c_int2_route_t)
        .["int2_wrist_tilt" := (byte_at d LSM6DS3TR_C_DRDY_PULSE_CFG_G lsm6ds3tr_c_drdy_pulse_cfg_g_t).["int2_wrist_tilt"]]),
   d).
Proof.
  intros Hd. unfold copy, byte_at. cbn [foldl int2_ctrl_fields md2_fields].
  unfold lsm6ds3tr_c_pin_int2_route_get. run_device. reflexivity.
Qed.
Lemma land_getf {L : layout} f (x : L) n : (field L f).2 = n -> 0 <= n -> Z.land x.[f] (Z.ones n) = x.[f].
Proof.
  intros H Hn. unfold getf. destruct (field L f) as [o w]. cbn in H. subst w.
  rewrite <- Z.land_assoc, Z.land_diag. reflexivity.
Qed.
(** [route_fields E] reads a field through the copies of the setter and the getter. *)
Ltac route_fields := cbv beta;
  rewrite ?(getf_setf_apart "den_drdy_int1"), ?(getf_setf_apart "int2_wrist_tilt") by reflexivity;
  repeat first [ rewrite getf_copy_out by reflexivity | rewrite getf_copy_in by reflexivity
               | rewrite getf_setf_same by reflexivity ];
  repeat rewrite land_getf by (reflexivity || (apply Z.leb_le; reflexivity)); reflexivity.

Definition int1_settings : list string := int1_ctrl_fields ++ md1_fields ++ ["den_drdy_int1"%string].
Definition int2_settings : list string := int2_ctrl_fields ++ md2_fields ++ ["int2_wrist_tilt"%string].

(** Routing interrupts: on a register file without faults, choosing the
    signals of one pin turns the interrupt unit on exactly when that choice or
    the current choice of the other pin needs it, and the getter then returns
    every signal of the pin as chosen (for pin 1, every one the setter
    writes; its [drdy_on_int1] is ignored by both). *)
Theorem interrupt_routing (d : device) : faults d = [] ->
  (forall junk (v : lsm6ds3tr_c_int1_route_t), exists d',
     lsm6ds3tr_c_pin_int1_route_set device_ctx junk v d = (0, d') /\
     interrupts_on d' = wants v int1_events
       || wants (byte_at d' LSM6DS3TR_C_MD2_CFG lsm6ds3tr_c_md2_cfg_t) int2_events /\
     forall w, exists u : lsm6ds3tr_c_int1_route_t,
       lsm6ds3tr_c_pin_int1_route_get device_ctx junk w d' = ((0, u), d') /\
       Forall (fun f => u.[f] = v.[f]) int1_settings) /\
  (forall junk (v : lsm6ds3tr_c_int2_route_t), exists d',
     lsm6ds3tr_c_pin_int2_route_set device_ctx junk v d = (0, d') /\
     interrupts_on d' = wants (byte_at d' LSM6DS3TR_C_MD1_CFG lsm6ds3tr_c_md1_cfg_t) int1_events
       || wants v int2_events /\
     forall w, exists u : lsm6ds3tr_c_int2_route_t,
       lsm6ds3tr_c_pin_int2_route_get device_ctx junk w d' = ((0, u), d') /\
       Forall (fun f => u.[f] = v.[f]) int2_settings).
Proof.
  intros Hd. split; intros junk v.
  - destruct (int1_route_set_state junk v d Hd) as (d' & Hs & Hf & E1 & E2 & E3 & E4 & E5 & E6).
    exists d'. split; [exact Hs|]. split; [unfold byte_at; rewrite E5; exact E6|]. intros w.
    eexists. split; [apply int1_route_get_state; exact Hf|].
    unfold byte_at. rewrite E1, E2, E3, E4. unfold int1_settings. cbn [app int1_ctrl_fields md1_fields].
    forall_list route_fields.
  - destruct (int2_route_set_state junk v d Hd) as (d' & Hs & Hf & E1 & E2 & E3 & E4 & E5).
    exists d'. split; [exact Hs|]. split; [unfold byte_at; rewrite E4; exact E5|]. intros w.
    eexists. split; [apply int2_route_get_state; exact Hf|].
    unfold byte_at. rewrite E1, E2, E3. unfold int2_settings. cbn [app int2_ctrl_fields md2_fields].
    forall_list route_fields.
Qed.

(** ** Sensor output *)

(** The 16-bit two's complement word at an address, low byte first. *)
Definition word_at (d : device) (a : Z) : Z := s16 (le_int [peek d a; peek d (a + 1)]).
Definition vector_at (d : device) (a : Z) : list Z := [word_at d a; word_at d (a + 2); word_at d (a + 4)].

Lemma s16_word lo hi : is_u8 lo -> is_u8 hi -> s16 (s16 hi * 256 + s16 lo) = s16 (le_int [lo; hi]).
Proof. intros. cbn [le_int]. width. Qed.

(** [raw_words Hb] evaluates what a getter assembles from the bytes it read. *)
Ltac raw_words Hb := unfold io_bind, mret, vector_at, word_at;
  rewrite read_reg_works by assumption;
  lazymatch goal with |- context [Z.to_nat ?n] => let k := eval vm_compute in (Z.to_nat n) in
    change (Z.to_nat n) with k end;
  cbn -[s16 Z.mul Z.add peek le_int LSM6DS3TR_C_OUTX_L_XL LSM6DS3TR_C_OUTX_L_G
    LSM6DS3TR_C_OUT_MAG_RAW_X_L LSM6DS3TR_C_OUT_TEMP_L];
  rewrite ?Z.add_0_r, <- ?Z.add_assoc;
  rewrite ?(s16_small (s16 _)) by apply s16_range; rewrite ?s16_word by apply Hb; reflexivity.

(** The three sensors' outputs are the two's complement words of their
    registers: on a register file of bytes, the getters return 0 and the three
    words (the temperature's one), whatever the argument held. *)
Theorem raw_outputs_decode (d : device) : faults d = [] -> (forall a, is_u8 (peek d a)) ->
  forall junk x y z,
  lsm6ds3tr_c_acceleration_raw_get device_ctx junk [x; y; z] d =
    ((0, vector_at d LSM6DS3TR_C_OUTX_L_XL), d) /\
  lsm6ds3tr_c_angular_rate_raw_get device_ctx junk [x; y; z] d =
    ((0, vector_at d LSM6DS3TR_C_OUTX_L_G), d) /\
  lsm6ds3tr_c_mag_calibrated_raw_get device_ctx junk [x; y; z] d =
    ((0, vector_at d LSM6DS3TR_C_OUT_MAG_RAW_X_L), d) /\
  lsm6ds3tr_c_temperature_raw_get device_ctx junk x d =
    ((0, word_at d LSM6DS3TR_C_OUT_TEMP_L), d).
Proof.
  intros Hd Hb junk x y z. split_and!.
  - unfold lsm6ds3tr_c_acceleration_raw_get. raw_words Hb.
  - unfold lsm6ds3tr_c_angular_rate_raw_get. raw_words Hb.
  - unfold lsm6ds3tr_c_mag_calibrated_raw_get. raw_words Hb.
  - unfold lsm6ds3tr_c_temperature_raw_get. raw_words Hb.
Qed.

Module SensorDemo.
Definition junk0 : string -> nat -> Z := fun _ _ => 0xA5.
Definition fresh : device := Device 0 (fun _ _ => 0x55) [].

(** The magnetometer's offsets, from any contents of the registers. *)
Lemma accessors_witness : exists d', lsm6ds3tr_c_mag_offset_set device_ctx junk0 [-300; 7; 32767] fresh = (0, d') /\
  lsm6ds3tr_c_mag_offset_get device_ctx junk0 [1; 1; 1] d' = ((0, [-300; 7; 32767]), d').
Proof.
  destruct accessors_roundtrip as (_ & H & _). rewrite Forall_lookup in H.
  refine (H 98%nat _ eq_refl fresh [-300; 7; 32767] _ eq_refl junk0 [1; 1; 1] eq_refl).
  split; [reflexivity|]. repeat constructor; unfold is_s16; lia.
Defined.
Lemma wide_witness : faults fresh = [] /\
  keeps (@lsm6ds3tr_c_xl_lp2_bandwidth_set) (@lsm6ds3tr_c_xl_lp2_bandwidth_get) fresh
    LSM6DS3TR_C_XL_LOW_NOISE_LP_ODR_DIV_100.
Proof.
  split; [reflexivity|]. destruct (wide_settings_roundtrip fresh) as [H _]; [reflexivity|].
  apply H. discriminate.
Defined.
Lemma routing_witness : faults fresh = [] /\ exists d',
  lsm6ds3tr_c_pin_int1_route_set device_ctx junk0 (0x400 : lsm6ds3tr_c_int1_route_t) fresh = (0, d').
Proof.
  split; [reflexivity|]. destruct (interrupt_routing fresh) as [H _]; [reflexivity|].
  destruct (H junk0 0x400) as (d' & E & _). exists d'. exact E.
Defined.
Lemma raw_witness : faults fresh = [] /\
  lsm6ds3tr_c_acceleration_raw_get device_ctx junk0 [0; 0; 0] fresh =
    ((0, vector_at fresh LSM6DS3TR_C_OUTX_L_XL), fresh).
Proof.
  split; [reflexivity|].
  apply (raw_outputs_decode fresh eq_refl) with (x := 0) (y := 0) (z := 0) (junk := junk0).
  intros a. unfold peek. destruct (a =? _); cbn; unfold is_u8; lia.
Defined.
Example raw_value : vector_at fresh LSM6DS3TR_C_OUTX_L_XL = [21845; 21845; 21845].
Proof. vm_compute. reflexivity. Qed.

(** Settings the driver cannot make, or cannot read back. *)
Definition after {T} (set : setter T) (v : T) : device := (set device device_ctx junk0 v fresh).2.

(** Disabling significant motion (and likewise the timestamp) is not written
    to the sensor: the write is inside the test for a non-zero value. *)
Example motion_sens_stays_on : let d := after (@lsm6ds3tr_c_motion_sens_set) 1 in
  lsm6ds3tr_c_motion_sens_set device_ctx junk0 0 d = (0, d) /\
  (lsm6ds3tr_c_motion_sens_get device_ctx junk0 0 d).1 = (0, 1).
Proof. vm_compute. auto. Qed.
Example timestamp_stays_on : let d := after (@lsm6ds3tr_c_timestamp_set) 1 in
  lsm6ds3tr_c_timestamp_set device_ctx junk0 0 d = (0, d) /\
  (lsm6ds3tr_c_timestamp_get device_ctx junk0 0 d).1 = (0, 1).
Proof. vm_compute. auto. Qed.
(** Stamping both sensors is stored as stamping the gyroscope: bit 1 of the
    value is stored, unshifted, in a one-bit field. *)
Example den_enable_loses_both :
  (lsm6ds3tr_c_den_enable_get device_ctx junk0 LSM6DS3TR_C_DEN_STAMP_ND
     (after (@lsm6ds3tr_c_den_enable_set) LSM6DS3TR_C_STAMP_IN_GY_XL_DATA)).1 =
  (0, LSM6DS3TR_C_STAMP_IN_GY_DATA).
Proof. vm_compute. reflexivity. Qed.
(** The FIFO trigger is read back from one of its two fields only. *)
Example write_trigger_misread :
  (lsm6ds3tr_c_fifo_write_trigger_get device_ctx junk0 LSM6DS3TR_C_TRG_SH_ND
     (after (@lsm6ds3tr_c_fifo_write_trigger_set) LSM6DS3TR_C_TRG_STEP_DETECT)).1 =
  (0, LSM6DS3TR_C_TRG_SH_ND).
Proof. vm_compute. reflexivity. Qed.
(** Legal values missing from the getters' switches. *)
Example lp2_only_unread :
  (lsm6ds3tr_c_gy_band_pass_get device_ctx junk0 LSM6DS3TR_C_LP2_ONLY
     (after (@lsm6ds3tr_c_gy_band_pass_set) LSM6DS3TR_C_LP2_ONLY)).1 = (0, LSM6DS3TR_C_HP_GY_BAND_NA).
Proof. vm_compute. reflexivity. Qed.
Example bank_a_unread :
  (lsm6ds3tr_c_mem_bank_get device_ctx junk0 LSM6DS3TR_C_BANK_A
     (after (@lsm6ds3tr_c_mem_bank_set) LSM6DS3TR_C_BANK_A)).1 = (0, LSM6DS3TR_C_BANK_ND).
Proof. vm_compute. reflexivity. Qed.
(** The setter of the tilt mask reads the register instead of writing it. *)
Example tilt_src_set_reads :
  (lsm6ds3tr_c_tilt_src_set device_ctx junk0 0xFC fresh).1 = (0, 0x55).
Proof. vm_compute. reflexivity. Qed.
(** A fault in the middle of an embedded access leaves bank A selected, and the
    next user-bank access reads the wrong register. *)
Example fault_leaves_bank_a :
  let d := Device 0 (fun b _ => b) [0; 0; 7] in
  let '(r, d') := lsm6ds3tr_c_pedo_threshold_set device_ctx junk0 1 d in
  r = 7 /\ selected d' = code LSM6DS3TR_C_BANK_A /\
  (lsm6ds3tr_c_device_id_get device_ctx [0] d').1 = (0, [4]).
Proof. vm_compute. auto. Qed.
End SensorDemo.
