(* ===== verification/Imu.v ===== *)
(** IMU service: [imu_service.cpp].

    The service talks to the sensor through the register driver, over the SPI
    callbacks it installs. The SPI bus and the sensor are parameters: [spi_read]
    and [spi_write] are a transfer with chip select asserted, of a device of
    state [D]. A poll loop has fuel; [None] is fuel running out, or in [tick] an
    access outside an array. [error_message] is only logged and not modelled. *)
From S2P Require Import Prelude Float32 Lsm6ds3Reg Lsm6ds3 Lsm6ds3Laws.

(* @t imu_service.hpp ImuService *)
Record ImuService := {
  imu_found : bool;
  data_raw_acceleration : list Z;
  data_raw_angular_rate : list Z;
  axes : list f64;
  axis_remap_idx_ : list Z;
  axis_remap_sign_ : list Z;
}.
#[export] Instance eta_ImuService : Eta ImuService := fun s =>
  Build_ImuService (imu_found s) (data_raw_acceleration s) (data_raw_angular_rate s) (axes s)
    (axis_remap_idx_ s) (axis_remap_sign_ s).
(* @ imu_service.hpp:37-48 ImuService *)
Definition imu_init : ImuService := {|
  imu_found := false;
  data_raw_acceleration := [0; 0; 0];
  data_raw_angular_rate := [0; 0; 0];
  axes := repeat (d_of_Z 0) 9;
  axis_remap_idx_ := [1; 2; 3];
  axis_remap_sign_ := [1; -1; -1];
|}.

Definition d_const (n d : Z) : f64 := ddiv (d_of_Z n) (d_of_Z d).
Definition M_PI : f64 := d_const 884279719003555 281474976710656.

Section Service.
Context {D : Type} (spi_read : Z -> Z -> io D (list Z)) (spi_write : Z -> list Z -> io D unit).
Context (junk : string -> nat -> Z).
Abbreviation io := (io D).

(* @ imu_service.cpp:25-31 write_reg_lambda *)
Definition write_reg_lambda (reg : Z) (bufp : list Z) (len : Z) : io Z :=
  let* _ := spi_write reg (take (Z.to_nat len) bufp) in
  mret 0.
(* @ imu_service.cpp:33-41 read_reg_lambda *)
Definition read_reg_lambda (reg : Z) (bufp : list Z) (len : Z) : io (Z * list Z) :=
  let reg := Z.lor reg 0x80 in
  let* d := spi_read reg len in
  mret (0, d).
(* @ imu_service.cpp:49-50 dev_ctx *)
Definition dev_ctx : option (stmdev_ctx_t D) :=
  Some {| write_reg := write_reg_lambda; read_reg := read_reg_lambda |}.

(* @ imu_service.cpp:51-70 ImuService::OnCreate *)
Fixpoint find_imu (tries : nat) (s : ImuService) : io ImuService :=
  match tries with
  | O => mret s
  | S tries =>
    let* (_, buff) := lsm6ds3tr_c_device_id_get dev_ctx [0] in
    let whoamI := buff !!! 0%nat in
    if (whoamI =? 0x6a) || (whoamI =? 0x6c) then mret (s <| imu_found := true |>)
    else find_imu tries (s <| imu_found := false |>)
  end.
(* @ imu_service.cpp:76-81 ImuService::OnCreate *)
Fixpoint await_reset (fuel : nat) (rst : Z) : io (option unit) :=
  match fuel with
  | O => mret None
  | S fuel =>
    let* (_, rst) := lsm6ds3tr_c_reset_get dev_ctx junk rst in
    if negb (rst =? 0) then await_reset fuel rst else mret (Some tt)
  end.
(* @ imu_service.cpp:83-97 ImuService::OnCreate *)
Definition configure : io unit :=
  let* _ := lsm6ds3tr_c_block_data_update_set dev_ctx junk PROPERTY_ENABLE in
  let* _ := lsm6ds3tr_c_xl_data_rate_set dev_ctx junk LSM6DS3TR_C_XL_ODR_833Hz in
  let* _ := lsm6ds3tr_c_gy_data_rate_set dev_ctx junk LSM6DS3TR_C_GY_ODR_833Hz in
  let* _ := lsm6ds3tr_c_xl_full_scale_set dev_ctx junk LSM6DS3TR_C_2g in
  let* _ := lsm6ds3tr_c_gy_full_scale_set dev_ctx junk LSM6DS3TR_C_2000dps in
  let* _ := lsm6ds3tr_c_xl_filter_analog_set dev_ctx junk LSM6DS3TR_C_XL_ANA_BW_400Hz in
  let* _ := lsm6ds3tr_c_xl_lp2_bandwidth_set dev_ctx junk LSM6DS3TR_C_XL_LOW_NOISE_LP_ODR_DIV_100 in
  mret tt.
(* @ imu_service.cpp ImuService::OnCreate *)
Definition imu_OnCreate (fuel : nat) (s : ImuService) : io (option ImuService) :=
  let* s := find_imu 100 s in
  if negb (imu_found s) then mret (Some s) else
  let* _ := lsm6ds3tr_c_reset_set dev_ctx junk PROPERTY_ENABLE in
  let* r := await_reset fuel 0 in
  match r with
  | None => mret None
  | Some _ =>
    let* _ := configure in
    mret (Some s)
  end.

(** The loop over the three axes of [OnStart]: the first invalid entry ends it. *)
(* @ imu_service.cpp:103-112 ImuService::OnStart *)
Fixpoint remap_axes (i : nat) (values : list Z) (s : ImuService) : bool * ImuService :=
  match values with
  | [] => (true, s)
  | val :: values =>
    if (val <? -3) || (val =? 0) || (3 <? val) then (false, s)
    else remap_axes (i + 1) values
      s <| axis_remap_sign_ ::= <[i := if 0 <? val then 1 else -1]> |>
        <| axis_remap_idx_ ::= <[i := Z.abs val - 1]> |>
  end.
(* @ imu_service.cpp ImuService::OnStart *)
Definition imu_OnStart (AxisRemap : list Z) (s : ImuService) : bool * ImuService :=
  remap_axes 0 (take 3 AxisRemap) s.

Definition read_remapped (raw : list Z) (s : ImuService) (i : nat) : option (Z * Z) :=
  sign ← axis_remap_sign_ s !! i; idx ← axis_remap_idx_ s !! i;
  v ← raw !! Z.to_nat idx; Some (sign, v).
Definition accel_axis (sign v : Z) : f64 :=
  dmul (d_of_f32 (fmul (f_of_Z sign) (lsm6ds3tr_c_from_fs2g_to_mg v))) (d_const 980665 100000000).
Definition gyro_axis (sign v : Z) : f64 :=
  ddiv (dmul (dmul (d_of_Z sign) M_PI) (d_of_f32 (lsm6ds3tr_c_from_fs2000dps_to_mdps v))) (d_of_Z 180000).
Definition set_axes (first : nat) (f : Z -> Z -> f64) (raw : list Z) (s : ImuService) : option ImuService :=
  x ← read_remapped raw s 0; y ← read_remapped raw s 1; z ← read_remapped raw s 2;
  Some (s <| axes ::= <[first := f x.1 x.2]> |> <| axes ::= <[(first + 1)%nat := f y.1 y.2]> |>
          <| axes ::= <[(first + 2)%nat := f z.1 z.2]> |>).

(** [Some (s', sent)]: the new state and the axes sent, [None] when the sensor was not found. *)
(* @ imu_service.cpp ImuService::tick *)
Definition imu_tick (s : ImuService) : io (option (ImuService * option (list f64))) :=
  if negb (imu_found s) then mret (Some (s, None)) else
  let reg : lsm6ds3tr_c_status_reg_t := undef junk "reg" 0 in
  let* (_, reg) := lsm6ds3tr_c_status_reg_get dev_ctx reg in
  let* s :=
    (if reg.["xlda"] ≠? 0 then
      let* (_, raw) := lsm6ds3tr_c_acceleration_raw_get dev_ctx junk [0; 0; 0] in
      mret (set_axes 0 accel_axis raw (s <| data_raw_acceleration := raw |>))
     else mret (Some s)) in
  let* s :=
    (match s with
     | Some s =>
       if reg.["gda"] ≠? 0 then
         let* (_, raw) := lsm6ds3tr_c_angular_rate_raw_get dev_ctx junk [0; 0; 0] in
         mret (set_axes 3 gyro_axis raw (s <| data_raw_angular_rate := raw |>))
       else mret (Some s)
     | None => mret None
     end) in
  mret (s ← s; Some (s, Some (axes s))).
End Service.

(** ** A sensor behind the bus

    The sensor of its data sheet, as far as the service uses it: a memory of
    bytes, an address whose top bit asks for a read, and a software reset that
    shows its bit for [delay] reads before the registers have their [defaults]. *)
Record chip := Chip { mem : Z -> Z; resetting : nat; delay : nat; defaults : Z -> Z }.
#[export] Instance eta_chip : Eta chip := fun c => Chip (mem c) (resetting c) (delay c) (defaults c).

Definition upd (m : Z -> Z) (a v : Z) : Z -> Z := fun x => if x =? a then v else m x.
Definition reset_step (c : chip) : chip :=
  match resetting c with
  | O => c
  | S O => c <| resetting := O |> <| mem := defaults c |>
  | S n => c <| resetting := n |>
  end.
Definition chip_read (r len : Z) : io chip (list Z) := fun c =>
  let a := Z.land r 0x7f in
  (map (fun i => let x := a + Z.of_nat i in
                 if (x =? LSM6DS3TR_C_CTRL3_C) && (0 <? Z.of_nat (resetting c)) then 1 else mem c x)
     (seq 0 (Z.to_nat len)), reset_step c).
Definition store (c : chip) (a v : Z) : chip :=
  if (a =? LSM6DS3TR_C_CTRL3_C) && Z.testbit v 0 then
    match delay c with
    | O => c <| mem := defaults c |>
    | S n => c <| resetting := S n |>
    end
  else c <| mem ::= fun m => upd m a v |>.
Definition chip_write (r : Z) (data : list Z) : io chip unit := fun c =>
  (tt, foldl (fun c '(i, v) => store c (r + i) v) c (imap (fun i v => (Z.of_nat i, v)) data)).

Abbreviation chip_ctx := (dev_ctx chip_read chip_write).

Definition idle (c : chip) : Prop := resetting c = O.
Lemma chip_read_works a data n c : idle c -> 0 <= a < 128 ->
  lsm6ds3tr_c_read_reg chip_ctx a data n c =
  ((0, map (fun i => mem c (a + Z.of_nat i)) (seq 0 (Z.to_nat n))), c).
Proof.
  intros Hi Ha. cbn. unfold read_reg_lambda, io_bind, chip_read, mret.
  replace (Z.land (Z.lor a 128) 127) with a.
  - unfold idle in Hi. rewrite Hi. unfold reset_step. rewrite Hi. do 2 f_equal.
    apply map_ext. intros i. rewrite andb_false_r. reflexivity.
  - rewrite Z.land_lor_distr_l. change (Z.land 128 127) with 0. rewrite Z.lor_0_r.
    symmetry. apply (word_land 7); [lia|exact Ha].
Qed.
Lemma chip_read_byte a x c : idle c -> 0 <= a < 128 -> read_byte chip_ctx a x c = ((0, mem c a), c).
Proof.
  intros Hi Ha. unfold read_byte, io_bind. rewrite chip_read_works by assumption.
  change (Z.to_nat 1) with 1%nat. unfold mret. cbn. rewrite Z.add_0_r. reflexivity.
Qed.
Lemma chip_write_byte a x c : write_byte chip_ctx a x c = (0, store c a x).
Proof.
  cbn. unfold write_reg_lambda, io_bind, chip_write, mret.
  change (Z.to_nat 1) with 1%nat. cbn. rewrite Z.add_0_r. reflexivity.
Qed.
Lemma upd_eq m a v : upd m a v a = v.
Proof. unfold upd. rewrite Z.eqb_refl. reflexivity. Qed.
Lemma upd_ne m a v x : x ≠ a -> upd m a v x = m x.
Proof. unfold upd. intros H. apply Z.eqb_neq in H. rewrite H. reflexivity. Qed.
Lemma store_plain c a v : a ≠ LSM6DS3TR_C_CTRL3_C \/ Z.testbit v 0 = false ->
  store c a v = c <| mem ::= fun m => upd m a v |>.
Proof.
  unfold store. intros [H|H]; [apply Z.eqb_neq in H; rewrite H|rewrite H, andb_false_r]; reflexivity.
Qed.
Lemma idle_upd c f : idle c -> idle (c <| mem ::= f |>).
Proof. auto. Qed.
Lemma mem_upd c f : mem (c <| mem ::= f |>) = f (mem c).
Proof. reflexivity. Qed.

(** A field setter on an idle sensor changes its register in memory. *)
Lemma update_field_chip {L : layout} r f v x c : idle c -> 0 <= r < 128 ->
  r ≠ LSM6DS3TR_C_CTRL3_C \/ Z.testbit (mem c r : L).[f := v] 0 = false ->
  update_field chip_ctx r (L := L) f v x c =
  (0, c <| mem ::= fun m => upd m r (m r : L).[f := v] |>).
Proof.
  intros Hi Hr Hs. unfold update_field, io_bind. rewrite chip_read_byte by assumption. cbn [Z.eqb].
  rewrite chip_write_byte, store_plain by exact Hs. reflexivity.
Qed.
Lemma bind_set {L : layout} r f v x g k c : g = update_field chip_ctx r (L := L) f v x ->
  idle c -> 0 <= r < 128 ->
  r ≠ LSM6DS3TR_C_CTRL3_C \/ Z.testbit (mem c r : L).[f := v] 0 = false ->
  io_bind g k c = (k 0 (c <| mem ::= fun m => upd m r (m r : L).[f := v] |>) : unit * chip).
Proof.
  intros -> Hi Hr Hs. unfold io_bind. rewrite update_field_chip by assumption. reflexivity.
Qed.
Ltac set_step H := rewrite H; [|reflexivity|assumption|split; [discriminate|reflexivity]
  |try (left; discriminate)].

Definition configured (c : chip) : Prop :=
  (mem c LSM6DS3TR_C_CTRL3_C : lsm6ds3tr_c_ctrl3_c_t).["bdu"] = 1 /\
  (mem c LSM6DS3TR_C_CTRL1_XL : lsm6ds3tr_c_ctrl1_xl_t).["odr_xl"] = code LSM6DS3TR_C_XL_ODR_833Hz /\
  (mem c LSM6DS3TR_C_CTRL2_G : lsm6ds3tr_c_ctrl2_g_t).["odr_g"] = code LSM6DS3TR_C_GY_ODR_833Hz /\
  (mem c LSM6DS3TR_C_CTRL1_XL : lsm6ds3tr_c_ctrl1_xl_t).["fs_xl"] = code LSM6DS3TR_C_2g /\
  (mem c LSM6DS3TR_C_CTRL2_G : lsm6ds3tr_c_ctrl2_g_t).["fs_g"] = code LSM6DS3TR_C_2000dps /\
  (mem c LSM6DS3TR_C_CTRL1_XL : lsm6ds3tr_c_ctrl1_xl_t).["bw0_xl"] = code LSM6DS3TR_C_XL_ANA_BW_400Hz /\
  (mem c LSM6DS3TR_C_CTRL8_XL : lsm6ds3tr_c_ctrl8_xl_t).["input_composite"] = 1 /\
  (mem c LSM6DS3TR_C_CTRL8_XL : lsm6ds3tr_c_ctrl8_xl_t).["hpcf_xl"] = 1 /\
  (mem c LSM6DS3TR_C_CTRL8_XL : lsm6ds3tr_c_ctrl8_xl_t).["lpf2_xl_en"] = 1 /\
  (mem c LSM6DS3TR_C_CTRL8_XL : lsm6ds3tr_c_ctrl8_xl_t).["hp_slope_xl_en"] = 0.

Lemma configure_works junk c : idle c ->
  Z.testbit (mem c LSM6DS3TR_C_CTRL3_C) 0 = false ->
  exists c', configure chip_read chip_write junk c = (tt, c') /\ idle c' /\ configured c' /\
    forall a, a ∉ [LSM6DS3TR_C_CTRL1_XL; LSM6DS3TR_C_CTRL2_G; LSM6DS3TR_C_CTRL3_C; LSM6DS3TR_C_CTRL8_XL] ->
      mem c' a = mem c a.
Proof.
  intros Hi H0. eexists. split.
  - unfold configure.
    set_step (@bind_set lsm6ds3tr_c_ctrl3_c_t LSM6DS3TR_C_CTRL3_C "bdu" 1 (undef junk "ctrl3_c" 0));
      [|right; rewrite (testbit_setf _ 6 1) by (reflexivity || lia); exact H0].
    set_step (@bind_set lsm6ds3tr_c_ctrl1_xl_t LSM6DS3TR_C_CTRL1_XL "odr_xl" 7 (undef junk "ctrl1_xl" 0)).
    set_step (@bind_set lsm6ds3tr_c_ctrl2_g_t LSM6DS3TR_C_CTRL2_G "odr_g" 7 (undef junk "ctrl2_g" 0)).
    set_step (@bind_set lsm6ds3tr_c_ctrl1_xl_t LSM6DS3TR_C_CTRL1_XL "fs_xl" 0 (undef junk "ctrl1_xl" 0)).
    set_step (@bind_set lsm6ds3tr_c_ctrl2_g_t LSM6DS3TR_C_CTRL2_G "fs_g" 6 (undef junk "ctrl2_g" 0)).
    set_step (@bind_set lsm6ds3tr_c_ctrl1_xl_t LSM6DS3TR_C_CTRL1_XL "bw0_xl" 1 (undef junk "ctrl1_xl" 0)).
    unfold lsm6ds3tr_c_xl_lp2_bandwidth_set, io_bind, read_struct, write_struct.
    rewrite chip_read_byte by (exact Hi || (split; [discriminate|reflexivity])). cbn [Z.eqb].
    rewrite chip_write_byte, store_plain by (left; discriminate). reflexivity.
  - split; [exact Hi|]. cbn. split.
    + unfold configured. cbn. rewrite ?upd_eq, ?upd_ne, ?upd_eq by discriminate.
      fields. split_and!; reflexivity.
    + intros a Ha. rewrite !not_elem_of_cons in Ha. destruct Ha as (H1 & H2 & H3 & H8 & _).
      rewrite !upd_ne by assumption. reflexivity.
Qed.

Lemma chip_read_resetting x c n : resetting c = S n ->
  read_byte chip_ctx LSM6DS3TR_C_CTRL3_C x c = ((0, 1), reset_step c).
Proof.
  intros En. unfold read_byte, io_bind. cbn. unfold read_reg_lambda, io_bind, chip_read, mret.
  change (Z.to_nat 1) with 1%nat. rewrite En. reflexivity.
Qed.
(** The poll loop ends once the sensor's reset has. *)
Lemma await_reset_works junk fuel rst c : (resetting c < fuel)%nat ->
  Z.testbit (defaults c LSM6DS3TR_C_CTRL3_C) 0 = false ->
  (resetting c = O -> Z.testbit (mem c LSM6DS3TR_C_CTRL3_C) 0 = false) ->
  await_reset chip_read chip_write junk fuel rst c =
  (Some tt, match resetting c with O => c | S _ => c <| resetting := O |> <| mem := defaults c |> end).
Proof.
  revert rst c. induction fuel as [|fuel IH]; intros rst c Hf Hd Hm; [lia|].
  cbn [await_reset]. unfold io_bind at 1.
  change (lsm6ds3tr_c_reset_get chip_ctx junk rst c) with
    (let '((r, x), c') := read_byte chip_ctx LSM6DS3TR_C_CTRL3_C (undef junk "ctrl3_c" 0) c in
     ((r, (x : lsm6ds3tr_c_ctrl3_c_t).["sw_reset"]), c')).
  destruct (resetting c) as [|n] eqn:En.
  - rewrite chip_read_byte by (exact En || (split; [discriminate|reflexivity])).
    replace ((mem c LSM6DS3TR_C_CTRL3_C : lsm6ds3tr_c_ctrl3_c_t).["sw_reset"]) with 0; [reflexivity|].
    symmetry. apply Z.bits_inj'. intros i Hi. rewrite (testbit_getf _ 0 1) by (reflexivity || lia).
    rewrite Z.bits_0. destruct (Z.ltb_spec i 1); [|reflexivity].
    replace (i + 0) with 0 by lia. apply Hm. reflexivity.
  - rewrite (chip_read_resetting _ c n En).
    change ((1 : lsm6ds3tr_c_ctrl3_c_t).["sw_reset"]) with 1. cbn [Z.eqb negb].
    unfold reset_step. rewrite En. destruct n as [|n]; rewrite IH; cbn; try assumption; auto; lia.
Qed.

(** The identification loop stops at the first answer when the sensor is there,
    and gives up after a hundred when it is not; it writes nothing. *)
Definition is_imu (whoami : Z) : bool := (whoami =? 0x6a) || (whoami =? 0x6c).
Lemma find_imu_step n s c : idle c ->
  find_imu chip_read chip_write (S n) s c =
  if is_imu (mem c LSM6DS3TR_C_WHO_AM_I) then (s <| imu_found := true |>, c)
  else find_imu chip_read chip_write n (s <| imu_found := false |>) c.
Proof.
  intros Hi.
  change (find_imu chip_read chip_write (S n) s c) with
    (let '((_, buff), c') := lsm6ds3tr_c_read_reg chip_ctx LSM6DS3TR_C_WHO_AM_I [0] 1 c in
     (if is_imu (buff !!! 0%nat) then mret (s <| imu_found := true |>)
      else find_imu chip_read chip_write n (s <| imu_found := false |>)) c').
  rewrite chip_read_works by (exact Hi || (split; [discriminate|reflexivity])).
  change (Z.to_nat 1) with 1%nat. cbn -[find_imu]. rewrite Z.add_0_r.
  destruct (is_imu _); reflexivity.
Qed.
Lemma find_imu_works n s c : idle c ->
  find_imu chip_read chip_write (S n) s c =
  (s <| imu_found := is_imu (mem c LSM6DS3TR_C_WHO_AM_I) |>, c).
Proof.
  intros Hi. revert s. induction n as [|n IH]; intros s; rewrite find_imu_step by exact Hi;
    destruct (is_imu _) eqn:E; try reflexivity. rewrite IH. reflexivity.
Qed.

Lemma reset_set_works junk c : idle c -> exists c',
  lsm6ds3tr_c_reset_set chip_ctx junk PROPERTY_ENABLE c = (0, c') /\
  resetting c' = delay c /\ defaults c' = defaults c /\
  (delay c = O -> mem c' = defaults c).
Proof.
  intros Hi. exists (store c LSM6DS3TR_C_CTRL3_C
    (mem c LSM6DS3TR_C_CTRL3_C : lsm6ds3tr_c_ctrl3_c_t).["sw_reset" := 1]).
  split.
  - unfold lsm6ds3tr_c_reset_set, io_bind, read_struct, write_struct.
    rewrite chip_read_byte by (exact Hi || (split; [discriminate|reflexivity])). cbn [Z.eqb].
    apply chip_write_byte.
  - unfold store. rewrite Z.eqb_refl, (testbit_setf _ 0 1) by (reflexivity || lia).
    cbn. unfold idle in Hi. destruct (delay c) eqn:E; cbn; rewrite ?Hi; auto. split_and!; auto; lia.
Qed.

(** C11. Bringing up the sensor. When a sensor answers to its address, [OnCreate]
    terminates with the sensor found, for any number of polls its software reset
    takes (given that many of fuel), and leaves it with block data update, 833 Hz
    on both sensors, the full scales of 2 g and 2000 dps that [tick] converts
    with, the 400 Hz analog filter and the low-noise LPF2, and every other
    register at its reset value. When none does, it terminates with the sensor
    not found and has written nothing. *)
Theorem imu_OnCreate_configures junk fuel s c :
  idle c -> (delay c < fuel)%nat -> Z.testbit (defaults c LSM6DS3TR_C_CTRL3_C) 0 = false ->
  exists c', imu_OnCreate chip_read chip_write junk fuel s c =
    (Some (s <| imu_found := is_imu (mem c LSM6DS3TR_C_WHO_AM_I) |>), c') /\
  if is_imu (mem c LSM6DS3TR_C_WHO_AM_I) then
    idle c' /\ configured c' /\
    forall a, a ∉ [LSM6DS3TR_C_CTRL1_XL; LSM6DS3TR_C_CTRL2_G; LSM6DS3TR_C_CTRL3_C; LSM6DS3TR_C_CTRL8_XL] ->
      mem c' a = defaults c a
  else c' = c.
Proof.
  intros Hi Hf Hd. unfold imu_OnCreate. unfold io_bind at 1.
  rewrite (find_imu_works 99 s c Hi).
  cbn -[is_imu await_reset configure]. destruct (is_imu _) eqn:E; cbn [negb].
  2: { exists c. split; reflexivity. }
  destruct (reset_set_works junk c Hi) as (c1 & H1 & R1 & D1 & M1).
  unfold io_bind at 1. rewrite H1. unfold io_bind at 1.
  rewrite await_reset_works by (rewrite ?R1, ?D1; auto; intros H; rewrite M1 by exact H; exact Hd).
  set (c2 := match resetting c1 with O => c1 | S _ => _ end).
  assert (I2 : idle c2 /\ mem c2 = defaults c).
  { unfold c2. destruct (resetting c1) eqn:R; cbn; [|rewrite D1; split; reflexivity].
    split; [exact R|]. apply M1. congruence. }
  destruct I2 as [I2 M2]. destruct (configure_works junk c2 I2) as (c3 & H3 & I3 & C3 & F3);
    [rewrite M2; exact Hd|].
  exists c3. unfold io_bind. rewrite H3. rewrite M2 in F3. auto.
Qed.

(** ** Axis remapping *)

Definition valid_remap (v : Z) : bool := (-3 <=? v) && (v <=? 3) && negb (v =? 0).
Lemma remap_axes_valid i l s : forallb valid_remap l = true ->
  (i + length l <= length (axis_remap_idx_ s))%nat -> (i + length l <= length (axis_remap_sign_ s))%nat ->
  exists s', remap_axes i l s = (true, s') /\ imu_found s' = imu_found s /\ axes s' = axes s /\
    length (axis_remap_idx_ s') = length (axis_remap_idx_ s) /\
    (forall k, (k < i)%nat -> axis_remap_idx_ s' !! k = axis_remap_idx_ s !! k /\
       axis_remap_sign_ s' !! k = axis_remap_sign_ s !! k) /\
    (forall k v, l !! k = Some v -> axis_remap_idx_ s' !! (i + k)%nat = Some (Z.abs v - 1) /\
       axis_remap_sign_ s' !! (i + k)%nat = Some (Z.sgn v)).
Proof.
  revert i s. induction l as [|v l IH]; intros i s Hv Hx Hs.
  { exists s. cbn. split_and!; auto. intros k v [=]. }
  cbn in Hv, Hx, Hs. apply andb_prop in Hv as [Hv Hl]. unfold valid_remap in Hv.
  cbn [remap_axes]. replace ((v <? -3) || (v =? 0) || (3 <? v)) with false by lia.
  match goal with |- context [remap_axes (i + 1) l ?s1] =>
    destruct (IH (i + 1)%nat s1 Hl) as (s' & E & F1 & F2 & F3 & Hlt & Hin) end.
  1, 2: cbn; rewrite length_insert; lia.
  exists s'. cbn in F1, F2, F3. rewrite length_insert in F3. split_and!; auto.
  - intros k Hk. destruct (Hlt k) as [-> ->]; [lia|]. cbn. rewrite !list_lookup_insert_ne by lia. auto.
  - intros [|k] w Hw.
    + injection Hw as <-. rewrite Nat.add_0_r. destruct (Hlt i) as [-> ->]; [lia|]. cbn.
      rewrite !list_lookup_insert_eq by lia. split; [reflexivity|].
      f_equal. destruct (Z.ltb_spec 0 v); lia.
    + replace (i + S k)%nat with (i + 1 + k)%nat by lia. apply Hin. exact Hw.
Qed.

Lemma OnStart_accepts AxisRemap s : length AxisRemap = 3%nat ->
  length (axis_remap_idx_ s) = 3%nat -> length (axis_remap_sign_ s) = 3%nat ->
  (imu_OnStart AxisRemap s).1 = forallb valid_remap AxisRemap.
Proof.
  intros H3 Hx Hs. destruct (forallb valid_remap AxisRemap) eqn:E.
  - destruct (remap_axes_valid 0 AxisRemap s E) as (s' & Hr & _); [lia..|].
    unfold imu_OnStart. rewrite take_ge, Hr by lia. reflexivity.
  - unfold imu_OnStart. rewrite take_ge by lia. clear H3 Hx Hs.
    generalize 0%nat. revert s E. induction AxisRemap as [|v l IH]; intros s E i; [discriminate|].
    cbn in E |- *. unfold valid_remap in E.
    destruct ((v <? -3) || (v =? 0) || (3 <? v)) eqn:B; [reflexivity|]. apply IH.
    replace ((-3 <=? v) && (v <=? 3) && negb (v =? 0)) with true in E by lia. exact E.
Qed.

(** The mapping a successful start leaves. *)
Definition remapped (l : list Z) (s : ImuService) : Prop := forall k v, l !! k = Some v ->
  axis_remap_idx_ s !! k = Some (Z.abs v - 1) /\ axis_remap_sign_ s !! k = Some (Z.sgn v).
Lemma read_remapped_works l s raw i v : remapped l s -> length raw = 3%nat ->
  l !! i = Some v -> valid_remap v = true ->
  exists x, raw !! Z.to_nat (Z.abs v - 1) = Some x /\ read_remapped raw s i = Some (Z.sgn v, x).
Proof.
  intros Hr Hl Hi Hv. unfold valid_remap in Hv. destruct (Hr i v Hi) as [E1 E2].
  destruct (lookup_lt_is_Some_2 raw (Z.to_nat (Z.abs v - 1))) as [x Hx]; [lia|].
  exists x. split; [exact Hx|]. unfold read_remapped. rewrite E1, E2. cbn. rewrite Hx. reflexivity.
Qed.
Lemma set_axes_works l s raw first f : length l = 3%nat -> forallb valid_remap l = true ->
  remapped l s -> length raw = 3%nat -> (first + 3 <= length (axes s))%nat ->
  exists s', set_axes first f raw s = Some s' /\ remapped l s' /\ length (axes s') = length (axes s) /\
    (forall k, (k < first)%nat \/ (first + 3 <= k)%nat -> axes s' !! k = axes s !! k) /\
    (forall i v, l !! i = Some v ->
       axes s' !! (first + i)%nat = f (Z.sgn v) <$> (raw !! Z.to_nat (Z.abs v - 1))).
Proof.
  intros Hl Hv Hr Hraw Ha. destruct l as [|a [|b [|e [|]]]]; try discriminate. cbn in Hv. bsimp.
  destruct (read_remapped_works _ s raw 0 a Hr Hraw eq_refl) as (x & X1 & X2); [assumption|].
  destruct (read_remapped_works _ s raw 1 b Hr Hraw eq_refl) as (y & Y1 & Y2); [assumption|].
  destruct (read_remapped_works _ s raw 2 e Hr Hraw eq_refl) as (z & Z1 & Z2); [assumption|].
  unfold set_axes. rewrite X2, Y2, Z2. cbn -[insert list_insert]. eexists. split; [reflexivity|].
  cbn [axes]. split; [exact Hr|]. rewrite !length_insert. split; [reflexivity|]. split.
  - intros k Hk. rewrite !list_lookup_insert_ne by lia. reflexivity.
  - intros [|[|[|i]]] v [= <-]; rewrite ?Nat.add_0_r.
    + rewrite !list_lookup_insert_ne by lia. rewrite list_lookup_insert_eq by lia.
      rewrite X1. reflexivity.
    + rewrite list_lookup_insert_ne by lia.
      rewrite list_lookup_insert_eq by (rewrite length_insert; lia). rewrite Y1. reflexivity.
    + rewrite list_lookup_insert_eq by (rewrite !length_insert; lia). rewrite Z1. reflexivity.
Qed.

(** The six bytes of a vector in the sensor's memory. *)
Definition mem_vector (c : chip) (a : Z) : list Z :=
  map (fun i => s16 (le_int [mem c (a + 2 * i); mem c (a + 2 * i + 1)])) [0; 1; 2].
Lemma chip_vectors junk c : idle c -> (forall a, is_u8 (mem c a)) ->
  lsm6ds3tr_c_acceleration_raw_get chip_ctx junk [0; 0; 0] c =
    ((0, mem_vector c LSM6DS3TR_C_OUTX_L_XL), c) /\
  lsm6ds3tr_c_angular_rate_raw_get chip_ctx junk [0; 0; 0] c =
    ((0, mem_vector c LSM6DS3TR_C_OUTX_L_G), c).
Proof.
  intros Hi Hb. split; [unfold lsm6ds3tr_c_acceleration_raw_get|unfold lsm6ds3tr_c_angular_rate_raw_get];
    unfold io_bind, mret, mem_vector; rewrite chip_read_works by (exact Hi || (split; [discriminate|reflexivity]));
    change (Z.to_nat 6) with 6%nat;
    cbn -[s16 Z.mul Z.add mem le_int LSM6DS3TR_C_OUTX_L_XL LSM6DS3TR_C_OUTX_L_G];
    rewrite ?(s16_small (s16 _)) by apply s16_range; rewrite ?s16_word by apply Hb;
    rewrite <- ?Z.add_assoc; reflexivity.
Qed.

Lemma bind_some {A B} (m : option A) (f : A -> option B) x y : m = Some x -> f x = y -> (m ≫= f) = y.
Proof. intros -> <-. reflexivity. Qed.
(** One half of a tick, on a service whose other fields [store] may have changed. *)
Lemma half_tick l s (new : bool) (store : ImuService -> ImuService) raw first f :
  length l = 3%nat -> forallb valid_remap l = true -> remapped l s ->
  axes (store s) = axes s -> remapped l (store s) -> length raw = 3%nat ->
  (first + 3 <= length (axes s))%nat ->
  exists s', (if new then set_axes first f raw (store s) else Some s) = Some s' /\ remapped l s' /\
    length (axes s') = length (axes s) /\
    (forall k, (k < first)%nat \/ (first + 3 <= k)%nat -> axes s' !! k = axes s !! k) /\
    (forall i v, l !! i = Some v -> axes s' !! (first + i)%nat =
       if new then f (Z.sgn v) <$> (raw !! Z.to_nat (Z.abs v - 1)) else axes s !! (first + i)%nat).
Proof.
  intros Hl Hv Hr Hs Hrs Hraw Ha. destruct new; [|exists s; split_and!; auto].
  destruct (set_axes_works l (store s) raw first f) as (s' & E & R & L & O & I); auto; [rewrite Hs; lia|].
  rewrite Hs in L, O. exists s'. split_and!; auto.
Qed.
(** A tick as its two halves, on a sensor that answers. *)
Lemma tick_halves junk s c : imu_found s = true -> idle c -> (forall a, is_u8 (mem c a)) ->
  let status : lsm6ds3tr_c_status_reg_t := mem c LSM6DS3TR_C_STATUS_REG in
  imu_tick chip_read chip_write junk s c =
  (s1 ← (if negb (status.["xlda"] =? 0) then
           let raw := mem_vector c LSM6DS3TR_C_OUTX_L_XL in
           set_axes 0 accel_axis raw (s <| data_raw_acceleration := raw |>) else Some s);
   s2 ← (if negb (status.["gda"] =? 0) then
           let raw := mem_vector c LSM6DS3TR_C_OUTX_L_G in
           set_axes 3 gyro_axis raw (s1 <| data_raw_angular_rate := raw |>) else Some s1);
   Some (s2, Some (axes s2)), c).
Proof.
  intros Hf Hi Hb. destruct (chip_vectors junk c Hi Hb) as [Va Vg].
  unfold imu_tick. rewrite Hf. unfold io_bind, lsm6ds3tr_c_status_reg_get, read_struct. cbn [negb].
  rewrite chip_read_byte by (exact Hi || (split; [discriminate|reflexivity])).
  set (g := (mem c LSM6DS3TR_C_STATUS_REG : lsm6ds3tr_c_status_reg_t).["gda"]).
  destruct (negb _); rewrite ?Va; unfold mret.
  - destruct (set_axes 0 _ _ _); cbn -[set_axes mem_vector lsm6ds3tr_c_angular_rate_raw_get]; [|reflexivity].
    destruct (negb (g =? 0)); rewrite ?Vg; reflexivity.
  - cbn -[set_axes mem_vector lsm6ds3tr_c_angular_rate_raw_get]. destruct (negb (g =? 0)); rewrite ?Vg; reflexivity.
Qed.

(** Every tick after a successful start sends accelerations and rates read
    through the configured axes: [OnStart] succeeds exactly when each of the
    three mappings is a signed axis number, and then a tick on a sensor with new
    data reads inside its arrays and sends, for axis [i], the raw value of the
    mapped axis with the mapped sign, scaled for the configured full scale; a
    sensor without new data leaves those axes as they were. *)
Theorem imu_axes_follow_remap AxisRemap s junk c :
  length AxisRemap = 3%nat -> length (axis_remap_idx_ s) = 3%nat ->
  length (axis_remap_sign_ s) = 3%nat -> length (axes s) = 9%nat ->
  imu_found s = true -> idle c -> (forall a, is_u8 (mem c a)) ->
  (imu_OnStart AxisRemap s).1 = forallb valid_remap AxisRemap /\
  (forallb valid_remap AxisRemap = true -> exists s'',
     imu_tick chip_read chip_write junk (imu_OnStart AxisRemap s).2 c =
       (Some (s'', Some (axes s'')), c) /\
     forall i v, AxisRemap !! i = Some v ->
       let status : lsm6ds3tr_c_status_reg_t := mem c LSM6DS3TR_C_STATUS_REG in
       axes s'' !! i = (if negb (status.["xlda"] =? 0) then
         accel_axis (Z.sgn v) <$> (mem_vector c LSM6DS3TR_C_OUTX_L_XL !! Z.to_nat (Z.abs v - 1))
         else axes s !! i) /\
       axes s'' !! (3 + i)%nat = (if negb (status.["gda"] =? 0) then
         gyro_axis (Z.sgn v) <$> (mem_vector c LSM6DS3TR_C_OUTX_L_G !! Z.to_nat (Z.abs v - 1))
         else axes s !! (3 + i)%nat)).
Proof.
  intros H3 Hx Hs Ha Hf Hi Hb. split; [apply OnStart_accepts; assumption|]. intros Hv.
  destruct (remap_axes_valid 0 AxisRemap s Hv) as (s' & Hr & F1 & F2 & F3 & _ & Hin); [lia..|].
  unfold imu_OnStart. rewrite take_ge, Hr by lia. cbn [snd].
  rewrite tick_halves by (congruence || assumption). cbv zeta.
  set (status := mem c LSM6DS3TR_C_STATUS_REG : lsm6ds3tr_c_status_reg_t).
  pose (fa := fun s => s <| data_raw_acceleration := mem_vector c LSM6DS3TR_C_OUTX_L_XL |>).
  pose (fg := fun s => s <| data_raw_angular_rate := mem_vector c LSM6DS3TR_C_OUTX_L_G |>).
  destruct (half_tick AxisRemap s' (negb (status.["xlda"] =? 0)) fa
    (mem_vector c LSM6DS3TR_C_OUTX_L_XL) 0 accel_axis H3 Hv Hin eq_refl Hin eq_refl)
    as (s1 & E1 & R1 & L1 & O1 & I1); [rewrite F2, Ha; lia|].
  destruct (half_tick AxisRemap s1 (negb (status.["gda"] =? 0)) fg
    (mem_vector c LSM6DS3TR_C_OUTX_L_G) 3 gyro_axis H3 Hv R1 eq_refl R1 eq_refl)
    as (s2 & E2 & R2 & L2 & O2 & I2); [rewrite L1, F2, Ha; lia|].
  exists s2. split.
  { refine (f_equal (fun o => (o, c)) _). eapply bind_some; [exact E1|].
    eapply bind_some; [exact E2|reflexivity]. }
  intros i v Hi'. split.
  - rewrite O2, <- F2 by (left; apply lookup_lt_Some in Hi'; lia). apply (I1 i v Hi').
  - rewrite (I2 i v Hi'), O1, F2 by lia. reflexivity.
Qed.

Module ImuDemo.
Definition sensor_reset : Z -> Z := fun a =>
  if a =? LSM6DS3TR_C_WHO_AM_I then 0x6a else if a =? LSM6DS3TR_C_STATUS_REG then 3
  else if a =? LSM6DS3TR_C_OUTX_L_XL + 1 then 0x40 else 0.
Definition sensor : chip := Chip sensor_reset 0 4 sensor_reset.
Definition junk0 : string -> nat -> Z := fun _ _ => 0xA5.

Lemma OnCreate_witness : idle sensor /\ exists c', imu_OnCreate chip_read chip_write junk0 5 imu_init sensor =
  (Some (imu_init <| imu_found := true |>), c') /\ configured c'.
Proof.
  split; [reflexivity|].
  destruct (imu_OnCreate_configures junk0 5 imu_init sensor) as (c' & E & _ & C & _);
    [reflexivity|cbn; lia|reflexivity|]. exists c'. split; [exact E|exact C].
Defined.
Lemma remap_witness : (imu_OnStart [2; -1; 3] (imu_init <| imu_found := true |>)).1 = true.
Proof.
  destruct (imu_axes_follow_remap [2; -1; 3] (imu_init <| imu_found := true |>) junk0 sensor)
    as [E _]; [reflexivity..| |exact E].
  intros a. cbn. unfold sensor_reset. repeat (destruct (_ =? _); [unfold is_u8; lia|]). unfold is_u8; lia.
Defined.
(** Half of full scale on the sensor's first axis is -1 g on the second axis sent. *)
Example tick_sends : option_map (fun '(_, sent) => option_map (fun l => (l !! 0%nat, l !! 1%nat)) sent)
    (imu_tick chip_read chip_write junk0
       (imu_OnStart [2; -1; 3] (imu_init <| imu_found := true |>)).2 sensor).1 =
  Some (Some (Some (accel_axis 1 0), Some (accel_axis (-1) 16384))).
Proof. vm_compute. reflexivity. Qed.
(** Before a start, the default mapping names a fourth axis: the third lookup is
    outside the array. *)
Example default_mapping_overruns :
  (imu_tick chip_read chip_write junk0 (imu_init <| imu_found := true |>) sensor).1 = None.
Proof. vm_compute. reflexivity. Qed.
End ImuDemo.
